(* ===== verification/_CoqProject ===== *)
-Q . S2P
Prelude.v
Defs.v
Ratelim.v
Queue.v
Pq.v
Map.v
Helper.v
Buf.v
HuffmanData.v
Huffman.v
HdInt.v
HdToken.v
HdTable.v
HdDeflate.v
HdInflate.v
HdRoundtrip.v
HdSplit.v
Frame.v
FrameHeaders.v
FrameNv.v
Sf.v
SfValues.v
SfGrammar.v
SfDict.v
Http.v
HttpMessage.v
Stream.v
StreamLinks.v
StreamQueue.v
StreamTree.v
StreamInsert.v
StreamRemove.v
StreamDistribute.v
StreamCut.v
StreamItems.v
StreamValidate.v
StreamSpec.v
Outbound.v
Session.v
StreamFrame.v
SessionInv.v
SessionTree.v
SessionBooks.v
SessionForest.v
SessionOpen.v
SessionClose.v
SessionItems.v
SessionAdjust.v
SessionPrio.v
SessionNew.v
SessionReach.v
SessionSpec.v
SessionTouch.v
SessionSend.v
SessionQueues.v
SessionAdd.v
SessionSendSpec.v
SessionCalm.v
SessionFlow.v
SessionFlowSpec.v
SessionCredit.v
SessionDrift.v
SessionAge.v
SessionRecv.v
SessionSettings.v
SessionEntries.v
SessionHpack.v
SessionSteady.v
SessionHandle.v
SessionSettingsSpec.v
SessionInbound.v
SessionAgreed.v
