(* ===== verification/Prelude.v ===== *)
(** * Verification of libnghttp2's core

    This library verifies the core of the HTTP/2 library nghttp2 1.61 as it is
    vendored in the repository (legacy-os/ports/libnghttp2, all file names
    below are relative to it).  The C functions are translated one by one
    into Rocq functions and the properties the rest of the library relies on
    are proved about them.

    ** The program

    nghttp2 turns HTTP/2 frames into events and back.  A session
    (nghttp2_session.c, configured by the options of nghttp2_option.c) keeps
    its streams in a hash map (nghttp2_map.c),
    orders what it sends with priority queues and FIFO queues (nghttp2_pq.c,
    nghttp2_outbound_item.c), limits the rate of resets with a token bucket
    (nghttp2_ratelim.c), serialises frames (nghttp2_frame.c) into chains of
    fixed-size chunks (nghttp2_buf.c), compresses header lists with HPACK
    (nghttp2_hd.c) and its Huffman code (nghttp2_hd_huffman.c and its data),
    checks that the fields of a message obey HTTP (nghttp2_http.c, which reads
    the priority field with the structured field parser sfparse.c), and uses a
    few helpers for byte order, flow-control windows and character classes
    (nghttp2_helper.c).

    ** Files and what they model

    - [Prelude]: this header; machine integers ([u8] ... [u64], [is_u32] ...),
      octet strings, memory as lists of octets, the [try] notation for
      functions with early returns, tactics and hint databases, lemmas on
      bits, octets and memory.
    - [Defs]: the constants of nghttp2.h.
    - [Ratelim]: nghttp2_ratelim.c.  State [nghttp2_ratelim].
    - [Queue]: nghttp2_queue.c.  A heap of cells and two pointers.
    - [Pq]: nghttp2_pq.c.  The array of the heap with the index each entry
      stores about itself.
    - [Map]: nghttp2_map.c.  The bucket array of the Robin Hood hash table.
    - [Helper]: nghttp2_helper.c.
    - [Buf]: nghttp2_buf.c.  A chunk is a block of memory with offsets; a chain
      is a list of chunks with the position of the current one.
    - [HuffmanData], [Huffman]: nghttp2_hd_huffman_data.c and
      nghttp2_hd_huffman.c.  The tables are the ones of the source.
    - [HdInt], [HdToken], [HdTable], [HdDeflate], [HdInflate]: nghttp2_hd.c, in
      the order prefixed integers, static table and tokens, dynamic table,
      compressor, decompressor.  Entries of the dynamic table live in a heap
      of their own so that the ring buffer and the hash chains hold addresses.
    - [HdRoundtrip]: the compressor and the decompressor together.
    - [HdSplit]: the decompressor on input that arrives in pieces.
    - [Frame], [FrameHeaders], [FrameNv]: nghttp2_frame.c and
      nghttp2_priority_spec.c, in the order frame headers and control frames,
      HEADERS and PUSH_PROMISE with their CONTINUATION frames and padding,
      arrays of fields.  A packer writes into a buffer chain of [Buf], the
      header blocks come from the compressor of [HdDeflate].
    - [Sf], [SfValues]: sfparse.c, the incremental parser and the conversion
      of strings and byte sequences.  A parser is its input, a position and
      the state word; an operation is a function on it that returns a value
      or an error code (the monad [sf_m]).
    - [SfGrammar], [SfDict]: the grammar of RFC 8941, with the dates of RFC
      9651, as relations between values and texts, and the parser against it.
    - [Http]: nghttp2_http.c and nghttp2_extpri.c on the members of a stream
      that they use.
    - [HttpMessage]: the rules of HTTP for requests, bodies and priorities,
      and the functions of [Http] against them.
    - [Stream]: nghttp2_stream.c.  A store of streams by address, the links of
      the dependency tree inside the streams, the queue of a stream as a
      [Pq] over the entries embedded in all streams, the operations in a state
      monad over the store ([st_m]).
    - [StreamLinks]: chains of pointers, and the tree a store represents
      ([tree_ok]).  [StreamQueue]: the queues of all streams
      and the effect of insertions and removals on them.  [StreamTree],
      [StreamInsert], [StreamRemove], [StreamDistribute], [StreamCut]: adding,
      inserting and removing streams and subtrees; [StreamTree] has the
      invariant ([stream_inv]).  [StreamItems]: items,
      rescheduling and weights.  [StreamValidate]: the self-checks of debugging
      builds and the search for the next item.
    - [StreamSpec]: the contract of the streams; the dependency tree of RFC
      7540 as a step relation ([rfc_step]), sequences of operations
      ([reachable]), the virtual clock.

    - [Outbound]: nghttp2_outbound_item.c, the items a session sends and the
      queues they are linked into.
    - [Session]: nghttp2_session.c, the state of a session in groups (the
      streams, the table by id, settings, identifiers, counters, lists, window,
      queues, limits) and the operations on its streams: the table, opening,
      closing, destroying, reprioritizing, the lists of closed and of idle
      streams with their limits, items, and the scheduler of RFC 9218.  They
      run in a state monad over the session ([se_m]), in which the operations
      of [Stream] run on the streams ([on_streams]).
    - [SessionNew]: nghttp2_option.c and the constructors of sessions.
    - [SessionInv], [SessionBooks]: what a session notes about its streams
      apart from the tree, as an invariant ([book_ok]) on the few members it
      depends on; each list and counter against the streams.  A stream that an
      operation has in its hands is in limbo, the set [X] of the invariant.
      [SessionTree], [StreamFrame]: operations on the tree leave the rest of a
      stream alone.  [SessionForest]: every stream is below the root but for
      those in the hands of an operation (the set [Y]); [sess_ok] is the
      invariant of a session.
    - [SessionOpen], [SessionClose], [SessionItems], [SessionAdjust],
      [SessionPrio]: the contracts of the operations.
    - [SessionReach], [SessionSpec]: sequences of operations from a new session
      ([reached]), the invariant in the terms of the code ([in_order]), and the
      theorems.
    - [SessionTouch]: changes to a stream, or beside the streams, that the
      invariant of a session does not notice.
    - [SessionSend]: nghttp2_session.c, what a session queues by itself
      (RST_STREAM, PING, GOAWAY, WINDOW_UPDATE), how it terminates, which frame
      is next, which frames may be sent.  [SessionQueues]: the three queues as
      lists of frames ([ob_ok]).  [SessionAdd], [SessionSendSpec]: the contracts.
    - [SessionFlow]: nghttp2_session.c and nghttp2_submit.c, the windows of
      the connection and of its streams.  [SessionCalm]: what operations that
      only queue frames leave alone ([calm]), and the invariant they keep
      ([sound]).  [SessionFlowSpec], [SessionCredit]: ranges of the windows
      ([flows_ok]), the balance of credit, the theorems.
    - [SessionRecv]: nghttp2_session.c, what a session does with a frame that
      has been read and unpacked, one definition per function of the code; the
      callbacks of the application are operations on the session.
    - [SessionSettings]: nghttp2_session.c, the settings that are submitted,
      announced and acknowledged.  The HPACK contexts of the session, whose
      tables they bound, are handed through as [session_hd]; the order in which
      nghttp2_map_each visits the streams is a parameter.  [SessionEntries]:
      the entries of a SETTINGS frame as they are read one by one.
      [SessionHpack]: the effect of sizes of the header table on the two
      contexts ([deflater_took], [inflater_took]).
    - [SessionDrift], [SessionAge]: what operations on streams leave alone in
      the rest of a session ([drift]), how the set of streams grows ([grows]),
      and what becomes of the id and the state of a stream ([tracks]).
    - [SessionSteady]: the invariant of a session that receives frames
      ([steady]): that of [SessionForest], the queues, the windows, and the ids
      that the peer may have used.  [SessionHandle]: every handler keeps it.
      [SessionSettingsSpec]: so do the settings.  [SessionInbound]: sequences
      of frames, and the theorems.  [SessionAgreed]: what the two ends agree on.

    ** Conventions

    Integers are [Z] with the wrap-around of their C type written out where
    the code can overflow; octet strings are lists of [Z].  A function that
    updates a structure takes it and returns it.  [option] is for runs C gives
    no meaning to, or that stop an assertion: a read or write outside an
    array, a failed [assert], signed overflow; so every theorem that a
    function returns [Some] is a proof that none of these happens.  Functions
    returning an [int] or [nghttp2_ssize] return that number, errors
    included.  The allocator ([nghttp2_mem]) is a parameter [malloc], called
    with the number of the call and the size; the only thing assumed of it is
    that a block it returns has the size asked for (class [Allocator] of
    [Buf]).  Theorems about success assume that it does not refuse.

    Loops are fixpoints on the data or on fuel.  The fuel is computed from the
    arguments and is proved sufficient: the theorems say that the functions
    return.  The decompressor takes twice the length of its input plus two
    turns, because of two consecutive turns one reads an octet
    ([HdInflate.measure]).  The structured field functions that call each
    other take the length of the input plus eight (plus four for
    [sf_parser_dict]): each call reads an octet or ends the loop it is in.
    Walks along parents or siblings take the number of streams plus two, since
    in a tree no stream comes twice.  Sessions count in 64 bits and weigh in 32:
    [steady n m] says that [n] more frames can be queued before a counter of
    frames wraps around, and [m] more streams be opened before the weights of
    all leave [int32_t]; a frame that arrives takes at most two streams and,
    when each callback queues [c] frames, [share c] of the former, because
    GOAWAY may close every stream in memory; each entry of SETTINGS, and
    an acknowledgement, takes [entry_cost c], because the windows of all
    streams may move.  The other bounds are in the file of the
    loop.

    ** What is proved

    - Round trips: HPACK end to end for any sequence of header blocks and
      settings changes ([HdRoundtrip.hpack_connection_roundtrip]), Huffman
      coding, HPACK integers (also split across calls), buffer chains, byte
      order, every control frame ([Frame.frame_roundtrip]), strings and byte
      sequences of structured fields.
    - Safety on arbitrary input: the decompressor ([HdInflate.hd_inflate_safe]),
      the integer decoder ([HdInt.decode_length_exact]), the ORIGIN payload.
    - Equivalence with a specification: the request checks accept exactly the
      requests HTTP/2 allows ([HttpMessage.http_request_accepted]), the
      dictionary parser reads exactly the grammar of RFC 8941 with the dates
      of RFC 9651 ([SfDict.sf_dict_reads]), splitting the input of the decompressor
      changes nothing ([HdSplit.hd_inflate_split]).
    - Termination: callers of the structured field parser
      ([SfDict.sf_calls_terminate]); every function, since [Some] is proved.
    - Refinements: the hash map is a finite map, the queue a FIFO list, the
      dynamic table the table of RFC 7541, the links between streams the
      dependency tree of RFC 7540 ([StreamSpec.dependency_tree_refines]).
    - Scheduling: the queues of the streams follow the items in every
      operation ([StreamSpec.item_operations_keep_invariant]), so that the next
      item is found exactly when there is one
      ([StreamSpec.next_outbound_item_found]).
    - Sessions: in every session that sequences of operations on streams reach
      from a new one, interleaved with anything the rest of the library does
      to the rest of the state, every operation runs to its end
      ([SessionSpec.session_operations_safe]) and table, tree, lists and
      counters agree with the streams
      ([SessionSpec.reached_sessions_in_order]); a new priority has the effect
      of RFC 7540, 5.3.3 ([SessionSpec.reprioritize_refines_rfc7540]).  These
      theorems are for sessions that use the priorities of RFC 7540 (no
      SETTINGS_NO_RFC7540_PRIORITIES = 1 was submitted), and for a bounded
      number of streams (the weights of all fit an [int32_t]).
    - Frames that arrive: whatever a peer sends, in whatever order, the handlers
      of a session return with a documented code and leave it in order
      ([SessionInbound.received_frames_safe]); RST_STREAM ends exactly its
      stream, GOAWAY exactly the streams that were not processed, WINDOW_UPDATE
      wakes what waits for it.  This is for callbacks that may queue frames but
      neither open nor close streams ([polite]), and as long as none of the
      settings that wait to be acknowledged makes the initial window smaller
      ([windows_grow]): a smaller one can take the windows for receiving below
      zero, and then data that arrives may overflow them
      ([SessionCredit.negative_window_overflows]).
    - Settings: the entries of a frame are read whole into their block
      ([SessionEntries.settings_read_whole]), the peer's are in force once
      their frame has been handled, in the windows for sending and in the
      compressor too ([SessionAgreed.settings_applied]), our own in the order in
      which they were submitted, in the windows for receiving and in the
      decompressor too ([SessionAgreed.acknowledgement_applies_oldest]).
    - Frames that leave: queueing appends ([SessionSendSpec.add_frame_appends]),
      the queues are served in the documented order
      ([SessionSendSpec.frames_leave_in_order]), PING floods are bounded.
    - Flow control: data, consumption and the calls of the application conserve
      credit ([SessionCredit.credit_conserved]) and let no window leave its
      range, a peer is not starved and cannot overrun.
    - Invariants: heap order and back pointers of the priority queue.
    - Functional behaviour: what the compressor and the Huffman encoder write,
      what a table search returns, what a write to a chain appends.
    - Bounds: the rate limiter, the window arithmetic, the size bound of the
      compressor.
    - Secrecy: fields marked as sensitive never enter the dynamic table.

    ** Not modelled

    The release of memory and the reference counts of nghttp2_rcbuf.c (strings
    in the tables are immutable values here).  Of sessions: extension
    frames, the two state machines between the octets of a connection and the
    handlers (nghttp2_session_mem_send2, nghttp2_session_mem_recv2), and the
    submission functions other than those for windows (nghttp2_submit.c);
    callbacks are parameters (nghttp2_callbacks.c only stores them). *)

From stdpp Require Export base option list list_numbers numbers gmap fin_maps.
From Stdlib Require Export ZArith Lia Bool.

#[global] Open Scope Z_scope.

(** ** Notations of the development *)

Declare Scope c_scope.
Delimit Scope c_scope with c.
#[global] Open Scope c_scope.

(** C's bitwise operators on the unsigned values of the model. *)
Notation "a .& b" := (Z.land a b) (at level 40, left associativity) : c_scope.
Notation "a .| b" := (Z.lor a b) (at level 45, left associativity) : c_scope.
Notation "a .^ b" := (Z.lxor a b) (at level 43, left associativity) : c_scope.

(** Octet strings: [uint8_t] arrays, one [Z] per octet. *)
Abbreviation bytes := (list Z).

(** ** Machine integers *)

Definition u8 (z : Z) : Z := z mod 2 ^ 8.
Definition u16 (z : Z) : Z := z mod 2 ^ 16.
Definition u32 (z : Z) : Z := z mod 2 ^ 32.
Definition u64 (z : Z) : Z := z mod 2 ^ 64.

Definition UINT32_MAX : Z := 2 ^ 32 - 1.
Definition UINT64_MAX : Z := 2 ^ 64 - 1.
Definition INT32_MAX : Z := 2 ^ 31 - 1.
Definition INT32_MIN : Z := - 2 ^ 31.

(** [is_uN z]: [z] is a value of the C type [uintN_t]. *)
Definition is_u8 (z : Z) : Prop := 0 <= z < 2 ^ 8.
Definition is_u16 (z : Z) : Prop := 0 <= z < 2 ^ 16.
Definition is_u32 (z : Z) : Prop := 0 <= z < 2 ^ 32.
Definition is_u64 (z : Z) : Prop := 0 <= z < 2 ^ 64.
Definition is_i32 (z : Z) : Prop := - 2 ^ 31 <= z < 2 ^ 31.

Definition is_bytes (bs : bytes) : Prop := Forall is_u8 bs.

(** Truth value of a C condition as the [int] it has. *)
Definition c_bool (b : bool) : Z := if b then 1 else 0.

#[global] Instance is_u8_dec z : Decision (is_u8 z).
Proof. unfold is_u8. apply _. Defined.
#[global] Instance is_u16_dec z : Decision (is_u16 z).
Proof. unfold is_u16. apply _. Defined.
#[global] Instance is_u32_dec z : Decision (is_u32 z).
Proof. unfold is_u32. apply _. Defined.
#[global] Instance is_u64_dec z : Decision (is_u64 z).
Proof. unfold is_u64. apply _. Defined.
#[global] Instance is_i32_dec z : Decision (is_i32 z).
Proof. unfold is_i32. apply _. Defined.
#[global] Instance is_bytes_dec bs : Decision (is_bytes bs).
Proof. unfold is_bytes. apply _. Defined.

(** ** Memory: an array of octets addressed by offset *)

(** [m[i]]; the code never reads outside its arrays, the value [0] stands for
    such a read and no theorem depends on it. *)
Definition mem_get (m : bytes) (i : nat) : Z := nth i m 0.

(** [memcpy(m + off, bs, len)]. *)
Definition mem_write (m : bytes) (off : nat) (bs : bytes) : bytes :=
  take off m ++ bs ++ drop (off + length bs) m.

(** [len] octets from [off]. *)
Definition mem_slice (m : bytes) (off len : nat) : bytes := take len (drop off m).

(** [zlen l]: the [size_t] length of an array. *)
Abbreviation zlen l := (Z.of_nat (length l)).

(** ** Tactics *)

Ltac unfold_width :=
  unfold is_u8, is_u16, is_u32, is_u64, is_i32, u8, u16, u32, u64,
    UINT32_MAX, UINT64_MAX, INT32_MAX, INT32_MIN, c_bool in *.

(** [cint_lia]: [lia] after exposing the integer widths as numerals. *)
Ltac cint_lia :=
  unfold_width;
  change (2 ^ 7) with 128 in *;
  change (2 ^ 8) with 256 in *;
  change (2 ^ 16) with 65536 in *;
  change (2 ^ 24) with 16777216 in *;
  change (2 ^ 31) with 2147483648 in *;
  change (2 ^ 32) with 4294967296 in *;
  change (2 ^ 64) with 18446744073709551616 in *;
  try lia.

(** Case analysis on the boolean integer test of a condition. *)
Ltac bcase :=
  match goal with
  | |- context [Z.ltb ?a ?b] => destruct (Z.ltb_spec a b)
  | |- context [Z.leb ?a ?b] => destruct (Z.leb_spec a b)
  | |- context [Z.eqb ?a ?b] => destruct (Z.eqb_spec a b)
  | |- context [Z.gtb ?a ?b] => rewrite (Z.gtb_ltb a b)
  | |- context [Z.geb ?a ?b] => rewrite (Z.geb_leb a b)
  | |- context [Nat.ltb ?a ?b] => destruct (Nat.ltb_spec a b)
  | |- context [Nat.leb ?a ?b] => destruct (Nat.leb_spec a b)
  | |- context [Nat.eqb ?a ?b] => destruct (Nat.eqb_spec a b)
  end.

Ltac bcase_in H :=
  match type of H with
  | context [Z.ltb ?a ?b] => destruct (Z.ltb_spec a b)
  | context [Z.leb ?a ?b] => destruct (Z.leb_spec a b)
  | context [Z.eqb ?a ?b] => destruct (Z.eqb_spec a b)
  | context [Z.gtb ?a ?b] => rewrite (Z.gtb_ltb a b) in H
  | context [Z.geb ?a ?b] => rewrite (Z.geb_leb a b) in H
  | context [Nat.ltb ?a ?b] => destruct (Nat.ltb_spec a b)
  | context [Nat.leb ?a ?b] => destruct (Nat.leb_spec a b)
  | context [Nat.eqb ?a ?b] => destruct (Nat.eqb_spec a b)
  end.

(** ** Effects: an [int]-returning C function that updates a state

    [None] is a run without a defined result; a return value other than [0] is
    an error and ends the caller ([if (rv != 0) { return rv; }]). *)
Definition try_bind {S T} (r : option (S * Z)) (k : S -> option (T * Z)) (err : S -> T) : option (T * Z) :=
  '(s, rv) ← r; if rv =? 0 then k s else Some (err s, rv).

Notation "'try' s ← r ;; k" := (try_bind r (fun s => k) (fun s => s))
  (at level 100, s name, r at level 99, k at level 200, right associativity) : c_scope.

(** ** Hint databases *)

Create HintDb cint.
Create Rewrite HintDb cint.

(** ** Lemmas on machine integers *)

Lemma u8_range z : is_u8 (u8 z).
Proof. unfold is_u8, u8. apply Z.mod_pos_bound. lia. Qed.

Lemma u16_range z : is_u16 (u16 z).
Proof. unfold is_u16, u16. apply Z.mod_pos_bound. lia. Qed.

Lemma u32_range z : is_u32 (u32 z).
Proof. unfold is_u32, u32. apply Z.mod_pos_bound. lia. Qed.

Lemma u64_range z : is_u64 (u64 z).
Proof. unfold is_u64, u64. apply Z.mod_pos_bound. lia. Qed.

Lemma u8_id z : is_u8 z -> u8 z = z.
Proof. intros. by apply Z.mod_small. Qed.

Lemma u16_id z : is_u16 z -> u16 z = z.
Proof. intros. by apply Z.mod_small. Qed.

Lemma u32_id z : is_u32 z -> u32 z = z.
Proof. intros. by apply Z.mod_small. Qed.

Lemma u64_id z : is_u64 z -> u64 z = z.
Proof. intros. by apply Z.mod_small. Qed.

#[export] Hint Resolve u8_range u16_range u32_range u64_range : cint.
#[export] Hint Rewrite u8_id u16_id u32_id u64_id using (unfold_width; lia) : cint.

(** Bits of a non-negative number below its width. *)
Lemma testbit_out_of_range z n i :
  0 <= z < 2 ^ n -> n <= i -> Z.testbit z i = false.
Proof.
  intros Hz Hi. destruct (decide (z = 0)) as [->|]; [apply Z.bits_0|].
  apply Z.bits_above_log2; [lia|].
  enough (Z.log2 z < n) by lia. apply Z.log2_lt_pow2; lia.
Qed.

(** A disjunction of numbers with disjoint bits is their sum. *)
Lemma lor_disjoint_add a b n :
  0 <= n -> 0 <= b < 2 ^ n -> (2 ^ n * a) .| b = 2 ^ n * a + b.
Proof.
  intros Hn Hb. rewrite <- Z.add_lor_land.
  enough ((2 ^ n * a) .& b = 0) as -> by lia.
  apply Z.bits_inj'. intros i Hi.
  rewrite Z.land_spec, Z.bits_0, (Z.mul_comm (2 ^ n)).
  destruct (decide (i < n)).
  - rewrite Z.mul_pow2_bits_low by lia. done.
  - rewrite (testbit_out_of_range b n) by lia. apply andb_false_r.
Qed.

Lemma land_ones_mod z n : 0 <= n -> z .& (2 ^ n - 1) = z mod 2 ^ n.
Proof. intros. rewrite <- Z.land_ones by done. by rewrite Z.ones_equiv, Z.sub_1_r. Qed.

(** ** Lemmas on byte strings *)

Lemma is_bytes_app a b : is_bytes (a ++ b) <-> is_bytes a /\ is_bytes b.
Proof. apply Forall_app. Qed.

Lemma is_bytes_nil : is_bytes [].
Proof. constructor. Qed.

Lemma is_bytes_cons b bs : is_u8 b -> is_bytes bs -> is_bytes (b :: bs).
Proof. by constructor. Qed.

Lemma is_bytes_take n bs : is_bytes bs -> is_bytes (take n bs).
Proof. apply Forall_take. Qed.

Lemma is_bytes_drop n bs : is_bytes bs -> is_bytes (drop n bs).
Proof. apply Forall_drop. Qed.

#[export] Hint Resolve is_bytes_nil is_bytes_cons is_bytes_take is_bytes_drop : cint.

(** ** Lemmas on memory *)

Lemma mem_write_length m off bs :
  (off + length bs <= length m)%nat -> length (mem_write m off bs) = length m.
Proof.
  intros. unfold mem_write.
  rewrite !length_app, length_take, length_drop. lia.
Qed.

Lemma mem_slice_write m off bs :
  (off + length bs <= length m)%nat ->
  mem_slice (mem_write m off bs) off (length bs) = bs.
Proof.
  intros. unfold mem_slice, mem_write.
  rewrite drop_app_length' by (rewrite length_take; lia).
  by rewrite take_app_length.
Qed.

Lemma mem_slice_length m off len :
  (off + len <= length m)%nat -> length (mem_slice m off len) = len.
Proof. intros. unfold mem_slice. rewrite length_take, length_drop. lia. Qed.

Lemma mem_get_lookup m i x : m !! i = Some x -> mem_get m i = x.
Proof. apply nth_lookup_Some. Qed.

Lemma mem_get_slice m off len i :
  (i < len)%nat -> mem_get (mem_slice m off len) i = mem_get m (off + i).
Proof.
  intros. unfold mem_slice, mem_get. rewrite !nth_lookup.
  rewrite lookup_take_lt by done. by rewrite lookup_drop.
Qed.

Lemma is_bytes_get m i : is_bytes m -> is_u8 (mem_get m i).
Proof.
  intros H. unfold mem_get. rewrite nth_lookup.
  destruct (m !! i) eqn:E; simpl; [|by apply (bool_decide_unpack _); vm_compute].
  by eapply Forall_lookup in H.
Qed.

Lemma is_bytes_write m off bs :
  is_bytes m -> is_bytes bs -> is_bytes (mem_write m off bs).
Proof.
  intros. unfold mem_write. rewrite !is_bytes_app.
  split_and!; auto using is_bytes_take, is_bytes_drop.
Qed.

#[export] Hint Resolve is_bytes_get is_bytes_write : cint.

(** A decidable fact about octets, checked on all of them. *)
Lemma all_octets (P : Z -> Prop) (dec : forall c, Decision (P c)) :
  forallb (fun c => bool_decide (P c)) (seqZ 0 256) = true ->
  forall c, is_u8 c -> P c.
Proof.
  intros H c Hc. apply Is_true_true, forallb_True in H.
  rewrite Forall_forall in H. specialize (H c).
  apply (bool_decide_unpack _), H, elem_of_seqZ. unfold is_u8 in Hc. lia.
Qed.

Lemma mem_get_write m off bs i :
  (off + length bs <= length m)%nat -> (i < length bs)%nat ->
  mem_get (mem_write m off bs) (off + i) = mem_get bs i.
Proof.
  intros. rewrite <- (mem_get_slice _ off (length bs)) by done.
  by rewrite mem_slice_write.
Qed.

Lemma mem_write_write m off a b :
  (off + length a + length b <= length m)%nat ->
  mem_write (mem_write m off a) (off + length a) b = mem_write m off (a ++ b).
Proof.
  intros. unfold mem_write.
  rewrite take_app_ge by (rewrite length_take; lia).
  rewrite length_take, Nat.min_l by lia.
  replace (off + length a - off)%nat with (length a) by lia.
  rewrite take_app_length, <- !app_assoc. do 3 f_equal.
  rewrite length_app, (drop_app_ge (take off m)), length_take, Nat.min_l by (rewrite ?length_take; lia).
  rewrite drop_app_ge, drop_drop by lia. f_equal. lia.
Qed.

(** ** Lemmas on effects *)

Lemma try_bind_assoc {A B C} (r : option (A * Z)) (k1 : A -> option (B * Z)) e1
    (k2 : B -> option (C * Z)) e2 :
  try_bind (try_bind r k1 e1) k2 e2 =
  try_bind r (fun a => try_bind (k1 a) k2 e2) (fun a => e2 (e1 a)).
Proof.
  unfold try_bind. destruct r as [[a rv]|]; simpl; [|done].
  destruct (Z.eqb_spec rv 0) as [->|Hne]; [done|]. simpl.
  by rewrite (proj2 (Z.eqb_neq rv 0)).
Qed.

Lemma try_bind_ext {A B} (r : option (A * Z)) (k1 k2 : A -> option (B * Z)) e1 e2 :
  (forall a, k1 a = k2 a) -> (forall a, e1 a = e2 a) -> try_bind r k1 e1 = try_bind r k2 e2.
Proof.
  intros Hk He. unfold try_bind. destruct r as [[a rv]|]; simpl; [|done].
  by rewrite Hk, He.
Qed.

Lemma cons_app {A} (x : A) l : x :: l = [x] ++ l.
Proof. done. Qed.

Lemma mem_write_insert m i b : (i < length m)%nat -> <[i := b]> m = mem_write m i [b].
Proof. intros. unfold mem_write. rewrite insert_take_drop by done. by rewrite Nat.add_1_r. Qed.

Lemma mem_write_0 m bs : mem_write m 0 bs = bs ++ drop (length bs) m.
Proof. done. Qed.

(** Wrapping an operand does not change a wrapped sum. *)
Lemma u32_add_l a b : u32 (u32 a + b) = u32 (a + b).
Proof. unfold u32. by rewrite Z.add_mod_idemp_l. Qed.
