(* ===== verification/Defs.v ===== *)
(** * Public constants of the library (include/nghttp2/nghttp2.h)

    The enumerations and size limits that the components share, one [Z]
    constant per enumerator or macro, with the value the header gives it. *)

From S2P Require Import Prelude.

(** ** [nghttp2_error]: library error codes *)

Definition NGHTTP2_ERR_INVALID_ARGUMENT : Z := (-501).
Definition NGHTTP2_ERR_BUFFER_ERROR : Z := (-502).
Definition NGHTTP2_ERR_UNSUPPORTED_VERSION : Z := (-503).
Definition NGHTTP2_ERR_WOULDBLOCK : Z := (-504).
Definition NGHTTP2_ERR_PROTO : Z := (-505).
Definition NGHTTP2_ERR_INVALID_FRAME : Z := (-506).
Definition NGHTTP2_ERR_EOF : Z := (-507).
Definition NGHTTP2_ERR_DEFERRED : Z := (-508).
Definition NGHTTP2_ERR_STREAM_ID_NOT_AVAILABLE : Z := (-509).
Definition NGHTTP2_ERR_STREAM_CLOSED : Z := (-510).
Definition NGHTTP2_ERR_STREAM_CLOSING : Z := (-511).
Definition NGHTTP2_ERR_STREAM_SHUT_WR : Z := (-512).
Definition NGHTTP2_ERR_INVALID_STREAM_ID : Z := (-513).
Definition NGHTTP2_ERR_INVALID_STREAM_STATE : Z := (-514).
Definition NGHTTP2_ERR_DEFERRED_DATA_EXIST : Z := (-515).
Definition NGHTTP2_ERR_START_STREAM_NOT_ALLOWED : Z := (-516).
Definition NGHTTP2_ERR_GOAWAY_ALREADY_SENT : Z := (-517).
Definition NGHTTP2_ERR_INVALID_HEADER_BLOCK : Z := (-518).
Definition NGHTTP2_ERR_INVALID_STATE : Z := (-519).
Definition NGHTTP2_ERR_TEMPORAL_CALLBACK_FAILURE : Z := (-521).
Definition NGHTTP2_ERR_FRAME_SIZE_ERROR : Z := (-522).
Definition NGHTTP2_ERR_HEADER_COMP : Z := (-523).
Definition NGHTTP2_ERR_FLOW_CONTROL : Z := (-524).
Definition NGHTTP2_ERR_INSUFF_BUFSIZE : Z := (-525).
Definition NGHTTP2_ERR_PAUSE : Z := (-526).
Definition NGHTTP2_ERR_TOO_MANY_INFLIGHT_SETTINGS : Z := (-527).
Definition NGHTTP2_ERR_PUSH_DISABLED : Z := (-528).
Definition NGHTTP2_ERR_DATA_EXIST : Z := (-529).
Definition NGHTTP2_ERR_SESSION_CLOSING : Z := (-530).
Definition NGHTTP2_ERR_HTTP_HEADER : Z := (-531).
Definition NGHTTP2_ERR_HTTP_MESSAGING : Z := (-532).
Definition NGHTTP2_ERR_REFUSED_STREAM : Z := (-533).
Definition NGHTTP2_ERR_INTERNAL : Z := (-534).
Definition NGHTTP2_ERR_CANCEL : Z := (-535).
Definition NGHTTP2_ERR_SETTINGS_EXPECTED : Z := (-536).
Definition NGHTTP2_ERR_TOO_MANY_SETTINGS : Z := (-537).
Definition NGHTTP2_ERR_FATAL : Z := (-900).
Definition NGHTTP2_ERR_NOMEM : Z := (-901).
Definition NGHTTP2_ERR_CALLBACK_FAILURE : Z := (-902).
Definition NGHTTP2_ERR_BAD_CLIENT_MAGIC : Z := (-903).
Definition NGHTTP2_ERR_FLOODED : Z := (-904).
Definition NGHTTP2_ERR_TOO_MANY_CONTINUATIONS : Z := (-905).

(** ** [nghttp2_nv_flag] *)

Definition NGHTTP2_NV_FLAG_NONE : Z := 0.
Definition NGHTTP2_NV_FLAG_NO_INDEX : Z := 1.
Definition NGHTTP2_NV_FLAG_NO_COPY_NAME : Z := 2.
Definition NGHTTP2_NV_FLAG_NO_COPY_VALUE : Z := 4.

(** ** [nghttp2_frame_type] *)

Definition NGHTTP2_DATA : Z := 0.
Definition NGHTTP2_HEADERS : Z := 1.
Definition NGHTTP2_PRIORITY : Z := 2.
Definition NGHTTP2_RST_STREAM : Z := 3.
Definition NGHTTP2_SETTINGS : Z := 4.
Definition NGHTTP2_PUSH_PROMISE : Z := 5.
Definition NGHTTP2_PING : Z := 6.
Definition NGHTTP2_GOAWAY : Z := 7.
Definition NGHTTP2_WINDOW_UPDATE : Z := 8.
Definition NGHTTP2_CONTINUATION : Z := 9.
Definition NGHTTP2_ALTSVC : Z := 10.
Definition NGHTTP2_ORIGIN : Z := 12.
Definition NGHTTP2_PRIORITY_UPDATE : Z := 16.

(** ** [nghttp2_flag] *)

Definition NGHTTP2_FLAG_NONE : Z := 0.
Definition NGHTTP2_FLAG_END_STREAM : Z := 1.
Definition NGHTTP2_FLAG_END_HEADERS : Z := 4.
Definition NGHTTP2_FLAG_ACK : Z := 1.
Definition NGHTTP2_FLAG_PADDED : Z := 8.
Definition NGHTTP2_FLAG_PRIORITY : Z := 32.

(** ** [nghttp2_settings_id] *)

Definition NGHTTP2_SETTINGS_HEADER_TABLE_SIZE : Z := 1.
Definition NGHTTP2_SETTINGS_ENABLE_PUSH : Z := 2.
Definition NGHTTP2_SETTINGS_MAX_CONCURRENT_STREAMS : Z := 3.
Definition NGHTTP2_SETTINGS_INITIAL_WINDOW_SIZE : Z := 4.
Definition NGHTTP2_SETTINGS_MAX_FRAME_SIZE : Z := 5.
Definition NGHTTP2_SETTINGS_MAX_HEADER_LIST_SIZE : Z := 6.
Definition NGHTTP2_SETTINGS_ENABLE_CONNECT_PROTOCOL : Z := 8.
Definition NGHTTP2_SETTINGS_NO_RFC7540_PRIORITIES : Z := 9.

(** ** [nghttp2_error_code]: codes sent on the wire *)

Definition NGHTTP2_NO_ERROR : Z := 0.
Definition NGHTTP2_PROTOCOL_ERROR : Z := 1.
Definition NGHTTP2_INTERNAL_ERROR : Z := 2.
Definition NGHTTP2_FLOW_CONTROL_ERROR : Z := 3.
Definition NGHTTP2_SETTINGS_TIMEOUT : Z := 4.
Definition NGHTTP2_STREAM_CLOSED : Z := 5.
Definition NGHTTP2_FRAME_SIZE_ERROR : Z := 6.
Definition NGHTTP2_REFUSED_STREAM : Z := 7.
Definition NGHTTP2_CANCEL : Z := 8.
Definition NGHTTP2_COMPRESSION_ERROR : Z := 9.
Definition NGHTTP2_CONNECT_ERROR : Z := 10.
Definition NGHTTP2_ENHANCE_YOUR_CALM : Z := 11.
Definition NGHTTP2_INADEQUATE_SECURITY : Z := 12.
Definition NGHTTP2_HTTP_1_1_REQUIRED : Z := 13.

(** ** [nghttp2_data_flag] *)

Definition NGHTTP2_DATA_FLAG_NONE : Z := 0.
Definition NGHTTP2_DATA_FLAG_EOF : Z := 1.
Definition NGHTTP2_DATA_FLAG_NO_END_STREAM : Z := 2.
Definition NGHTTP2_DATA_FLAG_NO_COPY : Z := 4.

(** ** [nghttp2_headers_category] *)

Definition NGHTTP2_HCAT_REQUEST : Z := 0.
Definition NGHTTP2_HCAT_RESPONSE : Z := 1.
Definition NGHTTP2_HCAT_PUSH_RESPONSE : Z := 2.
Definition NGHTTP2_HCAT_HEADERS : Z := 3.

(** ** Limits *)

Definition NGHTTP2_DEFAULT_WEIGHT : Z := 16.
Definition NGHTTP2_MAX_WEIGHT : Z := 256.
Definition NGHTTP2_MIN_WEIGHT : Z := 1.
Definition NGHTTP2_MAX_WINDOW_SIZE : Z := 2 ^ 31 - 1.
Definition NGHTTP2_INITIAL_WINDOW_SIZE : Z := 2 ^ 16 - 1.
Definition NGHTTP2_INITIAL_CONNECTION_WINDOW_SIZE : Z := 2 ^ 16 - 1.
Definition NGHTTP2_DEFAULT_HEADER_TABLE_SIZE : Z := 2 ^ 12.
Definition NGHTTP2_DEFAULT_MAX_SETTINGS : Z := 32.
Definition NGHTTP2_EXTPRI_DEFAULT_URGENCY : Z := 3.
Definition NGHTTP2_EXTPRI_URGENCY_HIGH : Z := 0.
Definition NGHTTP2_EXTPRI_URGENCY_LOW : Z := 7.
Definition NGHTTP2_EXTPRI_URGENCY_LEVELS : Z := NGHTTP2_EXTPRI_URGENCY_LOW + 1.
