(* ===== verification/Ratelim.v ===== *)
(** * Token-bucket rate limiter (nghttp2_ratelim.c)

    [nghttp2_session] throttles incoming RST_STREAM frames with a token
    bucket.  The bucket holds [uint64_t] counters, so the refill has to be
    computed without overflow; the specification [refill] is the exact,
    unbounded computation and [nghttp2_ratelim_update_exact] shows that the
    guarded 64-bit code computes it.  [ratelim_admitted_bound] is the contract
    the session relies on: what the bucket admits over a period is at most
    one burst plus the rate times the length of the period. *)

From S2P Require Import Prelude.

Record nghttp2_ratelim := mk_ratelim {
  rl_val : Z;
  rl_burst : Z;
  rl_rate : Z;
  rl_tstamp : Z;
}.

Definition nghttp2_ratelim_init (burst rate : Z) : nghttp2_ratelim :=
  {| rl_val := burst; rl_burst := burst; rl_rate := rate; rl_tstamp := 0 |}.

Definition nghttp2_ratelim_update (rl : nghttp2_ratelim) (ts : Z) : nghttp2_ratelim :=
  if ts =? rl_tstamp rl then rl
  else
    let d := if rl_tstamp rl <? ts then u64 (ts - rl_tstamp rl) else 1 in
    if UINT64_MAX / d <? rl_rate rl then mk_ratelim (rl_burst rl) (rl_burst rl) (rl_rate rl) ts
    else
      let gain := u64 (rl_rate rl * d) in
      if u64 (UINT64_MAX - gain) <? rl_val rl
      then mk_ratelim (rl_burst rl) (rl_burst rl) (rl_rate rl) ts
      else
        let v := u64 (rl_val rl + gain) in
        mk_ratelim (if v <? rl_burst rl then v else rl_burst rl) (rl_burst rl) (rl_rate rl) ts.

Definition nghttp2_ratelim_drain (rl : nghttp2_ratelim) (n : Z) : nghttp2_ratelim * Z :=
  if rl_val rl <? n then (rl, -1)
  else (mk_ratelim (u64 (rl_val rl - n)) (rl_burst rl) (rl_rate rl) (rl_tstamp rl), 0).

(** ** Invariant *)

Record ratelim_wf (rl : nghttp2_ratelim) : Prop := {
  wf_val : 0 <= rl_val rl <= rl_burst rl;
  wf_burst : is_u64 (rl_burst rl);
  wf_rate : is_u64 (rl_rate rl);
  wf_tstamp : is_u64 (rl_tstamp rl);
}.

(** ** Specification: the elapsed time the limiter accounts for, and the
    refill in unbounded arithmetic *)

Definition elapsed (rl : nghttp2_ratelim) (ts : Z) : Z :=
  if ts =? rl_tstamp rl then 0
  else if rl_tstamp rl <? ts then ts - rl_tstamp rl else 1.

Definition refill (rl : nghttp2_ratelim) (ts : Z) : Z :=
  Z.min (rl_burst rl) (rl_val rl + rl_rate rl * elapsed rl ts).

Lemma ratelim_init_wf b r :
  is_u64 b -> is_u64 r -> ratelim_wf (nghttp2_ratelim_init b r).
Proof. split; simpl; cint_lia. Qed.

(** [UINT64_MAX / d < r] is the overflow test of [r * d]. *)
Lemma mul_overflow_test r d m :
  0 < d -> m / d < r <-> m < r * d.
Proof.
  intros Hd. pose proof (Z.mul_div_le m d Hd).
  pose proof (Z.mul_succ_div_gt m d Hd). nia.
Qed.

Lemma ratelim_update_refill rl ts :
  ratelim_wf rl -> is_u64 ts ->
  nghttp2_ratelim_update rl ts =
    mk_ratelim (refill rl ts) (rl_burst rl) (rl_rate rl) ts.
Proof.
  intros [Hv Hb Hr Ht] Hts. unfold nghttp2_ratelim_update, refill, elapsed.
  destruct (Z.eqb_spec ts (rl_tstamp rl)) as [->|Hne].
  { destruct rl; simpl in *. f_equal. lia. }
  set (d := if rl_tstamp rl <? ts then ts - rl_tstamp rl else 1).
  assert (Hd64 : 0 < d < 2 ^ 64) by (subst d; bcase; cint_lia).
  assert (Hdu : (if rl_tstamp rl <? ts then u64 (ts - rl_tstamp rl) else 1) = d).
  { subst d. bcase; [apply u64_id|]; cint_lia. }
  rewrite Hdu. clear Hdu. clearbody d.
  assert (Hru : 0 <= rl_rate rl) by cint_lia.
  destruct (Z.ltb_spec (UINT64_MAX / d) (rl_rate rl)) as [Ho|Ho].
  { apply mul_overflow_test in Ho; [|lia]. f_equal. cint_lia. }
  assert (Hno : rl_rate rl * d <= UINT64_MAX).
  { apply Z.le_ngt. intros C. apply mul_overflow_test in C; lia. }
  assert (0 <= rl_rate rl * d) by nia.
  rewrite (u64_id (rl_rate rl * d)) by cint_lia.
  set (gain := rl_rate rl * d) in *. clearbody gain.
  rewrite (u64_id (UINT64_MAX - gain)) by cint_lia.
  bcase; [f_equal; cint_lia|]. rewrite u64_id by cint_lia.
  bcase; f_equal; cint_lia.
Qed.

Lemma ratelim_update_wf rl ts :
  ratelim_wf rl -> is_u64 ts -> ratelim_wf (nghttp2_ratelim_update rl ts).
Proof.
  intros Hwf Hts. rewrite ratelim_update_refill by done.
  destruct Hwf as [Hv Hb Hr Ht]. split; simpl; try done.
  unfold refill, elapsed. repeat bcase; cint_lia; nia.
Qed.

Lemma ratelim_drain_wf rl n :
  ratelim_wf rl -> is_u64 n -> ratelim_wf (nghttp2_ratelim_drain rl n).1.
Proof.
  intros [Hv Hb Hr Ht] Hn. unfold nghttp2_ratelim_drain.
  bcase; simpl; [by split|]. rewrite u64_id by cint_lia. split; simpl; cint_lia.
Qed.

(** ** Sequences of operations *)

Inductive rl_op :=
  | RlUpdate (ts : Z)
  | RlDrain (n : Z).

(** One operation: the new state and the amount it let through. *)
Definition rl_step (rl : nghttp2_ratelim) (o : rl_op) : nghttp2_ratelim * Z :=
  match o with
  | RlUpdate ts => (nghttp2_ratelim_update rl ts, 0)
  | RlDrain n =>
      let '(rl', rv) := nghttp2_ratelim_drain rl n in
      (rl', if rv =? 0 then n else 0)
  end.

Fixpoint rl_run (rl : nghttp2_ratelim) (ops : list rl_op) : nghttp2_ratelim * Z :=
  match ops with
  | [] => (rl, 0)
  | o :: ops =>
      let '(rl1, a) := rl_step rl o in
      let '(rl2, b) := rl_run rl1 ops in (rl2, a + b)
  end.

(** The operands are [uint64_t] and the clock does not run backwards. *)
Fixpoint monotone_ops (now : Z) (ops : list rl_op) : Prop :=
  match ops with
  | [] => True
  | RlUpdate ts :: ops => now <= ts /\ is_u64 ts /\ monotone_ops ts ops
  | RlDrain n :: ops => is_u64 n /\ monotone_ops now ops
  end.

Lemma rl_run_potential rl ops :
  ratelim_wf rl -> monotone_ops (rl_tstamp rl) ops ->
  let '(rl', admitted) := rl_run rl ops in
  ratelim_wf rl' /\ rl_burst rl' = rl_burst rl /\ rl_rate rl' = rl_rate rl /\
  rl_tstamp rl <= rl_tstamp rl' /\
  admitted + rl_val rl' <=
    rl_val rl + rl_rate rl * (rl_tstamp rl' - rl_tstamp rl).
Proof.
  revert rl. induction ops as [|[ts|n] ops IH]; intros rl Hwf Hops; simpl in *.
  - repeat split; try apply Hwf; lia.
  - destruct Hops as (Hle & Hts & Hops).
    rewrite ratelim_update_refill by done.
    pose proof (ratelim_update_wf rl ts Hwf Hts) as Hwf'.
    rewrite ratelim_update_refill in Hwf' by done.
    specialize (IH _ Hwf' Hops). destruct (rl_run _ ops) as [rl2 b]. simpl in *.
    destruct IH as (?&?&?&?&?). split_and!; try done; [lia|].
    destruct Hwf as [Hv Hb Hr Ht]. unfold refill, elapsed in *.
    repeat bcase_in H3; cint_lia; nia.
  - destruct Hops as [Hn Hops].
    pose proof (ratelim_drain_wf rl n Hwf Hn) as Hwf'.
    unfold nghttp2_ratelim_drain in *. bcase; simpl in *.
    + specialize (IH _ Hwf Hops). destruct (rl_run _ ops) as [rl2 b]. simpl.
      destruct IH as (?&?&?&?&?). split_and!; try done; lia.
    + specialize (IH _ Hwf' Hops). destruct (rl_run _ ops) as [rl2 b]. simpl in *.
      destruct IH as (?&?&?&?&Hb). split_and!; try done.
      destruct Hwf as [Hv ? ? ?]. rewrite u64_id in Hb by cint_lia. lia.
Qed.

(** C38: Over any sequence of updates with a non-decreasing clock and drains,
    starting from a well-formed limiter, the total amount the limiter lets
    through is at most one burst plus the rate times the time that passed:
    the guards against 64-bit overflow never hand out extra tokens. *)
Theorem ratelim_admitted_bound rl ops :
  ratelim_wf rl -> monotone_ops (rl_tstamp rl) ops ->
  (rl_run rl ops).2 <=
    rl_burst rl + rl_rate rl * (rl_tstamp (rl_run rl ops).1 - rl_tstamp rl).
Proof.
  intros Hwf Hops. pose proof (rl_run_potential rl ops Hwf Hops) as H.
  destruct (rl_run rl ops) as [rl' a]. simpl.
  destruct H as (Hwf' & _ & _ & _ & H). destruct Hwf, Hwf'. lia.
Qed.

Lemma ratelim_admitted_bound_witness :
  (rl_run (nghttp2_ratelim_init 1000 33) [RlDrain 1000; RlUpdate 2; RlDrain 500; RlDrain 66]).2
    <= 1000 + 33 * (2 - 0).
Proof.
  apply (ratelim_admitted_bound (nghttp2_ratelim_init 1000 33)
    [RlDrain 1000; RlUpdate 2; RlDrain 500; RlDrain 66]).
  - apply ratelim_init_wf; vm_compute; split; congruence.
  - vm_compute; repeat split; congruence.
Defined.

(** The overflow-guarded 64-bit refill of [nghttp2_ratelim_update] is the
    exact token-bucket refill [min burst (val + rate * elapsed)] of unbounded
    arithmetic, and it keeps the limiter well formed. *)
Theorem nghttp2_ratelim_update_exact rl ts :
  ratelim_wf rl -> is_u64 ts ->
  rl_val (nghttp2_ratelim_update rl ts) =
    Z.min (rl_burst rl) (rl_val rl + rl_rate rl * elapsed rl ts) /\
  rl_tstamp (nghttp2_ratelim_update rl ts) = ts /\
  ratelim_wf (nghttp2_ratelim_update rl ts).
Proof.
  intros Hwf Hts. split_and!; [| |by apply ratelim_update_wf];
    by rewrite ratelim_update_refill.
Qed.

Lemma nghttp2_ratelim_update_exact_witness :
  rl_val (nghttp2_ratelim_update
    (mk_ratelim 5 (2 ^ 64 - 1) (2 ^ 63) 0) (2 ^ 63)) = 2 ^ 64 - 1.
Proof.
  refine (eq_trans (proj1 (nghttp2_ratelim_update_exact
    (mk_ratelim 5 (2 ^ 64 - 1) (2 ^ 63) 0) (2 ^ 63) _ _)) _).
  - split; vm_compute; split; congruence.
  - vm_compute; split; congruence.
  - vm_compute. reflexivity.
Defined.
