(* ===== verification/Queue.v ===== *)
(** * Linked queue (nghttp2_queue.c)

    The queue is a chain of heap cells with a pointer to both ends.  The
    model keeps the heap explicit: a finite map from addresses to cells that
    [push] extends and [pop] shrinks, so that the aliasing of [front] and
    [back] is the code's.  [queue_rep] says which list of data a queue stands
    for; the operations refine the list operations of [queue_spec]. *)

From S2P Require Import Prelude Defs.

Section Queue.
Context {A : Type}.

(** Addresses of cells; [NULL] is [None]. *)
Abbreviation loc := Z.

Record nghttp2_queue_cell := mk_cell {
  cell_data : A;
  cell_next : option loc;
}.

Record nghttp2_queue := mk_queue {
  front : option loc;
  back : option loc;
  cells : gmap loc nghttp2_queue_cell;
}.

Definition nghttp2_queue_init (h : gmap loc nghttp2_queue_cell) : nghttp2_queue :=
  mk_queue None None h.

(** [free] walks the chain; the fuel is the number of live cells, which
    bounds the length of an acyclic chain. *)
Fixpoint queue_free_loop (fuel : nat) (p : option loc)
    (h : gmap loc nghttp2_queue_cell) : gmap loc nghttp2_queue_cell :=
  match fuel, p with
  | S fuel, Some l =>
      match h !! l with
      | Some c => queue_free_loop fuel (cell_next c) (delete l h)
      | None => h
      end
  | _, _ => h
  end.

Definition nghttp2_queue_free (q : nghttp2_queue) : gmap loc nghttp2_queue_cell :=
  queue_free_loop (size (cells q)) (front q) (cells q).

(** [new_cell] is what [malloc] returned. *)
Definition nghttp2_queue_push (q : nghttp2_queue) (new_cell : option loc) (data : A)
    : nghttp2_queue * Z :=
  match new_cell with
  | None => (q, NGHTTP2_ERR_NOMEM)
  | Some n =>
      let h := <[n := mk_cell data None]> (cells q) in
      match back q with
      | Some b =>
          (mk_queue (front q) (Some n)
             (alter (fun c => mk_cell (cell_data c) (Some n)) b h), 0)
      | None => (mk_queue (Some n) (Some n) h, 0)
      end
  end.

(** [None] is the failure of [assert(front)]. *)
Definition nghttp2_queue_pop (q : nghttp2_queue) : option nghttp2_queue :=
  match front q with
  | None => None
  | Some f =>
      match cells q !! f with
      | None => None
      | Some c =>
          Some (mk_queue (cell_next c)
            (if decide (Some f = back q) then None else back q)
            (delete f (cells q)))
      end
  end.

Definition nghttp2_queue_front (q : nghttp2_queue) : option A :=
  match front q with
  | None => None
  | Some f => cell_data <$> cells q !! f
  end.

Definition nghttp2_queue_back (q : nghttp2_queue) : option A :=
  match back q with
  | None => None
  | Some b => cell_data <$> cells q !! b
  end.

Definition nghttp2_queue_empty (q : nghttp2_queue) : bool :=
  match front q with None => true | Some _ => false end.

(** ** Representation *)

(** [chain h p ls ds]: following [next] from [p] visits the cells [ls], which
    hold [ds], and ends in [NULL]. *)
Fixpoint chain (h : gmap loc nghttp2_queue_cell) (p : option loc)
    (ls : list loc) (ds : list A) : Prop :=
  match ls, ds with
  | [], [] => p = None
  | l :: ls, d :: ds =>
      p = Some l /\ exists nx, h !! l = Some (mk_cell d nx) /\ chain h nx ls ds
  | _, _ => False
  end.

(** The live cells are exactly those of the chain. *)
Definition queue_rep (q : nghttp2_queue) (ds : list A) : Prop :=
  exists ls, NoDup ls /\ chain (cells q) (front q) ls ds /\
    back q = last ls /\ dom (cells q) = list_to_set ls.

Lemma chain_length h p ls ds : chain h p ls ds -> length ls = length ds.
Proof.
  revert p ds. induction ls as [|l ls IH]; intros p [|d ds]; simpl; try done.
  intros [_ (nx & _ & H)]. f_equal. eauto.
Qed.

(** The chain depends only on the cells it visits. *)
Lemma chain_ext h h' p ls ds :
  (forall l, l ∈ ls -> h' !! l = h !! l) -> chain h p ls ds -> chain h' p ls ds.
Proof.
  revert p ds. induction ls as [|l ls IH]; intros p [|d ds] Heq; simpl; try done.
  intros [-> (nx & Hl & H)]. split; [done|]. exists nx. split.
  - rewrite Heq; [done|]. left.
  - apply IH; [|done]. intros. apply Heq. by right.
Qed.

(** Linking a fresh cell behind the last one. *)
Lemma chain_snoc h p ls b n ds d :
  NoDup (ls ++ [b]) -> n ∉ ls ++ [b] ->
  chain h p (ls ++ [b]) ds ->
  chain (alter (fun c => mk_cell (cell_data c) (Some n)) b
           (<[n := mk_cell d None]> h)) p (ls ++ [b; n]) (ds ++ [d]).
Proof.
  revert p ds. induction ls as [|l ls IH]; intros p [|x ds] Hnd Hn; simpl; try done.
  - intros [-> (nx & Hb & Hc)]. destruct ds; [|done]. subst nx.
    assert (n <> b) by set_solver. split; [done|]. exists (Some n). split.
    + by rewrite lookup_alter_eq, lookup_insert_ne, Hb.
    + split; [done|]. exists None. by rewrite lookup_alter_ne, lookup_insert_eq.
  - intros [-> (nx & Hl & Hc)]. apply NoDup_cons in Hnd as [Hl' Hnd].
    assert (n <> l /\ b <> l) as [??] by (set_solver).
    split; [done|]. exists nx. split.
    + by rewrite lookup_alter_ne, lookup_insert_ne.
    + apply IH; [done|set_solver|done].
Qed.

Lemma queue_rep_push q ds n d :
  queue_rep q ds -> n ∉ dom (cells q) ->
  queue_rep (nghttp2_queue_push q (Some n) d).1 (ds ++ [d]).
Proof.
  intros (ls & Hnd & Hc & Hb & Hdom) Hn. rewrite Hdom in Hn.
  assert (Hnls : n ∉ ls) by set_solver.
  exists (ls ++ [n]). unfold nghttp2_queue_push. rewrite Hb.
  destruct ls as [|b ls' _] using rev_ind; simpl.
  - destruct ds; [|done]. split_and!.
    + apply NoDup_singleton.
    + simpl. split; [done|]. exists None. by rewrite lookup_insert_eq.
    + done.
    + rewrite dom_insert_L, Hdom. set_solver.
  - rewrite last_snoc. simpl. split_and!.
    + apply NoDup_app. split; [done|]. split; [set_solver|apply NoDup_singleton].
    + rewrite <- app_assoc. by apply chain_snoc.
    + by rewrite last_snoc.
    + rewrite dom_alter_L, dom_insert_L, Hdom. set_solver.
Qed.

Lemma queue_rep_pop q d ds :
  queue_rep q (d :: ds) ->
  exists q', nghttp2_queue_pop q = Some q' /\ queue_rep q' ds.
Proof.
  intros ([|l ls] & Hnd & Hc & Hb & Hdom); [done|].
  destruct Hc as [Hf (nx & Hl & Hc)]. apply NoDup_cons in Hnd as [Hl' Hnd].
  unfold nghttp2_queue_pop. rewrite Hf, Hl. eexists. split; [done|].
  exists ls. simpl. split_and!; [done| | |].
  - eapply chain_ext; [|done]. intros. rewrite lookup_delete_ne; [done|set_solver].
  - rewrite Hb. destruct ls as [|l' ls]; simpl; [by rewrite decide_True|].
    rewrite decide_False; [done|]. intros [= Heq].
    apply Hl'. assert (Hla : last (l' :: ls) = Some l) by (simpl; congruence).
    apply last_Some_elem_of in Hla. done.
  - rewrite dom_delete_L, Hdom. set_solver.
Qed.

Lemma queue_rep_init : queue_rep (nghttp2_queue_init ∅) [].
Proof. exists []. simpl. split_and!; [constructor|done|done|by rewrite dom_empty_L]. Qed.

Lemma queue_rep_front q ds : queue_rep q ds -> nghttp2_queue_front q = head ds.
Proof.
  intros ([|l ls] & _ & Hc & _); destruct ds as [|d ds]; try done;
    unfold nghttp2_queue_front; simpl in Hc.
  - by rewrite Hc.
  - destruct Hc as [-> (nx & -> & _)]. done.
Qed.

Lemma chain_last h p ls l ds :
  chain h p (ls ++ [l]) ds -> exists ds' d, ds = ds' ++ [d] /\ h !! l = Some (mk_cell d None).
Proof.
  revert p ds. induction ls as [|l' ls IH]; intros p [|d ds]; simpl; try done.
  - intros [_ (nx & Hl & Hc)]. destruct ds; [|done]. subst. exists [], d. done.
  - intros [_ (nx & _ & Hc)]. destruct (IH _ _ Hc) as (ds' & d' & -> & ?).
    exists (d :: ds'), d'. done.
Qed.

Lemma queue_rep_back q ds : queue_rep q ds -> nghttp2_queue_back q = last ds.
Proof.
  intros (ls & _ & Hc & Hb & _). unfold nghttp2_queue_back. rewrite Hb.
  destruct ls as [|l ls _] using rev_ind.
  - by destruct ds.
  - apply chain_last in Hc as (ds' & d & -> & Hl). rewrite !last_snoc. by rewrite Hl.
Qed.

Lemma queue_rep_empty q ds :
  queue_rep q ds -> nghttp2_queue_empty q = bool_decide (ds = []).
Proof.
  intros ([|l ls] & _ & Hc & _); destruct ds as [|d ds]; try done;
    unfold nghttp2_queue_empty; simpl in Hc.
  - by rewrite Hc.
  - by destruct Hc as [-> _].
Qed.

Lemma queue_free_loop_all h p ls ds fuel :
  NoDup ls -> chain h p ls ds -> (length ls <= fuel)%nat ->
  queue_free_loop fuel p h = filter (fun kv => kv.1 ∉ ls) h.
Proof.
  revert h p ds fuel. induction ls as [|l ls IH]; intros h p [|d ds] fuel Hnd Hc Hf;
    simpl in *; try done.
  - subst p. rewrite map_filter_id; [by destruct fuel|]. intros i x _. simpl. apply not_elem_of_nil.
  - destruct fuel as [|fuel]; [lia|]. destruct Hc as [-> (nx & Hl & Hc)].
    apply NoDup_cons in Hnd as [Hl' Hnd]. simpl. rewrite Hl.
    rewrite (IH _ _ ds); [|done| |lia].
    + apply map_eq. intros i. apply option_eq. intros x.
      rewrite !map_lookup_filter_Some. simpl.
      rewrite lookup_delete_Some. set_solver.
    + eapply chain_ext; [|done]. intros. rewrite lookup_delete_ne; [done|set_solver].
Qed.

(** ** The contract: a FIFO list *)

Inductive q_op :=
  | QPush (d : A)
  | QPop
  | QFront
  | QBack
  | QEmpty.

(** What a call returns: a code, a datum, a truth value or a failed assertion. *)
Inductive q_out :=
  | OCode (rv : Z)
  | OData (d : A)
  | OBool (b : bool)
  | OAssert.

Inductive queue_spec : list A -> q_op -> list A -> q_out -> Prop :=
  | spec_push ds d : queue_spec ds (QPush d) (ds ++ [d]) (OCode 0)
  | spec_push_nomem ds d : queue_spec ds (QPush d) ds (OCode NGHTTP2_ERR_NOMEM)
  | spec_pop ds d : queue_spec (d :: ds) QPop ds (OCode 0)
  | spec_pop_assert : queue_spec [] QPop [] OAssert
  | spec_front ds d : queue_spec (d :: ds) QFront (d :: ds) (OData d)
  | spec_front_assert : queue_spec [] QFront [] OAssert
  | spec_back ds d : queue_spec (ds ++ [d]) QBack (ds ++ [d]) (OData d)
  | spec_back_assert : queue_spec [] QBack [] OAssert
  | spec_empty ds : queue_spec ds QEmpty ds (OBool (bool_decide (ds = []))).

Section Run.
(** The C library's [malloc], which returns an address not in use or fails. *)
Variable malloc : gmap loc nghttp2_queue_cell -> option loc.
Hypothesis malloc_fresh : forall h l, malloc h = Some l -> l ∉ dom h.

Definition queue_step (q : nghttp2_queue) (o : q_op) : nghttp2_queue * q_out :=
  match o with
  | QPush d =>
      let '(q', rv) := nghttp2_queue_push q (malloc (cells q)) d in (q', OCode rv)
  | QPop =>
      match nghttp2_queue_pop q with
      | Some q' => (q', OCode 0)
      | None => (q, OAssert)
      end
  | QFront =>
      (q, match nghttp2_queue_front q with Some d => OData d | None => OAssert end)
  | QBack =>
      (q, match nghttp2_queue_back q with Some d => OData d | None => OAssert end)
  | QEmpty => (q, OBool (nghttp2_queue_empty q))
  end.

Lemma queue_step_sim q ds o :
  queue_rep q ds ->
  exists ds', queue_spec ds o ds' (queue_step q o).2 /\ queue_rep (queue_step q o).1 ds'.
Proof.
  intros Hrep. destruct o as [d| | | |]; simpl.
  - destruct (malloc (cells q)) as [n|] eqn:Hm.
    + exists (ds ++ [d]). pose proof (queue_rep_push q ds n d Hrep (malloc_fresh _ _ Hm)).
      unfold nghttp2_queue_push in *. destruct (back q); simpl; split; try done; constructor.
    + exists ds. simpl. split; [constructor|done].
  - destruct ds as [|d ds].
    + exists []. assert (nghttp2_queue_pop q = None) as ->.
      { destruct Hrep as ([|] & _ & Hc & _); [|done]. unfold nghttp2_queue_pop.
        simpl in Hc. by rewrite Hc. }
      simpl. split; [constructor|done].
    + destruct (queue_rep_pop q d ds Hrep) as (q' & -> & ?). exists ds.
      split; [constructor|done].
  - exists ds. rewrite (queue_rep_front q ds Hrep). split; [|done].
    destruct ds; constructor.
  - exists ds. rewrite (queue_rep_back q ds Hrep). split; [|done].
    destruct ds as [|d ds _] using rev_ind; [constructor|]. rewrite last_snoc. constructor.
  - exists ds. rewrite (queue_rep_empty q ds Hrep). split; [constructor|done].
Qed.

Fixpoint queue_run (q : nghttp2_queue) (ops : list q_op) : nghttp2_queue * list q_out :=
  match ops with
  | [] => (q, [])
  | o :: ops =>
      let '(q1, x) := queue_step q o in
      let '(q2, xs) := queue_run q1 ops in (q2, x :: xs)
  end.

Inductive spec_run : list A -> list q_op -> list A -> list q_out -> Prop :=
  | run_nil ds : spec_run ds [] ds []
  | run_cons ds o ds1 x ops ds2 xs :
      queue_spec ds o ds1 x -> spec_run ds1 ops ds2 xs ->
      spec_run ds (o :: ops) ds2 (x :: xs).

Lemma queue_run_sim q ds ops :
  queue_rep q ds ->
  exists ds', spec_run ds ops ds' (queue_run q ops).2 /\ queue_rep (queue_run q ops).1 ds'.
Proof.
  revert q ds. induction ops as [|o ops IH]; intros q ds Hrep; simpl.
  - exists ds. split; [constructor|done].
  - destruct (queue_step_sim q ds o Hrep) as (ds1 & Hs & Hrep1).
    destruct (queue_step q o) as [q1 x]. destruct (IH q1 ds1 Hrep1) as (ds2 & Hr & Hrep2).
    destruct (queue_run q1 ops) as [q2 xs]. exists ds2. split; [by econstructor|done].
Qed.
End Run.

Lemma queue_free_empties q ds : queue_rep q ds -> nghttp2_queue_free q = ∅.
Proof.
  intros (ls & Hnd & Hc & _ & Hdom). unfold nghttp2_queue_free.
  erewrite queue_free_loop_all; [|done|done|].
  - apply map_empty. intros i. apply map_lookup_filter_None. right. intros x Hx. simpl.
    apply elem_of_dom_2 in Hx. set_solver.
  - rewrite <- size_dom, Hdom, size_list_to_set by done. done.
Qed.
End Queue.

Arguments nghttp2_queue_cell : clear implicits.
Arguments nghttp2_queue : clear implicits.
Arguments q_op : clear implicits.
Arguments q_out : clear implicits.

(** Whatever sequence of push, pop, front, back and empty calls is made
    on a queue, starting from [nghttp2_queue_init], the answers are those of
    a FIFO list: a failed allocation leaves the queue as it was, the
    assertions fail exactly on the empty queue, and freeing the queue at the
    end releases every cell. *)
Theorem nghttp2_queue_refines_fifo (A : Type)
    (malloc : gmap Z (nghttp2_queue_cell A) -> option Z) (ops : list (q_op A)) :
  (forall h l, malloc h = Some l -> l ∉ dom h) ->
  exists ds, spec_run [] ops ds (queue_run malloc (nghttp2_queue_init ∅) ops).2 /\
    nghttp2_queue_free (queue_run malloc (nghttp2_queue_init ∅) ops).1 = ∅.
Proof.
  intros Hm. destruct (queue_run_sim malloc Hm _ _ ops queue_rep_init) as (ds & Hr & Hrep).
  exists ds. split; [done|]. by eapply queue_free_empties.
Qed.

(** An allocator that hands out the address after the largest one in use. *)
Definition bump_malloc {C} (h : gmap Z C) : option Z :=
  Some (1 + map_fold (fun k _ m => Z.max k m) 0 h).

Lemma bump_malloc_fresh {C} (h : gmap Z C) l : bump_malloc h = Some l -> l ∉ dom h.
Proof.
  intros [= <-] Hin. apply elem_of_dom in Hin as [c Hc].
  enough (forall k c, h !! k = Some c -> k <= map_fold (fun k _ m => Z.max k m) 0 h) as H.
  { specialize (H _ _ Hc). lia. }
  clear. apply (map_fold_weak_ind (fun r h => forall k c, h !! k = Some c -> k <= r)).
  - intros k c. by rewrite lookup_empty.
  - intros i x m r Hi IH k c. rewrite lookup_insert. case_decide; [lia|].
    intros Hk. specialize (IH _ _ Hk). lia.
Qed.

Lemma nghttp2_queue_refines_fifo_witness :
  exists ds, spec_run [] [QPush 7; QPush 9; QFront; QPop; QBack; QPop; QPop] ds
    [OCode 0; OCode 0; OData 7; OCode 0; OData 9; OCode 0; OAssert].
Proof.
  destruct (nghttp2_queue_refines_fifo Z bump_malloc
    [QPush 7; QPush 9; QFront; QPop; QBack; QPop; QPop] bump_malloc_fresh) as (ds & H & _).
  exists ds. exact H.
Defined.
