(* ===== verification/Pq.v ===== *)
(** * Priority queue (nghttp2_pq.c)

    A binary heap of pointers to entries; every entry carries its own
    position in the array ([index]), which [nghttp2_pq_remove] relies on.
    The entries live in a store of their own (they are embedded in streams),
    so the back pointers are updated by address, as in the code.

    [pq_wf] is the structural invariant (distinct entries, exact back
    pointers, room in the array), [heap_ok] the order; every operation keeps
    both, and its effect on the queue as a multiset is the one documented in
    nghttp2_pq.h. *)

From S2P Require Import Prelude Defs.
From Stdlib Require Import ZifyNat.

Ltac Zify.zify_post_hook ::= Z.to_euclidean_division_equations.

#[local] Arguments Nat.div : simpl never.

(** What a priority queue asks of its comparison function: a strict weak
    order ([less b a = false] reads "[a] may stand before [b]"). *)
Class LessOrder {A} (less : A -> A -> bool) : Prop := {
  less_asym : forall a b, less a b = true -> less b a = false;
  less_trans_le : forall a b c,
    less b a = false -> less c b = false -> less c a = false;
}.

#[global] Instance Zltb_LessOrder : LessOrder Z.ltb.
Proof. split; intros *; rewrite ?Z.ltb_lt, ?Z.ltb_ge; lia. Qed.

Section Pq.
Context {A : Type}.

(** The comparison function installed by [nghttp2_pq_init]. *)
Variable less : A -> A -> bool.

Abbreviation loc := Z.

(** [nghttp2_pq_entry] with the object it is embedded in. *)
Record nghttp2_pq_entry := mk_entry {
  e_index : nat;
  e_item : A;
}.

(** [q] holds the first [length] slots of the array, the only ones in use. *)
Record nghttp2_pq := mk_pq {
  q : list loc;
  capacity : nat;
  entries : gmap loc nghttp2_pq_entry;
}.

Definition nghttp2_pq_init (es : gmap loc nghttp2_pq_entry) : nghttp2_pq := mk_pq [] 0 es.

(** [q[i]], with the object behind the pointer. *)
Definition item_at (pq : nghttp2_pq) (i : nat) : option A :=
  l ← q pq !! i; e_item <$> entries pq !! l.

Definition pq_less (pq : nghttp2_pq) (i j : nat) : bool :=
  match item_at pq i, item_at pq j with
  | Some a, Some b => less a b
  | _, _ => false
  end.

Definition set_index (i : nat) (e : nghttp2_pq_entry) : nghttp2_pq_entry :=
  mk_entry i (e_item e).

Definition swap (pq : nghttp2_pq) (i j : nat) : nghttp2_pq :=
  match q pq !! i, q pq !! j with
  | Some a, Some b =>
      mk_pq (<[j := a]> (<[i := b]> (q pq))) (capacity pq)
        (alter (set_index j) a (alter (set_index i) b (entries pq)))
  | _, _ => pq
  end.

(** The loop runs at most [index] times: a parent has a smaller index. *)
Fixpoint bubble_up_loop (fuel : nat) (pq : nghttp2_pq) (index : nat) : nghttp2_pq :=
  match fuel with
  | O => pq
  | S fuel =>
      if (index =? 0)%nat then pq
      else
        let parent := ((index - 1) / 2)%nat in
        if negb (pq_less pq index parent) then pq
        else bubble_up_loop fuel (swap pq parent index) parent
  end.

Definition bubble_up (pq : nghttp2_pq) (index : nat) : nghttp2_pq :=
  bubble_up_loop index pq index.

(** [realloc_ok]: whether the allocator could grow the array. *)
Definition nghttp2_pq_push (pq : nghttp2_pq) (realloc_ok : bool) (item : loc)
    : nghttp2_pq * Z :=
  let grow := (capacity pq <=? length (q pq))%nat in
  if grow && negb realloc_ok then (pq, NGHTTP2_ERR_NOMEM)
  else
    let ncapacity := if grow then Nat.max 4 (capacity pq * 2) else capacity pq in
    let pq' := mk_pq (q pq ++ [item]) ncapacity
                 (alter (set_index (length (q pq))) item (entries pq)) in
    (bubble_up pq' (length (q pq') - 1), 0).

Definition nghttp2_pq_top (pq : nghttp2_pq) : option loc := q pq !! 0%nat.

(** The inner [for] of [bubble_down]: [n] children left to look at. *)
Fixpoint min_child (pq : nghttp2_pq) (n j minindex : nat) : nat :=
  match n with
  | O => minindex
  | S n =>
      if (length (q pq) <=? j)%nat then minindex
      else min_child pq n (j + 1) (if pq_less pq j minindex then j else minindex)
  end.

(** A child has a larger index, so the array length bounds the loop. *)
Fixpoint bubble_down_loop (fuel : nat) (pq : nghttp2_pq) (index : nat) : nghttp2_pq :=
  match fuel with
  | O => pq
  | S fuel =>
      let minindex := min_child pq 2 (index * 2 + 1) index in
      if (minindex =? index)%nat then pq
      else bubble_down_loop fuel (swap pq index minindex) minindex
  end.

Definition bubble_down (pq : nghttp2_pq) (index : nat) : nghttp2_pq :=
  bubble_down_loop (length (q pq)) pq index.

(** [q[i] = q[length - 1]; q[i]->index = i; --length] *)
Definition move_last (pq : nghttp2_pq) (i : nat) : nghttp2_pq :=
  match last (q pq) with
  | Some l =>
      mk_pq (take (length (q pq) - 1) (<[i := l]> (q pq))) (capacity pq)
        (alter (set_index i) l (entries pq))
  | None => pq
  end.

Definition nghttp2_pq_pop (pq : nghttp2_pq) : nghttp2_pq :=
  if (0 <? length (q pq))%nat then bubble_down (move_last pq 0) 0 else pq.

(** [None] is the failure of [assert(pq->q[item->index] == item)]. *)
Definition nghttp2_pq_remove (pq : nghttp2_pq) (item : loc) : option nghttp2_pq :=
  match entries pq !! item with
  | None => None
  | Some e =>
      let i := e_index e in
      if negb (bool_decide (q pq !! i = Some item)) then None
      else if (i =? 0)%nat then Some (nghttp2_pq_pop pq)
      else if (i =? length (q pq) - 1)%nat then
        Some (mk_pq (take (length (q pq) - 1) (q pq)) (capacity pq) (entries pq))
      else
        let pq' := move_last pq i in
        match item_at pq' i with
        | None => None
        | Some x =>
            if less (e_item e) x then Some (bubble_down pq' i)
            else Some (bubble_up pq' i)
        end
  end.

Definition nghttp2_pq_empty (pq : nghttp2_pq) : bool := (length (q pq) =? 0)%nat.

Definition nghttp2_pq_size (pq : nghttp2_pq) : nat := length (q pq).

(** The callback returns the changed object and whether the order may have
    changed. *)
Fixpoint pq_update_items (f : A -> A * bool) (ls : list loc)
    (es : gmap loc nghttp2_pq_entry) : gmap loc nghttp2_pq_entry * bool :=
  match ls with
  | [] => (es, false)
  | l :: ls =>
      match es !! l with
      | None => (es, false)
      | Some e =>
          let '(x, rv) := f (e_item e) in
          let '(es', rv') := pq_update_items f ls (<[l := mk_entry (e_index e) x]> es) in
          (es', rv || rv')
      end
  end.

(** [for (i = pq->length; i > 0; --i) bubble_down(pq, i - 1);] *)
Fixpoint heapify (i : nat) (pq : nghttp2_pq) : nghttp2_pq :=
  match i with
  | O => pq
  | S i => heapify i (bubble_down pq i)
  end.

Definition nghttp2_pq_update (pq : nghttp2_pq) (f : A -> A * bool) : nghttp2_pq :=
  if (length (q pq) =? 0)%nat then pq
  else
    let '(es, rv) := pq_update_items f (q pq) (entries pq) in
    let pq' := mk_pq (q pq) (capacity pq) es in
    if rv then heapify (length (q pq)) pq' else pq'.

(** [nghttp2_pq_each]: stop at the first non-zero answer. *)
Definition nghttp2_pq_each (pq : nghttp2_pq) (f : A -> bool) : Z :=
  c_bool (existsb (fun l => match entries pq !! l with
                            | Some e => f (e_item e)
                            | None => false
                            end) (q pq)).

(** ** Invariants *)

(** Every slot points to a live entry whose back pointer is that slot. *)
Record pq_wf (pq : nghttp2_pq) : Prop := {
  wf_index : forall i l, q pq !! i = Some l ->
    exists x, entries pq !! l = Some (mk_entry i x);
  wf_cap : (length (q pq) <= capacity pq)%nat;
}.

(** No entry is less than its parent. *)
Definition heap_ok (pq : nghttp2_pq) : Prop :=
  forall i, (0 < i < length (q pq))%nat -> pq_less pq i ((i - 1) / 2) = false.

(** The objects behind the pointers, as the store has them. *)
Definition items (pq : nghttp2_pq) : gmap loc A := e_item <$> entries pq.

Lemma wf_NoDup pq : pq_wf pq -> NoDup (q pq).
Proof.
  intros [Hi _]. apply NoDup_alt. intros i j l Hl Hl'.
  apply Hi in Hl as [x Hx]. apply Hi in Hl' as [y Hy]. congruence.
Qed.

Lemma item_at_lt pq i : pq_wf pq -> (i < length (q pq))%nat -> is_Some (item_at pq i).
Proof.
  intros [Hi _] Hlt. apply lookup_lt_is_Some in Hlt as [l Hl]. unfold item_at.
  rewrite Hl. simpl. apply Hi in Hl as [x ->]. simpl. eauto.
Qed.

Lemma item_at_items pq i : item_at pq i = l ← q pq !! i; items pq !! l.
Proof. unfold item_at, items. destruct (q pq !! i); simpl; [|done]. by rewrite lookup_fmap. Qed.

Lemma items_set_index i l (es : gmap loc nghttp2_pq_entry) :
  e_item <$> alter (set_index i) l es = e_item <$> es.
Proof.
  apply map_eq. intros k. rewrite !lookup_fmap, lookup_alter.
  case_decide; subst; [|done]. by destruct (es !! k).
Qed.

(** ** [swap] *)

Lemma swap_items pq i j : items (swap pq i j) = items pq.
Proof.
  unfold swap, items. destruct (q pq !! i), (q pq !! j); try done. simpl.
  by rewrite !items_set_index.
Qed.

Lemma swap_length pq i j : length (q (swap pq i j)) = length (q pq).
Proof.
  unfold swap. destruct (q pq !! i), (q pq !! j); try done. simpl. by rewrite !length_insert.
Qed.

Lemma swap_capacity pq i j : capacity (swap pq i j) = capacity pq.
Proof. unfold swap. by destruct (q pq !! i), (q pq !! j). Qed.

Lemma swap_perm pq i j : q (swap pq i j) ≡ₚ q pq.
Proof.
  unfold swap. destruct (q pq !! i) as [a|] eqn:Ha, (q pq !! j) as [b|] eqn:Hb; try done.
  simpl. destruct (decide (i = j)) as [->|Hne].
  { simplify_eq. rewrite list_insert_insert_eq, list_insert_id by done. done. }
  by apply Permutation_insert_swap.
Qed.

Lemma swap_wf pq i j : pq_wf pq -> pq_wf (swap pq i j).
Proof.
  intros [Hi Hc]. split; [|by rewrite swap_length, swap_capacity].
  unfold swap. destruct (q pq !! i) as [a|] eqn:Ha, (q pq !! j) as [b|] eqn:Hb; try done.
  simpl. intros k l Hk.
  pose proof (lookup_lt_Some _ _ _ Ha). pose proof (lookup_lt_Some _ _ _ Hb).
  assert (Hab : i <> j -> a <> b).
  { intros Hne ->. apply Hi in Ha as [? Ha]. apply Hi in Hb as [? Hb]. congruence. }
  pose proof (Hi _ _ Ha) as [xa Hxa]. pose proof (Hi _ _ Hb) as [xb Hxb].
  destruct (decide (k = j)) as [->|Hkj].
  { rewrite list_lookup_insert_eq in Hk by (rewrite length_insert; done).
    simplify_eq. rewrite lookup_alter_eq.
    destruct (decide (l = b)) as [->|Hne].
    - rewrite lookup_alter_eq, Hxb. simpl. eauto.
    - rewrite lookup_alter_ne, Hxa by done. simpl. eauto. }
  rewrite list_lookup_insert_ne in Hk by done.
  destruct (decide (k = i)) as [->|Hki].
  { rewrite list_lookup_insert_eq in Hk by done. simplify_eq.
    rewrite lookup_alter_ne by (by apply Hab). rewrite lookup_alter_eq, Hxb. simpl. eauto. }
  rewrite list_lookup_insert_ne in Hk by done.
  destruct (Hi _ _ Hk) as [x Hx].
  assert (l <> a) by (intros ->; congruence). assert (l <> b) by (intros ->; congruence).
  rewrite !lookup_alter_ne by done. eauto.
Qed.

Lemma swap_item_at pq i j k :
  (i < length (q pq))%nat -> (j < length (q pq))%nat ->
  item_at (swap pq i j) k =
    if decide (k = i) then item_at pq j
    else if decide (k = j) then item_at pq i else item_at pq k.
Proof.
  intros Hi Hj. rewrite !item_at_items, swap_items.
  apply lookup_lt_is_Some in Hi as [a Ha]. apply lookup_lt_is_Some in Hj as [b Hb].
  pose proof (lookup_lt_Some _ _ _ Ha). pose proof (lookup_lt_Some _ _ _ Hb).
  unfold swap. rewrite Ha, Hb. simpl.
  repeat case_decide; subst.
  - destruct (decide (i = j)) as [->|].
    + rewrite list_lookup_insert_eq by (by rewrite length_insert). by simplify_eq.
    + rewrite list_lookup_insert_ne by done. by rewrite list_lookup_insert_eq.
  - by rewrite list_lookup_insert_eq by (by rewrite length_insert).
  - by rewrite !list_lookup_insert_ne.
Qed.

(** The array after the last slot was moved into slot [i]. *)
Lemma move_last_shape pq i x :
  q pq !! i = Some x ->
  exists q0 l, q pq = q0 ++ [l] /\
    q (move_last pq i) = <[i := l]> q0 /\
    entries (move_last pq i) = alter (set_index i) l (entries pq) /\
    q pq ≡ₚ x :: q (move_last pq i).
Proof.
  intros Hx. destruct (q pq) as [|l q0 _] eqn:Hq using rev_ind; [done|].
  exists q0, l. unfold move_last. rewrite Hq, last_snoc. simpl.
  assert (Hlen : (length (q0 ++ [l]) - 1)%nat = length q0) by (rewrite length_app; simpl; lia).
  rewrite Hlen. destruct (decide (i < length q0)%nat) as [Hi|Hi].
  - rewrite insert_app_l, take_app_length' by (rewrite ?length_insert; lia).
    split_and!; try done. rewrite lookup_app_l in Hx by done.
    rewrite Permutation_app_comm. simpl.
    rewrite (insert_take_drop q0 i l), <- Permutation_middle by done.
    rewrite <- (take_drop_middle q0 i x) at 1 by done.
    rewrite <- Permutation_middle. apply perm_swap.
  - assert (i = length q0) as ->.
    { apply lookup_lt_Some in Hx. rewrite length_app in Hx. simpl in Hx. lia. }
    rewrite lookup_app_r, Nat.sub_diag in Hx by lia. simpl in Hx. simplify_eq.
    rewrite list_insert_id by (by rewrite lookup_app_r, Nat.sub_diag by lia).
    rewrite take_app_length' by done. rewrite list_insert_ge by lia.
    split_and!; try done. by rewrite Permutation_app_comm.
Qed.

Lemma move_last_wf pq i :
  pq_wf pq -> (i < length (q pq))%nat ->
  pq_wf (move_last pq i) /\ items (move_last pq i) = items pq /\
  length (q (move_last pq i)) = (length (q pq) - 1)%nat /\
  forall k, (k < length (q pq) - 1)%nat ->
    item_at (move_last pq i) k =
      if decide (k = i) then item_at pq (length (q pq) - 1) else item_at pq k.
Proof.
  intros Hwf Hi. pose proof (wf_NoDup _ Hwf) as Hnd. pose proof Hi as Hi'.
  apply lookup_lt_is_Some in Hi as [x Hx].
  destruct (move_last_shape pq i x Hx) as (q0 & l & Hq & Hq' & He & _).
  assert (Hit : items (move_last pq i) = items pq).
  { unfold items. rewrite He. apply items_set_index. }
  assert (Hlen : length (q (move_last pq i)) = (length (q pq) - 1)%nat).
  { rewrite Hq', Hq, length_insert, length_app. simpl. lia. }
  rewrite Hq in Hnd. apply NoDup_app in Hnd as (_ & Hl & _).
  assert (Hq0 : length q0 = (length (q pq) - 1)%nat) by (rewrite Hq, length_app; simpl; lia).
  split_and!; [split|done|done|].
  - intros k l' Hk. rewrite He. rewrite Hq' in Hk.
    destruct (decide (k = i)) as [->|Hne].
    + assert (i < length q0)%nat.
      { apply lookup_lt_Some in Hk. by rewrite length_insert in Hk. }
      rewrite list_lookup_insert_eq in Hk by done. simplify_eq.
      rewrite lookup_alter_eq. destruct (wf_index _ Hwf (length q0) l') as [y ->].
      { by rewrite Hq, lookup_app_r, Nat.sub_diag by lia. }
      simpl. eauto.
    + rewrite list_lookup_insert_ne in Hk by done.
      rewrite lookup_alter_ne.
      * apply (wf_index _ Hwf). rewrite Hq. by apply lookup_app_l_Some.
      * intros ->. apply (Hl l'); [apply list_elem_of_lookup; eauto|set_solver].
  - rewrite Hlen. unfold move_last. destruct (last _); simpl; pose proof (wf_cap _ Hwf); lia.
  - intros k Hk. rewrite !item_at_items, Hit, Hq'. case_decide; subst.
    + rewrite list_lookup_insert_eq by lia.
      by rewrite Hq, length_app, lookup_app_r, Nat.add_sub, Nat.sub_diag by (simpl; lia).
    + rewrite list_lookup_insert_ne by done. rewrite Hq, lookup_app_l by lia. done.
Qed.

(** ** Heap order

    From here on the comparison is a strict weak order. *)
Context {LO : LessOrder less}.

(** [le pq i j]: slot [j] does not precede slot [i]. *)
Definition le_at (pq : nghttp2_pq) (i j : nat) : Prop :=
  match item_at pq i, item_at pq j with
  | Some a, Some b => less b a = false
  | _, _ => False
  end.

Abbreviation par i := ((i - 1) / 2)%nat.

Lemma pq_less_false_le pq i j :
  pq_wf pq -> (i < length (q pq))%nat -> (j < length (q pq))%nat ->
  pq_less pq j i = false <-> le_at pq i j.
Proof.
  intros Hwf Hi Hj. unfold pq_less, le_at.
  destruct (item_at_lt pq i Hwf Hi) as [a ->], (item_at_lt pq j Hwf Hj) as [b ->]. done.
Qed.

Lemma pq_less_true_le pq i j : pq_less pq i j = true -> le_at pq i j.
Proof.
  unfold pq_less, le_at. destruct (item_at pq i), (item_at pq j); try done. apply less_asym.
Qed.

Lemma le_at_trans pq i j k : le_at pq i j -> le_at pq j k -> le_at pq i k.
Proof.
  unfold le_at. destruct (item_at pq i), (item_at pq j), (item_at pq k); try done.
  apply less_trans_le.
Qed.

Lemma le_at_refl pq i : pq_wf pq -> (i < length (q pq))%nat -> le_at pq i i.
Proof.
  intros Hwf Hi. unfold le_at. destruct (item_at_lt pq i Hwf Hi) as [a ->].
  destruct (less a a) eqn:E; [|done]. pose proof (less_asym _ _ E). congruence.
Qed.

Lemma le_at_ext pq pq' i j i' j' :
  item_at pq' i' = item_at pq i -> item_at pq' j' = item_at pq j ->
  le_at pq i j -> le_at pq' i' j'.
Proof. unfold le_at. by intros -> ->. Qed.

(** What the loops keep: membership, positions and objects. *)
Definition same_content (pq pq' : nghttp2_pq) : Prop :=
  pq_wf pq' /\ q pq' ≡ₚ q pq /\ items pq' = items pq /\ capacity pq' = capacity pq.

Lemma same_content_refl pq : pq_wf pq -> same_content pq pq.
Proof. done. Qed.

Lemma same_content_trans pq1 pq2 pq3 :
  same_content pq1 pq2 -> same_content pq2 pq3 -> same_content pq1 pq3.
Proof.
  intros (?&Hp&?&?) (?&Hp'&?&?). split_and!; [done| |congruence|congruence].
  by rewrite Hp', Hp.
Qed.

Lemma same_content_swap pq i j : pq_wf pq -> same_content pq (swap pq i j).
Proof.
  intros. split_and!; [by apply swap_wf|apply swap_perm|apply swap_items|apply swap_capacity].
Qed.

Lemma same_content_length pq pq' :
  same_content pq pq' -> length (q pq') = length (q pq).
Proof. intros (_ & Hp & _). by rewrite Hp. Qed.

(** Order everywhere except between [index] and its parent; the children of
    [index] already respect that parent. *)
Definition up_inv (pq : nghttp2_pq) (index : nat) : Prop :=
  forall i, (0 < i < length (q pq))%nat ->
    (i <> index -> le_at pq (par i) i) /\
    (par i = index -> (0 < index)%nat -> le_at pq (par index) i).

Definition heap (pq : nghttp2_pq) : Prop :=
  forall i, (0 < i < length (q pq))%nat -> le_at pq (par i) i.

Lemma heap_ok_heap pq : pq_wf pq -> heap_ok pq <-> heap pq.
Proof.
  intros Hwf. unfold heap_ok, heap. split; intros H i Hi;
    apply pq_less_false_le; try done; try lia; by apply H.
Qed.

(** Reading a slot of a swapped array. *)
Ltac swap_slot := rewrite swap_item_at by lia; repeat case_decide; try lia; try congruence.

Lemma up_inv_swap pq index :
  pq_wf pq -> (0 < index < length (q pq))%nat ->
  up_inv pq index -> pq_less pq index (par index) = true ->
  up_inv (swap pq (par index) index) (par index).
Proof.
  intros Hwf Hidx Hinv Hless. apply pq_less_true_le in Hless.
  intros i Hi. rewrite swap_length in Hi. pose proof (Hinv i Hi) as [Hi1 Hi2]. split.
  - intros Hne. destruct (decide (i = index)) as [->|Hni].
    { eapply le_at_ext; [| |exact Hless]; swap_slot. }
    destruct (decide (par i = par index)) as [Hp|Hp].
    { apply (le_at_ext pq _ index i); [swap_slot|swap_slot|].
      apply (le_at_trans _ _ _ _ Hless). rewrite <- Hp. by apply Hi1. }
    destruct (decide (par i = index)) as [Hp'|Hp'].
    { eapply le_at_ext; [| |apply Hi2]; try lia; swap_slot. }
    eapply le_at_ext; [| |by apply Hi1]; swap_slot.
  - intros Hp H0.
    assert (le_at pq (par (par index)) (par index)) as Hpp by (apply (Hinv (par index)); lia).
    destruct (decide (i = index)) as [->|Hni].
    { eapply le_at_ext; [| |exact Hpp]; swap_slot. }
    apply (le_at_ext pq _ (par (par index)) i); [swap_slot|swap_slot|].
    apply (le_at_trans _ _ _ _ Hpp). rewrite <- Hp. by apply Hinv.
Qed.

Lemma bubble_up_loop_correct fuel pq index :
  pq_wf pq -> (index < length (q pq))%nat -> (index <= fuel)%nat -> up_inv pq index ->
  same_content pq (bubble_up_loop fuel pq index) /\ heap (bubble_up_loop fuel pq index).
Proof.
  revert pq index. induction fuel as [|fuel IH]; intros pq index Hwf Hidx Hf Hinv; simpl.
  { split; [by apply same_content_refl|]. intros i Hi. apply Hinv; lia. }
  destruct (Nat.eqb_spec index 0) as [->|H0].
  { split; [by apply same_content_refl|]. intros i Hi. apply Hinv; lia. }
  destruct (pq_less pq index (par index)) eqn:Hless; simpl.
  - destruct (IH (swap pq (par index) index) (par index)) as [Hs Hh].
    + by apply swap_wf.
    + rewrite swap_length. lia.
    + lia.
    + apply up_inv_swap; [done|lia|done|done].
    + split; [|done]. eapply same_content_trans; [|done]. by apply same_content_swap.
  - split; [by apply same_content_refl|]. intros i Hi.
    destruct (decide (i = index)) as [->|]; [|by apply Hinv].
    apply pq_less_false_le; try done; lia.
Qed.

Lemma bubble_up_correct pq index :
  pq_wf pq -> (index < length (q pq))%nat -> up_inv pq index ->
  same_content pq (bubble_up pq index) /\ heap (bubble_up pq index).
Proof. intros. by apply bubble_up_loop_correct. Qed.

(** Order below level [k], except between [index] and its children; the
    parent of [index] already respects those children. *)
Definition down_inv (k : nat) (pq : nghttp2_pq) (index : nat) : Prop :=
  forall i, (0 < i < length (q pq))%nat ->
    ((k <= par i)%nat -> par i <> index -> le_at pq (par i) i) /\
    (par i = index -> (0 < index)%nat -> (k <= par index)%nat -> le_at pq (par index) i).

Definition heap_from (k : nat) (pq : nghttp2_pq) : Prop :=
  forall i, (0 < i < length (q pq))%nat -> (k <= par i)%nat -> le_at pq (par i) i.

Lemma min_child_spec pq index :
  pq_wf pq -> (index < length (q pq))%nat ->
  let m := min_child pq 2 (index * 2 + 1) index in
  (m < length (q pq))%nat /\ (m = index \/ (0 < m)%nat /\ par m = index) /\
  le_at pq m index /\
  forall i, (0 < i < length (q pq))%nat -> par i = index -> le_at pq m i.
Proof.
  intros Hwf Hidx. simpl.
  pose proof (le_at_refl pq index Hwf Hidx) as Hrefl.
  destruct (Nat.leb_spec (length (q pq)) (index * 2 + 1)) as [|H1].
  { split_and!; [done|by left|done|]. intros i ? ?. lia. }
  set (c1 := (index * 2 + 1)%nat) in *.
  assert (Hc : forall i, (0 < i)%nat -> par i = index -> i = c1 \/ i = (c1 + 1)%nat)
    by (intros; lia).
  assert (Hm1 : exists m1, (if pq_less pq c1 index then c1 else index) = m1 /\
    (m1 < length (q pq))%nat /\ (m1 = index \/ m1 = c1) /\
    le_at pq m1 index /\ le_at pq m1 c1).
  { destruct (pq_less pq c1 index) eqn:E.
    - exists c1. split_and!; [done|done|by right|by apply pq_less_true_le|by apply le_at_refl].
    - exists index. split_and!; [done|done|by left|done|]. by apply pq_less_false_le. }
  destruct Hm1 as (m1 & -> & Hm1 & Hor & Hmi & Hmc).
  destruct (Nat.leb_spec (length (q pq)) (c1 + 1)) as [|H2].
  { split_and!; [done|lia|done|]. intros i Hi Hp.
    destruct (Hc i) as [->| ->]; [lia|done|done|lia]. }
  destruct (pq_less pq (c1 + 1) m1) eqn:E.
  - apply pq_less_true_le in E. split_and!; [done|lia|by eapply le_at_trans|].
    intros i Hi Hp. destruct (Hc i) as [->| ->]; [lia|done|by eapply le_at_trans|].
    by apply le_at_refl.
  - apply pq_less_false_le in E; [|done..]. split_and!; [done|lia|done|].
    intros i Hi Hp. destruct (Hc i) as [->| ->]; [lia|done|done|done].
Qed.

Lemma down_inv_swap k pq index m :
  pq_wf pq -> (k <= index)%nat -> (m < length (q pq))%nat ->
  (0 < m)%nat -> par m = index -> le_at pq m index ->
  (forall i, (0 < i < length (q pq))%nat -> par i = index -> le_at pq m i) ->
  down_inv k pq index -> down_inv k (swap pq index m) m.
Proof.
  intros Hwf Hk Hm H0 Hpm Hle Hmin Hinv i Hi. rewrite swap_length in Hi.
  pose proof (Hinv i Hi) as [Hi1 Hi2]. pose proof (Hinv m (conj H0 Hm)) as [_ Hm2]. split.
  - intros Hki Hne. destruct (decide (i = m)) as [->|Him].
    { eapply le_at_ext; [| |exact Hle]; swap_slot. }
    destruct (decide (par i = index)) as [Hp|Hp].
    { eapply le_at_ext; [| |by apply (Hmin i)]; swap_slot. }
    destruct (decide (i = index)) as [->|Hii].
    { eapply le_at_ext; [| |apply Hm2]; try lia; swap_slot. }
    eapply le_at_ext; [| |by apply Hi1]; swap_slot.
  - intros Hp _ Hk'. eapply le_at_ext; [| |apply Hi1]; try lia; swap_slot.
Qed.

Lemma bubble_down_loop_correct fuel k pq index :
  pq_wf pq -> (index < length (q pq))%nat -> (k <= index)%nat ->
  (length (q pq) - index <= fuel)%nat -> down_inv k pq index ->
  same_content pq (bubble_down_loop fuel pq index) /\
  heap_from k (bubble_down_loop fuel pq index).
Proof.
  revert pq index. induction fuel as [|fuel IH]; intros pq index Hwf Hidx Hk Hf Hinv; [lia|].
  cbn [bubble_down_loop]. pose proof (min_child_spec pq index Hwf Hidx) as Hm. cbv zeta in Hm.
  set (m := min_child pq 2 (index * 2 + 1) index) in *. clearbody m.
  destruct Hm as (Hm & Hor & Hle & Hmin).
  destruct (Nat.eqb_spec m index) as [->|Hne].
  - split; [by apply same_content_refl|]. intros i Hi Hki.
    destruct (decide (par i = index)) as [Hp|Hp].
    + rewrite Hp. by apply Hmin.
    + by apply (Hinv i).
  - destruct Hor as [|[H0 Hp]]; [done|].
    destruct (IH (swap pq index m) m) as [Hs Hh].
    + by apply swap_wf.
    + by rewrite swap_length.
    + lia.
    + rewrite swap_length. lia.
    + by eapply down_inv_swap.
    + split; [|done]. eapply same_content_trans; [|done]. by apply same_content_swap.
Qed.

Lemma bubble_down_correct k pq index :
  pq_wf pq -> (index < length (q pq))%nat -> (k <= index)%nat -> down_inv k pq index ->
  same_content pq (bubble_down pq index) /\ heap_from k (bubble_down pq index).
Proof. intros. apply bubble_down_loop_correct; try done. lia. Qed.

Lemma heap_from_0 pq : heap_from 0 pq <-> heap pq.
Proof. unfold heap_from, heap. split; intros H i Hi; [apply H; lia|]. intros _. by apply H. Qed.

(** The root of a heap precedes every slot. *)
Lemma heap_root_le pq i :
  pq_wf pq -> heap pq -> (i < length (q pq))%nat -> le_at pq 0 i.
Proof.
  intros Hwf Hh. induction (lt_wf i) as [i _ IH]. intros Hi.
  destruct (decide (i = 0%nat)) as [->|]; [by apply le_at_refl|].
  eapply le_at_trans; [apply (IH (par i)); lia|]. apply Hh. lia.
Qed.

(** ** [push] *)

Lemma item_at_ext pq pq' i :
  q pq' !! i = q pq !! i -> items pq' = items pq -> item_at pq' i = item_at pq i.
Proof. intros H H'. by rewrite !item_at_items, H, H'. Qed.

Lemma push_prepare pq cap item :
  pq_wf pq -> heap pq -> is_Some (entries pq !! item) -> item ∉ q pq ->
  (S (length (q pq)) <= cap)%nat ->
  let pq' := mk_pq (q pq ++ [item]) cap
               (alter (set_index (length (q pq))) item (entries pq)) in
  pq_wf pq' /\ up_inv pq' (length (q pq)) /\ items pq' = items pq.
Proof.
  intros [Hi Hc] Hh [e He] Hnin Hcap pq'.
  assert (Hit : items pq' = items pq) by (unfold items, pq'; simpl; apply items_set_index).
  split_and!; [split| |done]; unfold pq'; simpl.
  - intros i l Hl. apply lookup_app_Some in Hl as [Hl|[Hle Hl]].
    + rewrite lookup_alter_ne; [by apply Hi|]. intros ->.
      apply Hnin. apply list_elem_of_lookup. eauto.
    + apply list_lookup_singleton_Some in Hl as [Hi0 <-].
      rewrite lookup_alter_eq, He. simpl. unfold set_index.
      replace i with (length (q pq)) by lia. eauto.
  - rewrite length_app. simpl. lia.
  - intros i Hlt. simpl in Hlt. rewrite length_app in Hlt. simpl in Hlt. split.
    + intros Hne. eapply le_at_ext; [| |apply (Hh i); lia];
        apply item_at_ext; try done; apply lookup_app_l; lia.
    + intros. lia.
Qed.

Lemma push_correct pq ok item :
  pq_wf pq -> heap pq -> is_Some (entries pq !! item) -> item ∉ q pq ->
  ok = true \/ (length (q pq) < capacity pq)%nat ->
  (nghttp2_pq_push pq ok item).2 = 0 /\
  pq_wf (nghttp2_pq_push pq ok item).1 /\ heap (nghttp2_pq_push pq ok item).1 /\
  q (nghttp2_pq_push pq ok item).1 ≡ₚ item :: q pq /\
  items (nghttp2_pq_push pq ok item).1 = items pq.
Proof.
  intros Hwf Hh He Hnin Hok. pose proof (wf_cap _ Hwf) as Hcap.
  set (grow := (capacity pq <=? length (q pq))%nat).
  assert (Hg : grow && negb ok = false).
  { subst grow. destruct Hok as [->|]; [apply andb_false_r|]. bcase; [lia|done]. }
  set (ncap := if grow then Nat.max 4 (capacity pq * 2) else capacity pq).
  assert (Hn : (S (length (q pq)) <= ncap)%nat) by (subst ncap grow; bcase; lia).
  unfold nghttp2_pq_push. fold grow. rewrite Hg. fold ncap. cbn zeta. clearbody ncap grow.
  destruct (push_prepare pq ncap item) as (Hwf' & Hup & Hit); try done.
  destruct (bubble_up_correct _ (length (q pq)) Hwf' ltac:(simpl; rewrite length_app; simpl; lia) Hup)
    as [(?&Hp&Hi&_) Hh'].
  simpl. rewrite length_app. simpl. rewrite Nat.add_sub. split_and!; try done.
  - rewrite Hp. simpl. by rewrite Permutation_app_comm.
  - by rewrite Hi.
Qed.

(** ** [pop] and [remove] *)

(** Comparing two slots that the move left alone. *)
Ltac moved_slot Hat := rewrite Hat by lia; case_decide; try lia; try done.

Lemma pop_correct pq x :
  pq_wf pq -> heap pq -> q pq !! 0%nat = Some x ->
  pq_wf (nghttp2_pq_pop pq) /\ heap (nghttp2_pq_pop pq) /\
  q pq ≡ₚ x :: q (nghttp2_pq_pop pq) /\ items (nghttp2_pq_pop pq) = items pq.
Proof.
  intros Hwf Hh Hx. pose proof (lookup_lt_Some _ _ _ Hx) as Hlen.
  destruct (move_last_wf pq 0 Hwf Hlen) as (Hwf' & Hit & Hlen' & Hat).
  destruct (move_last_shape pq 0 x Hx) as (_ & _ & _ & _ & _ & Hperm).
  unfold nghttp2_pq_pop. destruct (Nat.ltb_spec 0 (length (q pq))); [|lia].
  destruct (decide (length (q pq) = 1%nat)) as [H1|H1].
  - assert (bubble_down (move_last pq 0) 0 = move_last pq 0) as ->.
    { unfold bubble_down. by rewrite Hlen', H1. }
    split_and!; try done. intros i Hi. lia.
  - destruct (bubble_down_correct 0 (move_last pq 0) 0) as [(Hw&Hp&Hi&_) Hf];
      [done|lia|lia| |].
    { intros i Hi. split; [|lia]. intros _ Hne.
      eapply le_at_ext; [| |apply (Hh i); lia]; moved_slot Hat. }
    apply heap_from_0 in Hf. split_and!; try done; [|congruence].
    by rewrite Hperm, Hp.
Qed.

Lemma remove_inner pq i e x :
  pq_wf pq -> heap pq -> (0 < i < length (q pq) - 1)%nat ->
  item_at pq i = Some e -> item_at pq (length (q pq) - 1) = Some x ->
  (less e x = true -> down_inv 0 (move_last pq i) i) /\
  (less e x = false -> up_inv (move_last pq i) i).
Proof.
  intros Hwf Hh Hi He Hx.
  destruct (move_last_wf pq i Hwf ltac:(lia)) as (Hwf' & Hit & Hlen' & Hat).
  assert (Hle : forall j, (0 < j < length (q pq))%nat -> par j = i -> le_at pq i j)
    by (intros j Hj <-; by apply Hh).
  assert (Hpi : le_at pq (par i) i) by (apply Hh; lia).
  split; intros Hless j Hj; (split; [|intros Hp _; try intros _]).
  - intros _ Hne. destruct (decide (j = i)) as [->|].
    + apply (le_at_ext pq _ (par i) (length (q pq) - 1)); [moved_slot Hat|moved_slot Hat|].
      eapply le_at_trans; [done|]. unfold le_at. rewrite He, Hx. by apply less_asym.
    + eapply le_at_ext; [| |apply (Hh j); lia]; moved_slot Hat.
  - apply (le_at_ext pq _ (par i) j); [moved_slot Hat|moved_slot Hat|].
    eapply le_at_trans; [done|]. apply Hle; [lia|done].
  - intros Hne. destruct (decide (par j = i)) as [Hp|Hp].
    + apply (le_at_ext pq _ (length (q pq) - 1) j); [moved_slot Hat|moved_slot Hat|].
      apply (le_at_trans _ _ i); [|apply Hle; [lia|done]].
      unfold le_at. by rewrite He, Hx.
    + eapply le_at_ext; [| |apply (Hh j); lia]; moved_slot Hat.
  - apply (le_at_ext pq _ (par i) j); [moved_slot Hat|moved_slot Hat|].
    eapply le_at_trans; [done|]. apply Hle; [lia|done].
Qed.

Lemma remove_correct pq item :
  pq_wf pq -> heap pq -> item ∈ q pq ->
  exists pq', nghttp2_pq_remove pq item = Some pq' /\
    pq_wf pq' /\ heap pq' /\ q pq ≡ₚ item :: q pq' /\ items pq' = items pq.
Proof.
  intros Hwf Hh Hin. apply list_elem_of_lookup in Hin as [i Hi].
  destruct (wf_index _ Hwf _ _ Hi) as [e He]. pose proof (lookup_lt_Some _ _ _ Hi) as Hlen.
  unfold nghttp2_pq_remove. rewrite He. cbn [e_index e_item]. cbv zeta.
  rewrite bool_decide_true by done. cbn [negb].
  destruct (Nat.eqb_spec i 0) as [->|H0].
  { eexists. split; [done|]. by apply pop_correct. }
  destruct (move_last_wf pq i Hwf Hlen) as (Hwf' & Hit & Hlen' & Hat).
  destruct (move_last_shape pq i item Hi) as (q0 & l & Hq & Hq' & _ & Hperm).
  destruct (Nat.eqb_spec i (length (q pq) - 1)) as [Hlast|Hlast].
  { eexists. split; [done|].
    assert (Htk : take (length (q pq) - 1) (q pq) = q0).
    { rewrite Hq, length_app. simpl. rewrite Nat.add_sub. by rewrite take_app_length'. }
    rewrite Htk. assert (Hl0 : length q0 = (length (q pq) - 1)%nat).
    { rewrite Hq, length_app. simpl. lia. }
    split_and!.
    - split; simpl; [|rewrite Hl0; pose proof (wf_cap _ Hwf); lia].
      intros k l' Hk. apply (wf_index _ Hwf). rewrite Hq. by apply lookup_app_l_Some.
    - intros j Hj. simpl in Hj. eapply le_at_ext; [| |apply (Hh j); lia];
        apply item_at_ext; try done; simpl; rewrite Hq; symmetry; apply lookup_app_l; lia.
    - simpl. by rewrite Hq' , list_insert_ge in Hperm by lia.
    - done. }
  assert (Hat_i : item_at pq i = Some e) by (unfold item_at; rewrite Hi; simpl; by rewrite He).
  destruct (item_at_lt pq (length (q pq) - 1) Hwf ltac:(lia)) as [x Hx].
  assert (item_at (move_last pq i) i = Some x) as -> by moved_slot Hat.
  destruct (remove_inner pq i e x Hwf Hh ltac:(lia) Hat_i Hx) as [Hd Hu].
  destruct (less e x) eqn:Hless.
  - destruct (bubble_down_correct 0 (move_last pq i) i) as [(Hw&Hp&Hitm&_) Hf];
      [done|lia|lia|by apply Hd|].
    apply heap_from_0 in Hf. eexists. split; [done|]. split_and!; try done; [|congruence].
    by rewrite Hperm, Hp.
  - destruct (bubble_up_correct (move_last pq i) i) as [(Hw&Hp&Hitm&_) Hf];
      [done|lia|by apply Hu|].
    eexists. split; [done|]. split_and!; try done; [|congruence].
    by rewrite Hperm, Hp.
Qed.

(** ** [update] *)

Lemma heapify_correct i pq :
  pq_wf pq -> (i <= length (q pq))%nat -> heap_from i pq ->
  same_content pq (heapify i pq) /\ heap (heapify i pq).
Proof.
  revert pq. induction i as [|i IH]; intros pq Hwf Hi Hf; simpl.
  { split; [by apply same_content_refl|by apply heap_from_0]. }
  destruct (bubble_down_correct i pq i) as [Hs Hf']; [done|lia|lia| |].
  { intros j Hj. split; [|lia]. intros ? ?. apply Hf; lia. }
  destruct (IH (bubble_down pq i)) as [Hs' Hh].
  - apply Hs.
  - rewrite (same_content_length _ _ Hs). lia.
  - done.
  - split; [by eapply same_content_trans|done].
Qed.

(** The callback is applied to every queued object, once. *)
Lemma pq_update_items_spec f ls es :
  NoDup ls -> (forall l, l ∈ ls -> is_Some (es !! l)) ->
  let '(es', rv) := pq_update_items f ls es in
  (forall l, es' !! l =
    if decide (l ∈ ls) then (fun e => mk_entry (e_index e) (f (e_item e)).1) <$> es !! l
    else es !! l) /\
  rv = existsb (fun l => match es !! l with Some e => (f (e_item e)).2 | None => false end) ls.
Proof.
  revert es. induction ls as [|l ls IH]; intros es Hnd Hin; cbn [pq_update_items existsb].
  { split; [|done]. intros l. rewrite decide_False; [done|apply not_elem_of_nil]. }
  apply NoDup_cons in Hnd as [Hl Hnd].
  destruct (Hin l) as [e He]; [left|]. rewrite He.
  destruct (f (e_item e)) as [x rv] eqn:Hf.
  specialize (IH (<[l := mk_entry (e_index e) x]> es) Hnd).
  destruct (pq_update_items f ls _) as [es' rv'].
  destruct IH as [IH1 IH2].
  { intros l' Hl'. rewrite lookup_insert. case_decide; [eauto|]. apply Hin. by right. }
  split.
  - intros l'. rewrite IH1. destruct (decide (l' = l)) as [->|Hne].
    + rewrite decide_False by done. rewrite decide_True by left.
      rewrite lookup_insert_eq, He. simpl. by rewrite Hf.
    + rewrite lookup_insert_ne by done.
      apply decide_ext. set_solver.
  - rewrite IH2. cbn [snd]. f_equal. clear IH1 IH2 Hin.
    induction ls as [|l' ls IH]; [done|]. simpl.
    apply not_elem_of_cons in Hl as [Hne Hl]. apply NoDup_cons in Hnd as [_ Hnd].
    rewrite lookup_insert_ne by done. f_equal. by apply IH.
Qed.

Lemma update_correct pq f :
  pq_wf pq -> heap pq ->
  (forall i a, item_at pq i = Some a -> (f a).2 = false -> (f a).1 = a) ->
  pq_wf (nghttp2_pq_update pq f) /\ heap (nghttp2_pq_update pq f) /\
  q (nghttp2_pq_update pq f) ≡ₚ q pq /\
  forall l, items (nghttp2_pq_update pq f) !! l =
    if decide (l ∈ q pq) then (fun a => (f a).1) <$> items pq !! l else items pq !! l.
Proof.
  intros Hwf Hh Hf. unfold nghttp2_pq_update.
  destruct (Nat.eqb_spec (length (q pq)) 0) as [H0|H0].
  { split_and!; try done. intros l. apply nil_length_inv in H0. rewrite H0.
    rewrite decide_False; [done|apply not_elem_of_nil]. }
  assert (Hin : forall l, l ∈ q pq -> is_Some (entries pq !! l)).
  { intros l Hl. apply list_elem_of_lookup in Hl as [i Hi].
    destruct (wf_index _ Hwf _ _ Hi) as [x ->]. eauto. }
  pose proof (pq_update_items_spec f (q pq) (entries pq) (wf_NoDup _ Hwf) Hin) as Hspec.
  destruct (pq_update_items f (q pq) (entries pq)) as [es rv]. destruct Hspec as [Hes Hrv].
  set (pq' := mk_pq (q pq) (capacity pq) es).
  assert (Hwf' : pq_wf pq').
  { split; [|apply Hwf]. simpl. intros i l Hl. rewrite Hes.
    rewrite decide_True by (apply list_elem_of_lookup; eauto).
    destruct (wf_index _ Hwf _ _ Hl) as [x ->]. simpl. eauto. }
  assert (Hit : forall l, items pq' !! l =
    if decide (l ∈ q pq) then (fun a => (f a).1) <$> items pq !! l else items pq !! l).
  { intros l. unfold items. simpl. rewrite !lookup_fmap, Hes. case_decide; [|done].
    by destruct (entries pq !! l). }
  destruct rv.
  - destruct (heapify_correct (length (q pq)) pq') as [(Hw&Hp&Hi&_) Hh'];
      [done|done| |].
    { intros i Hi. simpl in Hi. lia. }
    split_and!; try done. intros l. by rewrite Hi.
  - split_and!; try done. intros i Hi. simpl in Hi.
    assert (Hsame : forall k, (k < length (q pq))%nat -> item_at pq' k = item_at pq k).
    { intros k Hk. destruct (item_at_lt pq k Hwf Hk) as [a Ha]. rewrite Ha.
      rewrite item_at_items. simpl. pose proof Ha as Ha'. rewrite item_at_items in Ha'.
      destruct (q pq !! k) as [l|] eqn:Hl; [|done]. simpl in *. rewrite Hit.
      rewrite decide_True by (apply list_elem_of_lookup; eauto). rewrite Ha'. simpl. f_equal.
      apply (Hf k); [done|]. symmetry in Hrv.
      destruct (f a).2 eqn:Hfa; [|done]. exfalso.
      enough (existsb (fun l => match entries pq !! l with
        Some e => (f (e_item e)).2 | None => false end) (q pq) = true) by congruence.
      apply existsb_exists. exists l. split.
      - apply list_elem_of_In, list_elem_of_lookup. eauto.
      - unfold items in Ha'. rewrite lookup_fmap in Ha'.
        destruct (entries pq !! l); simpl in Ha'; [|done]. by simplify_eq. }
    eapply le_at_ext; [| |by apply (Hh i)]; apply Hsame; lia.
Qed.

Lemma init_wf es : pq_wf (nghttp2_pq_init es) /\ heap_ok (nghttp2_pq_init es).
Proof. split; [split; [by intros ? ?|done]|]. intros i Hi. simpl in Hi. lia. Qed.
End Pq.

Arguments nghttp2_pq_entry : clear implicits.
Arguments nghttp2_pq : clear implicits.

(** [nghttp2_pq_push] keeps the heap order and the back pointers, adds
    exactly the new entry, leaves every queued object alone, and fails only
    when the array is full and cannot be grown. *)
Theorem nghttp2_pq_push_correct {A} (less : A -> A -> bool) `{!LessOrder less}
    (pq : nghttp2_pq A) (realloc_ok : bool) (item : Z) :
  pq_wf pq -> heap_ok less pq -> is_Some (entries pq !! item) -> item ∉ q pq ->
  let '(pq', rv) := nghttp2_pq_push less pq realloc_ok item in
  pq_wf pq' /\ heap_ok less pq' /\ items pq' = items pq /\
  (rv = 0 /\ q pq' ≡ₚ item :: q pq \/
   rv = NGHTTP2_ERR_NOMEM /\ pq' = pq /\ realloc_ok = false /\
   length (q pq) = capacity pq).
Proof.
  intros Hwf Hh He Hnin. pose proof (wf_cap _ Hwf).
  destruct (decide (realloc_ok = true \/ (length (q pq) < capacity pq)%nat)) as [Hok|Hno].
  - apply heap_ok_heap in Hh; [|done].
    destruct (push_correct less pq realloc_ok item Hwf Hh He Hnin Hok) as (?&?&?&?&?).
    destruct (nghttp2_pq_push less pq realloc_ok item) as [pq' rv]. simpl in *.
    split_and!; [done|by apply heap_ok_heap|done|by left].
  - unfold nghttp2_pq_push.
    assert (realloc_ok = false) as -> by (destruct realloc_ok; tauto).
    destruct (Nat.leb_spec (capacity pq) (length (q pq))); [|exfalso; apply Hno; lia].
    simpl. split_and!; try done. right. split_and!; try done. lia.
Qed.

(** Three queued objects, for the witnesses. *)
Definition sample_entries : gmap Z (nghttp2_pq_entry Z) :=
  list_to_map [(1, mk_entry 0 30); (2, mk_entry 0 10); (3, mk_entry 0 20)].

Definition sample_pq : nghttp2_pq Z :=
  (nghttp2_pq_push Z.ltb
    (nghttp2_pq_push Z.ltb
      (nghttp2_pq_push Z.ltb (nghttp2_pq_init sample_entries) true 1).1 true 2).1 true 3).1.

Lemma sample_pq_wf : pq_wf sample_pq /\ heap_ok Z.ltb sample_pq.
Proof.
  split; [split|].
  - intros [|[|[|i]]] l Hl; vm_compute in Hl; simplify_eq; eexists; vm_compute; reflexivity.
  - vm_compute. lia.
  - intros [|[|[|i]]] Hi; vm_compute in Hi; try lia; vm_compute; reflexivity.
Qed.

Lemma nghttp2_pq_push_correct_witness :
  heap_ok Z.ltb (nghttp2_pq_push Z.ltb (nghttp2_pq_init sample_entries) true 1).1.
Proof.
  pose proof (nghttp2_pq_push_correct Z.ltb (nghttp2_pq_init sample_entries) true 1
    (proj1 (init_wf Z.ltb _)) (proj2 (init_wf Z.ltb _))
    ltac:(vm_compute; eauto) ltac:(apply not_elem_of_nil)) as H.
  destruct (nghttp2_pq_push Z.ltb (nghttp2_pq_init sample_entries) true 1) as [pq' rv].
  apply H.
Defined.

(** [nghttp2_pq_top] returns an entry that no queued entry precedes, and
    [nghttp2_pq_pop] removes exactly that entry, keeping the heap order, the
    back pointers and the objects. *)
Theorem nghttp2_pq_pop_removes_min {A} (less : A -> A -> bool) `{!LessOrder less}
    (pq : nghttp2_pq A) :
  pq_wf pq -> heap_ok less pq -> q pq <> [] ->
  exists top x, nghttp2_pq_top pq = Some top /\ items pq !! top = Some x /\
    (forall l y, l ∈ q pq -> items pq !! l = Some y -> less y x = false) /\
    q pq ≡ₚ top :: q (nghttp2_pq_pop less pq) /\
    pq_wf (nghttp2_pq_pop less pq) /\ heap_ok less (nghttp2_pq_pop less pq) /\
    items (nghttp2_pq_pop less pq) = items pq.
Proof.
  intros Hwf Hh Hne. apply heap_ok_heap in Hh; [|done].
  destruct (q pq !! 0%nat) as [top|] eqn:Htop; [|by destruct (q pq)].
  destruct (pop_correct less pq top Hwf Hh Htop) as (?&?&?&?).
  destruct (wf_index _ Hwf _ _ Htop) as [x Hx].
  exists top, x. split_and!; try done; [by unfold items; rewrite lookup_fmap, Hx| |by apply heap_ok_heap].
  intros l y Hl Hy. apply list_elem_of_lookup in Hl as [i Hi].
  pose proof (heap_root_le less pq i Hwf Hh (lookup_lt_Some _ _ _ Hi)) as Hle.
  unfold le_at in Hle. rewrite !item_at_items, Hi, Htop in Hle. simpl in Hle.
  rewrite Hy in Hle. unfold items in Hle. by rewrite lookup_fmap, Hx in Hle.
Qed.

Lemma nghttp2_pq_pop_removes_min_witness :
  exists top x, nghttp2_pq_top sample_pq = Some top /\ items sample_pq !! top = Some x /\
    q sample_pq ≡ₚ top :: q (nghttp2_pq_pop Z.ltb sample_pq).
Proof.
  destruct (nghttp2_pq_pop_removes_min Z.ltb sample_pq (proj1 sample_pq_wf)
    (proj2 sample_pq_wf) ltac:(vm_compute; discriminate)) as (top & x & ? & ? & _ & ? & _).
  exists top, x. auto.
Defined.

(** [nghttp2_pq_remove] takes an arbitrary queued entry out: its assertion
    holds, whichever direction the moved entry has to travel the order is
    restored, and no other entry is lost or changed. *)
Theorem nghttp2_pq_remove_correct {A} (less : A -> A -> bool) `{!LessOrder less}
    (pq : nghttp2_pq A) (item : Z) :
  pq_wf pq -> heap_ok less pq -> item ∈ q pq ->
  exists pq', nghttp2_pq_remove less pq item = Some pq' /\
    pq_wf pq' /\ heap_ok less pq' /\ q pq ≡ₚ item :: q pq' /\ items pq' = items pq.
Proof.
  intros Hwf Hh Hin. apply heap_ok_heap in Hh; [|done].
  destruct (remove_correct less pq item Hwf Hh Hin) as (pq' & ? & ? & ? & ? & ?).
  exists pq'. split_and!; try done. by apply heap_ok_heap.
Qed.

Lemma nghttp2_pq_remove_correct_witness :
  exists pq', nghttp2_pq_remove Z.ltb sample_pq 1 = Some pq' /\ q sample_pq ≡ₚ 1 :: q pq'.
Proof.
  destruct (nghttp2_pq_remove_correct Z.ltb sample_pq 1 (proj1 sample_pq_wf)
    (proj2 sample_pq_wf)) as (pq' & ? & _ & _ & ? & _).
  - apply (bool_decide_unpack _). vm_compute. exact I.
  - exists pq'. auto.
Defined.

(** [nghttp2_pq_update] applies the callback once to every queued object;
    if each object whose callback answered 0 was left unchanged, the result is
    a well-formed heap of the same entries, whatever the other callbacks did. *)
Theorem nghttp2_pq_update_restores_heap {A} (less : A -> A -> bool) `{!LessOrder less}
    (pq : nghttp2_pq A) (f : A -> A * bool) :
  pq_wf pq -> heap_ok less pq ->
  (forall i a, item_at pq i = Some a -> (f a).2 = false -> (f a).1 = a) ->
  pq_wf (nghttp2_pq_update less pq f) /\ heap_ok less (nghttp2_pq_update less pq f) /\
  q (nghttp2_pq_update less pq f) ≡ₚ q pq /\
  forall l, items (nghttp2_pq_update less pq f) !! l =
    if decide (l ∈ q pq) then (fun a => (f a).1) <$> items pq !! l else items pq !! l.
Proof.
  intros Hwf Hh Hf. apply heap_ok_heap in Hh; [|done].
  destruct (update_correct less pq f Hwf Hh Hf) as (?&?&?&?).
  split_and!; try done. by apply heap_ok_heap.
Qed.

Lemma nghttp2_pq_update_restores_heap_witness :
  heap_ok Z.ltb (nghttp2_pq_update Z.ltb sample_pq (fun a => (- a, true))).
Proof.
  apply (nghttp2_pq_update_restores_heap Z.ltb sample_pq (fun a => (- a, true))
    (proj1 sample_pq_wf) (proj2 sample_pq_wf)).
  intros i a _ H. discriminate H.
Defined.

(** ** Without assumptions on the order

    Membership, positions and objects do not depend on what the comparison
    function answers, and entries of other queues are left alone. *)
Section PqAny.
Context {A : Type} (less : A -> A -> bool).
Implicit Types pq : nghttp2_pq A.

Definition kept pq pq' : Prop :=
  same_content pq pq' /\ forall l, l ∉ q pq -> entries pq' !! l = entries pq !! l.

Lemma kept_refl pq : pq_wf pq -> kept pq pq.
Proof. done. Qed.

Lemma kept_trans pq1 pq2 pq3 : kept pq1 pq2 -> kept pq2 pq3 -> kept pq1 pq3.
Proof.
  intros [H1 F1] [H2 F2]. split; [by eapply same_content_trans|]. intros l Hl.
  rewrite F2, F1; [done|done|]. destruct H1 as (_ & -> & _). done.
Qed.

Lemma kept_swap pq i j : pq_wf pq -> kept pq (swap pq i j).
Proof.
  intros Hwf. split; [by apply same_content_swap|]. intros l Hl. unfold swap.
  destruct (q pq !! i) as [a|] eqn:Ha; [|done]. destruct (q pq !! j) as [b|] eqn:Hb; [|done]. simpl.
  rewrite !lookup_alter_ne; [done| |]; intros ->; apply Hl, list_elem_of_lookup; eauto.
Qed.

Lemma bubble_up_kept pq index : pq_wf pq -> kept pq (bubble_up less pq index).
Proof.
  unfold bubble_up. generalize index at 1. intros fuel.
  revert pq index. induction fuel as [|fuel IH]; intros pq index Hwf; simpl; [by apply kept_refl|].
  destruct (index =? 0)%nat; [by apply kept_refl|].
  destruct (pq_less less pq index _); simpl; [|by apply kept_refl].
  eapply kept_trans; [by apply kept_swap|]. apply IH. by apply swap_wf.
Qed.

Lemma bubble_down_kept pq index : pq_wf pq -> kept pq (bubble_down less pq index).
Proof.
  unfold bubble_down. generalize (length (q pq)). intros fuel.
  revert pq index. induction fuel as [|fuel IH]; intros pq index Hwf; cbn [bubble_down_loop]; [by apply kept_refl|].
  cbv zeta. destruct (_ =? index)%nat; [by apply kept_refl|].
  eapply kept_trans; [by apply kept_swap|]. apply IH. by apply swap_wf.
Qed.

(** What is left of a queue without its entry [item]. *)
Definition removed pq item pq' : Prop :=
  pq_wf pq' /\ q pq ≡ₚ item :: q pq' /\ items pq' = items pq /\ capacity pq' = capacity pq /\
  forall l, l ∉ q pq -> entries pq' !! l = entries pq !! l.

Lemma removed_kept pq item pq1 pq2 : removed pq item pq1 -> kept pq1 pq2 -> removed pq item pq2.
Proof.
  intros (_ & H1 & H2 & H3 & F1) [(H4 & H5 & H6 & H7) F2]. split_and!; [done| |congruence|congruence|].
  - by rewrite H1, H5.
  - intros l Hl. rewrite F2, F1; [done|done|]. intros Hin. apply Hl. rewrite H1. by right.
Qed.

Lemma move_last_removed pq i item : pq_wf pq -> q pq !! i = Some item -> removed pq item (move_last pq i).
Proof.
  intros Hwf Hi. pose proof (lookup_lt_Some _ _ _ Hi) as Hlen.
  destruct (move_last_wf pq i Hwf Hlen) as (Hwf' & Hit & _ & _).
  destruct (move_last_shape pq i item Hi) as (q0 & l & Hq & _ & He & Hperm).
  split_and!; [done|done|done| |].
  - unfold move_last. by rewrite Hq, last_snoc.
  - intros k Hk. rewrite He, lookup_alter_ne; [done|]. intros ->. apply Hk. rewrite Hq. set_solver.
Qed.

Lemma push_any pq ok item : pq_wf pq -> is_Some (entries pq !! item) -> item ∉ q pq ->
  (ok = false /\ nghttp2_pq_push less pq ok item = (pq, NGHTTP2_ERR_NOMEM) /\ (capacity pq <= length (q pq))%nat) \/
  exists pq', nghttp2_pq_push less pq ok item = (pq', 0) /\
    pq_wf pq' /\ q pq' ≡ₚ item :: q pq /\ items pq' = items pq /\
    forall l, l ∉ item :: q pq -> entries pq' !! l = entries pq !! l.
Proof.
  intros Hwf [e He] Hnin. pose proof (wf_cap _ Hwf) as Hcap. unfold nghttp2_pq_push.
  destruct ((capacity pq <=? length (q pq))%nat && negb ok) eqn:Hg.
  { left. apply andb_true_iff in Hg as [Hg%Nat.leb_le Hok%negb_true_iff]. done. }
  right. set (ncap := if (capacity pq <=? length (q pq))%nat then Nat.max 4 (capacity pq * 2) else capacity pq).
  assert (S (length (q pq)) <= ncap)%nat as Hn.
  { subst ncap. destruct (Nat.leb_spec (capacity pq) (length (q pq))); lia. }
  clearbody ncap. cbv zeta. set (pq1 := mk_pq (q pq ++ [item]) ncap (alter (set_index (length (q pq))) item (entries pq))).
  assert (pq_wf pq1) as Hwf1.
  { split; simpl; [|rewrite length_app; simpl; lia]. intros i l [Hl|[Hle Hl]]%lookup_app_Some.
    - rewrite lookup_alter_ne; [by apply (wf_index _ Hwf)|]. intros ->. apply Hnin, list_elem_of_lookup. eauto.
    - apply list_lookup_singleton_Some in Hl as [Hi0 <-]. rewrite lookup_alter_eq, He. simpl.
      unfold set_index. replace i with (length (q pq)) by lia. eauto. }
  destruct (bubble_up_kept pq1 (length (q pq1) - 1) Hwf1) as [(H1 & H2 & H3 & _) F].
  eexists. split; [done|]. split_and!; [done| | |].
  - rewrite H2. simpl. by rewrite Permutation_app_comm.
  - rewrite H3. apply items_set_index.
  - intros l Hl. rewrite F by (simpl; set_solver). simpl. apply lookup_alter_ne. set_solver.
Qed.

Lemma remove_any pq item : pq_wf pq -> item ∈ q pq ->
  exists pq', nghttp2_pq_remove less pq item = Some pq' /\ removed pq item pq'.
Proof.
  intros Hwf Hin. apply list_elem_of_lookup in Hin as [i Hi].
  destruct (wf_index _ Hwf _ _ Hi) as [e He]. pose proof (lookup_lt_Some _ _ _ Hi) as Hlen.
  pose proof (move_last_removed pq i item Hwf Hi) as Hrm. pose proof Hrm as (Hwf' & _).
  unfold nghttp2_pq_remove. rewrite He. cbn [e_index e_item]. cbv zeta.
  rewrite bool_decide_true by done. cbn [negb]. destruct (Nat.eqb_spec i 0) as [->|H0].
  { eexists. split; [done|]. unfold nghttp2_pq_pop. destruct (Nat.ltb_spec 0 (length (q pq))); [|lia].
    eapply removed_kept; [done|]. by apply bubble_down_kept. }
  destruct (Nat.eqb_spec i (length (q pq) - 1)) as [Hlast|Hlast].
  { destruct (move_last_shape pq i item Hi) as (q0 & l & Hq & Hq' & _ & Hperm).
    assert (length q0 = (length (q pq) - 1)%nat) as Hl0 by (rewrite Hq, length_app; simpl; lia).
    rewrite Hq', list_insert_ge in Hperm by lia. eexists. split; [done|].
    assert (take (length (q pq) - 1) (q pq) = q0) as -> by (rewrite Hq at 2; apply take_app_length'; lia).
    split_and!; [|done|done|done|done]. split; simpl; [|pose proof (wf_cap _ Hwf); lia].
    intros k l' Hk. apply (wf_index _ Hwf). rewrite Hq. by apply lookup_app_l_Some. }
  destruct (move_last_wf pq i Hwf Hlen) as (_ & _ & Hlen' & _).
  destruct (item_at_lt (move_last pq i) i Hwf' ltac:(lia)) as [x ->].
  destruct (less e x); (eexists; split; [done|]); (eapply removed_kept; [done|]);
    [by apply bubble_down_kept|by apply bubble_up_kept].
Qed.

End PqAny.
