(* ===== verification/Map.v ===== *)
(** * Hash map from stream ids to streams (nghttp2_map.c)

    An open-addressing table with Robin Hood probing and backward-shift
    deletion.  A bucket whose [data] is [NULL] is free; the others satisfy the
    Robin Hood invariant: along the table, the displacement of a bucket from
    its home slot grows by at most one ([robin_hood]).  Lookup may stop early
    because of it, insertion and deletion re-establish it, and the map as a
    whole refines a finite map ([map_rep]).

    The loops of the code are unbounded [for (;;)]; the model gives them the
    table length as fuel and answers [None] when it runs out, and the
    theorems show that they always return. *)

From S2P Require Import Prelude Defs.

Section Map.
Context {A : Type}.

Record nghttp2_map_bucket := mk_bucket {
  b_hash : Z;
  b_key : Z;
  b_data : option A;
}.

Record nghttp2_map := mk_map {
  table : list nghttp2_map_bucket;
  m_size : Z;
  tablelen : Z;
  tablelenbits : Z;
}.

Definition NGHTTP2_INITIAL_TABLE_LENBITS : Z := 4.

Definition nghttp2_map_init : nghttp2_map := mk_map [] 0 0 0.

(** The values handed to [func], in table order. *)
Definition nghttp2_map_each_free (map : nghttp2_map) : list A := omap b_data (table map).

Fixpoint map_each_loop (f : A -> Z) (t : list nghttp2_map_bucket) : Z :=
  match t with
  | [] => 0
  | bkt :: t =>
      match b_data bkt with
      | None => map_each_loop f t
      | Some d => if f d =? 0 then map_each_loop f t else f d
      end
  end.

Definition nghttp2_map_each (map : nghttp2_map) (f : A -> Z) : Z :=
  if m_size map =? 0 then 0 else map_each_loop f (table map).

(** [(uint32_t)key * 2654435769u] *)
Definition hash (key : Z) : Z := u32 (u32 key * 2654435769).

Definition h2idx (hash bits : Z) : Z := Z.shiftr hash (32 - bits).

Definition distance (tablelen tablelenbits : Z) (bkt : nghttp2_map_bucket) (idx : Z) : Z :=
  u64 (idx - h2idx (b_hash bkt) tablelenbits) .& (tablelen - 1).

Definition slot (t : list nghttp2_map_bucket) (i : Z) : option nghttp2_map_bucket :=
  t !! Z.to_nat i.

Definition set_slot (t : list nghttp2_map_bucket) (i : Z) (b : nghttp2_map_bucket)
    : list nghttp2_map_bucket := <[Z.to_nat i := b]> t.

Definition empty_bucket : nghttp2_map_bucket := mk_bucket 0 0 None.

Definition next_idx (tablelen idx : Z) : Z := (idx + 1) .& (tablelen - 1).

Fixpoint insert_loop (fuel : nat) (t : list nghttp2_map_bucket) (tablelen bits : Z)
    (idx d h k : Z) (v : option A) : option (list nghttp2_map_bucket * Z) :=
  match fuel with
  | O => None
  | S fuel =>
      match slot t idx with
      | None => None
      | Some bkt =>
          match b_data bkt with
          | None => Some (set_slot t idx (mk_bucket h k v), 0)
          | Some _ =>
              let dd := distance tablelen bits bkt idx in
              if dd <? d then
                insert_loop fuel (set_slot t idx (mk_bucket h k v)) tablelen bits
                  (next_idx tablelen idx) (dd + 1) (b_hash bkt) (b_key bkt) (b_data bkt)
              else if b_key bkt =? k then Some (t, NGHTTP2_ERR_INVALID_ARGUMENT)
              else insert_loop fuel t tablelen bits (next_idx tablelen idx) (d + 1) h k v
          end
      end
  end.

Definition insert (t : list nghttp2_map_bucket) (tablelen bits h k : Z) (v : option A)
    : option (list nghttp2_map_bucket * Z) :=
  insert_loop (Z.to_nat tablelen) t tablelen bits (h2idx h bits) 0 h k v.

(** The re-insertion loop; [None] also when [assert(0 == rv)] fails. *)
Fixpoint map_resize_loop (old nt : list nghttp2_map_bucket) (tablelen bits : Z)
    : option (list nghttp2_map_bucket) :=
  match old with
  | [] => Some nt
  | bkt :: old =>
      match b_data bkt with
      | None => map_resize_loop old nt tablelen bits
      | Some _ =>
          match insert nt tablelen bits (b_hash bkt) (b_key bkt) (b_data bkt) with
          | Some (nt', rv) => if rv =? 0 then map_resize_loop old nt' tablelen bits else None
          | None => None
          end
      end
  end.

(** [calloc_ok]: whether the allocator delivered the new table. *)
Definition map_resize (map : nghttp2_map) (calloc_ok : bool) (new_tablelen new_bits : Z)
    : option (nghttp2_map * Z) :=
  if negb calloc_ok then Some (map, NGHTTP2_ERR_NOMEM)
  else
    match map_resize_loop (table map) (replicate (Z.to_nat new_tablelen) empty_bucket)
            new_tablelen new_bits with
    | Some nt => Some (mk_map nt (m_size map) new_tablelen new_bits, 0)
    | None => None
    end.

(** The load-factor check at the head of [nghttp2_map_insert]. *)
Definition map_ensure_room (map : nghttp2_map) (calloc_ok : bool) : option (nghttp2_map * Z) :=
  if u64 (u64 (m_size map + 1) * 4) >? u32 (tablelen map * 3) then
    if negb (tablelen map =? 0) then
      map_resize map calloc_ok (u32 (tablelen map * 2)) (u32 (tablelenbits map + 1))
    else
      map_resize map calloc_ok (Z.shiftl 1 NGHTTP2_INITIAL_TABLE_LENBITS)
        NGHTTP2_INITIAL_TABLE_LENBITS
  else Some (map, 0).

Definition nghttp2_map_insert (map : nghttp2_map) (calloc_ok : bool) (key : Z) (data : A)
    : option (nghttp2_map * Z) :=
  match map_ensure_room map calloc_ok with
  | None => None
  | Some (map1, rv) =>
      if negb (rv =? 0) then Some (map1, rv)
      else
        match insert (table map1) (tablelen map1) (tablelenbits map1) (hash key) key
                (Some data) with
        | None => None
        | Some (t, rv) =>
            let map2 := mk_map t (m_size map1) (tablelen map1) (tablelenbits map1) in
            if negb (rv =? 0) then Some (map2, rv)
            else Some (mk_map t (u64 (m_size map1 + 1)) (tablelen map1) (tablelenbits map1), 0)
        end
  end.

Fixpoint find_loop (fuel : nat) (map : nghttp2_map) (idx d key : Z) : option (option A) :=
  match fuel with
  | O => None
  | S fuel =>
      match slot (table map) idx with
      | None => None
      | Some bkt =>
          match b_data bkt with
          | None => Some None
          | Some v =>
              if distance (tablelen map) (tablelenbits map) bkt idx <? d then Some None
              else if b_key bkt =? key then Some (Some v)
              else find_loop fuel map (next_idx (tablelen map) idx) (d + 1) key
          end
      end
  end.

(** [Some None] is the answer [NULL]. *)
Definition nghttp2_map_find (map : nghttp2_map) (key : Z) : option (option A) :=
  if m_size map =? 0 then Some None
  else find_loop (Z.to_nat (tablelen map)) map (h2idx (hash key) (tablelenbits map)) 0 key.

(** The inner loop of [nghttp2_map_remove]: shift the run that follows the
    hole [didx] back by one. *)
Fixpoint shift_back_loop (fuel : nat) (t : list nghttp2_map_bucket) (tablelen bits : Z)
    (didx idx : Z) : option (list nghttp2_map_bucket) :=
  match fuel with
  | O => None
  | S fuel =>
      match slot t idx with
      | None => None
      | Some bkt =>
          match b_data bkt with
          | None => Some t
          | Some _ =>
              if distance tablelen bits bkt idx =? 0 then Some t
              else
                shift_back_loop fuel (set_slot (set_slot t didx bkt) idx empty_bucket)
                  tablelen bits idx (next_idx tablelen idx)
          end
      end
  end.

Fixpoint remove_loop (fuel : nat) (map : nghttp2_map) (idx d key : Z)
    : option (nghttp2_map * Z) :=
  match fuel with
  | O => None
  | S fuel =>
      match slot (table map) idx with
      | None => None
      | Some bkt =>
          match b_data bkt with
          | None => Some (map, NGHTTP2_ERR_INVALID_ARGUMENT)
          | Some _ =>
              if distance (tablelen map) (tablelenbits map) bkt idx <? d
              then Some (map, NGHTTP2_ERR_INVALID_ARGUMENT)
              else if b_key bkt =? key then
                match shift_back_loop (Z.to_nat (tablelen map))
                        (set_slot (table map) idx empty_bucket) (tablelen map)
                        (tablelenbits map) idx (next_idx (tablelen map) idx) with
                | None => None
                | Some t =>
                    Some (mk_map t (u64 (m_size map - 1)) (tablelen map) (tablelenbits map), 0)
                end
              else remove_loop fuel map (next_idx (tablelen map) idx) (d + 1) key
          end
      end
  end.

Definition nghttp2_map_remove (map : nghttp2_map) (key : Z) : option (nghttp2_map * Z) :=
  if m_size map =? 0 then Some (map, NGHTTP2_ERR_INVALID_ARGUMENT)
  else remove_loop (Z.to_nat (tablelen map)) map (h2idx (hash key) (tablelenbits map)) 0 key.

Definition nghttp2_map_clear (map : nghttp2_map) : nghttp2_map :=
  if tablelen map =? 0 then map
  else mk_map (replicate (length (table map)) empty_bucket) 0 (tablelen map) (tablelenbits map).

Definition nghttp2_map_size (map : nghttp2_map) : Z := m_size map.

(** ** The table as a cyclic array of [len = 2 ^ bits] slots *)

Section Table.
Context (bits : Z) (Hbits : 1 <= bits <= 32).

Abbreviation len := (2 ^ bits).

(** The slot after [i], and how far [i] lies behind [h] in probe order. *)
Definition nx (i : Z) : Z := (i + 1) mod len.
Definition ds (h i : Z) : Z := (i - h) mod len.

Definition home (b : nghttp2_map_bucket) : Z := h2idx (b_hash b) bits.

(** Displacement of the bucket in slot [i]; [-1] for a free slot. *)
Definition disp (t : list nghttp2_map_bucket) (i : Z) : Z :=
  match slot t i with
  | Some b => match b_data b with Some _ => ds (home b) i | None => -1 end
  | None => -1
  end.

Definition robin_hood (t : list nghttp2_map_bucket) : Prop :=
  forall i, 0 <= i < len -> disp t (nx i) <= disp t i + 1.

(** [t] holds exactly the associations of [g], each once, with its hash. *)
Record table_rep (t : list nghttp2_map_bucket) (g : gmap Z A) : Prop := {
  tr_lookup : forall k v, g !! k = Some v <->
    exists j b, 0 <= j < len /\ slot t j = Some b /\ b_key b = k /\ b_data b = Some v;
  tr_unique : forall i j b c, 0 <= i < len -> 0 <= j < len ->
    slot t i = Some b -> slot t j = Some c ->
    is_Some (b_data b) -> is_Some (b_data c) -> b_key b = b_key c -> i = j;
  tr_hash : forall j b, 0 <= j < len -> slot t j = Some b -> is_Some (b_data b) ->
    b_hash b = hash (b_key b);
  tr_length : zlen t = len;
}.

Lemma n_pos : 2 <= len.
Proof. change 2 with (2 ^ 1) at 1. apply Z.pow_le_mono_r; lia. Qed.

Lemma n_le_u32 : len <= 2 ^ 32.
Proof. apply Z.pow_le_mono_r; lia. Qed.

Lemma nx_cases i : 0 <= i < len ->
  0 <= nx i < len /\ (nx i = i + 1 /\ i + 1 < len \/ i = len - 1 /\ nx i = 0).
Proof.
  intros Hi. pose proof n_pos. unfold nx. split; [apply Z.mod_pos_bound; lia|].
  destruct (decide (i + 1 < len)); [left; rewrite Z.mod_small; lia|].
  right. assert (i + 1 = len) as -> by lia. rewrite Z.mod_same; lia.
Qed.

Lemma ds_cases h i : 0 <= h < len -> 0 <= i < len ->
  0 <= ds h i < len /\ (ds h i = i - h /\ h <= i \/ ds h i = i - h + len /\ i < h).
Proof.
  intros Hh Hi. pose proof n_pos. unfold ds. split; [apply Z.mod_pos_bound; lia|].
  destruct (decide (h <= i)); [left; rewrite Z.mod_small; lia|].
  right. rewrite <- (Z.mod_add _ 1) by lia. rewrite Z.mod_small; lia.
Qed.

Lemma h2idx_range h : is_u32 h -> 0 <= h2idx h bits < len.
Proof.
  intros Hh. unfold h2idx. rewrite Z.shiftr_div_pow2 by lia. unfold is_u32 in Hh.
  split; [apply Z.div_pos; lia|]. apply Z.div_lt_upper_bound; [lia|].
  rewrite <- Z.pow_add_r by lia. replace (32 - bits + bits) with 32 by lia. lia.
Qed.

Lemma hash_range k : is_u32 (hash k).
Proof. apply u32_range. Qed.

Lemma distance_ds b i : distance len bits b i = ds (home b) i.
Proof.
  unfold distance, ds, home, u64. rewrite land_ones_mod by lia.
  assert (len <> 0) by (pose proof n_pos; lia).
  replace (2 ^ 64) with (len * 2 ^ (64 - bits)) by (rewrite <- Z.pow_add_r by lia; f_equal; lia).
  rewrite Z.rem_mul_r by lia. rewrite Z.mul_comm, Z.mod_add, Z.mod_mod by lia. done.
Qed.

Lemma next_idx_nx i : next_idx len i = nx i.
Proof. unfold next_idx, nx. by rewrite land_ones_mod by lia. Qed.

(** Arithmetic on the cycle: expose every [nx] and [ds] as a case split. *)
Ltac cyc :=
  repeat match goal with
  | H : 0 <= ?i < len |- context [nx ?i] =>
      lazymatch goal with _ : 0 <= nx i < len |- _ => fail | _ =>
        pose proof (nx_cases i H) as [? ?] end
  | H : 0 <= ?h < len, H' : 0 <= ?i < len |- context [ds ?h ?i] =>
      lazymatch goal with _ : 0 <= ds h i < len |- _ => fail | _ =>
        pose proof (ds_cases h i H H') as [? ?] end
  | H : 0 <= ?h < len, H' : 0 <= ?i < len, _ : context [ds ?h ?i] |- _ =>
      lazymatch goal with _ : 0 <= ds h i < len |- _ => fail | _ =>
        pose proof (ds_cases h i H H') as [? ?] end
  end; lia.

Lemma nx_range i : 0 <= i < len -> 0 <= nx i < len.
Proof. intros Hi. by apply nx_cases. Qed.

Lemma ds_nx h i :
  0 <= h < len -> 0 <= i < len -> ds h i + 1 < len -> ds h (nx i) = ds h i + 1.
Proof. intros Hh Hi Hlt. cyc. Qed.

Lemma ds_inj h i j : 0 <= h < len -> 0 <= i < len -> 0 <= j < len -> ds h i = ds h j -> i = j.
Proof. intros Hh Hi Hj. cyc. Qed.

Lemma ds_self h : ds h h = 0.
Proof. unfold ds. by rewrite Z.sub_diag, Z.mod_0_l by (pose proof n_pos; lia). Qed.

Lemma slot_set t i j b :
  zlen t = len -> 0 <= i < len -> 0 <= j < len ->
  slot (set_slot t i b) j = if decide (j = i) then Some b else slot t j.
Proof.
  intros Hlen Hi Hj. unfold slot, set_slot. case_decide; subst.
  - apply list_lookup_insert_eq. lia.
  - apply list_lookup_insert_ne. lia.
Qed.

Lemma zlen_set_slot t i b : zlen (set_slot t i b) = zlen t.
Proof. unfold set_slot. by rewrite length_insert. Qed.

Lemma slot_lt t i : zlen t = len -> 0 <= i < len -> exists b, slot t i = Some b.
Proof. intros Hlen Hi. apply lookup_lt_is_Some. lia. Qed.

Lemma disp_set t i j b :
  zlen t = len -> 0 <= i < len -> 0 <= j < len ->
  disp (set_slot t i b) j =
    if decide (j = i) then (match b_data b with Some _ => ds (home b) i | None => -1 end)
    else disp t j.
Proof. intros. unfold disp. rewrite slot_set by done. by case_decide; subst. Qed.

Lemma disp_lower t i : -1 <= disp t i.
Proof.
  unfold disp, ds. pose proof n_pos. destruct (slot t i) as [b|]; [|done].
  destruct (b_data b); [|done]. pose proof (Z.mod_pos_bound (i - home b) len). lia.
Qed.

Lemma home_range t g j b :
  table_rep t g -> 0 <= j < len -> slot t j = Some b -> is_Some (b_data b) ->
  0 <= home b < len /\ home b = h2idx (hash (b_key b)) bits.
Proof.
  intros Hrep Hj Hb Hd. unfold home. rewrite (tr_hash _ _ Hrep j b Hj Hb Hd).
  split; [|done]. apply h2idx_range, hash_range.
Qed.

(** Writing one slot: the old association goes, the new one comes. *)
Definition gdel (b : nghttp2_map_bucket) (g : gmap Z A) : gmap Z A :=
  match b_data b with Some _ => delete (b_key b) g | None => g end.

Definition gadd (b : nghttp2_map_bucket) (g : gmap Z A) : gmap Z A :=
  match b_data b with Some v => <[b_key b := v]> g | None => g end.

Lemma table_rep_set t g j b0 b1 :
  table_rep t g -> 0 <= j < len -> slot t j = Some b0 ->
  (is_Some (b_data b1) -> gdel b0 g !! b_key b1 = None /\ b_hash b1 = hash (b_key b1)) ->
  table_rep (set_slot t j b1) (gadd b1 (gdel b0 g)).
Proof.
  intros [Hl Hu Hh Hn] Hj Hb0 Hb1.
  assert (Hdel : forall k v, gdel b0 g !! k = Some v <->
    exists i b, 0 <= i < len /\ i <> j /\ slot t i = Some b /\ b_key b = k /\ b_data b = Some v).
  { intros k v. unfold gdel. destruct (b_data b0) as [v0|] eqn:Hd0.
    - rewrite lookup_delete_Some, Hl. split.
      + intros [Hk (i & b & Hi & Hb & Hbk & Hbd)]. exists i, b. split_and!; try done; try lia.
        intros ->. congruence.
      + intros (i & b & Hi & Hij & Hb & Hbk & Hbd). split; [|by exists i, b]. intros <-.
        apply Hij. eapply (Hu i j b b0); eauto.
    - rewrite Hl. split.
      + intros (i & b & Hi & Hb & Hbk & Hbd). exists i, b. split_and!; try done; try lia.
        intros ->. congruence.
      + intros (i & b & Hi & _ & Hb & ? & ?). by exists i, b. }
  split.
  - intros k v. unfold gadd. destruct (b_data b1) as [v1|] eqn:Hd1.
    + rewrite lookup_insert. case_decide as Hk.
      * split.
        { intros [= <-]. exists j, b1. rewrite slot_set, decide_True by done. done. }
        intros (i & b & Hi & Hb & Hbk & Hbd). rewrite slot_set in Hb by done.
        case_decide; simplify_eq; [congruence|]. destruct Hb1 as [Hnone _]; [eauto|].
        assert (gdel b0 g !! b_key b1 = Some v) by (apply Hdel; exists i, b; done).
        congruence.
      * rewrite Hdel. split.
        { intros (i & b & Hi & Hij & Hb & ?). exists i, b. by rewrite slot_set, decide_False by done. }
        intros (i & b & Hi & Hb & Hbk & Hbd). rewrite slot_set in Hb by done.
        case_decide; simplify_eq. by exists i, b.
    + rewrite Hdel. split.
      { intros (i & b & Hi & Hij & Hb & ?). exists i, b. by rewrite slot_set, decide_False by done. }
      intros (i & b & Hi & Hb & Hbk & Hbd). rewrite slot_set in Hb by done.
      case_decide; simplify_eq. by exists i, b.
  - assert (Hnew : forall i b, 0 <= i < len -> i <> j -> slot t i = Some b ->
      is_Some (b_data b) -> is_Some (b_data b1) -> b_key b <> b_key b1).
    { intros i b Hi Hij Hb [v Hv] Hs Heq. destruct Hb1 as [Hnone _]; [done|].
      assert (gdel b0 g !! b_key b1 = Some v) by (apply Hdel; exists i, b; done). congruence. }
    intros i i' b c Hi Hi'. rewrite !slot_set by done.
    repeat case_decide; intros; simplify_eq; try done.
    + exfalso. eapply (Hnew i' c); eauto.
    + exfalso. eapply (Hnew i b); eauto.
    + by eapply (Hu i i' b c).
  - intros i b Hi. rewrite slot_set by done. case_decide; intros; simplify_eq; [by apply Hb1|].
    by apply (Hh i).
  - by rewrite zlen_set_slot.
Qed.

(** A table with fewer associations than slots has a free slot. *)
Definition free_slot (t : list nghttp2_map_bucket) (z : Z) : Prop :=
  0 <= z < len /\ exists b, slot t z = Some b /\ b_data b = None.

Lemma table_rep_free t g :
  table_rep t g -> Z.of_nat (size g) < len -> exists z, free_slot t z.
Proof.
  intros [Hl Hu Hh Hn] Hsz.
  destruct (decide (Exists (fun b => b_data b = None) t)) as [Hex|Hall].
  - apply Exists_exists in Hex as (b & Hb & Hd). apply list_elem_of_lookup in Hb as [i Hi].
    exists (Z.of_nat i). pose proof (lookup_lt_Some _ _ _ Hi). split; [lia|].
    exists b. unfold slot. by rewrite Nat2Z.id.
  - exfalso.
    assert (Hocc : forall i b, t !! i = Some b -> is_Some (b_data b)).
    { intros i b Hi. destruct (b_data b) eqn:Hd; [eauto|]. exfalso. apply Hall.
      apply Exists_exists. exists b. split; [|done]. apply list_elem_of_lookup. eauto. }
    assert (Hnd : NoDup (b_key <$> t)).
    { apply NoDup_alt. intros i j k Hi Hj.
      rewrite list_lookup_fmap in Hi, Hj.
      destruct (t !! i) as [b|] eqn:Hb; [|done]. destruct (t !! j) as [c|] eqn:Hc; [|done].
      simpl in *. simplify_eq.
      pose proof (lookup_lt_Some _ _ _ Hb). pose proof (lookup_lt_Some _ _ _ Hc).
      apply Nat2Z.inj, (Hu (Z.of_nat i) (Z.of_nat j) b c); unfold slot; rewrite ?Nat2Z.id;
        try lia; try done; eauto. }
    assert (Hsub : list_to_set (b_key <$> t) ⊆ dom g).
    { intros k Hk. apply elem_of_list_to_set, list_elem_of_fmap in Hk as (b & -> & Hb).
      apply list_elem_of_lookup in Hb as [i Hi]. pose proof (lookup_lt_Some _ _ _ Hi).
      destruct (Hocc _ _ Hi) as [v Hv]. apply elem_of_dom. exists v. apply Hl.
      exists (Z.of_nat i), b. unfold slot. rewrite Nat2Z.id. split_and!; try done; lia. }
    apply subseteq_size in Hsub. rewrite size_list_to_set, length_fmap, size_dom in Hsub by done.
    lia.
Qed.

(** ** Probing *)

Lemma nx_inj i j : 0 <= i < len -> 0 <= j < len -> nx i = nx j -> i = j.
Proof. intros Hi Hj. pose proof (nx_cases i Hi). pose proof (nx_cases j Hj). lia. Qed.

Lemma nx_ne i : 0 <= i < len -> nx i <> i.
Proof. intros Hi. pose proof n_pos. pose proof (nx_cases i Hi). lia. Qed.

Lemma disp_occupied t i b :
  slot t i = Some b -> is_Some (b_data b) -> disp t i = ds (home b) i.
Proof. intros Hb [v Hv]. unfold disp. by rewrite Hb, Hv. Qed.

Lemma disp_free t z : free_slot t z -> disp t z = -1.
Proof. intros (_ & b & Hb & Hd). unfold disp. by rewrite Hb, Hd. Qed.

(** Between its home and its slot, a bucket only passed buckets that are at
    least as displaced as it would have been there. *)
Lemma rh_chain t g j b i :
  table_rep t g -> robin_hood t -> 0 <= j < len -> slot t j = Some b ->
  is_Some (b_data b) -> 0 <= i < len -> ds (home b) i <= ds (home b) j ->
  ds (home b) i <= disp t i.
Proof.
  intros Hrep Hrh Hj Hb Hd. destruct (home_range t g j b Hrep Hj Hb Hd) as [Hh _].
  remember (Z.to_nat (ds (home b) j - ds (home b) i)) as m eqn:Hm.
  revert i Hm. induction m as [|m IH]; intros i Hm Hi Hle.
  - assert (i = j) as -> by (apply (ds_inj (home b)); lia || done).
    rewrite (disp_occupied t j b) by done. lia.
  - pose proof (ds_cases (home b) j Hh Hj) as [? _].
    pose proof (ds_nx (home b) i Hh Hi ltac:(lia)) as Hnx.
    pose proof (IH (nx i) ltac:(lia) (nx_range i Hi) ltac:(lia)).
    pose proof (Hrh i Hi). lia.
Qed.

(** No bucket is displaced past a free slot. *)
Lemma disp_before_free t g j b z :
  table_rep t g -> robin_hood t -> 0 <= j < len -> slot t j = Some b ->
  is_Some (b_data b) -> free_slot t z -> ds (home b) j < ds (home b) z.
Proof.
  intros Hrep Hrh Hj Hb Hd Hz. destruct (home_range t g j b Hrep Hj Hb Hd) as [Hh _].
  apply Z.nle_gt. intros Hle.
  pose proof (rh_chain t g j b z Hrep Hrh Hj Hb Hd (proj1 Hz) Hle) as H.
  rewrite (disp_free t z Hz) in H.
  pose proof (ds_cases (home b) z Hh (proj1 Hz)). lia.
Qed.

(** The home slot of a key. *)
Abbreviation khome key := (h2idx (hash key) bits).

(** A probe for [key] that reached slot [idx] after [d] steps, without having
    met the key, with the free slot [z] still ahead. *)
Record probing (t : list nghttp2_map_bucket) (key z idx d : Z) : Prop := {
  pr_idx : 0 <= idx < len;
  pr_d : ds (khome key) idx = d;
  pr_z : d <= ds (khome key) z;
  pr_seen : forall j b, 0 <= j < len -> slot t j = Some b -> is_Some (b_data b) ->
    b_key b = key -> d <= ds (khome key) j;
}.

Lemma key_home_range key : 0 <= h2idx (hash key) bits < len.
Proof. apply h2idx_range, hash_range. Qed.

Lemma probing_init t key z : free_slot t z -> probing t key z (khome key) 0.
Proof.
  intros Hz. pose proof (key_home_range key) as Hh. split.
  - done.
  - apply ds_self.
  - pose proof (ds_cases _ z Hh (proj1 Hz)). lia.
  - intros j b Hj _ _ _. pose proof (ds_cases _ j Hh Hj). lia.
Qed.

Lemma probing_absent t g key z idx d :
  table_rep t g -> robin_hood t -> probing t key z idx d -> disp t idx < d ->
  g !! key = None.
Proof.
  intros Hrep Hrh [Hi Hd Hz Hseen] Hlt. destruct (g !! key) as [v|] eqn:Hg; [|done].
  apply (tr_lookup _ _ Hrep) in Hg as (j & b & Hj & Hb & Hk & Hv).
  assert (is_Some (b_data b)) as Hs by eauto.
  destruct (home_range t g j b Hrep Hj Hb Hs) as [_ Hhome]. rewrite Hk in Hhome.
  pose proof (Hseen j b Hj Hb Hs Hk).
  pose proof (rh_chain t g j b idx Hrep Hrh Hj Hb Hs Hi) as Hc. rewrite Hhome in Hc. lia.
Qed.

Lemma probing_next t key z idx d b :
  free_slot t z -> probing t key z idx d -> slot t idx = Some b -> is_Some (b_data b) ->
  b_key b <> key ->
  probing t key z (nx idx) (d + 1) /\ d < ds (khome key) z.
Proof.
  intros Hz [Hi Hd Hzd Hseen] Hb Hs Hk. pose proof (key_home_range key) as Hh.
  destruct Hz as (Hz & bz & Hbz & Hdz).
  assert (idx <> z) by (intros ->; rewrite Hbz in Hb; simplify_eq; destruct Hs; congruence).
  assert (d < ds (khome key) z).
  { destruct (decide (d = ds (khome key) z)) as [Heq|]; [|lia]. subst d.
    apply ds_inj in Heq; done || lia. }
  pose proof (ds_cases (khome key) z Hh Hz) as [? _]. split; [|done]. split.
  - by apply nx_range.
  - rewrite ds_nx by (done || lia). lia.
  - lia.
  - intros j c Hj Hc Hcs Hck. pose proof (Hseen j c Hj Hc Hcs Hck).
    destruct (decide (d = ds (khome key) j)) as [Heq|]; [|lia]. subst d.
    apply ds_inj in Heq; [|done..]. subst j. congruence.
Qed.

Lemma find_loop_spec map g key z fuel idx d :
  tablelen map = len -> tablelenbits map = bits ->
  table_rep (table map) g -> robin_hood (table map) -> free_slot (table map) z ->
  probing (table map) key z idx d ->
  ds (khome key) z - d < Z.of_nat fuel ->
  find_loop fuel map idx d key = Some (g !! key).
Proof.
  intros Hl Hb Hrep Hrh Hz. revert idx d. induction fuel as [|fuel IH]; intros idx d Hp Hf.
  { destruct Hp. lia. }
  cbn [find_loop]. pose proof (pr_idx _ _ _ _ _ Hp) as Hi.
  destruct (slot_lt (table map) idx (tr_length _ _ Hrep) Hi) as [b Hslot]. rewrite Hslot.
  rewrite Hl, Hb, distance_ds, next_idx_nx.
  destruct (b_data b) as [v|] eqn:Hv.
  - assert (is_Some (b_data b)) as Hs by eauto.
    destruct (Z.ltb_spec (ds (home b) idx) d) as [Hlt|Hge].
    + f_equal. symmetry. eapply probing_absent; [done..|].
      by rewrite (disp_occupied _ _ b).
    + destruct (Z.eqb_spec (b_key b) key) as [Hk|Hk].
      * f_equal. symmetry. apply (tr_lookup _ _ Hrep). by exists idx, b.
      * destruct (probing_next _ _ _ _ _ _ Hz Hp Hslot Hs Hk) as [Hp' ?].
        apply IH; [done|]. lia.
  - f_equal. symmetry. eapply probing_absent; [done..|]. unfold disp. rewrite Hslot, Hv.
    destruct Hp. pose proof (ds_cases _ idx (key_home_range key) Hi). lia.
Qed.

Lemma insert_loop_duplicate t g key z fuel idx d v v0 :
  table_rep t g -> robin_hood t -> free_slot t z -> g !! key = Some v0 ->
  probing t key z idx d -> ds (khome key) z - d < Z.of_nat fuel ->
  insert_loop fuel t len bits idx d (hash key) key v = Some (t, NGHTTP2_ERR_INVALID_ARGUMENT).
Proof.
  intros Hrep Hrh Hz Hg. revert idx d. induction fuel as [|fuel IH]; intros idx d Hp Hf.
  { destruct Hp. lia. }
  cbn [insert_loop]. pose proof (pr_idx _ _ _ _ _ Hp) as Hi.
  destruct (slot_lt t idx (tr_length _ _ Hrep) Hi) as [b Hslot]. rewrite Hslot.
  assert (Habs : d <= disp t idx).
  { apply Z.nlt_ge. intros Hlt. pose proof (probing_absent _ _ _ _ _ _ Hrep Hrh Hp Hlt). congruence. }
  destruct (b_data b) as [vb|] eqn:Hv.
  - assert (is_Some (b_data b)) as Hs by eauto.
    rewrite (disp_occupied t idx b Hslot Hs) in Habs.
    cbv zeta. rewrite distance_ds, next_idx_nx.
    destruct (Z.ltb_spec (ds (home b) idx) d); [lia|].
    destruct (Z.eqb_spec (b_key b) key) as [Hk|Hk]; [done|].
    destruct (probing_next _ _ _ _ _ _ Hz Hp Hslot Hs Hk) as [Hp' ?].
    apply IH; [done|]. lia.
  - exfalso. unfold disp in Habs. rewrite Hslot, Hv in Habs.
    destruct Hp. pose proof (ds_cases _ idx (key_home_range key) Hi). lia.
Qed.

(** ** Insertion *)

(** Replacing a bucket by a more displaced one keeps the invariant when the
    slot before allows that displacement. *)
Lemma rh_set t idx h k v d :
  zlen t = len -> robin_hood t -> 0 <= idx < len ->
  ds (h2idx h bits) idx = d -> disp t idx <= d ->
  (forall p, 0 <= p < len -> nx p = idx -> d - 1 <= disp t p) ->
  robin_hood (set_slot t idx (mk_bucket h k (Some v))).
Proof.
  intros Hlen Hrh Hi Hd Hle Hprev i Hir. pose proof (nx_range i Hir) as Hnr.
  rewrite !disp_set by done. simpl. unfold home. simpl. rewrite Hd.
  pose proof (Hrh i Hir). pose proof (nx_ne i Hir).
  destruct (decide (nx i = idx)) as [Hni|Hni].
  - rewrite decide_False by congruence. specialize (Hprev i Hir Hni). lia.
  - case_decide; subst; lia.
Qed.

Lemma free_slot_set t z idx b c :
  zlen t = len -> free_slot t z -> 0 <= idx < len -> slot t idx = Some c ->
  is_Some (b_data c) -> free_slot (set_slot t idx b) z /\ z <> idx.
Proof.
  intros Hlen (Hz & bz & Hbz & Hdz) Hi Hc [v Hv].
  assert (z <> idx) by (intros ->; congruence). split; [|done]. split; [done|].
  exists bz. by rewrite slot_set, decide_False by done.
Qed.

Lemma ds_step idx z : 0 <= idx < len -> 0 <= z < len -> z <> idx -> ds (nx idx) z = ds idx z - 1.
Proof.
  intros Hi Hz Hne. pose proof (nx_cases idx Hi) as [Hn ?].
  pose proof (ds_cases idx z Hi Hz). pose proof (ds_cases (nx idx) z Hn Hz). lia.
Qed.

(** Inserting an absent key: [(h, k, v)] is the bucket in hand. *)
Lemma insert_loop_fresh z fuel t g idx d k v :
  table_rep t g -> robin_hood t -> free_slot t z -> g !! k = None ->
  0 <= idx < len -> ds (khome k) idx = d ->
  (forall p, 0 <= p < len -> nx p = idx -> d - 1 <= disp t p) ->
  ds idx z < Z.of_nat fuel ->
  exists t', insert_loop fuel t len bits idx d (hash k) k (Some v) = Some (t', 0) /\
    table_rep t' (<[k := v]> g) /\ robin_hood t'.
Proof.
  revert t g idx d k v. induction fuel as [|fuel IH];
    intros t g idx d k v Hrep Hrh Hz Hg Hi Hd Hprev Hf.
  { pose proof (ds_cases idx z Hi (proj1 Hz)). lia. }
  pose proof (key_home_range k) as Hkh. pose proof (ds_cases (khome k) idx Hkh Hi) as [Hdr _].
  pose proof (tr_length _ _ Hrep) as Hlen.
  cbn [insert_loop]. destruct (slot_lt t idx Hlen Hi) as [b Hslot]. rewrite Hslot.
  destruct (b_data b) as [vb|] eqn:Hv.
  2:{ eexists. split; [done|]. split.
      - replace (<[k := v]> g) with (gadd (mk_bucket (hash k) k (Some v)) (gdel b g))
          by (unfold gadd, gdel; simpl; by rewrite Hv).
        apply table_rep_set; try done. intros _. unfold gdel. by rewrite Hv.
      - apply (rh_set _ _ _ _ _ d); try done.
        unfold disp. rewrite Hslot, Hv. lia. }
  assert (is_Some (b_data b)) as Hs by eauto. cbv zeta. rewrite distance_ds, next_idx_nx.
  destruct (home_range t g idx b Hrep Hi Hslot Hs) as [Hbh Hbhome].
  assert (Hgb : g !! b_key b = Some vb) by (apply (tr_lookup _ _ Hrep); by exists idx, b).
  assert (Hkb : b_key b <> k) by (intros <-; congruence).
  pose proof (disp_occupied t idx b Hslot Hs) as Hdisp.
  pose proof (disp_before_free t g idx b z Hrep Hrh Hi Hslot Hs Hz) as Hbz.
  pose proof (ds_cases (home b) z Hbh (proj1 Hz)) as [Hzr _].
  destruct (free_slot_set t z idx (mk_bucket (hash k) k (Some v)) b Hlen Hz Hi Hslot Hs)
    as [Hz' Hzne].
  pose proof (ds_step idx z Hi (proj1 Hz) Hzne) as Hstep.
  pose proof (nx_range idx Hi) as Hnr.
  destruct (Z.ltb_spec (ds (home b) idx) d) as [Hlt|Hge].
  - rewrite (tr_hash _ _ Hrep idx b Hi Hslot Hs).
    destruct (IH (set_slot t idx (mk_bucket (hash k) k (Some v)))
      (<[k := v]> (delete (b_key b) g)) (nx idx) (ds (home b) idx + 1) (b_key b) vb)
      as (t' & Hins & Hrep' & Hrh'); try done.
    + replace (<[k := v]> (delete (b_key b) g))
        with (gadd (mk_bucket (hash k) k (Some v)) (gdel b g))
        by (unfold gadd, gdel; simpl; by rewrite Hv).
      apply table_rep_set; try done. intros _. unfold gdel. rewrite Hv. simpl.
      by rewrite lookup_delete_ne.
    + apply (rh_set _ _ _ _ _ d); try done. lia.
    + rewrite lookup_insert_ne, lookup_delete_eq by done. done.
    + rewrite <- Hbhome. apply ds_nx; try done. lia.
    + intros p Hp Hpn. apply nx_inj in Hpn; [|done..]. subst p.
      rewrite disp_set, decide_True by done. simpl. unfold home at 2. simpl. lia.
    + lia.
    + exists t'. split; [done|]. split; [|done].
      replace (<[k := v]> g) with (<[b_key b := vb]> (<[k := v]> (delete (b_key b) g))); [done|].
      rewrite insert_insert_ne by done. by rewrite insert_delete_id.
  - destruct (Z.eqb_spec (b_key b) k) as [|_]; [done|].
    apply IH; try done.
    + rewrite ds_nx; lia || done.
    + intros p Hp Hpn. apply nx_inj in Hpn; [|done..]. subst p. lia.
    + lia.
Qed.

(** ** Backward shift *)

(** The invariant with a hole at [didx] whose successor may be too displaced. *)
Record holed (t : list nghttp2_map_bucket) (didx : Z) : Prop := {
  ho_range : 0 <= didx < len;
  ho_free : free_slot t didx;
  ho_rh : forall i, 0 <= i < len -> i <> didx -> disp t (nx i) <= disp t i + 1;
  ho_prev : forall p, 0 <= p < len -> nx p = didx -> disp t (nx didx) <= disp t p + 2;
}.

Lemma holed_shift t g didx b :
  table_rep t g -> holed t didx -> slot t (nx didx) = Some b -> is_Some (b_data b) ->
  ds (home b) (nx didx) <> 0 ->
  let t' := set_slot (set_slot t didx b) (nx didx) empty_bucket in
  table_rep t' g /\ holed t' (nx didx).
Proof.
  intros Hrep [Hd Hfree Hrh Hprev] Hb Hs Hne t'. pose proof (nx_range didx Hd) as Hi.
  pose proof (tr_length _ _ Hrep) as Hlen. pose proof (nx_ne didx Hd) as Hnd.
  destruct (home_range t g _ b Hrep Hi Hb Hs) as [Hh _].
  assert (Ht' : t' = set_slot (set_slot t (nx didx) empty_bucket) didx b).
  { unfold t', set_slot. apply list_insert_insert_ne. lia. }
  destruct Hs as [v Hv]. destruct Hfree as (_ & bz & Hbz & Hdz).
  assert (Hrep' : table_rep t' g).
  { rewrite Ht'. assert (Hg : g !! b_key b = Some v)
      by (apply (tr_lookup _ _ Hrep); by exists (nx didx), b).
    pose proof (table_rep_set t g (nx didx) b empty_bucket Hrep Hi Hb
      ltac:(intros [? ?]; done)) as Hrep1.
    unfold gadd, gdel in Hrep1. simpl in Hrep1. rewrite Hv in Hrep1.
    rewrite <- (insert_delete_id g (b_key b) v) by done.
    pose proof (table_rep_set _ _ didx bz b Hrep1 Hd) as Hrep2.
    unfold gadd, gdel in Hrep2. rewrite Hdz, Hv in Hrep2. apply Hrep2.
    - by rewrite slot_set, decide_False by done.
    - intros _. rewrite lookup_delete_eq. split; [done|].
      apply (tr_hash _ _ Hrep (nx didx)); eauto. }
  split; [done|].
  assert (Hdd : ds (home b) didx = ds (home b) (nx didx) - 1).
  { pose proof (nx_cases didx Hd) as [_ ?].
    pose proof (ds_cases _ _ Hh Hd). pose proof (ds_cases _ _ Hh Hi). lia. }
  assert (Hdisp : forall i, 0 <= i < len -> disp t' i =
    if decide (i = nx didx) then -1
    else if decide (i = didx) then ds (home b) didx else disp t i).
  { intros i Hir. unfold t'. rewrite disp_set by (rewrite ?zlen_set_slot; done). simpl.
    case_decide; [done|]. rewrite disp_set by done. by rewrite Hv. }
  assert (Hold : disp t (nx didx) = ds (home b) (nx didx)) by (apply disp_occupied; eauto).
  split.
  - done.
  - split; [done|]. exists empty_bucket. unfold t'.
    by rewrite slot_set, decide_True by (rewrite ?zlen_set_slot; done).
  - intros i Hir Hine. pose proof (nx_range i Hir) as Hnr. rewrite !Hdisp by done.
    pose proof (disp_lower t i). pose proof (ds_cases _ _ Hh Hd).
    rewrite (decide_False (P := i = nx didx)) by done.
    destruct (decide (nx i = nx didx)) as [Heq|Heq].
    { case_decide; lia. }
    assert (i <> didx) by (intros ->; done). rewrite (decide_False (P := i = didx)) by done.
    destruct (decide (nx i = didx)) as [Hp|Hp]; [|by apply Hrh].
    pose proof (Hprev i Hir Hp). lia.
  - intros p Hpr Hp. apply nx_inj in Hp; [|done..]. subst p.
    pose proof (nx_range _ Hi) as Hnn. pose proof (nx_ne _ Hi). rewrite !Hdisp by done.
    rewrite (decide_False (P := nx (nx didx) = nx didx)) by done.
    rewrite (decide_False (P := didx = nx didx)) by done.
    rewrite (decide_True (P := didx = didx)) by done.
    case_decide; [lia|]. pose proof (Hrh (nx didx) Hi Hnd). lia.
Qed.

Lemma shift_back_loop_spec z fuel t g didx :
  table_rep t g -> holed t didx -> free_slot t z -> z <> didx ->
  ds (nx didx) z < Z.of_nat fuel ->
  exists t', shift_back_loop fuel t len bits didx (nx didx) = Some t' /\
    table_rep t' g /\ robin_hood t'.
Proof.
  revert t didx. induction fuel as [|fuel IH]; intros t didx Hrep Hho Hz Hzne Hf.
  { pose proof (nx_range _ (ho_range _ _ Hho)) as Hn.
    pose proof (ds_cases _ z Hn (proj1 Hz)). lia. }
  pose proof Hho as [Hd Hfree Hrh Hprev].
  pose proof (nx_range didx Hd) as Hi. pose proof (tr_length _ _ Hrep) as Hlen.
  assert (Hdone : disp t (nx didx) <= 0 -> robin_hood t).
  { intros Hle i Hir. destruct (decide (i = didx)) as [->|]; [|by apply Hrh].
    rewrite (disp_free t didx Hfree). lia. }
  cbn [shift_back_loop]. destruct (slot_lt t _ Hlen Hi) as [b Hslot]. rewrite Hslot.
  destruct (b_data b) as [v|] eqn:Hv.
  - assert (is_Some (b_data b)) as Hs by eauto. rewrite distance_ds, next_idx_nx.
    destruct (Z.eqb_spec (ds (home b) (nx didx)) 0) as [H0|H0].
    + exists t. split_and!; try done. apply Hdone. by rewrite (disp_occupied _ _ b), H0.
    + destruct (holed_shift t g didx b Hrep Hho Hslot Hs H0) as [Hrep' Hho'].
      assert (z <> nx didx).
      { destruct Hz as (_ & bz & Hbz & Hdz). intros ->. congruence. }
      apply IH; try done.
      * destruct Hz as (Hzr & bz & Hbz & Hdz). split; [done|]. exists bz.
        rewrite slot_set, decide_False, slot_set, decide_False
          by (rewrite ?zlen_set_slot; done). done.
      * pose proof (ds_step (nx didx) z Hi (proj1 Hz)). lia.
  - exists t. split_and!; try done. apply Hdone. unfold disp. rewrite Hslot, Hv. lia.
Qed.

Lemma holed_init t g idx b :
  table_rep t g -> robin_hood t -> 0 <= idx < len -> slot t idx = Some b ->
  is_Some (b_data b) ->
  table_rep (set_slot t idx empty_bucket) (delete (b_key b) g) /\
  holed (set_slot t idx empty_bucket) idx.
Proof.
  intros Hrep Hrh Hi Hb [v Hv]. pose proof (tr_length _ _ Hrep) as Hlen. split.
  - pose proof (table_rep_set t g idx b empty_bucket Hrep Hi Hb ltac:(intros [? ?]; done)) as H.
    unfold gadd, gdel in H. simpl in H. by rewrite Hv in H.
  - pose proof (nx_range idx Hi) as Hn. pose proof (nx_ne idx Hi). split; [done| | |].
    + split; [done|]. exists empty_bucket. by rewrite slot_set, decide_True by done.
    + intros i Hir Hne. pose proof (nx_range i Hir). rewrite !disp_set by done. simpl.
      rewrite (decide_False (P := i = idx)) by done. pose proof (disp_lower t i).
      case_decide; [lia|]. by apply Hrh.
    + intros p Hp Hpn. rewrite !disp_set by done. rewrite decide_False by done.
      assert (p <> idx) by (intros ->; done). rewrite decide_False by done.
      pose proof (Hrh idx Hi). pose proof (Hrh p Hp). rewrite Hpn in *. lia.
Qed.

Lemma remove_loop_spec map g key z fuel idx d :
  tablelen map = len -> tablelenbits map = bits ->
  table_rep (table map) g -> robin_hood (table map) -> free_slot (table map) z ->
  probing (table map) key z idx d ->
  ds (khome key) z - d < Z.of_nat fuel ->
  match g !! key with
  | None => remove_loop fuel map idx d key = Some (map, NGHTTP2_ERR_INVALID_ARGUMENT)
  | Some _ => exists t, remove_loop fuel map idx d key =
        Some (mk_map t (u64 (m_size map - 1)) len bits, 0) /\
      table_rep t (delete key g) /\ robin_hood t
  end.
Proof.
  intros Hl Hb Hrep Hrh Hz. revert idx d. induction fuel as [|fuel IH]; intros idx d Hp Hf.
  { destruct Hp. lia. }
  cbn [remove_loop]. pose proof (pr_idx _ _ _ _ _ Hp) as Hi.
  pose proof (tr_length _ _ Hrep) as Hlen.
  destruct (slot_lt (table map) idx Hlen Hi) as [b Hslot]. rewrite Hslot.
  rewrite Hl, Hb, distance_ds, next_idx_nx.
  destruct (b_data b) as [v|] eqn:Hv.
  2:{ erewrite probing_absent; [done..|]. unfold disp. rewrite Hslot, Hv.
      destruct Hp. pose proof (ds_cases _ idx (key_home_range key) Hi). lia. }
  assert (is_Some (b_data b)) as Hs by eauto.
  destruct (Z.ltb_spec (ds (home b) idx) d) as [Hlt|Hge].
  { erewrite probing_absent; [done..|]. by rewrite (disp_occupied _ _ b). }
  destruct (Z.eqb_spec (b_key b) key) as [Hk|Hk].
  - assert (g !! key = Some v) as -> by (apply (tr_lookup _ _ Hrep); by exists idx, b).
    destruct (holed_init _ _ idx b Hrep Hrh Hi Hslot Hs) as [Hrep' Hho].
    rewrite Hk in Hrep'.
    destruct (free_slot_set _ z idx empty_bucket b Hlen Hz Hi Hslot Hs) as [Hz' Hzne].
    destruct (shift_back_loop_spec z (Z.to_nat len) _ _ idx Hrep' Hho Hz' Hzne)
      as (t & Hsh & Ht & Hrt).
    { pose proof (ds_cases _ z (nx_range idx Hi) (proj1 Hz)). lia. }
    rewrite Hsh. by exists t.
  - destruct (probing_next _ _ _ _ _ _ Hz Hp Hslot Hs Hk) as [Hp' ?].
    apply IH; [done|]. lia.
Qed.

(** ** Rebuilding the table *)

Lemma insert_fresh t g k v :
  table_rep t g -> robin_hood t -> Z.of_nat (size g) < len -> g !! k = None ->
  exists t', insert t len bits (hash k) k (Some v) = Some (t', 0) /\
    table_rep t' (<[k := v]> g) /\ robin_hood t'.
Proof.
  intros Hrep Hrh Hsz Hg. destruct (table_rep_free t g Hrep Hsz) as [z Hz].
  pose proof (key_home_range k) as Hh. unfold insert.
  apply (insert_loop_fresh z); try done.
  - apply ds_self.
  - intros p _ _. pose proof (disp_lower t p). lia.
  - pose proof (ds_cases _ z Hh (proj1 Hz)). lia.
Qed.

Lemma table_rep_replicate :
  table_rep (replicate (Z.to_nat len) empty_bucket) (∅ : gmap Z A) /\
  robin_hood (replicate (Z.to_nat len) empty_bucket).
Proof.
  pose proof n_pos.
  assert (Hslot : forall i b, slot (replicate (Z.to_nat len) empty_bucket) i = Some b ->
    b = empty_bucket).
  { intros i b Hb. by apply lookup_replicate in Hb as [-> _]. }
  split.
  - split.
    + intros k v. rewrite lookup_empty. split; [done|].
      intros (j & b & _ & Hb & _ & Hv). apply Hslot in Hb as ->. done.
    + intros i j b c _ _ Hb _ [? Hs]. apply Hslot in Hb as ->. done.
    + intros j b _ Hb [? Hs]. apply Hslot in Hb as ->. done.
    + rewrite length_replicate. lia.
  - assert (Hd : forall i, disp (replicate (Z.to_nat len) empty_bucket) i = -1).
    { intros i. unfold disp. destruct (slot _ i) as [b|] eqn:Hb; [|done].
      apply Hslot in Hb as ->. done. }
    intros i _. rewrite !Hd. lia.
Qed.

(** The association list a sequence of buckets stands for. *)
Definition assocs (l : list nghttp2_map_bucket) : list (Z * A) :=
  omap (fun b => pair (b_key b) <$> b_data b) l.

Lemma map_resize_loop_spec old nt g :
  table_rep nt g -> robin_hood nt ->
  (forall b, b ∈ old -> is_Some (b_data b) -> b_hash b = hash (b_key b)) ->
  NoDup (assocs old).*1 -> (forall k, k ∈ (assocs old).*1 -> g !! k = None) ->
  Z.of_nat (size g) + zlen (assocs old) < len ->
  exists nt', map_resize_loop old nt len bits = Some nt' /\
    table_rep nt' (list_to_map (assocs old) ∪ g) /\ robin_hood nt'.
Proof.
  revert nt g. induction old as [|b old IH]; intros nt g Hrep Hrh Hhash Hnd Hdis Hsz.
  { exists nt. simpl. by rewrite (left_id_L ∅ (∪)). }
  cbn [map_resize_loop]. unfold assocs in *. cbn [omap list_omap] in *.
  destruct (b_data b) as [v|] eqn:Hv; cbn [fmap option_fmap option_map] in *.
  - simpl in Hnd, Hdis, Hsz. apply NoDup_cons in Hnd as [Hnin Hnd].
    rewrite Hhash by (try left; eauto).
    destruct (insert_fresh nt g (b_key b) v) as (nt1 & -> & Hrep1 & Hrh1); try done.
    { lia. }
    { apply Hdis. left. }
    simpl. destruct (IH nt1 (<[b_key b := v]> g)) as (nt' & Hl & Hrep' & Hrh'); try done.
    + intros c Hc. apply Hhash. by right.
    + intros k Hk. rewrite lookup_insert_ne; [|by intros <-]. apply Hdis. by right.
    + rewrite map_size_insert_None; [lia|]. apply Hdis. left.
    + exists nt'. split_and!; try done. simpl.
      replace (<[b_key b := v]> (list_to_map (omap _ old)) ∪ g)
        with (list_to_map (omap (fun b => pair (b_key b) <$> b_data b) old) ∪ <[b_key b := v]> g);
        [done|].
      rewrite <- insert_union_l, insert_union_r; [done|].
      by apply not_elem_of_list_to_map_1.
  - apply IH; try done. intros c Hc. apply Hhash. by right.
Qed.

Lemma assocs_NoDup l :
  (forall i j b c, l !! i = Some b -> l !! j = Some c -> is_Some (b_data b) ->
    is_Some (b_data c) -> b_key b = b_key c -> i = j) ->
  NoDup (assocs l).*1.
Proof.
  induction l as [|b l IH]; intros Hu; [constructor|].
  assert (Hl : NoDup (assocs l).*1).
  { apply IH. intros i j c c' Hc Hc' ? ? ?. enough (S i = S j) by lia.
    by eapply (Hu (S i) (S j) c c'). }
  unfold assocs in *. cbn [omap list_omap]. destruct (b_data b) as [v|] eqn:Hv; simpl; [|done].
  apply NoDup_cons. split; [|done]. intros Hin.
  apply list_elem_of_fmap in Hin as ((k & v') & Hk & Hin). simpl in Hk.
  apply list_elem_of_omap in Hin as (c & Hc & Hc').
  destruct (b_data c) as [vc|] eqn:Hvc; simpl in Hc'; [|done]. simplify_eq.
  apply list_elem_of_lookup in Hc as [i Hi].
  assert (0%nat = S i) by (eapply (Hu 0%nat (S i) b c); eauto). done.
Qed.

Lemma table_rep_assocs t g :
  table_rep t g -> NoDup (assocs t).*1 /\ list_to_map (assocs t) = g /\
    zlen (assocs t) = Z.of_nat (size g).
Proof.
  intros Hrep. pose proof (tr_length _ _ Hrep) as Hlen.
  assert (Hnd : NoDup (assocs t).*1).
  { apply assocs_NoDup. intros i j b c Hb Hc ? ? ?.
    pose proof (lookup_lt_Some _ _ _ Hb). pose proof (lookup_lt_Some _ _ _ Hc).
    apply Nat2Z.inj, (tr_unique _ _ Hrep (Z.of_nat i) (Z.of_nat j) b c);
      unfold slot; rewrite ?Nat2Z.id; done || lia. }
  assert (Hmap : list_to_map (assocs t) = g).
  { apply map_eq. intros k. apply option_eq. intros v.
    rewrite <- (elem_of_list_to_map (assocs t)) by done. unfold assocs. rewrite list_elem_of_omap.
    rewrite (tr_lookup _ _ Hrep). split.
    - intros (b & Hb & Hbv). apply list_elem_of_lookup in Hb as [i Hi].
      pose proof (lookup_lt_Some _ _ _ Hi).
      destruct (b_data b) as [v'|] eqn:Hv; simpl in Hbv; [|done]. simplify_eq.
      exists (Z.of_nat i), b. unfold slot. rewrite Nat2Z.id. split_and!; done || lia.
    - intros (j & b & Hj & Hb & <- & Hv). exists b. split.
      + apply list_elem_of_lookup. eauto.
      + by rewrite Hv. }
  split_and!; try done. rewrite <- Hmap at 1. f_equal.
  rewrite <- (length_map_to_list (list_to_map (assocs t) : gmap Z A)).
  rewrite map_to_list_to_map by done. done.
Qed.
End Table.

(** ** The map *)

(** [map_rep map g]: the structure is consistent and stands for [g].  The
    table is absent until the first insertion; afterwards it has between 16
    and [2 ^ 30] slots and is at most three quarters full. *)
Definition map_rep (map : nghttp2_map) (g : gmap Z A) : Prop :=
  (map = nghttp2_map_init /\ g = ∅) \/
  exists bits, 4 <= bits <= 30 /\ tablelen map = 2 ^ bits /\ tablelenbits map = bits /\
    table_rep bits (table map) g /\ robin_hood bits (table map) /\
    m_size map = Z.of_nat (size g) /\ 4 * Z.of_nat (size g) <= 3 * 2 ^ bits.

Lemma map_rep_init : map_rep nghttp2_map_init ∅.
Proof. by left. Qed.

Lemma map_find_spec map g key : map_rep map g -> nghttp2_map_find map key = Some (g !! key).
Proof.
  intros [[-> ->]|(bits & Hb & Hl & Hbits & Hrep & Hrh & Hsz & Hload)]; [done|].
  unfold nghttp2_map_find. destruct (Z.eqb_spec (m_size map) 0) as [H0|H0].
  { assert (g = ∅) as -> by (apply map_size_empty_inv; lia). by rewrite lookup_empty. }
  assert (Hb' : 1 <= bits <= 32) by lia.
  assert (Hlt : Z.of_nat (size g) < 2 ^ bits) by (pose proof (n_pos bits Hb'); lia).
  destruct (table_rep_free bits Hb' _ _ Hrep Hlt) as [z Hz]. rewrite Hbits.
  apply (find_loop_spec bits Hb' map g key z); try done.
  - by apply probing_init.
  - pose proof (ds_cases bits Hb' _ z (key_home_range bits Hb' key) (proj1 Hz)). rewrite Hl. lia.
Qed.

Lemma map_remove_spec map g key :
  map_rep map g ->
  match g !! key with
  | None => nghttp2_map_remove map key = Some (map, NGHTTP2_ERR_INVALID_ARGUMENT)
  | Some _ => exists map', nghttp2_map_remove map key = Some (map', 0) /\
      map_rep map' (delete key g)
  end.
Proof.
  intros [[-> ->]|(bits & Hb & Hl & Hbits & Hrep & Hrh & Hsz & Hload)]; [done|].
  unfold nghttp2_map_remove. destruct (Z.eqb_spec (m_size map) 0) as [H0|H0].
  { assert (g = ∅) as -> by (apply map_size_empty_inv; lia). by rewrite lookup_empty. }
  assert (Hb' : 1 <= bits <= 32) by lia. pose proof (n_pos bits Hb').
  assert (Hlt : Z.of_nat (size g) < 2 ^ bits) by lia.
  assert (2 ^ bits <= 2 ^ 30) by (apply Z.pow_le_mono_r; lia).
  destruct (table_rep_free bits Hb' _ _ Hrep Hlt) as [z Hz].
  pose proof (remove_loop_spec bits Hb' map g key z (Z.to_nat (tablelen map))
    (h2idx (hash key) (tablelenbits map)) 0 Hl Hbits Hrep Hrh Hz) as Hrm.
  rewrite Hbits in *. specialize (Hrm (probing_init bits Hb' _ _ _ Hz)).
  rewrite Hl in *.
  pose proof (ds_cases bits Hb' _ z (key_home_range bits Hb' key) (proj1 Hz)) as [? _].
  specialize (Hrm ltac:(lia)). destruct (g !! key) as [v|] eqn:Hg; [|done].
  destruct Hrm as (t & -> & Ht & Hrt). eexists. split; [done|]. right. exists bits. simpl.
  assert (Hds : size g = S (size (delete key g))).
  { rewrite <- (insert_delete_id g key v) at 1 by done.
    rewrite map_size_insert_None; [done|apply lookup_delete_eq]. }
  rewrite Hsz, u64_id by cint_lia. split_and!; done || lia.
Qed.

Lemma map_resize_spec map g nb :
  map_rep map g -> 4 <= nb <= 30 ->
  4 * Z.of_nat (size g) <= 3 * 2 ^ nb ->
  exists map', map_resize map true (2 ^ nb) nb = Some (map', 0) /\ map_rep map' g /\
    tablelen map' = 2 ^ nb /\ tablelenbits map' = nb.
Proof.
  intros Hmr Hnb Hsz. assert (Hnb' : 1 <= nb <= 32) by lia. pose proof (n_pos nb Hnb').
  destruct (table_rep_replicate nb Hnb') as [Hrep0 Hrh0].
  assert (exists nt, map_resize_loop (table map) (replicate (Z.to_nat (2 ^ nb)) empty_bucket)
      (2 ^ nb) nb = Some nt /\ table_rep nb nt g /\ robin_hood nb nt /\
      m_size map = Z.of_nat (size g)) as (nt & Hloop & Hrep' & Hrh' & Hms).
  { destruct Hmr as [[-> ->]|(b & Hb & Hl & Hbits & Hrep & Hrh & Hms & Hload)].
    - eexists. split_and!; done.
    - destruct (table_rep_assocs b ltac:(lia) _ _ Hrep) as (Hnd & Hmap & Hlen).
      destruct (map_resize_loop_spec nb Hnb' (table map) _ _ Hrep0 Hrh0) as (nt & ? & Hr & ?).
      + intros c Hc Hs. apply list_elem_of_lookup in Hc as [i Hi].
        pose proof (lookup_lt_Some _ _ _ Hi). pose proof (tr_length _ _ _ Hrep).
        apply (tr_hash _ _ _ Hrep (Z.of_nat i)); [lia| |done].
        unfold slot. by rewrite Nat2Z.id.
      + done.
      + intros. apply lookup_empty.
      + rewrite map_size_empty. lia.
      + exists nt. rewrite Hmap, (right_id_L ∅ (∪)) in Hr. done. }
  eexists. unfold map_resize. simpl. rewrite Hloop. split; [done|]. split_and!; try done.
  right. exists nb. simpl. split_and!; done || lia.
Qed.

(** A table with room for one more association. *)
Definition roomy (map : nghttp2_map) (g : gmap Z A) : Prop :=
  exists bits, 4 <= bits <= 30 /\ tablelen map = 2 ^ bits /\ tablelenbits map = bits /\
    table_rep bits (table map) g /\ robin_hood bits (table map) /\
    m_size map = Z.of_nat (size g) /\ 4 * (Z.of_nat (size g) + 1) <= 3 * 2 ^ bits.

Lemma roomy_insert map g key data :
  roomy map g ->
  exists t rv, insert (table map) (tablelen map) (tablelenbits map) (hash key) key (Some data)
      = Some (t, rv) /\
    match g !! key with
    | Some _ => rv = NGHTTP2_ERR_INVALID_ARGUMENT /\
        map_rep (mk_map t (m_size map) (tablelen map) (tablelenbits map)) g
    | None => rv = 0 /\
        map_rep (mk_map t (u64 (m_size map + 1)) (tablelen map) (tablelenbits map))
          (<[key := data]> g)
    end.
Proof.
  intros (bits & Hb & Hl & Hbits & Hrep & Hrh & Hms & Hroom).
  assert (Hb' : 1 <= bits <= 32) by lia. pose proof (n_pos bits Hb').
  assert (Hlt : Z.of_nat (size g) < 2 ^ bits) by lia.
  assert (2 ^ bits <= 2 ^ 30) by (apply Z.pow_le_mono_r; lia). rewrite Hl, Hbits.
  destruct (g !! key) as [v0|] eqn:Hg.
  - destruct (table_rep_free bits Hb' _ _ Hrep Hlt) as [z Hz].
    exists (table map), NGHTTP2_ERR_INVALID_ARGUMENT. split.
    + apply (insert_loop_duplicate bits Hb' _ g key z _ _ _ _ v0); try done.
      * by apply probing_init.
      * pose proof (ds_cases bits Hb' _ z (key_home_range bits Hb' key) (proj1 Hz)). lia.
    + split; [done|]. right. exists bits. simpl. split_and!; done || lia.
  - destruct (insert_fresh bits Hb' (table map) g key data Hrep Hrh Hlt Hg)
      as (t & Hins & Hrep' & Hrh').
    exists t, 0. split; [done|]. split; [done|]. right. exists bits. simpl.
    rewrite map_size_insert_None, Hms, u64_id by (done || cint_lia).
    split_and!; done || lia.
Qed.

(** The load-factor check is exact although the product is computed in 32
    bits: the table has at most [2 ^ 30] slots. *)
Lemma map_ensure_room_spec map g calloc_ok :
  map_rep map g -> 4 * (Z.of_nat (size g) + 1) <= 3 * 2 ^ 30 ->
  (exists map1, map_ensure_room map calloc_ok = Some (map1, 0) /\ roomy map1 g) \/
  calloc_ok = false /\ map_ensure_room map calloc_ok = Some (map, NGHTTP2_ERR_NOMEM).
Proof.
  intros Hmr Hmax. unfold map_ensure_room.
  assert (Hinit : map = nghttp2_map_init -> g = ∅ ->
    exists map1, map_resize map true (2 ^ 4) 4 = Some (map1, 0) /\ roomy map1 g).
  { intros -> ->. destruct (map_resize_spec nghttp2_map_init ∅ 4 map_rep_init)
      as (map1 & ? & Hr & Hl & Hb); [lia|by vm_compute|].
    exists map1. split; [done|].
    destruct Hr as [[-> _]|(bits & ? & ? & ? & ? & ? & ? & ?)]; [discriminate Hl|].
    exists bits. assert (bits = 4) as -> by congruence.
    split_and!; try done; try lia. }
  destruct Hmr as [[-> ->]|Hmr'].
  { destruct calloc_ok; [left|by right]. by apply Hinit. }
  pose proof (or_intror (map = nghttp2_map_init /\ g = ∅) Hmr') as Hmr.
  destruct Hmr' as (bits & Hb & Hl & Hbits & Hrep & Hrh & Hms & Hload).
  assert (Hb' : 1 <= bits <= 32) by lia. pose proof (n_pos bits Hb').
  assert (Hbmax : 2 ^ bits <= 2 ^ 30) by (apply Z.pow_le_mono_r; lia).
  change (2 ^ 30) with 1073741824 in *.
  rewrite Hms, Hl, (u64_id (_ + 1)), (u64_id (_ * 4)), (u32_id (2 ^ bits * 3)) by cint_lia.
  rewrite Z.gtb_ltb. destruct (Z.ltb_spec (2 ^ bits * 3) ((Z.of_nat (size g) + 1) * 4)).
  2:{ left. exists map. split; [done|]. exists bits. split_and!; done || lia. }
  destruct (Z.eqb_spec (2 ^ bits) 0); [lia|]. simpl.
  destruct calloc_ok; [left|by right].
  assert (Hb30 : bits < 30).
  { destruct (decide (bits = 30)) as [->|]; [|lia]. change (2 ^ 30) with 1073741824 in *. lia. }
  assert (H2 : 2 ^ (bits + 1) = 2 ^ bits * 2) by (rewrite Z.pow_add_r by lia; lia).
  assert (2 ^ (bits + 1) <= 2 ^ 30) by (apply Z.pow_le_mono_r; lia).
  rewrite Hbits, !u32_id by cint_lia. rewrite <- H2.
  destruct (map_resize_spec map g (bits + 1) Hmr) as (map1 & Hres & Hr & Hl1 & Hb1); [lia|lia|].
  exists map1. split; [done|].
  destruct Hr as [[-> _]|(b1 & ? & ? & ? & ? & ? & ? & ?)]; [simpl in Hl1; lia|].
  assert (b1 = bits + 1) as -> by congruence. exists (bits + 1). split_and!; done || lia.
Qed.

Lemma map_insert_spec map g calloc_ok key data :
  map_rep map g -> 4 * (Z.of_nat (size g) + 1) <= 3 * 2 ^ 30 ->
  exists map' rv, nghttp2_map_insert map calloc_ok key data = Some (map', rv) /\
    ((rv = 0 /\ g !! key = None /\ map_rep map' (<[key := data]> g)) \/
     (rv = NGHTTP2_ERR_INVALID_ARGUMENT /\ is_Some (g !! key) /\ map_rep map' g) \/
     (rv = NGHTTP2_ERR_NOMEM /\ calloc_ok = false /\ map' = map)).
Proof.
  intros Hmr Hmax. unfold nghttp2_map_insert.
  destruct (map_ensure_room_spec map g calloc_ok Hmr Hmax)
    as [(map1 & -> & Hroomy)|[Hok ->]]; simpl.
  - destruct (roomy_insert map1 g key data Hroomy) as (t & rv & -> & Hrv).
    destruct (g !! key) as [v0|] eqn:Hg; destruct Hrv as [-> Hrep]; simpl;
      eexists _, _; (split; [done|]); [right; left|left]; eauto.
  - eexists _, _. split; [done|]. right. by right.
Qed.

Lemma map_clear_spec map g : map_rep map g -> map_rep (nghttp2_map_clear map) ∅.
Proof.
  intros [[-> ->]|(bits & Hb & Hl & Hbits & Hrep & Hrh & Hms & Hload)]; [by left|].
  pose proof (n_pos bits ltac:(lia)). unfold nghttp2_map_clear.
  destruct (Z.eqb_spec (tablelen map) 0); [lia|].
  right. exists bits. simpl. pose proof (tr_length _ _ _ Hrep) as Hlen.
  replace (length (table map)) with (Z.to_nat (2 ^ bits)) by lia.
  destruct (table_rep_replicate bits ltac:(lia)) as [? ?].
  rewrite map_size_empty. split_and!; done || lia.
Qed.

(** Iteration hands out every value of the map exactly once. *)
Lemma map_each_free_spec map g :
  map_rep map g -> nghttp2_map_each_free map ≡ₚ (map_to_list g).*2.
Proof.
  intros [[-> ->]|(bits & Hb & Hl & Hbits & Hrep & _)].
  { by rewrite map_to_list_empty. }
  destruct (table_rep_assocs bits ltac:(lia) _ _ Hrep) as (Hnd & Hmap & _).
  rewrite <- Hmap, map_to_list_to_map by done.
  unfold nghttp2_map_each_free, assocs. clear. induction (table map) as [|b t IH]; [done|].
  simpl. destruct (b_data b); simpl; [|done]. by constructor.
Qed.

(** ** The contract: a finite map *)

Inductive m_op :=
  | MInsert (calloc_ok : bool) (k : Z) (v : A)
  | MFind (k : Z)
  | MRemove (k : Z)
  | MClear
  | MSize.

Inductive m_out :=
  | MCode (rv : Z)
  | MData (v : option A)
  | MNum (z : Z).

Inductive map_spec : gmap Z A -> m_op -> gmap Z A -> m_out -> Prop :=
  | ms_insert g ok k v : g !! k = None ->
      map_spec g (MInsert ok k v) (<[k := v]> g) (MCode 0)
  | ms_insert_dup g ok k v : is_Some (g !! k) ->
      map_spec g (MInsert ok k v) g (MCode NGHTTP2_ERR_INVALID_ARGUMENT)
  | ms_insert_nomem g k v : map_spec g (MInsert false k v) g (MCode NGHTTP2_ERR_NOMEM)
  | ms_find g k : map_spec g (MFind k) g (MData (g !! k))
  | ms_remove g k : is_Some (g !! k) -> map_spec g (MRemove k) (delete k g) (MCode 0)
  | ms_remove_none g k : g !! k = None ->
      map_spec g (MRemove k) g (MCode NGHTTP2_ERR_INVALID_ARGUMENT)
  | ms_clear g : map_spec g MClear ∅ (MCode 0)
  | ms_size g : map_spec g MSize g (MNum (Z.of_nat (size g))).

(** [None]: a call did not return. *)
Definition map_step (m : nghttp2_map) (o : m_op) : option (nghttp2_map * m_out) :=
  match o with
  | MInsert ok k v => '(m', rv) ← nghttp2_map_insert m ok k v; Some (m', MCode rv)
  | MFind k => v ← nghttp2_map_find m k; Some (m, MData v)
  | MRemove k => '(m', rv) ← nghttp2_map_remove m k; Some (m', MCode rv)
  | MClear => Some (nghttp2_map_clear m, MCode 0)
  | MSize => Some (m, MNum (nghttp2_map_size m))
  end.

Fixpoint map_run (m : nghttp2_map) (ops : list m_op) : option (nghttp2_map * list m_out) :=
  match ops with
  | [] => Some (m, [])
  | o :: ops =>
      '(m1, x) ← map_step m o;
      '(m2, xs) ← map_run m1 ops;
      Some (m2, x :: xs)
  end.

Inductive map_spec_run : gmap Z A -> list m_op -> gmap Z A -> list m_out -> Prop :=
  | msr_nil g : map_spec_run g [] g []
  | msr_cons g o g1 x ops g2 xs :
      map_spec g o g1 x -> map_spec_run g1 ops g2 xs ->
      map_spec_run g (o :: ops) g2 (x :: xs).

Lemma map_rep_size map g : map_rep map g -> m_size map = Z.of_nat (size g).
Proof. by intros [[-> ->]|(bits & _ & _ & _ & _ & _ & ? & _)]. Qed.

Lemma map_step_sim map g o :
  map_rep map g -> 4 * (Z.of_nat (size g) + 1) <= 3 * 2 ^ 30 ->
  exists map' x g', map_step map o = Some (map', x) /\ map_spec g o g' x /\
    map_rep map' g' /\ (size g' <= S (size g))%nat.
Proof.
  intros Hrep Hmax. destruct o as [ok k v|k|k| |]; simpl.
  - destruct (map_insert_spec map g ok k v Hrep Hmax) as (map' & rv & -> & Hcase). simpl.
    destruct Hcase as [(-> & Hg & Hr)|[(-> & Hg & Hr)|(-> & -> & ->)]];
      eexists _, _, _; (split; [done|]); (split; [by constructor|]); (split; [done|]); try lia.
    rewrite map_size_insert_None by done. lia.
  - rewrite (map_find_spec map g k Hrep). simpl.
    eexists _, _, _. split; [done|]. split; [constructor|]. split; [done|lia].
  - pose proof (map_remove_spec map g k Hrep) as Hrm. destruct (g !! k) as [v|] eqn:Hg.
    + destruct Hrm as (map' & -> & Hr). simpl. eexists _, _, _. split; [done|].
      split; [constructor; eauto|]. split; [done|].
      pose proof (map_size_delete k g) as Hsd. rewrite Hg in Hsd. lia.
    + rewrite Hrm. simpl. eexists _, _, _. split; [done|]. split; [by constructor|]. split; [done|lia].
  - eexists _, _, _. split; [done|]. split; [constructor|].
    split; [by eapply map_clear_spec|]. rewrite map_size_empty. lia.
  - eexists _, _, _. split; [done|]. unfold nghttp2_map_size. rewrite (map_rep_size map g Hrep).
    split; [constructor|]. split; [done|lia].
Qed.

Lemma map_run_sim map g ops :
  map_rep map g -> 4 * (Z.of_nat (size g) + zlen ops) <= 3 * 2 ^ 30 ->
  exists map' xs g', map_run map ops = Some (map', xs) /\ map_spec_run g ops g' xs /\
    map_rep map' g'.
Proof.
  revert map g. induction ops as [|o ops IH]; intros map g Hrep Hmax; simpl.
  - eexists _, _, _. split_and!; [done|constructor|done].
  - simpl in Hmax. destruct (map_step_sim map g o Hrep) as (m1 & x & g1 & -> & Hs & Hr1 & Hsz);
      [lia|]. simpl.
    destruct (IH m1 g1 Hr1) as (m2 & xs & g2 & -> & Hr & Hr2); [lia|]. simpl.
    eexists _, _, _. split_and!; [done|by econstructor|done].
Qed.
End Map.

Arguments nghttp2_map_bucket : clear implicits.
Arguments nghttp2_map : clear implicits.
Arguments m_op : clear implicits.
Arguments m_out : clear implicits.

(** C36: Every sequence of insert, find, remove, clear and size calls on a map
    that starts empty returns (no probe or shift loop runs forever, no
    assertion of the resize fails) and answers exactly as a finite map would:
    duplicates and missing keys are refused with INVALID_ARGUMENT, a failed
    allocation is reported as NOMEM and changes nothing.  The bound on the
    number of calls keeps the table within [2 ^ 30] slots. *)
Theorem nghttp2_map_refines_finite_map (A : Type) (ops : list (m_op A)) :
  zlen ops <= 3 * 2 ^ 28 ->
  exists map xs g, map_run nghttp2_map_init ops = Some (map, xs) /\
    map_spec_run ∅ ops g xs /\ map_rep map g.
Proof.
  intros Hmax. apply map_run_sim; [apply map_rep_init|]. rewrite map_size_empty. lia.
Qed.

Lemma nghttp2_map_refines_finite_map_witness :
  exists g, map_spec_run ∅ [MInsert true 1 10; MInsert true 3 30; MInsert true 1 11; MFind 1;
      MRemove 1; MFind 1; MFind 3; MSize] g
    [MCode 0; MCode 0; MCode NGHTTP2_ERR_INVALID_ARGUMENT; MData (Some 10); MCode 0;
     MData None; MData (Some 30); MNum 1].
Proof.
  destruct (nghttp2_map_refines_finite_map Z [MInsert true 1 10; MInsert true 3 30;
    MInsert true 1 11; MFind 1; MRemove 1; MFind 1; MFind 3; MSize]) as (m & xs & g & Hrun & Hs & _).
  - vm_compute. congruence.
  - vm_compute in Hrun. injection Hrun as _ <-. exists g. exact Hs.
Defined.

(** Iterating over a map ([nghttp2_map_each_free]) calls the function on
    every stored value exactly once, and [nghttp2_map_each] with a function
    that never fails visits all of them and returns 0. *)
Theorem nghttp2_map_each_visits_all {A} (map : nghttp2_map A) (g : gmap Z A) (f : A -> Z) :
  map_rep map g ->
  nghttp2_map_each_free map ≡ₚ (map_to_list g).*2 /\
  (nghttp2_map_each map f = 0 <-> forall k v, g !! k = Some v -> f v = 0).
Proof.
  intros Hrep. pose proof (map_each_free_spec map g Hrep) as Hperm. split; [done|].
  assert (Hloop : map_each_loop f (table map) = 0 <->
    Forall (fun v => f v = 0) (nghttp2_map_each_free map)).
  { unfold nghttp2_map_each_free. induction (table map) as [|b t IH]; simpl; [done|].
    destruct (b_data b); simpl; [|done]. rewrite Forall_cons, <- IH.
    destruct (Z.eqb_spec (f a) 0); tauto. }
  assert (Hall : Forall (fun v => f v = 0) (nghttp2_map_each_free map) <->
    forall k v, g !! k = Some v -> f v = 0).
  { rewrite Hperm, Forall_forall. split.
    - intros H k v Hk. apply H. apply list_elem_of_fmap. exists (k, v).
      split; [done|]. by apply elem_of_map_to_list.
    - intros H v Hv. apply list_elem_of_fmap in Hv as ((k & v') & -> & Hv).
      apply elem_of_map_to_list in Hv. by apply (H k). }
  unfold nghttp2_map_each. destruct (Z.eqb_spec (m_size map) 0) as [H0|]; [|by rewrite Hloop].
  split; [|done]. intros _ k v Hk. rewrite (map_rep_size map g Hrep) in H0.
  assert (g = ∅) as -> by (apply map_size_empty_inv; lia). by rewrite lookup_empty in Hk.
Qed.

Lemma nghttp2_map_each_visits_all_witness :
  exists map rv, nghttp2_map_insert nghttp2_map_init true 5 70 = Some (map, rv) /\
    nghttp2_map_each map (fun v => v - 70) = 0.
Proof.
  destruct (map_insert_spec nghttp2_map_init ∅ true 5 70 map_rep_init)
    as (map & rv & Hins & [(-> & _ & Hrep)|[(_ & [? H] & _)|(_ & H & _)]]); try discriminate H.
  - vm_compute. congruence.
  - exists map, 0. split; [exact Hins|].
    apply (nghttp2_map_each_visits_all map _ (fun v => v - 70) Hrep).
    intros k v Hk. rewrite lookup_insert in Hk. case_decide; [|discriminate Hk].
    injection Hk as <-. reflexivity.
Defined.
