(* ===== verification/Helper.v ===== *)
(** * Helper routines (nghttp2_helper.c)

    Network byte order, ASCII downcasing, the character classes that decide
    which header names, values, methods, paths and authorities are
    acceptable, the receive-window arithmetic behind
    [nghttp2_submit_window_update], and the error strings.

    Signed 32-bit arithmetic is modelled in the option monad: [None] is the
    undefined behaviour of an [int32_t] overflow, so a theorem that the result
    is [Some _] says the C expression is defined. *)

From stdpp Require Import strings.
From S2P Require Import Prelude Defs.

(** ** Network byte order *)

(** The octets [memcpy] takes from the big-endian representation that
    [htons] and [htonl] produce. *)
Definition uint16be (n : Z) : bytes := [u8 (Z.shiftr n 8); u8 n].

Definition uint32be (n : Z) : bytes :=
  [u8 (Z.shiftr n 24); u8 (Z.shiftr n 16); u8 (Z.shiftr n 8); u8 n].

Definition nghttp2_put_uint16be (m : bytes) (buf : nat) (n : Z) : bytes :=
  mem_write m buf (uint16be n).

Definition nghttp2_put_uint32be (m : bytes) (buf : nat) (n : Z) : bytes :=
  mem_write m buf (uint32be n).

Definition nghttp2_get_uint16 (m : bytes) (data : nat) : Z :=
  Z.shiftl (mem_get m data) 8 .| mem_get m (data + 1).

Definition nghttp2_get_uint32 (m : bytes) (data : nat) : Z :=
  Z.shiftl (mem_get m data) 24 .| Z.shiftl (mem_get m (data + 1)) 16
    .| Z.shiftl (mem_get m (data + 2)) 8 .| mem_get m (data + 3).

(** ** Case folding *)

Definition DOWNCASE_TBL : list Z := [
  0; 1; 2; 3; 4; 5; 6; 7; 8; 9; 10; 11; 12; 13; 14; 15;
  16; 17; 18; 19; 20; 21; 22; 23; 24; 25; 26; 27; 28; 29; 30; 31;
  32; 33; 34; 35; 36; 37; 38; 39; 40; 41; 42; 43; 44; 45; 46; 47;
  48; 49; 50; 51; 52; 53; 54; 55; 56; 57; 58; 59; 60; 61; 62; 63;
  64; 97; 98; 99; 100; 101; 102; 103; 104; 105; 106; 107; 108; 109; 110; 111;
  112; 113; 114; 115; 116; 117; 118; 119; 120; 121; 122; 91; 92; 93; 94; 95;
  96; 97; 98; 99; 100; 101; 102; 103; 104; 105; 106; 107; 108; 109; 110; 111;
  112; 113; 114; 115; 116; 117; 118; 119; 120; 121; 122; 123; 124; 125; 126; 127;
  128; 129; 130; 131; 132; 133; 134; 135; 136; 137; 138; 139; 140; 141; 142; 143;
  144; 145; 146; 147; 148; 149; 150; 151; 152; 153; 154; 155; 156; 157; 158; 159;
  160; 161; 162; 163; 164; 165; 166; 167; 168; 169; 170; 171; 172; 173; 174; 175;
  176; 177; 178; 179; 180; 181; 182; 183; 184; 185; 186; 187; 188; 189; 190; 191;
  192; 193; 194; 195; 196; 197; 198; 199; 200; 201; 202; 203; 204; 205; 206; 207;
  208; 209; 210; 211; 212; 213; 214; 215; 216; 217; 218; 219; 220; 221; 222; 223;
  224; 225; 226; 227; 228; 229; 230; 231; 232; 233; 234; 235; 236; 237; 238; 239;
  240; 241; 242; 243; 244; 245; 246; 247; 248; 249; 250; 251; 252; 253; 254; 255
].

(** The loop rewrites each octet of the string in place. *)
Fixpoint nghttp2_downcase (s : bytes) : bytes :=
  match s with
  | [] => []
  | c :: s => mem_get DOWNCASE_TBL (Z.to_nat c) :: nghttp2_downcase s
  end.

(** ** Receive-window arithmetic *)

(** The four [int32_t] cells the functions update through pointers. *)
Record window_cells := mk_window {
  local_window_size : Z;
  recv_window_size : Z;
  recv_reduction : Z;
  delta_size : Z;
}.

(** The value of an [int32_t] expression; overflow is undefined. *)
Definition i32 (z : Z) : option Z := guard (is_i32 z);; Some z.

Definition nghttp2_max (a b : Z) : Z := if b <? a then a else b.
Definition nghttp2_min (a b : Z) : Z := if a <? b then a else b.

Definition nghttp2_adjust_local_window_size (w : window_cells) : option (window_cells * Z) :=
  let lw := local_window_size w in
  let rw := recv_window_size w in
  let rr := recv_reduction w in
  if 0 <? delta_size w then
    new_recv_window_size ← i32 (nghttp2_max 0 rw - delta_size w);
    if 0 <=? new_recv_window_size
    then Some (mk_window lw new_recv_window_size rr (delta_size w), 0)
    else
      delta ← i32 (- new_recv_window_size);
      room ← i32 (NGHTTP2_MAX_WINDOW_SIZE - delta);
      if room <? lw then Some (w, NGHTTP2_ERR_FLOW_CONTROL)
      else
        lw' ← i32 (lw + delta);
        let recv_reduction_delta := nghttp2_min rr delta in
        rr' ← i32 (rr - recv_reduction_delta);
        rw' ← (if rw <? 0 then i32 (rw + recv_reduction_delta)
               else Some recv_reduction_delta);
        d' ← i32 (delta_size w - recv_reduction_delta);
        Some (mk_window lw' rw' rr' d', 0)
  else
    sum ← i32 (lw + delta_size w);
    low ← (if sum <? 0 then Some true
           else
             lim ← i32 (INT32_MIN - delta_size w);
             if rw <? lim then Some true
             else
               lim' ← i32 (INT32_MAX + delta_size w);
               Some (lim' <? rr));
    if (low : bool) then Some (w, NGHTTP2_ERR_FLOW_CONTROL)
    else
      lw' ← i32 (lw + delta_size w);
      rw' ← i32 (rw + delta_size w);
      rr' ← i32 (rr - delta_size w);
      Some (mk_window lw' rw' rr' 0, 0).

(** [assert(delta >= 0)]: a failed assertion is [None] too. *)
Definition nghttp2_increase_local_window_size (w : window_cells) : option (window_cells * Z) :=
  let delta := delta_size w in
  if delta <? 0 then None
  else
    room ← i32 (NGHTTP2_MAX_WINDOW_SIZE - delta);
    if room <? local_window_size w then Some (w, NGHTTP2_ERR_FLOW_CONTROL)
    else
      lw' ← i32 (local_window_size w + delta);
      let recv_reduction_delta := nghttp2_min (recv_reduction w) delta in
      rr' ← i32 (recv_reduction w - recv_reduction_delta);
      rw' ← i32 (recv_window_size w + recv_reduction_delta);
      d' ← i32 (delta - recv_reduction_delta);
      Some (mk_window lw' rw' rr' d', 0).

Definition nghttp2_should_send_window_update (lw rw : Z) : bool :=
  (0 <? rw) && (Z.quot lw 2 <=? rw).

(** ** Character classes *)

Definition VALID_HD_NAME_CHARS : list Z := [
  0; 0; 0; 0; 0; 0; 0; 0; 0; 0; 0; 0; 0; 0; 0; 0;
  0; 0; 0; 0; 0; 0; 0; 0; 0; 0; 0; 0; 0; 0; 0; 0;
  0; 1; 0; 1; 1; 1; 1; 1; 0; 0; 1; 1; 0; 1; 1; 0;
  1; 1; 1; 1; 1; 1; 1; 1; 1; 1; 0; 0; 0; 0; 0; 0;
  0; 0; 0; 0; 0; 0; 0; 0; 0; 0; 0; 0; 0; 0; 0; 0;
  0; 0; 0; 0; 0; 0; 0; 0; 0; 0; 0; 0; 0; 0; 1; 1;
  1; 1; 1; 1; 1; 1; 1; 1; 1; 1; 1; 1; 1; 1; 1; 1;
  1; 1; 1; 1; 1; 1; 1; 1; 1; 1; 1; 0; 1; 0; 1; 0;
  0; 0; 0; 0; 0; 0; 0; 0; 0; 0; 0; 0; 0; 0; 0; 0;
  0; 0; 0; 0; 0; 0; 0; 0; 0; 0; 0; 0; 0; 0; 0; 0;
  0; 0; 0; 0; 0; 0; 0; 0; 0; 0; 0; 0; 0; 0; 0; 0;
  0; 0; 0; 0; 0; 0; 0; 0; 0; 0; 0; 0; 0; 0; 0; 0;
  0; 0; 0; 0; 0; 0; 0; 0; 0; 0; 0; 0; 0; 0; 0; 0;
  0; 0; 0; 0; 0; 0; 0; 0; 0; 0; 0; 0; 0; 0; 0; 0;
  0; 0; 0; 0; 0; 0; 0; 0; 0; 0; 0; 0; 0; 0; 0; 0;
  0; 0; 0; 0; 0; 0; 0; 0; 0; 0; 0; 0; 0; 0; 0; 0
].

Definition VALID_HD_VALUE_CHARS : list Z := [
  0; 0; 0; 0; 0; 0; 0; 0; 0; 1; 0; 0; 0; 0; 0; 0;
  0; 0; 0; 0; 0; 0; 0; 0; 0; 0; 0; 0; 0; 0; 0; 0;
  1; 1; 1; 1; 1; 1; 1; 1; 1; 1; 1; 1; 1; 1; 1; 1;
  1; 1; 1; 1; 1; 1; 1; 1; 1; 1; 1; 1; 1; 1; 1; 1;
  1; 1; 1; 1; 1; 1; 1; 1; 1; 1; 1; 1; 1; 1; 1; 1;
  1; 1; 1; 1; 1; 1; 1; 1; 1; 1; 1; 1; 1; 1; 1; 1;
  1; 1; 1; 1; 1; 1; 1; 1; 1; 1; 1; 1; 1; 1; 1; 1;
  1; 1; 1; 1; 1; 1; 1; 1; 1; 1; 1; 1; 1; 1; 1; 0;
  1; 1; 1; 1; 1; 1; 1; 1; 1; 1; 1; 1; 1; 1; 1; 1;
  1; 1; 1; 1; 1; 1; 1; 1; 1; 1; 1; 1; 1; 1; 1; 1;
  1; 1; 1; 1; 1; 1; 1; 1; 1; 1; 1; 1; 1; 1; 1; 1;
  1; 1; 1; 1; 1; 1; 1; 1; 1; 1; 1; 1; 1; 1; 1; 1;
  1; 1; 1; 1; 1; 1; 1; 1; 1; 1; 1; 1; 1; 1; 1; 1;
  1; 1; 1; 1; 1; 1; 1; 1; 1; 1; 1; 1; 1; 1; 1; 1;
  1; 1; 1; 1; 1; 1; 1; 1; 1; 1; 1; 1; 1; 1; 1; 1;
  1; 1; 1; 1; 1; 1; 1; 1; 1; 1; 1; 1; 1; 1; 1; 1
].

Definition VALID_METHOD_CHARS : list Z := [
  0; 0; 0; 0; 0; 0; 0; 0; 0; 0; 0; 0; 0; 0; 0; 0;
  0; 0; 0; 0; 0; 0; 0; 0; 0; 0; 0; 0; 0; 0; 0; 0;
  0; 1; 0; 1; 1; 1; 1; 1; 0; 0; 1; 1; 0; 1; 1; 0;
  1; 1; 1; 1; 1; 1; 1; 1; 1; 1; 0; 0; 0; 0; 0; 0;
  0; 1; 1; 1; 1; 1; 1; 1; 1; 1; 1; 1; 1; 1; 1; 1;
  1; 1; 1; 1; 1; 1; 1; 1; 1; 1; 1; 0; 0; 0; 1; 1;
  1; 1; 1; 1; 1; 1; 1; 1; 1; 1; 1; 1; 1; 1; 1; 1;
  1; 1; 1; 1; 1; 1; 1; 1; 1; 1; 1; 0; 1; 0; 1; 0;
  0; 0; 0; 0; 0; 0; 0; 0; 0; 0; 0; 0; 0; 0; 0; 0;
  0; 0; 0; 0; 0; 0; 0; 0; 0; 0; 0; 0; 0; 0; 0; 0;
  0; 0; 0; 0; 0; 0; 0; 0; 0; 0; 0; 0; 0; 0; 0; 0;
  0; 0; 0; 0; 0; 0; 0; 0; 0; 0; 0; 0; 0; 0; 0; 0;
  0; 0; 0; 0; 0; 0; 0; 0; 0; 0; 0; 0; 0; 0; 0; 0;
  0; 0; 0; 0; 0; 0; 0; 0; 0; 0; 0; 0; 0; 0; 0; 0;
  0; 0; 0; 0; 0; 0; 0; 0; 0; 0; 0; 0; 0; 0; 0; 0;
  0; 0; 0; 0; 0; 0; 0; 0; 0; 0; 0; 0; 0; 0; 0; 0
].

Definition VALID_PATH_CHARS : list Z := [
  0; 0; 0; 0; 0; 0; 0; 0; 0; 0; 0; 0; 0; 0; 0; 0;
  0; 0; 0; 0; 0; 0; 0; 0; 0; 0; 0; 0; 0; 0; 0; 0;
  0; 1; 1; 1; 1; 1; 1; 1; 1; 1; 1; 1; 1; 1; 1; 1;
  1; 1; 1; 1; 1; 1; 1; 1; 1; 1; 1; 1; 1; 1; 1; 1;
  1; 1; 1; 1; 1; 1; 1; 1; 1; 1; 1; 1; 1; 1; 1; 1;
  1; 1; 1; 1; 1; 1; 1; 1; 1; 1; 1; 1; 1; 1; 1; 1;
  1; 1; 1; 1; 1; 1; 1; 1; 1; 1; 1; 1; 1; 1; 1; 1;
  1; 1; 1; 1; 1; 1; 1; 1; 1; 1; 1; 1; 1; 1; 1; 0;
  1; 1; 1; 1; 1; 1; 1; 1; 1; 1; 1; 1; 1; 1; 1; 1;
  1; 1; 1; 1; 1; 1; 1; 1; 1; 1; 1; 1; 1; 1; 1; 1;
  1; 1; 1; 1; 1; 1; 1; 1; 1; 1; 1; 1; 1; 1; 1; 1;
  1; 1; 1; 1; 1; 1; 1; 1; 1; 1; 1; 1; 1; 1; 1; 1;
  1; 1; 1; 1; 1; 1; 1; 1; 1; 1; 1; 1; 1; 1; 1; 1;
  1; 1; 1; 1; 1; 1; 1; 1; 1; 1; 1; 1; 1; 1; 1; 1;
  1; 1; 1; 1; 1; 1; 1; 1; 1; 1; 1; 1; 1; 1; 1; 1;
  1; 1; 1; 1; 1; 1; 1; 1; 1; 1; 1; 1; 1; 1; 1; 1
].

Definition VALID_AUTHORITY_CHARS : list Z := [
  0; 0; 0; 0; 0; 0; 0; 0; 0; 0; 0; 0; 0; 0; 0; 0;
  0; 0; 0; 0; 0; 0; 0; 0; 0; 0; 0; 0; 0; 0; 0; 0;
  0; 1; 0; 0; 1; 1; 1; 1; 1; 1; 1; 1; 1; 1; 1; 0;
  1; 1; 1; 1; 1; 1; 1; 1; 1; 1; 1; 1; 0; 1; 0; 0;
  1; 1; 1; 1; 1; 1; 1; 1; 1; 1; 1; 1; 1; 1; 1; 1;
  1; 1; 1; 1; 1; 1; 1; 1; 1; 1; 1; 1; 0; 1; 0; 1;
  0; 1; 1; 1; 1; 1; 1; 1; 1; 1; 1; 1; 1; 1; 1; 1;
  1; 1; 1; 1; 1; 1; 1; 1; 1; 1; 1; 0; 0; 0; 1; 0;
  0; 0; 0; 0; 0; 0; 0; 0; 0; 0; 0; 0; 0; 0; 0; 0;
  0; 0; 0; 0; 0; 0; 0; 0; 0; 0; 0; 0; 0; 0; 0; 0;
  0; 0; 0; 0; 0; 0; 0; 0; 0; 0; 0; 0; 0; 0; 0; 0;
  0; 0; 0; 0; 0; 0; 0; 0; 0; 0; 0; 0; 0; 0; 0; 0;
  0; 0; 0; 0; 0; 0; 0; 0; 0; 0; 0; 0; 0; 0; 0; 0;
  0; 0; 0; 0; 0; 0; 0; 0; 0; 0; 0; 0; 0; 0; 0; 0;
  0; 0; 0; 0; 0; 0; 0; 0; 0; 0; 0; 0; 0; 0; 0; 0;
  0; 0; 0; 0; 0; 0; 0; 0; 0; 0; 0; 0; 0; 0; 0; 0
].

(** [for (last = s + len; s != last; ++s) if (!TBL[*s]) return 0; return 1;] *)
Fixpoint all_in_table (tbl : list Z) (s : bytes) : bool :=
  match s with
  | [] => true
  | c :: s => if mem_get tbl (Z.to_nat c) =? 0 then false else all_in_table tbl s
  end.

Definition nghttp2_check_header_name (name : bytes) : bool :=
  match name with
  | [] => false
  | c :: rest =>
      if c =? 58 (* ':' *) then
        if zlen name =? 1 then false else all_in_table VALID_HD_NAME_CHARS rest
      else all_in_table VALID_HD_NAME_CHARS name
  end.

Definition nghttp2_check_header_value (value : bytes) : bool :=
  all_in_table VALID_HD_VALUE_CHARS value.

Definition nghttp2_check_header_value_rfc9113 (value : bytes) : bool :=
  if zlen value =? 0 then true
  else
    let first := mem_get value 0 in
    let last := mem_get value (length value - 1) in
    if (first =? 32) || (first =? 9) || (last =? 32) || (last =? 9) then false
    else nghttp2_check_header_value value.

Definition nghttp2_check_method (value : bytes) : bool :=
  if zlen value =? 0 then false else all_in_table VALID_METHOD_CHARS value.

Definition nghttp2_check_path (value : bytes) : bool :=
  all_in_table VALID_PATH_CHARS value.

Definition nghttp2_check_authority (value : bytes) : bool :=
  all_in_table VALID_AUTHORITY_CHARS value.

(** The destination after the copy and the returned pointer. *)
Definition nghttp2_cpymem (m : bytes) (dest : nat) (src : bytes) : bytes * nat :=
  if zlen src =? 0 then (m, dest)
  else (mem_write m dest src, (dest + length src)%nat).

(** ** Error strings *)

Definition nghttp2_strerror (error_code : Z) : string :=
  if error_code =? 0 then "Success"%string
  else if error_code =? NGHTTP2_ERR_INVALID_ARGUMENT then "Invalid argument"%string
  else if error_code =? NGHTTP2_ERR_BUFFER_ERROR then "Out of buffer space"%string
  else if error_code =? NGHTTP2_ERR_UNSUPPORTED_VERSION then "Unsupported SPDY version"%string
  else if error_code =? NGHTTP2_ERR_WOULDBLOCK then "Operation would block"%string
  else if error_code =? NGHTTP2_ERR_PROTO then "Protocol error"%string
  else if error_code =? NGHTTP2_ERR_INVALID_FRAME then "Invalid frame octets"%string
  else if error_code =? NGHTTP2_ERR_EOF then "EOF"%string
  else if error_code =? NGHTTP2_ERR_DEFERRED then "Data transfer deferred"%string
  else if error_code =? NGHTTP2_ERR_STREAM_ID_NOT_AVAILABLE then "No more Stream ID available"%string
  else if error_code =? NGHTTP2_ERR_STREAM_CLOSED then "Stream was already closed or invalid"%string
  else if error_code =? NGHTTP2_ERR_STREAM_CLOSING then "Stream is closing"%string
  else if error_code =? NGHTTP2_ERR_STREAM_SHUT_WR then "The transmission is not allowed for this stream"%string
  else if error_code =? NGHTTP2_ERR_INVALID_STREAM_ID then "Stream ID is invalid"%string
  else if error_code =? NGHTTP2_ERR_INVALID_STREAM_STATE then "Invalid stream state"%string
  else if error_code =? NGHTTP2_ERR_DEFERRED_DATA_EXIST then "Another DATA frame has already been deferred"%string
  else if error_code =? NGHTTP2_ERR_START_STREAM_NOT_ALLOWED then "request HEADERS is not allowed"%string
  else if error_code =? NGHTTP2_ERR_GOAWAY_ALREADY_SENT then "GOAWAY has already been sent"%string
  else if error_code =? NGHTTP2_ERR_INVALID_HEADER_BLOCK then "Invalid header block"%string
  else if error_code =? NGHTTP2_ERR_INVALID_STATE then "Invalid state"%string
  else if error_code =? NGHTTP2_ERR_TEMPORAL_CALLBACK_FAILURE then "The user callback function failed due to the temporal error"%string
  else if error_code =? NGHTTP2_ERR_FRAME_SIZE_ERROR then "The length of the frame is invalid"%string
  else if error_code =? NGHTTP2_ERR_HEADER_COMP then "Header compression/decompression error"%string
  else if error_code =? NGHTTP2_ERR_FLOW_CONTROL then "Flow control error"%string
  else if error_code =? NGHTTP2_ERR_INSUFF_BUFSIZE then "Insufficient buffer size given to function"%string
  else if error_code =? NGHTTP2_ERR_PAUSE then "Callback was paused by the application"%string
  else if error_code =? NGHTTP2_ERR_TOO_MANY_INFLIGHT_SETTINGS then "Too many inflight SETTINGS"%string
  else if error_code =? NGHTTP2_ERR_PUSH_DISABLED then "Server push is disabled by peer"%string
  else if error_code =? NGHTTP2_ERR_DATA_EXIST then "DATA or HEADERS frame has already been submitted for the stream"%string
  else if error_code =? NGHTTP2_ERR_SESSION_CLOSING then "The current session is closing"%string
  else if error_code =? NGHTTP2_ERR_HTTP_HEADER then "Invalid HTTP header field was received"%string
  else if error_code =? NGHTTP2_ERR_HTTP_MESSAGING then "Violation in HTTP messaging rule"%string
  else if error_code =? NGHTTP2_ERR_REFUSED_STREAM then "Stream was refused"%string
  else if error_code =? NGHTTP2_ERR_INTERNAL then "Internal error"%string
  else if error_code =? NGHTTP2_ERR_CANCEL then "Cancel"%string
  else if error_code =? NGHTTP2_ERR_SETTINGS_EXPECTED then "When a local endpoint expects to receive SETTINGS frame, it receives an other type of frame"%string
  else if error_code =? NGHTTP2_ERR_NOMEM then "Out of memory"%string
  else if error_code =? NGHTTP2_ERR_CALLBACK_FAILURE then "The user callback function failed"%string
  else if error_code =? NGHTTP2_ERR_BAD_CLIENT_MAGIC then "Received bad client magic byte string"%string
  else if error_code =? NGHTTP2_ERR_FLOODED then "Flooding was detected in this HTTP/2 session, and it must be closed"%string
  else if error_code =? NGHTTP2_ERR_TOO_MANY_SETTINGS then "SETTINGS frame contained more than the maximum allowed entries"%string
  else if error_code =? NGHTTP2_ERR_TOO_MANY_CONTINUATIONS then "Too many CONTINUATION frames following a HEADER frame"%string
  else "Unknown error code"%string.

Definition nghttp2_http2_strerror (error_code : Z) : string :=
  if error_code =? NGHTTP2_NO_ERROR then "NO_ERROR"%string
  else if error_code =? NGHTTP2_PROTOCOL_ERROR then "PROTOCOL_ERROR"%string
  else if error_code =? NGHTTP2_INTERNAL_ERROR then "INTERNAL_ERROR"%string
  else if error_code =? NGHTTP2_FLOW_CONTROL_ERROR then "FLOW_CONTROL_ERROR"%string
  else if error_code =? NGHTTP2_SETTINGS_TIMEOUT then "SETTINGS_TIMEOUT"%string
  else if error_code =? NGHTTP2_STREAM_CLOSED then "STREAM_CLOSED"%string
  else if error_code =? NGHTTP2_FRAME_SIZE_ERROR then "FRAME_SIZE_ERROR"%string
  else if error_code =? NGHTTP2_REFUSED_STREAM then "REFUSED_STREAM"%string
  else if error_code =? NGHTTP2_CANCEL then "CANCEL"%string
  else if error_code =? NGHTTP2_COMPRESSION_ERROR then "COMPRESSION_ERROR"%string
  else if error_code =? NGHTTP2_CONNECT_ERROR then "CONNECT_ERROR"%string
  else if error_code =? NGHTTP2_ENHANCE_YOUR_CALM then "ENHANCE_YOUR_CALM"%string
  else if error_code =? NGHTTP2_INADEQUATE_SECURITY then "INADEQUATE_SECURITY"%string
  else if error_code =? NGHTTP2_HTTP_1_1_REQUIRED then "HTTP_1_1_REQUIRED"%string
  else "unknown"%string.

(** ** Network byte order *)

Lemma uint16be_bytes n : is_bytes (uint16be n).
Proof. repeat constructor; apply u8_range. Qed.

Lemma uint32be_bytes n : is_bytes (uint32be n).
Proof. repeat constructor; apply u8_range. Qed.

#[export] Hint Resolve uint16be_bytes uint32be_bytes : cint.

Lemma shiftl_lor_add a b n : 0 <= n -> 0 <= b < 2 ^ n ->
  Z.shiftl a n .| b = 2 ^ n * a + b.
Proof.
  intros. rewrite Z.shiftl_mul_pow2, Z.mul_comm by done. by apply lor_disjoint_add.
Qed.

(** Reading back what was written, for a word given by its octets. *)
Lemma get_uint16_octets n : is_u16 n ->
  Z.shiftl (u8 (Z.shiftr n 8)) 8 .| u8 n = n.
Proof.
  intros. pose proof (u8_range n). rewrite shiftl_lor_add by (unfold_width; lia).
  rewrite Z.shiftr_div_pow2 by lia. unfold_width.
  change (2 ^ 16) with 65536 in *. change (2 ^ 8) with 256 in *.
  pose proof (Z.div_mod n 256). pose proof (Z.mod_small (n / 256) 256). lia.
Qed.

Lemma get_uint32_octets n : is_u32 n ->
  Z.shiftl (u8 (Z.shiftr n 24)) 24 .| Z.shiftl (u8 (Z.shiftr n 16)) 16
    .| Z.shiftl (u8 (Z.shiftr n 8)) 8 .| u8 n = n.
Proof.
  intros Hn.
  pose proof (u8_range n). pose proof (u8_range (Z.shiftr n 8)).
  pose proof (u8_range (Z.shiftr n 16)).
  rewrite (Z.shiftl_mul_pow2 (u8 (Z.shiftr n 16))), (Z.shiftl_mul_pow2 (u8 (Z.shiftr n 8))) by lia.
  rewrite shiftl_lor_add by (cint_lia).
  replace (2 ^ 24 * _ + _) with (2 ^ 16 * (256 * u8 (Z.shiftr n 24) + u8 (Z.shiftr n 16))) by lia.
  rewrite lor_disjoint_add by cint_lia.
  replace (2 ^ 16 * _ + _) with
    (2 ^ 8 * (256 * (256 * u8 (Z.shiftr n 24) + u8 (Z.shiftr n 16)) + u8 (Z.shiftr n 8))) by lia.
  rewrite lor_disjoint_add by cint_lia.
  rewrite !Z.shiftr_div_pow2 by lia. clear -Hn. cint_lia.
  Z.div_mod_to_equations. lia.
Qed.

(** Reads depend only on the octets at the address. *)
Lemma get_uint16_of_slice m off n : is_u16 n ->
  mem_slice m off 2 = uint16be n -> nghttp2_get_uint16 m off = n.
Proof.
  intros Hn Hs. unfold nghttp2_get_uint16.
  rewrite <- (Nat.add_0_r off) at 1. rewrite <- !(mem_get_slice m off 2), Hs by lia.
  by apply get_uint16_octets.
Qed.

Lemma get_uint32_of_slice m off n : is_u32 n ->
  mem_slice m off 4 = uint32be n -> nghttp2_get_uint32 m off = n.
Proof.
  intros Hn Hs. unfold nghttp2_get_uint32.
  rewrite <- (Nat.add_0_r off) at 1. rewrite <- !(mem_get_slice m off 4), Hs by lia.
  by apply get_uint32_octets.
Qed.

(** Network byte order round trip: a 16-bit or 32-bit word written at any
    offset inside a buffer by [nghttp2_put_uint16be] / [nghttp2_put_uint32be]
    is read back by [nghttp2_get_uint16] / [nghttp2_get_uint32], and the
    buffer keeps its size. *)
Theorem put_get_uint_roundtrip m off n :
  ((off + 2 <= length m)%nat -> is_u16 n ->
   nghttp2_get_uint16 (nghttp2_put_uint16be m off n) off = n /\
   length (nghttp2_put_uint16be m off n) = length m) /\
  ((off + 4 <= length m)%nat -> is_u32 n ->
   nghttp2_get_uint32 (nghttp2_put_uint32be m off n) off = n /\
   length (nghttp2_put_uint32be m off n) = length m).
Proof.
  split; intros Hlen Hn; (split; [|by apply mem_write_length]).
  - apply get_uint16_of_slice; [done|]. by apply (mem_slice_write m off (uint16be n)).
  - apply get_uint32_of_slice; [done|]. by apply (mem_slice_write m off (uint32be n)).
Qed.

Lemma put_get_uint_roundtrip_witness :
  nghttp2_get_uint32 (nghttp2_put_uint32be [1; 2; 3; 4; 5; 6] 1 305419896) 1 = 305419896.
Proof.
  apply (proj2 (put_get_uint_roundtrip [1; 2; 3; 4; 5; 6] 1 305419896)).
  - vm_compute. lia.
  - vm_compute. split; congruence.
Defined.

(** ** Receive window *)

(** What the session keeps: the window and the reduction are not negative. *)
Record window_ok (w : window_cells) : Prop := {
  wok_local : 0 <= local_window_size w <= INT32_MAX;
  wok_recv : is_i32 (recv_window_size w);
  wok_red : 0 <= recv_reduction w <= INT32_MAX;
  wok_delta : is_i32 (delta_size w);
}.

(** The number of octets the peer may still send. *)
Definition peer_credit (w : window_cells) : Z := local_window_size w - recv_window_size w.

Lemma i32_Some z : is_i32 z -> i32 z = Some z.
Proof. intros. unfold i32. by rewrite option_guard_True. Qed.

Ltac i32_step :=
  match goal with
  | |- context [i32 ?z] => rewrite (i32_Some z) by (cint_lia); cbn [mbind option_bind]
  end.

Lemma nghttp2_min_spec a b : nghttp2_min a b = Z.min a b.
Proof. unfold nghttp2_min. destruct (Z.ltb_spec a b); lia. Qed.

(** Runs the arithmetic of the window functions, then closes the goals. *)
Ltac window_solve :=
  unfold nghttp2_max, nghttp2_min, NGHTTP2_MAX_WINDOW_SIZE in *;
  repeat first [i32_step | bcase; cbn [mbind option_bind]];
  eexists _, _; (split; [reflexivity|]); simpl; (split; [try done|]);
  intros; try done; (split; [split; simpl; cint_lia|cint_lia]).

(** Adjusting the receive window never overflows an [int32_t], reports
    [NGHTTP2_ERR_FLOW_CONTROL] without touching any cell, and otherwise keeps
    the cells well formed and conserves the flow-control credit: the window
    the peer may use grows by exactly the increment left in [*delta_ptr], the
    one the caller announces in a WINDOW_UPDATE frame. *)
Theorem adjust_local_window_size_credit w :
  window_ok w ->
  exists w' rv,
    nghttp2_adjust_local_window_size w = Some (w', rv) /\
    (rv <> 0 -> rv = NGHTTP2_ERR_FLOW_CONTROL /\ w' = w) /\
    (rv = 0 -> window_ok w' /\ 0 <= delta_size w' /\
       peer_credit w' = peer_credit w + delta_size w').
Proof.
  intros [Hl Hr Hd Hx]. destruct w as [lw rw rr d]; simpl in *.
  unfold nghttp2_adjust_local_window_size, peer_credit. simpl.
  window_solve.
Qed.

Lemma adjust_local_window_size_credit_witness :
  exists w' rv,
    nghttp2_adjust_local_window_size (mk_window 65535 100 40 300) = Some (w', rv) /\
    (rv <> 0 -> rv = NGHTTP2_ERR_FLOW_CONTROL /\ w' = mk_window 65535 100 40 300) /\
    (rv = 0 -> window_ok w' /\ 0 <= delta_size w' /\
       peer_credit w' = peer_credit (mk_window 65535 100 40 300) + delta_size w').
Proof.
  apply (adjust_local_window_size_credit (mk_window 65535 100 40 300)).
  split; vm_compute; split; congruence.
Defined.

(** [nghttp2_increase_local_window_size] grows the window by the whole
    increment and pays the earlier reduction out of it first. *)
Lemma increase_local_window_size_credit w :
  window_ok w -> 0 <= delta_size w ->
  recv_window_size w + recv_reduction w <= INT32_MAX ->
  exists w' rv,
    nghttp2_increase_local_window_size w = Some (w', rv) /\
    (rv <> 0 -> rv = NGHTTP2_ERR_FLOW_CONTROL /\ w' = w) /\
    (rv = 0 -> window_ok w' /\ 0 <= delta_size w' /\
       peer_credit w' = peer_credit w + delta_size w').
Proof.
  intros [Hl Hr Hd Hx] Hpos Hsum. destruct w as [lw rw rr d]; simpl in *.
  unfold nghttp2_increase_local_window_size, peer_credit. simpl.
  rewrite (proj2 (Z.ltb_ge d 0)) by done. window_solve.
Qed.

(** ** Character classes *)

Lemma all_in_table_spec (tbl : list Z) (P : Z -> Prop) s :
  (forall c, is_u8 c -> mem_get tbl (Z.to_nat c) <> 0 <-> P c) ->
  is_bytes s -> all_in_table tbl s = true <-> Forall P s.
Proof.
  intros Ht. induction 1 as [|c s Hc Hs IH]; simpl; [done|].
  rewrite Forall_cons, <- IH. specialize (Ht c Hc).
  destruct (Z.eqb_spec (mem_get tbl (Z.to_nat c)) 0); naive_solver.
Qed.

(** Octet ranges and ASCII sets of the RFCs. *)
Definition is_digit (c : Z) : Prop := 48 <= c <= 57.
Definition is_upper (c : Z) : Prop := 65 <= c <= 90.
Definition is_lower (c : Z) : Prop := 97 <= c <= 122.

(** The punctuation of a [token] (RFC 9110, section 5.6.2). *)
Definition tchar_punct : list Z :=
  [33; 35; 36; 37; 38; 39; 42; 43; 45; 46; 94; 95; 96; 124; 126].

Definition is_tchar (c : Z) : Prop :=
  c ∈ tchar_punct \/ is_digit c \/ is_upper c \/ is_lower c.

(** RFC 9113, section 8.2.1: a field name is a token without upper case. *)
Definition is_name_char (c : Z) : Prop := is_tchar c /\ ~ is_upper c.

(** A field value has no control character but the horizontal tab. *)
Definition is_value_char (c : Z) : Prop := c = 9 \/ 32 <= c <= 126 \/ 128 <= c <= 255.

(** A path is anything visible, and any octet of a non-ASCII encoding. *)
Definition is_path_char (c : Z) : Prop := 33 <= c <= 126 \/ 128 <= c <= 255.

(** RFC 3986: the sub-delims, unreserved, pct-encoded, and the brackets, colon
    and at sign of an authority. *)
Definition authority_punct : list Z :=
  [33; 36; 37; 38; 39; 40; 41; 42; 43; 44; 45; 46; 58; 59; 61; 64; 91; 93; 95; 126].

Definition is_authority_char (c : Z) : Prop :=
  c ∈ authority_punct \/ is_digit c \/ is_upper c \/ is_lower c.

Ltac solve_char_dec :=
  intros; unfold is_name_char, is_tchar, is_value_char, is_path_char,
    is_authority_char, is_digit, is_upper, is_lower; apply _.

#[export] Instance is_tchar_dec c : Decision (is_tchar c).
Proof. solve_char_dec. Defined.
#[export] Instance is_name_char_dec c : Decision (is_name_char c).
Proof. solve_char_dec. Defined.
#[export] Instance is_value_char_dec c : Decision (is_value_char c).
Proof. solve_char_dec. Defined.
#[export] Instance is_path_char_dec c : Decision (is_path_char c).
Proof. solve_char_dec. Defined.
#[export] Instance is_authority_char_dec c : Decision (is_authority_char c).
Proof. solve_char_dec. Defined.

(** A whole table against its class, by evaluation on the 256 octets. *)
Ltac solve_table := apply (all_octets _ _); vm_compute; reflexivity.

Lemma name_table c : is_u8 c ->
  mem_get VALID_HD_NAME_CHARS (Z.to_nat c) <> 0 <-> is_name_char c.
Proof. revert c. solve_table. Qed.

Lemma value_table c : is_u8 c ->
  mem_get VALID_HD_VALUE_CHARS (Z.to_nat c) <> 0 <-> is_value_char c.
Proof. revert c. solve_table. Qed.

Lemma method_table c : is_u8 c ->
  mem_get VALID_METHOD_CHARS (Z.to_nat c) <> 0 <-> is_tchar c.
Proof. revert c. solve_table. Qed.

Lemma path_table c : is_u8 c ->
  mem_get VALID_PATH_CHARS (Z.to_nat c) <> 0 <-> is_path_char c.
Proof. revert c. solve_table. Qed.

Lemma authority_table c : is_u8 c ->
  mem_get VALID_AUTHORITY_CHARS (Z.to_nat c) <> 0 <-> is_authority_char c.
Proof. revert c. solve_table. Qed.

Lemma downcase_table c : is_u8 c ->
  mem_get DOWNCASE_TBL (Z.to_nat c) = (if decide (65 <= c <= 90) then c + 32 else c).
Proof. revert c. solve_table. Qed.

(** Every octet is folded on its own: the table agrees with adding 32 to the
    upper-case ASCII letters. *)
Lemma nghttp2_downcase_spec s : is_bytes s ->
  nghttp2_downcase s = map (fun c => if decide (65 <= c <= 90) then c + 32 else c) s.
Proof. induction 1; simpl; [done|]. by rewrite downcase_table, IHForall. Qed.

Lemma check_header_name_spec s : is_bytes s ->
  nghttp2_check_header_name s = true <->
    exists name, name <> [] /\ Forall is_name_char name /\ (s = name \/ s = 58 :: name).
Proof.
  intros Hs. destruct s as [|c s]; cbn [nghttp2_check_header_name].
  { split; [done|]. by intros (? & ? & ? & [<-|?]). }
  destruct (Z.eqb_spec c 58) as [->|Hc].
  - assert (~ is_name_char 58) by (apply (bool_decide_unpack _); by vm_compute).
    apply Forall_cons in Hs as [_ Hs]. destruct s as [|c s].
    { split; [done|]. intros (n & ? & Hn & [<-|?]); [by inversion Hn|congruence]. }
    replace (zlen _ =? 1) with false by (symmetry; apply Z.eqb_neq; simpl; lia).
    rewrite (all_in_table_spec _ _ _ name_table) by done. split; [by exists (c :: s); auto|].
    intros (n & ? & Hn & [<-|?]); [by inversion Hn|congruence].
  - rewrite (all_in_table_spec _ _ _ name_table) by done.
    split; [by exists (c :: s); auto|]. intros (n & ? & Hn & [<-|?]); [done|congruence].
Qed.

Lemma check_method_spec s : is_bytes s ->
  nghttp2_check_method s = true <-> s <> [] /\ Forall is_tchar s.
Proof.
  intros Hs. unfold nghttp2_check_method. destruct s as [|c s]; [simpl; naive_solver|].
  replace (zlen _ =? 0) with false by (symmetry; apply Z.eqb_neq; simpl; lia).
  rewrite (all_in_table_spec _ _ _ method_table) by done. naive_solver.
Qed.

(** The generated character tables implement the grammars: a header name
    passes [nghttp2_check_header_name] exactly when it is a non-empty token
    without upper-case letters, optionally after the colon of a pseudo-header;
    a method exactly when it is a non-empty token; a value, a path and an
    authority exactly when all their octets are in the class of the RFCs. *)
Theorem check_chars_grammar s :
  is_bytes s ->
  (nghttp2_check_header_name s = true <->
     exists name, name <> [] /\ Forall is_name_char name /\ (s = name \/ s = 58 :: name)) /\
  (nghttp2_check_header_value s = true <-> Forall is_value_char s) /\
  (nghttp2_check_method s = true <-> s <> [] /\ Forall is_tchar s) /\
  (nghttp2_check_path s = true <-> Forall is_path_char s) /\
  (nghttp2_check_authority s = true <-> Forall is_authority_char s).
Proof.
  intros Hs.
  split_and!; [by apply check_header_name_spec| |by apply check_method_spec|..];
    by apply all_in_table_spec; [auto using value_table, path_table, authority_table|].
Qed.

Lemma check_chars_grammar_witness :
  nghttp2_check_header_name [58; 112; 97; 116; 104] = true.
Proof.
  assert (is_bytes [58; 112; 97; 116; 104]) as Hs
    by (apply (bool_decide_unpack _); by vm_compute).
  apply (proj1 (check_chars_grammar [58; 112; 97; 116; 104] Hs)).
  exists [112; 97; 116; 104]. split; [congruence|].
  split; [|by right]. apply (bool_decide_unpack _). by vm_compute.
Defined.

(** The stricter rule of RFC 9113: no white space at either end. *)
Lemma check_header_value_rfc9113_spec s : is_bytes s ->
  nghttp2_check_header_value_rfc9113 s = true <->
    Forall is_value_char s /\
    (forall c, head s = Some c \/ last s = Some c -> c <> 32 /\ c <> 9).
Proof.
  intros Hs. unfold nghttp2_check_header_value_rfc9113, nghttp2_check_header_value.
  destruct s as [|c s]; [simpl; naive_solver|].
  replace (zlen _ =? 0) with false by (symmetry; apply Z.eqb_neq; simpl; lia).
  assert (exists d, last (c :: s) = Some d /\ mem_get (c :: s) (length (c :: s) - 1) = d)
    as (d & Hlast & ->).
  { destruct (last (c :: s)) as [d|] eqn:E; [|by apply last_None in E].
    exists d. split; [done|]. apply mem_get_lookup.
    rewrite last_lookup in E. by rewrite <- E, Nat.sub_1_r. }
  change (mem_get (c :: s) 0) with c. rewrite Hlast.
  rewrite <- (all_in_table_spec _ _ _ value_table) by done. cbn [head].
  destruct (Z.eqb_spec c 32), (Z.eqb_spec c 9), (Z.eqb_spec d 32), (Z.eqb_spec d 9);
    cbn [orb]; split; intros H; try done; try (destruct H as [? H]; naive_solver).
Qed.
