(* ===== verification/Buf.v ===== *)
(** * Buffers and buffer chains (nghttp2_buf.c, nghttp2_buf.h)

    A [nghttp2_buf] is a block of memory with the offsets [pos], [last] and
    [mark] (the pointers of the code relative to [begin]); a [nghttp2_bufs] is
    a chain of them that grows chunk by chunk up to [max_chunk].  Everything
    the library serialises is written through this interface.

    Memory comes from the allocator [bufs->mem], a parameter: the outcome of a
    call depends on its number and on the size asked for.  A write outside the
    block has no defined result and is [None], and so is a loop that has used
    up its fuel.  [nghttp2_bufs_add_appends] shows that neither happens, that
    a successful write appends exactly its argument to the contents of the
    chain and that it succeeds if and only if the data fit. *)

From S2P Require Import Prelude Defs Helper.

Record nghttp2_buf := mk_buf {
  b_mem : bytes;
  b_pos : nat;
  b_last : nat;
  b_mark : nat;
}.

Definition nghttp2_buf_len (b : nghttp2_buf) : nat := b_last b - b_pos b.
Definition nghttp2_buf_avail (b : nghttp2_buf) : nat := length (b_mem b) - b_last b.
Definition nghttp2_buf_cap (b : nghttp2_buf) : nat := length (b_mem b).

Definition nghttp2_buf_shift_right (b : nghttp2_buf) (amt : nat) : nghttp2_buf :=
  mk_buf (b_mem b) (b_pos b + amt) (b_last b + amt) (b_mark b).

Definition nghttp2_buf_shift_left (b : nghttp2_buf) (amt : nat) : nghttp2_buf :=
  mk_buf (b_mem b) (b_pos b - amt) (b_last b - amt) (b_mark b).

Definition nghttp2_buf_init : nghttp2_buf := mk_buf [] 0 0 0.

Definition nghttp2_buf_free (b : nghttp2_buf) : nghttp2_buf :=
  mk_buf [] (b_pos b) (b_last b) (b_mark b).

Definition nghttp2_buf_reset (b : nghttp2_buf) : nghttp2_buf := mk_buf (b_mem b) 0 0 0.

Definition nghttp2_buf_wrap_init (block : bytes) : nghttp2_buf := mk_buf block 0 0 0.

(** [buf->last = nghttp2_cpymem(buf->last, bs, len)], inside the block. *)
Definition buf_put (b : nghttp2_buf) (bs : bytes) : option nghttp2_buf :=
  guard (b_last b + length bs <= length (b_mem b))%nat;;
  let '(m, last) := nghttp2_cpymem (b_mem b) (b_last b) bs in
  Some (mk_buf m (b_pos b) last (b_mark b)).

(** [*buf->last = f( *buf->last)], inside the block. *)
Definition buf_poke (b : nghttp2_buf) (f : Z -> Z) : option nghttp2_buf :=
  guard (b_last b < length (b_mem b))%nat;;
  Some (mk_buf (mem_write (b_mem b) (b_last b) [f (mem_get (b_mem b) (b_last b))])
          (b_pos b) (b_last b) (b_mark b)).

(** [++buf->last]. *)
Definition buf_incr (b : nghttp2_buf) : nghttp2_buf :=
  mk_buf (b_mem b) (b_pos b) (S (b_last b)) (b_mark b).

(** [bs_cur] is the position of [cur] in the chain that starts at [head];
    [bs_calls] counts the calls of the allocator. *)
Record nghttp2_bufs := mk_bufs {
  bs_chain : list nghttp2_buf;
  bs_cur : nat;
  bs_chunk_length : nat;
  bs_max_chunk : nat;
  bs_chunk_used : nat;
  bs_chunk_keep : nat;
  bs_offset : nat;
  bs_calls : nat;
}.

Definition set_chain (s : nghttp2_bufs) (chain : list nghttp2_buf) (cur : nat) : nghttp2_bufs :=
  mk_bufs chain cur (bs_chunk_length s) (bs_max_chunk s) (bs_chunk_used s)
    (bs_chunk_keep s) (bs_offset s) (bs_calls s).

Definition set_calls (s : nghttp2_bufs) (calls : nat) : nghttp2_bufs :=
  mk_bufs (bs_chain s) (bs_cur s) (bs_chunk_length s) (bs_max_chunk s) (bs_chunk_used s)
    (bs_chunk_keep s) (bs_offset s) calls.

Definition set_cur_buf (s : nghttp2_bufs) (b : nghttp2_buf) : nghttp2_bufs :=
  set_chain s (<[bs_cur s := b]> (bs_chain s)) (bs_cur s).

Definition nghttp2_bufs_cur_avail (s : nghttp2_bufs) : nat :=
  match bs_chain s !! bs_cur s with Some b => nghttp2_buf_avail b | None => 0 end.

(** What the code relies on of an allocator: a block has the size asked for. *)
Class Allocator (malloc : nat -> nat -> option bytes) : Prop :=
  malloc_length : forall call n m, malloc call n = Some m -> length m = n.

(** [sizeof(nghttp2_buf_chain)] on a 64-bit target. *)
Definition sizeof_buf_chain : nat := 48.

Section Bufs.
Context (malloc : nat -> nat -> option bytes).

(** [nghttp2_mem_realloc]: the old contents are kept. *)
Definition realloc (calls : nat) (old : bytes) (n : nat) : option bytes :=
  m ← malloc calls n; Some (take n old ++ drop (length old) m).

Definition nghttp2_buf_reserve (calls : nat) (b : nghttp2_buf) (new_cap : nat) : nghttp2_buf * nat * Z :=
  let cap := nghttp2_buf_cap b in
  if (new_cap <=? cap)%nat then (b, calls, 0)
  else
    match realloc calls (b_mem b) (Nat.max new_cap (cap * 2)) with
    | None => (b, S calls, NGHTTP2_ERR_NOMEM)
    | Some m => (mk_buf m (b_pos b) (b_last b) (b_mark b), S calls, 0)
    end.

Definition nghttp2_buf_init2 (calls initial : nat) : nghttp2_buf * nat * Z :=
  nghttp2_buf_reserve calls nghttp2_buf_init initial.

Definition buf_chain_new (calls chunk_length : nat) : option nghttp2_buf * nat :=
  match malloc calls sizeof_buf_chain with
  | None => (None, S calls)
  | Some _ =>
      let '(b, calls, rv) := nghttp2_buf_init2 (S calls) chunk_length in
      if rv =? 0 then (Some b, calls) else (None, calls)
  end.

Definition nghttp2_bufs_init3 (calls chunk_length max_chunk chunk_keep offset : nat) : nghttp2_bufs + Z :=
  if ((chunk_keep =? 0) || (max_chunk <? chunk_keep) || (chunk_length <? offset))%nat
  then inr NGHTTP2_ERR_INVALID_ARGUMENT
  else
    match buf_chain_new calls chunk_length with
    | (None, _) => inr NGHTTP2_ERR_NOMEM
    | (Some b, calls) =>
        inl (mk_bufs [nghttp2_buf_shift_right b offset] 0 chunk_length max_chunk 1
               chunk_keep offset calls)
    end.

Definition nghttp2_bufs_init2 (calls chunk_length max_chunk offset : nat) : nghttp2_bufs + Z :=
  nghttp2_bufs_init3 calls chunk_length max_chunk max_chunk offset.

Definition nghttp2_bufs_init (calls chunk_length max_chunk : nat) : nghttp2_bufs + Z :=
  nghttp2_bufs_init2 calls chunk_length max_chunk 0.

Definition nghttp2_bufs_free (s : nghttp2_bufs) : nghttp2_bufs := set_chain s [] (bs_cur s).

(** The chain is replaced once the new chunk is there. *)
Definition nghttp2_bufs_realloc (s : nghttp2_bufs) (chunk_length : nat) : nghttp2_bufs * Z :=
  if (chunk_length <? bs_offset s)%nat then (s, NGHTTP2_ERR_INVALID_ARGUMENT)
  else
    match buf_chain_new (bs_calls s) chunk_length with
    | (None, calls) => (set_calls s calls, NGHTTP2_ERR_NOMEM)
    | (Some b, calls) =>
        let s := nghttp2_bufs_free s in
        (mk_bufs [nghttp2_buf_shift_right b (bs_offset s)] 0 chunk_length (bs_max_chunk s) 1
           (bs_chunk_keep s) (bs_offset s) calls, 0)
    end.

Definition nghttp2_bufs_wrap_init (calls : nat) (block : bytes) : nghttp2_bufs + Z :=
  match malloc calls sizeof_buf_chain with
  | None => inr NGHTTP2_ERR_NOMEM
  | Some _ => inl (mk_bufs [nghttp2_buf_wrap_init block] 0 (length block) 1 1 1 0 (S calls))
  end.

Definition nghttp2_bufs_wrap_init2 (calls : nat) (vec : list bytes) : nghttp2_bufs + Z :=
  let veclen := length vec in
  if (veclen =? 0)%nat then nghttp2_bufs_wrap_init calls []
  else
    match malloc calls (sizeof_buf_chain * veclen) with
    | None => inr NGHTTP2_ERR_NOMEM
    | Some _ =>
        inl (mk_bufs (map nghttp2_buf_wrap_init vec) 0 0 veclen veclen veclen 0 (S calls))
    end.

(** The loop visits the chunks from [ci] on. *)
Fixpoint seek_last_present_loop (chunks : list nghttp2_buf) (ci cur : nat) : nat :=
  match chunks with
  | [] => cur
  | b :: chunks =>
      if (nghttp2_buf_len b =? 0)%nat then cur
      else seek_last_present_loop chunks (S ci) ci
  end.

Definition nghttp2_bufs_seek_last_present (s : nghttp2_bufs) : nghttp2_bufs :=
  set_chain s (bs_chain s)
    (seek_last_present_loop (drop (bs_cur s) (bs_chain s)) (bs_cur s) (bs_cur s)).

Fixpoint bufs_len_loop (chunks : list nghttp2_buf) (len : nat) : nat :=
  match chunks with
  | [] => len
  | b :: chunks => bufs_len_loop chunks (len + nghttp2_buf_len b)
  end.

Definition nghttp2_bufs_len (s : nghttp2_bufs) : nat := bufs_len_loop (bs_chain s) 0.

Definition bufs_alloc_chain (s : nghttp2_bufs) : nghttp2_bufs * Z :=
  if (S (bs_cur s) <? length (bs_chain s))%nat
  then (set_chain s (bs_chain s) (S (bs_cur s)), 0)
  else if (bs_max_chunk s =? bs_chunk_used s)%nat then (s, NGHTTP2_ERR_BUFFER_ERROR)
  else
    match buf_chain_new (bs_calls s) (bs_chunk_length s) with
    | (None, calls) => (set_calls s calls, NGHTTP2_ERR_NOMEM)
    | (Some b, calls) =>
        (mk_bufs (bs_chain s ++ [nghttp2_buf_shift_right b (bs_offset s)]) (S (bs_cur s))
           (bs_chunk_length s) (bs_max_chunk s) (S (bs_chunk_used s))
           (bs_chunk_keep s) (bs_offset s) calls, 0)
    end.

(** [while (len) ...]: each turn writes at least one octet or moves [cur]. *)
Fixpoint bufs_add_loop (fuel : nat) (s : nghttp2_bufs) (p : bytes) : option (nghttp2_bufs * Z) :=
  match fuel with
  | O => None
  | S fuel =>
      if (length p =? 0)%nat then Some (s, 0)
      else
        buf ← bs_chain s !! bs_cur s;
        let nwrite := Nat.min (nghttp2_buf_avail buf) (length p) in
        if (nwrite =? 0)%nat then
          let '(s, rv) := bufs_alloc_chain s in
          if rv =? 0 then bufs_add_loop fuel s p else Some (s, rv)
        else
          buf ← buf_put buf (take nwrite p);
          bufs_add_loop fuel (set_cur_buf s buf) (drop nwrite p)
  end.

Definition nghttp2_bufs_add (s : nghttp2_bufs) (data : bytes) : option (nghttp2_bufs * Z) :=
  bufs_add_loop (S (length data + bs_max_chunk s)) s data.

Definition bufs_ensure_addb (s : nghttp2_bufs) : nghttp2_bufs * Z :=
  if (0 <? nghttp2_bufs_cur_avail s)%nat then (s, 0) else bufs_alloc_chain s.

(** [*bufs->cur->buf.last = f( *bufs->cur->buf.last)] after making room;
    [advance] tells the variants with [last++] from the holding ones. *)
Definition bufs_modb (s : nghttp2_bufs) (f : Z -> Z) (advance : bool) : option (nghttp2_bufs * Z) :=
  let '(s, rv) := bufs_ensure_addb s in
  if rv =? 0 then
    buf ← bs_chain s !! bs_cur s;
    buf ← buf_poke buf f;
    Some (set_cur_buf s (if advance then buf_incr buf else buf), 0)
  else Some (s, rv).

Definition nghttp2_bufs_addb (s : nghttp2_bufs) (b : Z) : option (nghttp2_bufs * Z) :=
  bufs_modb s (fun _ => b) true.

Definition nghttp2_bufs_addb_hold (s : nghttp2_bufs) (b : Z) : option (nghttp2_bufs * Z) :=
  bufs_modb s (fun _ => b) false.

Definition nghttp2_bufs_orb (s : nghttp2_bufs) (b : Z) : option (nghttp2_bufs * Z) :=
  bufs_modb s (fun c => c .| b) true.

Definition nghttp2_bufs_orb_hold (s : nghttp2_bufs) (b : Z) : option (nghttp2_bufs * Z) :=
  bufs_modb s (fun c => c .| b) false.

(** Copies the chunks one after the other behind [resbuf.last]. *)
Fixpoint bufs_copy_loop (chunks : list nghttp2_buf) (resbuf : nghttp2_buf) : option nghttp2_buf :=
  match chunks with
  | [] => Some resbuf
  | b :: chunks =>
      resbuf ← buf_put resbuf (mem_slice (b_mem b) (b_pos b) (nghttp2_buf_len b));
      bufs_copy_loop chunks resbuf
  end.

(** The octets handed out in [*out] (none when the chain is empty: [*out] is
    not assigned then) and the return value. *)
Definition nghttp2_bufs_remove (s : nghttp2_bufs) : option (option bytes * nghttp2_bufs * Z) :=
  let len := bufs_len_loop (bs_chain s) 0 in
  if (len =? 0)%nat then Some (None, s, 0)
  else
    match malloc (bs_calls s) len with
    | None => Some (None, set_calls s (S (bs_calls s)), NGHTTP2_ERR_NOMEM)
    | Some res =>
        resbuf ← bufs_copy_loop (bs_chain s) (nghttp2_buf_wrap_init res);
        Some (Some (b_mem resbuf), set_calls s (S (bs_calls s)), Z.of_nat len)
    end.

(** [out] has room for [nghttp2_bufs_len] octets. *)
Definition nghttp2_bufs_remove_copy (s : nghttp2_bufs) (out : bytes) : option (bytes * nat) :=
  let len := nghttp2_bufs_len s in
  resbuf ← bufs_copy_loop (bs_chain s) (nghttp2_buf_wrap_init (take len out));
  Some (b_mem resbuf ++ drop len out, len).

(** The chunks that stay, and whether the loop broke off at the [chunk_keep]th
    (the chunks behind it are deleted then). *)
Fixpoint bufs_reset_loop (offset : nat) (chunks : list nghttp2_buf) (k : nat) : list nghttp2_buf * bool :=
  match chunks with
  | [] => ([], false)
  | b :: chunks =>
      let b := nghttp2_buf_shift_right (nghttp2_buf_reset b) offset in
      if (k =? 1)%nat then ([b], true)
      else
        let '(kept, broke) := bufs_reset_loop offset chunks (k - 1) in
        (b :: kept, broke)
  end.

Definition nghttp2_bufs_reset (s : nghttp2_bufs) : nghttp2_bufs :=
  let '(kept, broke) := bufs_reset_loop (bs_offset s) (bs_chain s) (bs_chunk_keep s) in
  mk_bufs kept 0 (bs_chunk_length s) (bs_max_chunk s)
    (if broke then bs_chunk_keep s else bs_chunk_used s)
    (bs_chunk_keep s) (bs_offset s) (bs_calls s).

Definition nghttp2_bufs_advance (s : nghttp2_bufs) : nghttp2_bufs * Z := bufs_alloc_chain s.

Definition nghttp2_bufs_rewind (s : nghttp2_bufs) : nghttp2_bufs := set_chain s (bs_chain s) 0.

Definition nghttp2_bufs_next_present (s : nghttp2_bufs) : bool :=
  match bs_chain s !! S (bs_cur s) with
  | Some b => negb (nghttp2_buf_len b =? 0)%nat
  | None => false
  end.

End Bufs.

(** ** Contents and invariants *)

Definition buf_ok (b : nghttp2_buf) : Prop :=
  (b_pos b <= b_last b <= length (b_mem b))%nat.

Definition buf_bytes (b : nghttp2_buf) : bytes :=
  mem_slice (b_mem b) (b_pos b) (nghttp2_buf_len b).

Definition bufs_bytes (s : nghttp2_bufs) : bytes := concat (map buf_bytes (bs_chain s)).

(** A chunk nothing has been written to. *)
Definition buf_fresh (offset : nat) (b : nghttp2_buf) : Prop :=
  b_pos b = offset /\ b_last b = offset.

Record bufs_wf (s : nghttp2_bufs) : Prop := {
  wf_cur : (bs_cur s < length (bs_chain s))%nat;
  wf_used : bs_chunk_used s = length (bs_chain s);
  wf_max : (bs_chunk_used s <= bs_max_chunk s)%nat;
  wf_keep : (1 <= bs_chunk_keep s <= bs_max_chunk s)%nat;
  wf_bufs : Forall buf_ok (bs_chain s);
  wf_room : Forall (fun b => bs_offset s <= length (b_mem b))%nat (bs_chain s) /\
            Forall (fun b => bs_offset s < length (b_mem b))%nat (drop 1 (bs_chain s));
  wf_later : Forall (buf_fresh (bs_offset s)) (drop (S (bs_cur s)) (bs_chain s));
  wf_grow : (bs_offset s < bs_chunk_length s)%nat \/
            (bs_chunk_used s = bs_max_chunk s /\ bs_chunk_keep s = bs_max_chunk s);
}.

(** The number of octets that can still be written. *)
Definition bufs_room (s : nghttp2_bufs) : nat :=
  sum_list (map nghttp2_buf_avail (drop (bs_cur s) (bs_chain s))) +
  (bs_max_chunk s - bs_chunk_used s) * (bs_chunk_length s - bs_offset s).

(** The effect of a successful write of [bs]. *)
Record bufs_appended (s : nghttp2_bufs) (bs : bytes) (s' : nghttp2_bufs) : Prop := {
  ap_wf : bufs_wf s';
  ap_bytes : bufs_bytes s' = bufs_bytes s ++ bs;
  ap_room : bufs_room s = (bufs_room s' + length bs)%nat;
  ap_max : bs_max_chunk s' = bs_max_chunk s;
}.

(** The allocator refuses some request. *)
Definition can_fail (malloc : nat -> nat -> option bytes) : Prop :=
  exists call n, malloc call n = None.

(** What a writing function promises: it returns; on success it has appended
    [bs]; it reports a full chain only when [bs] does not fit, and a lack of
    memory only when the allocator refused; after an error the chain is well
    formed and holds a prefix of [bs]. *)
Definition writes (malloc : nat -> nat -> option bytes) (s : nghttp2_bufs) (bs : bytes) (r : option (nghttp2_bufs * Z)) : Prop :=
  exists s' rv, r = Some (s', rv) /\ bufs_wf s' /\
    (rv = 0 \/ rv = NGHTTP2_ERR_BUFFER_ERROR \/ rv = NGHTTP2_ERR_NOMEM) /\
    (rv = 0 -> bufs_appended s bs s') /\
    (rv = NGHTTP2_ERR_BUFFER_ERROR -> bufs_room s < length bs)%nat /\
    (rv = NGHTTP2_ERR_NOMEM -> can_fail malloc) /\
    (exists k, bufs_bytes s' = bufs_bytes s ++ take k bs).

Lemma bufs_appended_nil s : bufs_wf s -> bufs_appended s [] s.
Proof. intros. split; [done|by rewrite app_nil_r|simpl; lia|done]. Qed.

Lemma bufs_appended_trans s a s1 b s2 :
  bufs_appended s a s1 -> bufs_appended s1 b s2 -> bufs_appended s (a ++ b) s2.
Proof.
  intros [? H1 ? ?] [? H2 ? ?]. split; [done| |rewrite length_app; lia|congruence].
  by rewrite H2, H1, app_assoc.
Qed.

Lemma writes_nil malloc s : bufs_wf s -> writes malloc s [] (Some (s, 0)).
Proof.
  intros. exists s, 0. split_and!; try done; auto using bufs_appended_nil.
  exists 0%nat. by rewrite take_0, app_nil_r.
Qed.

(** Writing [a] and then [b], seen from the state before. *)
Lemma writes_app malloc s a b s1 r :
  bufs_appended s a s1 -> writes malloc s1 b r -> writes malloc s (a ++ b) r.
Proof.
  intros Ha (s2 & rv & -> & ? & ? & Hok2 & Hfull2 & Hmem2 & i & Hi).
  exists s2, rv. split_and!; eauto using bufs_appended_trans.
  - intros E. apply Hfull2 in E. rewrite (ap_room _ _ _ Ha), length_app. lia.
  - exists (length a + i)%nat. by rewrite Hi, (ap_bytes _ _ _ Ha), take_app_add, app_assoc.
Qed.

(** Sequencing with an early return on error. *)
Lemma writes_bind malloc s a b r k :
  writes malloc s a r -> (forall s1, bufs_appended s a s1 -> writes malloc s1 b (k s1)) ->
  writes malloc s (a ++ b) (try s1 ← r ;; k s1).
Proof.
  intros (s1 & rv & -> & Hwf & Hrv & Hok & Hfull & Hmem & j & Hj) Hk. unfold try_bind. simpl.
  destruct (Z.eqb_spec rv 0) as [->|Hne].
  - eauto using writes_app.
  - exists s1, rv. split_and!; try done.
    + intros E. apply Hfull in E. rewrite length_app. lia.
    + destruct (decide (j <= length a)%nat).
      * exists j. by rewrite take_app_le.
      * exists (length a). rewrite Hj, take_app_length. by rewrite take_ge by lia.
Qed.

(** ** Writing inside the current chunk *)

Lemma buf_bytes_fresh offset b : buf_fresh offset b -> buf_bytes b = [].
Proof.
  intros [Hp Hl]. unfold buf_bytes, nghttp2_buf_len. rewrite Hp, Hl, Nat.sub_diag. done.
Qed.

(** Octets written at [last]. *)
Lemma buf_bytes_write b bs :
  buf_ok b -> (b_last b + length bs <= length (b_mem b))%nat ->
  buf_bytes (mk_buf (mem_write (b_mem b) (b_last b) bs) (b_pos b)
    (b_last b + length bs) (b_mark b)) = buf_bytes b ++ bs.
Proof.
  intros [? ?] ?. unfold buf_bytes, nghttp2_buf_len, mem_slice, mem_write. simpl.
  rewrite drop_app_le by (rewrite length_take; lia).
  assert (drop (b_pos b) (take (b_last b) (b_mem b)) =
    take (b_last b - b_pos b) (drop (b_pos b) (b_mem b))) as ->.
  { rewrite take_drop_commute. do 2 f_equal. lia. }
  replace (b_last b + length bs - b_pos b)%nat
    with (b_last b - b_pos b + length bs)%nat by lia.
  rewrite take_app_add' by (rewrite length_take, length_drop; lia).
  by rewrite take_app_length.
Qed.

(** A chain with a given current chunk, around which the proofs work. *)
Definition chain_at (s : nghttp2_bufs) (pre : list nghttp2_buf) (b : nghttp2_buf)
    (post : list nghttp2_buf) : Prop :=
  bs_chain s = pre ++ b :: post /\ bs_cur s = length pre.

Lemma bufs_wf_chain s : bufs_wf s -> exists pre b post, chain_at s pre b post.
Proof.
  intros []. destruct (lookup_lt_is_Some_2 _ _ wf_cur0) as [b Hb].
  apply list_elem_of_split_length in Hb as (pre & post & ? & ?). by exists pre, b, post.
Qed.

Lemma chain_at_lookup s pre b post : chain_at s pre b post -> bs_chain s !! bs_cur s = Some b.
Proof. intros [-> ->]. by rewrite list_lookup_middle. Qed.

Lemma chain_at_set s pre b post b' :
  chain_at s pre b post -> chain_at (set_cur_buf s b') pre b' post.
Proof.
  intros [Hc Hl]. split; [|done]. simpl. rewrite Hc, Hl.
  by rewrite insert_app_r_alt, Nat.sub_diag by lia.
Qed.

Lemma concat_fresh offset post :
  Forall (buf_fresh offset) post -> concat (map buf_bytes post) = [].
Proof. induction 1; simpl; [done|]. by erewrite buf_bytes_fresh, IHForall. Qed.

(** The parts of [bufs_wf] and of the contents, along the split chain. *)
Lemma chain_at_later s pre b post :
  chain_at s pre b post -> drop (S (bs_cur s)) (bs_chain s) = post.
Proof. intros [-> ->]. rewrite cons_middle, app_assoc. apply drop_app_length'. rewrite length_app; simpl; lia. Qed.

Lemma chain_at_bytes s pre b post :
  chain_at s pre b post -> Forall (buf_fresh (bs_offset s)) post ->
  bufs_bytes s = concat (map buf_bytes pre) ++ buf_bytes b.
Proof.
  intros [Hc _] Hp. unfold bufs_bytes. rewrite Hc, map_app, concat_app. simpl.
  by rewrite (concat_fresh _ _ Hp), app_nil_r.
Qed.

Lemma chain_at_room s pre b post :
  chain_at s pre b post ->
  bufs_room s = (nghttp2_buf_avail b + sum_list (map nghttp2_buf_avail post) +
    (bs_max_chunk s - bs_chunk_used s) * (bs_chunk_length s - bs_offset s))%nat.
Proof.
  intros [Hc Hl]. unfold bufs_room. rewrite Hc, Hl, drop_app_length. simpl. lia.
Qed.

(** Replacing the current chunk by one of the same size keeps the invariant. *)
Lemma bufs_wf_set s b b' :
  bufs_wf s -> bs_chain s !! bs_cur s = Some b ->
  buf_ok b' -> length (b_mem b') = length (b_mem b) -> bufs_wf (set_cur_buf s b').
Proof.
  intros [Hcur Hused Hmax Hkeep Hok [Hr1 Hr2] Hlate Hgrow] Hb Hok' Hlen.
  split; simpl; rewrite ?length_insert; auto.
  - by apply Forall_insert.
  - rewrite Forall_lookup in Hr1. split.
    + apply Forall_insert; [by apply Forall_lookup|]. rewrite Hlen. eauto.
    + destruct (bs_cur s) as [|c] eqn:E.
      * destruct (bs_chain s); [done|]. done.
      * rewrite drop_insert_ge, Nat.sub_succ, Nat.sub_0_r by lia.
        pose proof Hr2 as Hr3. rewrite Forall_lookup in Hr3.
        apply Forall_insert; [done|]. rewrite Hlen. apply (Hr3 c). by rewrite lookup_drop.
  - by rewrite drop_insert_lt by lia.
Qed.

(** A write of [bs] at [last] that fits in the current chunk. *)
Lemma bufs_appended_put s b bs :
  bufs_wf s -> bs_chain s !! bs_cur s = Some b ->
  (length bs <= nghttp2_buf_avail b)%nat ->
  bufs_appended s bs (set_cur_buf s (mk_buf (mem_write (b_mem b) (b_last b) bs) (b_pos b)
    (b_last b + length bs) (b_mark b))).
Proof.
  intros Hwf Hb Hlen. unfold nghttp2_buf_avail in Hlen.
  pose proof (Forall_lookup_1 _ _ _ _ (wf_bufs _ Hwf) Hb) as Hok.
  pose proof Hok as [? ?].
  set (b' := mk_buf _ _ _ _).
  assert (length (b_mem b') = length (b_mem b)) by (apply mem_write_length; simpl in *; lia).
  destruct (bufs_wf_chain s Hwf) as (pre & b0 & post & Hat).
  assert (b0 = b) as -> by (apply chain_at_lookup in Hat; congruence).
  pose proof (chain_at_set _ _ _ _ b' Hat) as Hat'.
  pose proof (wf_later _ Hwf) as Hlate. erewrite chain_at_later in Hlate by done.
  split; [|rewrite (chain_at_bytes _ _ _ _ Hat'), (chain_at_bytes _ _ _ _ Hat) by done|
    rewrite (chain_at_room _ _ _ _ Hat'), (chain_at_room _ _ _ _ Hat)|done].
  - eapply bufs_wf_set; eauto. split; simpl; [lia|]. rewrite mem_write_length; lia.
  - subst b'. rewrite buf_bytes_write by (done || lia). by rewrite app_assoc.
  - unfold nghttp2_buf_avail. rewrite H1. simpl. lia.
Qed.

Lemma buf_put_Some b bs :
  (length bs <= nghttp2_buf_avail b)%nat -> (b_last b <= length (b_mem b))%nat ->
  buf_put b bs = Some (mk_buf (mem_write (b_mem b) (b_last b) bs) (b_pos b)
    (b_last b + length bs) (b_mark b)).
Proof.
  unfold nghttp2_buf_avail. intros. unfold buf_put, nghttp2_cpymem.
  rewrite option_guard_True by lia. destruct bs; simpl; [|done].
  unfold mem_write. simpl. rewrite !Nat.add_0_r, take_drop. by destruct b.
Qed.

(** ** Moving to the next chunk *)

Section Allocation.
Context (malloc : nat -> nat -> option bytes) `{!Allocator malloc}.

Lemma buf_chain_new_fresh calls len b calls' :
  buf_chain_new malloc calls len = (Some b, calls') ->
  length (b_mem b) = len /\ buf_fresh 0 b.
Proof.
  unfold buf_chain_new, nghttp2_buf_init2, nghttp2_buf_reserve, realloc.
  destruct (malloc calls _); [|done]. cbn [nghttp2_buf_cap nghttp2_buf_init b_mem length].
  destruct (Nat.leb_spec len 0).
  { intros [= <- <-]. simpl. split; [lia|done]. }
  destruct (malloc (S calls) _) as [m|] eqn:E; simpl; intros [= <- <-].
  apply malloc_length in E. rewrite Nat.max_l in E by lia. simpl.
  rewrite take_nil, drop_0. done.
Qed.

Lemma buf_chain_new_None calls len calls' :
  buf_chain_new malloc calls len = (None, calls') -> can_fail malloc.
Proof.
  unfold buf_chain_new, nghttp2_buf_init2, nghttp2_buf_reserve, realloc, can_fail.
  destruct (malloc calls _) eqn:E1; [|eauto].
  cbn [nghttp2_buf_cap nghttp2_buf_init b_mem length].
  destruct (Nat.leb_spec len 0); [done|].
  destruct (malloc (S calls) _) eqn:E2; [done|eauto].
Qed.

(** [cur] moves to a fresh chunk that is already in the chain. *)
Lemma bufs_next_chunk s pre b b1 post :
  bufs_wf s -> chain_at s pre b (b1 :: post) -> nghttp2_buf_avail b = 0%nat ->
  let s' := set_chain s (bs_chain s) (S (bs_cur s)) in
  bufs_appended s [] s' /\ (0 < nghttp2_bufs_cur_avail s')%nat.
Proof.
  intros [Hcur Hused Hmax Hkeep Hok [Hr1 Hr2] Hlate Hgrow] Hat Havail s'.
  rewrite (chain_at_later _ _ _ _ Hat) in Hlate.
  pose proof (chain_at_bytes _ _ _ _ Hat Hlate) as Hbytes.
  pose proof (chain_at_room _ _ _ _ Hat) as Hroom. destruct Hat as [Hc Hl].
  apply Forall_cons in Hlate as [[Hp1 Hl1] Hlate].
  assert (chain_at s' (pre ++ [b]) b1 post) as Hat'.
  { split; simpl; [by rewrite Hc, <- app_assoc|rewrite length_app; simpl; lia]. }
  assert (bs_offset s < length (b_mem b1))%nat as Hb1.
  { rewrite Hc in Hr2. rewrite Forall_lookup in Hr2. apply (Hr2 (length pre)).
    rewrite lookup_drop, lookup_app_r by lia.
    by replace (1 + length pre - length pre)%nat with 1%nat by lia. }
  split.
  - split; [|rewrite (chain_at_bytes _ _ _ _ Hat' Hlate), Hbytes|
      rewrite (chain_at_room _ _ _ _ Hat'), Hroom; simpl; lia|done].
    + split; simpl; auto; rewrite Hc, ?length_app in *; simpl in *; [lia|].
      by rewrite <- (chain_at_later _ _ _ _ Hat') in Hlate; simpl in Hlate; rewrite Hc in Hlate.
    + rewrite map_app, concat_app. simpl.
      rewrite (buf_bytes_fresh (bs_offset s) b1) by done. by rewrite !app_nil_r.
  - unfold nghttp2_bufs_cur_avail. rewrite (chain_at_lookup _ _ _ _ Hat').
    unfold nghttp2_buf_avail. lia.
Qed.

(** A fresh chunk is allocated behind the last one. *)
Lemma bufs_new_chunk s pre b b1 calls :
  bufs_wf s -> chain_at s pre b [] -> nghttp2_buf_avail b = 0%nat ->
  bs_max_chunk s <> bs_chunk_used s ->
  length (b_mem b1) = bs_chunk_length s -> buf_fresh 0 b1 ->
  let s' := mk_bufs (bs_chain s ++ [nghttp2_buf_shift_right b1 (bs_offset s)]) (S (bs_cur s))
    (bs_chunk_length s) (bs_max_chunk s) (S (bs_chunk_used s))
    (bs_chunk_keep s) (bs_offset s) calls in
  bufs_appended s [] s' /\ (0 < nghttp2_bufs_cur_avail s')%nat.
Proof.
  intros [Hcur Hused Hmax Hkeep Hok [Hr1 Hr2] Hlate Hgrow] Hat Havail E Hlen [Hp1 Hl1] s'.
  destruct Hgrow as [Hgrow|[]]; [|congruence].
  pose proof (chain_at_bytes _ _ _ _ Hat (Forall_nil_2 _)) as Hbytes.
  pose proof (chain_at_room _ _ _ _ Hat) as Hroom. destruct Hat as [Hc Hl].
  set (b2 := nghttp2_buf_shift_right b1 (bs_offset s)) in *.
  assert (chain_at s' (pre ++ [b]) b2 []) as Hat'.
  { split; simpl; [by rewrite Hc|rewrite length_app; simpl; lia]. }
  assert (buf_fresh (bs_offset s) b2) as Hfresh by (split; simpl; lia).
  split.
  - split; [|rewrite (chain_at_bytes _ _ _ _ Hat'), Hbytes by done|
      rewrite (chain_at_room _ _ _ _ Hat'), Hroom; unfold nghttp2_buf_avail in *; simpl; nia|done].
    + split; simpl; auto; rewrite ?length_app; simpl; try lia.
      * apply Forall_app. split; [done|]. constructor; [|done]. split; simpl; lia.
      * rewrite drop_app_le by lia. split; apply Forall_app; split; try done;
          (constructor; simpl; [lia|done]).
      * rewrite drop_ge by (rewrite Hc, !length_app; simpl; lia). constructor.
    + rewrite map_app, concat_app. simpl.
      rewrite (buf_bytes_fresh (bs_offset s) b2) by done. by rewrite !app_nil_r.
  - unfold nghttp2_bufs_cur_avail. rewrite (chain_at_lookup _ _ _ _ Hat').
    unfold nghttp2_buf_avail. simpl. lia.
Qed.

Lemma bufs_alloc_chain_spec s s' rv :
  bufs_wf s -> bufs_alloc_chain malloc s = (s', rv) -> nghttp2_bufs_cur_avail s = 0%nat ->
  (rv = 0 /\ bufs_appended s [] s' /\ (0 < nghttp2_bufs_cur_avail s')%nat /\
     bs_cur s' = S (bs_cur s)) \/
  (rv = NGHTTP2_ERR_BUFFER_ERROR /\ s' = s /\ bufs_room s = 0%nat) \/
  (rv = NGHTTP2_ERR_NOMEM /\ bufs_wf s' /\ bufs_bytes s' = bufs_bytes s /\ can_fail malloc).
Proof.
  intros Hwf Halloc Havail. destruct (bufs_wf_chain s Hwf) as (pre & b & post & Hat).
  pose proof (chain_at_room _ _ _ _ Hat) as Hroom.
  unfold nghttp2_bufs_cur_avail in Havail. erewrite chain_at_lookup in Havail by done.
  unfold bufs_alloc_chain in Halloc. pose proof Hat as [Hc Hl].
  assert (length (bs_chain s) = S (bs_cur s) + length post)%nat as Hlc
    by (rewrite Hc, Hl, length_app; simpl; lia).
  destruct (Nat.ltb_spec (S (bs_cur s)) (length (bs_chain s))); destruct post as [|b1 post];
    simpl in *; try lia.
  { injection Halloc as <- <-. left.
    destruct (bufs_next_chunk s pre b b1 post) as [??]; auto. }
  destruct (Nat.eqb_spec (bs_max_chunk s) (bs_chunk_used s)) as [E|E].
  { injection Halloc as <- <-. right; left. split_and!; [done..|]. rewrite Hroom, E. lia. }
  destruct (buf_chain_new malloc _ _) as [[b1|] calls] eqn:Hnew; injection Halloc as <- <-.
  - apply buf_chain_new_fresh in Hnew as [Hlen Hf]. left.
    destruct (bufs_new_chunk s pre b b1 calls) as [??]; auto.
  - right; right. split_and!; [done| |done|by eapply buf_chain_new_None]. by destruct Hwf; split.
Qed.

(** ** Writing across chunks *)

Lemma writes_error s bs s' rv :
  bufs_wf s' -> bufs_bytes s' = bufs_bytes s ->
  (rv = NGHTTP2_ERR_BUFFER_ERROR /\ (bufs_room s < length bs)%nat) \/
  (rv = NGHTTP2_ERR_NOMEM /\ can_fail malloc) ->
  writes malloc s bs (Some (s', rv)).
Proof.
  intros Hwf Hb Hrv. exists s', rv. split_and!; try done.
  - naive_solver.
  - intros ->. by destruct Hrv as [[]|[]].
  - intros ->. by destruct Hrv as [[]|[]].
  - intros ->. by destruct Hrv as [[]|[]].
  - exists 0%nat. by rewrite take_0, app_nil_r.
Qed.

(** Each turn of the loop makes progress in the data or in the chain. *)
Lemma bufs_add_loop_writes fuel s p :
  bufs_wf s -> (length p + bs_max_chunk s - bs_cur s < fuel)%nat ->
  writes malloc s p (bufs_add_loop malloc fuel s p).
Proof.
  revert s p. induction fuel as [|fuel IH]; intros s p Hwf Hfuel; [lia|].
  cbn [bufs_add_loop]. destruct (Nat.eqb_spec (length p) 0) as [E|Hp].
  { apply nil_length_inv in E as ->. by apply writes_nil. }
  assert (bs_cur s < bs_max_chunk s)%nat as Hcm by (destruct Hwf; lia).
  destruct (lookup_lt_is_Some_2 _ _ (wf_cur _ Hwf)) as [b Hb]. rewrite Hb. cbn [mbind option_bind].
  pose proof (Forall_lookup_1 _ _ _ _ (wf_bufs _ Hwf) Hb) as [? ?].
  destruct (Nat.eqb_spec (Nat.min (nghttp2_buf_avail b) (length p)) 0) as [E|E].
  - assert (nghttp2_bufs_cur_avail s = 0%nat) as Hav
      by (unfold nghttp2_bufs_cur_avail; rewrite Hb; lia).
    destruct (bufs_alloc_chain malloc s) as [s1 rv] eqn:Ha.
    destruct (bufs_alloc_chain_spec _ _ _ Hwf Ha Hav) as
      [(-> & Hap & _ & Hcur)|[(-> & -> & Hr)|(-> & Hwf1 & Hb1 & Hf1)]]; simpl.
    + eapply (writes_app _ s [] p); [done|]. apply IH; [apply Hap|].
      rewrite (ap_max _ _ _ Hap), Hcur. lia.
    + apply writes_error; auto. left. split; [done|]. lia.
    + apply writes_error; auto.
  - set (n := Nat.min (nghttp2_buf_avail b) (length p)) in *.
    assert (length (take n p) = n) as Hn by (rewrite length_take; lia).
    rewrite buf_put_Some by (rewrite ?Hn; lia). cbn [mbind option_bind].
    rewrite <- (take_drop n p) at 1. eapply writes_app.
    + apply bufs_appended_put; [done|done|lia].
    + apply IH; [eapply ap_wf, bufs_appended_put; [done|done|lia]|].
      rewrite length_drop. simpl. lia.
Qed.

Lemma bufs_add_writes s data : bufs_wf s -> writes malloc s data (nghttp2_bufs_add malloc s data).
Proof. intros. apply bufs_add_loop_writes; [done|]. lia. Qed.

Lemma bufs_addb_writes s b : bufs_wf s -> writes malloc s [b] (nghttp2_bufs_addb malloc s b).
Proof.
  intros Hwf. unfold nghttp2_bufs_addb, bufs_modb.
  assert (forall s1, bufs_wf s1 -> (0 < nghttp2_bufs_cur_avail s1)%nat ->
    writes malloc s1 [b] (buf ← bs_chain s1 !! bs_cur s1; buf ← buf_poke buf (fun _ => b);
      Some (set_cur_buf s1 (buf_incr buf), 0))) as Hpoke.
  { intros s1 Hwf1 Hav. unfold nghttp2_bufs_cur_avail in Hav.
    destruct (bs_chain s1 !! bs_cur s1) as [c|] eqn:Hc; [|lia]. cbn [mbind option_bind].
    unfold nghttp2_buf_avail in Hav. unfold buf_poke.
    rewrite option_guard_True by lia. cbn [mbind option_bind].
    rewrite <- (app_nil_r [b]). eapply writes_app; [|apply writes_nil];
      pose proof (bufs_appended_put s1 c [b] Hwf1 Hc) as Hput;
      unfold nghttp2_buf_avail in Hput; simpl in Hput; rewrite Nat.add_1_r in Hput;
      [apply Hput; lia|eapply ap_wf; apply Hput; lia]. }
  unfold bufs_ensure_addb. destruct (Nat.ltb_spec 0 (nghttp2_bufs_cur_avail s)); simpl; [auto|].
  destruct (bufs_alloc_chain malloc s) as [s1 rv] eqn:Ha.
  destruct (bufs_alloc_chain_spec _ _ _ Hwf Ha) as
    [(-> & Hap & ? & Hcur)|[(-> & -> & Hr)|(-> & Hwf1 & Hb1 & Hf1)]]; simpl; [lia|..].
  - apply (writes_app _ s [] [b] s1); [done|]. apply Hpoke; [apply Hap|done].
  - apply writes_error; auto. left. split; [done|]. simpl; lia.
  - apply writes_error; auto.
Qed.

(** ** Initialisation, reset, reading back *)

Lemma bufs_init3_spec calls chunk_length max_chunk chunk_keep offset s :
  nghttp2_bufs_init3 malloc calls chunk_length max_chunk chunk_keep offset = inl s ->
  (offset < chunk_length)%nat ->
  bufs_wf s /\ bufs_bytes s = [] /\
  bufs_room s = (max_chunk * (chunk_length - offset))%nat /\ bs_max_chunk s = max_chunk.
Proof.
  unfold nghttp2_bufs_init3. intros H Hlt.
  destruct (_ || _ || _) eqn:E; [done|]. apply orb_false_iff in E as [[E1 E2]%orb_false_iff E3].
  apply Nat.eqb_neq in E1. apply Nat.ltb_ge in E2. apply Nat.ltb_ge in E3.
  destruct (buf_chain_new _ _ _) as [[b|] c] eqn:Hn; [|done]. injection H as <-.
  apply buf_chain_new_fresh in Hn as [Hlen [Hp Hl]].
  split_and!; [split; simpl; try lia|..].
  - repeat constructor; simpl; lia.
  - repeat constructor; simpl; lia.
  - constructor.
  - unfold bufs_bytes. simpl. by rewrite (buf_bytes_fresh offset) by (split; simpl; lia).
  - unfold bufs_room, nghttp2_buf_avail. simpl. nia.
  - done.
Qed.

Lemma bufs_reset_loop_spec offset chunks k kept broke :
  bufs_reset_loop offset chunks k = (kept, broke) -> (1 <= k)%nat ->
  kept = map (fun b => nghttp2_buf_shift_right (nghttp2_buf_reset b) offset) (take k chunks) /\
  (if broke then k <= length chunks else length chunks < k)%nat.
Proof.
  revert k kept broke. induction chunks as [|b chunks IH]; simpl; intros k kept broke H Hk.
  { injection H as <- <-. rewrite take_nil. split; [done|lia]. }
  destruct (Nat.eqb_spec k 1) as [->|Hne].
  { injection H as <- <-. simpl. split; [done|lia]. }
  destruct (bufs_reset_loop _ _ _) as [kept1 broke1] eqn:E. injection H as <- <-.
  apply IH in E as [-> ?]; [|lia]. destruct k as [|k]; [lia|]. simpl.
  rewrite Nat.sub_0_r in *. split; [done|]. destruct broke1; lia.
Qed.

Lemma bufs_reset_spec s : bufs_wf s ->
  bufs_wf (nghttp2_bufs_reset s) /\ bufs_bytes (nghttp2_bufs_reset s) = [].
Proof.
  intros [Hcur Hused Hmax Hkeep Hok [Hr1 Hr2] Hlate Hgrow]. unfold nghttp2_bufs_reset.
  destruct (bufs_reset_loop _ _ _) as [kept broke] eqn:E.
  apply bufs_reset_loop_spec in E as [-> Hb]; [|lia].
  assert (Forall (buf_fresh (bs_offset s))
    (map (fun b => nghttp2_buf_shift_right (nghttp2_buf_reset b) (bs_offset s))
      (take (bs_chunk_keep s) (bs_chain s)))) as Hf.
  { apply Forall_map, Forall_true. intros. split; simpl; lia. }
  assert (length (take (bs_chunk_keep s) (bs_chain s)) =
    if broke then bs_chunk_keep s else bs_chunk_used s) as Hlen.
  { rewrite length_take. destruct broke; lia. }
  split; [split; simpl; rewrite ?length_map, ?Hlen|]; try done.
  - destruct broke; lia.
  - destruct broke; lia.
  - apply Forall_map. eapply Forall_impl; [apply Forall_take, Hr1|].
    intros b Hb'. unfold compose, buf_ok. simpl in *. lia.
  - rewrite skipn_map. split; apply Forall_map.
    + by apply Forall_take.
    + rewrite skipn_firstn_comm. by apply Forall_take.
  - by apply Forall_drop.
  - destruct Hgrow as [?|[]]; [by left|]. right. destruct broke; lia.
  - unfold bufs_bytes. simpl. by eapply concat_fresh.
Qed.

Lemma buf_bytes_length b : buf_ok b -> length (buf_bytes b) = nghttp2_buf_len b.
Proof. intros [? ?]. apply mem_slice_length. unfold nghttp2_buf_len. lia. Qed.

Lemma bufs_len_loop_spec chunks n : Forall buf_ok chunks ->
  bufs_len_loop chunks n = (n + length (concat (map buf_bytes chunks)))%nat.
Proof.
  intros H. revert n. induction H as [|b chunks Hb H IH]; intros n; simpl; [lia|].
  rewrite IH, length_app, buf_bytes_length by done. lia.
Qed.

(** The copy fills the result from its start. *)
Lemma bufs_copy_loop_spec chunks r : Forall buf_ok chunks -> buf_ok r ->
  (length (concat (map buf_bytes chunks)) <= nghttp2_buf_avail r)%nat ->
  exists r', bufs_copy_loop chunks r = Some r' /\
    b_mem r' = mem_write (b_mem r) (b_last r) (concat (map buf_bytes chunks)).
Proof.
  intros H. revert r. induction H as [|b chunks Hb H IH]; intros r Hr Hle; simpl in *.
  { exists r. split; [done|]. unfold mem_write. simpl. by rewrite Nat.add_0_r, take_drop. }
  rewrite length_app in Hle. unfold nghttp2_buf_avail in Hle. destruct Hr as [? ?].
  fold (buf_bytes b). rewrite buf_put_Some by (unfold nghttp2_buf_avail; lia).
  cbn [mbind option_bind]. set (r1 := mk_buf _ _ _ _).
  assert (length (b_mem r1) = length (b_mem r)) as Hl1 by (apply mem_write_length; lia).
  destruct (IH r1) as (r' & -> & Hr').
  - split; simpl; [lia|]. rewrite mem_write_length; lia.
  - unfold nghttp2_buf_avail. rewrite Hl1. simpl. lia.
  - exists r'. split; [done|]. rewrite Hr'. subst r1. cbn [b_mem b_last].
    by rewrite mem_write_write by lia.
Qed.

(** [nghttp2_bufs_remove] hands out the contents, all of them, in order. *)
Lemma bufs_remove_spec s : bufs_wf s ->
  nghttp2_bufs_remove malloc s =
    if (length (bufs_bytes s) =? 0)%nat then Some (None, s, 0)
    else match malloc (bs_calls s) (length (bufs_bytes s)) with
         | None => Some (None, set_calls s (S (bs_calls s)), NGHTTP2_ERR_NOMEM)
         | Some _ => Some (Some (bufs_bytes s), set_calls s (S (bs_calls s)), zlen (bufs_bytes s))
         end.
Proof.
  intros Hwf. unfold nghttp2_bufs_remove.
  rewrite bufs_len_loop_spec by apply Hwf. simpl. fold (bufs_bytes s).
  bcase; [done|]. destruct (malloc _ _) as [res|] eqn:E; [|done].
  apply malloc_length in E.
  destruct (bufs_copy_loop_spec (bs_chain s) (nghttp2_buf_wrap_init res)) as (r & -> & Hr).
  - apply Hwf.
  - split; simpl; lia.
  - unfold nghttp2_buf_avail. simpl. fold (bufs_bytes s). lia.
  - cbn [mbind option_bind]. rewrite Hr. fold (bufs_bytes s). simpl.
    unfold mem_write. rewrite take_0, drop_ge by lia. by rewrite app_nil_r.
Qed.

(** A sequence of [nghttp2_bufs_add] calls, stopping at the first error. *)
Fixpoint add_all (s : nghttp2_bufs) (ds : list bytes) : option (nghttp2_bufs * Z) :=
  match ds with
  | [] => Some (s, 0)
  | d :: ds => try s1 ← nghttp2_bufs_add malloc s d ;; add_all s1 ds
  end.

Lemma add_all_writes s ds : bufs_wf s -> writes malloc s (concat ds) (add_all s ds).
Proof.
  revert s. induction ds as [|d ds IH]; intros s Hwf; simpl; [by apply writes_nil|].
  eapply writes_bind; [by apply bufs_add_writes|]. intros s1 Ha. apply IH, Ha.
Qed.

End Allocation.

(** An allocator that never runs out of memory. *)
Definition zero_malloc (call n : nat) : option bytes := Some (replicate n 0).

#[export] Instance zero_malloc_alloc : Allocator zero_malloc.
Proof. intros ?? m [= <-]. apply length_replicate. Qed.

(** [nghttp2_bufs_add] always returns, never writes outside a chunk, and
    appends exactly its data to the contents of the chain when it returns 0;
    it reports [NGHTTP2_ERR_BUFFER_ERROR] only when the data do not fit in
    the remaining room, and after any error the chain is still well formed
    and holds the old contents followed by a prefix of the data. *)
Theorem nghttp2_bufs_add_appends malloc `{!Allocator malloc} s data :
  bufs_wf s ->
  exists s' rv,
    nghttp2_bufs_add malloc s data = Some (s', rv) /\ bufs_wf s' /\
    (rv = 0 -> bufs_bytes s' = bufs_bytes s ++ data /\
               bufs_room s = (bufs_room s' + length data)%nat) /\
    (rv <> 0 -> rv = NGHTTP2_ERR_NOMEM \/
       (rv = NGHTTP2_ERR_BUFFER_ERROR /\ (bufs_room s < length data)%nat)) /\
    (exists k, bufs_bytes s' = bufs_bytes s ++ take k data).
Proof.
  intros Hwf. destruct (bufs_add_writes malloc s data Hwf) as
    (s' & rv & E & Hwf' & Hrv & Hok & Hfull & Hmem & Hk).
  exists s', rv. split_and!; try done; [|naive_solver].
  intros H. destruct (Hok H). done.
Qed.

Lemma nghttp2_bufs_add_appends_witness :
  exists s s' rv, nghttp2_bufs_init3 zero_malloc 0 5 3 2 2 = inl s /\
    nghttp2_bufs_add zero_malloc s [1; 2; 3; 4; 5; 6; 7] = Some (s', rv) /\
    bufs_bytes s' = [1; 2; 3; 4; 5; 6; 7].
Proof.
  eexists _, _, 0. split; [reflexivity|].
  pose proof (nghttp2_bufs_add_appends zero_malloc
    (mk_bufs [mk_buf [0; 0; 0; 0; 0] 2 2 0] 0 5 3 1 2 2 2) [1; 2; 3; 4; 5; 6; 7]) as H.
  destruct H as (s' & rv & E & _ & H & _).
  - split; simpl; repeat constructor; simpl; try lia.
  - vm_compute in E. injection E as <- <-. split; [vm_compute; reflexivity|].
    apply (proj1 (H eq_refl)).
Defined.

(** Round trip through a buffer chain: after [nghttp2_bufs_init3], if a
    sequence of [nghttp2_bufs_add] calls succeeds, [nghttp2_bufs_remove]
    returns the concatenation of the data; the calls do succeed, when the
    allocator does, as long as the data fit in [max_chunk] chunks of
    [chunk_length - offset] octets; and [nghttp2_bufs_reset] empties the
    chain. *)
Theorem nghttp2_bufs_roundtrip malloc `{!Allocator malloc} calls chunk_length max_chunk chunk_keep
    offset s ds :
  (forall call n, malloc call n <> None) ->
  nghttp2_bufs_init3 malloc calls chunk_length max_chunk chunk_keep offset = inl s ->
  (offset < chunk_length)%nat ->
  (0 < length (concat ds) <= max_chunk * (chunk_length - offset))%nat ->
  exists s',
    add_all malloc s ds = Some (s', 0) /\
    nghttp2_bufs_len s' = length (concat ds) /\
    nghttp2_bufs_remove malloc s' =
      Some (Some (concat ds), set_calls s' (S (bs_calls s')), zlen (concat ds)) /\
    bufs_bytes (nghttp2_bufs_reset s') = [] /\ bufs_wf (nghttp2_bufs_reset s').
Proof.
  intros Hall Hinit Hoff Hlen.
  destruct (bufs_init3_spec malloc _ _ _ _ _ _ Hinit Hoff) as (Hwf & Hb & Hr & Hm).
  destruct (add_all_writes malloc s ds Hwf) as (s' & rv & E & Hwf' & Hrv & Hok & Hfull & Hmem & _).
  assert (rv = 0) as ->.
  { destruct Hrv as [?|[?|H]]; [done|lia|]. destruct (Hmem H) as (c & n & ?). by edestruct Hall. }
  destruct (Hok eq_refl) as [_ Hbytes _ _]. rewrite Hb in Hbytes. simpl in Hbytes.
  exists s'. split_and!; [done| | |by apply bufs_reset_spec..].
  - unfold nghttp2_bufs_len. rewrite bufs_len_loop_spec by apply Hwf'.
    fold (bufs_bytes s'). by rewrite Hbytes.
  - rewrite bufs_remove_spec by done. rewrite Hbytes. bcase; [lia|].
    destruct (malloc _ _) eqn:Em; [done|]. by edestruct Hall.
Qed.

Lemma nghttp2_bufs_roundtrip_witness :
  exists s s', nghttp2_bufs_init3 zero_malloc 0 5 3 2 2 = inl s /\
    add_all zero_malloc s [[1; 2]; [3; 4; 5]; [6]] = Some (s', 0) /\
    nghttp2_bufs_remove zero_malloc s' =
      Some (Some [1; 2; 3; 4; 5; 6], set_calls s' (S (bs_calls s')), 6).
Proof.
  eexists _.
  destruct (nghttp2_bufs_roundtrip zero_malloc 0 5 3 2 2 _ [[1; 2]; [3; 4; 5]; [6]]
    (fun _ _ H => ltac:(discriminate H)) eq_refl) as (s' & H1 & _ & H2 & _).
  - lia.
  - simpl. lia.
  - exists s'. split; [reflexivity|]. split; [exact H1|exact H2].
Defined.

(** ** A hazard of [nghttp2_bufs_addb]

    [bufs_ensure_addb] moves to the next chunk without checking that it has
    room.  The chunks of a chain set up by [nghttp2_bufs_wrap_init2] come from
    the caller of [nghttp2_hd_deflate_hd_vec]; if one behind the first is
    empty, the octet is stored outside of it. *)
Lemma addb_empty_chunk_out_of_bounds :
  exists s s', nghttp2_bufs_wrap_init2 zero_malloc 0 [[0]; []; [0]] = inl s /\
    nghttp2_bufs_addb zero_malloc s 1 = Some (s', 0) /\
    nghttp2_bufs_addb zero_malloc s' 2 = None.
Proof. eexists _, _. split_and!; reflexivity. Qed.
