(* ===== verification/HuffmanData.v ===== *)
(** * Huffman tables (nghttp2_hd_huffman_data.c)

    The two tables of the HPACK Huffman code, entry by entry: the code of
    each symbol ([256] is EOS), and the decoder's automaton with one row per
    node and one entry per nibble of input. *)

From S2P Require Import Prelude.

(** [nghttp2_huff_sym]: [nbits] and [code]. *)
Record nghttp2_huff_sym := mk_sym { sym_nbits : Z; sym_code : Z }.

(** [nghttp2_huff_decode]: [fstate] and [sym]. *)
Record nghttp2_huff_decode := mk_node { node_fstate : Z; node_sym : Z }.

Definition huff_sym_table : list nghttp2_huff_sym := [
  mk_sym 13 0xffc00000; mk_sym 23 0xffffb000; mk_sym 28 0xfffffe20; mk_sym 28 0xfffffe30;
  mk_sym 28 0xfffffe40; mk_sym 28 0xfffffe50; mk_sym 28 0xfffffe60; mk_sym 28 0xfffffe70;
  mk_sym 28 0xfffffe80; mk_sym 24 0xffffea00; mk_sym 30 0xfffffff0; mk_sym 28 0xfffffe90;
  mk_sym 28 0xfffffea0; mk_sym 30 0xfffffff4; mk_sym 28 0xfffffeb0; mk_sym 28 0xfffffec0;
  mk_sym 28 0xfffffed0; mk_sym 28 0xfffffee0; mk_sym 28 0xfffffef0; mk_sym 28 0xffffff00;
  mk_sym 28 0xffffff10; mk_sym 28 0xffffff20; mk_sym 30 0xfffffff8; mk_sym 28 0xffffff30;
  mk_sym 28 0xffffff40; mk_sym 28 0xffffff50; mk_sym 28 0xffffff60; mk_sym 28 0xffffff70;
  mk_sym 28 0xffffff80; mk_sym 28 0xffffff90; mk_sym 28 0xffffffa0; mk_sym 28 0xffffffb0;
  mk_sym 6 0x50000000; mk_sym 10 0xfe000000; mk_sym 10 0xfe400000; mk_sym 12 0xffa00000;
  mk_sym 13 0xffc80000; mk_sym 6 0x54000000; mk_sym 8 0xf8000000; mk_sym 11 0xff400000;
  mk_sym 10 0xfe800000; mk_sym 10 0xfec00000; mk_sym 8 0xf9000000; mk_sym 11 0xff600000;
  mk_sym 8 0xfa000000; mk_sym 6 0x58000000; mk_sym 6 0x5c000000; mk_sym 6 0x60000000;
  mk_sym 5 0x0; mk_sym 5 0x8000000; mk_sym 5 0x10000000; mk_sym 6 0x64000000;
  mk_sym 6 0x68000000; mk_sym 6 0x6c000000; mk_sym 6 0x70000000; mk_sym 6 0x74000000;
  mk_sym 6 0x78000000; mk_sym 6 0x7c000000; mk_sym 7 0xb8000000; mk_sym 8 0xfb000000;
  mk_sym 15 0xfff80000; mk_sym 6 0x80000000; mk_sym 12 0xffb00000; mk_sym 10 0xff000000;
  mk_sym 13 0xffd00000; mk_sym 6 0x84000000; mk_sym 7 0xba000000; mk_sym 7 0xbc000000;
  mk_sym 7 0xbe000000; mk_sym 7 0xc0000000; mk_sym 7 0xc2000000; mk_sym 7 0xc4000000;
  mk_sym 7 0xc6000000; mk_sym 7 0xc8000000; mk_sym 7 0xca000000; mk_sym 7 0xcc000000;
  mk_sym 7 0xce000000; mk_sym 7 0xd0000000; mk_sym 7 0xd2000000; mk_sym 7 0xd4000000;
  mk_sym 7 0xd6000000; mk_sym 7 0xd8000000; mk_sym 7 0xda000000; mk_sym 7 0xdc000000;
  mk_sym 7 0xde000000; mk_sym 7 0xe0000000; mk_sym 7 0xe2000000; mk_sym 7 0xe4000000;
  mk_sym 8 0xfc000000; mk_sym 7 0xe6000000; mk_sym 8 0xfd000000; mk_sym 13 0xffd80000;
  mk_sym 19 0xfffe0000; mk_sym 13 0xffe00000; mk_sym 14 0xfff00000; mk_sym 6 0x88000000;
  mk_sym 15 0xfffa0000; mk_sym 5 0x18000000; mk_sym 6 0x8c000000; mk_sym 5 0x20000000;
  mk_sym 6 0x90000000; mk_sym 5 0x28000000; mk_sym 6 0x94000000; mk_sym 6 0x98000000;
  mk_sym 6 0x9c000000; mk_sym 5 0x30000000; mk_sym 7 0xe8000000; mk_sym 7 0xea000000;
  mk_sym 6 0xa0000000; mk_sym 6 0xa4000000; mk_sym 6 0xa8000000; mk_sym 5 0x38000000;
  mk_sym 6 0xac000000; mk_sym 7 0xec000000; mk_sym 6 0xb0000000; mk_sym 5 0x40000000;
  mk_sym 5 0x48000000; mk_sym 6 0xb4000000; mk_sym 7 0xee000000; mk_sym 7 0xf0000000;
  mk_sym 7 0xf2000000; mk_sym 7 0xf4000000; mk_sym 7 0xf6000000; mk_sym 15 0xfffc0000;
  mk_sym 11 0xff800000; mk_sym 14 0xfff40000; mk_sym 13 0xffe80000; mk_sym 28 0xffffffc0;
  mk_sym 20 0xfffe6000; mk_sym 22 0xffff4800; mk_sym 20 0xfffe7000; mk_sym 20 0xfffe8000;
  mk_sym 22 0xffff4c00; mk_sym 22 0xffff5000; mk_sym 22 0xffff5400; mk_sym 23 0xffffb200;
  mk_sym 22 0xffff5800; mk_sym 23 0xffffb400; mk_sym 23 0xffffb600; mk_sym 23 0xffffb800;
  mk_sym 23 0xffffba00; mk_sym 23 0xffffbc00; mk_sym 24 0xffffeb00; mk_sym 23 0xffffbe00;
  mk_sym 24 0xffffec00; mk_sym 24 0xffffed00; mk_sym 22 0xffff5c00; mk_sym 23 0xffffc000;
  mk_sym 24 0xffffee00; mk_sym 23 0xffffc200; mk_sym 23 0xffffc400; mk_sym 23 0xffffc600;
  mk_sym 23 0xffffc800; mk_sym 21 0xfffee000; mk_sym 22 0xffff6000; mk_sym 23 0xffffca00;
  mk_sym 22 0xffff6400; mk_sym 23 0xffffcc00; mk_sym 23 0xffffce00; mk_sym 24 0xffffef00;
  mk_sym 22 0xffff6800; mk_sym 21 0xfffee800; mk_sym 20 0xfffe9000; mk_sym 22 0xffff6c00;
  mk_sym 22 0xffff7000; mk_sym 23 0xffffd000; mk_sym 23 0xffffd200; mk_sym 21 0xfffef000;
  mk_sym 23 0xffffd400; mk_sym 22 0xffff7400; mk_sym 22 0xffff7800; mk_sym 24 0xfffff000;
  mk_sym 21 0xfffef800; mk_sym 22 0xffff7c00; mk_sym 23 0xffffd600; mk_sym 23 0xffffd800;
  mk_sym 21 0xffff0000; mk_sym 21 0xffff0800; mk_sym 22 0xffff8000; mk_sym 21 0xffff1000;
  mk_sym 23 0xffffda00; mk_sym 22 0xffff8400; mk_sym 23 0xffffdc00; mk_sym 23 0xffffde00;
  mk_sym 20 0xfffea000; mk_sym 22 0xffff8800; mk_sym 22 0xffff8c00; mk_sym 22 0xffff9000;
  mk_sym 23 0xffffe000; mk_sym 22 0xffff9400; mk_sym 22 0xffff9800; mk_sym 23 0xffffe200;
  mk_sym 26 0xfffff800; mk_sym 26 0xfffff840; mk_sym 20 0xfffeb000; mk_sym 19 0xfffe2000;
  mk_sym 22 0xffff9c00; mk_sym 23 0xffffe400; mk_sym 22 0xffffa000; mk_sym 25 0xfffff600;
  mk_sym 26 0xfffff880; mk_sym 26 0xfffff8c0; mk_sym 26 0xfffff900; mk_sym 27 0xfffffbc0;
  mk_sym 27 0xfffffbe0; mk_sym 26 0xfffff940; mk_sym 24 0xfffff100; mk_sym 25 0xfffff680;
  mk_sym 19 0xfffe4000; mk_sym 21 0xffff1800; mk_sym 26 0xfffff980; mk_sym 27 0xfffffc00;
  mk_sym 27 0xfffffc20; mk_sym 26 0xfffff9c0; mk_sym 27 0xfffffc40; mk_sym 24 0xfffff200;
  mk_sym 21 0xffff2000; mk_sym 21 0xffff2800; mk_sym 26 0xfffffa00; mk_sym 26 0xfffffa40;
  mk_sym 28 0xffffffd0; mk_sym 27 0xfffffc60; mk_sym 27 0xfffffc80; mk_sym 27 0xfffffca0;
  mk_sym 20 0xfffec000; mk_sym 24 0xfffff300; mk_sym 20 0xfffed000; mk_sym 21 0xffff3000;
  mk_sym 22 0xffffa400; mk_sym 21 0xffff3800; mk_sym 21 0xffff4000; mk_sym 23 0xffffe600;
  mk_sym 22 0xffffa800; mk_sym 22 0xffffac00; mk_sym 25 0xfffff700; mk_sym 25 0xfffff780;
  mk_sym 24 0xfffff400; mk_sym 24 0xfffff500; mk_sym 26 0xfffffa80; mk_sym 23 0xffffe800;
  mk_sym 26 0xfffffac0; mk_sym 27 0xfffffcc0; mk_sym 26 0xfffffb00; mk_sym 26 0xfffffb40;
  mk_sym 27 0xfffffce0; mk_sym 27 0xfffffd00; mk_sym 27 0xfffffd20; mk_sym 27 0xfffffd40;
  mk_sym 27 0xfffffd60; mk_sym 28 0xffffffe0; mk_sym 27 0xfffffd80; mk_sym 27 0xfffffda0;
  mk_sym 27 0xfffffdc0; mk_sym 27 0xfffffde0; mk_sym 27 0xfffffe00; mk_sym 26 0xfffffb80;
  mk_sym 30 0xfffffffc
].

(** Rows 0 to 6. *)
Definition huff_decode_rows_0 : list (list nghttp2_huff_decode) := [
  (* 0 *) [mk_node 0x4 0; mk_node 0x5 0; mk_node 0x7 0; mk_node 0x8 0; mk_node 0xb 0; mk_node 0xc 0; mk_node 0x10 0; mk_node 0x13 0; mk_node 0x19 0; mk_node 0x1c 0; mk_node 0x20 0; mk_node 0x23 0; mk_node 0x2a 0; mk_node 0x31 0; mk_node 0x39 0; mk_node 0x4040 0];
  (* 1 *) [mk_node 0xc000 48; mk_node 0xc000 49; mk_node 0xc000 50; mk_node 0xc000 97; mk_node 0xc000 99; mk_node 0xc000 101; mk_node 0xc000 105; mk_node 0xc000 111; mk_node 0xc000 115; mk_node 0xc000 116; mk_node 0xd 0; mk_node 0xe 0; mk_node 0x11 0; mk_node 0x12 0; mk_node 0x14 0; mk_node 0x15 0];
  (* 2 *) [mk_node 0x8001 48; mk_node 0xc016 48; mk_node 0x8001 49; mk_node 0xc016 49; mk_node 0x8001 50; mk_node 0xc016 50; mk_node 0x8001 97; mk_node 0xc016 97; mk_node 0x8001 99; mk_node 0xc016 99; mk_node 0x8001 101; mk_node 0xc016 101; mk_node 0x8001 105; mk_node 0xc016 105; mk_node 0x8001 111; mk_node 0xc016 111];
  (* 3 *) [mk_node 0x8002 48; mk_node 0x8009 48; mk_node 0x8017 48; mk_node 0xc028 48; mk_node 0x8002 49; mk_node 0x8009 49; mk_node 0x8017 49; mk_node 0xc028 49; mk_node 0x8002 50; mk_node 0x8009 50; mk_node 0x8017 50; mk_node 0xc028 50; mk_node 0x8002 97; mk_node 0x8009 97; mk_node 0x8017 97; mk_node 0xc028 97];
  (* 4 *) [mk_node 0x8003 48; mk_node 0x8006 48; mk_node 0x800a 48; mk_node 0x800f 48; mk_node 0x8018 48; mk_node 0x801f 48; mk_node 0x8029 48; mk_node 0xc038 48; mk_node 0x8003 49; mk_node 0x8006 49; mk_node 0x800a 49; mk_node 0x800f 49; mk_node 0x8018 49; mk_node 0x801f 49; mk_node 0x8029 49; mk_node 0xc038 49];
  (* 5 *) [mk_node 0x8003 50; mk_node 0x8006 50; mk_node 0x800a 50; mk_node 0x800f 50; mk_node 0x8018 50; mk_node 0x801f 50; mk_node 0x8029 50; mk_node 0xc038 50; mk_node 0x8003 97; mk_node 0x8006 97; mk_node 0x800a 97; mk_node 0x800f 97; mk_node 0x8018 97; mk_node 0x801f 97; mk_node 0x8029 97; mk_node 0xc038 97];
  (* 6 *) [mk_node 0x8002 99; mk_node 0x8009 99; mk_node 0x8017 99; mk_node 0xc028 99; mk_node 0x8002 101; mk_node 0x8009 101; mk_node 0x8017 101; mk_node 0xc028 101; mk_node 0x8002 105; mk_node 0x8009 105; mk_node 0x8017 105; mk_node 0xc028 105; mk_node 0x8002 111; mk_node 0x8009 111; mk_node 0x8017 111; mk_node 0xc028 111]].

(** Rows 7 to 13. *)
Definition huff_decode_rows_7 : list (list nghttp2_huff_decode) := [
  (* 7 *) [mk_node 0x8003 99; mk_node 0x8006 99; mk_node 0x800a 99; mk_node 0x800f 99; mk_node 0x8018 99; mk_node 0x801f 99; mk_node 0x8029 99; mk_node 0xc038 99; mk_node 0x8003 101; mk_node 0x8006 101; mk_node 0x800a 101; mk_node 0x800f 101; mk_node 0x8018 101; mk_node 0x801f 101; mk_node 0x8029 101; mk_node 0xc038 101];
  (* 8 *) [mk_node 0x8003 105; mk_node 0x8006 105; mk_node 0x800a 105; mk_node 0x800f 105; mk_node 0x8018 105; mk_node 0x801f 105; mk_node 0x8029 105; mk_node 0xc038 105; mk_node 0x8003 111; mk_node 0x8006 111; mk_node 0x800a 111; mk_node 0x800f 111; mk_node 0x8018 111; mk_node 0x801f 111; mk_node 0x8029 111; mk_node 0xc038 111];
  (* 9 *) [mk_node 0x8001 115; mk_node 0xc016 115; mk_node 0x8001 116; mk_node 0xc016 116; mk_node 0xc000 32; mk_node 0xc000 37; mk_node 0xc000 45; mk_node 0xc000 46; mk_node 0xc000 47; mk_node 0xc000 51; mk_node 0xc000 52; mk_node 0xc000 53; mk_node 0xc000 54; mk_node 0xc000 55; mk_node 0xc000 56; mk_node 0xc000 57];
  (* 10 *) [mk_node 0x8002 115; mk_node 0x8009 115; mk_node 0x8017 115; mk_node 0xc028 115; mk_node 0x8002 116; mk_node 0x8009 116; mk_node 0x8017 116; mk_node 0xc028 116; mk_node 0x8001 32; mk_node 0xc016 32; mk_node 0x8001 37; mk_node 0xc016 37; mk_node 0x8001 45; mk_node 0xc016 45; mk_node 0x8001 46; mk_node 0xc016 46];
  (* 11 *) [mk_node 0x8003 115; mk_node 0x8006 115; mk_node 0x800a 115; mk_node 0x800f 115; mk_node 0x8018 115; mk_node 0x801f 115; mk_node 0x8029 115; mk_node 0xc038 115; mk_node 0x8003 116; mk_node 0x8006 116; mk_node 0x800a 116; mk_node 0x800f 116; mk_node 0x8018 116; mk_node 0x801f 116; mk_node 0x8029 116; mk_node 0xc038 116];
  (* 12 *) [mk_node 0x8002 32; mk_node 0x8009 32; mk_node 0x8017 32; mk_node 0xc028 32; mk_node 0x8002 37; mk_node 0x8009 37; mk_node 0x8017 37; mk_node 0xc028 37; mk_node 0x8002 45; mk_node 0x8009 45; mk_node 0x8017 45; mk_node 0xc028 45; mk_node 0x8002 46; mk_node 0x8009 46; mk_node 0x8017 46; mk_node 0xc028 46];
  (* 13 *) [mk_node 0x8003 32; mk_node 0x8006 32; mk_node 0x800a 32; mk_node 0x800f 32; mk_node 0x8018 32; mk_node 0x801f 32; mk_node 0x8029 32; mk_node 0xc038 32; mk_node 0x8003 37; mk_node 0x8006 37; mk_node 0x800a 37; mk_node 0x800f 37; mk_node 0x8018 37; mk_node 0x801f 37; mk_node 0x8029 37; mk_node 0xc038 37]].

(** Rows 14 to 20. *)
Definition huff_decode_rows_14 : list (list nghttp2_huff_decode) := [
  (* 14 *) [mk_node 0x8003 45; mk_node 0x8006 45; mk_node 0x800a 45; mk_node 0x800f 45; mk_node 0x8018 45; mk_node 0x801f 45; mk_node 0x8029 45; mk_node 0xc038 45; mk_node 0x8003 46; mk_node 0x8006 46; mk_node 0x800a 46; mk_node 0x800f 46; mk_node 0x8018 46; mk_node 0x801f 46; mk_node 0x8029 46; mk_node 0xc038 46];
  (* 15 *) [mk_node 0x8001 47; mk_node 0xc016 47; mk_node 0x8001 51; mk_node 0xc016 51; mk_node 0x8001 52; mk_node 0xc016 52; mk_node 0x8001 53; mk_node 0xc016 53; mk_node 0x8001 54; mk_node 0xc016 54; mk_node 0x8001 55; mk_node 0xc016 55; mk_node 0x8001 56; mk_node 0xc016 56; mk_node 0x8001 57; mk_node 0xc016 57];
  (* 16 *) [mk_node 0x8002 47; mk_node 0x8009 47; mk_node 0x8017 47; mk_node 0xc028 47; mk_node 0x8002 51; mk_node 0x8009 51; mk_node 0x8017 51; mk_node 0xc028 51; mk_node 0x8002 52; mk_node 0x8009 52; mk_node 0x8017 52; mk_node 0xc028 52; mk_node 0x8002 53; mk_node 0x8009 53; mk_node 0x8017 53; mk_node 0xc028 53];
  (* 17 *) [mk_node 0x8003 47; mk_node 0x8006 47; mk_node 0x800a 47; mk_node 0x800f 47; mk_node 0x8018 47; mk_node 0x801f 47; mk_node 0x8029 47; mk_node 0xc038 47; mk_node 0x8003 51; mk_node 0x8006 51; mk_node 0x800a 51; mk_node 0x800f 51; mk_node 0x8018 51; mk_node 0x801f 51; mk_node 0x8029 51; mk_node 0xc038 51];
  (* 18 *) [mk_node 0x8003 52; mk_node 0x8006 52; mk_node 0x800a 52; mk_node 0x800f 52; mk_node 0x8018 52; mk_node 0x801f 52; mk_node 0x8029 52; mk_node 0xc038 52; mk_node 0x8003 53; mk_node 0x8006 53; mk_node 0x800a 53; mk_node 0x800f 53; mk_node 0x8018 53; mk_node 0x801f 53; mk_node 0x8029 53; mk_node 0xc038 53];
  (* 19 *) [mk_node 0x8002 54; mk_node 0x8009 54; mk_node 0x8017 54; mk_node 0xc028 54; mk_node 0x8002 55; mk_node 0x8009 55; mk_node 0x8017 55; mk_node 0xc028 55; mk_node 0x8002 56; mk_node 0x8009 56; mk_node 0x8017 56; mk_node 0xc028 56; mk_node 0x8002 57; mk_node 0x8009 57; mk_node 0x8017 57; mk_node 0xc028 57];
  (* 20 *) [mk_node 0x8003 54; mk_node 0x8006 54; mk_node 0x800a 54; mk_node 0x800f 54; mk_node 0x8018 54; mk_node 0x801f 54; mk_node 0x8029 54; mk_node 0xc038 54; mk_node 0x8003 55; mk_node 0x8006 55; mk_node 0x800a 55; mk_node 0x800f 55; mk_node 0x8018 55; mk_node 0x801f 55; mk_node 0x8029 55; mk_node 0xc038 55]].

(** Rows 21 to 27. *)
Definition huff_decode_rows_21 : list (list nghttp2_huff_decode) := [
  (* 21 *) [mk_node 0x8003 56; mk_node 0x8006 56; mk_node 0x800a 56; mk_node 0x800f 56; mk_node 0x8018 56; mk_node 0x801f 56; mk_node 0x8029 56; mk_node 0xc038 56; mk_node 0x8003 57; mk_node 0x8006 57; mk_node 0x800a 57; mk_node 0x800f 57; mk_node 0x8018 57; mk_node 0x801f 57; mk_node 0x8029 57; mk_node 0xc038 57];
  (* 22 *) [mk_node 0x1a 0; mk_node 0x1b 0; mk_node 0x1d 0; mk_node 0x1e 0; mk_node 0x21 0; mk_node 0x22 0; mk_node 0x24 0; mk_node 0x25 0; mk_node 0x2b 0; mk_node 0x2e 0; mk_node 0x32 0; mk_node 0x35 0; mk_node 0x3a 0; mk_node 0x3d 0; mk_node 0x41 0; mk_node 0x4044 0];
  (* 23 *) [mk_node 0xc000 61; mk_node 0xc000 65; mk_node 0xc000 95; mk_node 0xc000 98; mk_node 0xc000 100; mk_node 0xc000 102; mk_node 0xc000 103; mk_node 0xc000 104; mk_node 0xc000 108; mk_node 0xc000 109; mk_node 0xc000 110; mk_node 0xc000 112; mk_node 0xc000 114; mk_node 0xc000 117; mk_node 0x26 0; mk_node 0x27 0];
  (* 24 *) [mk_node 0x8001 61; mk_node 0xc016 61; mk_node 0x8001 65; mk_node 0xc016 65; mk_node 0x8001 95; mk_node 0xc016 95; mk_node 0x8001 98; mk_node 0xc016 98; mk_node 0x8001 100; mk_node 0xc016 100; mk_node 0x8001 102; mk_node 0xc016 102; mk_node 0x8001 103; mk_node 0xc016 103; mk_node 0x8001 104; mk_node 0xc016 104];
  (* 25 *) [mk_node 0x8002 61; mk_node 0x8009 61; mk_node 0x8017 61; mk_node 0xc028 61; mk_node 0x8002 65; mk_node 0x8009 65; mk_node 0x8017 65; mk_node 0xc028 65; mk_node 0x8002 95; mk_node 0x8009 95; mk_node 0x8017 95; mk_node 0xc028 95; mk_node 0x8002 98; mk_node 0x8009 98; mk_node 0x8017 98; mk_node 0xc028 98];
  (* 26 *) [mk_node 0x8003 61; mk_node 0x8006 61; mk_node 0x800a 61; mk_node 0x800f 61; mk_node 0x8018 61; mk_node 0x801f 61; mk_node 0x8029 61; mk_node 0xc038 61; mk_node 0x8003 65; mk_node 0x8006 65; mk_node 0x800a 65; mk_node 0x800f 65; mk_node 0x8018 65; mk_node 0x801f 65; mk_node 0x8029 65; mk_node 0xc038 65];
  (* 27 *) [mk_node 0x8003 95; mk_node 0x8006 95; mk_node 0x800a 95; mk_node 0x800f 95; mk_node 0x8018 95; mk_node 0x801f 95; mk_node 0x8029 95; mk_node 0xc038 95; mk_node 0x8003 98; mk_node 0x8006 98; mk_node 0x800a 98; mk_node 0x800f 98; mk_node 0x8018 98; mk_node 0x801f 98; mk_node 0x8029 98; mk_node 0xc038 98]].

(** Rows 28 to 34. *)
Definition huff_decode_rows_28 : list (list nghttp2_huff_decode) := [
  (* 28 *) [mk_node 0x8002 100; mk_node 0x8009 100; mk_node 0x8017 100; mk_node 0xc028 100; mk_node 0x8002 102; mk_node 0x8009 102; mk_node 0x8017 102; mk_node 0xc028 102; mk_node 0x8002 103; mk_node 0x8009 103; mk_node 0x8017 103; mk_node 0xc028 103; mk_node 0x8002 104; mk_node 0x8009 104; mk_node 0x8017 104; mk_node 0xc028 104];
  (* 29 *) [mk_node 0x8003 100; mk_node 0x8006 100; mk_node 0x800a 100; mk_node 0x800f 100; mk_node 0x8018 100; mk_node 0x801f 100; mk_node 0x8029 100; mk_node 0xc038 100; mk_node 0x8003 102; mk_node 0x8006 102; mk_node 0x800a 102; mk_node 0x800f 102; mk_node 0x8018 102; mk_node 0x801f 102; mk_node 0x8029 102; mk_node 0xc038 102];
  (* 30 *) [mk_node 0x8003 103; mk_node 0x8006 103; mk_node 0x800a 103; mk_node 0x800f 103; mk_node 0x8018 103; mk_node 0x801f 103; mk_node 0x8029 103; mk_node 0xc038 103; mk_node 0x8003 104; mk_node 0x8006 104; mk_node 0x800a 104; mk_node 0x800f 104; mk_node 0x8018 104; mk_node 0x801f 104; mk_node 0x8029 104; mk_node 0xc038 104];
  (* 31 *) [mk_node 0x8001 108; mk_node 0xc016 108; mk_node 0x8001 109; mk_node 0xc016 109; mk_node 0x8001 110; mk_node 0xc016 110; mk_node 0x8001 112; mk_node 0xc016 112; mk_node 0x8001 114; mk_node 0xc016 114; mk_node 0x8001 117; mk_node 0xc016 117; mk_node 0xc000 58; mk_node 0xc000 66; mk_node 0xc000 67; mk_node 0xc000 68];
  (* 32 *) [mk_node 0x8002 108; mk_node 0x8009 108; mk_node 0x8017 108; mk_node 0xc028 108; mk_node 0x8002 109; mk_node 0x8009 109; mk_node 0x8017 109; mk_node 0xc028 109; mk_node 0x8002 110; mk_node 0x8009 110; mk_node 0x8017 110; mk_node 0xc028 110; mk_node 0x8002 112; mk_node 0x8009 112; mk_node 0x8017 112; mk_node 0xc028 112];
  (* 33 *) [mk_node 0x8003 108; mk_node 0x8006 108; mk_node 0x800a 108; mk_node 0x800f 108; mk_node 0x8018 108; mk_node 0x801f 108; mk_node 0x8029 108; mk_node 0xc038 108; mk_node 0x8003 109; mk_node 0x8006 109; mk_node 0x800a 109; mk_node 0x800f 109; mk_node 0x8018 109; mk_node 0x801f 109; mk_node 0x8029 109; mk_node 0xc038 109];
  (* 34 *) [mk_node 0x8003 110; mk_node 0x8006 110; mk_node 0x800a 110; mk_node 0x800f 110; mk_node 0x8018 110; mk_node 0x801f 110; mk_node 0x8029 110; mk_node 0xc038 110; mk_node 0x8003 112; mk_node 0x8006 112; mk_node 0x800a 112; mk_node 0x800f 112; mk_node 0x8018 112; mk_node 0x801f 112; mk_node 0x8029 112; mk_node 0xc038 112]].

(** Rows 35 to 41. *)
Definition huff_decode_rows_35 : list (list nghttp2_huff_decode) := [
  (* 35 *) [mk_node 0x8002 114; mk_node 0x8009 114; mk_node 0x8017 114; mk_node 0xc028 114; mk_node 0x8002 117; mk_node 0x8009 117; mk_node 0x8017 117; mk_node 0xc028 117; mk_node 0x8001 58; mk_node 0xc016 58; mk_node 0x8001 66; mk_node 0xc016 66; mk_node 0x8001 67; mk_node 0xc016 67; mk_node 0x8001 68; mk_node 0xc016 68];
  (* 36 *) [mk_node 0x8003 114; mk_node 0x8006 114; mk_node 0x800a 114; mk_node 0x800f 114; mk_node 0x8018 114; mk_node 0x801f 114; mk_node 0x8029 114; mk_node 0xc038 114; mk_node 0x8003 117; mk_node 0x8006 117; mk_node 0x800a 117; mk_node 0x800f 117; mk_node 0x8018 117; mk_node 0x801f 117; mk_node 0x8029 117; mk_node 0xc038 117];
  (* 37 *) [mk_node 0x8002 58; mk_node 0x8009 58; mk_node 0x8017 58; mk_node 0xc028 58; mk_node 0x8002 66; mk_node 0x8009 66; mk_node 0x8017 66; mk_node 0xc028 66; mk_node 0x8002 67; mk_node 0x8009 67; mk_node 0x8017 67; mk_node 0xc028 67; mk_node 0x8002 68; mk_node 0x8009 68; mk_node 0x8017 68; mk_node 0xc028 68];
  (* 38 *) [mk_node 0x8003 58; mk_node 0x8006 58; mk_node 0x800a 58; mk_node 0x800f 58; mk_node 0x8018 58; mk_node 0x801f 58; mk_node 0x8029 58; mk_node 0xc038 58; mk_node 0x8003 66; mk_node 0x8006 66; mk_node 0x800a 66; mk_node 0x800f 66; mk_node 0x8018 66; mk_node 0x801f 66; mk_node 0x8029 66; mk_node 0xc038 66];
  (* 39 *) [mk_node 0x8003 67; mk_node 0x8006 67; mk_node 0x800a 67; mk_node 0x800f 67; mk_node 0x8018 67; mk_node 0x801f 67; mk_node 0x8029 67; mk_node 0xc038 67; mk_node 0x8003 68; mk_node 0x8006 68; mk_node 0x800a 68; mk_node 0x800f 68; mk_node 0x8018 68; mk_node 0x801f 68; mk_node 0x8029 68; mk_node 0xc038 68];
  (* 40 *) [mk_node 0x2c 0; mk_node 0x2d 0; mk_node 0x2f 0; mk_node 0x30 0; mk_node 0x33 0; mk_node 0x34 0; mk_node 0x36 0; mk_node 0x37 0; mk_node 0x3b 0; mk_node 0x3c 0; mk_node 0x3e 0; mk_node 0x3f 0; mk_node 0x42 0; mk_node 0x43 0; mk_node 0x45 0; mk_node 0x4048 0];
  (* 41 *) [mk_node 0xc000 69; mk_node 0xc000 70; mk_node 0xc000 71; mk_node 0xc000 72; mk_node 0xc000 73; mk_node 0xc000 74; mk_node 0xc000 75; mk_node 0xc000 76; mk_node 0xc000 77; mk_node 0xc000 78; mk_node 0xc000 79; mk_node 0xc000 80; mk_node 0xc000 81; mk_node 0xc000 82; mk_node 0xc000 83; mk_node 0xc000 84]].

(** Rows 42 to 48. *)
Definition huff_decode_rows_42 : list (list nghttp2_huff_decode) := [
  (* 42 *) [mk_node 0x8001 69; mk_node 0xc016 69; mk_node 0x8001 70; mk_node 0xc016 70; mk_node 0x8001 71; mk_node 0xc016 71; mk_node 0x8001 72; mk_node 0xc016 72; mk_node 0x8001 73; mk_node 0xc016 73; mk_node 0x8001 74; mk_node 0xc016 74; mk_node 0x8001 75; mk_node 0xc016 75; mk_node 0x8001 76; mk_node 0xc016 76];
  (* 43 *) [mk_node 0x8002 69; mk_node 0x8009 69; mk_node 0x8017 69; mk_node 0xc028 69; mk_node 0x8002 70; mk_node 0x8009 70; mk_node 0x8017 70; mk_node 0xc028 70; mk_node 0x8002 71; mk_node 0x8009 71; mk_node 0x8017 71; mk_node 0xc028 71; mk_node 0x8002 72; mk_node 0x8009 72; mk_node 0x8017 72; mk_node 0xc028 72];
  (* 44 *) [mk_node 0x8003 69; mk_node 0x8006 69; mk_node 0x800a 69; mk_node 0x800f 69; mk_node 0x8018 69; mk_node 0x801f 69; mk_node 0x8029 69; mk_node 0xc038 69; mk_node 0x8003 70; mk_node 0x8006 70; mk_node 0x800a 70; mk_node 0x800f 70; mk_node 0x8018 70; mk_node 0x801f 70; mk_node 0x8029 70; mk_node 0xc038 70];
  (* 45 *) [mk_node 0x8003 71; mk_node 0x8006 71; mk_node 0x800a 71; mk_node 0x800f 71; mk_node 0x8018 71; mk_node 0x801f 71; mk_node 0x8029 71; mk_node 0xc038 71; mk_node 0x8003 72; mk_node 0x8006 72; mk_node 0x800a 72; mk_node 0x800f 72; mk_node 0x8018 72; mk_node 0x801f 72; mk_node 0x8029 72; mk_node 0xc038 72];
  (* 46 *) [mk_node 0x8002 73; mk_node 0x8009 73; mk_node 0x8017 73; mk_node 0xc028 73; mk_node 0x8002 74; mk_node 0x8009 74; mk_node 0x8017 74; mk_node 0xc028 74; mk_node 0x8002 75; mk_node 0x8009 75; mk_node 0x8017 75; mk_node 0xc028 75; mk_node 0x8002 76; mk_node 0x8009 76; mk_node 0x8017 76; mk_node 0xc028 76];
  (* 47 *) [mk_node 0x8003 73; mk_node 0x8006 73; mk_node 0x800a 73; mk_node 0x800f 73; mk_node 0x8018 73; mk_node 0x801f 73; mk_node 0x8029 73; mk_node 0xc038 73; mk_node 0x8003 74; mk_node 0x8006 74; mk_node 0x800a 74; mk_node 0x800f 74; mk_node 0x8018 74; mk_node 0x801f 74; mk_node 0x8029 74; mk_node 0xc038 74];
  (* 48 *) [mk_node 0x8003 75; mk_node 0x8006 75; mk_node 0x800a 75; mk_node 0x800f 75; mk_node 0x8018 75; mk_node 0x801f 75; mk_node 0x8029 75; mk_node 0xc038 75; mk_node 0x8003 76; mk_node 0x8006 76; mk_node 0x800a 76; mk_node 0x800f 76; mk_node 0x8018 76; mk_node 0x801f 76; mk_node 0x8029 76; mk_node 0xc038 76]].

(** Rows 49 to 55. *)
Definition huff_decode_rows_49 : list (list nghttp2_huff_decode) := [
  (* 49 *) [mk_node 0x8001 77; mk_node 0xc016 77; mk_node 0x8001 78; mk_node 0xc016 78; mk_node 0x8001 79; mk_node 0xc016 79; mk_node 0x8001 80; mk_node 0xc016 80; mk_node 0x8001 81; mk_node 0xc016 81; mk_node 0x8001 82; mk_node 0xc016 82; mk_node 0x8001 83; mk_node 0xc016 83; mk_node 0x8001 84; mk_node 0xc016 84];
  (* 50 *) [mk_node 0x8002 77; mk_node 0x8009 77; mk_node 0x8017 77; mk_node 0xc028 77; mk_node 0x8002 78; mk_node 0x8009 78; mk_node 0x8017 78; mk_node 0xc028 78; mk_node 0x8002 79; mk_node 0x8009 79; mk_node 0x8017 79; mk_node 0xc028 79; mk_node 0x8002 80; mk_node 0x8009 80; mk_node 0x8017 80; mk_node 0xc028 80];
  (* 51 *) [mk_node 0x8003 77; mk_node 0x8006 77; mk_node 0x800a 77; mk_node 0x800f 77; mk_node 0x8018 77; mk_node 0x801f 77; mk_node 0x8029 77; mk_node 0xc038 77; mk_node 0x8003 78; mk_node 0x8006 78; mk_node 0x800a 78; mk_node 0x800f 78; mk_node 0x8018 78; mk_node 0x801f 78; mk_node 0x8029 78; mk_node 0xc038 78];
  (* 52 *) [mk_node 0x8003 79; mk_node 0x8006 79; mk_node 0x800a 79; mk_node 0x800f 79; mk_node 0x8018 79; mk_node 0x801f 79; mk_node 0x8029 79; mk_node 0xc038 79; mk_node 0x8003 80; mk_node 0x8006 80; mk_node 0x800a 80; mk_node 0x800f 80; mk_node 0x8018 80; mk_node 0x801f 80; mk_node 0x8029 80; mk_node 0xc038 80];
  (* 53 *) [mk_node 0x8002 81; mk_node 0x8009 81; mk_node 0x8017 81; mk_node 0xc028 81; mk_node 0x8002 82; mk_node 0x8009 82; mk_node 0x8017 82; mk_node 0xc028 82; mk_node 0x8002 83; mk_node 0x8009 83; mk_node 0x8017 83; mk_node 0xc028 83; mk_node 0x8002 84; mk_node 0x8009 84; mk_node 0x8017 84; mk_node 0xc028 84];
  (* 54 *) [mk_node 0x8003 81; mk_node 0x8006 81; mk_node 0x800a 81; mk_node 0x800f 81; mk_node 0x8018 81; mk_node 0x801f 81; mk_node 0x8029 81; mk_node 0xc038 81; mk_node 0x8003 82; mk_node 0x8006 82; mk_node 0x800a 82; mk_node 0x800f 82; mk_node 0x8018 82; mk_node 0x801f 82; mk_node 0x8029 82; mk_node 0xc038 82];
  (* 55 *) [mk_node 0x8003 83; mk_node 0x8006 83; mk_node 0x800a 83; mk_node 0x800f 83; mk_node 0x8018 83; mk_node 0x801f 83; mk_node 0x8029 83; mk_node 0xc038 83; mk_node 0x8003 84; mk_node 0x8006 84; mk_node 0x800a 84; mk_node 0x800f 84; mk_node 0x8018 84; mk_node 0x801f 84; mk_node 0x8029 84; mk_node 0xc038 84]].

(** Rows 56 to 62. *)
Definition huff_decode_rows_56 : list (list nghttp2_huff_decode) := [
  (* 56 *) [mk_node 0xc000 85; mk_node 0xc000 86; mk_node 0xc000 87; mk_node 0xc000 89; mk_node 0xc000 106; mk_node 0xc000 107; mk_node 0xc000 113; mk_node 0xc000 118; mk_node 0xc000 119; mk_node 0xc000 120; mk_node 0xc000 121; mk_node 0xc000 122; mk_node 0x46 0; mk_node 0x47 0; mk_node 0x49 0; mk_node 0x404a 0];
  (* 57 *) [mk_node 0x8001 85; mk_node 0xc016 85; mk_node 0x8001 86; mk_node 0xc016 86; mk_node 0x8001 87; mk_node 0xc016 87; mk_node 0x8001 89; mk_node 0xc016 89; mk_node 0x8001 106; mk_node 0xc016 106; mk_node 0x8001 107; mk_node 0xc016 107; mk_node 0x8001 113; mk_node 0xc016 113; mk_node 0x8001 118; mk_node 0xc016 118];
  (* 58 *) [mk_node 0x8002 85; mk_node 0x8009 85; mk_node 0x8017 85; mk_node 0xc028 85; mk_node 0x8002 86; mk_node 0x8009 86; mk_node 0x8017 86; mk_node 0xc028 86; mk_node 0x8002 87; mk_node 0x8009 87; mk_node 0x8017 87; mk_node 0xc028 87; mk_node 0x8002 89; mk_node 0x8009 89; mk_node 0x8017 89; mk_node 0xc028 89];
  (* 59 *) [mk_node 0x8003 85; mk_node 0x8006 85; mk_node 0x800a 85; mk_node 0x800f 85; mk_node 0x8018 85; mk_node 0x801f 85; mk_node 0x8029 85; mk_node 0xc038 85; mk_node 0x8003 86; mk_node 0x8006 86; mk_node 0x800a 86; mk_node 0x800f 86; mk_node 0x8018 86; mk_node 0x801f 86; mk_node 0x8029 86; mk_node 0xc038 86];
  (* 60 *) [mk_node 0x8003 87; mk_node 0x8006 87; mk_node 0x800a 87; mk_node 0x800f 87; mk_node 0x8018 87; mk_node 0x801f 87; mk_node 0x8029 87; mk_node 0xc038 87; mk_node 0x8003 89; mk_node 0x8006 89; mk_node 0x800a 89; mk_node 0x800f 89; mk_node 0x8018 89; mk_node 0x801f 89; mk_node 0x8029 89; mk_node 0xc038 89];
  (* 61 *) [mk_node 0x8002 106; mk_node 0x8009 106; mk_node 0x8017 106; mk_node 0xc028 106; mk_node 0x8002 107; mk_node 0x8009 107; mk_node 0x8017 107; mk_node 0xc028 107; mk_node 0x8002 113; mk_node 0x8009 113; mk_node 0x8017 113; mk_node 0xc028 113; mk_node 0x8002 118; mk_node 0x8009 118; mk_node 0x8017 118; mk_node 0xc028 118];
  (* 62 *) [mk_node 0x8003 106; mk_node 0x8006 106; mk_node 0x800a 106; mk_node 0x800f 106; mk_node 0x8018 106; mk_node 0x801f 106; mk_node 0x8029 106; mk_node 0xc038 106; mk_node 0x8003 107; mk_node 0x8006 107; mk_node 0x800a 107; mk_node 0x800f 107; mk_node 0x8018 107; mk_node 0x801f 107; mk_node 0x8029 107; mk_node 0xc038 107]].

(** Rows 63 to 69. *)
Definition huff_decode_rows_63 : list (list nghttp2_huff_decode) := [
  (* 63 *) [mk_node 0x8003 113; mk_node 0x8006 113; mk_node 0x800a 113; mk_node 0x800f 113; mk_node 0x8018 113; mk_node 0x801f 113; mk_node 0x8029 113; mk_node 0xc038 113; mk_node 0x8003 118; mk_node 0x8006 118; mk_node 0x800a 118; mk_node 0x800f 118; mk_node 0x8018 118; mk_node 0x801f 118; mk_node 0x8029 118; mk_node 0xc038 118];
  (* 64 *) [mk_node 0x8001 119; mk_node 0xc016 119; mk_node 0x8001 120; mk_node 0xc016 120; mk_node 0x8001 121; mk_node 0xc016 121; mk_node 0x8001 122; mk_node 0xc016 122; mk_node 0xc000 38; mk_node 0xc000 42; mk_node 0xc000 44; mk_node 0xc000 59; mk_node 0xc000 88; mk_node 0xc000 90; mk_node 0x4b 0; mk_node 0x4e 0];
  (* 65 *) [mk_node 0x8002 119; mk_node 0x8009 119; mk_node 0x8017 119; mk_node 0xc028 119; mk_node 0x8002 120; mk_node 0x8009 120; mk_node 0x8017 120; mk_node 0xc028 120; mk_node 0x8002 121; mk_node 0x8009 121; mk_node 0x8017 121; mk_node 0xc028 121; mk_node 0x8002 122; mk_node 0x8009 122; mk_node 0x8017 122; mk_node 0xc028 122];
  (* 66 *) [mk_node 0x8003 119; mk_node 0x8006 119; mk_node 0x800a 119; mk_node 0x800f 119; mk_node 0x8018 119; mk_node 0x801f 119; mk_node 0x8029 119; mk_node 0xc038 119; mk_node 0x8003 120; mk_node 0x8006 120; mk_node 0x800a 120; mk_node 0x800f 120; mk_node 0x8018 120; mk_node 0x801f 120; mk_node 0x8029 120; mk_node 0xc038 120];
  (* 67 *) [mk_node 0x8003 121; mk_node 0x8006 121; mk_node 0x800a 121; mk_node 0x800f 121; mk_node 0x8018 121; mk_node 0x801f 121; mk_node 0x8029 121; mk_node 0xc038 121; mk_node 0x8003 122; mk_node 0x8006 122; mk_node 0x800a 122; mk_node 0x800f 122; mk_node 0x8018 122; mk_node 0x801f 122; mk_node 0x8029 122; mk_node 0xc038 122];
  (* 68 *) [mk_node 0x8001 38; mk_node 0xc016 38; mk_node 0x8001 42; mk_node 0xc016 42; mk_node 0x8001 44; mk_node 0xc016 44; mk_node 0x8001 59; mk_node 0xc016 59; mk_node 0x8001 88; mk_node 0xc016 88; mk_node 0x8001 90; mk_node 0xc016 90; mk_node 0x4c 0; mk_node 0x4d 0; mk_node 0x4f 0; mk_node 0x51 0];
  (* 69 *) [mk_node 0x8002 38; mk_node 0x8009 38; mk_node 0x8017 38; mk_node 0xc028 38; mk_node 0x8002 42; mk_node 0x8009 42; mk_node 0x8017 42; mk_node 0xc028 42; mk_node 0x8002 44; mk_node 0x8009 44; mk_node 0x8017 44; mk_node 0xc028 44; mk_node 0x8002 59; mk_node 0x8009 59; mk_node 0x8017 59; mk_node 0xc028 59]].

(** Rows 70 to 76. *)
Definition huff_decode_rows_70 : list (list nghttp2_huff_decode) := [
  (* 70 *) [mk_node 0x8003 38; mk_node 0x8006 38; mk_node 0x800a 38; mk_node 0x800f 38; mk_node 0x8018 38; mk_node 0x801f 38; mk_node 0x8029 38; mk_node 0xc038 38; mk_node 0x8003 42; mk_node 0x8006 42; mk_node 0x800a 42; mk_node 0x800f 42; mk_node 0x8018 42; mk_node 0x801f 42; mk_node 0x8029 42; mk_node 0xc038 42];
  (* 71 *) [mk_node 0x8003 44; mk_node 0x8006 44; mk_node 0x800a 44; mk_node 0x800f 44; mk_node 0x8018 44; mk_node 0x801f 44; mk_node 0x8029 44; mk_node 0xc038 44; mk_node 0x8003 59; mk_node 0x8006 59; mk_node 0x800a 59; mk_node 0x800f 59; mk_node 0x8018 59; mk_node 0x801f 59; mk_node 0x8029 59; mk_node 0xc038 59];
  (* 72 *) [mk_node 0x8002 88; mk_node 0x8009 88; mk_node 0x8017 88; mk_node 0xc028 88; mk_node 0x8002 90; mk_node 0x8009 90; mk_node 0x8017 90; mk_node 0xc028 90; mk_node 0xc000 33; mk_node 0xc000 34; mk_node 0xc000 40; mk_node 0xc000 41; mk_node 0xc000 63; mk_node 0x50 0; mk_node 0x52 0; mk_node 0x54 0];
  (* 73 *) [mk_node 0x8003 88; mk_node 0x8006 88; mk_node 0x800a 88; mk_node 0x800f 88; mk_node 0x8018 88; mk_node 0x801f 88; mk_node 0x8029 88; mk_node 0xc038 88; mk_node 0x8003 90; mk_node 0x8006 90; mk_node 0x800a 90; mk_node 0x800f 90; mk_node 0x8018 90; mk_node 0x801f 90; mk_node 0x8029 90; mk_node 0xc038 90];
  (* 74 *) [mk_node 0x8001 33; mk_node 0xc016 33; mk_node 0x8001 34; mk_node 0xc016 34; mk_node 0x8001 40; mk_node 0xc016 40; mk_node 0x8001 41; mk_node 0xc016 41; mk_node 0x8001 63; mk_node 0xc016 63; mk_node 0xc000 39; mk_node 0xc000 43; mk_node 0xc000 124; mk_node 0x53 0; mk_node 0x55 0; mk_node 0x58 0];
  (* 75 *) [mk_node 0x8002 33; mk_node 0x8009 33; mk_node 0x8017 33; mk_node 0xc028 33; mk_node 0x8002 34; mk_node 0x8009 34; mk_node 0x8017 34; mk_node 0xc028 34; mk_node 0x8002 40; mk_node 0x8009 40; mk_node 0x8017 40; mk_node 0xc028 40; mk_node 0x8002 41; mk_node 0x8009 41; mk_node 0x8017 41; mk_node 0xc028 41];
  (* 76 *) [mk_node 0x8003 33; mk_node 0x8006 33; mk_node 0x800a 33; mk_node 0x800f 33; mk_node 0x8018 33; mk_node 0x801f 33; mk_node 0x8029 33; mk_node 0xc038 33; mk_node 0x8003 34; mk_node 0x8006 34; mk_node 0x800a 34; mk_node 0x800f 34; mk_node 0x8018 34; mk_node 0x801f 34; mk_node 0x8029 34; mk_node 0xc038 34]].

(** Rows 77 to 83. *)
Definition huff_decode_rows_77 : list (list nghttp2_huff_decode) := [
  (* 77 *) [mk_node 0x8003 40; mk_node 0x8006 40; mk_node 0x800a 40; mk_node 0x800f 40; mk_node 0x8018 40; mk_node 0x801f 40; mk_node 0x8029 40; mk_node 0xc038 40; mk_node 0x8003 41; mk_node 0x8006 41; mk_node 0x800a 41; mk_node 0x800f 41; mk_node 0x8018 41; mk_node 0x801f 41; mk_node 0x8029 41; mk_node 0xc038 41];
  (* 78 *) [mk_node 0x8002 63; mk_node 0x8009 63; mk_node 0x8017 63; mk_node 0xc028 63; mk_node 0x8001 39; mk_node 0xc016 39; mk_node 0x8001 43; mk_node 0xc016 43; mk_node 0x8001 124; mk_node 0xc016 124; mk_node 0xc000 35; mk_node 0xc000 62; mk_node 0x56 0; mk_node 0x57 0; mk_node 0x59 0; mk_node 0x5a 0];
  (* 79 *) [mk_node 0x8003 63; mk_node 0x8006 63; mk_node 0x800a 63; mk_node 0x800f 63; mk_node 0x8018 63; mk_node 0x801f 63; mk_node 0x8029 63; mk_node 0xc038 63; mk_node 0x8002 39; mk_node 0x8009 39; mk_node 0x8017 39; mk_node 0xc028 39; mk_node 0x8002 43; mk_node 0x8009 43; mk_node 0x8017 43; mk_node 0xc028 43];
  (* 80 *) [mk_node 0x8003 39; mk_node 0x8006 39; mk_node 0x800a 39; mk_node 0x800f 39; mk_node 0x8018 39; mk_node 0x801f 39; mk_node 0x8029 39; mk_node 0xc038 39; mk_node 0x8003 43; mk_node 0x8006 43; mk_node 0x800a 43; mk_node 0x800f 43; mk_node 0x8018 43; mk_node 0x801f 43; mk_node 0x8029 43; mk_node 0xc038 43];
  (* 81 *) [mk_node 0x8002 124; mk_node 0x8009 124; mk_node 0x8017 124; mk_node 0xc028 124; mk_node 0x8001 35; mk_node 0xc016 35; mk_node 0x8001 62; mk_node 0xc016 62; mk_node 0xc000 0; mk_node 0xc000 36; mk_node 0xc000 64; mk_node 0xc000 91; mk_node 0xc000 93; mk_node 0xc000 126; mk_node 0x5b 0; mk_node 0x5c 0];
  (* 82 *) [mk_node 0x8003 124; mk_node 0x8006 124; mk_node 0x800a 124; mk_node 0x800f 124; mk_node 0x8018 124; mk_node 0x801f 124; mk_node 0x8029 124; mk_node 0xc038 124; mk_node 0x8002 35; mk_node 0x8009 35; mk_node 0x8017 35; mk_node 0xc028 35; mk_node 0x8002 62; mk_node 0x8009 62; mk_node 0x8017 62; mk_node 0xc028 62];
  (* 83 *) [mk_node 0x8003 35; mk_node 0x8006 35; mk_node 0x800a 35; mk_node 0x800f 35; mk_node 0x8018 35; mk_node 0x801f 35; mk_node 0x8029 35; mk_node 0xc038 35; mk_node 0x8003 62; mk_node 0x8006 62; mk_node 0x800a 62; mk_node 0x800f 62; mk_node 0x8018 62; mk_node 0x801f 62; mk_node 0x8029 62; mk_node 0xc038 62]].

(** Rows 84 to 90. *)
Definition huff_decode_rows_84 : list (list nghttp2_huff_decode) := [
  (* 84 *) [mk_node 0x8001 0; mk_node 0xc016 0; mk_node 0x8001 36; mk_node 0xc016 36; mk_node 0x8001 64; mk_node 0xc016 64; mk_node 0x8001 91; mk_node 0xc016 91; mk_node 0x8001 93; mk_node 0xc016 93; mk_node 0x8001 126; mk_node 0xc016 126; mk_node 0xc000 94; mk_node 0xc000 125; mk_node 0x5d 0; mk_node 0x5e 0];
  (* 85 *) [mk_node 0x8002 0; mk_node 0x8009 0; mk_node 0x8017 0; mk_node 0xc028 0; mk_node 0x8002 36; mk_node 0x8009 36; mk_node 0x8017 36; mk_node 0xc028 36; mk_node 0x8002 64; mk_node 0x8009 64; mk_node 0x8017 64; mk_node 0xc028 64; mk_node 0x8002 91; mk_node 0x8009 91; mk_node 0x8017 91; mk_node 0xc028 91];
  (* 86 *) [mk_node 0x8003 0; mk_node 0x8006 0; mk_node 0x800a 0; mk_node 0x800f 0; mk_node 0x8018 0; mk_node 0x801f 0; mk_node 0x8029 0; mk_node 0xc038 0; mk_node 0x8003 36; mk_node 0x8006 36; mk_node 0x800a 36; mk_node 0x800f 36; mk_node 0x8018 36; mk_node 0x801f 36; mk_node 0x8029 36; mk_node 0xc038 36];
  (* 87 *) [mk_node 0x8003 64; mk_node 0x8006 64; mk_node 0x800a 64; mk_node 0x800f 64; mk_node 0x8018 64; mk_node 0x801f 64; mk_node 0x8029 64; mk_node 0xc038 64; mk_node 0x8003 91; mk_node 0x8006 91; mk_node 0x800a 91; mk_node 0x800f 91; mk_node 0x8018 91; mk_node 0x801f 91; mk_node 0x8029 91; mk_node 0xc038 91];
  (* 88 *) [mk_node 0x8002 93; mk_node 0x8009 93; mk_node 0x8017 93; mk_node 0xc028 93; mk_node 0x8002 126; mk_node 0x8009 126; mk_node 0x8017 126; mk_node 0xc028 126; mk_node 0x8001 94; mk_node 0xc016 94; mk_node 0x8001 125; mk_node 0xc016 125; mk_node 0xc000 60; mk_node 0xc000 96; mk_node 0xc000 123; mk_node 0x5f 0];
  (* 89 *) [mk_node 0x8003 93; mk_node 0x8006 93; mk_node 0x800a 93; mk_node 0x800f 93; mk_node 0x8018 93; mk_node 0x801f 93; mk_node 0x8029 93; mk_node 0xc038 93; mk_node 0x8003 126; mk_node 0x8006 126; mk_node 0x800a 126; mk_node 0x800f 126; mk_node 0x8018 126; mk_node 0x801f 126; mk_node 0x8029 126; mk_node 0xc038 126];
  (* 90 *) [mk_node 0x8002 94; mk_node 0x8009 94; mk_node 0x8017 94; mk_node 0xc028 94; mk_node 0x8002 125; mk_node 0x8009 125; mk_node 0x8017 125; mk_node 0xc028 125; mk_node 0x8001 60; mk_node 0xc016 60; mk_node 0x8001 96; mk_node 0xc016 96; mk_node 0x8001 123; mk_node 0xc016 123; mk_node 0x60 0; mk_node 0x6e 0]].

(** Rows 91 to 97. *)
Definition huff_decode_rows_91 : list (list nghttp2_huff_decode) := [
  (* 91 *) [mk_node 0x8003 94; mk_node 0x8006 94; mk_node 0x800a 94; mk_node 0x800f 94; mk_node 0x8018 94; mk_node 0x801f 94; mk_node 0x8029 94; mk_node 0xc038 94; mk_node 0x8003 125; mk_node 0x8006 125; mk_node 0x800a 125; mk_node 0x800f 125; mk_node 0x8018 125; mk_node 0x801f 125; mk_node 0x8029 125; mk_node 0xc038 125];
  (* 92 *) [mk_node 0x8002 60; mk_node 0x8009 60; mk_node 0x8017 60; mk_node 0xc028 60; mk_node 0x8002 96; mk_node 0x8009 96; mk_node 0x8017 96; mk_node 0xc028 96; mk_node 0x8002 123; mk_node 0x8009 123; mk_node 0x8017 123; mk_node 0xc028 123; mk_node 0x61 0; mk_node 0x65 0; mk_node 0x6f 0; mk_node 0x85 0];
  (* 93 *) [mk_node 0x8003 60; mk_node 0x8006 60; mk_node 0x800a 60; mk_node 0x800f 60; mk_node 0x8018 60; mk_node 0x801f 60; mk_node 0x8029 60; mk_node 0xc038 60; mk_node 0x8003 96; mk_node 0x8006 96; mk_node 0x800a 96; mk_node 0x800f 96; mk_node 0x8018 96; mk_node 0x801f 96; mk_node 0x8029 96; mk_node 0xc038 96];
  (* 94 *) [mk_node 0x8003 123; mk_node 0x8006 123; mk_node 0x800a 123; mk_node 0x800f 123; mk_node 0x8018 123; mk_node 0x801f 123; mk_node 0x8029 123; mk_node 0xc038 123; mk_node 0x62 0; mk_node 0x63 0; mk_node 0x66 0; mk_node 0x69 0; mk_node 0x70 0; mk_node 0x77 0; mk_node 0x86 0; mk_node 0x99 0];
  (* 95 *) [mk_node 0xc000 92; mk_node 0xc000 195; mk_node 0xc000 208; mk_node 0x64 0; mk_node 0x67 0; mk_node 0x68 0; mk_node 0x6a 0; mk_node 0x6b 0; mk_node 0x71 0; mk_node 0x74 0; mk_node 0x78 0; mk_node 0x7e 0; mk_node 0x87 0; mk_node 0x8e 0; mk_node 0x9a 0; mk_node 0xa9 0];
  (* 96 *) [mk_node 0x8001 92; mk_node 0xc016 92; mk_node 0x8001 195; mk_node 0xc016 195; mk_node 0x8001 208; mk_node 0xc016 208; mk_node 0xc000 128; mk_node 0xc000 130; mk_node 0xc000 131; mk_node 0xc000 162; mk_node 0xc000 184; mk_node 0xc000 194; mk_node 0xc000 224; mk_node 0xc000 226; mk_node 0x6c 0; mk_node 0x6d 0];
  (* 97 *) [mk_node 0x8002 92; mk_node 0x8009 92; mk_node 0x8017 92; mk_node 0xc028 92; mk_node 0x8002 195; mk_node 0x8009 195; mk_node 0x8017 195; mk_node 0xc028 195; mk_node 0x8002 208; mk_node 0x8009 208; mk_node 0x8017 208; mk_node 0xc028 208; mk_node 0x8001 128; mk_node 0xc016 128; mk_node 0x8001 130; mk_node 0xc016 130]].

(** Rows 98 to 104. *)
Definition huff_decode_rows_98 : list (list nghttp2_huff_decode) := [
  (* 98 *) [mk_node 0x8003 92; mk_node 0x8006 92; mk_node 0x800a 92; mk_node 0x800f 92; mk_node 0x8018 92; mk_node 0x801f 92; mk_node 0x8029 92; mk_node 0xc038 92; mk_node 0x8003 195; mk_node 0x8006 195; mk_node 0x800a 195; mk_node 0x800f 195; mk_node 0x8018 195; mk_node 0x801f 195; mk_node 0x8029 195; mk_node 0xc038 195];
  (* 99 *) [mk_node 0x8003 208; mk_node 0x8006 208; mk_node 0x800a 208; mk_node 0x800f 208; mk_node 0x8018 208; mk_node 0x801f 208; mk_node 0x8029 208; mk_node 0xc038 208; mk_node 0x8002 128; mk_node 0x8009 128; mk_node 0x8017 128; mk_node 0xc028 128; mk_node 0x8002 130; mk_node 0x8009 130; mk_node 0x8017 130; mk_node 0xc028 130];
  (* 100 *) [mk_node 0x8003 128; mk_node 0x8006 128; mk_node 0x800a 128; mk_node 0x800f 128; mk_node 0x8018 128; mk_node 0x801f 128; mk_node 0x8029 128; mk_node 0xc038 128; mk_node 0x8003 130; mk_node 0x8006 130; mk_node 0x800a 130; mk_node 0x800f 130; mk_node 0x8018 130; mk_node 0x801f 130; mk_node 0x8029 130; mk_node 0xc038 130];
  (* 101 *) [mk_node 0x8001 131; mk_node 0xc016 131; mk_node 0x8001 162; mk_node 0xc016 162; mk_node 0x8001 184; mk_node 0xc016 184; mk_node 0x8001 194; mk_node 0xc016 194; mk_node 0x8001 224; mk_node 0xc016 224; mk_node 0x8001 226; mk_node 0xc016 226; mk_node 0xc000 153; mk_node 0xc000 161; mk_node 0xc000 167; mk_node 0xc000 172];
  (* 102 *) [mk_node 0x8002 131; mk_node 0x8009 131; mk_node 0x8017 131; mk_node 0xc028 131; mk_node 0x8002 162; mk_node 0x8009 162; mk_node 0x8017 162; mk_node 0xc028 162; mk_node 0x8002 184; mk_node 0x8009 184; mk_node 0x8017 184; mk_node 0xc028 184; mk_node 0x8002 194; mk_node 0x8009 194; mk_node 0x8017 194; mk_node 0xc028 194];
  (* 103 *) [mk_node 0x8003 131; mk_node 0x8006 131; mk_node 0x800a 131; mk_node 0x800f 131; mk_node 0x8018 131; mk_node 0x801f 131; mk_node 0x8029 131; mk_node 0xc038 131; mk_node 0x8003 162; mk_node 0x8006 162; mk_node 0x800a 162; mk_node 0x800f 162; mk_node 0x8018 162; mk_node 0x801f 162; mk_node 0x8029 162; mk_node 0xc038 162];
  (* 104 *) [mk_node 0x8003 184; mk_node 0x8006 184; mk_node 0x800a 184; mk_node 0x800f 184; mk_node 0x8018 184; mk_node 0x801f 184; mk_node 0x8029 184; mk_node 0xc038 184; mk_node 0x8003 194; mk_node 0x8006 194; mk_node 0x800a 194; mk_node 0x800f 194; mk_node 0x8018 194; mk_node 0x801f 194; mk_node 0x8029 194; mk_node 0xc038 194]].

(** Rows 105 to 111. *)
Definition huff_decode_rows_105 : list (list nghttp2_huff_decode) := [
  (* 105 *) [mk_node 0x8002 224; mk_node 0x8009 224; mk_node 0x8017 224; mk_node 0xc028 224; mk_node 0x8002 226; mk_node 0x8009 226; mk_node 0x8017 226; mk_node 0xc028 226; mk_node 0x8001 153; mk_node 0xc016 153; mk_node 0x8001 161; mk_node 0xc016 161; mk_node 0x8001 167; mk_node 0xc016 167; mk_node 0x8001 172; mk_node 0xc016 172];
  (* 106 *) [mk_node 0x8003 224; mk_node 0x8006 224; mk_node 0x800a 224; mk_node 0x800f 224; mk_node 0x8018 224; mk_node 0x801f 224; mk_node 0x8029 224; mk_node 0xc038 224; mk_node 0x8003 226; mk_node 0x8006 226; mk_node 0x800a 226; mk_node 0x800f 226; mk_node 0x8018 226; mk_node 0x801f 226; mk_node 0x8029 226; mk_node 0xc038 226];
  (* 107 *) [mk_node 0x8002 153; mk_node 0x8009 153; mk_node 0x8017 153; mk_node 0xc028 153; mk_node 0x8002 161; mk_node 0x8009 161; mk_node 0x8017 161; mk_node 0xc028 161; mk_node 0x8002 167; mk_node 0x8009 167; mk_node 0x8017 167; mk_node 0xc028 167; mk_node 0x8002 172; mk_node 0x8009 172; mk_node 0x8017 172; mk_node 0xc028 172];
  (* 108 *) [mk_node 0x8003 153; mk_node 0x8006 153; mk_node 0x800a 153; mk_node 0x800f 153; mk_node 0x8018 153; mk_node 0x801f 153; mk_node 0x8029 153; mk_node 0xc038 153; mk_node 0x8003 161; mk_node 0x8006 161; mk_node 0x800a 161; mk_node 0x800f 161; mk_node 0x8018 161; mk_node 0x801f 161; mk_node 0x8029 161; mk_node 0xc038 161];
  (* 109 *) [mk_node 0x8003 167; mk_node 0x8006 167; mk_node 0x800a 167; mk_node 0x800f 167; mk_node 0x8018 167; mk_node 0x801f 167; mk_node 0x8029 167; mk_node 0xc038 167; mk_node 0x8003 172; mk_node 0x8006 172; mk_node 0x800a 172; mk_node 0x800f 172; mk_node 0x8018 172; mk_node 0x801f 172; mk_node 0x8029 172; mk_node 0xc038 172];
  (* 110 *) [mk_node 0x72 0; mk_node 0x73 0; mk_node 0x75 0; mk_node 0x76 0; mk_node 0x79 0; mk_node 0x7b 0; mk_node 0x7f 0; mk_node 0x82 0; mk_node 0x88 0; mk_node 0x8b 0; mk_node 0x8f 0; mk_node 0x92 0; mk_node 0x9b 0; mk_node 0xa2 0; mk_node 0xaa 0; mk_node 0xb4 0];
  (* 111 *) [mk_node 0xc000 176; mk_node 0xc000 177; mk_node 0xc000 179; mk_node 0xc000 209; mk_node 0xc000 216; mk_node 0xc000 217; mk_node 0xc000 227; mk_node 0xc000 229; mk_node 0xc000 230; mk_node 0x7a 0; mk_node 0x7c 0; mk_node 0x7d 0; mk_node 0x80 0; mk_node 0x81 0; mk_node 0x83 0; mk_node 0x84 0]].

(** Rows 112 to 118. *)
Definition huff_decode_rows_112 : list (list nghttp2_huff_decode) := [
  (* 112 *) [mk_node 0x8001 176; mk_node 0xc016 176; mk_node 0x8001 177; mk_node 0xc016 177; mk_node 0x8001 179; mk_node 0xc016 179; mk_node 0x8001 209; mk_node 0xc016 209; mk_node 0x8001 216; mk_node 0xc016 216; mk_node 0x8001 217; mk_node 0xc016 217; mk_node 0x8001 227; mk_node 0xc016 227; mk_node 0x8001 229; mk_node 0xc016 229];
  (* 113 *) [mk_node 0x8002 176; mk_node 0x8009 176; mk_node 0x8017 176; mk_node 0xc028 176; mk_node 0x8002 177; mk_node 0x8009 177; mk_node 0x8017 177; mk_node 0xc028 177; mk_node 0x8002 179; mk_node 0x8009 179; mk_node 0x8017 179; mk_node 0xc028 179; mk_node 0x8002 209; mk_node 0x8009 209; mk_node 0x8017 209; mk_node 0xc028 209];
  (* 114 *) [mk_node 0x8003 176; mk_node 0x8006 176; mk_node 0x800a 176; mk_node 0x800f 176; mk_node 0x8018 176; mk_node 0x801f 176; mk_node 0x8029 176; mk_node 0xc038 176; mk_node 0x8003 177; mk_node 0x8006 177; mk_node 0x800a 177; mk_node 0x800f 177; mk_node 0x8018 177; mk_node 0x801f 177; mk_node 0x8029 177; mk_node 0xc038 177];
  (* 115 *) [mk_node 0x8003 179; mk_node 0x8006 179; mk_node 0x800a 179; mk_node 0x800f 179; mk_node 0x8018 179; mk_node 0x801f 179; mk_node 0x8029 179; mk_node 0xc038 179; mk_node 0x8003 209; mk_node 0x8006 209; mk_node 0x800a 209; mk_node 0x800f 209; mk_node 0x8018 209; mk_node 0x801f 209; mk_node 0x8029 209; mk_node 0xc038 209];
  (* 116 *) [mk_node 0x8002 216; mk_node 0x8009 216; mk_node 0x8017 216; mk_node 0xc028 216; mk_node 0x8002 217; mk_node 0x8009 217; mk_node 0x8017 217; mk_node 0xc028 217; mk_node 0x8002 227; mk_node 0x8009 227; mk_node 0x8017 227; mk_node 0xc028 227; mk_node 0x8002 229; mk_node 0x8009 229; mk_node 0x8017 229; mk_node 0xc028 229];
  (* 117 *) [mk_node 0x8003 216; mk_node 0x8006 216; mk_node 0x800a 216; mk_node 0x800f 216; mk_node 0x8018 216; mk_node 0x801f 216; mk_node 0x8029 216; mk_node 0xc038 216; mk_node 0x8003 217; mk_node 0x8006 217; mk_node 0x800a 217; mk_node 0x800f 217; mk_node 0x8018 217; mk_node 0x801f 217; mk_node 0x8029 217; mk_node 0xc038 217];
  (* 118 *) [mk_node 0x8003 227; mk_node 0x8006 227; mk_node 0x800a 227; mk_node 0x800f 227; mk_node 0x8018 227; mk_node 0x801f 227; mk_node 0x8029 227; mk_node 0xc038 227; mk_node 0x8003 229; mk_node 0x8006 229; mk_node 0x800a 229; mk_node 0x800f 229; mk_node 0x8018 229; mk_node 0x801f 229; mk_node 0x8029 229; mk_node 0xc038 229]].

(** Rows 119 to 125. *)
Definition huff_decode_rows_119 : list (list nghttp2_huff_decode) := [
  (* 119 *) [mk_node 0x8001 230; mk_node 0xc016 230; mk_node 0xc000 129; mk_node 0xc000 132; mk_node 0xc000 133; mk_node 0xc000 134; mk_node 0xc000 136; mk_node 0xc000 146; mk_node 0xc000 154; mk_node 0xc000 156; mk_node 0xc000 160; mk_node 0xc000 163; mk_node 0xc000 164; mk_node 0xc000 169; mk_node 0xc000 170; mk_node 0xc000 173];
  (* 120 *) [mk_node 0x8002 230; mk_node 0x8009 230; mk_node 0x8017 230; mk_node 0xc028 230; mk_node 0x8001 129; mk_node 0xc016 129; mk_node 0x8001 132; mk_node 0xc016 132; mk_node 0x8001 133; mk_node 0xc016 133; mk_node 0x8001 134; mk_node 0xc016 134; mk_node 0x8001 136; mk_node 0xc016 136; mk_node 0x8001 146; mk_node 0xc016 146];
  (* 121 *) [mk_node 0x8003 230; mk_node 0x8006 230; mk_node 0x800a 230; mk_node 0x800f 230; mk_node 0x8018 230; mk_node 0x801f 230; mk_node 0x8029 230; mk_node 0xc038 230; mk_node 0x8002 129; mk_node 0x8009 129; mk_node 0x8017 129; mk_node 0xc028 129; mk_node 0x8002 132; mk_node 0x8009 132; mk_node 0x8017 132; mk_node 0xc028 132];
  (* 122 *) [mk_node 0x8003 129; mk_node 0x8006 129; mk_node 0x800a 129; mk_node 0x800f 129; mk_node 0x8018 129; mk_node 0x801f 129; mk_node 0x8029 129; mk_node 0xc038 129; mk_node 0x8003 132; mk_node 0x8006 132; mk_node 0x800a 132; mk_node 0x800f 132; mk_node 0x8018 132; mk_node 0x801f 132; mk_node 0x8029 132; mk_node 0xc038 132];
  (* 123 *) [mk_node 0x8002 133; mk_node 0x8009 133; mk_node 0x8017 133; mk_node 0xc028 133; mk_node 0x8002 134; mk_node 0x8009 134; mk_node 0x8017 134; mk_node 0xc028 134; mk_node 0x8002 136; mk_node 0x8009 136; mk_node 0x8017 136; mk_node 0xc028 136; mk_node 0x8002 146; mk_node 0x8009 146; mk_node 0x8017 146; mk_node 0xc028 146];
  (* 124 *) [mk_node 0x8003 133; mk_node 0x8006 133; mk_node 0x800a 133; mk_node 0x800f 133; mk_node 0x8018 133; mk_node 0x801f 133; mk_node 0x8029 133; mk_node 0xc038 133; mk_node 0x8003 134; mk_node 0x8006 134; mk_node 0x800a 134; mk_node 0x800f 134; mk_node 0x8018 134; mk_node 0x801f 134; mk_node 0x8029 134; mk_node 0xc038 134];
  (* 125 *) [mk_node 0x8003 136; mk_node 0x8006 136; mk_node 0x800a 136; mk_node 0x800f 136; mk_node 0x8018 136; mk_node 0x801f 136; mk_node 0x8029 136; mk_node 0xc038 136; mk_node 0x8003 146; mk_node 0x8006 146; mk_node 0x800a 146; mk_node 0x800f 146; mk_node 0x8018 146; mk_node 0x801f 146; mk_node 0x8029 146; mk_node 0xc038 146]].

(** Rows 126 to 132. *)
Definition huff_decode_rows_126 : list (list nghttp2_huff_decode) := [
  (* 126 *) [mk_node 0x8001 154; mk_node 0xc016 154; mk_node 0x8001 156; mk_node 0xc016 156; mk_node 0x8001 160; mk_node 0xc016 160; mk_node 0x8001 163; mk_node 0xc016 163; mk_node 0x8001 164; mk_node 0xc016 164; mk_node 0x8001 169; mk_node 0xc016 169; mk_node 0x8001 170; mk_node 0xc016 170; mk_node 0x8001 173; mk_node 0xc016 173];
  (* 127 *) [mk_node 0x8002 154; mk_node 0x8009 154; mk_node 0x8017 154; mk_node 0xc028 154; mk_node 0x8002 156; mk_node 0x8009 156; mk_node 0x8017 156; mk_node 0xc028 156; mk_node 0x8002 160; mk_node 0x8009 160; mk_node 0x8017 160; mk_node 0xc028 160; mk_node 0x8002 163; mk_node 0x8009 163; mk_node 0x8017 163; mk_node 0xc028 163];
  (* 128 *) [mk_node 0x8003 154; mk_node 0x8006 154; mk_node 0x800a 154; mk_node 0x800f 154; mk_node 0x8018 154; mk_node 0x801f 154; mk_node 0x8029 154; mk_node 0xc038 154; mk_node 0x8003 156; mk_node 0x8006 156; mk_node 0x800a 156; mk_node 0x800f 156; mk_node 0x8018 156; mk_node 0x801f 156; mk_node 0x8029 156; mk_node 0xc038 156];
  (* 129 *) [mk_node 0x8003 160; mk_node 0x8006 160; mk_node 0x800a 160; mk_node 0x800f 160; mk_node 0x8018 160; mk_node 0x801f 160; mk_node 0x8029 160; mk_node 0xc038 160; mk_node 0x8003 163; mk_node 0x8006 163; mk_node 0x800a 163; mk_node 0x800f 163; mk_node 0x8018 163; mk_node 0x801f 163; mk_node 0x8029 163; mk_node 0xc038 163];
  (* 130 *) [mk_node 0x8002 164; mk_node 0x8009 164; mk_node 0x8017 164; mk_node 0xc028 164; mk_node 0x8002 169; mk_node 0x8009 169; mk_node 0x8017 169; mk_node 0xc028 169; mk_node 0x8002 170; mk_node 0x8009 170; mk_node 0x8017 170; mk_node 0xc028 170; mk_node 0x8002 173; mk_node 0x8009 173; mk_node 0x8017 173; mk_node 0xc028 173];
  (* 131 *) [mk_node 0x8003 164; mk_node 0x8006 164; mk_node 0x800a 164; mk_node 0x800f 164; mk_node 0x8018 164; mk_node 0x801f 164; mk_node 0x8029 164; mk_node 0xc038 164; mk_node 0x8003 169; mk_node 0x8006 169; mk_node 0x800a 169; mk_node 0x800f 169; mk_node 0x8018 169; mk_node 0x801f 169; mk_node 0x8029 169; mk_node 0xc038 169];
  (* 132 *) [mk_node 0x8003 170; mk_node 0x8006 170; mk_node 0x800a 170; mk_node 0x800f 170; mk_node 0x8018 170; mk_node 0x801f 170; mk_node 0x8029 170; mk_node 0xc038 170; mk_node 0x8003 173; mk_node 0x8006 173; mk_node 0x800a 173; mk_node 0x800f 173; mk_node 0x8018 173; mk_node 0x801f 173; mk_node 0x8029 173; mk_node 0xc038 173]].

(** Rows 133 to 139. *)
Definition huff_decode_rows_133 : list (list nghttp2_huff_decode) := [
  (* 133 *) [mk_node 0x89 0; mk_node 0x8a 0; mk_node 0x8c 0; mk_node 0x8d 0; mk_node 0x90 0; mk_node 0x91 0; mk_node 0x93 0; mk_node 0x96 0; mk_node 0x9c 0; mk_node 0x9f 0; mk_node 0xa3 0; mk_node 0xa6 0; mk_node 0xab 0; mk_node 0xae 0; mk_node 0xb5 0; mk_node 0xbe 0];
  (* 134 *) [mk_node 0xc000 178; mk_node 0xc000 181; mk_node 0xc000 185; mk_node 0xc000 186; mk_node 0xc000 187; mk_node 0xc000 189; mk_node 0xc000 190; mk_node 0xc000 196; mk_node 0xc000 198; mk_node 0xc000 228; mk_node 0xc000 232; mk_node 0xc000 233; mk_node 0x94 0; mk_node 0x95 0; mk_node 0x97 0; mk_node 0x98 0];
  (* 135 *) [mk_node 0x8001 178; mk_node 0xc016 178; mk_node 0x8001 181; mk_node 0xc016 181; mk_node 0x8001 185; mk_node 0xc016 185; mk_node 0x8001 186; mk_node 0xc016 186; mk_node 0x8001 187; mk_node 0xc016 187; mk_node 0x8001 189; mk_node 0xc016 189; mk_node 0x8001 190; mk_node 0xc016 190; mk_node 0x8001 196; mk_node 0xc016 196];
  (* 136 *) [mk_node 0x8002 178; mk_node 0x8009 178; mk_node 0x8017 178; mk_node 0xc028 178; mk_node 0x8002 181; mk_node 0x8009 181; mk_node 0x8017 181; mk_node 0xc028 181; mk_node 0x8002 185; mk_node 0x8009 185; mk_node 0x8017 185; mk_node 0xc028 185; mk_node 0x8002 186; mk_node 0x8009 186; mk_node 0x8017 186; mk_node 0xc028 186];
  (* 137 *) [mk_node 0x8003 178; mk_node 0x8006 178; mk_node 0x800a 178; mk_node 0x800f 178; mk_node 0x8018 178; mk_node 0x801f 178; mk_node 0x8029 178; mk_node 0xc038 178; mk_node 0x8003 181; mk_node 0x8006 181; mk_node 0x800a 181; mk_node 0x800f 181; mk_node 0x8018 181; mk_node 0x801f 181; mk_node 0x8029 181; mk_node 0xc038 181];
  (* 138 *) [mk_node 0x8003 185; mk_node 0x8006 185; mk_node 0x800a 185; mk_node 0x800f 185; mk_node 0x8018 185; mk_node 0x801f 185; mk_node 0x8029 185; mk_node 0xc038 185; mk_node 0x8003 186; mk_node 0x8006 186; mk_node 0x800a 186; mk_node 0x800f 186; mk_node 0x8018 186; mk_node 0x801f 186; mk_node 0x8029 186; mk_node 0xc038 186];
  (* 139 *) [mk_node 0x8002 187; mk_node 0x8009 187; mk_node 0x8017 187; mk_node 0xc028 187; mk_node 0x8002 189; mk_node 0x8009 189; mk_node 0x8017 189; mk_node 0xc028 189; mk_node 0x8002 190; mk_node 0x8009 190; mk_node 0x8017 190; mk_node 0xc028 190; mk_node 0x8002 196; mk_node 0x8009 196; mk_node 0x8017 196; mk_node 0xc028 196]].

(** Rows 140 to 146. *)
Definition huff_decode_rows_140 : list (list nghttp2_huff_decode) := [
  (* 140 *) [mk_node 0x8003 187; mk_node 0x8006 187; mk_node 0x800a 187; mk_node 0x800f 187; mk_node 0x8018 187; mk_node 0x801f 187; mk_node 0x8029 187; mk_node 0xc038 187; mk_node 0x8003 189; mk_node 0x8006 189; mk_node 0x800a 189; mk_node 0x800f 189; mk_node 0x8018 189; mk_node 0x801f 189; mk_node 0x8029 189; mk_node 0xc038 189];
  (* 141 *) [mk_node 0x8003 190; mk_node 0x8006 190; mk_node 0x800a 190; mk_node 0x800f 190; mk_node 0x8018 190; mk_node 0x801f 190; mk_node 0x8029 190; mk_node 0xc038 190; mk_node 0x8003 196; mk_node 0x8006 196; mk_node 0x800a 196; mk_node 0x800f 196; mk_node 0x8018 196; mk_node 0x801f 196; mk_node 0x8029 196; mk_node 0xc038 196];
  (* 142 *) [mk_node 0x8001 198; mk_node 0xc016 198; mk_node 0x8001 228; mk_node 0xc016 228; mk_node 0x8001 232; mk_node 0xc016 232; mk_node 0x8001 233; mk_node 0xc016 233; mk_node 0xc000 1; mk_node 0xc000 135; mk_node 0xc000 137; mk_node 0xc000 138; mk_node 0xc000 139; mk_node 0xc000 140; mk_node 0xc000 141; mk_node 0xc000 143];
  (* 143 *) [mk_node 0x8002 198; mk_node 0x8009 198; mk_node 0x8017 198; mk_node 0xc028 198; mk_node 0x8002 228; mk_node 0x8009 228; mk_node 0x8017 228; mk_node 0xc028 228; mk_node 0x8002 232; mk_node 0x8009 232; mk_node 0x8017 232; mk_node 0xc028 232; mk_node 0x8002 233; mk_node 0x8009 233; mk_node 0x8017 233; mk_node 0xc028 233];
  (* 144 *) [mk_node 0x8003 198; mk_node 0x8006 198; mk_node 0x800a 198; mk_node 0x800f 198; mk_node 0x8018 198; mk_node 0x801f 198; mk_node 0x8029 198; mk_node 0xc038 198; mk_node 0x8003 228; mk_node 0x8006 228; mk_node 0x800a 228; mk_node 0x800f 228; mk_node 0x8018 228; mk_node 0x801f 228; mk_node 0x8029 228; mk_node 0xc038 228];
  (* 145 *) [mk_node 0x8003 232; mk_node 0x8006 232; mk_node 0x800a 232; mk_node 0x800f 232; mk_node 0x8018 232; mk_node 0x801f 232; mk_node 0x8029 232; mk_node 0xc038 232; mk_node 0x8003 233; mk_node 0x8006 233; mk_node 0x800a 233; mk_node 0x800f 233; mk_node 0x8018 233; mk_node 0x801f 233; mk_node 0x8029 233; mk_node 0xc038 233];
  (* 146 *) [mk_node 0x8001 1; mk_node 0xc016 1; mk_node 0x8001 135; mk_node 0xc016 135; mk_node 0x8001 137; mk_node 0xc016 137; mk_node 0x8001 138; mk_node 0xc016 138; mk_node 0x8001 139; mk_node 0xc016 139; mk_node 0x8001 140; mk_node 0xc016 140; mk_node 0x8001 141; mk_node 0xc016 141; mk_node 0x8001 143; mk_node 0xc016 143]].

(** Rows 147 to 153. *)
Definition huff_decode_rows_147 : list (list nghttp2_huff_decode) := [
  (* 147 *) [mk_node 0x8002 1; mk_node 0x8009 1; mk_node 0x8017 1; mk_node 0xc028 1; mk_node 0x8002 135; mk_node 0x8009 135; mk_node 0x8017 135; mk_node 0xc028 135; mk_node 0x8002 137; mk_node 0x8009 137; mk_node 0x8017 137; mk_node 0xc028 137; mk_node 0x8002 138; mk_node 0x8009 138; mk_node 0x8017 138; mk_node 0xc028 138];
  (* 148 *) [mk_node 0x8003 1; mk_node 0x8006 1; mk_node 0x800a 1; mk_node 0x800f 1; mk_node 0x8018 1; mk_node 0x801f 1; mk_node 0x8029 1; mk_node 0xc038 1; mk_node 0x8003 135; mk_node 0x8006 135; mk_node 0x800a 135; mk_node 0x800f 135; mk_node 0x8018 135; mk_node 0x801f 135; mk_node 0x8029 135; mk_node 0xc038 135];
  (* 149 *) [mk_node 0x8003 137; mk_node 0x8006 137; mk_node 0x800a 137; mk_node 0x800f 137; mk_node 0x8018 137; mk_node 0x801f 137; mk_node 0x8029 137; mk_node 0xc038 137; mk_node 0x8003 138; mk_node 0x8006 138; mk_node 0x800a 138; mk_node 0x800f 138; mk_node 0x8018 138; mk_node 0x801f 138; mk_node 0x8029 138; mk_node 0xc038 138];
  (* 150 *) [mk_node 0x8002 139; mk_node 0x8009 139; mk_node 0x8017 139; mk_node 0xc028 139; mk_node 0x8002 140; mk_node 0x8009 140; mk_node 0x8017 140; mk_node 0xc028 140; mk_node 0x8002 141; mk_node 0x8009 141; mk_node 0x8017 141; mk_node 0xc028 141; mk_node 0x8002 143; mk_node 0x8009 143; mk_node 0x8017 143; mk_node 0xc028 143];
  (* 151 *) [mk_node 0x8003 139; mk_node 0x8006 139; mk_node 0x800a 139; mk_node 0x800f 139; mk_node 0x8018 139; mk_node 0x801f 139; mk_node 0x8029 139; mk_node 0xc038 139; mk_node 0x8003 140; mk_node 0x8006 140; mk_node 0x800a 140; mk_node 0x800f 140; mk_node 0x8018 140; mk_node 0x801f 140; mk_node 0x8029 140; mk_node 0xc038 140];
  (* 152 *) [mk_node 0x8003 141; mk_node 0x8006 141; mk_node 0x800a 141; mk_node 0x800f 141; mk_node 0x8018 141; mk_node 0x801f 141; mk_node 0x8029 141; mk_node 0xc038 141; mk_node 0x8003 143; mk_node 0x8006 143; mk_node 0x800a 143; mk_node 0x800f 143; mk_node 0x8018 143; mk_node 0x801f 143; mk_node 0x8029 143; mk_node 0xc038 143];
  (* 153 *) [mk_node 0x9d 0; mk_node 0x9e 0; mk_node 0xa0 0; mk_node 0xa1 0; mk_node 0xa4 0; mk_node 0xa5 0; mk_node 0xa7 0; mk_node 0xa8 0; mk_node 0xac 0; mk_node 0xad 0; mk_node 0xaf 0; mk_node 0xb1 0; mk_node 0xb6 0; mk_node 0xb9 0; mk_node 0xbf 0; mk_node 0xcf 0]].

(** Rows 154 to 160. *)
Definition huff_decode_rows_154 : list (list nghttp2_huff_decode) := [
  (* 154 *) [mk_node 0xc000 147; mk_node 0xc000 149; mk_node 0xc000 150; mk_node 0xc000 151; mk_node 0xc000 152; mk_node 0xc000 155; mk_node 0xc000 157; mk_node 0xc000 158; mk_node 0xc000 165; mk_node 0xc000 166; mk_node 0xc000 168; mk_node 0xc000 174; mk_node 0xc000 175; mk_node 0xc000 180; mk_node 0xc000 182; mk_node 0xc000 183];
  (* 155 *) [mk_node 0x8001 147; mk_node 0xc016 147; mk_node 0x8001 149; mk_node 0xc016 149; mk_node 0x8001 150; mk_node 0xc016 150; mk_node 0x8001 151; mk_node 0xc016 151; mk_node 0x8001 152; mk_node 0xc016 152; mk_node 0x8001 155; mk_node 0xc016 155; mk_node 0x8001 157; mk_node 0xc016 157; mk_node 0x8001 158; mk_node 0xc016 158];
  (* 156 *) [mk_node 0x8002 147; mk_node 0x8009 147; mk_node 0x8017 147; mk_node 0xc028 147; mk_node 0x8002 149; mk_node 0x8009 149; mk_node 0x8017 149; mk_node 0xc028 149; mk_node 0x8002 150; mk_node 0x8009 150; mk_node 0x8017 150; mk_node 0xc028 150; mk_node 0x8002 151; mk_node 0x8009 151; mk_node 0x8017 151; mk_node 0xc028 151];
  (* 157 *) [mk_node 0x8003 147; mk_node 0x8006 147; mk_node 0x800a 147; mk_node 0x800f 147; mk_node 0x8018 147; mk_node 0x801f 147; mk_node 0x8029 147; mk_node 0xc038 147; mk_node 0x8003 149; mk_node 0x8006 149; mk_node 0x800a 149; mk_node 0x800f 149; mk_node 0x8018 149; mk_node 0x801f 149; mk_node 0x8029 149; mk_node 0xc038 149];
  (* 158 *) [mk_node 0x8003 150; mk_node 0x8006 150; mk_node 0x800a 150; mk_node 0x800f 150; mk_node 0x8018 150; mk_node 0x801f 150; mk_node 0x8029 150; mk_node 0xc038 150; mk_node 0x8003 151; mk_node 0x8006 151; mk_node 0x800a 151; mk_node 0x800f 151; mk_node 0x8018 151; mk_node 0x801f 151; mk_node 0x8029 151; mk_node 0xc038 151];
  (* 159 *) [mk_node 0x8002 152; mk_node 0x8009 152; mk_node 0x8017 152; mk_node 0xc028 152; mk_node 0x8002 155; mk_node 0x8009 155; mk_node 0x8017 155; mk_node 0xc028 155; mk_node 0x8002 157; mk_node 0x8009 157; mk_node 0x8017 157; mk_node 0xc028 157; mk_node 0x8002 158; mk_node 0x8009 158; mk_node 0x8017 158; mk_node 0xc028 158];
  (* 160 *) [mk_node 0x8003 152; mk_node 0x8006 152; mk_node 0x800a 152; mk_node 0x800f 152; mk_node 0x8018 152; mk_node 0x801f 152; mk_node 0x8029 152; mk_node 0xc038 152; mk_node 0x8003 155; mk_node 0x8006 155; mk_node 0x800a 155; mk_node 0x800f 155; mk_node 0x8018 155; mk_node 0x801f 155; mk_node 0x8029 155; mk_node 0xc038 155]].

(** Rows 161 to 167. *)
Definition huff_decode_rows_161 : list (list nghttp2_huff_decode) := [
  (* 161 *) [mk_node 0x8003 157; mk_node 0x8006 157; mk_node 0x800a 157; mk_node 0x800f 157; mk_node 0x8018 157; mk_node 0x801f 157; mk_node 0x8029 157; mk_node 0xc038 157; mk_node 0x8003 158; mk_node 0x8006 158; mk_node 0x800a 158; mk_node 0x800f 158; mk_node 0x8018 158; mk_node 0x801f 158; mk_node 0x8029 158; mk_node 0xc038 158];
  (* 162 *) [mk_node 0x8001 165; mk_node 0xc016 165; mk_node 0x8001 166; mk_node 0xc016 166; mk_node 0x8001 168; mk_node 0xc016 168; mk_node 0x8001 174; mk_node 0xc016 174; mk_node 0x8001 175; mk_node 0xc016 175; mk_node 0x8001 180; mk_node 0xc016 180; mk_node 0x8001 182; mk_node 0xc016 182; mk_node 0x8001 183; mk_node 0xc016 183];
  (* 163 *) [mk_node 0x8002 165; mk_node 0x8009 165; mk_node 0x8017 165; mk_node 0xc028 165; mk_node 0x8002 166; mk_node 0x8009 166; mk_node 0x8017 166; mk_node 0xc028 166; mk_node 0x8002 168; mk_node 0x8009 168; mk_node 0x8017 168; mk_node 0xc028 168; mk_node 0x8002 174; mk_node 0x8009 174; mk_node 0x8017 174; mk_node 0xc028 174];
  (* 164 *) [mk_node 0x8003 165; mk_node 0x8006 165; mk_node 0x800a 165; mk_node 0x800f 165; mk_node 0x8018 165; mk_node 0x801f 165; mk_node 0x8029 165; mk_node 0xc038 165; mk_node 0x8003 166; mk_node 0x8006 166; mk_node 0x800a 166; mk_node 0x800f 166; mk_node 0x8018 166; mk_node 0x801f 166; mk_node 0x8029 166; mk_node 0xc038 166];
  (* 165 *) [mk_node 0x8003 168; mk_node 0x8006 168; mk_node 0x800a 168; mk_node 0x800f 168; mk_node 0x8018 168; mk_node 0x801f 168; mk_node 0x8029 168; mk_node 0xc038 168; mk_node 0x8003 174; mk_node 0x8006 174; mk_node 0x800a 174; mk_node 0x800f 174; mk_node 0x8018 174; mk_node 0x801f 174; mk_node 0x8029 174; mk_node 0xc038 174];
  (* 166 *) [mk_node 0x8002 175; mk_node 0x8009 175; mk_node 0x8017 175; mk_node 0xc028 175; mk_node 0x8002 180; mk_node 0x8009 180; mk_node 0x8017 180; mk_node 0xc028 180; mk_node 0x8002 182; mk_node 0x8009 182; mk_node 0x8017 182; mk_node 0xc028 182; mk_node 0x8002 183; mk_node 0x8009 183; mk_node 0x8017 183; mk_node 0xc028 183];
  (* 167 *) [mk_node 0x8003 175; mk_node 0x8006 175; mk_node 0x800a 175; mk_node 0x800f 175; mk_node 0x8018 175; mk_node 0x801f 175; mk_node 0x8029 175; mk_node 0xc038 175; mk_node 0x8003 180; mk_node 0x8006 180; mk_node 0x800a 180; mk_node 0x800f 180; mk_node 0x8018 180; mk_node 0x801f 180; mk_node 0x8029 180; mk_node 0xc038 180]].

(** Rows 168 to 174. *)
Definition huff_decode_rows_168 : list (list nghttp2_huff_decode) := [
  (* 168 *) [mk_node 0x8003 182; mk_node 0x8006 182; mk_node 0x800a 182; mk_node 0x800f 182; mk_node 0x8018 182; mk_node 0x801f 182; mk_node 0x8029 182; mk_node 0xc038 182; mk_node 0x8003 183; mk_node 0x8006 183; mk_node 0x800a 183; mk_node 0x800f 183; mk_node 0x8018 183; mk_node 0x801f 183; mk_node 0x8029 183; mk_node 0xc038 183];
  (* 169 *) [mk_node 0xc000 188; mk_node 0xc000 191; mk_node 0xc000 197; mk_node 0xc000 231; mk_node 0xc000 239; mk_node 0xb0 0; mk_node 0xb2 0; mk_node 0xb3 0; mk_node 0xb7 0; mk_node 0xb8 0; mk_node 0xba 0; mk_node 0xbb 0; mk_node 0xc0 0; mk_node 0xc7 0; mk_node 0xd0 0; mk_node 0xdf 0];
  (* 170 *) [mk_node 0x8001 188; mk_node 0xc016 188; mk_node 0x8001 191; mk_node 0xc016 191; mk_node 0x8001 197; mk_node 0xc016 197; mk_node 0x8001 231; mk_node 0xc016 231; mk_node 0x8001 239; mk_node 0xc016 239; mk_node 0xc000 9; mk_node 0xc000 142; mk_node 0xc000 144; mk_node 0xc000 145; mk_node 0xc000 148; mk_node 0xc000 159];
  (* 171 *) [mk_node 0x8002 188; mk_node 0x8009 188; mk_node 0x8017 188; mk_node 0xc028 188; mk_node 0x8002 191; mk_node 0x8009 191; mk_node 0x8017 191; mk_node 0xc028 191; mk_node 0x8002 197; mk_node 0x8009 197; mk_node 0x8017 197; mk_node 0xc028 197; mk_node 0x8002 231; mk_node 0x8009 231; mk_node 0x8017 231; mk_node 0xc028 231];
  (* 172 *) [mk_node 0x8003 188; mk_node 0x8006 188; mk_node 0x800a 188; mk_node 0x800f 188; mk_node 0x8018 188; mk_node 0x801f 188; mk_node 0x8029 188; mk_node 0xc038 188; mk_node 0x8003 191; mk_node 0x8006 191; mk_node 0x800a 191; mk_node 0x800f 191; mk_node 0x8018 191; mk_node 0x801f 191; mk_node 0x8029 191; mk_node 0xc038 191];
  (* 173 *) [mk_node 0x8003 197; mk_node 0x8006 197; mk_node 0x800a 197; mk_node 0x800f 197; mk_node 0x8018 197; mk_node 0x801f 197; mk_node 0x8029 197; mk_node 0xc038 197; mk_node 0x8003 231; mk_node 0x8006 231; mk_node 0x800a 231; mk_node 0x800f 231; mk_node 0x8018 231; mk_node 0x801f 231; mk_node 0x8029 231; mk_node 0xc038 231];
  (* 174 *) [mk_node 0x8002 239; mk_node 0x8009 239; mk_node 0x8017 239; mk_node 0xc028 239; mk_node 0x8001 9; mk_node 0xc016 9; mk_node 0x8001 142; mk_node 0xc016 142; mk_node 0x8001 144; mk_node 0xc016 144; mk_node 0x8001 145; mk_node 0xc016 145; mk_node 0x8001 148; mk_node 0xc016 148; mk_node 0x8001 159; mk_node 0xc016 159]].

(** Rows 175 to 181. *)
Definition huff_decode_rows_175 : list (list nghttp2_huff_decode) := [
  (* 175 *) [mk_node 0x8003 239; mk_node 0x8006 239; mk_node 0x800a 239; mk_node 0x800f 239; mk_node 0x8018 239; mk_node 0x801f 239; mk_node 0x8029 239; mk_node 0xc038 239; mk_node 0x8002 9; mk_node 0x8009 9; mk_node 0x8017 9; mk_node 0xc028 9; mk_node 0x8002 142; mk_node 0x8009 142; mk_node 0x8017 142; mk_node 0xc028 142];
  (* 176 *) [mk_node 0x8003 9; mk_node 0x8006 9; mk_node 0x800a 9; mk_node 0x800f 9; mk_node 0x8018 9; mk_node 0x801f 9; mk_node 0x8029 9; mk_node 0xc038 9; mk_node 0x8003 142; mk_node 0x8006 142; mk_node 0x800a 142; mk_node 0x800f 142; mk_node 0x8018 142; mk_node 0x801f 142; mk_node 0x8029 142; mk_node 0xc038 142];
  (* 177 *) [mk_node 0x8002 144; mk_node 0x8009 144; mk_node 0x8017 144; mk_node 0xc028 144; mk_node 0x8002 145; mk_node 0x8009 145; mk_node 0x8017 145; mk_node 0xc028 145; mk_node 0x8002 148; mk_node 0x8009 148; mk_node 0x8017 148; mk_node 0xc028 148; mk_node 0x8002 159; mk_node 0x8009 159; mk_node 0x8017 159; mk_node 0xc028 159];
  (* 178 *) [mk_node 0x8003 144; mk_node 0x8006 144; mk_node 0x800a 144; mk_node 0x800f 144; mk_node 0x8018 144; mk_node 0x801f 144; mk_node 0x8029 144; mk_node 0xc038 144; mk_node 0x8003 145; mk_node 0x8006 145; mk_node 0x800a 145; mk_node 0x800f 145; mk_node 0x8018 145; mk_node 0x801f 145; mk_node 0x8029 145; mk_node 0xc038 145];
  (* 179 *) [mk_node 0x8003 148; mk_node 0x8006 148; mk_node 0x800a 148; mk_node 0x800f 148; mk_node 0x8018 148; mk_node 0x801f 148; mk_node 0x8029 148; mk_node 0xc038 148; mk_node 0x8003 159; mk_node 0x8006 159; mk_node 0x800a 159; mk_node 0x800f 159; mk_node 0x8018 159; mk_node 0x801f 159; mk_node 0x8029 159; mk_node 0xc038 159];
  (* 180 *) [mk_node 0xc000 171; mk_node 0xc000 206; mk_node 0xc000 215; mk_node 0xc000 225; mk_node 0xc000 236; mk_node 0xc000 237; mk_node 0xbc 0; mk_node 0xbd 0; mk_node 0xc1 0; mk_node 0xc4 0; mk_node 0xc8 0; mk_node 0xcb 0; mk_node 0xd1 0; mk_node 0xd8 0; mk_node 0xe0 0; mk_node 0xee 0];
  (* 181 *) [mk_node 0x8001 171; mk_node 0xc016 171; mk_node 0x8001 206; mk_node 0xc016 206; mk_node 0x8001 215; mk_node 0xc016 215; mk_node 0x8001 225; mk_node 0xc016 225; mk_node 0x8001 236; mk_node 0xc016 236; mk_node 0x8001 237; mk_node 0xc016 237; mk_node 0xc000 199; mk_node 0xc000 207; mk_node 0xc000 234; mk_node 0xc000 235]].

(** Rows 182 to 188. *)
Definition huff_decode_rows_182 : list (list nghttp2_huff_decode) := [
  (* 182 *) [mk_node 0x8002 171; mk_node 0x8009 171; mk_node 0x8017 171; mk_node 0xc028 171; mk_node 0x8002 206; mk_node 0x8009 206; mk_node 0x8017 206; mk_node 0xc028 206; mk_node 0x8002 215; mk_node 0x8009 215; mk_node 0x8017 215; mk_node 0xc028 215; mk_node 0x8002 225; mk_node 0x8009 225; mk_node 0x8017 225; mk_node 0xc028 225];
  (* 183 *) [mk_node 0x8003 171; mk_node 0x8006 171; mk_node 0x800a 171; mk_node 0x800f 171; mk_node 0x8018 171; mk_node 0x801f 171; mk_node 0x8029 171; mk_node 0xc038 171; mk_node 0x8003 206; mk_node 0x8006 206; mk_node 0x800a 206; mk_node 0x800f 206; mk_node 0x8018 206; mk_node 0x801f 206; mk_node 0x8029 206; mk_node 0xc038 206];
  (* 184 *) [mk_node 0x8003 215; mk_node 0x8006 215; mk_node 0x800a 215; mk_node 0x800f 215; mk_node 0x8018 215; mk_node 0x801f 215; mk_node 0x8029 215; mk_node 0xc038 215; mk_node 0x8003 225; mk_node 0x8006 225; mk_node 0x800a 225; mk_node 0x800f 225; mk_node 0x8018 225; mk_node 0x801f 225; mk_node 0x8029 225; mk_node 0xc038 225];
  (* 185 *) [mk_node 0x8002 236; mk_node 0x8009 236; mk_node 0x8017 236; mk_node 0xc028 236; mk_node 0x8002 237; mk_node 0x8009 237; mk_node 0x8017 237; mk_node 0xc028 237; mk_node 0x8001 199; mk_node 0xc016 199; mk_node 0x8001 207; mk_node 0xc016 207; mk_node 0x8001 234; mk_node 0xc016 234; mk_node 0x8001 235; mk_node 0xc016 235];
  (* 186 *) [mk_node 0x8003 236; mk_node 0x8006 236; mk_node 0x800a 236; mk_node 0x800f 236; mk_node 0x8018 236; mk_node 0x801f 236; mk_node 0x8029 236; mk_node 0xc038 236; mk_node 0x8003 237; mk_node 0x8006 237; mk_node 0x800a 237; mk_node 0x800f 237; mk_node 0x8018 237; mk_node 0x801f 237; mk_node 0x8029 237; mk_node 0xc038 237];
  (* 187 *) [mk_node 0x8002 199; mk_node 0x8009 199; mk_node 0x8017 199; mk_node 0xc028 199; mk_node 0x8002 207; mk_node 0x8009 207; mk_node 0x8017 207; mk_node 0xc028 207; mk_node 0x8002 234; mk_node 0x8009 234; mk_node 0x8017 234; mk_node 0xc028 234; mk_node 0x8002 235; mk_node 0x8009 235; mk_node 0x8017 235; mk_node 0xc028 235];
  (* 188 *) [mk_node 0x8003 199; mk_node 0x8006 199; mk_node 0x800a 199; mk_node 0x800f 199; mk_node 0x8018 199; mk_node 0x801f 199; mk_node 0x8029 199; mk_node 0xc038 199; mk_node 0x8003 207; mk_node 0x8006 207; mk_node 0x800a 207; mk_node 0x800f 207; mk_node 0x8018 207; mk_node 0x801f 207; mk_node 0x8029 207; mk_node 0xc038 207]].

(** Rows 189 to 195. *)
Definition huff_decode_rows_189 : list (list nghttp2_huff_decode) := [
  (* 189 *) [mk_node 0x8003 234; mk_node 0x8006 234; mk_node 0x800a 234; mk_node 0x800f 234; mk_node 0x8018 234; mk_node 0x801f 234; mk_node 0x8029 234; mk_node 0xc038 234; mk_node 0x8003 235; mk_node 0x8006 235; mk_node 0x800a 235; mk_node 0x800f 235; mk_node 0x8018 235; mk_node 0x801f 235; mk_node 0x8029 235; mk_node 0xc038 235];
  (* 190 *) [mk_node 0xc2 0; mk_node 0xc3 0; mk_node 0xc5 0; mk_node 0xc6 0; mk_node 0xc9 0; mk_node 0xca 0; mk_node 0xcc 0; mk_node 0xcd 0; mk_node 0xd2 0; mk_node 0xd5 0; mk_node 0xd9 0; mk_node 0xdc 0; mk_node 0xe1 0; mk_node 0xe7 0; mk_node 0xef 0; mk_node 0xf6 0];
  (* 191 *) [mk_node 0xc000 192; mk_node 0xc000 193; mk_node 0xc000 200; mk_node 0xc000 201; mk_node 0xc000 202; mk_node 0xc000 205; mk_node 0xc000 210; mk_node 0xc000 213; mk_node 0xc000 218; mk_node 0xc000 219; mk_node 0xc000 238; mk_node 0xc000 240; mk_node 0xc000 242; mk_node 0xc000 243; mk_node 0xc000 255; mk_node 0xce 0];
  (* 192 *) [mk_node 0x8001 192; mk_node 0xc016 192; mk_node 0x8001 193; mk_node 0xc016 193; mk_node 0x8001 200; mk_node 0xc016 200; mk_node 0x8001 201; mk_node 0xc016 201; mk_node 0x8001 202; mk_node 0xc016 202; mk_node 0x8001 205; mk_node 0xc016 205; mk_node 0x8001 210; mk_node 0xc016 210; mk_node 0x8001 213; mk_node 0xc016 213];
  (* 193 *) [mk_node 0x8002 192; mk_node 0x8009 192; mk_node 0x8017 192; mk_node 0xc028 192; mk_node 0x8002 193; mk_node 0x8009 193; mk_node 0x8017 193; mk_node 0xc028 193; mk_node 0x8002 200; mk_node 0x8009 200; mk_node 0x8017 200; mk_node 0xc028 200; mk_node 0x8002 201; mk_node 0x8009 201; mk_node 0x8017 201; mk_node 0xc028 201];
  (* 194 *) [mk_node 0x8003 192; mk_node 0x8006 192; mk_node 0x800a 192; mk_node 0x800f 192; mk_node 0x8018 192; mk_node 0x801f 192; mk_node 0x8029 192; mk_node 0xc038 192; mk_node 0x8003 193; mk_node 0x8006 193; mk_node 0x800a 193; mk_node 0x800f 193; mk_node 0x8018 193; mk_node 0x801f 193; mk_node 0x8029 193; mk_node 0xc038 193];
  (* 195 *) [mk_node 0x8003 200; mk_node 0x8006 200; mk_node 0x800a 200; mk_node 0x800f 200; mk_node 0x8018 200; mk_node 0x801f 200; mk_node 0x8029 200; mk_node 0xc038 200; mk_node 0x8003 201; mk_node 0x8006 201; mk_node 0x800a 201; mk_node 0x800f 201; mk_node 0x8018 201; mk_node 0x801f 201; mk_node 0x8029 201; mk_node 0xc038 201]].

(** Rows 196 to 202. *)
Definition huff_decode_rows_196 : list (list nghttp2_huff_decode) := [
  (* 196 *) [mk_node 0x8002 202; mk_node 0x8009 202; mk_node 0x8017 202; mk_node 0xc028 202; mk_node 0x8002 205; mk_node 0x8009 205; mk_node 0x8017 205; mk_node 0xc028 205; mk_node 0x8002 210; mk_node 0x8009 210; mk_node 0x8017 210; mk_node 0xc028 210; mk_node 0x8002 213; mk_node 0x8009 213; mk_node 0x8017 213; mk_node 0xc028 213];
  (* 197 *) [mk_node 0x8003 202; mk_node 0x8006 202; mk_node 0x800a 202; mk_node 0x800f 202; mk_node 0x8018 202; mk_node 0x801f 202; mk_node 0x8029 202; mk_node 0xc038 202; mk_node 0x8003 205; mk_node 0x8006 205; mk_node 0x800a 205; mk_node 0x800f 205; mk_node 0x8018 205; mk_node 0x801f 205; mk_node 0x8029 205; mk_node 0xc038 205];
  (* 198 *) [mk_node 0x8003 210; mk_node 0x8006 210; mk_node 0x800a 210; mk_node 0x800f 210; mk_node 0x8018 210; mk_node 0x801f 210; mk_node 0x8029 210; mk_node 0xc038 210; mk_node 0x8003 213; mk_node 0x8006 213; mk_node 0x800a 213; mk_node 0x800f 213; mk_node 0x8018 213; mk_node 0x801f 213; mk_node 0x8029 213; mk_node 0xc038 213];
  (* 199 *) [mk_node 0x8001 218; mk_node 0xc016 218; mk_node 0x8001 219; mk_node 0xc016 219; mk_node 0x8001 238; mk_node 0xc016 238; mk_node 0x8001 240; mk_node 0xc016 240; mk_node 0x8001 242; mk_node 0xc016 242; mk_node 0x8001 243; mk_node 0xc016 243; mk_node 0x8001 255; mk_node 0xc016 255; mk_node 0xc000 203; mk_node 0xc000 204];
  (* 200 *) [mk_node 0x8002 218; mk_node 0x8009 218; mk_node 0x8017 218; mk_node 0xc028 218; mk_node 0x8002 219; mk_node 0x8009 219; mk_node 0x8017 219; mk_node 0xc028 219; mk_node 0x8002 238; mk_node 0x8009 238; mk_node 0x8017 238; mk_node 0xc028 238; mk_node 0x8002 240; mk_node 0x8009 240; mk_node 0x8017 240; mk_node 0xc028 240];
  (* 201 *) [mk_node 0x8003 218; mk_node 0x8006 218; mk_node 0x800a 218; mk_node 0x800f 218; mk_node 0x8018 218; mk_node 0x801f 218; mk_node 0x8029 218; mk_node 0xc038 218; mk_node 0x8003 219; mk_node 0x8006 219; mk_node 0x800a 219; mk_node 0x800f 219; mk_node 0x8018 219; mk_node 0x801f 219; mk_node 0x8029 219; mk_node 0xc038 219];
  (* 202 *) [mk_node 0x8003 238; mk_node 0x8006 238; mk_node 0x800a 238; mk_node 0x800f 238; mk_node 0x8018 238; mk_node 0x801f 238; mk_node 0x8029 238; mk_node 0xc038 238; mk_node 0x8003 240; mk_node 0x8006 240; mk_node 0x800a 240; mk_node 0x800f 240; mk_node 0x8018 240; mk_node 0x801f 240; mk_node 0x8029 240; mk_node 0xc038 240]].

(** Rows 203 to 209. *)
Definition huff_decode_rows_203 : list (list nghttp2_huff_decode) := [
  (* 203 *) [mk_node 0x8002 242; mk_node 0x8009 242; mk_node 0x8017 242; mk_node 0xc028 242; mk_node 0x8002 243; mk_node 0x8009 243; mk_node 0x8017 243; mk_node 0xc028 243; mk_node 0x8002 255; mk_node 0x8009 255; mk_node 0x8017 255; mk_node 0xc028 255; mk_node 0x8001 203; mk_node 0xc016 203; mk_node 0x8001 204; mk_node 0xc016 204];
  (* 204 *) [mk_node 0x8003 242; mk_node 0x8006 242; mk_node 0x800a 242; mk_node 0x800f 242; mk_node 0x8018 242; mk_node 0x801f 242; mk_node 0x8029 242; mk_node 0xc038 242; mk_node 0x8003 243; mk_node 0x8006 243; mk_node 0x800a 243; mk_node 0x800f 243; mk_node 0x8018 243; mk_node 0x801f 243; mk_node 0x8029 243; mk_node 0xc038 243];
  (* 205 *) [mk_node 0x8003 255; mk_node 0x8006 255; mk_node 0x800a 255; mk_node 0x800f 255; mk_node 0x8018 255; mk_node 0x801f 255; mk_node 0x8029 255; mk_node 0xc038 255; mk_node 0x8002 203; mk_node 0x8009 203; mk_node 0x8017 203; mk_node 0xc028 203; mk_node 0x8002 204; mk_node 0x8009 204; mk_node 0x8017 204; mk_node 0xc028 204];
  (* 206 *) [mk_node 0x8003 203; mk_node 0x8006 203; mk_node 0x800a 203; mk_node 0x800f 203; mk_node 0x8018 203; mk_node 0x801f 203; mk_node 0x8029 203; mk_node 0xc038 203; mk_node 0x8003 204; mk_node 0x8006 204; mk_node 0x800a 204; mk_node 0x800f 204; mk_node 0x8018 204; mk_node 0x801f 204; mk_node 0x8029 204; mk_node 0xc038 204];
  (* 207 *) [mk_node 0xd3 0; mk_node 0xd4 0; mk_node 0xd6 0; mk_node 0xd7 0; mk_node 0xda 0; mk_node 0xdb 0; mk_node 0xdd 0; mk_node 0xde 0; mk_node 0xe2 0; mk_node 0xe4 0; mk_node 0xe8 0; mk_node 0xeb 0; mk_node 0xf0 0; mk_node 0xf3 0; mk_node 0xf7 0; mk_node 0xfa 0];
  (* 208 *) [mk_node 0xc000 211; mk_node 0xc000 212; mk_node 0xc000 214; mk_node 0xc000 221; mk_node 0xc000 222; mk_node 0xc000 223; mk_node 0xc000 241; mk_node 0xc000 244; mk_node 0xc000 245; mk_node 0xc000 246; mk_node 0xc000 247; mk_node 0xc000 248; mk_node 0xc000 250; mk_node 0xc000 251; mk_node 0xc000 252; mk_node 0xc000 253];
  (* 209 *) [mk_node 0x8001 211; mk_node 0xc016 211; mk_node 0x8001 212; mk_node 0xc016 212; mk_node 0x8001 214; mk_node 0xc016 214; mk_node 0x8001 221; mk_node 0xc016 221; mk_node 0x8001 222; mk_node 0xc016 222; mk_node 0x8001 223; mk_node 0xc016 223; mk_node 0x8001 241; mk_node 0xc016 241; mk_node 0x8001 244; mk_node 0xc016 244]].

(** Rows 210 to 216. *)
Definition huff_decode_rows_210 : list (list nghttp2_huff_decode) := [
  (* 210 *) [mk_node 0x8002 211; mk_node 0x8009 211; mk_node 0x8017 211; mk_node 0xc028 211; mk_node 0x8002 212; mk_node 0x8009 212; mk_node 0x8017 212; mk_node 0xc028 212; mk_node 0x8002 214; mk_node 0x8009 214; mk_node 0x8017 214; mk_node 0xc028 214; mk_node 0x8002 221; mk_node 0x8009 221; mk_node 0x8017 221; mk_node 0xc028 221];
  (* 211 *) [mk_node 0x8003 211; mk_node 0x8006 211; mk_node 0x800a 211; mk_node 0x800f 211; mk_node 0x8018 211; mk_node 0x801f 211; mk_node 0x8029 211; mk_node 0xc038 211; mk_node 0x8003 212; mk_node 0x8006 212; mk_node 0x800a 212; mk_node 0x800f 212; mk_node 0x8018 212; mk_node 0x801f 212; mk_node 0x8029 212; mk_node 0xc038 212];
  (* 212 *) [mk_node 0x8003 214; mk_node 0x8006 214; mk_node 0x800a 214; mk_node 0x800f 214; mk_node 0x8018 214; mk_node 0x801f 214; mk_node 0x8029 214; mk_node 0xc038 214; mk_node 0x8003 221; mk_node 0x8006 221; mk_node 0x800a 221; mk_node 0x800f 221; mk_node 0x8018 221; mk_node 0x801f 221; mk_node 0x8029 221; mk_node 0xc038 221];
  (* 213 *) [mk_node 0x8002 222; mk_node 0x8009 222; mk_node 0x8017 222; mk_node 0xc028 222; mk_node 0x8002 223; mk_node 0x8009 223; mk_node 0x8017 223; mk_node 0xc028 223; mk_node 0x8002 241; mk_node 0x8009 241; mk_node 0x8017 241; mk_node 0xc028 241; mk_node 0x8002 244; mk_node 0x8009 244; mk_node 0x8017 244; mk_node 0xc028 244];
  (* 214 *) [mk_node 0x8003 222; mk_node 0x8006 222; mk_node 0x800a 222; mk_node 0x800f 222; mk_node 0x8018 222; mk_node 0x801f 222; mk_node 0x8029 222; mk_node 0xc038 222; mk_node 0x8003 223; mk_node 0x8006 223; mk_node 0x800a 223; mk_node 0x800f 223; mk_node 0x8018 223; mk_node 0x801f 223; mk_node 0x8029 223; mk_node 0xc038 223];
  (* 215 *) [mk_node 0x8003 241; mk_node 0x8006 241; mk_node 0x800a 241; mk_node 0x800f 241; mk_node 0x8018 241; mk_node 0x801f 241; mk_node 0x8029 241; mk_node 0xc038 241; mk_node 0x8003 244; mk_node 0x8006 244; mk_node 0x800a 244; mk_node 0x800f 244; mk_node 0x8018 244; mk_node 0x801f 244; mk_node 0x8029 244; mk_node 0xc038 244];
  (* 216 *) [mk_node 0x8001 245; mk_node 0xc016 245; mk_node 0x8001 246; mk_node 0xc016 246; mk_node 0x8001 247; mk_node 0xc016 247; mk_node 0x8001 248; mk_node 0xc016 248; mk_node 0x8001 250; mk_node 0xc016 250; mk_node 0x8001 251; mk_node 0xc016 251; mk_node 0x8001 252; mk_node 0xc016 252; mk_node 0x8001 253; mk_node 0xc016 253]].

(** Rows 217 to 223. *)
Definition huff_decode_rows_217 : list (list nghttp2_huff_decode) := [
  (* 217 *) [mk_node 0x8002 245; mk_node 0x8009 245; mk_node 0x8017 245; mk_node 0xc028 245; mk_node 0x8002 246; mk_node 0x8009 246; mk_node 0x8017 246; mk_node 0xc028 246; mk_node 0x8002 247; mk_node 0x8009 247; mk_node 0x8017 247; mk_node 0xc028 247; mk_node 0x8002 248; mk_node 0x8009 248; mk_node 0x8017 248; mk_node 0xc028 248];
  (* 218 *) [mk_node 0x8003 245; mk_node 0x8006 245; mk_node 0x800a 245; mk_node 0x800f 245; mk_node 0x8018 245; mk_node 0x801f 245; mk_node 0x8029 245; mk_node 0xc038 245; mk_node 0x8003 246; mk_node 0x8006 246; mk_node 0x800a 246; mk_node 0x800f 246; mk_node 0x8018 246; mk_node 0x801f 246; mk_node 0x8029 246; mk_node 0xc038 246];
  (* 219 *) [mk_node 0x8003 247; mk_node 0x8006 247; mk_node 0x800a 247; mk_node 0x800f 247; mk_node 0x8018 247; mk_node 0x801f 247; mk_node 0x8029 247; mk_node 0xc038 247; mk_node 0x8003 248; mk_node 0x8006 248; mk_node 0x800a 248; mk_node 0x800f 248; mk_node 0x8018 248; mk_node 0x801f 248; mk_node 0x8029 248; mk_node 0xc038 248];
  (* 220 *) [mk_node 0x8002 250; mk_node 0x8009 250; mk_node 0x8017 250; mk_node 0xc028 250; mk_node 0x8002 251; mk_node 0x8009 251; mk_node 0x8017 251; mk_node 0xc028 251; mk_node 0x8002 252; mk_node 0x8009 252; mk_node 0x8017 252; mk_node 0xc028 252; mk_node 0x8002 253; mk_node 0x8009 253; mk_node 0x8017 253; mk_node 0xc028 253];
  (* 221 *) [mk_node 0x8003 250; mk_node 0x8006 250; mk_node 0x800a 250; mk_node 0x800f 250; mk_node 0x8018 250; mk_node 0x801f 250; mk_node 0x8029 250; mk_node 0xc038 250; mk_node 0x8003 251; mk_node 0x8006 251; mk_node 0x800a 251; mk_node 0x800f 251; mk_node 0x8018 251; mk_node 0x801f 251; mk_node 0x8029 251; mk_node 0xc038 251];
  (* 222 *) [mk_node 0x8003 252; mk_node 0x8006 252; mk_node 0x800a 252; mk_node 0x800f 252; mk_node 0x8018 252; mk_node 0x801f 252; mk_node 0x8029 252; mk_node 0xc038 252; mk_node 0x8003 253; mk_node 0x8006 253; mk_node 0x800a 253; mk_node 0x800f 253; mk_node 0x8018 253; mk_node 0x801f 253; mk_node 0x8029 253; mk_node 0xc038 253];
  (* 223 *) [mk_node 0xc000 254; mk_node 0xe3 0; mk_node 0xe5 0; mk_node 0xe6 0; mk_node 0xe9 0; mk_node 0xea 0; mk_node 0xec 0; mk_node 0xed 0; mk_node 0xf1 0; mk_node 0xf2 0; mk_node 0xf4 0; mk_node 0xf5 0; mk_node 0xf8 0; mk_node 0xf9 0; mk_node 0xfb 0; mk_node 0xfc 0]].

(** Rows 224 to 230. *)
Definition huff_decode_rows_224 : list (list nghttp2_huff_decode) := [
  (* 224 *) [mk_node 0x8001 254; mk_node 0xc016 254; mk_node 0xc000 2; mk_node 0xc000 3; mk_node 0xc000 4; mk_node 0xc000 5; mk_node 0xc000 6; mk_node 0xc000 7; mk_node 0xc000 8; mk_node 0xc000 11; mk_node 0xc000 12; mk_node 0xc000 14; mk_node 0xc000 15; mk_node 0xc000 16; mk_node 0xc000 17; mk_node 0xc000 18];
  (* 225 *) [mk_node 0x8002 254; mk_node 0x8009 254; mk_node 0x8017 254; mk_node 0xc028 254; mk_node 0x8001 2; mk_node 0xc016 2; mk_node 0x8001 3; mk_node 0xc016 3; mk_node 0x8001 4; mk_node 0xc016 4; mk_node 0x8001 5; mk_node 0xc016 5; mk_node 0x8001 6; mk_node 0xc016 6; mk_node 0x8001 7; mk_node 0xc016 7];
  (* 226 *) [mk_node 0x8003 254; mk_node 0x8006 254; mk_node 0x800a 254; mk_node 0x800f 254; mk_node 0x8018 254; mk_node 0x801f 254; mk_node 0x8029 254; mk_node 0xc038 254; mk_node 0x8002 2; mk_node 0x8009 2; mk_node 0x8017 2; mk_node 0xc028 2; mk_node 0x8002 3; mk_node 0x8009 3; mk_node 0x8017 3; mk_node 0xc028 3];
  (* 227 *) [mk_node 0x8003 2; mk_node 0x8006 2; mk_node 0x800a 2; mk_node 0x800f 2; mk_node 0x8018 2; mk_node 0x801f 2; mk_node 0x8029 2; mk_node 0xc038 2; mk_node 0x8003 3; mk_node 0x8006 3; mk_node 0x800a 3; mk_node 0x800f 3; mk_node 0x8018 3; mk_node 0x801f 3; mk_node 0x8029 3; mk_node 0xc038 3];
  (* 228 *) [mk_node 0x8002 4; mk_node 0x8009 4; mk_node 0x8017 4; mk_node 0xc028 4; mk_node 0x8002 5; mk_node 0x8009 5; mk_node 0x8017 5; mk_node 0xc028 5; mk_node 0x8002 6; mk_node 0x8009 6; mk_node 0x8017 6; mk_node 0xc028 6; mk_node 0x8002 7; mk_node 0x8009 7; mk_node 0x8017 7; mk_node 0xc028 7];
  (* 229 *) [mk_node 0x8003 4; mk_node 0x8006 4; mk_node 0x800a 4; mk_node 0x800f 4; mk_node 0x8018 4; mk_node 0x801f 4; mk_node 0x8029 4; mk_node 0xc038 4; mk_node 0x8003 5; mk_node 0x8006 5; mk_node 0x800a 5; mk_node 0x800f 5; mk_node 0x8018 5; mk_node 0x801f 5; mk_node 0x8029 5; mk_node 0xc038 5];
  (* 230 *) [mk_node 0x8003 6; mk_node 0x8006 6; mk_node 0x800a 6; mk_node 0x800f 6; mk_node 0x8018 6; mk_node 0x801f 6; mk_node 0x8029 6; mk_node 0xc038 6; mk_node 0x8003 7; mk_node 0x8006 7; mk_node 0x800a 7; mk_node 0x800f 7; mk_node 0x8018 7; mk_node 0x801f 7; mk_node 0x8029 7; mk_node 0xc038 7]].

(** Rows 231 to 237. *)
Definition huff_decode_rows_231 : list (list nghttp2_huff_decode) := [
  (* 231 *) [mk_node 0x8001 8; mk_node 0xc016 8; mk_node 0x8001 11; mk_node 0xc016 11; mk_node 0x8001 12; mk_node 0xc016 12; mk_node 0x8001 14; mk_node 0xc016 14; mk_node 0x8001 15; mk_node 0xc016 15; mk_node 0x8001 16; mk_node 0xc016 16; mk_node 0x8001 17; mk_node 0xc016 17; mk_node 0x8001 18; mk_node 0xc016 18];
  (* 232 *) [mk_node 0x8002 8; mk_node 0x8009 8; mk_node 0x8017 8; mk_node 0xc028 8; mk_node 0x8002 11; mk_node 0x8009 11; mk_node 0x8017 11; mk_node 0xc028 11; mk_node 0x8002 12; mk_node 0x8009 12; mk_node 0x8017 12; mk_node 0xc028 12; mk_node 0x8002 14; mk_node 0x8009 14; mk_node 0x8017 14; mk_node 0xc028 14];
  (* 233 *) [mk_node 0x8003 8; mk_node 0x8006 8; mk_node 0x800a 8; mk_node 0x800f 8; mk_node 0x8018 8; mk_node 0x801f 8; mk_node 0x8029 8; mk_node 0xc038 8; mk_node 0x8003 11; mk_node 0x8006 11; mk_node 0x800a 11; mk_node 0x800f 11; mk_node 0x8018 11; mk_node 0x801f 11; mk_node 0x8029 11; mk_node 0xc038 11];
  (* 234 *) [mk_node 0x8003 12; mk_node 0x8006 12; mk_node 0x800a 12; mk_node 0x800f 12; mk_node 0x8018 12; mk_node 0x801f 12; mk_node 0x8029 12; mk_node 0xc038 12; mk_node 0x8003 14; mk_node 0x8006 14; mk_node 0x800a 14; mk_node 0x800f 14; mk_node 0x8018 14; mk_node 0x801f 14; mk_node 0x8029 14; mk_node 0xc038 14];
  (* 235 *) [mk_node 0x8002 15; mk_node 0x8009 15; mk_node 0x8017 15; mk_node 0xc028 15; mk_node 0x8002 16; mk_node 0x8009 16; mk_node 0x8017 16; mk_node 0xc028 16; mk_node 0x8002 17; mk_node 0x8009 17; mk_node 0x8017 17; mk_node 0xc028 17; mk_node 0x8002 18; mk_node 0x8009 18; mk_node 0x8017 18; mk_node 0xc028 18];
  (* 236 *) [mk_node 0x8003 15; mk_node 0x8006 15; mk_node 0x800a 15; mk_node 0x800f 15; mk_node 0x8018 15; mk_node 0x801f 15; mk_node 0x8029 15; mk_node 0xc038 15; mk_node 0x8003 16; mk_node 0x8006 16; mk_node 0x800a 16; mk_node 0x800f 16; mk_node 0x8018 16; mk_node 0x801f 16; mk_node 0x8029 16; mk_node 0xc038 16];
  (* 237 *) [mk_node 0x8003 17; mk_node 0x8006 17; mk_node 0x800a 17; mk_node 0x800f 17; mk_node 0x8018 17; mk_node 0x801f 17; mk_node 0x8029 17; mk_node 0xc038 17; mk_node 0x8003 18; mk_node 0x8006 18; mk_node 0x800a 18; mk_node 0x800f 18; mk_node 0x8018 18; mk_node 0x801f 18; mk_node 0x8029 18; mk_node 0xc038 18]].

(** Rows 238 to 244. *)
Definition huff_decode_rows_238 : list (list nghttp2_huff_decode) := [
  (* 238 *) [mk_node 0xc000 19; mk_node 0xc000 20; mk_node 0xc000 21; mk_node 0xc000 23; mk_node 0xc000 24; mk_node 0xc000 25; mk_node 0xc000 26; mk_node 0xc000 27; mk_node 0xc000 28; mk_node 0xc000 29; mk_node 0xc000 30; mk_node 0xc000 31; mk_node 0xc000 127; mk_node 0xc000 220; mk_node 0xc000 249; mk_node 0xfd 0];
  (* 239 *) [mk_node 0x8001 19; mk_node 0xc016 19; mk_node 0x8001 20; mk_node 0xc016 20; mk_node 0x8001 21; mk_node 0xc016 21; mk_node 0x8001 23; mk_node 0xc016 23; mk_node 0x8001 24; mk_node 0xc016 24; mk_node 0x8001 25; mk_node 0xc016 25; mk_node 0x8001 26; mk_node 0xc016 26; mk_node 0x8001 27; mk_node 0xc016 27];
  (* 240 *) [mk_node 0x8002 19; mk_node 0x8009 19; mk_node 0x8017 19; mk_node 0xc028 19; mk_node 0x8002 20; mk_node 0x8009 20; mk_node 0x8017 20; mk_node 0xc028 20; mk_node 0x8002 21; mk_node 0x8009 21; mk_node 0x8017 21; mk_node 0xc028 21; mk_node 0x8002 23; mk_node 0x8009 23; mk_node 0x8017 23; mk_node 0xc028 23];
  (* 241 *) [mk_node 0x8003 19; mk_node 0x8006 19; mk_node 0x800a 19; mk_node 0x800f 19; mk_node 0x8018 19; mk_node 0x801f 19; mk_node 0x8029 19; mk_node 0xc038 19; mk_node 0x8003 20; mk_node 0x8006 20; mk_node 0x800a 20; mk_node 0x800f 20; mk_node 0x8018 20; mk_node 0x801f 20; mk_node 0x8029 20; mk_node 0xc038 20];
  (* 242 *) [mk_node 0x8003 21; mk_node 0x8006 21; mk_node 0x800a 21; mk_node 0x800f 21; mk_node 0x8018 21; mk_node 0x801f 21; mk_node 0x8029 21; mk_node 0xc038 21; mk_node 0x8003 23; mk_node 0x8006 23; mk_node 0x800a 23; mk_node 0x800f 23; mk_node 0x8018 23; mk_node 0x801f 23; mk_node 0x8029 23; mk_node 0xc038 23];
  (* 243 *) [mk_node 0x8002 24; mk_node 0x8009 24; mk_node 0x8017 24; mk_node 0xc028 24; mk_node 0x8002 25; mk_node 0x8009 25; mk_node 0x8017 25; mk_node 0xc028 25; mk_node 0x8002 26; mk_node 0x8009 26; mk_node 0x8017 26; mk_node 0xc028 26; mk_node 0x8002 27; mk_node 0x8009 27; mk_node 0x8017 27; mk_node 0xc028 27];
  (* 244 *) [mk_node 0x8003 24; mk_node 0x8006 24; mk_node 0x800a 24; mk_node 0x800f 24; mk_node 0x8018 24; mk_node 0x801f 24; mk_node 0x8029 24; mk_node 0xc038 24; mk_node 0x8003 25; mk_node 0x8006 25; mk_node 0x800a 25; mk_node 0x800f 25; mk_node 0x8018 25; mk_node 0x801f 25; mk_node 0x8029 25; mk_node 0xc038 25]].

(** Rows 245 to 251. *)
Definition huff_decode_rows_245 : list (list nghttp2_huff_decode) := [
  (* 245 *) [mk_node 0x8003 26; mk_node 0x8006 26; mk_node 0x800a 26; mk_node 0x800f 26; mk_node 0x8018 26; mk_node 0x801f 26; mk_node 0x8029 26; mk_node 0xc038 26; mk_node 0x8003 27; mk_node 0x8006 27; mk_node 0x800a 27; mk_node 0x800f 27; mk_node 0x8018 27; mk_node 0x801f 27; mk_node 0x8029 27; mk_node 0xc038 27];
  (* 246 *) [mk_node 0x8001 28; mk_node 0xc016 28; mk_node 0x8001 29; mk_node 0xc016 29; mk_node 0x8001 30; mk_node 0xc016 30; mk_node 0x8001 31; mk_node 0xc016 31; mk_node 0x8001 127; mk_node 0xc016 127; mk_node 0x8001 220; mk_node 0xc016 220; mk_node 0x8001 249; mk_node 0xc016 249; mk_node 0xfe 0; mk_node 0xff 0];
  (* 247 *) [mk_node 0x8002 28; mk_node 0x8009 28; mk_node 0x8017 28; mk_node 0xc028 28; mk_node 0x8002 29; mk_node 0x8009 29; mk_node 0x8017 29; mk_node 0xc028 29; mk_node 0x8002 30; mk_node 0x8009 30; mk_node 0x8017 30; mk_node 0xc028 30; mk_node 0x8002 31; mk_node 0x8009 31; mk_node 0x8017 31; mk_node 0xc028 31];
  (* 248 *) [mk_node 0x8003 28; mk_node 0x8006 28; mk_node 0x800a 28; mk_node 0x800f 28; mk_node 0x8018 28; mk_node 0x801f 28; mk_node 0x8029 28; mk_node 0xc038 28; mk_node 0x8003 29; mk_node 0x8006 29; mk_node 0x800a 29; mk_node 0x800f 29; mk_node 0x8018 29; mk_node 0x801f 29; mk_node 0x8029 29; mk_node 0xc038 29];
  (* 249 *) [mk_node 0x8003 30; mk_node 0x8006 30; mk_node 0x800a 30; mk_node 0x800f 30; mk_node 0x8018 30; mk_node 0x801f 30; mk_node 0x8029 30; mk_node 0xc038 30; mk_node 0x8003 31; mk_node 0x8006 31; mk_node 0x800a 31; mk_node 0x800f 31; mk_node 0x8018 31; mk_node 0x801f 31; mk_node 0x8029 31; mk_node 0xc038 31];
  (* 250 *) [mk_node 0x8002 127; mk_node 0x8009 127; mk_node 0x8017 127; mk_node 0xc028 127; mk_node 0x8002 220; mk_node 0x8009 220; mk_node 0x8017 220; mk_node 0xc028 220; mk_node 0x8002 249; mk_node 0x8009 249; mk_node 0x8017 249; mk_node 0xc028 249; mk_node 0xc000 10; mk_node 0xc000 13; mk_node 0xc000 22; mk_node 0x100 0];
  (* 251 *) [mk_node 0x8003 127; mk_node 0x8006 127; mk_node 0x800a 127; mk_node 0x800f 127; mk_node 0x8018 127; mk_node 0x801f 127; mk_node 0x8029 127; mk_node 0xc038 127; mk_node 0x8003 220; mk_node 0x8006 220; mk_node 0x800a 220; mk_node 0x800f 220; mk_node 0x8018 220; mk_node 0x801f 220; mk_node 0x8029 220; mk_node 0xc038 220]].

(** Rows 252 to 256. *)
Definition huff_decode_rows_252 : list (list nghttp2_huff_decode) := [
  (* 252 *) [mk_node 0x8003 249; mk_node 0x8006 249; mk_node 0x800a 249; mk_node 0x800f 249; mk_node 0x8018 249; mk_node 0x801f 249; mk_node 0x8029 249; mk_node 0xc038 249; mk_node 0x8001 10; mk_node 0xc016 10; mk_node 0x8001 13; mk_node 0xc016 13; mk_node 0x8001 22; mk_node 0xc016 22; mk_node 0x100 0; mk_node 0x100 0];
  (* 253 *) [mk_node 0x8002 10; mk_node 0x8009 10; mk_node 0x8017 10; mk_node 0xc028 10; mk_node 0x8002 13; mk_node 0x8009 13; mk_node 0x8017 13; mk_node 0xc028 13; mk_node 0x8002 22; mk_node 0x8009 22; mk_node 0x8017 22; mk_node 0xc028 22; mk_node 0x100 0; mk_node 0x100 0; mk_node 0x100 0; mk_node 0x100 0];
  (* 254 *) [mk_node 0x8003 10; mk_node 0x8006 10; mk_node 0x800a 10; mk_node 0x800f 10; mk_node 0x8018 10; mk_node 0x801f 10; mk_node 0x8029 10; mk_node 0xc038 10; mk_node 0x8003 13; mk_node 0x8006 13; mk_node 0x800a 13; mk_node 0x800f 13; mk_node 0x8018 13; mk_node 0x801f 13; mk_node 0x8029 13; mk_node 0xc038 13];
  (* 255 *) [mk_node 0x8003 22; mk_node 0x8006 22; mk_node 0x800a 22; mk_node 0x800f 22; mk_node 0x8018 22; mk_node 0x801f 22; mk_node 0x8029 22; mk_node 0xc038 22; mk_node 0x100 0; mk_node 0x100 0; mk_node 0x100 0; mk_node 0x100 0; mk_node 0x100 0; mk_node 0x100 0; mk_node 0x100 0; mk_node 0x100 0];
  (* 256 *) [mk_node 0x100 0; mk_node 0x100 0; mk_node 0x100 0; mk_node 0x100 0; mk_node 0x100 0; mk_node 0x100 0; mk_node 0x100 0; mk_node 0x100 0; mk_node 0x100 0; mk_node 0x100 0; mk_node 0x100 0; mk_node 0x100 0; mk_node 0x100 0; mk_node 0x100 0; mk_node 0x100 0; mk_node 0x100 0]].

Definition huff_decode_table : list (list nghttp2_huff_decode) :=
  huff_decode_rows_0 ++
  huff_decode_rows_7 ++
  huff_decode_rows_14 ++
  huff_decode_rows_21 ++
  huff_decode_rows_28 ++
  huff_decode_rows_35 ++
  huff_decode_rows_42 ++
  huff_decode_rows_49 ++
  huff_decode_rows_56 ++
  huff_decode_rows_63 ++
  huff_decode_rows_70 ++
  huff_decode_rows_77 ++
  huff_decode_rows_84 ++
  huff_decode_rows_91 ++
  huff_decode_rows_98 ++
  huff_decode_rows_105 ++
  huff_decode_rows_112 ++
  huff_decode_rows_119 ++
  huff_decode_rows_126 ++
  huff_decode_rows_133 ++
  huff_decode_rows_140 ++
  huff_decode_rows_147 ++
  huff_decode_rows_154 ++
  huff_decode_rows_161 ++
  huff_decode_rows_168 ++
  huff_decode_rows_175 ++
  huff_decode_rows_182 ++
  huff_decode_rows_189 ++
  huff_decode_rows_196 ++
  huff_decode_rows_203 ++
  huff_decode_rows_210 ++
  huff_decode_rows_217 ++
  huff_decode_rows_224 ++
  huff_decode_rows_231 ++
  huff_decode_rows_238 ++
  huff_decode_rows_245 ++
  huff_decode_rows_252.
