(* ===== verification/Huffman.v ===== *)
(** * HPACK Huffman coding (nghttp2_hd_huffman.c)

    The encoder collects code words in a 64-bit accumulator and flushes it
    four octets at a time when the current chunk has room, octet by octet
    otherwise; the decoder is a table-driven automaton that consumes nibbles.

    The specification is on bits: [sym_bits] is the code word of a symbol,
    [pack] groups bits into octets and fills the last one with ones.
    [huff_encode_writes] shows that the encoder writes [pack] of the code
    words of its input, [huff_decode_accepts] that the decoder accepts exactly
    the octet strings the encoder can produce, and returns the string they
    encode. *)

From S2P Require Import Prelude Defs Helper Buf HuffmanData.

(** ** The code *)

Definition NGHTTP2_HUFF_ACCEPTED : Z := Z.shiftl 1 14.
Definition NGHTTP2_HUFF_SYM : Z := Z.shiftl 1 15.

(** [huff_sym_table[c]] and [huff_decode_table[state][nibble]]. *)
Definition huff_sym (c : Z) : nghttp2_huff_sym := nth (Z.to_nat c) huff_sym_table (mk_sym 0 0).

Definition huff_node (state nibble : Z) : nghttp2_huff_decode :=
  nth (Z.to_nat nibble) (nth (Z.to_nat state) huff_decode_table []) (mk_node 0 0).

(** Sums the code lengths, then pads with a prefix of EOS to octets. *)
Fixpoint encode_count_loop (src : bytes) (nbits : Z) : Z :=
  match src with
  | [] => nbits
  | c :: src => encode_count_loop src (nbits + sym_nbits (huff_sym c))
  end.

Definition nghttp2_hd_huff_encode_count (src : bytes) : Z :=
  (encode_count_loop src 0 + 7) / 8.

Section Encode.
Context (malloc : nat -> nat -> option bytes).

(** [for (; nbits >= 8;)]: an octet per turn. *)
Fixpoint huff_flush (fuel : nat) (s : nghttp2_bufs) (code nbits : Z) : option ((nghttp2_bufs * Z * Z) * Z) :=
  match fuel with
  | O => None
  | S fuel =>
      if 8 <=? nbits then
        try_bind (nghttp2_bufs_addb malloc s (u8 (Z.shiftr code 56)))
          (fun s => huff_flush fuel s (u64 (Z.shiftl code 8)) (nbits - 8))
          (fun s => (s, code, nbits))
      else Some ((s, code, nbits), 0)
  end.

(** At most 64 bits are pending: the flush takes at most eight turns. *)
Definition flush_fuel : nat := 9.

Fixpoint huff_encode_loop (src : bytes) (s : nghttp2_bufs) (avail : nat) (code nbits : Z)
    : option ((nghttp2_bufs * Z * Z) * Z) :=
  match src with
  | [] => Some ((s, code, nbits), 0)
  | c :: src =>
      let sym := huff_sym c in
      let code := code .| u64 (Z.shiftl (sym_code sym) (32 - nbits)) in
      let nbits := nbits + sym_nbits sym in
      if nbits <? 32 then huff_encode_loop src s avail code nbits
      else if (4 <=? avail)%nat then
        buf ← bs_chain s !! bs_cur s;
        buf ← buf_put buf (uint32be (u32 (Z.shiftr code 32)));
        huff_encode_loop src (set_cur_buf s buf) (avail - 4) (u64 (Z.shiftl code 32)) (nbits - 32)
      else
        try_bind (huff_flush flush_fuel s code nbits)
          (fun '(s, code, nbits) =>
             huff_encode_loop src s (nghttp2_bufs_cur_avail s) code nbits)
          (fun st => st)
  end.

Definition nghttp2_hd_huff_encode (s : nghttp2_bufs) (src : bytes) : option (nghttp2_bufs * Z) :=
  try_bind (huff_encode_loop src s (nghttp2_bufs_cur_avail s) 0 0)
    (fun '(s, code, nbits) =>
       try_bind (huff_flush flush_fuel s code nbits)
         (fun '(s, code, nbits) =>
            if nbits =? 0 then Some (s, 0)
            else
              try s ← nghttp2_bufs_addb malloc s
                (u8 (u8 (Z.shiftr code 56) .| (Z.shiftl 1 (8 - nbits) - 1))) ;;
              Some (s, 0))
         (fun '(s, _, _) => s))
    (fun '(s, _, _) => s).

End Encode.

(** [nghttp2_hd_huff_decode_context]: the [fstate] of the last node. *)
Record nghttp2_hd_huff_decode_context := mk_hctx { hctx_fstate : Z }.

Definition nghttp2_hd_huff_decode_context_init : nghttp2_hd_huff_decode_context :=
  mk_hctx NGHTTP2_HUFF_ACCEPTED.

(** [*buf->last++ = t->sym] when the node emits a symbol. *)
Definition huff_emit (buf : nghttp2_buf) (t : nghttp2_huff_decode) : option nghttp2_buf :=
  if node_fstate t .& NGHTTP2_HUFF_SYM =? 0 then Some buf
  else buf ← buf_poke buf (fun _ => node_sym t); Some (buf_incr buf).

Fixpoint huff_decode_loop (src : bytes) (t : nghttp2_huff_decode) (buf : nghttp2_buf)
    : option (nghttp2_huff_decode * nghttp2_buf) :=
  match src with
  | [] => Some (t, buf)
  | c :: src =>
      let t := huff_node (node_fstate t .& 0x1ff) (Z.shiftr c 4) in
      buf ← huff_emit buf t;
      let t := huff_node (node_fstate t .& 0x1ff) (c .& 0xf) in
      buf ← huff_emit buf t;
      huff_decode_loop src t buf
  end.

Definition nghttp2_hd_huff_decode (ctx : nghttp2_hd_huff_decode_context) (buf : nghttp2_buf)
    (src : bytes) (final : bool) : option (nghttp2_hd_huff_decode_context * nghttp2_buf * Z) :=
  '(t, buf) ← huff_decode_loop src (mk_node (hctx_fstate ctx) 0) buf;
  let ctx := mk_hctx (node_fstate t) in
  if final && (hctx_fstate ctx .& NGHTTP2_HUFF_ACCEPTED =? 0)
  then Some (ctx, buf, NGHTTP2_ERR_HEADER_COMP)
  else Some (ctx, buf, zlen src).

Definition nghttp2_hd_huff_decode_failure_state (ctx : nghttp2_hd_huff_decode_context) : bool :=
  hctx_fstate ctx =? 0x100.

Example huff_www : let s := mk_bufs [mk_buf (replicate 20 0) 0 0 0] 0 20 1 1 1 0 0 in
  (fun '(s, rv) => (bufs_bytes s, rv)) <$> nghttp2_hd_huff_encode zero_malloc s
    [119;119;119;46;101;120;97;109;112;108;101;46;99;111;109] =
  Some ([0xf1;0xe3;0xc2;0xe5;0xf2;0x3a;0x6b;0xa0;0xab;0x90;0xf4;0xff], 0).
Proof. vm_compute. reflexivity. Qed.

(** ** Bit strings, most significant bit first *)

Fixpoint bits_val (l : list bool) : Z :=
  match l with
  | [] => 0
  | b :: l => Z.b2z b * 2 ^ zlen l + bits_val l
  end.

Fixpoint bits_of (n : nat) (z : Z) : list bool :=
  match n with
  | O => []
  | S n => Z.testbit z (Z.of_nat n) :: bits_of n z
  end.

Lemma bits_of_length n z : length (bits_of n z) = n.
Proof. induction n; simpl; congruence. Qed.

Lemma bits_val_range l : 0 <= bits_val l < 2 ^ zlen l.
Proof.
  induction l as [|b l IH]; cbn [bits_val length]; [done|].
  rewrite Nat2Z.inj_succ, Z.pow_succ_r by lia. destruct b; cbn [Z.b2z]; lia.
Qed.

Lemma bits_val_app a b : bits_val (a ++ b) = bits_val a * 2 ^ zlen b + bits_val b.
Proof.
  induction a as [|x a IH]; cbn [bits_val app]; [lia|].
  rewrite IH, length_app, Nat2Z.inj_add, Z.pow_add_r by lia. lia.
Qed.

Lemma bits_of_add n z w : bits_of n (w * 2 ^ Z.of_nat n + z) = bits_of n z.
Proof.
  enough (forall m, (m <= n)%nat -> bits_of m (w * 2 ^ Z.of_nat n + z) = bits_of m z) by auto.
  induction m as [|m IH]; intros Hm; simpl; [done|]. f_equal; [|apply IH; lia].
  rewrite <- (Z.mod_pow2_bits_low (w * 2 ^ Z.of_nat n + z) (Z.of_nat n)) by lia.
  rewrite Z.add_comm, Z_mod_plus_full. apply Z.mod_pow2_bits_low. lia.
Qed.

Lemma bits_of_val l : bits_of (length l) (bits_val l) = l.
Proof.
  induction l as [|b l IH]; cbn [bits_val length bits_of]; [done|].
  rewrite bits_of_add, IH. f_equal. pose proof (bits_val_range l).
  assert (Z.testbit (Z.b2z b * 2 ^ zlen l + bits_val l) (zlen l) = b) as ->; [|done].
  rewrite Z.testbit_odd, Z.shiftr_div_pow2 by lia.
  rewrite Z.div_add_l, (Z.div_small (bits_val l)) by lia. by destruct b.
Qed.

Lemma bits_val_of n z : bits_val (bits_of n z) = z mod 2 ^ Z.of_nat n.
Proof.
  induction n as [|n IH]; [by rewrite Z.mod_1_r|].
  cbn [bits_of bits_val]. rewrite bits_of_length, IH, Z.testbit_spec' by lia.
  rewrite Nat2Z.inj_succ, Z.pow_succ_r, (Z.mul_comm 2), Z.rem_mul_r by lia. lia.
Qed.

Lemma bits_of_app n m z :
  bits_of (n + m) z = bits_of n (Z.shiftr z (Z.of_nat m)) ++ bits_of m z.
Proof.
  induction n as [|n IH]; simpl; [done|]. rewrite IH. f_equal.
  rewrite Z.shiftr_spec by lia. f_equal. lia.
Qed.

(** ** Octets *)

(** Groups of eight bits; the last group is filled with ones. *)
Fixpoint pack (l : list bool) : bytes :=
  match l with
  | [] => []
  | b0 :: b1 :: b2 :: b3 :: b4 :: b5 :: b6 :: b7 :: l =>
      bits_val [b0; b1; b2; b3; b4; b5; b6; b7] :: pack l
  | l => [bits_val (l ++ replicate (8 - length l) true)]
  end.

Definition unpack (bs : bytes) : list bool := flat_map (bits_of 8) bs.

Lemma pack_octet a l : length a = 8%nat -> pack (a ++ l) = bits_val a :: pack l.
Proof.
  intros H. do 8 (destruct a as [|? a]; [discriminate|]). by destruct a.
Qed.

Lemma pack_short a : (0 < length a < 8)%nat ->
  pack a = [bits_val (a ++ replicate (8 - length a) true)].
Proof.
  intros H. do 8 (destruct a as [|? a]; [simpl in H; done || lia|]). simpl in H. lia.
Qed.

(** Splitting off whole octets. *)
Lemma split_octet (l : list bool) : (8 <= length l)%nat ->
  exists a r, l = a ++ r /\ length a = 8%nat.
Proof.
  intros. exists (take 8 l), (drop 8 l). rewrite take_drop, length_take. split; [done|lia].
Qed.

Lemma pack_app n a l : length a = (8 * n)%nat -> pack (a ++ l) = pack a ++ pack l.
Proof.
  revert a. induction n as [|n IH]; intros a Ha.
  - destruct a; [done|simpl in Ha; lia].
  - destruct (split_octet a) as (o & r & -> & Ho); [lia|]. rewrite length_app in Ha.
    rewrite <- app_assoc, (pack_octet o (r ++ l)), (pack_octet o r) by done.
    simpl. f_equal. apply IH. lia.
Qed.

(** Induction by whole octets. *)
Lemma octets_ind (P : list bool -> Prop) :
  (forall l, (length l < 8)%nat -> P l) ->
  (forall a r, length a = 8%nat -> P r -> P (a ++ r)) -> forall l, P l.
Proof.
  intros Hshort Hoct l. remember (length l) as n eqn:Hn. revert l Hn.
  induction (lt_wf n) as [n _ IH]. intros l ->.
  destruct (decide (8 <= length l)%nat) as [H|H]; [|apply Hshort; lia].
  destruct (split_octet l H) as (a & r & -> & Ha).
  apply Hoct; [done|]. apply (IH (length r)); [rewrite length_app; lia|done].
Qed.

Lemma pack_length l : zlen (pack l) = (zlen l + 7) / 8.
Proof.
  induction l as [[|b l] H|a r Ha IH] using octets_ind; [done|..].
  - rewrite pack_short by (cbn [length] in *; lia).
    cbn [length] in *. Z.div_mod_to_equations. lia.
  - rewrite pack_octet, length_app, Ha by done. cbn [length].
    rewrite Nat2Z.inj_succ, IH, Nat2Z.inj_add. Z.div_mod_to_equations. lia.
Qed.

Lemma pad_length (l : list bool) : (length l < 8)%nat ->
  length (l ++ replicate (8 - length l) true) = 8%nat.
Proof. intros. rewrite length_app, length_replicate. lia. Qed.

Lemma bits_val_u8 l : length l = 8%nat -> is_u8 (bits_val l).
Proof. intros H. pose proof (bits_val_range l) as Hr. by rewrite H in Hr. Qed.

Lemma pack_bytes l : is_bytes (pack l).
Proof.
  induction l as [[|b l] H|a r Ha IH] using octets_ind; [constructor|..].
  - rewrite pack_short by (cbn [length] in *; lia).
    repeat constructor; by apply bits_val_u8, pad_length.
  - rewrite pack_octet by done. constructor; [by apply bits_val_u8|done].
Qed.

(** The bits of the packed octets: the string and fewer than eight ones. *)
Lemma unpack_pack l : exists k, (k < 8)%nat /\ unpack (pack l) = l ++ replicate k true.
Proof.
  induction l as [[|b l] H|a r Ha (k & Hk & IH)] using octets_ind.
  - exists 0%nat. split; [lia|done].
  - rewrite pack_short by (cbn [length] in *; lia).
    exists (8 - length (b :: l))%nat. split; [cbn [length]; lia|].
    unfold unpack. cbn [flat_map]. rewrite app_nil_r, <- (pad_length _ H) at 1.
    apply bits_of_val.
  - exists k. split; [done|]. rewrite pack_octet by done. unfold unpack in *. cbn [flat_map].
    by rewrite IH, <- Ha, bits_of_val, app_assoc.
Qed.

Lemma unpack_length bs : length (unpack bs) = (8 * length bs)%nat.
Proof.
  induction bs as [|c bs IH]; [done|]. unfold unpack in *. cbn [flat_map].
  rewrite length_app, bits_of_length, IH. cbn [length]. lia.
Qed.

Lemma pack_unpack bs l k : is_bytes bs ->
  unpack bs = l ++ replicate k true -> (k < 8)%nat -> bs = pack l.
Proof.
  intros Hbs. revert l. induction Hbs as [|c bs Hc Hbs IH]; intros l E Hk.
  { symmetry in E. apply app_nil in E as [-> _]. done. }
  unfold unpack in E. cbn [flat_map] in E. fold (unpack bs) in E.
  destruct (decide (8 <= length l)%nat) as [H|H].
  - destruct (split_octet l H) as (a & r & -> & Ha). rewrite <- app_assoc in E.
    apply app_inj_1 in E as [Ea Er]; [|by rewrite bits_of_length, Ha].
    rewrite pack_octet by done. f_equal; [|by apply IH].
    rewrite <- Ea, bits_val_of. symmetry. by apply Z.mod_small.
  - pose proof (f_equal length E) as El.
    rewrite !length_app, bits_of_length, length_replicate, unpack_length in El.
    destruct bs as [|? ?]; [|cbn [length] in El; lia]. cbn [length] in El.
    destruct l as [|b l]; [cbn [length] in El; lia|].
    rewrite pack_short by (cbn [length] in *; lia). f_equal.
    unfold unpack in E. cbn [flat_map] in E. rewrite app_nil_r in E.
    replace (8 - length (b :: l))%nat with k by lia. rewrite <- E, bits_val_of.
    symmetry. by apply Z.mod_small.
Qed.

(** ** The encoder writes the packed code words *)

Definition sym_bits (c : Z) : list bool :=
  let sym := huff_sym c in
  bits_of (Z.to_nat (sym_nbits sym)) (Z.shiftr (sym_code sym) (32 - sym_nbits sym)).

Definition huff_bits (src : bytes) : list bool := flat_map sym_bits src.

(** The table holds code words of 5 to 30 bits, left-aligned in 32. *)
Lemma huff_sym_facts c : is_u8 c ->
  5 <= sym_nbits (huff_sym c) <= 30 /\ zlen (sym_bits c) = sym_nbits (huff_sym c) /\
  sym_code (huff_sym c) = bits_val (sym_bits c) * 2 ^ (32 - sym_nbits (huff_sym c)).
Proof. revert c. apply (all_octets _ _). vm_compute. reflexivity. Qed.

(** The accumulator holds the pending bits [pb] at its upper end. *)
Definition acc (pb : list bool) : Z := bits_val pb * 2 ^ (64 - zlen pb).

Lemma acc_range pb : (length pb <= 64)%nat -> is_u64 (acc pb).
Proof.
  intros. unfold acc. pose proof (bits_val_range pb).
  assert (2 ^ 64 = 2 ^ zlen pb * 2 ^ (64 - zlen pb)) as E
    by (rewrite <- Z.pow_add_r by lia; f_equal; lia).
  unfold is_u64. rewrite E. nia.
Qed.

Lemma acc_sym pb c : is_u8 c -> (length pb < 32)%nat ->
  acc pb .| u64 (Z.shiftl (sym_code (huff_sym c)) (32 - zlen pb)) = acc (pb ++ sym_bits c).
Proof.
  intros Hc Hpb. destruct (huff_sym_facts c Hc) as (Hn & Hl & Hcode).
  set (n := sym_nbits (huff_sym c)) in *. pose proof (bits_val_range (sym_bits c)) as Hv.
  rewrite Hl in Hv. unfold acc. rewrite length_app, Nat2Z.inj_add, Hl, bits_val_app, Hl, Hcode.
  rewrite Z.shiftl_mul_pow2, <- Z.mul_assoc, <- Z.pow_add_r by lia.
  replace (32 - n + (32 - zlen pb)) with (64 - (zlen pb + n)) by lia.
  set (k := 64 - (zlen pb + n)).
  assert (2 ^ (64 - zlen pb) = 2 ^ n * 2 ^ k) as E
    by (rewrite <- Z.pow_add_r by lia; f_equal; lia).
  assert (0 < 2 ^ k) by (apply Z.pow_pos_nonneg; lia).
  rewrite u64_id.
  2:{ unfold is_u64. assert (2 ^ 64 = 2 ^ n * 2 ^ k * 2 ^ zlen pb) as ->
        by (rewrite <- !Z.pow_add_r by lia; f_equal; lia).
      assert (0 < 2 ^ zlen pb) by (apply Z.pow_pos_nonneg; lia). nia. }
  rewrite (Z.mul_comm (bits_val pb)), lor_disjoint_add by (rewrite ?E; nia || lia).
  rewrite E. lia.
Qed.

(** The upper [8 j] bits, and what is left when they are shifted out. *)
Lemma acc_split a r n : zlen a = n -> (length a + length r <= 64)%nat ->
  Z.shiftr (acc (a ++ r)) (64 - n) = bits_val a /\
  u64 (Z.shiftl (acc (a ++ r)) n) = acc r.
Proof.
  intros Hn Hlen. unfold acc. rewrite length_app, Nat2Z.inj_add, bits_val_app.
  pose proof (bits_val_range r). set (k := 64 - (zlen a + zlen r)).
  assert (2 ^ (64 - n) = 2 ^ zlen r * 2 ^ k) as E
    by (rewrite <- Z.pow_add_r by lia; f_equal; lia).
  assert (0 < 2 ^ k) by (apply Z.pow_pos_nonneg; lia). split.
  - rewrite Z.shiftr_div_pow2, E by lia.
    rewrite Z.mul_add_distr_r, <- Z.mul_assoc, Z.div_add_l, Z.div_small by nia. lia.
  - rewrite Z.shiftl_mul_pow2 by lia.
    replace (_ * 2 ^ k * 2 ^ n) with (bits_val r * 2 ^ (64 - zlen r) + bits_val a * 2 ^ 64).
    2:{ replace (64 - zlen r) with (k + n) by lia. rewrite (Z.pow_add_r 2 k) by lia.
        assert (2 ^ 64 = 2 ^ zlen r * 2 ^ k * 2 ^ n) as ->
          by (rewrite <- !Z.pow_add_r by lia; f_equal; lia). lia. }
    unfold u64. rewrite Z_mod_plus_full. apply Z.mod_small.
    apply (acc_range r). lia.
Qed.

Lemma acc_octet a r : length a = 8%nat -> (length r <= 56)%nat ->
  u8 (Z.shiftr (acc (a ++ r)) 56) = bits_val a /\ u64 (Z.shiftl (acc (a ++ r)) 8) = acc r.
Proof.
  intros Ha Hr. destruct (acc_split a r 8) as [H1 H2]; [lia|lia|].
  split; [|done]. change (64 - 8) with 56 in H1. rewrite H1. by apply u8_id, bits_val_u8.
Qed.

Lemma bits_val_middle x o y n : length o = 8%nat -> zlen y = n ->
  u8 (Z.shiftr (bits_val (x ++ o ++ y)) n) = bits_val o.
Proof.
  intros Ho Hn. rewrite app_assoc, bits_val_app, Z.shiftr_div_pow2, Hn by lia.
  pose proof (bits_val_range y) as Hy. rewrite Hn in Hy.
  rewrite Z.div_add_l, (Z.div_small (bits_val y)), Z.add_0_r by lia.
  rewrite bits_val_app, Ho. unfold u8. rewrite Z.add_comm, Z_mod_plus_full.
  by apply Z.mod_small, bits_val_u8.
Qed.

(** Four octets at once. *)
Lemma uint32be_bits a : length a = 32%nat -> uint32be (u32 (bits_val a)) = pack a.
Proof.
  intros Ha. pose proof (bits_val_range a) as Hv. rewrite Ha in Hv.
  rewrite u32_id by done. clear Hv.
  destruct (split_octet a) as (o1 & a1 & -> & H1); [lia|]. rewrite length_app in Ha.
  destruct (split_octet a1) as (o2 & a2 & -> & H2); [lia|]. rewrite length_app in Ha.
  destruct (split_octet a2) as (o3 & o4 & -> & H3); [lia|]. rewrite length_app in Ha.
  rewrite (pack_octet o1), (pack_octet o2), (pack_octet o3) by done.
  replace (pack o4) with (pack (o4 ++ [])) by by rewrite app_nil_r.
  rewrite (pack_octet o4) by lia. unfold uint32be. f_equal; [|f_equal; [|f_equal; [|f_equal]]].
  - apply (bits_val_middle []); [done|rewrite !length_app; lia].
  - apply bits_val_middle; [done|rewrite !length_app; lia].
  - rewrite (app_assoc o1). apply bits_val_middle; [done|lia].
  - pose proof (bits_val_middle (o1 ++ o2 ++ o3) o4 [] 0) as H4.
    rewrite app_nil_r, Z.shiftr_0_r, <- !app_assoc in H4. apply H4; [lia|done].
Qed.

(** Errors pass the chain on, whatever was pending. *)
Definition chain_of (st : nghttp2_bufs * Z * Z) : nghttp2_bufs := st.1.1.

Section EncodeProof.
Context (malloc : nat -> nat -> option bytes) `{!Allocator malloc}.

(** The flush writes whole octets and leaves fewer than eight bits. *)
Lemma huff_flush_writes fuel s pb tail k :
  bufs_wf s -> (length pb <= 64)%nat -> (length pb < 8 * fuel)%nat ->
  (forall s1 pre pb' n, pb = pre ++ pb' -> length pre = (8 * n)%nat -> (length pb' < 8)%nat ->
     bufs_appended s (pack pre) s1 ->
     writes malloc s1 (pack (pb' ++ tail)) (k (s1, acc pb', zlen pb'))) ->
  writes malloc s (pack (pb ++ tail)) (try_bind (huff_flush malloc fuel s (acc pb) (zlen pb)) k chain_of).
Proof.
  revert s pb k. induction fuel as [|fuel IH]; intros s pb k Hwf H64 Hfuel Hk; [lia|].
  cbn [huff_flush]. destruct (Z.leb_spec 8 (zlen pb)) as [H8|H8].
  - destruct (split_octet pb) as (a & r & -> & Ha); [lia|]. rewrite length_app in *.
    destruct (acc_octet a r) as [-> ->]; [done|lia|].
    rewrite <- app_assoc, pack_octet, try_bind_assoc by done.
    rewrite (cons_app (bits_val a)). unfold chain_of. cbn [fst].
    apply writes_bind; [by apply bufs_addb_writes|]. intros s1 Hap.
    replace (Z.of_nat (length a + length r) - 8) with (zlen r) by lia.
    apply IH; [apply Hap|lia|lia|]. intros s2 pre pb' n -> Hn Hpb' Hap2.
    apply (Hk s2 (a ++ pre) pb' (S n)); [by rewrite app_assoc|rewrite length_app; lia|done|].
    rewrite pack_octet, (cons_app (bits_val a)) by done. eauto using bufs_appended_trans.
  - unfold try_bind. cbn. apply (Hk s [] pb 0%nat); [done|done|lia|by apply bufs_appended_nil].
Qed.

Lemma bufs_appended_put_cur s b bs :
  bufs_wf s -> bs_chain s !! bs_cur s = Some b -> (length bs <= nghttp2_buf_avail b)%nat ->
  exists b', buf_put b bs = Some b' /\ bufs_appended s bs (set_cur_buf s b') /\
    nghttp2_bufs_cur_avail (set_cur_buf s b') = (nghttp2_buf_avail b - length bs)%nat.
Proof.
  intros Hwf Hb Hle. pose proof (Forall_lookup_1 _ _ _ _ (wf_bufs _ Hwf) Hb) as [? ?].
  rewrite buf_put_Some by done. eexists. split; [done|]. split; [by apply bufs_appended_put|].
  unfold nghttp2_bufs_cur_avail. simpl. rewrite list_lookup_insert_eq by apply Hwf.
  unfold nghttp2_buf_avail in *. simpl. rewrite mem_write_length by lia. lia.
Qed.

Lemma huff_encode_loop_writes src s avail pb k :
  is_bytes src -> bufs_wf s -> avail = nghttp2_bufs_cur_avail s -> (length pb < 32)%nat ->
  (forall s1 pre pb', pb ++ huff_bits src = pre ++ pb' -> (length pb' < 32)%nat ->
     bufs_appended s (pack pre) s1 ->
     writes malloc s1 (pack pb') (k (s1, acc pb', zlen pb'))) ->
  writes malloc s (pack (pb ++ huff_bits src))
    (try_bind (huff_encode_loop malloc src s avail (acc pb) (zlen pb)) k chain_of).
Proof.
  intros Hsrc. revert s avail pb k.
  induction Hsrc as [|c src Hc Hsrc IH]; intros s avail pb k Hwf Hav Hpb Hk;
    cbn [huff_encode_loop huff_bits flat_map] in *.
  { unfold try_bind. cbn. rewrite app_nil_r in *.
    apply (Hk s []); [done|done|by apply bufs_appended_nil]. }
  destruct (huff_sym_facts c Hc) as (Hn & Hl & _).
  rewrite acc_sym, <- Hl, <- Nat2Z.inj_add, <- length_app by done.
  set (pb1 := pb ++ sym_bits c) in *. fold (huff_bits src) in *.
  assert (length pb1 <= 61)%nat by (subst pb1; rewrite length_app; lia).
  assert (pb ++ sym_bits c ++ huff_bits src = pb1 ++ huff_bits src) as Eapp
    by (subst pb1; by rewrite app_assoc).
  rewrite Eapp in *. clear Eapp. clearbody pb1.
  destruct (Z.ltb_spec (zlen pb1) 32); [apply IH; auto; lia|].
  destruct (Nat.leb_spec 4 avail).
  - assert (exists a r, pb1 = a ++ r /\ length a = 32%nat) as (a & r & -> & Ha).
    { exists (take 32 pb1), (drop 32 pb1). rewrite take_drop, length_take. split; [done|lia]. }
    rewrite length_app in *.
    destruct (acc_split a r 32) as [E1 E2]; [lia|lia|]. change (64 - 32) with 32 in E1.
    rewrite E1, E2, uint32be_bits by done.
    pose proof (pack_length a) as Hpa. rewrite Ha in Hpa.
    change ((Z.of_nat 32 + 7) / 8) with 4 in Hpa.
    unfold nghttp2_bufs_cur_avail in Hav.
    destruct (bs_chain s !! bs_cur s) as [b|] eqn:Hb; [|lia]. cbn [mbind option_bind].
    destruct (bufs_appended_put_cur s b (pack a)) as (b' & -> & Hap & Hav'); [done|done|lia|].
    cbn [mbind option_bind]. rewrite Ha.
    replace (Z.of_nat (32 + length r) - 32) with (zlen r) by lia.
    rewrite <- app_assoc, (pack_app 4 a) by lia. eapply writes_app; [done|].
    apply IH; [apply Hap|lia|lia|]. intros s1 pre pb' E Hpb' Hap1.
    apply (Hk s1 (a ++ pre)); [by rewrite <- !app_assoc, E|done|].
    rewrite (pack_app 4 a) by lia. eauto using bufs_appended_trans.
  - rewrite try_bind_assoc. apply huff_flush_writes; [done|lia|unfold flush_fuel; lia|].
    intros s1 pre pb' n E Hn8 Hpb' Hap. apply IH; [apply Hap|done|lia|].
    intros s2 pre2 pb2 E2 Hpb2 Hap2.
    apply (Hk s2 (pre ++ pre2)); [by rewrite E, <- !app_assoc, E2|done|].
    rewrite (pack_app n) by done. eauto using bufs_appended_trans.
Qed.

(** The last, incomplete octet is filled with ones. *)
Lemma acc_pad pb : (0 < length pb < 8)%nat ->
  u8 (u8 (Z.shiftr (acc pb) 56) .| (Z.shiftl 1 (8 - zlen pb) - 1)) =
  bits_val (pb ++ replicate (8 - length pb) true).
Proof.
  intros Hpb. unfold acc. pose proof (bits_val_range pb) as Hv.
  assert (2 ^ (64 - zlen pb) = 2 ^ (8 - zlen pb) * 2 ^ 56) as ->
    by (rewrite <- Z.pow_add_r by lia; f_equal; lia).
  rewrite Z.mul_assoc, Z.shiftr_div_pow2, Z.div_mul, Z.shiftl_1_l by lia.
  assert (2 ^ 8 = 2 ^ zlen pb * 2 ^ (8 - zlen pb)) as E
    by (rewrite <- Z.pow_add_r by lia; f_equal; lia).
  assert (0 < 2 ^ (8 - zlen pb)) by (apply Z.pow_pos_nonneg; lia).
  rewrite (u8_id (bits_val pb * _)) by (unfold is_u8; nia).
  rewrite Z.mul_comm, lor_disjoint_add by lia.
  assert (forall k, bits_val (replicate k true) = 2 ^ Z.of_nat k - 1) as Hones.
  { induction k as [|k IH]; [done|]. cbn [replicate bits_val].
    rewrite IH, length_replicate, Nat2Z.inj_succ, Z.pow_succ_r by lia. simpl Z.b2z. lia. }
  rewrite bits_val_app, Hones, length_replicate, Nat2Z.inj_sub by lia.
  rewrite u8_id by (unfold is_u8; nia). simpl Z.of_nat. lia.
Qed.

Lemma huff_encode_ok s src :
  is_bytes src -> bufs_wf s ->
  writes malloc s (pack (huff_bits src)) (nghttp2_hd_huff_encode malloc s src).
Proof.
  intros Hsrc Hwf. unfold nghttp2_hd_huff_encode.
  match goal with |- writes _ _ _ (try_bind ?r ?k _) =>
    rewrite (try_bind_ext r k k _ chain_of) by (done || by intros [[]]) end.
  apply (huff_encode_loop_writes src s _ []); [done|done|done|simpl; lia|].
  intros s1 pre pb E Hpb Hap.
  match goal with |- writes _ _ _ (try_bind ?r ?k _) =>
    rewrite (try_bind_ext r k k _ chain_of) by (done || by intros [[]]) end.
  pose proof (huff_flush_writes flush_fuel s1 pb []) as Hflush. rewrite app_nil_r in Hflush.
  apply Hflush; [apply Hap|lia|unfold flush_fuel; lia|].
  intros s2 pre2 pb2 n E2 Hn Hpb2 Hap2. rewrite app_nil_r.
  destruct (Z.eqb_spec (zlen pb2) 0) as [H0|H0].
  - destruct pb2; [|done]. apply writes_nil, Hap2.
  - rewrite acc_pad, pack_short by lia. set (x := bits_val _).
    apply (writes_bind _ _ [x] []); [apply bufs_addb_writes; [done|apply Hap2]|]. intros s3 Hap3. apply writes_nil, Hap3.
Qed.

End EncodeProof.

Lemma encode_count_loop_spec src n : is_bytes src ->
  encode_count_loop src n = n + zlen (huff_bits src).
Proof.
  intros H. revert n. induction H as [|c src Hc H IH]; intros n; simpl; [lia|].
  rewrite IH, length_app, Nat2Z.inj_add. destruct (huff_sym_facts c Hc) as (_ & -> & _). lia.
Qed.

Lemma huff_encode_count_spec src : is_bytes src ->
  nghttp2_hd_huff_encode_count src = zlen (pack (huff_bits src)).
Proof.
  intros. unfold nghttp2_hd_huff_encode_count. by rewrite encode_count_loop_spec, pack_length.
Qed.

(** ** The decoder: a bit-level automaton *)

(** The symbol with a given code word. *)
Fixpoint find_sym (syms : list nghttp2_huff_sym) (c len v : Z) : option Z :=
  match syms with
  | [] => None
  | sym :: syms =>
      if sym_nbits sym =? len then
        if sym_code sym =? Z.shiftl v (32 - len) then Some c else find_sym syms (c + 1) len v
      else find_sym syms (c + 1) len v
  end.

(** State: the bits of the current code word, [None] once EOS was read. *)
Definition bit_step (st : option (list bool) * bytes) (b : bool) : option (list bool) * bytes :=
  match st with
  | (None, out) => (None, out)
  | (Some p, out) =>
      let p := p ++ [b] in
      match find_sym huff_sym_table 0 (zlen p) (bits_val p) with
      | Some c => if c =? 256 then (None, out) else (Some [], out ++ [c])
      | None => (Some p, out)
      end
  end.

Definition bit_run (st : option (list bool) * bytes) (bs : list bool) : option (list bool) * bytes :=
  fold_left bit_step bs st.

(** The code word of each node of the decoder's tree, as length and value. *)
Definition node_prefixes : list (nat * Z) := [
  (0%nat, 0); (1%nat, 0); (2%nat, 0); (3%nat, 0); (4%nat, 0); (4%nat, 1); (3%nat, 1); (4%nat, 2);
  (4%nat, 3); (2%nat, 1); (3%nat, 2); (4%nat, 4); (4%nat, 5); (5%nat, 10); (5%nat, 11); (3%nat, 3);
  (4%nat, 6); (5%nat, 12); (5%nat, 13); (4%nat, 7); (5%nat, 14); (5%nat, 15); (1%nat, 1); (2%nat, 2);
  (3%nat, 4); (4%nat, 8); (5%nat, 16); (5%nat, 17); (4%nat, 9); (5%nat, 18); (5%nat, 19); (3%nat, 5);
  (4%nat, 10); (5%nat, 20); (5%nat, 21); (4%nat, 11); (5%nat, 22); (5%nat, 23); (6%nat, 46); (6%nat, 47);
  (2%nat, 3); (3%nat, 6); (4%nat, 12); (5%nat, 24); (6%nat, 48); (6%nat, 49); (5%nat, 25); (6%nat, 50);
  (6%nat, 51); (4%nat, 13); (5%nat, 26); (6%nat, 52); (6%nat, 53); (5%nat, 27); (6%nat, 54); (6%nat, 55);
  (3%nat, 7); (4%nat, 14); (5%nat, 28); (6%nat, 56); (6%nat, 57); (5%nat, 29); (6%nat, 58); (6%nat, 59);
  (4%nat, 15); (5%nat, 30); (6%nat, 60); (6%nat, 61); (5%nat, 31); (6%nat, 62); (7%nat, 124); (7%nat, 125);
  (6%nat, 63); (7%nat, 126); (7%nat, 127); (8%nat, 254); (9%nat, 508); (9%nat, 509); (8%nat, 255); (9%nat, 510);
  (10%nat, 1021); (9%nat, 511); (10%nat, 1022); (11%nat, 2045); (10%nat, 1023); (11%nat, 2046); (12%nat, 4092); (12%nat, 4093);
  (11%nat, 2047); (12%nat, 4094); (12%nat, 4095); (13%nat, 8190); (13%nat, 8191); (14%nat, 16382); (14%nat, 16383); (15%nat, 32767);
  (16%nat, 65534); (17%nat, 131068); (18%nat, 262136); (18%nat, 262137); (19%nat, 524275); (17%nat, 131069); (18%nat, 262138); (19%nat, 524276);
  (19%nat, 524277); (18%nat, 262139); (19%nat, 524278); (19%nat, 524279); (20%nat, 1048558); (20%nat, 1048559); (16%nat, 65535); (17%nat, 131070);
  (18%nat, 262140); (19%nat, 524280); (20%nat, 1048560); (20%nat, 1048561); (19%nat, 524281); (20%nat, 1048562); (20%nat, 1048563); (18%nat, 262141);
  (19%nat, 524282); (20%nat, 1048564); (21%nat, 2097129); (20%nat, 1048565); (21%nat, 2097130); (21%nat, 2097131); (19%nat, 524283); (20%nat, 1048566);
  (21%nat, 2097132); (21%nat, 2097133); (20%nat, 1048567); (21%nat, 2097134); (21%nat, 2097135); (17%nat, 131071); (18%nat, 262142); (19%nat, 524284);
  (20%nat, 1048568); (21%nat, 2097136); (21%nat, 2097137); (20%nat, 1048569); (21%nat, 2097138); (21%nat, 2097139); (19%nat, 524285); (20%nat, 1048570);
  (21%nat, 2097140); (21%nat, 2097141); (20%nat, 1048571); (21%nat, 2097142); (22%nat, 4194284); (22%nat, 4194285); (21%nat, 2097143); (22%nat, 4194286);
  (22%nat, 4194287); (18%nat, 262143); (19%nat, 524286); (20%nat, 1048572); (21%nat, 2097144); (22%nat, 4194288); (22%nat, 4194289); (21%nat, 2097145);
  (22%nat, 4194290); (22%nat, 4194291); (20%nat, 1048573); (21%nat, 2097146); (22%nat, 4194292); (22%nat, 4194293); (21%nat, 2097147); (22%nat, 4194294);
  (22%nat, 4194295); (19%nat, 524287); (20%nat, 1048574); (21%nat, 2097148); (22%nat, 4194296); (22%nat, 4194297); (21%nat, 2097149); (22%nat, 4194298);
  (23%nat, 8388597); (22%nat, 4194299); (23%nat, 8388598); (23%nat, 8388599); (20%nat, 1048575); (21%nat, 2097150); (22%nat, 4194300); (23%nat, 8388600);
  (23%nat, 8388601); (22%nat, 4194301); (23%nat, 8388602); (23%nat, 8388603); (24%nat, 16777206); (24%nat, 16777207); (21%nat, 2097151); (22%nat, 4194302);
  (23%nat, 8388604); (24%nat, 16777208); (25%nat, 33554416); (25%nat, 33554417); (24%nat, 16777209); (25%nat, 33554418); (25%nat, 33554419); (23%nat, 8388605);
  (24%nat, 16777210); (25%nat, 33554420); (25%nat, 33554421); (24%nat, 16777211); (25%nat, 33554422); (25%nat, 33554423); (26%nat, 67108847); (22%nat, 4194303);
  (23%nat, 8388606); (24%nat, 16777212); (25%nat, 33554424); (26%nat, 67108848); (26%nat, 67108849); (25%nat, 33554425); (26%nat, 67108850); (26%nat, 67108851);
  (24%nat, 16777213); (25%nat, 33554426); (26%nat, 67108852); (26%nat, 67108853); (25%nat, 33554427); (26%nat, 67108854); (26%nat, 67108855); (23%nat, 8388607);
  (24%nat, 16777214); (25%nat, 33554428); (26%nat, 67108856); (27%nat, 134217713); (26%nat, 67108857); (27%nat, 134217714); (27%nat, 134217715); (25%nat, 33554429);
  (26%nat, 67108858); (27%nat, 134217716); (27%nat, 134217717); (26%nat, 67108859); (27%nat, 134217718); (27%nat, 134217719); (24%nat, 16777215); (25%nat, 33554430);
  (26%nat, 67108860); (27%nat, 134217720); (27%nat, 134217721); (26%nat, 67108861); (27%nat, 134217722); (27%nat, 134217723); (25%nat, 33554431); (26%nat, 67108862);
  (27%nat, 134217724); (27%nat, 134217725); (26%nat, 67108863); (27%nat, 134217726); (27%nat, 134217727); (28%nat, 268435455); (29%nat, 536870910); (29%nat, 536870911)
].

Definition node_prefix (n : Z) : list bool :=
  let '(len, v) := nth (Z.to_nat n) node_prefixes (0%nat, 0) in bits_of len v.

Definition is_padding (p : list bool) : bool :=
  (length p <? 8)%nat && forallb id p.

(** What a table entry says, in terms of the automaton. *)
Definition entry_ok (n x : Z) : bool :=
  let t := huff_node n x in
  let n' := node_fstate t .& 0x1ff in
  let emits := negb (node_fstate t .& NGHTTP2_HUFF_SYM =? 0) in
  let accepts := negb (node_fstate t .& NGHTTP2_HUFF_ACCEPTED =? 0) in
  match bit_run (Some (node_prefix n), []) (bits_of 4 x) with
  | (None, out) => (n' =? 256) && negb emits && negb accepts && (length out =? 0)%nat
  | (Some p, out) =>
      (0 <=? n') && (n' <? 256) && bool_decide (node_prefix n' = p) &&
      bool_decide (out = if emits then [node_sym t] else []) && eqb accepts (is_padding p)
  end.

Lemma table_ok :
  forallb (fun n => forallb (entry_ok n) (seqZ 0 16)) (seqZ 0 256) = true.
Proof. vm_compute. reflexivity. Qed.

#[local] Opaque huff_sym_table huff_decode_table node_prefixes.

(** *** The automaton reads code words *)

Lemma bit_run_app st a b : bit_run st (a ++ b) = bit_run (bit_run st a) b.
Proof. apply fold_left_app. Qed.

Lemma bit_run_cons st b bs : bit_run st (b :: bs) = bit_run (bit_step st b) bs.
Proof. done. Qed.

Lemma bit_step_out p out b :
  bit_step (p, out) b = ((bit_step (p, []) b).1, out ++ (bit_step (p, []) b).2).
Proof.
  destruct p as [p|]; simpl; [|by rewrite app_nil_r].
  destruct (find_sym _ _ _ _); [|by rewrite app_nil_r].
  destruct (_ =? _); [by rewrite app_nil_r|done].
Qed.

(** The output so far is only appended to. *)
Lemma bit_run_out p out bs :
  bit_run (p, out) bs = ((bit_run (p, []) bs).1, out ++ (bit_run (p, []) bs).2).
Proof.
  revert p out. induction bs as [|b bs IH]; intros p out; [by rewrite app_nil_r|].
  rewrite !bit_run_cons, (bit_step_out p out). destruct (bit_step (p, []) b) as [p' o]. simpl.
  rewrite (IH p' (out ++ o)), (IH p' o). simpl. by rewrite app_assoc.
Qed.

Lemma bit_run_None out bs : bit_run (None, out) bs = (None, out).
Proof. induction bs; simpl; done. Qed.

Lemma bit_run_sym c : is_u8 c -> bit_run (Some [], []) (sym_bits c) = (Some [], [c]).
Proof. revert c. apply (all_octets _ _). vm_compute. reflexivity. Qed.

Lemma bit_run_huff_bits src : is_bytes src ->
  bit_run (Some [], []) (huff_bits src) = (Some [], src).
Proof.
  induction 1 as [|c src Hc _ IH]; [done|]. unfold huff_bits in *. cbn [flat_map].
  by rewrite bit_run_app, bit_run_sym, bit_run_out, IH.
Qed.

Lemma bit_run_padding k : (k < 8)%nat ->
  bit_run (Some [], []) (replicate k true) = (Some (replicate k true), []).
Proof. intros. do 8 (destruct k as [|k]; [vm_compute; reflexivity|]). lia. Qed.

Lemma find_sym_sound syms c0 len v c :
  find_sym syms c0 len v = Some c ->
  c0 <= c < c0 + zlen syms /\
  sym_nbits (nth (Z.to_nat (c - c0)) syms (mk_sym 0 0)) = len /\
  sym_code (nth (Z.to_nat (c - c0)) syms (mk_sym 0 0)) = Z.shiftl v (32 - len).
Proof.
  revert c0. induction syms as [|sym syms IH]; intros c0 H; [done|]. cbn [find_sym length] in *.
  assert (find_sym syms (c0 + 1) len v = Some c \/
    (c = c0 /\ sym_nbits sym = len /\ sym_code sym = Z.shiftl v (32 - len))) as [H1|(-> & ? & ?)].
  { destruct (Z.eqb_spec (sym_nbits sym) len); [|by left].
    destruct (Z.eqb_spec (sym_code sym) (Z.shiftl v (32 - len))); [|by left].
    injection H as <-. by right. }
  - apply IH in H1 as (? & ? & ?). split; [lia|].
    replace (Z.to_nat (c - c0)) with (S (Z.to_nat (c - (c0 + 1)))) by lia. done.
  - rewrite Z.sub_diag. split; [lia|done].
Qed.

(** What was read is the code words of the output and the current prefix. *)
Lemma bit_run_inv bs p out :
  bit_run (Some [], []) bs = (Some p, out) -> bs = huff_bits out ++ p /\ is_bytes out.
Proof.
  revert p out. induction bs as [|b bs IH] using rev_ind; intros p out H.
  { injection H as <- <-. split; [done|constructor]. }
  rewrite bit_run_app in H. destruct (bit_run (Some [], []) bs) as [[q|] o] eqn:E.
  2:{ simpl in H. done. }
  destruct (IH q o eq_refl) as [-> Ho]. cbn [bit_run fold_left bit_step] in H.
  destruct (find_sym _ _ _ _) as [c|] eqn:Ef.
  2:{ injection H as <- <-. by rewrite app_assoc. }
  destruct (Z.eqb_spec c 256); [done|]. injection H as <- <-.
  apply find_sym_sound in Ef as (Hc & Hn & Hcode). change (zlen huff_sym_table) with 257 in Hc.
  rewrite Z.sub_0_r in *. fold (huff_sym c) in *.
  assert (is_u8 c) as Hu by (unfold_width; lia).
  destruct (huff_sym_facts c Hu) as (Hr & _ & _).
  split; [|apply is_bytes_app; by repeat constructor; try apply Hu].
  unfold huff_bits. rewrite flat_map_app. cbn [flat_map]. rewrite !app_nil_r, <- app_assoc.
  f_equal. unfold sym_bits. rewrite Hcode, Hn, Z.shiftr_shiftl_l, Z.sub_diag by lia.
  by rewrite Z.shiftl_0_r, Nat2Z.id, bits_of_val.
Qed.

(** *** The table-driven decoder follows the automaton *)

Definition node_accepts (t : nghttp2_huff_decode) : bool :=
  negb (node_fstate t .& NGHTTP2_HUFF_ACCEPTED =? 0).

(** A table node stands for a state of the automaton. *)
Definition node_rel (t : nghttp2_huff_decode) (st : option (list bool)) : Prop :=
  let n := node_fstate t .& 0x1ff in
  match st with
  | None => n = 256 /\ node_accepts t = false
  | Some p => 0 <= n < 256 /\ node_prefix n = p /\ node_accepts t = is_padding p
  end.

Definition node_out (t : nghttp2_huff_decode) : bytes :=
  if node_fstate t .& NGHTTP2_HUFF_SYM =? 0 then [] else [node_sym t].

Lemma failure_row x : 0 <= x < 16 -> huff_node 256 x = mk_node 256 0.
Proof.
  intros. assert (x ∈ seqZ 0 16) as Hx by (apply elem_of_seqZ; lia).
  assert (Forall (fun x => huff_node 256 x = mk_node 256 0) (seqZ 0 16)) as HF.
  { vm_compute. repeat constructor. }
  rewrite Forall_forall in HF. auto.
Qed.

Lemma nibble_step t st x : node_rel t st -> 0 <= x < 16 ->
  let t' := huff_node (node_fstate t .& 0x1ff) x in
  node_rel t' (bit_run (st, []) (bits_of 4 x)).1 /\
  (bit_run (st, []) (bits_of 4 x)).2 = node_out t'.
Proof.
  intros Ht Hx t'. destruct st as [p|]; simpl in Ht.
  2:{ destruct Ht as [Hn _]. subst t'. rewrite Hn, failure_row, bit_run_None by done. done. }
  destruct Ht as (Hn & Hp & _). set (n := node_fstate t .& 511) in *.
  assert (entry_ok n x = true) as E.
  { pose proof table_ok as T. rewrite forallb_forall in T.
    specialize (T n). rewrite forallb_forall in T.
    apply T; apply list_elem_of_In, elem_of_seqZ; lia. }
  unfold entry_ok in E. fold t' in E. rewrite Hp in E.
  unfold node_out. destruct (bit_run (Some p, []) (bits_of 4 x)) as [[q|] out]; simpl.
  - rewrite !andb_true_iff, !bool_decide_eq_true, eqb_true_iff in E.
    destruct E as ((((E1 & E2) & E3) & E4) & E5). split.
    + split_and!; [lia|lia|done|]. exact E5.
    + rewrite E4. by destruct (_ =? 0).
  - rewrite !andb_true_iff, !negb_true_iff in E. destruct E as (((E1 & E2) & E3) & E4).
    split; [split; [lia|]|].
    + exact E3.
    + apply negb_false_iff in E2. rewrite E2. destruct out; done.
Qed.

(** An output buffer after [out] was stored in it. *)
Definition buf_appended (b : nghttp2_buf) (out : bytes) (b' : nghttp2_buf) : Prop :=
  buf_ok b' /\ buf_bytes b' = buf_bytes b ++ out /\
  length (b_mem b') = length (b_mem b) /\ b_last b' = (b_last b + length out)%nat /\
  b_pos b' = b_pos b /\ b_mark b' = b_mark b.

Lemma buf_appended_nil b : buf_ok b -> buf_appended b [] b.
Proof. intros. split; [done|]. rewrite app_nil_r, Nat.add_0_r. done. Qed.

Lemma buf_appended_trans b o1 b1 o2 b2 :
  buf_appended b o1 b1 -> buf_appended b1 o2 b2 -> buf_appended b (o1 ++ o2) b2.
Proof.
  intros (_ & H1 & H2 & H3 & ? & ?) (? & H4 & H5 & H6 & ? & ?).
  split; [done|]. split_and!; [by rewrite H4, H1, app_assoc|lia|rewrite length_app; lia|congruence..].
Qed.

(** A write of [bs] at [last], in a buffer with room. *)
Lemma buf_write_appended b bs : buf_ok b -> (length bs <= nghttp2_buf_avail b)%nat ->
  buf_appended b bs (mk_buf (mem_write (b_mem b) (b_last b) bs) (b_pos b)
    (b_last b + length bs) (b_mark b)).
Proof.
  unfold nghttp2_buf_avail. intros Hok Hav. pose proof Hok as [? ?].
  split; [unfold buf_ok; simpl; rewrite mem_write_length by lia; lia|].
  split; [apply buf_bytes_write; [done|lia]|]. simpl. by rewrite mem_write_length by lia.
Qed.

Lemma huff_emit_out b t : buf_ok b -> (0 < nghttp2_buf_avail b)%nat ->
  exists b', huff_emit b t = Some b' /\ buf_appended b (node_out t) b'.
Proof.
  intros Hok Hav. unfold huff_emit, node_out. destruct (_ =? 0).
  - exists b. split; [done|]. by apply buf_appended_nil.
  - unfold buf_poke. rewrite option_guard_True by (unfold nghttp2_buf_avail in Hav; lia).
    eexists. split; [done|]. unfold buf_incr. cbn [b_mem b_pos b_last b_mark].
    rewrite <- Nat.add_1_r. by apply (buf_write_appended b [node_sym t]).
Qed.

Lemma node_out_length t : (length (node_out t) <= 1)%nat.
Proof. unfold node_out. destruct (_ =? 0); simpl; lia. Qed.

Lemma octet_nibbles c : is_u8 c ->
  bits_of 8 c = bits_of 4 (Z.shiftr c 4) ++ bits_of 4 (c .& 0xf) /\
  0 <= Z.shiftr c 4 < 16 /\ 0 <= c .& 0xf < 16.
Proof. revert c. apply (all_octets _ _). vm_compute. reflexivity. Qed.

Lemma huff_decode_loop_run src t b st :
  is_bytes src -> node_rel t st -> buf_ok b -> (2 * length src <= nghttp2_buf_avail b)%nat ->
  exists t' b', huff_decode_loop src t b = Some (t', b') /\
    node_rel t' (bit_run (st, []) (unpack src)).1 /\
    buf_appended b (bit_run (st, []) (unpack src)).2 b'.
Proof.
  intros Hsrc. revert t b st.
  induction Hsrc as [|c src Hc Hsrc IH]; intros t b st Ht Hb Hav; cbn [huff_decode_loop length] in *.
  { exists t, b. split; [done|]. split; [done|by apply buf_appended_nil]. }
  destruct (octet_nibbles c Hc) as (E8 & Hhi & Hlo).
  destruct (nibble_step t st _ Ht Hhi) as [Ht1 Ho1].
  set (t1 := huff_node (node_fstate t .& 511) (Z.shiftr c 4)) in *.
  destruct (huff_emit_out b t1) as (b1 & -> & Hb1); [done|lia|]. cbn [mbind option_bind].
  destruct (nibble_step t1 _ _ Ht1 Hlo) as [Ht2 Ho2].
  set (t2 := huff_node (node_fstate t1 .& 511) (c .& 15)) in *.
  pose proof (node_out_length t1). pose proof (node_out_length t2).
  pose proof Hb1 as (Hok1 & _ & Hlen1 & Hlast1 & _).
  destruct (huff_emit_out b1 t2) as (b2 & -> & Hb2);
    [done|unfold nghttp2_buf_avail in *; lia|]. cbn [mbind option_bind].
  pose proof Hb2 as (Hok2 & _ & Hlen2 & Hlast2 & _).
  destruct (IH t2 b2 _ Ht2 Hok2) as (t' & b' & -> & Ht' & Hb');
    [unfold nghttp2_buf_avail in *; lia|].
  exists t', b'. split; [done|]. unfold unpack in *. cbn [flat_map].
  rewrite E8, !bit_run_app.
  destruct (bit_run (st, []) (bits_of 4 (Z.shiftr c 4))) as [st1 o1] eqn:R1.
  cbn [fst snd] in *. rewrite (bit_run_out st1 o1).
  destruct (bit_run (st1, []) (bits_of 4 (c .& 15))) as [st2 o2] eqn:R2.
  cbn [fst snd] in *. rewrite (bit_run_out st2 (o1 ++ o2)). cbn [fst snd].
  split; [done|]. subst o1 o2. eauto using buf_appended_trans.
Qed.

(** At most two symbols come out of an octet. *)
Lemma huff_decode_loop_last src t b t' b' :
  huff_decode_loop src t b = Some (t', b') -> (b_last b' <= b_last b + 2 * length src)%nat.
Proof.
  assert (forall buf n buf', huff_emit buf n = Some buf' -> (b_last buf' <= S (b_last buf))%nat) as Hemit.
  { intros buf n buf'. unfold huff_emit, buf_poke. destruct (_ =? 0); [intros [= <-]; lia|].
    intros (x & Hx & [= <-])%bind_Some. case_guard; simplify_eq/=. lia. }
  revert t b. induction src as [|c src IH]; intros t b; cbn [huff_decode_loop length].
  { intros [= <- <-]. lia. }
  intros (b1 & H1%Hemit & H)%bind_Some. apply bind_Some in H as (b2 & H2%Hemit & H). apply IH in H. lia.
Qed.

(** Input may arrive in pieces: the context carries the state over. *)
Lemma huff_decode_loop_fstate src t t' b :
  node_fstate t = node_fstate t' -> src <> [] ->
  huff_decode_loop src t b = huff_decode_loop src t' b.
Proof. intros E. destruct src as [|c src]; [done|]. intros _. cbn [huff_decode_loop]. by rewrite E. Qed.

Lemma huff_decode_loop_app a b t buf :
  huff_decode_loop (a ++ b) t buf =
    '(t, buf) ← huff_decode_loop a t buf; huff_decode_loop b t buf.
Proof.
  revert t buf. induction a as [|c a IH]; intros t buf; [done|].
  cbn [app huff_decode_loop]. destruct (huff_emit _ _); [|done]. cbn [mbind option_bind].
  destruct (huff_emit _ _); [|done]. cbn [mbind option_bind]. apply IH.
Qed.

Lemma huff_init_rel : node_rel (mk_node NGHTTP2_HUFF_ACCEPTED 0) (Some []).
Proof. vm_compute. split_and!; done || congruence. Qed.

(** Decoding an encoded string gives the string back. *)
Lemma huff_decode_exact b s :
  is_bytes s -> buf_ok b -> (2 * length (pack (huff_bits s)) <= nghttp2_buf_avail b)%nat ->
  exists ctx b', nghttp2_hd_huff_decode nghttp2_hd_huff_decode_context_init b (pack (huff_bits s)) true =
      Some (ctx, b', zlen (pack (huff_bits s))) /\
    nghttp2_hd_huff_decode_failure_state ctx = false /\ buf_appended b s b' /\
    (b_last b' <= b_last b + 2 * length (pack (huff_bits s)))%nat.
Proof.
  intros Hs Hb Hav.
  destruct (huff_decode_loop_run _ _ b _ (pack_bytes (huff_bits s)) huff_init_rel Hb Hav)
    as (t & b' & E & Ht & Hap).
  destruct (unpack_pack (huff_bits s)) as (k & Hk & Eu).
  rewrite Eu, bit_run_app, bit_run_huff_bits, bit_run_out, bit_run_padding in Ht, Hap by done.
  cbn [fst snd] in *. rewrite app_nil_r in Hap. destruct Ht as (Hn & _ & Hacc).
  assert (is_padding (replicate k true) = true) as Hpad by (do 8 (destruct k as [|k]; [done|]); lia).
  unfold nghttp2_hd_huff_decode. cbn [hctx_fstate nghttp2_hd_huff_decode_context_init].
  rewrite E. cbn [mbind option_bind hctx_fstate]. unfold node_accepts in Hacc.
  rewrite Hpad, negb_true_iff in Hacc. rewrite Hacc. cbn [andb].
  eexists _, _. split; [done|]. split; [|split; [done|by eapply huff_decode_loop_last]].
  unfold nghttp2_hd_huff_decode_failure_state. simpl. apply Z.eqb_neq. intros Hf.
  rewrite Hf in Hn. vm_compute in Hn. by destruct Hn.
Qed.

(** The Huffman encoder always returns and never writes out of bounds; on
    success it appends to the buffer chain the code words of its input,
    packed into octets and padded with ones, which are exactly
    [nghttp2_hd_huff_encode_count] octets; it reports
    [NGHTTP2_ERR_BUFFER_ERROR] only when they do not fit. *)
Theorem huff_encode_writes malloc `{!Allocator malloc} s src :
  is_bytes src -> bufs_wf s ->
  exists s' rv,
    nghttp2_hd_huff_encode malloc s src = Some (s', rv) /\ bufs_wf s' /\
    (rv = 0 -> bufs_bytes s' = bufs_bytes s ++ pack (huff_bits src)) /\
    zlen (pack (huff_bits src)) = nghttp2_hd_huff_encode_count src /\
    (rv = NGHTTP2_ERR_BUFFER_ERROR ->
       Z.of_nat (bufs_room s) < nghttp2_hd_huff_encode_count src) /\
    (rv = 0 \/ rv = NGHTTP2_ERR_BUFFER_ERROR \/ rv = NGHTTP2_ERR_NOMEM).
Proof.
  intros Hsrc Hwf. destruct (huff_encode_ok malloc s src Hsrc Hwf) as
    (s' & rv & E & Hwf' & Hrv & Hok & Hfull & _).
  rewrite huff_encode_count_spec by done.
  exists s', rv. split_and!; try done; [apply Hok|]. intros H. apply Hfull in H. lia.
Qed.

Lemma huff_encode_writes_witness :
  exists s' rv, nghttp2_hd_huff_encode zero_malloc
      (mk_bufs [mk_buf (replicate 3 0) 0 0 0] 0 3 2 1 1 0 0) [97; 98; 99; 100; 101] = Some (s', rv) /\
    rv = 0 /\ bufs_bytes s' = pack (huff_bits [97; 98; 99; 100; 101]).
Proof.
  destruct (huff_encode_writes zero_malloc (mk_bufs [mk_buf (replicate 3 0) 0 0 0] 0 3 2 1 1 0 0)
    [97; 98; 99; 100; 101]) as (s' & rv & E & _ & H & _).
  - apply (bool_decide_unpack _). by vm_compute.
  - split; simpl; repeat constructor; simpl; try lia.
  - exists s', rv. vm_compute in E. injection E as <- <-. split; [vm_compute; reflexivity|].
    split; [reflexivity|]. apply H. reflexivity.
Defined.

(** C35: The Huffman decoder accepts exactly what the encoder produces: given a
    final input and an output buffer with two octets of room per octet of
    input, [nghttp2_hd_huff_decode] never writes outside the buffer, and it
    succeeds with output [out] if and only if the input is the encoding of
    [out]; otherwise it returns [NGHTTP2_ERR_HEADER_COMP]. *)
Theorem huff_decode_accepts b src :
  is_bytes src -> buf_ok b -> (2 * length src <= nghttp2_buf_avail b)%nat ->
  exists ctx b' rv,
    nghttp2_hd_huff_decode nghttp2_hd_huff_decode_context_init b src true = Some (ctx, b', rv) /\
    (forall out, is_bytes out ->
       (rv = zlen src /\ buf_bytes b' = buf_bytes b ++ out <-> src = pack (huff_bits out))) /\
    (rv <> zlen src -> rv = NGHTTP2_ERR_HEADER_COMP).
Proof.
  intros Hsrc Hb Hav.
  assert (node_rel (mk_node NGHTTP2_HUFF_ACCEPTED 0) (Some [])) as Ht0.
  { vm_compute. split_and!; done || congruence. }
  destruct (huff_decode_loop_run src _ b _ Hsrc Ht0 Hb Hav) as (t & b' & E & Ht & Hb').
  unfold nghttp2_hd_huff_decode. cbn [hctx_fstate nghttp2_hd_huff_decode_context_init].
  rewrite E. cbn [mbind option_bind].
  assert (node_fstate t .& NGHTTP2_HUFF_ACCEPTED =? 0 = negb (node_accepts t)) as ->
    by (unfold node_accepts; by rewrite negb_involutive).
  destruct (bit_run (Some [], []) (unpack src)) as [st o] eqn:R. cbn [fst snd] in *.
  destruct Hb' as (_ & Hbytes & _). simpl andb.
  assert (forall out, is_bytes out -> src = pack (huff_bits out) ->
    exists k, (k < 8)%nat /\ st = Some (replicate k true) /\ o = out) as Hfrom.
  { intros out Hout ->. destruct (unpack_pack (huff_bits out)) as (k & Hk & Eu).
    rewrite Eu, bit_run_app, bit_run_huff_bits, bit_run_out, bit_run_padding in R by done.
    injection R as <- <-. exists k. simpl. by rewrite app_nil_r. }
  destruct (node_accepts t) eqn:Ea; simpl negb; cbn [andb]; eexists _, _, _; (split; [done|]).
  - split; [|done]. intros out Hout. split.
    + intros [_ Ho]. rewrite Hbytes in Ho. apply app_inv_head in Ho as <-.
      destruct st as [p|]; [|destruct Ht; congruence]. destruct Ht as (_ & _ & Hpad).
      symmetry in Hpad. rewrite Ea in Hpad. apply andb_true_iff in Hpad as [Hl Hones].
      apply Nat.ltb_lt in Hl. apply bit_run_inv in R as [R _].
      apply (pack_unpack src _ (length p)); [done| |done]. rewrite R. f_equal.
      clear -Hones. induction p as [|x p IH]; [done|]. simpl in *.
      apply andb_true_iff in Hones as [Hx Hp]. destruct x; [|done]. f_equal. auto.
    + intros Hs. split; [done|]. destruct (Hfrom out Hout Hs) as (_ & _ & _ & <-). done.
  - split; [|done]. intros out Hout. split.
    + intros [? _]. unfold NGHTTP2_ERR_HEADER_COMP in *. lia.
    + intros Hs. destruct (Hfrom out Hout Hs) as (k & Hk & -> & <-).
      destruct Ht as (_ & _ & Hpad). rewrite Ea in Hpad. exfalso. clear -Hk Hpad.
      do 8 (destruct k as [|k]; [discriminate|]). lia.
Qed.

Lemma huff_decode_accepts_witness :
  exists ctx b' rv,
    nghttp2_hd_huff_decode nghttp2_hd_huff_decode_context_init (mk_buf [0; 0] 0 0 0) [0x1f] true =
      Some (ctx, b', rv) /\ rv = 1 /\ buf_bytes b' = [97].
Proof.
  destruct (huff_decode_accepts (mk_buf [0; 0] 0 0 0) [0x1f]) as (ctx & b' & rv & E & H & _).
  - apply (bool_decide_unpack _). by vm_compute.
  - split; simpl; lia.
  - vm_compute. lia.
  - exists ctx, b', rv. split; [exact E|]. apply (H [97]).
    + apply (bool_decide_unpack _). by vm_compute.
    + vm_compute. reflexivity.
Defined.
