(* ===== verification/HdInt.v ===== *)
(** * HPACK prefixed integers (nghttp2_hd.c, count/encode/decode_length)

    Integers are written with an [prefix]-bit prefix in the first octet and
    little-endian groups of seven bits behind it.  The encoder works on
    [size_t], the decoder on [uint32_t] with checks before every shift and
    addition, and it can stop and continue at any octet of the input. *)

From S2P Require Import Prelude Defs Helper.

(** [for (; n >= 128; n >>= 7, ++len);] a 64-bit number has at most ten
    groups, so that the fuel below never runs out. *)
Fixpoint count_groups (fuel : nat) (n len : Z) : Z :=
  match fuel with
  | O => len
  | S fuel => if 128 <=? n then count_groups fuel (Z.shiftr n 7) (len + 1) else len
  end.

Definition groups_fuel : nat := 10.

Definition count_encoded_length (n prefix : Z) : Z :=
  let k := Z.shiftl 1 prefix - 1 in
  if n <? k then 1
  else count_groups groups_fuel (n - k) 1 + 1.

(** [*p = b] inside an array. *)
Definition store (m : bytes) (i : nat) (b : Z) : option bytes :=
  guard (i < length m)%nat;; Some (<[i := b]> m).

(** [for (; n >= 128; n >>= 7) *buf++ = ...; *buf++ = n;] *)
Fixpoint encode_groups (fuel : nat) (m : bytes) (buf : nat) (n : Z) : option (bytes * nat) :=
  match fuel with
  | O => None
  | S fuel =>
      if 128 <=? n then
        m ← store m buf (u8 (Z.shiftl 1 7 .| (n .& 0x7f)));
        encode_groups fuel m (S buf) (Z.shiftr n 7)
      else
        m ← store m buf (u8 n);
        Some (m, S buf)
  end.

(** Writes at the start of the array [m]; returns it and the number of octets. *)
Definition encode_length (m : bytes) (n prefix : Z) : option (bytes * nat) :=
  let k := Z.shiftl 1 prefix - 1 in
  b ← m !! 0%nat;
  m ← store m 0 (u8 (b .& Z.lnot k));
  b ← m !! 0%nat;
  if n <? k then
    m ← store m 0 (u8 (b .| n)); Some (m, 1%nat)
  else
    m ← store m 0 (u8 (b .| k));
    encode_groups groups_fuel m 1 (n - k).

(** What [decode_length] leaves behind: [*res], [*shift_ptr], [*fin] and the
    returned number of octets, [-1] on error. *)
Record decoded := mk_decoded { d_res : Z; d_shift : Z; d_fin : bool; d_rv : Z }.

Fixpoint decode_loop (inp : bytes) (n shift count : Z) : decoded :=
  match inp with
  | [] => mk_decoded n shift false count
  | c :: inp =>
      let add := c .& 0x7f in
      if 32 <=? shift then mk_decoded 0 0 false (-1)
      else if Z.shiftr UINT32_MAX shift <? add then mk_decoded 0 0 false (-1)
      else
        let add := u32 (Z.shiftl add shift) in
        if UINT32_MAX - add <? n then mk_decoded 0 0 false (-1)
        else
          let n := u32 (n + add) in
          if c .& Z.shiftl 1 7 =? 0 then mk_decoded n shift true (count + 1)
          else decode_loop inp n (shift + 7) (count + 1)
  end.

(** [None]: the first octet is read although the input is empty. *)
Definition decode_length (initial shift : Z) (inp : bytes) (prefix : Z) : option decoded :=
  let k := u8 (Z.shiftl 1 prefix - 1) in
  if initial =? 0 then
    match inp with
    | [] => None
    | c :: inp =>
        if negb (c .& k =? k) then Some (mk_decoded (c .& k) 0 true 1)
        else
          match inp with
          | [] => Some (mk_decoded k 0 false 1)
          | _ => Some (decode_loop inp k shift 1)
          end
    end
  else Some (decode_loop inp initial shift 0).

(** ** Specification: the octets of a prefixed integer *)

Fixpoint group_bytes (fuel : nat) (n : Z) : bytes :=
  match fuel with
  | O => []
  | S fuel => if 128 <=? n then (128 + n mod 128) :: group_bytes fuel (n / 128) else [n]
  end.

(** [hi]: the bits of the first octet above the prefix. *)
Definition int_bytes (hi n prefix : Z) : bytes :=
  let k := 2 ^ prefix - 1 in
  if n <? k then [hi + n] else (hi + k) :: group_bytes groups_fuel (n - k).

(** [n] has at most [fuel] groups of seven bits. *)
Definition groups_ok (fuel : nat) (n : Z) : Prop :=
  (0 < fuel)%nat /\ 0 <= n < 2 ^ (7 * Z.of_nat fuel).

Lemma groups_ok_step fuel n : groups_ok (S fuel) n -> 128 <= n -> groups_ok fuel (n / 128).
Proof.
  unfold groups_ok. rewrite Nat2Z.inj_succ. intros [_ Hn] H128.
  replace (7 * Z.succ (Z.of_nat fuel)) with (7 + 7 * Z.of_nat fuel) in Hn by lia.
  rewrite Z.pow_add_r in Hn by lia. change (2 ^ 7) with 128 in Hn.
  split; [destruct fuel; simpl in *; lia|]. split; [apply Z.div_pos; lia|].
  apply Z.div_lt_upper_bound; lia.
Qed.

Lemma groups_ok_u64 n : is_u64 n -> groups_ok groups_fuel n.
Proof.
  intros Hn. split; [unfold groups_fuel; lia|]. unfold is_u64 in Hn.
  assert (2 ^ 64 < 2 ^ (7 * Z.of_nat groups_fuel)) by (vm_compute; reflexivity). lia.
Qed.

Lemma count_groups_spec fuel n len : groups_ok fuel n ->
  count_groups fuel n len + 1 = len + zlen (group_bytes fuel n).
Proof.
  revert n len. induction fuel as [|fuel IH]; intros n len Hn; [destruct Hn; lia|].
  cbn [count_groups group_bytes]. destruct (Z.leb_spec 128 n); [|simpl; lia].
  rewrite Z.shiftr_div_pow2 by lia. change (2 ^ 7) with 128. cbn [length].
  rewrite IH by (by apply groups_ok_step). lia.
Qed.

Lemma group_octet n : 0 <= n -> u8 (Z.shiftl 1 7 .| (n .& 0x7f)) = 128 + n mod 128.
Proof.
  intros. change 127 with (2 ^ 7 - 1). rewrite land_ones_mod by lia.
  pose proof (Z.mod_pos_bound n (2 ^ 7)). change (Z.shiftl 1 7) with (2 ^ 7 * 1).
  rewrite lor_disjoint_add by lia. change (2 ^ 7) with 128 in *. apply u8_id. unfold_width. lia.
Qed.

Lemma store_Some m i b : (i < length m)%nat -> store m i b = Some (mem_write m i [b]).
Proof. intros. unfold store. by rewrite option_guard_True, mem_write_insert. Qed.

Lemma encode_groups_spec fuel m buf n : groups_ok fuel n ->
  (buf + length (group_bytes fuel n) <= length m)%nat ->
  encode_groups fuel m buf n =
    Some (mem_write m buf (group_bytes fuel n), (buf + length (group_bytes fuel n))%nat).
Proof.
  revert m buf n. induction fuel as [|fuel IH]; intros m buf n Hn Hlen; [destruct Hn; lia|].
  cbn [encode_groups group_bytes] in *. destruct (Z.leb_spec 128 n); cbn [length] in *.
  - rewrite store_Some by lia. cbn [mbind option_bind].
    rewrite group_octet, Z.shiftr_div_pow2 by (destruct Hn; lia). change (2 ^ 7) with 128.
    rewrite IH; [|by apply groups_ok_step|rewrite mem_write_length; simpl; lia].
    f_equal. f_equal; [|lia]. rewrite <- Nat.add_1_r.
    rewrite (mem_write_write m buf [_]) by (simpl; lia). done.
  - rewrite store_Some by lia. cbn [mbind option_bind]. f_equal. f_equal; [|lia].
    rewrite u8_id; [done|]. destruct Hn. unfold_width. lia.
Qed.

(** The first octet: the bits above the prefix are kept. *)
Lemma clear_prefix hi n prefix : 0 < prefix <= 8 -> 0 <= hi < 256 -> hi mod 2 ^ prefix = 0 ->
  0 <= n < 2 ^ prefix ->
  u8 (u8 (hi .& Z.lnot (2 ^ prefix - 1)) .| n) = hi + n.
Proof.
  intros Hp Hhi Hmod Hn.
  assert (hi .& Z.lnot (2 ^ prefix - 1) = hi) as ->.
  { rewrite Z.sub_1_r, <- Z.ones_equiv, <- Z.ldiff_land, Z.ldiff_ones_r by lia.
    rewrite Z.shiftr_div_pow2, Z.shiftl_mul_pow2 by lia.
    pose proof (Z.div_mod hi (2 ^ prefix)). lia. }
  assert (2 ^ prefix * (hi / 2 ^ prefix) = hi) as E
    by (pose proof (Z.div_mod hi (2 ^ prefix)); lia).
  rewrite (u8_id hi) by (unfold_width; lia).
  rewrite <- E at 1. rewrite lor_disjoint_add, E by lia. apply u8_id.
  assert (256 = 2 ^ prefix * 2 ^ (8 - prefix)) as E256
    by (rewrite <- Z.pow_add_r by lia; by replace (prefix + (8 - prefix)) with 8 by lia).
  assert (hi / 2 ^ prefix < 2 ^ (8 - prefix)) by (apply Z.div_lt_upper_bound; lia).
  unfold_width. change (2 ^ 8) with 256. nia.
Qed.

Lemma count_encoded_length_spec hi n prefix : 0 < prefix <= 8 -> is_u64 n ->
  count_encoded_length n prefix = zlen (int_bytes hi n prefix).
Proof.
  intros Hp Hn. unfold count_encoded_length, int_bytes. rewrite Z.shiftl_1_l.
  destruct (Z.ltb_spec n (2 ^ prefix - 1)); [done|]. cbn [length].
  assert (0 < 2 ^ prefix) by (apply Z.pow_pos_nonneg; lia).
  rewrite count_groups_spec; [lia|]. apply groups_ok_u64. unfold_width. lia.
Qed.

Lemma group_bytes_length fuel n : (length (group_bytes fuel n) <= fuel)%nat.
Proof.
  revert n. induction fuel as [|fuel IH]; intros n; simpl; [lia|].
  destruct (128 <=? n); simpl; [specialize (IH (n / 128)); lia|lia].
Qed.

Lemma int_bytes_length hi n prefix : (length (int_bytes hi n prefix) <= 11)%nat.
Proof.
  unfold int_bytes. destruct (_ <? _); cbn [length]; [lia|].
  pose proof (group_bytes_length groups_fuel (n - (2 ^ prefix - 1))) as H.
  change groups_fuel with 10%nat in H at 2. lia.
Qed.

(** [k] groups hold numbers of [7 * k] bits. *)
Lemma group_bytes_bound k fuel n :
  0 <= n < 2 ^ (7 * Z.of_nat k) -> (0 < k)%nat -> (length (group_bytes fuel n) <= k)%nat.
Proof.
  revert k n. induction fuel as [|fuel IH]; intros k n Hn Hk; simpl; [lia|].
  destruct (Z.leb_spec 128 n); simpl; [|lia].
  destruct k as [|[|k]]; [lia|change (2 ^ (7 * Z.of_nat 1)) with 128 in Hn; lia|].
  specialize (IH (S k) (n / 128)). apply le_n_S, IH; [|lia].
  apply (groups_ok_step (S k) n); [split; [lia|done]|done].
Qed.

Lemma int_bytes_bound k hi n prefix :
  0 <= prefix -> 0 <= n < 2 ^ (7 * Z.of_nat k) -> (0 < k)%nat ->
  (length (int_bytes hi n prefix) <= S k)%nat.
Proof.
  intros Hp Hn Hk. unfold int_bytes. assert (0 < 2 ^ prefix) by (by apply Z.pow_pos_nonneg).
  destruct (Z.ltb_spec n (2 ^ prefix - 1)); cbn [length]; [lia|].
  apply le_n_S, group_bytes_bound; lia.
Qed.

Lemma group_bytes_octets fuel n : 0 <= n -> is_bytes (group_bytes fuel n).
Proof.
  revert n. induction fuel as [|fuel IH]; intros n Hn; [constructor|]. cbn [group_bytes].
  pose proof (Z.mod_pos_bound n 128). pose proof (Z.div_pos n 128).
  destruct (Z.leb_spec 128 n); (constructor; [cint_lia|]); [apply IH; lia|constructor].
Qed.

Lemma int_bytes_octets hi n prefix : 0 < prefix <= 8 -> 0 <= hi < 256 -> hi mod 2 ^ prefix = 0 ->
  0 <= n -> is_bytes (int_bytes hi n prefix).
Proof.
  intros Hp Hhi Hmod Hn.
  assert (hi + (2 ^ prefix - 1) < 256) as Hb.
  { pose proof (Z.div_mod hi (2 ^ prefix)) as E. rewrite Hmod in E.
    assert (0 < 2 ^ prefix) by (by apply Z.pow_pos_nonneg; lia).
    assert (256 = 2 ^ prefix * 2 ^ (8 - prefix)) as Hq.
    { rewrite <- Z.pow_add_r by lia. by replace (prefix + (8 - prefix)) with 8 by lia. }
    set (a := hi / 2 ^ prefix) in *. set (q := 2 ^ (8 - prefix)) in *. assert (a < q) by nia. nia. }
  unfold int_bytes. destruct (Z.ltb_spec n (2 ^ prefix - 1)).
  - constructor; [cint_lia|constructor].
  - assert (0 < 2 ^ prefix) by (by apply Z.pow_pos_nonneg; lia).
    constructor; [cint_lia|]. apply group_bytes_octets. lia.
Qed.

(** The encoder fills the start of the array with the specified octets. *)
Lemma encode_length_spec m hi n prefix : 0 < prefix <= 8 -> is_u64 n ->
  0 <= hi < 256 -> hi mod 2 ^ prefix = 0 -> m !! 0%nat = Some hi ->
  (length (int_bytes hi n prefix) <= length m)%nat ->
  encode_length m n prefix =
    Some (mem_write m 0 (int_bytes hi n prefix), length (int_bytes hi n prefix)).
Proof.
  intros Hp Hn Hhi Hmod Hm Hlen. unfold encode_length. rewrite Z.shiftl_1_l.
  assert (0 < length m)%nat as Hm0 by (by eapply lookup_lt_Some).
  assert (0 < 2 ^ prefix) by (apply Z.pow_pos_nonneg; lia).
  rewrite Hm. cbn [mbind option_bind]. rewrite store_Some by done. cbn [mbind option_bind].
  rewrite mem_write_0. cbn [app lookup list_lookup mbind option_bind].
  set (x := u8 (hi .& _)). assert (0 < length (x :: drop 1 m))%nat by (simpl; lia).
  rewrite !store_Some by done.
  unfold int_bytes in *. destruct (Z.ltb_spec n (2 ^ prefix - 1)).
  - cbn [mbind option_bind length]. subst x. rewrite clear_prefix by (unfold_width; lia).
    by rewrite !mem_write_0.
  - cbn [mbind option_bind length]. subst x. rewrite clear_prefix by (unfold_width; lia).
    rewrite !mem_write_0. cbn [app length drop] in *.
    rewrite encode_groups_spec.
    + f_equal. f_equal.
      rewrite drop_0. unfold mem_write. cbn [take app Nat.add drop].
      rewrite take_0, drop_drop. done.
    + apply groups_ok_u64. unfold_width. lia.
    + cbn [length]. rewrite !length_drop. lia.
Qed.

(** ** Decoding *)

Lemma group_bits_last n : 0 <= n < 128 -> n .& 0x7f = n /\ n .& Z.shiftl 1 7 = 0.
Proof.
  intros. assert (n ∈ seqZ 0 128) as Hn by (apply elem_of_seqZ; lia).
  assert (Forall (fun n => n .& 127 = n /\ n .& Z.shiftl 1 7 = 0) (seqZ 0 128)) as F.
  { apply (bool_decide_unpack _). by vm_compute. }
  rewrite Forall_forall in F. by apply F.
Qed.

Lemma group_bits_more x : 0 <= x < 128 ->
  (128 + x) .& 0x7f = x /\ (128 + x) .& Z.shiftl 1 7 = 128.
Proof.
  intros. assert (x ∈ seqZ 0 128) as Hx by (apply elem_of_seqZ; lia).
  assert (Forall (fun x => (128 + x) .& 127 = x /\ (128 + x) .& Z.shiftl 1 7 = 128) (seqZ 0 128)) as F.
  { apply (bool_decide_unpack _). by vm_compute. }
  rewrite Forall_forall in F. by apply F.
Qed.

(** One group that fits: the checks pass and nothing wraps around. *)
Lemma decode_loop_step c inp n shift count :
  0 <= shift < 32 -> 0 <= n -> 0 <= c .& 0x7f ->
  n + (c .& 0x7f) * 2 ^ shift <= UINT32_MAX ->
  decode_loop (c :: inp) n shift count =
    let n := n + (c .& 0x7f) * 2 ^ shift in
    if c .& Z.shiftl 1 7 =? 0 then mk_decoded n shift true (count + 1)
    else decode_loop inp n (shift + 7) (count + 1).
Proof.
  intros Hs Hn Hc Hle. cbn [decode_loop]. set (add := c .& 127) in *.
  assert (0 < 2 ^ shift) by (apply Z.pow_pos_nonneg; lia).
  rewrite (proj2 (Z.leb_gt 32 shift)) by lia.
  rewrite Z.shiftr_div_pow2, Z.shiftl_mul_pow2 by lia.
  assert (add <= UINT32_MAX / 2 ^ shift) by (apply Z.div_le_lower_bound; lia).
  rewrite (proj2 (Z.ltb_ge _ _)) by done.
  rewrite (u32_id (add * 2 ^ shift)) by (unfold_width; nia).
  rewrite (proj2 (Z.ltb_ge _ _)) by lia.
  by rewrite u32_id by (unfold_width; nia).
Qed.

Lemma decode_loop_groups fuel n rest n0 shift count :
  groups_ok fuel n -> 0 <= n0 -> 0 <= shift -> (shift < 32 \/ 0 < n) ->
  n0 + n * 2 ^ shift <= UINT32_MAX ->
  exists sh, decode_loop (group_bytes fuel n ++ rest) n0 shift count =
    mk_decoded (n0 + n * 2 ^ shift) sh true (count + zlen (group_bytes fuel n)).
Proof.
  revert n n0 shift count. induction fuel as [|fuel IH]; intros n n0 shift count Hok Hn0 Hs Hs32 Hle;
    [destruct Hok; lia|].
  pose proof Hok as [_ Hn]. assert (0 < 2 ^ shift) by (apply Z.pow_pos_nonneg; lia).
  assert (shift < 32) as Hs'.
  { destruct Hs32 as [?|Hpos]; [done|]. apply Z.nle_gt. intros C.
    assert (2 ^ 32 <= 2 ^ shift) by (apply Z.pow_le_mono_r; lia). unfold_width. nia. }
  cbn [group_bytes]. destruct (Z.leb_spec 128 n) as [H128|H128].
  - pose proof (Z.mod_pos_bound n 128). pose proof (Z.div_mod n 128).
    destruct (group_bits_more (n mod 128)) as [E1 E2]; [lia|].
    cbn [app length]. rewrite decode_loop_step, E1, E2 by (rewrite ?E1; nia || lia). cbn [Z.eqb].
    destruct (IH (n / 128) (n0 + n mod 128 * 2 ^ shift) (shift + 7) (count + 1)) as [sh Hsh].
    + by apply groups_ok_step.
    + nia.
    + lia.
    + right. apply Z.div_str_pos. lia.
    + rewrite Z.pow_add_r by lia. change (2 ^ 7) with 128. nia.
    + exists sh. cbn zeta. rewrite Hsh. rewrite Z.pow_add_r by lia. change (2 ^ 7) with 128. f_equal; nia.
  - destruct (group_bits_last n) as [E1 E2]; [lia|]. exists shift.
    cbn [app length]. rewrite decode_loop_step, E1, E2 by (rewrite ?E1; lia). done.
Qed.

(** The first octet, read back. *)
Lemma read_prefix hi n prefix : 0 < prefix <= 8 -> hi mod 2 ^ prefix = 0 -> 0 <= hi ->
  0 <= n < 2 ^ prefix ->
  u8 (Z.shiftl 1 prefix - 1) = 2 ^ prefix - 1 /\ (hi + n) .& (2 ^ prefix - 1) = n.
Proof.
  intros Hp Hmod Hhi Hn. rewrite Z.shiftl_1_l. split.
  - assert (2 ^ prefix <= 2 ^ 8) by (apply Z.pow_le_mono_r; lia). apply u8_id. unfold_width. lia.
  - rewrite land_ones_mod by lia. rewrite <- Z.add_mod_idemp_l, Hmod by lia. by apply Z.mod_small.
Qed.

Lemma decode_length_int_bytes hi n prefix rest :
  0 < prefix <= 8 -> 0 <= hi -> hi mod 2 ^ prefix = 0 -> is_u32 n ->
  exists sh, decode_length 0 0 (int_bytes hi n prefix ++ rest) prefix =
    Some (mk_decoded n sh true (zlen (int_bytes hi n prefix))).
Proof.
  intros Hp Hhi Hmod Hn. assert (2 ^ 1 <= 2 ^ prefix) by (apply Z.pow_le_mono_r; lia).
  unfold decode_length, int_bytes. cbn [Z.eqb].
  destruct (Z.ltb_spec n (2 ^ prefix - 1)) as [Hlt|Hge]; cbn [app].
  - destruct (read_prefix hi n prefix) as [-> ->]; [done..|unfold_width; lia|].
    rewrite (proj2 (Z.eqb_neq _ _)) by lia. by exists 0.
  - destruct (read_prefix hi (2 ^ prefix - 1) prefix) as [-> ->]; [done..|lia|].
    rewrite Z.eqb_refl. cbn [negb].
    destruct (decode_loop_groups groups_fuel (n - (2 ^ prefix - 1)) rest (2 ^ prefix - 1) 0 1)
      as [sh Hsh]; [apply groups_ok_u64; unfold_width; lia|lia|lia|lia|unfold_width; lia|].
    exists sh. destruct (group_bytes groups_fuel (n - (2 ^ prefix - 1)) ++ rest) eqn:E.
    + exfalso. apply app_nil in E as [E _]. revert E. unfold groups_fuel. cbn [group_bytes].
      by destruct (128 <=? _).
    + rewrite Hsh. cbn [length]. do 2 f_equal; lia.
Qed.

(** ** Resuming at any octet *)

Lemma decode_loop_cases a b n shift c :
  (decode_loop (a ++ b) n shift c = decode_loop a n shift c /\
   (d_rv (decode_loop a n shift c) = -1 \/
    (d_fin (decode_loop a n shift c) = true /\ d_rv (decode_loop a n shift c) <= c + zlen a))) \/
  (d_fin (decode_loop a n shift c) = false /\ d_rv (decode_loop a n shift c) = c + zlen a /\
   (is_u32 n -> n <= d_res (decode_loop a n shift c) /\ is_u32 (d_res (decode_loop a n shift c))) /\
   decode_loop (a ++ b) n shift c =
     decode_loop b (d_res (decode_loop a n shift c)) (d_shift (decode_loop a n shift c)) (c + zlen a)).
Proof.
  revert n shift c. induction a as [|x a IH]; intros n shift c; cbn [decode_loop app].
  { right. simpl. rewrite Z.add_0_r. split_and!; try done; intros []; lia. }
  destruct (32 <=? shift); [by left; simpl; auto|].
  destruct (_ <? _); [by left; simpl; auto|].
  destruct (Z.ltb_spec (UINT32_MAX - u32 (Z.shiftl (x .& 127) shift)) n); [by left; simpl; auto|].
  destruct (_ =? 0).
  { left. simpl. split; [done|]. right. split; [done|]. lia. }
  pose proof (u32_range (Z.shiftl (x .& 127) shift)) as Hadd.
  set (add := u32 (Z.shiftl (x .& 127) shift)) in *.
  destruct (IH (u32 (n + add)) (shift + 7) (c + 1)) as [[H1 H2]|(H1 & H2 & H3 & H4)].
  - left. split; [done|]. cbn [length]. rewrite Nat2Z.inj_succ. destruct H2 as [?|[? ?]]; [by left|].
    right. split; [done|lia].
  - right. cbn [length]. rewrite Nat2Z.inj_succ. split_and!; [done|lia| |].
    + intros Hn. rewrite u32_id in * by (unfold_width; lia).
      destruct H3 as [H3 H5]; [unfold_width; lia|]. split; [unfold_width; lia|done].
    + rewrite H4. f_equal. lia.
Qed.

Lemma decode_loop_count inp n shift c d : 0 <= c ->
  decode_loop inp n shift (c + d) =
    let r := decode_loop inp n shift c in
    mk_decoded (d_res r) (d_shift r) (d_fin r) (if d_rv r =? -1 then -1 else d_rv r + d).
Proof.
  revert n shift c. induction inp as [|x inp IH]; intros n shift c Hc; cbn [decode_loop].
  { cbn [d_rv d_res d_shift d_fin]. by rewrite (proj2 (Z.eqb_neq c (-1))) by lia. }
  destruct (32 <=? shift); [done|]. destruct (_ <? _); [done|].
  destruct (_ <? _); [done|]. destruct (_ =? 0).
  { cbn [d_rv d_res d_shift d_fin]. rewrite (proj2 (Z.eqb_neq (c + 1) (-1))) by lia. f_equal. lia. }
  replace (c + d + 1) with (c + 1 + d) by lia. apply IH. lia.
Qed.

Lemma decode_loop_from0 inp n shift d :
  decode_loop inp n shift d =
    let r := decode_loop inp n shift 0 in
    mk_decoded (d_res r) (d_shift r) (d_fin r) (if d_rv r =? -1 then -1 else d_rv r + d).
Proof. apply (decode_loop_count inp n shift 0 d). lia. Qed.

(** A split encoding: the first call stops at the end of its input, the second
    one, given what it left behind, completes the integer. *)
Lemma decode_length_resume hi n prefix a b rest :
  0 < prefix <= 8 -> 0 <= hi -> hi mod 2 ^ prefix = 0 -> is_u32 n ->
  int_bytes hi n prefix = a ++ b -> a <> [] -> b <> [] ->
  exists r sh, decode_length 0 0 a prefix = Some r /\
    d_fin r = false /\ d_rv r = zlen a /\ d_res r <> 0 /\
    decode_length (d_res r) (d_shift r) (b ++ rest) prefix =
      Some (mk_decoded n sh true (zlen b)).
Proof.
  intros Hp Hhi Hmod Hn Eab Ha Hb.
  destruct (decode_length_int_bytes hi n prefix rest Hp Hhi Hmod Hn) as [sh Hdec].
  rewrite Eab, <- app_assoc, length_app, Nat2Z.inj_add in Hdec.
  assert (0 < zlen b) as Hlb by (destruct b; [done|simpl; lia]).
  assert (2 ^ 1 <= 2 ^ prefix) by (apply Z.pow_le_mono_r; lia).
  destruct (read_prefix 0 0 prefix) as [Hk _]; [done|by apply Z.mod_0_l; lia|lia|lia|].
  assert (2 ^ prefix <= 2 ^ 8) by (apply Z.pow_le_mono_r; lia).
  destruct a as [|x a]; [done|]. unfold decode_length in *. rewrite Hk in *. cbn [Z.eqb app] in *.
  destruct (negb _). { injection Hdec as ?; simpl in *; lia. }
  set (k := 2 ^ prefix - 1) in *.
  assert (a ++ b ++ rest <> []) as Hne by (destruct a; [destruct b|]; done).
  assert (decode_loop (a ++ b ++ rest) k 0 1 = mk_decoded n sh true (zlen (x :: a) + zlen b)) as Hl
    by (destruct (a ++ b ++ rest); [done|]; by injection Hdec).
  exists (decode_loop a k 0 1), sh. split; [by destruct a|].
  destruct (decode_loop_cases a (b ++ rest) k 0 1) as [[H1 H2]|(H1 & H2 & H3 & H4)].
  { rewrite <- H1, Hl in H2. cbn [length d_rv d_fin] in H2. lia. }
  destruct H3 as [H3 _]; [unfold_width; lia|].
  split_and!; [done|cbn [length]; lia|lia|].
  rewrite (proj2 (Z.eqb_neq _ _)) by lia. rewrite H4, decode_loop_from0 in Hl. cbn zeta in Hl.
  destruct (decode_loop (b ++ rest) _ _ 0) as [r1 s1 f1 v1]. cbn [d_res d_shift d_fin d_rv] in Hl.
  injection Hl as -> -> -> Hv. do 2 f_equal.
  destruct (Z.eqb_spec v1 (-1)); cbn [length] in Hv; lia.
Qed.

(** ** Exactness of what is accepted *)

Fixpoint groups_val (bs : bytes) : Z :=
  match bs with
  | [] => 0
  | c :: bs => (c .& 0x7f) + 128 * groups_val bs
  end.

Lemma decode_loop_exact inp n shift r : is_bytes inp -> is_u32 n -> 0 <= shift ->
  decode_loop inp n shift 0 = r -> d_rv r <> -1 ->
  0 <= d_rv r <= zlen inp /\ is_u32 (d_res r) /\
  d_res r = n + 2 ^ shift * groups_val (take (Z.to_nat (d_rv r)) inp) /\
  (d_fin r = false -> d_rv r = zlen inp).
Proof.
  revert n shift r. induction inp as [|c inp IH]; intros n shift r Hb Hn Hs <- Hrv.
  { simpl. split_and!; try done; lia. }
  apply Forall_cons in Hb as [Hc Hb].
  assert (0 <= c .& 127 < 128) as Hadd.
  { change 127 with (2 ^ 7 - 1). rewrite land_ones_mod by lia. apply Z.mod_pos_bound. lia. }
  cbn [decode_loop] in *. destruct (Z.leb_spec 32 shift); [done|].
  destruct (Z.ltb_spec (Z.shiftr UINT32_MAX shift) (c .& 127)) as [|Hfit]; [done|].
  assert (0 < 2 ^ shift) by (apply Z.pow_pos_nonneg; lia).
  rewrite Z.shiftr_div_pow2 in Hfit by lia.
  assert ((c .& 127) * 2 ^ shift <= UINT32_MAX).
  { pose proof (Z.mul_div_le UINT32_MAX (2 ^ shift)). nia. }
  rewrite Z.shiftl_mul_pow2 in * by lia. rewrite (u32_id ((c .& 127) * 2 ^ shift)) in * by (unfold_width; nia).
  destruct (Z.ltb_spec (UINT32_MAX - (c .& 127) * 2 ^ shift) n); [done|].
  rewrite (u32_id (n + _)) in * by (unfold_width; nia).
  destruct (_ =? 0).
  { cbn [d_rv d_res d_fin length]. change (Z.to_nat (0 + 1)) with 1%nat. cbn [take groups_val].
    rewrite take_0. cbn [groups_val]. split_and!; try done; try lia; unfold_width; nia. }
  change (0 + 1) with 1 in *. rewrite decode_loop_from0 in *. cbn zeta in *.
  destruct (decode_loop inp (n + (c .& 127) * 2 ^ shift) (shift + 7) 0) as [r1 s1 f1 v1] eqn:E.
  cbn [d_res d_shift d_fin d_rv] in *. destruct (Z.eqb_spec v1 (-1)); [done|].
  apply IH in E as (G1 & G2 & G3 & G4); [|done|unfold_width; nia|lia|done].
  cbn [d_res d_fin d_rv length] in *.
  replace (Z.to_nat (v1 + 1)) with (S (Z.to_nat v1)) by lia. cbn [take groups_val].
  rewrite Z.pow_add_r in G3 by lia. change (2 ^ 7) with 128 in G3.
  split_and!; try done; try lia; try apply G2; try nia; intros F; rewrite G4 by done; lia.
Qed.

(** Whatever the input, the decoder stays in 32 bits and reads at least one
    octet and at most the input. *)
Lemma decode_loop_range inp n shift c :
  is_u32 n -> let r := decode_loop inp n shift c in
  d_rv r = -1 \/
  (is_u32 (d_res r) /\ c + Z.min 1 (zlen inp) <= d_rv r <= c + zlen inp /\
   (d_fin r = false -> d_rv r = c + zlen inp) /\ n <= d_res r).
Proof.
  revert n shift c. induction inp as [|x inp IH]; intros n shift c Hn; cbn [decode_loop length].
  { right. simpl. split; [done|]. split; [lia|]. split; [|lia]. intros _. lia. }
  destruct (_ <=? _); [by left|]. destruct (_ <? _); [by left|].
  destruct (Z.ltb_spec (UINT32_MAX - u32 (Z.shiftl (x .& 127) shift)) n) as [|Hov]; [by left|].
  pose proof (u32_range (Z.shiftl (x .& 127) shift)) as Hadd.
  set (add := u32 (Z.shiftl (x .& 127) shift)) in *. clearbody add.
  assert (n <= u32 (n + add)) by (rewrite u32_id; cint_lia).
  destruct (_ =? _).
  - right. simpl. split; [apply u32_range|]. split; [lia|]. split; [done|lia].
  - destruct (IH (u32 (n + add)) (shift + 7) (c + 1) (u32_range _)) as [Hm|(H1 & H2 & H3 & H4)];
      [by left|right]. split; [done|]. split; [lia|]. split; [|lia]. intros E. rewrite (H3 E). lia.
Qed.

Lemma decode_length_range initial shift inp prefix :
  inp <> [] -> 0 < prefix <= 8 -> is_bytes inp -> is_u32 initial ->
  exists r, decode_length initial shift inp prefix = Some r /\
    (d_rv r = -1 \/ is_u32 (d_res r) /\ 1 <= d_rv r <= zlen inp /\
       (d_fin r = false -> d_rv r = zlen inp /\ d_res r <> 0)).
Proof.
  intros Hne Hp Hb Hi. unfold decode_length.
  assert (2 ^ 1 <= 2 ^ prefix <= 2 ^ 8) by (split; apply Z.pow_le_mono_r; lia).
  destruct (read_prefix 0 0 prefix) as [-> _]; [done|by apply Z.mod_0_l; lia|lia|lia|].
  set (k := 2 ^ prefix - 1). assert (is_u8 k) as Hk by (subst k; cint_lia).
  destruct inp as [|c inp]; [done|]. destruct (Z.eqb_spec initial 0) as [->|Hnz].
  - destruct (negb _) eqn:E.
    + eexists. split; [done|]. right. simpl. split; [|split; [lia|done]].
      subst k. rewrite land_ones_mod by lia. pose proof (Z.mod_pos_bound c (2 ^ prefix)). cint_lia.
    + destruct inp as [|c' inp]; eexists; (split; [done|]).
      * right. simpl. split; [cint_lia|]. split; [lia|]. intros _. split; [done|]. subst k. lia.
      * destruct (decode_loop_range (c' :: inp) k shift 1) as [Hm|(H1 & H2 & H3 & H4)]; [cint_lia|by left|right].
        cbn [length] in *. split; [done|]. split; [lia|]. intros E'. rewrite (H3 E').
        split; [lia|]. subst k. lia.
  - eexists. split; [done|]. destruct (decode_loop_range (c :: inp) initial shift 0 Hi) as [Hm|(H1 & H2 & H3 & H4)];
      [by left|right]. cbn [length] in *. split; [done|]. split; [lia|].
    intros E. rewrite (H3 E). split; [lia|]. cint_lia.
Qed.

(** The count of octets read is an offset. *)
Definition add_rv (d : Z) (r : decoded) : decoded :=
  mk_decoded (d_res r) (d_shift r) (d_fin r) (if d_rv r =? -1 then -1 else d_rv r + d).

Lemma decode_loop_split inp b n shift c : is_u32 n -> n <> 0 -> 0 <= c ->
  let r := decode_loop inp n shift c in
  decode_loop (inp ++ b) n shift c = r /\ (d_rv r = -1 \/ d_fin r = true) \/
  d_fin r = false /\ d_rv r = c + zlen inp /\ d_res r <> 0 /\
    decode_loop (inp ++ b) n shift c = add_rv (c + zlen inp) (decode_loop b (d_res r) (d_shift r) 0).
Proof.
  intros Hn Hn0 Hc. destruct (decode_loop_cases inp b n shift c) as [[E Hd]|(Hf & Hrv & Hres & E)]; cbv zeta.
  - left. split; [done|]. by destruct Hd as [?|[? _]]; [left|right].
  - right. destruct (Hres Hn) as [Hge _]. split_and!; [done|done|cint_lia|].
    rewrite E. apply (decode_loop_count b _ _ 0 (c + zlen inp)). lia.
Qed.

(** Going on with an integer never makes it smaller. *)
Lemma decode_length_grows initial shift inp prefix r :
  initial <> 0 -> is_u32 initial -> decode_length initial shift inp prefix = Some r ->
  d_rv r = -1 \/ initial <= d_res r.
Proof.
  intros H0 Hu. unfold decode_length. rewrite (proj2 (Z.eqb_neq initial 0)) by done. intros [= <-].
  destruct (decode_loop_range inp initial shift 0 Hu) as [?|(_ & _ & _ & ?)]; [by left|by right].
Qed.

(** Decoding in two steps: the first step fails or finishes as the whole does,
    or leaves a state from which the second continues. *)
Lemma decode_length_split initial shift a b prefix r :
  (initial = 0 -> shift = 0) -> is_u32 initial -> 0 < prefix <= 8 -> b <> [] ->
  decode_length initial shift a prefix = Some r ->
  decode_length initial shift (a ++ b) prefix = Some r /\ (d_rv r = -1 \/ d_fin r = true) \/
  d_fin r = false /\ d_rv r = zlen a /\ d_res r <> 0 /\
    decode_length initial shift (a ++ b) prefix = add_rv (zlen a) <$> decode_length (d_res r) (d_shift r) b prefix.
Proof.
  intros Hsh Hu Hp Hb. unfold decode_length.
  assert (2 ^ 1 <= 2 ^ prefix <= 2 ^ 8) by (split; apply Z.pow_le_mono_r; lia).
  destruct (read_prefix 0 0 prefix) as [-> _]; [done|by apply Z.mod_0_l; lia|lia|lia|].
  assert (is_u32 (2 ^ prefix - 1) /\ 2 ^ prefix - 1 <> 0) as [Hku Hk0] by (split; cint_lia).
  set (k := 2 ^ prefix - 1) in *. clearbody k.
  destruct (Z.eqb_spec initial 0) as [->|Hnz].
  - rewrite (Hsh eq_refl). destruct a as [|c a]; [done|]. cbn [app].
    destruct (negb _); [intros [= <-]; left; split; [done|by right]|].
    destruct a as [|c' a]; cbn [app].
    + intros [= <-]. right. cbn [d_fin d_rv d_res d_shift length]. split_and!; try done.
      rewrite (proj2 (Z.eqb_neq k 0)) by done. cbn [fmap option_fmap option_map].
      destruct b as [|x b]; [done|]. f_equal. apply (decode_loop_count _ _ _ 0). lia.
    + intros Hr. assert (r = decode_loop (c' :: a) k 0 1) as -> by congruence.
      destruct (decode_loop_split (c' :: a) b k 0 1) as [[E Hd]|(Hf & Hrv & Hr0 & E)]; try done.
      * left. cbn [app] in E. by rewrite E.
      * right. cbn [app length] in *. split_and!; [done|rewrite Hrv; lia|done|].
        rewrite (proj2 (Z.eqb_neq _ 0)) by done. rewrite E. cbn [fmap option_fmap option_map].
        do 2 f_equal. lia.
  - intros Hr. assert (r = decode_loop a initial shift 0) as -> by congruence.
    destruct (decode_loop_split a b initial shift 0) as [[E Hd]|(Hf & Hrv & Hr0 & E)]; try done.
    + left. by rewrite E.
    + right. split_and!; [done|lia|done|].
      rewrite (proj2 (Z.eqb_neq _ 0)) by done. rewrite E. cbn [fmap option_fmap option_map].
      do 2 f_equal.
Qed.


(** HPACK integers round trip: for every 32-bit number, every prefix of 1 to
    8 bits and every setting of the bits above it, [encode_length] writes, in a
    scratch array that is large enough, exactly [count_encoded_length] octets
    that keep those bits, and [decode_length] reads the
    number back from them, whatever follows, in one call or in two calls split
    at any octet. *)
Theorem hpack_integer_roundtrip hi n prefix m rest :
  0 < prefix <= 8 -> 0 <= hi < 256 -> hi mod 2 ^ prefix = 0 -> is_u32 n ->
  m !! 0%nat = Some hi -> (11 <= length m)%nat ->
  exists enc m' sh,
    encode_length m n prefix = Some (m', length enc) /\
    m' = enc ++ drop (length enc) m /\
    zlen enc = count_encoded_length n prefix /\
    decode_length 0 0 (enc ++ rest) prefix = Some (mk_decoded n sh true (zlen enc)) /\
    (forall a b, enc = a ++ b -> a <> [] -> b <> [] ->
       exists r sh', decode_length 0 0 a prefix = Some r /\
         d_fin r = false /\ d_rv r = zlen a /\
         decode_length (d_res r) (d_shift r) (b ++ rest) prefix =
           Some (mk_decoded n sh' true (zlen b))).
Proof.
  intros Hp Hhi Hmod Hn Hm Hlen. pose proof (int_bytes_length hi n prefix) as Hl.
  assert (is_u64 n) by (unfold_width; lia).
  destruct (decode_length_int_bytes hi n prefix rest) as [sh Hsh]; [lia..|done|].
  exists (int_bytes hi n prefix). eexists _, sh.
  split_and!; [apply encode_length_spec; done || lia|by rewrite mem_write_0|
    by rewrite (count_encoded_length_spec hi)|done|].
  intros a b E Ha Hb.
  destruct (decode_length_resume hi n prefix a b rest) as (r & sh' & ? & ? & ? & _ & ?);
    [lia..|done|done|done|done|]. eauto 10.
Qed.

Lemma hpack_integer_roundtrip_witness :
  exists enc, encode_length ([0x20] ++ replicate 15 0) 4096 5 =
      Some (enc ++ replicate 13 0, 3%nat) /\
    exists sh, decode_length 0 0 (enc ++ [7]) 5 = Some (mk_decoded 4096 sh true 3).
Proof.
  destruct (hpack_integer_roundtrip 0x20 4096 5 ([0x20] ++ replicate 15 0) [7])
    as (enc & m' & sh & E1 & E2 & E3 & E4 & _); [lia..|reflexivity| |reflexivity|simpl; lia|].
  { vm_compute. split; congruence. }
  exists [0x3f; 0xe1; 0x1f]. split; [vm_compute; reflexivity|]. exists sh.
  change (count_encoded_length 4096 5) with 3 in E3. rewrite <- E3.
  replace [0x3f; 0xe1; 0x1f] with enc; [exact E4|].
  rewrite E2 in E1. vm_compute in E1. destruct enc as [|x [|y [|z [|w enc]]]]; try discriminate.
  simpl in E1. injection E1 as <- <- <-. reflexivity.
Defined.

(** The integer decoder never wraps around: whenever [decode_length] does
    not fail, from scratch or resumed, its result is a 32-bit number and is
    exactly the integer the consumed octets denote (the initial value plus the
    groups of seven bits, least significant first, at the given shift). *)
Theorem decode_length_exact initial shift inp prefix r :
  is_bytes inp -> 0 < prefix <= 8 -> is_u32 initial -> 0 <= shift -> (initial = 0 -> shift = 0) ->
  decode_length initial shift inp prefix = Some r -> d_rv r <> -1 ->
  is_u32 (d_res r) /\ 0 <= d_rv r <= zlen inp /\
  d_res r =
    (if initial =? 0 then
       (mem_get inp 0 .& (2 ^ prefix - 1)) + groups_val (drop 1 (take (Z.to_nat (d_rv r)) inp))
     else initial + 2 ^ shift * groups_val (take (Z.to_nat (d_rv r)) inp)).
Proof.
  intros Hb Hp Hi Hs His Hd Hrv. unfold decode_length in Hd.
  assert (2 ^ 1 <= 2 ^ prefix <= 2 ^ 8) by (split; apply Z.pow_le_mono_r; lia).
  destruct (read_prefix 0 0 prefix) as [Hk _]; [done|by apply Z.mod_0_l; lia|lia|lia|].
  rewrite Hk in Hd. clear Hk. set (k := 2 ^ prefix - 1) in *.
  assert (is_u32 k) by (unfold_width; lia).
  destruct (Z.eqb_spec initial 0) as [E0|E0].
  - rewrite His in Hd by done. destruct inp as [|c inp]; [done|].
    apply Forall_cons in Hb as [Hc Hb]. change (mem_get (c :: inp) 0) with c.
    assert (0 <= c .& k < 2 ^ prefix) by (subst k; rewrite land_ones_mod by lia; apply Z.mod_pos_bound; lia).
    destruct (Z.eqb_spec (c .& k) k) as [Ek|Ek]; cbn [negb] in Hd.
    + destruct inp as [|c2 inp].
      { injection Hd as <-. cbn [d_res d_rv length]. rewrite Ek. change (Z.to_nat 1) with 1%nat.
        cbn [take drop groups_val]. split_and!; try done; lia. }
      assert (decode_loop (c2 :: inp) k 0 1 = r) as <- by congruence. clear Hd.
      rewrite decode_loop_from0 in *. cbn zeta in *.
      destruct (decode_loop (c2 :: inp) k 0 0) as [r1 s1 f1 v1] eqn:E.
      cbn [d_res d_shift d_fin d_rv] in *. destruct (Z.eqb_spec v1 (-1)); [done|].
      apply decode_loop_exact in E as (G1 & G2 & G3 & _); [|done|done|lia|done].
      cbn [d_res d_rv length] in *. replace (Z.to_nat (v1 + 1)) with (S (Z.to_nat v1)) by lia.
      cbn [take drop]. rewrite drop_0, Ek. split_and!; try apply G2; lia.
    + injection Hd as <-. cbn [d_res d_rv length]. change (Z.to_nat 1) with 1%nat.
      cbn [take drop]. rewrite take_0, drop_nil. cbn [groups_val]. split_and!; try lia; unfold_width; lia.
  - assert (decode_loop inp initial shift 0 = r) as Hd' by congruence. clear Hd. rename Hd' into Hd.
    apply decode_loop_exact in Hd as (G1 & G2 & G3 & _); [|done..]. done.
Qed.

Lemma decode_length_exact_witness :
  decode_length 31 0 [0x9a; 0x0a] 5 = Some (mk_decoded 1337 7 true 2) /\
  1337 = 31 + 2 ^ 0 * groups_val [0x9a; 0x0a].
Proof.
  split; [vm_compute; reflexivity|].
  apply (decode_length_exact 31 0 [0x9a; 0x0a] 5 (mk_decoded 1337 7 true 2)).
  - apply (bool_decide_unpack _). by vm_compute.
  - lia.
  - vm_compute. split; congruence.
  - lia.
  - lia.
  - vm_compute. reflexivity.
  - simpl. lia.
Defined.
