(* ===== verification/HdToken.v ===== *)
(** * Header field tokens and the static table (nghttp2_hd.c, nghttp2_hd.h)

    The names HPACK knows have small numbers ([nghttp2_token]); the generated
    function [lookup_token] finds the number of a name by its length, its last
    octet and a comparison of the rest.  [lookup_token_sound] shows that a
    token determines the name, which is what lets the compressor compare
    tokens instead of names. *)

From stdpp Require Import strings.
From S2P Require Import Prelude Defs.

(** The octets of a C string literal. *)
Definition str (s : string) : bytes :=
  map (fun c => Z.of_N (Ascii.N_of_ascii c)) (String.list_ascii_of_string s).

(** ** [nghttp2_token] *)

Definition NGHTTP2_TOKEN__AUTHORITY : Z := 0.
Definition NGHTTP2_TOKEN__METHOD : Z := 1.
Definition NGHTTP2_TOKEN__PATH : Z := 3.
Definition NGHTTP2_TOKEN__SCHEME : Z := 5.
Definition NGHTTP2_TOKEN__STATUS : Z := 7.
Definition NGHTTP2_TOKEN_ACCEPT_CHARSET : Z := 14.
Definition NGHTTP2_TOKEN_ACCEPT_ENCODING : Z := 15.
Definition NGHTTP2_TOKEN_ACCEPT_LANGUAGE : Z := 16.
Definition NGHTTP2_TOKEN_ACCEPT_RANGES : Z := 17.
Definition NGHTTP2_TOKEN_ACCEPT : Z := 18.
Definition NGHTTP2_TOKEN_ACCESS_CONTROL_ALLOW_ORIGIN : Z := 19.
Definition NGHTTP2_TOKEN_AGE : Z := 20.
Definition NGHTTP2_TOKEN_ALLOW : Z := 21.
Definition NGHTTP2_TOKEN_AUTHORIZATION : Z := 22.
Definition NGHTTP2_TOKEN_CACHE_CONTROL : Z := 23.
Definition NGHTTP2_TOKEN_CONTENT_DISPOSITION : Z := 24.
Definition NGHTTP2_TOKEN_CONTENT_ENCODING : Z := 25.
Definition NGHTTP2_TOKEN_CONTENT_LANGUAGE : Z := 26.
Definition NGHTTP2_TOKEN_CONTENT_LENGTH : Z := 27.
Definition NGHTTP2_TOKEN_CONTENT_LOCATION : Z := 28.
Definition NGHTTP2_TOKEN_CONTENT_RANGE : Z := 29.
Definition NGHTTP2_TOKEN_CONTENT_TYPE : Z := 30.
Definition NGHTTP2_TOKEN_COOKIE : Z := 31.
Definition NGHTTP2_TOKEN_DATE : Z := 32.
Definition NGHTTP2_TOKEN_ETAG : Z := 33.
Definition NGHTTP2_TOKEN_EXPECT : Z := 34.
Definition NGHTTP2_TOKEN_EXPIRES : Z := 35.
Definition NGHTTP2_TOKEN_FROM : Z := 36.
Definition NGHTTP2_TOKEN_HOST : Z := 37.
Definition NGHTTP2_TOKEN_IF_MATCH : Z := 38.
Definition NGHTTP2_TOKEN_IF_MODIFIED_SINCE : Z := 39.
Definition NGHTTP2_TOKEN_IF_NONE_MATCH : Z := 40.
Definition NGHTTP2_TOKEN_IF_RANGE : Z := 41.
Definition NGHTTP2_TOKEN_IF_UNMODIFIED_SINCE : Z := 42.
Definition NGHTTP2_TOKEN_LAST_MODIFIED : Z := 43.
Definition NGHTTP2_TOKEN_LINK : Z := 44.
Definition NGHTTP2_TOKEN_LOCATION : Z := 45.
Definition NGHTTP2_TOKEN_MAX_FORWARDS : Z := 46.
Definition NGHTTP2_TOKEN_PROXY_AUTHENTICATE : Z := 47.
Definition NGHTTP2_TOKEN_PROXY_AUTHORIZATION : Z := 48.
Definition NGHTTP2_TOKEN_RANGE : Z := 49.
Definition NGHTTP2_TOKEN_REFERER : Z := 50.
Definition NGHTTP2_TOKEN_REFRESH : Z := 51.
Definition NGHTTP2_TOKEN_RETRY_AFTER : Z := 52.
Definition NGHTTP2_TOKEN_SERVER : Z := 53.
Definition NGHTTP2_TOKEN_SET_COOKIE : Z := 54.
Definition NGHTTP2_TOKEN_STRICT_TRANSPORT_SECURITY : Z := 55.
Definition NGHTTP2_TOKEN_TRANSFER_ENCODING : Z := 56.
Definition NGHTTP2_TOKEN_USER_AGENT : Z := 57.
Definition NGHTTP2_TOKEN_VARY : Z := 58.
Definition NGHTTP2_TOKEN_VIA : Z := 59.
Definition NGHTTP2_TOKEN_WWW_AUTHENTICATE : Z := 60.
Definition NGHTTP2_TOKEN_TE : Z := 61.
Definition NGHTTP2_TOKEN_CONNECTION : Z := 62.
Definition NGHTTP2_TOKEN_KEEP_ALIVE : Z := 63.
Definition NGHTTP2_TOKEN_PROXY_CONNECTION : Z := 64.
Definition NGHTTP2_TOKEN_UPGRADE : Z := 65.
Definition NGHTTP2_TOKEN__PROTOCOL : Z := 66.
Definition NGHTTP2_TOKEN_PRIORITY : Z := 67.

Definition NGHTTP2_STATIC_TABLE_LENGTH : Z := 61.
Definition NGHTTP2_HD_ENTRY_OVERHEAD : Z := 32.
Definition NGHTTP2_HD_MAX_NV : Z := 65536.
Definition NGHTTP2_HD_DEFAULT_MAX_BUFFER_SIZE : Z := NGHTTP2_DEFAULT_HEADER_TABLE_SIZE.
Definition NGHTTP2_HD_DEFAULT_MAX_DEFLATE_BUFFER_SIZE : Z := Z.shiftl 1 12.

(** ** The static table *)

Record nghttp2_hd_static_entry := MAKE_STATIC_ENT {
  se_name : bytes;
  se_value : bytes;
  se_token : Z;
  se_hash : Z;
}.

Definition static_table : list nghttp2_hd_static_entry := [
  MAKE_STATIC_ENT (str ":authority") (str "") 0 3153725150;
  MAKE_STATIC_ENT (str ":method") (str "GET") 1 695666056;
  MAKE_STATIC_ENT (str ":method") (str "POST") 1 695666056;
  MAKE_STATIC_ENT (str ":path") (str "/") 3 3292848686;
  MAKE_STATIC_ENT (str ":path") (str "/index.html") 3 3292848686;
  MAKE_STATIC_ENT (str ":scheme") (str "http") 5 2510477674;
  MAKE_STATIC_ENT (str ":scheme") (str "https") 5 2510477674;
  MAKE_STATIC_ENT (str ":status") (str "200") 7 4000288983;
  MAKE_STATIC_ENT (str ":status") (str "204") 7 4000288983;
  MAKE_STATIC_ENT (str ":status") (str "206") 7 4000288983;
  MAKE_STATIC_ENT (str ":status") (str "304") 7 4000288983;
  MAKE_STATIC_ENT (str ":status") (str "400") 7 4000288983;
  MAKE_STATIC_ENT (str ":status") (str "404") 7 4000288983;
  MAKE_STATIC_ENT (str ":status") (str "500") 7 4000288983;
  MAKE_STATIC_ENT (str "accept-charset") (str "") 14 3664010344;
  MAKE_STATIC_ENT (str "accept-encoding") (str "gzip, deflate") 15 3379649177;
  MAKE_STATIC_ENT (str "accept-language") (str "") 16 1979086614;
  MAKE_STATIC_ENT (str "accept-ranges") (str "") 17 1713753958;
  MAKE_STATIC_ENT (str "accept") (str "") 18 136609321;
  MAKE_STATIC_ENT (str "access-control-allow-origin") (str "") 19 2710797292;
  MAKE_STATIC_ENT (str "age") (str "") 20 742476188;
  MAKE_STATIC_ENT (str "allow") (str "") 21 2930878514;
  MAKE_STATIC_ENT (str "authorization") (str "") 22 2436257726;
  MAKE_STATIC_ENT (str "cache-control") (str "") 23 1355326669;
  MAKE_STATIC_ENT (str "content-disposition") (str "") 24 3889184348;
  MAKE_STATIC_ENT (str "content-encoding") (str "") 25 65203592;
  MAKE_STATIC_ENT (str "content-language") (str "") 26 24973587;
  MAKE_STATIC_ENT (str "content-length") (str "") 27 1308181789;
  MAKE_STATIC_ENT (str "content-location") (str "") 28 2302364718;
  MAKE_STATIC_ENT (str "content-range") (str "") 29 3555523146;
  MAKE_STATIC_ENT (str "content-type") (str "") 30 4244048277;
  MAKE_STATIC_ENT (str "cookie") (str "") 31 2007449791;
  MAKE_STATIC_ENT (str "date") (str "") 32 3564297305;
  MAKE_STATIC_ENT (str "etag") (str "") 33 113792960;
  MAKE_STATIC_ENT (str "expect") (str "") 34 2530896728;
  MAKE_STATIC_ENT (str "expires") (str "") 35 1049544579;
  MAKE_STATIC_ENT (str "from") (str "") 36 2513272949;
  MAKE_STATIC_ENT (str "host") (str "") 37 2952701295;
  MAKE_STATIC_ENT (str "if-match") (str "") 38 3597694698;
  MAKE_STATIC_ENT (str "if-modified-since") (str "") 39 2213050793;
  MAKE_STATIC_ENT (str "if-none-match") (str "") 40 2536202615;
  MAKE_STATIC_ENT (str "if-range") (str "") 41 2340978238;
  MAKE_STATIC_ENT (str "if-unmodified-since") (str "") 42 3794814858;
  MAKE_STATIC_ENT (str "last-modified") (str "") 43 3226950251;
  MAKE_STATIC_ENT (str "link") (str "") 44 232457833;
  MAKE_STATIC_ENT (str "location") (str "") 45 200649126;
  MAKE_STATIC_ENT (str "max-forwards") (str "") 46 1826162134;
  MAKE_STATIC_ENT (str "proxy-authenticate") (str "") 47 2709445359;
  MAKE_STATIC_ENT (str "proxy-authorization") (str "") 48 2686392507;
  MAKE_STATIC_ENT (str "range") (str "") 49 4208725202;
  MAKE_STATIC_ENT (str "referer") (str "") 50 3969579366;
  MAKE_STATIC_ENT (str "refresh") (str "") 51 3572655668;
  MAKE_STATIC_ENT (str "retry-after") (str "") 52 3336180598;
  MAKE_STATIC_ENT (str "server") (str "") 53 1085029842;
  MAKE_STATIC_ENT (str "set-cookie") (str "") 54 1848371000;
  MAKE_STATIC_ENT (str "strict-transport-security") (str "") 55 4138147361;
  MAKE_STATIC_ENT (str "transfer-encoding") (str "") 56 3719590988;
  MAKE_STATIC_ENT (str "user-agent") (str "") 57 606444526;
  MAKE_STATIC_ENT (str "vary") (str "") 58 1085005381;
  MAKE_STATIC_ENT (str "via") (str "") 59 1762798611;
  MAKE_STATIC_ENT (str "www-authenticate") (str "") 60 779865858
].

(** [memcmp(s1, s2, n) == 0] *)
Definition memeq (s1 s2 : bytes) (n : nat) : bool := bool_decide (take n s1 = take n s2).

Definition lookup_token (name : bytes) : Z :=
  let namelen := zlen name in
  if namelen =? 2 then
    let c := mem_get name 1 in
    if c =? 101 (* e *) then
      if memeq (str "t") name 1 then NGHTTP2_TOKEN_TE
      else -1
    else -1
  else
  if namelen =? 3 then
    let c := mem_get name 2 in
    if c =? 97 (* a *) then
      if memeq (str "vi") name 2 then NGHTTP2_TOKEN_VIA
      else -1
    else if c =? 101 (* e *) then
      if memeq (str "ag") name 2 then NGHTTP2_TOKEN_AGE
      else -1
    else -1
  else
  if namelen =? 4 then
    let c := mem_get name 3 in
    if c =? 101 (* e *) then
      if memeq (str "dat") name 3 then NGHTTP2_TOKEN_DATE
      else -1
    else if c =? 103 (* g *) then
      if memeq (str "eta") name 3 then NGHTTP2_TOKEN_ETAG
      else -1
    else if c =? 107 (* k *) then
      if memeq (str "lin") name 3 then NGHTTP2_TOKEN_LINK
      else -1
    else if c =? 109 (* m *) then
      if memeq (str "fro") name 3 then NGHTTP2_TOKEN_FROM
      else -1
    else if c =? 116 (* t *) then
      if memeq (str "hos") name 3 then NGHTTP2_TOKEN_HOST
      else -1
    else if c =? 121 (* y *) then
      if memeq (str "var") name 3 then NGHTTP2_TOKEN_VARY
      else -1
    else -1
  else
  if namelen =? 5 then
    let c := mem_get name 4 in
    if c =? 101 (* e *) then
      if memeq (str "rang") name 4 then NGHTTP2_TOKEN_RANGE
      else -1
    else if c =? 104 (* h *) then
      if memeq (str ":pat") name 4 then NGHTTP2_TOKEN__PATH
      else -1
    else if c =? 119 (* w *) then
      if memeq (str "allo") name 4 then NGHTTP2_TOKEN_ALLOW
      else -1
    else -1
  else
  if namelen =? 6 then
    let c := mem_get name 5 in
    if c =? 101 (* e *) then
      if memeq (str "cooki") name 5 then NGHTTP2_TOKEN_COOKIE
      else -1
    else if c =? 114 (* r *) then
      if memeq (str "serve") name 5 then NGHTTP2_TOKEN_SERVER
      else -1
    else if c =? 116 (* t *) then
      if memeq (str "accep") name 5 then NGHTTP2_TOKEN_ACCEPT
      else if memeq (str "expec") name 5 then NGHTTP2_TOKEN_EXPECT
      else -1
    else -1
  else
  if namelen =? 7 then
    let c := mem_get name 6 in
    if c =? 100 (* d *) then
      if memeq (str ":metho") name 6 then NGHTTP2_TOKEN__METHOD
      else -1
    else if c =? 101 (* e *) then
      if memeq (str ":schem") name 6 then NGHTTP2_TOKEN__SCHEME
      else if memeq (str "upgrad") name 6 then NGHTTP2_TOKEN_UPGRADE
      else -1
    else if c =? 104 (* h *) then
      if memeq (str "refres") name 6 then NGHTTP2_TOKEN_REFRESH
      else -1
    else if c =? 114 (* r *) then
      if memeq (str "refere") name 6 then NGHTTP2_TOKEN_REFERER
      else -1
    else if c =? 115 (* s *) then
      if memeq (str ":statu") name 6 then NGHTTP2_TOKEN__STATUS
      else if memeq (str "expire") name 6 then NGHTTP2_TOKEN_EXPIRES
      else -1
    else -1
  else
  if namelen =? 8 then
    let c := mem_get name 7 in
    if c =? 101 (* e *) then
      if memeq (str "if-rang") name 7 then NGHTTP2_TOKEN_IF_RANGE
      else -1
    else if c =? 104 (* h *) then
      if memeq (str "if-matc") name 7 then NGHTTP2_TOKEN_IF_MATCH
      else -1
    else if c =? 110 (* n *) then
      if memeq (str "locatio") name 7 then NGHTTP2_TOKEN_LOCATION
      else -1
    else if c =? 121 (* y *) then
      if memeq (str "priorit") name 7 then NGHTTP2_TOKEN_PRIORITY
      else -1
    else -1
  else
  if namelen =? 9 then
    let c := mem_get name 8 in
    if c =? 108 (* l *) then
      if memeq (str ":protoco") name 8 then NGHTTP2_TOKEN__PROTOCOL
      else -1
    else -1
  else
  if namelen =? 10 then
    let c := mem_get name 9 in
    if c =? 101 (* e *) then
      if memeq (str "keep-aliv") name 9 then NGHTTP2_TOKEN_KEEP_ALIVE
      else if memeq (str "set-cooki") name 9 then NGHTTP2_TOKEN_SET_COOKIE
      else -1
    else if c =? 110 (* n *) then
      if memeq (str "connectio") name 9 then NGHTTP2_TOKEN_CONNECTION
      else -1
    else if c =? 116 (* t *) then
      if memeq (str "user-agen") name 9 then NGHTTP2_TOKEN_USER_AGENT
      else -1
    else if c =? 121 (* y *) then
      if memeq (str ":authorit") name 9 then NGHTTP2_TOKEN__AUTHORITY
      else -1
    else -1
  else
  if namelen =? 11 then
    let c := mem_get name 10 in
    if c =? 114 (* r *) then
      if memeq (str "retry-afte") name 10 then NGHTTP2_TOKEN_RETRY_AFTER
      else -1
    else -1
  else
  if namelen =? 12 then
    let c := mem_get name 11 in
    if c =? 101 (* e *) then
      if memeq (str "content-typ") name 11 then NGHTTP2_TOKEN_CONTENT_TYPE
      else -1
    else if c =? 115 (* s *) then
      if memeq (str "max-forward") name 11 then NGHTTP2_TOKEN_MAX_FORWARDS
      else -1
    else -1
  else
  if namelen =? 13 then
    let c := mem_get name 12 in
    if c =? 100 (* d *) then
      if memeq (str "last-modifie") name 12 then NGHTTP2_TOKEN_LAST_MODIFIED
      else -1
    else if c =? 101 (* e *) then
      if memeq (str "content-rang") name 12 then NGHTTP2_TOKEN_CONTENT_RANGE
      else -1
    else if c =? 104 (* h *) then
      if memeq (str "if-none-matc") name 12 then NGHTTP2_TOKEN_IF_NONE_MATCH
      else -1
    else if c =? 108 (* l *) then
      if memeq (str "cache-contro") name 12 then NGHTTP2_TOKEN_CACHE_CONTROL
      else -1
    else if c =? 110 (* n *) then
      if memeq (str "authorizatio") name 12 then NGHTTP2_TOKEN_AUTHORIZATION
      else -1
    else if c =? 115 (* s *) then
      if memeq (str "accept-range") name 12 then NGHTTP2_TOKEN_ACCEPT_RANGES
      else -1
    else -1
  else
  if namelen =? 14 then
    let c := mem_get name 13 in
    if c =? 104 (* h *) then
      if memeq (str "content-lengt") name 13 then NGHTTP2_TOKEN_CONTENT_LENGTH
      else -1
    else if c =? 116 (* t *) then
      if memeq (str "accept-charse") name 13 then NGHTTP2_TOKEN_ACCEPT_CHARSET
      else -1
    else -1
  else
  if namelen =? 15 then
    let c := mem_get name 14 in
    if c =? 101 (* e *) then
      if memeq (str "accept-languag") name 14 then NGHTTP2_TOKEN_ACCEPT_LANGUAGE
      else -1
    else if c =? 103 (* g *) then
      if memeq (str "accept-encodin") name 14 then NGHTTP2_TOKEN_ACCEPT_ENCODING
      else -1
    else -1
  else
  if namelen =? 16 then
    let c := mem_get name 15 in
    if c =? 101 (* e *) then
      if memeq (str "content-languag") name 15 then NGHTTP2_TOKEN_CONTENT_LANGUAGE
      else if memeq (str "www-authenticat") name 15 then NGHTTP2_TOKEN_WWW_AUTHENTICATE
      else -1
    else if c =? 103 (* g *) then
      if memeq (str "content-encodin") name 15 then NGHTTP2_TOKEN_CONTENT_ENCODING
      else -1
    else if c =? 110 (* n *) then
      if memeq (str "content-locatio") name 15 then NGHTTP2_TOKEN_CONTENT_LOCATION
      else if memeq (str "proxy-connectio") name 15 then NGHTTP2_TOKEN_PROXY_CONNECTION
      else -1
    else -1
  else
  if namelen =? 17 then
    let c := mem_get name 16 in
    if c =? 101 (* e *) then
      if memeq (str "if-modified-sinc") name 16 then NGHTTP2_TOKEN_IF_MODIFIED_SINCE
      else -1
    else if c =? 103 (* g *) then
      if memeq (str "transfer-encodin") name 16 then NGHTTP2_TOKEN_TRANSFER_ENCODING
      else -1
    else -1
  else
  if namelen =? 18 then
    let c := mem_get name 17 in
    if c =? 101 (* e *) then
      if memeq (str "proxy-authenticat") name 17 then NGHTTP2_TOKEN_PROXY_AUTHENTICATE
      else -1
    else -1
  else
  if namelen =? 19 then
    let c := mem_get name 18 in
    if c =? 101 (* e *) then
      if memeq (str "if-unmodified-sinc") name 18 then NGHTTP2_TOKEN_IF_UNMODIFIED_SINCE
      else -1
    else if c =? 110 (* n *) then
      if memeq (str "content-dispositio") name 18 then NGHTTP2_TOKEN_CONTENT_DISPOSITION
      else if memeq (str "proxy-authorizatio") name 18 then NGHTTP2_TOKEN_PROXY_AUTHORIZATION
      else -1
    else -1
  else
  if namelen =? 25 then
    let c := mem_get name 24 in
    if c =? 121 (* y *) then
      if memeq (str "strict-transport-securit") name 24 then NGHTTP2_TOKEN_STRICT_TRANSPORT_SECURITY
      else -1
    else -1
  else
  if namelen =? 27 then
    let c := mem_get name 26 in
    if c =? 110 (* n *) then
      if memeq (str "access-control-allow-origi") name 26 then NGHTTP2_TOKEN_ACCESS_CONTROL_ALLOW_ORIGIN
      else -1
    else -1
  else -1.

(** ** Tokens determine names *)

Definition extra_names : list bytes :=
  [str "te"; str "connection"; str "keep-alive"; str "proxy-connection"; str "upgrade"; str ":protocol"; str "priority"].

(** The name a token stands for. *)
Definition token_name (t : Z) : bytes :=
  nth (Z.to_nat t) (map se_name static_table ++ extra_names) [].

(** A name given by its length, its last octet and the rest. *)
Lemma name_of_memeq name s n c :
  length s = n -> zlen name = Z.of_nat (S n) -> mem_get name n = c ->
  memeq s name n = true -> name = s ++ [c].
Proof.
  intros Hs Hlen Hc Hm. apply bool_decide_eq_true in Hm.
  rewrite (take_ge s) in Hm by lia. rewrite <- (take_drop n name), <- Hm. f_equal.
  destruct (drop n name) as [|x [|y r]] eqn:E;
    apply (f_equal length) in E as El; rewrite length_drop in El; simpl in El; try lia.
  f_equal. rewrite <- Hc. unfold mem_get. rewrite <- (take_drop n name), E, app_nth2;
    rewrite length_take; [|lia]. by replace (n - _)%nat with 0%nat by lia.
Qed.

(** A token other than [-1] comes from exactly one name. *)
Lemma lookup_token_sound name : lookup_token name <> -1 -> name = token_name (lookup_token name).
Proof.
  unfold lookup_token. cbv zeta. intros H.
  repeat match goal with
  | H : (if zlen ?n =? ?k then _ else _) <> _ |- _ =>
      destruct (Z.eqb_spec (zlen n) k) as [Hlen|_]
  | H : (if mem_get ?n ?k =? ?c then _ else _) <> _ |- _ =>
      destruct (Z.eqb_spec (mem_get n k) c) as [Hc|_]
  | H : (if memeq ?s ?n ?k then _ else _) <> _ |- _ =>
      destruct (memeq s n k) eqn:?
  | H : -1 <> -1 |- _ => by destruct H
  end;
  (match goal with Hm : memeq _ _ _ = true |- _ =>
     eapply name_of_memeq in Hm; [|reflexivity|done|exact Hc]; rewrite Hm; vm_compute; reflexivity
   end).
Qed.

Lemma lookup_token_range name : -1 <= lookup_token name.
Proof.
  unfold lookup_token. cbv zeta.
  repeat match goal with |- _ <= (if ?b then _ else _) => destruct b end; by vm_compute.
Qed.

(** The table and the function agree on the static names. *)
Lemma static_table_tokens :
  Forall (fun e => lookup_token (se_name e) = se_token e) static_table.
Proof. apply (bool_decide_unpack _). by vm_compute. Qed.
