(* ===== verification/HdTable.v ===== *)
(** * The HPACK dynamic table (nghttp2_hd.c)

    Both compressor and decompressor keep the header fields seen last in a
    ring buffer of pointers to entries; the compressor also links the entries
    into a hash table of 128 buckets to find them by name.  Entries live in a
    heap of their own ([hd_heap]), addressed by the number of the allocator
    call that returned them, so that the links are updated by address as in
    the code.  Names and values are reference-counted and immutable once they
    are in the table: they are modelled by their octets.

    [ctx_rep] relates this to the abstract table of RFC 7541, a list of name
    and value pairs, newest first: insertion evicts from the end exactly what
    does not fit ([fit]), and the size kept in [hd_table_bufsize] is the size
    of the table and never exceeds the maximum. *)

From S2P Require Import Prelude Defs Helper Buf HdToken.

(** Addresses of entries. *)
Abbreviation ptr := nat.

(** [nghttp2_nv]: a header field of the application. *)
Record nghttp2_nv := mk_nv {
  nv_name : bytes;
  nv_value : bytes;
  nv_flags : Z;
}.

Record nghttp2_hd_nv := mk_hd_nv {
  hn_name : bytes;
  hn_value : bytes;
  hn_token : Z;
  hn_flags : Z;
}.

Record nghttp2_hd_entry := mk_hd_entry {
  he_nv : nghttp2_hd_nv;
  he_next : option ptr;
  he_seq : Z;
  he_hash : Z;
}.

Record nghttp2_hd_ringbuf := mk_ring {
  rb_buffer : list (option ptr);
  rb_mask : Z;
  rb_first : Z;
  rb_len : Z;
}.

(** [mem_calls] counts the calls of the allocator [context->mem]. *)
Record nghttp2_hd_context := mk_ctx {
  hd_table : nghttp2_hd_ringbuf;
  hd_heap : gmap ptr nghttp2_hd_entry;
  hd_table_bufsize : Z;
  hd_table_bufsize_max : Z;
  next_seq : Z;
  ctx_bad : bool;
  mem_calls : nat;
}.

Definition HD_MAP_SIZE : Z := 128.

(** [nghttp2_hd_map]: the heads of the bucket lists. *)
Abbreviation nghttp2_hd_map := (list (option ptr)).

Inductive nghttp2_hd_indexing_mode :=
  | NGHTTP2_HD_WITH_INDEXING
  | NGHTTP2_HD_WITHOUT_INDEXING
  | NGHTTP2_HD_NEVER_INDEXING.

#[export] Instance indexing_mode_eq_dec : EqDecision nghttp2_hd_indexing_mode.
Proof. solve_decision. Defined.

(** Field updates. *)
Definition set_next (n : option ptr) (e : nghttp2_hd_entry) : nghttp2_hd_entry :=
  mk_hd_entry (he_nv e) n (he_seq e) (he_hash e).

Definition ctx_set_max (ctx : nghttp2_hd_context) (n : Z) : nghttp2_hd_context :=
  mk_ctx (hd_table ctx) (hd_heap ctx) (hd_table_bufsize ctx) n (next_seq ctx) (ctx_bad ctx)
    (mem_calls ctx).

Definition ctx_set_calls (ctx : nghttp2_hd_context) (calls : nat) : nghttp2_hd_context :=
  mk_ctx (hd_table ctx) (hd_heap ctx) (hd_table_bufsize ctx) (hd_table_bufsize_max ctx)
    (next_seq ctx) (ctx_bad ctx) calls.

Definition ctx_set_bad (ctx : nghttp2_hd_context) : nghttp2_hd_context :=
  mk_ctx (hd_table ctx) (hd_heap ctx) (hd_table_bufsize ctx) (hd_table_bufsize_max ctx)
    (next_seq ctx) true (mem_calls ctx).

Definition nghttp2_hd_entry_init (nv : nghttp2_hd_nv) : nghttp2_hd_entry := mk_hd_entry nv None 0 0.

Definition name_eq (a : nghttp2_hd_nv) (b : nghttp2_nv) : bool :=
  (zlen (hn_name a) =? zlen (nv_name b)) && memeq (hn_name a) (nv_name b) (length (nv_name b)).

Definition value_eq (a : nghttp2_hd_nv) (b : nghttp2_nv) : bool :=
  (zlen (hn_value a) =? zlen (nv_value b)) && memeq (hn_value a) (nv_value b) (length (nv_value b)).

(** 32-bit FNV-1a. *)
Fixpoint name_hash_loop (name : bytes) (h : Z) : Z :=
  match name with
  | [] => h
  | c :: name =>
      let h := h .^ c in
      name_hash_loop name
        (u32 (h + (u32 (Z.shiftl h 1) + u32 (Z.shiftl h 4) + u32 (Z.shiftl h 7) +
                   u32 (Z.shiftl h 8) + u32 (Z.shiftl h 24))))
  end.

Definition name_hash (nv : nghttp2_nv) : Z := name_hash_loop (nv_name nv) 2166136261.

(** ** The hash table of the compressor *)

Definition hd_map_init : nghttp2_hd_map := replicate (Z.to_nat HD_MAP_SIZE) None.

Definition bucket_of (hash : Z) : nat := Z.to_nat (hash .& (HD_MAP_SIZE - 1)).

Definition hd_map_insert (heap : gmap ptr nghttp2_hd_entry) (map : nghttp2_hd_map) (ent : ptr)
    : option (gmap ptr nghttp2_hd_entry * nghttp2_hd_map) :=
  e ← heap !! ent;
  let b := bucket_of (he_hash e) in
  head ← map !! b;
  match head with
  | None => Some (heap, <[b := Some ent]> map)
  | Some _ => Some (<[ent := set_next head e]> heap, <[b := Some ent]> map)
  end.

(** The loop follows the links of a bucket; the fuel is the number of entries. *)
Fixpoint hd_map_find_loop (fuel : nat) (heap : gmap ptr nghttp2_hd_entry) (p res : option ptr)
    (nv : nghttp2_nv) (token hash : Z) (name_only : bool) : option (option ptr * bool) :=
  match p with
  | None => Some (res, false)
  | Some q =>
      match fuel with
      | O => None
      | S fuel =>
          e ← heap !! q;
          if negb (token =? hn_token (he_nv e)) ||
             ((token =? -1) && (negb (hash =? he_hash e) || negb (name_eq (he_nv e) nv)))
          then hd_map_find_loop fuel heap (he_next e) res nv token hash name_only
          else
            let first := match res with None => true | Some _ => false end in
            let res := if first then Some q else res in
            if first && name_only then Some (res, false)
            else if value_eq (he_nv e) nv then Some (Some q, true)
            else hd_map_find_loop fuel heap (he_next e) res nv token hash name_only
      end
  end.

Definition hd_map_find (heap : gmap ptr nghttp2_hd_entry) (map : nghttp2_hd_map) (nv : nghttp2_nv)
    (token hash : Z) (name_only : bool) : option (option ptr * bool) :=
  p ← map !! bucket_of hash;
  hd_map_find_loop (size heap) heap p None nv token hash name_only.

(** [dst] is the address of a [next] field: here, of the one of [prev]. *)
Fixpoint hd_map_remove_loop (fuel : nat) (heap : gmap ptr nghttp2_hd_entry) (prev ent : ptr)
    : option (gmap ptr nghttp2_hd_entry) :=
  match fuel with
  | O => None
  | S fuel =>
      p ← heap !! prev;
      match he_next p with
      | None => Some heap
      | Some q =>
          if decide (q = ent) then
            e ← heap !! ent;
            Some (alter (set_next None) ent (alter (set_next (he_next e)) prev heap))
          else hd_map_remove_loop fuel heap q ent
      end
  end.

Definition hd_map_remove (heap : gmap ptr nghttp2_hd_entry) (map : nghttp2_hd_map) (ent : ptr)
    : option (gmap ptr nghttp2_hd_entry * nghttp2_hd_map) :=
  e ← heap !! ent;
  let b := bucket_of (he_hash e) in
  head ← map !! b;
  match head with
  | None => Some (heap, map)
  | Some q =>
      if decide (q = ent)
      then Some (alter (set_next None) ent heap, <[b := he_next e]> map)
      else heap ← hd_map_remove_loop (size heap) heap q ent; Some (heap, map)
  end.

(** ** The ring buffer *)

(** [for (size = 1; size < bufsize; size <<= 1);] *)
Fixpoint ring_size (fuel : nat) (size bufsize : Z) : Z :=
  match fuel with
  | O => size
  | S fuel => if size <? bufsize then ring_size fuel (Z.shiftl size 1) bufsize else size
  end.

Definition size_fuel : nat := 64.

Definition sizeof_ptr : Z := 8.
Definition sizeof_hd_entry : Z := 96.

Section Table.
Context (malloc : nat -> nat -> option bytes).

(** Whether the [calls]-th call of the allocator succeeds. *)
Definition mem_ok (calls : nat) (size : Z) : bool :=
  match malloc calls (Z.to_nat size) with Some _ => true | None => false end.

Definition hd_ringbuf_init (calls : nat) (bufsize : Z) : option nghttp2_hd_ringbuf :=
  let size := ring_size size_fuel 1 bufsize in
  if mem_ok calls (sizeof_ptr * size)
  then Some (mk_ring (replicate (Z.to_nat size) None) (size - 1) 0 0)
  else None.

(** [assert(idx < ringbuf->len)] *)
Definition hd_ringbuf_get (rb : nghttp2_hd_ringbuf) (idx : Z) : option ptr :=
  guard (idx < rb_len rb);;
  mjoin (rb_buffer rb !! Z.to_nat (u64 (rb_first rb + idx) .& rb_mask rb)).

Definition hd_ringbuf_reserve (calls : nat) (rb : nghttp2_hd_ringbuf) (bufsize : Z)
    : option (nghttp2_hd_ringbuf * nat * Z) :=
  if bufsize <=? rb_mask rb + 1 then Some (rb, calls, 0)
  else
    let size := ring_size size_fuel 1 bufsize in
    if mem_ok calls (sizeof_ptr * size) then
      copied ← mapM (hd_ringbuf_get rb) (seqZ 0 (rb_len rb));
      Some (mk_ring (map Some copied ++ replicate (Z.to_nat (size - rb_len rb)) None)
              (size - 1) 0 (rb_len rb), S calls, 0)
    else Some (rb, S calls, NGHTTP2_ERR_NOMEM).

Definition hd_ringbuf_push_front (calls : nat) (rb : nghttp2_hd_ringbuf) (ent : ptr)
    : option (nghttp2_hd_ringbuf * nat * Z) :=
  '(rb, calls, rv) ← hd_ringbuf_reserve calls rb (rb_len rb + 1);
  if rv =? 0 then
    let first := u64 (rb_first rb - 1) in
    let i := Z.to_nat (first .& rb_mask rb) in
    guard (i < length (rb_buffer rb))%nat;;
    Some (mk_ring (<[i := Some ent]> (rb_buffer rb)) (rb_mask rb) first (rb_len rb + 1), calls, 0)
  else Some (rb, calls, rv).

Definition hd_ringbuf_pop_back (rb : nghttp2_hd_ringbuf) : option nghttp2_hd_ringbuf :=
  guard (0 < rb_len rb);;
  Some (mk_ring (rb_buffer rb) (rb_mask rb) (rb_first rb) (rb_len rb - 1)).

(** ** The context *)

Definition hd_context_init : option nghttp2_hd_context :=
  rb ← hd_ringbuf_init 0 (NGHTTP2_HD_DEFAULT_MAX_BUFFER_SIZE / NGHTTP2_HD_ENTRY_OVERHEAD);
  Some (mk_ctx rb ∅ 0 NGHTTP2_HD_DEFAULT_MAX_BUFFER_SIZE 0 false 1).

Definition entry_room (namelen valuelen : Z) : Z :=
  NGHTTP2_HD_ENTRY_OVERHEAD + namelen + valuelen.

Definition nv_room (nv : nghttp2_hd_nv) : Z := entry_room (zlen (hn_name nv)) (zlen (hn_value nv)).

(** The body of the eviction loops: the oldest entry leaves the ring, the hash
    table (if there is one) and the heap. *)
Definition evict_last (ctx : nghttp2_hd_context) (map : option nghttp2_hd_map)
    : option (nghttp2_hd_context * option nghttp2_hd_map) :=
  let idx := rb_len (hd_table ctx) - 1 in
  ent ← hd_ringbuf_get (hd_table ctx) idx;
  e ← hd_heap ctx !! ent;
  let bufsize := hd_table_bufsize ctx - nv_room (he_nv e) in
  rb ← hd_ringbuf_pop_back (hd_table ctx);
  '(heap, map) ← match map with
    | Some m => '(heap, m) ← hd_map_remove (hd_heap ctx) m ent; Some (heap, Some m)
    | None => Some (hd_heap ctx, None)
    end;
  Some (mk_ctx rb (delete ent heap) bufsize (hd_table_bufsize_max ctx) (next_seq ctx)
          (ctx_bad ctx) (mem_calls ctx), map).

(** [while (bufsize + room > bufsize_max && len > 0)]: at most [len] turns. *)
Fixpoint evict_loop (fuel : nat) (ctx : nghttp2_hd_context) (map : option nghttp2_hd_map) (room : Z)
    : option (nghttp2_hd_context * option nghttp2_hd_map) :=
  if (hd_table_bufsize_max ctx <? hd_table_bufsize ctx + room) && (0 <? rb_len (hd_table ctx)) then
    match fuel with
    | O => None
    | S fuel => '(ctx, map) ← evict_last ctx map; evict_loop fuel ctx map room
    end
  else Some (ctx, map).

Definition add_hd_table_incremental (ctx : nghttp2_hd_context) (nv : nghttp2_hd_nv)
    (map : option nghttp2_hd_map) (hash : Z)
    : option (nghttp2_hd_context * option nghttp2_hd_map * Z) :=
  let room := nv_room nv in
  '(ctx, map) ← evict_loop (Z.to_nat (rb_len (hd_table ctx))) ctx map room;
  if hd_table_bufsize_max ctx <? room then Some (ctx, map, 0)
  else
    let new_ent := mem_calls ctx in
    if mem_ok new_ent sizeof_hd_entry then
      '(rb, calls, rv) ← hd_ringbuf_push_front (S new_ent) (hd_table ctx) new_ent;
      if rv =? 0 then
        let e := nghttp2_hd_entry_init nv in
        let heap := <[new_ent := mk_hd_entry (he_nv e) (he_next e) (next_seq ctx) hash]> (hd_heap ctx) in
        '(heap, map) ← match map with
          | Some m => '(heap, m) ← hd_map_insert heap m new_ent; Some (heap, Some m)
          | None => Some (heap, None)
          end;
        Some (mk_ctx rb heap (hd_table_bufsize ctx + room) (hd_table_bufsize_max ctx)
                (u32 (next_seq ctx + 1)) (ctx_bad ctx) calls, map, 0)
      else Some (ctx_set_calls ctx calls, map, rv)
    else Some (ctx_set_calls ctx (S new_ent), map, NGHTTP2_ERR_NOMEM).

Definition hd_context_shrink_table_size (ctx : nghttp2_hd_context) (map : option nghttp2_hd_map)
    : option (nghttp2_hd_context * option nghttp2_hd_map) :=
  evict_loop (Z.to_nat (rb_len (hd_table ctx))) ctx map 0.

Record search_result := mk_search { sr_index : Z; sr_match : bool }.

(** The static entries of a token are contiguous. *)
Fixpoint search_static_loop (fuel : nat) (nv : nghttp2_nv) (token i : Z) (res : search_result)
    : search_result :=
  match fuel with
  | O => res
  | S fuel =>
      match static_table !! Z.to_nat i with
      | Some ent =>
          if (i <=? NGHTTP2_TOKEN_WWW_AUTHENTICATE) && (se_token ent =? token) then
            if (zlen (se_value ent) =? zlen (nv_value nv)) &&
               memeq (se_value ent) (nv_value nv) (length (nv_value nv))
            then mk_search i true
            else search_static_loop fuel nv token (i + 1) res
          else res
      | None => res
      end
  end.

Definition search_static_table (nv : nghttp2_nv) (token : Z) (name_only : bool) : search_result :=
  let res := mk_search token false in
  if name_only then res
  else search_static_loop (length static_table) nv token token res.

Definition search_hd_table (ctx : nghttp2_hd_context) (nv : nghttp2_nv) (token : Z)
    (indexing_mode : nghttp2_hd_indexing_mode) (map : nghttp2_hd_map) (hash : Z)
    : option search_result :=
  let name_only := bool_decide (indexing_mode = NGHTTP2_HD_NEVER_INDEXING) in
  '(ent, exact_match) ← hd_map_find (hd_heap ctx) map nv token hash name_only;
  if negb exact_match && (0 <=? token) && (token <=? NGHTTP2_TOKEN_WWW_AUTHENTICATE)
  then Some (search_static_table nv token name_only)
  else
    match ent with
    | None => Some (mk_search (-1) false)
    | Some p =>
        e ← hd_heap ctx !! p;
        Some (mk_search (u32 (next_seq ctx - 1 - he_seq e + NGHTTP2_STATIC_TABLE_LENGTH)) exact_match)
    end.

Definition get_max_index (ctx : nghttp2_hd_context) : Z :=
  rb_len (hd_table ctx) + NGHTTP2_STATIC_TABLE_LENGTH.

Definition INDEX_RANGE_VALID (ctx : nghttp2_hd_context) (idx : Z) : bool :=
  idx <? rb_len (hd_table ctx) + NGHTTP2_STATIC_TABLE_LENGTH.

(** [assert(INDEX_RANGE_VALID(context, idx))] *)
Definition nghttp2_hd_table_get (ctx : nghttp2_hd_context) (idx : Z) : option nghttp2_hd_nv :=
  if INDEX_RANGE_VALID ctx idx then
    if NGHTTP2_STATIC_TABLE_LENGTH <=? idx then
      p ← hd_ringbuf_get (hd_table ctx) (idx - NGHTTP2_STATIC_TABLE_LENGTH);
      he_nv <$> hd_heap ctx !! p
    else
      ent ← static_table !! Z.to_nat idx;
      Some (mk_hd_nv (se_name ent) (se_value ent) (se_token ent) NGHTTP2_NV_FLAG_NONE)
  else None.

(** The outer option is the assertion, the inner one the returned pointer. *)
Definition hd_get_table_entry (ctx : nghttp2_hd_context) (idx : Z) : option (option nghttp2_nv) :=
  if idx =? 0 then Some None
  else
    let idx := idx - 1 in
    if negb (INDEX_RANGE_VALID ctx idx) then Some None
    else
      nv ← nghttp2_hd_table_get ctx idx;
      Some (Some (mk_nv (hn_name nv) (hn_value nv) (hn_flags nv))).

End Table.

(** ** The ring buffer represents a list *)

(** [k] is the logarithm of the capacity. *)
Record ring_rep (rb : nghttp2_hd_ringbuf) (ls : list ptr) : Prop := {
  rr_pow : exists k, 0 <= k <= 63 /\ rb_mask rb = 2 ^ k - 1 /\ zlen (rb_buffer rb) = 2 ^ k;
  rr_len : rb_len rb = zlen ls;
  rr_room : rb_len rb <= rb_mask rb + 1;
  rr_first : is_u64 (rb_first rb);
  rr_get : forall i p, ls !! i = Some p ->
    rb_buffer rb !! Z.to_nat ((rb_first rb + Z.of_nat i) mod (rb_mask rb + 1)) = Some (Some p);
}.

Lemma u64_mod_pow z k : 0 <= k <= 63 -> u64 z mod 2 ^ k = z mod 2 ^ k.
Proof.
  intros. unfold u64.
  replace (2 ^ 64) with (2 ^ k * 2 ^ (64 - k)) by (rewrite <- Z.pow_add_r by lia; f_equal; lia).
  assert (0 < 2 ^ k) by (apply Z.pow_pos_nonneg; lia).
  assert (0 < 2 ^ (64 - k)) by (apply Z.pow_pos_nonneg; lia).
  rewrite Z.rem_mul_r by lia. rewrite Z.mul_comm, Z_mod_plus_full. by rewrite Z.mod_mod by lia.
Qed.

Lemma u64_mask z k : 0 <= k <= 63 -> u64 z .& (2 ^ k - 1) = z mod 2 ^ k.
Proof. intros. rewrite land_ones_mod by lia. by apply u64_mod_pow. Qed.

Lemma ring_size_spec fuel j b : 0 <= j -> b <= 2 ^ (j + Z.of_nat fuel) ->
  exists k, j <= k /\ ring_size fuel (2 ^ j) b = 2 ^ k /\ b <= 2 ^ k /\ (k = j \/ 2 ^ (k - 1) < b).
Proof.
  revert j. induction fuel as [|fuel IH]; intros j Hj Hb; cbn [ring_size].
  { exists j. rewrite Z.add_0_r in Hb. auto with lia. }
  destruct (Z.ltb_spec (2 ^ j) b) as [Hlt|Hge]; [|exists j; auto with lia].
  rewrite Z.shiftl_mul_pow2 by lia. change (2 ^ 1) with 2. rewrite Z.mul_comm, <- Z.pow_succ_r by lia.
  destruct (IH (Z.succ j)) as (k & Hk & E & Hbk & Hmin); [lia| |].
  { replace (Z.succ j + Z.of_nat fuel) with (j + Z.of_nat (S fuel)) by lia. done. }
  exists k. split_and!; [lia|done|done|]. right.
  destruct Hmin as [->|?]; [|done]. by replace (Z.succ j - 1) with j by lia.
Qed.

Lemma ring_size_pow b : b <= 2 ^ 62 ->
  exists k, 0 <= k <= 63 /\ ring_size size_fuel 1 b = 2 ^ k /\ b <= 2 ^ k.
Proof.
  intros Hb. destruct (ring_size_spec size_fuel 0 b) as (k & Hk & E & Hbk & Hmin); [lia| |].
  { change (2 ^ (0 + Z.of_nat size_fuel)) with (2 ^ 64). lia. }
  exists k. split_and!; [done| |done|done]. destruct Hmin as [->|Hmin]; [lia|].
  apply Z.nlt_ge. intros C. assert (2 ^ 63 <= 2 ^ (k - 1)) by (apply Z.pow_le_mono_r; lia). lia.
Qed.

Lemma ring_init_rep malloc calls b rb : b <= 2 ^ 62 ->
  hd_ringbuf_init malloc calls b = Some rb -> ring_rep rb [].
Proof.
  intros Hb. unfold hd_ringbuf_init. destruct (ring_size_pow b Hb) as (k & Hk & -> & _).
  assert (0 < 2 ^ k) by (apply Z.pow_pos_nonneg; lia).
  destruct (mem_ok _ _ _); [|done]. intros [= <-]. split; simpl; try done.
  - exists k. split; [done|]. split; [done|]. rewrite length_replicate. lia.
  - lia.
Qed.

Lemma ring_get rb ls i p : ring_rep rb ls -> ls !! i = Some p ->
  hd_ringbuf_get rb (Z.of_nat i) = Some p.
Proof.
  intros [(k & Hk & Hm & Hb) Hl Hr Hf Hg] Hi. unfold hd_ringbuf_get.
  pose proof (lookup_lt_Some _ _ _ Hi). rewrite option_guard_True by lia.
  rewrite Hm in *. rewrite u64_mask by done. specialize (Hg i p Hi).
  replace (2 ^ k - 1 + 1) with (2 ^ k) in Hg by lia. by rewrite Hg.
Qed.

Lemma ring_get_all rb ls : ring_rep rb ls ->
  mapM (hd_ringbuf_get rb) (seqZ 0 (rb_len rb)) = Some ls.
Proof.
  intros Hr. apply mapM_Some. rewrite (rr_len _ _ Hr). apply Forall2_same_length_lookup.
  split; [rewrite length_seqZ; lia|]. intros i x p Hx Hp.
  apply lookup_seqZ in Hx as [-> _]. rewrite Z.add_0_l. by eapply ring_get.
Qed.

Lemma mem_ok_false malloc calls n : mem_ok malloc calls n = false -> can_fail malloc.
Proof. unfold mem_ok. intros H. exists calls, (Z.to_nat n). by destruct (malloc _ _). Qed.

Lemma ring_reserve malloc calls rb ls b :
  ring_rep rb ls -> zlen ls <= b <= 2 ^ 62 ->
  exists rb' calls' rv, hd_ringbuf_reserve malloc calls rb b = Some (rb', calls', rv) /\
    ring_rep rb' ls /\ (calls <= calls')%nat /\
    (rv = 0 -> b <= rb_mask rb' + 1) /\ (rv <> 0 -> rv = NGHTTP2_ERR_NOMEM /\ rb' = rb /\ can_fail malloc).
Proof.
  intros Hr Hb. unfold hd_ringbuf_reserve.
  destruct (Z.leb_spec b (rb_mask rb + 1)) as [|Hlt].
  { eexists _, _, _. split; [done|]. split_and!; try done. }
  destruct (mem_ok _ _ _) eqn:Hm.
  2:{ apply mem_ok_false in Hm. eexists _, _, _. split; [done|]. split_and!; try done. lia. }
  rewrite ring_get_all with (ls := ls) by done. cbn [mbind option_bind].
  destruct (ring_size_pow b) as (k & Hk & -> & Hbk); [lia|].
  pose proof (rr_len _ _ Hr) as Hl. assert (0 < 2 ^ k) by (apply Z.pow_pos_nonneg; lia).
  eexists _, _, _. split; [done|]. split_and!; simpl; try lia.
  split; simpl; try done; try lia.
  - exists k. split_and!; try lia. rewrite length_app, length_map, length_replicate. lia.
  - intros i p Hi. pose proof (lookup_lt_Some _ _ _ Hi).
    rewrite Z.add_0_l, Z.mod_small by lia. rewrite Nat2Z.id, lookup_app_l by (rewrite length_map; lia).
    by rewrite list_lookup_fmap, Hi.
Qed.

Lemma ring_push malloc calls rb ls p :
  ring_rep rb ls -> zlen ls + 1 <= 2 ^ 62 ->
  exists rb' calls' rv, hd_ringbuf_push_front malloc calls rb p = Some (rb', calls', rv) /\
    (calls <= calls')%nat /\
    (rv = 0 -> ring_rep rb' (p :: ls)) /\ (rv <> 0 -> rv = NGHTTP2_ERR_NOMEM /\ rb' = rb /\ can_fail malloc).
Proof.
  intros Hr Hb. unfold hd_ringbuf_push_front. rewrite (rr_len _ _ Hr).
  destruct (ring_reserve malloc calls rb ls (zlen ls + 1)) as
    (rb' & calls' & rv & -> & Hr' & Hc & Hok & Herr); [done|lia|]. cbn [mbind option_bind].
  destruct (Z.eqb_spec rv 0) as [->|Hne].
  2:{ eexists _, _, _. split; [done|]. split_and!; try done. }
  specialize (Hok eq_refl). destruct Hr' as [(k & Hk & Hm & Hbuf) Hl Hroom Hf Hg].
  rewrite Hm in *. rewrite u64_mask by done. replace (2 ^ k - 1 + 1) with (2 ^ k) in * by lia.
  assert (0 < 2 ^ k) by (apply Z.pow_pos_nonneg; lia).
  pose proof (Z.mod_pos_bound (rb_first rb' - 1) (2 ^ k)).
  rewrite option_guard_True by lia. eexists _, _, _. split; [done|]. split_and!; [done| |done].
  intros _. split; simpl; [exists k; rewrite length_insert; done|simpl; lia|lia|apply u64_range|].
  replace (2 ^ k - 1 + 1) with (2 ^ k) by lia.
  assert (forall z, (u64 (rb_first rb' - 1) + z) mod 2 ^ k = (rb_first rb' - 1 + z) mod 2 ^ k) as Hu.
  { intros z. rewrite <- Z.add_mod_idemp_l, u64_mod_pow by lia. by rewrite Z.add_mod_idemp_l by lia. }
  intros [|i] q Hi; simpl in Hi; rewrite Hu.
  - injection Hi as ->. rewrite Z.add_0_r. rewrite list_lookup_insert_eq by lia. done.
  - pose proof (lookup_lt_Some _ _ _ Hi).
    replace (rb_first rb' - 1 + Z.of_nat (S i)) with (rb_first rb' + Z.of_nat i) by lia.
    rewrite list_lookup_insert_ne; [by apply Hg|]. intros E.
    pose proof (Z.mod_pos_bound (rb_first rb' + Z.of_nat i) (2 ^ k)).
    assert ((rb_first rb' - 1) mod 2 ^ k = (rb_first rb' + Z.of_nat i) mod 2 ^ k) as E' by lia.
    pose proof (Z.div_mod (rb_first rb' - 1) (2 ^ k)). pose proof (Z.div_mod (rb_first rb' + Z.of_nat i) (2 ^ k)).
    set (a := (rb_first rb' - 1) / 2 ^ k) in *. set (c := (rb_first rb' + Z.of_nat i) / 2 ^ k) in *.
    assert (2 ^ k * (c - a) = Z.of_nat i + 1) by lia. assert (0 < c - a) by nia. nia.
Qed.

Lemma ring_pop rb ls p : ring_rep rb (ls ++ [p]) ->
  exists rb', hd_ringbuf_pop_back rb = Some rb' /\ ring_rep rb' ls.
Proof.
  intros [Hp Hl Hroom Hf Hg]. rewrite length_app in Hl. simpl in Hl. unfold hd_ringbuf_pop_back.
  rewrite option_guard_True by lia. eexists. split; [done|].
  split; simpl; try done; try lia.
  intros i q Hi. apply Hg. by apply lookup_app_l_Some.
Qed.

(** ** The hash table represents the same list, split by bucket *)

(** [p] heads the linked list of the addresses [l]. *)
Fixpoint links (heap : gmap ptr nghttp2_hd_entry) (p : option ptr) (l : list ptr) : Prop :=
  match l with
  | [] => p = None
  | q :: l => p = Some q /\ exists e, heap !! q = Some e /\ links heap (he_next e) l
  end.

Definition bucket_at (heap : gmap ptr nghttp2_hd_entry) (p : ptr) : option nat :=
  (fun e => bucket_of (he_hash e)) <$> heap !! p.

Definition in_bucket (heap : gmap ptr nghttp2_hd_entry) (b : nat) (ls : list ptr) : list ptr :=
  filter (fun p => bucket_at heap p = Some b) ls.

Record map_rep (heap : gmap ptr nghttp2_hd_entry) (ls : list ptr) (map : nghttp2_hd_map) : Prop := {
  mr_len : length map = 128%nat;
  mr_links : forall b h, map !! b = Some h -> links heap h (in_bucket heap b ls);
}.

Lemma bucket_of_lt hash : (bucket_of hash < 128)%nat.
Proof.
  unfold bucket_of, HD_MAP_SIZE. change (128 - 1) with (2 ^ 7 - 1).
  rewrite land_ones_mod by lia. pose proof (Z.mod_pos_bound hash (2 ^ 7)). lia.
Qed.

Lemma links_ext heap heap' p l :
  (forall q, q ∈ l -> heap !! q = heap' !! q) -> links heap p l -> links heap' p l.
Proof.
  revert p. induction l as [|q l IH]; intros p Heq; simpl; [done|].
  intros (-> & e & He & Hl). split; [done|]. exists e.
  rewrite <- Heq by set_solver. split; [done|]. apply IH; [set_solver|done].
Qed.

Lemma in_bucket_ext heap heap' b ls :
  (forall q, q ∈ ls -> bucket_at heap q = bucket_at heap' q) -> in_bucket heap b ls = in_bucket heap' b ls.
Proof.
  intros Heq. unfold in_bucket. induction ls as [|q ls IH]; [done|].
  rewrite !filter_cons, Heq, IH by set_solver. done.
Qed.

Lemma elem_of_in_bucket heap b ls p :
  p ∈ in_bucket heap b ls <-> bucket_at heap p = Some b /\ p ∈ ls.
Proof. unfold in_bucket. by rewrite list_elem_of_filter. Qed.

(** A new entry at the front. *)
Lemma hd_map_insert_rep heap ls map p e :
  map_rep heap ls map -> p ∉ ls -> he_next e = None ->
  exists heap' map', hd_map_insert (<[p := e]> heap) map p = Some (heap', map') /\
    map_rep heap' (p :: ls) map' /\
    (forall q, q <> p -> heap' !! q = heap !! q) /\
    (exists n, heap' !! p = Some (set_next n e)) /\ dom heap' = dom heap ∪ {[p]}.
Proof.
  intros [Hlen Hlinks] Hp Hnext. unfold hd_map_insert. rewrite lookup_insert_eq.
  cbn [mbind option_bind]. pose proof (bucket_of_lt (he_hash e)) as Hb.
  set (b := bucket_of (he_hash e)) in *.
  destruct (lookup_lt_is_Some_2 map b) as [h Hh]; [lia|]. rewrite Hh. cbn [mbind option_bind].
  assert (forall heap', (forall q, q <> p -> heap' !! q = heap !! q) ->
    heap' !! p = Some (set_next h e) -> map_rep heap' (p :: ls) (<[b := Some p]> map)) as Hrep.
  { intros heap' Hq Hp'. split; [by rewrite length_insert|]. intros b' h' Hh'.
    assert (in_bucket heap' b' ls = in_bucket heap b' ls) as Heq.
    { apply in_bucket_ext. intros q Hq'. unfold bucket_at. rewrite Hq by set_solver. done. }
    assert (forall h0 b0, links heap h0 (in_bucket heap b0 ls) -> links heap' h0 (in_bucket heap b0 ls))
      as Hext.
    { intros h0 b0. apply links_ext. intros q [_ Hq']%elem_of_in_bucket. symmetry. apply Hq. set_solver. }
    assert (bucket_at heap' p = Some b) as Hbp by (unfold bucket_at; by rewrite Hp').
    unfold in_bucket in *.
    destruct (decide (b' = b)) as [->|Hne].
    - rewrite list_lookup_insert_eq in Hh' by lia. injection Hh' as <-.
      rewrite filter_cons_True by done. cbn [links]. split; [done|]. exists (set_next h e).
      split; [done|]. rewrite Heq. cbn [he_next set_next]. auto.
    - rewrite list_lookup_insert_ne in Hh' by done. rewrite filter_cons_False by congruence.
      rewrite Heq. auto. }
  destruct h as [h|].
  - eexists _, _. split; [done|]. split_and!.
    + apply Hrep; [intros q Hq; by rewrite !lookup_insert_ne|by rewrite lookup_insert_eq].
    + intros q Hq. by rewrite !lookup_insert_ne.
    + eexists. by rewrite lookup_insert_eq.
    + rewrite !dom_insert_L. set_solver.
  - assert (set_next None e = e) as He by (destruct e; simpl in *; by subst).
    eexists _, _. split; [done|]. split_and!.
    + apply Hrep; [intros q Hq; by rewrite lookup_insert_ne|by rewrite lookup_insert_eq, He].
    + intros q Hq. by rewrite lookup_insert_ne.
    + exists None. by rewrite lookup_insert_eq, He.
    + rewrite dom_insert_L. set_solver.
Qed.

(** Unlinking the last element of a list. *)
Lemma hd_map_remove_loop_spec fuel heap p l ent :
  links heap (Some p) (p :: l ++ [ent]) -> NoDup (p :: l ++ [ent]) -> (length l < fuel)%nat ->
  exists last heap', hd_map_remove_loop fuel heap p ent = Some heap' /\
    last ∈ p :: l /\ heap' = alter (set_next None) ent (alter (set_next None) last heap) /\
    links heap' (Some p) (p :: l).
Proof.
  revert p l. induction fuel as [|fuel IH]; intros p l Hl Hnd Hfuel; [lia|].
  cbn [hd_map_remove_loop]. destruct Hl as (_ & e & He & Hl). rewrite He. cbn [mbind option_bind].
  apply NoDup_cons in Hnd as [Hp Hnd]. destruct l as [|q l].
  - destruct Hl as (Hn & e' & He' & Hn'). rewrite Hn, decide_True, He' by done. cbn [mbind option_bind].
    simpl in Hn'. rewrite Hn'. eexists p, _. split; [done|]. split; [set_solver|]. split; [done|].
    split; [done|]. exists (set_next None e). split; [|done].
    rewrite lookup_alter_ne by set_solver. by rewrite lookup_alter_eq, He.
  - pose proof Hl as (Hn & _). rewrite Hn in *.
    assert (q <> ent) by (apply NoDup_cons in Hnd as [? _]; set_solver).
    rewrite decide_False by done.
    destruct (IH q l) as (last & heap' & -> & Hlast & -> & Hl'); [done|done|simpl in *; lia|].
    eexists last, _. split; [done|]. split; [set_solver|]. split; [done|]. split; [done|].
    exists e. rewrite Hn. split; [|exact Hl'].
    rewrite !lookup_alter_ne by set_solver. done.
Qed.

(** The other buckets do not notice that bucket [b] changed. *)
Lemma map_rep_remove heap heap' ls map p b h' :
  map_rep heap (ls ++ [p]) map -> bucket_at heap p = Some b -> (b < 128)%nat ->
  (forall q, q ∈ ls -> bucket_at heap' q = bucket_at heap q) ->
  (forall q, q ∈ ls -> bucket_at heap q <> Some b -> heap' !! q = heap !! q) ->
  links heap' h' (in_bucket heap b ls) ->
  map_rep heap' ls (<[b := h']> map).
Proof.
  intros [Hlen Hlinks] Hp Hb Hbk Hsame Hl. split; [by rewrite length_insert|]. intros b' h0 Hh0.
  rewrite (in_bucket_ext heap' heap) by done. destruct (decide (b' = b)) as [->|Hne].
  - rewrite list_lookup_insert_eq in Hh0 by lia. by injection Hh0 as <-.
  - rewrite list_lookup_insert_ne in Hh0 by done. specialize (Hlinks b' h0 Hh0).
    unfold in_bucket in Hlinks. rewrite filter_app, filter_cons_False, app_nil_r in Hlinks by congruence.
    eapply links_ext; [|done]. intros q [Hq Hq']%elem_of_in_bucket. symmetry.
    apply Hsame; [done|congruence].
Qed.

Lemma hd_map_remove_rep heap ls map p :
  map_rep heap (ls ++ [p]) map -> NoDup (ls ++ [p]) -> dom heap = list_to_set (ls ++ [p]) ->
  exists heap' map', hd_map_remove heap map p = Some (heap', map') /\
    map_rep (delete p heap') ls map' /\
    (forall q e, q <> p -> heap !! q = Some e -> exists n, heap' !! q = Some (set_next n e)) /\
    dom heap' = dom heap.
Proof.
  intros Hrep Hnd Hdom. pose proof Hrep as [Hlen Hlinks].
  assert (exists e, heap !! p = Some e) as [e He].
  { apply elem_of_dom. rewrite Hdom. set_solver. }
  assert (p ∉ ls) as Hpls by (apply NoDup_app in Hnd as (_ & Hd & _); set_solver).
  unfold hd_map_remove. rewrite He. cbn [mbind option_bind].
  pose proof (bucket_of_lt (he_hash e)) as Hb128. set (b := bucket_of (he_hash e)) in *.
  assert (bucket_at heap p = Some b) as Hbp by (unfold bucket_at; by rewrite He).
  destruct (lookup_lt_is_Some_2 map b) as [h Hh]; [lia|]. rewrite Hh. cbn [mbind option_bind].
  pose proof (Hlinks b h Hh) as Hl. unfold in_bucket in Hl.
  rewrite filter_app, (filter_cons_True _ p) in Hl by done.
  cbn [filter list_filter] in Hl. fold (in_bucket heap b ls) in Hl.
  assert (forall e : nghttp2_hd_entry, set_next (he_next e) e = e) as Hid by (intros []; done).
  destruct (in_bucket heap b ls) as [|q l] eqn:El.
  - destruct Hl as (-> & e' & He' & Hn). rewrite decide_True by done.
    assert (e' = e) as -> by congruence. simpl in Hn. rewrite Hn.
    eexists _, _. split; [done|]. split; [|split].
    + apply (map_rep_remove heap) with (p := p); try done; [| |by rewrite El].
      * intros r Hr. unfold bucket_at. rewrite lookup_delete_ne, lookup_alter_ne by set_solver. done.
      * intros r Hr _. rewrite lookup_delete_ne, lookup_alter_ne by set_solver. done.
    + intros r er Hr Her. exists (he_next er). by rewrite lookup_alter_ne, Hid.
    + apply dom_alter_L.
  - pose proof Hl as (-> & _).
    assert (q ∈ in_bucket heap b ls /\ NoDup (in_bucket heap b ls)) as [Hq Hndl].
    { rewrite El. split; [set_solver|]. rewrite <- El. apply NoDup_app in Hnd as (? & _).
      by apply NoDup_filter. }
    apply elem_of_in_bucket in Hq as [Hqb Hq]. rewrite decide_False by set_solver.
    assert (forall r, r ∈ q :: l -> r ∈ ls /\ bucket_at heap r = Some b) as Hin.
    { intros r Hr. rewrite <- El in Hr. apply elem_of_in_bucket in Hr. tauto. }
    assert (length l < size heap)%nat as Hsz.
    { rewrite <- size_dom, Hdom, size_list_to_set, length_app by done.
      pose proof (length_filter (fun p => bucket_at heap p = Some b) ls) as Hf.
      fold (in_bucket heap b ls) in Hf. rewrite El in Hf. simpl in *. lia. }
    destruct (hd_map_remove_loop_spec (size heap) heap q l p) as (last & heap' & -> & Hlast & -> & Hl');
      [done| |done|].
    { rewrite app_comm_cons. apply NoDup_app. rewrite <- El at 1.
      split; [done|]. split; [|apply NoDup_singleton]. intros r Hr. apply Hin in Hr. set_solver. }
    apply Hin in Hlast as [Hlls Hlb]. cbn [mbind option_bind]. eexists _, _. split; [done|].
    split; [|split].
    + rewrite <- (list_insert_id map b (Some q)) by done.
      apply (map_rep_remove heap) with (p := p); try done.
      * intros r Hr. unfold bucket_at. rewrite lookup_delete_ne, lookup_alter_ne by set_solver.
        destruct (decide (r = last)) as [->|]; [rewrite lookup_alter_eq|by rewrite lookup_alter_ne].
        by destruct (heap !! last).
      * intros r Hr Hrb. rewrite lookup_delete_ne, lookup_alter_ne by set_solver.
        apply lookup_alter_ne. congruence.
      * rewrite El. eapply links_ext; [|exact Hl']. intros r Hr. apply Hin in Hr.
        rewrite lookup_delete_ne; [done|set_solver].
    + intros r er Hr Her. rewrite lookup_alter_ne by done. destruct (decide (r = last)) as [->|].
      * exists None. by rewrite lookup_alter_eq, Her.
      * exists (he_next er). by rewrite lookup_alter_ne, Hid.
    + by rewrite !dom_alter_L.
Qed.

(** ** The context represents an abstract table *)

(** The size of a table (RFC 7541, section 4.1). *)
Definition table_size (nvs : list nghttp2_hd_nv) : Z := foldr (fun nv n => nv_room nv + n) 0 nvs.

(** What stays of a table when its size is limited: the newest entries. *)
Fixpoint fit (max : Z) (nvs : list nghttp2_hd_nv) : list nghttp2_hd_nv :=
  match nvs with
  | [] => []
  | nv :: nvs => if nv_room nv <=? max then nv :: fit (max - nv_room nv) nvs else []
  end.

(** The entry at a position: its field, and its sequence number counting down
    from the newest. *)
Definition ent_ok (ctx : nghttp2_hd_context) (nvs : list nghttp2_hd_nv) (i : nat) (p : ptr) : Prop :=
  exists e, hd_heap ctx !! p = Some e /\ nvs !! i = Some (he_nv e) /\
    he_seq e = u32 (next_seq ctx - 1 - Z.of_nat i).

Record ctx_rep (ctx : nghttp2_hd_context) (ls : list ptr) (nvs : list nghttp2_hd_nv) : Prop := {
  cr_ring : ring_rep (hd_table ctx) ls;
  cr_len : length ls = length nvs;
  cr_nodup : NoDup ls;
  cr_dom : dom (hd_heap ctx) = list_to_set ls;
  cr_ents : forall i p, ls !! i = Some p -> ent_ok ctx nvs i p;
  cr_fresh : Forall (fun p => p < mem_calls ctx)%nat ls;
  cr_size : hd_table_bufsize ctx = table_size nvs;
  cr_max : is_u64 (hd_table_bufsize_max ctx);
  cr_seq : is_u32 (next_seq ctx);
}.

(** The hash table, when there is one. *)
Definition omap_rep (ctx : nghttp2_hd_context) (ls : list ptr) (map : option nghttp2_hd_map) : Prop :=
  match map with None => True | Some m => map_rep (hd_heap ctx) ls m end.

Lemma nv_room_pos nv : 32 <= nv_room nv.
Proof. unfold nv_room, entry_room, NGHTTP2_HD_ENTRY_OVERHEAD. lia. Qed.

Lemma table_size_app a b : table_size (a ++ b) = table_size a + table_size b.
Proof. induction a as [|x a IH]; simpl; [done|]. rewrite IH. lia. Qed.

Lemma table_size_nonneg nvs : 32 * zlen nvs <= table_size nvs.
Proof.
  induction nvs as [|x nvs IH]; simpl; [lia|]. pose proof (nv_room_pos x). lia.
Qed.

Lemma fit_all max nvs : table_size nvs <= max -> fit max nvs = nvs.
Proof.
  revert max. induction nvs as [|x nvs IH]; intros max H; simpl in *; [done|].
  pose proof (table_size_nonneg nvs). rewrite (proj2 (Z.leb_le _ _)) by lia. f_equal. apply IH. lia.
Qed.

Lemma fit_last max nvs x : max < table_size (nvs ++ [x]) -> fit max (nvs ++ [x]) = fit max nvs.
Proof.
  revert max. induction nvs as [|y nvs IH]; intros max H; simpl in *.
  - rewrite (proj2 (Z.leb_gt _ _)) by lia. done.
  - destruct (_ <=? _); [|done]. f_equal. apply IH. lia.
Qed.

Lemma fit_size max nvs : 0 <= max -> table_size (fit max nvs) <= max.
Proof.
  revert max. induction nvs as [|x nvs IH]; intros max H; simpl; [lia|].
  destruct (Z.leb_spec (nv_room x) max); simpl; [|lia].
  specialize (IH (max - nv_room x)). lia.
Qed.

Lemma fit_prefix max nvs : fit max nvs `prefix_of` nvs.
Proof.
  revert max. induction nvs as [|x nvs IH]; intros max; simpl; [done|].
  destruct (_ <=? _); [by apply prefix_cons|apply prefix_nil].
Qed.

Lemma fit_neg max nvs : max < 0 -> fit max nvs = [].
Proof.
  intros. destruct nvs as [|x nvs]; simpl; [done|]. pose proof (nv_room_pos x).
  by rewrite (proj2 (Z.leb_gt _ _)) by lia.
Qed.

Lemma fit_fit a b nvs : fit a (fit b nvs) = fit (Z.min a b) nvs.
Proof.
  revert a b. induction nvs as [|x nvs IH]; intros a b; simpl; [done|].
  destruct (Z.leb_spec (nv_room x) b); simpl.
  - destruct (Z.leb_spec (nv_room x) a).
    + rewrite (proj2 (Z.leb_le _ _)) by lia. rewrite IH. do 2 f_equal. lia.
    + by rewrite (proj2 (Z.leb_gt _ _)) by lia.
  - by rewrite (proj2 (Z.leb_gt _ _)) by lia.
Qed.

(** The last entry leaves the table. *)
Lemma evict_last_rep ctx ls nvs nv p map :
  ctx_rep ctx (ls ++ [p]) (nvs ++ [nv]) -> length ls = length nvs -> omap_rep ctx (ls ++ [p]) map ->
  exists ctx' map', evict_last ctx map = Some (ctx', map') /\
    ctx_rep ctx' ls nvs /\ omap_rep ctx' ls map' /\
    hd_table_bufsize_max ctx' = hd_table_bufsize_max ctx /\ ctx_bad ctx' = ctx_bad ctx /\
    (map' = None <-> map = None).
Proof.
  intros Hrep Hlen Hmap. pose proof Hrep as [Hring _ Hnd Hdom Hents Hfresh Hsize Hmax Hseq].
  assert ((ls ++ [p]) !! length ls = Some p) as Hp by (by rewrite lookup_app_r, Nat.sub_diag by lia).
  destruct (Hents _ _ Hp) as (e & He & Hnv & _).
  rewrite lookup_app_r, Hlen, Nat.sub_diag in Hnv by lia. injection Hnv as Hnv.
  unfold evict_last. rewrite (rr_len _ _ Hring), length_app. simpl length.
  replace (Z.of_nat (length ls + 1) - 1) with (zlen ls) by lia.
  rewrite (ring_get _ _ _ _ Hring Hp). cbn [mbind option_bind]. rewrite He. cbn [mbind option_bind].
  destruct (ring_pop _ _ _ Hring) as (rb & -> & Hrb). cbn [mbind option_bind].
  assert (p ∉ ls /\ NoDup ls) as [Hpls Hndls] by (apply NoDup_app in Hnd as (? & Hd & _); set_solver).
  assert (forall heap', dom heap' = dom (hd_heap ctx) ->
    (forall q e, q <> p -> hd_heap ctx !! q = Some e -> exists n, heap' !! q = Some (set_next n e)) ->
    ctx_rep (mk_ctx rb (delete p heap') (hd_table_bufsize ctx - nv_room (he_nv e))
      (hd_table_bufsize_max ctx) (next_seq ctx) (ctx_bad ctx) (mem_calls ctx)) ls nvs) as Hnew.
  { intros heap' Hdom' Hsame. split; simpl; try done.
    - rewrite dom_delete_L, Hdom', Hdom, list_to_set_app_L. set_solver.
    - intros i q Hi. assert (q <> p) by (intros ->; by apply Hpls, list_elem_of_lookup_2 with i).
      destruct (Hents i q) as (eq & Heq & Hnvq & Hseqq); [by apply lookup_app_l_Some|].
      destruct (Hsame q eq) as (n & Hn); [done|done|]. exists (set_next n eq). simpl.
      rewrite lookup_delete_ne by done. split; [done|]. split; [|done].
      pose proof (lookup_lt_Some _ _ _ Hi). by rewrite lookup_app_l in Hnvq by lia.
    - by apply Forall_app in Hfresh as [? _].
    - rewrite Hsize, table_size_app, <- Hnv. simpl. lia. }
  destruct map as [m|]; simpl in Hmap.
  - destruct (hd_map_remove_rep _ _ _ _ Hmap Hnd Hdom) as (heap' & m' & -> & Hm' & Hsame & Hdom').
    cbn [mbind option_bind]. eexists _, _. split; [done|]. split_and!; [by apply Hnew|done..].
  - cbn [mbind option_bind]. eexists _, _. split; [done|]. split_and!; try done. apply Hnew; [done|].
    intros q eq _ Hq. exists (he_next eq). by destruct eq.
Qed.

Lemma evict_loop_rep fuel ctx ls nvs map room :
  ctx_rep ctx ls nvs -> omap_rep ctx ls map -> length ls = fuel ->
  exists ctx' map' ls', evict_loop fuel ctx map room = Some (ctx', map') /\
    ctx_rep ctx' ls' (fit (hd_table_bufsize_max ctx - room) nvs) /\ omap_rep ctx' ls' map' /\
    hd_table_bufsize_max ctx' = hd_table_bufsize_max ctx /\ ctx_bad ctx' = ctx_bad ctx /\
    (map' = None <-> map = None).
Proof.
  revert ctx ls nvs map. induction fuel as [|fuel IH]; intros ctx ls nvs map Hrep Hmap Hfuel.
  - pose proof (cr_len _ _ _ Hrep) as Hl. destruct ls; [|done]. destruct nvs; [|done].
    cbn [evict_loop]. rewrite (rr_len _ _ (cr_ring _ _ _ Hrep)). rewrite andb_false_r.
    exists ctx, map, []. split_and!; try done.
  - cbn [evict_loop]. pose proof (cr_len _ _ _ Hrep) as Hl.
    rewrite (rr_len _ _ (cr_ring _ _ _ Hrep)), (cr_size _ _ _ Hrep).
    rewrite (proj2 (Z.ltb_lt 0 (zlen ls))) by lia. rewrite andb_true_r.
    destruct (Z.ltb_spec (hd_table_bufsize_max ctx) (table_size nvs + room)) as [Hlt|Hge].
    + destruct ls as [|p ls _] using rev_ind; [done|]. destruct nvs as [|nv nvs _] using rev_ind.
      { rewrite length_app in Hl. simpl in Hl. lia. }
      rewrite !length_app in *. simpl in *.
      destruct (evict_last_rep ctx ls nvs nv p map) as (ctx1 & map1 & -> & Hrep1 & Hmap1 & Hm1 & Hb1 & Hn1);
        [done|lia|done|]. cbn [mbind option_bind].
      destruct (IH ctx1 ls nvs map1 Hrep1 Hmap1) as (ctx' & map' & ls' & -> & Hr & Hm & Hmx & Hb & Hn);
        [lia|]. rewrite Hm1 in *.
      exists ctx', map', ls'. rewrite fit_last by lia. split_and!; try done; try congruence; tauto.
    + exists ctx, map, ls. rewrite fit_all by lia. split_and!; done.
Qed.

Lemma ctx_rep_short ctx ls nvs max : ctx_rep ctx ls nvs -> table_size nvs <= max -> is_u64 max ->
  zlen ls + 1 <= 2 ^ 62.
Proof.
  intros Hrep Hs Hm. rewrite (cr_len _ _ _ Hrep). pose proof (table_size_nonneg nvs).
  unfold is_u64 in *. lia.
Qed.

(** Changing the allocator's counter or the error flag. *)
Lemma ctx_rep_calls ctx ls nvs calls : ctx_rep ctx ls nvs -> (mem_calls ctx <= calls)%nat ->
  ctx_rep (ctx_set_calls ctx calls) ls nvs.
Proof.
  intros [] Hc. split; simpl; try done.
  eapply Forall_impl; [done|]. simpl. intros. lia.
Qed.

(** The new entry at the front of the ring, the heap and the hash table. *)
Lemma push_entry_rep ctx ls nvs nv map hash rb calls :
  ctx_rep ctx ls nvs -> omap_rep ctx ls map ->
  ring_rep rb (mem_calls ctx :: ls) -> (mem_calls ctx < calls)%nat ->
  let p := mem_calls ctx in
  let heap := <[p := mk_hd_entry nv None (next_seq ctx) hash]> (hd_heap ctx) in
  exists heap' map',
    (match map with
     | Some m => '(heap, m) ← hd_map_insert heap m p; Some (heap, Some m)
     | None => Some (heap, None)
     end) = Some (heap', map') /\
    let ctx' := mk_ctx rb heap' (hd_table_bufsize ctx + nv_room nv) (hd_table_bufsize_max ctx)
                  (u32 (next_seq ctx + 1)) (ctx_bad ctx) calls in
    ctx_rep ctx' (p :: ls) (nv :: nvs) /\ omap_rep ctx' (p :: ls) map' /\ (map' = None <-> map = None).
Proof.
  intros Hrep Hmap Hring Hcalls p heap. pose proof Hrep as [_ Hlen Hnd Hdom Hents Hfresh Hsize Hmax Hseq].
  assert (p ∉ ls) as Hp.
  { intros H. rewrite Forall_forall in Hfresh. specialize (Hfresh p H). simpl in Hfresh. subst p. lia. }
  assert (forall heap', (forall q, q <> p -> heap' !! q = hd_heap ctx !! q) ->
    (exists n, heap' !! p = Some (set_next n (mk_hd_entry nv None (next_seq ctx) hash))) ->
    dom heap' = dom (hd_heap ctx) ∪ {[p]} ->
    ctx_rep (mk_ctx rb heap' (hd_table_bufsize ctx + nv_room nv) (hd_table_bufsize_max ctx)
      (u32 (next_seq ctx + 1)) (ctx_bad ctx) calls) (p :: ls) (nv :: nvs)) as Hnew.
  { intros heap' Hq [n Hn] Hd. split; simpl; try done.
    - by rewrite Hlen.
    - by constructor.
    - rewrite Hd, Hdom. set_solver.
    - intros [|i] q Hi; simpl in Hi.
      + injection Hi as <-. eexists. split; [exact Hn|]. split; [done|].
        cbn [next_seq he_seq set_next].
        replace (u32 (next_seq ctx + 1) - 1 - Z.of_nat 0) with (u32 (next_seq ctx + 1) + -1) by lia.
        rewrite u32_add_l. symmetry. replace (next_seq ctx + 1 + -1) with (next_seq ctx) by lia.
        by apply u32_id.
      + destruct (Hents i q Hi) as (e & He & Hnv & Hs). exists e. cbn [hd_heap].
        rewrite Hq by (intros ->; by apply Hp, list_elem_of_lookup_2 with i).
        split; [done|]. split; [done|]. cbn [next_seq]. rewrite Hs.
        replace (u32 (next_seq ctx + 1) - 1 - Z.of_nat (S i))
          with (u32 (next_seq ctx + 1) + (-2 - Z.of_nat i)) by lia.
        rewrite u32_add_l. f_equal. lia.
    - constructor; [lia|]. eapply Forall_impl; [done|]. simpl. intros. lia.
    - rewrite Hsize. lia.
    - apply u32_range. }
  destruct map as [m|]; simpl in Hmap.
  - destruct (hd_map_insert_rep _ _ _ p (mk_hd_entry nv None (next_seq ctx) hash) Hmap Hp)
      as (heap' & m' & E & Hm' & Hq & Hn & Hd); [done|]. subst heap. rewrite E. cbn [mbind option_bind].
    eexists _, _. split; [done|]. split; [|done]. by apply Hnew.
  - eexists _, _. split; [done|]. split; [|done]. apply Hnew.
    + intros q Hq. subst heap. by rewrite lookup_insert_ne.
    + exists None. subst heap. by rewrite lookup_insert_eq.
    + subst heap. rewrite dom_insert_L. set_solver.
Qed.

(** Adding an entry: RFC 7541, section 4.4. *)
Lemma add_hd_table_rep malloc ctx ls nvs nv map hash :
  ctx_rep ctx ls nvs -> omap_rep ctx ls map ->
  exists ctx' map' rv ls' nvs', add_hd_table_incremental malloc ctx nv map hash = Some (ctx', map', rv) /\
    ctx_rep ctx' ls' nvs' /\ omap_rep ctx' ls' map' /\
    (rv = 0 -> nvs' = fit (hd_table_bufsize_max ctx) (nv :: nvs)) /\
    (rv <> 0 -> rv = NGHTTP2_ERR_NOMEM /\ can_fail malloc /\
      nvs' = fit (hd_table_bufsize_max ctx - nv_room nv) nvs) /\
    hd_table_bufsize_max ctx' = hd_table_bufsize_max ctx /\ ctx_bad ctx' = ctx_bad ctx /\
    (map' = None <-> map = None).
Proof.
  intros Hrep Hmap. unfold add_hd_table_incremental.
  rewrite (rr_len _ _ (cr_ring _ _ _ Hrep)), Nat2Z.id.
  destruct (evict_loop_rep (length ls) ctx ls nvs map (nv_room nv) Hrep Hmap eq_refl)
    as (ctx1 & map1 & ls1 & -> & Hrep1 & Hmap1 & Hmx1 & Hbad1 & Hn1). cbn [mbind option_bind].
  cbn [fit]. rewrite Hmx1.
  destruct (Z.ltb_spec (hd_table_bufsize_max ctx) (nv_room nv)) as [Hbig|Hfit].
  { rewrite fit_neg in Hrep1 by lia. rewrite (proj2 (Z.leb_gt _ _)) by lia.
    eexists _, _, _, _, _. split; [done|]. split_and!; try done; tauto. }
  rewrite (proj2 (Z.leb_le _ _)) by lia.
  destruct (mem_ok malloc (mem_calls ctx1) sizeof_hd_entry) eqn:Hm.
  2:{ apply mem_ok_false in Hm. eexists _, _, _, _, _. split; [done|].
      split_and!; [apply ctx_rep_calls; [done|lia]|by destruct map1|done..]. }
  destruct (ring_push malloc (S (mem_calls ctx1)) (hd_table ctx1) ls1 (mem_calls ctx1))
    as (rb & calls & rv & -> & Hcalls & Hok & Herr); [apply Hrep1| |].
  { eapply (ctx_rep_short _ _ _ (hd_table_bufsize_max ctx)); [done| |apply Hrep].
    pose proof (fit_size (hd_table_bufsize_max ctx - nv_room nv) nvs). pose proof (nv_room_pos nv). lia. }
  cbn [mbind option_bind]. destruct (Z.eqb_spec rv 0) as [->|Hne].
  - destruct (push_entry_rep ctx1 ls1 _ nv map1 hash rb calls Hrep1 Hmap1) as
      (heap' & map' & E & Hrep' & Hmap' & Hn'); [by apply Hok|lia|].
    cbn [he_nv he_next nghttp2_hd_entry_init] in *. rewrite E. cbn [mbind option_bind].
    eexists _, _, _, _, _. split; [done|]. rewrite Hmx1 in Hrep', Hmap'.
    split_and!; try done; tauto.
  - destruct (Herr Hne) as (-> & _ & Hf). eexists _, _, _, _, _. split; [done|].
    split_and!; [apply ctx_rep_calls; [done|lia]|by destruct map1|done..].
Qed.

Lemma shrink_table_rep ctx ls nvs map :
  ctx_rep ctx ls nvs -> omap_rep ctx ls map ->
  exists ctx' map' ls', hd_context_shrink_table_size ctx map = Some (ctx', map') /\
    ctx_rep ctx' ls' (fit (hd_table_bufsize_max ctx) nvs) /\ omap_rep ctx' ls' map' /\
    hd_table_bufsize_max ctx' = hd_table_bufsize_max ctx /\ ctx_bad ctx' = ctx_bad ctx /\
    (map' = None <-> map = None).
Proof.
  intros Hrep Hmap. unfold hd_context_shrink_table_size.
  rewrite (rr_len _ _ (cr_ring _ _ _ Hrep)), Nat2Z.id.
  pose proof (evict_loop_rep (length ls) ctx ls nvs map 0 Hrep Hmap eq_refl) as H.
  by rewrite Z.sub_0_r in H.
Qed.

(** Reading the tables: first the static one, then the dynamic one. *)
Definition static_nvs : list nghttp2_hd_nv :=
  map (fun e => mk_hd_nv (se_name e) (se_value e) (se_token e) NGHTTP2_NV_FLAG_NONE) static_table.

Lemma table_get_rep ctx ls nvs idx : ctx_rep ctx ls nvs -> 0 <= idx ->
  nghttp2_hd_table_get ctx idx = (static_nvs ++ nvs) !! Z.to_nat idx.
Proof.
  intros Hrep Hidx. unfold nghttp2_hd_table_get, INDEX_RANGE_VALID, NGHTTP2_STATIC_TABLE_LENGTH.
  assert (length static_nvs = 61%nat) as Hs by reflexivity.
  rewrite (rr_len _ _ (cr_ring _ _ _ Hrep)). pose proof (cr_len _ _ _ Hrep) as Hl.
  destruct (Z.ltb_spec idx (zlen ls + 61)).
  - destruct (Z.leb_spec 61 idx).
    + rewrite lookup_app_r by lia. rewrite Hs.
      destruct (lookup_lt_is_Some_2 ls (Z.to_nat (idx - 61))) as [p Hp]; [lia|].
      replace (idx - 61) with (Z.of_nat (Z.to_nat (idx - 61))) by lia.
      rewrite (ring_get _ _ _ _ (cr_ring _ _ _ Hrep) Hp). cbn [mbind option_bind].
      destruct (cr_ents _ _ _ Hrep _ _ Hp) as (e & -> & Hnv & _). simpl.
      rewrite <- Hnv. f_equal. lia.
    + rewrite lookup_app_l by lia. unfold static_nvs. rewrite list_lookup_fmap.
      by destruct (static_table !! Z.to_nat idx).
  - rewrite lookup_ge_None_2; [done|]. rewrite length_app. lia.
Qed.

(** ** Searching *)

(** Tokens in the table are those of the names. *)
Definition tokens_ok (nvs : list nghttp2_hd_nv) : Prop :=
  Forall (fun nv => hn_token nv = lookup_token (hn_name nv)) nvs.

Lemma memeq_full (a b : bytes) :
  (zlen a =? zlen b) && memeq a b (length b) = true -> a = b.
Proof.
  rewrite andb_true_iff, Z.eqb_eq. intros [Hl Hm]. apply bool_decide_eq_true in Hm.
  rewrite !take_ge in Hm by lia. done.
Qed.

Lemma token_name_match (nv : nghttp2_nv) (h : nghttp2_hd_nv) (b : bool) :
  hn_token h = lookup_token (hn_name h) ->
  negb (lookup_token (nv_name nv) =? hn_token h) ||
    ((lookup_token (nv_name nv) =? -1) && (b || negb (name_eq h nv))) = false ->
  hn_name h = nv_name nv.
Proof.
  rewrite orb_false_iff, andb_false_iff, negb_false_iff, Z.eqb_eq. intros Ht [E H].
  destruct H as [H|H].
  - apply Z.eqb_neq in H. rewrite (lookup_token_sound (nv_name nv)) by done.
    rewrite (lookup_token_sound (hn_name h)) by congruence. congruence.
  - apply orb_false_iff in H as [_ H]. apply negb_false_iff in H. by apply memeq_full in H.
Qed.

(** An address of the table whose field has the name (and the value). *)
Definition points_to (heap : gmap ptr nghttp2_hd_entry) (ls : list ptr) (q : ptr) (nv : nghttp2_nv)
    (exact : bool) : Prop :=
  q ∈ ls /\ exists e, heap !! q = Some e /\ hn_name (he_nv e) = nv_name nv /\
    (exact = true -> hn_value (he_nv e) = nv_value nv).

Lemma hd_map_find_loop_sound fuel heap ls p l res nv hash name_only :
  links heap p l -> (length l <= fuel)%nat -> (forall q, q ∈ l -> q ∈ ls) ->
  (forall q e, q ∈ ls -> heap !! q = Some e -> hn_token (he_nv e) = lookup_token (hn_name (he_nv e))) ->
  (forall q, res = Some q -> points_to heap ls q nv false) ->
  exists ent exact,
    hd_map_find_loop fuel heap p res nv (lookup_token (nv_name nv)) hash name_only = Some (ent, exact) /\
    (forall q, ent = Some q -> points_to heap ls q nv exact) /\ (exact = true -> ent <> None).
Proof.
  revert p l res. induction fuel as [|fuel IH]; intros p l res Hl Hlen Hin Htok Hres;
    destruct l as [|q l]; simpl in Hlen; try lia.
  1, 2: simpl in Hl; subst p; eexists _, _; split; [done|]; split; [done|done].
  destruct Hl as (-> & e & He & Hl). cbn [hd_map_find_loop]. rewrite He. cbn [mbind option_bind].
  assert (q ∈ ls) as Hq by (apply Hin; set_solver).
  assert (forall res', (forall q, res' = Some q -> points_to heap ls q nv false) ->
    exists ent exact, hd_map_find_loop fuel heap (he_next e) res' nv (lookup_token (nv_name nv)) hash
      name_only = Some (ent, exact) /\
      (forall q, ent = Some q -> points_to heap ls q nv exact) /\ (exact = true -> ent <> None)) as Hrec.
  { intros res' Hres'. apply (IH _ l); [done|lia|set_solver|done|done]. }
  destruct (negb _ || _) eqn:Ematch; [by apply Hrec|].
  apply token_name_match in Ematch; [|by eapply Htok].
  assert (points_to heap ls q nv false) as Hpt by (split; [done|]; by exists e).
  assert (forall q', (if match res with Some _ => false | None => true end then Some q else res) =
    Some q' -> points_to heap ls q' nv false) as Hres'.
  { destruct res; [by apply Hres|]. by intros ? [= <-]. }
  destruct (match res with Some _ => false | None => true end && name_only).
  { eexists _, _. split; [done|]. split; [done|done]. }
  destruct (value_eq (he_nv e) nv) eqn:Ev; [|by apply Hrec].
  apply memeq_full in Ev. eexists _, _. split; [done|]. split; [|done].
  intros q' [= <-]. split; [done|]. exists e. done.
Qed.

Lemma search_static_loop_sound fuel nv i :
  lookup_token (nv_name nv) <> -1 -> 0 <= i ->
  let t := lookup_token (nv_name nv) in
  let r := search_static_loop fuel nv t i (mk_search t false) in
  (sr_match r = false /\ sr_index r = t) \/
  (sr_match r = true /\ 0 <= sr_index r /\ exists e, static_table !! Z.to_nat (sr_index r) = Some e /\
     se_name e = nv_name nv /\ se_value e = nv_value nv).
Proof.
  intros Ht. revert i. induction fuel as [|fuel IH]; intros i Hi; cbn zeta; cbn [search_static_loop];
    [by left|].
  destruct (static_table !! Z.to_nat i) as [e|] eqn:E; [|by left].
  destruct (Z.eqb_spec (se_token e) (lookup_token (nv_name nv))) as [Et|]; [|rewrite andb_false_r; by left].
  destruct (i <=? _); [|by left]. cbn [andb].
  destruct (_ && _) eqn:Ev; [|apply IH; lia]. apply memeq_full in Ev.
  right. cbn [sr_match sr_index]. split; [done|]. split; [done|]. exists e.
  split; [done|]. split; [|done].
  pose proof static_table_tokens as Hst. rewrite Forall_lookup in Hst. specialize (Hst _ _ E).
  rewrite (lookup_token_sound (nv_name nv)) by done.
  rewrite (lookup_token_sound (se_name e)) by congruence. congruence.
Qed.

(** The static entry at the token's number has the name. *)
Lemma static_token_entry name : 0 <= lookup_token name <= NGHTTP2_TOKEN_WWW_AUTHENTICATE ->
  exists e, static_table !! Z.to_nat (lookup_token name) = Some e /\ se_name e = name.
Proof.
  intros Ht. pose proof (lookup_token_sound name) as Hs. set (t := lookup_token name) in *.
  change NGHTTP2_TOKEN_WWW_AUTHENTICATE with 60 in Ht.
  destruct (lookup_lt_is_Some_2 static_table (Z.to_nat t)) as [e He].
  { change (length static_table) with 61%nat. lia. }
  exists e. split; [done|]. rewrite Hs by lia. unfold token_name. rewrite app_nth1.
  - symmetry. apply nth_lookup_Some. by rewrite list_lookup_fmap, He.
  - rewrite length_map. change (length static_table) with 61%nat. lia.
Qed.

Lemma search_hd_table_sound ctx ls nvs map nv mode hash :
  ctx_rep ctx ls nvs -> map_rep (hd_heap ctx) ls map -> tokens_ok nvs -> table_size nvs <= UINT32_MAX ->
  exists r, search_hd_table ctx nv (lookup_token (nv_name nv)) mode map hash = Some r /\
    (sr_match r = false /\ sr_index r = -1 \/
     0 <= sr_index r /\ exists h, (static_nvs ++ nvs) !! Z.to_nat (sr_index r) = Some h /\
       hn_name h = nv_name nv /\ (sr_match r = true -> hn_value h = nv_value nv)).
Proof.
  intros Hrep Hmap Htok Hsz. unfold search_hd_table, hd_map_find.
  destruct (lookup_lt_is_Some_2 map (bucket_of hash)) as [hd Hhd].
  { rewrite (mr_len _ _ _ Hmap). apply bucket_of_lt. }
  rewrite Hhd. cbn [mbind option_bind].
  pose proof (mr_links _ _ _ Hmap _ _ Hhd) as Hl.
  destruct (hd_map_find_loop_sound (size (hd_heap ctx)) (hd_heap ctx) ls hd
    (in_bucket (hd_heap ctx) (bucket_of hash) ls) None nv hash
    (bool_decide (mode = NGHTTP2_HD_NEVER_INDEXING)) Hl) as (ent & exact & -> & Hent & Hex).
  { rewrite <- size_dom, (cr_dom _ _ _ Hrep), size_list_to_set by apply Hrep. apply length_filter. }
  { intros q [_ ?]%elem_of_in_bucket. done. }
  { intros q e [i Hi]%list_elem_of_lookup He. destruct (cr_ents _ _ _ Hrep _ _ Hi) as (e' & He' & Hnv & _).
    assert (e' = e) as -> by congruence. by apply (Forall_lookup_1 _ _ _ _ Htok Hnv). }
  { done. }
  cbn [mbind option_bind]. set (t := lookup_token (nv_name nv)) in *.
  destruct (negb exact && (0 <=? t) && (t <=? NGHTTP2_TOKEN_WWW_AUTHENTICATE)) eqn:Est.
  - rewrite !andb_true_iff, !Z.leb_le in Est. destruct Est as [[_ H0] H60].
    eexists. split; [done|]. right.
    assert (forall i e, static_table !! i = Some e -> (static_nvs ++ nvs) !! i =
      Some (mk_hd_nv (se_name e) (se_value e) (se_token e) NGHTTP2_NV_FLAG_NONE)) as Hst.
    { intros i e Hi. apply lookup_app_l_Some. unfold static_nvs. by rewrite list_lookup_fmap, Hi. }
    destruct (static_token_entry (nv_name nv)) as (e & He & Hname); [done|].
    unfold search_static_table. destruct (bool_decide _).
    { cbn [sr_index sr_match]. split; [done|]. eexists. split; [by apply Hst|]. done. }
    pose proof (search_static_loop_sound (length static_table) nv t) as Hss. cbn zeta in Hss. fold t in Hss.
    destruct Hss as [[-> ->]|(-> & Hi & e' & He' & Hn & Hv)]; [lia|done|..].
    + split; [done|]. eexists. split; [by apply Hst|]. done.
    + split; [done|]. eexists. split; [by apply Hst|]. done.
  - destruct ent as [q|]; [|destruct exact; [by destruct (Hex eq_refl)|eexists; split; [done|]; by left]].
    destruct (Hent q eq_refl) as (Hq & e & He & Hname & Hval). rewrite He. cbn [mbind option_bind].
    eexists. split; [done|]. right. cbn [sr_index sr_match].
    apply list_elem_of_lookup in Hq as [i Hi].
    destruct (cr_ents _ _ _ Hrep _ _ Hi) as (e' & He' & Hnv & Hs). assert (e' = e) as -> by congruence.
    pose proof (lookup_lt_Some _ _ _ Hnv). pose proof (table_size_nonneg nvs).
    assert (u32 (next_seq ctx - 1 - he_seq e + NGHTTP2_STATIC_TABLE_LENGTH) = 61 + Z.of_nat i) as ->.
    { rewrite Hs. unfold u32, NGHTTP2_STATIC_TABLE_LENGTH. rewrite <- Z.add_mod_idemp_l, Zminus_mod_idemp_r by lia.
      rewrite Z.add_mod_idemp_l by lia. rewrite Z.mod_small; unfold_width; lia. }
    split; [lia|]. exists (he_nv e). split; [|done].
    rewrite lookup_app_r; change (length static_nvs) with 61%nat; [|lia].
    by replace (Z.to_nat (61 + Z.of_nat i) - 61)%nat with i by lia.
Qed.

(** ** The contract of the dynamic table *)

(** [ctx] (with its hash table) holds exactly the fields [nvs], newest first,
    and they fit. *)
Definition represents (ctx : nghttp2_hd_context) (map : option nghttp2_hd_map)
    (nvs : list nghttp2_hd_nv) : Prop :=
  exists ls, ctx_rep ctx ls nvs /\ omap_rep ctx ls map /\ tokens_ok nvs /\
    table_size nvs <= hd_table_bufsize_max ctx.

Lemma tokens_ok_fit max nvs : tokens_ok nvs -> tokens_ok (fit max nvs).
Proof.
  intros H. destruct (fit_prefix max nvs) as [r Hr]. rewrite Hr in H.
  by apply Forall_app in H as [? _].
Qed.

Lemma hd_context_init_rep malloc ctx : hd_context_init malloc = Some ctx ->
  represents ctx None [] /\ represents ctx (Some hd_map_init) [] /\
  hd_table_bufsize_max ctx = NGHTTP2_HD_DEFAULT_MAX_BUFFER_SIZE /\ ctx_bad ctx = false.
Proof.
  unfold hd_context_init. destruct (hd_ringbuf_init _ _ _) as [rb|] eqn:E; [|done].
  intros [= <-]. apply ring_init_rep in E; [|vm_compute; congruence].
  match goal with |- represents ?c _ _ /\ _ => assert (ctx_rep c [] []) as Hrep end.
  { split; simpl; try done; constructor. }
  split_and!; try done; exists []; (split; [done|]); (split; [|split; [constructor|done]]); [done|].
  split; [done|]. intros b h Hh. apply lookup_replicate in Hh as [-> _]. done.
Qed.

Lemma represents_add malloc ctx map nvs nv hash :
  represents ctx map nvs -> hn_token nv = lookup_token (hn_name nv) ->
  exists ctx' map' rv nvs', add_hd_table_incremental malloc ctx nv map hash = Some (ctx', map', rv) /\
    represents ctx' map' nvs' /\
    (rv = 0 -> nvs' = fit (hd_table_bufsize_max ctx) (nv :: nvs)) /\
    (rv <> 0 -> rv = NGHTTP2_ERR_NOMEM /\ can_fail malloc) /\
    hd_table_bufsize_max ctx' = hd_table_bufsize_max ctx /\ ctx_bad ctx' = ctx_bad ctx /\
    (map' = None <-> map = None).
Proof.
  intros (ls & Hrep & Hmap & Htok & Hsz) Ht.
  destruct (add_hd_table_rep malloc ctx ls nvs nv map hash Hrep Hmap) as
    (ctx' & map' & rv & ls' & nvs' & -> & Hrep' & Hmap' & Hok & Herr & Hmx & Hbad & Hn).
  pose proof (table_size_nonneg nvs). assert (0 <= hd_table_bufsize_max ctx) by lia.
  assert (tokens_ok nvs' /\ table_size nvs' <= hd_table_bufsize_max ctx) as [Ht' Hs'].
  { destruct (decide (rv = 0)) as [E|E].
    - rewrite (Hok E). split; [apply tokens_ok_fit; by constructor|by apply fit_size].
    - destruct (Herr E) as (_ & _ & ->). split; [by apply tokens_ok_fit|].
      pose proof (nv_room_pos nv). destruct (decide (hd_table_bufsize_max ctx - nv_room nv < 0)).
      + rewrite fit_neg by done. simpl. lia.
      + etrans; [apply fit_size; lia|lia]. }
  exists ctx', map', rv, nvs'. split; [done|]. split; [|naive_solver].
  exists ls'. rewrite Hmx. done.
Qed.

Lemma represents_shrink ctx map nvs max :
  represents ctx map nvs -> is_u64 max ->
  exists ctx' map', hd_context_shrink_table_size (ctx_set_max ctx max) map = Some (ctx', map') /\
    represents ctx' map' (fit max nvs) /\ hd_table_bufsize_max ctx' = max /\
    ctx_bad ctx' = ctx_bad ctx /\ (map' = None <-> map = None).
Proof.
  intros (ls & Hrep & Hmap & Htok & Hsz) Hmax.
  assert (ctx_rep (ctx_set_max ctx max) ls nvs) as Hrep0 by (by destruct Hrep; split).
  destruct (shrink_table_rep (ctx_set_max ctx max) ls nvs map Hrep0) as
    (ctx' & map' & ls' & -> & Hrep' & Hmap' & Hmx & Hbad & Hn); [by destruct map|].
  exists ctx', map'. split; [done|]. split; [|done]. exists ls'. simpl in *. rewrite Hmx.
  split_and!; [done|done|by apply tokens_ok_fit|]. apply fit_size. by destruct Hmax.
Qed.

Lemma represents_calls ctx map nvs calls : represents ctx map nvs -> (mem_calls ctx <= calls)%nat ->
  represents (ctx_set_calls ctx calls) map nvs.
Proof.
  intros (ls & Hrep & Hmap & H) Hc. exists ls. split; [by apply ctx_rep_calls|]. by destruct map.
Qed.

Lemma represents_get ctx map nvs idx : represents ctx map nvs -> 0 <= idx ->
  nghttp2_hd_table_get ctx idx = (static_nvs ++ nvs) !! Z.to_nat idx.
Proof. intros (ls & Hrep & _) Hidx. by eapply table_get_rep. Qed.

Lemma represents_len ctx map nvs : represents ctx map nvs -> rb_len (hd_table ctx) = zlen nvs.
Proof.
  intros (ls & Hrep & _). rewrite (rr_len _ _ (cr_ring _ _ _ Hrep)).
  by rewrite (cr_len _ _ _ Hrep).
Qed.

Lemma represents_search ctx map nvs nv mode hash :
  represents ctx (Some map) nvs -> hd_table_bufsize_max ctx <= UINT32_MAX ->
  exists r, search_hd_table ctx nv (lookup_token (nv_name nv)) mode map hash = Some r /\
    (sr_match r = false /\ sr_index r = -1 \/
     0 <= sr_index r /\ exists h, (static_nvs ++ nvs) !! Z.to_nat (sr_index r) = Some h /\
       hn_name h = nv_name nv /\ (sr_match r = true -> hn_value h = nv_value nv)).
Proof.
  intros (ls & Hrep & Hmap & Htok & Hsz) Hmax. eapply search_hd_table_sound; try done. lia.
Qed.

(** A field that must not be indexed is looked up by name only. *)
Lemma hd_map_find_loop_name_only fuel heap p nv token hash r :
  hd_map_find_loop fuel heap p None nv token hash true = Some r -> r.2 = false.
Proof.
  revert p. induction fuel as [|fuel IH]; intros [q|]; cbn [hd_map_find_loop]; try done;
    try (intros [= <-]; done).
  intros (e & _ & H)%bind_Some. destruct (_ || _); [by eapply IH|]. simpl in H. by injection H as <-.
Qed.

Lemma search_never_exact ctx nv token map hash r :
  search_hd_table ctx nv token NGHTTP2_HD_NEVER_INDEXING map hash = Some r -> sr_match r = false.
Proof.
  unfold search_hd_table, hd_map_find. rewrite bool_decide_eq_true_2 by done.
  intros ([ent em] & H & Hr)%bind_Some. apply bind_Some in H as (p & _ & H).
  apply hd_map_find_loop_name_only in H. simpl in H. subst em. cbn [negb andb] in Hr.
  destruct (_ && _); [by injection Hr as <-|]. destruct ent; [|by injection Hr as <-].
  apply bind_Some in Hr as (e & _ & [= <-]). done.
Qed.

(** C30: The ring buffer, the entry heap and the hash chains together implement
    the dynamic table of RFC 7541: inserting a field evicts the oldest entries
    until it fits and puts it in front ([fit] of the list), the size kept
    never exceeds the maximum, and every index reads the field at that
    position of the static table followed by the list; when memory runs out
    the table only loses its oldest entries. *)
Theorem hd_table_add_refines malloc ctx map nvs nv hash :
  represents ctx map nvs -> hn_token nv = lookup_token (hn_name nv) ->
  exists ctx' map' rv nvs',
    add_hd_table_incremental malloc ctx nv map hash = Some (ctx', map', rv) /\
    represents ctx' map' nvs' /\ hd_table_bufsize ctx' = table_size nvs' /\
    hd_table_bufsize ctx' <= hd_table_bufsize_max ctx /\
    (rv = 0 -> nvs' = fit (hd_table_bufsize_max ctx) (nv :: nvs)) /\
    (rv <> 0 -> rv = NGHTTP2_ERR_NOMEM /\ can_fail malloc) /\
    (forall idx, 0 <= idx -> nghttp2_hd_table_get ctx' idx = (static_nvs ++ nvs') !! Z.to_nat idx).
Proof.
  intros Hrep Ht. destruct (represents_add malloc ctx map nvs nv hash Hrep Ht) as
    (ctx' & map' & rv & nvs' & -> & Hrep' & Hok & Herr & Hmx & _).
  exists ctx', map', rv, nvs'. pose proof Hrep' as (ls & Hc & _ & _ & Hs).
  pose proof (cr_size _ _ _ Hc). split_and!; try done; [lia|].
  intros idx Hidx. by eapply represents_get.
Qed.

Lemma hd_table_add_refines_witness :
  exists ctx ctx' map' rv nvs',
    hd_context_init zero_malloc = Some ctx /\
    add_hd_table_incremental zero_malloc ctx (mk_hd_nv [120] [121] (-1) 0) (Some hd_map_init) 7 =
      Some (ctx', map', rv) /\
    (rv = 0 -> nvs' = [mk_hd_nv [120] [121] (-1) 0]) /\ hd_table_bufsize ctx' = table_size nvs'.
Proof.
  destruct (hd_context_init zero_malloc) as [ctx|] eqn:E; [|vm_compute in E; discriminate].
  destruct (hd_context_init_rep _ _ E) as (_ & Hrep & Hmax & _).
  destruct (hd_table_add_refines zero_malloc ctx (Some hd_map_init) []
    (mk_hd_nv [120] [121] (-1) 0) 7 Hrep) as (ctx' & map' & rv & nvs' & H1 & _ & H2 & _ & H3 & _).
  - vm_compute. reflexivity.
  - exists ctx, ctx', map', rv, nvs'. split; [reflexivity|]. split; [exact H1|]. split; [|exact H2].
    intros H. rewrite (H3 H), Hmax. vm_compute. reflexivity.
Defined.

(** A search of the compressor never lies: the index it returns, if any, is
    in range, and reading the tables at that index gives a field with the name
    searched for, and with the value too when an exact match is reported. *)
Theorem hd_search_sound ctx map nvs nv mode hash :
  represents ctx (Some map) nvs -> hd_table_bufsize_max ctx <= UINT32_MAX ->
  exists r, search_hd_table ctx nv (lookup_token (nv_name nv)) mode map hash = Some r /\
    (sr_match r = false /\ sr_index r = -1 \/
     0 <= sr_index r < get_max_index ctx /\
     exists h, nghttp2_hd_table_get ctx (sr_index r) = Some h /\
       hn_name h = nv_name nv /\ (sr_match r = true -> hn_value h = nv_value nv)).
Proof.
  intros Hrep Hmax. destruct (represents_search ctx map nvs nv mode hash Hrep Hmax) as (r & -> & Hr).
  exists r. split; [done|]. destruct Hr as [Hr|(H0 & h & Hh & Hn & Hv)]; [by left|]. right.
  rewrite (represents_get ctx (Some map) nvs) by done. split; [|by exists h].
  apply lookup_lt_Some in Hh. rewrite length_app in Hh. change (length static_nvs) with 61%nat in Hh.
  unfold get_max_index, NGHTTP2_STATIC_TABLE_LENGTH. rewrite (represents_len _ _ _ Hrep). lia.
Qed.

Lemma hd_search_sound_witness :
  exists ctx r, hd_context_init zero_malloc = Some ctx /\
    search_hd_table ctx (mk_nv [58; 109; 101; 116; 104; 111; 100] [71; 69; 84] 0) 1 NGHTTP2_HD_WITH_INDEXING hd_map_init 0 = Some r /\
    (0 <= sr_index r < get_max_index ctx \/ sr_index r = -1).
Proof.
  destruct (hd_context_init zero_malloc) as [ctx|] eqn:E; [|vm_compute in E; discriminate].
  destruct (hd_context_init_rep _ _ E) as (_ & Hrep & Hmax & _).
  destruct (hd_search_sound ctx hd_map_init [] (mk_nv [58; 109; 101; 116; 104; 111; 100] [71; 69; 84] 0)
    NGHTTP2_HD_WITH_INDEXING 0 Hrep) as (r & Hr & H).
  - rewrite Hmax. vm_compute. congruence.
  - exists ctx, r. split; [reflexivity|]. split; [exact Hr|].
    destruct H as [[_ H]|[H _]]; [right; exact H|left; exact H].
Defined.
