(* ===== verification/HdDeflate.v ===== *)
(** * The HPACK compressor (nghttp2_hd.c, deflate side)

    [nghttp2_hd_deflate_hd_bufs] turns a list of header fields into octets:
    each field becomes an indexed representation, a literal with an indexed
    name or a literal with a new name, and the dynamic table is updated on the
    way.  The specification is the representation [hrepr] with its octets
    [repr_bytes] and its meaning [repr_decode] for a decoder; [deflate_nv_ok]
    shows that whatever representation the compressor chooses, its octets are
    written and its meaning is the field and the table the compressor goes on
    with. *)

From S2P Require Import Prelude Defs Helper Buf HuffmanData Huffman HdInt HdToken HdTable.

Section Deflate.
Context (malloc : nat -> nat -> option bytes).

(** ** Emission of the representations *)

(** The scratch array [uint8_t sb[16]]; only its first octet is set. *)
Definition sizeof_sb : nat := 16.

(** The common part of the emitters: the prefixed integer [n] behind the bits
    [first], through the scratch array. *)
Definition emit_int (bufs : nghttp2_bufs) (first n prefix : Z) : option (nghttp2_bufs * Z) :=
  let blocklen := count_encoded_length n prefix in
  if Z.of_nat sizeof_sb <? blocklen then Some (bufs, NGHTTP2_ERR_HEADER_COMP)
  else
    '(sb, _) ← encode_length (first :: replicate (sizeof_sb - 1) 0) n prefix;
    nghttp2_bufs_add malloc bufs (take (Z.to_nat blocklen) sb).

Definition emit_table_size (bufs : nghttp2_bufs) (table_size : Z) : option (nghttp2_bufs * Z) :=
  emit_int bufs 0x20 table_size 5.

Definition emit_indexed_block (bufs : nghttp2_bufs) (idx : Z) : option (nghttp2_bufs * Z) :=
  emit_int bufs 0x80 (idx + 1) 7.

(** The shorter of the plain and the Huffman-coded form. *)
Definition emit_string (bufs : nghttp2_bufs) (s : bytes) : option (nghttp2_bufs * Z) :=
  let enclen := nghttp2_hd_huff_encode_count s in
  let huffman := enclen <? zlen s in
  let enclen := if huffman then enclen else zlen s in
  try bufs ← emit_int bufs (if huffman then Z.shiftl 1 7 else 0) enclen 7 ;;
  if huffman then nghttp2_hd_huff_encode malloc bufs s else nghttp2_bufs_add malloc bufs s.

Definition pack_first_byte (indexing_mode : nghttp2_hd_indexing_mode) : Z :=
  match indexing_mode with
  | NGHTTP2_HD_WITH_INDEXING => 0x40
  | NGHTTP2_HD_WITHOUT_INDEXING => 0
  | NGHTTP2_HD_NEVER_INDEXING => 0x10
  end.

Definition emit_indname_block (bufs : nghttp2_bufs) (idx : Z) (nv : nghttp2_nv)
    (indexing_mode : nghttp2_hd_indexing_mode) : option (nghttp2_bufs * Z) :=
  let prefixlen := if decide (indexing_mode = NGHTTP2_HD_WITH_INDEXING) then 6 else 4 in
  try bufs ← emit_int bufs (pack_first_byte indexing_mode) (idx + 1) prefixlen ;;
  emit_string bufs (nv_value nv).

Definition emit_newname_block (bufs : nghttp2_bufs) (nv : nghttp2_nv)
    (indexing_mode : nghttp2_hd_indexing_mode) : option (nghttp2_bufs * Z) :=
  try bufs ← nghttp2_bufs_addb malloc bufs (pack_first_byte indexing_mode) ;;
  try bufs ← emit_string bufs (nv_name nv) ;;
  emit_string bufs (nv_value nv).

(** ** The compressor *)

Record nghttp2_hd_deflater := mk_deflater {
  df_ctx : nghttp2_hd_context;
  df_map : nghttp2_hd_map;
  deflate_hd_table_bufsize_max : Z;
  df_min_hd_table_bufsize_max : Z;
  notify_table_size_change : bool;
}.

Definition df_set_table (d : nghttp2_hd_deflater) (ctx : nghttp2_hd_context) (map : nghttp2_hd_map)
    : nghttp2_hd_deflater :=
  mk_deflater ctx map (deflate_hd_table_bufsize_max d) (df_min_hd_table_bufsize_max d)
    (notify_table_size_change d).

(** [inr] is the error of a failed initialisation. *)
Definition nghttp2_hd_deflate_init2 (max_deflate_dynamic_table_size : Z) : nghttp2_hd_deflater + Z :=
  match hd_context_init malloc with
  | None => inr NGHTTP2_ERR_NOMEM
  | Some ctx =>
      if max_deflate_dynamic_table_size <? NGHTTP2_HD_DEFAULT_MAX_BUFFER_SIZE then
        inl (mk_deflater (ctx_set_max ctx max_deflate_dynamic_table_size) hd_map_init
               max_deflate_dynamic_table_size UINT32_MAX true)
      else
        inl (mk_deflater ctx hd_map_init max_deflate_dynamic_table_size UINT32_MAX false)
  end.

Definition nghttp2_hd_deflate_init : nghttp2_hd_deflater + Z :=
  nghttp2_hd_deflate_init2 NGHTTP2_HD_DEFAULT_MAX_DEFLATE_BUFFER_SIZE.

Definition nghttp2_hd_deflate_change_table_size (d : nghttp2_hd_deflater)
    (settings_max_dynamic_table_size : Z) : option (nghttp2_hd_deflater * Z) :=
  let next_bufsize := nghttp2_min settings_max_dynamic_table_size (deflate_hd_table_bufsize_max d) in
  '(ctx, map) ← hd_context_shrink_table_size (ctx_set_max (df_ctx d) next_bufsize) (Some (df_map d));
  map ← map;
  Some (mk_deflater ctx map (deflate_hd_table_bufsize_max d)
          (nghttp2_min (df_min_hd_table_bufsize_max d) next_bufsize) true, 0).

Definition hd_deflate_decide_indexing (d : nghttp2_hd_deflater) (nv : nghttp2_nv) (token : Z)
    : nghttp2_hd_indexing_mode :=
  if (token =? NGHTTP2_TOKEN__PATH) || (token =? NGHTTP2_TOKEN_AGE) ||
     (token =? NGHTTP2_TOKEN_CONTENT_LENGTH) || (token =? NGHTTP2_TOKEN_ETAG) ||
     (token =? NGHTTP2_TOKEN_IF_MODIFIED_SINCE) || (token =? NGHTTP2_TOKEN_IF_NONE_MATCH) ||
     (token =? NGHTTP2_TOKEN_LOCATION) || (token =? NGHTTP2_TOKEN_SET_COOKIE) ||
     (hd_table_bufsize_max (df_ctx d) * 3 / 4 <?
        entry_room (zlen (nv_name nv)) (zlen (nv_value nv)))
  then NGHTTP2_HD_WITHOUT_INDEXING
  else NGHTTP2_HD_WITH_INDEXING.

(** [sizeof(nghttp2_rcbuf)]; [nghttp2_rcbuf_new2] allocates it with a copy of
    the octets and a terminating zero. *)
Definition sizeof_rcbuf : Z := 40.

Definition nghttp2_rcbuf_new2 (calls : nat) (src : bytes) : bool :=
  mem_ok malloc calls (sizeof_rcbuf + (zlen src + 1)).

(** The part of [deflate_nv] that stores the field in the table: [idx] is the
    index of an entry with the same name, or [-1]. *)
Definition deflate_store (d : nghttp2_hd_deflater) (nv : nghttp2_nv) (idx token hash : Z)
    : option (nghttp2_hd_deflater * Z) :=
  let ctx := df_ctx d in
  name_ok ← (if idx =? -1
             then Some (if nghttp2_rcbuf_new2 (mem_calls ctx) (nv_name nv)
                        then Some (nv_name nv) else None, S (mem_calls ctx))
             else h ← nghttp2_hd_table_get ctx idx; Some (Some (hn_name h), mem_calls ctx));
  match name_ok with
  | (None, calls) => Some (df_set_table d (ctx_set_calls ctx calls) (df_map d), NGHTTP2_ERR_NOMEM)
  | (Some name, calls) =>
      if nghttp2_rcbuf_new2 calls (nv_value nv) then
        let hd_nv := mk_hd_nv name (nv_value nv) token NGHTTP2_NV_FLAG_NONE in
        '(ctx, map, rv) ← add_hd_table_incremental malloc (ctx_set_calls ctx (S calls)) hd_nv
                            (Some (df_map d)) hash;
        map ← map;
        Some (df_set_table d ctx map, if rv =? 0 then 0 else NGHTTP2_ERR_HEADER_COMP)
      else Some (df_set_table d (ctx_set_calls ctx (S calls)) (df_map d), NGHTTP2_ERR_NOMEM)
  end.

Definition deflate_nv (d : nghttp2_hd_deflater) (bufs : nghttp2_bufs) (nv : nghttp2_nv)
    : option ((nghttp2_hd_deflater * nghttp2_bufs) * Z) :=
  let token := lookup_token (nv_name nv) in
  hash ← (if token =? -1 then Some (name_hash nv)
          else if token <=? NGHTTP2_TOKEN_WWW_AUTHENTICATE
          then se_hash <$> static_table !! Z.to_nat token
          else Some 0);
  let indexing_mode :=
    if (token =? NGHTTP2_TOKEN_AUTHORIZATION) ||
       ((token =? NGHTTP2_TOKEN_COOKIE) && (zlen (nv_value nv) <? 20)) ||
       negb (nv_flags nv .& NGHTTP2_NV_FLAG_NO_INDEX =? 0)
    then NGHTTP2_HD_NEVER_INDEXING
    else hd_deflate_decide_indexing d nv token in
  res ← search_hd_table (df_ctx d) nv token indexing_mode (df_map d) hash;
  let idx := sr_index res in
  if sr_match res then
    try_bind (emit_indexed_block bufs idx) (fun bufs => Some ((d, bufs), 0)) (fun bufs => (d, bufs))
  else
    try_bind (if decide (indexing_mode = NGHTTP2_HD_WITH_INDEXING)
              then deflate_store d nv idx token hash else Some (d, 0))
      (fun d =>
         try_bind (if idx =? -1 then emit_newname_block bufs nv indexing_mode
                   else emit_indname_block bufs idx nv indexing_mode)
           (fun bufs => Some ((d, bufs), 0)) (fun bufs => (d, bufs)))
      (fun d => (d, bufs)).

(** [for (i = 0; i < nvlen; ++i)] *)
Fixpoint deflate_nvs (d : nghttp2_hd_deflater) (bufs : nghttp2_bufs) (nva : list nghttp2_nv)
    : option ((nghttp2_hd_deflater * nghttp2_bufs) * Z) :=
  match nva with
  | [] => Some ((d, bufs), 0)
  | nv :: nva =>
      try_bind (deflate_nv d bufs nv) (fun '(d, bufs) => deflate_nvs d bufs nva) (fun st => st)
  end.

(** The size updates at the start of a block. *)
Definition deflate_size_updates (d : nghttp2_hd_deflater) (bufs : nghttp2_bufs)
    : option ((nghttp2_hd_deflater * nghttp2_bufs) * Z) :=
  if notify_table_size_change d then
    let min_hd_table_bufsize_max := df_min_hd_table_bufsize_max d in
    let d := mk_deflater (df_ctx d) (df_map d) (deflate_hd_table_bufsize_max d) UINT32_MAX false in
    try_bind (if min_hd_table_bufsize_max <? hd_table_bufsize_max (df_ctx d)
              then emit_table_size bufs min_hd_table_bufsize_max else Some (bufs, 0))
      (fun bufs =>
         try_bind (emit_table_size bufs (hd_table_bufsize_max (df_ctx d)))
           (fun bufs => Some ((d, bufs), 0)) (fun bufs => (d, bufs)))
      (fun bufs => (d, bufs))
  else Some ((d, bufs), 0).

Definition nghttp2_hd_deflate_hd_bufs (d : nghttp2_hd_deflater) (bufs : nghttp2_bufs)
    (nva : list nghttp2_nv) : option ((nghttp2_hd_deflater * nghttp2_bufs) * Z) :=
  if ctx_bad (df_ctx d) then Some ((d, bufs), NGHTTP2_ERR_HEADER_COMP)
  else
    '((d, bufs), rv) ← try_bind (deflate_size_updates d bufs)
                         (fun '(d, bufs) => deflate_nvs d bufs nva) (fun st => st);
    if rv =? 0 then Some ((d, bufs), 0)
    else Some ((df_set_table d (ctx_set_bad (df_ctx d)) (df_map d), bufs), rv).

(** The wrappers for a buffer, or a vector of buffers, of the caller: the
    filled blocks come with the returned length or error. *)
Definition deflate_finish (r : option ((nghttp2_hd_deflater * nghttp2_bufs) * Z))
    : option (nghttp2_hd_deflater * list bytes * Z) :=
  '((d, bufs), rv) ← r;
  let blocks := map b_mem (bs_chain bufs) in
  if rv =? NGHTTP2_ERR_BUFFER_ERROR then Some (d, blocks, NGHTTP2_ERR_INSUFF_BUFSIZE)
  else if negb (rv =? 0) then Some (d, blocks, rv)
  else Some (d, blocks, Z.of_nat (nghttp2_bufs_len bufs)).

Definition nghttp2_hd_deflate_hd2 (d : nghttp2_hd_deflater) (buf : bytes) (nva : list nghttp2_nv)
    : option (nghttp2_hd_deflater * list bytes * Z) :=
  match nghttp2_bufs_wrap_init malloc (mem_calls (df_ctx d)) buf with
  | inr rv => Some (d, [buf], rv)
  | inl bufs => deflate_finish (nghttp2_hd_deflate_hd_bufs d bufs nva)
  end.

Definition nghttp2_hd_deflate_hd_vec2 (d : nghttp2_hd_deflater) (vec : list bytes)
    (nva : list nghttp2_nv) : option (nghttp2_hd_deflater * list bytes * Z) :=
  match nghttp2_bufs_wrap_init2 malloc (mem_calls (df_ctx d)) vec with
  | inr rv => Some (d, vec, rv)
  | inl bufs => deflate_finish (nghttp2_hd_deflate_hd_bufs d bufs nva)
  end.

End Deflate.

(** [n += nva[i].namelen + nva[i].valuelen] *)
Fixpoint deflate_bound_loop (nva : list nghttp2_nv) (n : Z) : Z :=
  match nva with
  | [] => n
  | nv :: nva => deflate_bound_loop nva (n + (zlen (nv_name nv) + zlen (nv_value nv)))
  end.

Definition nghttp2_hd_deflate_bound (nva : list nghttp2_nv) : Z :=
  deflate_bound_loop nva (12 + 6 * 2 * zlen nva).

Definition nghttp2_hd_deflate_get_num_table_entries (d : nghttp2_hd_deflater) : Z :=
  get_max_index (df_ctx d).

Definition nghttp2_hd_deflate_get_table_entry (d : nghttp2_hd_deflater) (idx : Z)
    : option (option nghttp2_nv) := hd_get_table_entry (df_ctx d) idx.

Definition nghttp2_hd_deflate_get_dynamic_table_size (d : nghttp2_hd_deflater) : Z :=
  hd_table_bufsize (df_ctx d).

Definition nghttp2_hd_deflate_get_max_dynamic_table_size (d : nghttp2_hd_deflater) : Z :=
  hd_table_bufsize_max (df_ctx d).

(** ** Specification: representations, their octets, their meaning *)

Inductive hrepr :=
  | HIndexed (idx : Z)
  | HIndName (mode : nghttp2_hd_indexing_mode) (idx : Z) (value : bytes)
  | HNewName (mode : nghttp2_hd_indexing_mode) (name value : bytes)
  | HSize (n : Z).

Definition mode_prefix (mode : nghttp2_hd_indexing_mode) : Z :=
  if decide (mode = NGHTTP2_HD_WITH_INDEXING) then 6 else 4.

(** A string literal: Huffman-coded if that is shorter. *)
Definition string_bytes (s : bytes) : bytes :=
  let enc := pack (huff_bits s) in
  if zlen enc <? zlen s then int_bytes 128 (zlen enc) 7 ++ enc else int_bytes 0 (zlen s) 7 ++ s.

Definition repr_bytes (r : hrepr) : bytes :=
  match r with
  | HIndexed idx => int_bytes 0x80 (idx + 1) 7
  | HIndName mode idx value =>
      int_bytes (pack_first_byte mode) (idx + 1) (mode_prefix mode) ++ string_bytes value
  | HNewName mode name value => [pack_first_byte mode] ++ string_bytes name ++ string_bytes value
  | HSize n => int_bytes 0x20 n 5
  end.

(** The state of a decoder: the maximum size and the table. *)
Abbreviation hstate := (Z * list nghttp2_hd_nv)%type.

Definition mode_flags (mode : nghttp2_hd_indexing_mode) : Z :=
  if decide (mode = NGHTTP2_HD_NEVER_INDEXING) then NGHTTP2_NV_FLAG_NO_INDEX else NGHTTP2_NV_FLAG_NONE.

Definition literal_apply (st : hstate) (mode : nghttp2_hd_indexing_mode) (nv : nghttp2_hd_nv)
    : hstate * list nghttp2_hd_nv :=
  let '(max, nvs) := st in
  ((max, if decide (mode = NGHTTP2_HD_WITH_INDEXING) then fit max (nv :: nvs) else nvs), [nv]).

(** The new state and the fields it emits (RFC 7541, sections 3.2 and 4.3). *)
Definition repr_apply (st : hstate) (r : hrepr) : option (hstate * list nghttp2_hd_nv) :=
  match r with
  | HIndexed idx =>
      h ← (static_nvs ++ st.2) !! Z.to_nat idx; Some (st, [h])
  | HIndName mode idx value =>
      h ← (static_nvs ++ st.2) !! Z.to_nat idx;
      Some (literal_apply st mode (mk_hd_nv (hn_name h) value (hn_token h) (mode_flags mode)))
  | HNewName mode name value =>
      Some (literal_apply st mode (mk_hd_nv name value (lookup_token name) (mode_flags mode)))
  | HSize n => Some ((n, fit n st.2), [])
  end.

Fixpoint reprs_apply (st : hstate) (rs : list hrepr) : option (hstate * list nghttp2_hd_nv) :=
  match rs with
  | [] => Some (st, [])
  | r :: rs =>
      '(st, out) ← repr_apply st r;
      '(st, outs) ← reprs_apply st rs;
      Some (st, out ++ outs)
  end.

Definition block_bytes (rs : list hrepr) : bytes := concat (map repr_bytes rs).

(** Fields the application may hand over: octets, of lengths that fit in the
    integers of the wire format. *)
Record nv_ok (nv : nghttp2_nv) : Prop := {
  nvo_name : is_bytes (nv_name nv);
  nvo_value : is_bytes (nv_value nv);
  nvo_namelen : is_u32 (zlen (nv_name nv));
  nvo_valuelen : is_u32 (zlen (nv_value nv));
}.

(** Lengths for which a string literal takes at most five octets of length. *)
Definition nv_short (nv : nghttp2_nv) : Prop :=
  zlen (nv_name nv) < 2 ^ 28 /\ zlen (nv_value nv) < 2 ^ 28.

(** The share of one field in [nghttp2_hd_deflate_bound]. *)
Definition field_bound (nv : nghttp2_nv) : Z := 12 + zlen (nv_name nv) + zlen (nv_value nv).

Lemma string_bytes_bound s : zlen s < 2 ^ 28 -> zlen (string_bytes s) <= 5 + zlen s.
Proof.
  intros Hs. unfold string_bytes. change (2 ^ 28) with (2 ^ (7 * Z.of_nat 4)) in Hs.
  destruct (Z.ltb_spec (zlen (pack (huff_bits s))) (zlen s)); rewrite length_app;
    [pose proof (int_bytes_bound 4 128 (zlen (pack (huff_bits s))) 7)|
     pose proof (int_bytes_bound 4 0 (zlen s) 7)]; lia.
Qed.

Lemma literal_bytes_bound nv mode idx : nv_short nv -> 0 <= idx + 1 < 2 ^ 28 ->
  zlen (repr_bytes (HNewName mode (nv_name nv) (nv_value nv))) <= field_bound nv /\
  zlen (repr_bytes (HIndName mode idx (nv_value nv))) <= field_bound nv /\
  zlen (repr_bytes (HIndexed idx)) <= field_bound nv.
Proof.
  intros [Hn Hv] Hi. apply string_bytes_bound in Hn, Hv. unfold field_bound.
  change (2 ^ 28) with (2 ^ (7 * Z.of_nat 4)) in Hi. cbn [repr_bytes app length].
  pose proof (int_bytes_bound 4 (pack_first_byte mode) (idx + 1) (mode_prefix mode)) as H1.
  pose proof (int_bytes_bound 4 0x80 (idx + 1) 7) as H2.
  assert (0 <= mode_prefix mode) by (by destruct mode).
  rewrite !length_app. lia.
Qed.

(** ** The emitters write the octets *)

Section DeflateProof.
Context (malloc : nat -> nat -> option bytes) `{!Allocator malloc}.

Lemma emit_int_writes s first n prefix :
  bufs_wf s -> 0 < prefix <= 8 -> is_u64 n -> 0 <= first < 256 -> first mod 2 ^ prefix = 0 ->
  writes malloc s (int_bytes first n prefix) (emit_int malloc s first n prefix).
Proof.
  intros Hwf Hp Hn Hf Hm. unfold emit_int. pose proof (int_bytes_length first n prefix) as Hl.
  rewrite (count_encoded_length_spec first) by done.
  rewrite (proj2 (Z.ltb_ge _ _)) by (unfold sizeof_sb; lia).
  rewrite (encode_length_spec _ first) by (done || (simpl; lia)). cbn [mbind option_bind].
  rewrite mem_write_0, Nat2Z.id, take_app_length. by apply bufs_add_writes.
Qed.

Lemma emit_string_writes s str :
  bufs_wf s -> is_bytes str -> is_u64 (zlen str) ->
  writes malloc s (string_bytes str) (emit_string malloc s str).
Proof.
  intros Hwf Hb Hl. unfold emit_string, string_bytes. rewrite huff_encode_count_spec by done.
  destruct (Z.ltb_spec (zlen (pack (huff_bits str))) (zlen str)).
  - apply writes_bind; [apply emit_int_writes; try done; unfold_width; lia|].
    intros s1 Hap. apply huff_encode_ok; [done|done|apply Hap].
  - apply writes_bind; [apply emit_int_writes; try done; unfold_width; lia|].
    intros s1 Hap. apply bufs_add_writes; [done|apply Hap].
Qed.

Lemma first_byte_ok mode : 0 <= pack_first_byte mode < 256 /\
  pack_first_byte mode mod 2 ^ mode_prefix mode = 0 /\ 0 < mode_prefix mode <= 8.
Proof. destruct mode; vm_compute; split_and!; congruence. Qed.

Lemma emit_indname_writes s idx nv mode :
  bufs_wf s -> nv_ok nv -> is_u64 (idx + 1) ->
  writes malloc s (repr_bytes (HIndName mode idx (nv_value nv))) (emit_indname_block malloc s idx nv mode).
Proof.
  intros Hwf [] Hi. destruct (first_byte_ok mode) as (? & ? & ?). unfold emit_indname_block.
  apply writes_bind; [by apply emit_int_writes|].
  intros s1 Hap. apply emit_string_writes; [apply Hap|done|unfold_width; lia].
Qed.

Lemma emit_newname_writes s nv mode :
  bufs_wf s -> nv_ok nv ->
  writes malloc s (repr_bytes (HNewName mode (nv_name nv) (nv_value nv))) (emit_newname_block malloc s nv mode).
Proof.
  intros Hwf []. unfold emit_newname_block.
  apply writes_bind; [by apply bufs_addb_writes|]. intros s1 Hap.
  apply writes_bind; [apply emit_string_writes; [apply Hap|done|unfold_width; lia]|].
  intros s2 Hap2. apply emit_string_writes; [apply Hap2|done|unfold_width; lia].
Qed.

(** ** Compressing one field *)

(** The compressor holds the table [nvs]; its size is a 32-bit number, as the
    settings of the protocol are. *)
Definition deflater_rep (d : nghttp2_hd_deflater) (nvs : list nghttp2_hd_nv) : Prop :=
  represents (df_ctx d) (Some (df_map d)) nvs /\ hd_table_bufsize_max (df_ctx d) <= UINT32_MAX.

(** Everything but the table is as before. *)
Definition same_settings (d d' : nghttp2_hd_deflater) : Prop :=
  hd_table_bufsize_max (df_ctx d') = hd_table_bufsize_max (df_ctx d) /\
  ctx_bad (df_ctx d') = ctx_bad (df_ctx d) /\
  deflate_hd_table_bufsize_max d' = deflate_hd_table_bufsize_max d /\
  df_min_hd_table_bufsize_max d' = df_min_hd_table_bufsize_max d /\
  notify_table_size_change d' = notify_table_size_change d.

Lemma same_settings_refl d : same_settings d d.
Proof. done. Qed.

Lemma same_settings_trans d1 d2 d3 : same_settings d1 d2 -> same_settings d2 d3 -> same_settings d1 d3.
Proof. unfold same_settings. intuition congruence. Qed.

(** The errors of compression. *)
Definition deflate_error (rv : Z) : Prop :=
  rv = NGHTTP2_ERR_BUFFER_ERROR \/
  (rv = NGHTTP2_ERR_NOMEM \/ rv = NGHTTP2_ERR_HEADER_COMP) /\ can_fail malloc.

Lemma deflate_store_ok d nvs nv idx hash :
  deflater_rep d nvs ->
  (idx = -1 \/ 0 <= idx /\ exists h, (static_nvs ++ nvs) !! Z.to_nat idx = Some h /\ hn_name h = nv_name nv) ->
  exists d' rv nvs', deflate_store malloc d nv idx (lookup_token (nv_name nv)) hash = Some (d', rv) /\
    deflater_rep d' nvs' /\ same_settings d d' /\
    (rv = 0 -> nvs' = fit (hd_table_bufsize_max (df_ctx d))
      (mk_hd_nv (nv_name nv) (nv_value nv) (lookup_token (nv_name nv)) NGHTTP2_NV_FLAG_NONE :: nvs)) /\
    (rv <> 0 -> (rv = NGHTTP2_ERR_NOMEM \/ rv = NGHTTP2_ERR_HEADER_COMP) /\ can_fail malloc).
Proof.
  intros [Hrep Hmax] Hidx. unfold deflate_store.
  assert (exists no calls, (if idx =? -1
     then Some (if nghttp2_rcbuf_new2 malloc (mem_calls (df_ctx d)) (nv_name nv)
                then Some (nv_name nv) else None, S (mem_calls (df_ctx d)))
     else h ← nghttp2_hd_table_get (df_ctx d) idx; Some (Some (hn_name h), mem_calls (df_ctx d))) =
     Some (no, calls) /\ (no = None /\ can_fail malloc \/ no = Some (nv_name nv)) /\ (mem_calls (df_ctx d) <= calls)%nat)
    as (no & calls & -> & Hno & Hcalls).
  { destruct Hidx as [->|(H0 & h & Hh & Hn)]; cbn [Z.eqb].
    - eexists _, _. split; [done|]. split; [|lia].
      destruct (nghttp2_rcbuf_new2 _ _ _) eqn:Hm; [by right|left; by eapply conj, mem_ok_false].
    - rewrite (proj2 (Z.eqb_neq idx (-1))) by lia. rewrite (represents_get _ _ _ _ Hrep H0), Hh.
      cbn [mbind option_bind]. rewrite Hn.
      eexists _, _. split; [done|]. split; [by right|lia]. }
  cbn [mbind option_bind]. destruct Hno as [[-> Hf]| ->].
  { eexists _, _, nvs. split; [done|]. split; [by split; [by apply represents_calls|]|].
    split; [done|]. split; [done|]. intros _. by split; [left|]. }
  destruct (nghttp2_rcbuf_new2 malloc calls (nv_value nv)) eqn:Hm.
  2:{ apply mem_ok_false in Hm. eexists _, _, nvs. split; [done|]. split; [split; [apply represents_calls; [done|lia]|done]|].
      split; [done|]. split; [done|]. intros _. by split; [left|]. }
  set (hnv := mk_hd_nv _ _ _ _).
  destruct (represents_add malloc (ctx_set_calls (df_ctx d) (S calls)) (Some (df_map d)) nvs hnv hash)
    as (ctx' & map' & rv & nvs' & -> & Hrep' & Hok & Herr & Hmx & Hbad & Hn);
    [apply represents_calls; [done|lia]|done|]. cbn [mbind option_bind].
  destruct map' as [m'|]; [|discriminate (proj1 Hn eq_refl)]. cbn [mbind option_bind].
  eexists _, _, nvs'. split; [done|]. simpl in Hmx, Hbad.
  split; [split; [done|]; simpl; lia|]. split; [done|].
  destruct (Z.eqb_spec rv 0) as [->|Hne]; (split; [done || auto|]); [done|].
  intros _. split; [by right|]. by apply Herr.
Qed.

(** Entries of the tables carry the token of their name. *)
Lemma table_entry_token nvs idx h :
  tokens_ok nvs -> (static_nvs ++ nvs) !! idx = Some h -> hn_token h = lookup_token (hn_name h).
Proof.
  intros Ht Hh. apply lookup_app_Some in Hh as [Hh|[_ Hh]].
  - unfold static_nvs in Hh. apply list_lookup_fmap_Some in Hh as (e & -> & He).
    symmetry. exact (Forall_lookup_1 _ _ _ _ static_table_tokens He).
  - exact (Forall_lookup_1 _ _ _ _ Ht Hh).
Qed.

(** The hash of the code is defined for every token. *)
Lemma deflate_hash_defined nv : exists hash,
  (if lookup_token (nv_name nv) =? -1 then Some (name_hash nv)
   else if lookup_token (nv_name nv) <=? NGHTTP2_TOKEN_WWW_AUTHENTICATE
   then se_hash <$> static_table !! Z.to_nat (lookup_token (nv_name nv)) else Some 0) = Some hash.
Proof.
  pose proof (lookup_token_range (nv_name nv)). destruct (Z.eqb_spec (lookup_token (nv_name nv)) (-1)); [eauto|].
  destruct (Z.leb_spec (lookup_token (nv_name nv)) NGHTTP2_TOKEN_WWW_AUTHENTICATE); [|eauto].
  destruct (static_token_entry (nv_name nv)) as (ent & -> & _); [lia|]. simpl. eauto.
Qed.

(** A representation of a field, not a size update. *)
Definition is_field (r : hrepr) : Prop :=
  match r with
  | HIndexed idx | HIndName _ idx _ => 0 <= idx
  | HNewName _ _ _ => True
  | HSize _ => False
  end.

Definition field_eq (nv : nghttp2_nv) (out : nghttp2_hd_nv) : Prop :=
  hn_name out = nv_name nv /\ hn_value out = nv_value nv.

(** The outcome of compressing a field: the octets of some representation,
    which a decoder that has the same table reads as this field and the new
    table, or an error. *)
Definition field_deflated (d : nghttp2_hd_deflater) (s : nghttp2_bufs) (nvs : list nghttp2_hd_nv)
    (nv : nghttp2_nv) (res : (nghttp2_hd_deflater * nghttp2_bufs) * Z) : Prop :=
  let '((d', s'), rv) := res in
  let max := hd_table_bufsize_max (df_ctx d) in
  exists nvs' r out,
    bufs_wf s' /\ deflater_rep d' nvs' /\ same_settings d d' /\
    (rv <> 0 -> deflate_error rv) /\
    (rv = NGHTTP2_ERR_BUFFER_ERROR -> (bufs_room s < length (repr_bytes r))%nat) /\
    (rv = 0 -> bufs_appended s (repr_bytes r) s' /\
       repr_apply (max, nvs) r = Some ((max, nvs'), [out]) /\
       field_eq nv out /\ is_field r) /\
    (nv_short nv -> zlen (repr_bytes r) <= field_bound nv).

(** The representation is written after the table is updated. *)
Lemma field_deflated_emit d d' s nvs nvs' nv r out res :
  deflater_rep d' nvs' -> same_settings d d' -> writes malloc s (repr_bytes r) res ->
  repr_apply (hd_table_bufsize_max (df_ctx d), nvs) r =
    Some ((hd_table_bufsize_max (df_ctx d), nvs'), [out]) ->
  field_eq nv out -> is_field r -> (nv_short nv -> zlen (repr_bytes r) <= field_bound nv) ->
  exists x, try_bind res (fun bufs => Some ((d', bufs), 0)) (fun bufs => (d', bufs)) = Some x /\
    field_deflated d s nvs nv x.
Proof.
  intros Hrep Hset (s' & rv & -> & Hwf & Hrv & Hok & Hfull & Hnm & _) Hr Hn Hif Hb.
  exists ((d', s'), rv). split.
  { unfold try_bind. cbn [mbind option_bind]. by destruct (Z.eqb_spec rv 0) as [->|]. }
  exists nvs', r, out. split_and!; [done|done|done..| | |naive_solver|done].
  - unfold deflate_error. naive_solver.
  - done.
Qed.

Lemma field_deflated_error d d' s nvs nvs' nv rv :
  bufs_wf s -> deflater_rep d' nvs' -> same_settings d d' -> 
  (rv = NGHTTP2_ERR_NOMEM \/ rv = NGHTTP2_ERR_HEADER_COMP) /\ can_fail malloc -> field_deflated d s nvs nv ((d', s), rv).
Proof.
  intros Hwf Hrep Hset Hrv. exists nvs', (HIndexed 0), (mk_hd_nv [] [] 0 0).
  split_and!; try done; [intros _; by right|by destruct Hrv as [[-> | ->] _]..|].
  intros _. unfold field_bound. change (length (repr_bytes (HIndexed 0))) with 1%nat. lia.
Qed.

(** Indices of table entries are small. *)
Lemma table_index_small d nvs idx h :
  deflater_rep d nvs -> (static_nvs ++ nvs) !! Z.to_nat idx = Some h -> 0 <= idx ->
  0 <= idx + 1 < 2 ^ 28.
Proof.
  intros [(ls & _ & _ & _ & Hs) Hmax] Hh Hi. pose proof (table_size_nonneg nvs).
  apply lookup_lt_Some in Hh. rewrite length_app in Hh. change (length static_nvs) with 61%nat in Hh.
  change (2 ^ 28) with 268435456. cint_lia.
Qed.

(** The literal chosen for a field, and its meaning. *)
Definition literal_repr (nv : nghttp2_nv) (mode : nghttp2_hd_indexing_mode) (idx : Z) : hrepr :=
  if idx =? -1 then HNewName mode (nv_name nv) (nv_value nv) else HIndName mode idx (nv_value nv).

Lemma literal_is_field nv mode idx : idx = -1 \/ 0 <= idx -> is_field (literal_repr nv mode idx).
Proof. unfold literal_repr. intros H. destruct (Z.eqb_spec idx (-1)); simpl; [done|lia]. Qed.

Lemma literal_repr_apply st nv mode idx :
  tokens_ok st.2 ->
  (idx = -1 \/ 0 <= idx /\ exists h, (static_nvs ++ st.2) !! Z.to_nat idx = Some h /\ hn_name h = nv_name nv) ->
  repr_apply st (literal_repr nv mode idx) =
    Some (literal_apply st mode
      (mk_hd_nv (nv_name nv) (nv_value nv) (lookup_token (nv_name nv)) (mode_flags mode))).
Proof.
  intros Ht [->|(Hi & h & Hh & Hn)]; [done|]. unfold literal_repr.
  rewrite (proj2 (Z.eqb_neq idx (-1))) by lia. cbn [repr_apply]. rewrite Hh. cbn [mbind option_bind].
  by rewrite (table_entry_token _ _ _ Ht Hh), Hn.
Qed.

Lemma emit_literal_writes d nvs s nv mode idx :
  deflater_rep d nvs -> bufs_wf s -> nv_ok nv ->
  (idx = -1 \/ 0 <= idx /\ exists h, (static_nvs ++ nvs) !! Z.to_nat idx = Some h /\ hn_name h = nv_name nv) ->
  writes malloc s (repr_bytes (literal_repr nv mode idx))
    (if idx =? -1 then emit_newname_block malloc s nv mode else emit_indname_block malloc s idx nv mode).
Proof.
  intros Hrep Hwf Hnv [->|(Hi & h & Hh & _)]; [by apply emit_newname_writes|]. unfold literal_repr.
  rewrite (proj2 (Z.eqb_neq idx (-1))) by lia.
  apply emit_indname_writes; [done|done|].
  pose proof (table_index_small _ _ _ _ Hrep Hh Hi). cint_lia.
Qed.

Lemma literal_repr_bound d nvs nv mode idx :
  deflater_rep d nvs ->
  (idx = -1 \/ 0 <= idx /\ exists h, (static_nvs ++ nvs) !! Z.to_nat idx = Some h /\ hn_name h = nv_name nv) ->
  nv_short nv -> zlen (repr_bytes (literal_repr nv mode idx)) <= field_bound nv.
Proof.
  intros Hrep [->|(Hi & h & Hh & _)] Hsh.
  - by destruct (literal_bytes_bound nv mode (-1) Hsh ltac:(done)) as (? & _ & _).
  - pose proof (table_index_small _ _ _ _ Hrep Hh Hi) as Hsm. unfold literal_repr.
    rewrite (proj2 (Z.eqb_neq idx (-1))) by lia.
    by destruct (literal_bytes_bound nv mode idx Hsh Hsm) as (_ & ? & _).
Qed.

Lemma deflate_literal_ok d s nv nvs mode idx hash :
  deflater_rep d nvs -> bufs_wf s -> nv_ok nv ->
  (idx = -1 \/ 0 <= idx /\ exists h, (static_nvs ++ nvs) !! Z.to_nat idx = Some h /\ hn_name h = nv_name nv) ->
  exists x, try_bind (if decide (mode = NGHTTP2_HD_WITH_INDEXING)
              then deflate_store malloc d nv idx (lookup_token (nv_name nv)) hash else Some (d, 0))
      (fun d =>
         try_bind (if idx =? -1 then emit_newname_block malloc s nv mode
                   else emit_indname_block malloc s idx nv mode)
           (fun bufs => Some ((d, bufs), 0)) (fun bufs => (d, bufs)))
      (fun d => (d, s)) = Some x /\ field_deflated d s nvs nv x.
Proof.
  intros Hrep Hwf Hnv Hidx.
  assert (Ht : tokens_ok nvs) by (by destruct Hrep as [(ls & _ & _ & ? & _) _]).
  pose proof (emit_literal_writes d nvs s nv mode idx Hrep Hwf Hnv Hidx) as Hw.
  pose proof (literal_repr_apply (hd_table_bufsize_max (df_ctx d), nvs) nv mode idx Ht Hidx) as Ha.
  unfold literal_apply, mode_flags in Ha. destruct (decide (mode = NGHTTP2_HD_WITH_INDEXING)) as [->|].
  - destruct (deflate_store_ok d nvs nv idx hash Hrep Hidx) as
      (d' & rv & nvs' & -> & Hrep' & Hset & Hok & Herr). unfold try_bind at 1. cbn [mbind option_bind].
    destruct (Z.eqb_spec rv 0) as [->|Hne].
    + eapply field_deflated_emit; [done|done|exact Hw|rewrite (Hok eq_refl); exact Ha|done|apply literal_is_field; naive_solver|].
      by apply (literal_repr_bound d nvs).
    + eexists. split; [done|]. apply (field_deflated_error _ _ _ _ nvs'); auto.
  - unfold try_bind at 1. cbn [mbind option_bind Z.eqb].
    eapply field_deflated_emit; [done|done|exact Hw|exact Ha|done|apply literal_is_field; naive_solver|].
    by apply (literal_repr_bound d nvs).
Qed.

Lemma deflate_nv_ok d s nv nvs :
  deflater_rep d nvs -> bufs_wf s -> nv_ok nv ->
  exists x, deflate_nv malloc d s nv = Some x /\ field_deflated d s nvs nv x.
Proof.
  intros Hrep Hwf Hnv. pose proof Hrep as [Hr Hmax]. unfold deflate_nv.
  destruct (deflate_hash_defined nv) as [hash ->]. cbn [mbind option_bind].
  set (mode := if _ || _ || _ then _ else _).
  destruct (represents_search _ _ _ nv mode hash Hr Hmax) as ([idx match_] & -> & Hs).
  cbn [mbind option_bind sr_index sr_match] in *.
  destruct match_.
  - destruct Hs as [[??]|(Hi & h & Hh & Hn & Hv)]; [done|].
    pose proof (table_index_small _ _ _ _ Hrep Hh Hi) as Hsm.
    apply (field_deflated_emit _ _ _ _ nvs _ (HIndexed idx) h);
      [done|done| |cbn [repr_apply snd]; by rewrite Hh|by split; auto|done|].
    + apply emit_int_writes; try done. cint_lia.
    + intros Hsh. by destruct (literal_bytes_bound nv mode idx Hsh Hsm) as (_ & _ & ?).
  - assert (idx = -1 \/ 0 <= idx /\ exists h, (static_nvs ++ nvs) !! Z.to_nat idx = Some h /\
      hn_name h = nv_name nv) as Hidx by naive_solver.
    by apply deflate_literal_ok.
Qed.

(** ** Compressing a list of fields *)

Lemma reprs_apply_app st rs1 rs2 :
  reprs_apply st (rs1 ++ rs2) =
  '(st1, out1) ← reprs_apply st rs1; '(st2, out2) ← reprs_apply st1 rs2; Some (st2, out1 ++ out2).
Proof.
  revert st. induction rs1 as [|r rs1 IH]; intros st; cbn [reprs_apply app mbind option_bind].
  - by destruct (reprs_apply st rs2) as [[??]|].
  - destruct (repr_apply st r) as [[st0 out0]|]; cbn [mbind option_bind]; [|done]. rewrite IH.
    destruct (reprs_apply st0 rs1) as [[st1 out1]|]; cbn [mbind option_bind]; [|done].
    destruct (reprs_apply st1 rs2) as [[st2 out2]|]; cbn [mbind option_bind]; [|done].
    by rewrite app_assoc.
Qed.

Lemma block_bytes_app rs1 rs2 : block_bytes (rs1 ++ rs2) = block_bytes rs1 ++ block_bytes rs2.
Proof. unfold block_bytes. by rewrite map_app, concat_app. Qed.

Definition fields_bound (nva : list nghttp2_nv) : Z := foldr (fun nv n => field_bound nv + n) 0 nva.

(** The outcome of compressing fields for a decoder in the state [st]: the
    representations are [pre] and then those of the fields. *)
Definition fields_deflated (d : nghttp2_hd_deflater) (s : nghttp2_bufs) (st : hstate)
    (nva : list nghttp2_nv) (pre : list hrepr) (res : (nghttp2_hd_deflater * nghttp2_bufs) * Z) : Prop :=
  let '((d', s'), rv) := res in
  exists nvs' rs outs,
    bufs_wf s' /\ deflater_rep d' nvs' /\ same_settings d d' /\
    (rv <> 0 -> deflate_error rv) /\
    (rv = NGHTTP2_ERR_BUFFER_ERROR -> (bufs_room s < length (block_bytes (pre ++ rs)))%nat) /\
    (rv = 0 -> bufs_appended s (block_bytes (pre ++ rs)) s' /\
       reprs_apply st (pre ++ rs) = Some ((hd_table_bufsize_max (df_ctx d), nvs'), outs) /\
       Forall2 field_eq nva outs /\ Forall is_field rs) /\
    (Forall nv_short nva -> zlen (block_bytes rs) <= fields_bound nva).

Lemma fields_bound_nonneg nva : 0 <= fields_bound nva.
Proof. induction nva; simpl; unfold field_bound in *; lia. Qed.

Lemma fields_bound_app a b : fields_bound (a ++ b) = fields_bound a + fields_bound b.
Proof.
  induction a as [|nv a IH]; [done|]. cbn [app].
  change (fields_bound (nv :: a)) with (field_bound nv + fields_bound a).
  change (fields_bound (nv :: (a ++ b))) with (field_bound nv + fields_bound (a ++ b)). lia.
Qed.

(** Representations already written come first: size updates [pre] and those
    of the fields [nva0]. *)
Lemma fields_deflated_app d s pre rs0 s0 st st0 out0 nva nva0 x :
  bufs_appended s (block_bytes (pre ++ rs0)) s0 -> reprs_apply st (pre ++ rs0) = Some (st0, out0) ->
  Forall2 field_eq nva0 out0 -> Forall is_field rs0 ->
  (Forall nv_short nva0 -> zlen (block_bytes rs0) <= fields_bound nva0) ->
  fields_deflated d s0 st0 nva [] x -> fields_deflated d s st (nva0 ++ nva) pre x.
Proof.
  intros Hap Hst Hf His Hb. destruct x as [[d' s'] rv].
  intros (nvs' & rs & outs & Hwf & Hrep & Hset & Herr & Hfull & Hok & Hb'). cbn [app] in *.
  exists nvs', (rs0 ++ rs), (out0 ++ outs). rewrite app_assoc, (block_bytes_app (pre ++ rs0)).
  split_and!; try done.
  - intros E. apply Hfull in E. rewrite (ap_room _ _ _ Hap), length_app. lia.
  - intros E. destruct (Hok E) as (Hap' & Ha & Hf' & His'). split; [by eapply bufs_appended_trans|].
    split; [|split; [by apply Forall2_app|by apply Forall_app]].
    rewrite reprs_apply_app, Hst. cbn [mbind option_bind]. by rewrite Ha.
  - intros [H1 H2]%Forall_app. specialize (Hb H1). specialize (Hb' H2).
    rewrite block_bytes_app, length_app, fields_bound_app. lia.
Qed.

Lemma fields_deflated_settings d d0 s st nva pre x :
  same_settings d d0 -> fields_deflated d0 s st nva pre x -> fields_deflated d s st nva pre x.
Proof.
  intros Hset. destruct x as [[d' s'] rv]. intros (nvs' & rs & outs & ? & ? & Hset' & H).
  exists nvs', rs, outs. rewrite <- (proj1 Hset). split; [done|]. split; [done|].
  split; [by eapply same_settings_trans|done].
Qed.

Lemma field_fields_deflated d s nvs nv d' s' rv : rv <> 0 ->
  field_deflated d s nvs nv ((d', s'), rv) -> forall st nva, fields_deflated d s st (nv :: nva) [] ((d', s'), rv).
Proof.
  intros Hne (nvs' & r & out & Hwf & Hrep & Hset & Herr & Hfull & _ & Hb) st nva.
  exists nvs', [r], []. cbn [app]. assert (block_bytes [r] = repr_bytes r) as -> by apply app_nil_r.
  split_and!; try done. intros [H1 H2]%Forall_cons. specialize (Hb H1).
  pose proof (fields_bound_nonneg nva). cbn [fields_bound foldr]. unfold fields_bound in *. lia.
Qed.

Lemma deflate_nvs_ok nva d s nvs :
  deflater_rep d nvs -> bufs_wf s -> Forall nv_ok nva ->
  exists x, deflate_nvs malloc d s nva = Some x /\
    fields_deflated d s (hd_table_bufsize_max (df_ctx d), nvs) nva [] x.
Proof.
  revert d s nvs. induction nva as [|nv nva IH]; intros d s nvs Hrep Hwf Hok.
  { exists ((d, s), 0). split; [done|]. exists nvs, [], [].
    split_and!; try done. intros _. split; [by apply bufs_appended_nil|done]. }
  apply Forall_cons in Hok as [Hnv Hnva]. cbn [deflate_nvs].
  destruct (deflate_nv_ok d s nv nvs Hrep Hwf Hnv) as ([[d1 s1] rv] & -> & Hf).
  unfold try_bind. cbn [mbind option_bind]. destruct (Z.eqb_spec rv 0) as [->|Hne].
  - destruct Hf as (nvs1 & r & out & Hwf1 & Hrep1 & Hset & _ & _ & Hok & Hb).
    destruct (Hok eq_refl) as (Hap & Ha & Hfe & Hif).
    destruct (IH d1 s1 nvs1 Hrep1 Hwf1 Hnva) as (x & -> & Hx). exists x. split; [done|].
    apply (fields_deflated_settings d d1) in Hx; [|done].
    assert (block_bytes [r] = repr_bytes r) as Hr by apply app_nil_r. rewrite <- Hr in *.
    rewrite (proj1 Hset) in Hx.
    refine (fields_deflated_app d s [] [r] s1 _ _ [out] nva [nv] x Hap _ _ _ _ Hx).
    + cbn [app reprs_apply]. rewrite Ha. done.
    + by constructor.
    + by constructor.
    + intros [Hsh _]%Forall_cons. specialize (Hb Hsh). cbn [fields_bound foldr]. lia.
  - eexists. split; [done|]. by eapply field_fields_deflated.
Qed.

(** ** A compressor and a decoder in step

    [st] is the state of a decoder that has read all blocks so far: it has the
    compressor's table, except that it has not yet been told of the size
    changes still to be announced. *)
Record synced (d : nghttp2_hd_deflater) (nvs : list nghttp2_hd_nv) (st : hstate) : Prop := {
  sy_rep : deflater_rep d nvs;
  sy_min : 0 <= df_min_hd_table_bufsize_max d <= UINT32_MAX;
  sy_limit : 0 <= deflate_hd_table_bufsize_max d;
  sy_quiet : notify_table_size_change d = false ->
    df_min_hd_table_bufsize_max d = UINT32_MAX /\ st = (hd_table_bufsize_max (df_ctx d), nvs);
  sy_notify : notify_table_size_change d = true ->
    nvs = fit (Z.min (df_min_hd_table_bufsize_max d) (hd_table_bufsize_max (df_ctx d))) st.2 /\
    (st.2 = [] \/ df_min_hd_table_bufsize_max d <= hd_table_bufsize_max (df_ctx d));
}.

Lemma deflate_init2_synced n d : is_u64 n -> nghttp2_hd_deflate_init2 malloc n = inl d ->
  synced d [] (NGHTTP2_HD_DEFAULT_MAX_BUFFER_SIZE, []) /\ ctx_bad (df_ctx d) = false.
Proof.
  intros Hn. unfold nghttp2_hd_deflate_init2. destruct (hd_context_init malloc) as [ctx|] eqn:E; [|done].
  destruct (hd_context_init_rep _ _ E) as (_ & (ls & Hc & Hm & Ht & Hs) & Hmax & Hbad).
  destruct (Z.ltb_spec n NGHTTP2_HD_DEFAULT_MAX_BUFFER_SIZE) as [Hlt|Hge]; intros [= <-]; (split; [|done]).
  - split; simpl; [|done|apply Hn|done|by intros _; split; [|left]].
    split; [|simpl; change NGHTTP2_HD_DEFAULT_MAX_BUFFER_SIZE with 4096 in *; cint_lia]. exists ls.
    split; [by destruct Hc; split|]. split; [done|]. split; [done|apply Hn].
  - split; simpl; [|done|apply Hn|by rewrite Hmax|done].
    split; [by exists ls|]. simpl. rewrite Hmax. by vm_compute.
Qed.

Lemma deflate_change_synced d nvs st n : synced d nvs st -> is_u32 n ->
  exists d', nghttp2_hd_deflate_change_table_size d n = Some (d', 0) /\
    let next := Z.min n (deflate_hd_table_bufsize_max d) in
    hd_table_bufsize_max (df_ctx d') = next /\ synced d' (fit next nvs) st /\
    ctx_bad (df_ctx d') = ctx_bad (df_ctx d).
Proof.
  intros [[Hrep Hmax] Hmin Hlim Hq Hy] Hn. unfold nghttp2_hd_deflate_change_table_size.
  cbv zeta. rewrite !nghttp2_min_spec.
  set (next := Z.min n (deflate_hd_table_bufsize_max d)). assert (0 <= next <= UINT32_MAX) by (subst next; cint_lia).
  destruct (represents_shrink _ _ _ next Hrep) as (ctx' & map' & -> & Hrep' & Hmx & Hbad & Hnone);
    [cint_lia|]. cbn [mbind option_bind].
  destruct map' as [m'|]; [|discriminate (proj1 Hnone eq_refl)]. cbn [mbind option_bind].
  eexists. split; [done|]. simpl. split; [done|]. split; [|done].
  split; simpl; try done; [split; [done|]; simpl; lia|lia|]. intros _. rewrite Hmx. clear Hmx.
  destruct (notify_table_size_change d).
  - destruct (Hy eq_refl) as [-> [->|Hle]]; [by split; [|left]|]. split; [|right; lia].
    rewrite fit_fit. f_equal. lia.
  - destruct (Hq eq_refl) as [-> ->]. simpl. split; [f_equal; lia|right; lia].
Qed.

Definition df_notified (d : nghttp2_hd_deflater) : nghttp2_hd_deflater :=
  if notify_table_size_change d
  then mk_deflater (df_ctx d) (df_map d) (deflate_hd_table_bufsize_max d) UINT32_MAX false
  else d.

Definition size_reprs (d : nghttp2_hd_deflater) : list hrepr :=
  if notify_table_size_change d then
    (if df_min_hd_table_bufsize_max d <? hd_table_bufsize_max (df_ctx d)
     then [HSize (df_min_hd_table_bufsize_max d)] else []) ++ [HSize (hd_table_bufsize_max (df_ctx d))]
  else [].

Lemma size_reprs_apply d nvs st : synced d nvs st ->
  reprs_apply st (size_reprs d) = Some ((hd_table_bufsize_max (df_ctx d), nvs), []).
Proof.
  intros [_ _ _ Hq Hy]. unfold size_reprs. destruct (notify_table_size_change d).
  - destruct (Hy eq_refl) as [-> _]. destruct (Z.ltb_spec (df_min_hd_table_bufsize_max d)
      (hd_table_bufsize_max (df_ctx d))); simpl.
    + rewrite fit_fit. by rewrite Z.min_comm.
    + by rewrite Z.min_r by lia.
  - by destruct (Hq eq_refl) as [_ ->].
Qed.

Lemma emit_table_size_writes s n : bufs_wf s -> 0 <= n <= UINT32_MAX ->
  writes malloc s (repr_bytes (HSize n)) (emit_table_size malloc s n) /\ (length (repr_bytes (HSize n)) <= 6)%nat.
Proof.
  intros Hwf Hn. split; [apply emit_int_writes; try done; cint_lia|].
  apply int_bytes_bound; [done| |lia]. change (2 ^ (7 * Z.of_nat 5)) with 34359738368. cint_lia.
Qed.

Lemma size_updates_writes d nvs st s : synced d nvs st -> bufs_wf s ->
  exists r, writes malloc s (block_bytes (size_reprs d)) r /\
    deflate_size_updates malloc d s =
      try_bind r (fun bufs => Some ((df_notified d, bufs), 0)) (fun bufs => (df_notified d, bufs)).
Proof.
  intros [[Hrep Hmax] Hmin _ _ _] Hwf. unfold deflate_size_updates, size_reprs, df_notified.
  assert (0 <= hd_table_bufsize_max (df_ctx d)) as H0.
  { destruct Hrep as (ls & _ & _ & _ & Hs). pose proof (table_size_nonneg nvs). lia. }
  destruct (notify_table_size_change d); cbv zeta; cbn [df_ctx].
  2:{ exists (Some (s, 0)). split; [by apply writes_nil|done]. }
  set (r1 := if _ <? _ then emit_table_size malloc s _ else _).
  exists (try s1 ← r1 ;; emit_table_size malloc s1 (hd_table_bufsize_max (df_ctx d))).
  split; [|by rewrite try_bind_assoc]. rewrite block_bytes_app.
  assert (forall n, block_bytes [HSize n] = repr_bytes (HSize n)) as Hb by (intros; apply app_nil_r).
  apply writes_bind.
  - subst r1. destruct (_ <? _); [rewrite Hb; by apply emit_table_size_writes|by apply writes_nil].
  - intros s1 Hap. rewrite Hb. apply emit_table_size_writes; [apply Hap|lia].
Qed.

Lemma size_reprs_bound d nvs st : synced d nvs st -> zlen (block_bytes (size_reprs d)) <= 12.
Proof.
  intros [[Hrep Hmax] Hmin _ _ _].
  assert (0 <= hd_table_bufsize_max (df_ctx d)) as H0.
  { destruct Hrep as (ls & _ & _ & _ & Hs). pose proof (table_size_nonneg nvs). lia. }
  assert (forall n, 0 <= n <= UINT32_MAX -> (length (int_bytes 0x20 n 5) <= 6)%nat) as Hl.
  { intros n Hn. apply int_bytes_bound; [done| |lia].
    change (2 ^ (7 * Z.of_nat 5)) with 34359738368. cint_lia. }
  unfold size_reprs. destruct (notify_table_size_change d); [|by vm_compute].
  pose proof (Hl (df_min_hd_table_bufsize_max d) Hmin).
  pose proof (Hl (hd_table_bufsize_max (df_ctx d)) (conj H0 Hmax)).
  destruct (_ <? _); unfold block_bytes; cbn [app map concat repr_bytes]; rewrite !length_app; cbn [length]; lia.
Qed.

Lemma deflate_all_ok d nvs st s nva : synced d nvs st -> bufs_wf s -> Forall nv_ok nva ->
  exists x, try_bind (deflate_size_updates malloc d s)
      (fun '(d, bufs) => deflate_nvs malloc d bufs nva) (fun st => st) = Some x /\
    fields_deflated (df_notified d) s st nva (size_reprs d) x.
Proof.
  intros Hsy Hwf Hnva. destruct (size_updates_writes d nvs st s Hsy Hwf) as (r & Hw & ->).
  pose proof (size_reprs_apply d nvs st Hsy) as Ha.
  assert (deflater_rep (df_notified d) nvs) as Hrep.
  { unfold df_notified. destruct (notify_table_size_change d); apply Hsy. }
  assert (hd_table_bufsize_max (df_ctx (df_notified d)) = hd_table_bufsize_max (df_ctx d)) as Hm.
  { unfold df_notified. by destruct (notify_table_size_change d). }
  destruct Hw as (s1 & rv & -> & Hwf1 & Hrv & Hok & Hfull & Hnm & _).
  unfold try_bind. cbn [mbind option_bind]. destruct (Z.eqb_spec rv 0) as [->|Hne]; cbn [mbind option_bind].
  - destruct (deflate_nvs_ok nva (df_notified d) s1 nvs Hrep Hwf1 Hnva) as (x & -> & Hx).
    exists x. split; [done|]. rewrite Hm in Hx.
    rewrite <- (app_nil_r (size_reprs d)) in Hok, Ha.
    by refine (fields_deflated_app _ s _ [] s1 st _ [] nva [] x (Hok eq_refl) Ha _ _ _ Hx).
  - rewrite (proj2 (Z.eqb_neq rv 0)) by done. eexists. split; [done|].
    exists nvs, [], []. rewrite app_nil_r. pose proof (fields_bound_nonneg nva).
    split_and!; try done. unfold deflate_error. naive_solver.
Qed.

(** The whole function, in terms of the specification. *)
Lemma deflate_hd_bufs_ok d nvs st s nva :
  synced d nvs st -> bufs_wf s -> Forall nv_ok nva -> ctx_bad (df_ctx d) = false ->
  exists d' s' rv rs outs nvs', nghttp2_hd_deflate_hd_bufs malloc d s nva = Some ((d', s'), rv) /\
    bufs_wf s' /\
    (rv = 0 -> bufs_appended s (block_bytes (size_reprs d ++ rs)) s' /\ Forall is_field rs /\
       reprs_apply st (size_reprs d ++ rs) = Some ((hd_table_bufsize_max (df_ctx d), nvs'), outs) /\
       Forall2 field_eq nva outs /\ synced d' nvs' (hd_table_bufsize_max (df_ctx d), nvs') /\
       ctx_bad (df_ctx d') = false /\ notify_table_size_change d' = false) /\
    (rv <> 0 -> ctx_bad (df_ctx d') = true /\ deflate_error rv) /\
    (rv = NGHTTP2_ERR_BUFFER_ERROR -> (bufs_room s < length (block_bytes (size_reprs d ++ rs)))%nat) /\
    (Forall nv_short nva -> zlen (block_bytes (size_reprs d ++ rs)) <= 12 + fields_bound nva).
Proof.
  intros Hsy Hwf Hnva Hbad. unfold nghttp2_hd_deflate_hd_bufs. rewrite Hbad.
  destruct (deflate_all_ok d nvs st s nva Hsy Hwf Hnva) as ([[d' s'] rv] & -> & Hx).
  destruct Hx as (nvs' & rs & outs & Hwf' & Hrep & (Hmx & Hb & Hl & Hmin & Hnot) & Herr & Hfull & Hok & Hbd).
  assert (notify_table_size_change (df_notified d) = false /\
    df_min_hd_table_bufsize_max (df_notified d) = UINT32_MAX /\
    deflate_hd_table_bufsize_max (df_notified d) = deflate_hd_table_bufsize_max d /\
    df_ctx (df_notified d) = df_ctx d) as (Hn1 & Hn2 & Hn3 & Hn4).
  { unfold df_notified. destruct (notify_table_size_change d) eqn:E; [done|].
    destruct (sy_quiet _ _ _ Hsy E). done. }
  assert (Forall nv_short nva -> zlen (block_bytes (size_reprs d ++ rs)) <= 12 + fields_bound nva) as Hbd'.
  { intros Hsh. pose proof (size_reprs_bound d nvs st Hsy). specialize (Hbd Hsh).
    rewrite block_bytes_app, length_app. lia. }
  rewrite Hn4 in *. cbn [mbind option_bind]. destruct (Z.eqb_spec rv 0) as [->|Hne].
  - exists d', s', 0, rs, outs, nvs'. split_and!; try done. intros _.
    destruct (Hok eq_refl) as (Hap & Ha & Hf & His). split_and!; try done; [|congruence|congruence].
    split; try done; [rewrite Hmin, Hn2; by vm_compute|rewrite Hl, Hn3; apply Hsy| |].
    + rewrite Hmin, Hmx. done.
    + congruence.
  - eexists _, s', rv, rs, outs, nvs'. split; [done|]. split_and!; try done. auto.
Qed.

Lemma deflate_bound_spec nva : nghttp2_hd_deflate_bound nva = 12 + fields_bound nva.
Proof.
  unfold nghttp2_hd_deflate_bound.
  assert (forall n, deflate_bound_loop nva n + 12 * zlen nva = n + fields_bound nva) as H.
  { induction nva as [|nv nva IH]; intros n; cbn [deflate_bound_loop length]; [done|].
    specialize (IH (n + (zlen (nv_name nv) + zlen (nv_value nv)))).
    change (fields_bound (nv :: nva)) with (field_bound nv + fields_bound nva). unfold field_bound. lia. }
  specialize (H (12 + 6 * 2 * zlen nva)). lia.
Qed.

(** Fields the compressor must keep out of the tables. *)
Definition sensitive (nv : nghttp2_nv) : bool :=
  (lookup_token (nv_name nv) =? NGHTTP2_TOKEN_AUTHORIZATION) ||
  ((lookup_token (nv_name nv) =? NGHTTP2_TOKEN_COOKIE) && (zlen (nv_value nv) <? 20)) ||
  negb (nv_flags nv .& NGHTTP2_NV_FLAG_NO_INDEX =? 0).

Lemma deflate_nv_sensitive d s nv nvs :
  deflater_rep d nvs -> bufs_wf s -> nv_ok nv -> sensitive nv = true ->
  exists s' rv idx, deflate_nv malloc d s nv = Some ((d, s'), rv) /\
    (rv = 0 -> bufs_appended s (repr_bytes (literal_repr nv NGHTTP2_HD_NEVER_INDEXING idx)) s').
Proof.
  intros Hrep Hwf Hnv Hsen. pose proof Hrep as [Hr Hmax]. unfold deflate_nv.
  destruct (deflate_hash_defined nv) as [hash ->]. cbn [mbind option_bind].
  unfold sensitive in Hsen. rewrite Hsen.
  destruct (represents_search _ _ _ nv NGHTTP2_HD_NEVER_INDEXING hash Hr Hmax) as ([idx m] & E & Hs).
  pose proof (search_never_exact _ _ _ _ _ _ E) as Hm. rewrite E. cbn [mbind option_bind sr_index sr_match] in *.
  subst m. rewrite decide_False by done. unfold try_bind at 1. cbn [mbind option_bind Z.eqb].
  assert (idx = -1 \/ 0 <= idx /\ exists h, (static_nvs ++ nvs) !! Z.to_nat idx = Some h /\
      hn_name h = nv_name nv) as Hidx by naive_solver.
  destruct (emit_literal_writes d nvs s nv NGHTTP2_HD_NEVER_INDEXING idx Hrep Hwf Hnv Hidx) as
    (s' & rv & -> & _ & _ & Hok & _). exists s', rv, idx. split; [|done].
  unfold try_bind. cbn [mbind option_bind]. by destruct (Z.eqb_spec rv 0) as [->|].
Qed.

Lemma wrap_init_wf calls block s : nghttp2_bufs_wrap_init malloc calls block = inl s ->
  bufs_wf s /\ bufs_room s = length block /\ bufs_bytes s = [].
Proof.
  unfold nghttp2_bufs_wrap_init. destruct (malloc calls _); [|done]. intros [= <-].
  split; [|split; [|by vm_compute]].
  - split; simpl; try lia; [|split|]; repeat constructor; simpl; lia.
  - unfold bufs_room, nghttp2_buf_avail. simpl. lia.
Qed.

End DeflateProof.

(** C29: Compression is correct: [nghttp2_hd_deflate_hd_bufs] always returns; on
    success the octets it appended are those of representations (RFC 7541,
    section 6) that a decoder in step with the compressor reads as exactly the
    given fields, in order, and after which both hold the same dynamic table
    and the same maximum size, with the size changes announced at the start of
    the block; on failure the compressor is marked as unusable. *)
Theorem deflate_hd_bufs_correct malloc `{!Allocator malloc} d nvs st s nva :
  synced d nvs st -> bufs_wf s -> Forall nv_ok nva -> ctx_bad (df_ctx d) = false ->
  exists d' s' rv, nghttp2_hd_deflate_hd_bufs malloc d s nva = Some ((d', s'), rv) /\ bufs_wf s' /\
    (rv = 0 -> exists rs outs nvs',
       bufs_bytes s' = bufs_bytes s ++ block_bytes rs /\
       reprs_apply st rs = Some ((hd_table_bufsize_max (df_ctx d), nvs'), outs) /\
       Forall2 field_eq nva outs /\ synced d' nvs' (hd_table_bufsize_max (df_ctx d), nvs') /\
       ctx_bad (df_ctx d') = false) /\
    (rv <> 0 -> ctx_bad (df_ctx d') = true).
Proof.
  intros Hsy Hwf Hnva Hbad. destruct (deflate_hd_bufs_ok malloc d nvs st s nva Hsy Hwf Hnva Hbad) as
    (d' & s' & rv & rs & outs & nvs' & E & Hwf' & Hok & Herr & _).
  exists d', s', rv. split_and!; try done.
  - intros H. destruct (Hok H) as (Hap & _ & Ha & Hf & Hs & Hb & _). exists (size_reprs d ++ rs), outs, nvs'.
    split_and!; try done. apply Hap.
  - intros H. by apply Herr.
Qed.

Lemma deflate_hd_bufs_correct_witness :
  exists d s, nghttp2_hd_deflate_init zero_malloc = inl d /\
    nghttp2_bufs_wrap_init zero_malloc 1 (replicate 8 0) = inl s /\
    exists d' s' rv, nghttp2_hd_deflate_hd_bufs zero_malloc d s [mk_nv [120] [121] 0] = Some ((d', s'), rv) /\
      bufs_wf s'.
Proof.
  destruct (nghttp2_hd_deflate_init zero_malloc) as [d|e] eqn:Ed; [|vm_compute in Ed; discriminate].
  destruct (nghttp2_bufs_wrap_init zero_malloc 1 (replicate 8 0)) as [s|e] eqn:Es;
    [|vm_compute in Es; discriminate].
  destruct (deflate_init2_synced zero_malloc NGHTTP2_HD_DEFAULT_MAX_DEFLATE_BUFFER_SIZE d) as [Hsy Hb];
    [by vm_compute|exact Ed|].
  destruct (wrap_init_wf zero_malloc 1 _ s Es) as [Hwf _].
  destruct (deflate_hd_bufs_correct zero_malloc d [] _ s [mk_nv [120] [121] 0] Hsy Hwf)
    as (d' & s' & rv & E & H & _); [|exact Hb|].
  - constructor; [split; apply (bool_decide_unpack _); by vm_compute|constructor].
  - exists d, s. split; [reflexivity|]. split; [reflexivity|]. exists d', s', rv. split; [exact E|exact H].
Defined.

(** [nghttp2_hd_deflate_bound] is an upper bound: if no allocation fails,
    compressing fields (with names and values below 2^28 octets) into a buffer
    of that many octets succeeds, and the returned length is the length of the
    block and at most the bound. *)
Theorem deflate_bound_suffices malloc `{!Allocator malloc} d nvs st buf nva :
  synced d nvs st -> Forall nv_ok nva -> ctx_bad (df_ctx d) = false ->
  (forall call n, malloc call n <> None) -> Forall nv_short nva ->
  nghttp2_hd_deflate_bound nva <= zlen buf ->
  exists d' blocks rs outs nvs',
    nghttp2_hd_deflate_hd2 malloc d buf nva = Some (d', blocks, zlen (block_bytes rs)) /\
    zlen (block_bytes rs) <= nghttp2_hd_deflate_bound nva /\
    reprs_apply st rs = Some ((hd_table_bufsize_max (df_ctx d), nvs'), outs) /\
    Forall2 field_eq nva outs.
Proof.
  intros Hsy Hnva Hbad Hm Hsh Hlen. rewrite deflate_bound_spec in *.
  unfold nghttp2_hd_deflate_hd2, deflate_finish.
  destruct (nghttp2_bufs_wrap_init malloc (mem_calls (df_ctx d)) buf) as [s|rv0] eqn:Ew.
  2:{ unfold nghttp2_bufs_wrap_init in Ew. destruct (malloc _ _) eqn:E; [done|by destruct (Hm _ _ E)]. }
  destruct (wrap_init_wf malloc _ _ _ Ew) as (Hwf & Hroom & Hnil).
  destruct (deflate_hd_bufs_ok malloc d nvs st s nva Hsy Hwf Hnva Hbad) as
    (d' & s' & rv & rs & outs & nvs' & -> & Hwf' & Hok & Herr & Hfull & Hb).
  specialize (Hb Hsh). cbn [mbind option_bind].
  assert (rv = 0) as ->.
  { destruct (decide (rv = 0)) as [|Hne]; [done|].
    destruct (Herr Hne) as [_ [E|[_ (c & n & E)]]]; [|by destruct (Hm _ _ E)].
    specialize (Hfull E). lia. }
  destruct (Hok eq_refl) as (Hap & _ & Ha & Hf & _).
  exists d', (map b_mem (bs_chain s')), (size_reprs d ++ rs), outs, nvs'.
  split_and!; try done. cbn [Z.eqb negb]. unfold nghttp2_bufs_len.
  rewrite bufs_len_loop_spec by apply Hwf'. fold (bufs_bytes s'). rewrite (ap_bytes _ _ _ Hap), Hnil.
  done.
Qed.

Lemma deflate_bound_suffices_witness :
  exists d d' blocks n, nghttp2_hd_deflate_init zero_malloc = inl d /\
    nghttp2_hd_deflate_bound [mk_nv [120] [121] 0] = 26 /\
    nghttp2_hd_deflate_hd2 zero_malloc d (replicate 26 0) [mk_nv [120] [121] 0] = Some (d', blocks, n) /\
    n <= 26.
Proof.
  destruct (nghttp2_hd_deflate_init zero_malloc) as [d|e] eqn:Ed; [|vm_compute in Ed; discriminate].
  destruct (deflate_init2_synced zero_malloc NGHTTP2_HD_DEFAULT_MAX_DEFLATE_BUFFER_SIZE d) as [Hsy Hb];
    [by vm_compute|exact Ed|].
  destruct (deflate_bound_suffices zero_malloc d [] _ (replicate 26 0) [mk_nv [120] [121] 0] Hsy)
    as (d' & blocks & rs & outs & nvs' & E & Hn & _).
  - constructor; [split; apply (bool_decide_unpack _); by vm_compute|constructor].
  - exact Hb.
  - intros call n E. discriminate E.
  - constructor; [split; by vm_compute|constructor].
  - by vm_compute.
  - exists d, d', blocks, (zlen (block_bytes rs)).
    split; [reflexivity|]. split; [reflexivity|]. split; [exact E|exact Hn].
Defined.

(** C39: Sensitive fields are never indexed: an authorization field, a short
    cookie or a field marked with [NGHTTP2_NV_FLAG_NO_INDEX] is written as a
    never-indexed literal, whatever the tables contain, and leaves the
    compressor as it was, so its value never enters the dynamic table. *)
Theorem deflate_sensitive_never_indexed malloc `{!Allocator malloc} d s nv nvs :
  deflater_rep d nvs -> bufs_wf s -> nv_ok nv -> sensitive nv = true ->
  exists s' rv, deflate_nv malloc d s nv = Some ((d, s'), rv) /\
    (rv = 0 -> exists r, bufs_bytes s' = bufs_bytes s ++ repr_bytes r /\
       (r = HNewName NGHTTP2_HD_NEVER_INDEXING (nv_name nv) (nv_value nv) \/
        exists idx, r = HIndName NGHTTP2_HD_NEVER_INDEXING idx (nv_value nv))).
Proof.
  intros Hrep Hwf Hnv Hsen. destruct (deflate_nv_sensitive malloc d s nv nvs Hrep Hwf Hnv Hsen) as
    (s' & rv & idx & E & Hok).
  exists s', rv. split; [done|]. intros H. eexists. split; [apply Hok, H|].
  unfold literal_repr. destruct (idx =? -1); [by left|right; by exists idx].
Qed.

Lemma deflate_sensitive_never_indexed_witness :
  exists d s s' rv, nghttp2_hd_deflate_init zero_malloc = inl d /\
    nghttp2_bufs_wrap_init zero_malloc 1 (replicate 8 0) = inl s /\
    deflate_nv zero_malloc d s (mk_nv [120] [121] NGHTTP2_NV_FLAG_NO_INDEX) = Some ((d, s'), rv).
Proof.
  destruct (nghttp2_hd_deflate_init zero_malloc) as [d|e] eqn:Ed; [|vm_compute in Ed; discriminate].
  destruct (nghttp2_bufs_wrap_init zero_malloc 1 (replicate 8 0)) as [s|e] eqn:Es;
    [|vm_compute in Es; discriminate].
  destruct (deflate_init2_synced zero_malloc NGHTTP2_HD_DEFAULT_MAX_DEFLATE_BUFFER_SIZE d) as [Hsy Hb];
    [by vm_compute|exact Ed|].
  destruct (wrap_init_wf zero_malloc 1 _ s Es) as [Hwf _].
  destruct (deflate_sensitive_never_indexed zero_malloc d s (mk_nv [120] [121] NGHTTP2_NV_FLAG_NO_INDEX) [])
    as (s' & rv & E & _).
  - exact (sy_rep _ _ _ Hsy).
  - exact Hwf.
  - split; apply (bool_decide_unpack _); by vm_compute.
  - vm_compute. reflexivity.
  - exists d, s, s', rv. split; [reflexivity|]. split; [reflexivity|exact E].
Defined.
