(* ===== verification/HdInflate.v ===== *)
(** * The HPACK decompressor (nghttp2_hd.c, inflate side)

    [nghttp2_hd_inflate_hd_nv] is a state machine fed with pieces of a header
    block: each call reads octets until a header field is complete, the input
    is used up, or an error is found.  One turn of its loop is
    [inflate_step]; the state is the record [nghttp2_hd_inflater].

    Two results: on any input whatsoever the function returns, without ever
    writing outside a buffer, reading past the input or failing an assertion
    ([hd_inflate_safe]); and it reads the octets of a representation as the
    meaning the specification of the compressor gives them. *)

From S2P Require Import Prelude Defs Helper Buf HuffmanData Huffman HdInt HdToken HdTable HdDeflate.

Inductive nghttp2_hd_opcode :=
  | NGHTTP2_HD_OPCODE_NONE
  | NGHTTP2_HD_OPCODE_INDEXED
  | NGHTTP2_HD_OPCODE_NEWNAME
  | NGHTTP2_HD_OPCODE_INDNAME.

#[export] Instance opcode_eq_dec : EqDecision nghttp2_hd_opcode.
Proof. solve_decision. Defined.

Inductive nghttp2_hd_inflate_state :=
  | NGHTTP2_HD_STATE_EXPECT_TABLE_SIZE
  | NGHTTP2_HD_STATE_INFLATE_START
  | NGHTTP2_HD_STATE_OPCODE
  | NGHTTP2_HD_STATE_READ_TABLE_SIZE
  | NGHTTP2_HD_STATE_READ_INDEX
  | NGHTTP2_HD_STATE_NEWNAME_CHECK_NAMELEN
  | NGHTTP2_HD_STATE_NEWNAME_READ_NAMELEN
  | NGHTTP2_HD_STATE_NEWNAME_READ_NAMEHUFF
  | NGHTTP2_HD_STATE_NEWNAME_READ_NAME
  | NGHTTP2_HD_STATE_CHECK_VALUELEN
  | NGHTTP2_HD_STATE_READ_VALUELEN
  | NGHTTP2_HD_STATE_READ_VALUEHUFF
  | NGHTTP2_HD_STATE_READ_VALUE.

#[export] Instance inflate_state_eq_dec : EqDecision nghttp2_hd_inflate_state.
Proof. solve_decision. Defined.

Definition NGHTTP2_HD_INFLATE_NONE : Z := 0.
Definition NGHTTP2_HD_INFLATE_FINAL : Z := 0x01.
Definition NGHTTP2_HD_INFLATE_EMIT : Z := 0x02.

(** A string under construction: the reference-counted block and its length. *)
Record nghttp2_rcbuf := mk_rcbuf { rc_base : bytes; rc_len : Z }.

Definition rc_bytes (rc : nghttp2_rcbuf) : bytes := take (Z.to_nat (rc_len rc)) (rc_base rc).

Record nghttp2_hd_inflater := mk_inflater {
  inf_ctx : nghttp2_hd_context;
  inf_huff : nghttp2_hd_huff_decode_context;
  namebuf : nghttp2_buf;
  valuebuf : nghttp2_buf;
  namercbuf : option nghttp2_rcbuf;
  valuercbuf : option nghttp2_rcbuf;
  nv_name_keep : option bytes;
  nv_value_keep : option bytes;
  inf_left : Z;
  inf_index : Z;
  settings_hd_table_bufsize_max : Z;
  min_hd_table_bufsize_max : Z;
  inf_shift : Z;
  inf_opcode : nghttp2_hd_opcode;
  inf_state : nghttp2_hd_inflate_state;
  huffman_encoded : bool;
  index_required : bool;
  no_index : bool;
}.

(** ** Field updates *)

Definition inf_set_ctx (i : nghttp2_hd_inflater) (ctx : nghttp2_hd_context) : nghttp2_hd_inflater :=
  mk_inflater ctx (inf_huff i) (namebuf i) (valuebuf i) (namercbuf i) (valuercbuf i)
    (nv_name_keep i) (nv_value_keep i) (inf_left i) (inf_index i) (settings_hd_table_bufsize_max i)
    (min_hd_table_bufsize_max i) (inf_shift i) (inf_opcode i) (inf_state i) (huffman_encoded i)
    (index_required i) (no_index i).

Definition inf_set_huff (i : nghttp2_hd_inflater) (h : nghttp2_hd_huff_decode_context) : nghttp2_hd_inflater :=
  mk_inflater (inf_ctx i) h (namebuf i) (valuebuf i) (namercbuf i) (valuercbuf i)
    (nv_name_keep i) (nv_value_keep i) (inf_left i) (inf_index i) (settings_hd_table_bufsize_max i)
    (min_hd_table_bufsize_max i) (inf_shift i) (inf_opcode i) (inf_state i) (huffman_encoded i)
    (index_required i) (no_index i).

Definition inf_set_name (i : nghttp2_hd_inflater) (b : nghttp2_buf) (rc : option nghttp2_rcbuf)
    : nghttp2_hd_inflater :=
  mk_inflater (inf_ctx i) (inf_huff i) b (valuebuf i) rc (valuercbuf i)
    (nv_name_keep i) (nv_value_keep i) (inf_left i) (inf_index i) (settings_hd_table_bufsize_max i)
    (min_hd_table_bufsize_max i) (inf_shift i) (inf_opcode i) (inf_state i) (huffman_encoded i)
    (index_required i) (no_index i).

Definition inf_set_value (i : nghttp2_hd_inflater) (b : nghttp2_buf) (rc : option nghttp2_rcbuf)
    : nghttp2_hd_inflater :=
  mk_inflater (inf_ctx i) (inf_huff i) (namebuf i) b (namercbuf i) rc
    (nv_name_keep i) (nv_value_keep i) (inf_left i) (inf_index i) (settings_hd_table_bufsize_max i)
    (min_hd_table_bufsize_max i) (inf_shift i) (inf_opcode i) (inf_state i) (huffman_encoded i)
    (index_required i) (no_index i).

Definition inf_set_keep (i : nghttp2_hd_inflater) (name value : option bytes) : nghttp2_hd_inflater :=
  mk_inflater (inf_ctx i) (inf_huff i) (namebuf i) (valuebuf i) (namercbuf i) (valuercbuf i)
    name value (inf_left i) (inf_index i) (settings_hd_table_bufsize_max i)
    (min_hd_table_bufsize_max i) (inf_shift i) (inf_opcode i) (inf_state i) (huffman_encoded i)
    (index_required i) (no_index i).

Definition inf_set_int (i : nghttp2_hd_inflater) (left shift : Z) : nghttp2_hd_inflater :=
  mk_inflater (inf_ctx i) (inf_huff i) (namebuf i) (valuebuf i) (namercbuf i) (valuercbuf i)
    (nv_name_keep i) (nv_value_keep i) left (inf_index i) (settings_hd_table_bufsize_max i)
    (min_hd_table_bufsize_max i) shift (inf_opcode i) (inf_state i) (huffman_encoded i)
    (index_required i) (no_index i).

Definition inf_set_index (i : nghttp2_hd_inflater) (index : Z) : nghttp2_hd_inflater :=
  mk_inflater (inf_ctx i) (inf_huff i) (namebuf i) (valuebuf i) (namercbuf i) (valuercbuf i)
    (nv_name_keep i) (nv_value_keep i) (inf_left i) index (settings_hd_table_bufsize_max i)
    (min_hd_table_bufsize_max i) (inf_shift i) (inf_opcode i) (inf_state i) (huffman_encoded i)
    (index_required i) (no_index i).

Definition inf_set_limits (i : nghttp2_hd_inflater) (settings min : Z) : nghttp2_hd_inflater :=
  mk_inflater (inf_ctx i) (inf_huff i) (namebuf i) (valuebuf i) (namercbuf i) (valuercbuf i)
    (nv_name_keep i) (nv_value_keep i) (inf_left i) (inf_index i) settings min
    (inf_shift i) (inf_opcode i) (inf_state i) (huffman_encoded i) (index_required i) (no_index i).

Definition inf_set_opcode (i : nghttp2_hd_inflater) (op : nghttp2_hd_opcode) : nghttp2_hd_inflater :=
  mk_inflater (inf_ctx i) (inf_huff i) (namebuf i) (valuebuf i) (namercbuf i) (valuercbuf i)
    (nv_name_keep i) (nv_value_keep i) (inf_left i) (inf_index i) (settings_hd_table_bufsize_max i)
    (min_hd_table_bufsize_max i) (inf_shift i) op (inf_state i) (huffman_encoded i)
    (index_required i) (no_index i).

Definition inf_set_state (i : nghttp2_hd_inflater) (st : nghttp2_hd_inflate_state) : nghttp2_hd_inflater :=
  mk_inflater (inf_ctx i) (inf_huff i) (namebuf i) (valuebuf i) (namercbuf i) (valuercbuf i)
    (nv_name_keep i) (nv_value_keep i) (inf_left i) (inf_index i) (settings_hd_table_bufsize_max i)
    (min_hd_table_bufsize_max i) (inf_shift i) (inf_opcode i) st (huffman_encoded i)
    (index_required i) (no_index i).

Definition inf_set_flags (i : nghttp2_hd_inflater) (huffman required no : bool) : nghttp2_hd_inflater :=
  mk_inflater (inf_ctx i) (inf_huff i) (namebuf i) (valuebuf i) (namercbuf i) (valuercbuf i)
    (nv_name_keep i) (nv_value_keep i) (inf_left i) (inf_index i) (settings_hd_table_bufsize_max i)
    (min_hd_table_bufsize_max i) (inf_shift i) (inf_opcode i) (inf_state i) huffman required no.

Section Inflate.
Context (malloc : nat -> nat -> option bytes).

(** ** Initialisation and settings *)

Definition nghttp2_hd_inflate_init : nghttp2_hd_inflater + Z :=
  match hd_context_init malloc with
  | None => inr NGHTTP2_ERR_NOMEM
  | Some ctx =>
      inl (mk_inflater ctx (mk_hctx 0) nghttp2_buf_init nghttp2_buf_init None None None None 0 0
             NGHTTP2_HD_DEFAULT_MAX_BUFFER_SIZE UINT32_MAX 0 NGHTTP2_HD_OPCODE_NONE
             NGHTTP2_HD_STATE_INFLATE_START false false false)
  end.

Definition nghttp2_hd_inflate_change_table_size (i : nghttp2_hd_inflater)
    (settings_max_dynamic_table_size : Z) : option (nghttp2_hd_inflater * Z) :=
  match inf_state i with
  | NGHTTP2_HD_STATE_EXPECT_TABLE_SIZE | NGHTTP2_HD_STATE_INFLATE_START =>
      let i := inf_set_limits i settings_max_dynamic_table_size (min_hd_table_bufsize_max i) in
      if settings_max_dynamic_table_size <? hd_table_bufsize_max (inf_ctx i) then
        let i := inf_set_state i NGHTTP2_HD_STATE_EXPECT_TABLE_SIZE in
        let i := inf_set_limits i (settings_hd_table_bufsize_max i) settings_max_dynamic_table_size in
        '(ctx, _) ← hd_context_shrink_table_size
                      (ctx_set_max (inf_ctx i) settings_max_dynamic_table_size) None;
        Some (inf_set_ctx i ctx, 0)
      else Some (i, 0)
  | _ => Some (i, NGHTTP2_ERR_INVALID_STATE)
  end.

(** The references kept for the last emission are dropped. *)
Definition hd_inflate_keep_free (i : nghttp2_hd_inflater) : nghttp2_hd_inflater :=
  inf_set_keep i None None.

Definition nghttp2_hd_inflate_end_headers (i : nghttp2_hd_inflater) : nghttp2_hd_inflater :=
  inf_set_state (hd_inflate_keep_free i) NGHTTP2_HD_STATE_INFLATE_START.

(** ** Reading integers and strings *)

Definition hd_inflate_set_huffman_encoded (i : nghttp2_hd_inflater) (c : Z) : nghttp2_hd_inflater :=
  inf_set_flags i (negb (c .& Z.shiftl 1 7 =? 0)) (index_required i) (no_index i).

(** The inflater, whether the integer is complete, and the octets read or the error. *)
Definition hd_inflate_read_len (i : nghttp2_hd_inflater) (inp : bytes) (prefix maxlen : Z)
    : option (nghttp2_hd_inflater * bool * Z) :=
  d ← decode_length (u32 (inf_left i)) (inf_shift i) inp prefix;
  let i := inf_set_int i (inf_left i) (d_shift d) in
  if d_rv d =? -1 then Some (i, d_fin d, NGHTTP2_ERR_HEADER_COMP)
  else if maxlen <? d_res d then Some (i, d_fin d, NGHTTP2_ERR_HEADER_COMP)
  else Some (inf_set_int i (d_res d) (inf_shift i), d_fin d, d_rv d).

Definition hd_inflate_read_huff (i : nghttp2_hd_inflater) (buf : nghttp2_buf) (inp : bytes)
    : option (nghttp2_hd_inflater * nghttp2_buf * Z) :=
  let fin := inf_left i <=? zlen inp in
  let src := if fin then take (Z.to_nat (inf_left i)) inp else inp in
  '(huff, buf, readlen) ← nghttp2_hd_huff_decode (inf_huff i) buf src fin;
  let i := inf_set_huff i huff in
  if readlen <? 0 then Some (i, buf, readlen)
  else if nghttp2_hd_huff_decode_failure_state huff then Some (i, buf, NGHTTP2_ERR_HEADER_COMP)
  else Some (inf_set_int i (inf_left i - readlen) (inf_shift i), buf, readlen).

Definition hd_inflate_read (i : nghttp2_hd_inflater) (buf : nghttp2_buf) (inp : bytes)
    : option (nghttp2_hd_inflater * nghttp2_buf * Z) :=
  let len := nghttp2_min (zlen inp) (inf_left i) in
  buf ← buf_put buf (take (Z.to_nat len) inp);
  Some (inf_set_int i (inf_left i - len) (inf_shift i), buf, len).

(** A fresh block of [size] octets; [None] inside: no memory. *)
Definition nghttp2_rcbuf_new (ctx : nghttp2_hd_context) (size : Z)
    : nghttp2_hd_context * option nghttp2_rcbuf :=
  let ctx' := ctx_set_calls ctx (S (mem_calls ctx)) in
  match malloc (mem_calls ctx) (Z.to_nat (sizeof_rcbuf + size)) with
  | None => (ctx', None)
  | Some m => (ctx', Some (mk_rcbuf (drop (Z.to_nat sizeof_rcbuf) m) size))
  end.

(** ** Completed representations *)

Definition inflate_flags_of (i : nghttp2_hd_inflater) : Z :=
  if no_index i then NGHTTP2_NV_FLAG_NO_INDEX else NGHTTP2_NV_FLAG_NONE.

Definition emit_header (nv : nghttp2_hd_nv) : nghttp2_hd_nv := nv.

Definition hd_inflate_commit_indexed (i : nghttp2_hd_inflater) : option nghttp2_hd_nv :=
  nv ← nghttp2_hd_table_get (inf_ctx i) (inf_index i);
  Some (emit_header nv).

(** The emitted field comes with a result of [0]. *)
Definition hd_inflate_commit_newname (i : nghttp2_hd_inflater)
    : option (nghttp2_hd_inflater * option nghttp2_hd_nv * Z) :=
  name ← rc_bytes <$> namercbuf i;
  value ← rc_bytes <$> valuercbuf i;
  let nv := mk_hd_nv name value (lookup_token name) (inflate_flags_of i) in
  '(ctx, _, rv) ← (if index_required i then add_hd_table_incremental malloc (inf_ctx i) nv None 0
                   else Some (inf_ctx i, None, 0));
  let i := inf_set_ctx i ctx in
  if rv =? 0 then
    let i := inf_set_keep i (Some name) (Some value) in
    Some (inf_set_value (inf_set_name i (namebuf i) None) (valuebuf i) None, Some (emit_header nv), 0)
  else Some (i, None, rv).

Definition hd_inflate_commit_indname (i : nghttp2_hd_inflater)
    : option (nghttp2_hd_inflater * option nghttp2_hd_nv * Z) :=
  h ← nghttp2_hd_table_get (inf_ctx i) (inf_index i);
  value ← rc_bytes <$> valuercbuf i;
  let nv := mk_hd_nv (hn_name h) value (hn_token h) (inflate_flags_of i) in
  '(ctx, _, rv) ← (if index_required i then add_hd_table_incremental malloc (inf_ctx i) nv None 0
                   else Some (inf_ctx i, None, 0));
  let i := inf_set_ctx i ctx in
  if rv =? 0 then
    let i := inf_set_keep i (Some (hn_name h)) (Some value) in
    Some (inf_set_value i (valuebuf i) None, Some (emit_header nv), 0)
  else Some (i, None, NGHTTP2_ERR_NOMEM).

(** ** The state machine *)

(** How a turn of the loop ends: [break] (with the [busy] flag), the return of
    a field, [goto almost_ok] and [goto fail]; [inp] is the input left. *)
Inductive step_result :=
  | StepBreak (i : nghttp2_hd_inflater) (inp : bytes) (busy : bool)
  | StepEmit (i : nghttp2_hd_inflater) (inp : bytes) (nv : nghttp2_hd_nv)
  | StepAlmostOk (i : nghttp2_hd_inflater) (inp : bytes)
  | StepFail (i : nghttp2_hd_inflater) (rv : Z).

(** [rv = hd_inflate_read_len(...); if (rv < 0) goto fail; in += rv;
    if (!rfin) goto almost_ok;] *)
Definition with_len (i : nghttp2_hd_inflater) (inp : bytes) (prefix maxlen : Z)
    (k : nghttp2_hd_inflater -> bytes -> option step_result) : option step_result :=
  '(i, rfin, rv) ← hd_inflate_read_len i inp prefix maxlen;
  if rv <? 0 then Some (StepFail i rv)
  else
    let inp := drop (Z.to_nat rv) inp in
    if (rfin : bool) then k i inp else Some (StepAlmostOk i inp).

(** [EXPECT_TABLE_SIZE], [INFLATE_START] and [OPCODE]. *)
Definition inflate_opcode (i : nghttp2_hd_inflater) (inp : bytes) : option step_result :=
  c ← inp !! 0%nat;
  if bool_decide (inf_state i = NGHTTP2_HD_STATE_EXPECT_TABLE_SIZE) && negb (c .& 0xe0 =? 0x20)
  then Some (StepFail i NGHTTP2_ERR_HEADER_COMP)
  else if c .& 0xe0 =? 0x20 then
    if decide (inf_state i = NGHTTP2_HD_STATE_OPCODE) then Some (StepFail i NGHTTP2_ERR_HEADER_COMP)
    else
      let i := inf_set_opcode i NGHTTP2_HD_OPCODE_INDEXED in
      let i := inf_set_state i NGHTTP2_HD_STATE_READ_TABLE_SIZE in
      Some (StepBreak (inf_set_int i 0 0) inp false)
  else if negb (c .& 0x80 =? 0) then
    let i := inf_set_opcode i NGHTTP2_HD_OPCODE_INDEXED in
    let i := inf_set_state i NGHTTP2_HD_STATE_READ_INDEX in
    Some (StepBreak (inf_set_int i 0 0) inp false)
  else
    let i :=
      if (c =? 0x40) || (c =? 0) || (c =? 0x10) then
        inf_set_state (inf_set_opcode i NGHTTP2_HD_OPCODE_NEWNAME) NGHTTP2_HD_STATE_NEWNAME_CHECK_NAMELEN
      else
        inf_set_state (inf_set_opcode i NGHTTP2_HD_OPCODE_INDNAME) NGHTTP2_HD_STATE_READ_INDEX in
    let i := inf_set_flags i (huffman_encoded i) (negb (c .& 0x40 =? 0)) (c .& 0xf0 =? 0x10) in
    let inp := if decide (inf_opcode i = NGHTTP2_HD_OPCODE_NEWNAME) then drop 1 inp else inp in
    Some (StepBreak (inf_set_int i 0 0) inp false).

Definition inflate_table_size (i : nghttp2_hd_inflater) (inp : bytes) : option step_result :=
  with_len i inp 5 (nghttp2_min (min_hd_table_bufsize_max i) (settings_hd_table_bufsize_max i))
    (fun i inp =>
       let i := inf_set_limits i (settings_hd_table_bufsize_max i) UINT32_MAX in
       '(ctx, _) ← hd_context_shrink_table_size (ctx_set_max (inf_ctx i) (inf_left i)) None;
       Some (StepBreak (inf_set_state (inf_set_ctx i ctx) NGHTTP2_HD_STATE_INFLATE_START) inp false)).

Definition index_prefixlen (i : nghttp2_hd_inflater) : Z :=
  if decide (inf_opcode i = NGHTTP2_HD_OPCODE_INDEXED) then 7
  else if index_required i then 6 else 4.

Definition inflate_index (i : nghttp2_hd_inflater) (inp : bytes) : option step_result :=
  with_len i inp (index_prefixlen i) (get_max_index (inf_ctx i))
    (fun i inp =>
       if inf_left i =? 0 then Some (StepFail i NGHTTP2_ERR_HEADER_COMP)
       else
         let i := inf_set_index i (inf_left i - 1) in
         if decide (inf_opcode i = NGHTTP2_HD_OPCODE_INDEXED) then
           nv ← hd_inflate_commit_indexed i;
           Some (StepEmit (inf_set_state i NGHTTP2_HD_STATE_OPCODE) inp nv)
         else Some (StepBreak (inf_set_state i NGHTTP2_HD_STATE_CHECK_VALUELEN) inp false)).

(** [NEWNAME_READ_NAMELEN] *)
Definition inflate_namelen (i : nghttp2_hd_inflater) (inp : bytes) : option step_result :=
  with_len i inp 7 NGHTTP2_HD_MAX_NV
    (fun i inp =>
       let '(i, size) :=
         if huffman_encoded i
         then (inf_set_state (inf_set_huff i nghttp2_hd_huff_decode_context_init)
                 NGHTTP2_HD_STATE_NEWNAME_READ_NAMEHUFF, inf_left i * 2 + 1)
         else (inf_set_state i NGHTTP2_HD_STATE_NEWNAME_READ_NAME, inf_left i + 1) in
       let '(ctx, rc) := nghttp2_rcbuf_new (inf_ctx i) size in
       let i := inf_set_ctx i ctx in
       match rc with
       | None => Some (StepFail i NGHTTP2_ERR_NOMEM)
       | Some rc =>
           Some (StepBreak (inf_set_name i (nghttp2_buf_wrap_init (rc_base rc)) (Some rc)) inp false)
       end).

(** [READ_VALUELEN] *)
Definition inflate_valuelen (i : nghttp2_hd_inflater) (inp : bytes) : option step_result :=
  with_len i inp 7 NGHTTP2_HD_MAX_NV
    (fun i inp =>
       let '(i, size) :=
         if huffman_encoded i
         then (inf_set_state (inf_set_huff i nghttp2_hd_huff_decode_context_init)
                 NGHTTP2_HD_STATE_READ_VALUEHUFF, inf_left i * 2 + 1)
         else (inf_set_state i NGHTTP2_HD_STATE_READ_VALUE, inf_left i + 1) in
       let '(ctx, rc) := nghttp2_rcbuf_new (inf_ctx i) size in
       let i := inf_set_ctx i ctx in
       match rc with
       | None => Some (StepFail i NGHTTP2_ERR_NOMEM)
       | Some rc =>
           Some (StepBreak (inf_set_value i (nghttp2_buf_wrap_init (rc_base rc)) (Some rc)) inp true)
       end).

(** The [NEWNAME_READ_NAME] states, after one of the two readers.  The buffer
    wraps the block of [namercbuf], which it shares. *)
Definition inflate_name (i : nghttp2_hd_inflater) (inp : bytes)
    (read : nghttp2_hd_inflater -> nghttp2_buf -> bytes -> option (nghttp2_hd_inflater * nghttp2_buf * Z))
    : option step_result :=
  '(i, buf, rv) ← read i (namebuf i) inp;
  rc ← namercbuf i;
  let i := inf_set_name i buf (Some (mk_rcbuf (b_mem buf) (rc_len rc))) in
  if rv <? 0 then Some (StepFail i rv)
  else
    let inp := drop (Z.to_nat rv) inp in
    if negb (inf_left i =? 0) then Some (StepAlmostOk i inp)
    else
      buf ← buf_poke buf (fun _ => 0);
      let i := inf_set_name i buf (Some (mk_rcbuf (b_mem buf) (Z.of_nat (nghttp2_buf_len buf)))) in
      Some (StepBreak (inf_set_state i NGHTTP2_HD_STATE_CHECK_VALUELEN) inp false).

(** The [READ_VALUE] states. *)
Definition inflate_value (i : nghttp2_hd_inflater) (inp : bytes)
    (read : nghttp2_hd_inflater -> nghttp2_buf -> bytes -> option (nghttp2_hd_inflater * nghttp2_buf * Z))
    : option step_result :=
  '(i, buf, rv) ← read i (valuebuf i) inp;
  rc ← valuercbuf i;
  let i := inf_set_value i buf (Some (mk_rcbuf (b_mem buf) (rc_len rc))) in
  if rv <? 0 then Some (StepFail i rv)
  else
    let inp := drop (Z.to_nat rv) inp in
    if negb (inf_left i =? 0) then Some (StepAlmostOk i inp)
    else
      buf ← buf_poke buf (fun _ => 0);
      let i := inf_set_value i buf (Some (mk_rcbuf (b_mem buf) (Z.of_nat (nghttp2_buf_len buf)))) in
      '(i, nv, rv) ← (if decide (inf_opcode i = NGHTTP2_HD_OPCODE_NEWNAME)
                      then hd_inflate_commit_newname i else hd_inflate_commit_indname i);
      if rv =? 0 then
        nv ← nv;
        Some (StepEmit (inf_set_state i NGHTTP2_HD_STATE_OPCODE) inp nv)
      else Some (StepFail i rv).

(** [CHECK_NAMELEN] and [CHECK_VALUELEN], which fall through to the next state. *)
Definition inflate_check_len (i : nghttp2_hd_inflater) (inp : bytes) (next : nghttp2_hd_inflate_state)
    (k : nghttp2_hd_inflater -> bytes -> option step_result) : option step_result :=
  c ← inp !! 0%nat;
  let i := hd_inflate_set_huffman_encoded i c in
  k (inf_set_int (inf_set_state i next) 0 0) inp.

Definition inflate_step (i : nghttp2_hd_inflater) (inp : bytes) : option step_result :=
  match inf_state i with
  | NGHTTP2_HD_STATE_EXPECT_TABLE_SIZE
  | NGHTTP2_HD_STATE_INFLATE_START
  | NGHTTP2_HD_STATE_OPCODE => inflate_opcode i inp
  | NGHTTP2_HD_STATE_READ_TABLE_SIZE => inflate_table_size i inp
  | NGHTTP2_HD_STATE_READ_INDEX => inflate_index i inp
  | NGHTTP2_HD_STATE_NEWNAME_CHECK_NAMELEN =>
      inflate_check_len i inp NGHTTP2_HD_STATE_NEWNAME_READ_NAMELEN inflate_namelen
  | NGHTTP2_HD_STATE_NEWNAME_READ_NAMELEN => inflate_namelen i inp
  | NGHTTP2_HD_STATE_NEWNAME_READ_NAMEHUFF => inflate_name i inp hd_inflate_read_huff
  | NGHTTP2_HD_STATE_NEWNAME_READ_NAME => inflate_name i inp hd_inflate_read
  | NGHTTP2_HD_STATE_CHECK_VALUELEN =>
      inflate_check_len i inp NGHTTP2_HD_STATE_READ_VALUELEN inflate_valuelen
  | NGHTTP2_HD_STATE_READ_VALUELEN => inflate_valuelen i inp
  | NGHTTP2_HD_STATE_READ_VALUEHUFF => inflate_value i inp hd_inflate_read_huff
  | NGHTTP2_HD_STATE_READ_VALUE => inflate_value i inp hd_inflate_read
  end.

(** [for (; in != last || busy;)]; leaving the loop is [StepBreak] with no
    input and [busy] not set. *)
Fixpoint inflate_loop (fuel : nat) (i : nghttp2_hd_inflater) (inp : bytes) (busy : bool)
    : option step_result :=
  if (length inp =? 0)%nat && negb busy then Some (StepBreak i inp false)
  else
    match fuel with
    | O => None
    | S fuel =>
        r ← inflate_step i inp;
        match r with
        | StepBreak i inp busy => inflate_loop fuel i inp busy
        | _ => Some r
        end
    end.

(** Every two turns read an octet, but for the last two. *)
Definition inflate_fuel (inp : bytes) : nat := 2 * length inp + 2.

(** The return value, [*inflate_flags] and, when a field is emitted, [*nv_out].
    For a context that is already bad the code does not write the flags, and
    the model has none set. *)
Record inflate_result := mk_ires { ir_rv : Z; ir_flags : Z; ir_nv : option nghttp2_hd_nv }.

Definition inflate_fail (i : nghttp2_hd_inflater) (rv : Z) : nghttp2_hd_inflater * inflate_result :=
  (inf_set_ctx i (ctx_set_bad (inf_ctx i)), mk_ires rv NGHTTP2_HD_INFLATE_NONE None).

Definition nghttp2_hd_inflate_hd_nv (i : nghttp2_hd_inflater) (inp : bytes) (in_final : bool)
    : option (nghttp2_hd_inflater * inflate_result) :=
  if ctx_bad (inf_ctx i) then Some (i, mk_ires NGHTTP2_ERR_HEADER_COMP NGHTTP2_HD_INFLATE_NONE None)
  else
    r ← inflate_loop (inflate_fuel inp) (hd_inflate_keep_free i) inp false;
    match r with
    | StepBreak i inp' _ =>
        let n := zlen inp - zlen inp' in
        if in_final then
          if negb (bool_decide (inf_state i = NGHTTP2_HD_STATE_OPCODE)) &&
             negb (bool_decide (inf_state i = NGHTTP2_HD_STATE_INFLATE_START))
          then Some (inflate_fail i NGHTTP2_ERR_HEADER_COMP)
          else Some (i, mk_ires n NGHTTP2_HD_INFLATE_FINAL None)
        else Some (i, mk_ires n NGHTTP2_HD_INFLATE_NONE None)
    | StepEmit i inp' nv => Some (i, mk_ires (zlen inp - zlen inp') NGHTTP2_HD_INFLATE_EMIT (Some nv))
    | StepAlmostOk i inp' =>
        if in_final then Some (inflate_fail i NGHTTP2_ERR_HEADER_COMP)
        else Some (i, mk_ires (zlen inp - zlen inp') NGHTTP2_HD_INFLATE_NONE None)
    | StepFail i rv => Some (inflate_fail i rv)
    end.

(** The interface for applications. *)
Definition nghttp2_hd_inflate_hd3 (i : nghttp2_hd_inflater) (inp : bytes) (in_final : bool)
    : option (nghttp2_hd_inflater * Z * Z * option nghttp2_nv) :=
  '(i, r) ← nghttp2_hd_inflate_hd_nv i inp in_final;
  if ir_rv r <? 0 then Some (i, ir_rv r, ir_flags r, None)
  else if negb (ir_flags r .& NGHTTP2_HD_INFLATE_EMIT =? 0) then
    nv ← ir_nv r;
    Some (i, ir_rv r, ir_flags r, Some (mk_nv (hn_name nv) (hn_value nv) (hn_flags nv)))
  else Some (i, ir_rv r, ir_flags r, None).

End Inflate.

Definition nghttp2_hd_inflate_get_num_table_entries (i : nghttp2_hd_inflater) : Z :=
  get_max_index (inf_ctx i).

Definition nghttp2_hd_inflate_get_table_entry (i : nghttp2_hd_inflater) (idx : Z)
    : option (option nghttp2_nv) := hd_get_table_entry (inf_ctx i) idx.

Definition nghttp2_hd_inflate_get_dynamic_table_size (i : nghttp2_hd_inflater) : Z :=
  hd_table_bufsize (inf_ctx i).

Definition nghttp2_hd_inflate_get_max_dynamic_table_size (i : nghttp2_hd_inflater) : Z :=
  hd_table_bufsize_max (inf_ctx i).

(** RFC 7541, C.2.1: custom-key: custom-header. *)
Example inflate_c21 :
  match nghttp2_hd_inflate_init zero_malloc with
  | inl i => (fun '(i, r) => (ir_rv r, ir_nv r, hd_table_bufsize (inf_ctx i))) <$>
      nghttp2_hd_inflate_hd_nv zero_malloc i
        [0x40; 0x0a; 0x63; 0x75; 0x73; 0x74; 0x6f; 0x6d; 0x2d; 0x6b; 0x65; 0x79; 0x0d; 0x63; 0x75;
         0x73; 0x74; 0x6f; 0x6d; 0x2d; 0x68; 0x65; 0x61; 0x64; 0x65; 0x72] true
  | inr _ => None
  end = Some (26, Some (mk_hd_nv [99; 117; 115; 116; 111; 109; 45; 107; 101; 121] [99; 117; 115; 116; 111; 109; 45; 104; 101; 97; 100; 101; 114] (-1) 0), 55).
Proof. vm_compute. reflexivity. Qed.

(** RFC 7541, C.4.1 (first field, Huffman-coded value with an indexed name). *)
Example inflate_c41 :
  match nghttp2_hd_inflate_init zero_malloc with
  | inl i => (fun '(i, r) => (ir_rv r, ir_nv r)) <$>
      nghttp2_hd_inflate_hd_nv zero_malloc i
        [0x41; 0x8c; 0xf1; 0xe3; 0xc2; 0xe5; 0xf2; 0x3a; 0x6b; 0xa0; 0xab; 0x90; 0xf4; 0xff] true
  | inr _ => None
  end = Some (14, Some (mk_hd_nv [58; 97; 117; 116; 104; 111; 114; 105; 116; 121] [119; 119; 119; 46; 101; 120; 97; 109; 112; 108; 101; 46; 99; 111; 109] 0 0)).
Proof. vm_compute. reflexivity. Qed.

(** ** The invariant of the decompressor *)

Definition huff_wf (h : nghttp2_hd_huff_decode_context) : Prop :=
  exists st, node_rel (mk_node (hctx_fstate h) 0) st.

(** A string is being read: its buffer has [k] octets of room for each octet
    of input still to come, and one for the final zero. *)
Definition string_open (k : Z) (left : Z) (b : nghttp2_buf) (rc : option nghttp2_rcbuf) : Prop :=
  is_Some rc /\ buf_ok b /\ k * left + 1 <= Z.of_nat (nghttp2_buf_avail b).

(** The name of the literal being read is there. *)
Definition name_known (i : nghttp2_hd_inflater) (nvs : list nghttp2_hd_nv) : Prop :=
  (inf_opcode i = NGHTTP2_HD_OPCODE_NEWNAME -> is_Some (namercbuf i)) /\
  (inf_opcode i <> NGHTTP2_HD_OPCODE_NEWNAME ->
     0 <= inf_index i < NGHTTP2_STATIC_TABLE_LENGTH + zlen nvs).

(** An integer of which nothing has been read yet starts at shift zero. *)
Definition int_wf (i : nghttp2_hd_inflater) : Prop := inf_left i = 0 -> inf_shift i = 0.

Definition state_wf (i : nghttp2_hd_inflater) (nvs : list nghttp2_hd_nv) : Prop :=
  match inf_state i with
  | NGHTTP2_HD_STATE_NEWNAME_READ_NAMEHUFF =>
      string_open 2 (inf_left i) (namebuf i) (namercbuf i) /\ huff_wf (inf_huff i) /\
      inf_opcode i = NGHTTP2_HD_OPCODE_NEWNAME
  | NGHTTP2_HD_STATE_NEWNAME_READ_NAME =>
      string_open 1 (inf_left i) (namebuf i) (namercbuf i) /\
      inf_opcode i = NGHTTP2_HD_OPCODE_NEWNAME
  | NGHTTP2_HD_STATE_NEWNAME_CHECK_NAMELEN => inf_opcode i = NGHTTP2_HD_OPCODE_NEWNAME
  | NGHTTP2_HD_STATE_NEWNAME_READ_NAMELEN => inf_opcode i = NGHTTP2_HD_OPCODE_NEWNAME /\ int_wf i
  | NGHTTP2_HD_STATE_READ_TABLE_SIZE => int_wf i
  | NGHTTP2_HD_STATE_READ_INDEX => inf_opcode i <> NGHTTP2_HD_OPCODE_NEWNAME /\ int_wf i
  | NGHTTP2_HD_STATE_CHECK_VALUELEN => name_known i nvs
  | NGHTTP2_HD_STATE_READ_VALUELEN => name_known i nvs /\ int_wf i
  | NGHTTP2_HD_STATE_READ_VALUEHUFF =>
      name_known i nvs /\ string_open 2 (inf_left i) (valuebuf i) (valuercbuf i) /\ huff_wf (inf_huff i)
  | NGHTTP2_HD_STATE_READ_VALUE =>
      name_known i nvs /\ string_open 1 (inf_left i) (valuebuf i) (valuercbuf i)
  | _ => True
  end.

Record inflater_wf (i : nghttp2_hd_inflater) (nvs : list nghttp2_hd_nv) : Prop := {
  iw_rep : represents (inf_ctx i) None nvs;
  iw_left : is_u32 (inf_left i);
  iw_state : state_wf i nvs;
}.

(** The states reached with [busy] set: they read no octet themselves. *)
Definition value_state (i : nghttp2_hd_inflater) : Prop :=
  inf_state i = NGHTTP2_HD_STATE_READ_VALUEHUFF \/ inf_state i = NGHTTP2_HD_STATE_READ_VALUE.

(** Turns that may pass before the next octet is read. *)
Definition state_rank (i : nghttp2_hd_inflater) : nat :=
  match inf_state i with
  | NGHTTP2_HD_STATE_EXPECT_TABLE_SIZE | NGHTTP2_HD_STATE_INFLATE_START | NGHTTP2_HD_STATE_OPCODE
  | NGHTTP2_HD_STATE_NEWNAME_READ_NAMEHUFF | NGHTTP2_HD_STATE_NEWNAME_READ_NAME => 1
  | _ => 0
  end.

Definition measure (i : nghttp2_hd_inflater) (inp : bytes) : nat := 2 * length inp + state_rank i.

Section InflateProof.
Context (malloc : nat -> nat -> option bytes) `{!Allocator malloc}.

Definition inflate_error (rv : Z) : Prop :=
  rv = NGHTTP2_ERR_HEADER_COMP \/ (rv = NGHTTP2_ERR_NOMEM /\ can_fail malloc).

(** What a turn promises. *)
Definition step_ok (i : nghttp2_hd_inflater) (inp : bytes) (r : step_result) : Prop :=
  match r with
  | StepBreak i' inp' busy =>
      (exists nvs', inflater_wf i' nvs') /\ inp' `suffix_of` inp /\ (measure i' inp' < measure i inp)%nat /\
      (busy = true -> value_state i') /\ ctx_bad (inf_ctx i') = ctx_bad (inf_ctx i)
  | StepEmit i' inp' _ =>
      (exists nvs', inflater_wf i' nvs') /\ inp' `suffix_of` inp /\ ctx_bad (inf_ctx i') = ctx_bad (inf_ctx i)
  | StepAlmostOk i' inp' =>
      (exists nvs', inflater_wf i' nvs') /\ inp' = [] /\ ctx_bad (inf_ctx i') = ctx_bad (inf_ctx i)
  | StepFail i' rv => inflate_error rv
  end.

Definition step_good (i : nghttp2_hd_inflater) (inp : bytes) (r : option step_result) : Prop :=
  exists x, r = Some x /\ step_ok i inp x.

(** Reading an integer: an error, an incomplete integer, or the value. *)
Lemma with_len_good i0 i nvs inp prefix maxlen k :
  inflater_wf i nvs -> is_bytes inp -> inp <> [] -> 0 < prefix <= 8 ->
  ctx_bad (inf_ctx i) = ctx_bad (inf_ctx i0) ->
  (forall n sh, n <> 0 -> state_wf (inf_set_int i n sh) nvs) ->
  (forall n sh inp', is_u32 n -> n <= maxlen -> inp' `suffix_of` inp -> (length inp' < length inp)%nat ->
     step_good i0 inp (k (inf_set_int i n sh) inp')) ->
  step_good i0 inp (with_len i inp prefix maxlen k).
Proof.
  intros Hwf Hb Hne Hp Hbad Hst Hk. unfold with_len, hd_inflate_read_len.
  assert (0 < length inp)%nat by (destruct inp; [done|simpl; lia]).
  destruct (decode_length_range (u32 (inf_left i)) (inf_shift i) inp prefix) as (d & -> & Hd);
    [done|done|done|apply u32_range|]. cbn [mbind option_bind].
  destruct (Z.eqb_spec (d_rv d) (-1)) as [E|E].
  { simpl. eexists. split; [done|]. by left. }
  destruct Hd as [|(Hu & Hr & Hfin)]; [done|].
  destruct (Z.ltb_spec maxlen (d_res d)).
  { simpl. eexists. split; [done|]. by left. }
  cbn [mbind option_bind]. rewrite (proj2 (Z.ltb_ge _ _)) by lia.
  assert (drop (Z.to_nat (d_rv d)) inp `suffix_of` inp) as Hsuf by apply suffix_drop.
  assert (length (drop (Z.to_nat (d_rv d)) inp) < length inp)%nat by (rewrite length_drop; lia).
  cbn [inf_set_int]. destruct (d_fin d).
  - apply (Hk (d_res d) (d_shift d)); done.
  - eexists. split; [done|]. split; [|split; [|done]].
    2:{ rewrite (proj1 (Hfin eq_refl)), Nat2Z.id. apply drop_all. }
    exists nvs. split; [apply Hwf|done|apply (Hst (d_res d) (d_shift d))]. by apply Hfin.
Qed.

Lemma inflate_opcode_good i nvs inp :
  inflater_wf i nvs -> is_bytes inp -> inp <> [] ->
  inf_state i = NGHTTP2_HD_STATE_EXPECT_TABLE_SIZE \/ inf_state i = NGHTTP2_HD_STATE_INFLATE_START \/
  inf_state i = NGHTTP2_HD_STATE_OPCODE ->
  step_good i inp (inflate_opcode i inp).
Proof.
  intros Hwf Hb Hne Hs. destruct inp as [|c inp]; [done|]. unfold inflate_opcode.
  cbn [lookup list_lookup mbind option_bind].
  assert (state_rank i = 1%nat) as Hr by (unfold state_rank; by destruct Hs as [-> |[-> | ->]]).
  destruct (bool_decide _ && _). { eexists. split; [done|]. by left. }
  destruct (_ =? 32).
  { case_decide. { eexists. split; [done|]. by left. }
    eexists. split; [done|]. split_and!; try done; [|unfold measure; rewrite Hr; unfold state_rank; simpl; lia].
    exists nvs. split; [apply Hwf|done|done]. }
  destruct (negb _).
  { eexists. split; [done|]. split_and!; try done; [|unfold measure; rewrite Hr; unfold state_rank; simpl; lia].
    exists nvs. split; [apply Hwf|done|done]. }
  destruct (_ || _); [rewrite decide_True by done|rewrite decide_False by done].
  - eexists. split; [done|]. split_and!; try done; [exists nvs; split; [apply Hwf|done|done]| |].
    + by apply suffix_cons_r.
    + unfold measure. rewrite Hr. unfold state_rank. simpl. rewrite drop_0. lia.
  - eexists. split; [done|]. split_and!; try done; [exists nvs; split; [apply Hwf|done|done]|].
    unfold measure. rewrite Hr. unfold state_rank. simpl. lia.
Qed.

Lemma inflate_table_size_good i nvs inp :
  inflater_wf i nvs -> is_bytes inp -> inp <> [] ->
  inf_state i = NGHTTP2_HD_STATE_READ_TABLE_SIZE -> step_good i inp (inflate_table_size i inp).
Proof.
  intros Hwf Hb Hne Hs. unfold inflate_table_size. eapply with_len_good; try done.
  { intros n sh Hn0. unfold state_wf, int_wf. simpl. rewrite Hs. naive_solver. }
  intros n sh inp' Hn _ Hsuf Hlt.
  destruct (represents_shrink (inf_ctx i) None nvs n) as (ctx' & map' & E & Hrep & Hm & Hbad & Hnone);
    [apply Hwf|cint_lia|]. rewrite (proj2 Hnone eq_refl) in *. cbn [inf_set_limits inf_set_int inf_ctx inf_left]. rewrite E.
  eexists. split; [done|]. split_and!; try done; [|unfold measure, state_rank; simpl; lia].
  by exists (fit n nvs).
Qed.

Lemma inflate_index_good i nvs inp :
  inflater_wf i nvs -> is_bytes inp -> inp <> [] ->
  inf_state i = NGHTTP2_HD_STATE_READ_INDEX -> step_good i inp (inflate_index i inp).
Proof.
  intros Hwf Hb Hne Hs. pose proof (iw_state _ _ Hwf) as Hst. unfold state_wf in Hst. rewrite Hs in Hst.
  destruct Hst as [Hst Hint].
  unfold inflate_index. eapply with_len_good; try done.
  { unfold index_prefixlen. case_decide; [lia|]. destruct (index_required i); lia. }
  { intros n sh Hn0. unfold state_wf, int_wf. simpl. rewrite Hs. naive_solver. }
  intros n sh inp' Hn Hmax Hsuf Hlt. cbn [inf_set_int inf_left inf_set_index inf_opcode].
  unfold get_max_index in Hmax. rewrite (represents_len _ _ _ (iw_rep _ _ Hwf)) in Hmax.
  destruct (Z.eqb_spec n 0). { eexists. split; [done|]. by left. }
  assert (0 <= n - 1) by cint_lia. case_decide.
  - unfold hd_inflate_commit_indexed. cbn [inf_set_int inf_set_index inf_ctx inf_index].
    rewrite (represents_get _ _ _ _ (iw_rep _ _ Hwf)) by done.
    destruct (lookup_lt_is_Some_2 (static_nvs ++ nvs) (Z.to_nat (n - 1))) as [h ->].
    { rewrite length_app. change (length static_nvs) with 61%nat.
      change NGHTTP2_STATIC_TABLE_LENGTH with 61 in *. lia. }
    eexists. split; [done|]. split_and!; try done. exists nvs. split; [apply Hwf|done|done].
  - eexists. split; [done|]. split_and!; try done; [|unfold measure, state_rank; simpl; lia].
    exists nvs. split; [apply Hwf|done|]. unfold state_wf, name_known. simpl. split; [done|]. intros _. lia.
Qed.

(** A fresh block has the requested size. *)
Lemma rcbuf_new_spec ctx size : 0 <= size ->
  exists calls rc, nghttp2_rcbuf_new malloc ctx size = (ctx_set_calls ctx calls, rc) /\
    (mem_calls ctx <= calls)%nat /\
    match rc with
    | None => can_fail malloc
    | Some rc => length (rc_base rc) = Z.to_nat size /\ rc_len rc = size
    end.
Proof.
  intros Hs. unfold nghttp2_rcbuf_new. exists (S (mem_calls ctx)).
  destruct (malloc _ _) as [m|] eqn:E; eexists; (split; [done|]); (split; [lia|]); simpl.
  - apply malloc_length in E. rewrite length_drop, E. unfold sizeof_rcbuf. lia.
  - by eexists _, _.
Qed.

Lemma wrap_string_open k left rc : (0 <= left) -> length (rc_base rc) = Z.to_nat (k * left + 1) ->
  0 <= k -> string_open k left (nghttp2_buf_wrap_init (rc_base rc)) (Some rc).
Proof.
  intros Hl Hlen Hk. split; [done|]. unfold buf_ok, nghttp2_buf_avail. simpl. nia.
Qed.

Lemma huff_init_wf : huff_wf nghttp2_hd_huff_decode_context_init.
Proof. exists (Some []). vm_compute. split_and!; done || congruence. Qed.

Lemma inflate_namelen_good i0 i nvs inp :
  inflater_wf i nvs -> is_bytes inp -> inp <> [] -> ctx_bad (inf_ctx i) = ctx_bad (inf_ctx i0) ->
  inf_state i = NGHTTP2_HD_STATE_NEWNAME_READ_NAMELEN -> step_good i0 inp (inflate_namelen malloc i inp).
Proof.
  intros Hwf Hb Hne Hbad Hs. pose proof (iw_state _ _ Hwf) as Hst. unfold state_wf in Hst. rewrite Hs in Hst.
  destruct Hst as [Hst Hint].
  unfold inflate_namelen. eapply with_len_good; try done.
  { intros n sh Hn0. unfold state_wf, int_wf. simpl. rewrite Hs. naive_solver. }
  intros n sh inp' Hn Hmax Hsuf Hlt. cbn [inf_set_int huffman_encoded].
  destruct (huffman_encoded i);
    cbn [inf_set_int inf_set_state inf_set_huff inf_ctx inf_left];
    (edestruct (rcbuf_new_spec (inf_ctx i)) as (calls & rc & -> & Hc & Hrc); [cint_lia|]);
    (destruct rc as [rc|]; [|eexists; split; [done|]; by right]);
    destruct Hrc as [Hlen Hrl]; eexists; (split; [done|]);
    (split_and!; try done; [|unfold measure, state_rank; simpl; lia]); exists nvs;
    (split; [apply represents_calls; [apply Hwf|done]|done|]);
    unfold state_wf; cbn [inf_set_name inf_set_ctx inf_set_state inf_state inf_left namebuf namercbuf inf_huff inf_opcode].
  - split_and!; [|apply huff_init_wf|done]. apply (wrap_string_open 2 n rc); [cint_lia| |done]. rewrite Hlen. f_equal. lia.
  - split_and!; [|done]. apply (wrap_string_open 1 n rc); [cint_lia| |done]. rewrite Hlen. f_equal. lia.
Qed.

Lemma inflate_valuelen_good i0 i nvs inp :
  inflater_wf i nvs -> is_bytes inp -> inp <> [] -> ctx_bad (inf_ctx i) = ctx_bad (inf_ctx i0) ->
  inf_state i = NGHTTP2_HD_STATE_READ_VALUELEN -> step_good i0 inp (inflate_valuelen malloc i inp).
Proof.
  intros Hwf Hb Hne Hbad Hs. pose proof (iw_state _ _ Hwf) as Hst. unfold state_wf in Hst. rewrite Hs in Hst.
  destruct Hst as [Hst Hint].
  unfold inflate_valuelen. eapply with_len_good; try done.
  { intros n sh Hn0. unfold state_wf, int_wf. simpl. rewrite Hs. naive_solver. }
  intros n sh inp' Hn Hmax Hsuf Hlt. cbn [inf_set_int huffman_encoded].
  destruct (huffman_encoded i);
    cbn [inf_set_int inf_set_state inf_set_huff inf_ctx inf_left];
    (edestruct (rcbuf_new_spec (inf_ctx i)) as (calls & rc & -> & Hc & Hrc); [cint_lia|]);
    (destruct rc as [rc|]; [|eexists; split; [done|]; by right]);
    destruct Hrc as [Hlen Hrl]; eexists; (split; [done|]).
  - split_and!; try done; [|unfold measure, state_rank; simpl; lia|by intros _; left]. exists nvs.
    split; [apply represents_calls; [apply Hwf|done]|done|].
    split_and!; [done| |apply huff_init_wf]. apply (wrap_string_open 2 n rc); [cint_lia| |done]. rewrite Hlen. f_equal. lia.
  - split_and!; try done; [|unfold measure, state_rank; simpl; lia|by intros _; right]. exists nvs.
    split; [apply represents_calls; [apply Hwf|done]|done|].
    split_and!; [done|]. apply (wrap_string_open 1 n rc); [cint_lia| |done]. rewrite Hlen. f_equal. lia.
Qed.

(** What the two readers promise: an error, or [rv] octets read into the
    buffer, all of the string or all of the input. *)
Definition read_post (k : Z) (i : nghttp2_hd_inflater) (inp : bytes)
    (r : option (nghttp2_hd_inflater * nghttp2_buf * Z)) : Prop :=
  exists i' b' rv, r = Some (i', b', rv) /\
    (inf_ctx i' = inf_ctx i /\ namercbuf i' = namercbuf i /\ valuercbuf i' = valuercbuf i /\
     rv = NGHTTP2_ERR_HEADER_COMP \/
     exists h, i' = inf_set_int (inf_set_huff i h) (inf_left i - rv) (inf_shift i) /\
       0 <= rv <= zlen inp /\ rv <= inf_left i /\ (rv = inf_left i \/ rv = zlen inp) /\ buf_ok b' /\
       k * (inf_left i - rv) + 1 <= Z.of_nat (nghttp2_buf_avail b') /\ (k = 2 -> huff_wf h)).

Lemma read_huff_post i b inp rc :
  is_bytes inp -> is_u32 (inf_left i) -> string_open 2 (inf_left i) b rc -> huff_wf (inf_huff i) ->
  read_post 2 i inp (hd_inflate_read_huff i b inp).
Proof.
  intros Hb Hl (_ & Hok & Hav) [st Hst]. unfold hd_inflate_read_huff, nghttp2_hd_huff_decode.
  set (fin := _ <=? _). set (src := if fin then _ else _).
  assert (is_bytes src /\ zlen src <= inf_left i /\ zlen src <= zlen inp /\
    (zlen src = inf_left i \/ zlen src = zlen inp)) as (Hsb & Hsl & Hsi & Hse).
  { subst src fin. destruct (Z.leb_spec (inf_left i) (zlen inp)); [|split_and!; [done|lia|lia|by right]].
    split; [by apply is_bytes_take|]. rewrite length_take. cint_lia. }
  destruct (huff_decode_loop_run src _ b st Hsb Hst Hok) as (t' & b' & E & Ht' & Hap); [lia|].
  pose proof (huff_decode_loop_last _ _ _ _ _ E) as Hlast. rewrite E. cbn [mbind option_bind].
  destruct Hap as (Hok' & _ & Hmem & _).
  destruct (fin && _).
  { eexists _, _, _. split; [done|]. by left. }
  cbn [mbind option_bind]. rewrite (proj2 (Z.ltb_ge _ _)) by lia.
  destruct (nghttp2_hd_huff_decode_failure_state _).
  { eexists _, _, _. split; [done|]. by left. }
  eexists _, _, _. split; [done|]. right. eexists. split; [done|].
  split; [lia|]. split; [lia|]. split; [done|]. split; [done|]. split; [unfold nghttp2_buf_avail in *; lia|].
  intros _. eexists. exact Ht'.
Qed.

Lemma read_plain_post i b inp rc :
  is_bytes inp -> is_u32 (inf_left i) -> string_open 1 (inf_left i) b rc ->
  read_post 1 i inp (hd_inflate_read i b inp).
Proof.
  intros Hb Hl (_ & Hok & Hav). unfold hd_inflate_read. rewrite nghttp2_min_spec.
  set (len := Z.min (zlen inp) (inf_left i)).
  assert (0 <= len <= zlen inp /\ len <= inf_left i) as [Hlen Hll] by (subst len; cint_lia).
  assert (length (take (Z.to_nat len) inp) = Z.to_nat len) as Ht by (rewrite length_take; lia).
  pose proof Hok as [Hp Hlm]. unfold nghttp2_buf_avail in Hav.
  rewrite buf_put_Some by (unfold nghttp2_buf_avail; lia). cbn [mbind option_bind].
  eexists _, _, _. split; [done|]. right. exists (inf_huff i). split; [reflexivity|].
  split; [done|]. split; [done|]. split; [subst len; lia|].
  unfold buf_ok, nghttp2_buf_avail. simpl. rewrite mem_write_length by lia. rewrite Ht.
  split; [lia|]. split; [lia|done].
Qed.

Lemma buf_poke_room b : (0 < nghttp2_buf_avail b)%nat -> exists b', buf_poke b (fun _ => 0) = Some b'.
Proof.
  unfold nghttp2_buf_avail, buf_poke. intros H. rewrite option_guard_True by lia. by eexists.
Qed.

(** [inflate_name], given that its reader keeps the promise. *)
Lemma inflate_name_good k i nvs inp read :
  inflater_wf i nvs -> read_post k i inp (read i (namebuf i) inp) -> 0 < k ->
  string_open k (inf_left i) (namebuf i) (namercbuf i) -> inf_opcode i = NGHTTP2_HD_OPCODE_NEWNAME ->
  (inf_state i = NGHTTP2_HD_STATE_NEWNAME_READ_NAMEHUFF /\ k = 2 \/
   inf_state i = NGHTTP2_HD_STATE_NEWNAME_READ_NAME /\ k = 1) ->
  step_good i inp (inflate_name i inp read).
Proof.
  unfold inflate_name. intros Hwf (i' & b' & rv & -> & Hread) Hk ([rc Hrc] & _) Hop Hs.
  cbn [mbind option_bind].
  destruct Hread as [(_ & -> & _ & ->)|(h & -> & Hrv & Hle & Heq & Hok & Hav & Hh)].
  { rewrite Hrc. eexists. split; [done|]. by left. }
  cbn [inf_set_int inf_set_huff namercbuf]. rewrite Hrc. cbn [mbind option_bind].
  rewrite (proj2 (Z.ltb_ge _ _)) by lia. cbn [inf_set_name inf_set_int inf_set_huff inf_left].
  assert (drop (Z.to_nat rv) inp `suffix_of` inp) as Hsuf by apply suffix_drop.
  pose proof (iw_left _ _ Hwf) as Hu.
  destruct (Z.eqb_spec (inf_left i - rv) 0) as [E|E]; cbn [negb].
  - destruct (buf_poke_room b') as [b2 ->]; [nia|]. cbn [mbind option_bind].
    eexists. split; [done|]. split_and!; try done.
    + exists nvs. split; [apply Hwf|simpl; cint_lia|]. split; [by eexists|]. intros H. by destruct (H Hop).
    + unfold measure, state_rank. rewrite length_drop. simpl. destruct Hs as [[-> _]|[-> _]]; lia.
  - eexists. split; [done|]. assert (rv = zlen inp) as -> by lia.
    split_and!; try done; [|by rewrite Nat2Z.id, drop_all]. exists nvs. split; [apply Hwf|simpl; cint_lia|].
    unfold state_wf. cbn [inf_set_name inf_set_int inf_set_huff inf_state].
    destruct Hs as [[-> ->]|[-> ->]]; split_and!; try done; by apply Hh.
Qed.

(** Storing the field, if the literal asks for it. *)
Lemma commit_store ctx nvs nv b :
  represents ctx None nvs -> hn_token nv = lookup_token (hn_name nv) ->
  exists ctx' rv nvs',
    (if b : bool then add_hd_table_incremental malloc ctx nv None 0 else Some (ctx, None, 0)) =
      Some (ctx', None, rv) /\
    represents ctx' None nvs' /\ ctx_bad ctx' = ctx_bad ctx /\
    hd_table_bufsize_max ctx' = hd_table_bufsize_max ctx /\
    (rv = 0 -> nvs' = if b then fit (hd_table_bufsize_max ctx) (nv :: nvs) else nvs) /\
    (rv <> 0 -> rv = NGHTTP2_ERR_NOMEM /\ can_fail malloc).
Proof.
  intros Hrep Ht. destruct b; [|by eexists _, _, nvs].
  destruct (represents_add malloc ctx None nvs nv 0 Hrep Ht) as
    (ctx' & map' & rv & nvs' & -> & Hrep' & Hok & Herr & Hmx & Hbad & Hn).
  rewrite (proj2 Hn eq_refl) in *. exists ctx', rv, nvs'. by split_and!.
Qed.

(** A commit gives a field, or runs out of memory. *)
Definition commit_post (i : nghttp2_hd_inflater)
    (r : option (nghttp2_hd_inflater * option nghttp2_hd_nv * Z)) : Prop :=
  exists i' onv rv, r = Some (i', onv, rv) /\
    (rv = 0 /\ is_Some onv /\ (exists nvs', represents (inf_ctx i') None nvs') /\
     ctx_bad (inf_ctx i') = ctx_bad (inf_ctx i) /\ inf_left i' = inf_left i \/
     rv = NGHTTP2_ERR_NOMEM /\ can_fail malloc).

Lemma commit_good i nvs :
  represents (inf_ctx i) None nvs -> name_known i nvs -> is_Some (valuercbuf i) ->
  commit_post i (if decide (inf_opcode i = NGHTTP2_HD_OPCODE_NEWNAME)
                 then hd_inflate_commit_newname malloc i else hd_inflate_commit_indname malloc i).
Proof.
  intros Hrep [Hnew Hind] [vr Hvr]. case_decide as Hop.
  - unfold hd_inflate_commit_newname. destruct (Hnew Hop) as [nr Hnr]. rewrite Hnr, Hvr.
    cbn [fmap option_fmap option_map mbind option_bind].
    set (nv := mk_hd_nv _ _ _ _).
    destruct (commit_store (inf_ctx i) nvs nv (index_required i) Hrep eq_refl) as
      (ctx' & rv & nvs' & -> & Hrep' & Hbad & _ & _ & Herr). cbn [mbind option_bind].
    destruct (Z.eqb_spec rv 0) as [->|Hne]; eexists _, _, _; (split; [done|]).
    + left. split_and!; try done. by exists nvs'.
    + right. by apply Herr.
  - unfold hd_inflate_commit_indname. destruct (Hind Hop) as [H0 H1].
    rewrite (represents_get _ _ _ _ Hrep H0).
    destruct (lookup_lt_is_Some_2 (static_nvs ++ nvs) (Z.to_nat (inf_index i))) as [h Hh].
    { rewrite length_app. change (length static_nvs) with 61%nat.
      change NGHTTP2_STATIC_TABLE_LENGTH with 61 in *. lia. }
    rewrite Hh, Hvr. cbn [fmap option_fmap option_map mbind option_bind].
    set (nv := mk_hd_nv _ _ _ _). assert (hn_token nv = lookup_token (hn_name nv)) as Ht.
    { destruct Hrep as (ls & _ & _ & Ht & _). exact (table_entry_token _ _ _ Ht Hh). }
    destruct (commit_store (inf_ctx i) nvs nv (index_required i) Hrep Ht) as
      (ctx' & rv & nvs' & -> & Hrep' & Hbad & _ & _ & Herr). cbn [mbind option_bind].
    destruct (Z.eqb_spec rv 0) as [->|Hne]; eexists _, _, _; (split; [done|]).
    + left. split_and!; try done. by exists nvs'.
    + right. split; [done|]. by apply Herr.
Qed.

Lemma inflate_value_good k i nvs inp read :
  inflater_wf i nvs -> read_post k i inp (read i (valuebuf i) inp) -> 0 < k ->
  string_open k (inf_left i) (valuebuf i) (valuercbuf i) -> name_known i nvs ->
  (inf_state i = NGHTTP2_HD_STATE_READ_VALUEHUFF /\ k = 2 \/
   inf_state i = NGHTTP2_HD_STATE_READ_VALUE /\ k = 1) ->
  step_good i inp (inflate_value malloc i inp read).
Proof.
  unfold inflate_value. intros Hwf (i' & b' & rv & -> & Hread) Hk ([rc Hrc] & _) Hname Hs.
  cbn [mbind option_bind].
  destruct Hread as [(_ & _ & -> & ->)|(h & -> & Hrv & Hle & Heq & Hok & Hav & Hh)].
  { rewrite Hrc. eexists. split; [done|]. by left. }
  cbn [inf_set_int inf_set_huff valuercbuf]. rewrite Hrc. cbn [mbind option_bind].
  rewrite (proj2 (Z.ltb_ge _ _)) by lia. cbn [inf_set_value inf_set_int inf_set_huff inf_left].
  assert (drop (Z.to_nat rv) inp `suffix_of` inp) as Hsuf by apply suffix_drop.
  pose proof (iw_left _ _ Hwf) as Hu.
  destruct (Z.eqb_spec (inf_left i - rv) 0) as [E|E]; cbn [negb].
  - destruct (buf_poke_room b') as [b2 ->]; [nia|]. cbn [mbind option_bind].
    set (i2 := inf_set_value _ b2 _).
    destruct (commit_good i2 nvs) as (i3 & onv & rv' & -> & Hc); [apply Hwf|done|by eexists|].
    cbn [mbind option_bind].
    destruct Hc as [(-> & [nv ->] & [nvs' Hrep] & Hbad & Hl)|[-> Hf]].
    + eexists. split; [done|]. split_and!; try done. exists nvs'. split; [done| |done].
      simpl. rewrite Hl. simpl. cint_lia.
    + eexists. split; [done|]. by right.
  - eexists. split; [done|]. assert (rv = zlen inp) as -> by lia.
    split_and!; try done; [|by rewrite Nat2Z.id, drop_all]. exists nvs. split; [apply Hwf|simpl; cint_lia|].
    unfold state_wf. cbn [inf_set_value inf_set_int inf_set_huff inf_state].
    destruct Hs as [[-> ->]|[-> ->]]; split_and!; try done; by apply Hh.
Qed.

(** Every turn keeps the promise. *)
Lemma inflate_step_good i nvs inp :
  inflater_wf i nvs -> is_bytes inp -> (inp <> [] \/ value_state i) ->
  step_good i inp (inflate_step malloc i inp).
Proof.
  intros Hwf Hb Hin. pose proof (iw_state _ _ Hwf) as Hst. unfold inflate_step, state_wf, value_state in *.
  pose proof (iw_left _ _ Hwf) as Hl.
  destruct (inf_state i) eqn:Hs; try (destruct Hin as [Hne|[?|?]]; [|done|done]).
  - eapply inflate_opcode_good; eauto.
  - eapply inflate_opcode_good; eauto.
  - eapply inflate_opcode_good; eauto.
  - by eapply inflate_table_size_good.
  - by eapply inflate_index_good.
  - unfold inflate_check_len. destruct inp as [|c inp]; [done|]. cbn [lookup list_lookup mbind option_bind].
    eapply (inflate_namelen_good _ _ nvs); try done. split; [apply Hwf|done|done].
  - by eapply inflate_namelen_good.
  - destruct Hst as (Ho & Hh & Hop). eapply inflate_name_good; eauto; [|done]. by eapply read_huff_post.
  - destruct Hst as (Ho & Hop). eapply inflate_name_good; eauto; [|done]. by eapply read_plain_post.
  - unfold inflate_check_len. destruct inp as [|c inp]; [done|]. cbn [lookup list_lookup mbind option_bind].
    eapply (inflate_valuelen_good _ _ nvs); try done. split; [apply Hwf|done|done].
  - by eapply inflate_valuelen_good.
  - destruct Hst as (Hn & Ho & Hh). eapply inflate_value_good; eauto; [|done]. by eapply read_huff_post.
  - destruct Hst as (Hn & Ho). eapply inflate_value_good; eauto; [|done]. by eapply read_plain_post.
Qed.

(** What the loop promises: it ends, with a field, an error, or no input left. *)
Definition loop_ok (bad : bool) (inp : bytes) (r : step_result) : Prop :=
  match r with
  | StepBreak i' inp' busy =>
      (exists nvs', inflater_wf i' nvs') /\ inp' = [] /\ ctx_bad (inf_ctx i') = bad
  | StepEmit i' inp' _ =>
      (exists nvs', inflater_wf i' nvs') /\ inp' `suffix_of` inp /\ ctx_bad (inf_ctx i') = bad
  | StepAlmostOk i' inp' =>
      (exists nvs', inflater_wf i' nvs') /\ inp' = [] /\ ctx_bad (inf_ctx i') = bad
  | StepFail i' rv => inflate_error rv
  end.

Lemma inflate_loop_good fuel i nvs inp busy :
  inflater_wf i nvs -> is_bytes inp -> (busy = true -> value_state i) -> (measure i inp < fuel)%nat ->
  exists r, inflate_loop malloc fuel i inp busy = Some r /\ loop_ok (ctx_bad (inf_ctx i)) inp r.
Proof.
  revert i nvs inp busy. induction fuel as [|fuel IH]; intros i nvs inp busy Hwf Hb Hbusy Hf; [lia|].
  cbn [inflate_loop]. destruct ((length inp =? 0)%nat && negb busy) eqn:Ec.
  { eexists. split; [done|]. split_and!; [by exists nvs| |done]. by apply nil_length_inv, Nat.eqb_eq, (andb_prop _ _ Ec). }
  assert (inp <> [] \/ value_state i) as Hin.
  { destruct busy; [by right; apply Hbusy|]. left. intros ->. done. }
  destruct (inflate_step_good i nvs inp Hwf Hb Hin) as (r & -> & Hr). cbn [mbind option_bind].
  destruct r as [i' inp' busy'|i' inp' nv|i' inp'|i' rv]; try (by eexists; split; [done|]).
  destruct Hr as ([nvs' Hwf'] & Hsuf & Hm & Hbusy' & Hbad).
  assert (is_bytes inp') as Hb' by (destruct Hsuf as [pre ->]; by apply Forall_app in Hb as [_ ?]).
  destruct (IH i' nvs' inp' busy' Hwf' Hb' Hbusy') as (r & -> & Hr); [lia|].
  exists r. split; [done|]. rewrite <- Hbad.
  destruct r; simpl in *; try done; destruct Hr as (? & ? & ?); split_and!; try done; by etrans.
Qed.

(** More fuel does not change the outcome. *)
Lemma inflate_loop_mono f f' i inp busy r :
  inflate_loop malloc f i inp busy = Some r -> (f <= f')%nat -> inflate_loop malloc f' i inp busy = Some r.
Proof.
  revert f' i inp busy. induction f as [|f IH]; intros f' i inp busy H Hle; cbn [inflate_loop] in H.
  - destruct (_ && _) eqn:E; [|done]. destruct f'; cbn [inflate_loop]; by rewrite E.
  - destruct f' as [|f']; [lia|]. cbn [inflate_loop]. destruct (_ && _); [done|].
    destruct (inflate_step malloc i inp) as [x|]; [|done]. cbn [mbind option_bind] in *.
    destruct x; try done. apply IH; [done|lia].
Qed.

(** The fuel of a call is enough. *)
Lemma measure_fuel i inp : (measure i inp < inflate_fuel inp)%nat.
Proof. unfold measure, inflate_fuel, state_rank. destruct (inf_state i); lia. Qed.

Lemma inflate_loop_fuel k i nvs inp r : inflater_wf i nvs -> is_bytes inp ->
  inflate_loop malloc k i inp false = Some r -> inflate_loop malloc (inflate_fuel inp) i inp false = Some r.
Proof.
  intros Hwf Hb Hk. destruct (inflate_loop_good (inflate_fuel inp) i nvs inp false Hwf Hb) as (r' & E & _);
    [done|apply measure_fuel|].
  rewrite E. apply (inflate_loop_mono _ (Nat.max k (inflate_fuel inp))) in E; [|lia].
  apply (inflate_loop_mono _ (Nat.max k (inflate_fuel inp))) in Hk; [|lia]. congruence.
Qed.

(** Between calls: usable, or marked as bad after an error. *)
Definition inflater_inv (i : nghttp2_hd_inflater) : Prop :=
  ctx_bad (inf_ctx i) = true \/ exists nvs, inflater_wf i nvs.

Lemma inflate_init_wf i : nghttp2_hd_inflate_init malloc = inl i ->
  inflater_wf i [] /\ ctx_bad (inf_ctx i) = false.
Proof.
  unfold nghttp2_hd_inflate_init. destruct (hd_context_init malloc) as [ctx|] eqn:E; [|done].
  destruct (hd_context_init_rep _ _ E) as (Hrep & _ & _ & Hbad). intros [= <-].
  split; [|done]. by split.
Qed.

(** What a call promises, by the outcome: an error, a field, or all input read. *)
Definition call_failed (i' : nghttp2_hd_inflater) (r : inflate_result) : Prop :=
  ir_rv r < 0 /\ ir_nv r = None /\ ctx_bad (inf_ctx i') = true /\ inflate_error (ir_rv r).

Definition call_emitted (inp : bytes) (r : inflate_result) : Prop :=
  0 <= ir_rv r <= zlen inp /\ is_Some (ir_nv r) /\ ir_flags r = NGHTTP2_HD_INFLATE_EMIT.

Definition call_finished (inp : bytes) (in_final : bool) (r : inflate_result) : Prop :=
  ir_rv r = zlen inp /\ ir_nv r = None /\
  ir_flags r = if in_final then NGHTTP2_HD_INFLATE_FINAL else NGHTTP2_HD_INFLATE_NONE.

Definition call_ok (inp : bytes) (in_final : bool) (i' : nghttp2_hd_inflater) (r : inflate_result) : Prop :=
  inflater_inv i' /\
  (call_failed i' r \/
   ctx_bad (inf_ctx i') = false /\ (call_emitted inp r \/ call_finished inp in_final r)).

Lemma inflate_fail_ok inp in_final i rv : inflate_error rv ->
  exists i' r, Some (inflate_fail i rv) = Some (i', r) /\ call_ok inp in_final i' r.
Proof.
  intros Hrv. eexists _, _. split; [done|]. split; [by left|]. left. split_and!; try done.
  simpl. by destruct Hrv as [->|[-> _]].
Qed.

Lemma inflate_finished_ok (inp inp' : bytes) (in_final : bool) i nvs flags :
  inflater_wf i nvs -> ctx_bad (inf_ctx i) = false -> inp' = [] ->
  flags = (if in_final then NGHTTP2_HD_INFLATE_FINAL else NGHTTP2_HD_INFLATE_NONE) ->
  exists i' r, Some (i, mk_ires (zlen inp - zlen inp') flags None) = Some (i', r) /\
    call_ok inp in_final i' r.
Proof.
  intros Hwf Hbad -> ->. eexists _, _. split; [done|]. split; [right; by exists nvs|]. right.
  split; [done|]. right. split; [simpl; lia|done].
Qed.

Lemma inflate_call_ok i inp in_final : inflater_inv i -> is_bytes inp ->
  exists i' r, nghttp2_hd_inflate_hd_nv malloc i inp in_final = Some (i', r) /\ call_ok inp in_final i' r.
Proof.
  intros Hinv Hb. unfold nghttp2_hd_inflate_hd_nv. destruct (ctx_bad (inf_ctx i)) eqn:Hbad.
  { eexists _, _. split; [done|]. split; [by left|]. left. by split_and!; [..|left]. }
  destruct Hinv as [?|[nvs Hwf]]; [congruence|].
  assert (inflater_wf (hd_inflate_keep_free i) nvs) as Hwf0 by (split; apply Hwf).
  destruct (inflate_loop_good (inflate_fuel inp) (hd_inflate_keep_free i) nvs inp false Hwf0 Hb)
    as (r & -> & Hr); [done|apply measure_fuel|]. cbn [mbind option_bind].
  destruct r as [i' inp' busy'|i' inp' nv|i' inp'|i' rv]; cbn [loop_ok] in Hr; cbv zeta.
  - destruct Hr as ([nvs' Hwf'] & Hinp & Hbad'). destruct in_final.
    + destruct (negb _ && negb _); [apply inflate_fail_ok; by left|].
      eapply inflate_finished_ok; [done|by rewrite Hbad'|done|done].
    + eapply inflate_finished_ok; [done|by rewrite Hbad'|done|done].
  - destruct Hr as ([nvs' Hwf'] & [pre ->] & Hbad').
    eexists _, _. split; [done|]. split; [right; by exists nvs'|]. right. split; [by rewrite Hbad'|].
    left. unfold call_emitted. simpl. rewrite length_app. split; [lia|]. by split.
  - destruct Hr as ([nvs' Hwf'] & Hinp & Hbad'). destruct in_final; [apply inflate_fail_ok; by left|].
    eapply inflate_finished_ok; [done|by rewrite Hbad'|done|done].
  - by apply inflate_fail_ok.
Qed.

End InflateProof.

(** C2: The decompressor is safe on every input: whatever octets arrive, in
    whatever pieces, [nghttp2_hd_inflate_hd_nv] returns, never reads past its
    input, never writes outside its string buffers and never fails an
    assertion, and it can be called again.  A call ends with an error, which
    marks the decompressor as bad for good; or with a field, having read at
    most its input; or having read all of its input. *)
Theorem hd_inflate_safe malloc `{!Allocator malloc} i inp in_final :
  inflater_inv i -> is_bytes inp ->
  exists i' r, nghttp2_hd_inflate_hd_nv malloc i inp in_final = Some (i', r) /\ inflater_inv i' /\
    (call_failed malloc i' r \/
     ctx_bad (inf_ctx i') = false /\ (call_emitted inp r \/ call_finished inp in_final r)).
Proof. intros Hinv Hb. exact (inflate_call_ok malloc i inp in_final Hinv Hb). Qed.

Lemma hd_inflate_safe_witness :
  exists i i' r, nghttp2_hd_inflate_init zero_malloc = inl i /\
    nghttp2_hd_inflate_hd_nv zero_malloc i [0x7f; 0xff; 0xff; 0xff] false = Some (i', r) /\ inflater_inv i'.
Proof.
  destruct (nghttp2_hd_inflate_init zero_malloc) as [i|e] eqn:Ei; [|vm_compute in Ei; discriminate].
  destruct (inflate_init_wf zero_malloc i Ei) as [Hwf _].
  destruct (hd_inflate_safe zero_malloc i [0x7f; 0xff; 0xff; 0xff] false) as (i' & r & E & H & _).
  - right. exists []. exact Hwf.
  - apply (bool_decide_unpack _). by vm_compute.
  - exists i, i', r. split; [reflexivity|]. split; [exact E|exact H].
Defined.
