(* ===== verification/HdRoundtrip.v ===== *)
(** * HPACK round trip (nghttp2_hd.c)

    The decompressor reads what the compressor writes.  First, it reads the
    octets of each representation as the specification says ([repr_exact],
    [size_exact]); then a compressor and a decompressor that start afresh and
    see the same sequence of settings changes stay in step, so that every
    block one produces gives back its fields in the other
    ([hpack_connection_roundtrip]). *)

From S2P Require Import Prelude Defs Helper Buf HuffmanData Huffman HdInt HdToken HdTable HdDeflate HdInflate.

(** The loop of an application around the decompressor: it collects the fields
    of a whole header block. *)
Fixpoint inflate_all (malloc : nat -> nat -> option bytes) (fuel : nat) (i : nghttp2_hd_inflater)
    (inp : bytes) : option (nghttp2_hd_inflater * list nghttp2_hd_nv * Z) :=
  match fuel with
  | O => None
  | S fuel =>
      '(i, r) ← nghttp2_hd_inflate_hd_nv malloc i inp true;
      if ir_rv r <? 0 then Some (i, [], ir_rv r)
      else
        match ir_nv r with
        | Some nv =>
            '(i, nvs, rv) ← inflate_all malloc fuel i (drop (Z.to_nat (ir_rv r)) inp);
            Some (i, nv :: nvs, rv)
        | None => Some (nghttp2_hd_inflate_end_headers i, [], 0)
        end
  end.

(** ** Strings on the wire *)

Definition str_huff (s : bytes) : bool := zlen (pack (huff_bits s)) <? zlen s.
Definition str_body (s : bytes) : bytes := if str_huff s then pack (huff_bits s) else s.
Definition str_first (s : bytes) : Z := if str_huff s then 128 else 0.

Lemma string_bytes_eq s : string_bytes s = int_bytes (str_first s) (zlen (str_body s)) 7 ++ str_body s.
Proof. unfold string_bytes, str_first, str_body, str_huff. by destruct (_ <? _). Qed.

Lemma str_body_length s : zlen (str_body s) <= zlen s.
Proof. unfold str_body, str_huff. destruct (Z.ltb_spec (zlen (pack (huff_bits s))) (zlen s)); lia. Qed.

Lemma str_body_bytes s : is_bytes s -> is_bytes (str_body s).
Proof. intros. unfold str_body. destruct (str_huff s); [apply pack_bytes|done]. Qed.

Lemma int_bytes_head hi n prefix :
  exists tl, int_bytes hi n prefix = (hi + Z.min n (2 ^ prefix - 1)) :: tl.
Proof.
  unfold int_bytes. destruct (Z.ltb_spec n (2 ^ prefix - 1)); eexists; f_equal; lia.
Qed.

Lemma str_head s : exists c tl, string_bytes s = c :: tl /\
  negb (c .& Z.shiftl 1 7 =? 0) = str_huff s.
Proof.
  rewrite string_bytes_eq. destruct (int_bytes_head (str_first s) (zlen (str_body s)) 7) as [tl ->].
  eexists _, _. split; [reflexivity|]. unfold str_first.
  set (x := Z.min (zlen (str_body s)) (2 ^ 7 - 1)). assert (0 <= x < 128) by (subst x; cint_lia).
  assert (forall c, is_u8 c -> 128 <= c \/ negb ((128 + c) .& Z.shiftl 1 7 =? 0) = true /\
    negb ((0 + c) .& Z.shiftl 1 7 =? 0) = false) as Hc.
  { apply (all_octets _ _). by vm_compute. }
  destruct (Hc x) as [?|[H1 H2]]; [cint_lia|lia|]. by destruct (str_huff s).
Qed.

Lemma str_first_ok s : 0 <= str_first s < 256 /\ str_first s mod 2 ^ 7 = 0.
Proof. unfold str_first. by destruct (str_huff s). Qed.

Section Exact.
Context (malloc : nat -> nat -> option bytes) `{!Allocator malloc}.
Hypothesis malloc_ok : forall call n, malloc call n <> None.

(** ** Reading one piece *)

(** What reading the pieces of a representation leaves alone. *)
Record lit_frame (i i' : nghttp2_hd_inflater) : Prop := {
  lf_ctx : exists calls, (mem_calls (inf_ctx i) <= calls)%nat /\ inf_ctx i' = ctx_set_calls (inf_ctx i) calls;
  lf_opcode : inf_opcode i' = inf_opcode i;
  lf_index : inf_index i' = inf_index i;
  lf_required : index_required i' = index_required i;
  lf_no : no_index i' = no_index i;
  lf_settings : settings_hd_table_bufsize_max i' = settings_hd_table_bufsize_max i;
  lf_min : min_hd_table_bufsize_max i' = min_hd_table_bufsize_max i;
}.

Lemma same_calls ctx : exists calls, (mem_calls ctx <= calls)%nat /\ ctx = ctx_set_calls ctx calls.
Proof. exists (mem_calls ctx). split; [done|by destruct ctx]. Qed.

Lemma lit_frame_trans i1 i2 i3 : lit_frame i1 i2 -> lit_frame i2 i3 -> lit_frame i1 i3.
Proof.
  intros [(c1 & ? & E1) ? ? ? ? ? ?] [(c2 & Hc2 & E2) ? ? ? ? ? ?]. split; try congruence.
  exists c2. rewrite E2, E1 in *. simpl in *. split; [lia|done].
Qed.

(** An integer with nothing read of it before. *)
Lemma with_len_exact i hi n prefix maxlen rest k :
  inf_left i = 0 -> inf_shift i = 0 -> 0 < prefix <= 8 -> 0 <= hi -> hi mod 2 ^ prefix = 0 ->
  is_u32 n -> n <= maxlen ->
  exists sh, with_len i (int_bytes hi n prefix ++ rest) prefix maxlen k = k (inf_set_int i n sh) rest.
Proof.
  intros Hl Hsh Hp Hhi Hmod Hn Hmax. unfold with_len, hd_inflate_read_len. rewrite Hl, Hsh.
  change (u32 0) with 0.
  destruct (decode_length_int_bytes hi n prefix rest Hp Hhi Hmod Hn) as [sh ->]. exists sh.
  cbn [mbind option_bind d_rv d_fin d_res d_shift].
  rewrite (proj2 (Z.eqb_neq _ (-1))), (proj2 (Z.ltb_ge maxlen n)) by lia. cbn [mbind option_bind].
  rewrite (proj2 (Z.ltb_ge _ 0)) by lia. by rewrite Nat2Z.id, drop_app_length.
Qed.

(** A buffer for the string [s], nothing written yet. *)
Definition fresh_for (s : bytes) (b : nghttp2_buf) : Prop :=
  b_pos b = 0%nat /\ b_last b = 0%nat /\
  zlen (b_mem b) = (if str_huff s then 2 else 1) * zlen (str_body s) + 1.

Lemma rcbuf_new_exact ctx size : 0 <= size ->
  exists calls rc, nghttp2_rcbuf_new malloc ctx size = (ctx_set_calls ctx calls, Some rc) /\
    (mem_calls ctx <= calls)%nat /\ zlen (rc_base rc) = size.
Proof.
  intros Hs. destruct (rcbuf_new_spec malloc ctx size Hs) as (calls & [rc|] & -> & Hc & Hrc).
  - exists calls, rc. split; [done|]. split; [done|lia].
  - destruct Hrc as (c & n & E). by destruct (malloc_ok c n).
Qed.

(** The length of a value has been read. *)
Lemma valuelen_exact i s rest :
  inf_left i = 0 -> inf_shift i = 0 -> huffman_encoded i = str_huff s -> zlen s <= NGHTTP2_HD_MAX_NV ->
  exists i', inflate_valuelen malloc i (string_bytes s ++ rest) =
      Some (StepBreak i' (str_body s ++ rest) true) /\
    lit_frame i i' /\ namercbuf i' = namercbuf i /\ is_Some (valuercbuf i') /\
    inf_state i' = (if str_huff s then NGHTTP2_HD_STATE_READ_VALUEHUFF else NGHTTP2_HD_STATE_READ_VALUE) /\
    inf_left i' = zlen (str_body s) /\ fresh_for s (valuebuf i') /\
    (str_huff s = true -> inf_huff i' = nghttp2_hd_huff_decode_context_init).
Proof.
  intros Hl Hsh Hh Hlen. unfold inflate_valuelen. rewrite string_bytes_eq, <- app_assoc.
  pose proof (str_body_length s). change NGHTTP2_HD_MAX_NV with 65536 in *.
  destruct (str_first_ok s) as [? ?].
  edestruct (with_len_exact i (str_first s) (zlen (str_body s)) 7 65536 (str_body s ++ rest))
    as [sh ->]; try done; try lia; [cint_lia|]. cbn [inf_set_int huffman_encoded]. rewrite Hh.
  unfold fresh_for. destruct (str_huff s);
    cbn [inf_set_int inf_set_state inf_set_huff inf_ctx inf_left];
    (edestruct (rcbuf_new_exact (inf_ctx i)) as (calls & rc & -> & Hc & Hrc); [|]); try lia;
    eexists; (split; [done|]); (split; [split; try done; by exists calls|]);
    (split; [done|]); (split; [done|]); (split; [done|]); (split; [done|]);
    (split; [|done]); simpl; (split; [done|]); (split; [done|]); rewrite Hrc; lia.
Qed.

Lemma namelen_exact i s rest :
  inf_left i = 0 -> inf_shift i = 0 -> huffman_encoded i = str_huff s -> zlen s <= NGHTTP2_HD_MAX_NV ->
  exists i', inflate_namelen malloc i (string_bytes s ++ rest) =
      Some (StepBreak i' (str_body s ++ rest) false) /\
    lit_frame i i' /\ is_Some (namercbuf i') /\
    inf_state i' = (if str_huff s then NGHTTP2_HD_STATE_NEWNAME_READ_NAMEHUFF
                    else NGHTTP2_HD_STATE_NEWNAME_READ_NAME) /\
    inf_left i' = zlen (str_body s) /\ fresh_for s (namebuf i') /\
    (str_huff s = true -> inf_huff i' = nghttp2_hd_huff_decode_context_init).
Proof.
  intros Hl Hsh Hh Hlen. unfold inflate_namelen. rewrite string_bytes_eq, <- app_assoc.
  pose proof (str_body_length s). change NGHTTP2_HD_MAX_NV with 65536 in *.
  destruct (str_first_ok s) as [? ?].
  edestruct (with_len_exact i (str_first s) (zlen (str_body s)) 7 65536 (str_body s ++ rest))
    as [sh ->]; try done; try lia; [cint_lia|]. cbn [inf_set_int huffman_encoded]. rewrite Hh.
  unfold fresh_for. destruct (str_huff s);
    cbn [inf_set_int inf_set_state inf_set_huff inf_ctx inf_left];
    (edestruct (rcbuf_new_exact (inf_ctx i)) as (calls & rc & -> & Hc & Hrc); [|]); try lia;
    eexists; (split; [done|]); (split; [split; try done; by exists calls|]);
    (split; [done|]); (split; [done|]); (split; [done|]);
    (split; [|done]); simpl; (split; [done|]); (split; [done|]); rewrite Hrc; lia.
Qed.

(** The reader of the string [s]. *)
Definition str_read (s : bytes) :=
  if str_huff s then hd_inflate_read_huff else hd_inflate_read.

Lemma read_exact i b s rest :
  is_bytes s -> inf_left i = zlen (str_body s) -> fresh_for s b ->
  (str_huff s = true -> inf_huff i = nghttp2_hd_huff_decode_context_init) ->
  exists i' b', str_read s i b (str_body s ++ rest) = Some (i', b', zlen (str_body s)) /\
    lit_frame i i' /\ namercbuf i' = namercbuf i /\ valuercbuf i' = valuercbuf i /\
    inf_left i' = 0 /\ buf_ok b' /\ b_pos b' = 0%nat /\ buf_bytes b' = s /\ (0 < nghttp2_buf_avail b')%nat.
Proof.
  intros Hs Hl (Hp & Hla & Hmem) Hh. unfold str_read, str_body in *. 
  assert (buf_ok b) as Hok by (unfold buf_ok; lia).
  assert (buf_bytes b = []) as Hnil by (unfold buf_bytes, nghttp2_buf_len, mem_slice; by rewrite Hp, Hla).
  destruct (str_huff s).
  - unfold hd_inflate_read_huff. rewrite Hl, length_app, Nat2Z.inj_add, (proj2 (Z.leb_le _ _)) by lia.
    rewrite Nat2Z.id, take_app_length, (Hh eq_refl).
    destruct (huff_decode_exact b s Hs Hok) as (ctx & b' & -> & Hf & Hap & Hlast);
      [unfold nghttp2_buf_avail; lia|]. cbn [mbind option_bind].
    rewrite (proj2 (Z.ltb_ge _ _)), Hf by lia.
    destruct Hap as (Hok' & Hby & Hml & _ & Hp' & _).
    eexists _, b'. split; [done|]. split; [split; try done; apply same_calls|].
    split_and!; try done; [simpl; lia|congruence|by rewrite Hby, Hnil|].
    unfold nghttp2_buf_avail. lia.
  - unfold hd_inflate_read. rewrite nghttp2_min_spec, Hl, length_app, Nat2Z.inj_add, Z.min_r by lia.
    rewrite Nat2Z.id, take_app_length.
    rewrite buf_put_Some by (unfold nghttp2_buf_avail; lia). cbn [mbind option_bind].
    pose proof (buf_write_appended b s Hok) as Hap. destruct Hap as (Hok' & Hby & Hml & Hla' & Hp' & _);
      [unfold nghttp2_buf_avail; lia|].
    eexists _, _. split; [done|]. split; [split; try done; apply same_calls|].
    split_and!; try done; [simpl; lia|by rewrite Hby, Hnil|].
    unfold nghttp2_buf_avail in *. lia.
Qed.

(** The terminating zero does not change the string. *)
Lemma string_done b s : buf_ok b -> b_pos b = 0%nat -> buf_bytes b = s -> (0 < nghttp2_buf_avail b)%nat ->
  exists b', buf_poke b (fun _ => 0) = Some b' /\
    rc_bytes (mk_rcbuf (b_mem b') (Z.of_nat (nghttp2_buf_len b'))) = s.
Proof.
  unfold nghttp2_buf_avail, buf_poke, buf_ok. intros Hok Hp Hs Hav.
  rewrite option_guard_True by lia. eexists. split; [done|]. unfold rc_bytes, nghttp2_buf_len. simpl.
  rewrite Nat2Z.id. unfold buf_bytes, nghttp2_buf_len, mem_slice in Hs. rewrite Hp in *.
  rewrite Nat.sub_0_r, drop_0 in *. unfold mem_write. by rewrite take_app_le, take_take, Nat.min_id by (rewrite length_take; lia).
Qed.

Lemma name_exact i s rest :
  is_bytes s -> inf_left i = zlen (str_body s) -> fresh_for s (namebuf i) -> is_Some (namercbuf i) ->
  (str_huff s = true -> inf_huff i = nghttp2_hd_huff_decode_context_init) ->
  exists i' rc, inflate_name i (str_body s ++ rest) (str_read s) = Some (StepBreak i' rest false) /\
    lit_frame i i' /\ namercbuf i' = Some rc /\ rc_bytes rc = s /\
    inf_state i' = NGHTTP2_HD_STATE_CHECK_VALUELEN.
Proof.
  intros Hs Hl Hfr [rc Hrc] Hh. unfold inflate_name.
  destruct (read_exact i (namebuf i) s rest Hs Hl Hfr Hh) as
    (i1 & b1 & -> & Hlf & Hn & _ & Hl1 & Hok & Hp & Hb & Hav). cbn [mbind option_bind].
  rewrite Hn, Hrc. cbn [mbind option_bind]. rewrite (proj2 (Z.ltb_ge _ _)) by lia.
  cbn [inf_set_name inf_left]. rewrite Hl1. cbn [Z.eqb negb].
  destruct (string_done b1 s Hok Hp Hb Hav) as (b2 & -> & Hrb). cbn [mbind option_bind].
  rewrite Nat2Z.id, drop_app_length.
  eexists _, _. split; [done|]. split; [|by split_and!].
  eapply lit_frame_trans; [done|]. split; try done. apply same_calls.
Qed.

(** The name of the literal being read, and its token. *)
Definition has_name (i : nghttp2_hd_inflater) (nvs : list nghttp2_hd_nv) (name : bytes) (token : Z) : Prop :=
  inf_opcode i = NGHTTP2_HD_OPCODE_NEWNAME /\ token = lookup_token name /\
    (exists rc, namercbuf i = Some rc /\ rc_bytes rc = name) \/
  inf_opcode i <> NGHTTP2_HD_OPCODE_NEWNAME /\ 0 <= inf_index i /\
    (exists h, (static_nvs ++ nvs) !! Z.to_nat (inf_index i) = Some h /\ hn_name h = name /\ hn_token h = token).

(** A literal is complete: the decompressor [i'] after it. *)
Record literal_done (i i' : nghttp2_hd_inflater) (nvs : list nghttp2_hd_nv) (nv : nghttp2_hd_nv) : Prop := {
  ld_rep : represents (inf_ctx i') None
             (if index_required i then fit (hd_table_bufsize_max (inf_ctx i)) (nv :: nvs) else nvs);
  ld_max : hd_table_bufsize_max (inf_ctx i') = hd_table_bufsize_max (inf_ctx i);
  ld_bad : ctx_bad (inf_ctx i') = ctx_bad (inf_ctx i);
  ld_left : inf_left i' = inf_left i;
  ld_settings : settings_hd_table_bufsize_max i' = settings_hd_table_bufsize_max i;
  ld_min : min_hd_table_bufsize_max i' = min_hd_table_bufsize_max i;
}.

Lemma commit_exact i nvs name token value rc :
  represents (inf_ctx i) None nvs -> has_name i nvs name token ->
  valuercbuf i = Some rc -> rc_bytes rc = value ->
  let nv := mk_hd_nv name value token (inflate_flags_of i) in
  exists i', (if decide (inf_opcode i = NGHTTP2_HD_OPCODE_NEWNAME)
              then hd_inflate_commit_newname malloc i else hd_inflate_commit_indname malloc i) =
      Some (i', Some nv, 0) /\ literal_done i i' nvs nv.
Proof.
  intros Hrep Hname Hrc Hv nv.
  assert (hn_token nv = lookup_token (hn_name nv)) as Ht.
  { destruct Hname as [(_ & -> & _)|(_ & _ & h & Hh & <- & <-)]; [done|].
    destruct Hrep as (ls & _ & _ & Ht & _). exact (table_entry_token _ _ _ Ht Hh). }
  destruct (commit_store malloc (inf_ctx i) nvs nv (index_required i) Hrep Ht) as
    (ctx' & rv & nvs' & E & Hrep' & Hbad & Hmx & Hok & Herr).
  assert (rv = 0) as ->.
  { destruct (decide (rv = 0)) as [|Hne]; [done|]. destruct (Herr Hne) as [_ (c & n & En)].
    by destruct (malloc_ok c n). }
  specialize (Hok eq_refl). subst nvs'. case_decide as Hop.
  - destruct Hname as [(_ & _ & rn & Hrn & Hn)|(? & _)]; [|done].
    unfold hd_inflate_commit_newname. rewrite Hrn, Hrc.
    cbn [fmap option_fmap option_map mbind option_bind]. rewrite Hn, Hv.
    assert (token = lookup_token name) as <- by exact Ht. fold nv. rewrite E. cbn [mbind option_bind Z.eqb].
    eexists. split; [done|]. by split.
  - destruct Hname as [(? & _)|(_ & Hi & h & Hh & Hn & Htk)]; [done|].
    unfold hd_inflate_commit_indname. rewrite (represents_get _ _ _ _ Hrep Hi), Hh, Hrc.
    cbn [fmap option_fmap option_map mbind option_bind]. rewrite Hn, Hv, Htk. fold nv.
    rewrite E. cbn [mbind option_bind Z.eqb].
    eexists. split; [done|]. by split.
Qed.

Lemma value_exact i nvs name token s rest :
  is_bytes s -> inf_left i = zlen (str_body s) -> fresh_for s (valuebuf i) -> is_Some (valuercbuf i) ->
  (str_huff s = true -> inf_huff i = nghttp2_hd_huff_decode_context_init) ->
  represents (inf_ctx i) None nvs -> has_name i nvs name token ->
  let nv := mk_hd_nv name s token (inflate_flags_of i) in
  exists i' i2, inflate_value malloc i (str_body s ++ rest) (str_read s) = Some (StepEmit i' rest nv) /\
    lit_frame i i2 /\ literal_done i2 i' nvs nv /\ inf_left i2 = 0 /\
    inf_state i' = NGHTTP2_HD_STATE_OPCODE.
Proof.
  intros Hs Hl Hfr [rc Hrc] Hh Hrep Hname nv. unfold inflate_value.
  destruct (read_exact i (valuebuf i) s rest Hs Hl Hfr Hh) as
    (i1 & b1 & -> & Hlf & Hn & Hv & Hl1 & Hok & Hp & Hb & Hav). cbn [mbind option_bind].
  rewrite Hv, Hrc. cbn [mbind option_bind]. rewrite (proj2 (Z.ltb_ge _ _)) by lia.
  cbn [inf_set_value inf_left]. rewrite Hl1. cbn [Z.eqb negb].
  destruct (string_done b1 s Hok Hp Hb Hav) as (b2 & -> & Hrb). cbn [mbind option_bind].
  rewrite Nat2Z.id, drop_app_length. set (i2 := inf_set_value _ b2 _).
  assert (lit_frame i i2) as Hlf2.
  { eapply lit_frame_trans; [done|]. split; try done. apply same_calls. }
  assert (has_name i2 nvs name token) as Hname2.
  { unfold has_name in *. rewrite (lf_opcode _ _ Hlf2), (lf_index _ _ Hlf2).
    change (namercbuf i2) with (namercbuf i1). by rewrite Hn. }
  assert (represents (inf_ctx i2) None nvs) as Hrep2.
  { destruct (lf_ctx _ _ Hlf2) as (calls & Hc & ->). by apply represents_calls. }
  destruct (commit_exact i2 nvs name token s _ Hrep2 Hname2 eq_refl Hrb) as (i3 & -> & Hld).
  assert (inflate_flags_of i2 = inflate_flags_of i) as Hfl by (unfold inflate_flags_of; by rewrite (lf_no _ _ Hlf2)).
  rewrite Hfl in *. cbn [mbind option_bind Z.eqb]. eexists _, i2. split; [done|]. split; [done|].
  split; [|done]. destruct Hld. by split.
Qed.

(** ** Reading one representation *)

(** The decompressor is in the state [st] of the specification. *)
Record in_state (i : nghttp2_hd_inflater) (st : hstate) : Prop := {
  is_rep : represents (inf_ctx i) None st.2;
  is_max : hd_table_bufsize_max (inf_ctx i) = st.1;
  is_small : st.1 <= UINT32_MAX;
  is_good : ctx_bad (inf_ctx i) = false;
}.

Definition same_limits (i i' : nghttp2_hd_inflater) : Prop :=
  settings_hd_table_bufsize_max i' = settings_hd_table_bufsize_max i /\
  min_hd_table_bufsize_max i' = min_hd_table_bufsize_max i.

Lemma in_state_frame i i' st : lit_frame i i' -> in_state i st -> in_state i' st.
Proof.
  intros Hlf [Hr Hm Hs Hg]. destruct (lf_ctx _ _ Hlf) as (calls & Hc & E).
  split; rewrite ?E; try done. by apply represents_calls.
Qed.

Lemma loop_break f i inp busy i' inp' busy' :
  inflate_step malloc i inp = Some (StepBreak i' inp' busy') -> inp <> [] \/ busy = true ->
  inflate_loop malloc (S f) i inp busy = inflate_loop malloc f i' inp' busy'.
Proof.
  intros E Hne. cbn [inflate_loop]. rewrite E. cbn [mbind option_bind].
  destruct inp; [destruct Hne as [?| ->]; [done|]|]; done.
Qed.

Lemma loop_emit f i inp busy i' inp' nv :
  inflate_step malloc i inp = Some (StepEmit i' inp' nv) -> inp <> [] \/ busy = true ->
  inflate_loop malloc (S f) i inp busy = Some (StepEmit i' inp' nv).
Proof.
  intros E Hne. cbn [inflate_loop]. rewrite E. cbn [mbind option_bind].
  destruct inp; [destruct Hne as [?| ->]; [done|]|]; done.
Qed.

(** The check of the first octet of a string. *)
Lemma check_len_exact i s rest next k :
  inflate_check_len i (string_bytes s ++ rest) next k =
  k (inf_set_int (inf_set_state (inf_set_flags i (str_huff s) (index_required i) (no_index i)) next) 0 0)
    (string_bytes s ++ rest).
Proof.
  unfold inflate_check_len, hd_inflate_set_huffman_encoded.
  destruct (str_head s) as (c & tl & -> & <-). done.
Qed.

Lemma string_bytes_nonempty s rest : string_bytes s ++ rest <> [].
Proof. destruct (str_head s) as (c & tl & -> & _). done. Qed.

(** From the length of the value to the emission. *)
Lemma literal_loop i st name token v mode rest :
  in_state i st -> inf_state i = NGHTTP2_HD_STATE_CHECK_VALUELEN -> has_name i st.2 name token ->
  index_required i = bool_decide (mode = NGHTTP2_HD_WITH_INDEXING) ->
  no_index i = bool_decide (mode = NGHTTP2_HD_NEVER_INDEXING) ->
  is_bytes v -> zlen v <= NGHTTP2_HD_MAX_NV ->
  let nv := mk_hd_nv name v token (mode_flags mode) in
  exists i', (forall f, inflate_loop malloc (S (S f)) i (string_bytes v ++ rest) false =
                Some (StepEmit i' rest nv)) /\
    in_state i' (literal_apply st mode nv).1 /\ same_limits i i' /\
    inf_state i' = NGHTTP2_HD_STATE_OPCODE /\ inf_left i' = 0.
Proof.
  intros Hst Hs Hname Hreq Hno Hv Hlen nv.
  set (i1 := inf_set_int (inf_set_state (inf_set_flags i (str_huff v) (index_required i) (no_index i))
    NGHTTP2_HD_STATE_READ_VALUELEN) 0 0).
  assert (lit_frame i i1) as Hlf1 by (split; try done; apply same_calls).
  destruct (valuelen_exact i1 v rest eq_refl eq_refl eq_refl Hlen) as
    (i2 & E2 & Hlf2 & Hn2 & Hv2 & Hs2 & Hl2 & Hfr2 & Hh2).
  pose proof (lit_frame_trans _ _ _ Hlf1 Hlf2) as Hlf.
  pose proof (in_state_frame _ _ _ Hlf Hst) as Hst2.
  assert (has_name i2 st.2 name token) as Hname2.
  { unfold has_name in *. by rewrite (lf_opcode _ _ Hlf), (lf_index _ _ Hlf), Hn2. }
  destruct (value_exact i2 st.2 name token v rest Hv Hl2 Hfr2 Hv2 Hh2 (is_rep _ _ Hst2) Hname2)
    as (i' & i3 & E' & Hlf3 & Hld & Hl3 & Hs').
  assert (inflate_flags_of i2 = mode_flags mode) as Hfl.
  { unfold inflate_flags_of, mode_flags. rewrite (lf_no _ _ Hlf), Hno. by case_decide; case_bool_decide. }
  rewrite Hfl in *. fold nv in E', Hld. exists i'. split; [|split; [|split; [|split; [done|]]]].
  - intros f. rewrite (loop_break _ _ _ _ i2 (str_body v ++ rest) true).
    + apply loop_emit; [|by right]. unfold inflate_step. rewrite Hs2. unfold str_read in E'.
      by destruct (str_huff v).
    + unfold inflate_step. by rewrite Hs, check_len_exact.
    + left. apply string_bytes_nonempty.
  - pose proof (in_state_frame _ _ _ Hlf3 Hst2) as Hst3. destruct st as [max nvs]. simpl in *.
    pose proof (ld_rep _ _ _ _ Hld) as Hr. rewrite (is_max _ _ Hst3) in Hr. simpl in Hr.
    rewrite (lf_required _ _ Hlf3), (lf_required _ _ Hlf), Hreq in Hr.
    split; simpl; [by case_decide; case_bool_decide|rewrite (ld_max _ _ _ _ Hld); apply Hst3|apply Hst|].
    rewrite (ld_bad _ _ _ _ Hld). apply Hst3.
  - pose proof (lit_frame_trans _ _ _ Hlf Hlf3) as Hlf'. split.
    + by rewrite (ld_settings _ _ _ _ Hld), (lf_settings _ _ Hlf').
    + by rewrite (ld_min _ _ _ _ Hld), (lf_min _ _ Hlf').
  - by rewrite (ld_left _ _ _ _ Hld).
Qed.

(** What the code tests of the first octet. *)
Definition opcode_bits (c : Z) : bool * bool * bool * bool * bool :=
  (c .& 0xe0 =? 0x20, negb (c .& 0x80 =? 0), (c =? 0x40) || (c =? 0) || (c =? 0x10),
   negb (c .& 0x40 =? 0), c .& 0xf0 =? 0x10).

Definition mode_bits (mode : nghttp2_hd_indexing_mode) : bool * bool :=
  (bool_decide (mode = NGHTTP2_HD_WITH_INDEXING), bool_decide (mode = NGHTTP2_HD_NEVER_INDEXING)).

Lemma opcode_bits_literal mode x : 1 <= x <= 2 ^ mode_prefix mode - 1 ->
  opcode_bits (pack_first_byte mode + x) = (false, false, false, (mode_bits mode).1, (mode_bits mode).2).
Proof.
  intros Hx.
  assert (forall c, is_u8 c -> (c = 0 \/ 2 ^ mode_prefix mode - 1 < c) \/
    opcode_bits (pack_first_byte mode + c) = (false, false, false, (mode_bits mode).1, (mode_bits mode).2)) as H.
  { destruct mode; apply (all_octets _ _); by vm_compute. }
  assert (2 ^ mode_prefix mode - 1 <= 63) by (by destruct mode).
  destruct (H x) as [?|?]; [cint_lia|lia|done].
Qed.

Lemma opcode_bits_newname mode :
  opcode_bits (pack_first_byte mode) = (false, false, true, (mode_bits mode).1, (mode_bits mode).2).
Proof. by destruct mode. Qed.

Lemma opcode_bits_high x : 0 <= x < 128 -> (0x80 + x) .& 0xe0 =? 0x20 = false /\ negb ((0x80 + x) .& 0x80 =? 0) = true.
Proof.
  intros Hx. assert (forall c, is_u8 c -> 127 < c \/
    ((0x80 + c) .& 0xe0 =? 0x20 = false /\ negb ((0x80 + c) .& 0x80 =? 0) = true)) as H
    by (apply (all_octets _ _); by vm_compute).
  destruct (H x) as [?|?]; [cint_lia|lia|done].
Qed.

Lemma opcode_bits_size x : 0 <= x < 32 -> (0x20 + x) .& 0xe0 =? 0x20 = true.
Proof.
  intros Hx. assert (forall c, is_u8 c -> 31 < c \/ ((0x20 + c) .& 0xe0 =? 0x20 = true)) as H
    by (apply (all_octets _ _); by vm_compute).
  destruct (H x) as [?|?]; [cint_lia|lia|done].
Qed.

(** Indices in range. *)
Lemma index_bound i st idx h : in_state i st -> 0 <= idx ->
  (static_nvs ++ st.2) !! Z.to_nat idx = Some h -> is_u32 (idx + 1) /\ idx + 1 <= get_max_index (inf_ctx i).
Proof.
  intros [Hrep Hmax Hsm _] Hi Hh. apply lookup_lt_Some in Hh. rewrite length_app in Hh.
  change (length static_nvs) with 61%nat in Hh.
  unfold get_max_index, NGHTTP2_STATIC_TABLE_LENGTH. rewrite (represents_len _ _ _ Hrep).
  destruct Hrep as (ls & _ & _ & _ & Hs). pose proof (table_size_nonneg st.2). cint_lia.
Qed.

(** The decompressor after the first octet of a representation. *)
Definition at_index (i : nghttp2_hd_inflater) (op : nghttp2_hd_opcode) (required no : bool) : nghttp2_hd_inflater :=
  inf_set_int (inf_set_flags (inf_set_state (inf_set_opcode i op) NGHTTP2_HD_STATE_READ_INDEX)
    (huffman_encoded i) required no) 0 0.

(** The index of a literal, when the opcode is known. *)
Lemma index_exact i st idx h rest op mode :
  in_state i st -> 0 <= idx -> (static_nvs ++ st.2) !! Z.to_nat idx = Some h ->
  op <> NGHTTP2_HD_OPCODE_INDEXED ->
  let i1 := at_index i op (mode_bits mode).1 (mode_bits mode).2 in
  exists sh, inflate_index i1 (int_bytes (pack_first_byte mode) (idx + 1) (mode_prefix mode) ++ rest) =
    Some (StepBreak (inf_set_state (inf_set_index (inf_set_int i1 (idx + 1) sh) idx)
            NGHTTP2_HD_STATE_CHECK_VALUELEN) rest false).
Proof.
  intros Hst Hi Hh Hop i1. destruct (index_bound _ _ _ _ Hst Hi Hh) as [Hu Hb].
  destruct (first_byte_ok mode) as (? & ? & ?). unfold inflate_index.
  assert (index_prefixlen i1 = mode_prefix mode) as ->.
  { unfold index_prefixlen. simpl. rewrite decide_False by done. by destruct mode. }
  edestruct (with_len_exact i1 (pack_first_byte mode) (idx + 1) (mode_prefix mode)
    (get_max_index (inf_ctx i1)) rest) as [sh E]; try done; try lia.
  exists sh. rewrite E. cbn [inf_set_int inf_left]. rewrite (proj2 (Z.eqb_neq _ _)) by lia.
  cbn [inf_set_index inf_opcode at_index inf_set_flags inf_set_state inf_set_opcode].
  rewrite decide_False by done. by replace (idx + 1 - 1) with idx by lia.
Qed.

Definition field_state (i : nghttp2_hd_inflater) : Prop :=
  inf_state i = NGHTTP2_HD_STATE_INFLATE_START \/ inf_state i = NGHTTP2_HD_STATE_OPCODE.

(** Strings of a representation that the decompressor admits. *)
Definition repr_small (r : hrepr) : Prop :=
  match r with
  | HIndexed _ | HSize _ => True
  | HIndName _ _ v => is_bytes v /\ zlen v <= NGHTTP2_HD_MAX_NV
  | HNewName _ n v => is_bytes n /\ zlen n <= NGHTTP2_HD_MAX_NV /\ is_bytes v /\ zlen v <= NGHTTP2_HD_MAX_NV
  end.

(** The field of a representation is read, with these octets and no more. *)
Definition reads (i : nghttp2_hd_inflater) (st : hstate) (bs : bytes) (st' : hstate) (nv : nghttp2_hd_nv) : Prop :=
  forall rest, exists i' k, (forall f, inflate_loop malloc (k + f) i (bs ++ rest) false = Some (StepEmit i' rest nv)) /\
    in_state i' st' /\ same_limits i i' /\ inf_state i' = NGHTTP2_HD_STATE_OPCODE /\ is_u32 (inf_left i').

Lemma indexed_reads i st idx h :
  in_state i st -> field_state i -> 0 <= idx -> (static_nvs ++ st.2) !! Z.to_nat idx = Some h ->
  reads i st (repr_bytes (HIndexed idx)) st h.
Proof.
  intros Hst Hs Hi Hh rest. destruct (index_bound _ _ _ _ Hst Hi Hh) as [Hu Hb].
  set (i1 := inf_set_int (inf_set_state (inf_set_opcode i NGHTTP2_HD_OPCODE_INDEXED)
    NGHTTP2_HD_STATE_READ_INDEX) 0 0).
  edestruct (with_len_exact i1 0x80 (idx + 1) 7 (get_max_index (inf_ctx i1)) rest) as [sh E]; try done.
  set (i2 := inf_set_state (inf_set_index (inf_set_int i1 (idx + 1) sh) idx) NGHTTP2_HD_STATE_OPCODE).
  exists i2, 2%nat. split; [|split; [by destruct Hst; split|done]]. intros f. cbn [Nat.add repr_bytes].
  destruct (int_bytes_head 0x80 (idx + 1) 7) as [tl Hc].
  destruct (opcode_bits_high (Z.min (idx + 1) (2 ^ 7 - 1))) as [H1 H2]; [lia|].
  rewrite (loop_break _ _ _ _ i1 (int_bytes 128 (idx + 1) 7 ++ rest) false).
  - apply loop_emit; [|left; by rewrite Hc]. unfold inflate_step. cbn [inf_state inf_set_state inf_set_int].
    unfold inflate_index. change (index_prefixlen i1) with 7. rewrite E.
    cbn [inf_set_int inf_left]. rewrite (proj2 (Z.eqb_neq _ _)) by lia.
    cbn [inf_set_index inf_opcode inf_set_state inf_set_opcode]. rewrite decide_True by done.
    replace (idx + 1 - 1) with idx by lia.
    unfold hd_inflate_commit_indexed, emit_header. cbn [inf_set_index inf_set_int inf_ctx inf_index].
    change (inf_ctx i1) with (inf_ctx i). by rewrite (represents_get _ _ _ _ (is_rep _ _ Hst) Hi), Hh.
  - unfold inflate_step. rewrite Hc. unfold inflate_opcode. cbn [app lookup list_lookup mbind option_bind].
    rewrite H1, H2. by destruct Hs as [-> | ->].
  - left. by rewrite Hc.
Qed.

(** The first octet of a literal. *)
Lemma opcode_literal i c tl (newname required no : bool) :
  field_state i -> opcode_bits c = (false, false, newname, required, no) ->
  inflate_step malloc i (c :: tl) =
  Some (if newname
        then StepBreak (inf_set_int (inf_set_flags (inf_set_state (inf_set_opcode i NGHTTP2_HD_OPCODE_NEWNAME)
               NGHTTP2_HD_STATE_NEWNAME_CHECK_NAMELEN) (huffman_encoded i) required no) 0 0) tl false
        else StepBreak (at_index i NGHTTP2_HD_OPCODE_INDNAME required no) (c :: tl) false).
Proof.
  intros Hs [= H1 H2 H3 H4 H5]. unfold inflate_step.
  assert (inflate_opcode i (c :: tl) = Some (if newname
        then StepBreak (inf_set_int (inf_set_flags (inf_set_state (inf_set_opcode i NGHTTP2_HD_OPCODE_NEWNAME)
               NGHTTP2_HD_STATE_NEWNAME_CHECK_NAMELEN) (huffman_encoded i) required no) 0 0) tl false
        else StepBreak (at_index i NGHTTP2_HD_OPCODE_INDNAME required no) (c :: tl) false)) as Ho.
  { unfold inflate_opcode. cbn [lookup list_lookup mbind option_bind]. rewrite H1, H2, H3, H4, H5.
    rewrite bool_decide_eq_false_2 by (destruct Hs as [-> | ->]; done). cbn [andb].
    destruct newname; [rewrite decide_True by done|rewrite decide_False by done]; done. }
  by destruct Hs as [-> | ->].
Qed.

Lemma indname_reads i st mode idx h v :
  in_state i st -> field_state i -> 0 <= idx -> (static_nvs ++ st.2) !! Z.to_nat idx = Some h ->
  is_bytes v -> zlen v <= NGHTTP2_HD_MAX_NV ->
  let nv := mk_hd_nv (hn_name h) v (hn_token h) (mode_flags mode) in
  reads i st (repr_bytes (HIndName mode idx v)) (literal_apply st mode nv).1 nv.
Proof.
  intros Hst Hs Hi Hh Hv Hlen nv rest. cbn [repr_bytes]. rewrite <- app_assoc.
  destruct (index_exact i st idx h (string_bytes v ++ rest) NGHTTP2_HD_OPCODE_INDNAME mode Hst Hi Hh)
    as [sh E]; [done|].
  set (i1 := at_index i NGHTTP2_HD_OPCODE_INDNAME (mode_bits mode).1 (mode_bits mode).2) in *.
  set (i2 := inf_set_state (inf_set_index (inf_set_int i1 (idx + 1) sh) idx) NGHTTP2_HD_STATE_CHECK_VALUELEN) in *.
  destruct (literal_loop i2 st (hn_name h) (hn_token h) v mode rest) as (i' & Hl & Hst' & Hlim & Hs' & Hl0);
    try done; [by destruct Hst; split|by right; split_and!; [..|exists h]|].
  exists i', 4%nat. split; [|split; [done|split; [done|split; [done|by rewrite Hl0]]]].
  intros f. cbn [Nat.add].
  destruct (int_bytes_head (pack_first_byte mode) (idx + 1) (mode_prefix mode)) as [tl Hc].
  rewrite (loop_break _ _ _ _ i1 (int_bytes (pack_first_byte mode) (idx + 1) (mode_prefix mode) ++
    string_bytes v ++ rest) false).
  - rewrite (loop_break _ _ _ _ i2 (string_bytes v ++ rest) false); [apply Hl|exact E|left; by rewrite Hc].
  - rewrite Hc. cbn [app]. apply (opcode_literal i _ _ false); [done|]. apply opcode_bits_literal.
    assert (2 ^ 4 <= 2 ^ mode_prefix mode) by (by destruct mode). lia.
  - left. by rewrite Hc.
Qed.

Lemma newname_reads i st mode n v :
  in_state i st -> field_state i -> is_bytes n -> zlen n <= NGHTTP2_HD_MAX_NV ->
  is_bytes v -> zlen v <= NGHTTP2_HD_MAX_NV ->
  let nv := mk_hd_nv n v (lookup_token n) (mode_flags mode) in
  reads i st (repr_bytes (HNewName mode n v)) (literal_apply st mode nv).1 nv.
Proof.
  intros Hst Hs Hn Hnlen Hv Hvlen nv rest. cbn [repr_bytes]. rewrite <- !app_assoc.
  set (i1 := inf_set_int (inf_set_flags (inf_set_state (inf_set_opcode i NGHTTP2_HD_OPCODE_NEWNAME)
    NGHTTP2_HD_STATE_NEWNAME_CHECK_NAMELEN) (huffman_encoded i) (mode_bits mode).1 (mode_bits mode).2) 0 0).
  set (i2 := inf_set_int (inf_set_state (inf_set_flags i1 (str_huff n) (index_required i1) (no_index i1))
    NGHTTP2_HD_STATE_NEWNAME_READ_NAMELEN) 0 0).
  destruct (namelen_exact i2 n (string_bytes v ++ rest) eq_refl eq_refl eq_refl Hnlen) as
    (i3 & E3 & Hlf3 & Hrc3 & Hs3 & Hl3 & Hfr3 & Hh3).
  destruct (name_exact i3 n (string_bytes v ++ rest) Hn Hl3 Hfr3 Hrc3 Hh3) as
    (i4 & rc & E4 & Hlf4 & Hrc4 & Hrb & Hs4).
  pose proof (lit_frame_trans _ _ _ Hlf3 Hlf4) as Hlf.
  assert (in_state i4 st) as Hst4 by (eapply in_state_frame; [done|]; by destruct Hst; split).
  destruct (literal_loop i4 st n (lookup_token n) v mode rest) as (i' & Hl & Hst' & [Hl1 Hl2] & Hs' & Hl0);
    try done.
  { left. rewrite (lf_opcode _ _ Hlf). split_and!; try done. by exists rc. }
  { by rewrite (lf_required _ _ Hlf). }
  { by rewrite (lf_no _ _ Hlf). }
  exists i', 5%nat. split; [|split; [done|split; [|split; [done|by rewrite Hl0]]]].
  2:{ split; [by rewrite Hl1, (lf_settings _ _ Hlf)|by rewrite Hl2, (lf_min _ _ Hlf)]. }
  intros f. cbn [Nat.add]. rewrite (loop_break _ _ _ _ i1 (string_bytes n ++ string_bytes v ++ rest) false).
  - rewrite (loop_break _ _ _ _ i3 (str_body n ++ string_bytes v ++ rest) false).
    + rewrite (loop_break _ _ _ _ i4 (string_bytes v ++ rest) false); [apply Hl| |].
      * unfold inflate_step. rewrite Hs3. unfold str_read in E4. by destruct (str_huff n).
      * left. intros E. apply app_eq_nil in E as [_ E]. by apply string_bytes_nonempty in E.
    + unfold inflate_step. cbn [inf_state i1 inf_set_int inf_set_flags inf_set_state]. by rewrite check_len_exact.
    + left. apply string_bytes_nonempty.
  - cbn [app]. apply (opcode_literal i _ _ true); [done|]. apply opcode_bits_newname.
  - by left.
Qed.

(** A size update is read and the loop goes on. *)
Lemma size_loop i st n rest :
  in_state i st -> inf_state i <> NGHTTP2_HD_STATE_OPCODE ->
  field_state i \/ inf_state i = NGHTTP2_HD_STATE_EXPECT_TABLE_SIZE -> is_u32 n ->
  n <= Z.min (min_hd_table_bufsize_max i) (settings_hd_table_bufsize_max i) ->
  exists i', (forall f, inflate_loop malloc (S (S f)) i (repr_bytes (HSize n) ++ rest) false =
                inflate_loop malloc f i' rest false) /\
    in_state i' (n, fit n st.2) /\ inf_state i' = NGHTTP2_HD_STATE_INFLATE_START /\
    settings_hd_table_bufsize_max i' = settings_hd_table_bufsize_max i /\
    min_hd_table_bufsize_max i' = UINT32_MAX /\ is_u32 (inf_left i').
Proof.
  intros Hst Hno Hs Hn Hlim. cbn [repr_bytes].
  set (i1 := inf_set_int (inf_set_state (inf_set_opcode i NGHTTP2_HD_OPCODE_INDEXED)
    NGHTTP2_HD_STATE_READ_TABLE_SIZE) 0 0).
  edestruct (with_len_exact i1 0x20 n 5 (nghttp2_min (min_hd_table_bufsize_max i1)
    (settings_hd_table_bufsize_max i1)) rest) as [sh E]; try done; [by rewrite nghttp2_min_spec|].
  destruct (represents_shrink (inf_ctx i) None st.2 n (is_rep _ _ Hst)) as
    (ctx' & map' & Esh & Hrep' & Hmx & Hbad & Hnone); [cint_lia|].
  rewrite (proj2 Hnone eq_refl) in *.
  set (i2 := inf_set_state (inf_set_ctx (inf_set_limits (inf_set_int i1 n sh)
    (settings_hd_table_bufsize_max i) UINT32_MAX) ctx') NGHTTP2_HD_STATE_INFLATE_START).
  exists i2. split; [|split; [|by split_and!]].
  - intros f. destruct (int_bytes_head 0x20 n 5) as [tl Hc].
    rewrite (loop_break _ _ _ _ i1 (int_bytes 32 n 5 ++ rest) false).
    + apply loop_break; [|left; by rewrite Hc]. unfold inflate_step. cbn [inf_state inf_set_state inf_set_int].
      unfold inflate_table_size. rewrite E. cbn [inf_set_limits inf_set_int inf_ctx inf_left].
      change (inf_ctx i1) with (inf_ctx i). by rewrite Esh.
    + assert (inflate_opcode i (int_bytes 32 n 5 ++ rest) = Some (StepBreak i1 (int_bytes 32 n 5 ++ rest) false)) as Ho.
      { rewrite Hc. unfold inflate_opcode. cbn [app lookup list_lookup mbind option_bind].
        rewrite opcode_bits_size by cint_lia. rewrite andb_false_r. by rewrite decide_False. }
      unfold inflate_step. by destruct Hs as [[-> | ->]| ->].
    + left. by rewrite Hc.
  - split; simpl; [done|done|cint_lia|]. by rewrite Hbad, (is_good _ _ Hst).
Qed.

(** ** Reading a block *)

Lemma repr_reads i st r st' outs :
  in_state i st -> field_state i -> is_field r -> repr_small r -> repr_apply st r = Some (st', outs) ->
  exists nv, outs = [nv] /\ reads i st (repr_bytes r) st' nv.
Proof.
  intros Hst Hs Hf Hsm Ha. destruct r as [idx|mode idx v|mode n v|n]; cbn [repr_apply] in Ha; [..|done].
  - apply bind_Some in Ha as (h & Hh & [= <- <-]). exists h. split; [done|]. by apply indexed_reads.
  - apply bind_Some in Ha as (h & Hh & [= Ha]). destruct Hsm as [Hv Hl]. eexists.
    pose proof (indname_reads i st mode idx h v Hst Hs Hf Hh Hv Hl) as H.
    destruct st as [max nvs]. unfold literal_apply in *. injection Ha as <- <-. split; [done|exact H].
  - injection Ha as Ha. destruct Hsm as (Hn & Hnl & Hv & Hl). eexists.
    pose proof (newname_reads i st mode n v Hst Hs Hn Hnl Hv Hl) as H.
    destruct st as [max nvs]. unfold literal_apply in *. injection Ha as <- <-. split; [done|exact H].
Qed.

Lemma string_bytes_octets s : is_bytes s -> is_bytes (string_bytes s).
Proof.
  intros Hs. rewrite string_bytes_eq. destruct (str_first_ok s). apply is_bytes_app.
  split; [apply int_bytes_octets; [lia|lia|done|lia]|by apply str_body_bytes].
Qed.

Lemma repr_bytes_octets r : repr_small r -> is_field r \/ (exists n, r = HSize n /\ 0 <= n) -> is_bytes (repr_bytes r).
Proof.
  intros Hsm [Hf|(n & -> & Hn)]; [|by apply int_bytes_octets].
  destruct r as [idx|mode idx v|mode n v|n]; simpl in *; [..|done].
  - apply int_bytes_octets; [lia|lia|done|lia].
  - destruct (first_byte_ok mode) as (? & ? & ?). apply is_bytes_app.
    split; [apply int_bytes_octets; [lia|lia|done|lia]|apply string_bytes_octets; apply Hsm].
  - destruct (first_byte_ok mode) as (? & _). constructor; [cint_lia|].
    apply is_bytes_app. split; apply string_bytes_octets; apply Hsm.
Qed.

Lemma block_bytes_octets rs : Forall repr_small rs ->
  Forall (fun r => is_field r \/ (exists n, r = HSize n /\ 0 <= n)) rs -> is_bytes (block_bytes rs).
Proof.
  induction 1 as [|r rs Hr _ IH]; intros H; [constructor|]. apply Forall_cons in H as [? ?].
  unfold block_bytes. cbn [map concat]. apply is_bytes_app. split; [by apply repr_bytes_octets|by apply IH].
Qed.

(** Between the representations of a block. *)
Record idle (i : nghttp2_hd_inflater) (st : hstate) : Prop := {
  id_state : in_state i st;
  id_left : is_u32 (inf_left i);
  id_wait : field_state i \/ inf_state i = NGHTTP2_HD_STATE_EXPECT_TABLE_SIZE;
}.

Lemma idle_wf i st : idle i st -> inflater_wf i st.2.
Proof.
  intros [Hst Hl Hs]. split; [apply Hst|done|]. unfold state_wf. by destruct Hs as [[-> | ->]| ->].
Qed.

Lemma idle_keep i st : idle i st -> idle (hd_inflate_keep_free i) st.
Proof. intros [[] Hl Hs]. by split. Qed.

(** The function runs the loop with enough fuel. *)
Lemma loop_call i st inp r k : idle i st -> is_bytes inp ->
  inflate_loop malloc k (hd_inflate_keep_free i) inp false = Some r ->
  inflate_loop malloc (inflate_fuel inp) (hd_inflate_keep_free i) inp false = Some r.
Proof.
  intros Hid Hb Hk. exact (inflate_loop_fuel malloc k _ _ _ _ (idle_wf _ _ (idle_keep _ _ Hid)) Hb Hk).
Qed.

(** The size updates the decompressor accepts. *)
Definition admits (i : nghttp2_hd_inflater) (ns : list Z) : Prop :=
  match ns with
  | [] => True
  | n :: _ => n <= min_hd_table_bufsize_max i /\
              Forall (fun n => is_u32 n /\ n <= settings_hd_table_bufsize_max i) ns
  end.

Lemma sizes_loop ns i st rest : idle i st -> inf_state i <> NGHTTP2_HD_STATE_OPCODE \/ ns = [] -> admits i ns ->
  exists i' k st', (forall f, inflate_loop malloc (k + f) i (block_bytes (map HSize ns) ++ rest) false =
                  inflate_loop malloc f i' rest false) /\
    reprs_apply st (map HSize ns) = Some (st', []) /\ idle i' st' /\
    settings_hd_table_bufsize_max i' = settings_hd_table_bufsize_max i /\
    (ns = [] /\ i' = i \/ ns <> [] /\ inf_state i' = NGHTTP2_HD_STATE_INFLATE_START /\
       min_hd_table_bufsize_max i' = UINT32_MAX).
Proof.
  revert i st. induction ns as [|n ns IH]; intros i st Hid Hno Had.
  { exists i, 0%nat, st. split_and!; try done. by left. }
  destruct Had as [Hmin Hall]. apply Forall_cons in Hall as [[Hu Hle] Hall].
  destruct Hno as [Hno|?]; [|done].
  destruct (size_loop i st n (block_bytes (map HSize ns) ++ rest)) as (i1 & H1 & Hst1 & Hs1 & Hse1 & Hmi1 & Hl1);
    [apply Hid|done|apply Hid|done|lia|].
  destruct (IH i1 (n, fit n st.2)) as (i' & k & st' & Hk & Ha & Hid' & Hse & Hfin).
  { split; [done|done|]. left. by left. }
  { left. by rewrite Hs1. }
  { destruct ns as [|m ns]; [done|]. split; [|by rewrite Hse1].
    rewrite Hmi1. apply Forall_cons in Hall as [[? ?] _]. cint_lia. }
  exists i', (2 + k)%nat, st'. split_and!; try done; [| |congruence|].
  - intros f. change (block_bytes (map HSize (n :: ns))) with (repr_bytes (HSize n) ++ block_bytes (map HSize ns)).
    rewrite <- app_assoc. cbn [Nat.add]. by rewrite H1.
  - cbn [map reprs_apply repr_apply mbind option_bind]. by rewrite Ha.
  - right. split; [done|]. destruct Hfin as [[-> ->]|(_ & ? & ?)]; [by split|by split].
Qed.

(** A call that ends the block. *)
Lemma call_final i st inp k i1 : idle i st -> is_bytes inp ->
  inflate_loop malloc k (hd_inflate_keep_free i) inp false = Some (StepBreak i1 [] false) -> field_state i1 ->
  nghttp2_hd_inflate_hd_nv malloc i inp true = Some (i1, mk_ires (zlen inp) NGHTTP2_HD_INFLATE_FINAL None).
Proof.
  intros Hid Hb Hk Hs. unfold nghttp2_hd_inflate_hd_nv. rewrite (is_good _ _ (id_state _ _ Hid)).
  rewrite (loop_call _ _ _ _ _ Hid Hb Hk). cbn [mbind option_bind].
  rewrite Z.sub_0_r. by destruct Hs as [-> | ->].
Qed.

(** A call that emits a field. *)
Lemma call_emit i st inp k i1 rest nv : idle i st -> is_bytes inp ->
  inflate_loop malloc k (hd_inflate_keep_free i) inp false = Some (StepEmit i1 rest nv) ->
  nghttp2_hd_inflate_hd_nv malloc i inp true =
    Some (i1, mk_ires (zlen inp - zlen rest) NGHTTP2_HD_INFLATE_EMIT (Some nv)).
Proof.
  intros Hid Hb Hk. unfold nghttp2_hd_inflate_hd_nv. rewrite (is_good _ _ (id_state _ _ Hid)).
  by rewrite (loop_call _ _ _ _ _ Hid Hb Hk).
Qed.

Definition block_done (i i' : nghttp2_hd_inflater) (st' : hstate) (ns : list Z) : Prop :=
  idle i' st' /\ inf_state i' = NGHTTP2_HD_STATE_INFLATE_START /\
  settings_hd_table_bufsize_max i' = settings_hd_table_bufsize_max i /\
  min_hd_table_bufsize_max i' = if decide (ns = []) then min_hd_table_bufsize_max i else UINT32_MAX.

Lemma sizes_octets ns i : admits i ns -> Forall (fun r => is_field r \/ (exists n, r = HSize n /\ 0 <= n)) (map HSize ns).
Proof.
  intros Had. destruct ns as [|n ns]; [constructor|]. destruct Had as [_ Hall].
  apply Forall_fmap. eapply Forall_impl; [exact Hall|]. intros m [Hm _]. right. exists m. split; [done|apply Hm].
Qed.

Lemma sizes_small ns : Forall repr_small (map HSize ns).
Proof. apply Forall_fmap, Forall_true. done. Qed.

Lemma block_octets ns rs i : admits i ns -> Forall is_field rs -> Forall repr_small rs ->
  is_bytes (block_bytes (map HSize ns ++ rs)).
Proof.
  intros Had Hf Hsm. apply block_bytes_octets; apply Forall_app; split; [apply sizes_small|done| |].
  - by eapply sizes_octets.
  - eapply Forall_impl; [exact Hf|]. by left.
Qed.

(** The size updates at the start of a call. *)
Lemma sizes_call ns i st rest : idle i st -> inf_state i <> NGHTTP2_HD_STATE_OPCODE \/ ns = [] -> admits i ns ->
  (inf_state i = NGHTTP2_HD_STATE_EXPECT_TABLE_SIZE -> ns <> []) ->
  exists i1 k st1, (forall f, inflate_loop malloc (k + f) (hd_inflate_keep_free i)
       (block_bytes (map HSize ns) ++ rest) false = inflate_loop malloc f i1 rest false) /\
    reprs_apply st (map HSize ns) = Some (st1, []) /\ idle i1 st1 /\ field_state i1 /\
    settings_hd_table_bufsize_max i1 = settings_hd_table_bufsize_max i /\
    min_hd_table_bufsize_max i1 = if decide (ns = []) then min_hd_table_bufsize_max i else UINT32_MAX.
Proof.
  intros Hid Hno Had Hex.
  destruct (sizes_loop ns (hd_inflate_keep_free i) st rest (idle_keep _ _ Hid) Hno Had)
    as (i1 & k & st1 & Hk & Ha & Hid1 & Hse & Hfin).
  exists i1, k, st1. split_and!; try done; destruct Hfin as [[-> ->]|(Hne & Hs & Hmi)].
  - destruct (id_wait _ _ Hid) as [?|E]; [done|]. by destruct (Hex E).
  - by left.
  - done.
  - by rewrite decide_False.
Qed.

Lemma inflate_all_S fuel i inp :
  inflate_all malloc (S fuel) i inp =
  '(i, r) ← nghttp2_hd_inflate_hd_nv malloc i inp true;
  if ir_rv r <? 0 then Some (i, [], ir_rv r)
  else
    match ir_nv r with
    | Some nv =>
        '(i, nvs, rv) ← inflate_all malloc fuel i (drop (Z.to_nat (ir_rv r)) inp);
        Some (i, nv :: nvs, rv)
    | None => Some (nghttp2_hd_inflate_end_headers i, [], 0)
    end.
Proof. done. Qed.

(** The fields of a block come out, and the table is the specified one. *)
Lemma inflate_block_exact rs ns i st st' outs :
  idle i st -> inf_state i <> NGHTTP2_HD_STATE_OPCODE \/ ns = [] -> admits i ns ->
  (inf_state i = NGHTTP2_HD_STATE_EXPECT_TABLE_SIZE -> ns <> []) ->
  Forall is_field rs -> Forall repr_small rs ->
  reprs_apply st (map HSize ns ++ rs) = Some (st', outs) ->
  exists i', inflate_all malloc (S (length rs)) i (block_bytes (map HSize ns ++ rs)) = Some (i', outs, 0) /\
    block_done i i' st' ns.
Proof.
  revert ns i st outs. induction rs as [|r rs IH]; intros ns i st outs Hid Hno Had Hex Hf Hsm Ha;
    pose proof (block_octets _ _ _ Had Hf Hsm) as Hb; rewrite block_bytes_app in *;
    rewrite inflate_all_S.
  - destruct (sizes_call ns i st [] Hid Hno Had Hex) as (i1 & k & st1 & Hk & Ha1 & Hid1 & Hs1 & Hse & Hmi).
    rewrite app_nil_r, Ha1 in Ha. injection Ha as <- <-. specialize (Hk 0%nat).
    rewrite (call_final i st _ _ _ Hid Hb Hk Hs1). cbn [mbind option_bind ir_rv ir_nv].
    rewrite (proj2 (Z.ltb_ge _ _)) by lia. eexists. split; [done|]. split_and!; try done.
    destruct Hid1 as [[] ? ?]. split; [by split|done|by left; left].
  - apply Forall_cons in Hf as [Hf1 Hf]. apply Forall_cons in Hsm as [Hsm1 Hsm].
    destruct (sizes_call ns i st (repr_bytes r ++ block_bytes rs) Hid Hno Had Hex) as
      (i1 & k & st1 & Hk & Ha1 & Hid1 & Hs1 & Hse & Hmi).
    rewrite reprs_apply_app, Ha1 in Ha. cbn [mbind option_bind reprs_apply] in Ha.
    apply bind_Some in Ha as ([st0 outs0] & Ha & [= <- <-]). cbn [app].
    apply bind_Some in Ha as ([st2 out2] & Hr & Ha). apply bind_Some in Ha as ([st3 out3] & Ha & [= <- <-]).
    destruct (repr_reads i1 st1 r st2 out2 (id_state _ _ Hid1) Hs1 Hf1 Hsm1 Hr) as (nv & -> & Hrd).
    destruct (Hrd (block_bytes rs)) as (i2 & k2 & Hk2 & Hst2 & [Hse2 Hmi2] & Hs2 & Hl2).
    specialize (Hk (k2 + 0)%nat). rewrite Hk2 in Hk.
    change (block_bytes (r :: rs)) with (repr_bytes r ++ block_bytes rs) in *.
    rewrite (call_emit i st _ _ _ _ _ Hid Hb Hk). cbn [mbind option_bind ir_rv ir_nv].
    rewrite !length_app, !Nat2Z.inj_add. rewrite (proj2 (Z.ltb_ge _ _)) by lia.
    destruct (IH [] i2 st2 out3) as (i' & E & (Hid' & Hs' & Hse' & Hmi')); try done.
    { split; [done|done|]. left. by right. }
    { by right. }
    { by rewrite Hs2. }
    rewrite (app_assoc _ (repr_bytes r)), drop_app_length' by (rewrite length_app; lia).
    cbn [map app] in E. change (length (r :: rs)) with (S (length rs)). rewrite E. cbn [mbind option_bind].
    exists i'. split; [done|]. rewrite decide_True in Hmi' by done.
    split_and!; try done; congruence.
Qed.

End Exact.

(** ** A connection: one compressor, one decompressor *)

(** What happens on one direction of a connection, in order: the receiver
    changes [SETTINGS_HEADER_TABLE_SIZE], which the compressor applies on
    reception and the decompressor on the acknowledgement; or the sender
    compresses a list of fields, which the receiver decompresses. *)
Inductive hpack_op :=
  | OpSettings (n : Z)
  | OpHeaders (nva : list nghttp2_nv).

Definition pair_of_nv (nv : nghttp2_nv) : bytes * bytes := (nv_name nv, nv_value nv).
Definition pair_of_hd_nv (nv : nghttp2_hd_nv) : bytes * bytes := (hn_name nv, hn_value nv).

Section Connection.
Context (malloc : nat -> nat -> option bytes).

Definition conn_settings (c : nghttp2_hd_deflater * nghttp2_hd_inflater) (n : Z)
    : option (nghttp2_hd_deflater * nghttp2_hd_inflater) :=
  '(d, rv) ← nghttp2_hd_deflate_change_table_size c.1 n;
  '(i, rv') ← nghttp2_hd_inflate_change_table_size c.2 n;
  guard (rv = 0 /\ rv' = 0);; Some (d, i).

(** The block is written to a buffer of [nghttp2_hd_deflate_bound] octets. *)
Definition conn_headers (c : nghttp2_hd_deflater * nghttp2_hd_inflater) (nva : list nghttp2_nv)
    : option ((nghttp2_hd_deflater * nghttp2_hd_inflater) * list (bytes * bytes)) :=
  match nghttp2_bufs_wrap_init malloc 0 (replicate (Z.to_nat (nghttp2_hd_deflate_bound nva)) 0) with
  | inr _ => None
  | inl s =>
      '((d, s), rv) ← nghttp2_hd_deflate_hd_bufs malloc c.1 s nva;
      '(i, outs, rv') ← inflate_all malloc (S (length (bufs_bytes s))) c.2 (bufs_bytes s);
      guard (rv = 0 /\ rv' = 0);; Some ((d, i), map pair_of_hd_nv outs)
  end.

Fixpoint conn_run (c : nghttp2_hd_deflater * nghttp2_hd_inflater) (ops : list hpack_op)
    : option ((nghttp2_hd_deflater * nghttp2_hd_inflater) * list (list (bytes * bytes))) :=
  match ops with
  | [] => Some (c, [])
  | OpSettings n :: ops => c ← conn_settings c n; conn_run c ops
  | OpHeaders nva :: ops =>
      '(c, out) ← conn_headers c nva;
      '(c, outs) ← conn_run c ops;
      Some (c, out :: outs)
  end.

End Connection.

(** Fields as large as the decompressor accepts. *)
Definition nv_fits (nv : nghttp2_nv) : Prop :=
  is_bytes (nv_name nv) /\ is_bytes (nv_value nv) /\
  zlen (nv_name nv) <= NGHTTP2_HD_MAX_NV /\ zlen (nv_value nv) <= NGHTTP2_HD_MAX_NV.

Definition op_ok (op : hpack_op) : Prop :=
  match op with
  | OpSettings n => is_u32 n
  | OpHeaders nva => Forall nv_fits nva
  end.

#[export] Instance nv_fits_dec nv : Decision (nv_fits nv).
Proof. unfold nv_fits. apply _. Defined.

#[export] Instance op_ok_dec op : Decision (op_ok op).
Proof. destruct op; unfold op_ok; apply _. Defined.

Fixpoint headers_of (ops : list hpack_op) : list (list (bytes * bytes)) :=
  match ops with
  | [] => []
  | OpSettings _ :: ops => headers_of ops
  | OpHeaders nva :: ops => map pair_of_nv nva :: headers_of ops
  end.

Lemma nv_fits_ok nv : nv_fits nv -> nv_ok nv /\ nv_short nv.
Proof.
  intros (Hn & Hv & Hnl & Hvl). change NGHTTP2_HD_MAX_NV with 65536 in *.
  split; split; try done; cint_lia.
Qed.

(** The strings of a block are those of its fields. *)
Lemma reprs_small rs st st' outs nva :
  Forall is_field rs -> reprs_apply st rs = Some (st', outs) -> Forall2 field_eq nva outs ->
  Forall nv_fits nva -> Forall repr_small rs.
Proof.
  intros Hf. revert st outs nva. induction Hf as [|r rs Hr Hf IH]; intros st outs nva Ha He Hfit; [constructor|].
  cbn [reprs_apply] in Ha. apply bind_Some in Ha as ([st1 out1] & Ha1 & Ha).
  apply bind_Some in Ha as ([st2 out2] & Ha2 & [= <- <-]).
  assert (exists out, out1 = [out] /\ (forall nv, nv_fits nv -> field_eq nv out -> repr_small r)) as (out & -> & Hsm).
  { destruct st as [max nvs]. destruct r as [idx|mode idx v|mode n v|n]; cbn [repr_apply] in Ha1; [..|done].
    - apply bind_Some in Ha1 as (h & _ & [= <- <-]). by exists h.
    - apply bind_Some in Ha1 as (h & _ & [= <- <-]). eexists. split; [done|].
      intros nv (_ & Hv & _ & Hvl) [_ E]. simpl in *. by rewrite E.
    - injection Ha1 as <- <-. eexists. split; [done|].
      intros nv (Hn & Hv & Hnl & Hvl) [En Ev]. simpl in *. by rewrite En, Ev. }
  cbn [app] in He. destruct nva as [|nv nva]; [by apply Forall2_nil_inv_l in He|].
  apply Forall2_cons in He as [He1 He]. apply Forall_cons in Hfit as [Hfit1 Hfit].
  constructor; [by eapply Hsm|by eapply IH].
Qed.

Lemma field_eq_pairs nva outs : Forall2 field_eq nva outs -> map pair_of_hd_nv outs = map pair_of_nv nva.
Proof.
  induction 1 as [|nv out nva outs [Hn Hv] _ IH]; [done|]. cbn [map]. rewrite IH.
  unfold pair_of_hd_nv, pair_of_nv. by rewrite Hn, Hv.
Qed.

Lemma repr_bytes_nonempty r : (0 < length (repr_bytes r))%nat.
Proof.
  destruct r as [idx|mode idx v|mode n v|n]; cbn [repr_bytes]; rewrite ?length_app;
    try (destruct (int_bytes_head 0x80 (idx + 1) 7) as [? ->]); 
    try (destruct (int_bytes_head (pack_first_byte mode) (idx + 1) (mode_prefix mode)) as [? ->]);
    try (destruct (int_bytes_head 0x20 n 5) as [? ->]); simpl; lia.
Qed.

Lemma block_bytes_length rs : (length rs <= length (block_bytes rs))%nat.
Proof.
  induction rs as [|r rs IH]; [done|]. unfold block_bytes in *. cbn [map concat length].
  rewrite length_app. pose proof (repr_bytes_nonempty r). lia.
Qed.

Lemma inflate_all_mono malloc f f' i inp r :
  inflate_all malloc f i inp = Some r -> (f <= f')%nat -> inflate_all malloc f' i inp = Some r.
Proof.
  revert f' i inp r. induction f as [|f IH]; intros f' i inp r H Hle; [done|].
  destruct f' as [|f']; [lia|]. rewrite inflate_all_S in *.
  destruct (nghttp2_hd_inflate_hd_nv malloc i inp true) as [[i1 r1]|]; [|done]. cbn [mbind option_bind] in *.
  destruct (ir_rv r1 <? 0); [done|]. destruct (ir_nv r1); [|done].
  apply bind_Some in H as ([[i2 nvs] rv] & H & E). rewrite (IH f' _ _ _ H) by lia. done.
Qed.

(** ** The two ends stay in step *)

Definition size_list (d : nghttp2_hd_deflater) : list Z :=
  if notify_table_size_change d then
    (if df_min_hd_table_bufsize_max d <? hd_table_bufsize_max (df_ctx d)
     then [df_min_hd_table_bufsize_max d] else []) ++ [hd_table_bufsize_max (df_ctx d)]
  else [].

Lemma size_reprs_list d : size_reprs d = map HSize (size_list d).
Proof. unfold size_reprs, size_list. destruct (notify_table_size_change d); [|done]. by destruct (_ <? _). Qed.

Record linked (d : nghttp2_hd_deflater) (i : nghttp2_hd_inflater) (nvs : list nghttp2_hd_nv) (st : hstate)
    : Prop := {
  lk_sync : synced d nvs st;
  lk_idle : idle i st;
  lk_good : ctx_bad (df_ctx d) = false;
  lk_state : inf_state i = NGHTTP2_HD_STATE_INFLATE_START \/
             inf_state i = NGHTTP2_HD_STATE_EXPECT_TABLE_SIZE /\ notify_table_size_change d = true;
  lk_min : df_min_hd_table_bufsize_max d <= min_hd_table_bufsize_max i;
  lk_settings : hd_table_bufsize_max (df_ctx d) <= settings_hd_table_bufsize_max i;
}.

Lemma linked_admits d i nvs st : linked d i nvs st -> admits i (size_list d).
Proof.
  intros [[[Hrep Hmax] Hmin _ _ _] _ _ _ Hm Hs].
  assert (0 <= hd_table_bufsize_max (df_ctx d)) as H0.
  { destruct Hrep as (ls & _ & _ & _ & Hsz). pose proof (table_size_nonneg nvs). lia. }
  assert (is_u32 (hd_table_bufsize_max (df_ctx d)) /\ is_u32 (df_min_hd_table_bufsize_max d)) as [Hu1 Hu2] by cint_lia.
  unfold size_list. destruct (notify_table_size_change d); [|done].
  destruct (Z.ltb_spec (df_min_hd_table_bufsize_max d) (hd_table_bufsize_max (df_ctx d))); cbn [app admits].
  - split; [done|]. constructor; [split; [done|lia]|]. constructor; [by split|constructor].
  - split; [lia|]. constructor; [by split|constructor].
Qed.

(** Fresh ends. *)
Lemma init_linked malloc n d i : is_u64 n ->
  nghttp2_hd_deflate_init2 malloc n = inl d -> nghttp2_hd_inflate_init malloc = inl i ->
  linked d i [] (NGHTTP2_HD_DEFAULT_MAX_BUFFER_SIZE, []).
Proof.
  intros Hn Hd Hi. destruct (deflate_init2_synced malloc n d Hn Hd) as [Hsy Hbad].
  destruct (inflate_init_wf malloc i Hi) as [Hwf Hbi].
  unfold nghttp2_hd_inflate_init in Hi. unfold nghttp2_hd_deflate_init2 in Hd.
  destruct (hd_context_init malloc) as [ctx|] eqn:E; [|done]. injection Hi as <-.
  destruct (hd_context_init_rep _ _ E) as (Hrep & _ & Hmax & _).
  assert (df_min_hd_table_bufsize_max d = UINT32_MAX /\
    hd_table_bufsize_max (df_ctx d) <= NGHTTP2_HD_DEFAULT_MAX_BUFFER_SIZE) as [Hm Hx].
  { destruct (Z.ltb_spec n NGHTTP2_HD_DEFAULT_MAX_BUFFER_SIZE) as [Hlt|Hge]; injection Hd as <-; simpl; lia. }
  split; try done; [|by left|by rewrite Hm].
  split; [|done|by left; left]. split; try done.
Qed.

(** The decompressor's side of a settings change. *)
Lemma inflate_change_exact i st n : idle i st -> inf_state i <> NGHTTP2_HD_STATE_OPCODE -> is_u32 n ->
  exists i', nghttp2_hd_inflate_change_table_size i n = Some (i', 0) /\
    settings_hd_table_bufsize_max i' = n /\
    if n <? st.1
    then idle i' (n, fit n st.2) /\ inf_state i' = NGHTTP2_HD_STATE_EXPECT_TABLE_SIZE /\
         min_hd_table_bufsize_max i' = n
    else idle i' st /\ inf_state i' = inf_state i /\ min_hd_table_bufsize_max i' = min_hd_table_bufsize_max i.
Proof.
  intros [Hst Hl Hw] Hno Hn. unfold nghttp2_hd_inflate_change_table_size.
  cbn [inf_set_limits inf_ctx]. rewrite (is_max _ _ Hst).
  destruct (represents_shrink (inf_ctx i) None st.2 n (is_rep _ _ Hst)) as
    (ctx' & map' & Esh & Hrep' & Hmx & Hbad & Hnone); [cint_lia|]. rewrite (proj2 Hnone eq_refl) in *.
  assert (inf_state i = NGHTTP2_HD_STATE_EXPECT_TABLE_SIZE \/ inf_state i = NGHTTP2_HD_STATE_INFLATE_START) as Hs.
  { destruct Hw as [[?|?]|?]; [by right|done|by left]. }
  destruct (Z.ltb_spec n st.1).
  - change (inf_ctx (inf_set_state _ _)) with (inf_ctx i). rewrite Esh.
    eexists. split; [by destruct Hs as [-> | ->]|]. split; [done|].
    split; [|by split]. split; [|done|by right]. split; simpl; [done|done|cint_lia|].
    by rewrite Hbad, (is_good _ _ Hst).
  - eexists. split; [by destruct Hs as [-> | ->]|]. split; [done|].
    split; [|by split]. split; [by destruct Hst; split|done|done].
Qed.

(** The decoder may cut its table before the announcement reaches it. *)
Lemma synced_cut d nvs st n : synced d nvs st -> notify_table_size_change d = true ->
  hd_table_bufsize_max (df_ctx d) <= n -> synced d nvs (n, fit n st.2).
Proof.
  intros [Hrep Hmin Hlim _ Hy] Hnot Hn. split; try done; [by rewrite Hnot|]. intros _.
  destruct (Hy Hnot) as [E Hor]. simpl. rewrite fit_fit. split.
  - rewrite E. f_equal. lia.
  - destruct Hor as [->|?]; [by left|by right].
Qed.

(** A settings change on both sides. *)
Lemma settings_linked d i nvs st n : linked d i nvs st -> is_u32 n ->
  exists d' i' nvs' st', conn_settings (d, i) n = Some (d', i') /\ linked d' i' nvs' st'.
Proof.
  intros [Hsy Hid Hgood Hs Hmin Hset] Hn. unfold conn_settings. cbn [fst snd].
  destruct (deflate_change_synced d nvs st n Hsy Hn) as (d' & E & Hmx & Hsy' & Hbad').
  assert (notify_table_size_change d' = true /\ df_min_hd_table_bufsize_max d' =
    Z.min (df_min_hd_table_bufsize_max d) (Z.min n (deflate_hd_table_bufsize_max d))) as [Hnot Hdm].
  { unfold nghttp2_hd_deflate_change_table_size in E.
    apply bind_Some in E as ([ctx m] & _ & E). apply bind_Some in E as (m' & _ & [= <-]). simpl.
    by rewrite !nghttp2_min_spec. }
  rewrite E. cbn [mbind option_bind].
  destruct (inflate_change_exact i st n Hid) as (i' & Ei & Hse & Hi'); [|done|].
  { destruct Hs as [-> | [-> _]]; done. }
  rewrite Ei. cbn [mbind option_bind]. rewrite option_guard_True by done.
  destruct (Z.ltb_spec n st.1).
  - destruct Hi' as (Hid' & Hst' & Hmi'). eexists d', i', _, (n, fit n st.2). split; [done|].
    split; [apply synced_cut; [exact Hsy'|done|rewrite Hmx; lia]|done|congruence|by right|lia|rewrite Hmx, Hse; lia].
  - destruct Hi' as (Hid' & Hst' & Hmi'). eexists d', i', _, _. split; [done|].
    split; [exact Hsy'|done|congruence| |lia|rewrite Hmx, Hse; lia].
    rewrite Hst'. destruct Hs as [?|[? _]]; [by left|by right].
Qed.

(** A header block from one end to the other. *)
Lemma headers_linked malloc `{!Allocator malloc} d i nvs st nva :
  (forall call n, malloc call n <> None) -> linked d i nvs st -> Forall nv_fits nva ->
  exists d' i' nvs' st', conn_headers malloc (d, i) nva = Some ((d', i'), map pair_of_nv nva) /\
    linked d' i' nvs' st'.
Proof.
  intros Hm Hlk Hfit. pose proof Hlk as [Hsy Hid Hgood Hs Hmin Hset]. unfold conn_headers. cbn [fst snd].
  assert (Forall nv_ok nva /\ Forall nv_short nva) as [Hok Hsh].
  { split; (eapply Forall_impl; [exact Hfit|]); intros nv Hnv; by apply nv_fits_ok. }
  set (buf := replicate _ 0).
  destruct (nghttp2_bufs_wrap_init malloc 0 buf) as [s|rv0] eqn:Ew.
  2:{ unfold nghttp2_bufs_wrap_init in Ew. destruct (malloc _ _) eqn:E; [done|by destruct (Hm _ _ E)]. }
  destruct (wrap_init_wf malloc _ _ _ Ew) as (Hwf & Hroom & Hnil).
  destruct (deflate_hd_bufs_ok malloc d nvs st s nva Hsy Hwf Hok Hgood) as
    (d' & s' & rv & rs & outs & nvs' & -> & Hwf' & Hsucc & Herr & Hfull & Hb).
  specialize (Hb Hsh). rewrite <- deflate_bound_spec in Hb. cbn [mbind option_bind].
  assert (rv = 0) as ->.
  { destruct (decide (rv = 0)) as [|Hne]; [done|].
    destruct (Herr Hne) as [_ [E|[_ (c & n & E)]]]; [|by destruct (Hm _ _ E)].
    specialize (Hfull E). rewrite Hroom in Hfull. subst buf. rewrite length_replicate in Hfull. lia. }
  destruct (Hsucc eq_refl) as (Hap & His & Ha & Hf & Hsy' & Hbad' & Hnot').
  rewrite (ap_bytes _ _ _ Hap), Hnil. cbn [app]. rewrite size_reprs_list in *.
  pose proof (linked_admits _ _ _ _ Hlk) as Had.
  assert (Forall repr_small rs) as Hsm.
  { pose proof (size_reprs_apply d nvs st Hsy) as Hz. rewrite size_reprs_list in Hz.
    rewrite reprs_apply_app, Hz in Ha. cbn [mbind option_bind] in Ha.
    apply bind_Some in Ha as ([st2 out2] & Ha & [= -> <-]). by eapply reprs_small. }
  destruct (inflate_block_exact malloc Hm rs (size_list d) i st
    (hd_table_bufsize_max (df_ctx d), nvs') outs Hid) as
    (i' & E & (Hid' & Hs' & Hse' & Hmi')); try done.
  { left. destruct Hs as [-> | [-> _]]; done. }
  { intros He. destruct Hs as [?|[_ Hnot]]; [congruence|]. unfold size_list. rewrite Hnot.
    intros Hnil2. by apply app_eq_nil in Hnil2 as [_ ?]. }
  apply (inflate_all_mono _ _ (S (length (block_bytes (map HSize (size_list d) ++ rs))))) in E.
  2:{ rewrite block_bytes_app, length_app. pose proof (block_bytes_length rs). lia. }
  rewrite E. cbn [mbind option_bind]. rewrite option_guard_True by done.
  eexists d', i', nvs', _. split; [by rewrite (field_eq_pairs nva)|].
  destruct (sy_quiet _ _ _ Hsy' Hnot') as [Hdm [= Hmx]].
  split; [exact Hsy'|exact Hid'|done|by left| |rewrite <- Hmx, Hse'; done].
  rewrite Hdm, Hmi'. case_decide as Hl; [|done].
  assert (notify_table_size_change d = false) as Hq.
  { unfold size_list in Hl. destruct (notify_table_size_change d); [|done].
    by apply app_eq_nil in Hl as [_ ?]. }
  by rewrite <- (proj1 (sy_quiet _ _ _ Hsy Hq)).
Qed.

Lemma conn_run_linked malloc `{!Allocator malloc} ops d i nvs st :
  (forall call n, malloc call n <> None) -> linked d i nvs st -> Forall op_ok ops ->
  exists d' i' nvs' st', conn_run malloc (d, i) ops = Some ((d', i'), headers_of ops) /\ linked d' i' nvs' st'.
Proof.
  intros Hm. revert d i nvs st. induction ops as [|[n|nva] ops IH]; intros d i nvs st Hlk Hok.
  - by exists d, i, nvs, st.
  - apply Forall_cons in Hok as [Hn Hok]. cbn [conn_run headers_of].
    destruct (settings_linked d i nvs st n Hlk Hn) as (d1 & i1 & nvs1 & st1 & -> & Hlk1).
    cbn [mbind option_bind]. by eapply IH.
  - apply Forall_cons in Hok as [Hn Hok]. cbn [conn_run headers_of].
    destruct (headers_linked malloc d i nvs st nva Hm Hlk Hn) as (d1 & i1 & nvs1 & st1 & -> & Hlk1).
    cbn [mbind option_bind]. destruct (IH d1 i1 nvs1 st1 Hlk1 Hok) as (d2 & i2 & nvs2 & st2 & -> & Hlk2).
    by exists d2, i2, nvs2, st2.
Qed.

(** C1: HPACK round trip.  Take a fresh compressor, with any limit on its table,
    and a fresh decompressor, and any sequence of header blocks and of changes
    of the table size applied at both ends.  If no allocation fails and names
    and values have at most [NGHTTP2_HD_MAX_NV] octets, then every block is
    compressed, within [nghttp2_hd_deflate_bound] octets, and decompressed,
    without error, and what comes out is exactly the names and values that
    went in, in order. *)
Theorem hpack_connection_roundtrip malloc `{!Allocator malloc} max_size d i ops :
  (forall call n, malloc call n <> None) -> is_u64 max_size ->
  nghttp2_hd_deflate_init2 malloc max_size = inl d -> nghttp2_hd_inflate_init malloc = inl i ->
  Forall op_ok ops ->
  exists c, conn_run malloc (d, i) ops = Some (c, headers_of ops).
Proof.
  intros Hm Hn Hd Hi Hok. pose proof (init_linked malloc max_size d i Hn Hd Hi) as Hlk.
  destruct (conn_run_linked malloc ops d i _ _ Hm Hlk Hok) as (d' & i' & nvs' & st' & -> & _). by eexists.
Qed.

Lemma hpack_connection_roundtrip_witness :
  exists d i c, nghttp2_hd_deflate_init2 zero_malloc 100 = inl d /\
    nghttp2_hd_inflate_init zero_malloc = inl i /\
    conn_run zero_malloc (d, i)
      [OpHeaders [mk_nv [120] [121] 0; mk_nv [58; 112; 97; 116; 104] [47] 0]; OpSettings 0; OpSettings 4096;
       OpHeaders [mk_nv [120] [121] 0]] =
      Some (c, [[([120], [121]); ([58; 112; 97; 116; 104], [47])]; [([120], [121])]]).
Proof.
  destruct (nghttp2_hd_deflate_init2 zero_malloc 100) as [d|e] eqn:Ed; [|vm_compute in Ed; discriminate].
  destruct (nghttp2_hd_inflate_init zero_malloc) as [i|e] eqn:Ei; [|vm_compute in Ei; discriminate].
  destruct (hpack_connection_roundtrip zero_malloc 100 d i
    [OpHeaders [mk_nv [120] [121] 0; mk_nv [58; 112; 97; 116; 104] [47] 0]; OpSettings 0; OpSettings 4096;
     OpHeaders [mk_nv [120] [121] 0]]) as [c E].
  - intros call n E. discriminate E.
  - split; by vm_compute.
  - exact Ed.
  - exact Ei.
  - apply (bool_decide_unpack _). by vm_compute.
  - exists d, i, c. split; [reflexivity|]. split; [reflexivity|exact E].
Defined.
