(* ===== verification/HdSplit.v ===== *)
(** * HPACK input in pieces (nghttp2_hd.c)

    Header blocks reach the decompressor in the pieces of HEADERS and
    CONTINUATION frames, cut anywhere.  [hd_inflate_split] shows that the cuts
    do not matter: feeding a piece and then the rest has the outcome of
    feeding both at once. *)

From S2P Require Import Prelude Defs Helper Buf HuffmanData Huffman HdInt HdToken HdTable HdDeflate HdInflate.

(** ** The same outcome, up to the state after an error *)

Definition same_step (x y : option step_result) : Prop :=
  x = y \/ exists i1 i2 rv, x = Some (StepFail i1 rv) /\ y = Some (StepFail i2 rv).

(** [r] with more input behind. *)
Definition step_ext (r : step_result) (b : bytes) : step_result :=
  match r with
  | StepBreak i inp busy => StepBreak i (inp ++ b) busy
  | StepEmit i inp nv => StepEmit i (inp ++ b) nv
  | StepAlmostOk i inp => StepAlmostOk i (inp ++ b)
  | StepFail i rv => StepFail i rv
  end.

(** [whole] is the turn on [a ++ b] of a machine that on [a] ends with [r];
    [resume] is the turn on [b] of the machine that stopped in the middle. *)
Definition step_split (r : step_result) (b : bytes) (whole : option step_result)
    (resume : nghttp2_hd_inflater -> option step_result) : Prop :=
  match r with
  | StepAlmostOk i _ => same_step whole (resume i)
  | StepFail _ rv => exists i, whole = Some (StepFail i rv)
  | _ => whole = Some (step_ext r b)
  end.

(** A continuation that passes the input through. *)
Definition k_ext (k : nghttp2_hd_inflater -> bytes -> option step_result) : Prop :=
  forall i inp b r, k i inp = Some r ->
    (forall i' inp', r <> StepAlmostOk i' inp') /\ k i (inp ++ b) = Some (step_ext r b).

Section Split.
Context (malloc : nat -> nat -> option bytes).

(** ** Integers *)

Lemma read_len_eq i inp prefix maxlen :
  hd_inflate_read_len i inp prefix maxlen =
  d ← decode_length (u32 (inf_left i)) (inf_shift i) inp prefix;
  if (d_rv d =? -1) || (maxlen <? d_res d)
  then Some (inf_set_int i (inf_left i) (d_shift d), d_fin d, NGHTTP2_ERR_HEADER_COMP)
  else Some (inf_set_int i (d_res d) (d_shift d), d_fin d, d_rv d).
Proof.
  unfold hd_inflate_read_len. destruct (decode_length _ _ _ _) as [d|]; [|done].
  cbn [mbind option_bind]. destruct (d_rv d =? -1); [done|]. cbn [orb]. by destruct (_ <? _).
Qed.

Lemma with_len_eq i inp prefix maxlen k :
  with_len i inp prefix maxlen k =
  d ← decode_length (u32 (inf_left i)) (inf_shift i) inp prefix;
  if (d_rv d =? -1) || (maxlen <? d_res d)
  then Some (StepFail (inf_set_int i (inf_left i) (d_shift d)) NGHTTP2_ERR_HEADER_COMP)
  else if d_rv d <? 0 then Some (StepFail (inf_set_int i (d_res d) (d_shift d)) (d_rv d))
  else if d_fin d then k (inf_set_int i (d_res d) (d_shift d)) (drop (Z.to_nat (d_rv d)) inp)
  else Some (StepAlmostOk (inf_set_int i (d_res d) (d_shift d)) (drop (Z.to_nat (d_rv d)) inp)).
Proof.
  unfold with_len. rewrite read_len_eq. destruct (decode_length _ _ _ _) as [d|]; [|done].
  cbn [mbind option_bind]. destruct (_ || _); [done|]. cbn [mbind option_bind]. by destruct (d_rv d <? 0).
Qed.

Lemma with_len_split i a b prefix maxlen k r resume :
  is_u32 (inf_left i) -> int_wf i -> is_bytes (a ++ b) -> 0 < prefix <= 8 -> a <> [] -> b <> [] -> k_ext k ->
  (forall n sh, resume (inf_set_int i n sh) = with_len (inf_set_int i n sh) b prefix maxlen k) ->
  with_len i a prefix maxlen k = Some r ->
  step_split r b (with_len i (a ++ b) prefix maxlen k) resume.
Proof.
  intros Hl Hi Hb Hp Ha Hbn Hk Hres. apply is_bytes_app in Hb as [Hba Hbb]. rewrite !with_len_eq.
  destruct (decode_length_range (u32 (inf_left i)) (inf_shift i) a prefix) as (d & E & Hd);
    [done|done|done|apply u32_range|]. rewrite E. cbn [mbind option_bind].
  assert (u32 (inf_left i) = 0 -> inf_shift i = 0) as Hi0 by (rewrite u32_id by done; apply Hi).
  destruct (decode_length_split _ _ a b prefix d Hi0 (u32_range _) Hp Hbn E) as
    [[Ew Hc]|(Hf & Hrv & Hr0 & Ew)].
  - rewrite Ew. cbn [mbind option_bind].
    destruct ((d_rv d =? -1) || (maxlen <? d_res d)) eqn:Ee; [intros [= <-]; by eexists|].
    apply orb_false_iff in Ee as [Em _]. apply Z.eqb_neq in Em. destruct Hc as [?|Hfin]; [done|].
    destruct Hd as [?|(_ & Hd & _)]; [done|]. rewrite (proj2 (Z.ltb_ge _ _)), Hfin by lia. intros Hr.
    destruct (Hk _ _ b _ Hr) as [Hno Hx]. rewrite drop_app_le by lia.
    destruct r; simpl; rewrite Hx; try done. by destruct (Hno i0 inp). by eexists.
  - rewrite Ew. destruct Hd as [?|(Hdu & Hd & _)]; [lia|]. rewrite Hf.
    rewrite (proj2 (Z.eqb_neq (d_rv d) (-1))) by lia. cbn [orb].
    destruct (decode_length_range (d_res d) (d_shift d) b prefix) as (d2 & E2 & Hd2); [done..|].
    rewrite E2. cbn [fmap option_fmap option_map mbind option_bind].
    destruct (Z.ltb_spec maxlen (d_res d)) as [Hmx|Hmx].
    + intros [= <-]. eexists. rewrite (proj2 (orb_true_iff _ _)); [done|].
      destruct (decode_length_grows _ _ _ _ _ Hr0 Hdu E2) as [H1|H1]; cbn [add_rv d_rv d_res].
      * left. by rewrite H1.
      * right. apply Z.ltb_lt. lia.
    + rewrite (proj2 (Z.ltb_ge _ _)) by lia. intros [= <-]. unfold step_split.
      rewrite Hres, with_len_eq. cbn [inf_set_int inf_left inf_shift]. rewrite (u32_id (d_res d)), E2 by done.
      cbn [mbind option_bind add_rv d_rv d_res d_fin d_shift].
      destruct (Z.eqb_spec (d_rv d2) (-1)) as [E3|E3]; [by right; eexists _, _, _|].
      destruct Hd2 as [?|(_ & Hd2 & _)]; [done|].
      rewrite (proj2 (Z.eqb_neq (d_rv d2 + zlen a) (-1))) by lia. cbn [orb].
      destruct (maxlen <? d_res d2); [by right; eexists _, _, _|]. left.
      rewrite !(proj2 (Z.ltb_ge _ 0)) by lia. rewrite drop_app_ge by lia.
      by replace (Z.to_nat (d_rv d2 + zlen a) - length a)%nat with (Z.to_nat (d_rv d2)) by lia.
Qed.

(** The turns that read an integer. *)
Lemma table_size_split i a b r :
  is_u32 (inf_left i) -> int_wf i -> is_bytes (a ++ b) -> a <> [] -> b <> [] ->
  inf_state i = NGHTTP2_HD_STATE_READ_TABLE_SIZE ->
  inflate_table_size i a = Some r ->
  step_split r b (inflate_table_size i (a ++ b)) (fun i' => inflate_step malloc i' b).
Proof.
  intros Hl Hi Hb Ha Hbn Hs. apply with_len_split; try done.
  - intros i0 inp b0 r0. cbv beta zeta. destruct (hd_context_shrink_table_size _ _) as [[ctx ?]|]; [|done].
    cbn [mbind option_bind]. intros [= <-]. done.
  - intros n sh. unfold inflate_step. cbn [inf_state inf_set_int]. by rewrite Hs.
Qed.

Lemma index_split i a b r :
  is_u32 (inf_left i) -> int_wf i -> is_bytes (a ++ b) -> a <> [] -> b <> [] ->
  inf_state i = NGHTTP2_HD_STATE_READ_INDEX ->
  inflate_index i a = Some r ->
  step_split r b (inflate_index i (a ++ b)) (fun i' => inflate_step malloc i' b).
Proof.
  intros Hl Hi Hb Ha Hbn Hs. apply with_len_split; try done.
  - unfold index_prefixlen. case_decide; [lia|]. destruct (index_required i); lia.
  - intros i0 inp b0 r0. cbv beta zeta. destruct (_ =? 0); [by intros [= <-]|]. case_decide; [|by intros [= <-]].
    destruct (hd_inflate_commit_indexed _); [|done]. cbn [mbind option_bind]. by intros [= <-].
  - intros n sh. unfold inflate_step. cbn [inf_state inf_set_int]. by rewrite Hs.
Qed.

Lemma namelen_split i a b r :
  is_u32 (inf_left i) -> int_wf i -> is_bytes (a ++ b) -> a <> [] -> b <> [] ->
  inf_state i = NGHTTP2_HD_STATE_NEWNAME_READ_NAMELEN ->
  inflate_namelen malloc i a = Some r ->
  step_split r b (inflate_namelen malloc i (a ++ b)) (fun i' => inflate_step malloc i' b).
Proof.
  intros Hl Hi Hb Ha Hbn Hs. apply with_len_split; try done.
  - intros i0 inp b0 r0. cbv beta zeta. destruct (huffman_encoded i0); destruct (nghttp2_rcbuf_new _ _ _) as [ctx [rc|]];
      by intros [= <-].
  - intros n sh. unfold inflate_step. cbn [inf_state inf_set_int]. by rewrite Hs.
Qed.

Lemma valuelen_split i a b r :
  is_u32 (inf_left i) -> int_wf i -> is_bytes (a ++ b) -> a <> [] -> b <> [] ->
  inf_state i = NGHTTP2_HD_STATE_READ_VALUELEN ->
  inflate_valuelen malloc i a = Some r ->
  step_split r b (inflate_valuelen malloc i (a ++ b)) (fun i' => inflate_step malloc i' b).
Proof.
  intros Hl Hi Hb Ha Hbn Hs. apply with_len_split; try done.
  - intros i0 inp b0 r0. cbv beta zeta. destruct (huffman_encoded i0); destruct (nghttp2_rcbuf_new _ _ _) as [ctx [rc|]];
      by intros [= <-].
  - intros n sh. unfold inflate_step. cbn [inf_state inf_set_int]. by rewrite Hs.
Qed.

(** The first octet decides. *)
Lemma opcode_split i a b r : a <> [] ->
  inflate_opcode i a = Some r -> inflate_opcode i (a ++ b) = Some (step_ext r b) /\ (forall i' inp', r <> StepAlmostOk i' inp').
Proof.
  intros Ha. destruct a as [|c a]; [done|]. unfold inflate_opcode. cbn [app lookup list_lookup mbind option_bind].
  destruct (bool_decide _ && _); [by intros [= <-]|]. destruct (_ =? 32).
  { case_decide; by intros [= <-]. }
  destruct (negb _); [by intros [= <-]|]. destruct (_ || _).
  - rewrite !decide_True by done. intros [= <-]. cbn [step_ext drop]. by rewrite !drop_0.
  - rewrite !decide_False by done. by intros [= <-].
Qed.

(** ** Strings *)

(** What the readers use of the decompressor: octets left, state of the
    Huffman decoder; they return the new ones with the buffer and the result. *)
Definition reader := Z -> nghttp2_hd_huff_decode_context -> nghttp2_buf -> bytes ->
  option (Z * nghttp2_hd_huff_decode_context * nghttp2_buf * Z).

Definition huff_core : reader := fun left h buf inp =>
  let fin := left <=? zlen inp in
  let src := if fin then take (Z.to_nat left) inp else inp in
  '(h, buf, n) ← nghttp2_hd_huff_decode h buf src fin;
  if n <? 0 then Some (left, h, buf, n)
  else if nghttp2_hd_huff_decode_failure_state h then Some (left, h, buf, NGHTTP2_ERR_HEADER_COMP)
  else Some (left - n, h, buf, n).

Definition plain_core : reader := fun left h buf inp =>
  let len := Z.min (zlen inp) left in
  buf ← buf_put buf (take (Z.to_nat len) inp);
  Some (left - len, h, buf, len).

Definition read_with (core : reader) (i : nghttp2_hd_inflater) (buf : nghttp2_buf) (inp : bytes)
    : option (nghttp2_hd_inflater * nghttp2_buf * Z) :=
  '(l, h, buf, rv) ← core (inf_left i) (inf_huff i) buf inp;
  Some (inf_set_int (inf_set_huff i h) l (inf_shift i), buf, rv).

Lemma read_huff_core i buf inp : hd_inflate_read_huff i buf inp = read_with huff_core i buf inp.
Proof.
  unfold hd_inflate_read_huff, read_with, huff_core. cbv zeta.
  destruct (nghttp2_hd_huff_decode _ _ _ _) as [[[h b] n]|]; [|done]. cbn [mbind option_bind].
  destruct (n <? 0); [done|]. by destruct (nghttp2_hd_huff_decode_failure_state h).
Qed.

Lemma read_plain_core i buf inp : hd_inflate_read i buf inp = read_with plain_core i buf inp.
Proof.
  unfold hd_inflate_read, read_with, plain_core. rewrite nghttp2_min_spec.
  by destruct (buf_put _ _).
Qed.

(** A reader stopped in the middle goes on as if it had not been. *)
Definition core_split (core : reader) (left : Z) (h : nghttp2_hd_huff_decode_context) (buf : nghttp2_buf)
    (a b : bytes) : Prop :=
  forall l1 h1 b1 rv1, core left h buf a = Some (l1, h1, b1, rv1) ->
    (rv1 < 0 /\ exists l' h' b', core left h buf (a ++ b) = Some (l', h', b', rv1)) \/
    (0 <= rv1 <= zlen a /\ l1 = 0 /\ core left h buf (a ++ b) = Some (l1, h1, b1, rv1)) \/
    (rv1 = zlen a /\ l1 <> 0 /\
     forall l2 h2 b2 rv2, core l1 h1 b1 b = Some (l2, h2, b2, rv2) ->
       (rv2 < 0 /\ exists l' h' b', core left h buf (a ++ b) = Some (l', h', b', rv2)) \/
       (0 <= rv2 /\ core left h buf (a ++ b) = Some (l2, h2, b2, zlen a + rv2))).

Lemma buf_put_inv b bs b' : buf_put b bs = Some b' ->
  (b_last b + length bs <= length (b_mem b))%nat /\
  b' = mk_buf (mem_write (b_mem b) (b_last b) bs) (b_pos b) (b_last b + length bs) (b_mark b).
Proof.
  intros H. assert (b_last b + length bs <= length (b_mem b))%nat as Hle.
  { unfold buf_put in H. case_guard; [done|discriminate]. }
  split; [done|]. rewrite buf_put_Some in H by (unfold nghttp2_buf_avail; lia). congruence.
Qed.

Lemma buf_put_app b x y b1 b2 : buf_put b x = Some b1 -> buf_put b1 y = Some b2 -> buf_put b (x ++ y) = Some b2.
Proof.
  intros [H1 ->]%buf_put_inv [H2 ->]%buf_put_inv. simpl in *. rewrite mem_write_length in H2 by lia.
  rewrite buf_put_Some by (unfold nghttp2_buf_avail; rewrite ?length_app; lia).
  rewrite mem_write_write by lia. rewrite length_app. do 2 f_equal. lia.
Qed.

Lemma plain_core_split l h buf a b : 0 <= l -> core_split plain_core l h buf a b.
Proof.
  intros Hl l1 h1 b1 rv1. unfold plain_core. intros (bx & E & [= <- <- <- <-])%bind_Some. right.
  rewrite length_app, Nat2Z.inj_add. destruct (decide (l <= zlen a)) as [Hle|Hgt].
  - left. rewrite !Z.min_r in * by lia. split; [lia|]. split; [lia|].
    by rewrite take_app_le, E by lia.
  - right. rewrite Z.min_l in * by lia. split; [done|]. split; [lia|]. intros l2 h2 b2 rv2.
    rewrite Nat2Z.id, take_ge in E by lia.
    intros (bz & E2 & [= <- <- <- <-])%bind_Some. right. split; [lia|].
    replace (Z.min (zlen a + zlen b) l) with (zlen a + Z.min (zlen b) (l - zlen a)) by lia.
    rewrite Z2Nat.inj_add, Nat2Z.id, take_app_add by lia.
    rewrite (buf_put_app _ _ _ _ _ E E2). cbn [mbind option_bind]. do 4 f_equal. lia.
Qed.

(** A failed Huffman decoder stays failed. *)
Lemma huff_loop_failed src t buf : is_bytes src -> node_fstate t = 256 ->
  exists t', huff_decode_loop src t buf = Some (t', buf) /\ node_fstate t' = 256.
Proof.
  intros Hs. revert t. induction Hs as [|c src Hc Hs IH]; intros t Ht; cbn [huff_decode_loop]; [by exists t|].
  destruct (octet_nibbles c Hc) as (_ & Hhi & Hlo). rewrite Ht. change (256 .& 511) with 256.
  rewrite !failure_row by done.
  by apply IH.
Qed.

Lemma huff_core_split l h buf a b : 0 <= l -> is_bytes b -> b <> [] -> core_split huff_core l h buf a b.
Proof.
  intros Hl Hb Hbn l1 h1 b1 rv1. unfold huff_core. cbv zeta. rewrite length_app, Nat2Z.inj_add.
  destruct (Z.leb_spec l (zlen a)) as [Hle|Hgt].
  - rewrite (proj2 (Z.leb_le l _)), take_app_le by lia.
    intros ([[h' b'] n] & E & H)%bind_Some. rewrite E. cbn [mbind option_bind].
    unfold nghttp2_hd_huff_decode in E. apply bind_Some in E as ([t bx] & _ & E).
    destruct (true && _); injection E as <- <- <-.
    { left. cbn in H. injection H as <- <- <- <-. split; [done|]. by eexists _, _, _. }
    rewrite length_take in *. rewrite (proj2 (Z.ltb_ge _ 0)) in * by lia.
    destruct (nghttp2_hd_huff_decode_failure_state _); injection H as <- <- <- <-.
    + left. split; [done|]. by eexists _, _, _.
    + right. left. split; [lia|]. split; [lia|done].
  - unfold nghttp2_hd_huff_decode at 1. intros ([[h' b'] n] & E & H)%bind_Some.
    apply bind_Some in E as ([t bx] & E & [= <- <- <-]). rewrite (proj2 (Z.ltb_ge _ 0)) in H by lia.
    set (fin := l <=? zlen a + zlen b). set (sb := if fin then take (Z.to_nat l - length a) b else b).
    assert ((if fin then take (Z.to_nat l) (a ++ b) else a ++ b) = a ++ sb) as ->.
    { subst fin sb. destruct (_ <=? _); [|done]. by rewrite take_app_ge by lia. }
    assert (is_bytes sb /\ sb <> []) as [Hsb Hsn].
    { subst fin sb. destruct (_ <=? _); [|done]. split; [by apply is_bytes_take|].
      destruct b; [done|]. destruct (Z.to_nat l - length a)%nat eqn:En; [lia|done]. }
    unfold nghttp2_hd_huff_decode. rewrite huff_decode_loop_app, E. cbn [mbind option_bind].
    destruct (nghttp2_hd_huff_decode_failure_state (mk_hctx (node_fstate t))) eqn:Ef; injection H as <- <- <- <-.
    + left. split; [done|]. apply Z.eqb_eq in Ef. cbn [hctx_fstate] in Ef.
      destruct (huff_loop_failed sb t bx Hsb Ef) as (t' & -> & Ht'). cbn [mbind option_bind hctx_fstate].
      rewrite Ht'. destruct fin; cbn [andb mbind option_bind]; [by eexists _, _, _|].
      rewrite length_app, Nat2Z.inj_add, (proj2 (Z.ltb_ge _ 0)) by lia. by eexists _, _, _.
    + right. right. split; [done|]. split; [lia|]. intros l2 h2 b2 rv2.
      assert ((l - zlen a <=? zlen b) = fin) as ->.
      { subst fin. destruct (Z.leb_spec (l - zlen a) (zlen b)), (Z.leb_spec l (zlen a + zlen b)); lia || done. }
      replace (Z.to_nat (l - zlen a)) with (Z.to_nat l - length a)%nat by lia. fold sb.
      cbn [hctx_fstate]. rewrite (huff_decode_loop_fstate sb (mk_node (node_fstate t) 0) t) by done.
      destruct (huff_decode_loop sb t bx) as [[t2 bz]|]; [|done]. cbn [mbind option_bind hctx_fstate].
      destruct (fin && _).
      { cbn. intros [= <- <- <- <-]. left. split; [done|]. by eexists _, _, _. }
      cbn [mbind option_bind]. rewrite length_app, Nat2Z.inj_add, !(proj2 (Z.ltb_ge _ 0)) by lia.
      destruct (nghttp2_hd_huff_decode_failure_state (mk_hctx (node_fstate t2))); intros [= <- <- <- <-].
      * left. split; [done|]. by eexists _, _, _.
      * right. split; [lia|]. do 4 f_equal. lia.
Qed.

(** The part of a turn after its reader. *)
Lemma drop_past (a b : bytes) n : 0 <= n -> drop (Z.to_nat (zlen a + n)) (a ++ b) = drop (Z.to_nat n) b.
Proof. intros Hn. rewrite drop_app_ge by lia. f_equal. lia. Qed.

Lemma name_split core i a b r :
  core_split core (inf_left i) (inf_huff i) (namebuf i) a b ->
  (forall i', inf_state i' = inf_state i -> inflate_step malloc i' b = inflate_name i' b (read_with core)) ->
  (forall i' inp', r = StepAlmostOk i' inp' -> is_Some (inflate_step malloc i' b)) ->
  inflate_name i a (read_with core) = Some r ->
  step_split r b (inflate_name i (a ++ b) (read_with core)) (fun i' => inflate_step malloc i' b).
Proof.
  intros Hcs Hst Hsome. unfold inflate_name, read_with at 1.
  destruct (core (inf_left i) (inf_huff i) (namebuf i) a) as [[[[l1 h1] b1] rv1]|] eqn:E; [|done].
  cbn [mbind option_bind inf_set_int inf_set_huff namercbuf]. destruct (namercbuf i) as [rc|] eqn:Hrc; [|done].
  cbn [mbind option_bind]. specialize (Hcs _ _ _ _ E).
  destruct Hcs as [(Hneg & l' & h' & b' & E2)|[(Hrv & -> & E2)|(-> & Hl1 & Hres)]].
  - rewrite (proj2 (Z.ltb_lt _ _)) by done. intros [= <-]. unfold read_with. rewrite E2.
    cbn [mbind option_bind inf_set_int inf_set_huff namercbuf]. rewrite Hrc. cbn [mbind option_bind].
    rewrite (proj2 (Z.ltb_lt _ _)) by done. by eexists.
  - rewrite (proj2 (Z.ltb_ge _ _)) by lia. cbn [inf_set_name inf_set_int inf_left Z.eqb negb].
    unfold read_with. rewrite E2. cbn [mbind option_bind inf_set_int inf_set_huff namercbuf]. rewrite Hrc.
    cbn [mbind option_bind]. rewrite (proj2 (Z.ltb_ge _ _)) by lia.
    cbn [inf_set_name inf_set_int inf_left Z.eqb negb].
    destruct (buf_poke b1 _) as [b2|]; [|done]. cbn [mbind option_bind]. intros [= <-].
    cbn [step_split step_ext]. by rewrite drop_app_le by lia.
  - rewrite (proj2 (Z.ltb_ge _ _)) by lia. cbn [inf_set_name inf_set_int inf_left].
    rewrite (proj2 (Z.eqb_neq l1 0)) by done. cbn [negb]. intros [= <-]. cbn [step_split].
    destruct (Hsome _ _ eq_refl) as [y Hy]. revert Hy. rewrite Hst by done.
    unfold inflate_name, read_with. cbn [inf_set_name inf_set_int inf_set_huff inf_left inf_huff namebuf].
    destruct (core l1 h1 b1 b) as [[[[l2 h2] b2] rv2]|]; [|done].
    cbn [mbind option_bind inf_set_int inf_set_huff namercbuf inf_set_name]. intros _.
    destruct (Hres _ _ _ _ eq_refl) as [(Hneg & l' & h' & b' & E3)|[Hge E3]]; rewrite E3;
      cbn [mbind option_bind inf_set_int inf_set_huff namercbuf]; rewrite Hrc; cbn [mbind option_bind].
    + rewrite (proj2 (Z.ltb_lt rv2 0)) by done. right. by eexists _, _, _.
    + rewrite !(proj2 (Z.ltb_ge _ 0)) by lia. left. by rewrite drop_past.
Qed.

Lemma value_split core i a b r :
  core_split core (inf_left i) (inf_huff i) (valuebuf i) a b ->
  (forall i', inf_state i' = inf_state i -> inflate_step malloc i' b = inflate_value malloc i' b (read_with core)) ->
  (forall i' inp', r = StepAlmostOk i' inp' -> is_Some (inflate_step malloc i' b)) ->
  inflate_value malloc i a (read_with core) = Some r ->
  step_split r b (inflate_value malloc i (a ++ b) (read_with core)) (fun i' => inflate_step malloc i' b).
Proof.
  intros Hcs Hst Hsome. unfold inflate_value, read_with at 1.
  destruct (core (inf_left i) (inf_huff i) (valuebuf i) a) as [[[[l1 h1] b1] rv1]|] eqn:E; [|done].
  cbn [mbind option_bind inf_set_int inf_set_huff valuercbuf]. destruct (valuercbuf i) as [rc|] eqn:Hrc; [|done].
  cbn [mbind option_bind]. specialize (Hcs _ _ _ _ E).
  destruct Hcs as [(Hneg & l' & h' & b' & E2)|[(Hrv & -> & E2)|(-> & Hl1 & Hres)]].
  - rewrite (proj2 (Z.ltb_lt _ _)) by done. intros [= <-]. unfold read_with. rewrite E2.
    cbn [mbind option_bind inf_set_int inf_set_huff valuercbuf]. rewrite Hrc. cbn [mbind option_bind].
    rewrite (proj2 (Z.ltb_lt _ _)) by done. by eexists.
  - rewrite (proj2 (Z.ltb_ge _ _)) by lia. cbn [inf_set_value inf_set_int inf_left Z.eqb negb].
    unfold read_with. rewrite E2. cbn [mbind option_bind inf_set_int inf_set_huff valuercbuf]. rewrite Hrc.
    cbn [mbind option_bind]. rewrite (proj2 (Z.ltb_ge _ _)) by lia.
    cbn [inf_set_value inf_set_int inf_left Z.eqb negb].
    destruct (buf_poke b1 _) as [b2|]; [|done]. cbn [mbind option_bind].
    destruct (if decide _ then _ else _) as [[[i2 onv] rv]|]; [|done]. cbn [mbind option_bind].
    destruct (rv =? 0); [|intros [= <-]; by eexists].
    destruct onv; [|done]. cbn [mbind option_bind]. intros [= <-].
    cbn [step_split step_ext]. by rewrite drop_app_le by lia.
  - rewrite (proj2 (Z.ltb_ge _ _)) by lia. cbn [inf_set_value inf_set_int inf_left].
    rewrite (proj2 (Z.eqb_neq l1 0)) by done. cbn [negb]. intros [= <-]. cbn [step_split].
    destruct (Hsome _ _ eq_refl) as [y Hy]. revert Hy. rewrite Hst by done.
    unfold inflate_value, read_with. cbn [inf_set_value inf_set_int inf_set_huff inf_left inf_huff valuebuf].
    destruct (core l1 h1 b1 b) as [[[[l2 h2] b2] rv2]|]; [|done].
    cbn [mbind option_bind inf_set_int inf_set_huff valuercbuf inf_set_value]. intros _.
    destruct (Hres _ _ _ _ eq_refl) as [(Hneg & l' & h' & b' & E3)|[Hge E3]]; rewrite E3;
      cbn [mbind option_bind inf_set_int inf_set_huff valuercbuf]; rewrite Hrc; cbn [mbind option_bind].
    + rewrite (proj2 (Z.ltb_lt rv2 0)) by done. right. by eexists _, _, _.
    + rewrite !(proj2 (Z.ltb_ge _ 0)) by lia. left. by rewrite drop_past.
Qed.

(** ** A turn *)

Lemma name_read_eq i inp read read' : (forall i b inp, read i b inp = read' i b inp) ->
  inflate_name i inp read = inflate_name i inp read'.
Proof. intros H. unfold inflate_name. by rewrite H. Qed.

Lemma value_read_eq i inp read read' : (forall i b inp, read i b inp = read' i b inp) ->
  inflate_value malloc i inp read = inflate_value malloc i inp read'.
Proof. intros H. unfold inflate_value. by rewrite H. Qed.

Context `{!Allocator malloc}.

Lemma inflate_step_split i nvs a b r :
  inflater_wf i nvs -> is_bytes (a ++ b) -> (a <> [] \/ value_state i) -> b <> [] ->
  inflate_step malloc i a = Some r ->
  step_split r b (inflate_step malloc i (a ++ b)) (fun i' => inflate_step malloc i' b).
Proof.
  intros Hwf Hb Hin Hbn Hr. pose proof (proj1 (is_bytes_app _ _) Hb) as [Hba Hbb].
  assert (forall i' inp', r = StepAlmostOk i' inp' -> is_Some (inflate_step malloc i' b)) as Hsome.
  { intros i' inp' ->. destruct (inflate_step_good malloc i nvs a Hwf Hba Hin) as (x & E & Hx).
    assert (x = StepAlmostOk i' inp') as -> by congruence. destruct Hx as ([nvs' Hwf'] & _).
    destruct (inflate_step_good malloc i' nvs' b Hwf' Hbb) as (y & -> & _); [by left|done]. }
  pose proof (iw_state _ _ Hwf) as Hst. pose proof (iw_left _ _ Hwf) as Hl.
  assert (0 <= inf_left i) as Hl0 by cint_lia. revert Hr.
  unfold state_wf, value_state in *. unfold inflate_step at 1 2. destruct (inf_state i) eqn:Hs;
    try (destruct Hin as [Hne|[?|?]]; [|done|done]).
  1-3: intros Hr; destruct (opcode_split i a b r Hne Hr) as [-> Hno]; destruct r; try done;
       [by destruct (Hno i0 inp)|by eexists].
  - by apply table_size_split.
  - apply index_split; try done. apply Hst.
  - destruct a as [|c a]; [done|]. unfold inflate_check_len. cbn [app lookup list_lookup mbind option_bind].
    by apply (namelen_split _ (c :: a)).
  - apply namelen_split; try done. apply Hst.
  - rewrite !(name_read_eq _ _ _ _ read_huff_core). apply name_split; [by apply huff_core_split| |done].
    intros i' E. unfold inflate_step. rewrite E, Hs. by apply name_read_eq, read_huff_core.
  - rewrite !(name_read_eq _ _ _ _ read_plain_core). apply name_split; [by apply plain_core_split| |done].
    intros i' E. unfold inflate_step. rewrite E, Hs. by apply name_read_eq, read_plain_core.
  - destruct a as [|c a]; [done|]. unfold inflate_check_len. cbn [app lookup list_lookup mbind option_bind].
    by apply (valuelen_split _ (c :: a)).
  - apply valuelen_split; try done. apply Hst.
  - rewrite !(value_read_eq _ _ _ _ read_huff_core). apply value_split; [by apply huff_core_split| |done].
    intros i' E. unfold inflate_step. rewrite E, Hs. by apply value_read_eq, read_huff_core.
  - rewrite !(value_read_eq _ _ _ _ read_plain_core). apply value_split; [by apply plain_core_split| |done].
    intros i' E. unfold inflate_step. rewrite E, Hs. by apply value_read_eq, read_plain_core.
Qed.

(** ** The loop *)

Definition loop_ends (i : nghttp2_hd_inflater) (inp : bytes) (busy : bool) (r : step_result) : Prop :=
  exists k, inflate_loop malloc k i inp busy = Some r.

Lemma loop_ends_step i inp busy r : inp <> [] \/ busy = true ->
  loop_ends i inp busy r <->
  exists x, inflate_step malloc i inp = Some x /\
    match x with StepBreak i' inp' busy' => loop_ends i' inp' busy' r | _ => r = x end.
Proof.
  intros Hne. assert ((length inp =? 0)%nat && negb busy = false) as Hg.
  { destruct inp; [destruct Hne as [?| ->]; done|done]. }
  unfold loop_ends. split.
  - intros [[|k] H]; cbn [inflate_loop] in H; rewrite Hg in H; [done|].
    destruct (inflate_step malloc i inp) as [x|]; [|done]. exists x. split; [done|].
    cbn [mbind option_bind] in H. destruct x; try congruence. by exists k.
  - intros (x & E & H). destruct x as [i' inp' busy'| | |]; [destruct H as [k H]; exists (S k)|subst; exists 1%nat..];
      cbn [inflate_loop]; rewrite Hg, E; done.
Qed.

(** The outcomes of a loop, up to the state after an error. *)
Definition same_end (x y : step_result) : Prop :=
  x = y \/ exists i1 i2 rv, x = StepFail i1 rv /\ y = StepFail i2 rv.

Definition loop_split (r : step_result) (i : nghttp2_hd_inflater) (a b : bytes) (busy : bool) : Prop :=
  match r with
  | StepEmit i1 inp nv => loop_ends i (a ++ b) busy (StepEmit i1 (inp ++ b) nv)
  | StepFail _ rv => exists i1, loop_ends i (a ++ b) busy (StepFail i1 rv)
  | StepBreak i1 _ _ | StepAlmostOk i1 _ =>
      forall r2, loop_ends i1 b false r2 -> exists r3, loop_ends i (a ++ b) busy r3 /\ same_end r2 r3
  end.

Lemma loop_split_step r i i' a inp' b busy busy' :
  inflate_step malloc i (a ++ b) = Some (StepBreak i' (inp' ++ b) busy') -> a ++ b <> [] ->
  loop_split r i' inp' b busy' -> loop_split r i a b busy.
Proof.
  intros E Hne. assert (forall x, loop_ends i' (inp' ++ b) busy' x -> loop_ends i (a ++ b) busy x) as Hx.
  { intros x H. apply loop_ends_step; [by left|]. by eexists. }
  unfold loop_split. destruct r.
  - intros H r2 H2. destruct (H _ H2) as (r3 & ? & ?). exists r3. auto.
  - auto.
  - intros H r2 H2. destruct (H _ H2) as (r3 & ? & ?). exists r3. auto.
  - intros [i1 H]. exists i1. auto.
Qed.

Lemma inflate_loop_split k i nvs a b busy r :
  inflater_wf i nvs -> is_bytes (a ++ b) -> (busy = true -> value_state i) -> b <> [] ->
  inflate_loop malloc k i a busy = Some r -> loop_split r i a b busy.
Proof.
  intros Hwf Hb Hbusy Hbn. revert i nvs a busy Hwf Hb Hbusy.
  induction k as [|k IH]; intros i nvs a busy Hwf Hb Hbusy; cbn [inflate_loop];
    (destruct ((length a =? 0)%nat && negb busy) eqn:Eg;
     [apply andb_prop in Eg as [Ea%Nat.eqb_eq%nil_length_inv Eb%negb_true_iff]; subst; intros [= <-] r2 H2;
      exists r2; split; [done|by left]|]); [done|].
  assert (a <> [] \/ value_state i) as Hin.
  { destruct busy; [by right; apply Hbusy|]. left. intros ->. done. }
  pose proof (proj1 (is_bytes_app _ _) Hb) as [Hba Hbb].
  assert (a ++ b <> []) as Hne by (destruct a, b; done).
  destruct (inflate_step_good malloc i nvs a Hwf Hba Hin) as (x & E & Hx). rewrite E. cbn [mbind option_bind].
  pose proof (inflate_step_split i nvs a b x Hwf Hb Hin Hbn E) as Hsp.
  destruct x as [i' inp' busy'|i' inp' nv|i' inp'|i' rv]; cbn [step_split step_ext] in Hsp.
  - intros Hk. destruct Hx as ([nvs' Hwf'] & [pre ->] & _ & Hbusy' & _).
    apply (loop_split_step _ _ i' _ inp' _ _ busy'); [done|done|]. apply (IH i' nvs'); try done.
    rewrite <- app_assoc in Hb. by apply is_bytes_app in Hb as [_ Hb].
  - intros [= <-]. apply loop_ends_step; [by left|]. by eexists.
  - intros [= <-] r2 H2. apply loop_ends_step in H2 as (y & Ey & H2); [|by left].
    destruct Hsp as [Eq|(i1 & i2 & rv & E1 & E2)].
    + exists r2. split; [|by left]. apply loop_ends_step; [by left|]. exists y. by rewrite Eq.
    + assert (y = StepFail i2 rv) as -> by congruence. exists (StepFail i1 rv). split.
      * apply loop_ends_step; [by left|]. by eexists.
      * right. subst. by eexists _, _, _.
  - intros [= <-]. destruct Hsp as [i1 Hsp]. exists i1. apply loop_ends_step; [by left|]. by eexists.
Qed.

(** ** The references kept for the caller *)

(** Nothing is kept before the next emission. *)
Definition keep_none (i : nghttp2_hd_inflater) : Prop := nv_name_keep i = None /\ nv_value_keep i = None.

Definition keep_none_after (r : step_result) : Prop :=
  match r with StepBreak i' _ _ | StepAlmostOk i' _ => keep_none i' | _ => True end.

Lemma keep_free_id i : keep_none i -> hd_inflate_keep_free i = i.
Proof. destruct i. unfold keep_none, hd_inflate_keep_free, inf_set_keep. simpl. by intros [-> ->]. Qed.

Lemma with_len_keeps i inp prefix maxlen k r : keep_none i ->
  (forall n sh inp r, k (inf_set_int i n sh) inp = Some r -> keep_none_after r) ->
  with_len i inp prefix maxlen k = Some r -> keep_none_after r.
Proof.
  intros Hi Hk. rewrite with_len_eq. destruct (decode_length _ _ _ _) as [d|]; [|done].
  cbn [mbind option_bind]. destruct (_ || _); [by intros [= <-]|]. destruct (_ <? _); [by intros [= <-]|].
  destruct (d_fin d); [apply Hk|]. by intros [= <-].
Qed.

Lemma namelen_keeps i inp r : keep_none i -> inflate_namelen malloc i inp = Some r -> keep_none_after r.
Proof.
  intros Hi. apply with_len_keeps; [done|]. intros n sh inp' x. cbv beta zeta. cbn [inf_set_int huffman_encoded].
  destruct (huffman_encoded i), (nghttp2_rcbuf_new _ _ _) as [ctx [rc|]]; by intros [= <-].
Qed.

Lemma valuelen_keeps i inp r : keep_none i -> inflate_valuelen malloc i inp = Some r -> keep_none_after r.
Proof.
  intros Hi. apply with_len_keeps; [done|]. intros n sh inp' x. cbv beta zeta. cbn [inf_set_int huffman_encoded].
  destruct (huffman_encoded i), (nghttp2_rcbuf_new _ _ _) as [ctx [rc|]]; by intros [= <-].
Qed.

Lemma read_huff_keeps i buf inp i' buf' rv : keep_none i ->
  hd_inflate_read_huff i buf inp = Some (i', buf', rv) -> keep_none i'.
Proof.
  rewrite read_huff_core. unfold read_with. intros Hi ([[[l h] b] n] & _ & [= <- _ _])%bind_Some. exact Hi.
Qed.

Lemma read_plain_keeps i buf inp i' buf' rv : keep_none i ->
  hd_inflate_read i buf inp = Some (i', buf', rv) -> keep_none i'.
Proof.
  rewrite read_plain_core. unfold read_with. intros Hi ([[[l h] b] n] & _ & [= <- _ _])%bind_Some. exact Hi.
Qed.

Lemma name_keeps i inp read r :
  (forall i' b rv, read i (namebuf i) inp = Some (i', b, rv) -> keep_none i') ->
  inflate_name i inp read = Some r -> keep_none_after r.
Proof.
  intros Hr. unfold inflate_name. destruct (read _ _ _) as [[[i' b] rv]|]; [|done]. specialize (Hr _ _ _ eq_refl).
  cbn [mbind option_bind]. destruct (namercbuf i'); [|done]. cbn [mbind option_bind].
  destruct (rv <? 0); [by intros [= <-]|]. destruct (negb _); [by intros [= <-]|].
  destruct (buf_poke _ _); [|done]. by intros [= <-].
Qed.

Lemma value_keeps i inp read r :
  (forall i' b rv, read i (valuebuf i) inp = Some (i', b, rv) -> keep_none i') ->
  inflate_value malloc i inp read = Some r -> keep_none_after r.
Proof.
  intros Hr. unfold inflate_value. destruct (read _ _ _) as [[[i' b] rv]|]; [|done]. specialize (Hr _ _ _ eq_refl).
  cbn [mbind option_bind]. destruct (valuercbuf i'); [|done]. cbn [mbind option_bind].
  destruct (rv <? 0); [by intros [= <-]|]. destruct (negb _); [by intros [= <-]|].
  destruct (buf_poke _ _); [|done]. cbn [mbind option_bind].
  destruct (if decide _ then _ else _) as [[[i2 [nv|]] rv']|]; [..|done]; cbn [mbind option_bind];
    destruct (rv' =? 0); try done; by intros [= <-].
Qed.

Lemma inflate_step_keeps i inp r : keep_none i -> inflate_step malloc i inp = Some r -> keep_none_after r.
Proof.
  intros Hi. unfold inflate_step. destruct (inf_state i).
  1-3: unfold inflate_opcode; destruct (inp !! 0%nat) as [c|]; [|done]; cbn [mbind option_bind];
    (destruct (bool_decide _ && _); [by intros [= <-]|]);
    (destruct (_ =? 32); [case_decide; by intros [= <-]|]);
    (destruct (negb _); [by intros [= <-]|]); destruct (_ || _); by intros [= <-].
  - apply with_len_keeps; [done|]. intros n sh inp' x. cbv beta zeta.
    destruct (hd_context_shrink_table_size _ _) as [[ctx ?]|]; [|done]. by intros [= <-].
  - apply with_len_keeps; [done|]. intros n sh inp' x. cbv beta zeta. destruct (_ =? 0); [by intros [= <-]|].
    case_decide; [destruct (hd_inflate_commit_indexed _); [|done]|]; by intros [= <-].
  - unfold inflate_check_len. destruct (inp !! 0%nat) as [c|]; [|done]. by apply namelen_keeps.
  - by apply namelen_keeps.
  - apply name_keeps. intros i' b rv. by apply read_huff_keeps.
  - apply name_keeps. intros i' b rv. by apply read_plain_keeps.
  - unfold inflate_check_len. destruct (inp !! 0%nat) as [c|]; [|done]. by apply valuelen_keeps.
  - by apply valuelen_keeps.
  - apply value_keeps. intros i' b rv. by apply read_huff_keeps.
  - apply value_keeps. intros i' b rv. by apply read_plain_keeps.
Qed.

Lemma inflate_loop_keeps k i inp busy r : keep_none i ->
  inflate_loop malloc k i inp busy = Some r -> keep_none_after r.
Proof.
  revert i inp busy. induction k as [|k IH]; intros i inp busy Hi; cbn [inflate_loop];
    (destruct (_ && _); [by intros [= <-]|]); [done|].
  destruct (inflate_step malloc i inp) as [x|] eqn:E; [|done]. apply inflate_step_keeps in E; [|done].
  cbn [mbind option_bind]. destruct x as [i' inp' busy'| | |]; try (by intros [= <-]). by apply IH.
Qed.

(** ** The calls *)

Definition call_end (inp : bytes) (in_final : bool) (r : step_result) : nghttp2_hd_inflater * inflate_result :=
  match r with
  | StepBreak i inp' _ =>
      if in_final && negb (bool_decide (inf_state i = NGHTTP2_HD_STATE_OPCODE)) &&
           negb (bool_decide (inf_state i = NGHTTP2_HD_STATE_INFLATE_START))
      then inflate_fail i NGHTTP2_ERR_HEADER_COMP
      else (i, mk_ires (zlen inp - zlen inp')
                 (if in_final then NGHTTP2_HD_INFLATE_FINAL else NGHTTP2_HD_INFLATE_NONE) None)
  | StepEmit i inp' nv => (i, mk_ires (zlen inp - zlen inp') NGHTTP2_HD_INFLATE_EMIT (Some nv))
  | StepAlmostOk i inp' =>
      if in_final then inflate_fail i NGHTTP2_ERR_HEADER_COMP
      else (i, mk_ires (zlen inp - zlen inp') NGHTTP2_HD_INFLATE_NONE None)
  | StepFail i rv => inflate_fail i rv
  end.

Lemma call_loop i nvs inp in_final r : ctx_bad (inf_ctx i) = false -> inflater_wf i nvs -> is_bytes inp ->
  loop_ends (hd_inflate_keep_free i) inp false r ->
  nghttp2_hd_inflate_hd_nv malloc i inp in_final = Some (call_end inp in_final r).
Proof.
  intros Hbad Hwf Hb [k Hk]. unfold nghttp2_hd_inflate_hd_nv. rewrite Hbad.
  assert (inflater_wf (hd_inflate_keep_free i) nvs) as Hwf0 by (split; apply Hwf).
  rewrite (inflate_loop_fuel malloc k _ nvs inp r Hwf0 Hb Hk). cbn [mbind option_bind].
  destruct r; cbn [call_end]; try done; destruct in_final; try done. cbn [andb]. by destruct (negb _ && negb _).
Qed.

Lemma loop_runs i nvs inp : inflater_wf i nvs -> is_bytes inp ->
  exists r, loop_ends i inp false r /\ loop_ok malloc (ctx_bad (inf_ctx i)) inp r.
Proof.
  intros Hwf Hb. destruct (inflate_loop_good malloc (inflate_fuel inp) i nvs inp false Hwf Hb) as (r & E & H);
    [done|apply measure_fuel|]. exists r. split; [by eexists|done].
Qed.

(** The result on a piece that comes after [n] octets. *)
Definition result_after (n : Z) (r : inflate_result) : inflate_result :=
  if ir_rv r <? 0 then r else mk_ires (n + ir_rv r) (ir_flags r) (ir_nv r).

(** The same outcome: the same result, and the same decompressor unless both are
    marked as bad. *)
Definition same_call (x y : nghttp2_hd_inflater * inflate_result) : Prop :=
  x.2 = y.2 /\ (x.1 = y.1 \/ ctx_bad (inf_ctx x.1) = true /\ ctx_bad (inf_ctx y.1) = true).

Lemma fail_after n i rv : inflate_error malloc rv -> result_after n (inflate_fail i rv).2 = (inflate_fail i rv).2.
Proof. unfold result_after. by intros [-> |[-> _]]. Qed.

Lemma same_end_call bad (a b : bytes) in_final r2 r3 : same_end r2 r3 -> loop_ok malloc bad b r2 ->
  same_call (call_end (a ++ b) in_final r3) ((call_end b in_final r2).1, result_after (zlen a) (call_end b in_final r2).2).
Proof.
  intros Hs Hok. assert (inflate_error malloc NGHTTP2_ERR_HEADER_COMP) as Hc by by left.
  destruct Hs as [<-|(i1 & i2 & rv & -> & ->)].
  - destruct r2 as [i inp busy|i inp nv|i inp|i rv]; cbn [call_end].
    + destruct (_ && _ && _). { rewrite fail_after by done. split; [done|by left]. }
      destruct Hok as (_ & -> & _). unfold result_after. cbn [ir_rv ir_flags ir_nv snd fst].
      rewrite (proj2 (Z.ltb_ge _ _)) by (simpl; lia). split; [|by left]. cbn [snd]. f_equal.
      rewrite length_app. lia.
    + destruct Hok as (_ & [pre ->] & _). unfold result_after. cbn [ir_rv ir_flags ir_nv snd fst].
      rewrite (proj2 (Z.ltb_ge _ _)) by (rewrite length_app; lia). split; [|by left]. cbn [snd]. f_equal.
      rewrite !length_app. lia.
    + destruct in_final. { rewrite fail_after by done. split; [done|by left]. }
      destruct Hok as (_ & -> & _). unfold result_after. cbn [ir_rv ir_flags ir_nv snd fst].
      rewrite (proj2 (Z.ltb_ge _ _)) by (simpl; lia). split; [|by left]. cbn [snd]. f_equal.
      rewrite length_app. lia.
    + rewrite fail_after by done. split; [done|by left].
  - cbn [call_end]. rewrite fail_after by done. split; [done|]. by right.
Qed.

(** After all of [a] was read without a field. *)
Lemma call_resumes i nvs a b in_final i1 busy bad :
  ctx_bad (inf_ctx i) = false -> inflater_wf i nvs -> is_bytes (a ++ b) ->
  loop_split (StepBreak i1 [] busy) (hd_inflate_keep_free i) a b false ->
  loop_ok malloc bad a (StepBreak i1 [] busy) -> bad = false -> keep_none i1 ->
  exists whole i2 r2, nghttp2_hd_inflate_hd_nv malloc i (a ++ b) in_final = Some whole /\
    nghttp2_hd_inflate_hd_nv malloc i1 b in_final = Some (i2, r2) /\
    same_call whole (i2, result_after (zlen a) r2).
Proof.
  intros Hbad Hwf Hb Hs ([nvs1 Hwf1] & _ & Hbad1) -> Hk. pose proof (proj1 (is_bytes_app _ _) Hb) as [_ Hbb].
  destruct (loop_runs i1 nvs1 b Hwf1 Hbb) as (r2 & H2 & Hok). destruct (Hs r2 H2) as (r3 & H3 & Hse).
  pose proof (call_loop i nvs (a ++ b) in_final r3 Hbad Hwf Hb H3) as E.
  rewrite <- (keep_free_id i1 Hk) in H2.
  pose proof (call_loop i1 nvs1 b in_final r2 Hbad1 Hwf1 Hbb H2) as E2.
  rewrite (surjective_pairing (call_end b in_final r2)) in E2.
  eexists _, _, _. split; [exact E|]. split; [exact E2|]. by eapply same_end_call.
Qed.

End Split.

(** C28: Where a header block is cut into pieces does not matter.  After a
    non-final call on [a] that emitted a field or failed, one call on
    [a ++ b] does the same, and leaves the same decompressor unless it failed;
    after one that read all of [a] without a field, the next call on [b] has the
    outcome of one call on [a ++ b], the octets of [a] added to its count. *)
Theorem hd_inflate_split malloc `{!Allocator malloc} i a b in_final i1 r1 :
  inflater_inv i -> is_bytes (a ++ b) -> b <> [] ->
  nghttp2_hd_inflate_hd_nv malloc i a false = Some (i1, r1) ->
  exists whole, nghttp2_hd_inflate_hd_nv malloc i (a ++ b) in_final = Some whole /\
    if decide (0 <= ir_rv r1 /\ ir_nv r1 = None)
    then exists i2 r2, nghttp2_hd_inflate_hd_nv malloc i1 b in_final = Some (i2, r2) /\
         same_call whole (i2, result_after (zlen a) r2)
    else same_call whole (i1, r1).
Proof.
  intros Hinv Hb Hbn Hr1. destruct (ctx_bad (inf_ctx i)) eqn:Hbad.
  { unfold nghttp2_hd_inflate_hd_nv in *. rewrite Hbad in *. injection Hr1 as <- <-. eexists. split; [done|].
    rewrite decide_False by (by intros [[] _]). split; [done|by left]. }
  destruct Hinv as [?|[nvs Hwf]]; [congruence|]. pose proof (proj1 (is_bytes_app _ _) Hb) as [Hba _].
  assert (inflater_wf (hd_inflate_keep_free i) nvs) as Hwf0 by (split; apply Hwf).
  destruct (loop_runs malloc (hd_inflate_keep_free i) nvs a Hwf0 Hba) as (r & [k Hk] & Hok).
  rewrite (call_loop malloc i nvs a false r Hbad Hwf Hba (ex_intro _ k Hk)) in Hr1.
  pose proof (inflate_loop_split malloc k _ nvs a b false r Hwf0 Hb ltac:(done) Hbn Hk) as Hs.
  pose proof (inflate_loop_keeps malloc k (hd_inflate_keep_free i) a false r (conj eq_refl eq_refl) Hk) as Hkeep.
  destruct r as [i' inp' busy|i' inp' nv|i' inp'|i' rv]; cbn [call_end andb] in Hr1; injection Hr1 as <- <-.
  - pose proof Hok as (_ & -> & _).
    destruct (call_resumes malloc i nvs a b in_final i' busy _ Hbad Hwf Hb Hs Hok Hbad Hkeep) as (w & i2 & r2 & H1 & H2 & H3).
    exists w. split; [done|]. rewrite decide_True by (simpl; split; [lia|done]). by exists i2, r2.
  - eexists. split; [exact (call_loop malloc i nvs _ in_final _ Hbad Hwf Hb Hs)|].
    rewrite decide_False by (by intros [_ ?]). cbn [call_end]. split; [|by left]. cbn [snd]. f_equal.
    rewrite !length_app. lia.
  - pose proof Hok as (_ & -> & _).
    destruct (call_resumes malloc i nvs a b in_final i' false _ Hbad Hwf Hb Hs Hok Hbad Hkeep) as (w & i2 & r2 & H1 & H2 & H3).
    exists w. split; [done|]. rewrite decide_True by (simpl; split; [lia|done]). by exists i2, r2.
  - destruct Hs as [i3 Hs]. eexists. split; [exact (call_loop malloc i nvs _ in_final _ Hbad Hwf Hb Hs)|].
    rewrite decide_False; [split; [done|by right]|]. cbn. destruct Hok as [-> |[-> _]]; by intros [[] _].
Qed.

(** A literal cut inside its Huffman-coded value. *)
Lemma hd_inflate_split_witness :
  let a := [0x41; 0x8c; 0xf1; 0xe3; 0xc2] in
  let b := [0xe5; 0xf2; 0x3a; 0x6b; 0xa0; 0xab; 0x90; 0xf4; 0xff] in
  match nghttp2_hd_inflate_init zero_malloc with
  | inr _ => False
  | inl i =>
      exists i1 r1 whole i2 r2,
        nghttp2_hd_inflate_hd_nv zero_malloc i a false = Some (i1, r1) /\
        nghttp2_hd_inflate_hd_nv zero_malloc i (a ++ b) true = Some whole /\
        nghttp2_hd_inflate_hd_nv zero_malloc i1 b true = Some (i2, r2) /\
        same_call whole (i2, result_after 5 r2)
  end.
Proof.
  cbv zeta. destruct (nghttp2_hd_inflate_init zero_malloc) as [i|e] eqn:Ei; [|vm_compute in Ei; discriminate].
  destruct (inflate_init_wf zero_malloc i Ei) as [Hwf _].
  assert (inflater_inv i) as Hinv by (right; by exists []).
  assert (exists i1 r1, nghttp2_hd_inflate_hd_nv zero_malloc i [0x41; 0x8c; 0xf1; 0xe3; 0xc2] false = Some (i1, r1) /\
            0 <= ir_rv r1 /\ ir_nv r1 = None) as (i1 & r1 & E1 & Hr1).
  { vm_compute in Ei. injection Ei as <-. eexists _, _. by vm_compute. }
  destruct (hd_inflate_split zero_malloc i [0x41; 0x8c; 0xf1; 0xe3; 0xc2]
              [0xe5; 0xf2; 0x3a; 0x6b; 0xa0; 0xab; 0x90; 0xf4; 0xff] true i1 r1 Hinv) as (w & Ew & Hw).
  - apply (bool_decide_unpack _). by vm_compute.
  - done.
  - exact E1.
  - rewrite decide_True in Hw by exact Hr1. destruct Hw as (i2 & r2 & E2 & Hs).
    exists i1, r1, w, i2, r2. split_and!; [exact E1|exact Ew|exact E2|exact Hs].
Defined.
