(* ===== verification/Frame.v ===== *)
(** * Frames (nghttp2_frame.c, nghttp2_priority_spec.c)

    The wire format of the frames whose payload is not a header block:
    constructors, serialisation into the chunk the session keeps for it, and
    parsing of received payloads.  Writing goes through the pointers of the
    chunk ([pos] moves back over the room kept for the frame header, [last]
    moves forward); a write outside the chunk, a failed assertion and a read
    behind the end of a payload are [None].

    [frame_roundtrip]: what one end packs, the other end unpacks to the same
    frame.  [frame_unpack_origin_spec]: the two-pass parser of ORIGIN accepts
    exactly the well-formed payloads and fills its block without overrunning
    it. *)

From S2P Require Import Prelude Defs Helper Buf HdTable.

(** ** Constants of nghttp2_frame.h *)

Definition NGHTTP2_STREAM_ID_MASK : Z := 2 ^ 31 - 1.
Definition NGHTTP2_WINDOW_SIZE_INCREMENT_MASK : Z := 2 ^ 31 - 1.
Definition NGHTTP2_FRAME_HDLEN : nat := 9.
Definition NGHTTP2_MAX_FRAME_SIZE_MAX : Z := 2 ^ 24 - 1.
Definition NGHTTP2_MAX_FRAME_SIZE_MIN : Z := 2 ^ 14.
Definition NGHTTP2_MAX_PAYLOADLEN : Z := 16384.
Definition NGHTTP2_FRAMEBUF_CHUNKLEN : Z := 9 + 1 + NGHTTP2_MAX_PAYLOADLEN.
Definition NGHTTP2_FRAME_SETTINGS_ENTRY_LENGTH : Z := 6.
Definition NGHTTP2_PRIORITY_SPECLEN : Z := 5.
Definition NGHTTP2_MAX_PADLEN : Z := 256.

(** ** The structures of nghttp2.h *)

Record nghttp2_frame_hd := mk_hd {
  hd_length : Z;
  hd_type : Z;
  hd_flags : Z;
  hd_stream_id : Z;
  hd_reserved : Z;
}.

Record nghttp2_priority_spec := mk_pri_spec {
  ps_stream_id : Z;
  ps_weight : Z;
  ps_exclusive : Z;
}.

Record nghttp2_priority := mk_priority { pr_hd : nghttp2_frame_hd; pr_spec : nghttp2_priority_spec }.

Record nghttp2_rst_stream := mk_rst_stream { rs_hd : nghttp2_frame_hd; rs_error_code : Z }.

Record nghttp2_settings_entry := mk_iv { settings_id : Z; iv_value : Z }.

Record nghttp2_settings := mk_settings { st_hd : nghttp2_frame_hd; st_iv : list nghttp2_settings_entry }.

Record nghttp2_ping := mk_ping { pg_hd : nghttp2_frame_hd; pg_opaque_data : bytes }.

(** The null pointer with length 0 is the empty string. *)
Record nghttp2_goaway := mk_goaway {
  ga_hd : nghttp2_frame_hd;
  ga_last_stream_id : Z;
  ga_error_code : Z;
  ga_opaque_data : bytes;
  ga_reserved : Z;
}.

Record nghttp2_window_update := mk_window_update {
  wu_hd : nghttp2_frame_hd;
  wu_increment : Z;
  wu_reserved : Z;
}.

Record nghttp2_data := mk_data { da_hd : nghttp2_frame_hd; da_padlen : Z }.

Record nghttp2_extension (P : Type) := mk_ext { ext_hd : nghttp2_frame_hd; ext_payload : P }.
Arguments mk_ext {P}.
Arguments ext_hd {P}.
Arguments ext_payload {P}.

Record nghttp2_ext_altsvc := mk_altsvc { as_origin : bytes; as_field_value : bytes }.

Record nghttp2_ext_origin := mk_origin { or_ov : list bytes }.

Record nghttp2_ext_priority_update := mk_priority_update { pu_stream_id : Z; pu_field_value : bytes }.

(** ** Priority specifications (nghttp2_priority_spec.c) *)

Definition nghttp2_priority_spec_init (stream_id weight exclusive : Z) : nghttp2_priority_spec :=
  mk_pri_spec stream_id weight (c_bool (negb (exclusive =? 0))).

Definition nghttp2_priority_spec_default_init : nghttp2_priority_spec :=
  mk_pri_spec 0 NGHTTP2_DEFAULT_WEIGHT 0.

Definition nghttp2_priority_spec_check_default (p : nghttp2_priority_spec) : bool :=
  (ps_stream_id p =? 0) && (ps_weight p =? NGHTTP2_DEFAULT_WEIGHT) && (ps_exclusive p =? 0).

Definition nghttp2_priority_spec_normalize_weight (p : nghttp2_priority_spec) : nghttp2_priority_spec :=
  if ps_weight p <? NGHTTP2_MIN_WEIGHT then mk_pri_spec (ps_stream_id p) NGHTTP2_MIN_WEIGHT (ps_exclusive p)
  else if NGHTTP2_MAX_WEIGHT <? ps_weight p then mk_pri_spec (ps_stream_id p) NGHTTP2_MAX_WEIGHT (ps_exclusive p)
  else p.

(** ** Constructors *)

Definition nghttp2_frame_hd_init (length type flags stream_id : Z) : nghttp2_frame_hd :=
  mk_hd length type flags stream_id 0.

Definition nghttp2_frame_priority_init (stream_id : Z) (pri_spec : nghttp2_priority_spec) : nghttp2_priority :=
  mk_priority (nghttp2_frame_hd_init NGHTTP2_PRIORITY_SPECLEN NGHTTP2_PRIORITY NGHTTP2_FLAG_NONE stream_id) pri_spec.

Definition nghttp2_frame_rst_stream_init (stream_id error_code : Z) : nghttp2_rst_stream :=
  mk_rst_stream (nghttp2_frame_hd_init 4 NGHTTP2_RST_STREAM NGHTTP2_FLAG_NONE stream_id) error_code.

Definition nghttp2_frame_settings_init (flags : Z) (iv : list nghttp2_settings_entry) : nghttp2_settings :=
  mk_settings (nghttp2_frame_hd_init (zlen iv * NGHTTP2_FRAME_SETTINGS_ENTRY_LENGTH) NGHTTP2_SETTINGS flags 0) iv.

Definition nghttp2_frame_ping_init (flags : Z) (opaque_data : option bytes) : nghttp2_ping :=
  mk_ping (nghttp2_frame_hd_init 8 NGHTTP2_PING flags 0)
    (match opaque_data with Some d => take 8 d | None => replicate 8 0 end).

Definition nghttp2_frame_goaway_init (last_stream_id error_code : Z) (opaque_data : bytes) : nghttp2_goaway :=
  mk_goaway (nghttp2_frame_hd_init (8 + zlen opaque_data) NGHTTP2_GOAWAY NGHTTP2_FLAG_NONE 0)
    last_stream_id error_code opaque_data 0.

Definition nghttp2_frame_window_update_init (flags stream_id window_size_increment : Z) : nghttp2_window_update :=
  mk_window_update (nghttp2_frame_hd_init 4 NGHTTP2_WINDOW_UPDATE flags stream_id) window_size_increment 0.

Definition nghttp2_frame_trail_padlen (hd : nghttp2_frame_hd) (padlen : Z) : Z :=
  if padlen =? 0 then 0 else padlen - c_bool (0 <? hd_flags hd .& NGHTTP2_FLAG_PADDED).

Definition nghttp2_frame_data_init (flags stream_id : Z) : nghttp2_data :=
  mk_data (nghttp2_frame_hd_init 0 NGHTTP2_DATA flags stream_id) 0.

Definition nghttp2_frame_extension_init {P} (type flags stream_id : Z) (payload : P) : nghttp2_extension P :=
  mk_ext (nghttp2_frame_hd_init 0 type flags stream_id) payload.

Definition nghttp2_frame_altsvc_init (stream_id : Z) (origin field_value : bytes) : nghttp2_extension nghttp2_ext_altsvc :=
  mk_ext (nghttp2_frame_hd_init (2 + zlen origin + zlen field_value) NGHTTP2_ALTSVC NGHTTP2_FLAG_NONE stream_id)
    (mk_altsvc origin field_value).

Fixpoint origin_payloadlen (ov : list bytes) (payloadlen : Z) : Z :=
  match ov with
  | [] => payloadlen
  | o :: ov => origin_payloadlen ov (payloadlen + (2 + zlen o))
  end.

Definition nghttp2_frame_origin_init (ov : list bytes) : nghttp2_extension nghttp2_ext_origin :=
  mk_ext (nghttp2_frame_hd_init (origin_payloadlen ov 0) NGHTTP2_ORIGIN NGHTTP2_FLAG_NONE 0) (mk_origin ov).

(** The stream is named in the payload; the frame is on stream 0. *)
Definition nghttp2_frame_priority_update_init (stream_id : Z) (field_value : bytes)
    : nghttp2_extension nghttp2_ext_priority_update :=
  mk_ext (nghttp2_frame_hd_init (4 + zlen field_value) NGHTTP2_PRIORITY_UPDATE NGHTTP2_FLAG_NONE 0)
    (mk_priority_update stream_id field_value).

(** ** Frame headers *)

Definition nghttp2_frame_pack_frame_hd (m : bytes) (buf : nat) (hd : nghttp2_frame_hd) : bytes :=
  let m := nghttp2_put_uint32be m buf (u32 (Z.shiftl (hd_length hd) 8)) in
  let m := mem_write m (buf + 3) [hd_type hd] in
  let m := mem_write m (buf + 4) [hd_flags hd] in
  nghttp2_put_uint32be m (buf + 5) (u32 (hd_stream_id hd)).

Definition nghttp2_frame_unpack_frame_hd (buf : bytes) : option nghttp2_frame_hd :=
  guard (NGHTTP2_FRAME_HDLEN <= length buf)%nat;;
  Some (mk_hd (Z.shiftr (nghttp2_get_uint32 buf 0) 8) (mem_get buf 3) (mem_get buf 4)
          (nghttp2_get_uint32 buf 5 .& NGHTTP2_STREAM_ID_MASK) 0).

(** ** Writing into the first chunk *)

(** [buf->pos -= NGHTTP2_FRAME_HDLEN; nghttp2_frame_pack_frame_hd(buf->pos, hd)] *)
Definition buf_pack_hd (b : nghttp2_buf) (hd : nghttp2_frame_hd) : option nghttp2_buf :=
  guard (NGHTTP2_FRAME_HDLEN <= b_pos b <= length (b_mem b))%nat;;
  let pos := (b_pos b - NGHTTP2_FRAME_HDLEN)%nat in
  Some (mk_buf (nghttp2_frame_pack_frame_hd (b_mem b) pos hd) pos (b_last b) (b_mark b)).

(** [f(buf->last); buf->last += n], where [f] writes [n] octets. *)
Definition buf_store (b : nghttp2_buf) (n : nat) (f : bytes -> nat -> bytes) : option nghttp2_buf :=
  guard (b_last b + n <= length (b_mem b))%nat;;
  Some (mk_buf (f (b_mem b) (b_last b)) (b_pos b) (b_last b + n) (b_mark b)).

Definition bufs_head (s : nghttp2_bufs) : option nghttp2_buf := bs_chain s !! 0%nat.

Definition set_head_buf (s : nghttp2_bufs) (b : nghttp2_buf) : nghttp2_bufs :=
  set_chain s (<[0%nat := b]> (bs_chain s)) (bs_cur s).

(** [assert(bufs->head == bufs->cur)] *)
Definition assert_head_cur (s : nghttp2_bufs) : option unit := guard (bs_cur s = 0%nat);; Some tt.

(** ** Serialisation *)

Definition nghttp2_frame_pack_priority_spec (m : bytes) (buf : nat) (p : nghttp2_priority_spec) : bytes :=
  let m := nghttp2_put_uint32be m buf (u32 (ps_stream_id p)) in
  let m := if negb (ps_exclusive p =? 0) then mem_write m buf [mem_get m buf .| 0x80] else m in
  mem_write m (buf + 4) [u8 (ps_weight p - 1)].

Definition nghttp2_frame_pack_priority (s : nghttp2_bufs) (frame : nghttp2_priority) : option nghttp2_bufs :=
  _ ← assert_head_cur s;
  buf ← bufs_head s;
  guard (NGHTTP2_PRIORITY_SPECLEN <= Z.of_nat (nghttp2_buf_avail buf));;
  buf ← buf_pack_hd buf (pr_hd frame);
  buf ← buf_store buf 5 (fun m last => nghttp2_frame_pack_priority_spec m last (pr_spec frame));
  Some (set_head_buf s buf).

Definition nghttp2_frame_pack_rst_stream (s : nghttp2_bufs) (frame : nghttp2_rst_stream) : option nghttp2_bufs :=
  _ ← assert_head_cur s;
  buf ← bufs_head s;
  guard (4 <= nghttp2_buf_avail buf)%nat;;
  buf ← buf_pack_hd buf (rs_hd frame);
  buf ← buf_store buf 4 (fun m last => nghttp2_put_uint32be m last (rs_error_code frame));
  Some (set_head_buf s buf).

(** The memory after the entries from [buf] on. *)
Fixpoint nghttp2_frame_pack_settings_payload (m : bytes) (buf : nat) (iv : list nghttp2_settings_entry) : bytes :=
  match iv with
  | [] => m
  | e :: iv =>
      let m := nghttp2_put_uint16be m buf (u16 (settings_id e)) in
      let m := nghttp2_put_uint32be m (buf + 2) (iv_value e) in
      nghttp2_frame_pack_settings_payload m (buf + 6) iv
  end.

Definition nghttp2_frame_pack_settings (s : nghttp2_bufs) (frame : nghttp2_settings) : option (nghttp2_bufs * Z) :=
  _ ← assert_head_cur s;
  buf ← bufs_head s;
  if Z.of_nat (nghttp2_buf_avail buf) <? hd_length (st_hd frame) then Some (s, NGHTTP2_ERR_FRAME_SIZE_ERROR)
  else
    buf ← buf_pack_hd buf (st_hd frame);
    buf ← buf_store buf (6 * length (st_iv frame))
            (fun m last => nghttp2_frame_pack_settings_payload m last (st_iv frame));
    Some (set_head_buf s buf, 0).

Definition nghttp2_frame_pack_ping (s : nghttp2_bufs) (frame : nghttp2_ping) : option nghttp2_bufs :=
  _ ← assert_head_cur s;
  buf ← bufs_head s;
  guard (8 <= nghttp2_buf_avail buf)%nat;;
  buf ← buf_pack_hd buf (pg_hd frame);
  buf ← buf_put buf (pg_opaque_data frame);
  Some (set_head_buf s buf).

Definition nghttp2_frame_pack_window_update (s : nghttp2_bufs) (frame : nghttp2_window_update) : option nghttp2_bufs :=
  _ ← assert_head_cur s;
  buf ← bufs_head s;
  guard (4 <= nghttp2_buf_avail buf)%nat;;
  buf ← buf_pack_hd buf (wu_hd frame);
  buf ← buf_store buf 4 (fun m last => nghttp2_put_uint32be m last (u32 (wu_increment frame)));
  Some (set_head_buf s buf).

(** The entries one after the other; each [cpymem] stays inside the chunk. *)
Fixpoint pack_origin_loop (buf : nghttp2_buf) (ov : list bytes) : option nghttp2_buf :=
  match ov with
  | [] => Some buf
  | orig :: ov =>
      buf ← buf_store buf 2 (fun m last => nghttp2_put_uint16be m last (u16 (zlen orig)));
      buf ← buf_put buf orig;
      pack_origin_loop buf ov
  end.

Definition nghttp2_frame_pack_origin (s : nghttp2_bufs) (frame : nghttp2_extension nghttp2_ext_origin)
    : option (nghttp2_bufs * Z) :=
  buf ← bufs_head s;
  if Z.of_nat (nghttp2_buf_avail buf) <? hd_length (ext_hd frame) then Some (s, NGHTTP2_ERR_FRAME_SIZE_ERROR)
  else
    buf ← buf_pack_hd buf (ext_hd frame);
    buf ← pack_origin_loop buf (or_ov (ext_payload frame));
    guard (Z.of_nat (nghttp2_buf_len buf) = Z.of_nat NGHTTP2_FRAME_HDLEN + hd_length (ext_hd frame));;
    Some (set_head_buf s buf, 0).

Section Pack.
Context (malloc : nat -> nat -> option bytes).

Definition nghttp2_frame_pack_goaway (s : nghttp2_bufs) (frame : nghttp2_goaway) : option (nghttp2_bufs * Z) :=
  _ ← assert_head_cur s;
  buf ← bufs_head s;
  buf ← buf_pack_hd buf (ga_hd frame);
  buf ← buf_store buf 4 (fun m last => nghttp2_put_uint32be m last (u32 (ga_last_stream_id frame)));
  buf ← buf_store buf 4 (fun m last => nghttp2_put_uint32be m last (ga_error_code frame));
  '(s, rv) ← nghttp2_bufs_add malloc (set_head_buf s buf) (ga_opaque_data frame);
  Some (s, if rv =? NGHTTP2_ERR_BUFFER_ERROR then NGHTTP2_ERR_FRAME_SIZE_ERROR else rv).

(** [rv = nghttp2_bufs_add(...); assert(rv == 0);] *)
Definition bufs_add_assert (s : nghttp2_bufs) (data : bytes) : option nghttp2_bufs :=
  '(s, rv) ← nghttp2_bufs_add malloc s data;
  guard (rv = 0);; Some s.

Definition nghttp2_frame_pack_altsvc (s : nghttp2_bufs) (frame : nghttp2_extension nghttp2_ext_altsvc)
    : option nghttp2_bufs :=
  let altsvc := ext_payload frame in
  buf ← bufs_head s;
  guard (2 + length (as_origin altsvc) + length (as_field_value altsvc) <= nghttp2_buf_avail buf)%nat;;
  buf ← buf_pack_hd buf (ext_hd frame);
  buf ← buf_store buf 2 (fun m last => nghttp2_put_uint16be m last (u16 (zlen (as_origin altsvc))));
  s ← bufs_add_assert (set_head_buf s buf) (as_origin altsvc);
  bufs_add_assert s (as_field_value altsvc).

Definition nghttp2_frame_pack_priority_update (s : nghttp2_bufs)
    (frame : nghttp2_extension nghttp2_ext_priority_update) : option nghttp2_bufs :=
  let priority_update := ext_payload frame in
  buf ← bufs_head s;
  guard (4 + length (pu_field_value priority_update) <= nghttp2_buf_avail buf)%nat;;
  buf ← buf_pack_hd buf (ext_hd frame);
  buf ← buf_store buf 4 (fun m last => nghttp2_put_uint32be m last (u32 (pu_stream_id priority_update)));
  bufs_add_assert (set_head_buf s buf) (pu_field_value priority_update).

End Pack.

(** ** Parsing of payloads *)

(** A read of [n] octets at [off]. *)
Definition get16 (p : bytes) (off : nat) : option Z :=
  guard (off + 2 <= length p)%nat;; Some (nghttp2_get_uint16 p off).

Definition get32 (p : bytes) (off : nat) : option Z :=
  guard (off + 4 <= length p)%nat;; Some (nghttp2_get_uint32 p off).

Definition nghttp2_frame_unpack_priority_spec (payload : bytes) : option nghttp2_priority_spec :=
  n ← get32 payload 0;
  c ← payload !! 0%nat;
  w ← payload !! 4%nat;
  Some (nghttp2_priority_spec_init (n .& NGHTTP2_STREAM_ID_MASK) (w + 1) (c_bool (0 <? c .& 0x80))).

Definition nghttp2_frame_unpack_priority_payload (frame : nghttp2_priority) (payload : bytes) : option nghttp2_priority :=
  p ← nghttp2_frame_unpack_priority_spec payload;
  Some (mk_priority (pr_hd frame) p).

Definition nghttp2_frame_unpack_rst_stream_payload (frame : nghttp2_rst_stream) (payload : bytes)
    : option nghttp2_rst_stream :=
  c ← get32 payload 0; Some (mk_rst_stream (rs_hd frame) c).

Definition nghttp2_frame_unpack_settings_payload (frame : nghttp2_settings) (iv : list nghttp2_settings_entry)
    : nghttp2_settings := mk_settings (st_hd frame) iv.

Definition nghttp2_frame_unpack_settings_entry (payload : bytes) : option nghttp2_settings_entry :=
  id ← get16 payload 0;
  v ← get32 payload 2;
  Some (mk_iv id v).

Fixpoint unpack_settings_loop (niv : nat) (payload : bytes) : option (list nghttp2_settings_entry) :=
  match niv with
  | O => Some []
  | S niv =>
      e ← nghttp2_frame_unpack_settings_entry payload;
      iv ← unpack_settings_loop niv (drop 6 payload);
      Some (e :: iv)
  end.

Definition nghttp2_frame_unpack_ping_payload (frame : nghttp2_ping) (payload : bytes) : option nghttp2_ping :=
  guard (8 <= length payload)%nat;; Some (mk_ping (pg_hd frame) (take 8 payload)).

Definition nghttp2_frame_unpack_goaway_payload (frame : nghttp2_goaway) (payload var_gift_payload : bytes)
    : option nghttp2_goaway :=
  last ← get32 payload 0;
  code ← get32 payload 4;
  Some (mk_goaway (ga_hd frame) (last .& NGHTTP2_STREAM_ID_MASK) code var_gift_payload (ga_reserved frame)).

Definition nghttp2_frame_unpack_window_update_payload (frame : nghttp2_window_update) (payload : bytes)
    : option nghttp2_window_update :=
  n ← get32 payload 0;
  Some (mk_window_update (wu_hd frame) (n .& NGHTTP2_WINDOW_SIZE_INCREMENT_MASK) (wu_reserved frame)).

(** [payload] starts behind the length field; the pointer to the value is
    inside the payload or one past it. *)
Definition nghttp2_frame_unpack_altsvc_payload (frame : nghttp2_extension nghttp2_ext_altsvc)
    (origin_len : Z) (payload : bytes) : option (nghttp2_extension nghttp2_ext_altsvc) :=
  guard (origin_len <= zlen payload);;
  Some (mk_ext (ext_hd frame)
          (mk_altsvc (take (Z.to_nat origin_len) payload) (drop (Z.to_nat origin_len) payload))).

Definition nghttp2_frame_unpack_priority_update_payload (frame : nghttp2_extension nghttp2_ext_priority_update)
    (payload : bytes) : option (nghttp2_extension nghttp2_ext_priority_update) :=
  guard (4 <= length payload)%nat;;
  n ← get32 payload 0;
  Some (mk_ext (ext_hd frame) (mk_priority_update (n .& NGHTTP2_STREAM_ID_MASK)
          (if (4 <? length payload)%nat then drop 4 payload else []))).

(** ** Parsers that allocate *)

(** [sizeof(nghttp2_settings_entry)] and [sizeof(nghttp2_origin_entry)] on a
    64-bit target. *)
Definition sizeof_settings_entry : nat := 8.
Definition sizeof_origin_entry : nat := 16.

Section Unpack.
Context (malloc : nat -> nat -> option bytes).

(** The array, its length and the result; [call] is the number of the allocation. *)
Definition nghttp2_frame_unpack_settings_payload2 (call : nat) (payload : bytes)
    : option (list nghttp2_settings_entry * nat * Z) :=
  let niv := Z.to_nat (zlen payload / NGHTTP2_FRAME_SETTINGS_ENTRY_LENGTH) in
  if (niv =? 0)%nat then Some ([], niv, 0)
  else
    match malloc call (niv * sizeof_settings_entry)%nat with
    | None => Some ([], niv, NGHTTP2_ERR_NOMEM)
    | Some _ => iv ← unpack_settings_loop niv payload; Some (iv, niv, 0)
    end.

Definition nghttp2_frame_unpack_goaway_payload2 (call : nat) (frame : nghttp2_goaway) (payload : bytes)
    : option (nghttp2_goaway * Z) :=
  let var_gift_payloadlen := if (8 <? length payload)%nat then (length payload - 8)%nat else 0%nat in
  if (var_gift_payloadlen =? 0)%nat then
    frame ← nghttp2_frame_unpack_goaway_payload frame payload []; Some (frame, 0)
  else
    match malloc call var_gift_payloadlen with
    | None => Some (frame, NGHTTP2_ERR_NOMEM)
    | Some m =>
        let var_gift_payload := mem_write m 0 (mem_slice payload 8 var_gift_payloadlen) in
        frame ← nghttp2_frame_unpack_goaway_payload frame payload var_gift_payload; Some (frame, 0)
    end.

(** A payload of less than two octets gives the error code of the protocol. *)
Definition nghttp2_frame_unpack_altsvc_payload2 (call : nat) (frame : nghttp2_extension nghttp2_ext_altsvc)
    (payload : bytes) : option (nghttp2_extension nghttp2_ext_altsvc * Z) :=
  if (length payload <? 2)%nat then Some (frame, NGHTTP2_FRAME_SIZE_ERROR)
  else
    origin_len ← get16 payload 0;
    match malloc call (length payload - 2)%nat with
    | None => Some (frame, NGHTTP2_ERR_NOMEM)
    | Some m =>
        let buf := mem_write m 0 (drop 2 payload) in
        frame ← nghttp2_frame_unpack_altsvc_payload frame origin_len buf; Some (frame, 0)
    end.

(** First pass: the number of origins and the octets they need, or an error. *)
Fixpoint origin_count (fuel : nat) (p : bytes) (nov len : nat) : option (nat * nat + Z) :=
  match fuel with
  | O => None
  | S fuel =>
      if (length p =? 0)%nat then Some (inl (nov, len))
      else if (length p <? 2)%nat then Some (inr NGHTTP2_ERR_FRAME_SIZE_ERROR)
      else
        originlen ← get16 p 0;
        let p := drop 2 p in
        if originlen =? 0 then origin_count fuel p nov len
        else if zlen p <? originlen then Some (inr NGHTTP2_ERR_FRAME_SIZE_ERROR)
        else origin_count fuel (drop (Z.to_nat originlen) p) (S nov) (len + (Z.to_nat originlen + 1))
  end.

(** Second pass: [room] entries are left in the array, [dst] is the offset in
    the string area; the result is the area with the place of each origin. *)
Fixpoint origin_fill (fuel : nat) (p : bytes) (room : nat) (area : bytes) (dst : nat)
    : option (bytes * list (nat * nat)) :=
  match fuel with
  | O => None
  | S fuel =>
      if (length p =? 0)%nat then Some (area, [])
      else
        originlen ← get16 p 0;
        let p := drop 2 p in
        if originlen =? 0 then origin_fill fuel p room area dst
        else
          let n := Z.to_nat originlen in
          guard (0 < room)%nat;;
          guard (n <= length p)%nat;;
          guard (dst + (n + 1) <= length area)%nat;;
          let area := mem_write area dst (take n p) in
          let area := mem_write area (dst + n) [0] in
          '(area, ov) ← origin_fill fuel (drop n p) (room - 1) area (dst + (n + 1));
          Some (area, (dst, n) :: ov)
  end.

Definition nghttp2_frame_unpack_origin_payload (call : nat) (frame : nghttp2_extension nghttp2_ext_origin)
    (payload : bytes) : option (nghttp2_extension nghttp2_ext_origin * Z) :=
  c ← origin_count (S (length payload)) payload 0 0;
  match c with
  | inr rv => Some (frame, rv)
  | inl (nov, len) =>
      if (nov =? 0)%nat then Some (mk_ext (ext_hd frame) (mk_origin []), 0)
      else
        match malloc call (len + nov * sizeof_origin_entry)%nat with
        | None => Some (frame, NGHTTP2_ERR_NOMEM)
        | Some m =>
            '(area, ov) ← origin_fill (S (length payload)) payload nov (drop (nov * sizeof_origin_entry) m) 0;
            Some (mk_ext (ext_hd frame) (mk_origin (map (fun '(off, n) => mem_slice area off n) ov)), 0)
        end
  end.

(** [None]: the null pointer. *)
Definition nghttp2_frame_iv_copy (call : nat) (iv : list nghttp2_settings_entry)
    : option (list nghttp2_settings_entry) :=
  let len := (length iv * sizeof_settings_entry)%nat in
  if (len =? 0)%nat then None
  else match malloc call len with None => None | Some _ => Some iv end.

End Unpack.

Fixpoint nghttp2_iv_check (iv : list nghttp2_settings_entry) : bool :=
  match iv with
  | [] => true
  | e :: iv =>
      let id := settings_id e in
      let v := iv_value e in
      if (id =? NGHTTP2_SETTINGS_ENABLE_PUSH) && (negb (v =? 0) && negb (v =? 1)) then false
      else if (id =? NGHTTP2_SETTINGS_INITIAL_WINDOW_SIZE) && (NGHTTP2_MAX_WINDOW_SIZE <? v) then false
      else if (id =? NGHTTP2_SETTINGS_MAX_FRAME_SIZE) &&
              ((v <? NGHTTP2_MAX_FRAME_SIZE_MIN) || (NGHTTP2_MAX_FRAME_SIZE_MAX <? v)) then false
      else if (id =? NGHTTP2_SETTINGS_ENABLE_CONNECT_PROTOCOL) && (negb (v =? 0) && negb (v =? 1)) then false
      else if (id =? NGHTTP2_SETTINGS_NO_RFC7540_PRIORITIES) && (negb (v =? 0) && negb (v =? 1)) then false
      else nghttp2_iv_check iv
  end.

(** ** Octets on the wire *)

Definition frame_hd_bytes (hd : nghttp2_frame_hd) : bytes :=
  [u8 (Z.shiftr (hd_length hd) 16); u8 (Z.shiftr (hd_length hd) 8); u8 (hd_length hd); hd_type hd; hd_flags hd]
    ++ uint32be (u32 (hd_stream_id hd)).

Definition hd_ok (hd : nghttp2_frame_hd) : Prop :=
  0 <= hd_length hd < 2 ^ 24 /\ is_u8 (hd_type hd) /\ is_u8 (hd_flags hd) /\
  0 <= hd_stream_id hd < 2 ^ 31 /\ hd_reserved hd = 0.

(** A later write over the end of an earlier one. *)
Lemma mem_write_same m off a b : length a = length b -> (off + length a <= length m)%nat ->
  mem_write (mem_write m off a) off b = mem_write m off b.
Proof.
  intros Hl Ho. unfold mem_write. rewrite take_app_le, take_take, Nat.min_id by (rewrite length_take; lia).
  rewrite (drop_app_ge (take off m)) by (rewrite length_take; lia). rewrite length_take, Nat.min_l by lia.
  rewrite drop_app_ge, drop_drop by lia. do 3 f_equal. lia.
Qed.

Lemma mem_write_over m off a b c k : length b = length c -> (off + length a + length b <= length m)%nat ->
  k = (off + length a)%nat -> mem_write (mem_write m off (a ++ b)) k c = mem_write m off (a ++ c).
Proof.
  intros Hl Ho ->. rewrite <- !mem_write_write by lia. rewrite mem_write_same; [done|done|].
  rewrite mem_write_length by lia. lia.
Qed.

Lemma mem_write_more m off a b k : (off + length a + length b <= length m)%nat -> k = (off + length a)%nat ->
  mem_write (mem_write m off a) k b = mem_write m off (a ++ b).
Proof. intros Ho ->. by apply mem_write_write. Qed.

Lemma hd_length_octets n : 0 <= n < 2 ^ 24 ->
  uint32be (u32 (Z.shiftl n 8)) = [u8 (Z.shiftr n 16); u8 (Z.shiftr n 8); u8 n] ++ [0].
Proof.
  intros Hn. rewrite u32_id by (rewrite Z.shiftl_mul_pow2 by lia; cint_lia). unfold uint32be.
  rewrite !Z.shiftr_shiftl_r by lia. change (24 - 8) with 16. change (16 - 8) with 8. change (8 - 8) with 0.
  rewrite Z.shiftr_0_r, Z.shiftl_mul_pow2 by lia. unfold u8 at 4. by rewrite Z.mod_mul by lia.
Qed.

Lemma pack_frame_hd_eq m buf hd : hd_ok hd -> (buf + 9 <= length m)%nat ->
  nghttp2_frame_pack_frame_hd m buf hd = mem_write m buf (frame_hd_bytes hd).
Proof.
  intros Hok Hb. unfold nghttp2_frame_pack_frame_hd, nghttp2_put_uint32be. rewrite hd_length_octets by apply Hok.
  rewrite (mem_write_over m buf [_; _; _] [0] [hd_type hd]) by (simpl; lia).
  rewrite (mem_write_more m buf _ [hd_flags hd]) by (simpl; lia).
  by rewrite (mem_write_more m buf) by (rewrite ?length_app; simpl; lia).
Qed.

Lemma frame_hd_bytes_length hd : length (frame_hd_bytes hd) = 9%nat.
Proof. done. Qed.

Lemma land_31 n : 0 <= n < 2 ^ 31 -> n .& (2 ^ 31 - 1) = n.
Proof. intros. rewrite land_ones_mod by lia. by apply Z.mod_small. Qed.

(** The words at the start of an octet string. *)
Lemma get32_app n a b : is_u32 n -> nghttp2_get_uint32 (a ++ uint32be n ++ b) (length a) = n.
Proof.
  intros Hn. apply get_uint32_of_slice; [done|]. unfold mem_slice. by rewrite drop_app_length.
Qed.

Lemma get16_app n a b : is_u16 n -> nghttp2_get_uint16 (a ++ uint16be n ++ b) (length a) = n.
Proof.
  intros Hn. apply get_uint16_of_slice; [done|]. unfold mem_slice. by rewrite drop_app_length.
Qed.

Lemma get32_head n b : is_u32 n -> get32 (uint32be n ++ b) 0 = Some n.
Proof. intros Hn. unfold get32. rewrite option_guard_True by (rewrite length_app; simpl; lia). f_equal. by apply (get32_app n []). Qed.

Lemma get16_head n b : is_u16 n -> get16 (uint16be n ++ b) 0 = Some n.
Proof. intros Hn. unfold get16. rewrite option_guard_True by (rewrite length_app; simpl; lia). f_equal. by apply (get16_app n []). Qed.

Lemma get32_at k n a b : is_u32 n -> length a = k -> get32 (a ++ uint32be n ++ b) k = Some n.
Proof.
  intros Hn <-. unfold get32. rewrite option_guard_True by (rewrite !length_app; simpl; lia). f_equal. by apply get32_app.
Qed.

(** The header is read back, whatever follows. *)
Lemma unpack_frame_hd_bytes hd rest : hd_ok hd ->
  nghttp2_frame_unpack_frame_hd (frame_hd_bytes hd ++ rest) = Some hd.
Proof.
  intros (Hl & Ht & Hf & Hs & Hr). unfold nghttp2_frame_unpack_frame_hd.
  rewrite option_guard_True by (rewrite length_app, frame_hd_bytes_length; unfold NGHTTP2_FRAME_HDLEN; lia).
  destruct hd as [len ty fl sid res]. simpl in Hl, Ht, Hf, Hs, Hr. subst res. f_equal. f_equal.
  - assert (nghttp2_get_uint32 (frame_hd_bytes (mk_hd len ty fl sid 0) ++ rest) 0 = 2 ^ 8 * len + ty) as ->.
    { unfold nghttp2_get_uint32, frame_hd_bytes. cbn [app mem_get nth hd_length hd_type hd_flags hd_stream_id Nat.add].
      pose proof (u8_range len). pose proof (u8_range (Z.shiftr len 8)). pose proof (u8_range (Z.shiftr len 16)).
      rewrite <- Z.lor_assoc, <- Z.lor_assoc. rewrite (shiftl_lor_add (u8 len) ty 8) by (done || lia).
      rewrite (shiftl_lor_add (u8 (Z.shiftr len 8)) _ 16) by (try lia; cint_lia).
      rewrite (shiftl_lor_add (u8 (Z.shiftr len 16)) _ 24) by (try lia; cint_lia).
      rewrite !Z.shiftr_div_pow2 by lia. unfold u8. change (2 ^ 16) with 65536. change (2 ^ 8) with 256.
      change (2 ^ 24) with 16777216 in *. rewrite (Z.mod_small (len / 65536)).
      2:{ split; [apply Z.div_pos; lia|apply Z.div_lt_upper_bound; lia]. }
      change 65536 with (256 * 256). rewrite <- Z.div_div by lia.
      pose proof (Z.div_mod len 256). pose proof (Z.div_mod (len / 256) 256). lia. }
    rewrite Z.shiftr_div_pow2 by lia. rewrite Z.mul_comm, Z.div_add_l by lia. rewrite Z.div_small by done. lia.
  - assert (is_u32 sid) as Hu by cint_lia. unfold frame_hd_bytes. cbn [hd_stream_id]. rewrite <- app_assoc.
    rewrite (get32_app (u32 sid) [_; _; _; _; _] rest) by apply u32_range. rewrite u32_id by done. by apply land_31.
Qed.

(** ** Packing step by step *)

(** A chunk of [cap] octets that holds [content] and has room for [av] more. *)
Record holds (b : nghttp2_buf) (cap : nat) (content : bytes) (av : nat) : Prop := {
  ho_ok : buf_ok b;
  ho_cap : length (b_mem b) = cap;
  ho_bytes : buf_bytes b = content;
  ho_avail : nghttp2_buf_avail b = av;
}.

Lemma buf_pack_hd_holds b cap av hd : hd_ok hd -> holds b cap [] av -> (9 <= b_pos b)%nat ->
  exists b', buf_pack_hd b hd = Some b' /\ holds b' cap (frame_hd_bytes hd) av.
Proof.
  intros Hhd [[Hp Hl] Hc Hb Ha] Hpos. unfold buf_pack_hd, NGHTTP2_FRAME_HDLEN.
  rewrite option_guard_True by lia. eexists. split; [done|]. cbv zeta.
  assert (b_last b = b_pos b) as El.
  { apply (f_equal length) in Hb. rewrite buf_bytes_length in Hb by done. unfold nghttp2_buf_len in Hb. simpl in Hb. lia. }
  rewrite pack_frame_hd_eq by (done || lia).
  assert (length (mem_write (b_mem b) (b_pos b - 9) (frame_hd_bytes hd)) = length (b_mem b)) as Hml.
  { apply mem_write_length. rewrite frame_hd_bytes_length. lia. }
  split; unfold buf_ok, buf_bytes, nghttp2_buf_len, nghttp2_buf_avail in *; cbn [b_mem b_pos b_last]; rewrite ?Hml; try lia.
  replace (b_last b - (b_pos b - 9))%nat with (length (frame_hd_bytes hd)) by (rewrite frame_hd_bytes_length; lia).
  apply mem_slice_write. rewrite frame_hd_bytes_length. lia.
Qed.

Lemma holds_write b cap content av bs : holds b cap content av -> (length bs <= av)%nat ->
  holds (mk_buf (mem_write (b_mem b) (b_last b) bs) (b_pos b) (b_last b + length bs) (b_mark b)) cap
    (content ++ bs) (av - length bs).
Proof.
  intros [[Hp Hl] Hc Hb Ha] Hle. unfold nghttp2_buf_avail in Ha.
  assert (length (mem_write (b_mem b) (b_last b) bs) = length (b_mem b)) as Hml by (apply mem_write_length; lia).
  split; [split; cbn [b_mem b_pos b_last]; rewrite ?Hml; lia|by cbn [b_mem]; rewrite Hml| |].
  - rewrite <- Hb. by apply buf_bytes_write; [split|lia].
  - unfold nghttp2_buf_avail. cbn [b_mem b_last]. rewrite Hml. lia.
Qed.

Lemma buf_store_holds b cap content av n f bs : holds b cap content av -> length bs = n -> (n <= av)%nat ->
  (forall m off, (off + n <= length m)%nat -> f m off = mem_write m off bs) ->
  exists b', buf_store b n f = Some b' /\ holds b' cap (content ++ bs) (av - n).
Proof.
  intros Hh <- Hle Hf. pose proof Hh as [[Hp Hl] Hc Hb Ha]. unfold nghttp2_buf_avail in Ha. unfold buf_store.
  rewrite option_guard_True, Hf by lia. eexists. split; [done|]. by apply holds_write.
Qed.

Lemma buf_put_holds b cap content av bs : holds b cap content av -> (length bs <= av)%nat ->
  exists b', buf_put b bs = Some b' /\ holds b' cap (content ++ bs) (av - length bs).
Proof.
  intros Hh Hle. pose proof Hh as [[Hp Hl] Hc Hb Ha]. rewrite buf_put_Some by lia.
  eexists. split; [done|]. by apply holds_write.
Qed.

(** The chain before a frame is packed: the first chunk is empty, with room
    for the header in front and for [n] octets of payload behind. *)
Record frame_ready (s : nghttp2_bufs) (n : Z) : Prop := {
  fr_wf : bufs_wf s;
  fr_cur : bs_cur s = 0%nat;
  fr_head : exists b, bufs_head s = Some b /\ b_pos b = b_last b /\ (9 <= b_pos b)%nat /\
              n <= Z.of_nat (nghttp2_buf_avail b);
}.

(** The chain afterwards: one frame, [content], in the first chunk. *)
Record frame_packed (s : nghttp2_bufs) (content : bytes) : Prop := {
  fp_wf : bufs_wf s;
  fp_cur : bs_cur s = 0%nat;
  fp_bytes : bufs_bytes s = content;
}.

Lemma frame_ready_head s n : frame_ready s n ->
  exists b cap av, bufs_head s = Some b /\ holds b cap [] av /\ (9 <= b_pos b)%nat /\ n <= Z.of_nat av /\
    nghttp2_buf_avail b = av.
Proof.
  intros [Hwf Hcur (b & Hb & Hp & H9 & Hn)]. exists b, (length (b_mem b)), (nghttp2_buf_avail b).
  pose proof (wf_bufs _ Hwf) as Hok. assert (buf_ok b) as Hbo by exact (Forall_lookup_1 _ _ _ _ Hok Hb).
  split_and!; try done. split; try done. apply (buf_bytes_fresh (b_pos b)). by split.
Qed.

Lemma set_head_packed s n b b' cap content av : frame_ready s n -> bufs_head s = Some b ->
  holds b cap [] (nghttp2_buf_avail b) -> holds b' cap content av -> frame_packed (set_head_buf s b') content /\
  bufs_head (set_head_buf s b') = Some b'.
Proof.
  intros [Hwf Hcur _] Hb Hh Hh'. assert (set_head_buf s b' = set_cur_buf s b') as ->.
  { unfold set_head_buf, set_cur_buf. by rewrite Hcur. }
  assert (bs_chain s !! bs_cur s = Some b) as Hb' by by rewrite Hcur.
  assert (bufs_wf (set_cur_buf s b')) as Hwf'.
  { apply (bufs_wf_set _ b); [done|done|apply Hh'|]. by rewrite (ho_cap _ _ _ _ Hh'), (ho_cap _ _ _ _ Hh). }
  destruct (bufs_wf_chain _ Hwf) as (pre & b0 & post & Hat). pose proof (chain_at_lookup _ _ _ _ Hat) as E0.
  assert (b0 = b) as -> by congruence. pose proof (chain_at_set _ _ _ _ b' Hat) as Hat'.
  assert (pre = []) as -> by (destruct Hat as [_ Hl]; destruct pre; [done|simpl in Hl; lia]).
  split; [split; [done|done|]|].
  - rewrite (chain_at_bytes _ _ _ _ Hat').
    + apply Hh'.
    + rewrite <- (chain_at_later _ _ _ _ Hat'). apply Hwf'.
  - destruct Hat' as [Hc _]. unfold bufs_head. by rewrite Hc.
Qed.

(** Data that fit in the current chunk need no other. *)
Lemma bufs_add_fits malloc s content b av cap data : frame_packed s content -> bufs_head s = Some b ->
  holds b cap content av -> (length data <= av)%nat ->
  exists s' b', nghttp2_bufs_add malloc s data = Some (s', 0) /\ frame_packed s' (content ++ data) /\
    bufs_head s' = Some b' /\ holds b' cap (content ++ data) (av - length data).
Proof.
  intros [Hwf Hcur Hby] Hb Hh Hle. assert (bs_chain s !! bs_cur s = Some b) as Hb' by by rewrite Hcur.
  unfold nghttp2_bufs_add. cbn [bufs_add_loop]. destruct (Nat.eqb_spec (length data) 0) as [E|E].
  { apply nil_length_inv in E as ->. exists s, b. rewrite app_nil_r. simpl. rewrite Nat.sub_0_r. by split_and!. }
  rewrite Hb'. cbn [mbind option_bind]. rewrite (ho_avail _ _ _ _ Hh), Nat.min_r by lia.
  rewrite (proj2 (Nat.eqb_neq _ _)) by done. rewrite firstn_all.
  rewrite buf_put_Some by (rewrite ?(ho_avail _ _ _ _ Hh); apply Hh || lia). cbn [mbind option_bind].
  destruct (length data + bs_max_chunk s)%nat eqn:Ef; [lia|]. cbn [bufs_add_loop]. rewrite drop_all.
  cbn [length Nat.eqb]. eexists _, _. split; [done|]. rewrite <- (ho_avail _ _ _ _ Hh) in Hle.
  pose proof (bufs_appended_put s b data Hwf Hb' Hle) as Hap. split; [split; [apply Hap|done|]|].
  - by rewrite (ap_bytes _ _ _ Hap), Hby.
  - split; [|apply holds_write; [done|by rewrite <- (ho_avail _ _ _ _ Hh)]].
    unfold bufs_head, set_cur_buf. cbn [set_chain bs_chain]. rewrite Hcur. rewrite list_lookup_insert_eq; [done|].
    rewrite <- Hcur. apply Hwf.
Qed.

(** ** The frames that are not header blocks *)

Inductive control_frame :=
  | FrPriority (f : nghttp2_priority)
  | FrRstStream (f : nghttp2_rst_stream)
  | FrSettings (f : nghttp2_settings)
  | FrPing (f : nghttp2_ping)
  | FrGoaway (f : nghttp2_goaway)
  | FrWindowUpdate (f : nghttp2_window_update)
  | FrAltsvc (f : nghttp2_extension nghttp2_ext_altsvc)
  | FrOrigin (f : nghttp2_extension nghttp2_ext_origin)
  | FrPriorityUpdate (f : nghttp2_extension nghttp2_ext_priority_update).

Definition frame_hd_of (f : control_frame) : nghttp2_frame_hd :=
  match f with
  | FrPriority f => pr_hd f
  | FrRstStream f => rs_hd f
  | FrSettings f => st_hd f
  | FrPing f => pg_hd f
  | FrGoaway f => ga_hd f
  | FrWindowUpdate f => wu_hd f
  | FrAltsvc f => ext_hd f
  | FrOrigin f => ext_hd f
  | FrPriorityUpdate f => ext_hd f
  end.

Definition is_stream_id (n : Z) : Prop := 0 <= n < 2 ^ 31.

(** What the constructors make of arguments in range. *)
Inductive frame_valid : control_frame -> Prop :=
  | valid_priority sid dep w e : is_stream_id sid -> is_stream_id dep ->
      NGHTTP2_MIN_WEIGHT <= w <= NGHTTP2_MAX_WEIGHT -> e = 0 \/ e = 1 ->
      frame_valid (FrPriority (nghttp2_frame_priority_init sid (mk_pri_spec dep w e)))
  | valid_rst_stream sid code : is_stream_id sid -> is_u32 code ->
      frame_valid (FrRstStream (nghttp2_frame_rst_stream_init sid code))
  | valid_settings flags iv : is_u8 flags -> Forall (fun e => is_u16 (settings_id e) /\ is_u32 (iv_value e)) iv ->
      frame_valid (FrSettings (nghttp2_frame_settings_init flags iv))
  | valid_ping flags d : is_u8 flags -> length d = 8%nat -> frame_valid (FrPing (nghttp2_frame_ping_init flags (Some d)))
  | valid_goaway last code d : is_stream_id last -> is_u32 code ->
      frame_valid (FrGoaway (nghttp2_frame_goaway_init last code d))
  | valid_window_update flags sid inc : is_u8 flags -> is_stream_id sid -> is_stream_id inc ->
      frame_valid (FrWindowUpdate (nghttp2_frame_window_update_init flags sid inc))
  | valid_altsvc sid o v : is_stream_id sid -> is_u16 (zlen o) -> frame_valid (FrAltsvc (nghttp2_frame_altsvc_init sid o v))
  | valid_origin ov : Forall (fun o => o <> [] /\ is_u16 (zlen o)) ov -> frame_valid (FrOrigin (nghttp2_frame_origin_init ov))
  | valid_priority_update sid v : is_stream_id sid ->
      frame_valid (FrPriorityUpdate (nghttp2_frame_priority_update_init sid v)).

(** The octets of the payloads. *)
Definition pri_spec_bytes (p : nghttp2_priority_spec) : bytes :=
  uint32be (ps_stream_id p + 2 ^ 31 * ps_exclusive p) ++ [ps_weight p - 1].

Definition iv_bytes (e : nghttp2_settings_entry) : bytes := uint16be (settings_id e) ++ uint32be (iv_value e).

Definition origin_bytes (o : bytes) : bytes := uint16be (zlen o) ++ o.

Definition frame_payload (f : control_frame) : bytes :=
  match f with
  | FrPriority f => pri_spec_bytes (pr_spec f)
  | FrRstStream f => uint32be (rs_error_code f)
  | FrSettings f => concat (map iv_bytes (st_iv f))
  | FrPing f => pg_opaque_data f
  | FrGoaway f => uint32be (ga_last_stream_id f) ++ uint32be (ga_error_code f) ++ ga_opaque_data f
  | FrWindowUpdate f => uint32be (wu_increment f)
  | FrAltsvc f => origin_bytes (as_origin (ext_payload f)) ++ as_field_value (ext_payload f)
  | FrOrigin f => concat (map origin_bytes (or_ov (ext_payload f)))
  | FrPriorityUpdate f => uint32be (pu_stream_id (ext_payload f)) ++ pu_field_value (ext_payload f)
  end.

(** The pack function of each type; those that return nothing succeed. *)
Definition pack_frame (malloc : nat -> nat -> option bytes) (s : nghttp2_bufs) (f : control_frame)
    : option (nghttp2_bufs * Z) :=
  match f with
  | FrPriority f => (fun s => (s, 0)) <$> nghttp2_frame_pack_priority s f
  | FrRstStream f => (fun s => (s, 0)) <$> nghttp2_frame_pack_rst_stream s f
  | FrSettings f => nghttp2_frame_pack_settings s f
  | FrPing f => (fun s => (s, 0)) <$> nghttp2_frame_pack_ping s f
  | FrGoaway f => nghttp2_frame_pack_goaway malloc s f
  | FrWindowUpdate f => (fun s => (s, 0)) <$> nghttp2_frame_pack_window_update s f
  | FrAltsvc f => (fun s => (s, 0)) <$> nghttp2_frame_pack_altsvc malloc s f
  | FrOrigin f => nghttp2_frame_pack_origin s f
  | FrPriorityUpdate f => (fun s => (s, 0)) <$> nghttp2_frame_pack_priority_update malloc s f
  end.

(** The unpack function of the type in the header, on a frame that has only
    the header set. *)
Definition unpack_frame (malloc : nat -> nat -> option bytes) (call : nat) (hd : nghttp2_frame_hd) (payload : bytes)
    : option (control_frame * Z) :=
  if hd_type hd =? NGHTTP2_PRIORITY then
    f ← nghttp2_frame_unpack_priority_payload (mk_priority hd nghttp2_priority_spec_default_init) payload;
    Some (FrPriority f, 0)
  else if hd_type hd =? NGHTTP2_RST_STREAM then
    f ← nghttp2_frame_unpack_rst_stream_payload (mk_rst_stream hd 0) payload; Some (FrRstStream f, 0)
  else if hd_type hd =? NGHTTP2_SETTINGS then
    '(iv, _, rv) ← nghttp2_frame_unpack_settings_payload2 malloc call payload;
    Some (FrSettings (nghttp2_frame_unpack_settings_payload (mk_settings hd []) iv), rv)
  else if hd_type hd =? NGHTTP2_PING then
    f ← nghttp2_frame_unpack_ping_payload (mk_ping hd []) payload; Some (FrPing f, 0)
  else if hd_type hd =? NGHTTP2_GOAWAY then
    '(f, rv) ← nghttp2_frame_unpack_goaway_payload2 malloc call (mk_goaway hd 0 0 [] 0) payload;
    Some (FrGoaway f, rv)
  else if hd_type hd =? NGHTTP2_WINDOW_UPDATE then
    f ← nghttp2_frame_unpack_window_update_payload (mk_window_update hd 0 0) payload; Some (FrWindowUpdate f, 0)
  else if hd_type hd =? NGHTTP2_ALTSVC then
    '(f, rv) ← nghttp2_frame_unpack_altsvc_payload2 malloc call (mk_ext hd (mk_altsvc [] [])) payload;
    Some (FrAltsvc f, rv)
  else if hd_type hd =? NGHTTP2_ORIGIN then
    '(f, rv) ← nghttp2_frame_unpack_origin_payload malloc call (mk_ext hd (mk_origin [])) payload;
    Some (FrOrigin f, rv)
  else if hd_type hd =? NGHTTP2_PRIORITY_UPDATE then
    f ← nghttp2_frame_unpack_priority_update_payload (mk_ext hd (mk_priority_update 0 [])) payload;
    Some (FrPriorityUpdate f, 0)
  else None.

Lemma origin_payloadlen_acc ov n : origin_payloadlen ov n = n + zlen (concat (map origin_bytes ov)).
Proof.
  revert n. induction ov as [|o ov IH]; intros n; simpl; [lia|]. rewrite IH. unfold origin_bytes.
  rewrite !length_app. simpl length. lia.
Qed.

Lemma iv_bytes_length iv : length (concat (map iv_bytes iv)) = (6 * length iv)%nat.
Proof. induction iv as [|e iv IH]; simpl; [done|]. rewrite IH. lia. Qed.

Lemma frame_payload_length f : frame_valid f -> zlen (frame_payload f) = hd_length (frame_hd_of f).
Proof.
  intros Hv. destruct Hv; cbn [frame_payload frame_hd_of]; try done.
  - cbn [nghttp2_frame_settings_init st_iv st_hd nghttp2_frame_hd_init hd_length]. rewrite iv_bytes_length.
    unfold NGHTTP2_FRAME_SETTINGS_ENTRY_LENGTH. lia.
  - cbn [nghttp2_frame_ping_init pg_opaque_data]. rewrite take_ge by lia. by rewrite H0.
  - cbn [nghttp2_frame_goaway_init ga_opaque_data ga_hd ga_last_stream_id ga_error_code nghttp2_frame_hd_init hd_length].
    rewrite !length_app. simpl length. lia.
  - cbn [nghttp2_frame_altsvc_init ext_hd ext_payload as_origin as_field_value nghttp2_frame_hd_init hd_length].
    unfold origin_bytes. rewrite !length_app. simpl length. lia.
  - cbn [nghttp2_frame_origin_init ext_hd ext_payload or_ov nghttp2_frame_hd_init hd_length].
    by rewrite origin_payloadlen_acc.
  - cbn [nghttp2_frame_priority_update_init ext_hd ext_payload pu_field_value nghttp2_frame_hd_init hd_length].
    rewrite !length_app. simpl length. lia.
Qed.

Lemma frame_valid_hd f : frame_valid f -> hd_length (frame_hd_of f) < 2 ^ 24 -> hd_ok (frame_hd_of f).
Proof.
  intros Hv Hl. pose proof (frame_payload_length f Hv) as Hp. split; [lia|]. clear Hl Hp.
  destruct Hv; cbn; split_and!; try done; unfold is_stream_id in *; cint_lia.
Qed.

Lemma octet_or_128 c : is_u8 c -> c < 128 -> c .| 0x80 = c + 128.
Proof.
  intros Hc Hlt. assert (c < 128 -> c .| 0x80 = c + 128) as H; [|by apply H].
  assert (~ c < 128 \/ c .| 0x80 = c + 128) as [?|?]; [|done|done].
  revert c Hc Hlt. assert (forall c, is_u8 c -> ~ c < 128 \/ c .| 0x80 = c + 128) as H; [|intros; by apply H].
  apply (all_octets _ _). by vm_compute.
Qed.

Lemma octet_and_128 c : is_u8 c -> c .& 0x80 = if c <? 128 then 0 else 128.
Proof. revert c. apply (all_octets _ _). by vm_compute. Qed.

(** The exclusive flag is the bit above the stream identifier. *)
Lemma uint32be_exclusive n : is_stream_id n ->
  uint32be (n + 2 ^ 31) = [u8 (Z.shiftr n 24) .| 0x80; u8 (Z.shiftr n 16); u8 (Z.shiftr n 8); u8 n] /\
  u8 (Z.shiftr n 24) < 128.
Proof.
  intros [H0 H1]. unfold uint32be. rewrite !Z.shiftr_div_pow2 by lia.
  change (2 ^ 31) with (128 * 2 ^ 24) at 1. change (2 ^ 31) with (128 * 2 ^ 8 * 2 ^ 16) at 1.
  change (2 ^ 31) with (128 * 2 ^ 16 * 2 ^ 8) at 1. change (2 ^ 31) with (128 * 2 ^ 16 * 2 ^ 8) at 1.
  rewrite !Z.div_add by lia. assert (0 <= n / 2 ^ 24 < 128) as Hd.
  { split; [apply Z.div_pos; lia|apply Z.div_lt_upper_bound; lia]. }
  rewrite (u8_id (n / 2 ^ 24)) by cint_lia. rewrite octet_or_128 by cint_lia.
  split; [|lia]. f_equal; [by rewrite u8_id by cint_lia|]. unfold u8. f_equal; [|f_equal; [|f_equal]].
  - by rewrite Z.mod_add by lia.
  - change (128 * 2 ^ 16) with (128 * 2 ^ 8 * 2 ^ 8). by rewrite Z.mod_add by lia.
  - by rewrite Z.mod_add by lia.
Qed.

Lemma mem_write_first m off a l x : (off + S (length l) <= length m)%nat ->
  mem_write (mem_write m off (a :: l)) off [x] = mem_write m off (x :: l).
Proof.
  intros H. unfold mem_write. rewrite take_app_le, take_take, Nat.min_id by (rewrite length_take; lia).
  rewrite (drop_app_ge (take off m)) by (rewrite length_take; simpl; lia).
  rewrite length_take, Nat.min_l by lia. by replace (off + length [x] - off)%nat with 1%nat by (simpl; lia).
Qed.

Definition pri_spec_ok (p : nghttp2_priority_spec) : Prop :=
  is_stream_id (ps_stream_id p) /\ NGHTTP2_MIN_WEIGHT <= ps_weight p <= NGHTTP2_MAX_WEIGHT /\
  (ps_exclusive p = 0 \/ ps_exclusive p = 1).

Lemma pack_priority_spec_eq m off p : pri_spec_ok p -> (off + 5 <= length m)%nat ->
  nghttp2_frame_pack_priority_spec m off p = mem_write m off (pri_spec_bytes p).
Proof.
  intros (Hs & Hw & He) Hm. unfold nghttp2_frame_pack_priority_spec, pri_spec_bytes, nghttp2_put_uint32be.
  rewrite (u32_id (ps_stream_id p)) by (unfold is_stream_id in Hs; cint_lia).
  rewrite (u8_id (ps_weight p - 1)) by (unfold NGHTTP2_MIN_WEIGHT, NGHTTP2_MAX_WEIGHT in Hw; cint_lia).
  destruct He as [-> | ->]; cbn [Z.eqb negb].
  - rewrite Z.mul_0_r, Z.add_0_r. apply mem_write_more; simpl; lia.
  - rewrite Z.mul_1_r. destruct (uint32be_exclusive _ Hs) as [-> _].
    assert (mem_get (mem_write m off (uint32be (ps_stream_id p))) off = u8 (Z.shiftr (ps_stream_id p) 24)) as ->.
    { rewrite <- (Nat.add_0_r off) at 2. rewrite mem_get_write by (simpl; lia). done. }
    unfold uint32be. rewrite mem_write_first by (simpl; lia). apply mem_write_more; simpl; lia.
Qed.

Lemma assert_head_cur_ok s n : frame_ready s n -> assert_head_cur s = Some tt.
Proof. intros H. unfold assert_head_cur. by rewrite option_guard_True by apply H. Qed.

(** The first steps of every pack function: the header is in place and [n]
    octets may follow. *)
Lemma pack_start s n hd : frame_ready s n -> hd_ok hd ->
  exists b b' cap av, bufs_head s = Some b /\ nghttp2_buf_avail b = av /\ n <= Z.of_nat av /\
    holds b cap [] (nghttp2_buf_avail b) /\ buf_pack_hd b hd = Some b' /\ holds b' cap (frame_hd_bytes hd) av.
Proof.
  intros Hr Hhd. destruct (frame_ready_head _ _ Hr) as (b & cap & av & Hb & Hh & H9 & Hn & Hav).
  destruct (buf_pack_hd_holds b cap av hd Hhd Hh H9) as (b' & E & Hh').
  exists b, b', cap, av. by rewrite Hav.
Qed.

(** Packing a fixed number of octets behind the header. *)
Lemma pack_simple s hd n f bs : frame_ready s (Z.of_nat n) -> hd_ok hd -> length bs = n ->
  (forall m off, (off + n <= length m)%nat -> f m off = mem_write m off bs) ->
  exists s', (_ ← assert_head_cur s; buf ← bufs_head s; guard (n <= nghttp2_buf_avail buf)%nat;;
              buf ← buf_pack_hd buf hd; buf ← buf_store buf n f; Some (set_head_buf s buf)) = Some s' /\
    frame_packed s' (frame_hd_bytes hd ++ bs).
Proof.
  intros Hr Hhd Hl Hf. destruct (pack_start _ _ hd Hr Hhd) as (b & b' & cap & av & Hb & Hav & Hn & Hh & E & Hh').
  rewrite (assert_head_cur_ok _ _ Hr), Hb. cbn [mbind option_bind]. rewrite option_guard_True, E by lia.
  cbn [mbind option_bind]. destruct (buf_store_holds b' cap _ av n f bs Hh' Hl ltac:(lia) Hf) as (b2 & -> & Hh2).
  eexists. split; [done|]. by destruct (set_head_packed _ _ _ _ _ _ _ Hr Hb Hh Hh2).
Qed.

Lemma pack_priority_ok s sid p : pri_spec_ok p ->
  let f := nghttp2_frame_priority_init sid p in
  hd_ok (pr_hd f) -> frame_ready s 5 ->
  exists s', nghttp2_frame_pack_priority s f = Some s' /\ frame_packed s' (frame_hd_bytes (pr_hd f) ++ pri_spec_bytes p).
Proof.
  intros Hp f Hhd Hr. unfold nghttp2_frame_pack_priority.
  destruct (pack_simple s (pr_hd f) 5 (fun m last => nghttp2_frame_pack_priority_spec m last p) (pri_spec_bytes p) Hr Hhd)
    as (s' & E & Hs'); [done|intros; by apply pack_priority_spec_eq|].
  exists s'. split; [|done]. rewrite <- E. destruct (assert_head_cur s); [|done]. cbn [mbind option_bind].
  destruct (bufs_head s) as [b|]; [|done]. cbn [mbind option_bind]. unfold NGHTTP2_PRIORITY_SPECLEN.
  destruct (decide (5 <= nghttp2_buf_avail b)%nat).
  - by rewrite !option_guard_True by lia.
  - by rewrite !option_guard_False by lia.
Qed.

Lemma pack_settings_payload_eq iv m off : Forall (fun e => is_u16 (settings_id e)) iv ->
  (off + 6 * length iv <= length m)%nat ->
  nghttp2_frame_pack_settings_payload m off iv = mem_write m off (concat (map iv_bytes iv)).
Proof.
  intros H. revert m off. induction H as [|e iv He _ IH]; intros m off Hm; cbn [nghttp2_frame_pack_settings_payload].
  { unfold mem_write. simpl. by rewrite Nat.add_0_r, take_drop. }
  unfold nghttp2_put_uint16be, nghttp2_put_uint32be. simpl in Hm. rewrite (u16_id (settings_id e)) by done.
  rewrite mem_write_more by (simpl; lia). rewrite IH by (rewrite mem_write_length; simpl; lia).
  apply mem_write_more; [|done]. rewrite iv_bytes_length. simpl. lia.
Qed.

Lemma pack_settings_ok s f : frame_ready s (hd_length (st_hd f)) -> hd_ok (st_hd f) ->
  hd_length (st_hd f) = zlen (st_iv f) * 6 -> Forall (fun e => is_u16 (settings_id e)) (st_iv f) ->
  exists s', nghttp2_frame_pack_settings s f = Some (s', 0) /\
    frame_packed s' (frame_hd_bytes (st_hd f) ++ concat (map iv_bytes (st_iv f))).
Proof.
  intros Hr Hhd Hl Hiv. destruct (pack_start _ _ _ Hr Hhd) as (b & b' & cap & av & Hb & Hav & Hn & Hh & E & Hh').
  unfold nghttp2_frame_pack_settings. rewrite (assert_head_cur_ok _ _ Hr), Hb. cbn [mbind option_bind].
  rewrite (proj2 (Z.ltb_ge _ _)), E by lia. cbn [mbind option_bind].
  destruct (buf_store_holds b' cap _ av (6 * length (st_iv f))
    (fun m last => nghttp2_frame_pack_settings_payload m last (st_iv f)) (concat (map iv_bytes (st_iv f))) Hh')
    as (b2 & -> & Hh2); [apply iv_bytes_length|lia|intros; by apply pack_settings_payload_eq|].
  eexists. split; [done|]. by destruct (set_head_packed _ _ _ _ _ _ _ Hr Hb Hh Hh2).
Qed.

Lemma pack_ping_ok s f : frame_ready s 8 -> hd_ok (pg_hd f) -> length (pg_opaque_data f) = 8%nat ->
  exists s', nghttp2_frame_pack_ping s f = Some s' /\
    frame_packed s' (frame_hd_bytes (pg_hd f) ++ pg_opaque_data f).
Proof.
  intros Hr Hhd Hl. destruct (pack_start _ _ _ Hr Hhd) as (b & b' & cap & av & Hb & Hav & Hn & Hh & E & Hh').
  unfold nghttp2_frame_pack_ping. rewrite (assert_head_cur_ok _ _ Hr), Hb. cbn [mbind option_bind].
  rewrite option_guard_True, E by lia. cbn [mbind option_bind].
  destruct (buf_put_holds b' cap _ av (pg_opaque_data f) Hh') as (b2 & -> & Hh2); [lia|].
  eexists. split; [done|]. by destruct (set_head_packed _ _ _ _ _ _ _ Hr Hb Hh Hh2).
Qed.

Lemma store32_holds b cap content av n : holds b cap content av -> (4 <= av)%nat ->
  exists b', buf_store b 4 (fun m last => nghttp2_put_uint32be m last n) = Some b' /\
    holds b' cap (content ++ uint32be n) (av - 4).
Proof. intros. by apply buf_store_holds. Qed.

Lemma store16_holds b cap content av n : holds b cap content av -> (2 <= av)%nat ->
  exists b', buf_store b 2 (fun m last => nghttp2_put_uint16be m last n) = Some b' /\
    holds b' cap (content ++ uint16be n) (av - 2).
Proof. intros. by apply buf_store_holds. Qed.

Lemma pack_goaway_ok malloc s f : frame_ready s (8 + zlen (ga_opaque_data f)) -> hd_ok (ga_hd f) ->
  is_u32 (ga_last_stream_id f) ->
  exists s', nghttp2_frame_pack_goaway malloc s f = Some (s', 0) /\
    frame_packed s' (frame_hd_bytes (ga_hd f) ++
      uint32be (ga_last_stream_id f) ++ uint32be (ga_error_code f) ++ ga_opaque_data f).
Proof.
  intros Hr Hhd Hu. destruct (pack_start _ _ _ Hr Hhd) as (b & b' & cap & av & Hb & Hav & Hn & Hh & E & Hh').
  unfold nghttp2_frame_pack_goaway. rewrite (assert_head_cur_ok _ _ Hr), Hb. cbn [mbind option_bind]. rewrite E.
  cbn [mbind option_bind]. rewrite u32_id by done.
  destruct (store32_holds b' cap _ av (ga_last_stream_id f) Hh' ltac:(lia)) as (b2 & -> & Hh2).
  cbn [mbind option_bind].
  destruct (store32_holds b2 cap _ _ (ga_error_code f) Hh2 ltac:(lia)) as (b3 & -> & Hh3).
  cbn [mbind option_bind]. destruct (set_head_packed _ _ _ _ _ _ _ Hr Hb Hh Hh3) as [Hp Hb3].
  destruct (bufs_add_fits malloc _ _ _ _ _ (ga_opaque_data f) Hp Hb3 Hh3) as (s' & b4 & -> & Hp' & _); [lia|].
  cbn [mbind option_bind]. exists s'. split; [done|]. by rewrite <- !app_assoc in Hp'.
Qed.

Lemma pack_altsvc_ok malloc s f : let a := ext_payload f in
  frame_ready s (2 + zlen (as_origin a) + zlen (as_field_value a)) -> hd_ok (ext_hd f) -> is_u16 (zlen (as_origin a)) ->
  exists s', nghttp2_frame_pack_altsvc malloc s f = Some s' /\
    frame_packed s' (frame_hd_bytes (ext_hd f) ++ origin_bytes (as_origin a) ++ as_field_value a).
Proof.
  intros a Hr Hhd Hu. destruct (pack_start _ _ _ Hr Hhd) as (b & b' & cap & av & Hb & Hav & Hn & Hh & E & Hh').
  unfold nghttp2_frame_pack_altsvc. fold a. rewrite Hb. cbn [mbind option_bind]. rewrite option_guard_True, E by lia.
  cbn [mbind option_bind]. rewrite u16_id by done.
  destruct (store16_holds b' cap _ av (zlen (as_origin a)) Hh' ltac:(lia)) as (b2 & -> & Hh2).
  cbn [mbind option_bind]. destruct (set_head_packed _ _ _ _ _ _ _ Hr Hb Hh Hh2) as [Hp Hb3]. unfold bufs_add_assert.
  destruct (bufs_add_fits malloc _ _ _ _ _ (as_origin a) Hp Hb3 Hh2) as (s1 & b4 & -> & Hp' & Hb4 & Hh4); [lia|].
  cbn [mbind option_bind]. rewrite option_guard_True by done. cbn [mbind option_bind].
  destruct (bufs_add_fits malloc _ _ _ _ _ (as_field_value a) Hp' Hb4 Hh4) as (s2 & b5 & -> & Hp2 & _); [lia|].
  cbn [mbind option_bind]. rewrite option_guard_True by done. exists s2. split; [done|].
  unfold origin_bytes. rewrite <- !app_assoc in Hp2. by rewrite <- !app_assoc.
Qed.

Lemma pack_priority_update_ok malloc s f : let p := ext_payload f in
  frame_ready s (4 + zlen (pu_field_value p)) -> hd_ok (ext_hd f) -> is_u32 (pu_stream_id p) ->
  exists s', nghttp2_frame_pack_priority_update malloc s f = Some s' /\
    frame_packed s' (frame_hd_bytes (ext_hd f) ++ uint32be (pu_stream_id p) ++ pu_field_value p).
Proof.
  intros p Hr Hhd Hu. destruct (pack_start _ _ _ Hr Hhd) as (b & b' & cap & av & Hb & Hav & Hn & Hh & E & Hh').
  unfold nghttp2_frame_pack_priority_update. fold p. rewrite Hb. cbn [mbind option_bind]. rewrite option_guard_True, E by lia.
  cbn [mbind option_bind]. rewrite u32_id by done.
  destruct (store32_holds b' cap _ av (pu_stream_id p) Hh' ltac:(lia)) as (b2 & -> & Hh2).
  cbn [mbind option_bind]. destruct (set_head_packed _ _ _ _ _ _ _ Hr Hb Hh Hh2) as [Hp Hb3]. unfold bufs_add_assert.
  destruct (bufs_add_fits malloc _ _ _ _ _ (pu_field_value p) Hp Hb3 Hh2) as (s1 & b4 & -> & Hp' & _); [lia|].
  cbn [mbind option_bind]. rewrite option_guard_True by done. exists s1. split; [done|].
  by rewrite <- !app_assoc in Hp'.
Qed.

Lemma pack_origin_loop_ok ov b cap content av : holds b cap content av ->
  (length (concat (map origin_bytes ov)) <= av)%nat -> Forall (fun o => is_u16 (zlen o)) ov ->
  exists b', pack_origin_loop b ov = Some b' /\
    holds b' cap (content ++ concat (map origin_bytes ov)) (av - length (concat (map origin_bytes ov))).
Proof.
  intros Hh Hle Hov. revert b content av Hh Hle.
  induction Hov as [|o ov Ho _ IH]; intros b content av Hh Hle; cbn [pack_origin_loop].
  { exists b. simpl. by rewrite app_nil_r, Nat.sub_0_r. }
  cbn [map concat] in *. assert (length (origin_bytes o) = (2 + length o)%nat) as Hlo by done.
  rewrite length_app in Hle. rewrite u16_id by done.
  destruct (store16_holds b cap _ av (zlen o) Hh ltac:(lia)) as (b2 & -> & Hh2).
  cbn [mbind option_bind]. destruct (buf_put_holds b2 cap _ _ o Hh2) as (b3 & -> & Hh3); [lia|].
  cbn [mbind option_bind]. destruct (IH b3 _ _ Hh3) as (b4 & -> & Hh4); [lia|]. exists b4. split; [done|].
  rewrite length_app. unfold origin_bytes at 1. rewrite <- !app_assoc in Hh4. rewrite <- !app_assoc.
  replace (av - (length (origin_bytes o) + length (concat (map origin_bytes ov))))%nat
    with (av - 2 - length o - length (concat (map origin_bytes ov)))%nat by lia. done.
Qed.

Lemma pack_origin_ok s f : let ov := or_ov (ext_payload f) in
  frame_ready s (hd_length (ext_hd f)) -> hd_ok (ext_hd f) ->
  hd_length (ext_hd f) = zlen (concat (map origin_bytes ov)) -> Forall (fun o => is_u16 (zlen o)) ov ->
  exists s', nghttp2_frame_pack_origin s f = Some (s', 0) /\
    frame_packed s' (frame_hd_bytes (ext_hd f) ++ concat (map origin_bytes ov)).
Proof.
  intros ov Hr Hhd Hl Hov. destruct (pack_start _ _ _ Hr Hhd) as (b & b' & cap & av & Hb & Hav & Hn & Hh & E & Hh').
  unfold nghttp2_frame_pack_origin. fold ov. rewrite Hb. cbn [mbind option_bind]. rewrite (proj2 (Z.ltb_ge _ _)), E by lia.
  cbn [mbind option_bind]. destruct (pack_origin_loop_ok ov b' cap _ av Hh' ltac:(lia) Hov) as (b2 & -> & Hh2).
  cbn [mbind option_bind]. rewrite option_guard_True.
  2:{ rewrite <- buf_bytes_length, (ho_bytes _ _ _ _ Hh2), length_app, frame_hd_bytes_length by apply Hh2.
      unfold NGHTTP2_FRAME_HDLEN. lia. }
  eexists. split; [done|]. by destruct (set_head_packed _ _ _ _ _ _ _ Hr Hb Hh Hh2).
Qed.

(** Every pack function writes the header and the payload. *)
Lemma pack_frame_ok malloc s f : frame_valid f -> hd_length (frame_hd_of f) < 2 ^ 24 ->
  frame_ready s (hd_length (frame_hd_of f)) ->
  exists s', pack_frame malloc s f = Some (s', 0) /\
    frame_packed s' (frame_hd_bytes (frame_hd_of f) ++ frame_payload f).
Proof.
  intros Hv Hl Hr. pose proof (frame_valid_hd f Hv Hl) as Hhd. pose proof (frame_payload_length f Hv) as Hpl.
  destruct Hv; cbn [frame_hd_of pack_frame frame_payload] in *; unfold is_stream_id in *.
  - destruct (pack_priority_ok s sid (mk_pri_spec dep w e)) as (s' & -> & Hs'); [unfold pri_spec_ok, is_stream_id; cbn; tauto|done|done|]. by exists s'.
  - unfold nghttp2_frame_pack_rst_stream. match goal with |- context [buf_store _ 4 ?f] =>
      destruct (pack_simple s (rs_hd (nghttp2_frame_rst_stream_init sid code)) 4 f (uint32be code) Hr Hhd) as (s' & -> & Hs') end;
      [done|done|]. by exists s'.
  - apply pack_settings_ok; try done. eapply Forall_impl; [eassumption|by intros ? [? ?]].
  - destruct (pack_ping_ok s (nghttp2_frame_ping_init flags (Some d))) as (s' & -> & Hs'); [done|done| |by exists s'].
    cbn. rewrite length_take. lia.
  - apply pack_goaway_ok; [done|done|]. cbn. cint_lia.
  - unfold nghttp2_frame_pack_window_update. match goal with |- context [buf_store _ 4 ?f] =>
      destruct (pack_simple s (wu_hd (nghttp2_frame_window_update_init flags sid inc)) 4 f (uint32be inc) Hr Hhd) as (s' & -> & Hs') end;
      [done|intros; cbn; by rewrite u32_id by cint_lia|]. by exists s'.
  - destruct (pack_altsvc_ok malloc s (nghttp2_frame_altsvc_init sid o v)) as (s' & -> & Hs'); [done|done|done|]. by exists s'.
  - apply pack_origin_ok; try done. eapply Forall_impl; [eassumption|by intros ? [? ?]].
  - destruct (pack_priority_update_ok malloc s (nghttp2_frame_priority_update_init sid v)) as (s' & -> & Hs');
      [done|done|cbn; cint_lia|]. by exists s'.
Qed.

(** ** ORIGIN payloads *)

Definition origins_ok (os : list bytes) : Prop := Forall (fun o => is_u16 (zlen o)) os.

(** The origins a payload names; empty ones are skipped. *)
Definition named (os : list bytes) : list bytes := filter (fun o => o <> []) os.

(** The octets of the string area: each origin and its zero. *)
Definition area_size (os : list bytes) : nat := sum_list (map (fun o => length o + 1)%nat (named os)).

Lemma named_cons_empty os : named ([] :: os) = named os.
Proof. unfold named. by rewrite filter_cons_False by auto. Qed.

Lemma named_cons o os : o <> [] -> named (o :: os) = o :: named os.
Proof. intros H. unfold named. by rewrite filter_cons_True. Qed.

Lemma area_size_cons o os : o <> [] -> area_size (o :: os) = (length o + 1 + area_size os)%nat.
Proof. intros H. unfold area_size. by rewrite named_cons. Qed.

Lemma get16_octets a b rest : is_u8 a -> is_u8 b ->
  get16 (a :: b :: rest) 0 = Some (256 * a + b) /\ is_u16 (256 * a + b) /\ uint16be (256 * a + b) = [a; b].
Proof.
  intros Ha Hb. split_and!; [|cint_lia|].
  - unfold get16. rewrite option_guard_True by (simpl; lia). unfold nghttp2_get_uint16, mem_get. simpl nth.
    by rewrite shiftl_lor_add by (done || lia).
  - unfold uint16be. rewrite Z.shiftr_div_pow2 by lia. change (2 ^ 8) with 256.
    rewrite (Z.mul_comm 256), Z.div_add_l by lia. unfold u8. f_equal; [|f_equal].
    + rewrite Z.div_small by (unfold_width; lia). rewrite Z.add_0_r. by apply Z.mod_small.
    + rewrite Z.add_comm, Z.mod_add by (unfold_width; lia). by apply Z.mod_small.
Qed.

(** A payload of at least two octets starts with an entry of the length they give. *)
Lemma origins_inv a b rest os : is_u8 a -> is_u8 b -> origins_ok os ->
  a :: b :: rest = concat (map origin_bytes os) ->
  exists o os', os = o :: os' /\ zlen o = 256 * a + b /\ origins_ok os' /\ rest = o ++ concat (map origin_bytes os').
Proof.
  intros Ha Hb Hok E. destruct os as [|o os]; [done|]. apply Forall_cons in Hok as [Ho Hok].
  exists o, os. split; [done|]. cbn [map concat] in E. unfold origin_bytes at 1 in E.
  destruct (get16_octets a b rest Ha Hb) as (E1 & _ & _). rewrite E, <- app_assoc in E1.
  rewrite get16_head in E1 by done. split; [congruence|]. split; [done|].
  by injection E as _ _ ->.
Qed.

(** The first pass decides whether the payload is well formed. *)
Lemma origin_count_spec fuel p nov len : is_bytes p -> (length p < fuel)%nat ->
  (exists os, origins_ok os /\ p = concat (map origin_bytes os) /\
     origin_count fuel p nov len = Some (inl (nov + length (named os), len + area_size os)%nat)) \/
  (origin_count fuel p nov len = Some (inr NGHTTP2_ERR_FRAME_SIZE_ERROR) /\
   ~ exists os, origins_ok os /\ p = concat (map origin_bytes os)).
Proof.
  revert p nov len. induction fuel as [|fuel IH]; intros p nov len Hb Hf; [lia|]. cbn [origin_count].
  destruct p as [|a p]; [left; exists []; split_and!; [constructor|done|]; cbn; by rewrite !Nat.add_0_r|].
  destruct p as [|b p].
  { right. split; [done|]. intros ([|o os] & _ & E); [done|]. by injection E. }
  apply Forall_cons in Hb as [Ha Hb]. apply Forall_cons in Hb as [Hb Hp].
  destruct (get16_octets a b p Ha Hb) as (-> & Hu & Eu). cbn [length Nat.eqb Nat.ltb Nat.leb mbind option_bind drop]. cbv zeta. rewrite drop_0.
  simpl in Hf. destruct (Z.eqb_spec (256 * a + b) 0) as [E0|E0].
  - destruct (IH p nov len Hp ltac:(lia)) as [(os & Hok & -> & E)|(E & Hno)].
    + left. exists ([] :: os). split; [by constructor|]. unfold area_size. rewrite named_cons_empty. split; [|done].
      cbn [map concat]. change (origin_bytes []) with (uint16be 0). by rewrite <- E0, Eu.
    + right. split; [done|]. intros (os & Hok & E1). apply origins_inv in E1 as (o & os' & -> & Hl & Hok' & ->); [|done..].
      rewrite E0 in Hl. destruct o; [|done]. apply Hno. by exists os'.
  - destruct (Z.ltb_spec (zlen p) (256 * a + b)) as [Hlt|Hge].
    + right. split; [done|]. intros (os & Hok & E1). apply origins_inv in E1 as (o & os' & -> & Hl & Hok' & ->); [|done..].
      rewrite length_app in Hlt. lia.
    + assert (0 <= 256 * a + b) by (unfold_width; lia).
      remember (Z.to_nat (256 * a + b)) as n eqn:Hn. assert (n <= length p)%nat by lia.
      assert (take n p <> []) as Hne by (intros E1; apply (f_equal length) in E1; rewrite length_take in E1; simpl in E1; lia).
      assert (zlen (take n p) = 256 * a + b) as Hl by (rewrite length_take; lia).
      destruct (IH (drop n p) (S nov) (len + (n + 1))%nat (is_bytes_drop _ _ Hp) ltac:(rewrite length_drop; lia))
        as [(os & Hok & E1 & E)|(E & Hno)].
      * left. exists (take n p :: os). split; [constructor; [by rewrite Hl|done]|]. split.
        -- cbn [map concat]. unfold origin_bytes at 1. rewrite Hl, Eu, <- app_assoc, <- E1, take_drop. done.
        -- rewrite E, area_size_cons, named_cons by done. cbn [length]. rewrite length_take.
           do 3 f_equal; lia.
      * right. split; [done|]. intros (os & Hok & E1). apply origins_inv in E1 as (o & os' & -> & Hl' & Hok' & ->); [|done..].
        apply Hno. exists os'. split; [done|]. rewrite drop_app_length'; [done|lia].
Qed.

(** The second pass copies the named origins into the area. *)
Lemma origin_fill_spec os fuel room area dst : origins_ok os ->
  (length (concat (map origin_bytes os)) < fuel)%nat -> (length (named os) <= room)%nat ->
  (dst + area_size os <= length area)%nat ->
  exists area' ov, origin_fill fuel (concat (map origin_bytes os)) room area dst = Some (area', ov) /\
    length area' = length area /\ take dst area' = take dst area /\
    map (fun '(off, n) => mem_slice area' off n) ov = named os.
Proof.
  intros Hok. revert fuel room area dst. induction Hok as [|o os Ho Hok IH]; intros fuel room area dst Hf Hroom Hlen.
  { destruct fuel; [simpl in Hf; lia|]. by exists area, []. }
  cbn [map concat] in *. assert (length (origin_bytes o) = (2 + length o)%nat) as Hlo by done.
  rewrite length_app in Hf. destruct fuel as [|fuel]; [lia|]. cbn [origin_fill].
  rewrite (proj2 (Nat.eqb_neq _ _)) by (rewrite length_app; lia).
  change (origin_bytes o ++ concat (map origin_bytes os)) with
    (uint16be (zlen o) ++ o ++ concat (map origin_bytes os)). rewrite get16_head by done. cbn [mbind option_bind].
  rewrite !(drop_app_length' (uint16be _)) by done. destruct (Z.eqb_spec (zlen o) 0) as [E|E].
  - destruct o; [|done]. unfold area_size in *. rewrite named_cons_empty in *. apply IH; [simpl in Hf; lia|done..].
  - assert (o <> []) as Hne by (intros ->; done). rewrite area_size_cons in Hlen by done.
    rewrite named_cons in * by done. cbn [length] in *. rewrite Nat2Z.id.
    rewrite !option_guard_True by (rewrite ?length_app; lia). rewrite take_app_length, drop_app_length.
    set (area2 := mem_write (mem_write area dst o) (dst + length o) [0]).
    assert (length area2 = length area) as Hl2.
    { unfold area2. rewrite !mem_write_length; [done|lia|]. rewrite mem_write_length; simpl; lia. }
    destruct (IH fuel (room - 1)%nat area2 (dst + (length o + 1))%nat) as (area' & ov & -> & Hl' & Ht & Hm); [lia|lia|lia|].
    cbn [mbind option_bind]. eexists area', _. split; [done|]. split; [lia|].
    assert (take (dst + (length o + 1)) area2 = take dst area ++ o ++ [0]) as Ha2.
    { unfold area2. rewrite mem_write_more by (simpl; lia). unfold mem_write.
      rewrite take_app_ge by (rewrite length_take; lia). rewrite length_take, Nat.min_l by lia.
      replace (dst + (length o + 1) - dst)%nat with (length (o ++ [0])) by (rewrite length_app; simpl; lia).
      by rewrite take_app_length. }
    split.
    + assert (take dst area' = take dst (take (dst + (length o + 1)) area')) as -> by (rewrite take_take; f_equal; lia).
      rewrite Ht, Ha2. rewrite take_app_le, take_take, Nat.min_id by (rewrite length_take; lia). done.
    + cbn [map]. f_equal; [|done]. unfold mem_slice.
      assert (take (length o) (drop dst area') = take (length o) (drop dst (take (dst + (length o + 1)) area'))) as ->.
      { rewrite <- take_drop_commute, take_take. f_equal. lia. }
      rewrite Ht, Ha2. rewrite drop_app_length' by (rewrite length_take; lia). by rewrite take_app_length.
Qed.

(** A payload is the encoding of one list only. *)
Lemma origins_inj os os' : origins_ok os -> origins_ok os' ->
  concat (map origin_bytes os) = concat (map origin_bytes os') -> os = os'.
Proof.
  intros Hok. revert os'. induction Hok as [|o os Ho Hok IH]; intros os' Hok' E.
  { destruct os'; [done|]. discriminate E. }
  cbn [map concat] in E. unfold origin_bytes at 1 in E. unfold uint16be in E. cbn [app] in E.
  apply origins_inv in E as (o' & os2 & -> & Hl & Hok2 & E); [|apply u8_range..|done].
  assert (256 * u8 (Z.shiftr (zlen o) 8) + u8 (zlen o) = zlen o) as E8.
  { rewrite <- (get_uint16_octets (zlen o)) at 3 by done. by rewrite shiftl_lor_add by (apply u8_range || lia). }
  apply app_inj_1 in E as [-> E]; [|lia]. f_equal. by apply IH.
Qed.

(** Both passes together. *)
Lemma unpack_origin_passes malloc `{!Allocator malloc} call f os : origins_ok os ->
  is_bytes (concat (map origin_bytes os)) ->
  nghttp2_frame_unpack_origin_payload malloc call f (concat (map origin_bytes os)) =
    if (length (named os) =? 0)%nat then Some (mk_ext (ext_hd f) (mk_origin []), 0)
    else match malloc call (area_size os + length (named os) * sizeof_origin_entry)%nat with
         | None => Some (f, NGHTTP2_ERR_NOMEM)
         | Some _ => Some (mk_ext (ext_hd f) (mk_origin (named os)), 0)
         end.
Proof.
  intros Hok Hb. unfold nghttp2_frame_unpack_origin_payload.
  destruct (origin_count_spec (S (length (concat (map origin_bytes os)))) _ 0 0 Hb ltac:(lia)) as
    [(os' & Hok' & E & ->)|(_ & Hno)]; [|by destruct Hno; exists os].
  apply origins_inj in E; [|done..]. subst os'. cbn [mbind option_bind Nat.add].
  destruct (Nat.eqb_spec (length (named os)) 0) as [?|Hne]; [done|].
  destruct (malloc call _) as [m|] eqn:Em; [|done]. apply malloc_length in Em.
  destruct (origin_fill_spec os (S (length (concat (map origin_bytes os)))) (length (named os))
    (drop (length (named os) * sizeof_origin_entry) m) 0) as (area' & ov & -> & _ & _ & Hm); [done|lia|lia| |].
  - rewrite length_drop. lia.
  - cbn [mbind option_bind]. by rewrite Hm.
Qed.

(** ** Unpacking what was packed *)

Lemma unpack_priority_spec_bytes p rest : pri_spec_ok p ->
  nghttp2_frame_unpack_priority_spec (pri_spec_bytes p ++ rest) = Some p.
Proof.
  intros (Hs & Hw & He). unfold nghttp2_frame_unpack_priority_spec. destruct p as [n w e].
  unfold pri_spec_bytes. cbn [ps_stream_id ps_weight ps_exclusive] in *. rewrite <- app_assoc.
  rewrite get32_head by (unfold is_stream_id in Hs; destruct He as [-> | ->]; cint_lia). cbn [mbind option_bind].
  unfold nghttp2_priority_spec_init, NGHTTP2_STREAM_ID_MASK. rewrite land_ones_mod by lia.
  replace ((n + 2 ^ 31 * e) mod 2 ^ 31) with n.
  2:{ rewrite Z.mul_comm, Z.mod_add by lia. symmetry. by apply Z.mod_small. }
  destruct (uint32be_exclusive n Hs) as [E1 Hlt]. pose proof (u8_range (Z.shiftr n 24)) as Hu.
  destruct He as [-> | ->].
  - rewrite Z.mul_0_r, Z.add_0_r. cbn [uint32be app lookup list_lookup mbind option_bind].
    rewrite octet_and_128 by done. rewrite (proj2 (Z.ltb_lt _ 128)) by done. cbn. f_equal. f_equal. lia.
  - rewrite Z.mul_1_r, E1. cbn [uint32be app lookup list_lookup mbind option_bind].
    rewrite octet_or_128 by done. rewrite octet_and_128 by cint_lia. rewrite (proj2 (Z.ltb_ge _ 128)) by cint_lia. cbn. f_equal. f_equal. lia.
Qed.

Lemma unpack_settings_loop_bytes iv : Forall (fun e => is_u16 (settings_id e) /\ is_u32 (iv_value e)) iv ->
  unpack_settings_loop (length iv) (concat (map iv_bytes iv)) = Some iv.
Proof.
  induction 1 as [|[id v] iv [Hi Hv] _ IH]; [done|]. cbn [length unpack_settings_loop map concat settings_id iv_value] in *.
  unfold nghttp2_frame_unpack_settings_entry.
  change (iv_bytes (mk_iv id v) ++ concat (map iv_bytes iv)) with (uint16be id ++ uint32be v ++ concat (map iv_bytes iv)).
  rewrite get16_head by done. cbn [mbind option_bind]. rewrite get32_at by done. cbn [mbind option_bind].
  change (drop 6 (uint16be id ++ uint32be v ++ concat (map iv_bytes iv))) with (drop 0 (concat (map iv_bytes iv))).
  rewrite drop_0, IH. done.
Qed.

Lemma unpack_goaway_bytes malloc `{!Allocator malloc} call hd last code d : is_stream_id last -> is_u32 code ->
  (forall n, malloc call n <> None) ->
  nghttp2_frame_unpack_goaway_payload2 malloc call (mk_goaway hd 0 0 [] 0) (uint32be last ++ uint32be code ++ d) =
    Some (mk_goaway hd last code d 0, 0).
Proof.
  intros Hl Hc Hm. unfold nghttp2_frame_unpack_goaway_payload2.
  assert (forall g, nghttp2_frame_unpack_goaway_payload (mk_goaway hd 0 0 [] 0) (uint32be last ++ uint32be code ++ d) g =
    Some (mk_goaway hd last code g 0)) as Hg.
  { intros g. unfold nghttp2_frame_unpack_goaway_payload. rewrite get32_head by (unfold is_stream_id in Hl; cint_lia).
    cbn [mbind option_bind]. rewrite get32_at by done. cbn [mbind option_bind ga_hd ga_reserved].
    unfold NGHTTP2_STREAM_ID_MASK. by rewrite land_31. }
  rewrite !length_app. change (length (uint32be last)) with 4%nat. change (length (uint32be code)) with 4%nat.
  destruct d as [|c d]; [by rewrite Hg|].
  rewrite (proj2 (Nat.ltb_lt _ _)), (proj2 (Nat.eqb_neq _ _)) by (simpl; lia).
  destruct (malloc call _) as [m|] eqn:E; [|by destruct (Hm _ E)]. apply malloc_length in E. rewrite Hg.
  cbn [mbind option_bind]. do 3 f_equal. unfold mem_slice.
  replace (4 + (4 + length (c :: d)) - 8)%nat with (length (c :: d)) in * by lia.
  change (drop 8 (uint32be last ++ uint32be code ++ c :: d)) with (c :: d). rewrite firstn_all, mem_write_0.
  rewrite drop_ge by lia. apply app_nil_r.
Qed.

Lemma unpack_altsvc_bytes malloc `{!Allocator malloc} call hd o v : is_u16 (zlen o) ->
  (forall n, malloc call n <> None) ->
  nghttp2_frame_unpack_altsvc_payload2 malloc call (mk_ext hd (mk_altsvc [] [])) (origin_bytes o ++ v) =
    Some (mk_ext hd (mk_altsvc o v), 0).
Proof.
  intros Ho Hm. unfold nghttp2_frame_unpack_altsvc_payload2, origin_bytes. rewrite <- app_assoc.
  rewrite (proj2 (Nat.ltb_ge _ _)) by (rewrite length_app; simpl; lia). rewrite get16_head by done.
  cbn [mbind option_bind]. destruct (malloc call _) as [m|] eqn:E; [|by destruct (Hm _ E)]. apply malloc_length in E.
  change (drop 2 (uint16be (zlen o) ++ o ++ v)) with (o ++ v). rewrite mem_write_0, drop_ge, app_nil_r.
  2:{ rewrite E, !length_app. simpl. lia. }
  unfold nghttp2_frame_unpack_altsvc_payload. rewrite option_guard_True by (rewrite length_app; lia).
  rewrite Nat2Z.id, take_app_length, drop_app_length. done.
Qed.

Lemma named_all os : Forall (fun o => o <> []) os -> named os = os.
Proof. unfold named. induction 1; [done|]. rewrite filter_cons_True by done. by f_equal. Qed.

(** Where the payload carries octets of the caller, they are octets. *)
Definition frame_octets (f : control_frame) : Prop := is_bytes (frame_payload f).

Lemma unpack_frame_ok malloc `{!Allocator malloc} call f : frame_valid f -> frame_octets f ->
  (forall n, malloc call n <> None) ->
  unpack_frame malloc call (frame_hd_of f) (frame_payload f) = Some (f, 0).
Proof.
  unfold frame_octets. intros Hv Hb Hm. destruct Hv; cbn [frame_hd_of frame_payload] in *.
  - unfold unpack_frame. cbn [nghttp2_frame_priority_init pr_hd nghttp2_frame_hd_init hd_type Z.eqb NGHTTP2_PRIORITY Pos.eqb].
    unfold nghttp2_frame_unpack_priority_payload. rewrite <- (app_nil_r (pri_spec_bytes _)).
    rewrite unpack_priority_spec_bytes; [done|]. unfold pri_spec_ok. cbn. tauto.
  - unfold unpack_frame. cbn. rewrite <- (app_nil_r (uint32be _)).
    unfold nghttp2_frame_unpack_rst_stream_payload. by rewrite get32_head.
  - unfold unpack_frame, nghttp2_frame_unpack_settings_payload2.
    cbn [nghttp2_frame_settings_init st_hd st_iv nghttp2_frame_hd_init hd_type Z.eqb NGHTTP2_PRIORITY NGHTTP2_RST_STREAM NGHTTP2_SETTINGS Pos.eqb].
    rewrite iv_bytes_length. replace (Z.to_nat (Z.of_nat (6 * length iv) / NGHTTP2_FRAME_SETTINGS_ENTRY_LENGTH)) with (length iv).
    2:{ unfold NGHTTP2_FRAME_SETTINGS_ENTRY_LENGTH. rewrite Nat2Z.inj_mul, Z.mul_comm, Z.div_mul by lia. lia. }
    destruct (Nat.eqb_spec (length iv) 0) as [E|E]; [by apply nil_length_inv in E as ->|].
    destruct (malloc call _) as [m|] eqn:Em; [|by destruct (Hm _ Em)]. by rewrite unpack_settings_loop_bytes.
  - unfold unpack_frame, nghttp2_frame_unpack_ping_payload. cbn -[take]. rewrite take_ge by lia.
    rewrite option_guard_True, take_ge by lia. unfold nghttp2_frame_ping_init. by rewrite take_ge by lia.
  - unfold unpack_frame. cbn [nghttp2_frame_goaway_init ga_hd ga_last_stream_id ga_error_code ga_opaque_data].
    cbn [nghttp2_frame_hd_init hd_type Z.eqb NGHTTP2_PRIORITY NGHTTP2_RST_STREAM NGHTTP2_SETTINGS NGHTTP2_PING NGHTTP2_GOAWAY Pos.eqb].
    by rewrite unpack_goaway_bytes.
  - unfold unpack_frame. cbn -[uint32be Z.pow]. unfold nghttp2_frame_unpack_window_update_payload.
    rewrite <- (app_nil_r (uint32be _)), get32_head by (unfold is_stream_id in *; cint_lia).
    cbn [mbind option_bind]. unfold NGHTTP2_WINDOW_SIZE_INCREMENT_MASK. by rewrite land_31.
  - unfold unpack_frame. cbn [nghttp2_frame_altsvc_init ext_hd ext_payload as_origin as_field_value].
    cbn [nghttp2_frame_hd_init hd_type Z.eqb NGHTTP2_PRIORITY NGHTTP2_RST_STREAM NGHTTP2_SETTINGS NGHTTP2_PING NGHTTP2_GOAWAY
      NGHTTP2_WINDOW_UPDATE NGHTTP2_ALTSVC Pos.eqb]. by rewrite unpack_altsvc_bytes.
  - unfold unpack_frame. cbn [nghttp2_frame_origin_init ext_hd ext_payload or_ov].
    cbn [nghttp2_frame_hd_init hd_type Z.eqb NGHTTP2_PRIORITY NGHTTP2_RST_STREAM NGHTTP2_SETTINGS NGHTTP2_PING NGHTTP2_GOAWAY
      NGHTTP2_WINDOW_UPDATE NGHTTP2_ALTSVC NGHTTP2_ORIGIN Pos.eqb].
    rewrite unpack_origin_passes; [|done|eapply Forall_impl; [eassumption|by intros ? [? ?]]|done].
    rewrite named_all by (eapply Forall_impl; [eassumption|by intros ? [? ?]]).
    destruct (Nat.eqb_spec (length ov) 0) as [E|E]; [by apply nil_length_inv in E as ->|].
    destruct (malloc call _) as [m|] eqn:Em; [done|by destruct (Hm _ Em)].
  - unfold unpack_frame. cbn [nghttp2_frame_priority_update_init ext_hd ext_payload pu_stream_id pu_field_value].
    cbn [nghttp2_frame_hd_init hd_type Z.eqb NGHTTP2_PRIORITY NGHTTP2_RST_STREAM NGHTTP2_SETTINGS NGHTTP2_PING NGHTTP2_GOAWAY
      NGHTTP2_WINDOW_UPDATE NGHTTP2_ALTSVC NGHTTP2_ORIGIN NGHTTP2_PRIORITY_UPDATE Pos.eqb].
    unfold nghttp2_frame_unpack_priority_update_payload.
    rewrite option_guard_True by (rewrite length_app; simpl; lia).
    rewrite get32_head by (unfold is_stream_id in *; cint_lia). cbn [mbind option_bind].
    unfold NGHTTP2_STREAM_ID_MASK. rewrite land_31 by done. rewrite length_app.
    change (length (uint32be sid)) with 4%nat. change (drop 4 (uint32be sid ++ v)) with v. by destruct v.
Qed.

(** C33: Frames survive the wire.  Packing a frame made by its constructor from
    arguments in range into an empty chunk with room for it succeeds, and the
    chain holds the nine octets of the header followed by a payload of the length
    the header says; unpacking those octets at the other end gives the header
    and the frame back, field by field.  Covers PRIORITY, RST_STREAM, SETTINGS,
    PING, GOAWAY, WINDOW_UPDATE, ALTSVC, ORIGIN and PRIORITY_UPDATE. *)
Theorem frame_roundtrip malloc `{!Allocator malloc} call s f :
  frame_valid f -> frame_octets f -> hd_length (frame_hd_of f) < 2 ^ 24 ->
  frame_ready s (hd_length (frame_hd_of f)) -> (forall n, malloc call n <> None) ->
  exists s' payload,
    pack_frame malloc s f = Some (s', 0) /\ bufs_wf s' /\
    bufs_bytes s' = frame_hd_bytes (frame_hd_of f) ++ payload /\ zlen payload = hd_length (frame_hd_of f) /\
    nghttp2_frame_unpack_frame_hd (bufs_bytes s') = Some (frame_hd_of f) /\
    unpack_frame malloc call (frame_hd_of f) payload = Some (f, 0).
Proof.
  intros Hv Hb Hl Hr Hm. destruct (pack_frame_ok malloc s f Hv Hl Hr) as (s' & E & [Hwf _ Hby]).
  exists s', (frame_payload f). split_and!; [done|done|done|by apply frame_payload_length| |by apply unpack_frame_ok].
  rewrite Hby. apply unpack_frame_hd_bytes. by apply frame_valid_hd.
Qed.

(** A SETTINGS frame with two entries. *)
Lemma frame_roundtrip_witness :
  exists s s' payload, nghttp2_bufs_init3 zero_malloc 0 64 1 1 10 = inl s /\
    let f := nghttp2_frame_settings_init 0 [mk_iv 1 4096; mk_iv 4 65535] in
    nghttp2_frame_pack_settings s f = Some (s', 0) /\
    bufs_bytes s' = [0; 0; 12; 4; 0; 0; 0; 0; 0] ++ payload /\ length payload = 12%nat /\
    unpack_frame zero_malloc 0 (st_hd f) payload = Some (FrSettings f, 0).
Proof.
  destruct (nghttp2_bufs_init3 zero_malloc 0 64 1 1 10) as [s|e] eqn:Es; [|vm_compute in Es; discriminate].
  destruct (bufs_init3_spec zero_malloc 0 64 1 1 10 s Es) as (Hwf & _); [lia|].
  assert (frame_ready s 12) as Hr.
  { split; [exact Hwf|by injection Es as <-|]. eexists. split; [by injection Es as <-|]. split_and!; [done|simpl; lia|].
    injection Es as <-. vm_compute. discriminate. }
  destruct (frame_roundtrip zero_malloc 0 s (FrSettings (nghttp2_frame_settings_init 0 [mk_iv 1 4096; mk_iv 4 65535])))
    as (s' & payload & E1 & _ & E2 & E3 & _ & E4).
  - constructor; [by vm_compute|]. repeat constructor; by vm_compute.
  - apply (bool_decide_unpack _). by vm_compute.
  - by vm_compute.
  - exact Hr.
  - intros n. discriminate.
  - exists s, s', payload. split; [reflexivity|]. cbv zeta. split_and!; [exact E1|exact E2| |exact E4].
    change (hd_length _) with 12 in E3. lia.
Defined.

(** ORIGIN payloads are parsed exactly.  On any octets the two passes
    return: a payload that is a sequence of entries gives the origins that are
    not empty, copied into one block of just the size asked for without
    overrunning it; any other payload is a frame size error, and running out
    of memory is reported.  No read goes past the payload. *)
Theorem frame_unpack_origin_spec malloc `{!Allocator malloc} call f payload :
  is_bytes payload ->
  (forall os, origins_ok os -> payload = concat (map origin_bytes os) ->
     nghttp2_frame_unpack_origin_payload malloc call f payload =
       if (length (named os) =? 0)%nat then Some (mk_ext (ext_hd f) (mk_origin []), 0)
       else match malloc call (area_size os + length (named os) * sizeof_origin_entry)%nat with
            | None => Some (f, NGHTTP2_ERR_NOMEM)
            | Some _ => Some (mk_ext (ext_hd f) (mk_origin (named os)), 0)
            end) /\
  ((~ exists os, origins_ok os /\ payload = concat (map origin_bytes os)) ->
     nghttp2_frame_unpack_origin_payload malloc call f payload = Some (f, NGHTTP2_ERR_FRAME_SIZE_ERROR)).
Proof.
  intros Hb. split.
  - intros os Hok ->. by apply unpack_origin_passes.
  - intros Hno. unfold nghttp2_frame_unpack_origin_payload.
    destruct (origin_count_spec (S (length payload)) payload 0 0 Hb ltac:(lia)) as [(os & Hok & E & _)|(-> & _)]; [|done].
    destruct Hno. by exists os.
Qed.

Lemma frame_unpack_origin_spec_witness :
  nghttp2_frame_unpack_origin_payload zero_malloc 0 (nghttp2_frame_origin_init [])
    [0; 2; 97; 98; 0; 0; 0; 1; 99] =
  Some (mk_ext (ext_hd (nghttp2_frame_origin_init [])) (mk_origin [[97; 98]; [99]]), 0).
Proof.
  destruct (frame_unpack_origin_spec zero_malloc 0 (nghttp2_frame_origin_init []) [0; 2; 97; 98; 0; 0; 0; 1; 99])
    as [H _]; [apply (bool_decide_unpack _); by vm_compute|].
  rewrite (H [[97; 98]; []; [99]]); [reflexivity| |reflexivity].
  repeat constructor; by vm_compute.
Defined.

(** The result for a short ALTSVC payload is positive, not one of the negative
    error codes the header promises. *)
Lemma altsvc_payload2_short malloc call f : 
  nghttp2_frame_unpack_altsvc_payload2 malloc call f [0] = Some (f, 6).
Proof. done. Qed.

(** The settings a peer may send (RFC 9113, section 6.5.2). *)
Definition iv_acceptable (e : nghttp2_settings_entry) : Prop :=
  (settings_id e = NGHTTP2_SETTINGS_ENABLE_PUSH \/ settings_id e = NGHTTP2_SETTINGS_ENABLE_CONNECT_PROTOCOL \/
   settings_id e = NGHTTP2_SETTINGS_NO_RFC7540_PRIORITIES -> iv_value e = 0 \/ iv_value e = 1) /\
  (settings_id e = NGHTTP2_SETTINGS_INITIAL_WINDOW_SIZE -> iv_value e <= NGHTTP2_MAX_WINDOW_SIZE) /\
  (settings_id e = NGHTTP2_SETTINGS_MAX_FRAME_SIZE ->
     NGHTTP2_MAX_FRAME_SIZE_MIN <= iv_value e <= NGHTTP2_MAX_FRAME_SIZE_MAX).

Lemma iv_check_spec iv : nghttp2_iv_check iv = true <-> Forall iv_acceptable iv.
Proof.
  induction iv as [|[id v] iv IH]; [done|]. rewrite Forall_cons, <- IH. cbn [nghttp2_iv_check]. unfold iv_acceptable.
  unfold NGHTTP2_SETTINGS_ENABLE_PUSH, NGHTTP2_SETTINGS_ENABLE_CONNECT_PROTOCOL, NGHTTP2_SETTINGS_NO_RFC7540_PRIORITIES,
    NGHTTP2_SETTINGS_INITIAL_WINDOW_SIZE, NGHTTP2_SETTINGS_MAX_FRAME_SIZE. cbn [settings_id iv_value].
  destruct (nghttp2_iv_check iv).
  all: destruct (Z.eqb_spec id 2) as [-> |]; [cbn; repeat bcase; cbn; split; intros; split_and?; (done || lia)|].
  all: destruct (Z.eqb_spec id 4) as [-> |]; [cbn -[NGHTTP2_MAX_WINDOW_SIZE]; repeat bcase; cbn; split; intros; split_and?; (done || lia)|].
  all: destruct (Z.eqb_spec id 5) as [-> |];
    [cbn -[NGHTTP2_MAX_FRAME_SIZE_MIN NGHTTP2_MAX_FRAME_SIZE_MAX]; repeat bcase; cbn; split; intros; split_and?; (done || lia)|].
  all: destruct (Z.eqb_spec id 8) as [-> |]; [cbn; repeat bcase; cbn; split; intros; split_and?; (done || lia)|].
  all: destruct (Z.eqb_spec id 9) as [-> |]; [cbn; repeat bcase; cbn; split; intros; split_and?; (done || lia)|].
  all: cbn; split; intros; split_and?; (done || lia).
Qed.
