(* ===== verification/FrameHeaders.v ===== *)
(** * Frames that carry header blocks (nghttp2_frame.c)

    HEADERS and PUSH_PROMISE frames: the compressor writes the block into the
    chain of chunks, behind room for the fixed fields of the first frame, and
    a frame header is then put in front of every chunk that was used, the
    later ones as CONTINUATION.  Padding moves the header of the first frame
    one octet forward and extends the frame with zeros.

    [pack_headers_frames]: the chain holds one HEADERS frame and CONTINUATION
    frames whose fragments, put together, are the compressed block, with
    END_HEADERS on the last frame only and every payload within the size of a
    chunk.  [frame_add_pad_correct]: padding changes neither the content nor
    the other fields. *)

From S2P Require Import Prelude Defs Helper Buf HuffmanData Huffman HdInt HdToken HdTable HdDeflate Frame.

Record nghttp2_headers := mk_headers {
  he_hd : nghttp2_frame_hd;
  he_padlen : Z;
  he_pri_spec : nghttp2_priority_spec;
  he_nva : list nghttp2_nv;
  he_cat : Z;
}.

Record nghttp2_push_promise := mk_push_promise {
  pp_hd : nghttp2_frame_hd;
  pp_padlen : Z;
  pp_nva : list nghttp2_nv;
  pp_promised_stream_id : Z;
  pp_reserved : Z;
}.

(** ** Constructors *)

Definition nghttp2_frame_headers_init (flags stream_id cat : Z) (pri_spec : option nghttp2_priority_spec)
    (nva : list nghttp2_nv) : nghttp2_headers :=
  mk_headers (nghttp2_frame_hd_init 0 NGHTTP2_HEADERS flags stream_id) 0
    (match pri_spec with Some p => p | None => nghttp2_priority_spec_default_init end) nva cat.

Definition nghttp2_frame_push_promise_init (flags stream_id promised_stream_id : Z) (nva : list nghttp2_nv)
    : nghttp2_push_promise :=
  mk_push_promise (nghttp2_frame_hd_init 0 NGHTTP2_PUSH_PROMISE flags stream_id) 0 nva promised_stream_id 0.

Definition nghttp2_frame_priority_len (flags : Z) : nat :=
  if negb (flags .& NGHTTP2_FLAG_PRIORITY =? 0) then 5 else 0.

Definition nghttp2_frame_headers_payload_nv_offset (frame : nghttp2_headers) : nat :=
  nghttp2_frame_priority_len (hd_flags (he_hd frame)).

(** ** Serialisation *)

Definition hd_set (hd : nghttp2_frame_hd) (length type flags : Z) : nghttp2_frame_hd :=
  mk_hd length type flags (hd_stream_id hd) (hd_reserved hd).

(** The chunks behind the first up to [ce], which is the last of the list; the
    code reads through [ci] after the loop, so there is one. *)
Fixpoint pack_continuations (chunks : list nghttp2_buf) (hd : nghttp2_frame_hd) : option (list nghttp2_buf) :=
  match chunks with
  | [] => None
  | buf :: chunks =>
      let hd := hd_set hd (Z.of_nat (nghttp2_buf_len buf)) NGHTTP2_CONTINUATION
                  (match chunks with [] => NGHTTP2_FLAG_END_HEADERS | _ => NGHTTP2_FLAG_NONE end) in
      buf ← buf_pack_hd buf hd;
      match chunks with
      | [] => Some [buf]
      | _ => rest ← pack_continuations chunks hd; Some (buf :: rest)
      end
  end.

Definition frame_pack_headers_shared (s : nghttp2_bufs) (frame_hd : nghttp2_frame_hd) : option (nghttp2_bufs * Z) :=
  buf ← bufs_head s;
  let multi := negb (bs_cur s =? 0)%nat in
  let hd := hd_set frame_hd (Z.of_nat (nghttp2_buf_len buf)) (hd_type frame_hd)
              (if multi then u8 (hd_flags frame_hd .& Z.lnot NGHTTP2_FLAG_END_HEADERS) else hd_flags frame_hd) in
  buf ← buf_pack_hd buf hd;
  if multi then
    conts ← pack_continuations (take (bs_cur s) (drop 1 (bs_chain s))) hd;
    Some (set_chain s (buf :: conts ++ drop (S (bs_cur s)) (bs_chain s)) (bs_cur s), 0)
  else Some (set_head_buf s buf, 0).

(** [buf->pos += n; buf->last = buf->pos;] *)
Definition buf_skip (b : nghttp2_buf) (n : nat) : option nghttp2_buf :=
  guard (b_pos b + n <= length (b_mem b))%nat;;
  Some (mk_buf (b_mem b) (b_pos b + n) (b_pos b + n) (b_mark b)).

(** [buf->pos -= n] *)
Definition buf_unskip (b : nghttp2_buf) (n : nat) : option nghttp2_buf :=
  guard (n <= b_pos b)%nat;; Some (mk_buf (b_mem b) (b_pos b - n) (b_last b) (b_mark b)).

(** [f(buf->pos)], which writes [n] octets. *)
Definition buf_store_pos (b : nghttp2_buf) (n : nat) (f : bytes -> nat -> bytes) : option nghttp2_buf :=
  guard (b_pos b + n <= length (b_mem b))%nat;;
  Some (mk_buf (f (b_mem b) (b_pos b)) (b_pos b) (b_last b) (b_mark b)).

Section PackHeaders.
Context (malloc : nat -> nat -> option bytes).

(** The common course of the two functions: [fields] are the octets before the
    block, written by [f]. *)
Definition pack_block (s : nghttp2_bufs) (d : nghttp2_hd_deflater) (nva : list nghttp2_nv) (nv_offset : nat)
    (f : nghttp2_buf -> option nghttp2_buf) : option ((nghttp2_hd_deflater * nghttp2_bufs) * Z) :=
  _ ← assert_head_cur s;
  buf ← bufs_head s;
  buf ← buf_skip buf nv_offset;
  '((d, s), rv) ← nghttp2_hd_deflate_hd_bufs malloc d (set_head_buf s buf) nva;
  let rv := if rv =? NGHTTP2_ERR_BUFFER_ERROR then NGHTTP2_ERR_HEADER_COMP else rv in
  buf ← bufs_head s;
  buf ← buf_unskip buf nv_offset;
  if negb (rv =? 0) then Some ((d, set_head_buf s buf), rv)
  else
    buf ← f buf;
    Some ((d, set_head_buf s buf), 0).

(** The frame is returned with its new length and padding. *)
Definition nghttp2_frame_pack_headers (s : nghttp2_bufs) (frame : nghttp2_headers) (d : nghttp2_hd_deflater)
    : option ((nghttp2_hd_deflater * nghttp2_bufs * nghttp2_headers) * Z) :=
  '((d, s), rv) ← pack_block s d (he_nva frame) (nghttp2_frame_headers_payload_nv_offset frame)
    (fun buf => if negb (hd_flags (he_hd frame) .& NGHTTP2_FLAG_PRIORITY =? 0)
                then buf_store_pos buf 5 (fun m pos => nghttp2_frame_pack_priority_spec m pos (he_pri_spec frame))
                else Some buf);
  if negb (rv =? 0) then Some ((d, s, frame), rv)
  else
    let hd := hd_set (he_hd frame) (Z.of_nat (nghttp2_bufs_len s)) (hd_type (he_hd frame)) (hd_flags (he_hd frame)) in
    let frame := mk_headers hd 0 (he_pri_spec frame) (he_nva frame) (he_cat frame) in
    '(s, rv) ← frame_pack_headers_shared s hd;
    Some ((d, s, frame), rv).

Definition nghttp2_frame_pack_push_promise (s : nghttp2_bufs) (frame : nghttp2_push_promise) (d : nghttp2_hd_deflater)
    : option ((nghttp2_hd_deflater * nghttp2_bufs * nghttp2_push_promise) * Z) :=
  '((d, s), rv) ← pack_block s d (pp_nva frame) 4
    (fun buf => buf_store_pos buf 4 (fun m pos => nghttp2_put_uint32be m pos (u32 (pp_promised_stream_id frame))));
  if negb (rv =? 0) then Some ((d, s, frame), rv)
  else
    let hd := hd_set (pp_hd frame) (Z.of_nat (nghttp2_bufs_len s)) (hd_type (pp_hd frame)) (hd_flags (pp_hd frame)) in
    let frame := mk_push_promise hd 0 (pp_nva frame) (pp_promised_stream_id frame) (pp_reserved frame) in
    '(s, rv) ← frame_pack_headers_shared s hd;
    Some ((d, s, frame), rv).

End PackHeaders.

(** ** Parsing of the fields before the block *)

Definition nghttp2_frame_unpack_headers_payload (frame : nghttp2_headers) (payload : bytes) : option nghttp2_headers :=
  p ← (if negb (hd_flags (he_hd frame) .& NGHTTP2_FLAG_PRIORITY =? 0)
       then nghttp2_frame_unpack_priority_spec payload else Some nghttp2_priority_spec_default_init);
  Some (mk_headers (he_hd frame) (he_padlen frame) p [] (he_cat frame)).

Definition nghttp2_frame_unpack_push_promise_payload (frame : nghttp2_push_promise) (payload : bytes)
    : option nghttp2_push_promise :=
  n ← get32 payload 0;
  Some (mk_push_promise (pp_hd frame) (pp_padlen frame) [] (n .& NGHTTP2_STREAM_ID_MASK) (pp_reserved frame)).

(** ** Padding *)

Definition frame_set_pad (buf : nghttp2_buf) (padlen : nat) (framehd_only : bool) : option nghttp2_buf :=
  guard (1 <= b_pos buf /\ b_pos buf + 9 <= length (b_mem buf))%nat;;
  let pos := (b_pos buf - 1)%nat in
  let m := mem_write (b_mem buf) pos (mem_slice (b_mem buf) (b_pos buf) NGHTTP2_FRAME_HDLEN) in
  let m := mem_write m (pos + 4) [mem_get m (pos + 4) .| NGHTTP2_FLAG_PADDED] in
  let newlen := Z.shiftr (nghttp2_get_uint32 m pos) 8 + Z.of_nat padlen in
  let m := nghttp2_put_uint32be m pos (u32 (Z.shiftl newlen 8 + mem_get m (pos + 3))) in
  if framehd_only then Some (mk_buf m pos (b_last buf) (b_mark buf))
  else
    let trail_padlen := (padlen - 1)%nat in
    let m := mem_write m (pos + NGHTTP2_FRAME_HDLEN) [u8 (Z.of_nat trail_padlen)] in
    guard (b_last buf + trail_padlen <= length m)%nat;;
    let m := mem_write m (b_last buf) (replicate trail_padlen 0) in
    Some (mk_buf m pos (b_last buf + trail_padlen) (b_mark buf)).

(** The header the caller keeps is updated as well. *)
Definition nghttp2_frame_add_pad (s : nghttp2_bufs) (hd : nghttp2_frame_hd) (padlen : nat) (framehd_only : bool)
    : option (nghttp2_bufs * nghttp2_frame_hd) :=
  if (padlen =? 0)%nat then Some (s, hd)
  else
    buf ← bufs_head s;
    guard (padlen - 1 <= nghttp2_buf_avail buf)%nat;;
    buf ← frame_set_pad buf padlen framehd_only;
    Some (set_head_buf s buf,
          hd_set hd (hd_length hd + Z.of_nat padlen) (hd_type hd) (hd_flags hd .| NGHTTP2_FLAG_PADDED)).

(** ** How the chain grows under the compressor *)

(** Positions and sizes of the chunks are kept, new chunks start at the offset. *)
Record grown (s s' : nghttp2_bufs) : Prop := {
  gr_offset : bs_offset s' = bs_offset s;
  gr_clen : bs_chunk_length s' = bs_chunk_length s;
  gr_old : forall i b, bs_chain s !! i = Some b ->
    exists b', bs_chain s' !! i = Some b' /\ b_pos b' = b_pos b /\ length (b_mem b') = length (b_mem b);
  gr_new : forall i b', (length (bs_chain s) <= i)%nat -> bs_chain s' !! i = Some b' ->
    b_pos b' = bs_offset s /\ length (b_mem b') = bs_chunk_length s;
}.

Lemma grown_refl s : grown s s.
Proof.
  split; try done; [by eexists|]. intros i b' Hi Hb. apply lookup_lt_Some in Hb. lia.
Qed.

Lemma grown_length s s' : grown s s' -> (length (bs_chain s) <= length (bs_chain s'))%nat.
Proof.
  intros [_ _ Ho _]. destruct (decide (length (bs_chain s) <= length (bs_chain s'))%nat) as [|Hn]; [done|].
  destruct (lookup_lt_is_Some_2 (bs_chain s) (length (bs_chain s'))) as [b Hb]; [lia|].
  destruct (Ho _ _ Hb) as (b' & Hb' & _). apply lookup_lt_Some in Hb'. lia.
Qed.

Lemma grown_trans s1 s2 s3 : grown s1 s2 -> grown s2 s3 -> grown s1 s3.
Proof.
  intros G1 G2. pose proof (grown_length _ _ G1) as Hl. destruct G1 as [O1 C1 Old1 New1], G2 as [O2 C2 Old2 New2].
  split; [congruence|congruence| |].
  - intros i b Hb. destruct (Old1 _ _ Hb) as (b' & Hb' & Hp & Hm). destruct (Old2 _ _ Hb') as (b2 & ? & ? & ?).
    exists b2. split_and!; [done|congruence|congruence].
  - intros i b3 Hi Hb3. destruct (decide (length (bs_chain s2) <= i)%nat) as [Hge|Hlt].
    + destruct (New2 _ _ Hge Hb3). split; congruence.
    + destruct (lookup_lt_is_Some_2 (bs_chain s2) i) as [b2 Hb2]; [lia|]. destruct (New1 _ _ Hi Hb2).
      destruct (Old2 _ _ Hb2) as (b3' & ? & ? & ?). assert (b3' = b3) as -> by congruence. split; congruence.
Qed.

(** A function of the chain whose result, if any, has grown. *)
Definition grows {T} (f : T -> nghttp2_bufs) (s : nghttp2_bufs) (r : option (T * Z)) : Prop :=
  forall x rv, r = Some (x, rv) -> grown s (f x).

Lemma grows_bind {A B} (fa : A -> nghttp2_bufs) (fb : B -> nghttp2_bufs) s r (k : A -> option (B * Z)) e :
  grows fa s r -> (forall a, grown s (fa a) -> grows fb (fa a) (k a)) -> (forall a, fb (e a) = fa a) ->
  grows fb s (try_bind r k e).
Proof.
  intros Hr Hk He x rv. unfold try_bind. destruct r as [[a rv0]|]; [|done]. cbn [mbind option_bind].
  specialize (Hr a rv0 eq_refl). destruct (rv0 =? 0).
  - intros E. eapply grown_trans; [exact Hr|]. by eapply Hk.
  - intros [= <- <-]. by rewrite He.
Qed.

Lemma grows_same {T} (f : T -> nghttp2_bufs) x rv : grows f (f x) (Some (x, rv)).
Proof. intros y rv' [= <- <-]. apply grown_refl. Qed.

Lemma grown_set_cur s b b' : bs_chain s !! bs_cur s = Some b -> b_pos b' = b_pos b ->
  length (b_mem b') = length (b_mem b) -> grown s (set_cur_buf s b').
Proof.
  intros Hb Hp Hm. split; try done.
  - intros i b0 Hb0. cbn [set_cur_buf set_chain bs_chain]. destruct (decide (i = bs_cur s)) as [-> |Hne].
    + exists b'. rewrite list_lookup_insert_eq by (by apply lookup_lt_Some in Hb).
      assert (b0 = b) as -> by congruence. done.
    + exists b0. by rewrite list_lookup_insert_ne.
  - intros i b0 Hi Hb0. apply lookup_lt_Some in Hb0. cbn [set_cur_buf set_chain bs_chain] in Hb0.
    rewrite length_insert in Hb0. lia.
Qed.

Section Grown.
Context (malloc : nat -> nat -> option bytes) `{!Allocator malloc}.

Lemma alloc_chain_grown s s' rv : bufs_alloc_chain malloc s = (s', rv) -> grown s s'.
Proof.
  unfold bufs_alloc_chain. destruct (_ <? _)%nat.
  { intros [= <- <-]. split; try done; [by eexists|]. intros i b' Hi Hb. apply lookup_lt_Some in Hb.
    cbn [set_chain bs_chain] in Hb. lia. }
  destruct (_ =? _)%nat; [intros [= <- <-]; apply grown_refl|].
  destruct (buf_chain_new malloc _ _) as [[b|] calls] eqn:E; intros [= <- <-].
  - destruct (buf_chain_new_fresh malloc _ _ _ _ E) as [Hl [Hp _]]. split; try done.
    + intros i b0 Hb0. exists b0. cbn [bs_chain]. split_and!; [|done|done]. by apply lookup_app_l_Some.
    + intros i b' Hi Hb'. cbn [bs_chain bs_offset bs_chunk_length] in *.
      rewrite lookup_app_r in Hb' by done. apply list_lookup_singleton_Some in Hb' as [_ <-].
      cbn [nghttp2_buf_shift_right b_pos b_mem]. rewrite Hp. split; [lia|done].
  - split; try done; [by eexists|]. intros i b' Hi Hb. apply lookup_lt_Some in Hb. cbn [set_calls bs_chain] in Hb. lia.
Qed.

Lemma buf_put_geometry b bs b' : buf_put b bs = Some b' -> b_pos b' = b_pos b /\ length (b_mem b') = length (b_mem b).
Proof.
  unfold buf_put, nghttp2_cpymem. case_guard; [|done]. destruct bs as [|c bs]; simpl; intros [= <-]; [done|].
  cbn [b_pos b_mem]. split; [done|]. apply mem_write_length. done.
Qed.

Lemma bufs_add_grows s data : grows id s (nghttp2_bufs_add malloc s data).
Proof.
  unfold nghttp2_bufs_add. generalize (S (length data + bs_max_chunk s)). intros fuel. revert s data.
  induction fuel as [|fuel IH]; intros s data s' rv; cbn [bufs_add_loop id]; [done|].
  destruct (_ =? _)%nat; [intros [= <- <-]; apply grown_refl|].
  destruct (bs_chain s !! bs_cur s) as [b|] eqn:Hb; [|done]. cbn [mbind option_bind]. destruct (_ =? _)%nat.
  - destruct (bufs_alloc_chain malloc s) as [s1 rv1] eqn:E. apply alloc_chain_grown in E. destruct (rv1 =? 0).
    + intros H. eapply grown_trans; [exact E|]. by eapply IH.
    + by intros [= <- <-].
  - destruct (buf_put b _) as [b'|] eqn:Hp; [|done]. cbn [mbind option_bind]. intros H. apply buf_put_geometry in Hp as [? ?].
    eapply grown_trans; [by eapply (grown_set_cur s b b')|]. by eapply IH.
Qed.

Lemma bufs_addb_grows s c : grows id s (nghttp2_bufs_addb malloc s c).
Proof.
  intros s' rv. unfold nghttp2_bufs_addb, bufs_modb, bufs_ensure_addb.
  assert (forall s1, grown s s1 -> (buf ← bs_chain s1 !! bs_cur s1; buf ← buf_poke buf (fun _ => c);
      Some (set_cur_buf s1 (buf_incr buf), 0)) = Some (s', rv) -> grown s (id s')) as H.
  { intros s1 Hg. destruct (bs_chain s1 !! bs_cur s1) as [b|] eqn:Hb; [|done]. cbn [mbind option_bind].
    unfold buf_poke. case_guard as Hlt; [|done]. intros [= <- <-]. eapply grown_trans; [exact Hg|].
    eapply grown_set_cur; [done|done|]. cbn. rewrite mem_write_length; [done|]. simpl. lia. }
  destruct (_ <? _)%nat; [by apply H, grown_refl|].
  destruct (bufs_alloc_chain malloc s) as [s1 rv1] eqn:E. apply alloc_chain_grown in E.
  destruct (rv1 =? 0); [by apply H|]. by intros [= <- <-].
Qed.

Lemma emit_int_grows s first n prefix : grows id s (emit_int malloc s first n prefix).
Proof.
  unfold emit_int. destruct (_ <? _); [apply (grows_same id)|]. destruct (encode_length _ _ _) as [[sb ?]|]; [|done].
  apply bufs_add_grows.
Qed.

Definition flush_chain (st : nghttp2_bufs * Z * Z) : nghttp2_bufs := st.1.1.

Lemma huff_flush_grows fuel s code nbits : grows flush_chain s (huff_flush malloc fuel s code nbits).
Proof.
  revert s code nbits. induction fuel as [|fuel IH]; intros s code nbits; cbn [huff_flush]; [done|].
  destruct (8 <=? nbits); [|apply (grows_same flush_chain (s, code, nbits))].
  apply (grows_bind id); [apply bufs_addb_grows| |done]. intros s1 _. apply IH.
Qed.

Lemma huff_encode_loop_grows src s avail code nbits :
  grows flush_chain s (huff_encode_loop malloc src s avail code nbits).
Proof.
  revert s avail code nbits. induction src as [|c src IH]; intros s avail code nbits; cbn [huff_encode_loop].
  { apply (grows_same flush_chain (s, code, nbits)). }
  destruct (_ <? 32); [apply IH|]. destruct (4 <=? avail)%nat.
  - destruct (bs_chain s !! bs_cur s) as [b|] eqn:Hb; [|done]. cbn [mbind option_bind].
    destruct (buf_put b _) as [b'|] eqn:Hp; [|done]. cbn [mbind option_bind]. apply buf_put_geometry in Hp as [? ?].
    intros x rv H'. eapply grown_trans; [by eapply (grown_set_cur s b b')|]. by eapply IH.
  - apply (grows_bind flush_chain); [apply huff_flush_grows| |done]. intros [[s1 c1] n1] _. apply IH.
Qed.

Lemma huff_encode_grows s src : grows id s (nghttp2_hd_huff_encode malloc s src).
Proof.
  unfold nghttp2_hd_huff_encode. apply (grows_bind flush_chain); [apply huff_encode_loop_grows| |by intros [[??]?]].
  intros [[s1 c1] n1] _. apply (grows_bind flush_chain); [apply huff_flush_grows| |by intros [[??]?]].
  intros [[s2 c2] n2] _. destruct (n2 =? 0); [apply (grows_same id s2)|].
  apply (grows_bind id); [apply bufs_addb_grows| |done]. intros s3 _. apply (grows_same id s3).
Qed.

Lemma emit_string_grows s str : grows id s (emit_string malloc s str).
Proof.
  unfold emit_string. apply (grows_bind id); [apply emit_int_grows| |done]. intros s1 _.
  destruct (_ <? _); [apply huff_encode_grows|apply bufs_add_grows].
Qed.

Lemma emit_literal_grows s nv mode idx :
  grows id s (if idx =? -1 then emit_newname_block malloc s nv mode else emit_indname_block malloc s idx nv mode).
Proof.
  destruct (idx =? -1).
  - apply (grows_bind id); [apply bufs_addb_grows| |done]. intros s1 _.
    apply (grows_bind id); [apply emit_string_grows| |done]. intros s2 _. apply emit_string_grows.
  - apply (grows_bind id); [apply emit_int_grows| |done]. intros s1 _. apply emit_string_grows.
Qed.

Definition deflate_chain (st : nghttp2_hd_deflater * nghttp2_bufs) : nghttp2_bufs := st.2.

Lemma deflate_nv_grows d s nv : grows deflate_chain s (deflate_nv malloc d s nv).
Proof.
  unfold deflate_nv. destruct (if _ =? -1 then _ else _) as [hash|]; [|done]. cbn [mbind option_bind].
  destruct (search_hd_table _ _ _ _ _ _) as [res|]; [|done]. cbn [mbind option_bind]. destruct (sr_match res).
  - apply (grows_bind id); [apply emit_int_grows| |done]. intros s1 _. apply (grows_same deflate_chain (d, s1)).
  - apply (grows_bind (fun _ => s)); [intros x rv _; apply grown_refl| |done]. intros d1 _.
    apply (grows_bind id); [apply emit_literal_grows| |done]. intros s1 _. apply (grows_same deflate_chain (d1, s1)).
Qed.

Lemma deflate_nvs_grows nva d s : grows deflate_chain s (deflate_nvs malloc d s nva).
Proof.
  revert d s. induction nva as [|nv nva IH]; intros d s; cbn [deflate_nvs]; [apply (grows_same deflate_chain (d, s))|].
  apply (grows_bind deflate_chain); [apply deflate_nv_grows| |done]. intros [d1 s1] _. apply IH.
Qed.

Lemma size_updates_grows d s : grows deflate_chain s (deflate_size_updates malloc d s).
Proof.
  unfold deflate_size_updates. destruct (notify_table_size_change d); [|apply (grows_same deflate_chain (d, s))].
  apply (grows_bind id); [destruct (_ <? _); [apply emit_int_grows|apply (grows_same id s)]| |done]. intros s1 _.
  apply (grows_bind id); [apply emit_int_grows| |done]. intros s2 _. by apply (grows_same deflate_chain (_, s2)).
Qed.

Lemma deflate_hd_bufs_grows d s nva : grows deflate_chain s (nghttp2_hd_deflate_hd_bufs malloc d s nva).
Proof.
  unfold nghttp2_hd_deflate_hd_bufs. destruct (ctx_bad _); [apply (grows_same deflate_chain (d, s))|].
  assert (grows deflate_chain s (try_bind (deflate_size_updates malloc d s)
    (fun '(d, bufs) => deflate_nvs malloc d bufs nva) (fun st => st))) as H.
  { apply (grows_bind deflate_chain); [apply size_updates_grows| |done]. intros [d1 s1] _. apply deflate_nvs_grows. }
  destruct (try_bind _ _ _) as [[[d1 s1] rv]|]; [|done]. specialize (H _ _ eq_refl). cbn [mbind option_bind].
  intros x rv'. destruct (rv =? 0); by intros [= <- <-].
Qed.

End Grown.

(** ** The frames of a block *)

Definition frame_bytes (f : nghttp2_frame_hd * bytes) : bytes := frame_hd_bytes f.1 ++ f.2.

Fixpoint continuation_frames (hd : nghttp2_frame_hd) (frags : list bytes) : list (nghttp2_frame_hd * bytes) :=
  match frags with
  | [] => []
  | frag :: rest =>
      (hd_set hd (zlen frag) NGHTTP2_CONTINUATION
         (match rest with [] => NGHTTP2_FLAG_END_HEADERS | _ => NGHTTP2_FLAG_NONE end), frag)
      :: continuation_frames hd rest
  end.

(** [fields] and the first fragment in a frame of the type of [hd], the other
    fragments in CONTINUATION frames; END_HEADERS only on the last. *)
Definition block_frames (hd : nghttp2_frame_hd) (fields frag : bytes) (rest : list bytes)
    : list (nghttp2_frame_hd * bytes) :=
  (hd_set hd (zlen (fields ++ frag)) (hd_type hd)
     (match rest with [] => hd_flags hd | _ => u8 (hd_flags hd .& Z.lnot NGHTTP2_FLAG_END_HEADERS) end),
   fields ++ frag)
  :: continuation_frames hd rest.

(** The chain the session keeps for frames, after a reset. *)
Record framebufs_ok (s : nghttp2_bufs) : Prop := {
  fb_wf : bufs_wf s;
  fb_cur : bs_cur s = 0%nat;
  fb_offset : (9 <= bs_offset s)%nat;
  fb_fresh : Forall (fun b => buf_fresh (bs_offset s) b /\ length (b_mem b) = bs_chunk_length s) (bs_chain s);
  fb_size : (bs_offset s + 5 <= bs_chunk_length s)%nat /\ Z.of_nat (bs_chunk_length s - bs_offset s) < 2 ^ 24;
}.

Lemma buf_pack_hd_bytes b hd : hd_ok hd -> buf_ok b -> (9 <= b_pos b)%nat ->
  exists b', buf_pack_hd b hd = Some b' /\ buf_ok b' /\ buf_bytes b' = frame_hd_bytes hd ++ buf_bytes b /\
    length (b_mem b') = length (b_mem b).
Proof.
  intros Hhd [Hp Hl] H9. unfold buf_pack_hd, NGHTTP2_FRAME_HDLEN. rewrite option_guard_True by lia.
  eexists. split; [done|]. cbv zeta. rewrite pack_frame_hd_eq by (done || lia).
  assert (length (mem_write (b_mem b) (b_pos b - 9) (frame_hd_bytes hd)) = length (b_mem b)) as Hml.
  { apply mem_write_length. rewrite frame_hd_bytes_length. lia. }
  split_and!; cbn [b_mem]; [split; cbn [b_mem b_pos b_last]; rewrite ?Hml; lia| |done].
  unfold buf_bytes, nghttp2_buf_len, mem_slice, mem_write. cbn [b_mem b_pos b_last].
  rewrite drop_app_length' by (rewrite length_take; lia). rewrite take_app_ge by (rewrite frame_hd_bytes_length; lia).
  rewrite frame_hd_bytes_length. f_equal. f_equal; [lia|]. f_equal. lia.
Qed.

Definition hd_base_ok (hd : nghttp2_frame_hd) : Prop :=
  is_u8 (hd_type hd) /\ is_u8 (hd_flags hd) /\ is_stream_id (hd_stream_id hd) /\ hd_reserved hd = 0.

Lemma hd_set_ok hd n t f : hd_base_ok hd -> 0 <= n < 2 ^ 24 -> is_u8 t -> is_u8 f -> hd_ok (hd_set hd n t f).
Proof. intros (? & ? & ? & ?) ? ? ?. unfold hd_ok, is_stream_id in *. cbn. tauto. Qed.

(** A chunk that can take a frame header in front. *)
Definition packable (b : nghttp2_buf) : Prop :=
  buf_ok b /\ (9 <= b_pos b)%nat /\ Z.of_nat (nghttp2_buf_len b) < 2 ^ 24.

Lemma packable_len b : packable b -> Z.of_nat (nghttp2_buf_len b) = zlen (buf_bytes b).
Proof. intros (Hok & _). by rewrite buf_bytes_length. Qed.

Lemma continuation_frames_hd_set hd n t f frags :
  continuation_frames (hd_set hd n t f) frags = continuation_frames hd frags.
Proof. induction frags as [|x frags IH]; [done|]. cbn [continuation_frames]. by rewrite IH. Qed.

Lemma pack_continuations_ok chunks hd : hd_base_ok hd -> chunks <> [] -> Forall packable chunks ->
  exists chunks', pack_continuations chunks hd = Some chunks' /\ length chunks' = length chunks /\
    map buf_bytes chunks' = map frame_bytes (continuation_frames hd (map buf_bytes chunks)).
Proof.
  intros Hhd Hne Hp. revert hd Hhd Hne. induction Hp as [|b chunks Hb Hp IH]; intros hd Hhd Hne; [done|].
  cbn [pack_continuations map continuation_frames]. set (fl := match chunks with [] => _ | _ => _ end).
  assert (is_u8 fl) as Hfl by (subst fl; by destruct chunks).
  assert (match map buf_bytes chunks with [] => NGHTTP2_FLAG_END_HEADERS | _ :: _ => NGHTTP2_FLAG_NONE end = fl) as ->
    by (subst fl; by destruct chunks).
  destruct (buf_pack_hd_bytes b (hd_set hd (Z.of_nat (nghttp2_buf_len b)) NGHTTP2_CONTINUATION fl)) as (b' & E & Hok' & Hby & Hlen);
    [apply hd_set_ok; [done| |done|done]; destruct Hb as (_ & _ & ?); lia|apply Hb|apply Hb|].
  rewrite E. cbn [mbind option_bind]. rewrite packable_len in Hby by done. destruct chunks as [|b2 chunks].
  - exists [b']. split_and!; [done|done|]. cbn [map]. by rewrite Hby.
  - assert (hd_base_ok (hd_set hd (Z.of_nat (nghttp2_buf_len b)) NGHTTP2_CONTINUATION fl)) as Hhd'.
    { destruct Hhd as (? & ? & ? & ?). by refine (conj _ (conj _ (conj _ _))). }
    destruct (IH _ Hhd') as (rest & -> & Hl & Hm); [done|]. cbn [mbind option_bind].
    exists (b' :: rest). split_and!; [done|cbn; by rewrite Hl|].
    cbn [map]. rewrite Hby, Hm, continuation_frames_hd_set. done.
Qed.

(** The chain when the frame headers are put in: chunks up to [cur] to be
    framed, the others empty. *)
Lemma pack_shared_ok s hd b mids post fields frag : hd_base_ok hd ->
  bs_chain s = b :: mids ++ post -> bs_cur s = length mids -> packable b -> Forall packable mids ->
  buf_bytes b = fields ++ frag -> concat (map buf_bytes post) = [] ->
  exists s', frame_pack_headers_shared s hd = Some (s', 0) /\ bs_cur s' = bs_cur s /\
    bufs_bytes s' = concat (map frame_bytes (block_frames hd fields frag (map buf_bytes mids))).
Proof.
  intros Hhd Hc Hcur Hb Hm Hby Hpost. unfold frame_pack_headers_shared, bufs_head. rewrite Hc, Hcur.
  cbn [lookup list_lookup mbind option_bind]. set (fl := if negb _ then _ else _).
  assert (is_u8 fl) as Hfl. { subst fl. destruct (negb _); [apply u8_range|apply Hhd]. }
  destruct (buf_pack_hd_bytes b (hd_set hd (Z.of_nat (nghttp2_buf_len b)) (hd_type hd) fl)) as (b' & E & Hok' & Hby' & Hlen);
    [apply hd_set_ok; [done| |apply Hhd|done]; destruct Hb as (_ & _ & ?); lia|apply Hb|apply Hb|].
  rewrite E. cbn [mbind option_bind]. rewrite (packable_len _ Hb), Hby in Hby'.
  destruct mids as [|m mids].
  - cbn [length Nat.eqb negb]. eexists. split; [done|]. split; [done|]. unfold set_head_buf, set_chain. cbn [bs_chain].
    rewrite Hc. cbn [app insert list_insert].
    unfold bufs_bytes. cbn [bs_chain map concat]. unfold block_frames, frame_bytes. cbn [map concat fst snd]. by rewrite Hpost, Hby'.
  - assert (negb (length (m :: mids) =? 0)%nat = true) as Hn by done. rewrite Hn in *.
    change (drop 1 (b :: (m :: mids) ++ post)) with ((m :: mids) ++ post). rewrite take_app_length.
    assert (hd_base_ok (hd_set hd (Z.of_nat (nghttp2_buf_len b)) (hd_type hd) fl)) as Hhd'.
    { destruct Hhd as (? & ? & ? & ?). by refine (conj _ (conj _ (conj _ _))). }
    destruct (pack_continuations_ok (m :: mids) _ Hhd') as (conts & -> & Hl & Hmap); [done|done|].
    cbn [mbind option_bind]. eexists. split; [done|]. split; [by cbn|].
    unfold bufs_bytes. cbn [set_chain bs_chain].
    replace (drop (S (length (m :: mids))) (b :: (m :: mids) ++ post)) with post.
    2:{ rewrite skipn_cons. by rewrite drop_app_length. }
    cbn [map concat]. rewrite map_app, concat_app, Hpost, app_nil_r, Hmap, continuation_frames_hd_set, Hby'.
    unfold block_frames. cbn [map concat frame_bytes fst snd]. done.
Qed.

Lemma framebufs_head s : framebufs_ok s -> exists b rest, bs_chain s = b :: rest /\
  buf_fresh (bs_offset s) b /\ length (b_mem b) = bs_chunk_length s.
Proof.
  intros [Hwf Hcur _ Hf _]. pose proof (wf_cur _ Hwf) as Hl. destruct (bs_chain s) as [|b rest]; [simpl in Hl; lia|].
  apply Forall_cons in Hf as [[? ?] _]. by exists b, rest.
Qed.

(** The room for the fixed fields is left out while the block is written. *)
Lemma framebufs_skip s off b : framebufs_ok s -> (off <= 5)%nat -> bufs_head s = Some b ->
  exists b', buf_skip b off = Some b' /\ b_pos b' = (bs_offset s + off)%nat /\
    bufs_wf (set_head_buf s b') /\ bufs_bytes (set_head_buf s b') = [] /\
    (forall i c, bs_chain (set_head_buf s b') !! i = Some c ->
       length (b_mem c) = bs_chunk_length s /\ b_pos c = (bs_offset s + if (i =? 0)%nat then off else 0)%nat).
Proof.
  intros Hfb Hoff Hb. pose proof Hfb as [Hwf Hcur H9 Hf [Hsz _]].
  destruct (framebufs_head s Hfb) as (b0 & rest & Hc & [Hp Hl] & Hm).
  assert (b0 = b) as -> by (unfold bufs_head in Hb; rewrite Hc in Hb; by injection Hb).
  unfold buf_skip. rewrite option_guard_True by lia. eexists. split; [done|]. cbn [b_pos]. split; [lia|].
  set (b' := mk_buf _ _ _ _). assert (set_head_buf s b' = set_cur_buf s b') as E.
  { unfold set_head_buf, set_cur_buf. by rewrite Hcur. }
  assert (bufs_wf (set_cur_buf s b')) as Hwf'.
  { apply (bufs_wf_set _ b); [done|by rewrite Hcur, Hc|split; cbn; lia|done]. }
  rewrite Hc in Hf. apply Forall_cons in Hf as [_ Hf]. split_and!.
  - by rewrite E.
  - unfold bufs_bytes, set_head_buf. cbn [set_chain bs_chain]. rewrite Hc. cbn [insert list_insert map concat].
    rewrite (concat_fresh (bs_offset s)) by (eapply Forall_impl; [exact Hf|by intros ? [? ?]]).
    rewrite app_nil_r. unfold buf_bytes, nghttp2_buf_len, mem_slice, b'. cbn. by rewrite Nat.sub_diag.
  - intros i c. unfold set_head_buf. cbn [set_chain bs_chain]. rewrite Hc. cbn [insert list_insert].
    destruct i as [|i]; cbn [lookup list_lookup Nat.eqb].
    + intros [= <-]. unfold b'. cbn. split; [done|lia].
    + intros Hi. eapply Forall_lookup_1 in Hf as [[? ?] ?]; [|exact Hi]. split; [done|lia].
Qed.

(** Fields written in front of what a chunk holds. *)
Lemma buf_bytes_fields b off fields : buf_ok b -> (off <= b_pos b)%nat -> length fields = off ->
  let b' := mk_buf (mem_write (b_mem b) (b_pos b - off) fields) (b_pos b - off) (b_last b) (b_mark b) in
  buf_ok b' /\ buf_bytes b' = fields ++ buf_bytes b.
Proof.
  intros [Hp Hl] Ho Hf b'. assert (length (b_mem b') = length (b_mem b)) as Hml by (apply mem_write_length; lia).
  split; [split; rewrite ?Hml; cbn; lia|].
  unfold b', buf_bytes, nghttp2_buf_len, mem_slice, mem_write. cbn [b_mem b_pos b_last].
  rewrite drop_app_length' by (rewrite length_take; lia). rewrite take_app_ge by lia.
  f_equal. f_equal; [lia|]. f_equal. lia.
Qed.

(** The state before the frame headers are put in front: the first chunk holds
    [fields] and the start of the block, the chunks up to [cur] the rest. *)
Record block_packed (s : nghttp2_bufs) (fields block : bytes) (maxlen : nat) : Prop := {
  bp_chain : exists b mids post frag,
    bs_chain s = b :: mids ++ post /\ bs_cur s = length mids /\
    packable b /\ Forall packable mids /\ buf_bytes b = fields ++ frag /\ concat (map buf_bytes post) = [] /\
    block = frag ++ concat (map buf_bytes mids) /\
    (nghttp2_buf_len b <= maxlen)%nat /\ Forall (fun c => nghttp2_buf_len c <= maxlen)%nat mids;
  bp_len : nghttp2_bufs_len s = (length fields + length block)%nat;
}.

Lemma block_packed_intro s s1 b1 off fields block : framebufs_ok s -> bufs_wf s1 -> (off <= 5)%nat -> length fields = off ->
  bufs_head s1 = Some b1 -> bufs_bytes s1 = block -> bs_offset s1 = bs_offset s ->
  (forall i c, bs_chain s1 !! i = Some c ->
     length (b_mem c) = bs_chunk_length s /\ b_pos c = (bs_offset s + if (i =? 0)%nat then off else 0)%nat) ->
  block_packed (set_head_buf s1 (mk_buf (mem_write (b_mem b1) (b_pos b1 - off) fields) (b_pos b1 - off) (b_last b1) (b_mark b1)))
    fields block (bs_chunk_length s - bs_offset s).
Proof.
  intros Hfb Hwf Hoff Hfl Hb Hby Hofs Hpos. pose proof Hfb as [_ _ H9 _ [Hsz Hs24]].
  pose proof (wf_bufs _ Hwf) as Hok. unfold bufs_head in Hb.
  destruct (bs_chain s1) as [|b1' rest] eqn:Hc; [done|]. assert (b1' = b1) as -> by by injection Hb.
  destruct (Hpos 0%nat b1 eq_refl) as [Hm Hp]. cbn [Nat.eqb] in Hp. apply Forall_cons in Hok as [Hok1 Hokr].
  destruct (buf_bytes_fields b1 off fields Hok1 ltac:(lia) Hfl) as [Hok' Hby']. cbv zeta in *.
  set (b' := mk_buf _ _ _ _) in *.
  assert (forall c, c ∈ rest -> length (b_mem c) = bs_chunk_length s /\ b_pos c = bs_offset s) as Hrest.
  { intros c (i & Hi)%list_elem_of_lookup. destruct (Hpos (S i) c Hi) as [? ?]. cbn [Nat.eqb] in *. split; [done|lia]. }
  assert (Forall packable rest /\ Forall (fun c => nghttp2_buf_len c <= bs_chunk_length s - bs_offset s)%nat rest) as [Hpk Hle].
  { rewrite !Forall_forall in *. split; intros c Hin; destruct (Hrest c Hin) as [? ?], (Hokr c Hin);
      unfold packable, nghttp2_buf_len, buf_ok; [split_and!|]; lia. }
  assert (packable b' /\ (nghttp2_buf_len b' <= bs_chunk_length s - bs_offset s)%nat) as [Hpk' Hle'].
  { destruct Hok1. split; [split; [done|]|]; unfold nghttp2_buf_len, b'; cbn [b_pos b_last]; lia. }
  assert (concat (map buf_bytes (drop (bs_cur s1) rest)) = []) as Hpost.
  { pose proof (wf_later _ Hwf) as Hlate. rewrite Hc in Hlate. by apply concat_fresh in Hlate. }
  assert (block = buf_bytes b1 ++ concat (map buf_bytes (take (bs_cur s1) rest))) as Hblk.
  { rewrite <- Hby. unfold bufs_bytes. rewrite Hc. cbn [map concat]. f_equal.
    rewrite <- (take_drop (bs_cur s1) rest) at 1. by rewrite map_app, concat_app, Hpost, app_nil_r. }
  pose proof (wf_cur _ Hwf) as Hcur. rewrite Hc in Hcur. simpl in Hcur. split.
  - exists b', (take (bs_cur s1) rest), (drop (bs_cur s1) rest), (buf_bytes b1).
    unfold set_head_buf. cbn [set_chain bs_chain bs_cur]. rewrite Hc. cbn [insert list_insert]. rewrite take_drop.
    split_and!; try done; [rewrite length_take; lia|by apply Forall_take|by apply Forall_take].
  - unfold nghttp2_bufs_len. rewrite bufs_len_loop_spec.
    + unfold set_head_buf. cbn [set_chain bs_chain]. rewrite Hc. cbn [insert list_insert map concat].
      rewrite Hby', !length_app, Hblk, !length_app. rewrite <- (take_drop (bs_cur s1) rest) at 1.
      rewrite map_app, concat_app, Hpost, app_nil_r. lia.
    + unfold set_head_buf. cbn [set_chain bs_chain]. rewrite Hc. by constructor.
Qed.

Section PackOk.
Context (malloc : nat -> nat -> option bytes) `{!Allocator malloc}.

(** Writing the block: an error marks the compressor as bad; on success the
    chunks hold the fields and the octets of representations that decode to
    the given fields. *)
Lemma pack_block_ok s d nvs st nva off fields f :
  framebufs_ok s -> (off <= 5)%nat -> length fields = off ->
  (forall b, (b_pos b + off <= length (b_mem b))%nat ->
     f b = Some (mk_buf (mem_write (b_mem b) (b_pos b) fields) (b_pos b) (b_last b) (b_mark b))) ->
  synced d nvs st -> Forall nv_ok nva -> ctx_bad (df_ctx d) = false ->
  exists d' s' rv, pack_block malloc s d nva off f = Some ((d', s'), rv) /\
    (rv <> 0 -> ctx_bad (df_ctx d') = true) /\
    (rv = 0 -> exists rs outs nvs',
       block_packed s' fields (block_bytes rs) (bs_chunk_length s - bs_offset s) /\
       reprs_apply st rs = Some ((hd_table_bufsize_max (df_ctx d), nvs'), outs) /\
       Forall2 field_eq nva outs /\ synced d' nvs' (hd_table_bufsize_max (df_ctx d), nvs') /\
       ctx_bad (df_ctx d') = false).
Proof.
  intros Hfb Hoff Hfl Hf Hsy Hnva Hbad. pose proof Hfb as [_ Hcur H9 _ [Hsz _]].
  destruct (framebufs_head s Hfb) as (b & rest & Hc & _). assert (bufs_head s = Some b) as Hb by (unfold bufs_head; by rewrite Hc).
  destruct (framebufs_skip s off b Hfb Hoff Hb) as (b0 & E0 & _ & Hwf0 & Hby0 & Hpos0).
  unfold pack_block, assert_head_cur. rewrite option_guard_True, Hb by done. cbn [mbind option_bind]. rewrite E0.
  cbn [mbind option_bind]. destruct (deflate_hd_bufs_ok malloc d nvs st _ nva Hsy Hwf0 Hnva Hbad) as
    (d' & s1 & rv & rs & outs & nvs' & E & Hwf1 & Hok & Herr & _).
  pose proof (deflate_hd_bufs_grows malloc _ _ _ _ _ E) as [Go Gc Gold Gnew]. cbn [deflate_chain snd] in *.
  rewrite E. cbn [mbind option_bind].
  assert (forall i c, bs_chain s1 !! i = Some c ->
    length (b_mem c) = bs_chunk_length s /\ b_pos c = (bs_offset s + if (i =? 0)%nat then off else 0)%nat) as Hpos1.
  { intros i c Hi. destruct (bs_chain (set_head_buf s b0) !! i) as [c0|] eqn:Hi0.
    - destruct (Gold _ _ Hi0) as (c' & Hc' & Hp' & Hm'). assert (c' = c) as -> by congruence.
      destruct (Hpos0 _ _ Hi0). split; congruence.
    - apply lookup_ge_None in Hi0. destruct (Gnew _ _ Hi0 Hi) as [Hp' Hm'].
      destruct i as [|i]; [|cbn [Nat.eqb]; split; [done|]; rewrite Hp'; cbn; lia].
      unfold set_head_buf in Hi0. cbn [set_chain bs_chain] in Hi0. rewrite length_insert, Hc in Hi0. simpl in Hi0. lia. }
  pose proof (wf_cur _ Hwf1) as Hcur1. unfold bufs_head.
  destruct (bs_chain s1) as [|b1 rest1] eqn:Hc1; [simpl in Hcur1; lia|]. cbn [lookup list_lookup mbind option_bind].
  destruct (Hpos1 0%nat b1 eq_refl) as [Hm1 Hp1]. cbn [Nat.eqb] in Hp1.
  unfold buf_unskip. rewrite option_guard_True by lia. cbn [mbind option_bind].
  destruct (Z.eqb_spec rv 0) as [-> |Hne].
  - cbn [Z.eqb negb]. rewrite Hf by (cbn [b_pos b_mem]; lia). cbn [mbind option_bind b_pos b_mem b_last b_mark].
    eexists _, _, _. split; [done|]. split; [done|]. intros _.
    destruct (Hok eq_refl) as (Hap & _ & Ha & Hfe & Hs' & Hb' & _). exists (size_reprs d ++ rs), outs, nvs'. split; [|done].
    apply (block_packed_intro s s1 b1 off); try done; [by unfold bufs_head; rewrite Hc1| |by rewrite Hc1].
    by rewrite (ap_bytes _ _ _ Hap), Hby0.
  - assert (negb ((if rv =? NGHTTP2_ERR_BUFFER_ERROR then NGHTTP2_ERR_HEADER_COMP else rv) =? 0) = true) as ->.
    { destruct (rv =? NGHTTP2_ERR_BUFFER_ERROR); [done|]. by rewrite (proj2 (Z.eqb_neq rv 0)). }
    eexists _, _, _. split; [done|]. destruct (Herr Hne) as [? _]. split; [done|]. intros E'.
    destruct (rv =? NGHTTP2_ERR_BUFFER_ERROR); done.
Qed.

(** Framing what [block_packed] describes. *)
Lemma pack_shared_frames s hd fields block maxlen : hd_base_ok hd -> block_packed s fields block maxlen ->
  exists s' frag rest, frame_pack_headers_shared s hd = Some (s', 0) /\ block = frag ++ concat rest /\
    bufs_bytes s' = concat (map frame_bytes (block_frames hd fields frag rest)) /\
    Forall (fun f => hd_ok f.1 /\ hd_length f.1 = zlen f.2 /\ (length f.2 <= maxlen)%nat) (block_frames hd fields frag rest).
Proof.
  intros Hhd [(b & mids & post & frag & Hc & Hcur & Hb & Hm & Hby & Hpost & -> & Hl & Hlm) _].
  destruct (pack_shared_ok s hd b mids post fields frag Hhd Hc Hcur Hb Hm Hby Hpost) as (s' & E & _ & Hs').
  exists s', frag, (map buf_bytes mids). split_and!; try done. constructor.
  - cbn [fst snd]. rewrite <- Hby. pose proof (packable_len _ Hb) as Hpl. destruct Hb as (Hok & _ & Hlt).
    split_and!; [|done|by rewrite buf_bytes_length].
    apply hd_set_ok; [done|lia|apply Hhd|]. destruct (map buf_bytes mids); [apply Hhd|apply u8_range].
  - clear Hc Hcur Hs' E Hpost. induction Hm as [|c mids Hc Hm IH]; [constructor|]. apply Forall_cons in Hlm as [Hlc Hlm].
    cbn [map continuation_frames]. constructor; [|by apply IH]. cbn [fst snd].
    pose proof (packable_len _ Hc) as Hpl. destruct Hc as (Hok & _ & Hlt).
    split_and!; [|done|by rewrite buf_bytes_length]. apply hd_set_ok; [done|lia|done|]. by destruct (map buf_bytes mids).
Qed.

End PackOk.

(** The octets between the header and the block of a HEADERS frame. *)
Definition headers_fields (f : nghttp2_headers) : bytes :=
  if negb (hd_flags (he_hd f) .& NGHTTP2_FLAG_PRIORITY =? 0) then pri_spec_bytes (he_pri_spec f) else [].

(** C31: A header list survives compression and framing.  If
    [nghttp2_frame_pack_headers] succeeds, the chain holds one HEADERS frame
    and CONTINUATION frames on the same stream: each frame header is read back
    with the length of its payload, which is at most a chunk, END_HEADERS is
    only on the last frame of several, the first payload starts with the
    priority fields if they are announced, and the fragments put together are
    the octets of representations that decode to exactly the given fields.  The
    frame length reported to the caller is that of the whole block.  Otherwise
    the compressor is marked as unusable. *)
Theorem pack_headers_frames malloc `{!Allocator malloc} s d nvs st frame :
  framebufs_ok s -> hd_base_ok (he_hd frame) -> pri_spec_ok (he_pri_spec frame) ->
  synced d nvs st -> Forall nv_ok (he_nva frame) -> ctx_bad (df_ctx d) = false ->
  exists d' s' frame' rv, nghttp2_frame_pack_headers malloc s frame d = Some ((d', s', frame'), rv) /\
    (rv <> 0 -> ctx_bad (df_ctx d') = true) /\
    (rv = 0 -> exists rs outs nvs' frag rest,
       let frames := block_frames (he_hd frame) (headers_fields frame) frag rest in
       bufs_bytes s' = concat (map frame_bytes frames) /\
       Forall (fun f => nghttp2_frame_unpack_frame_hd (frame_bytes f) = Some f.1 /\ hd_length f.1 = zlen f.2 /\
                        (length f.2 <= bs_chunk_length s - bs_offset s)%nat) frames /\
       frag ++ concat rest = block_bytes rs /\
       reprs_apply st rs = Some ((hd_table_bufsize_max (df_ctx d), nvs'), outs) /\
       Forall2 field_eq (he_nva frame) outs /\
       synced d' nvs' (hd_table_bufsize_max (df_ctx d), nvs') /\ ctx_bad (df_ctx d') = false /\
       hd_length (he_hd frame') = zlen (headers_fields frame) + zlen (block_bytes rs)).
Proof.
  intros Hfb Hhd Hps Hsy Hnva Hbad. unfold nghttp2_frame_pack_headers.
  assert (length (headers_fields frame) = nghttp2_frame_headers_payload_nv_offset frame) as Hfl.
  { unfold headers_fields, nghttp2_frame_headers_payload_nv_offset, nghttp2_frame_priority_len. by destruct (negb _). }
  set (f := fun buf : nghttp2_buf => if negb _ then _ else _).
  destruct (pack_block_ok malloc s d nvs st (he_nva frame) (nghttp2_frame_headers_payload_nv_offset frame)
    (headers_fields frame) f Hfb) as (d' & s1 & rv & -> & Herr & Hok);
    try done.
  { unfold nghttp2_frame_headers_payload_nv_offset, nghttp2_frame_priority_len. destruct (negb _); lia. }
  { intros b. unfold f, headers_fields, nghttp2_frame_headers_payload_nv_offset, nghttp2_frame_priority_len.
    destruct (negb _); intros Hle; [|].
    - unfold buf_store_pos. rewrite option_guard_True by done. by rewrite pack_priority_spec_eq.
    - destruct b as [mm pp ll kk]. cbn [b_mem b_pos b_last b_mark]. unfold mem_write. cbn [length app]. by rewrite Nat.add_0_r, take_drop. }
  cbn [mbind option_bind]. destruct (Z.eqb_spec rv 0) as [-> |Hne]; cbn [negb].
  2:{ eexists _, _, _, _. split; [done|]. split; [done|]. intros E. done. }
  destruct (Hok eq_refl) as (rs & outs & nvs' & Hbp & Ha & Hfe & Hs' & Hb').
  set (hd' := hd_set (he_hd frame) _ _ _). assert (hd_base_ok hd') as Hhd' by exact Hhd.
  destruct (pack_shared_frames s1 hd' _ _ _ Hhd' Hbp) as (s2 & frag & rest & -> & Hblk & Hby & Hfr).
  cbn [mbind option_bind]. eexists _, _, _, _. split; [done|]. split; [done|]. intros _.
  assert (block_frames hd' (headers_fields frame) frag rest = block_frames (he_hd frame) (headers_fields frame) frag rest) as Ebf.
  { unfold block_frames, hd'. by rewrite continuation_frames_hd_set. }
  rewrite Ebf in *. exists rs, outs, nvs', frag, rest. cbv zeta. split_and!; try done.
  - eapply Forall_impl; [exact Hfr|]. intros x (Hx & ? & ?). split_and!; try done.
    unfold frame_bytes. by apply unpack_frame_hd_bytes.
  - cbn [he_hd]. unfold hd'. cbn [hd_set hd_length]. rewrite (bp_len _ _ _ _ Hbp). lia.
Qed.

(** A request sent in two frames. *)
Lemma pack_headers_frames_witness :
  exists s d d' s' frame' rv,
    nghttp2_bufs_init3 zero_malloc 0 16 4 1 10 = inl s /\ nghttp2_hd_deflate_init zero_malloc = inl d /\
    let frame := nghttp2_frame_headers_init 5 1 0 None [mk_nv [120; 121] [122; 122; 122; 122] 0] in
    nghttp2_frame_pack_headers zero_malloc s frame d = Some ((d', s', frame'), rv) /\
    (rv <> 0 -> ctx_bad (df_ctx d') = true).
Proof.
  destruct (nghttp2_bufs_init3 zero_malloc 0 16 4 1 10) as [s|e] eqn:Es; [|vm_compute in Es; discriminate].
  destruct (nghttp2_hd_deflate_init zero_malloc) as [d|e] eqn:Ed; [|vm_compute in Ed; discriminate].
  destruct (bufs_init3_spec zero_malloc 0 16 4 1 10 s Es) as (Hwf & _); [lia|].
  destruct (deflate_init2_synced zero_malloc NGHTTP2_HD_DEFAULT_MAX_DEFLATE_BUFFER_SIZE d) as [Hsy Hb];
    [by vm_compute|exact Ed|].
  destruct (pack_headers_frames zero_malloc s d [] (NGHTTP2_HD_DEFAULT_MAX_BUFFER_SIZE, [])
    (nghttp2_frame_headers_init 5 1 0 None [mk_nv [120; 121] [122; 122; 122; 122] 0])) as (d' & s' & frame' & rv & E & Herr & _).
  - split; [exact Hwf|by injection Es as <-|injection Es as <-; simpl; lia|injection Es as <-; by repeat constructor|].
    injection Es as <-. simpl. lia.
  - by vm_compute.
  - repeat split; try done. by left.
  - exact Hsy.
  - constructor; [split; apply (bool_decide_unpack _); by vm_compute|constructor].
  - exact Hb.
  - exists s, d, d', s', frame', rv. split_and!; [reflexivity|reflexivity|]. split; [exact E|exact Herr].
Defined.

(** PUSH_PROMISE: the same with the promised stream before the block. *)
Lemma pack_push_promise_frames malloc `{!Allocator malloc} s d nvs st frame :
  framebufs_ok s -> hd_base_ok (pp_hd frame) -> is_stream_id (pp_promised_stream_id frame) ->
  synced d nvs st -> Forall nv_ok (pp_nva frame) -> ctx_bad (df_ctx d) = false ->
  exists d' s' frame' rv, nghttp2_frame_pack_push_promise malloc s frame d = Some ((d', s', frame'), rv) /\
    (rv <> 0 -> ctx_bad (df_ctx d') = true) /\
    (rv = 0 -> exists rs outs nvs' frag rest,
       let frames := block_frames (pp_hd frame) (uint32be (pp_promised_stream_id frame)) frag rest in
       bufs_bytes s' = concat (map frame_bytes frames) /\
       frag ++ concat rest = block_bytes rs /\
       reprs_apply st rs = Some ((hd_table_bufsize_max (df_ctx d), nvs'), outs) /\
       Forall2 field_eq (pp_nva frame) outs).
Proof.
  intros Hfb Hhd Hps Hsy Hnva Hbad. unfold nghttp2_frame_pack_push_promise.
  set (f := fun buf : nghttp2_buf => buf_store_pos _ _ _).
  destruct (pack_block_ok malloc s d nvs st (pp_nva frame) 4 (uint32be (pp_promised_stream_id frame)) f Hfb)
    as (d' & s1 & rv & -> & Herr & Hok); try done; [lia| |].
  { intros b Hle. unfold f, buf_store_pos. rewrite option_guard_True by done.
    by rewrite u32_id by (unfold is_stream_id in Hps; cint_lia). }
  cbn [mbind option_bind]. destruct (Z.eqb_spec rv 0) as [-> |Hne]; cbn [negb].
  2:{ eexists _, _, _, _. split; [done|]. split; [done|]. intros E. done. }
  destruct (Hok eq_refl) as (rs & outs & nvs' & Hbp & Ha & Hfe & _).
  set (hd' := hd_set (pp_hd frame) _ _ _). assert (hd_base_ok hd') as Hhd' by exact Hhd.
  destruct (pack_shared_frames s1 hd' _ _ _ Hhd' Hbp) as (s2 & frag & rest & -> & Hblk & Hby & _).
  cbn [mbind option_bind]. eexists _, _, _, _. split; [done|]. split; [done|]. intros _.
  exists rs, outs, nvs', frag, rest. cbv zeta. split_and!; try done. rewrite Hby.
  unfold block_frames, hd'. by rewrite continuation_frames_hd_set.
Qed.

(** ** Padding *)

Lemma mem_write_mid (pre old post new : bytes) k : k = length pre -> length old = length new ->
  mem_write (pre ++ old ++ post) k new = pre ++ new ++ post.
Proof.
  intros -> Hl. unfold mem_write. rewrite take_app_length. f_equal. f_equal.
  rewrite drop_app_ge by lia. replace (length pre + length new - length pre)%nat with (length old) by lia.
  by rewrite drop_app_length.
Qed.

Lemma mem_write_nested m off h k new : (off + length h <= length m)%nat -> (k + length new <= length h)%nat ->
  mem_write (mem_write m off h) (off + k) new = mem_write m off (mem_write h k new).
Proof.
  intros Hm Hk. unfold mem_write at 1 2 3. rewrite mem_write_length by done. unfold mem_write.
  assert (length (take off m) = off) as Ho by (rewrite length_take; lia).
  rewrite take_app_ge, Ho by lia. replace (off + k - off)%nat with k by lia. rewrite take_app_le by lia.
  rewrite drop_app_ge, Ho by lia. replace (off + k + length new - off)%nat with (k + length new)%nat by lia.
  rewrite drop_app_le by lia. by rewrite <- !app_assoc.
Qed.

Lemma mem_write_at0 m off bs : mem_write m off bs = mem_write m (off + 0) bs.
Proof. by rewrite Nat.add_0_r. Qed.

Lemma get_uint32_slice m off n : (4 <= n)%nat -> nghttp2_get_uint32 (mem_slice m off n) 0 = nghttp2_get_uint32 m off.
Proof. intros Hn. unfold nghttp2_get_uint32. rewrite !mem_get_slice by lia. by rewrite Nat.add_0_r. Qed.

Lemma octet_padded c : is_u8 c -> is_u8 (c .| NGHTTP2_FLAG_PADDED) /\ 0 < (c .| NGHTTP2_FLAG_PADDED) .& NGHTTP2_FLAG_PADDED.
Proof. revert c. apply (all_octets _ _). by vm_compute. Qed.

(** The header with the padding counted. *)
Definition padded_hd (hd : nghttp2_frame_hd) (padlen : nat) : nghttp2_frame_hd :=
  hd_set hd (hd_length hd + Z.of_nat padlen) (hd_type hd) (hd_flags hd .| NGHTTP2_FLAG_PADDED).

(** The length field is rewritten with the type octet that shares its word. *)
Lemma padded_length_word n t : 0 <= n < 2 ^ 24 -> is_u8 t ->
  uint32be (u32 (Z.shiftl n 8 + t)) = [u8 (Z.shiftr n 16); u8 (Z.shiftr n 8); u8 n; t].
Proof.
  intros Hn Ht. rewrite Z.shiftl_mul_pow2 by lia. change (2 ^ 8) with 256.
  rewrite u32_id by cint_lia. unfold uint32be. rewrite !Z.shiftr_div_pow2 by lia.
  assert (forall k, 0 < k -> (n * 256 + t) / (256 * k) = n / k) as H.
  { intros k Hk. rewrite <- Z.div_div by lia. rewrite Z.div_add_l by lia. by rewrite (Z.div_small t), Z.add_0_r by cint_lia. }
  change (2 ^ 24) with (256 * 2 ^ 16). change (2 ^ 16) with (256 * 2 ^ 8) at 2. change (2 ^ 8) with (256 * 1) at 2.
  rewrite !H, Z.div_1_r by lia. do 3 f_equal. unfold u8. change (2 ^ 8) with 256.
  rewrite Z.add_comm, Z.mod_add by lia. f_equal. by apply Z.mod_small.
Qed.

(** The octets of a padded frame: the header, the length of the trailing
    padding, the payload, and the padding. *)
Definition padded_bytes (hd : nghttp2_frame_hd) (padlen : nat) (payload : bytes) : bytes :=
  frame_hd_bytes (padded_hd hd padlen) ++ [Z.of_nat (padlen - 1)] ++ payload ++ replicate (padlen - 1) 0.

Lemma frame_set_pad_split pre x hd payload post padlen mark (framehd_only : bool) : hd_ok hd ->
  (1 <= padlen <= 256)%nat -> hd_length hd + Z.of_nat padlen < 2 ^ 24 -> (padlen - 1 <= length post)%nat ->
  let b := mk_buf (pre ++ x :: frame_hd_bytes hd ++ payload ++ post) (S (length pre))
             (S (length pre) + 9 + length payload) mark in
  exists y, frame_set_pad b padlen framehd_only =
    Some (if framehd_only
          then mk_buf (pre ++ frame_hd_bytes (padded_hd hd padlen) ++ y :: payload ++ post) (length pre)
                 (S (length pre) + 9 + length payload) mark
          else mk_buf (pre ++ padded_bytes hd padlen payload ++ drop (padlen - 1) post) (length pre)
                 (S (length pre) + 9 + length payload + (padlen - 1)) mark).
Proof.
  intros Hhd Hpad Hlen Hpost b. pose proof Hhd as (Hl & Ht & Hf & Hs & Hr).
  unfold frame_set_pad, NGHTTP2_FRAME_HDLEN. cbn [b b_pos b_mem b_last b_mark].
  rewrite option_guard_True by (rewrite !length_app; cbn [length]; rewrite !length_app, frame_hd_bytes_length; lia).
  cbn [Nat.sub]. rewrite Nat.sub_0_r.
  assert (mem_slice (pre ++ x :: frame_hd_bytes hd ++ payload ++ post) (S (length pre)) 9 = frame_hd_bytes hd) as ->.
  { unfold mem_slice. rewrite drop_app_ge by lia. replace (S (length pre) - length pre)%nat with 1%nat by lia.
    cbn [drop]. by rewrite drop_0, (take_app_length' (frame_hd_bytes hd)). }
  set (m := pre ++ x :: frame_hd_bytes hd ++ payload ++ post).
  assert (length pre + 10 + length payload + length post = length m)%nat as Hm.
  { unfold m. rewrite !length_app. cbn [length]. rewrite !length_app, frame_hd_bytes_length. lia. }
  set (fl := hd_flags hd .| NGHTTP2_FLAG_PADDED). destruct (octet_padded _ Hf) as [Hfl _]. fold fl in Hfl.
  assert (mem_get (mem_write m (length pre) (frame_hd_bytes hd)) (length pre + 4) = hd_flags hd) as ->.
  { rewrite mem_get_write by (rewrite frame_hd_bytes_length; lia). done. }
  fold fl. rewrite mem_write_nested by (rewrite ?frame_hd_bytes_length; simpl; lia).
  assert (mem_write (frame_hd_bytes hd) 4 [fl] = frame_hd_bytes (hd_set hd (hd_length hd) (hd_type hd) fl)) as -> by done.
  set (hd2 := hd_set hd (hd_length hd) (hd_type hd) fl).
  assert (hd_ok hd2) as Hhd2 by (unfold hd_ok; cbn; tauto).
  assert (Z.shiftr (nghttp2_get_uint32 (mem_write m (length pre) (frame_hd_bytes hd2)) (length pre)) 8 = hd_length hd) as ->.
  { rewrite <- (get_uint32_slice _ _ (length (frame_hd_bytes hd2))) by (rewrite frame_hd_bytes_length; lia).
    rewrite mem_slice_write by (rewrite frame_hd_bytes_length; lia).
    pose proof (unpack_frame_hd_bytes hd2 [] Hhd2) as E. rewrite app_nil_r in E. unfold nghttp2_frame_unpack_frame_hd in E.
    rewrite option_guard_True in E by (rewrite frame_hd_bytes_length; unfold NGHTTP2_FRAME_HDLEN; lia).
    by apply (f_equal (fmap hd_length)) in E as [=]. }
  assert (mem_get (mem_write m (length pre) (frame_hd_bytes hd2)) (length pre + 3) = hd_type hd) as ->.
  { rewrite mem_get_write by (rewrite frame_hd_bytes_length; lia). done. }
  unfold nghttp2_put_uint32be. rewrite padded_length_word by (done || lia).
  rewrite (mem_write_at0 (mem_write m (length pre) (frame_hd_bytes hd2)) (length pre)).
  rewrite mem_write_nested by (rewrite ?frame_hd_bytes_length; simpl; lia).
  assert (mem_write (frame_hd_bytes hd2) 0 [u8 (Z.shiftr (hd_length hd + Z.of_nat padlen) 16);
    u8 (Z.shiftr (hd_length hd + Z.of_nat padlen) 8); u8 (hd_length hd + Z.of_nat padlen); hd_type hd] =
    frame_hd_bytes (padded_hd hd padlen)) as -> by done.
  destruct framehd_only.
  - exists (u8 (u32 (hd_stream_id hd))). f_equal. f_equal. unfold m.
    change (x :: frame_hd_bytes hd ++ payload ++ post) with ((x :: take 8 (frame_hd_bytes hd)) ++ (u8 (u32 (hd_stream_id hd))) :: payload ++ post).
    by rewrite mem_write_mid.
  - exists 0. rewrite (u8_id (Z.of_nat (padlen - 1))) by cint_lia.
    rewrite mem_write_more by (rewrite ?frame_hd_bytes_length; simpl; lia).
    assert (mem_write m (length pre) (frame_hd_bytes (padded_hd hd padlen) ++ [Z.of_nat (padlen - 1)]) =
      pre ++ (frame_hd_bytes (padded_hd hd padlen) ++ [Z.of_nat (padlen - 1)]) ++ payload ++ post) as ->.
    { unfold m. change (x :: frame_hd_bytes hd ++ payload ++ post) with ((x :: frame_hd_bytes hd) ++ payload ++ post).
      by rewrite mem_write_mid. }
    rewrite option_guard_True by (rewrite !length_app, frame_hd_bytes_length; simpl; lia). f_equal. f_equal.
    rewrite <- (take_drop (padlen - 1) post) at 1. unfold padded_bytes. rewrite !app_assoc.
    rewrite <- app_assoc. rewrite mem_write_mid; [by rewrite !app_assoc| |rewrite length_take, length_replicate; lia].
    rewrite !length_app, frame_hd_bytes_length. simpl. lia.
Qed.

(** A chunk around the octet before its contents. *)
Lemma buf_split b content : buf_ok b -> buf_bytes b = content -> (1 <= b_pos b)%nat ->
  exists pre x, b = mk_buf (pre ++ x :: content ++ drop (b_last b) (b_mem b)) (S (length pre))
                      (S (length pre) + length content) (b_mark b) /\ b_pos b = S (length pre).
Proof.
  intros [Hp Hl] Hc H1. pose proof (f_equal length Hc) as Hlen.
  rewrite buf_bytes_length in Hlen by done. unfold nghttp2_buf_len in Hlen.
  set (pre := take (b_pos b - 1) (b_mem b)). assert (length pre = b_pos b - 1)%nat as Hpre by (unfold pre; rewrite length_take; lia).
  destruct (lookup_lt_is_Some_2 (b_mem b) (b_pos b - 1)) as [x Hx].
  { destruct (decide (b_pos b - 1 < length (b_mem b))%nat); [done|]. lia. }
  exists pre, x. split; [|lia]. destruct b as [m p l k]. cbn [b_mem b_pos b_last b_mark] in *.
  f_equal; [|lia|lia]. rewrite <- (take_drop (p - 1) m) at 1. fold pre. f_equal.
  rewrite (drop_S m x) by done. f_equal. rewrite <- Hc. unfold buf_bytes, nghttp2_buf_len, mem_slice. cbn [b_mem b_pos b_last].
  replace (S (p - 1)) with p by lia. rewrite <- (take_drop (l - p) (drop p m)) at 1. f_equal.
  rewrite drop_drop. f_equal. lia.
Qed.

(** Padding is transparent.  Adding up to 256 octets of padding to a packed
    frame changes the first chunk only: its octets become the same header with
    the PADDED flag and the longer length, the length of the trailing padding,
    the old payload, and zeros.  The receiver reads the header back, takes the
    trailing padding to be what was added less the length octet, and finds the
    payload between the two.  The header the caller keeps gets the same
    changes. *)
Theorem frame_add_pad_correct s b hd wire_hd payload padlen :
  bufs_wf s -> bufs_head s = Some b -> buf_bytes b = frame_bytes (wire_hd, payload) -> hd_ok wire_hd ->
  (1 <= b_pos b)%nat -> (1 <= padlen <= Z.to_nat NGHTTP2_MAX_PADLEN)%nat -> (padlen - 1 <= nghttp2_buf_avail b)%nat ->
  hd_length wire_hd + Z.of_nat padlen < 2 ^ 24 ->
  exists s' b', nghttp2_frame_add_pad s hd padlen false = Some (s', padded_hd hd padlen) /\
    bufs_head s' = Some b' /\ drop 1 (bs_chain s') = drop 1 (bs_chain s) /\ buf_ok b' /\
    buf_bytes b' = frame_hd_bytes (padded_hd wire_hd padlen) ++
      [Z.of_nat (padlen - 1)] ++ payload ++ replicate (padlen - 1) 0 /\
    nghttp2_frame_unpack_frame_hd (buf_bytes b') = Some (padded_hd wire_hd padlen) /\
    nghttp2_frame_trail_padlen (padded_hd wire_hd padlen) (Z.of_nat padlen) = Z.of_nat (padlen - 1).
Proof.
  intros Hwf Hb Hby Hhd H1 Hpad Hav Hlen. unfold NGHTTP2_MAX_PADLEN in Hpad. change (Z.to_nat 256) with 256%nat in Hpad.
  assert (buf_ok b) as Hok by exact (Forall_lookup_1 _ _ _ _ (wf_bufs _ Hwf) Hb).
  destruct (buf_split b _ Hok Hby H1) as (pre & x & Eb & Hpre). set (post := drop (b_last b) (b_mem b)) in *.
  assert (length post = nghttp2_buf_avail b) as Hpost by (unfold post; rewrite length_drop; done).
  unfold nghttp2_frame_add_pad. rewrite (proj2 (Nat.eqb_neq _ _)) by lia. rewrite Hb. cbn [mbind option_bind].
  rewrite option_guard_True by done.
  destruct (frame_set_pad_split pre x wire_hd payload post padlen (b_mark b) false Hhd Hpad Hlen ltac:(lia)) as (y & E).
  assert (b = mk_buf (pre ++ x :: frame_hd_bytes wire_hd ++ payload ++ post) (S (length pre))
    (S (length pre) + 9 + length payload) (b_mark b)) as Eb'.
  { rewrite Eb at 1. unfold frame_bytes. cbn [fst snd]. rewrite <- app_assoc. f_equal.
    rewrite length_app, frame_hd_bytes_length. lia. }
  rewrite <- Eb' in E. rewrite E. cbn [mbind option_bind]. eexists _, _. split; [done|].
  assert (0 < length (bs_chain s))%nat as Hl0 by (apply lookup_lt_Some in Hb; done).
  assert (length (padded_bytes wire_hd padlen payload) = 9 + 1 + length payload + (padlen - 1))%nat as Hpl.
  { unfold padded_bytes. rewrite !length_app, length_replicate, frame_hd_bytes_length. simpl. lia. }
  split; [unfold bufs_head, set_head_buf; cbn [set_chain bs_chain]; by apply list_lookup_insert_eq|].
  split; [unfold set_head_buf; cbn [set_chain bs_chain]; by destruct (bs_chain s)|].
  split; [split; cbn [b_mem b_pos b_last]; rewrite ?length_app, ?length_drop; lia|].
  assert (forall c, buf_bytes (mk_buf (pre ++ padded_bytes wire_hd padlen payload ++ c) (length pre)
    (S (length pre) + 9 + length payload + (padlen - 1)) (b_mark b)) = padded_bytes wire_hd padlen payload) as ->.
  { intros c. unfold buf_bytes, nghttp2_buf_len, mem_slice. cbn [b_mem b_pos b_last]. rewrite drop_app_length.
    apply take_app_length'. lia. }
  split; [done|]. destruct (octet_padded (hd_flags wire_hd)) as [Hu Hbit]; [apply Hhd|]. split.
  - unfold padded_bytes. apply unpack_frame_hd_bytes. destruct Hhd as (? & ? & ? & ? & ?). unfold hd_ok, padded_hd. cbn.
    split_and!; try done; lia.
  - unfold nghttp2_frame_trail_padlen. rewrite (proj2 (Z.eqb_neq _ _)) by lia. unfold padded_hd. cbn [hd_set hd_flags].
    rewrite (proj2 (Z.ltb_lt _ _)) by done. unfold c_bool. lia.
Qed.

(** A PING frame padded by three octets. *)
Lemma frame_add_pad_correct_witness :
  exists b b' s', nghttp2_frame_add_pad (mk_bufs [b] 0 64 1 1 1 10 0) (mk_hd 2 0 0 1 0) 3 false =
      Some (s', mk_hd 5 0 8 1 0) /\
    bufs_head s' = Some b' /\ buf_bytes b' = [0; 0; 5; 0; 8; 0; 0; 0; 1; 2; 65; 66; 0; 0].
Proof.
  set (b := mk_buf ([0; 0; 0; 2; 0; 0; 0; 0; 0; 1; 65; 66] ++ replicate 52 0) 1 12 0).
  destruct (frame_add_pad_correct (mk_bufs [b] 0 64 1 1 1 10 0) b (mk_hd 2 0 0 1 0) (mk_hd 2 0 0 1 0) [65; 66] 3)
    as (s' & b' & E & Hb' & _ & _ & Hby & _).
  - split; simpl; try lia; repeat constructor; simpl; lia.
  - reflexivity.
  - reflexivity.
  - by repeat split.
  - simpl. lia.
  - unfold NGHTTP2_MAX_PADLEN. lia.
  - unfold nghttp2_buf_avail. simpl. lia.
  - by vm_compute.
  - exists b, b', s'. split; [exact E|]. split; [exact Hb'|]. rewrite Hby. reflexivity.
Defined.
