(* ===== verification/FrameNv.v ===== *)
(** * Arrays of header fields (nghttp2_frame.c)

    The session copies the fields an application submits into one block,
    names folded to lower case, unless the application asks for its own memory
    to be used.  [nv_array_copy_spec]: the copy has the same fields, the block
    is of just the right size, and nothing is written outside it.  The
    comparison used for sorting is the lexicographic order. *)

From S2P Require Import Prelude Defs Helper Buf HdTable.

(** ** Comparison *)

(** [memcmp(a, b, n)] on two blocks of at least [n] octets; only the sign of the result
    is specified. *)
Fixpoint memcmp (a b : bytes) (n : nat) : Z :=
  match n, a, b with
  | S n, x :: a, y :: b => if x =? y then memcmp a b n else x - y
  | _, _, _ => 0
  end.

(** The null pointer with length 0 is the empty string. *)
Definition nghttp2_nv_equal (a b : nghttp2_nv) : bool :=
  if negb (length (nv_name a) =? length (nv_name b))%nat || negb (length (nv_value a) =? length (nv_value b))%nat then false
  else if negb (memcmp (nv_name a) (nv_name b) (length (nv_name a)) =? 0) then false
  else if negb (memcmp (nv_value a) (nv_value b) (length (nv_value a)) =? 0) then false
  else true.

Definition bytes_compar (a b : bytes) : Z :=
  if (length a =? length b)%nat then memcmp a b (length a)
  else if (length a <? length b)%nat then
    let rv := memcmp a b (length a) in if rv =? 0 then -1 else rv
  else
    let rv := memcmp a b (length b) in if rv =? 0 then 1 else rv.

Definition nghttp2_nv_compare_name (lhs rhs : nghttp2_nv) : Z := bytes_compar (nv_name lhs) (nv_name rhs).

Definition nv_compar (a b : nghttp2_nv) : Z :=
  let rv := bytes_compar (nv_name a) (nv_name b) in
  if rv =? 0 then bytes_compar (nv_value a) (nv_value b) else rv.

(** [qsort] of the C library is a parameter. *)
Definition nghttp2_nv_array_sort (qsort : (nghttp2_nv -> nghttp2_nv -> Z) -> list nghttp2_nv -> list nghttp2_nv)
    (nva : list nghttp2_nv) : list nghttp2_nv := qsort nv_compar nva.

(** ** Copies *)

(** [sizeof(nghttp2_nv)] on a 64-bit target. *)
Definition sizeof_nv : nat := 40.

Definition no_copy_name (nv : nghttp2_nv) : bool := negb (nv_flags nv .& NGHTTP2_NV_FLAG_NO_COPY_NAME =? 0).
Definition no_copy_value (nv : nghttp2_nv) : bool := negb (nv_flags nv .& NGHTTP2_NV_FLAG_NO_COPY_VALUE =? 0).

Fixpoint nv_array_buflen (nva : list nghttp2_nv) (buflen : nat) : nat :=
  match nva with
  | [] => buflen
  | nv :: nva =>
      let buflen := if no_copy_name nv then buflen else (buflen + (length (nv_name nv) + 1))%nat in
      let buflen := if no_copy_value nv then buflen else (buflen + (length (nv_value nv) + 1))%nat in
      nv_array_buflen nva buflen
  end.

(** A string of the copy: the memory of the caller, or a place in the block. *)
Inductive nv_ptr :=
  | PtrCaller (s : bytes)
  | PtrBlock (off len : nat).

(** [memcpy(data, s, len); data[len] = '\0';] and, for names, the folding in place. *)
Definition copy_string (area : bytes) (data : nat) (s : bytes) (fold : bool) : option bytes :=
  guard (data + (length s + 1) <= length area)%nat;;
  let area := mem_write area data s in
  let area := mem_write area (data + length s) [0] in
  Some (if fold then mem_write area data (nghttp2_downcase (mem_slice area data (length s))) else area).

Fixpoint nv_array_copy_loop (nva : list nghttp2_nv) (area : bytes) (data : nat)
    : option (bytes * list (nv_ptr * nv_ptr * Z)) :=
  match nva with
  | [] => Some (area, [])
  | nv :: nva =>
      '(area, name, data) ←
        (if no_copy_name nv then Some (area, PtrCaller (nv_name nv), data)
         else area ← copy_string area data (nv_name nv) true;
              Some (area, PtrBlock data (length (nv_name nv)), (data + (length (nv_name nv) + 1))%nat));
      '(area, value, data) ←
        (if no_copy_value nv then Some (area, PtrCaller (nv_value nv), data)
         else area ← copy_string area data (nv_value nv) false;
              Some (area, PtrBlock data (length (nv_value nv)), (data + (length (nv_value nv) + 1))%nat));
      '(area, ps) ← nv_array_copy_loop nva area data;
      Some (area, (name, value, nv_flags nv) :: ps)
  end.

(** What a pointer of the copy points at. *)
Definition ptr_bytes (area : bytes) (p : nv_ptr) : bytes :=
  match p with PtrCaller s => s | PtrBlock off len => mem_slice area off len end.

Definition nghttp2_nv_array_copy (malloc : nat -> nat -> option bytes) (call : nat) (nva : list nghttp2_nv)
    : option (list nghttp2_nv * Z) :=
  if (length nva =? 0)%nat then Some ([], 0)
  else
    match malloc call (nv_array_buflen nva 0 + sizeof_nv * length nva)%nat with
    | None => Some ([], NGHTTP2_ERR_NOMEM)
    | Some m =>
        '(area, ps) ← nv_array_copy_loop nva (drop (sizeof_nv * length nva) m) 0;
        Some (map (fun '(name, value, flags) => mk_nv (ptr_bytes area name) (ptr_bytes area value) flags) ps, 0)
    end.

(** ** The order *)

(** The lexicographic order of octet strings, a prefix first. *)
Fixpoint lex (a b : bytes) : comparison :=
  match a, b with
  | [], [] => Eq
  | [], _ => Lt
  | _, [] => Gt
  | x :: a, y :: b => match x ?= y with Eq => lex a b | c => c end
  end.

Definition has_sign (z : Z) (c : comparison) : Prop :=
  match c with Lt => z < 0 | Eq => z = 0 | Gt => 0 < z end.

Lemma memcmp_lex a b : has_sign (bytes_compar a b) (lex a b).
Proof.
  revert b. induction a as [|x a IH]; intros [|y b]; [done..|]. specialize (IH b). unfold bytes_compar in *.
  cbn [length lex memcmp]. change (S (length a) =? S (length b))%nat with (length a =? length b)%nat.
  change (S (length a) <? S (length b))%nat with (length a <? length b)%nat.
  destruct (Z.compare_spec x y) as [-> |Hlt|Hgt].
  - rewrite Z.eqb_refl. exact IH.
  - rewrite (proj2 (Z.eqb_neq x y)) by lia. cbv zeta. rewrite (proj2 (Z.eqb_neq (x - y) 0)) by lia.
    destruct (length a =? length b)%nat, (length a <? length b)%nat; simpl; lia.
  - rewrite (proj2 (Z.eqb_neq x y)) by lia. cbv zeta. rewrite (proj2 (Z.eqb_neq (x - y) 0)) by lia.
    destruct (length a =? length b)%nat, (length a <? length b)%nat; simpl; lia.
Qed.

Lemma lex_eq a b : lex a b = Eq <-> a = b.
Proof.
  revert b. induction a as [|x a IH]; intros [|y b]; cbn [lex]; try done.
  destruct (Z.compare_spec x y) as [-> |?|?]; [rewrite IH; naive_solver|naive_solver lia..].
Qed.

Lemma bytes_compar_eq a b : bytes_compar a b = 0 <-> a = b.
Proof.
  rewrite <- lex_eq. pose proof (memcmp_lex a b) as H. destruct (lex a b); simpl in H; split; (done || lia).
Qed.

Lemma memcmp_eq a b : length a = length b -> memcmp a b (length a) = 0 <-> a = b.
Proof.
  intros Hl. rewrite <- bytes_compar_eq. unfold bytes_compar. by rewrite (proj2 (Nat.eqb_eq _ _)).
Qed.

(** Equality of fields compares names and values only. *)
Lemma nv_equal_spec a b : nghttp2_nv_equal a b = true <-> nv_name a = nv_name b /\ nv_value a = nv_value b.
Proof.
  unfold nghttp2_nv_equal. destruct (Nat.eqb_spec (length (nv_name a)) (length (nv_name b))) as [Hn|Hn]; cbn [negb orb].
  2:{ split; [done|]. intros [E _]. by rewrite E in Hn. }
  destruct (Nat.eqb_spec (length (nv_value a)) (length (nv_value b))) as [Hv|Hv]; cbn [negb].
  2:{ split; [done|]. intros [_ E]. by rewrite E in Hv. }
  rewrite <- (memcmp_eq _ _ Hn), <- (memcmp_eq _ _ Hv).
  destruct (Z.eqb_spec (memcmp (nv_name a) (nv_name b) (length (nv_name a))) 0);
    destruct (Z.eqb_spec (memcmp (nv_value a) (nv_value b) (length (nv_value a))) 0); cbn; naive_solver.
Qed.

(** ** The copy *)

(** The field an entry of the copy stands for. *)
Definition nv_copied (nv : nghttp2_nv) : nghttp2_nv :=
  mk_nv (if no_copy_name nv then nv_name nv else nghttp2_downcase (nv_name nv)) (nv_value nv) (nv_flags nv).

Lemma nv_array_buflen_acc nva n : nv_array_buflen nva n = (n + nv_array_buflen nva 0)%nat.
Proof.
  revert n. induction nva as [|nv nva IH]; intros n; cbn [nv_array_buflen]; [lia|].
  destruct (no_copy_name nv), (no_copy_value nv); rewrite IH; symmetry; rewrite IH; lia.
Qed.

Lemma downcase_length s : length (nghttp2_downcase s) = length s.
Proof. induction s; simpl; [done|]. by f_equal. Qed.

(** A copied string leaves what is before it and after it. *)
Lemma copy_string_spec area data s fold : (data + (length s + 1) <= length area)%nat ->
  exists area', copy_string area data s fold = Some area' /\ length area' = length area /\
    take (data + (length s + 1)) area' = take data area ++ (if fold then nghttp2_downcase s else s) ++ [0].
Proof.
  intros Hle. unfold copy_string. rewrite option_guard_True by done. eexists. split; [done|].
  set (area1 := mem_write (mem_write area data s) (data + length s) [0]).
  assert (area1 = mem_write area data (s ++ [0])) as E1 by (apply mem_write_write; simpl; lia).
  assert (length area1 = length area) as Hl1 by (rewrite E1; apply mem_write_length; rewrite length_app; simpl; lia).
  assert (forall x, length x = (length s + 1)%nat ->
    take (data + (length s + 1)) (mem_write area data x) = take data area ++ x) as Ht.
  { intros x Hx. unfold mem_write. rewrite take_app_ge by (rewrite length_take; lia).
    rewrite length_take, Nat.min_l by lia. f_equal. apply take_app_length'. lia. }
  destruct fold.
  - assert (mem_slice area1 data (length s) = s) as Hs.
    { rewrite E1. unfold mem_slice, mem_write. rewrite drop_app_length' by (rewrite length_take; lia).
      rewrite <- app_assoc. by apply take_app_length. }
    rewrite Hs. split; [rewrite mem_write_length; rewrite ?downcase_length; lia|].
    assert (mem_write area1 data (nghttp2_downcase s) = mem_write area data (nghttp2_downcase s ++ [0])) as ->.
    { rewrite E1. unfold mem_write. rewrite take_app_le, take_take, Nat.min_id by (rewrite length_take; lia).
      rewrite drop_app_ge by (rewrite length_take; lia). rewrite length_take, Nat.min_l, downcase_length by lia.
      replace (data + length s - data)%nat with (length s) by lia. rewrite <- !app_assoc, drop_app_length.
      by rewrite !length_app, downcase_length. }
    apply Ht. rewrite length_app, downcase_length. simpl. lia.
  - split; [done|]. rewrite E1. apply Ht. rewrite length_app. simpl. lia.
Qed.

(** Places below an offset are not affected by later writes. *)
Definition ptr_below (p : nv_ptr) (n : nat) : Prop :=
  match p with PtrCaller _ => True | PtrBlock off len => (off + len <= n)%nat end.

Lemma ptr_bytes_stable area area' p n : ptr_below p n -> take n area' = take n area -> ptr_bytes area' p = ptr_bytes area p.
Proof.
  destruct p as [s|off len]; [done|]. cbn [ptr_below ptr_bytes]. intros Hle E. unfold mem_slice.
  assert (forall a : bytes, take len (drop off a) = take len (drop off (take n a))) as H.
  { intros a. rewrite !take_drop_commute, take_take. do 2 f_equal. lia. }
  by rewrite H, E, <- H.
Qed.

(** One string, copied or not. *)
Definition place_string (no_copy fold : bool) (area : bytes) (s : bytes) (data : nat) : option (bytes * nv_ptr * nat) :=
  if no_copy then Some (area, PtrCaller s, data)
  else area ← copy_string area data s fold; Some (area, PtrBlock data (length s), (data + (length s + 1))%nat).

Definition place_len (no_copy : bool) (s : bytes) : nat := if no_copy then 0 else length s + 1.

Lemma place_string_spec (no_copy fold : bool) area s data : (data + place_len no_copy s <= length area)%nat ->
  exists area' p, place_string no_copy fold area s data = Some (area', p, (data + place_len no_copy s)%nat) /\
    length area' = length area /\ take data area' = take data area /\ ptr_below p (data + place_len no_copy s) /\
    ptr_bytes area' p = if no_copy then s else if fold then nghttp2_downcase s else s.
Proof.
  unfold place_string, place_len. destruct no_copy; intros Hle.
  { eexists _, _. rewrite Nat.add_0_r. by split_and!. }
  destruct (copy_string_spec area data s fold Hle) as (area' & -> & Hl & Ht). cbn [mbind option_bind].
  set (c := if fold then _ else _) in *. assert (length c = length s) as Hc.
  { subst c. destruct fold; [apply downcase_length|done]. }
  assert (take data area' = take data area) as Htd.
  { assert (take data area' = take data (take (data + (length s + 1)) area')) as -> by (rewrite take_take; f_equal; lia).
    rewrite Ht, take_app_le, take_take, Nat.min_id by (rewrite length_take; lia). done. }
  eexists _, _. split; [done|]. split_and!; [done|done|simpl; lia|]. cbn [ptr_bytes]. unfold mem_slice.
  assert (take (length s) (drop data area') = take (length s) (drop data (take (data + (length s + 1)) area'))) as ->.
  { rewrite !take_drop_commute, take_take. do 2 f_equal. lia. }
  rewrite Ht, drop_app_length' by (rewrite length_take; lia). rewrite <- Hc. apply take_app_length.
Qed.

Lemma nv_array_copy_loop_spec nva area data : (data + nv_array_buflen nva 0 <= length area)%nat ->
  exists area' ps, nv_array_copy_loop nva area data = Some (area', ps) /\ take data area' = take data area /\
    map (fun '(name, value, flags) => mk_nv (ptr_bytes area' name) (ptr_bytes area' value) flags) ps = map nv_copied nva.
Proof.
  revert area data. induction nva as [|nv nva IH]; intros area data Hle; cbn [nv_array_copy_loop].
  { by exists area, []. }
  assert (nv_array_buflen (nv :: nva) 0 = place_len (no_copy_name nv) (nv_name nv) +
    place_len (no_copy_value nv) (nv_value nv) + nv_array_buflen nva 0)%nat as Hbl.
  { cbn [nv_array_buflen]. rewrite nv_array_buflen_acc. unfold place_len. destruct (no_copy_name nv), (no_copy_value nv); lia. }
  rewrite Hbl in Hle. clear Hbl.
  destruct (place_string_spec (no_copy_name nv) true area (nv_name nv) data) as (a1 & p1 & E1 & L1 & T1 & B1 & P1); [lia|].
  unfold place_string in E1. rewrite E1. cbn [mbind option_bind]. set (d1 := (data + place_len _ (nv_name nv))%nat) in *.
  destruct (place_string_spec (no_copy_value nv) false a1 (nv_value nv) d1) as (a2 & p2 & E2 & L2 & T2 & B2 & P2); [lia|].
  unfold place_string in E2. rewrite E2. cbn [mbind option_bind]. set (d2 := (d1 + place_len _ (nv_value nv))%nat) in *.
  destruct (IH a2 d2) as (a3 & ps & -> & T3 & M3); [lia|]. cbn [mbind option_bind].
  assert (forall (x y : bytes) n k, (n <= k)%nat -> take k x = take k y -> take n x = take n y) as Hmono.
  { intros x y n k Hnk E. assert (take n x = take n (take k x)) as -> by (rewrite take_take; f_equal; lia).
    rewrite E, take_take. f_equal. lia. }
  eexists _, _. split; [done|]. split.
  - rewrite (Hmono a3 a2 data d2); [|lia|done]. rewrite (Hmono a2 a1 data d1); [done|lia|done].
  - cbn [map]. f_equal; [|done]. unfold nv_copied. f_equal.
    + rewrite (ptr_bytes_stable a2 a3 p1 d1); [|done|apply (Hmono _ _ d1 d2); [lia|done]].
      rewrite (ptr_bytes_stable a1 a2 p1 d1) by done. rewrite P1. by destruct (no_copy_name nv).
    + rewrite (ptr_bytes_stable a2 a3 p2 d2) by done. rewrite P2. by destruct (no_copy_value nv).
Qed.

(** [nghttp2_nv_array_copy] always returns without writing outside the one
    block it allocates, of just the size the strings and entries need: on
    success the copy has the fields of the original in order, with their flags
    and values, and with names folded to lower case unless the application
    lends its own; without memory it says so. *)
Theorem nv_array_copy_spec malloc `{!Allocator malloc} call nva :
  nghttp2_nv_array_copy malloc call nva =
    if (length nva =? 0)%nat then Some ([], 0)
    else match malloc call (nv_array_buflen nva 0 + sizeof_nv * length nva)%nat with
         | None => Some ([], NGHTTP2_ERR_NOMEM)
         | Some _ => Some (map nv_copied nva, 0)
         end.
Proof.
  unfold nghttp2_nv_array_copy. destruct (_ =? 0)%nat; [done|].
  destruct (malloc call _) as [m|] eqn:E; [|done]. apply malloc_length in E.
  destruct (nv_array_copy_loop_spec nva (drop (sizeof_nv * length nva) m) 0) as (area' & ps & -> & _ & Hm).
  - rewrite length_drop. lia.
  - cbn [mbind option_bind]. by rewrite Hm.
Qed.

Lemma nv_array_copy_spec_witness :
  nghttp2_nv_array_copy zero_malloc 0 [mk_nv [65; 98] [67] 0; mk_nv [68] [] 2] =
    Some ([mk_nv [97; 98] [67] 0; mk_nv [68] [] 2], 0).
Proof. rewrite (nv_array_copy_spec zero_malloc 0). reflexivity. Defined.

Section Sort.
Context (qsort : (nghttp2_nv -> nghttp2_nv -> Z) -> list nghttp2_nv -> list nghttp2_nv).

(** ISO C: the array is permuted into ascending order of the comparison function. *)
Hypothesis qsort_perm : forall cmp l, qsort cmp l ≡ₚ l.
Hypothesis qsort_sorted : forall cmp l i j a b, (i < j)%nat -> qsort cmp l !! i = Some a -> qsort cmp l !! j = Some b -> cmp a b <= 0.

(** Sorting keeps the fields and orders them by name, then by value. *)
Lemma nv_array_sort_spec nva : nghttp2_nv_array_sort qsort nva ≡ₚ nva /\
  forall i j a b, (i < j)%nat -> nghttp2_nv_array_sort qsort nva !! i = Some a ->
    nghttp2_nv_array_sort qsort nva !! j = Some b ->
    lex (nv_name a) (nv_name b) = Lt \/ nv_name a = nv_name b /\ lex (nv_value a) (nv_value b) <> Gt.
Proof.
  split; [apply qsort_perm|]. intros i j a b Hij Ha Hb. pose proof (qsort_sorted _ _ _ _ _ _ Hij Ha Hb) as Hle.
  unfold nv_compar in Hle. pose proof (memcmp_lex (nv_name a) (nv_name b)) as Hn.
  pose proof (memcmp_lex (nv_value a) (nv_value b)) as Hv.
  destruct (Z.eqb_spec (bytes_compar (nv_name a) (nv_name b)) 0) as [E|E].
  - right. split; [by apply bytes_compar_eq|]. intros G. rewrite G in Hv. simpl in Hv. lia.
  - left. destruct (lex (nv_name a) (nv_name b)); simpl in Hn; [lia|done|lia].
Qed.

End Sort.
