(* ===== verification/Sf.v ===== *)
(** * Structured field values (sfparse.c)

    The parser of RFC 8941 dictionaries, lists and items that reads the
    Priority header field.  A parser is a position in the octets of a field
    value together with a small state; each call reads one key, value, member
    of an inner list or parameter.  The operations live in a state and error
    monad: [None] is a read past the end of the input, an overflow of a signed
    integer, a failed assertion or a lack of fuel.

    [sf_calls_terminate] shows that none of these happens for calls in the
    documented order, on any input, and that the input bounds the number of
    successful calls. *)

From S2P Require Import Prelude.

(** ** Data *)

Definition SF_ERR_PARSE_ERROR : Z := -1.
Definition SF_ERR_EOF : Z := -2.

Definition SF_VALUE_FLAG_NONE : Z := 0.
Definition SF_VALUE_FLAG_ESCAPED_STRING : Z := 1.

Definition SF_STATE_DICT : Z := 8.
Definition SF_STATE_LIST : Z := 16.
Definition SF_STATE_ITEM : Z := 24.
Definition SF_STATE_INNER_LIST : Z := 4.
Definition SF_STATE_BEFORE : Z := 0.
Definition SF_STATE_BEFORE_PARAMS : Z := 1.
Definition SF_STATE_PARAMS : Z := 2.
Definition SF_STATE_AFTER : Z := 3.
Definition SF_STATE_OP_MASK : Z := 3.
Definition SF_STATE_INITIAL : Z := 0.

(** The [SF_SET_STATE_*] macros. *)
Definition SF_SET_STATE_AFTER (name : Z) : Z := name .| SF_STATE_AFTER.
Definition SF_SET_STATE_BEFORE_PARAMS (name : Z) : Z := name .| SF_STATE_BEFORE_PARAMS.
Definition SF_SET_STATE_INNER_LIST_BEFORE (name : Z) : Z := name .| SF_STATE_INNER_LIST .| SF_STATE_BEFORE.

(** [sf_value]: the type tag with the member of the union it selects.  An
    [sf_vec] is a view of the input; the model has the octets viewed. *)
Inductive sf_value :=
  | SF_BOOLEAN (boolean : Z)
  | SF_INTEGER (integer : Z)
  | SF_DECIMAL (numer denom : Z)
  | SF_STRING (flags : Z) (vec : bytes)
  | SF_TOKEN (vec : bytes)
  | SF_BYTESEQ (vec : bytes)
  | SF_INNER_LIST
  | SF_DATE (integer : Z).

#[global] Instance sf_value_eq_dec : EqDecision sf_value.
Proof. solve_decision. Defined.

(** [pos] and [end] point into the input: [end] is its length. *)
Record sf_parser := mk_sfp { sfp_data : bytes; sfp_pos : nat; sfp_state : Z }.

(** ** Effects *)

(** [inl rv] is the return of an error code, [inr a] the return of 0 with [a]
    stored at the destinations that are not null. *)
Definition sf_m (A : Type) : Type := sf_parser -> option (sf_parser * (Z + A)).

#[global] Instance sf_ret : MRet sf_m := fun A a p => Some (p, inr a).

#[global] Instance sf_bind : MBind sf_m := fun A B k m p =>
  match m p with
  | None => None
  | Some (p, inl rv) => Some (p, inl rv)
  | Some (p, inr a) => k a p
  end.

Definition sf_err {A} (rv : Z) : sf_m A := fun p => Some (p, inl rv).
Definition sf_undef {A} : sf_m A := fun _ => None.

(** The rest of the input; [*sfp->pos]; [*(sfp->pos - 1)]; [++sfp->pos]. *)
Definition sf_rest (p : sf_parser) : bytes := drop (sfp_pos p) (sfp_data p).
Definition get_rest : sf_m bytes := fun p => Some (p, inr (sf_rest p)).
Definition get_pos : sf_m nat := fun p => Some (p, inr (sfp_pos p)).
Definition peek : sf_m Z := fun p => c ← sfp_data p !! sfp_pos p; Some (p, inr c).
Definition peek_prev : sf_m Z := fun p =>
  guard (0 < sfp_pos p)%nat;; c ← sfp_data p !! (sfp_pos p - 1)%nat; Some (p, inr c).
Definition bump : sf_m unit := fun p =>
  guard (sfp_pos p < length (sfp_data p))%nat;; Some (mk_sfp (sfp_data p) (S (sfp_pos p)) (sfp_state p), inr tt).
Definition get_state : sf_m Z := fun p => Some (p, inr (sfp_state p)).
Definition set_state (s : Z) : sf_m unit := fun p => Some (mk_sfp (sfp_data p) (sfp_pos p) s, inr tt).

(** The octets from [base] to the position. *)
Definition vec_since (base : nat) : sf_m bytes := fun p =>
  Some (p, inr (mem_slice (sfp_data p) base (sfp_pos p - base))).

(** A signed 64-bit result; overflow is undefined. *)
Definition int64 (z : Z) : sf_m Z := fun p => guard (- 2 ^ 63 <= z < 2 ^ 63);; Some (p, inr z).

(** ** Character classes *)

Definition in_range (lo hi c : Z) : bool := (lo <=? c) && (c <=? hi).
Definition one_of (cs : list Z) (c : Z) : bool := existsb (Z.eqb c) cs.

Definition DIGIT_CASES : Z -> bool := in_range 48 57.
Definition LCALPHA_CASES : Z -> bool := in_range 97 122.
Definition UCALPHA_CASES : Z -> bool := in_range 65 90.
Definition ALPHA_CASES (c : Z) : bool := UCALPHA_CASES c || LCALPHA_CASES c.
Definition X20_21_CASES : Z -> bool := in_range 32 33.
Definition X23_5B_CASES : Z -> bool := in_range 35 91.
Definition X5D_7E_CASES : Z -> bool := in_range 93 126.

Definition is_ws (c : Z) : bool := one_of [32; 9] c.

(** Underscore, hyphen, full stop, asterisk, digits and lower case letters. *)
Definition key_char (c : Z) : bool := one_of [95; 45; 46; 42] c || DIGIT_CASES c || LCALPHA_CASES c.

(** The characters of tokens: seventeen marks, digits and letters. *)
Definition token_char (c : Z) : bool :=
  one_of [33; 35; 36; 37; 38; 39; 42; 43; 45; 46; 94; 95; 96; 124; 126; 58; 47] c || DIGIT_CASES c || ALPHA_CASES c.

(** ** Scanning *)

Definition parser_eof : sf_m bool := fun p => Some (p, inr (sfp_pos p =? length (sfp_data p))%nat).

(** [for (; !parser_eof(sfp) && f(c); ++sfp->pos);] with [c] the octet at the
    position: [s] is the rest of the input. *)
Fixpoint skip_while (f : Z -> bool) (s : bytes) : sf_m unit :=
  match s with
  | [] => mret tt
  | c :: s => if f c then bump;; skip_while f s else mret tt
  end.

Definition parser_discard_ows : sf_m unit := s ← get_rest; skip_while is_ws s.

Definition parser_discard_sp : sf_m unit := s ← get_rest; skip_while (Z.eqb 32) s.

Definition parser_set_op_state (op : Z) : sf_m unit :=
  s ← get_state; set_state ((s .& Z.lnot SF_STATE_OP_MASK) .| op).

Definition parser_unset_inner_list_state : sf_m unit :=
  s ← get_state; set_state (s .& Z.lnot SF_STATE_INNER_LIST).

(** The end of the input, or an octet other than [c]. *)
Definition eof_or_not (c : Z) : sf_m bool :=
  e ← parser_eof; if (e : bool) then mret true else x ← peek; mret (negb (x =? c)).

Definition parser_key : sf_m bytes :=
  c ← peek;
  if negb ((c =? 42) || LCALPHA_CASES c) then sf_err SF_ERR_PARSE_ERROR
  else
    base ← get_pos;
    bump;;
    s ← get_rest;
    skip_while key_char s;;
    vec_since base.

(** ** Bare items *)

(** The digits of a number, before or behind the point. *)
Fixpoint number_digits (s : bytes) (value : Z) (len : nat) : sf_m (Z * nat) :=
  match s with
  | [] => mret (value, len)
  | c :: s =>
      if DIGIT_CASES c then
        if (15 <? S len)%nat then sf_err SF_ERR_PARSE_ERROR
        else
          value ← int64 (value * 10);
          value ← int64 (value + (c - 48));
          bump;; number_digits s value (S len)
      else mret (value, len)
  end.

(** [parser_number] behind the sign. *)
Definition number_body (sign : Z) : sf_m sf_value :=
  e ← parser_eof;
  if (e : bool) then sf_undef
  else
    s ← get_rest;
    '(value, len) ← number_digits s 0 0;
    if (len =? 0)%nat then sf_err SF_ERR_PARSE_ERROR
    else
      e ← eof_or_not 46;
      if (e : bool) then mret (SF_INTEGER (value * sign))
      else if (12 <? len)%nat then sf_err SF_ERR_PARSE_ERROR
      else
        let fpos := len in
        bump;;
        s ← get_rest;
        '(value, len) ← number_digits s value len;
        if (fpos =? len)%nat || (3 <? len - fpos)%nat then sf_err SF_ERR_PARSE_ERROR
        else
          mret (SF_DECIMAL (value * sign)
            (match (len - fpos)%nat with 1%nat => 10 | 2%nat => 100 | _ => 1000 end)).

Definition parser_number : sf_m sf_value :=
  c ← peek;
  if c =? 45 then
    bump;;
    e ← parser_eof;
    if (e : bool) then sf_err SF_ERR_PARSE_ERROR else number_body (-1)
  else number_body 1.

(** [assert] that the octet at the position is [c]. *)
Definition assert_peek (c : Z) : sf_m unit := x ← peek; if x =? c then mret tt else sf_undef.

Definition parser_date : sf_m sf_value :=
  assert_peek 64;;
  bump;;
  e ← parser_eof;
  if (e : bool) then sf_err SF_ERR_PARSE_ERROR
  else
    val ← parser_number;
    match val with
    | SF_INTEGER n => mret (SF_DATE n)
    | _ => sf_err SF_ERR_PARSE_ERROR
    end.

Fixpoint string_loop (s : bytes) (base : nat) (flags : Z) : sf_m sf_value :=
  match s with
  | [] => sf_err SF_ERR_PARSE_ERROR
  | c :: s =>
      if X20_21_CASES c || X23_5B_CASES c || X5D_7E_CASES c then bump;; string_loop s base flags
      else if c =? 92 then
        bump;;
        match s with
        | [] => sf_err SF_ERR_PARSE_ERROR
        | c :: s =>
            if one_of [34; 92] c then bump;; string_loop s base SF_VALUE_FLAG_ESCAPED_STRING
            else sf_err SF_ERR_PARSE_ERROR
        end
      else if c =? 34 then
        v ← vec_since base;
        bump;; mret (SF_STRING flags v)
      else sf_err SF_ERR_PARSE_ERROR
  end.

Definition parser_string : sf_m sf_value :=
  assert_peek 34;;
  bump;;
  base ← get_pos;
  s ← get_rest;
  string_loop s base SF_VALUE_FLAG_NONE.

Definition parser_token : sf_m sf_value :=
  base ← get_pos;
  bump;;
  s ← get_rest;
  skip_while token_char s;;
  v ← vec_since base;
  mret (SF_TOKEN v).

(** Behind the label [fin]. *)
Definition byteseq_fin (base : nat) : sf_m sf_value :=
  v ← vec_since base;
  bump;; mret (SF_BYTESEQ v).

(** The padding of a byte sequence; the position is at its first equals sign. *)
Definition byteseq_pad (base : nat) : sf_m sf_value :=
  pos ← get_pos;
  let r := Z.of_nat (pos - base) .& 3 in
  (if (r =? 0) || (r =? 1) then sf_err SF_ERR_PARSE_ERROR
   else if r =? 2 then
     c ← peek_prev;
     if one_of [65; 81; 103; 119] c then
       bump;;
       e ← eof_or_not 61;
       if (e : bool) then sf_err SF_ERR_PARSE_ERROR else mret tt
     else sf_err SF_ERR_PARSE_ERROR
   else
     c ← peek_prev;
     if one_of [65; 69; 73; 77; 81; 85; 89; 99; 103; 107; 111; 115; 119; 48; 52; 56] c then mret tt
     else sf_err SF_ERR_PARSE_ERROR);;
  bump;;
  e ← eof_or_not 58;
  if (e : bool) then sf_err SF_ERR_PARSE_ERROR else byteseq_fin base.

(** Plus, slash, digits and letters. *)
Definition base64_char (c : Z) : bool := one_of [43; 47] c || DIGIT_CASES c || ALPHA_CASES c.

Fixpoint byteseq_loop (s : bytes) (base : nat) : sf_m sf_value :=
  match s with
  | [] => sf_err SF_ERR_PARSE_ERROR
  | c :: s =>
      if base64_char c then bump;; byteseq_loop s base
      else if c =? 61 then byteseq_pad base
      else if c =? 58 then
        pos ← get_pos;
        if negb (Z.of_nat (pos - base) .& 3 =? 0) then sf_err SF_ERR_PARSE_ERROR else byteseq_fin base
      else sf_err SF_ERR_PARSE_ERROR
  end.

Definition parser_byteseq : sf_m sf_value :=
  assert_peek 58;;
  bump;;
  base ← get_pos;
  s ← get_rest;
  byteseq_loop s base.

Definition parser_boolean : sf_m sf_value :=
  assert_peek 63;;
  bump;;
  e ← parser_eof;
  if (e : bool) then sf_err SF_ERR_PARSE_ERROR
  else
    c ← peek;
    b ← (if c =? 48 then mret 0 else if c =? 49 then mret 1 else sf_err SF_ERR_PARSE_ERROR);
    bump;; mret (SF_BOOLEAN b).

Definition parser_bare_item : sf_m sf_value :=
  c ← peek;
  if c =? 34 then parser_string
  else if (c =? 45) || DIGIT_CASES c then parser_number
  else if c =? 64 then parser_date
  else if c =? 58 then parser_byteseq
  else if c =? 63 then parser_boolean
  else if (c =? 42) || ALPHA_CASES c then parser_token
  else sf_err SF_ERR_PARSE_ERROR.

(** ** Parameters and inner lists *)

(** The value of a parameter, behind its key. *)
Definition param_value : sf_m sf_value :=
  e ← eof_or_not 61;
  if (e : bool) then mret (SF_BOOLEAN 1)
  else
    bump;;
    e ← parser_eof;
    if (e : bool) then sf_err SF_ERR_PARSE_ERROR else parser_bare_item.

(** [sf_parser_param] behind its first [switch]. *)
Definition param_body : sf_m (bytes * sf_value) :=
  e ← eof_or_not 59;
  if (e : bool) then parser_set_op_state SF_STATE_AFTER;; sf_err SF_ERR_EOF
  else
    bump;;
    parser_discard_sp;;
    e ← parser_eof;
    if (e : bool) then sf_err SF_ERR_PARSE_ERROR
    else
      key ← parser_key;
      v ← param_value;
      mret (key, v).

(** [sf_parser_inner_list] behind its first [switch]. *)
Definition inner_list_body : sf_m sf_value :=
  c ← peek;
  if c =? 41 then
    bump;;
    parser_unset_inner_list_state;;
    parser_set_op_state SF_STATE_BEFORE_PARAMS;;
    sf_err SF_ERR_EOF
  else
    v ← parser_bare_item;
    parser_set_op_state SF_STATE_BEFORE_PARAMS;;
    mret v.

(** The case [SF_STATE_AFTER] of [sf_parser_inner_list]. *)
Definition inner_list_after : sf_m unit :=
  e ← parser_eof;
  if (e : bool) then sf_err SF_ERR_PARSE_ERROR
  else
    c ← peek;
    if c =? 32 then
      parser_discard_sp;;
      e ← parser_eof;
      if (e : bool) then sf_err SF_ERR_PARSE_ERROR else mret tt
    else if c =? 41 then mret tt
    else sf_err SF_ERR_PARSE_ERROR.

(** The first [switch] of [sf_parser_inner_list]; [skip_params] is the call of [parser_skip_params]. *)
Definition inner_list_gap (skip_params : sf_m unit) : sf_m unit :=
  s ← get_state;
  let op := s .& SF_STATE_OP_MASK in
  if op =? SF_STATE_BEFORE then
    parser_discard_sp;;
    e ← parser_eof;
    if (e : bool) then sf_err SF_ERR_PARSE_ERROR else mret tt
  else if op =? SF_STATE_BEFORE_PARAMS then
    skip_params;;
    inner_list_after
  else if op =? SF_STATE_AFTER then inner_list_after
  else sf_undef.

(** A call whose return value the caller tests itself. *)
Definition sf_catch {A B} (m : sf_m A) (k : Z + A -> sf_m B) : sf_m B := fun p =>
  match m p with
  | None => None
  | Some (p, r) => k r p
  end.

(** The [switch] on the return value in the two loops that skip. *)
Definition skip_again {A} (again : sf_m unit) (rv : Z + A) : sf_m unit :=
  match rv with
  | inr _ => again
  | inl rv =>
      if rv =? SF_ERR_EOF then mret tt
      else if rv =? SF_ERR_PARSE_ERROR then sf_err rv
      else sf_undef
  end.

(** The four functions call each other. *)
Fixpoint sf_parser_param (fuel : nat) : sf_m (bytes * sf_value) :=
  match fuel with
  | O => sf_undef
  | S fuel =>
      s ← get_state;
      let op := s .& SF_STATE_OP_MASK in
      (if op =? SF_STATE_BEFORE then
         parser_skip_inner_list fuel;;
         parser_set_op_state SF_STATE_PARAMS
       else if op =? SF_STATE_BEFORE_PARAMS then parser_set_op_state SF_STATE_PARAMS
       else if op =? SF_STATE_PARAMS then mret tt
       else sf_undef);;
      param_body
  end
with parser_skip_params (fuel : nat) : sf_m unit :=
  match fuel with
  | O => sf_undef
  | S fuel => sf_catch (sf_parser_param fuel) (skip_again (parser_skip_params fuel))
  end
with sf_parser_inner_list (fuel : nat) : sf_m sf_value :=
  match fuel with
  | O => sf_undef
  | S fuel =>
      inner_list_gap (parser_skip_params fuel);;
      inner_list_body
  end
with parser_skip_inner_list (fuel : nat) : sf_m unit :=
  match fuel with
  | O => sf_undef
  | S fuel => sf_catch (sf_parser_inner_list fuel) (skip_again (parser_skip_inner_list fuel))
  end.

(** ** Dictionaries, lists and items *)

Definition parser_next_key_or_item : sf_m unit :=
  parser_discard_ows;;
  e ← parser_eof;
  if (e : bool) then sf_err SF_ERR_EOF
  else
    c ← peek;
    if negb (c =? 44) then sf_err SF_ERR_PARSE_ERROR
    else
      bump;;
      parser_discard_ows;;
      e ← parser_eof;
      if (e : bool) then sf_err SF_ERR_PARSE_ERROR else mret tt.

(** An inner list or a bare item, of a member of kind [name]. *)
Definition member_value (name : Z) : sf_m sf_value :=
  c ← peek;
  if c =? 40 then
    bump;;
    set_state (SF_SET_STATE_INNER_LIST_BEFORE name);;
    mret SF_INNER_LIST
  else
    v ← parser_bare_item;
    set_state (SF_SET_STATE_BEFORE_PARAMS name);;
    mret v.

Definition parser_dict_value : sf_m sf_value :=
  e ← eof_or_not 61;
  if (e : bool) then
    set_state (SF_SET_STATE_BEFORE_PARAMS SF_STATE_DICT);;
    mret (SF_BOOLEAN 1)
  else
    bump;;
    e ← parser_eof;
    if (e : bool) then sf_err SF_ERR_PARSE_ERROR
    else member_value SF_STATE_DICT.

(** The [switch] of [sf_parser_dict] and of [sf_parser_list]: up to the next member. *)
Definition next_member (fuel : nat) (name : Z) : sf_m unit :=
  s ← get_state;
  if s =? SF_SET_STATE_INNER_LIST_BEFORE name then
    parser_skip_inner_list fuel;;
    parser_skip_params fuel;;
    parser_next_key_or_item
  else if s =? SF_SET_STATE_BEFORE_PARAMS name then
    parser_skip_params fuel;;
    parser_next_key_or_item
  else if s =? SF_SET_STATE_AFTER name then parser_next_key_or_item
  else if s =? SF_STATE_INITIAL then
    parser_discard_sp;;
    e ← parser_eof;
    if (e : bool) then sf_err SF_ERR_EOF else mret tt
  else sf_undef.

Definition sf_parser_dict (fuel : nat) : sf_m (bytes * sf_value) :=
  next_member fuel SF_STATE_DICT;;
  key ← parser_key;
  v ← parser_dict_value;
  mret (key, v).

Definition sf_parser_list (fuel : nat) : sf_m sf_value :=
  next_member fuel SF_STATE_LIST;;
  member_value SF_STATE_LIST.

(** The end of [sf_parser_item] behind a value. *)
Definition item_finish : sf_m sf_value :=
  parser_discard_sp;;
  e ← parser_eof;
  if negb e then sf_err SF_ERR_PARSE_ERROR else sf_err SF_ERR_EOF.

Definition sf_parser_item (fuel : nat) : sf_m sf_value :=
  s ← get_state;
  if s =? SF_STATE_INITIAL then
    parser_discard_sp;;
    e ← parser_eof;
    if (e : bool) then sf_err SF_ERR_PARSE_ERROR else member_value SF_STATE_ITEM
  else if s =? SF_SET_STATE_INNER_LIST_BEFORE SF_STATE_ITEM then
    parser_skip_inner_list fuel;;
    parser_skip_params fuel;;
    item_finish
  else if s =? SF_SET_STATE_BEFORE_PARAMS SF_STATE_ITEM then
    parser_skip_params fuel;;
    item_finish
  else if s =? SF_SET_STATE_AFTER SF_STATE_ITEM then item_finish
  else sf_undef.

Definition sf_parser_init (data : bytes) : sf_parser := mk_sfp data 0 SF_STATE_INITIAL.
