(* ===== verification/SfValues.v ===== *)
(** * Strings and byte sequences of structured fields (sfparse.c)

    The parser returns views of its input; [sf_unescape] and [sf_base64decode]
    turn them into the values they stand for.  Both are inverses of the
    encodings of RFC 8941 and RFC 4648, and neither reads outside its source,
    writes more octets than it has or fails an assertion on what the parser
    accepts. *)

From S2P Require Import Prelude Sf.

(** ** Operations *)

(** [memchr(p, c, len)] as an offset. *)
Fixpoint memchr (c : Z) (p : bytes) : option nat :=
  match p with
  | [] => None
  | x :: p => if x =? c then Some O else S <$> memchr c p
  end.

(** [p] is the rest of the source, [o] what has been written. *)
Fixpoint unescape_loop (fuel : nat) (src p o : bytes) : option bytes :=
  match fuel with
  | O => None
  | S fuel =>
      match memchr 92 p with
      | None => Some (if (length p =? length src)%nat then src else o ++ p)
      | Some slen =>
          c ← p !! S slen;
          unescape_loop fuel src (drop (slen + 2) p) (o ++ take slen p ++ [c])
      end
  end.

Definition sf_unescape (src : bytes) : option bytes :=
  if (length src =? 0)%nat then Some src else unescape_loop (S (length src)) src src [].

Definition index_tbl : list Z :=
  [-1; -1; -1; -1; -1; -1; -1; -1; -1; -1; -1; -1; -1; -1; -1; -1; -1; -1;
   -1; -1; -1; -1; -1; -1; -1; -1; -1; -1; -1; -1; -1; -1; -1; -1; -1; -1;
   -1; -1; -1; -1; -1; -1; -1; 62; -1; -1; -1; 63; 52; 53; 54; 55; 56; 57;
   58; 59; 60; 61; -1; -1; -1; -1; -1; -1; -1; 0; 1; 2; 3; 4; 5; 6;
   7; 8; 9; 10; 11; 12; 13; 14; 15; 16; 17; 18; 19; 20; 21; 22; 23; 24;
   25; -1; -1; -1; -1; -1; -1; 26; 27; 28; 29; 30; 31; 32; 33; 34; 35; 36;
   37; 38; 39; 40; 41; 42; 43; 44; 45; 46; 47; 48; 49; 50; 51; -1; -1; -1;
   -1; -1; -1; -1; -1; -1; -1; -1; -1; -1; -1; -1; -1; -1; -1; -1; -1; -1;
   -1; -1; -1; -1; -1; -1; -1; -1; -1; -1; -1; -1; -1; -1; -1; -1; -1; -1;
   -1; -1; -1; -1; -1; -1; -1; -1; -1; -1; -1; -1; -1; -1; -1; -1; -1; -1;
   -1; -1; -1; -1; -1; -1; -1; -1; -1; -1; -1; -1; -1; -1; -1; -1; -1; -1;
   -1; -1; -1; -1; -1; -1; -1; -1; -1; -1; -1; -1; -1; -1; -1; -1; -1; -1;
   -1; -1; -1; -1; -1; -1; -1; -1; -1; -1; -1; -1; -1; -1; -1; -1; -1; -1;
   -1; -1; -1; -1; -1; -1; -1; -1; -1; -1; -1; -1; -1; -1; -1; -1; -1; -1;
   -1; -1; -1; -1].

(** The characters of one group from the [i]-th on: the octets written, whether
    the function ends here, and the rest of the source. *)
Fixpoint base64_group (fuel : nat) (i : Z) (n : Z) (p : bytes) : option (bytes * bool * bytes) :=
  match fuel with
  | O => Some ([u8 (Z.shiftr n 16); Z.shiftr n 8 .& 255; n .& 255], false, p)
  | S fuel =>
      c ← head p;
      idx ← index_tbl !! Z.to_nat c;
      if idx =? -1 then
        guard (2 < i);;
        if i =? 3 then
          guard (p = [61; 61]);;
          Some ([u8 (Z.shiftr n 16)], true, [])
        else
          guard (p = [61]);;
          Some ([u8 (Z.shiftr n 16); Z.shiftr n 8 .& 255], true, [])
      else base64_group fuel (i + 1) (u32 (n + u32 (Z.shiftl idx (24 - i * 6)))) (tail p)
  end.

Fixpoint base64_loop (fuel : nat) (p o : bytes) : option bytes :=
  match fuel with
  | O => None
  | S fuel =>
      if (length p =? 0)%nat then Some o
      else
        '(w, fin, p) ← base64_group 4 1 0 p;
        if (fin : bool) then Some (o ++ w) else base64_loop fuel p (o ++ w)
  end.

Definition sf_base64decode (src : bytes) : option bytes :=
  guard (zlen src .& 3 = 0);;
  if (length src =? 0)%nat then Some src else base64_loop (S (length src)) src [].

(** ** Escaping *)

(** RFC 8941, 4.1.6: quotes and backslashes get a backslash. *)
Definition escape_char (c : Z) : bytes := if one_of [34; 92] c then [92; c] else [c].
Definition escape (s : bytes) : bytes := concat (map escape_char s).

Definition escape_flag (s : bytes) : Z :=
  if existsb (one_of [34; 92]) s then SF_VALUE_FLAG_ESCAPED_STRING else SF_VALUE_FLAG_NONE.

Lemma one_of_spec cs c : one_of cs c = true <-> c ∈ cs.
Proof.
  unfold one_of. rewrite existsb_exists. split.
  - intros (x & Hx & E). apply Z.eqb_eq in E as ->. by apply list_elem_of_In.
  - intros H. exists c. split; [by apply list_elem_of_In|apply Z.eqb_refl].
Qed.

Lemma escape_cons c s : escape (c :: s) = escape_char c ++ escape s.
Proof. done. Qed.

Lemma escape_length s : (length s <= length (escape s))%nat.
Proof.
  induction s as [|c s IH]; [done|]. rewrite escape_cons, length_app. unfold escape_char.
  destruct (one_of _ c); simpl; lia.
Qed.

(** The first backslash of an escaped string: what precedes it is literal. *)
Lemma memchr_escape s :
  (memchr 92 (escape s) = None /\ escape s = s) \/
  exists a c b, s = a ++ c :: b /\ one_of [34; 92] c = true /\ escape s = a ++ 92 :: c :: escape b /\
    memchr 92 (escape s) = Some (length a).
Proof.
  induction s as [|c s IH]; [by left|]. rewrite escape_cons. unfold escape_char.
  destruct (one_of [34; 92] c) eqn:E.
  { right. exists [], c, s. done. }
  assert (c =? 92 = false) as Hc.
  { apply Z.eqb_neq. intros ->. done. }
  cbn [app memchr]. rewrite Hc. destruct IH as [[-> ->]|(a & d & b & -> & Hd & -> & ->)]; [by left|].
  right. exists (c :: a), d, b. done.
Qed.

Lemma unescape_loop_escape fuel src s o : (length (escape s) < fuel)%nat -> (length (escape s) <= length src)%nat ->
  (length (escape s) = length src -> src = escape s /\ o = []) ->
  unescape_loop fuel src (escape s) o = Some (o ++ s).
Proof.
  revert s o. induction fuel as [|fuel IH]; intros s o Hf Hle Hsrc; [lia|]. cbn [unescape_loop].
  destruct (memchr_escape s) as [[-> E]|(a & c & b & -> & Hc & E & ->)].
  - rewrite E in *. destruct (Nat.eqb_spec (length s) (length src)) as [Hl|Hl]; [|done].
    by destruct (Hsrc Hl) as [-> ->].
  - rewrite E in *. rewrite (lookup_app_r a) by lia. replace (S (length a) - length a)%nat with 1%nat by lia.
    cbn [lookup list_lookup mbind option_bind].
    rewrite take_app_length, drop_app_ge by lia. replace (length a + 2 - length a)%nat with 2%nat by lia.
    change (drop 2 (92 :: c :: escape b)) with (escape b). rewrite length_app in *. cbn [length] in *.
    rewrite IH by lia. by rewrite <- !app_assoc.
Qed.

(** [sf_unescape] returns without reading outside its source and undoes
    the escaping of RFC 8941, never writing more octets than the source has. *)
Theorem sf_unescape_escape s :
  sf_unescape (escape s) = Some s /\ (length s <= length (escape s))%nat.
Proof.
  split; [|apply escape_length]. unfold sf_unescape. destruct (Nat.eqb_spec (length (escape s)) 0) as [E|E].
  - pose proof (escape_length s). destruct s; [done|simpl in *; lia].
  - by rewrite unescape_loop_escape by (done || lia).
Qed.

(** ** Base64 *)

(** RFC 4648: the character of a six-bit value. *)
Definition b64_char (v : Z) : Z :=
  if v <? 26 then 65 + v else if v <? 52 then 71 + v else if v <? 62 then v - 4 else if v =? 62 then 43 else 47.

Fixpoint base64 (bs : bytes) : bytes :=
  match bs with
  | [] => []
  | [x] => [b64_char (x / 4); b64_char (x mod 4 * 16); 61; 61]
  | [x; y] => [b64_char (x / 4); b64_char (x mod 4 * 16 + y / 16); b64_char (y mod 16 * 4); 61]
  | x :: y :: z :: bs =>
      [b64_char (x / 4); b64_char (x mod 4 * 16 + y / 16); b64_char (y mod 16 * 4 + z / 64); b64_char (z mod 64)] ++ base64 bs
  end.

(** The value of a character, as the table has it. *)
Definition b64_value (c : Z) : Z := default (-1) (index_tbl !! Z.to_nat c).

Lemma sextets (P : Z -> Prop) (dec : forall c, Decision (P c)) :
  forallb (fun c => bool_decide (P c)) (seqZ 0 64) = true -> forall c, 0 <= c < 64 -> P c.
Proof.
  intros H c Hc. apply Is_true_true, forallb_True in H. rewrite Forall_forall in H.
  apply (bool_decide_unpack _), H, elem_of_seqZ. lia.
Qed.

Lemma b64_char_lookup v : 0 <= v < 64 -> index_tbl !! Z.to_nat (b64_char v) = Some v.
Proof. apply (sextets (fun v => index_tbl !! Z.to_nat (b64_char v) = Some v) _). vm_compute. reflexivity. Qed.

Lemma b64_char_class v : 0 <= v < 64 -> base64_char (b64_char v) = true.
Proof. apply (sextets (fun v => base64_char (b64_char v) = true) _). vm_compute. reflexivity. Qed.

(** The table inverts the characters of the alphabet. *)
Lemma b64_value_char c : base64_char c = true -> 0 <= b64_value c < 64 /\ b64_char (b64_value c) = c.
Proof.
  intros H. assert (is_u8 c) as Hc.
  { unfold base64_char in H. rewrite !orb_true_iff, one_of_spec in H. unfold ALPHA_CASES in H. rewrite orb_true_iff in H.
    unfold DIGIT_CASES, UCALPHA_CASES, LCALPHA_CASES, in_range in H. rewrite !andb_true_iff, !Z.leb_le in H.
    unfold is_u8. destruct H as [[H|H]|[H|H]]; [|lia..]. rewrite !elem_of_cons, elem_of_nil in H. destruct_or!; (done || lia). }
  revert H. revert c Hc. apply (all_octets (fun c => base64_char c = true -> 0 <= b64_value c < 64 /\ b64_char (b64_value c) = c) _).
  vm_compute. reflexivity.
Qed.

(** ** Decoding *)

Lemma b64_sextets x y : is_u8 x -> is_u8 y ->
  0 <= x / 4 < 64 /\ 0 <= x mod 4 * 16 + y / 16 < 64 /\ 0 <= y mod 16 * 4 < 64.
Proof. unfold is_u8. intros. split_and!; Z.to_euclidean_division_equations; lia. Qed.

(** One step of a group, on a character of the alphabet. *)
Lemma base64_group_char fuel i n v p : 0 <= v < 64 ->
  base64_group (S fuel) i n (b64_char v :: p) = base64_group fuel (i + 1) (u32 (n + u32 (Z.shiftl v (24 - i * 6)))) p.
Proof.
  intros Hv. cbn [base64_group head mbind option_bind]. rewrite b64_char_lookup by done. cbn [mbind option_bind].
  by rewrite (proj2 (Z.eqb_neq v (-1))) by lia.
Qed.

Lemma shiftl_24 v k : Z.shiftl v (Z.of_nat k) = v * 2 ^ Z.of_nat k.
Proof. apply Z.shiftl_mul_pow2. lia. Qed.

Lemma u32_accumulate n m : 0 <= n -> 0 <= m -> n + m < 2 ^ 32 -> u32 (n + u32 m) = n + m.
Proof. intros. rewrite (u32_id m), u32_id; unfold is_u32; lia. Qed.

Lemma base64_group_2 a b p : 0 <= a < 64 -> 0 <= b < 64 ->
  base64_group 4 1 0 (b64_char a :: b64_char b :: p) = base64_group 2 3 (a * 262144 + b * 4096) p.
Proof.
  intros. rewrite !base64_group_char by done. change (24 - 1 * 6) with (Z.of_nat 18). change (24 - (1 + 1) * 6) with (Z.of_nat 12).
  rewrite !shiftl_24. change (1 + 1 + 1) with 3. f_equal. change (2 ^ Z.of_nat 18) with 262144. change (2 ^ Z.of_nat 12) with 4096.
  rewrite (u32_accumulate 0) by lia. rewrite u32_accumulate; lia.
Qed.

Lemma base64_group_3 a b c p : 0 <= a < 64 -> 0 <= b < 64 -> 0 <= c < 64 ->
  base64_group 4 1 0 (b64_char a :: b64_char b :: b64_char c :: p) = base64_group 1 4 (a * 262144 + b * 4096 + c * 64) p.
Proof.
  intros. rewrite base64_group_2, base64_group_char by done. change (24 - 3 * 6) with (Z.of_nat 6). change (3 + 1) with 4.
  rewrite shiftl_24. f_equal. change (2 ^ Z.of_nat 6) with 64. rewrite u32_accumulate; lia.
Qed.

Lemma base64_group_4 a b c d p : 0 <= a < 64 -> 0 <= b < 64 -> 0 <= c < 64 -> 0 <= d < 64 ->
  base64_group 4 1 0 (b64_char a :: b64_char b :: b64_char c :: b64_char d :: p) =
    base64_group 0 5 (a * 262144 + b * 4096 + c * 64 + d) p.
Proof.
  intros. rewrite base64_group_3, base64_group_char by done. change (24 - 4 * 6) with (Z.of_nat 0). change (4 + 1) with 5.
  rewrite shiftl_24. f_equal. change (2 ^ Z.of_nat 0) with 1. rewrite u32_accumulate; lia.
Qed.

(** The octets of the 24 bits of a group. *)
Lemma group_octets n x y z : is_u8 x -> is_u8 y -> is_u8 z -> n = x * 65536 + y * 256 + z ->
  u8 (Z.shiftr n 16) = x /\ Z.shiftr n 8 .& 255 = y /\ n .& 255 = z.
Proof.
  unfold is_u8. intros Hx Hy Hz ->. rewrite !Z.shiftr_div_pow2 by lia. change 255 with (2 ^ 8 - 1).
  rewrite !land_ones_mod by lia. unfold u8. change (2 ^ 16) with 65536. change (2 ^ 8) with 256 in *.
  split_and!; Z.to_euclidean_division_equations; lia.
Qed.

Lemma base64_groups a r : base64 (a :: r) = [] -> False.
Proof. destruct r as [|? [|? ?]]; done. Qed.

Lemma base64_loop_decodes fuel bs o : is_bytes bs -> (length (base64 bs) < fuel)%nat ->
  base64_loop fuel (base64 bs) o = Some (o ++ bs).
Proof.
  revert bs o. induction fuel as [|fuel IH]; intros bs o Hb Hf; [lia|]. cbn [base64_loop].
  destruct bs as [|x [|y [|z bs]]]; [by rewrite app_nil_r|..].
  - inv Hb. destruct (b64_sextets x 0) as (? & ? & _); [done|done|]. cbn [base64 length Nat.eqb].
    rewrite Z.add_0_r in *. rewrite base64_group_2 by lia. cbn [base64_group head mbind option_bind tail].
    change (index_tbl !! Z.to_nat 61) with (Some (-1)). cbn [mbind option_bind Z.eqb].
    rewrite !option_guard_True by (done || lia). cbn [mbind option_bind Z.eqb Pos.eqb]. rewrite ?option_guard_True by done.
    cbn [mbind option_bind]. edestruct (group_octets (x / 4 * 262144 + x mod 4 * 16 * 4096) x 0 0) as (-> & _ & _); try done.
    unfold is_u8 in *. Z.to_euclidean_division_equations; lia.
  - inv Hb. match goal with H : Forall _ [y] |- _ => inv H end.
    destruct (b64_sextets x y) as (? & ? & ?); [done..|]. cbn [base64 length Nat.eqb].
    rewrite base64_group_3 by lia. cbn [base64_group head mbind option_bind tail].
    change (index_tbl !! Z.to_nat 61) with (Some (-1)). cbn [mbind option_bind Z.eqb].
    rewrite !option_guard_True by (done || lia). cbn [mbind option_bind Z.eqb Pos.eqb]. rewrite ?option_guard_True by done.
    cbn [mbind option_bind].
    edestruct (group_octets (x / 4 * 262144 + (x mod 4 * 16 + y / 16) * 4096 + y mod 16 * 4 * 64) x y 0) as (-> & -> & _); try done.
    unfold is_u8 in *. Z.to_euclidean_division_equations; lia.
  - inv Hb. match goal with H : Forall _ (y :: z :: bs) |- _ => inv H end. match goal with H : Forall _ (z :: bs) |- _ => inv H end.
    destruct (b64_sextets x y) as (? & ? & _); [done..|]. cbn [base64 app length Nat.eqb] in *.
    rewrite base64_group_4; [|lia|lia|unfold is_u8 in *; Z.to_euclidean_division_equations; lia..].
    cbn [base64_group mbind option_bind].
    edestruct (group_octets (x / 4 * 262144 + (x mod 4 * 16 + y / 16) * 4096 + (y mod 16 * 4 + z / 64) * 64 + z mod 64) x y z)
      as (-> & -> & ->); try done.
    { unfold is_u8 in *. Z.to_euclidean_division_equations; lia. }
    rewrite IH by (done || lia). by rewrite <- app_assoc.
Qed.

Lemma base64_mod bs : exists k, length (base64 bs) = (4 * k)%nat /\ (length bs <= 3 * k)%nat.
Proof.
  induction bs as [bs IH] using (induction_ltof1 _ (@length Z)). destruct bs as [|x [|y [|z bs]]].
  - exists 0%nat. done.
  - exists 1%nat. simpl. lia.
  - exists 1%nat. simpl. lia.
  - destruct (IH bs) as (k & Hk & Hl); [unfold ltof; simpl; lia|]. exists (S k). cbn [base64 app length]. lia.
Qed.

(** ** The shape of encodings *)

(** Whole groups, then a group with padding: characters [w], equals signs [pad]. *)
Inductive b64_shape (w : bytes) : bytes -> Prop :=
  | shape_whole k : length w = (4 * k)%nat -> b64_shape w []
  | shape_pad2 k w' c : w = w' ++ [c] -> length w = (4 * k + 2)%nat -> one_of [65; 81; 103; 119] c = true -> b64_shape w [61; 61]
  | shape_pad1 k w' c : w = w' ++ [c] -> length w = (4 * k + 3)%nat ->
      one_of [65; 69; 73; 77; 81; 85; 89; 99; 103; 107; 111; 115; 119; 48; 52; 56] c = true -> b64_shape w [61].

(** The characters that end a padded group have zeros in their spare bits. *)
Lemma b64_spare2 v : 0 <= v < 64 -> one_of [65; 81; 103; 119] (b64_char v) = true <-> v mod 16 = 0.
Proof. apply (sextets (fun v => one_of [65; 81; 103; 119] (b64_char v) = true <-> v mod 16 = 0) _). vm_compute. reflexivity. Qed.

Lemma b64_spare1 v : 0 <= v < 64 ->
  one_of [65; 69; 73; 77; 81; 85; 89; 99; 103; 107; 111; 115; 119; 48; 52; 56] (b64_char v) = true <-> v mod 4 = 0.
Proof.
  apply (sextets (fun v => one_of [65; 69; 73; 77; 81; 85; 89; 99; 103; 107; 111; 115; 119; 48; 52; 56] (b64_char v) = true <->
    v mod 4 = 0) _). vm_compute. reflexivity.
Qed.

Lemma shape_tail a b c d w pad : b64_shape w pad -> b64_shape (a :: b :: c :: d :: w) pad.
Proof.
  intros [k Hk|k w' e -> Hk He|k w' e -> Hk He].
  - apply (shape_whole _ (S k)). simpl. lia.
  - apply (shape_pad2 _ (S k) (a :: b :: c :: d :: w') e); [done|simpl; lia|done].
  - apply (shape_pad1 _ (S k) (a :: b :: c :: d :: w') e); [done|simpl; lia|done].
Qed.

(** An encoding has the shape. *)
Lemma base64_shape bs : is_bytes bs -> exists w pad, base64 bs = w ++ pad /\ Forall (fun c => base64_char c = true) w /\ b64_shape w pad.
Proof.
  induction bs as [bs IH] using (induction_ltof1 _ (@length Z)). intros Hb. destruct bs as [|x [|y [|z bs]]].
  - exists [], []. split; [done|]. split; [done|]. by apply (shape_whole _ 0).
  - inv Hb. destruct (b64_sextets x 0) as (? & ? & _); [done|done|]. rewrite Z.add_0_r in *.
    exists [b64_char (x / 4); b64_char (x mod 4 * 16)], [61; 61]. split; [done|]. split.
    + repeat constructor; by apply b64_char_class.
    + eapply (shape_pad2 _ 0 [_] _); [done|done|]. apply b64_spare2; [done|]. Z.to_euclidean_division_equations; lia.
  - inv Hb. match goal with H : Forall _ [y] |- _ => inv H end. destruct (b64_sextets x y) as (? & ? & ?); [done..|].
    exists [b64_char (x / 4); b64_char (x mod 4 * 16 + y / 16); b64_char (y mod 16 * 4)], [61]. split; [done|]. split.
    + repeat constructor; by apply b64_char_class.
    + eapply (shape_pad1 _ 0 [_; _] _); [done|done|]. apply b64_spare1; [done|]. Z.to_euclidean_division_equations; lia.
  - inv Hb. match goal with H : Forall _ (y :: z :: bs) |- _ => inv H end. match goal with H : Forall _ (z :: bs) |- _ => inv H end.
    destruct (b64_sextets x y) as (? & ? & ?); [done..|].
    destruct (IH bs) as (w & pad & E & Hw & Hs); [unfold ltof; simpl; lia|done|].
    eexists (_ :: _ :: _ :: _ :: w), pad. cbn [base64 app]. rewrite E. split; [done|]. split; [|by apply shape_tail].
    assert (0 <= y mod 16 * 4 + z / 64 < 64 /\ 0 <= z mod 64 < 64) as [? ?].
    { unfold is_u8 in *. split; Z.to_euclidean_division_equations; lia. }
    repeat (constructor; [by apply b64_char_class|]). done.
Qed.

(** The bits of the sextets make octets. *)
Lemma sextet_octets a b c : 0 <= a < 64 -> 0 <= b < 64 -> 0 <= c < 64 ->
  is_u8 (a * 4 + b / 16) /\ is_u8 (b mod 16 * 16 + c / 4) /\ (a * 4 + b / 16) / 4 = a /\
  (a * 4 + b / 16) mod 4 * 16 + (b mod 16 * 16 + c / 4) / 16 = b /\ (b mod 16 * 16 + c / 4) mod 16 = c / 4.
Proof. unfold is_u8. intros. split_and!; Z.to_euclidean_division_equations; lia. Qed.

Lemma shape_groups w pad : b64_shape w pad ->
  (w = [] /\ pad = []) \/ (length w = 2%nat /\ pad = [61; 61]) \/ (length w = 3%nat /\ pad = [61]) \/
  exists a b c d w', w = a :: b :: c :: d :: w' /\ b64_shape w' pad.
Proof.
  intros Hs. destruct w as [|a [|b [|c [|d w]]]].
  - left. inv Hs; [done|destruct w'; done..].
  - exfalso. inv Hs; simpl in *; lia.
  - right; left. inv Hs; simpl in *; (lia || done).
  - right; right; left. inv Hs; simpl in *; (lia || done).
  - do 3 right. exists a, b, c, d, w. split; [done|]. inv Hs.
    + apply (shape_whole _ (k - 1)). simpl in *. lia.
    + destruct w' as [|? [|? [|? [|? w']]]]; simplify_eq/=; try lia.
      apply (shape_pad2 _ (k - 1) w' c0); [done|simpl in *; lia|done].
    + destruct w' as [|? [|? [|? [|? w']]]]; simplify_eq/=; try lia.
      apply (shape_pad1 _ (k - 1) w' c0); [done|simpl in *; lia|done].
Qed.

(** Whatever has the shape is an encoding. *)
Lemma shape_base64 w pad : Forall (fun c => base64_char c = true) w -> b64_shape w pad -> exists bs, is_bytes bs /\ base64 bs = w ++ pad.
Proof.
  revert pad. induction w as [w IH] using (induction_ltof1 _ (@length Z)). intros pad Hw Hs.
  assert (forall c, base64_char c = true -> exists v, 0 <= v < 64 /\ c = b64_char v) as Hv.
  { intros c Hc. apply b64_value_char in Hc as [? <-]. by eexists. }
  destruct (shape_groups w pad Hs) as [[-> ->]|[[Hl ->]|[[Hl ->]|(ca & cb & cc & cd & w' & -> & Hs')]]].
  - exists []. split; [apply is_bytes_nil|done].
  - destruct w as [|ca [|cb [|]]]; try done. decompose_Forall_hyps.
    destruct (Hv ca) as (a & Ha & ->); [done|]. destruct (Hv cb) as (b & Hb & ->); [done|].
    inv Hs. destruct w' as [|? [|? w']]; simplify_eq/=; [|by destruct w']. match goal with H : _ || _ = true |- _ => apply (proj1 (b64_spare2 b Hb)) in H end.
    destruct (sextet_octets a b 0) as (U1 & _ & E1 & E2 & _); [lia..|].
    exists [a * 4 + b / 16]. split; [by eauto with cint|]. cbn [base64 app]. rewrite E1. do 3 f_equal.
    Z.to_euclidean_division_equations; lia.
  - destruct w as [|ca [|cb [|cc [|]]]]; try done. decompose_Forall_hyps.
    destruct (Hv ca) as (a & Ha & ->); [done|]. destruct (Hv cb) as (b & Hb & ->); [done|]. destruct (Hv cc) as (c & Hc & ->); [done|].
    inv Hs. destruct w' as [|? [|? [|? w']]]; simplify_eq/=; [|by destruct w']. match goal with H : _ || _ = true |- _ => apply (proj1 (b64_spare1 c Hc)) in H end.
    destruct (sextet_octets a b c) as (U1 & U2 & E1 & E2 & E3); [lia..|].
    exists [a * 4 + b / 16; b mod 16 * 16 + c / 4]. split; [by eauto with cint|]. cbn [base64 app]. rewrite E1, E2, E3. do 4 f_equal.
    Z.to_euclidean_division_equations; lia.
  - decompose_Forall_hyps.
    destruct (Hv ca) as (a & Ha & ->); [done|]. destruct (Hv cb) as (b & Hb & ->); [done|]. destruct (Hv cc) as (c & Hc & ->); [done|].
    destruct (Hv cd) as (d & Hd & ->); [done|].
    destruct (IH w') with (pad := pad) as (bs & Hbs & E); [unfold ltof; simpl; lia|done|done|].
    destruct (sextet_octets a b c) as (U1 & U2 & E1 & E2 & E3); [lia..|].
    exists (a * 4 + b / 16 :: b mod 16 * 16 + c / 4 :: c mod 4 * 64 + d :: bs). split.
    { repeat (constructor; [done || (unfold is_u8; Z.to_euclidean_division_equations; lia)|]). done. }
    cbn [base64 app]. rewrite E1, E2, E3, E.
    replace (c / 4 * 4 + (c mod 4 * 64 + d) / 64) with c by (Z.to_euclidean_division_equations; lia).
    by replace ((c mod 4 * 64 + d) mod 64) with d by (Z.to_euclidean_division_equations; lia).
Qed.

(** [sf_base64decode] inverts the Base64 encoding of every octet string:
    it returns, fails none of its assertions and writes no more octets than
    the source has. *)
Theorem sf_base64_roundtrip bs : is_bytes bs ->
  sf_base64decode (base64 bs) = Some bs /\ (length bs <= length (base64 bs))%nat.
Proof.
  intros Hb. destruct (base64_mod bs) as (k & Hk & Hl). split; [|lia]. unfold sf_base64decode.
  rewrite option_guard_True.
  2:{ change 3 with (2 ^ 2 - 1). rewrite land_ones_mod, Hk by lia. change (2 ^ 2) with 4. Z.to_euclidean_division_equations; lia. }
  cbn [mbind option_bind]. destruct (Nat.eqb_spec (length (base64 bs)) 0) as [E|E].
  - destruct bs; [done|]. apply nil_length_inv in E. by apply base64_groups in E.
  - by rewrite base64_loop_decodes by (done || lia).
Qed.

Lemma sf_base64_roundtrip_witness : is_bytes [102; 111; 111; 98] /\
  sf_base64decode [90; 109; 57; 118; 89; 103; 61; 61] = Some [102; 111; 111; 98].
Proof. split; [by apply (bool_decide_unpack _); vm_compute|]. apply (sf_base64_roundtrip [102; 111; 111; 98]). by apply (bool_decide_unpack _); vm_compute. Defined.
