(* ===== verification/SfGrammar.v ===== *)
(** * The language of the structured field parser (sfparse.c)

    The texts of RFC 8941, with the dates of its successor RFC 9651 ([@] and an
    integer) that the parser knows too, as inductive relations between values
    and octet strings. Byte sequences are in canonical base64 with padding,
    the only form that the parser takes. And the proof that the parser reads exactly them: every operation
    returns on every input (no read past the end, no overflow, no failed
    assertion, enough fuel), what it reads is a text of the value it reports,
    and it reports the value of every text.  [sf_dict_reads] states this for
    whole dictionaries. *)

From S2P Require Import Prelude Sf SfValues.

(** ** Parsers as positions *)

(** A parser behind [pre] and before [s]. *)
Definition sfp_at (pre s : bytes) (st : Z) : sf_parser := mk_sfp (pre ++ s) (length pre) st.

Definition sf_ok (p : sf_parser) : Prop := (sfp_pos p <= length (sfp_data p))%nat.

Lemma sf_ok_at p : sf_ok p -> p = sfp_at (take (sfp_pos p) (sfp_data p)) (sf_rest p) (sfp_state p).
Proof.
  destruct p as [data pos st]. unfold sf_ok, sfp_at, sf_rest. cbn [sfp_pos sfp_data sfp_state]. intros H.
  by rewrite take_drop, length_take, Nat.min_l.
Qed.

Lemma sf_rest_at pre s st : sf_rest (sfp_at pre s st) = s.
Proof. unfold sf_rest, sfp_at. cbn [sfp_pos sfp_data]. apply drop_app_length. Qed.

Lemma bind_assoc {A B C} (m : sf_m A) (k : A -> sf_m B) (l : B -> sf_m C) p :
  ((m ≫= k) ≫= l) p = (m ≫= (fun a => k a ≫= l)) p.
Proof. unfold mbind, sf_bind. by destruct (m p) as [[p' [rv|a]]|]. Qed.

Definition is_nil (s : bytes) : bool := match s with [] => true | _ => false end.

Section Steps.
Context {B : Type} (pre s : bytes) (st : Z).
Implicit Types (c : Z).

Lemma ret_bind {A} (a : A) (k : A -> sf_m B) p : (mret a ≫= k) p = k a p.
Proof. done. Qed.

Lemma err_bind {A} rv (k : A -> sf_m B) p : ((sf_err rv : sf_m A) ≫= k) p = Some (p, inl rv).
Proof. done. Qed.

Lemma peek_bind c (k : Z -> sf_m B) : (peek ≫= k) (sfp_at pre (c :: s) st) = k c (sfp_at pre (c :: s) st).
Proof.
  unfold mbind, sf_bind, peek, sfp_at. cbn [sfp_data sfp_pos]. by rewrite list_lookup_middle by done.
Qed.

Lemma peek_prev_bind c (k : Z -> sf_m B) : (peek_prev ≫= k) (sfp_at (pre ++ [c]) s st) = k c (sfp_at (pre ++ [c]) s st).
Proof.
  unfold mbind, sf_bind, peek_prev, sfp_at. cbn [sfp_data sfp_pos]. rewrite length_app. cbn [length].
  rewrite option_guard_True by lia. rewrite <- app_assoc. cbn [app]. by rewrite list_lookup_middle by lia.
Qed.

Lemma bump_bind c (k : unit -> sf_m B) : (bump ≫= k) (sfp_at pre (c :: s) st) = k tt (sfp_at (pre ++ [c]) s st).
Proof.
  unfold mbind, sf_bind, bump, sfp_at. cbn [sfp_data sfp_pos sfp_state]. rewrite option_guard_True by (rewrite length_app; simpl; lia).
  rewrite length_app, <- app_assoc. cbn [app length]. by rewrite Nat.add_1_r.
Qed.

Lemma eof_bind (k : bool -> sf_m B) : (parser_eof ≫= k) (sfp_at pre s st) = k (is_nil s) (sfp_at pre s st).
Proof.
  unfold mbind, sf_bind, parser_eof, sfp_at. cbn [sfp_data sfp_pos]. rewrite length_app.
  destruct s as [|c t]; cbn [length]; [by rewrite Nat.add_0_r, Nat.eqb_refl|].
  by rewrite (proj2 (Nat.eqb_neq _ _)) by lia.
Qed.

Lemma rest_bind (k : bytes -> sf_m B) : (get_rest ≫= k) (sfp_at pre s st) = k s (sfp_at pre s st).
Proof. unfold mbind, sf_bind, get_rest. by rewrite sf_rest_at. Qed.

Lemma pos_bind (k : nat -> sf_m B) : (get_pos ≫= k) (sfp_at pre s st) = k (length pre) (sfp_at pre s st).
Proof. done. Qed.

Lemma state_bind (k : Z -> sf_m B) : (get_state ≫= k) (sfp_at pre s st) = k st (sfp_at pre s st).
Proof. done. Qed.

Lemma set_state_bind st' (k : unit -> sf_m B) : (set_state st' ≫= k) (sfp_at pre s st) = k tt (sfp_at pre s st').
Proof. done. Qed.

Lemma set_op_bind op (k : unit -> sf_m B) :
  (parser_set_op_state op ≫= k) (sfp_at pre s st) = k tt (sfp_at pre s ((st .& Z.lnot SF_STATE_OP_MASK) .| op)).
Proof. done. Qed.

Lemma vec_bind w (k : bytes -> sf_m B) : (vec_since (length pre) ≫= k) (sfp_at (pre ++ w) s st) = k w (sfp_at (pre ++ w) s st).
Proof.
  unfold mbind, sf_bind, vec_since, sfp_at. cbn [sfp_data sfp_pos]. f_equal. rewrite length_app. unfold mem_slice.
  rewrite <- app_assoc, drop_app_length. replace (_ - _)%nat with (length w) by lia. apply take_app_length.
Qed.

Lemma int64_bind z (k : Z -> sf_m B) p : - 2 ^ 63 <= z < 2 ^ 63 -> (int64 z ≫= k) p = k z p.
Proof. intros H. unfold mbind, sf_bind, int64. by rewrite option_guard_True. Qed.

Lemma assert_peek_bind c (k : unit -> sf_m B) : (assert_peek c ≫= k) (sfp_at pre (c :: s) st) = k tt (sfp_at pre (c :: s) st).
Proof. unfold assert_peek. by rewrite bind_assoc, peek_bind, Z.eqb_refl. Qed.

End Steps.

Lemma vec_at pre w s st : vec_since (length pre) (sfp_at (pre ++ w) s st) = Some (sfp_at (pre ++ w) s st, inr w).
Proof. pose proof (vec_bind pre s st w mret) as H. done. Qed.

Create Rewrite HintDb sf.
#[export] Hint Rewrite @ret_bind @err_bind @peek_bind @peek_prev_bind @bump_bind @eof_bind @rest_bind @pos_bind @state_bind
  @set_state_bind @set_op_bind @assert_peek_bind : sf.

#[export] Hint Rewrite @bind_assoc : sf.

(** Executes the operations on known input. *)
Ltac sf_go := repeat (progress (autorewrite with sf; cbn beta iota zeta; cbn [is_nil])).

(** The longest run of characters of a class, and what follows. *)
Fixpoint takew (f : Z -> bool) (s : bytes) : bytes :=
  match s with [] => [] | c :: s => if f c then c :: takew f s else [] end.
Fixpoint dropw (f : Z -> bool) (s : bytes) : bytes :=
  match s with [] => [] | c :: t => if f c then dropw f t else s end.

Definition stops (f : Z -> bool) (t : bytes) : Prop := match t with [] => True | c :: _ => f c = false end.

Abbreviation all f w := (Forall (fun c => f c = true) w).

Lemma takew_dropw f s : takew f s ++ dropw f s = s.
Proof. induction s as [|c s IH]; cbn [takew dropw]; [done|]. destruct (f c); [|done]. simpl. by rewrite IH. Qed.

Lemma takew_all f s : all f (takew f s).
Proof. induction s as [|c s IH]; cbn [takew]; [constructor|]. destruct (f c) eqn:E; by constructor. Qed.

Lemma dropw_stops f s : stops f (dropw f s).
Proof. induction s as [|c s IH]; cbn [dropw]; [done|]. by destruct (f c) eqn:E. Qed.

Lemma takew_app f w t : all f w -> stops f t -> takew f (w ++ t) = w /\ dropw f (w ++ t) = t.
Proof.
  intros Hw Ht. induction Hw as [|c w Hc Hw IH]; cbn [app].
  - destruct t; simpl in *; [done|]. by rewrite Ht.
  - cbn [takew dropw]. rewrite Hc. destruct IH as [-> ->]. done.
Qed.

Lemma skip_while_bind {B} f pre s st (k : unit -> sf_m B) :
  (skip_while f s ≫= k) (sfp_at pre s st) = k tt (sfp_at (pre ++ takew f s) (dropw f s) st).
Proof.
  revert pre. induction s as [|c s IH]; intros pre; cbn [skip_while takew dropw].
  - by rewrite ret_bind, app_nil_r.
  - destruct (f c); [|by rewrite ret_bind, app_nil_r]. rewrite bind_assoc, bump_bind, IH, <- app_assoc. done.
Qed.

#[export] Hint Rewrite @skip_while_bind : sf.

Lemma discard_sp_bind {B} pre s st (k : unit -> sf_m B) :
  (parser_discard_sp ≫= k) (sfp_at pre s st) = k tt (sfp_at (pre ++ takew (Z.eqb 32) s) (dropw (Z.eqb 32) s) st).
Proof. unfold parser_discard_sp. by sf_go. Qed.

Lemma discard_ows_bind {B} pre s st (k : unit -> sf_m B) :
  (parser_discard_ows ≫= k) (sfp_at pre s st) = k tt (sfp_at (pre ++ takew is_ws s) (dropw is_ws s) st).
Proof. unfold parser_discard_ows. by sf_go. Qed.

(** [eof_or_not c]: the input does not start with [c]. *)
Definition not_at (c : Z) (s : bytes) : bool := match s with [] => true | x :: _ => negb (x =? c) end.

Lemma eof_or_not_bind {B} c pre s st (k : bool -> sf_m B) :
  (eof_or_not c ≫= k) (sfp_at pre s st) = k (not_at c s) (sfp_at pre s st).
Proof. unfold eof_or_not. destruct s; by sf_go. Qed.

#[export] Hint Rewrite @discard_sp_bind @discard_ows_bind @eof_or_not_bind : sf.

(** ** The texts *)

(** Keys: a lower case letter or an asterisk, then letters, digits and marks. *)
Inductive key_text : bytes -> Prop :=
  | txt_key c k : (c =? 42) || LCALPHA_CASES c = true -> all key_char k -> key_text (c :: k).

(** The number a string of digits stands for. *)
Definition digits_from (v : Z) (ds : bytes) : Z := fold_left (fun v c => v * 10 + (c - 48)) ds v.

Inductive sign_text : Z -> bytes -> Prop :=
  | txt_plus : sign_text 1 []
  | txt_minus : sign_text (-1) [45].

Definition printable (c : Z) : bool := in_range 32 126 c.

Inductive bare_text : sf_value -> bytes -> Prop :=
  | txt_false : bare_text (SF_BOOLEAN 0) [63; 48]
  | txt_true : bare_text (SF_BOOLEAN 1) [63; 49]
  | txt_integer sign sg ds : sign_text sign sg -> all DIGIT_CASES ds -> (1 <= length ds <= 15)%nat ->
      bare_text (SF_INTEGER (digits_from 0 ds * sign)) (sg ++ ds)
  | txt_decimal sign sg ds fs : sign_text sign sg -> all DIGIT_CASES ds -> (1 <= length ds <= 12)%nat ->
      all DIGIT_CASES fs -> (1 <= length fs <= 3)%nat ->
      bare_text (SF_DECIMAL (digits_from 0 (ds ++ fs) * sign) (10 ^ Z.of_nat (length fs))) (sg ++ ds ++ [46] ++ fs)
  | txt_date sign sg ds : sign_text sign sg -> all DIGIT_CASES ds -> (1 <= length ds <= 15)%nat ->
      bare_text (SF_DATE (digits_from 0 ds * sign)) ([64] ++ sg ++ ds)
  | txt_string str : all printable str -> bare_text (SF_STRING (escape_flag str) (escape str)) ([34] ++ escape str ++ [34])
  | txt_token c k : (c =? 42) || ALPHA_CASES c = true -> all token_char k -> bare_text (SF_TOKEN (c :: k)) (c :: k)
  | txt_byteseq bs : is_bytes bs -> bare_text (SF_BYTESEQ (base64 bs)) ([58] ++ base64 bs ++ [58]).

(** What may follow a key or a bare item: the end, a space or tab, a comma, a
    semicolon or a closing parenthesis. *)
Definition follows (t : bytes) : Prop := match t with [] => True | c :: _ => one_of [32; 9; 44; 59; 41] c = true end.

Lemma follows_stops f t : forallb (fun c => negb (f c)) [32; 9; 44; 59; 41] = true -> follows t -> stops f t.
Proof.
  intros Hf. destruct t as [|c t]; [done|]. cbn [follows stops]. rewrite one_of_spec, forallb_forall in *. intros Hc.
  specialize (Hf c). rewrite <- list_elem_of_In in Hf. apply Hf in Hc. by destruct (f c).
Qed.

Lemma follows_not_at c t : negb (one_of [32; 9; 44; 59; 41] c) = true -> follows t -> not_at c t = true.
Proof.
  intros Hc. destruct t as [|x t]; [done|]. cbn [follows not_at]. intros Hx. apply negb_true_iff, Z.eqb_neq.
  intros ->. by rewrite Hx in Hc.
Qed.

(** ** Outcomes *)

(** The operation returns, having read [w] of [s = w ++ t]; on success [Q] holds
    of the value, [w], [t] and the new state, on an error [E] does of the code. *)
Definition sf_post {A} (pre s : bytes) (Q : A -> bytes -> bytes -> Z -> Prop) (E : Z -> bytes -> bytes -> Z -> Prop)
    (r : option (sf_parser * (Z + A))) : Prop :=
  match r with
  | None => False
  | Some (p', r) => exists w t st', s = w ++ t /\ p' = sfp_at (pre ++ w) t st' /\
      match r with inr a => Q a w t st' | inl rv => E rv w t st' end
  end.

Definition parse_error (rv : Z) (w t : bytes) (st : Z) : Prop := rv = SF_ERR_PARSE_ERROR.

Section Post.
Context {A : Type}.
Implicit Types (Q : A -> bytes -> bytes -> Z -> Prop) (E : Z -> bytes -> bytes -> Z -> Prop).

Lemma post_ret pre s st a Q E : Q a [] s st -> sf_post pre s Q E ((mret a : sf_m A) (sfp_at pre s st)).
Proof. intros H. exists [], s, st. rewrite app_nil_r. done. Qed.

Lemma post_err pre s st rv Q E : E rv [] s st -> sf_post pre s Q E (sf_err rv (sfp_at pre s st)).
Proof. intros H. exists [], s, st. rewrite app_nil_r. done. Qed.

Lemma post_weaken pre s Q Q' E E' r : sf_post pre s Q E r ->
  (forall a w t st, s = w ++ t -> Q a w t st -> Q' a w t st) ->
  (forall rv w t st, s = w ++ t -> E rv w t st -> E' rv w t st) -> sf_post pre s Q' E' r.
Proof.
  intros H HQ HE. destruct r as [[p' r]|]; [|done]. destruct H as (w & t & st' & Hs & Hp & Hr).
  exists w, t, st'. split; [done|]. split; [done|]. destruct r; auto.
Qed.

(** Reading [w] first. *)
Lemma post_read pre w t Q E r :
  sf_post (pre ++ w) t (fun a w' => Q a (w ++ w')) (fun rv w' => E rv (w ++ w')) r -> sf_post pre (w ++ t) Q E r.
Proof.
  destruct r as [[p' r]|]; [|done]. intros (w' & t' & st' & -> & -> & H).
  exists (w ++ w'), t', st'. rewrite <- !app_assoc. done.
Qed.

Lemma post_bind {C} pre s st (m : sf_m C) (k : C -> sf_m A) (Q1 : C -> bytes -> bytes -> Z -> Prop) E1 Q E :
  sf_post pre s Q1 E1 (m (sfp_at pre s st)) ->
  (forall c w t st', s = w ++ t -> Q1 c w t st' ->
     sf_post (pre ++ w) t (fun a w' => Q a (w ++ w')) (fun rv w' => E rv (w ++ w')) (k c (sfp_at (pre ++ w) t st'))) ->
  (forall rv w t st', s = w ++ t -> E1 rv w t st' -> E rv w t st') ->
  sf_post pre s Q E ((m ≫= k) (sfp_at pre s st)).
Proof.
  intros Hm Hk HE. unfold mbind, sf_bind. destruct (m (sfp_at pre s st)) as [[p' r]|]; [|done].
  destruct Hm as (w & t & st' & -> & -> & Hr). destruct r as [rv|c].
  - exists w, t, st'. auto.
  - apply post_read. auto.
Qed.

End Post.

(** Reads one octet that the code has checked. *)
Ltac sf_read c := match goal with |- sf_post ?pre (c :: ?t) _ _ _ => apply (post_read pre [c] t) end.
Ltac sf_fail := apply post_err; done.

(** ** Keys *)

Lemma key_post pre s st : s <> [] ->
  sf_post pre s (fun k w t st' => k = w /\ key_text w /\ st' = st) parse_error (parser_key (sfp_at pre s st)).
Proof.
  intros Hs. destruct s as [|c s]; [done|]. unfold parser_key. sf_go. destruct (_ || _) eqn:Hc; cbn [negb]; [|sf_fail].
  sf_go. rewrite <- app_assoc, vec_at. exists (c :: takew key_char s), (dropw key_char s), st. split_and!; try done.
  - cbn [app]. by rewrite takew_dropw.
  - constructor; [done|apply takew_all].
Qed.

Lemma key_reads pre k t st : key_text k -> stops key_char t ->
  parser_key (sfp_at pre (k ++ t) st) = Some (sfp_at (pre ++ k) t st, inr k).
Proof.
  intros [c w Hc Hw] Ht. unfold parser_key. cbn [app]. sf_go. rewrite Hc. cbn [negb]. sf_go.
  destruct (takew_app key_char w t) as [-> ->]; [done..|]. rewrite <- app_assoc. apply vec_at.
Qed.

(** ** Numbers *)

Lemma digits_from_app v a b : digits_from v (a ++ b) = digits_from (digits_from v a) b.
Proof. apply fold_left_app. Qed.

Lemma digit_range c : DIGIT_CASES c = true -> 48 <= c <= 57.
Proof. unfold DIGIT_CASES, in_range. rewrite andb_true_iff, !Z.leb_le. done. Qed.

(** The digits are read up to the fifteenth. *)
Lemma number_digits_bind {B} pre s st v len (k : Z * nat -> sf_m B) : (len <= 15)%nat -> 0 <= v < 10 ^ Z.of_nat len ->
  let ds := takew DIGIT_CASES s in
  (number_digits s v len ≫= k) (sfp_at pre s st) =
    if (15 <? len + length ds)%nat then Some (sfp_at (pre ++ take (15 - len) s) (drop (15 - len) s) st, inl SF_ERR_PARSE_ERROR)
    else k (digits_from v ds, (len + length ds)%nat) (sfp_at (pre ++ ds) (dropw DIGIT_CASES s) st).
Proof.
  cbn zeta. revert pre v len. induction s as [|c s IH]; intros pre v len Hlen Hv; cbn [number_digits takew dropw].
  { cbn [length]. rewrite Nat.add_0_r, app_nil_r, (proj2 (Nat.ltb_ge 15 len)) by lia. done. }
  destruct (DIGIT_CASES c) eqn:Hc; cbn [length].
  2:{ rewrite Nat.add_0_r, app_nil_r, (proj2 (Nat.ltb_ge 15 len)) by lia. done. }
  destruct (Nat.ltb_spec 15 (S len)) as [Hl|Hl].
  { rewrite (proj2 (Nat.ltb_lt _ _)) by lia. replace (15 - len)%nat with 0%nat by lia. rewrite app_nil_r. done. }
  apply digit_range in Hc.
  assert (10 ^ Z.of_nat (S len) <= 10 ^ 15) by (apply Z.pow_le_mono_r; lia).
  assert (10 ^ Z.of_nat (S len) = 10 * 10 ^ Z.of_nat len) as E10 by (rewrite Nat2Z.inj_succ, Z.pow_succ_r; lia).
  rewrite bind_assoc, int64_bind, bind_assoc, int64_bind, bind_assoc, bump_bind by lia. rewrite IH by lia.
  replace (len + S (length (takew DIGIT_CASES s)))%nat with (S len + length (takew DIGIT_CASES s))%nat by lia.
  replace (15 - len)%nat with (S (15 - S len)) by lia. cbn [take drop]. rewrite <- !app_assoc. done.
Qed.

Lemma digits_from_bound ds : all DIGIT_CASES ds -> 0 <= digits_from 0 ds < 10 ^ Z.of_nat (length ds).
Proof.
  induction ds as [|c ds IH] using rev_ind; intros H; [done|]. apply Forall_app in H as [H Hc]. apply Forall_singleton, digit_range in Hc.
  rewrite digits_from_app, length_app. cbn [digits_from fold_left length]. rewrite Nat.add_1_r, Nat2Z.inj_succ, Z.pow_succ_r by lia.
  specialize (IH H). lia.
Qed.

Lemma denominator n : (1 <= n <= 3)%nat -> match n with 1%nat => 10 | 2%nat => 100 | _ => 1000 end = 10 ^ Z.of_nat n.
Proof. intros H. destruct n as [|[|[|[|n]]]]; try done; lia. Qed.

Lemma number_body_post sign sg pre s st : sign_text sign sg -> s <> [] ->
  sf_post pre s (fun v w t st' => bare_text v (sg ++ w) /\ st' = st) parse_error (number_body sign (sfp_at pre s st)).
Proof.
  intros Hsg Hs. unfold number_body. sf_go. destruct s as [|x s']; [done|]. cbn [is_nil]. remember (x :: s') as s eqn:Ex. clear Ex x s'.
  sf_go. rewrite number_digits_bind by lia. cbn [Nat.add]. pose proof (takew_all DIGIT_CASES s) as Hds.
  pose proof (takew_dropw DIGIT_CASES s) as Es. remember (takew DIGIT_CASES s) as ds. remember (dropw DIGIT_CASES s) as t0.
  destruct (Nat.ltb_spec 15 (length ds)) as [H15|H15].
  { eexists _, _, st. split; [symmetry; apply take_drop|]. done. }
  cbn beta iota. destruct (Nat.eqb_spec (length ds) 0) as [H0|H0].
  { by exists ds, t0, st. }
  sf_go. rewrite <- Es at 1. apply post_read. destruct t0 as [|x t].
  { apply post_ret. split; [|done]. rewrite app_nil_r. constructor; (done || lia). }
  cbn [not_at]. destruct (Z.eqb_spec x 46) as [-> |Hx]; cbn [negb].
  2:{ apply post_ret. split; [|done]. rewrite app_nil_r. constructor; (done || lia). }
  destruct (Nat.ltb_spec 12 (length ds)) as [H12|H12]; [sf_fail|]. sf_go. sf_read 46.
  rewrite number_digits_bind; [|lia|by apply digits_from_bound]. pose proof (takew_all DIGIT_CASES t) as Hfs.
  pose proof (takew_dropw DIGIT_CASES t) as Et'. remember (takew DIGIT_CASES t) as fs. remember (dropw DIGIT_CASES t) as t1.
  destruct (Nat.ltb_spec 15 (length ds + length fs)) as [H15'|H15'].
  { eexists _, _, st. split; [symmetry; apply take_drop|]. done. }
  cbn beta iota. destruct (_ || _) eqn:Hf. { by exists fs, t1, st. }
  apply orb_false_iff in Hf as [Hf1 Hf2]. apply Nat.eqb_neq in Hf1. apply Nat.ltb_ge in Hf2.
  exists fs, t1, st. split; [done|]. split; [done|]. split; [|done].
  replace (length ds + length fs - length ds)%nat with (length fs) in * by lia. rewrite denominator by lia.
  rewrite <- digits_from_app. apply txt_decimal; (done || lia).
Qed.

Lemma number_post pre s st : s <> [] ->
  sf_post pre s (fun v w t st' => bare_text v w /\ st' = st) parse_error (parser_number (sfp_at pre s st)).
Proof.
  intros Hs. destruct s as [|c s]; [done|]. unfold parser_number. sf_go. destruct (Z.eqb_spec c 45) as [-> |Hc].
  - sf_go. destruct s as [|d s]; sf_go; [sf_read 45; sf_fail|]. sf_read 45. by apply (number_body_post (-1) [45]); [constructor|].
  - by apply (number_body_post 1 []); [constructor|].
Qed.

Lemma number_body_integer sign ds pre t st : all DIGIT_CASES ds -> (1 <= length ds <= 15)%nat -> stops DIGIT_CASES t -> not_at 46 t = true ->
  number_body sign (sfp_at pre (ds ++ t) st) = Some (sfp_at (pre ++ ds) t st, inr (SF_INTEGER (digits_from 0 ds * sign))).
Proof.
  intros Hds Hl Ht Hp. unfold number_body. sf_go. destruct (ds ++ t) as [|x s'] eqn:E; [destruct ds; simpl in *; (lia || done)|]. cbn [is_nil]. rewrite <- E.
  sf_go. rewrite number_digits_bind by lia. cbn [Nat.add]. destruct (takew_app DIGIT_CASES ds t) as [-> ->]; [done..|].
  rewrite (proj2 (Nat.ltb_ge _ _)) by lia. cbn beta iota. rewrite (proj2 (Nat.eqb_neq _ _)) by lia. sf_go. by rewrite Hp.
Qed.

Lemma number_body_decimal sign ds fs pre t st : all DIGIT_CASES ds -> (1 <= length ds <= 12)%nat -> all DIGIT_CASES fs ->
  (1 <= length fs <= 3)%nat -> stops DIGIT_CASES t ->
  number_body sign (sfp_at pre (ds ++ 46 :: fs ++ t) st) =
    Some (sfp_at (pre ++ ds ++ 46 :: fs) t st, inr (SF_DECIMAL (digits_from 0 (ds ++ fs) * sign) (10 ^ Z.of_nat (length fs)))).
Proof.
  intros Hds Hl Hfs Hlf Ht. unfold number_body. sf_go. destruct (ds ++ 46 :: fs ++ t) as [|x s'] eqn:E; [destruct ds; simpl in *; (lia || done)|]. cbn [is_nil].
  rewrite <- E. sf_go. rewrite number_digits_bind by lia. cbn [Nat.add].
  destruct (takew_app DIGIT_CASES ds (46 :: fs ++ t)) as [-> ->]; [done..|].
  rewrite (proj2 (Nat.ltb_ge 15 _)) by lia. cbn beta iota. rewrite (proj2 (Nat.eqb_neq _ _)) by lia. sf_go. cbn [not_at negb Z.eqb Pos.eqb].
  rewrite (proj2 (Nat.ltb_ge 12 _)) by lia. sf_go. rewrite number_digits_bind; [|lia|by apply digits_from_bound].
  destruct (takew_app DIGIT_CASES fs t) as [-> ->]; [done..|]. rewrite (proj2 (Nat.ltb_ge 15 _)) by lia. cbn beta iota.
  rewrite (proj2 (Nat.eqb_neq _ _)) by lia. replace (length ds + length fs - length ds)%nat with (length fs) by lia.
  rewrite (proj2 (Nat.ltb_ge 3 _)) by lia. cbn [orb]. rewrite denominator, <- digits_from_app, <- !app_assoc by lia. done.
Qed.

(** ** Dates, tokens and booleans *)

Lemma date_post pre s st :
  sf_post pre (64 :: s) (fun v w t st' => bare_text v w /\ st' = st) parse_error (parser_date (sfp_at pre (64 :: s) st)).
Proof.
  unfold parser_date. sf_go. sf_read 64. destruct s as [|c s]; sf_go; [sf_fail|].
  eapply post_bind; [by apply number_post| |done]. intros v w t st' E [Hv ->].
  destruct v; try (apply post_err; done). apply post_ret. split; [|done]. rewrite app_nil_r. inv Hv. by constructor.
Qed.

Lemma token_post pre c s st : (c =? 42) || ALPHA_CASES c = true ->
  sf_post pre (c :: s) (fun v w t st' => bare_text v w /\ st' = st) parse_error (parser_token (sfp_at pre (c :: s) st)).
Proof.
  intros Hc. unfold parser_token. sf_go. rewrite <- app_assoc, vec_bind. exists (c :: takew token_char s), (dropw token_char s), st.
  split; [cbn [app]; by rewrite takew_dropw|]. split; [done|]. split; [|done]. constructor; [done|apply takew_all].
Qed.

Lemma boolean_post pre s st :
  sf_post pre (63 :: s) (fun v w t st' => bare_text v w /\ st' = st) parse_error (parser_boolean (sfp_at pre (63 :: s) st)).
Proof.
  unfold parser_boolean. sf_go. sf_read 63. destruct s as [|c s]; sf_go; [sf_fail|].
  destruct (Z.eqb_spec c 48) as [-> |H0]; sf_go.
  { sf_read 48. apply post_ret. by split; [constructor|]. }
  destruct (Z.eqb_spec c 49) as [-> |H1]; sf_go; [|sf_fail]. sf_read 49. apply post_ret. by split; [constructor|].
Qed.

(** ** Strings *)

Lemma plain_char c : X20_21_CASES c || X23_5B_CASES c || X5D_7E_CASES c = printable c && negb (one_of [34; 92] c).
Proof.
  unfold X20_21_CASES, X23_5B_CASES, X5D_7E_CASES, printable, one_of, in_range. cbn [existsb].
  repeat (bcase; cbn [andb orb negb]); try done; lia.
Qed.

Lemma escape_app a b : escape (a ++ b) = escape a ++ escape b.
Proof. unfold escape. by rewrite map_app, concat_app. Qed.

Lemma escape_flag_snoc str c : escape_flag (str ++ [c]) = if one_of [34; 92] c then SF_VALUE_FLAG_ESCAPED_STRING else escape_flag str.
Proof.
  unfold escape_flag. rewrite existsb_app. cbn [existsb]. rewrite orb_false_r. destruct (one_of _ c); [by rewrite orb_true_r|].
  by rewrite orb_false_r.
Qed.

Definition string_result (str : bytes) (st : Z) (v : sf_value) (w t : bytes) (st' : Z) : Prop :=
  exists str', all printable str' /\ v = SF_STRING (escape_flag (str ++ str')) (escape (str ++ str')) /\ w = escape str' ++ [34] /\ st' = st.

Lemma string_result_cons str c st v w t st' : printable c = true ->
  string_result (str ++ [c]) st v w t st' -> string_result str st v (escape_char c ++ w) t st'.
Proof.
  intros Hc (str' & Hp & -> & -> & ->). exists (c :: str'). rewrite <- !app_assoc. cbn [app]. split; [by constructor|].
  split; [done|]. split; [|done]. rewrite escape_cons. by rewrite app_assoc.
Qed.

Lemma string_loop_post pre str s st : 
  sf_post (pre ++ escape str) s (string_result str st) parse_error
    (string_loop s (length pre) (escape_flag str) (sfp_at (pre ++ escape str) s st)).
Proof.
  revert str. induction s as [s IH] using (induction_ltof1 _ (@length Z)). intros str. destruct s as [|c s]; cbn [string_loop]; [sf_fail|].
  assert (forall d s', (length s' < S (length s))%nat -> printable d = true ->
    sf_post (pre ++ escape str ++ escape_char d) s' (fun v w => string_result str st v (escape_char d ++ w)) parse_error
      (string_loop s' (length pre) (escape_flag (str ++ [d])) (sfp_at (pre ++ escape str ++ escape_char d) s' st))) as Hrec.
  { intros d s' Hl Hd. specialize (IH s'). unfold ltof in IH. specialize (IH ltac:(simpl; lia) (str ++ [d])).
    rewrite escape_app in IH. cbn [escape map concat] in IH. rewrite app_nil_r in IH. eapply post_weaken; [exact IH| |done].
    intros v w t st' _. by apply string_result_cons. }
  rewrite plain_char. destruct (printable c && _) eqn:Hp.
  { apply andb_true_iff in Hp as [Hp Hn]. apply negb_true_iff in Hn. sf_go. sf_read c. rewrite <- !app_assoc.
    specialize (Hrec c s ltac:(lia) Hp). unfold escape_char in Hrec. rewrite escape_flag_snoc, Hn in Hrec. exact Hrec. }
  destruct (Z.eqb_spec c 92) as [-> |Hc].
  - sf_go. sf_read 92. destruct s as [|d s]; [sf_fail|]. destruct (one_of [34; 92] d) eqn:Hd; [|sf_fail]. sf_go. sf_read d.
    rewrite <- !app_assoc. assert (printable d = true) as Hpd.
    { apply one_of_spec in Hd. rewrite !elem_of_cons, elem_of_nil in Hd. by destruct Hd as [-> |[-> |[]]]. }
    specialize (Hrec d s ltac:(simpl; lia) Hpd). unfold escape_char in Hrec. rewrite escape_flag_snoc, Hd in Hrec. exact Hrec.
  - destruct (Z.eqb_spec c 34) as [-> |Hq]; [|sf_fail]. rewrite vec_bind. sf_go. sf_read 34. apply post_ret.
    exists []. rewrite !app_nil_r. done.
Qed.

Lemma string_post pre s st :
  sf_post pre (34 :: s) (fun v w t st' => bare_text v w /\ st' = st) parse_error (parser_string (sfp_at pre (34 :: s) st)).
Proof.
  unfold parser_string. sf_go. sf_read 34. pose proof (string_loop_post (pre ++ [34]) [] s st) as H. rewrite app_nil_r in H.
  eapply post_weaken; [exact H| |done]. intros v w t st' _ (str & Hp & -> & -> & ->). split; [|done]. by apply txt_string.
Qed.

Lemma string_loop_reads pre str str' t st : all printable str' ->
  string_loop (escape str' ++ 34 :: t) (length pre) (escape_flag str) (sfp_at (pre ++ escape str) (escape str' ++ 34 :: t) st) =
    Some (sfp_at (pre ++ escape (str ++ str') ++ [34]) t st, inr (SF_STRING (escape_flag (str ++ str')) (escape (str ++ str')))).
Proof.
  intros Hp. revert str. induction Hp as [|c str' Hc Hp IH]; intros str.
  - cbn [escape map concat app]. rewrite app_nil_r. cbn [string_loop]. change (X20_21_CASES 34) with false.
    change (X23_5B_CASES 34) with false. change (X5D_7E_CASES 34) with false. cbn [orb Z.eqb Pos.eqb]. rewrite vec_bind. sf_go.
    by rewrite <- app_assoc.
  - specialize (IH (str ++ [c])). rewrite escape_flag_snoc, escape_app in IH. cbn [escape map concat] in IH. rewrite app_nil_r in IH.
    rewrite <- !(app_assoc str), escape_cons, <- !app_assoc in *. cbn [app] in IH. unfold escape_char in *.
    destruct (one_of [34; 92] c) eqn:Hn.
    + cbn [app string_loop]. change (X20_21_CASES 92) with false.
      change (X23_5B_CASES 92) with false. change (X5D_7E_CASES 92) with false. cbn [orb Z.eqb Pos.eqb]. sf_go. rewrite Hn. sf_go.
      rewrite <- !app_assoc. exact IH.
    + cbn [app string_loop]. rewrite plain_char, Hc, Hn. cbn [negb andb]. sf_go. rewrite <- !app_assoc. exact IH.
Qed.

(** ** Byte sequences *)

Lemma land3_mod n : Z.of_nat n .& 3 = Z.of_nat (n mod 4).
Proof. change 3 with (2 ^ 2 - 1). rewrite land_ones_mod by lia. by rewrite Nat2Z.inj_mod. Qed.

Lemma byteseq_fin_at pre v t st :
  byteseq_fin (length pre) (sfp_at (pre ++ v) (58 :: t) st) = Some (sfp_at (pre ++ v ++ [58]) t st, inr (SF_BYTESEQ v)).
Proof. unfold byteseq_fin. rewrite vec_bind. sf_go. by rewrite <- app_assoc. Qed.

(** [w] has been read; [pad] and the closing colon follow. *)
Definition byteseq_result (w : bytes) (st : Z) (v : sf_value) (r t : bytes) (st' : Z) : Prop :=
  exists w' pad, all base64_char w' /\ b64_shape (w ++ w') pad /\ v = SF_BYTESEQ (w ++ w' ++ pad) /\ r = w' ++ pad ++ [58] /\ st' = st.

Lemma byteseq_close pre w pad s st : b64_shape w pad ->
  sf_post (pre ++ w ++ pad) s (fun v r => byteseq_result w st v (pad ++ r)) parse_error
    ((if not_at 58 s then sf_err SF_ERR_PARSE_ERROR else byteseq_fin (length pre)) (sfp_at (pre ++ w ++ pad) s st)).
Proof.
  intros Hs. destruct s as [|c s]; cbn [not_at]; [sf_fail|]. destruct (Z.eqb_spec c 58) as [-> |Hc]; cbn [negb]; [|sf_fail].
  rewrite byteseq_fin_at. exists [58], s, st. split; [done|]. split; [by rewrite <- !app_assoc|].
  exists [], pad. rewrite app_nil_r. done.
Qed.

Lemma byteseq_pad_post pre w s st : 
  sf_post (pre ++ w) (61 :: s) (byteseq_result w st) parse_error (byteseq_pad (length pre) (sfp_at (pre ++ w) (61 :: s) st)).
Proof.
  unfold byteseq_pad. sf_go. rewrite length_app. replace (length pre + length w - length pre)%nat with (length w) by lia.
  rewrite land3_mod. pose proof (Nat.div_mod_eq (length w) 4) as Hdiv. pose proof (Nat.mod_upper_bound (length w) 4 ltac:(lia)).
  set (k := (length w / 4)%nat) in *. set (r := (length w mod 4)%nat) in *.
  destruct ((Z.of_nat r =? 0) || (Z.of_nat r =? 1)) eqn:Er; [sf_fail|]. apply orb_false_iff in Er as [?%Z.eqb_neq ?%Z.eqb_neq].
  destruct w as [|c w _] using rev_ind; [simpl in *; lia|]. rewrite app_assoc.
  destruct (Z.eqb_spec (Z.of_nat r) 2) as [E2|E2].
  - sf_go. destruct (one_of [65; 81; 103; 119] c) eqn:Hc; sf_go; [|sf_fail].
    sf_read 61. destruct s as [|d s]; cbn [not_at]; [sf_fail|]. destruct (Z.eqb_spec d 61) as [-> |Hd]; cbn [negb]; [|sf_fail]. sf_go.
    sf_read 61. rewrite <- !app_assoc. rewrite (app_assoc w [c]). apply (byteseq_close pre (w ++ [c]) [61; 61]). by apply (shape_pad2 _ k w c); [|lia|].
  - sf_go. destruct (one_of _ c) eqn:Hc; sf_go; [|sf_fail]. sf_read 61. rewrite <- !app_assoc. rewrite (app_assoc w [c]).
    apply (byteseq_close pre (w ++ [c]) [61]). by apply (shape_pad1 _ k w c); [|lia|].
Qed.

Lemma byteseq_loop_post pre w s st : 
  sf_post (pre ++ w) s (byteseq_result w st) parse_error (byteseq_loop s (length pre) (sfp_at (pre ++ w) s st)).
Proof.
  revert w. induction s as [|c s IH]; intros w; cbn [byteseq_loop]; [sf_fail|]. destruct (base64_char c) eqn:Hc.
  - sf_go. sf_read c. rewrite <- app_assoc. eapply post_weaken; [apply IH| |done].
    intros v r t st' _ (w' & pad & Hw & Hs & -> & -> & ->). exists (c :: w'), pad. rewrite <- app_assoc in *. split; [by constructor|].
    split; [done|]. by rewrite <- ?app_assoc.
  - destruct (Z.eqb_spec c 61) as [-> |H61]; [apply byteseq_pad_post|]. destruct (Z.eqb_spec c 58) as [-> |H58]; [|sf_fail].
    sf_go. rewrite length_app. replace (length pre + length w - length pre)%nat with (length w) by lia. rewrite land3_mod.
    destruct (Z.eqb_spec (Z.of_nat (length w mod 4)) 0) as [E|E]; cbn [negb]; [|sf_fail]. rewrite byteseq_fin_at.
    exists [58], s, st. split; [done|]. split; [by rewrite <- app_assoc|]. exists [], []. rewrite !app_nil_r. split; [done|].
    split; [|done]. apply (shape_whole _ (length w / 4)). pose proof (Nat.div_mod_eq (length w) 4). lia.
Qed.

Lemma byteseq_post pre s st :
  sf_post pre (58 :: s) (fun v w t st' => bare_text v w /\ st' = st) parse_error (parser_byteseq (sfp_at pre (58 :: s) st)).
Proof.
  unfold parser_byteseq. sf_go. sf_read 58. pose proof (byteseq_loop_post (pre ++ [58]) [] s st) as H. rewrite app_nil_r in H.
  eapply post_weaken; [exact H| |done]. intros v w t st' _ (w' & pad & Hw & Hs & -> & -> & ->). split; [|done].
  destruct (shape_base64 w' pad Hw Hs) as (bs & Hbs & E). cbn [app]. rewrite <- E, (app_assoc w' pad), <- E. by apply txt_byteseq.
Qed.

Lemma byteseq_loop_reads pre w w' pad t st : all base64_char w' -> b64_shape (w ++ w') pad ->
  byteseq_loop (w' ++ pad ++ 58 :: t) (length pre) (sfp_at (pre ++ w) (w' ++ pad ++ 58 :: t) st) =
    Some (sfp_at (pre ++ (w ++ w' ++ pad) ++ [58]) t st, inr (SF_BYTESEQ (w ++ w' ++ pad))).
Proof.
  intros Hw. revert w. induction Hw as [|c w' Hc Hw IH]; intros w Hs.
  2:{ cbn [app byteseq_loop]. rewrite Hc. sf_go. rewrite <- app_assoc. rewrite (IH (w ++ [c])); rewrite <- ?app_assoc; cbn [app]; rewrite <- ?app_assoc; done. }
  rewrite app_nil_r in Hs. cbn [app].
  assert (forall x : bytes, (length pre + length x - length pre)%nat = length x) as Hlen by (intros; lia).
  destruct Hs as [k Hk|k w2 c -> Hk Hc|k w2 c -> Hk Hc]; cbn [app byteseq_loop].
  - change (base64_char 58) with false. cbn [Z.eqb Pos.eqb]. sf_go. rewrite length_app, Hlen, land3_mod.
    rewrite Hk, Nat.mul_comm, Nat.Div0.mod_mul. change (Z.of_nat 0) with 0. cbn [negb Z.eqb]. rewrite byteseq_fin_at, app_nil_r. done.
  - change (base64_char 61) with false. cbn [Z.eqb Pos.eqb]. unfold byteseq_pad. sf_go. rewrite (length_app pre), Hlen, land3_mod.
    rewrite Hk, Nat.mul_comm, Nat.add_comm, Nat.Div0.mod_add. change (Z.of_nat (2 mod 4)) with 2. cbn [Z.eqb Pos.eqb orb].
    rewrite app_assoc. sf_go. rewrite Hc. sf_go. cbn [not_at negb Z.eqb Pos.eqb]. sf_go. cbn [not_at negb Z.eqb Pos.eqb].
    rewrite <- !app_assoc. cbn [app].
    replace (pre ++ w2 ++ [c; 61; 61]) with (pre ++ (w2 ++ [c; 61; 61])) by done. by rewrite byteseq_fin_at, <- app_assoc.
  - change (base64_char 61) with false. cbn [Z.eqb Pos.eqb]. unfold byteseq_pad. sf_go. rewrite (length_app pre), Hlen, land3_mod.
    rewrite Hk, Nat.mul_comm, Nat.add_comm, Nat.Div0.mod_add. change (Z.of_nat (3 mod 4)) with 3. cbn [Z.eqb Pos.eqb orb].
    rewrite app_assoc. sf_go. rewrite Hc. sf_go. cbn [not_at negb Z.eqb Pos.eqb].
    rewrite <- !app_assoc. cbn [app]. by rewrite byteseq_fin_at, <- app_assoc.
Qed.

(** ** Bare items *)

Lemma bare_item_post pre s st : s <> [] ->
  sf_post pre s (fun v w t st' => bare_text v w /\ st' = st) parse_error (parser_bare_item (sfp_at pre s st)).
Proof.
  intros Hs. destruct s as [|c s]; [done|]. unfold parser_bare_item. sf_go.
  destruct (Z.eqb_spec c 34) as [-> |_]; [apply string_post|]. destruct ((c =? 45) || DIGIT_CASES c); [by apply number_post|].
  destruct (Z.eqb_spec c 64) as [-> |_]; [apply date_post|]. destruct (Z.eqb_spec c 58) as [-> |_]; [apply byteseq_post|].
  destruct (Z.eqb_spec c 63) as [-> |_]; [apply boolean_post|]. destruct ((c =? 42) || ALPHA_CASES c) eqn:Hc; [by apply token_post|].
  sf_fail.
Qed.

Lemma number_reads_integer pre sign sg ds t st : sign_text sign sg -> all DIGIT_CASES ds -> (1 <= length ds <= 15)%nat -> follows t ->
  parser_number (sfp_at pre ((sg ++ ds) ++ t) st) = Some (sfp_at (pre ++ sg ++ ds) t st, inr (SF_INTEGER (digits_from 0 ds * sign))).
Proof.
  intros Hsg Hds Hl Ht. assert (stops DIGIT_CASES t) by (by apply follows_stops). assert (not_at 46 t = true) by (by apply follows_not_at).
  destruct ds as [|d ds]; [simpl in Hl; lia|]. unfold parser_number. destruct Hsg; cbn [app].
  - sf_go. rewrite (proj2 (Z.eqb_neq d 45)) by (apply Forall_cons in Hds as [?%digit_range _]; lia).
    by apply (number_body_integer 1 (d :: ds)).
  - sf_go. cbn [Z.eqb Pos.eqb]. sf_go. change (d :: ds ++ t) with ((d :: ds) ++ t).
    rewrite number_body_integer by done. by rewrite <- app_assoc.
Qed.

Lemma number_reads_decimal pre sign sg ds fs t st : sign_text sign sg -> all DIGIT_CASES ds -> (1 <= length ds <= 12)%nat ->
  all DIGIT_CASES fs -> (1 <= length fs <= 3)%nat -> follows t ->
  parser_number (sfp_at pre ((sg ++ ds ++ [46] ++ fs) ++ t) st) =
    Some (sfp_at (pre ++ sg ++ ds ++ [46] ++ fs) t st, inr (SF_DECIMAL (digits_from 0 (ds ++ fs) * sign) (10 ^ Z.of_nat (length fs)))).
Proof.
  intros Hsg Hds Hl Hfs Hlf Ht. assert (stops DIGIT_CASES t) by (by apply follows_stops).
  destruct ds as [|d ds]; [simpl in Hl; lia|]. unfold parser_number. rewrite <- !app_assoc. destruct Hsg; cbn [app].
  - sf_go. rewrite (proj2 (Z.eqb_neq d 45)) by (apply Forall_cons in Hds as [?%digit_range _]; lia).
    by apply (number_body_decimal 1 (d :: ds)).
  - sf_go. cbn [Z.eqb Pos.eqb]. sf_go. change (d :: ds ++ 46 :: fs ++ t) with ((d :: ds) ++ 46 :: fs ++ t).
    rewrite number_body_decimal by done. by rewrite <- app_assoc.
Qed.

(** The first character of a text selects the function that reads it. *)
Lemma alpha_not c l : forallb (fun x => negb (x =? 42) && negb (ALPHA_CASES x)) l = true -> (c =? 42) || ALPHA_CASES c = true -> c ∉ l.
Proof.
  rewrite forallb_forall. intros Hl Hc Hin. apply list_elem_of_In, Hl in Hin. by destruct (c =? 42), (ALPHA_CASES c).
Qed.

Lemma bare_item_reads pre v w t st : bare_text v w -> follows t ->
  parser_bare_item (sfp_at pre (w ++ t) st) = Some (sfp_at (pre ++ w) t st, inr v).
Proof.
  intros Hv Ht. destruct Hv as [| |sign sg ds Hsg Hds Hl|sign sg ds fs Hsg Hds Hl Hfs Hlf|sign sg ds Hsg Hds Hl|str Hp|c k Hc Hk|bs Hb].
  1,2: unfold parser_bare_item; cbn [app]; sf_go; cbn [Z.eqb Pos.eqb orb]; change (DIGIT_CASES 63) with false; cbn iota;
    unfold parser_boolean; sf_go; cbn [Z.eqb Pos.eqb]; sf_go; by rewrite <- app_assoc.
  1,2: rewrite <- (number_reads_integer pre _ _ _ t st Hsg Hds Hl Ht) || rewrite <- (number_reads_decimal pre _ _ _ _ t st Hsg Hds Hl Hfs Hlf Ht);
    unfold parser_bare_item; destruct Hsg; cbn [app]; [destruct ds as [|d ds]; [simpl in Hl; lia|]; cbn [app]|]; sf_go; try done;
    apply Forall_cons in Hds as [Hds _]; rewrite Hds, orb_true_r; apply digit_range in Hds;
    by rewrite (proj2 (Z.eqb_neq d 34)) by lia.
  - unfold parser_bare_item. cbn [app]. sf_go. cbn [Z.eqb Pos.eqb orb]. change (DIGIT_CASES 64) with false. cbn iota. unfold parser_date.
    sf_go. assert (exists x u, (sg ++ ds) ++ t = x :: u) as (x & u & E).
    { destruct ds as [|d ds]; [simpl in Hl; lia|]. destruct Hsg; by eexists _, _. }
    rewrite E. cbn [is_nil]. rewrite <- E. unfold mbind, sf_bind. rewrite (number_reads_integer _ _ _ _ _ _ Hsg Hds Hl Ht).
    by rewrite <- app_assoc.
  - unfold parser_bare_item. cbn [app]. sf_go. cbn [Z.eqb Pos.eqb orb]. unfold parser_string. sf_go. rewrite <- app_assoc.
    pose proof (string_loop_reads (pre ++ [34]) [] str t st Hp) as H. cbn [escape map concat app] in H. rewrite app_nil_r in H.
    change (escape_flag []) with SF_VALUE_FLAG_NONE in H. cbn [app]. rewrite H, <- app_assoc. done.
  - unfold parser_bare_item. cbn [app]. sf_go.
    assert (forall x, x ∈ [34; 45; 48; 49; 50; 51; 52; 53; 54; 55; 56; 57; 64; 58; 63] -> c <> x) as Hn.
    { intros x Hx ->. by eapply alpha_not in Hx. }
    assert (DIGIT_CASES c = false) as ->.
    { apply not_true_is_false. intros Hd%digit_range. assert (exists i, (i < 10)%nat /\ c = 48 + Z.of_nat i) as (i & Hi & E)
        by (exists (Z.to_nat (c - 48)); lia). revert E. do 10 (destruct i as [|i]; [apply Hn; set_solver|]). lia. }
    rewrite !(proj2 (Z.eqb_neq c _)) by (apply Hn; set_solver). 
    cbn [orb]. rewrite Hc. unfold parser_token. sf_go. destruct (takew_app token_char k t) as [-> ->]; [done|by apply follows_stops|].
    by rewrite <- app_assoc, vec_bind.
  - unfold parser_bare_item. cbn [app]. sf_go. cbn [Z.eqb Pos.eqb orb]. change (DIGIT_CASES 58) with false. cbn iota. unfold parser_byteseq.
    sf_go. destruct (base64_shape bs Hb) as (w & pad & E & Hw & Hs). rewrite E, <- !app_assoc.
    pose proof (byteseq_loop_reads (pre ++ [58]) [] w pad t st Hw Hs) as H. rewrite app_nil_r in H. cbn [app] in H |- *.
    rewrite H, <- !app_assoc. done.
Qed.
