(* ===== verification/SfDict.v ===== *)
(** * Parameters, inner lists and dictionaries (sfparse.c)

    The composite texts of RFC 8941 (with dates, see [SfGrammar]) and what the parser does on them.
    [sf_dict_reads]: on every input the loop that calls [sf_parser_dict] until
    it fails returns, and it reads the members of a dictionary up to the end
    exactly when the input is the text of that dictionary.
    [sf_calls_terminate]: calls in the documented order are safe in every
    state, and the length of the input bounds the number of successful ones. *)

From S2P Require Import Prelude Sf SfValues SfGrammar.

(** ** Texts *)

Inductive param_text : bytes * sf_value -> bytes -> Prop :=
  | txt_param_true sp k : all (Z.eqb 32) sp -> key_text k -> param_text (k, SF_BOOLEAN 1) ([59] ++ sp ++ k)
  | txt_param sp k v w : all (Z.eqb 32) sp -> key_text k -> bare_text v w -> param_text (k, v) ([59] ++ sp ++ k ++ [61] ++ w).

Inductive params_text : list (bytes * sf_value) -> bytes -> Prop :=
  | txt_params_nil : params_text [] []
  | txt_params_cons x w l r : param_text x w -> params_text l r -> params_text (x :: l) (w ++ r).

(** The rest of an inner list behind one of its items. *)
Inductive inner_rest : list (sf_value * list (bytes * sf_value)) -> bytes -> Prop :=
  | txt_inner_close sp : all (Z.eqb 32) sp -> inner_rest [] (sp ++ [41])
  | txt_inner_item sp v w ps pw l r : all (Z.eqb 32) sp -> sp <> [] -> bare_text v w -> params_text ps pw -> inner_rest l r ->
      inner_rest ((v, ps) :: l) (sp ++ w ++ pw ++ r).

(** An inner list behind its opening parenthesis. *)
Inductive inner_text : list (sf_value * list (bytes * sf_value)) -> bytes -> Prop :=
  | txt_inner_empty sp : all (Z.eqb 32) sp -> inner_text [] (sp ++ [41])
  | txt_inner_first sp v w ps pw l r : all (Z.eqb 32) sp -> bare_text v w -> params_text ps pw -> inner_rest l r ->
      inner_text ((v, ps) :: l) (sp ++ w ++ pw ++ r).

(** The value of a member with its parameters. *)
Inductive dict_value_text : sf_value -> bytes -> Prop :=
  | txt_dict_true ps pw : params_text ps pw -> dict_value_text (SF_BOOLEAN 1) pw
  | txt_dict_item v w ps pw : bare_text v w -> params_text ps pw -> dict_value_text v ([61] ++ w ++ pw)
  | txt_dict_inner l w ps pw : inner_text l w -> params_text ps pw -> dict_value_text SF_INNER_LIST ([61; 40] ++ w ++ pw).

(** A dictionary behind one of its members. *)
Inductive dict_rest : list (bytes * sf_value) -> bytes -> Prop :=
  | txt_dict_end o : all is_ws o -> dict_rest [] o
  | txt_dict_more o1 o2 k v w l r : all is_ws o1 -> all is_ws o2 -> key_text k -> dict_value_text v w -> dict_rest l r ->
      dict_rest ((k, v) :: l) (o1 ++ [44] ++ o2 ++ k ++ w ++ r).

Inductive dict_text : list (bytes * sf_value) -> bytes -> Prop :=
  | txt_dict_empty sp : all (Z.eqb 32) sp -> dict_text [] sp
  | txt_dict sp k v w l r : all (Z.eqb 32) sp -> key_text k -> dict_value_text v w -> dict_rest l r ->
      dict_text ((k, v) :: l) (sp ++ k ++ w ++ r).

(** ** First characters *)

Definition starts (f : Z -> bool) (w : bytes) : Prop := match w with [] => False | c :: _ => f c = true end.

Lemma starts_app f w t : starts f w -> starts f (w ++ t).
Proof. by destruct w. Qed.

Lemma starts_stops f g w t : (forall c, f c = true -> g c = false) -> starts f w -> stops g (w ++ t).
Proof. destruct w; simpl; [done|]. auto. Qed.

(** A bare item does not start with a space, a parenthesis or a delimiter. *)
Lemma bare_starts v w : bare_text v w -> starts (fun c => negb (one_of [32; 9; 40; 41; 44; 59; 61] c)) w.
Proof.
  assert (forall c, one_of [32; 9; 40; 41; 44; 59; 61] c = true -> DIGIT_CASES c = false /\ (c =? 42) || ALPHA_CASES c = false) as H.
  { intros c Hc. apply one_of_spec in Hc. rewrite !elem_of_cons, elem_of_nil in Hc. destruct_or!; subst; done. }
  assert (forall sign sg ds t, sign_text sign sg -> all DIGIT_CASES ds -> (1 <= length ds)%nat ->
    starts (fun c => negb (one_of [32; 9; 40; 41; 44; 59; 61] c)) (sg ++ ds ++ t)) as Hn.
  { intros sign sg ds t [|] Hds Hl; [|done]. destruct ds as [|d ds]; [simpl in Hl; lia|]. apply Forall_cons in Hds as [Hd _].
    cbn [app starts]. apply negb_true_iff, not_true_is_false. intros Hc. apply H in Hc as [Hc _]. congruence. }
  intros [| |sign sg ds Hsg Hds Hl|sign sg ds fs Hsg Hds Hl Hfs Hlf| | |c k Hc Hk|]; try done.
  - rewrite <- (app_nil_r ds). eapply Hn; [done..|lia].
  - eapply Hn; [done..|lia].
  - cbn [starts]. apply negb_true_iff, not_true_is_false. intros Hd. apply H in Hd as [_ Hd]. congruence.
Qed.

Lemma key_starts k : key_text k -> starts (fun c => (c =? 42) || LCALPHA_CASES c) k.
Proof. by intros [c w Hc _]. Qed.

Lemma key_first c : (c =? 42) || LCALPHA_CASES c = true -> forall x, x ∈ [32; 9; 40; 41; 44; 59; 61] -> c <> x.
Proof. intros Hc x Hx ->. rewrite !elem_of_cons, elem_of_nil in Hx. destruct_or!; subst; done. Qed.

(** ** The operation bits of the state *)

Definition set_op (st op : Z) : Z := (st .& Z.lnot SF_STATE_OP_MASK) .| op.
Definition op_of (st : Z) : Z := st .& SF_STATE_OP_MASK.

Lemma op_bits op : one_of [0; 1; 2; 3] op = true -> op .& 3 = op /\ op .& Z.lnot 3 = 0.
Proof. rewrite one_of_spec, !elem_of_cons, elem_of_nil. intros H. destruct_or!; subst; done. Qed.

Lemma op_of_set st op : one_of [0; 1; 2; 3] op = true -> op_of (set_op st op) = op.
Proof.
  intros H. apply op_bits in H as [H _]. unfold op_of, set_op, SF_STATE_OP_MASK.
  rewrite Z.land_lor_distr_l, <- Z.land_assoc, (Z.land_comm (Z.lnot 3)), Z.land_lnot_diag, Z.land_0_r, H. done.
Qed.

Lemma set_op_set st a b : one_of [0; 1; 2; 3] a = true -> set_op (set_op st a) b = set_op st b.
Proof.
  intros H. apply op_bits in H as [_ H]. unfold set_op, SF_STATE_OP_MASK.
  rewrite Z.land_lor_distr_l, H, Z.lor_0_r, <- Z.land_assoc, Z.land_diag. done.
Qed.

(** ** Parameters *)

Lemma param_value_post pre s st :
  sf_post pre s (fun v w t st' => st' = st /\ (v = SF_BOOLEAN 1 /\ w = [] \/ exists w', w = 61 :: w' /\ bare_text v w')) parse_error
    (param_value (sfp_at pre s st)).
Proof.
  unfold param_value. sf_go. destruct s as [|c s]; cbn [not_at]; [apply post_ret; auto|].
  destruct (Z.eqb_spec c 61) as [-> |Hc]; cbn [negb]; [|apply post_ret; auto]. sf_go. sf_read 61.
  destruct s as [|d s]; sf_go; [sf_fail|]. eapply post_weaken; [by apply bare_item_post| |done]. intros v w t st' _ [Hv ->].
  split; [done|]. right. by exists w.
Qed.

(** Without a semicolon there are no more parameters. *)
Definition param_end (st : Z) (s : bytes) (rv : Z) (w t : bytes) (st' : Z) : Prop :=
  rv = SF_ERR_PARSE_ERROR \/ rv = SF_ERR_EOF /\ w = [] /\ not_at 59 t = true /\ st' = set_op st SF_STATE_AFTER.

Lemma param_body_post pre s st :
  sf_post pre s (fun x w t st' => param_text x w /\ st' = st) (param_end st s) (param_body (sfp_at pre s st)).
Proof.
  unfold param_body. sf_go. destruct (not_at 59 s) eqn:Hs.
  { sf_go. apply post_err. right. done. }
  destruct s as [|c s]; [done|]. cbn [not_at] in Hs. apply negb_false_iff, Z.eqb_eq in Hs as ->. sf_go. sf_read 59.
  pose proof (takew_all (Z.eqb 32) s) as Hsp. pose proof (takew_dropw (Z.eqb 32) s) as Es.
  remember (takew (Z.eqb 32) s) as sp. remember (dropw (Z.eqb 32) s) as s1. rewrite <- Es. clear Es Heqsp Heqs1 s.
  apply post_read. destruct s1 as [|c s]; sf_go; [apply post_err; by left|].
  eapply post_bind; [by apply key_post| |by left]. intros k w t st' _ (-> & Hk & ->).
  eapply post_bind; [apply param_value_post| |by left]. intros v w' t' st' _ (-> & Hv). apply post_ret. split; [|done].
  rewrite app_nil_r. destruct Hv as [[-> ->]|(w2 & -> & Hv)].
  - rewrite app_nil_r. by constructor.
  - by constructor.
Qed.

Lemma param_body_reads pre x w t st : param_text x w -> follows t ->
  param_body (sfp_at pre (w ++ t) st) = Some (sfp_at (pre ++ w) t st, inr x).
Proof.
  assert (forall sp k u, all (Z.eqb 32) sp -> key_text k ->
    param_body (sfp_at pre (59 :: sp ++ k ++ u) st) =
    (key ← parser_key; v ← param_value; mret (key, v)) (sfp_at (pre ++ 59 :: sp) (k ++ u) st)) as H.
  { intros sp k u Hsp Hk. unfold param_body. sf_go. cbn [not_at Z.eqb Pos.eqb negb]. sf_go.
    destruct (takew_app (Z.eqb 32) sp (k ++ u)) as [-> ->]; [done| |].
    { eapply starts_stops; [|by apply key_starts]. intros c Hc. apply Z.eqb_neq. apply not_eq_sym. eapply key_first; [done|set_solver]. }
    rewrite <- app_assoc. destruct Hk. cbn [app is_nil]. sf_go. done. }
  intros [sp k Hsp Hk|sp k v w2 Hsp Hk Hv] Ht.
  - rewrite <- !app_assoc. cbn [app]. rewrite H by done. unfold mbind at 1, sf_bind. rewrite key_reads by (done || by apply follows_stops).
    unfold param_value. sf_go. rewrite follows_not_at by done. sf_go. by rewrite <- app_assoc.
  - rewrite <- !app_assoc. cbn [app]. rewrite H by done. unfold mbind at 1, sf_bind. rewrite key_reads by done.
    unfold param_value. sf_go. cbn [not_at Z.eqb Pos.eqb negb]. sf_go.
    assert (exists c u, w2 ++ t = c :: u) as (c & u & E) by (destruct w2; [by destruct (bare_starts _ _ Hv)|by eexists _, _]).
    rewrite E. sf_go. rewrite <- E. unfold mbind, sf_bind. rewrite (bare_item_reads _ _ _ _ _ Hv Ht). by rewrite <- !app_assoc.
Qed.

Lemma params_follows ps w t : params_text ps w -> follows t -> follows (w ++ t).
Proof. intros [|x u l r Hx _] Ht; [done|]. by destruct Hx. Qed.

(** With the parameters ahead the function does not recurse. *)
Lemma param_step fuel pre s st : op_of st = SF_STATE_BEFORE_PARAMS \/ op_of st = SF_STATE_PARAMS ->
  sf_parser_param (S fuel) (sfp_at pre s st) = param_body (sfp_at pre s (set_op st SF_STATE_PARAMS)) \/
  sf_parser_param (S fuel) (sfp_at pre s st) = param_body (sfp_at pre s st) /\ op_of st = SF_STATE_PARAMS.
Proof.
  unfold op_of. intros Hop. cbn [sf_parser_param]. sf_go.
  destruct Hop as [-> | ->]; cbn [Z.eqb Pos.eqb SF_STATE_BEFORE SF_STATE_BEFORE_PARAMS SF_STATE_PARAMS]; sf_go; [left|right]; done.
Qed.

Lemma set_op_id st op : op_of st = op -> set_op st op = st.
Proof. intros <-. unfold set_op, op_of. rewrite <- Z.land_lor_distr_r, Z.lor_comm, Z.lor_lnot_diag, Z.land_m1_r. done. Qed.

Lemma param_unfold fuel pre s st : op_of st = SF_STATE_BEFORE_PARAMS \/ op_of st = SF_STATE_PARAMS ->
  sf_parser_param (S fuel) (sfp_at pre s st) = param_body (sfp_at pre s (set_op st SF_STATE_PARAMS)).
Proof. intros H. destruct (param_step fuel pre s st H) as [E|[E Ho]]; [done|]. by rewrite (set_op_id _ _ Ho). Qed.

Lemma skip_params_post fuel pre s st : op_of st = SF_STATE_BEFORE_PARAMS \/ op_of st = SF_STATE_PARAMS -> (length s + 2 <= fuel)%nat ->
  sf_post pre s (fun _ w t st' => (exists ps, params_text ps w) /\ not_at 59 t = true /\ st' = set_op st SF_STATE_AFTER) parse_error
    (parser_skip_params fuel (sfp_at pre s st)).
Proof.
  revert pre s st. induction fuel as [|fuel IH]; intros pre s st Hop Hf; [lia|]. destruct fuel as [|fuel]; [lia|].
  cbn [parser_skip_params]. unfold sf_catch. rewrite param_unfold by done.
  pose proof (param_body_post pre s (set_op st SF_STATE_PARAMS)) as H. destruct (param_body _) as [[p' r]|]; [|done].
  destruct H as (w & t & st' & -> & -> & Hr). apply post_read. destruct r as [rv|x]; cbn [skip_again].
  - destruct Hr as [-> |(-> & -> & Ht & ->)]; cbn [Z.eqb Pos.eqb SF_ERR_EOF SF_ERR_PARSE_ERROR]; [sf_fail|]. apply post_ret.
    split; [exists []; constructor|]. split; [done|]. by apply set_op_set.
  - destruct Hr as [Hx ->]. eapply post_weaken; [apply IH| |done].
    + right. by apply op_of_set.
    + rewrite length_app in Hf. destruct Hx; simpl in Hf; lia.
    + intros _ w' t' st' _ ((ps & Hps) & Ht & ->). split; [exists (x :: ps); by constructor|]. split; [done|]. by apply set_op_set.
Qed.

Lemma skip_params_reads fuel pre ps w t st : op_of st = SF_STATE_BEFORE_PARAMS \/ op_of st = SF_STATE_PARAMS ->
  (length (w ++ t) + 2 <= fuel)%nat -> params_text ps w -> follows t -> not_at 59 t = true ->
  parser_skip_params fuel (sfp_at pre (w ++ t) st) = Some (sfp_at (pre ++ w) t (set_op st SF_STATE_AFTER), inr tt).
Proof.
  intros Hop Hf Hps Ht H59. revert fuel pre st Hop Hf. induction Hps as [|x u l r Hx Hps IH]; intros fuel pre st Hop Hf;
    (destruct fuel as [|[|fuel]]; [lia..|]); cbn [parser_skip_params]; unfold sf_catch; rewrite param_unfold by done.
  - unfold param_body. cbn [app]. sf_go. rewrite H59. sf_go. rewrite app_nil_r. unfold sf_err. cbn [skip_again].
    change (SF_ERR_EOF =? SF_ERR_EOF) with true. cbn iota. fold (set_op (set_op st SF_STATE_PARAMS) SF_STATE_AFTER).
    by rewrite set_op_set by done.
  - rewrite <- app_assoc. rewrite (param_body_reads _ x) by (done || by eapply params_follows). cbn [skip_again].
    change (parser_skip_params (S fuel) (sfp_at (pre ++ u) (r ++ t) (set_op st SF_STATE_PARAMS)) = 
      Some (sfp_at (pre ++ u ++ r) t (set_op st SF_STATE_AFTER), inr tt)).
    rewrite IH; [by rewrite set_op_set, app_assoc by done|right; by apply op_of_set|].
    rewrite <- app_assoc, length_app in Hf. destruct Hx; simpl in Hf; rewrite ?length_app in *; simpl in *; lia.
Qed.

(** ** Inner lists *)

Definition close_state (st : Z) : Z := set_op (st .& Z.lnot SF_STATE_INNER_LIST) SF_STATE_BEFORE_PARAMS.

Lemma close_state_set st op : one_of [0; 1; 2; 3] op = true -> close_state (set_op st op) = close_state st.
Proof.
  intros H. apply op_bits in H as [_ H]. unfold close_state, set_op, SF_STATE_OP_MASK. f_equal.
  rewrite !Z.land_lor_distr_l, <- (Z.land_assoc op), (Z.land_comm (Z.lnot SF_STATE_INNER_LIST)), Z.land_assoc, H, Z.land_0_l, Z.lor_0_r.
  rewrite <- !Z.land_assoc. f_equal.
Qed.

(** What separates an item or the closing parenthesis from what was read before:
    spaces behind the opening parenthesis, parameters and spaces behind an item. *)
Inductive inner_gap (op : Z) (close : bool) : bytes -> Prop :=
  | gap_before sp : op = SF_STATE_BEFORE -> all (Z.eqb 32) sp -> inner_gap op close sp
  | gap_params ps pw sp : op = SF_STATE_BEFORE_PARAMS -> params_text ps pw -> all (Z.eqb 32) sp -> (close = false -> sp <> []) ->
      inner_gap op close (pw ++ sp)
  | gap_after sp : op = SF_STATE_AFTER -> all (Z.eqb 32) sp -> (close = false -> sp <> []) -> inner_gap op close sp.

Lemma inner_after_post pre s st :
  sf_post pre s (fun _ w t st' => all (Z.eqb 32) w /\ t <> [] /\ (w = [] -> starts (Z.eqb 41) t) /\ st' = st) parse_error
    (inner_list_after (sfp_at pre s st)).
Proof.
  unfold inner_list_after. destruct s as [|c s]; sf_go; [sf_fail|]. destruct (Z.eqb_spec c 32) as [-> |Hc].
  - sf_go. pose proof (takew_all (Z.eqb 32) (32 :: s)) as Hsp. pose proof (takew_dropw (Z.eqb 32) (32 :: s)) as Es.
    remember (dropw (Z.eqb 32) (32 :: s)) as s1. rewrite <- Es at 1. apply post_read. destruct s1 as [|d s1]; sf_go; [sf_fail|].
    apply post_ret. rewrite app_nil_r. done.
  - destruct (Z.eqb_spec c 41) as [-> |H41]; [|sf_fail]. apply post_ret. done.
Qed.

Lemma inner_after_reads pre sp u st : all (Z.eqb 32) sp -> u <> [] -> stops (Z.eqb 32) u -> (sp = [] -> starts (Z.eqb 41) u) ->
  inner_list_after (sfp_at pre (sp ++ u) st) = Some (sfp_at (pre ++ sp) u st, inr tt).
Proof.
  intros Hsp Hu Hst H41. destruct sp as [|c sp].
  - destruct u as [|c u]; [done|]. specialize (H41 eq_refl). cbn [starts] in H41. apply Z.eqb_eq in H41 as <-.
    unfold inner_list_after. cbn [app]. sf_go. cbn [Z.eqb Pos.eqb]. by rewrite app_nil_r.
  - pose proof Hsp as Hc. apply Forall_cons in Hc as [Hc _]. apply Z.eqb_eq in Hc as <-. unfold inner_list_after. cbn [app]. sf_go.
    rewrite Z.eqb_refl. sf_go. change (32 :: sp ++ u) with ((32 :: sp) ++ u). destruct (takew_app _ _ u Hsp Hst) as [-> ->].
    destruct u; [done|]. cbn [is_nil]. done.
Qed.

Lemma inner_gap_post fuel pre s st : op_of st <> SF_STATE_PARAMS -> op_of st ∈ [0; 1; 2; 3] -> (length s + 2 <= fuel)%nat ->
  sf_post pre s (fun _ g t st' => t <> [] /\ (exists op, one_of [0; 1; 2; 3] op = true /\ st' = set_op st op) /\
      inner_gap (op_of st) true g /\ (starts (Z.eqb 41) t \/ inner_gap (op_of st) false g)) parse_error
    (inner_list_gap (parser_skip_params fuel) (sfp_at pre s st)).
Proof.
  intros Hop Hin Hf. unfold inner_list_gap. sf_go. fold (op_of st). assert (set_op st (op_of st) = st) as Hid by (by apply set_op_id).
  destruct (Z.eqb_spec (op_of st) SF_STATE_BEFORE) as [E|E].
  { sf_go. pose proof (takew_all (Z.eqb 32) s) as Hsp. pose proof (takew_dropw (Z.eqb 32) s) as Es.
    remember (dropw (Z.eqb 32) s) as s1. rewrite <- Es at 1. apply post_read. destruct s1 as [|d s1]; sf_go; [sf_fail|].
    apply post_ret. rewrite app_nil_r. split; [done|]. split; [exists (op_of st); by rewrite Hid, E|].
    split; [|right]; by apply gap_before. }
  destruct (Z.eqb_spec (op_of st) SF_STATE_BEFORE_PARAMS) as [E1|E1].
  { eapply post_bind; [apply skip_params_post; auto| |done]. intros [] pw t st' -> ((ps & Hps) & H59 & ->).
    eapply post_weaken; [apply inner_after_post| |done]. intros [] sp t' st' _ (Hsp & Ht & H41 & ->). split; [done|].
    split; [by exists 3|]. split; [by eapply gap_params|]. destruct sp as [|c sp]; [left; auto|right; by eapply gap_params]. }
  assert (op_of st = SF_STATE_AFTER) as E3.
  { unfold SF_STATE_BEFORE, SF_STATE_BEFORE_PARAMS, SF_STATE_PARAMS, SF_STATE_AFTER in *. rewrite !elem_of_cons, elem_of_nil in Hin. intuition. }
  rewrite E3. cbn [Z.eqb Pos.eqb SF_STATE_AFTER]. eapply post_weaken; [apply inner_after_post| |done].
  intros [] sp t' st' _ (Hsp & Ht & H41 & ->). split; [done|]. split; [exists (op_of st); by rewrite Hid, E3|].
  split; [by apply gap_after|]. destruct sp as [|c sp]; [left; auto|right; by apply gap_after].
Qed.

Lemma op_of_cases st : op_of st ∈ [0; 1; 2; 3].
Proof.
  unfold op_of, SF_STATE_OP_MASK. change 3 with (2 ^ 2 - 1) at 1. rewrite land_ones_mod by lia. change (2 ^ 2) with 4.
  pose proof (Z.mod_pos_bound st 4). rewrite !elem_of_cons, elem_of_nil. lia.
Qed.

Definition inner_item_result (op st : Z) (v : sf_value) (w t : bytes) (st' : Z) : Prop :=
  exists g item, w = g ++ item /\ inner_gap op false g /\ bare_text v item /\ st' = set_op st SF_STATE_BEFORE_PARAMS.

Definition inner_end (op st : Z) (rv : Z) (w t : bytes) (st' : Z) : Prop :=
  rv = SF_ERR_PARSE_ERROR \/ rv = SF_ERR_EOF /\ exists g, w = g ++ [41] /\ inner_gap op true g /\ st' = close_state st.

Lemma inner_list_post fuel pre s st : op_of st <> SF_STATE_PARAMS -> (length s + 2 <= fuel)%nat ->
  sf_post pre s (inner_item_result (op_of st) st) (inner_end (op_of st) st) (sf_parser_inner_list (S fuel) (sfp_at pre s st)).
Proof.
  intros Hop Hf. cbn [sf_parser_inner_list]. eapply post_bind; [apply inner_gap_post; [done|apply op_of_cases|done]| |by left].
  intros [] g t st1 _ (Ht & (op & Ho & ->) & Hg & Hg'). destruct t as [|c t]; [done|]. unfold inner_list_body. sf_go.
  destruct (Z.eqb_spec c 41) as [-> |Hc].
  - sf_go. sf_read 41. unfold parser_unset_inner_list_state. sf_go. apply post_err. right. split; [done|]. exists g. split; [done|].
    split; [done|]. by apply close_state_set.
  - eapply post_bind; [by apply bare_item_post| |by left]. intros v w t' st' _ [Hv ->]. sf_go. apply post_ret. rewrite app_nil_r.
    exists g, w. split; [done|]. split; [|split; [done|by apply set_op_set]]. destruct Hg' as [H|H]; [|done].
    cbn [starts] in H. apply Z.eqb_eq in H. congruence.
Qed.

(** Behind the opening parenthesis, or behind an item. *)
Definition inner_text_from (op : Z) (w : bytes) : Prop :=
  (op = SF_STATE_BEFORE /\ exists l, inner_text l w) \/
  (op = SF_STATE_BEFORE_PARAMS /\ exists ps pw l r, w = pw ++ r /\ params_text ps pw /\ inner_rest l r).

Lemma inner_text_close op g : op = SF_STATE_BEFORE \/ op = SF_STATE_BEFORE_PARAMS -> inner_gap op true g -> inner_text_from op (g ++ [41]).
Proof.
  intros Hop [sp -> Hsp|ps pw sp -> Hps Hsp _|sp -> Hsp _].
  - left. split; [done|]. exists []. by constructor.
  - right. split; [done|]. exists ps, pw, [], (sp ++ [41]). rewrite <- app_assoc. split; [done|]. split; [done|]. by constructor.
  - by destruct Hop.
Qed.

Lemma inner_text_item op g v item w : op = SF_STATE_BEFORE \/ op = SF_STATE_BEFORE_PARAMS -> inner_gap op false g -> bare_text v item ->
  inner_text_from SF_STATE_BEFORE_PARAMS w -> inner_text_from op (g ++ item ++ w).
Proof.
  intros Hop Hg Hv [[? _]|(_ & ps' & pw' & l & r & -> & Hps' & Hr)]; [done|]. destruct Hg as [sp -> Hsp|ps pw sp -> Hps Hsp Hne|sp -> Hsp _].
  - left. split; [done|]. exists ((v, ps') :: l). by constructor.
  - right. split; [done|]. exists ps, pw, ((v, ps') :: l), (sp ++ item ++ pw' ++ r). rewrite <- app_assoc. split; [done|]. split; [done|].
    constructor; auto.
  - by destruct Hop.
Qed.

Lemma skip_inner_post fuel pre s st : op_of st = SF_STATE_BEFORE \/ op_of st = SF_STATE_BEFORE_PARAMS -> (length s + 4 <= fuel)%nat ->
  sf_post pre s (fun _ w t st' => inner_text_from (op_of st) w /\ st' = close_state st) parse_error
    (parser_skip_inner_list fuel (sfp_at pre s st)).
Proof.
  revert pre s st. induction fuel as [|fuel IH]; intros pre s st Hop Hf; [lia|]. destruct fuel as [|fuel]; [lia|].
  cbn [parser_skip_inner_list]. unfold sf_catch.
  pose proof (inner_list_post fuel pre s st ltac:(destruct Hop as [-> | ->]; done) ltac:(lia)) as H.
  destruct (sf_parser_inner_list _ _) as [[p' r]|]; [|done]. destruct H as (w & t & st' & -> & -> & Hr). apply post_read.
  destruct r as [rv|v]; cbn [skip_again].
  - destruct Hr as [-> |(-> & g & -> & Hg & ->)]; cbn [Z.eqb Pos.eqb SF_ERR_EOF SF_ERR_PARSE_ERROR]; [sf_fail|]. apply post_ret.
    split; [|done]. rewrite app_nil_r. by apply inner_text_close.
  - destruct Hr as (g & item & -> & Hg & Hv & ->). eapply post_weaken; [apply IH| |done].
    + right. by apply op_of_set.
    + rewrite !length_app in Hf. pose proof (bare_starts _ _ Hv). destruct item; [done|]. simpl in Hf. lia.
    + intros [] w' t' st' _ [Hw ->]. rewrite op_of_set in Hw by done. rewrite <- app_assoc. split; [by eapply inner_text_item|].
      by apply close_state_set.
Qed.

(** ** Inner lists are read *)

Lemma gap_reads fuel op close pre g u st : op_of st = op -> inner_gap op close g -> u <> [] ->
  (if close then starts (Z.eqb 41) u else starts (fun c => negb (one_of [32; 9; 40; 41; 44; 59; 61] c)) u) ->
  (length (g ++ u) + 2 <= fuel)%nat ->
  exists o, one_of [0; 1; 2; 3] o = true /\
    inner_list_gap (parser_skip_params fuel) (sfp_at pre (g ++ u) st) = Some (sfp_at (pre ++ g) u (set_op st o), inr tt).
Proof.
  intros Hop Hg Hu Hs Hf. unfold inner_list_gap. sf_go. fold (op_of st). rewrite Hop.
  assert (set_op st op = st) as Hid by (by apply set_op_id).
  assert (stops (Z.eqb 32) u /\ (close = true -> starts (Z.eqb 41) u)) as [Hstop H41].
  { destruct u as [|c u]; [done|]. destruct close; cbn [starts stops] in *.
    - split; [|done]. apply Z.eqb_eq in Hs as <-. done.
    - split; [|done]. apply Z.eqb_neq. intros <-. done. }
  destruct Hg as [sp Ho Hsp|ps pw sp Ho Hps Hsp Hne|sp Ho Hsp Hne]; rewrite Ho in *.
  - exists SF_STATE_BEFORE. split; [done|]. rewrite Hid. cbn [Z.eqb SF_STATE_BEFORE]. sf_go. destruct (takew_app _ _ _ Hsp Hstop) as [-> ->].
    destruct u; [done|]. done.
  - exists SF_STATE_AFTER. split; [done|]. cbn [Z.eqb Pos.eqb SF_STATE_BEFORE SF_STATE_BEFORE_PARAMS]. rewrite <- app_assoc in *.
    assert (follows (sp ++ u) /\ not_at 59 (sp ++ u) = true) as [Hfo H59].
    { destruct sp as [|c sp].
      - destruct close; [|by destruct Hne]. destruct u as [|c u]; [done|].
        specialize (H41 eq_refl). apply Z.eqb_eq in H41 as <-. done.
      - apply Forall_cons in Hsp as [Hc _]. apply Z.eqb_eq in Hc as <-. done. }
    unfold mbind at 1, sf_bind. rewrite (skip_params_reads _ _ ps) by (rewrite ?Hop; auto).
    rewrite inner_after_reads; [by rewrite <- app_assoc|done|done|done|]. intros ->. destruct close; [auto|by destruct Hne].
  - exists SF_STATE_AFTER. split; [done|]. rewrite Hid. cbn [Z.eqb Pos.eqb SF_STATE_BEFORE SF_STATE_BEFORE_PARAMS SF_STATE_AFTER].
    rewrite inner_after_reads; [done|done|done|done|]. intros ->. destruct close; [auto|by destruct Hne].
Qed.

Lemma inner_item_reads fuel op pre g v item t st : op_of st = op -> inner_gap op false g -> bare_text v item -> follows t ->
  (length (g ++ item ++ t) + 2 <= fuel)%nat ->
  sf_parser_inner_list (S fuel) (sfp_at pre (g ++ item ++ t) st) =
    Some (sfp_at (pre ++ g ++ item) t (set_op st SF_STATE_BEFORE_PARAMS), inr v).
Proof.
  intros Hop Hg Hv Ht Hf. cbn [sf_parser_inner_list]. pose proof (bare_starts _ _ Hv) as Hs.
  assert (item ++ t <> []) as Hne by (by destruct item).
  destruct (gap_reads fuel op false pre g (item ++ t) st Hop Hg Hne ltac:(by apply starts_app) Hf) as (o & Ho & E).
  unfold mbind at 1, sf_bind. rewrite E. clear E. unfold inner_list_body. destruct item as [|c item]; [done|]. cbn [app]. sf_go.
  rewrite (proj2 (Z.eqb_neq c 41)) by (intros ->; done). change (c :: item ++ t) with ((c :: item) ++ t).
  unfold mbind at 1, sf_bind. rewrite (bare_item_reads _ _ _ _ _ Hv Ht). sf_go. rewrite <- app_assoc.
  fold (set_op (set_op st o) SF_STATE_BEFORE_PARAMS). by rewrite set_op_set.
Qed.

Lemma inner_close_reads fuel op (pre g t : bytes) st : op_of st = op -> inner_gap op true g -> (length (g ++ [41%Z] ++ t) + 2 <= fuel)%nat ->
  sf_parser_inner_list (S fuel) (sfp_at pre (g ++ 41 :: t) st) = Some (sfp_at (pre ++ g ++ [41]) t (close_state st), inl SF_ERR_EOF).
Proof.
  intros Hop Hg Hf. cbn [sf_parser_inner_list].
  destruct (gap_reads fuel op true pre g (41 :: t) st Hop Hg ltac:(done) ltac:(done) Hf) as (o & Ho & E).
  unfold mbind at 1, sf_bind. rewrite E. clear E. unfold inner_list_body. sf_go. cbn [Z.eqb Pos.eqb]. sf_go.
  unfold parser_unset_inner_list_state. sf_go. unfold sf_err. do 2 f_equal. rewrite <- app_assoc. f_equal. by apply close_state_set.
Qed.

Lemma inner_rest_follows l r t : inner_rest l r -> follows (r ++ t).
Proof.
  assert (forall sp u, all (Z.eqb 32) sp -> sp <> [] \/ follows u -> follows (sp ++ u)) as H.
  { intros [|c sp] u Hsp Hu; [by destruct Hu|]. apply Forall_cons in Hsp as [Hc _]. by apply Z.eqb_eq in Hc as <-. }
  intros [sp Hsp|sp v w ps pw l' r' Hsp Hne _ _ _]; rewrite <- app_assoc; apply H; auto.
  by right.
Qed.

Lemma skip_again_eof {A} (again : sf_m unit) : @skip_again A again (inl SF_ERR_EOF) = mret tt.
Proof. done. Qed.

(** Behind an item: its parameters and the rest of the list. *)
Lemma skip_inner_rest_reads fuel pre ps pw l r t st : op_of st = SF_STATE_BEFORE_PARAMS -> params_text ps pw -> inner_rest l r ->
  (length (pw ++ r ++ t) + 4 <= fuel)%nat ->
  parser_skip_inner_list fuel (sfp_at pre (pw ++ r ++ t) st) = Some (sfp_at (pre ++ pw ++ r) t (close_state st), inr tt).
Proof.
  intros Hop Hps Hr. revert fuel pre ps pw st Hop Hps.
  induction Hr as [sp Hsp|sp v w ps' pw' l r Hsp Hne Hv Hps' Hr IH]; intros fuel pre ps pw st Hop Hps Hf;
    (destruct fuel as [|[|fuel]]; [lia..|]); cbn [parser_skip_inner_list]; unfold sf_catch.
  - rewrite <- app_assoc, (app_assoc pw sp) in *. cbn [app].
    rewrite (inner_close_reads fuel _ _ (pw ++ sp) t st Hop) by (by eapply gap_params) || lia.
    rewrite skip_again_eof. by rewrite <- !app_assoc.
  - rewrite <- !app_assoc, (app_assoc pw sp) in *.
    rewrite (inner_item_reads fuel _ _ (pw ++ sp) v w _ st Hop); [|by eapply gap_params|done| |lia].
    2:{ eapply params_follows; [done|]. by eapply inner_rest_follows. }
    cbn [skip_again]. match goal with |- ?x = _ => change x with (parser_skip_inner_list (S fuel)
      (sfp_at (pre ++ (pw ++ sp) ++ w) (pw' ++ r ++ t) (set_op st SF_STATE_BEFORE_PARAMS))) end.
    rewrite (IH (S fuel) _ ps' pw'); [|by apply op_of_set|done|].
    + rewrite close_state_set by done. by rewrite <- !app_assoc.
    + rewrite !length_app in Hf. rewrite !length_app. destruct sp; [done|]. simpl in Hf. lia.
Qed.

Lemma skip_inner_reads fuel pre l w t st : op_of st = SF_STATE_BEFORE -> inner_text l w -> (length (w ++ t) + 4 <= fuel)%nat ->
  parser_skip_inner_list fuel (sfp_at pre (w ++ t) st) = Some (sfp_at (pre ++ w) t (close_state st), inr tt).
Proof.
  intros Hop Hw Hf. destruct fuel as [|[|fuel]]; [lia..|]. cbn [parser_skip_inner_list]; unfold sf_catch.
  destruct Hw as [sp Hsp|sp v w ps pw l r Hsp Hv Hps Hr].
  - rewrite <- app_assoc in *. cbn [app]. rewrite (inner_close_reads fuel _ _ sp t st Hop) by (by apply gap_before) || lia.
    by rewrite skip_again_eof.
  - rewrite <- !app_assoc in *. rewrite (inner_item_reads fuel _ _ sp v w _ st Hop); [|by apply gap_before|done| |lia].
    2:{ eapply params_follows; [done|]. by eapply inner_rest_follows. }
    cbn [skip_again]. match goal with |- ?x = _ => change x with (parser_skip_inner_list (S fuel)
      (sfp_at (pre ++ sp ++ w) (pw ++ r ++ t) (set_op st SF_STATE_BEFORE_PARAMS))) end.
    rewrite (skip_inner_rest_reads (S fuel) _ ps pw l r); [|by apply op_of_set|done|done|].
    + rewrite close_state_set by done. by rewrite <- !app_assoc.
    + rewrite !length_app in Hf. rewrite !length_app. pose proof (bare_starts _ _ Hv). destruct w; [done|]. simpl in Hf. lia.
Qed.

(** ** Members *)

Definition is_name (name : Z) : bool := one_of [SF_STATE_DICT; SF_STATE_LIST; SF_STATE_ITEM] name.

Lemma name_states name : is_name name = true ->
  op_of (SF_SET_STATE_INNER_LIST_BEFORE name) = SF_STATE_BEFORE /\ op_of (SF_SET_STATE_BEFORE_PARAMS name) = SF_STATE_BEFORE_PARAMS /\
  close_state (SF_SET_STATE_INNER_LIST_BEFORE name) = SF_SET_STATE_BEFORE_PARAMS name /\
  set_op (SF_SET_STATE_BEFORE_PARAMS name) SF_STATE_AFTER = SF_SET_STATE_AFTER name /\
  (SF_SET_STATE_BEFORE_PARAMS name =? SF_SET_STATE_INNER_LIST_BEFORE name) = false /\
  (SF_SET_STATE_AFTER name =? SF_SET_STATE_INNER_LIST_BEFORE name) = false /\
  (SF_SET_STATE_AFTER name =? SF_SET_STATE_BEFORE_PARAMS name) = false /\
  (SF_STATE_INITIAL =? SF_SET_STATE_INNER_LIST_BEFORE name) = false /\
  (SF_STATE_INITIAL =? SF_SET_STATE_BEFORE_PARAMS name) = false /\
  (SF_STATE_INITIAL =? SF_SET_STATE_AFTER name) = false.
Proof. unfold is_name. rewrite one_of_spec, !elem_of_cons, elem_of_nil. intros H. destruct_or!; subst; done. Qed.

(** The unread rest of a member of kind [name] in a state behind its value. *)
Inductive member_tail (name : Z) : Z -> bytes -> Prop :=
  | tail_inner l w ps pw : inner_text l w -> params_text ps pw -> member_tail name (SF_SET_STATE_INNER_LIST_BEFORE name) (w ++ pw)
  | tail_params ps pw : params_text ps pw -> member_tail name (SF_SET_STATE_BEFORE_PARAMS name) pw
  | tail_after : member_tail name (SF_SET_STATE_AFTER name) [].

(** The states behind a member. *)
Definition behind_member (name st : Z) : Prop :=
  st = SF_SET_STATE_INNER_LIST_BEFORE name \/ st = SF_SET_STATE_BEFORE_PARAMS name \/ st = SF_SET_STATE_AFTER name.

Definition next_end (name st : Z) (rv : Z) (w t : bytes) (st' : Z) : Prop :=
  rv = SF_ERR_PARSE_ERROR \/ rv = SF_ERR_EOF /\ t = [] /\ exists tail o, w = tail ++ o /\ member_tail name st tail /\ all is_ws o.

Lemma next_key_post pre s st :
  sf_post pre s (fun _ w t st' => st' = st /\ t <> [] /\ exists o1 o2, w = o1 ++ [44] ++ o2 /\ all is_ws o1 /\ all is_ws o2)
    (fun rv w t st' => rv = SF_ERR_PARSE_ERROR \/ rv = SF_ERR_EOF /\ t = [] /\ all is_ws w) (parser_next_key_or_item (sfp_at pre s st)).
Proof.
  unfold parser_next_key_or_item. sf_go. pose proof (takew_all is_ws s) as H1. pose proof (takew_dropw is_ws s) as E1.
  remember (takew is_ws s) as o1. remember (dropw is_ws s) as s1. rewrite <- E1. clear E1 Heqo1 Heqs1 s. apply post_read.
  destruct s1 as [|c s]; sf_go.
  { apply post_err. right. by rewrite app_nil_r. }
  destruct (Z.eqb_spec c 44) as [-> |Hc]; cbn [negb]; [|apply post_err; by left]. sf_go. sf_read 44.
  pose proof (takew_all is_ws s) as H2. pose proof (takew_dropw is_ws s) as E2.
  remember (takew is_ws s) as o2. remember (dropw is_ws s) as s2. rewrite <- E2. clear E2 Heqo2 Heqs2 s. apply post_read.
  destruct s2 as [|d s]; sf_go; [apply post_err; by left|]. apply post_ret. split; [done|]. split; [done|].
  exists o1, o2. by rewrite app_nil_r.
Qed.

Lemma next_member_post fuel name pre s st : is_name name = true -> behind_member name st -> (length s + 4 <= fuel)%nat ->
  sf_post pre s (fun _ w t st' => st' = SF_SET_STATE_AFTER name /\ t <> [] /\
      exists tail o1 o2, w = tail ++ o1 ++ [44] ++ o2 /\ member_tail name st tail /\ all is_ws o1 /\ all is_ws o2)
    (next_end name st) (next_member fuel name (sfp_at pre s st)).
Proof.
  intros Hn Hst Hf. destruct (name_states name Hn) as (O1 & O2 & C1 & C2 & N1 & N2 & N3 & _). unfold next_member. sf_go.
  assert (forall pre s (tail : bytes), member_tail name st tail ->
    sf_post pre s (fun _ w t st' => st' = SF_SET_STATE_AFTER name /\ t <> [] /\
      exists tl o1 o2, tail ++ w = tl ++ o1 ++ [44] ++ o2 /\ member_tail name st tl /\ all is_ws o1 /\ all is_ws o2)
    (fun rv w => next_end name st rv (tail ++ w)) (parser_next_key_or_item (sfp_at pre s (SF_SET_STATE_AFTER name)))) as Hnext.
  { intros pre' s' tail Ht. eapply post_weaken; [apply next_key_post|..].
    - intros [] w t st' _ (-> & Hne & o1 & o2 & -> & ?). split; [done|]. split; [done|]. exists tail, o1, o2. naive_solver.
    - intros rv w t st' _ [-> |(-> & -> & Hw)]; [by left|]. right. split; [done|]. split; [done|]. by exists tail, w. }
  destruct Hst as [-> |[-> | ->]].
  - rewrite Z.eqb_refl. eapply post_bind; [apply skip_inner_post; [rewrite O1; auto|done]| |by left].
    intros [] w t st' -> [[(_ & l & Hl)|[H _]] ->]; [|by rewrite O1 in H]. rewrite C1. rewrite length_app in Hf.
    eapply post_bind; [apply skip_params_post; [auto|lia]| |by left]. intros [] pw t' st' _ ((ps & Hps) & _ & ->). rewrite C2.
    eapply post_weaken; [apply (Hnext _ _ (w ++ pw)); by econstructor|..].
    + intros [] w' t2 st' _. cbn beta. by rewrite <- ?app_assoc.
    + intros rv w' t2 st' _. cbn beta. by rewrite <- ?app_assoc.
  - rewrite N1, Z.eqb_refl. eapply post_bind; [apply skip_params_post; [auto|lia]| |by left].
    intros [] pw t' st' _ ((ps & Hps) & _ & ->). rewrite C2. apply Hnext. by econstructor.
  - rewrite N2, N3, Z.eqb_refl. apply (Hnext _ _ []). constructor.
Qed.

Lemma ws_stops f o u : (forall c, is_ws c = true -> f c = false) -> all is_ws o -> stops f u -> stops f (o ++ u).
Proof. intros Hf Ho Hu. destruct Ho; cbn [app]; [done|]. cbn [stops]. auto. Qed.

Lemma ws_follows o u : all is_ws o -> follows u -> follows (o ++ u) .
Proof.
  intros Ho Hu. destruct Ho as [|c o Hc _]; [done|]. cbn [app follows]. unfold is_ws in Hc. cbn [one_of existsb] in *.
  apply orb_true_iff in Hc as [-> |Hc]; [done|]. rewrite orb_false_r in Hc. by rewrite Hc, orb_true_r.
Qed.

Lemma ws_not_at c o u : is_ws c = false -> all is_ws o -> not_at c u = true -> not_at c (o ++ u) = true.
Proof.
  intros Hc Ho Hu. destruct Ho as [|d o Hd _]; [done|]. cbn [app not_at]. apply negb_true_iff, Z.eqb_neq. intros ->. congruence.
Qed.

(** What follows a member: white space and a comma or the end. *)
Lemma next_key_reads pre o1 o2 u st : all is_ws o1 -> all is_ws o2 -> u <> [] -> stops is_ws u ->
  parser_next_key_or_item (sfp_at pre (o1 ++ [44] ++ o2 ++ u) st) = Some (sfp_at (pre ++ o1 ++ [44] ++ o2) u st, inr tt).
Proof.
  intros H1 H2 Hne Hu. unfold parser_next_key_or_item. sf_go. destruct (takew_app is_ws o1 ([44] ++ o2 ++ u)) as [-> ->]; [done..|].
  cbn [app is_nil]. sf_go. cbn [Z.eqb Pos.eqb negb]. sf_go. destruct (takew_app is_ws o2 u) as [-> ->]; [done..|].
  destruct u; [done|]. sf_go. by rewrite <- !app_assoc.
Qed.

Lemma next_key_end pre o st : all is_ws o ->
  parser_next_key_or_item (sfp_at pre o st) = Some (sfp_at (pre ++ o) [] st, inl SF_ERR_EOF).
Proof.
  intros H. unfold parser_next_key_or_item. sf_go. destruct (takew_app is_ws o []) as [E1 E2]; [done..|]. rewrite app_nil_r in E1, E2.
  rewrite E1, E2. sf_go. done.
Qed.

Lemma next_member_reads fuel name pre tail u st : is_name name = true -> member_tail name st tail -> follows u -> not_at 59 u = true ->
  (length (tail ++ u) + 4 <= fuel)%nat ->
  next_member fuel name (sfp_at pre (tail ++ u) st) = parser_next_key_or_item (sfp_at (pre ++ tail) u (SF_SET_STATE_AFTER name)).
Proof.
  intros Hn Hst Hu H59 Hf. destruct (name_states name Hn) as (O1 & O2 & C1 & C2 & N1 & N2 & N3 & _). unfold next_member. sf_go.
  destruct Hst as [l w ps pw Hw Hps|ps pw Hps|].
  - rewrite Z.eqb_refl, <- app_assoc in *. unfold mbind at 1, sf_bind. rewrite (skip_inner_reads _ _ l) by done. rewrite C1.
    unfold mbind at 1, sf_bind. rewrite length_app in Hf. rewrite (skip_params_reads _ _ ps) by (auto || lia).
    by rewrite C2, <- app_assoc.
  - rewrite N1, Z.eqb_refl. unfold mbind at 1, sf_bind. rewrite (skip_params_reads _ _ ps) by (auto || lia). by rewrite C2.
  - rewrite N2, N3, Z.eqb_refl, app_nil_r. done.
Qed.

(** The value of a member up to the point where the caller may read more of it. *)
Inductive value_head (name : Z) : sf_value -> bytes -> Z -> Prop :=
  | head_item v w : bare_text v w -> value_head name v w (SF_SET_STATE_BEFORE_PARAMS name)
  | head_inner : value_head name SF_INNER_LIST [40] (SF_SET_STATE_INNER_LIST_BEFORE name).

Lemma member_value_post name pre s st : s <> [] ->
  sf_post pre s (fun v w t st' => value_head name v w st') parse_error (member_value name (sfp_at pre s st)).
Proof.
  intros Hs. destruct s as [|c s]; [done|]. unfold member_value. sf_go. destruct (Z.eqb_spec c 40) as [-> |Hc].
  - sf_go. sf_read 40. apply post_ret. constructor.
  - eapply post_bind; [by apply bare_item_post| |done]. intros v w t st' _ [Hv ->]. sf_go. apply post_ret. rewrite app_nil_r. by constructor.
Qed.

Lemma member_value_reads name pre v w t st st' : value_head name v w st' -> (w = [40] \/ follows t) ->
  member_value name (sfp_at pre (w ++ t) st) = Some (sfp_at (pre ++ w) t st', inr v).
Proof.
  intros [v' w' Hv|] Ht; unfold member_value.
  - pose proof (bare_starts _ _ Hv) as Hs. destruct w' as [|c w']; [done|]. cbn [app]. sf_go. cbn [starts] in Hs.
    rewrite (proj2 (Z.eqb_neq c 40)) by (intros ->; done). change (c :: w' ++ t) with ((c :: w') ++ t).
    destruct Ht as [[= -> ->]|Ht]; [done|]. unfold mbind at 1, sf_bind. rewrite (bare_item_reads _ _ _ _ _ Hv Ht). sf_go. done.
  - cbn [app]. sf_go. cbn [Z.eqb Pos.eqb]. sf_go. done.
Qed.

(** The key and the head of the value of a dictionary member. *)
Inductive dict_head : bytes * sf_value -> bytes -> Z -> Prop :=
  | dict_head_true k : key_text k -> dict_head (k, SF_BOOLEAN 1) k (SF_SET_STATE_BEFORE_PARAMS SF_STATE_DICT)
  | dict_head_value k v w st : key_text k -> value_head SF_STATE_DICT v w st -> dict_head (k, v) (k ++ [61] ++ w) st.

Lemma dict_value_post k pre s st : key_text k ->
  sf_post pre s (fun v w t st' => dict_head (k, v) (k ++ w) st') parse_error (parser_dict_value (sfp_at pre s st)).
Proof.
  intros Hk. unfold parser_dict_value. sf_go. destruct s as [|c s]; cbn [not_at].
  { sf_go. apply post_ret. rewrite app_nil_r. by constructor. }
  destruct (Z.eqb_spec c 61) as [-> |Hc]; cbn [negb]; sf_go.
  2:{ apply post_ret. rewrite app_nil_r. by constructor. }
  sf_read 61. destruct s as [|d s]; sf_go; [sf_fail|]. eapply post_weaken; [by apply member_value_post| |done].
  intros v w t st' _ Hv. by constructor.
Qed.

Lemma dict_head_text kv w st tail : dict_head kv w st -> member_tail SF_STATE_DICT st tail ->
  exists vw, w ++ tail = kv.1 ++ vw /\ key_text kv.1 /\ dict_value_text kv.2 vw.
Proof.
  intros [k Hk|k v w' st' Hk Hv] Ht; cbn [fst snd].
  - exists tail. split; [done|]. split; [done|]. inv Ht. by econstructor.
  - exists ([61] ++ w' ++ tail). rewrite <- !app_assoc. split; [done|]. split; [done|]. destruct Hv as [v w' Hv|]; inv Ht; by econstructor.
Qed.

Lemma dict_text_head k v vw : key_text k -> dict_value_text v vw ->
  exists w st tail, dict_head (k, v) w st /\ member_tail SF_STATE_DICT st tail /\ k ++ vw = w ++ tail.
Proof.
  intros Hk [ps pw Hps|v' w ps pw Hv Hps|l w ps pw Hl Hps].
  - exists k, (SF_SET_STATE_BEFORE_PARAMS SF_STATE_DICT), pw. split; [by constructor|]. split; [by econstructor|done].
  - exists (k ++ [61] ++ w), (SF_SET_STATE_BEFORE_PARAMS SF_STATE_DICT), pw. split; [by constructor; [|constructor]|].
    split; [by econstructor|]. by rewrite <- !app_assoc.
  - exists (k ++ [61] ++ [40]), (SF_SET_STATE_INNER_LIST_BEFORE SF_STATE_DICT), (w ++ pw). split; [constructor; [done|constructor]|].
    split; [by econstructor|]. by rewrite <- !app_assoc.
Qed.

Lemma member_tail_follows name st tail u : member_tail name st tail -> follows u ->
  st = SF_SET_STATE_INNER_LIST_BEFORE name \/ follows (tail ++ u).
Proof. intros [| |] Hu; [by left|right; by eapply params_follows|by right]. Qed.

Lemma dict_head_reads pre kv w st st0 tail u : dict_head kv w st -> member_tail SF_STATE_DICT st tail -> follows u ->
  (key ← parser_key; v ← parser_dict_value; mret (key, v)) (sfp_at pre (w ++ tail ++ u) st0) = Some (sfp_at (pre ++ w) (tail ++ u) st, inr kv).
Proof.
  intros Hkv Htail Hu. unfold mbind at 1, sf_bind. destruct Hkv as [k Hk|k v w' st Hk Hv].
  - assert (follows (tail ++ u)) as Hf by (by destruct (member_tail_follows _ _ _ _ Htail Hu)).
    rewrite key_reads by (done || by apply follows_stops). unfold parser_dict_value. sf_go. rewrite follows_not_at by done. sf_go. done.
  - rewrite <- !app_assoc, key_reads by done. unfold parser_dict_value. cbn [app]. sf_go. cbn [not_at Z.eqb Pos.eqb negb]. sf_go.
    assert (exists c u', w' ++ tail ++ u = c :: u') as (c & u' & E).
    { destruct Hv as [v w Hv|]; [|by eexists _, _]. destruct w; [by destruct (bare_starts _ _ Hv)|by eexists _, _]. }
    rewrite E. cbn [is_nil]. rewrite <- E. unfold mbind, sf_bind. rewrite (member_value_reads SF_STATE_DICT _ v w' _ _ st Hv).
    { by rewrite <- !app_assoc. }
    destruct Hv; [|by left]. right. by destruct (member_tail_follows _ _ _ _ Htail Hu).
Qed.

(** ** Dictionaries *)

Lemma dict_head_state kv w st : dict_head kv w st -> behind_member SF_STATE_DICT st /\ w <> [].
Proof. intros [k Hk|k v w' st' Hk [| ]]; split; try (by destruct Hk); unfold behind_member; auto. Qed.

Lemma dict_body_post pre s st : s <> [] ->
  sf_post pre s (fun kv w t st' => dict_head kv w st') parse_error
    ((key ← parser_key; v ← parser_dict_value; mret (key, v)) (sfp_at pre s st)).
Proof.
  intros Hs. eapply post_bind; [by apply key_post| |done]. intros k w t st' _ (-> & Hk & ->).
  eapply post_bind; [by apply (dict_value_post w)| |done]. intros v w' t' st' _ H. apply post_ret. by rewrite app_nil_r.
Qed.

Lemma dict_post fuel pre s st : behind_member SF_STATE_DICT st -> (length s + 4 <= fuel)%nat ->
  sf_post pre s (fun kv w t st' => exists tail o1 o2 h, w = tail ++ o1 ++ [44] ++ o2 ++ h /\ member_tail SF_STATE_DICT st tail /\
      all is_ws o1 /\ all is_ws o2 /\ dict_head kv h st')
    (next_end SF_STATE_DICT st) (sf_parser_dict fuel (sfp_at pre s st)).
Proof.
  intros Hst Hf. unfold sf_parser_dict. eapply post_bind; [by apply next_member_post| |done].
  intros [] w t st1 _ (-> & Ht & tail & o1 & o2 & -> & Htail & H1 & H2).
  eapply post_weaken; [by apply dict_body_post| |by left]. intros kv h t' st' _ Hh. exists tail, o1, o2, h. by rewrite <- !app_assoc.
Qed.

Lemma dict_post_initial fuel pre s :
  sf_post pre s (fun kv w t st' => exists sp h, w = sp ++ h /\ all (Z.eqb 32) sp /\ dict_head kv h st')
    (fun rv w t st' => rv = SF_ERR_PARSE_ERROR \/ rv = SF_ERR_EOF /\ t = [] /\ all (Z.eqb 32) w)
    (sf_parser_dict fuel (sfp_at pre s SF_STATE_INITIAL)).
Proof.
  destruct (name_states SF_STATE_DICT eq_refl) as (_ & _ & _ & _ & _ & _ & _ & N1 & N2 & N3).
  unfold sf_parser_dict, next_member. sf_go. rewrite N1, N2, N3, Z.eqb_refl. sf_go.
  pose proof (takew_all (Z.eqb 32) s) as Hsp. pose proof (takew_dropw (Z.eqb 32) s) as Es.
  remember (takew (Z.eqb 32) s) as sp. remember (dropw (Z.eqb 32) s) as s1. rewrite <- Es. apply post_read.
  destruct s1 as [|c s1]; sf_go; [apply post_err; right; by rewrite app_nil_r|].
  eapply post_weaken; [by apply dict_body_post| |by left]. intros kv h t' st' _ Hh. by exists sp, h.
Qed.

Lemma dict_reads_more fuel pre tail o1 o2 kv h st st' tail' u : member_tail SF_STATE_DICT st tail -> all is_ws o1 -> all is_ws o2 ->
  dict_head kv h st' -> member_tail SF_STATE_DICT st' tail' -> follows u ->
  (length (tail ++ o1 ++ [44%Z] ++ o2 ++ h ++ tail' ++ u) + 4 <= fuel)%nat ->
  sf_parser_dict fuel (sfp_at pre (tail ++ o1 ++ [44] ++ o2 ++ h ++ tail' ++ u) st) =
    Some (sfp_at (pre ++ tail ++ o1 ++ [44] ++ o2 ++ h) (tail' ++ u) st', inr kv).
Proof.
  intros Ht H1 H2 Hh Ht' Hu Hf. unfold sf_parser_dict. unfold mbind at 1, sf_bind.
  rewrite next_member_reads; [|done|done|by apply ws_follows|by apply ws_not_at|done].
  rewrite next_key_reads; [|done|done|by destruct (dict_head_state _ _ _ Hh) as [_ ?]; destruct h|].
  - rewrite (dict_head_reads _ kv h st') by done. by rewrite <- !app_assoc.
  - destruct h as [|c h]; [by destruct (dict_head_state _ _ _ Hh)|]. cbn [app stops].
    assert ((c =? 42) || LCALPHA_CASES c = true) as Hc.
    { inv Hh; match goal with H : key_text _ |- _ => inv H end; by simplify_eq/=. }
    apply not_true_is_false. unfold is_ws. rewrite one_of_spec, !elem_of_cons, elem_of_nil. intros [-> |[-> |[]]]; done.
Qed.

Lemma dict_reads_end fuel pre tail o st : member_tail SF_STATE_DICT st tail -> all is_ws o -> (length (tail ++ o) + 4 <= fuel)%nat ->
  exists p', sf_parser_dict fuel (sfp_at pre (tail ++ o) st) = Some (p', inl SF_ERR_EOF).
Proof.
  intros Ht Ho Hf. eexists. unfold sf_parser_dict. unfold mbind at 1, sf_bind.
  assert (follows o /\ not_at 59 o = true) as [? ?].
  { rewrite <- (app_nil_r o). split; [by apply ws_follows|by apply ws_not_at]. }
  rewrite next_member_reads by done. by rewrite next_key_end.
Qed.

(** A caller that reads keys and values until the parser fails: the members with
    the error code. *)
Fixpoint dict_members (n fuel : nat) (p : sf_parser) : option (list (bytes * sf_value) * Z) :=
  match n with
  | O => None
  | S n =>
      match sf_parser_dict fuel p with
      | None => None
      | Some (_, inl rv) => Some ([], rv)
      | Some (p, inr kv) => '(l, rv) ← dict_members n fuel p; Some (kv :: l, rv)
      end
  end.

Lemma dict_members_sound n fuel pre s st : behind_member SF_STATE_DICT st -> (length s + 4 <= fuel)%nat -> (length s < n)%nat ->
  exists l rv, dict_members n fuel (sfp_at pre s st) = Some (l, rv) /\
    (rv = SF_ERR_PARSE_ERROR \/ rv = SF_ERR_EOF /\ exists tail r, s = tail ++ r /\ member_tail SF_STATE_DICT st tail /\ dict_rest l r).
Proof.
  revert pre s st. induction n as [|n IH]; intros pre s st Hst Hf Hn; [lia|]. cbn [dict_members].
  pose proof (dict_post fuel pre s st Hst Hf) as H. destruct (sf_parser_dict _ _) as [[p' [rv|kv]]|]; [..|done].
  - destruct H as (w & t & st' & -> & _ & Hr). exists [], rv. split; [done|]. destruct Hr as [-> |(-> & -> & tail & o & -> & Ht & Ho)]; [by left|].
    right. split; [done|]. exists tail, o. rewrite app_nil_r. split; [done|]. split; [done|]. by constructor.
  - destruct H as (w & t & st' & -> & -> & tail & o1 & o2 & h & -> & Ht & H1 & H2 & Hh).
    destruct (dict_head_state _ _ _ Hh) as [Hb Hne]. rewrite !length_app in *. cbn [length] in *.
    destruct (IH (pre ++ tail ++ o1 ++ [44] ++ o2 ++ h) t st' Hb) as (l & rv & -> & Hr); [lia..|].
    exists (kv :: l), rv. split; [done|]. destruct Hr as [-> |(-> & tail' & r & -> & Ht' & Hr)]; [by left|]. right. split; [done|].
    exists tail, (o1 ++ [44] ++ o2 ++ h ++ tail' ++ r). rewrite <- !app_assoc. split; [done|]. split; [done|].
    destruct (dict_head_text _ _ _ _ Hh Ht') as (vw & E & Hk & Hv). rewrite (app_assoc h), E, <- app_assoc. destruct kv as [k v].
    by constructor.
Qed.

Lemma dict_rest_follows l r : dict_rest l r -> follows r /\ not_at 59 r = true.
Proof.
  intros [o Ho|o1 o2 k v w l' r' H1 _ _ _ _].
  - rewrite <- (app_nil_r o). split; [by apply ws_follows|by apply ws_not_at].
  - split; [by apply ws_follows|by apply ws_not_at].
Qed.

Lemma dict_members_complete n fuel pre tail l r st : member_tail SF_STATE_DICT st tail -> dict_rest l r ->
  (length (tail ++ r) + 4 <= fuel)%nat -> (length r < n)%nat ->
  dict_members n fuel (sfp_at pre (tail ++ r) st) = Some (l, SF_ERR_EOF).
Proof.
  intros Ht Hr. revert n pre tail st Ht. induction Hr as [o Ho|o1 o2 k v vw l r H1 H2 Hk Hv Hr IH]; intros n pre tail st Ht Hf Hn.
  - destruct n as [|n]; [lia|]. cbn [dict_members]. by destruct (dict_reads_end fuel pre tail o st Ht Ho Hf) as (p' & ->).
  - destruct n as [|n]; [lia|]. cbn [dict_members]. destruct (dict_text_head k v vw Hk Hv) as (h & st' & tail' & Hh & Ht' & E).
    rewrite (app_assoc k vw r), E, <- (app_assoc h) in *.
    rewrite (dict_reads_more fuel pre tail o1 o2 (k, v) h st st' tail' r) by (done || by eapply dict_rest_follows).
    destruct (dict_head_state _ _ _ Hh) as [_ Hne]. destruct h as [|c h]; [done|]. rewrite !length_app in *. cbn [length] in *.
    rewrite IH by (done || rewrite ?length_app; lia). done.
Qed.

Lemma sf_dict_total data n fuel : (length data < n)%nat -> (length data + 4 <= fuel)%nat ->
  exists l rv, dict_members n fuel (sf_parser_init data) = Some (l, rv) /\
    (rv = SF_ERR_EOF \/ rv = SF_ERR_PARSE_ERROR) /\ forall l', dict_text l' data <-> rv = SF_ERR_EOF /\ l' = l.
Proof.
  intros Hn Hf. change (sf_parser_init data) with (sfp_at [] data SF_STATE_INITIAL). destruct n as [|n]; [lia|].
  assert (forall l', dict_text l' data -> dict_members (S n) fuel (sfp_at [] data SF_STATE_INITIAL) = Some (l', SF_ERR_EOF)) as Hcomp.
  { intros l' Hd. cbn [dict_members]. destruct (name_states SF_STATE_DICT eq_refl) as (_ & _ & _ & _ & _ & _ & _ & N1 & N2 & N3).
    unfold sf_parser_dict, next_member. sf_go. rewrite N1, N2, N3, Z.eqb_refl. sf_go. destruct Hd as [sp Hsp|sp k v vw l' r Hsp Hk Hv Hr].
    - destruct (takew_app (Z.eqb 32) sp []) as [E1 E2]; [done..|]. rewrite app_nil_r in E1, E2. by rewrite E2.
    - destruct (takew_app (Z.eqb 32) sp (k ++ vw ++ r)) as [-> ->]; [done| |].
      { eapply starts_stops; [|by apply key_starts]. intros c Hc. apply Z.eqb_neq. apply not_eq_sym. eapply key_first; [done|set_solver]. }
      destruct (dict_text_head k v vw Hk Hv) as (h & st' & tail' & Hh & Ht' & E). rewrite (app_assoc k), E, <- (app_assoc h) in *.
      destruct (dict_head_state _ _ _ Hh) as [_ Hne]. destruct h as [|c h]; [done|]. cbn [app is_nil]. sf_go.
      change (c :: h ++ tail' ++ r) with ((c :: h) ++ tail' ++ r).
      rewrite (dict_head_reads _ (k, v) (c :: h) st') by (done || by eapply dict_rest_follows).
      rewrite !length_app in *. cbn [length] in *. rewrite (dict_members_complete n fuel _ tail' l' r) by (done || rewrite ?length_app; lia).
      done. }
  assert (exists l rv, dict_members (S n) fuel (sfp_at [] data SF_STATE_INITIAL) = Some (l, rv) /\
    (rv = SF_ERR_PARSE_ERROR \/ rv = SF_ERR_EOF /\ dict_text l data)) as (l & rv & E & Hr).
  { cbn [dict_members]. pose proof (dict_post_initial fuel [] data) as H. destruct (sf_parser_dict _ _) as [[p' [rv|kv]]|]; [..|done].
    - destruct H as (w & t & st' & -> & _ & Hr). exists [], rv. split; [done|]. destruct Hr as [-> |(-> & -> & Hw)]; [by left|]. right.
      split; [done|]. rewrite app_nil_r. by constructor.
    - destruct H as (w & t & st' & -> & -> & sp & h & -> & Hsp & Hh). destruct (dict_head_state _ _ _ Hh) as [Hb Hne].
      rewrite !length_app in *. destruct h as [|c h]; [done|]. cbn [length] in *.
      destruct (dict_members_sound n fuel ([] ++ sp ++ c :: h) t st' Hb) as (l & rv & -> & Hr); [lia..|].
      exists (kv :: l), rv. split; [done|]. destruct Hr as [-> |(-> & tail & r & -> & Ht & Hr)]; [by left|]. right. split; [done|].
      destruct (dict_head_text _ _ _ _ Hh Ht) as (vw & E & Hk & Hv). rewrite <- app_assoc, (app_assoc (c :: h)), E, <- app_assoc.
      destruct kv as [k v]. by constructor. }
  exists l, rv. split; [done|]. split; [destruct Hr as [|[? _]]; auto|]. intros l'. split.
  - intros Hd. apply Hcomp in Hd. rewrite E in Hd. by injection Hd as -> ->.
  - intros [-> ->]. by destruct Hr as [|[_ ?]].
Qed.

(** C34: On every octet string the calls of [sf_parser_dict] return without reading past the
    end, overflowing an integer or failing an assertion, and a caller that
    goes on until the first error gets the members of a dictionary and then
    [SF_ERR_EOF] exactly when the string is a text of that dictionary in
    [dict_text], the grammar of RFC 8941 with the dates of RFC 9651 and with
    byte sequences in canonical base64 only; every other string ends in
    [SF_ERR_PARSE_ERROR]. Members come in the order of the text, repeated keys
    included; of inner lists and parameters only the text is checked. *)
Theorem sf_dict_reads data n fuel : (length data < n)%nat -> (length data + 4 <= fuel)%nat ->
  exists l rv, dict_members n fuel (sf_parser_init data) = Some (l, rv) /\
    (rv = SF_ERR_EOF \/ rv = SF_ERR_PARSE_ERROR) /\ forall l', dict_text l' data <-> rv = SF_ERR_EOF /\ l' = l.
Proof. apply sf_dict_total. Qed.

(** The priority of RFC 9218: ["u=3, i"] with an unknown member ["a=(1 2);b"]. *)
Lemma sf_dict_reads_witness :
  dict_members 17 20 (sf_parser_init [117; 61; 51; 44; 32; 105; 44; 97; 61; 40; 49; 32; 50; 41; 59; 98]) =
    Some ([([117], SF_INTEGER 3); ([105], SF_BOOLEAN 1); ([97], SF_INNER_LIST)], SF_ERR_EOF) /\
  dict_text [([117], SF_INTEGER 3); ([105], SF_BOOLEAN 1); ([97], SF_INNER_LIST)]
    [117; 61; 51; 44; 32; 105; 44; 97; 61; 40; 49; 32; 50; 41; 59; 98].
Proof.
  destruct (sf_dict_reads [117; 61; 51; 44; 32; 105; 44; 97; 61; 40; 49; 32; 50; 41; 59; 98] 17 20) as (l & rv & E & _ & H); [simpl; lia..|].
  vm_compute in E. injection E as <- <-. split; [reflexivity|]. by apply H.
Defined.

(** ** Calls in any order *)

Inductive sf_call := CallDict | CallList | CallItem | CallInnerList | CallParam.

Definition run_call (fuel : nat) (c : sf_call) : sf_m unit :=
  match c with
  | CallDict => sf_parser_dict fuel;; mret tt
  | CallList => sf_parser_list fuel;; mret tt
  | CallItem => sf_parser_item fuel;; mret tt
  | CallInnerList => sf_parser_inner_list fuel;; mret tt
  | CallParam => sf_parser_param fuel;; mret tt
  end.

(** The states between members of kind [name]. *)
Definition member_state (name st : Z) : bool :=
  one_of [SF_STATE_INITIAL; SF_SET_STATE_INNER_LIST_BEFORE name; SF_SET_STATE_BEFORE_PARAMS name; SF_SET_STATE_AFTER name] st.

(** Members are read one after the other; items of inner lists not between the
    parameters of an item; parameters until they are exhausted. *)
Definition call_allowed (c : sf_call) (st : Z) : bool :=
  match c with
  | CallDict => member_state SF_STATE_DICT st
  | CallList => member_state SF_STATE_LIST st
  | CallItem => member_state SF_STATE_ITEM st
  | CallInnerList => negb (op_of st =? SF_STATE_PARAMS)
  | CallParam => negb (op_of st =? SF_STATE_AFTER)
  end.

(** Something is read on success; the error codes are the documented ones. *)
Definition call_ok {A} (pre s : bytes) (r : option (sf_parser * (Z + A))) : Prop :=
  sf_post pre s (fun _ w _ _ => w <> []) (fun rv _ _ _ => rv = SF_ERR_PARSE_ERROR \/ rv = SF_ERR_EOF) r.

Lemma member_state_cases name st : member_state name st = true -> st = SF_STATE_INITIAL \/ behind_member name st.
Proof. unfold member_state, behind_member. rewrite one_of_spec, !elem_of_cons, elem_of_nil. naive_solver. Qed.

Lemma value_head_nonempty name v w st : value_head name v w st -> w <> [].
Proof. intros [v' w' Hv|]; [|done]. intros ->. by apply bare_starts in Hv. Qed.

Lemma next_member_ok fuel name pre s st : is_name name = true -> member_state name st = true -> (length s + 4 <= fuel)%nat ->
  sf_post pre s (fun _ w t st' => t <> []) (fun rv _ _ _ => rv = SF_ERR_PARSE_ERROR \/ rv = SF_ERR_EOF) (next_member fuel name (sfp_at pre s st)).
Proof.
  intros Hn Hst Hf. apply member_state_cases in Hst as [-> |Hst].
  - destruct (name_states name Hn) as (_ & _ & _ & _ & _ & _ & _ & N1 & N2 & N3). unfold next_member. sf_go.
    rewrite N1, N2, N3, Z.eqb_refl. sf_go. pose proof (takew_dropw (Z.eqb 32) s) as Es. remember (dropw (Z.eqb 32) s) as s1.
    rewrite <- Es at 1. apply post_read. destruct s1 as [|c s1]; sf_go; [apply post_err; by right|by apply post_ret].
  - eapply post_weaken; [by apply next_member_post|..].
    + intros [] w t st' _ (_ & Ht & _). done.
    + intros rv w t st' _ [-> |(-> & _)]; auto.
Qed.

Lemma list_ok fuel pre s st : member_state SF_STATE_LIST st = true -> (length s + 4 <= fuel)%nat ->
  call_ok pre s (sf_parser_list fuel (sfp_at pre s st)).
Proof.
  intros Hst Hf. unfold sf_parser_list, call_ok. eapply post_bind; [by apply next_member_ok| |done]. intros [] w t st' _ Ht.
  eapply post_weaken; [by apply member_value_post| |by left]. intros v w' t' st2 _ Hv%value_head_nonempty. by destruct w.
Qed.

Lemma dict_ok fuel pre s st : member_state SF_STATE_DICT st = true -> (length s + 4 <= fuel)%nat ->
  call_ok pre s (sf_parser_dict fuel (sfp_at pre s st)).
Proof.
  intros Hst Hf. unfold sf_parser_dict, call_ok. eapply post_bind; [by apply next_member_ok| |done]. intros [] w t st' _ Ht.
  eapply post_weaken; [by apply dict_body_post| |by left]. intros v w' t' st2 _ [_ Hv]%dict_head_state. by destruct w.
Qed.

Lemma item_finish_ok pre s st : call_ok pre s (item_finish (sfp_at pre s st)).
Proof.
  unfold item_finish, call_ok. sf_go. pose proof (takew_dropw (Z.eqb 32) s) as Es. remember (dropw (Z.eqb 32) s) as s1.
  rewrite <- Es at 1. apply post_read. destruct s1 as [|c s1]; sf_go; apply post_err; auto.
Qed.

Lemma item_ok fuel pre s st : member_state SF_STATE_ITEM st = true -> (length s + 4 <= fuel)%nat ->
  call_ok pre s (sf_parser_item fuel (sfp_at pre s st)).
Proof.
  intros Hst Hf. destruct (name_states SF_STATE_ITEM eq_refl) as (O1 & O2 & C1 & C2 & N1 & N2 & N3 & M1 & M2 & M3).
  unfold sf_parser_item, call_ok. sf_go.
  apply member_state_cases in Hst as [-> |[-> |[-> | ->]]].
  - rewrite Z.eqb_refl. sf_go. pose proof (takew_dropw (Z.eqb 32) s) as Es. remember (dropw (Z.eqb 32) s) as s1.
    rewrite <- Es at 1. apply post_read. destruct s1 as [|c s1]; sf_go; [apply post_err; by left|].
    eapply post_weaken; [by apply member_value_post| |by left]. intros v w' t' st2 _ Hv%value_head_nonempty. by destruct (takew _ _).
  - rewrite Z.eqb_sym, M1, Z.eqb_refl. eapply post_bind; [apply skip_inner_post; [rewrite O1; auto|done]| |by left].
    intros [] w t st' -> [_ ->]. rewrite C1. rewrite length_app in Hf.
    eapply post_bind; [apply skip_params_post; [auto|lia]| |by left]. intros [] pw t' st' _ (_ & _ & ->).
    eapply post_weaken; [apply item_finish_ok| |done]. intros a w' ? ? _ Hw. by destruct w, pw.
  - rewrite Z.eqb_sym, M2, N1, Z.eqb_refl. eapply post_bind; [apply skip_params_post; [auto|lia]| |by left].
    intros [] pw t' st' _ (_ & _ & ->). eapply post_weaken; [apply item_finish_ok| |done]. intros a w' ? ? _ Hw. by destruct pw.
  - rewrite Z.eqb_sym, M3, N2, N3, Z.eqb_refl. apply item_finish_ok.
Qed.

Lemma inner_ok fuel pre s st : op_of st <> SF_STATE_PARAMS -> (length s + 3 <= fuel)%nat ->
  call_ok pre s (sf_parser_inner_list fuel (sfp_at pre s st)).
Proof.
  intros Hop Hf. destruct fuel as [|fuel]; [lia|]. eapply post_weaken; [apply inner_list_post; [done|lia]|..].
  - intros v w t st' _ (g & item & -> & _ & Hv & _) [-> ->]%app_nil. by apply bare_starts in Hv.
  - intros rv w t st' _ [-> |[-> _]]; auto.
Qed.

Lemma param_body_ok pre s st : call_ok pre s (param_body (sfp_at pre s st)).
Proof.
  eapply post_weaken; [apply param_body_post|..].
  - intros x w t st' _ [Hx _]. by destruct Hx.
  - intros rv w t st' _ [-> |[-> _]]; auto.
Qed.

Lemma param_ok fuel pre s st : op_of st <> SF_STATE_AFTER -> (length s + 5 <= fuel)%nat ->
  call_ok pre s (sf_parser_param fuel (sfp_at pre s st)).
Proof.
  intros Hop Hf. destruct fuel as [|fuel]; [lia|]. pose proof (op_of_cases st) as Hc. rewrite !elem_of_cons, elem_of_nil in Hc.
  destruct Hc as [H0|Hc].
  - cbn [sf_parser_param]. unfold call_ok. sf_go. fold (op_of st). rewrite H0. cbn [Z.eqb SF_STATE_BEFORE]. rewrite bind_assoc.
    eapply post_bind; [apply skip_inner_post; [by left|lia]| |by left]. intros [] w t st' _ [_ ->]. sf_go.
    eapply post_weaken; [apply param_body_ok| |done]. intros x w' ? ? _ Hw. by destruct w.
  - rewrite param_unfold by (unfold SF_STATE_BEFORE_PARAMS, SF_STATE_PARAMS, SF_STATE_AFTER in *; lia || naive_solver). apply param_body_ok.
Qed.

Lemma run_call_ok fuel c pre s st : call_allowed c st = true -> (length s + 8 <= fuel)%nat -> call_ok pre s (run_call fuel c (sfp_at pre s st)).
Proof.
  intros Ha Hf. assert (forall A (m : sf_m A), call_ok pre s (m (sfp_at pre s st)) -> call_ok pre s ((m;; mret tt) (sfp_at pre s st))) as H.
  { intros A m Hm. eapply post_bind; [exact Hm| |done]. intros a w t st' _ Hw. apply post_ret. by rewrite app_nil_r. }
  destruct c; cbn [run_call call_allowed] in *; apply H.
  - apply dict_ok; [done|lia].
  - apply list_ok; [done|lia].
  - apply item_ok; [done|lia].
  - apply inner_ok; [by apply negb_true_iff, Z.eqb_neq in Ha|lia].
  - apply param_ok; [by apply negb_true_iff, Z.eqb_neq in Ha|lia].
Qed.

(** A sequence of calls that all return 0. *)
Inductive calls_succeed (fuel : nat) : sf_parser -> list sf_call -> sf_parser -> Prop :=
  | succeed_nil p : calls_succeed fuel p [] p
  | succeed_cons p c p1 cs p2 : call_allowed c (sfp_state p) = true -> run_call fuel c p = Some (p1, inr tt) ->
      calls_succeed fuel p1 cs p2 -> calls_succeed fuel p (c :: cs) p2.

Lemma call_ok_parser fuel c p : sf_ok p -> call_allowed c (sfp_state p) = true -> (length (sfp_data p) + 8 <= fuel)%nat ->
  exists p' r, run_call fuel c p = Some (p', r) /\ sf_ok p' /\ sfp_data p' = sfp_data p /\
    match r with inl rv => rv = SF_ERR_PARSE_ERROR \/ rv = SF_ERR_EOF | inr _ => (sfp_pos p < sfp_pos p')%nat end.
Proof.
  intros Hok Ha Hf.
  assert (run_call fuel c p = run_call fuel c (sfp_at (take (sfp_pos p) (sfp_data p)) (sf_rest p) (sfp_state p))) as ->
    by (by rewrite <- sf_ok_at).
  pose proof (run_call_ok fuel c (take (sfp_pos p) (sfp_data p)) (sf_rest p) (sfp_state p) Ha) as H.
  specialize (H ltac:(unfold sf_rest; rewrite length_drop; lia)). destruct (run_call _ _ _) as [[p' r]|]; [|done].
  destruct H as (w & t & st' & E & -> & Hr).
  eexists _, r. split; [done|]. unfold sf_ok, sfp_at. cbn [sfp_data sfp_pos].
  assert (length (take (sfp_pos p) (sfp_data p)) = sfp_pos p) as Hl by (rewrite length_take; unfold sf_ok in Hok; lia).
  split; [rewrite (length_app _ t); lia|]. split; [rewrite <- app_assoc, <- E; apply take_drop|]. destruct r as [rv|[]]; [done|].
  rewrite length_app, Hl. destruct w; [done|]. simpl. lia.
Qed.

(** C40: In every state the calls that the documentation allows return without
    undefined behaviour, with one of the documented error codes or having read
    something; so at most as many calls in a row succeed as the input has
    octets left, and callers that stop at the first error terminate. *)
Theorem sf_calls_terminate fuel p : sf_ok p -> (length (sfp_data p) + 8 <= fuel)%nat ->
  (forall c, call_allowed c (sfp_state p) = true ->
     exists p' r, run_call fuel c p = Some (p', r) /\ sf_ok p' /\ sfp_data p' = sfp_data p /\
       match r with inl rv => rv = SF_ERR_PARSE_ERROR \/ rv = SF_ERR_EOF | inr _ => (sfp_pos p < sfp_pos p')%nat end) /\
  forall cs p', calls_succeed fuel p cs p' -> (length cs <= length (sfp_data p) - sfp_pos p)%nat.
Proof.
  intros Hok Hf. split; [intros c Hc; by apply call_ok_parser|]. intros cs p' Hcs. induction Hcs as [|p c p1 cs p2 Ha E Hcs IH]; [simpl; lia|].
  destruct (call_ok_parser fuel c p Hok Ha Hf) as (p1' & r & E' & Hok1 & Hd & Hr). rewrite E in E'. injection E' as <- <-.
  rewrite Hd in IH. specialize (IH Hok1 Hf). unfold sf_ok in Hok1. rewrite Hd in Hok1. simpl. lia.
Qed.

Lemma sf_calls_terminate_witness : sf_ok (sf_parser_init [97; 61; 40; 49; 41]) /\
  (forall cs p', calls_succeed 13 (sf_parser_init [97; 61; 40; 49; 41]) cs p' -> (length cs <= 5)%nat) /\
  exists p', calls_succeed 13 (sf_parser_init [97; 61; 40; 49; 41]) [CallDict; CallInnerList] p'.
Proof.
  split; [unfold sf_ok; simpl; lia|]. split.
  - apply (sf_calls_terminate 13 (sf_parser_init [97; 61; 40; 49; 41])); [unfold sf_ok; simpl; lia|simpl; lia].
  - eexists. econstructor; [reflexivity|vm_compute; reflexivity|]. econstructor; [reflexivity|vm_compute; reflexivity|]. constructor.
Defined.
