(* ===== verification/Http.v ===== *)
(** * HTTP semantics of a message (nghttp2_http.c, nghttp2_extpri.c)

    The checks a session makes on the header fields, the body and the end of
    each received message, as a state machine on the members of
    [http_stream] that they use.  Fields come from the decompressor with
    their token.  [None] is an access outside a string, an overflow of a signed
    integer, a failed assertion or a lack of fuel. *)

From stdpp Require Import strings.
From S2P Require Import Prelude Defs Helper HdToken HdTable Frame Sf SfDict.

(** ** Data *)

Definition NGHTTP2_ERR_IGN_HTTP_HEADER : Z := -105.
Definition NGHTTP2_ERR_REMOVE_HTTP_HEADER : Z := -106.

Definition NGHTTP2_STREAM_FLAG_NO_RFC7540_PRIORITIES : Z := 16.
Definition NGHTTP2_STREAM_FLAG_NO_RFC9113_LEADING_AND_TRAILING_WS_VALIDATION : Z := 64.

Definition NGHTTP2_HTTP_FLAG_NONE : Z := 0.
Definition NGHTTP2_HTTP_FLAG__AUTHORITY : Z := 1.
Definition NGHTTP2_HTTP_FLAG__PATH : Z := 2 ^ 1.
Definition NGHTTP2_HTTP_FLAG__METHOD : Z := 2 ^ 2.
Definition NGHTTP2_HTTP_FLAG__SCHEME : Z := 2 ^ 3.
Definition NGHTTP2_HTTP_FLAG_HOST : Z := 2 ^ 4.
Definition NGHTTP2_HTTP_FLAG__STATUS : Z := 2 ^ 5.
Definition NGHTTP2_HTTP_FLAG_REQ_HEADERS : Z := NGHTTP2_HTTP_FLAG__METHOD .| NGHTTP2_HTTP_FLAG__PATH .| NGHTTP2_HTTP_FLAG__SCHEME.
Definition NGHTTP2_HTTP_FLAG_PSEUDO_HEADER_DISALLOWED : Z := 2 ^ 6.
Definition NGHTTP2_HTTP_FLAG_METH_CONNECT : Z := 2 ^ 7.
Definition NGHTTP2_HTTP_FLAG_METH_HEAD : Z := 2 ^ 8.
Definition NGHTTP2_HTTP_FLAG_METH_OPTIONS : Z := 2 ^ 9.
Definition NGHTTP2_HTTP_FLAG_METH_UPGRADE_WORKAROUND : Z := 2 ^ 10.
Definition NGHTTP2_HTTP_FLAG_METH_ALL : Z :=
  NGHTTP2_HTTP_FLAG_METH_CONNECT .| NGHTTP2_HTTP_FLAG_METH_HEAD .| NGHTTP2_HTTP_FLAG_METH_OPTIONS
    .| NGHTTP2_HTTP_FLAG_METH_UPGRADE_WORKAROUND.
Definition NGHTTP2_HTTP_FLAG_PATH_REGULAR : Z := 2 ^ 11.
Definition NGHTTP2_HTTP_FLAG_PATH_ASTERISK : Z := 2 ^ 12.
Definition NGHTTP2_HTTP_FLAG_SCHEME_HTTP : Z := 2 ^ 13.
Definition NGHTTP2_HTTP_FLAG_EXPECT_FINAL_RESPONSE : Z := 2 ^ 14.
Definition NGHTTP2_HTTP_FLAG__PROTOCOL : Z := 2 ^ 15.
Definition NGHTTP2_HTTP_FLAG_PRIORITY : Z := 2 ^ 16.
Definition NGHTTP2_HTTP_FLAG_BAD_PRIORITY : Z := 2 ^ 17.

(** The members of [nghttp2_stream] that the HTTP layer uses. *)
Record http_stream := mk_http_stream {
  stream_id : Z;
  sm_flags : Z;
  http_flags : Z;
  status_code : Z;
  content_length : Z;
  recv_content_length : Z;
  http_extpri : Z;
}.

Definition set_http_flags (s : http_stream) (f : Z) : http_stream :=
  mk_http_stream (stream_id s) (sm_flags s) f (status_code s) (content_length s) (recv_content_length s) (http_extpri s).
Definition set_content_length (s : http_stream) (n : Z) : http_stream :=
  mk_http_stream (stream_id s) (sm_flags s) (http_flags s) (status_code s) n (recv_content_length s) (http_extpri s).
Definition set_status_code (s : http_stream) (n : Z) : http_stream :=
  mk_http_stream (stream_id s) (sm_flags s) (http_flags s) n (content_length s) (recv_content_length s) (http_extpri s).
Definition set_recv_content_length (s : http_stream) (n : Z) : http_stream :=
  mk_http_stream (stream_id s) (sm_flags s) (http_flags s) (status_code s) (content_length s) n (http_extpri s).
Definition set_http_extpri (s : http_stream) (n : Z) : http_stream :=
  mk_http_stream (stream_id s) (sm_flags s) (http_flags s) (status_code s) (content_length s) (recv_content_length s) n.

(** [s->http_flags |= f] and [s->http_flags & f]. *)
Definition or_http_flags (s : http_stream) (f : Z) : http_stream := set_http_flags s (http_flags s .| f).
Definition has_flag (s : http_stream) (f : Z) : bool := negb (http_flags s .& f =? 0).

(** A stream as [nghttp2_stream_init] leaves it. *)
Definition stream_http_init (id flags : Z) : http_stream :=
  mk_http_stream id flags NGHTTP2_HTTP_FLAG_NONE (-1) (-1) 0 NGHTTP2_EXTPRI_DEFAULT_URGENCY.

(** ** Extensible priorities *)

Record nghttp2_extpri := mk_extpri { urgency : Z; inc : Z }.

Definition NGHTTP2_EXTPRI_INC_MASK : Z := Z.shiftl 1 7.

Definition nghttp2_extpri_to_uint8 (e : nghttp2_extpri) : Z := u8 (u32 (Z.shiftl (inc e) 7) .| urgency e).

Definition nghttp2_extpri_uint8_urgency (pri : Z) : Z := pri .& Z.lnot NGHTTP2_EXTPRI_INC_MASK.
Definition nghttp2_extpri_uint8_inc (pri : Z) : Z := c_bool (negb (pri .& NGHTTP2_EXTPRI_INC_MASK =? 0)).

Definition nghttp2_extpri_from_uint8 (pri : Z) : nghttp2_extpri :=
  mk_extpri (nghttp2_extpri_uint8_urgency pri) (nghttp2_extpri_uint8_inc pri).

(** One member of the dictionary; [None] rejects it. *)
Definition priority_member (pri : nghttp2_extpri) (key : bytes) (val : sf_value) : option nghttp2_extpri :=
  if decide (key = [105]) then
    match val with SF_BOOLEAN b => Some (mk_extpri (urgency pri) b) | _ => None end
  else if decide (key = [117]) then
    match val with
    | SF_INTEGER n =>
        if (n <? NGHTTP2_EXTPRI_URGENCY_HIGH) || (NGHTTP2_EXTPRI_URGENCY_LOW <? n) then None
        else Some (mk_extpri (u32 n) (inc pri))
    | _ => None
    end
  else Some pri.

Fixpoint priority_loop (n fuel : nat) (sfp : sf_parser) (pri : nghttp2_extpri) : option (nghttp2_extpri * Z) :=
  match n with
  | O => None
  | S n =>
      match sf_parser_dict fuel sfp with
      | None => None
      | Some (_, inl rv) => if rv =? SF_ERR_EOF then Some (pri, 0) else Some (pri, NGHTTP2_ERR_INVALID_ARGUMENT)
      | Some (sfp, inr (key, val)) =>
          match priority_member pri key val with
          | None => Some (pri, NGHTTP2_ERR_INVALID_ARGUMENT)
          | Some pri => priority_loop n fuel sfp pri
          end
      end
  end.

Definition nghttp2_http_parse_priority (dest : nghttp2_extpri) (value : bytes) : option (nghttp2_extpri * Z) :=
  '(pri, rv) ← priority_loop (S (length value)) (length value + 4) (sf_parser_init value) dest;
  Some (if rv =? 0 then pri else dest, rv).

Definition nghttp2_extpri_parse_priority := nghttp2_http_parse_priority.

(** ** Strings *)

Definition downcase (c : Z) : Z := if (65 <=? c) && (c <=? 90) then c - 65 + 97 else c.

(** [memieq(a, b, n)] on strings of at least [n] octets. *)
Fixpoint memieq (a b : bytes) (n : nat) : bool :=
  match n with
  | O => true
  | S n =>
      match a, b with
      | x :: a, y :: b => if downcase x =? downcase y then memieq a b n else false
      | _, _ => false
      end
  end.

Definition lstrieq (a b : bytes) : bool := (length a =? length b)%nat && memieq a b (length b).
Definition lstreq (a b : bytes) : bool := (length a =? length b)%nat && memeq a b (length b).

Definition INT64_MAX : Z := 2 ^ 63 - 1.

Fixpoint parse_uint_loop (s : bytes) (n : Z) : Z :=
  match s with
  | [] => n
  | c :: s =>
      if (48 <=? c) && (c <=? 57) then
        if INT64_MAX / 10 <? n then -1
        else
          let n := n * 10 in
          if INT64_MAX - (c - 48) <? n then -1 else parse_uint_loop s (n + (c - 48))
      else -1
  end.

Definition parse_uint (s : bytes) : Z := if (length s =? 0)%nat then -1 else parse_uint_loop s 0.

Definition is_alpha (c : Z) : bool := ((65 <=? c) && (c <=? 90)) || ((97 <=? c) && (c <=? 122)).

Definition scheme_char (c : Z) : bool := is_alpha c || ((48 <=? c) && (c <=? 57)) || (c =? 43) || (c =? 45) || (c =? 46).

Definition check_scheme (value : bytes) : bool :=
  match value with
  | [] => false
  | c :: rest => if negb (is_alpha c) then false else forallb scheme_char rest
  end.

Definition lws (s : bytes) : bool := forallb (fun c => (c =? 32) || (c =? 9)) s.

(** ** Header fields *)

(** The stream when the field is accepted. *)
Definition check_pseudo_header (s : http_stream) (nv : nghttp2_hd_nv) (flag : Z) : option http_stream :=
  if has_flag s flag || (length (hn_value nv) =? 0)%nat then None else Some (or_http_flags s flag).

(** C's division truncates. *)
Definition status_class (s : http_stream) : Z := Z.quot (status_code s) 100.

Definition expect_response_body (s : http_stream) : bool :=
  negb (has_flag s NGHTTP2_HTTP_FLAG_METH_HEAD) && negb (status_class s =? 1) && negb (status_code s =? 304) && negb (status_code s =? 204).

Definition check_path (s : http_stream) : bool :=
  negb (has_flag s NGHTTP2_HTTP_FLAG_SCHEME_HTTP) ||
  (has_flag s NGHTTP2_HTTP_FLAG_PATH_REGULAR ||
   (has_flag s NGHTTP2_HTTP_FLAG_METH_OPTIONS && has_flag s NGHTTP2_HTTP_FLAG_PATH_ASTERISK)).

Definition http_error (s : http_stream) : option (http_stream * Z) := Some (s, NGHTTP2_ERR_HTTP_HEADER).

(** [if (!check_pseudo_header(stream, nv, flag)) return NGHTTP2_ERR_HTTP_HEADER;] *)
Definition with_pseudo (s : http_stream) (nv : nghttp2_hd_nv) (flag : Z)
    (k : http_stream -> option (http_stream * Z)) : option (http_stream * Z) :=
  match check_pseudo_header s nv flag with None => http_error s | Some s => k s end.

(** The case of [:method], behind [check_pseudo_header]. *)
Definition on_method (s : http_stream) (v : bytes) : option (http_stream * Z) :=
  if (length v =? 4)%nat then
    Some (if lstreq (str "HEAD") v then or_http_flags s NGHTTP2_HTTP_FLAG_METH_HEAD else s, 0)
  else if (length v =? 7)%nat then
    c ← v !! 6%nat;
    if c =? 84 then
      if lstreq (str "CONNECT") v then
        if stream_id s mod 2 =? 0 then http_error s else Some (or_http_flags s NGHTTP2_HTTP_FLAG_METH_CONNECT, 0)
      else Some (s, 0)
    else if c =? 83 then
      Some (if lstreq (str "OPTIONS") v then or_http_flags s NGHTTP2_HTTP_FLAG_METH_OPTIONS else s, 0)
    else Some (s, 0)
  else Some (s, 0).

Definition on_path (s : http_stream) (v : bytes) : option (http_stream * Z) :=
  c ← v !! 0%nat;
  Some (if c =? 47 then or_http_flags s NGHTTP2_HTTP_FLAG_PATH_REGULAR
        else if (length v =? 1)%nat && (c =? 42) then or_http_flags s NGHTTP2_HTTP_FLAG_PATH_ASTERISK
        else s, 0).

Definition on_scheme (s : http_stream) (v : bytes) : option (http_stream * Z) :=
  Some (if ((length v =? 4)%nat && memieq (str "http") v 4) || ((length v =? 5)%nat && memieq (str "https") v 5)
        then or_http_flags s NGHTTP2_HTTP_FLAG_SCHEME_HTTP else s, 0).

Definition on_content_length (s : http_stream) (v : bytes) : option (http_stream * Z) :=
  if negb (content_length s =? -1) then http_error s
  else
    let s := set_content_length s (parse_uint v) in
    if content_length s =? -1 then http_error s else Some (s, 0).

Definition on_priority (s : http_stream) (v : bytes) (trailer : bool) : option (http_stream * Z) :=
  if negb trailer && negb (stream_id s .& 1 =? 0) && negb (sm_flags s .& NGHTTP2_STREAM_FLAG_NO_RFC7540_PRIORITIES =? 0)
     && negb (has_flag s NGHTTP2_HTTP_FLAG_BAD_PRIORITY) then
    '(extpri, rv) ← nghttp2_http_parse_priority (nghttp2_extpri_from_uint8 (http_extpri s)) v;
    if rv =? 0 then
      Some (or_http_flags (set_http_extpri s (nghttp2_extpri_to_uint8 extpri)) NGHTTP2_HTTP_FLAG_PRIORITY, 0)
    else
      let s := set_http_flags s (http_flags s .& u32 (Z.lnot NGHTTP2_HTTP_FLAG_PRIORITY)) in
      Some (or_http_flags s NGHTTP2_HTTP_FLAG_BAD_PRIORITY, 0)
  else Some (s, 0).

(** [nv->name->base[0] == ':'] *)
Definition is_pseudo (nv : nghttp2_hd_nv) : option bool := c ← hn_name nv !! 0%nat; Some (c =? 58).

(** A pseudo-header where it is not allowed: in a trailer or behind a regular field. *)
Definition misplaced (s : http_stream) (pseudo trailer : bool) : bool :=
  pseudo && (trailer || has_flag s NGHTTP2_HTTP_FLAG_PSEUDO_HEADER_DISALLOWED).

(** The end of both functions: after a regular field pseudo-headers are not allowed. *)
Definition field_done (s : http_stream) (pseudo : bool) : http_stream :=
  if pseudo then s else or_http_flags s NGHTTP2_HTTP_FLAG_PSEUDO_HEADER_DISALLOWED.

(** The [switch] of [http_request_on_header]. *)
Definition request_switch (s : http_stream) (nv : nghttp2_hd_nv) (trailer connect_protocol pseudo : bool) : option (http_stream * Z) :=
  let v := hn_value nv in
  let t := hn_token nv in
  if t =? NGHTTP2_TOKEN__AUTHORITY then with_pseudo s nv NGHTTP2_HTTP_FLAG__AUTHORITY (fun s => Some (s, 0))
  else if t =? NGHTTP2_TOKEN__METHOD then with_pseudo s nv NGHTTP2_HTTP_FLAG__METHOD (fun s => on_method s v)
  else if t =? NGHTTP2_TOKEN__PATH then with_pseudo s nv NGHTTP2_HTTP_FLAG__PATH (fun s => on_path s v)
  else if t =? NGHTTP2_TOKEN__SCHEME then with_pseudo s nv NGHTTP2_HTTP_FLAG__SCHEME (fun s => on_scheme s v)
  else if t =? NGHTTP2_TOKEN__PROTOCOL then
    if negb connect_protocol then http_error s
    else with_pseudo s nv NGHTTP2_HTTP_FLAG__PROTOCOL (fun s => Some (s, 0))
  else if t =? NGHTTP2_TOKEN_HOST then with_pseudo s nv NGHTTP2_HTTP_FLAG_HOST (fun s => Some (s, 0))
  else if t =? NGHTTP2_TOKEN_CONTENT_LENGTH then on_content_length s v
  else if (t =? NGHTTP2_TOKEN_CONNECTION) || (t =? NGHTTP2_TOKEN_KEEP_ALIVE) || (t =? NGHTTP2_TOKEN_PROXY_CONNECTION)
          || (t =? NGHTTP2_TOKEN_TRANSFER_ENCODING) || (t =? NGHTTP2_TOKEN_UPGRADE) then http_error s
  else if t =? NGHTTP2_TOKEN_TE then if negb (lstrieq (str "trailers") v) then http_error s else Some (s, 0)
  else if t =? NGHTTP2_TOKEN_PRIORITY then on_priority s v trailer
  else if pseudo then http_error s else Some (s, 0).

Definition http_request_on_header (s : http_stream) (nv : nghttp2_hd_nv) (trailer connect_protocol : bool)
    : option (http_stream * Z) :=
  pseudo ← is_pseudo nv;
  if misplaced s pseudo trailer then http_error s
  else
    '(s, rv) ← request_switch s nv trailer connect_protocol pseudo;
    if negb (rv =? 0) then Some (s, rv) else Some (field_done s pseudo, 0).

(** The case of [content-length] in a response. *)
Definition on_response_content_length (s : http_stream) (v : bytes) : option (http_stream * Z) :=
  if status_code s =? 204 then
    if negb (content_length s =? -1) then http_error s
    else if negb (lstrieq (str "0") v) then http_error s
    else Some (set_content_length s 0, NGHTTP2_ERR_REMOVE_HTTP_HEADER)
  else if status_class s =? 1 then http_error s
  else if (status_class s =? 2) && has_flag s NGHTTP2_HTTP_FLAG_METH_CONNECT then Some (s, NGHTTP2_ERR_REMOVE_HTTP_HEADER)
  else on_content_length s v.

(** The cast to [int16_t] keeps a number of three digits. *)
Definition on_status (s : http_stream) (v : bytes) : option (http_stream * Z) :=
  if negb (length v =? 3)%nat then http_error s
  else
    let s := set_status_code s (parse_uint v) in
    if (status_code s =? -1) || (status_code s =? 101) then http_error s else Some (s, 0).

Definition http_response_on_header (s : http_stream) (nv : nghttp2_hd_nv) (trailer : bool) : option (http_stream * Z) :=
  pseudo ← is_pseudo nv;
  if misplaced s pseudo trailer then http_error s
  else
    let v := hn_value nv in
    let t := hn_token nv in
    '(s, rv) ←
      (if t =? NGHTTP2_TOKEN__STATUS then with_pseudo s nv NGHTTP2_HTTP_FLAG__STATUS (fun s => on_status s v)
       else if t =? NGHTTP2_TOKEN_CONTENT_LENGTH then on_response_content_length s v
       else if (t =? NGHTTP2_TOKEN_CONNECTION) || (t =? NGHTTP2_TOKEN_KEEP_ALIVE) || (t =? NGHTTP2_TOKEN_PROXY_CONNECTION)
               || (t =? NGHTTP2_TOKEN_TRANSFER_ENCODING) || (t =? NGHTTP2_TOKEN_UPGRADE) then http_error s
       else if t =? NGHTTP2_TOKEN_TE then if negb (lstrieq (str "trailers") v) then http_error s else Some (s, 0)
       else if (pseudo : bool) then http_error s else Some (s, 0));
    if negb (rv =? 0) then Some (s, rv) else Some (field_done s pseudo, 0).

(** [session->server] and [session->pending_enable_connect_protocol]. *)
Record http_session := mk_http_session { hs_server : bool; hs_connect_protocol : bool }.

(** The loop over the name: an upper case letter. *)
Definition has_upper (name : bytes) : bool := existsb (fun c => (65 <=? c) && (c <=? 90)) name.

(** A field that is dropped still ends the pseudo-headers. *)
Definition ignore_field (s : http_stream) : option (http_stream * Z) :=
  Some (or_http_flags s NGHTTP2_HTTP_FLAG_PSEUDO_HEADER_DISALLOWED, NGHTTP2_ERR_IGN_HTTP_HEADER).

(** Is the header field received by a server, or promised by one? *)
Definition is_request (session : http_session) (frame : nghttp2_frame_hd) : bool := hs_server session || (hd_type frame =? NGHTTP2_PUSH_PROMISE).

Definition no_ws_validation (s : http_stream) : bool :=
  negb (sm_flags s .& NGHTTP2_STREAM_FLAG_NO_RFC9113_LEADING_AND_TRAILING_WS_VALIDATION =? 0).

Definition check_value (s : http_stream) (v : bytes) : bool :=
  if no_ws_validation s then nghttp2_check_header_value v else nghttp2_check_header_value_rfc9113 v.

(** The [switch] of [nghttp2_http_on_header]. *)
Definition value_valid (request : bool) (s : http_stream) (nv : nghttp2_hd_nv) : bool :=
  let v := hn_value nv in
  let t := hn_token nv in
  if t =? NGHTTP2_TOKEN__METHOD then nghttp2_check_method v
  else if t =? NGHTTP2_TOKEN__PATH then nghttp2_check_path v
  else if (t =? NGHTTP2_TOKEN__AUTHORITY) || (t =? NGHTTP2_TOKEN_HOST) then
    if request then nghttp2_check_authority v else check_value s v
  else if t =? NGHTTP2_TOKEN__SCHEME then check_scheme v
  else if (t =? NGHTTP2_TOKEN__PROTOCOL) && no_ws_validation s && lws v then false
  else check_value s v.

Definition nghttp2_http_on_header (session : http_session) (s : http_stream) (frame : nghttp2_frame_hd) (nv : nghttp2_hd_nv)
    (trailer : bool) : option (http_stream * Z) :=
  if negb (nghttp2_check_header_name (hn_name nv)) then
    let colon := match hn_name nv with c :: _ => c =? 58 | [] => false end in
    if colon then http_error s
    else if has_upper (hn_name nv) then http_error s
    else ignore_field s
  else if negb (value_valid (is_request session frame) s nv) then
    pseudo ← is_pseudo nv;
    if (pseudo : bool) then http_error s else ignore_field s
  else if is_request session frame then
    http_request_on_header s nv trailer (hs_server session && hs_connect_protocol session)
  else http_response_on_header s nv trailer.

(** ** The end of a header block *)

Definition nghttp2_http_on_request_headers (s : http_stream) (frame : nghttp2_frame_hd) : http_stream * Z :=
  let finish (s : http_stream) :=
    if hd_type frame =? NGHTTP2_PUSH_PROMISE then
      (set_content_length (set_http_flags s (http_flags s .& NGHTTP2_HTTP_FLAG_METH_ALL)) (-1), 0)
    else (s, 0) in
  if negb (has_flag s NGHTTP2_HTTP_FLAG__PROTOCOL) && has_flag s NGHTTP2_HTTP_FLAG_METH_CONNECT then
    if has_flag s (NGHTTP2_HTTP_FLAG__SCHEME .| NGHTTP2_HTTP_FLAG__PATH) || negb (has_flag s NGHTTP2_HTTP_FLAG__AUTHORITY) then (s, -1)
    else finish (set_content_length s (-1))
  else if negb (http_flags s .& NGHTTP2_HTTP_FLAG_REQ_HEADERS =? NGHTTP2_HTTP_FLAG_REQ_HEADERS)
          || negb (has_flag s (NGHTTP2_HTTP_FLAG__AUTHORITY .| NGHTTP2_HTTP_FLAG_HOST)) then (s, -1)
  else if has_flag s NGHTTP2_HTTP_FLAG__PROTOCOL
          && (negb (has_flag s NGHTTP2_HTTP_FLAG_METH_CONNECT) || negb (has_flag s NGHTTP2_HTTP_FLAG__AUTHORITY)) then (s, -1)
  else if negb (check_path s) then (s, -1)
  else finish s.

Definition nghttp2_http_on_response_headers (s : http_stream) : http_stream * Z :=
  if negb (has_flag s NGHTTP2_HTTP_FLAG__STATUS) then (s, -1)
  else if status_class s =? 1 then
    let s := set_http_flags s ((http_flags s .& NGHTTP2_HTTP_FLAG_METH_ALL) .| NGHTTP2_HTTP_FLAG_EXPECT_FINAL_RESPONSE) in
    (set_status_code (set_content_length s (-1)) (-1), 0)
  else
    let s := set_http_flags s (http_flags s .& u32 (Z.lnot NGHTTP2_HTTP_FLAG_EXPECT_FINAL_RESPONSE)) in
    if negb (expect_response_body s) then (set_content_length s 0, 0)
    else if has_flag s (NGHTTP2_HTTP_FLAG_METH_CONNECT .| NGHTTP2_HTTP_FLAG_METH_UPGRADE_WORKAROUND) then (set_content_length s (-1), 0)
    else (s, 0).

Definition nghttp2_http_on_trailer_headers (frame : nghttp2_frame_hd) : Z :=
  if hd_flags frame .& NGHTTP2_FLAG_END_STREAM =? 0 then -1 else 0.

(** ** The body *)

Definition nghttp2_http_on_remote_end_stream (s : http_stream) : Z :=
  if has_flag s NGHTTP2_HTTP_FLAG_EXPECT_FINAL_RESPONSE then -1
  else if negb (content_length s =? -1) && negb (content_length s =? recv_content_length s) then -1
  else 0.

Definition nghttp2_http_on_data_chunk (s : http_stream) (n : Z) : option (http_stream * Z) :=
  guard (recv_content_length s + n <= INT64_MAX);;
  let s := set_recv_content_length s (recv_content_length s + n) in
  Some (s, if has_flag s NGHTTP2_HTTP_FLAG_EXPECT_FINAL_RESPONSE
              || (negb (content_length s =? -1) && (content_length s <? recv_content_length s)) then -1 else 0).

(** ** Requests that are sent *)

(** A field called [:method]. *)
Definition names_method (nv : nghttp2_nv) : bool :=
  (length (nv_name nv) =? 7)%nat && (mem_get (nv_name nv) 6 =? 100) && memeq (str ":metho") (nv_name nv) 6.

Fixpoint record_method_loop (s : http_stream) (nva : list nghttp2_nv) : http_stream :=
  match nva with
  | [] => s
  | nv :: nva =>
      if negb (names_method nv) then record_method_loop s nva
      else if lstreq (str "CONNECT") (nv_value nv) then or_http_flags s NGHTTP2_HTTP_FLAG_METH_CONNECT
      else if lstreq (str "HEAD") (nv_value nv) then or_http_flags s NGHTTP2_HTTP_FLAG_METH_HEAD
      else s
  end.

(** [nva] is the array of the HEADERS or PUSH_PROMISE frame. *)
Definition nghttp2_http_record_request_method (s : http_stream) (frame : nghttp2_frame_hd) (nva : list nghttp2_nv) : http_stream :=
  if (hd_type frame =? NGHTTP2_HEADERS) || (hd_type frame =? NGHTTP2_PUSH_PROMISE) then record_method_loop s nva else s.
