(* ===== verification/HttpMessage.v ===== *)
(** * Which messages are accepted (nghttp2_http.c)

    [http_request_accepted]: the checks of header fields and of the end of a
    header block together accept exactly the requests that RFC 9113 (8.3.1)
    and RFC 8441 allow, up to regular fields with invalid characters, which
    are dropped.  [http_body_length]: a body is accepted exactly when it is as long as the
    declared length.  [parse_priority_spec]: a Priority field is the
    dictionary of RFC 9218 or leaves the priority as it is. *)

From stdpp Require Import strings.
From S2P Require Import Prelude Defs Helper HdToken HdTable Frame Sf SfGrammar SfDict Http.

(** ** Numbers *)

(** The number that a string of digits denotes, if a [int64_t] can hold it. *)
Definition decimal (s : bytes) : option Z :=
  if negb (is_nil s) && forallb DIGIT_CASES s && (digits_from 0 s <=? INT64_MAX) then Some (digits_from 0 s) else None.

Lemma digits_from_ge v s : 0 <= v -> all DIGIT_CASES s -> v <= digits_from v s.
Proof.
  intros Hv Hs. revert v Hv. induction Hs as [|c s Hc Hs IH]; intros v Hv; [done|]. apply digit_range in Hc.
  cbn [digits_from fold_left]. fold (digits_from (v * 10 + (c - 48)) s). specialize (IH (v * 10 + (c - 48))). lia.
Qed.

Lemma parse_uint_loop_spec s n : 0 <= n <= INT64_MAX ->
  parse_uint_loop s n = if forallb DIGIT_CASES s && (digits_from n s <=? INT64_MAX) then digits_from n s else -1.
Proof.
  revert n. induction s as [|c s IH]; intros n Hn; cbn [parse_uint_loop forallb].
  { cbn [digits_from fold_left andb]. by rewrite (proj2 (Z.leb_le _ _)) by lia. }
  change ((48 <=? c) && (c <=? 57)) with (DIGIT_CASES c). destruct (DIGIT_CASES c) eqn:Hc; cbn [andb]; [|done].
  apply digit_range in Hc. cbn [digits_from fold_left]. fold (digits_from (n * 10 + (c - 48)) s).
  assert (INT64_MAX < n * 10 + (c - 48) -> forallb DIGIT_CASES s && (digits_from (n * 10 + (c - 48)) s <=? INT64_MAX) = false) as Hbig.
  { intros Hlt. destruct (forallb DIGIT_CASES s) eqn:Hs; [|done]. cbn [andb]. apply Z.leb_gt. rewrite forallb_forall in Hs.
    enough (n * 10 + (c - 48) <= digits_from (n * 10 + (c - 48)) s) by lia. apply digits_from_ge; [lia|].
    apply Forall_forall. intros x Hx. by apply Hs, list_elem_of_In. }
  destruct (Z.ltb_spec (INT64_MAX / 10) n) as [H10|H10].
  { rewrite Hbig; [done|]. unfold INT64_MAX in *. change (2 ^ 63) with 9223372036854775808 in *.
    change ((9223372036854775808 - 1) / 10) with 922337203685477580 in *. lia. }
  destruct (Z.ltb_spec (INT64_MAX - (c - 48)) (n * 10)) as [Hs|Hs]; [rewrite Hbig; [done|lia]|]. apply IH. lia.
Qed.

Lemma parse_uint_decimal s : parse_uint s = default (-1) (decimal s).
Proof.
  unfold parse_uint, decimal. destruct s as [|c s]; [done|]. cbn [length Nat.eqb is_nil negb andb]. rewrite parse_uint_loop_spec.
  - by destruct (_ && _).
  - unfold INT64_MAX. lia.
Qed.

Lemma decimal_range s n : decimal s = Some n -> 0 <= n <= INT64_MAX.
Proof.
  unfold decimal. destruct (negb (is_nil s) && forallb DIGIT_CASES s) eqn:H; cbn [andb]; [|done].
  destruct (Z.leb_spec (digits_from 0 s) INT64_MAX); [|done]. intros [= <-]. apply andb_true_iff in H as [_ H]. split; [|done].
  apply digits_from_ge; [lia|]. apply Forall_forall. intros x Hx. rewrite forallb_forall in H. by apply H, list_elem_of_In.
Qed.

(** ** Priorities *)

(** The members of the dictionary one after the other; later ones win. *)
Fixpoint priority_members (pri : nghttp2_extpri) (l : list (bytes * sf_value)) : option nghttp2_extpri :=
  match l with
  | [] => Some pri
  | (key, val) :: l => pri ← priority_member pri key val; priority_members pri l
  end.

Lemma priority_loop_members n fuel p l rv pri : dict_members n fuel p = Some (l, rv) ->
  exists pri', priority_loop n fuel p pri =
    Some (pri', match priority_members pri l with
                | Some _ => if rv =? SF_ERR_EOF then 0 else NGHTTP2_ERR_INVALID_ARGUMENT
                | None => NGHTTP2_ERR_INVALID_ARGUMENT
                end) /\ (forall e, priority_members pri l = Some e -> pri' = e).
Proof.
  revert p l pri. induction n as [|n IH]; intros p l pri H; [done|]. cbn [dict_members priority_loop] in *.
  destruct (sf_parser_dict fuel p) as [[p' [rv'|[key val]]]|]; [..|done].
  - injection H as <- <-. exists pri. cbn [priority_members]. split; [by destruct (_ =? _)|]. by intros e [= ->].
  - destruct (dict_members n fuel p') as [[l' rv']|] eqn:E; [|done]. injection H as <- <-. cbn [priority_members].
    destruct (priority_member pri key val) as [pri'|]; cbn [mbind option_bind]; [|by eexists].
    destruct (IH p' l' pri' E) as (pri2 & E2 & He). exists pri2. auto.
Qed.

Definition extpri_valid (e : nghttp2_extpri) : Prop := 0 <= urgency e <= 7 /\ (inc e = 0 \/ inc e = 1).

(** The values the parser gives booleans. *)
Definition member_value_ok (x : bytes * sf_value) : Prop := match x.2 with SF_BOOLEAN b => b = 0 \/ b = 1 | _ => True end.

Lemma bare_value_ok v w k : bare_text v w -> member_value_ok (k, v).
Proof. intros []; cbn; auto. Qed.

Lemma dict_value_ok k v w : dict_value_text v w -> member_value_ok (k, v).
Proof. intros [| |]; [by right|by eapply bare_value_ok|done]. Qed.

Lemma dict_text_values l w : dict_text l w -> Forall member_value_ok l.
Proof.
  assert (forall l w, dict_rest l w -> Forall member_value_ok l) as H.
  { intros l' w' Hr. induction Hr; [constructor|]. constructor; [by eapply dict_value_ok|done]. }
  intros [|sp k v vw l' r Hsp Hk Hv Hr]; [constructor|]. constructor; [by eapply dict_value_ok|by eapply H].
Qed.

Lemma priority_members_valid pri l e : extpri_valid pri -> Forall member_value_ok l -> priority_members pri l = Some e -> extpri_valid e.
Proof.
  intros Hv Hl. revert pri Hv. induction Hl as [|[key val] l Hx Hl IH]; intros pri Hv H; [by injection H as <-|].
  cbn [priority_members] in H. apply bind_Some in H as (pri' & Hm & H). apply (IH pri'); [|done]. unfold priority_member in Hm.
  case_decide; [|case_decide; [|by injection Hm as <-]].
  - destruct val; try done. injection Hm as <-. split; [apply Hv|exact Hx].
  - destruct val as [|n| | | | | |]; try done. destruct (_ || _) eqn:E; [done|]. injection Hm as <-.
    apply orb_false_iff in E as [E1%Z.ltb_ge E2%Z.ltb_ge]. unfold NGHTTP2_EXTPRI_URGENCY_HIGH, NGHTTP2_EXTPRI_URGENCY_LOW in *.
    split; [|apply Hv]. cbn [urgency]. rewrite u32_id; [lia|unfold is_u32; lia].
Qed.

Lemma extpri_uint8_roundtrip e : extpri_valid e -> nghttp2_extpri_from_uint8 (nghttp2_extpri_to_uint8 e) = e.
Proof.
  destruct e as [u i]. unfold extpri_valid. cbn [urgency inc]. intros [Hu Hi].
  assert (exists n, (n <= 7)%nat /\ u = Z.of_nat n) as (n & Hn & ->) by (exists (Z.to_nat u); lia).
  destruct Hi as [-> | ->]; do 8 (destruct n as [|n]; [reflexivity|]); lia.
Qed.

(** [nghttp2_http_parse_priority] returns on every field value without a read
    outside it: it succeeds exactly when the value is a dictionary in which
    [u] is an integer from 0 to 7 and [i] a boolean wherever they occur,
    with the result of the last occurrence of each; otherwise the destination
    is not touched.  A valid priority stays valid, and survives the encoding
    in one octet in which streams keep it. *)
Theorem parse_priority_spec dest value : extpri_valid dest ->
  exists e rv, nghttp2_http_parse_priority dest value = Some (e, rv) /\
    (rv = 0 /\ (exists l, dict_text l value /\ priority_members dest l = Some e) \/
     rv = NGHTTP2_ERR_INVALID_ARGUMENT /\ e = dest /\ ~ (exists l e', dict_text l value /\ priority_members dest l = Some e')) /\
    extpri_valid e /\ nghttp2_extpri_from_uint8 (nghttp2_extpri_to_uint8 e) = e.
Proof.
  intros Hv. unfold nghttp2_http_parse_priority.
  destruct (sf_dict_total value (S (length value)) (length value + 4)) as (l & rv & E & Hrv & Hl); [lia..|].
  destruct (priority_loop_members _ _ _ l rv dest E) as (pri' & -> & Hpri). cbn [mbind option_bind].
  eexists _, _. split; [done|].
  match goal with |- ?P /\ extpri_valid ?e /\ _ => enough (extpri_valid e /\ P) as [H1 H2];
    [split; [exact H2|]; split; [exact H1|by apply extpri_uint8_roundtrip]|] end.
  destruct (priority_members dest l) as [e|] eqn:Em.
  - rewrite (Hpri e eq_refl). destruct Hrv as [-> | ->]; cbn [Z.eqb Pos.eqb SF_ERR_EOF SF_ERR_PARSE_ERROR NGHTTP2_ERR_INVALID_ARGUMENT].
    + assert (dict_text l value) as Hd by (by apply Hl). split; [by eapply priority_members_valid; [|eapply dict_text_values|]|].
      left. split; [done|]. by exists l.
    + split; [done|]. right. split; [done|]. split; [done|]. intros (l' & e' & Hd & _). by apply Hl in Hd as [? _].
  - cbn [Z.eqb NGHTTP2_ERR_INVALID_ARGUMENT]. split; [done|]. right. split; [done|]. split; [done|].
    intros (l' & e' & Hd & Hm). apply Hl in Hd as [_ ->]. congruence.
Qed.

Lemma parse_priority_spec_witness : extpri_valid (mk_extpri 3 0) /\
  nghttp2_http_parse_priority (mk_extpri 3 0) (str "u=1, i") = Some (mk_extpri 1 1, 0).
Proof.
  assert (extpri_valid (mk_extpri 3 0)) as Hv by (unfold extpri_valid; cbn; lia). split; [done|].
  destruct (parse_priority_spec (mk_extpri 3 0) (str "u=1, i") Hv) as (e & rv & E & _ & _). rewrite E. vm_compute in E. by injection E as <- <-.
Defined.

(** ** Flags *)

Definition flag_bit (s : http_stream) (i : Z) : bool := Z.testbit (http_flags s) i.

Lemma land_pow2_zero x i : 0 <= i -> (x .& 2 ^ i =? 0) = negb (Z.testbit x i).
Proof.
  intros Hi. destruct (Z.testbit x i) eqn:Hb; cbn [negb].
  - apply Z.eqb_neq. intros H. assert (Z.testbit (x .& 2 ^ i) i = true) as H1.
    { rewrite Z.land_spec, Hb, Z.pow2_bits_true by lia. done. }
    rewrite H, Z.bits_0 in H1. done.
  - apply Z.eqb_eq. apply Z.bits_inj'. intros j Hj. rewrite Z.land_spec, Z.bits_0, Z.pow2_bits_eqb by lia.
    destruct (Z.eqb_spec i j) as [-> |]; [by rewrite Hb|]. apply andb_false_r.
Qed.

Lemma has_flag_bit s i : 0 <= i -> has_flag s (2 ^ i) = flag_bit s i.
Proof. intros Hi. unfold has_flag, flag_bit. rewrite land_pow2_zero by done. apply negb_involutive. Qed.

Lemma has_flag_or s a b : has_flag s (a .| b) = has_flag s a || has_flag s b.
Proof.
  unfold has_flag. rewrite Z.land_lor_distr_r. destruct (Z.eqb_spec (http_flags s .& a .| http_flags s .& b) 0) as [H|H].
  - apply Z.lor_eq_0_iff in H as [-> ->]. done.
  - destruct (Z.eqb_spec (http_flags s .& a) 0) as [Ha|Ha]; [|done]. destruct (Z.eqb_spec (http_flags s .& b) 0) as [Hb|Hb]; [|done].
    by rewrite Ha, Hb in H.
Qed.

Lemma or_flag_bit s n i : 0 <= n -> 0 <= i -> flag_bit (or_http_flags s (2 ^ n)) i = flag_bit s i || (i =? n).
Proof.
  intros Hn Hi. unfold flag_bit, or_http_flags. cbn [http_flags set_http_flags]. rewrite Z.lor_spec, Z.pow2_bits_eqb by done.
  by rewrite Z.eqb_sym.
Qed.

(** ** Fields *)

Definition field_pseudo (f : nghttp2_hd_nv) : bool := match hn_name f with c :: _ => c =? 58 | [] => false end.

(** Names and values are octets, and the token is the one of the name, as the
    decompressor sets it. *)
Definition field_wf (f : nghttp2_hd_nv) : Prop := hn_token f = lookup_token (hn_name f) /\ is_bytes (hn_name f) /\ is_bytes (hn_value f).

Lemma field_token_name f t : field_wf f -> hn_token f = t -> t <> -1 -> hn_name f = token_name t.
Proof. intros [Hw _] Ht Hn. rewrite <- Ht, Hw. apply lookup_token_sound. congruence. Qed.

(** Octets without regard to case. *)
Definition lower (c : Z) : Z := if decide (is_upper c) then c + 32 else c.
Definition caseless (a b : bytes) : bool := bool_decide (map lower a = map lower b).

Definition all_chars (P : Z -> Prop) `{!forall c, Decision (P c)} (v : bytes) : bool := forallb (fun c => bool_decide (P c)) v.

(** A name is a token without upper case, behind the colon of a pseudo-header
    or not (RFC 9113, 8.2.1 and 8.3). *)
Definition name_rule (name : bytes) : bool :=
  let token := match name with c :: rest => if c =? 58 then rest else name | [] => [] end in
  negb (is_nil token) && all_chars is_name_char token.

Definition is_letter (c : Z) : Prop := is_upper c \/ is_lower c.
#[export] Instance is_letter_dec c : Decision (is_letter c).
Proof. unfold is_letter, is_upper, is_lower. apply _. Defined.
#[export] Instance is_upper_dec c : Decision (is_upper c).
Proof. unfold is_upper. apply _. Defined.

(** RFC 3986, 3.1. *)
Definition is_scheme_char (c : Z) : Prop := is_letter c \/ is_digit c \/ c = 43 \/ c = 45 \/ c = 46.
#[export] Instance is_scheme_char_dec c : Decision (is_scheme_char c).
Proof. unfold is_scheme_char, is_digit. apply _. Defined.

Definition space (c : Z) : bool := (c =? 32) || (c =? 9).

(** No space or tab at either end (RFC 9113, 8.2.1). *)
Definition trimmed (v : bytes) : bool :=
  negb (match head v with Some c => space c | None => false end) && negb (match last v with Some c => space c | None => false end).

(** The option that lets spaces at the ends of values pass. *)
Definition lenient (s : http_stream) : bool := Z.testbit (sm_flags s) 6.

(** The octets of a value, by the name of its field; [lenient]: values may have
    spaces at their ends. *)
Definition value_rule (lenient : bool) (f : nghttp2_hd_nv) : bool :=
  let v := hn_value f in
  let t := hn_token f in
  if t =? NGHTTP2_TOKEN__METHOD then negb (is_nil v) && all_chars is_tchar v
  else if t =? NGHTTP2_TOKEN__PATH then all_chars is_path_char v
  else if (t =? NGHTTP2_TOKEN__AUTHORITY) || (t =? NGHTTP2_TOKEN_HOST) then all_chars is_authority_char v
  else if t =? NGHTTP2_TOKEN__SCHEME then match v with c :: rest => bool_decide (is_letter c) && all_chars is_scheme_char rest | [] => false end
  else all_chars is_value_char v && (if lenient then negb ((t =? NGHTTP2_TOKEN__PROTOCOL) && forallb space v) else trimmed v).

(** Invalid octets: in pseudo-headers, and in names with upper case, they are
    errors; other fields are dropped. *)
Inductive verdict := Fatal | Ignored | Kept.

Definition classify (s : http_stream) (f : nghttp2_hd_nv) : verdict :=
  if negb (name_rule (hn_name f)) then if field_pseudo f || existsb (fun c => bool_decide (is_upper c)) (hn_name f) then Fatal else Ignored
  else if value_rule (lenient s) f then Kept
  else if field_pseudo f then Fatal else Ignored.

(** *** The checks of the code against these rules *)

Lemma all_chars_spec (P : Z -> Prop) `{!forall c, Decision (P c)} v : all_chars P v = true <-> Forall P v.
Proof.
  unfold all_chars. rewrite forallb_forall, Forall_forall. setoid_rewrite <- list_elem_of_In. split; intros Hall c Hc; specialize (Hall c Hc); revert Hall; by rewrite bool_decide_eq_true.
Qed.

Lemma same_truth (a b : bool) : (a = true <-> b = true) -> a = b.
Proof. destruct a, b; naive_solver. Qed.

Lemma name_rule_code name : is_bytes name -> nghttp2_check_header_name name = name_rule name.
Proof.
  intros Hb. apply same_truth. rewrite (check_header_name_spec name Hb). unfold name_rule. assert (~ is_name_char 58) as Hcolon by (apply (bool_decide_unpack _); by vm_compute).
  rewrite andb_true_iff, all_chars_spec. destruct name as [|c rest]; [split; [intros (n & H1 & _ & [<-|H3]); done|by intros [? _]]|]. destruct (Z.eqb_spec c 58) as [->|Hc]; split.
  - intros (n & H1 & H2 & [<-|[= ->]]); [by inversion H2|]. by destruct n.
  - intros [H1 H2]. exists rest. split; [by intros ->|]. split; [done|by right].
  - intros (n & H1 & H2 & [<-|[= -> _]]); [done|done].
  - intros [_ H2]. exists (c :: rest). split; [done|]. split; [done|by left].
Qed.

Lemma upper_code name : has_upper name = existsb (fun c => bool_decide (is_upper c)) name.
Proof.
  unfold has_upper. induction name as [|c name IH]; [done|]. cbn [existsb]. rewrite IH. f_equal. apply same_truth. rewrite bool_decide_eq_true. unfold is_upper. lia.
Qed.

Lemma scheme_code v : check_scheme v = match v with c :: rest => bool_decide (is_letter c) && all_chars is_scheme_char rest | [] => false end.
Proof.
  destruct v as [|c rest]; [done|]. unfold check_scheme. assert (forall c, is_alpha c = bool_decide (is_letter c)) as Ha.
  { intros x. apply same_truth. rewrite bool_decide_eq_true. unfold is_alpha, is_letter, is_upper, is_lower. lia. }
  rewrite Ha. destruct (bool_decide (is_letter c)); [|done]. cbn [negb andb]. unfold all_chars. induction rest as [|x rest IH]; [done|]. cbn [forallb]. rewrite IH. f_equal.
  unfold scheme_char. rewrite Ha. apply same_truth. rewrite !orb_true_iff, !bool_decide_eq_true. unfold is_scheme_char, is_letter, is_upper, is_lower, is_digit. lia.
Qed.

Lemma trimmed_code v : is_bytes v -> nghttp2_check_header_value_rfc9113 v = all_chars is_value_char v && trimmed v.
Proof.
  intros Hb. unfold nghttp2_check_header_value_rfc9113. assert (nghttp2_check_header_value v = all_chars is_value_char v) as Hv.
  { apply same_truth. rewrite all_chars_spec. unfold nghttp2_check_header_value. by apply all_in_table_spec; [apply value_table|]. }
  destruct v as [|c v _] using rev_ind; [done|]. rewrite (proj2 (Z.eqb_neq _ _)) by (rewrite length_app; simpl; lia). cbv zeta.
  unfold trimmed. rewrite last_snoc, length_app. cbn [length]. rewrite Nat.add_sub.
  assert (mem_get (v ++ [c]) (length v) = c) as ->. { unfold mem_get. by rewrite nth_middle. }
  assert (head (v ++ [c]) = Some (mem_get (v ++ [c]) 0)) as -> by (by destruct v). unfold space. rewrite Hv, <- !orb_assoc. destruct (mem_get (v ++ [c]) 0 =? 32), (mem_get (v ++ [c]) 0 =? 9), (c =? 32), (c =? 9), (all_chars _ _); done.
Qed.

Lemma lenient_code s : no_ws_validation s = lenient s.
Proof.
  unfold no_ws_validation, lenient, NGHTTP2_STREAM_FLAG_NO_RFC9113_LEADING_AND_TRAILING_WS_VALIDATION. change 64 with (2 ^ 6). rewrite land_pow2_zero by lia. apply negb_involutive.
Qed.

Lemma value_rule_code s f : field_wf f -> value_valid true s f = value_rule (lenient s) f.
Proof.
  intros (_ & _ & Hb). destruct (check_chars_grammar _ Hb) as (_ & Hv & Hm & Hp & Ha). unfold value_valid, value_rule. cbv zeta.
  destruct (hn_token f =? NGHTTP2_TOKEN__METHOD); [apply same_truth; rewrite Hm, andb_true_iff, all_chars_spec; destruct (hn_value f); simpl; naive_solver|].
  destruct (hn_token f =? NGHTTP2_TOKEN__PATH); [apply same_truth; by rewrite Hp, all_chars_spec|].
  destruct (_ || _); [apply same_truth; by rewrite Ha, all_chars_spec|]. destruct (hn_token f =? NGHTTP2_TOKEN__SCHEME); [apply scheme_code|].
  unfold check_value. rewrite lenient_code. destruct (lenient s).
  - assert (nghttp2_check_header_value (hn_value f) = all_chars is_value_char (hn_value f)) as -> by (apply same_truth; by rewrite Hv, all_chars_spec).
    change (lws (hn_value f)) with (forallb space (hn_value f)). rewrite andb_true_r. destruct (_ && forallb _ _); [by rewrite andb_false_r|by rewrite andb_true_r].
  - rewrite andb_false_r. by apply trimmed_code.
Qed.

(** The verdict of the rules, as the code finds it. *)
Lemma classify_code s f : field_wf f -> classify s f =
  if negb (nghttp2_check_header_name (hn_name f)) then if field_pseudo f || has_upper (hn_name f) then Fatal else Ignored
  else if value_valid true s f then Kept
  else if field_pseudo f then Fatal else Ignored.
Proof. intros Hf. unfold classify. by rewrite upper_code, (value_rule_code s f Hf), (name_rule_code _ (proj1 (proj2 Hf))). Qed.

Definition has_token (t : Z) (f : nghttp2_hd_nv) : bool := hn_token f =? t.

(** What each kept field of a request must satisfy by itself; [cp]: the peer may
    use the extended CONNECT of RFC 8441; [id]: the stream. *)
Definition field_rule (cp : bool) (id : Z) (f : nghttp2_hd_nv) : bool :=
  let t := hn_token f in
  let v := hn_value f in
  let nonempty := negb (is_nil v) in
  if t =? NGHTTP2_TOKEN__METHOD then nonempty && negb (bool_decide (str "CONNECT" = v) && (id mod 2 =? 0))
  else if (t =? NGHTTP2_TOKEN__AUTHORITY) || (t =? NGHTTP2_TOKEN__PATH) || (t =? NGHTTP2_TOKEN__SCHEME) || (t =? NGHTTP2_TOKEN_HOST) then nonempty
  else if t =? NGHTTP2_TOKEN__PROTOCOL then nonempty && cp
  else if t =? NGHTTP2_TOKEN_CONTENT_LENGTH then bool_decide (is_Some (decimal v))
  else if one_of [NGHTTP2_TOKEN_CONNECTION; NGHTTP2_TOKEN_KEEP_ALIVE; NGHTTP2_TOKEN_PROXY_CONNECTION; NGHTTP2_TOKEN_TRANSFER_ENCODING;
                  NGHTTP2_TOKEN_UPGRADE] t then false
  else if t =? NGHTTP2_TOKEN_TE then caseless (str "trailers") v
  else negb (field_pseudo f).

(** Fields that may occur once. *)
Definition once_tokens : list Z :=
  [NGHTTP2_TOKEN__AUTHORITY; NGHTTP2_TOKEN__METHOD; NGHTTP2_TOKEN__PATH; NGHTTP2_TOKEN__SCHEME; NGHTTP2_TOKEN__PROTOCOL; NGHTTP2_TOKEN_HOST;
   NGHTTP2_TOKEN_CONTENT_LENGTH].

Definition method_is (m : bytes) (f : nghttp2_hd_nv) : bool := has_token NGHTTP2_TOKEN__METHOD f && bool_decide (m = hn_value f).
Definition path_regular (f : nghttp2_hd_nv) : bool := has_token NGHTTP2_TOKEN__PATH f && (mem_get (hn_value f) 0 =? 47).
Definition path_asterisk (f : nghttp2_hd_nv) : bool := has_token NGHTTP2_TOKEN__PATH f && bool_decide (hn_value f = [42]).
Definition scheme_http (f : nghttp2_hd_nv) : bool :=
  has_token NGHTTP2_TOKEN__SCHEME f && (caseless (str "http") (hn_value f) || caseless (str "https") (hn_value f)).

(** What the bits of [http_flags] say about the kept fields so far. *)
Definition tracked : list (Z * (nghttp2_hd_nv -> bool)) :=
  [(0, has_token NGHTTP2_TOKEN__AUTHORITY); (1, has_token NGHTTP2_TOKEN__PATH); (2, has_token NGHTTP2_TOKEN__METHOD);
   (3, has_token NGHTTP2_TOKEN__SCHEME); (4, has_token NGHTTP2_TOKEN_HOST); (7, method_is (str "CONNECT"));
   (9, method_is (str "OPTIONS")); (11, path_regular); (12, path_asterisk); (13, scheme_http); (15, has_token NGHTTP2_TOKEN__PROTOCOL)].

(** The bit that a field which may occur once sets. *)
Definition once_bit (t : Z) : option Z :=
  if t =? NGHTTP2_TOKEN__AUTHORITY then Some 0 else if t =? NGHTTP2_TOKEN__PATH then Some 1 else if t =? NGHTTP2_TOKEN__METHOD then Some 2
  else if t =? NGHTTP2_TOKEN__SCHEME then Some 3 else if t =? NGHTTP2_TOKEN_HOST then Some 4 else if t =? NGHTTP2_TOKEN__PROTOCOL then Some 15
  else None.

(** Has the field been seen before? *)
Definition seen (s : http_stream) (f : nghttp2_hd_nv) : bool :=
  match once_bit (hn_token f) with
  | Some i => flag_bit s i
  | None => if hn_token f =? NGHTTP2_TOKEN_CONTENT_LENGTH then negb (content_length s =? -1) else false
  end.

Definition step_ok (cp : bool) (s : http_stream) (f : nghttp2_hd_nv) : bool :=
  negb (field_pseudo f && flag_bit s 6) && field_rule cp (stream_id s) f && negb (seen s f).

(** The stream behind a kept field. *)
Record step_result (s s' : http_stream) (f : nghttp2_hd_nv) : Prop := {
  sr_bits : forall i c, (i, c) ∈ tracked -> flag_bit s' i = flag_bit s i || c f;
  sr_regular : flag_bit s' 6 = flag_bit s 6 || negb (field_pseudo f);
  sr_length : content_length s' = if hn_token f =? NGHTTP2_TOKEN_CONTENT_LENGTH then parse_uint (hn_value f) else content_length s;
  sr_id : stream_id s' = stream_id s;
  sr_flags : sm_flags s' = sm_flags s;
}.

(** ** One field *)

Lemma parse_priority_total dest value : exists e rv, nghttp2_http_parse_priority dest value = Some (e, rv).
Proof.
  unfold nghttp2_http_parse_priority.
  destruct (sf_dict_total value (S (length value)) (length value + 4)) as (l & rv & E & _); [lia..|].
  destruct (priority_loop_members _ _ _ l rv dest E) as (pri' & -> & _). by eexists _, _.
Qed.

Lemma clear_flag_bit s n i : 0 <= n < 32 -> 0 <= i < 32 -> i <> n ->
  flag_bit (set_http_flags s (http_flags s .& u32 (Z.lnot (2 ^ n)))) i = flag_bit s i.
Proof.
  intros Hn Hi Hne. unfold flag_bit. cbn [http_flags set_http_flags]. rewrite Z.land_spec. unfold u32.
  rewrite Z.mod_pow2_bits_low, Z.lnot_spec, Z.pow2_bits_eqb by lia. rewrite (proj2 (Z.eqb_neq n i)) by lia. apply andb_true_r.
Qed.

Lemma memeq_all a b : length a = length b -> memeq a b (length b) = bool_decide (a = b).
Proof. intros H. unfold memeq. apply bool_decide_ext. by rewrite !take_ge by lia. Qed.

Lemma lstreq_spec a b : lstreq a b = bool_decide (a = b).
Proof.
  unfold lstreq. destruct (Nat.eqb_spec (length a) (length b)) as [H|H]; cbn [andb]; [by apply memeq_all|].
  symmetry. apply bool_decide_eq_false. congruence.
Qed.

Lemma memieq_all a b : length a = length b -> memieq a b (length b) = bool_decide (map lower a = map lower b).
Proof.
  assert (forall x, downcase x = lower x) as Hl.
  { intros x. unfold downcase, lower. destruct (decide (is_upper x)) as [Hu|Hu]; unfold is_upper in Hu; destruct (_ && _) eqn:E; lia. }
  revert b. induction a as [|x a IH]; intros [|y b]; try done. intros [= Hab]. cbn [memieq length map]. rewrite !Hl, (IH b Hab).
  destruct (Z.eqb_spec (lower x) (lower y)) as [->|Hne]; symmetry.
  - apply bool_decide_ext. split; [by intros [= ?]|by intros ->].
  - apply bool_decide_eq_false. by intros [= ? _].
Qed.

Lemma lstrieq_spec a b : lstrieq a b = caseless a b.
Proof.
  unfold lstrieq, caseless. destruct (Nat.eqb_spec (length a) (length b)) as [H|H]; cbn [andb]; [by apply memieq_all|].
  symmetry. apply bool_decide_eq_false. intros E. apply (f_equal length) in E. by rewrite !length_map in E.
Qed.

Lemma on_method_spec s v :
  on_method s v =
    if bool_decide (str "CONNECT" = v) then
      if stream_id s mod 2 =? 0 then http_error s else Some (or_http_flags s NGHTTP2_HTTP_FLAG_METH_CONNECT, 0)
    else if bool_decide (str "OPTIONS" = v) then Some (or_http_flags s NGHTTP2_HTTP_FLAG_METH_OPTIONS, 0)
    else if bool_decide (str "HEAD" = v) then Some (or_http_flags s NGHTTP2_HTTP_FLAG_METH_HEAD, 0)
    else Some (s, 0).
Proof.
  unfold on_method. rewrite !lstreq_spec.
  destruct (bool_decide_reflect (str "CONNECT" = v)) as [<- |H1]; [done|].
  destruct (bool_decide_reflect (str "OPTIONS" = v)) as [<- |H2]; [done|].
  destruct (bool_decide_reflect (str "HEAD" = v)) as [<- |H3]; [done|].
  destruct (Nat.eqb_spec (length v) 4); [done|]. destruct (Nat.eqb_spec (length v) 7) as [H7|]; [|done].
  destruct (lookup_lt_is_Some_2 v 6) as [c ->]; [lia|]. cbn [mbind option_bind]. by destruct (c =? 84), (c =? 83).
Qed.

Lemma on_scheme_spec s v :
  on_scheme s v = Some (if caseless (str "http") v || caseless (str "https") v then or_http_flags s NGHTTP2_HTTP_FLAG_SCHEME_HTTP else s, 0).
Proof.
  rewrite <- !lstrieq_spec. unfold on_scheme, lstrieq. change (length (str "http")) with 4%nat. change (length (str "https")) with 5%nat.
  rewrite (Nat.eqb_sym 4), (Nat.eqb_sym 5). destruct (Nat.eqb_spec (length v) 4) as [-> |]; [done|].
  destruct (Nat.eqb_spec (length v) 5) as [-> |]; done.
Qed.

Lemma on_path_spec s v : v <> [] ->
  on_path s v = Some (if mem_get v 0 =? 47 then or_http_flags s NGHTTP2_HTTP_FLAG_PATH_REGULAR
                      else if bool_decide (v = [42]) then or_http_flags s NGHTTP2_HTTP_FLAG_PATH_ASTERISK else s, 0).
Proof.
  destruct v as [|c v]; [done|]. intros _. unfold on_path. cbn [lookup list_lookup mbind option_bind mem_get nth length].
  destruct (c =? 47); [done|]. destruct v as [|d v]; cbn [length Nat.eqb andb].
  - destruct (Z.eqb_spec c 42) as [-> |]; [done|]. rewrite bool_decide_eq_false_2; [done|congruence].
  - by rewrite bool_decide_eq_false_2.
Qed.

Lemma with_pseudo_spec i s f k : 0 <= i ->
  with_pseudo s f (2 ^ i) k = if flag_bit s i || is_nil (hn_value f) then http_error s else k (or_http_flags s (2 ^ i)).
Proof.
  intros Hi. unfold with_pseudo, check_pseudo_header. rewrite has_flag_bit by done.
  assert ((length (hn_value f) =? 0)%nat = is_nil (hn_value f)) as -> by (by destruct (hn_value f)). by destruct (_ || _).
Qed.

Ltac closed_term a := assert_fails (idtac; match a with context [?x] => is_var x end).

(** Evaluates comparisons of constants. *)
Ltac tok_compute :=
  repeat match goal with
  | |- context [?a =? ?b] =>
      closed_term a; closed_term b;
      let r := eval vm_compute in (a =? b) in
      match r with
      | true => change (a =? b) with true
      | false => change (a =? b) with false
      end
  end; cbn beta iota; cbn [orb andb negb].

(** The result of the cases of the [switch], which leave [field_done] to do. *)
Record case_result (s s' : http_stream) (f : nghttp2_hd_nv) : Prop := {
  cr_bits : forall i c, (i, c) ∈ tracked -> flag_bit s' i = flag_bit s i || c f;
  cr_regular : flag_bit s' 6 = flag_bit s 6;
  cr_length : content_length s' = if hn_token f =? NGHTTP2_TOKEN_CONTENT_LENGTH then parse_uint (hn_value f) else content_length s;
  cr_id : stream_id s' = stream_id s;
  cr_flags : sm_flags s' = sm_flags s;
}.

Lemma field_done_result s s' f : case_result s s' f -> step_result s (field_done s' (field_pseudo f)) f.
Proof.
  intros [Hb Hr Hl Hi Hf]. unfold field_done. destruct (field_pseudo f) eqn:Hp.
  - split; [done| |done..]. by rewrite Hp, orb_false_r.
  - change NGHTTP2_HTTP_FLAG_PSEUDO_HEADER_DISALLOWED with (2 ^ 6). split; [| |done..].
    + intros i c Hin. rewrite or_flag_bit, (Hb i c Hin); [| |].
      * assert (i =? 6 = false) as ->; [|apply orb_false_r]. apply Z.eqb_neq. intros ->. unfold tracked in Hin. 
        rewrite !elem_of_cons, elem_of_nil in Hin. naive_solver.
      * lia.
      * unfold tracked in Hin. rewrite !elem_of_cons, elem_of_nil in Hin. destruct_or!; simplify_eq; lia.
    + rewrite or_flag_bit, Hr, Hp by lia. done.
Qed.

(** The tests of one field against all bits. *)
Ltac tracked_bits E :=
  let Hin := fresh in
  intros i c Hin; unfold tracked in Hin; rewrite !elem_of_cons, elem_of_nil in Hin;
  destruct_or!; simplify_eq; try done;
  unfold method_is, path_regular, path_asterisk, scheme_http, has_token; rewrite ?E; tok_compute;
  rewrite ?or_flag_bit by lia; tok_compute; rewrite ?orb_false_r, ?orb_true_r; try done.

Lemma is_pseudo_spec f : hn_name f <> [] -> is_pseudo f = Some (field_pseudo f).
Proof. unfold is_pseudo, field_pseudo. by destruct (hn_name f). Qed.

(** A case succeeds exactly when the field is new and obeys its rule. *)
Definition case_ok (b : bool) (s : http_stream) (f : nghttp2_hd_nv) (r : option (http_stream * Z)) : Prop :=
  if b then exists s', r = Some (s', 0) /\ case_result s s' f else exists s', r = Some (s', NGHTTP2_ERR_HTTP_HEADER).

Lemma case_error s f : case_ok false s f (http_error s).
Proof. by eexists. Qed.

(** Fields that leave the stream as it is. *)
Lemma case_same s f : (forall i c, (i, c) ∈ tracked -> c f = false) -> hn_token f <> NGHTTP2_TOKEN_CONTENT_LENGTH ->
  case_ok true s f (Some (s, 0)).
Proof.
  intros Hc Hl. exists s. split; [done|]. split; try done.
  - intros i c Hin. rewrite (Hc i c Hin). by rewrite orb_false_r.
  - by rewrite (proj2 (Z.eqb_neq _ _)).
Qed.

(** The tracked conditions are about these tokens only. *)
Lemma tracked_other f : hn_token f ∉ [NGHTTP2_TOKEN__AUTHORITY; NGHTTP2_TOKEN__METHOD; NGHTTP2_TOKEN__PATH; NGHTTP2_TOKEN__SCHEME;
    NGHTTP2_TOKEN__PROTOCOL; NGHTTP2_TOKEN_HOST] -> forall i c, (i, c) ∈ tracked -> c f = false.
Proof.
  rewrite !not_elem_of_cons. intros (N1 & N2 & N3 & N4 & N5 & N6 & _) i c Hin. apply Z.eqb_neq in N1, N2, N3, N4, N5, N6.
  unfold tracked in Hin. rewrite !elem_of_cons, elem_of_nil in Hin.
  destruct_or!; simplify_eq; try done; unfold method_is, path_regular, path_asterisk, scheme_http, has_token; by rewrite ?N1, ?N2, ?N3, ?N4, ?N5, ?N6.
Qed.

Lemma case_priority s f trailer : hn_token f = NGHTTP2_TOKEN_PRIORITY -> case_ok true s f (on_priority s (hn_value f) trailer).
Proof.
  intros E. assert (hn_token f ∉ [NGHTTP2_TOKEN__AUTHORITY; NGHTTP2_TOKEN__METHOD; NGHTTP2_TOKEN__PATH; NGHTTP2_TOKEN__SCHEME;
    NGHTTP2_TOKEN__PROTOCOL; NGHTTP2_TOKEN_HOST] /\ hn_token f <> NGHTTP2_TOKEN_CONTENT_LENGTH) as [Hn Hl].
  { rewrite E. split; [|done]. rewrite !not_elem_of_cons. repeat split; try done. apply not_elem_of_nil. }
  unfold on_priority. destruct (_ && _); [|apply case_same; [by apply tracked_other|done]].
  destruct (parse_priority_total (nghttp2_extpri_from_uint8 (http_extpri s)) (hn_value f)) as (e & rv & ->). cbn [mbind option_bind].
  assert (forall s', (forall i, 0 <= i < 16 -> flag_bit s' i = flag_bit s i) -> content_length s' = content_length s ->
    stream_id s' = stream_id s -> sm_flags s' = sm_flags s -> case_ok true s f (Some (s', 0))) as H.
  { intros s' Hb Hc Hi Hf. exists s'. split; [done|]. split; try done.
    - intros i c Hin. rewrite (tracked_other f Hn i c Hin), orb_false_r. apply Hb. unfold tracked in Hin.
      rewrite !elem_of_cons, elem_of_nil in Hin. destruct_or!; simplify_eq; lia.
    - apply Hb. lia.
    - by rewrite (proj2 (Z.eqb_neq _ _)). }
  destruct (rv =? 0); apply H; try done; intros i Hi.
  - change NGHTTP2_HTTP_FLAG_PRIORITY with (2 ^ 16). rewrite or_flag_bit, (proj2 (Z.eqb_neq i 16)), orb_false_r by lia. done.
  - change NGHTTP2_HTTP_FLAG_PRIORITY with (2 ^ 16). change NGHTTP2_HTTP_FLAG_BAD_PRIORITY with (2 ^ 17).
    rewrite or_flag_bit, (proj2 (Z.eqb_neq i 17)), orb_false_r by lia. apply clear_flag_bit; lia.
Qed.

Lemma case_once i s f k (rule : bool) : 0 <= i ->
  (is_nil (hn_value f) = false -> case_ok rule s f (k (or_http_flags s (2 ^ i)))) ->
  case_ok (negb (is_nil (hn_value f)) && rule && negb (flag_bit s i)) s f (with_pseudo s f (2 ^ i) k).
Proof.
  intros Hi Hk. rewrite with_pseudo_spec by done. destruct (flag_bit s i); cbn [orb negb].
  - rewrite andb_false_r. apply case_error.
  - rewrite andb_true_r. destruct (is_nil (hn_value f)); cbn [negb andb]; [apply case_error|]. by apply Hk.
Qed.

(** A stream on which the given bits were set. *)
Lemma case_bits bits s s' f : (forall i, 0 <= i < 16 -> flag_bit s' i = flag_bit s i || one_of bits i) ->
  Forall (fun '(i, c) => c f = one_of bits i) tracked -> one_of bits 6 = false -> content_length s' = content_length s ->
  stream_id s' = stream_id s -> sm_flags s' = sm_flags s -> hn_token f <> NGHTTP2_TOKEN_CONTENT_LENGTH ->
  case_ok true s f (Some (s', 0)).
Proof.
  intros Hb Hc H6 Hl Hi Hf Ht. exists s'. split; [done|]. split; try done.
  - intros i c Hin. rewrite Forall_forall in Hc. rewrite (Hc (i, c) Hin). apply Hb. unfold tracked in Hin.
    rewrite !elem_of_cons, elem_of_nil in Hin. destruct_or!; simplify_eq; lia.
  - rewrite Hb, H6, orb_false_r by lia. done.
  - by rewrite (proj2 (Z.eqb_neq _ _)).
Qed.

Lemma or_bits_nil s i : flag_bit s i = flag_bit s i || one_of [] i.
Proof. by rewrite orb_false_r. Qed.

Lemma or_bits_cons s s' n bits i : 0 <= n -> 0 <= i -> flag_bit s' i = flag_bit s i || one_of bits i ->
  flag_bit (or_http_flags s' (2 ^ n)) i = flag_bit s i || one_of (n :: bits) i.
Proof.
  intros Hn Hi H. rewrite or_flag_bit, H by done. unfold one_of. cbn [existsb]. rewrite <- orb_assoc. f_equal. apply orb_comm.
Qed.

(** Setting one or two bits. *)
Lemma case_one n s f : 0 <= n -> n <> 6 -> Forall (fun '(i, c) => c f = one_of [n] i) tracked ->
  hn_token f <> NGHTTP2_TOKEN_CONTENT_LENGTH -> case_ok true s f (Some (or_http_flags s (2 ^ n), 0)).
Proof.
  intros Hn H6 Hc Ht. apply (case_bits [n]); try done.
  - intros i Hi. apply or_bits_cons; [lia..|apply or_bits_nil].
  - unfold one_of. cbn [existsb]. rewrite (proj2 (Z.eqb_neq 6 n)) by lia. done.
Qed.

Lemma case_two m n s f : 0 <= m -> 0 <= n -> m <> 6 -> n <> 6 -> Forall (fun '(i, c) => c f = one_of [n; m] i) tracked ->
  hn_token f <> NGHTTP2_TOKEN_CONTENT_LENGTH -> case_ok true s f (Some (or_http_flags (or_http_flags s (2 ^ m)) (2 ^ n), 0)).
Proof.
  intros Hm Hn Hm6 Hn6 Hc Ht. apply (case_bits [n; m]); try done.
  - intros i Hi. apply or_bits_cons; [lia..|]. apply or_bits_cons; [lia..|apply or_bits_nil].
  - unfold one_of. cbn [existsb]. rewrite (proj2 (Z.eqb_neq 6 n)), (proj2 (Z.eqb_neq 6 m)) by lia. done.
Qed.

(** Evaluates the tracked conditions of a field whose token is known. *)
Ltac tracked_conds E :=
  unfold tracked; repeat (apply Forall_cons; split; [unfold method_is, path_regular, path_asterisk, scheme_http, has_token; rewrite ?E;
    tok_compute; unfold one_of; cbn [existsb]; tok_compute; try done|]); try by apply Forall_nil.

Lemma case_method s f : hn_token f = NGHTTP2_TOKEN__METHOD ->
  case_ok (negb (bool_decide (str "CONNECT" = (hn_value f)) && (stream_id s mod 2 =? 0))) s f
    (on_method (or_http_flags s (2 ^ 2)) (hn_value f)).
Proof.
  intros E. assert (hn_token f <> NGHTTP2_TOKEN_CONTENT_LENGTH) as Hl by (by rewrite E).
  rewrite on_method_spec. change (stream_id (or_http_flags s (2 ^ 2))) with (stream_id s).
  destruct (bool_decide (str "CONNECT" = (hn_value f))) eqn:H1; cbn [andb].
  - destruct (stream_id s mod 2 =? 0); cbn [negb]; [by eexists|]. apply (case_two 2 7); try done.
    tracked_conds E. apply bool_decide_eq_true in H1 as <-. done.
  - cbn [negb]. destruct (bool_decide (str "OPTIONS" = (hn_value f))) eqn:H2.
    + apply (case_two 2 9); try done. tracked_conds E.
    + destruct (bool_decide (str "HEAD" = (hn_value f))) eqn:H3.
      * apply (case_two 2 8); try done. tracked_conds E.
      * apply (case_one 2); try done. tracked_conds E.
Qed.

Lemma case_path s f : hn_token f = NGHTTP2_TOKEN__PATH -> is_nil (hn_value f) = false ->
  case_ok true s f (on_path (or_http_flags s (2 ^ 1)) (hn_value f)).
Proof.
  intros E Hv. assert (hn_token f <> NGHTTP2_TOKEN_CONTENT_LENGTH) as Hl by (by rewrite E).
  rewrite on_path_spec by (by destruct (hn_value f)). destruct (mem_get (hn_value f) 0 =? 47) eqn:H1.
  - apply (case_two 1 11); try done. tracked_conds E. apply bool_decide_eq_false. intros H. by rewrite H in H1.
  - destruct (bool_decide (hn_value f = [42])) eqn:H2.
    + apply (case_two 1 12); try done. tracked_conds E.
    + apply (case_one 1); try done. tracked_conds E.
Qed.

Lemma case_scheme s f : hn_token f = NGHTTP2_TOKEN__SCHEME -> case_ok true s f (on_scheme (or_http_flags s (2 ^ 3)) (hn_value f)).
Proof.
  intros E. assert (hn_token f <> NGHTTP2_TOKEN_CONTENT_LENGTH) as Hl by (by rewrite E). rewrite on_scheme_spec.
  destruct (caseless (str "http") (hn_value f) || caseless (str "https") (hn_value f)) eqn:H1.
  - apply (case_two 3 13); try done. tracked_conds E.
  - apply (case_one 3); try done. tracked_conds E.
Qed.

Lemma case_content_length s f : hn_token f = NGHTTP2_TOKEN_CONTENT_LENGTH -> (forall i c, (i, c) ∈ tracked -> c f = false) ->
  case_ok (bool_decide (is_Some (decimal (hn_value f))) && negb (negb (content_length s =? -1))) s f (on_content_length s (hn_value f)).
Proof.
  intros E Ht. unfold on_content_length. destruct (content_length s =? -1); cbn [negb]; [|rewrite andb_false_r; apply case_error].
  rewrite andb_true_r, parse_uint_decimal. destruct (decimal (hn_value f)) as [n|] eqn:Hd; cbn [default content_length set_content_length].
  - rewrite bool_decide_eq_true_2 by done. apply decimal_range in Hd as Hr. unfold id. rewrite (proj2 (Z.eqb_neq n (-1))) by lia.
    eexists. split; [done|]. split; try done.
    + intros i c Hin. rewrite (Ht i c Hin), orb_false_r. done.
    + rewrite E. tok_compute. by rewrite parse_uint_decimal, Hd.
  - rewrite bool_decide_eq_false_2 by (intros [? ?]; done). by eexists.
Qed.

Lemma request_case cp s f trailer : field_wf f ->
  case_ok (field_rule cp (stream_id s) f && negb (seen s f)) s f (request_switch s f trailer cp (field_pseudo f)).
Proof.
  intros Hwf. unfold request_switch, field_rule, seen, once_bit. cbv zeta.
  destruct (Z.eqb_spec (hn_token f) NGHTTP2_TOKEN__AUTHORITY) as [E|N1].
  { rewrite E. tok_compute. rewrite <- (andb_true_r (negb (is_nil _))). apply (case_once 0); [lia|]. intros _.
    apply (case_one 0); try done; [tracked_conds E|by rewrite E]. }
  destruct (Z.eqb_spec (hn_token f) NGHTTP2_TOKEN__METHOD) as [E|N2].
  { rewrite ?E. tok_compute. apply (case_once 2); [lia|]. intros _. by apply case_method. }
  destruct (Z.eqb_spec (hn_token f) NGHTTP2_TOKEN__PATH) as [E|N3].
  { rewrite ?E. tok_compute. rewrite <- (andb_true_r (negb (is_nil _))). apply (case_once 1); [lia|]. intros Hv. by apply case_path. }
  destruct (Z.eqb_spec (hn_token f) NGHTTP2_TOKEN__SCHEME) as [E|N4].
  { rewrite ?E. tok_compute. rewrite <- (andb_true_r (negb (is_nil _))). apply (case_once 3); [lia|]. intros _. by apply case_scheme. }
  destruct (Z.eqb_spec (hn_token f) NGHTTP2_TOKEN__PROTOCOL) as [E|N5].
  { rewrite ?E. tok_compute. destruct cp; cbn [negb]; [|rewrite andb_false_r; apply case_error]. apply (case_once 15); [lia|]. intros _.
    apply (case_one 15); try done; [tracked_conds E|by rewrite E]. }
  destruct (Z.eqb_spec (hn_token f) NGHTTP2_TOKEN_HOST) as [E|N6].
  { rewrite ?E. tok_compute. rewrite <- (andb_true_r (negb (is_nil _))). apply (case_once 4); [lia|]. intros _.
    apply (case_one 4); try done; [tracked_conds E|by rewrite E]. }
  assert (forall i c, (i, c) ∈ tracked -> c f = false) as Ht.
  { apply tracked_other. rewrite !not_elem_of_cons. repeat split; try done. apply not_elem_of_nil. }
  cbn [orb]. destruct (Z.eqb_spec (hn_token f) NGHTTP2_TOKEN_CONTENT_LENGTH) as [E|N7]; [by apply case_content_length|].
  cbn [negb]. rewrite andb_true_r. unfold one_of. cbn [existsb]. rewrite !orb_assoc, orb_false_r.
  destruct (_ || _) eqn:Hconn; [apply case_error|]. destruct (hn_token f =? NGHTTP2_TOKEN_TE).
  { rewrite lstrieq_spec. destruct (caseless _ _); cbn [negb]; [by apply case_same|apply case_error]. }
  destruct (Z.eqb_spec (hn_token f) NGHTTP2_TOKEN_PRIORITY) as [E|N8].
  { assert (field_pseudo f = false) as ->; [|by apply case_priority]. unfold field_pseudo. by rewrite (field_token_name f _ Hwf E). }
  destruct (field_pseudo f); cbn [negb]; [apply case_error|by apply case_same].
Qed.

(** ** A header block *)

(** The session passes each field on and resets the stream at the first error. *)
Fixpoint receive_fields (session : http_session) (s : http_stream) (frame : nghttp2_frame_hd) (fs : list nghttp2_hd_nv)
    : option (http_stream * bool) :=
  match fs with
  | [] => Some (s, true)
  | f :: fs =>
      '(s, rv) ← nghttp2_http_on_header session s frame f false;
      if rv =? NGHTTP2_ERR_HTTP_HEADER then Some (s, false) else receive_fields session s frame fs
  end.

Definition receive_request (session : http_session) (s : http_stream) (frame : nghttp2_frame_hd) (fs : list nghttp2_hd_nv)
    : option (http_stream * bool) :=
  '(s, ok) ← receive_fields session s frame fs;
  if (ok : bool) then let '(s, rv) := nghttp2_http_on_request_headers s frame in Some (s, rv =? 0) else Some (s, false).

(** The fields that are not dropped, for a stream with the given flags. *)
Definition is_kept (s : http_stream) (f : nghttp2_hd_nv) : bool := match classify s f with Kept => true | _ => false end.
Definition kept (s : http_stream) (fs : list nghttp2_hd_nv) : list nghttp2_hd_nv := List.filter (is_kept s) fs.

Definition occurs (c : nghttp2_hd_nv -> bool) (fs : list nghttp2_hd_nv) : bool := existsb c fs.

(** The conditions on the fields of a request one by one and in order. *)
Record fields_ok (cp : bool) (s0 : http_stream) (fs : list nghttp2_hd_nv) : Prop := {
  fo_valid : Forall (fun f => classify s0 f <> Fatal) fs;
  fo_rules : Forall (fun f => field_rule cp (stream_id s0) f = true) (kept s0 fs);
  fo_order : forall a f b, fs = a ++ f :: b -> field_pseudo f = true -> Forall (fun g => field_pseudo g = true) a;
  fo_once : forall a f b, kept s0 fs = a ++ f :: b -> hn_token f ∈ once_tokens -> occurs (has_token (hn_token f)) a = false;
}.

(** The first declared length. *)
Fixpoint declared_length (fs : list nghttp2_hd_nv) : Z :=
  match fs with
  | [] => -1
  | f :: fs => if has_token NGHTTP2_TOKEN_CONTENT_LENGTH f then default (-1) (decimal (hn_value f)) else declared_length fs
  end.

(** What the stream knows about the fields received so far. *)
Record stream_knows (s0 s : http_stream) (fs : list nghttp2_hd_nv) : Prop := {
  sk_bits : forall i c, (i, c) ∈ tracked -> flag_bit s i = occurs c (kept s0 fs);
  sk_regular : flag_bit s 6 = occurs (fun f => negb (field_pseudo f)) fs;
  sk_length : content_length s = declared_length (kept s0 fs);
  sk_id : stream_id s = stream_id s0;
  sk_flags : sm_flags s = sm_flags s0;
}.

Lemma occurs_snoc c fs f : occurs c (fs ++ [f]) = occurs c fs || c f.
Proof. unfold occurs. rewrite existsb_app. cbn [existsb]. by rewrite orb_false_r. Qed.

Lemma kept_snoc s fs f : kept s (fs ++ [f]) = kept s fs ++ (if is_kept s f then [f] else []).
Proof. unfold kept. by rewrite List.filter_app. Qed.

Lemma declared_length_snoc fs f : declared_length (fs ++ [f]) =
  if occurs (has_token NGHTTP2_TOKEN_CONTENT_LENGTH) fs then declared_length fs else declared_length [f].
Proof.
  induction fs as [|g fs IH]; cbn [app declared_length occurs existsb]; [done|]. fold (occurs (has_token NGHTTP2_TOKEN_CONTENT_LENGTH) fs).
  destruct (has_token NGHTTP2_TOKEN_CONTENT_LENGTH g); cbn [orb]; [done|]. exact IH.
Qed.

Lemma snoc_split {A} (a b : list A) x y l : l ++ [x] = a ++ y :: b -> (b = [] /\ a = l /\ y = x) \/ exists b', b = b' ++ [x] /\ l = a ++ y :: b'.
Proof.
  destruct b as [|z b _] using rev_ind; intros H.
  - apply app_inj_tail in H as [<- <-]. by left.
  - right. rewrite app_comm_cons, app_assoc in H. apply app_inj_tail in H as [-> ->]. by exists b.
Qed.

(** The conditions for one more field. *)
Definition snoc_ok (cp : bool) (s0 : http_stream) (fs : list nghttp2_hd_nv) (f : nghttp2_hd_nv) : Prop :=
  classify s0 f <> Fatal /\
  (is_kept s0 f = true -> field_rule cp (stream_id s0) f = true /\
     (hn_token f ∈ once_tokens -> occurs (has_token (hn_token f)) (kept s0 fs) = false)) /\
  (field_pseudo f = true -> occurs (fun g => negb (field_pseudo g)) fs = false).

Lemma all_pseudo fs : occurs (fun g => negb (field_pseudo g)) fs = false <-> Forall (fun g => field_pseudo g = true) fs.
Proof.
  unfold occurs. induction fs as [|g fs IH]; cbn [existsb]; [done|]. rewrite orb_false_iff, Forall_cons, negb_false_iff, IH. done.
Qed.

Lemma fields_ok_nil cp s0 : fields_ok cp s0 [].
Proof. split; try constructor; intros [|? ?] f b H; done. Qed.

Lemma fields_ok_snoc cp s0 fs f : fields_ok cp s0 (fs ++ [f]) <-> fields_ok cp s0 fs /\ snoc_ok cp s0 fs f.
Proof.
  split.
  - intros [Hv Hr Ho H1]. apply Forall_app in Hv as [Hv Hf]. rewrite Forall_singleton in Hf. rewrite kept_snoc in *.
    apply Forall_app in Hr as [Hr Hrf]. split; [split; try done|split; [done|split]].
    + intros a g b -> Hg. apply (Ho a g (b ++ [f])); [|done]. by rewrite <- app_assoc.
    + intros a g b E Hg. rewrite E in H1. apply (H1 a g (b ++ if is_kept s0 f then [f] else [])); [|done]. by rewrite <- app_assoc.
    + intros Hk. rewrite Hk in *. rewrite Forall_singleton in Hrf. split; [done|]. intros Ht. by apply (H1 _ f []).
    + intros Hp. apply all_pseudo. by apply (Ho fs f []).
  - intros [[Hv Hr Ho H1] (Hf & Hk & Hp)]. split.
    + apply Forall_app. by rewrite Forall_singleton.
    + rewrite kept_snoc. apply Forall_app. split; [done|]. destruct (is_kept s0 f); [|constructor]. rewrite Forall_singleton. by apply Hk.
    + intros a g b E Hg. apply snoc_split in E as [(-> & -> & ->)|(b' & -> & ->)]; [by apply all_pseudo, Hp|by eapply Ho].
    + rewrite kept_snoc. destruct (is_kept s0 f) eqn:Hkf; [|rewrite app_nil_r; exact H1]. intros a g b E Hg.
      apply snoc_split in E as [(-> & -> & ->)|(b' & -> & E)]; [by apply Hk|by eapply H1].
Qed.

Lemma fields_ok_app cp s0 a b : fields_ok cp s0 (a ++ b) -> fields_ok cp s0 a.
Proof.
  revert a. induction b as [|f b IH] using rev_ind; intros a H; [by rewrite app_nil_r in H|].
  rewrite app_assoc in H. apply fields_ok_snoc in H as [H _]. by apply IH.
Qed.

(** ** The checks implement the conditions *)

Lemma value_valid_flags r s s' f : sm_flags s = sm_flags s' -> value_valid r s f = value_valid r s' f.
Proof. intros H. unfold value_valid, check_value, no_ws_validation. by rewrite H. Qed.

Lemma once_bit_tracked t i : once_bit t = Some i -> (i, has_token t) ∈ tracked /\ t ∈ once_tokens.
Proof.
  unfold once_bit, tracked, once_tokens. intros H.
  repeat match type of H with (if ?x =? ?y then _ else _) = _ => destruct (Z.eqb_spec x y) as [-> |] end; simplify_eq; set_solver.
Qed.

Lemma once_tokens_cases t : t ∈ once_tokens -> is_Some (once_bit t) \/ t = NGHTTP2_TOKEN_CONTENT_LENGTH.
Proof. unfold once_tokens. rewrite !elem_of_cons, elem_of_nil. intros H. destruct_or!; subst; (by left; eexists) || by right. Qed.

(** Every declared length is a number once the rules hold. *)
Lemma declared_seen cp sid fs : Forall (fun f => field_rule cp sid f = true) fs ->
  negb (declared_length fs =? -1) = occurs (has_token NGHTTP2_TOKEN_CONTENT_LENGTH) fs.
Proof.
  induction 1 as [|f fs Hf Hfs IH]; [done|]. cbn [declared_length occurs existsb]. fold (occurs (has_token NGHTTP2_TOKEN_CONTENT_LENGTH) fs).
  destruct (has_token NGHTTP2_TOKEN_CONTENT_LENGTH f) eqn:Ht; cbn [orb]; [|done]. unfold has_token in Ht. apply Z.eqb_eq in Ht.
  unfold field_rule in Hf. rewrite Ht in Hf. revert Hf. tok_compute. intros Hf. apply bool_decide_eq_true in Hf as [n Hn].
  rewrite Hn. apply decimal_range in Hn. cbn [default]. unfold id. rewrite (proj2 (Z.eqb_neq n (-1))) by lia. done.
Qed.

Lemma seen_occurs cp s0 s fs f : stream_knows s0 s fs -> Forall (fun f => field_rule cp (stream_id s0) f = true) (kept s0 fs) ->
  seen s f = false <-> (hn_token f ∈ once_tokens -> occurs (has_token (hn_token f)) (kept s0 fs) = false).
Proof.
  intros Hk Hr. unfold seen. destruct (once_bit (hn_token f)) as [i|] eqn:Hb.
  - apply once_bit_tracked in Hb as [Hb1 Hb2]. rewrite (sk_bits _ _ _ Hk _ _ Hb1). split; auto.
  - destruct (Z.eqb_spec (hn_token f) NGHTTP2_TOKEN_CONTENT_LENGTH) as [E|E].
    + rewrite (sk_length _ _ _ Hk), (declared_seen cp (stream_id s0)), E by done. split; [done|]. intros H. apply H. unfold once_tokens. set_solver.
    + split; [|done]. intros _ Ht. apply once_tokens_cases in Ht as [[j Hj]|Ht]; congruence.
Qed.

Lemma header_name_nonempty name : nghttp2_check_header_name name = true -> name <> [].
Proof. by destruct name. Qed.

(** A dropped field. *)
Lemma ignore_step cp s0 s fs f : stream_knows s0 s fs -> classify s0 f = Ignored -> field_pseudo f = false ->
  snoc_ok cp s0 fs f /\ stream_knows s0 (or_http_flags s NGHTTP2_HTTP_FLAG_PSEUDO_HEADER_DISALLOWED) (fs ++ [f]).
Proof.
  intros [Hb Hr Hl Hi Hf] Hc Hp. assert (is_kept s0 f = false) as Hk by (unfold is_kept; by rewrite Hc).
  split; [split; [by rewrite Hc|]; rewrite Hk, Hp; done|].
  change NGHTTP2_HTTP_FLAG_PSEUDO_HEADER_DISALLOWED with (2 ^ 6). split; try done.
  - intros i c Hin. rewrite kept_snoc, Hk, app_nil_r, <- (Hb i c Hin). unfold tracked in Hin. rewrite !elem_of_cons, elem_of_nil in Hin.
    destruct_or!; simplify_eq; rewrite or_flag_bit by lia; tok_compute; by rewrite orb_false_r.
  - rewrite or_flag_bit, occurs_snoc, Hr, Hp by lia. done.
  - by rewrite kept_snoc, Hk, app_nil_r.
Qed.

(** A kept field. *)
Lemma kept_step cp s0 s fs f : field_wf f -> stream_knows s0 s fs -> fields_ok cp s0 fs -> classify s0 f = Kept -> hn_name f <> [] ->
  exists s' rv, http_request_on_header s f false cp = Some (s', rv) /\
    if rv =? NGHTTP2_ERR_HTTP_HEADER then ~ snoc_ok cp s0 fs f else snoc_ok cp s0 fs f /\ stream_knows s0 s' (fs ++ [f]).
Proof.
  intros Hwf Hk Hok Hc Hn. unfold http_request_on_header. rewrite is_pseudo_spec by done. cbn [mbind option_bind].
  assert (is_kept s0 f = true) as Hkept by (unfold is_kept; by rewrite Hc). unfold misplaced. cbn [orb].
  change NGHTTP2_HTTP_FLAG_PSEUDO_HEADER_DISALLOWED with (2 ^ 6). rewrite has_flag_bit, (sk_regular _ _ _ Hk) by lia.
  destruct (field_pseudo f && occurs _ fs) eqn:Hmis.
  { apply andb_true_iff in Hmis as [Hp Ho]. eexists _, _. split; [done|]. cbn. intros (_ & _ & H). rewrite H in Ho; done. }
  pose proof (request_case cp s f false Hwf) as Hcase. rewrite (sk_id _ _ _ Hk) in Hcase.
  pose proof (seen_occurs cp s0 s fs f Hk (fo_rules _ _ _ Hok)) as Hseen.
  destruct (field_rule cp (stream_id s0) f && negb (seen s f)) eqn:Hrule; destruct Hcase as (s' & E); [destruct E as [E Hres]|]; rewrite ?E.
  2:{ cbn [mbind option_bind]. eexists _, _. split; [done|]. cbn. intros (_ & H & _). destruct (H Hkept) as [Hr Ho].
      apply Hseen in Ho. by rewrite Hr, Ho in Hrule. }
  apply andb_true_iff in Hrule as [Hrule Hs%negb_true_iff]. cbn [mbind option_bind]. eexists _, _. split; [done|]. cbn.
  split; [split; [by rewrite Hc|split]|].
  - intros _. split; [done|]. by apply Hseen.
  - intros Hp. rewrite Hp in Hmis. done.
  - apply field_done_result in Hres as [Rb Rr Rl Ri Rf]. destruct Hk as [Hb Hr Hl Hi Hf]. split; [| | |congruence..].
    + intros i c Hin. rewrite (Rb i c Hin), (Hb i c Hin), kept_snoc, Hkept, occurs_snoc. done.
    + by rewrite Rr, Hr, occurs_snoc.
    + rewrite Rl, parse_uint_decimal, kept_snoc, Hkept, declared_length_snoc, Hl. cbn [declared_length]. unfold has_token at 2.
      rewrite <- (declared_seen cp (stream_id s0)) by apply Hok. unfold seen in Hs.
      destruct (Z.eqb_spec (hn_token f) NGHTTP2_TOKEN_CONTENT_LENGTH) as [Et|Et].
      * rewrite Et in Hs. change (once_bit NGHTTP2_TOKEN_CONTENT_LENGTH) with (@None Z) in Hs. cbn iota in Hs.
        rewrite <- Hl. revert Hs. tok_compute. by intros ->.
      * destruct (Z.eqb_spec (declared_length (kept s0 fs)) (-1)) as [->|]; done.
Qed.

Lemma header_step session s0 s frame fs f :
  let cp := hs_server session && hs_connect_protocol session in
  is_request session frame = true -> field_wf f -> stream_knows s0 s fs -> fields_ok cp s0 fs ->
  exists s' rv, nghttp2_http_on_header session s frame f false = Some (s', rv) /\
    if rv =? NGHTTP2_ERR_HTTP_HEADER then ~ snoc_ok cp s0 fs f else snoc_ok cp s0 fs f /\ stream_knows s0 s' (fs ++ [f]).
Proof.
  intros cp Hreq Hwf Hk Hok. unfold nghttp2_http_on_header. rewrite Hreq. fold (field_pseudo f).
  rewrite (value_valid_flags true s s0 f (sk_flags _ _ _ Hk)).
  assert (forall v, classify s0 f = v -> v = Fatal -> ~ snoc_ok cp s0 fs f) as Hfatal by (intros v <- E [H _]; done).
  rewrite (classify_code s0 f Hwf) in Hfatal. destruct (nghttp2_check_header_name (hn_name f)) eqn:Hname; cbn [negb].
  - pose proof (header_name_nonempty _ Hname) as Hne. destruct (value_valid true s0 f) eqn:Hval; cbn [negb].
    + apply kept_step; try done. rewrite classify_code by done. by rewrite Hname, Hval.
    + rewrite is_pseudo_spec by done. cbn [mbind option_bind]. destruct (field_pseudo f) eqn:Hp.
      * eexists _, _. split; [done|]. cbn. by eapply Hfatal.
      * eexists _, _. split; [done|]. cbn. apply ignore_step; try done. rewrite classify_code by done. by rewrite Hname, Hval, Hp.
  - destruct (field_pseudo f) eqn:Hp; [|destruct (has_upper (hn_name f)) eqn:Hu]; cbn [orb] in Hfatal.
    + eexists _, _. split; [done|]. cbn. by eapply Hfatal.
    + eexists _, _. split; [done|]. cbn. by eapply Hfatal.
    + eexists _, _. split; [done|]. cbn. apply ignore_step; try done. rewrite classify_code by done. by rewrite Hname, Hp, Hu.
Qed.

Lemma receive_fields_spec session s0 s frame fs rest :
  let cp := hs_server session && hs_connect_protocol session in
  is_request session frame = true -> Forall field_wf rest -> stream_knows s0 s fs -> fields_ok cp s0 fs ->
  exists s' b, receive_fields session s frame rest = Some (s', b) /\
    if (b : bool) then fields_ok cp s0 (fs ++ rest) /\ stream_knows s0 s' (fs ++ rest) else ~ fields_ok cp s0 (fs ++ rest).
Proof.
  intros cp Hreq Hwf. revert s fs. induction Hwf as [|f rest Hf Hwf IH]; intros s fs Hk Hok; cbn [receive_fields].
  { eexists _, _. split; [done|]. cbn. by rewrite app_nil_r. }
  destruct (header_step session s0 s frame fs f Hreq Hf Hk Hok) as (s' & rv & -> & H). cbn [mbind option_bind].
  rewrite (app_assoc fs [f] rest : fs ++ f :: rest = _). destruct (rv =? NGHTTP2_ERR_HTTP_HEADER).
  - eexists _, _. split; [done|]. cbn. intros Hall. apply fields_ok_app, fields_ok_snoc in Hall as [_ Hs]. done.
  - destruct H as [Hs Hk']. apply IH; [done|]. by apply fields_ok_snoc.
Qed.

(** ** Complete requests *)

(** The pseudo-headers that a request needs: a plain CONNECT has the method and the
    authority only; others have method, scheme, path and an authority or host;
    [:protocol] goes with CONNECT and an authority; the path of an http or
    https URI starts with a slash or is the asterisk of OPTIONS. *)
Definition request_complete (fs : list nghttp2_hd_nv) : bool :=
  let has t := occurs (has_token t) fs in
  let connect := occurs (method_is (str "CONNECT")) fs in
  if negb (has NGHTTP2_TOKEN__PROTOCOL) && connect then
    negb (has NGHTTP2_TOKEN__SCHEME || has NGHTTP2_TOKEN__PATH) && has NGHTTP2_TOKEN__AUTHORITY
  else
    has NGHTTP2_TOKEN__METHOD && has NGHTTP2_TOKEN__PATH && has NGHTTP2_TOKEN__SCHEME
    && (has NGHTTP2_TOKEN__AUTHORITY || has NGHTTP2_TOKEN_HOST)
    && (negb (has NGHTTP2_TOKEN__PROTOCOL) || (connect && has NGHTTP2_TOKEN__AUTHORITY))
    && (negb (occurs scheme_http fs)
        || (occurs path_regular fs || (occurs (method_is (str "OPTIONS")) fs && occurs path_asterisk fs))).

Lemma land_pow2_eq x i : 0 <= i -> (x .& 2 ^ i =? 2 ^ i) = Z.testbit x i.
Proof.
  intros Hi. destruct (Z.testbit x i) eqn:Hb.
  - apply Z.eqb_eq. apply Z.bits_inj'. intros j Hj. rewrite Z.land_spec, Z.pow2_bits_eqb by lia.
    destruct (Z.eqb_spec i j) as [<- |]; [by rewrite Hb|]. apply andb_false_r.
  - apply Z.eqb_neq. intros H. pose proof (land_pow2_zero x i Hi) as H0. rewrite Hb, H in H0. cbn [negb] in H0. apply Z.eqb_eq in H0.
    pose proof (Z.pow_pos_nonneg 2 i). lia.
Qed.

Lemma land_lor_eq x a b : (x .& (a .| b) =? a .| b) = (x .& a =? a) && (x .& b =? b).
Proof.
  assert (forall c, x .& c = c <-> forall i, 0 <= i -> Z.testbit c i = true -> Z.testbit x i = true) as H.
  { intros c. split.
    - intros E i Hi Hc. rewrite <- E, Z.land_spec in Hc. by apply andb_true_iff in Hc as [? _].
    - intros E. apply Z.bits_inj'. intros i Hi. rewrite Z.land_spec. destruct (Z.testbit c i) eqn:Hc; [|apply andb_false_r].
      by rewrite (E i Hi Hc). }
  apply eq_true_iff_eq. rewrite andb_true_iff, !Z.eqb_eq, !H. split.
  - intros Hab. split; intros i Hi Hc; apply Hab; try done; rewrite Z.lor_spec, Hc; [done|apply orb_true_r].
  - intros [Ha Hb] i Hi Hc. rewrite Z.lor_spec in Hc. apply orb_true_iff in Hc as [?|?]; auto.
Qed.

Lemma request_headers_spec s0 s frame fs : stream_knows s0 s fs ->
  ((nghttp2_http_on_request_headers s frame).2 =? 0) = request_complete (kept s0 fs).
Proof.
  intros [Hb _ _ _ _].
  assert (forall i c, (i, c) ∈ tracked -> 0 <= i -> has_flag s (2 ^ i) = occurs c (kept s0 fs)) as Hf.
  { intros i c Hin Hi. rewrite has_flag_bit by done. by apply Hb. }
  unfold nghttp2_http_on_request_headers, request_complete, check_path. rewrite !has_flag_or.
  unfold NGHTTP2_HTTP_FLAG_REQ_HEADERS. rewrite !land_lor_eq.
  change NGHTTP2_HTTP_FLAG__AUTHORITY with (2 ^ 0). unfold NGHTTP2_HTTP_FLAG__METHOD, NGHTTP2_HTTP_FLAG__PATH, NGHTTP2_HTTP_FLAG__SCHEME,
    NGHTTP2_HTTP_FLAG_HOST, NGHTTP2_HTTP_FLAG_METH_CONNECT, NGHTTP2_HTTP_FLAG_METH_OPTIONS, NGHTTP2_HTTP_FLAG_PATH_REGULAR,
    NGHTTP2_HTTP_FLAG_PATH_ASTERISK, NGHTTP2_HTTP_FLAG_SCHEME_HTTP, NGHTTP2_HTTP_FLAG__PROTOCOL.
  rewrite !land_pow2_eq by lia. fold (flag_bit s 1) (flag_bit s 2) (flag_bit s 3).
  assert (forall i c, (i, c) ∈ tracked -> flag_bit s i = occurs c (kept s0 fs)) as Hb' by done.
  rewrite !(Hb' 1 (has_token NGHTTP2_TOKEN__PATH)), !(Hb' 2 (has_token NGHTTP2_TOKEN__METHOD)), !(Hb' 3 (has_token NGHTTP2_TOKEN__SCHEME))
    by (unfold tracked; set_solver).
  rewrite !(Hf 0 (has_token NGHTTP2_TOKEN__AUTHORITY)), !(Hf 1 (has_token NGHTTP2_TOKEN__PATH)), !(Hf 3 (has_token NGHTTP2_TOKEN__SCHEME)),
    !(Hf 4 (has_token NGHTTP2_TOKEN_HOST)), !(Hf 7 (method_is (str "CONNECT"))), !(Hf 9 (method_is (str "OPTIONS"))), !(Hf 11 path_regular),
    !(Hf 12 path_asterisk), !(Hf 13 scheme_http), !(Hf 15 (has_token NGHTTP2_TOKEN__PROTOCOL)) by (unfold tracked; set_solver || lia).
  cbv zeta. repeat match goal with |- context [occurs ?c ?l] => generalize (occurs c l); intros [] end; cbn [negb andb orb];
    destruct (hd_type frame =? NGHTTP2_PUSH_PROMISE); done.
Qed.

(** The length that the body of an accepted request must have, or [-1]. *)
Definition request_length (fs : list nghttp2_hd_nv) : Z :=
  if negb (occurs (has_token NGHTTP2_TOKEN__PROTOCOL) fs) && occurs (method_is (str "CONNECT")) fs then -1 else declared_length fs.

Lemma request_headers_length s0 s frame fs : stream_knows s0 s fs -> hd_type frame <> NGHTTP2_PUSH_PROMISE ->
  (nghttp2_http_on_request_headers s frame).2 = 0 ->
  content_length (nghttp2_http_on_request_headers s frame).1 = request_length (kept s0 fs).
Proof.
  intros [Hb _ Hl _ _] Ht. unfold nghttp2_http_on_request_headers, request_length. rewrite (proj2 (Z.eqb_neq _ _) Ht).
  unfold NGHTTP2_HTTP_FLAG__PROTOCOL, NGHTTP2_HTTP_FLAG_METH_CONNECT. rewrite !(has_flag_bit s 15), !(has_flag_bit s 7) by lia.
  rewrite !(Hb 15 (has_token NGHTTP2_TOKEN__PROTOCOL)), !(Hb 7 (method_is (str "CONNECT"))) by (unfold tracked; set_solver).
  cbv zeta. destruct (negb _ && _).
  - by destruct (_ || _).
  - repeat match goal with |- context [if ?b then _ else _] => destruct b end; done.
Qed.

(** C32: A server accepts a request (every field passes [nghttp2_http_on_header] or is
    dropped by it, and the end of the block passes
    [nghttp2_http_on_request_headers]) exactly when: no pseudo-header has a name or
    a value with invalid octets, and no name has upper case; every field that is
    left obeys its own rule (no connection-specific fields, [te] only [trailers],
    a decimal length, no empty or unknown pseudo-headers, [:protocol] only where
    it is enabled); pseudo-headers precede all other fields; no field that may
    occur once is repeated; and the pseudo-headers are complete.  A regular field
    whose name or value has other invalid octets does not count - it is dropped,
    and the request may still be accepted - but no pseudo-header may follow it.
    What is an invalid octet, a letter case or a length is said without the code
    ([classify], [value_rule], [caseless], [decimal]).  The checks never fail to
    return, and the stream then expects the declared length. *)
Theorem http_request_accepted session frame fs sid flags :
  is_request session frame = true -> Forall field_wf fs ->
  let cp := hs_server session && hs_connect_protocol session in
  let s0 := stream_http_init sid flags in
  exists s b, receive_request session s0 frame fs = Some (s, b) /\
    (b = true <-> fields_ok cp s0 fs /\ request_complete (kept s0 fs) = true) /\
    (b = true -> hd_type frame <> NGHTTP2_PUSH_PROMISE -> content_length s = request_length (kept s0 fs)).
Proof.
  intros Hreq Hwf cp s0. unfold receive_request.
  assert (stream_knows s0 s0 []) as Hk0.
  { split; try done. intros i c Hin. unfold flag_bit. cbn [s0 stream_http_init http_flags NGHTTP2_HTTP_FLAG_NONE kept List.filter occurs existsb].
    apply Z.bits_0. }
  destruct (receive_fields_spec session s0 s0 frame [] fs Hreq Hwf Hk0 (fields_ok_nil cp s0)) as (s & b & -> & H). cbn [mbind option_bind].
  destruct b.
  - cbn [app] in H. destruct H as [Hok Hk]. pose proof (request_headers_spec s0 s frame fs Hk) as Hc.
    pose proof (request_headers_length s0 s frame fs Hk) as Hl. destruct (nghttp2_http_on_request_headers s frame) as [s' rv].
    cbn [fst snd] in *. eexists _, _. split; [done|]. rewrite Hc. split; [naive_solver|]. intros Hb Ht. apply Hl; [done|]. 
    rewrite Hb in Hc. by apply Z.eqb_eq.
  - eexists _, _. split; [done|]. cbn [app] in H. split; [naive_solver|done].
Qed.

(** A field with the token of its name. *)
Definition field (name value : bytes) : nghttp2_hd_nv := mk_hd_nv name value (lookup_token name) 0.

Definition example_request : list nghttp2_hd_nv :=
  [field (str ":method") (str "POST"); field (str ":scheme") (str "https"); field (str ":path") (str "/x"); field (str "host") (str "a.b");
   field (str "content-length") (str "42"); field (str "te") (str "Trailers")].

Lemma http_request_accepted_witness : Forall field_wf example_request /\
  fields_ok false (stream_http_init 1 0) example_request /\
  exists s, receive_request (mk_http_session true false) (stream_http_init 1 0) (nghttp2_frame_hd_init 0 NGHTTP2_HEADERS 0 1) example_request = Some (s, true) /\
    content_length s = 42.
Proof.
  assert (Forall field_wf example_request) as Hwf by (repeat (apply Forall_cons; split; [split; [reflexivity|split; apply (bool_decide_unpack _); by vm_compute]|]); by apply Forall_nil). split; [done|].
  destruct (http_request_accepted (mk_http_session true false) (nghttp2_frame_hd_init 0 NGHTTP2_HEADERS 0 1) example_request 1 0 eq_refl Hwf)
    as (s & b & E & Hb & Hl).
  assert (b = true) as ->. { vm_compute in E. congruence. }
  destruct (proj1 Hb eq_refl) as [Hok _]. split; [done|]. exists s. split; [exact E|]. rewrite Hl; done.
Defined.

(** ** Bodies *)

(** The chunks of the body one after the other, up to the first error. *)
Fixpoint receive_chunks (s : http_stream) (ns : list Z) : option (http_stream * bool) :=
  match ns with
  | [] => Some (s, true)
  | n :: ns =>
      '(s, rv) ← nghttp2_http_on_data_chunk s n;
      if rv =? 0 then receive_chunks s ns else Some (s, false)
  end.

Definition receive_body (s : http_stream) (ns : list Z) : option bool :=
  '(s, ok) ← receive_chunks s ns;
  Some (ok && (nghttp2_http_on_remote_end_stream s =? 0)).

Definition total (ns : list Z) : Z := foldr Z.add 0 ns.

Lemma total_nonneg ns : Forall (fun n => 0 <= n) ns -> 0 <= total ns.
Proof. induction 1; cbn [total foldr]; [lia|]. fold (total l). lia. Qed.

(** Without a declared length, or within it, chunks only count. *)
Lemma receive_chunks_spec s ns : Forall (fun n => 0 <= n) ns -> recv_content_length s + total ns <= INT64_MAX ->
  has_flag s NGHTTP2_HTTP_FLAG_EXPECT_FINAL_RESPONSE = false -> content_length s = -1 \/ recv_content_length s <= content_length s ->
  exists s' b, receive_chunks s ns = Some (s', b) /\
    (b = true <-> content_length s = -1 \/ recv_content_length s + total ns <= content_length s) /\
    (b = true -> s' = set_recv_content_length s (recv_content_length s + total ns)).
Proof.
  intros Hns. revert s. induction Hns as [|n ns Hn Hns IH]; intros s Hmax Hf Hc; cbn [receive_chunks total foldr].
  { exists s, true. split; [done|]. rewrite Z.add_0_r. split; [done|]. by destruct s. }
  cbn [total foldr] in Hmax. fold (total ns) in *. pose proof (total_nonneg ns Hns). unfold nghttp2_http_on_data_chunk.
  rewrite option_guard_True by lia. cbn [mbind option_bind].
  set (s1 := set_recv_content_length s (recv_content_length s + n)). change (has_flag s1 NGHTTP2_HTTP_FLAG_EXPECT_FINAL_RESPONSE) with
    (has_flag s NGHTTP2_HTTP_FLAG_EXPECT_FINAL_RESPONSE). rewrite Hf. cbn [orb content_length recv_content_length set_recv_content_length s1].
  destruct (negb (content_length s =? -1) && (content_length s <? recv_content_length s + n)) eqn:Hb.
  - apply andb_true_iff in Hb as [H1%negb_true_iff%Z.eqb_neq H2%Z.ltb_lt]. exists s1, false. split; [done|]. split; [|done].
    split; [done|]. intros [?|?]; lia.
  - assert (content_length s = -1 \/ recv_content_length s + n <= content_length s) as Hc'.
    { apply andb_false_iff in Hb as [H1%negb_false_iff%Z.eqb_eq|H2%Z.ltb_ge]; auto. }
    cbn [Z.eqb]. destruct (IH s1) as (s' & b & -> & Hiff & Hs); [cbn; lia|done|done|]. exists s', b. split; [done|].
    cbn [content_length recv_content_length set_recv_content_length s1] in Hiff. split; [rewrite Hiff; lia|]. intros Hb'.
    rewrite (Hs Hb'). unfold s1. cbn. f_equal. lia.
Qed.

(** Once the headers of a message are in, its body is accepted, chunk by
    chunk and at the end of the stream, exactly when no length was declared
    or the body has it: a chunk that exceeds the length is rejected when it
    arrives, and no counter overflows for bodies below [2^63] octets. *)
Theorem http_body_length s ns : recv_content_length s = 0 -> Forall (fun n => 0 <= n) ns -> total ns <= INT64_MAX ->
  has_flag s NGHTTP2_HTTP_FLAG_EXPECT_FINAL_RESPONSE = false -> -1 <= content_length s ->
  exists b, receive_body s ns = Some b /\ (b = true <-> content_length s = -1 \/ content_length s = total ns) /\
    forall a n c, ns = a ++ n :: c -> content_length s <> -1 -> total a <= content_length s < total a + n ->
      exists s', receive_chunks s (a ++ [n]) = Some (s', false).
Proof.
  intros Hr Hns Hmax Hf Hc. unfold receive_body. pose proof (total_nonneg ns Hns) as Hpos.
  destruct (receive_chunks_spec s ns Hns) as (s' & b & -> & Hiff & Hs); [lia|done|lia|]. cbn [mbind option_bind].
  eexists. split; [done|]. split.
  - destruct b; cbn [andb].
    + rewrite (Hs eq_refl). unfold nghttp2_http_on_remote_end_stream. 
      change (has_flag (set_recv_content_length s (recv_content_length s + total ns)) NGHTTP2_HTTP_FLAG_EXPECT_FINAL_RESPONSE)
        with (has_flag s NGHTTP2_HTTP_FLAG_EXPECT_FINAL_RESPONSE). rewrite Hf. cbn [content_length recv_content_length set_recv_content_length].
      rewrite Hr, Z.add_0_l. destruct (Z.eqb_spec (content_length s) (-1)); cbn [negb andb]; [naive_solver|].
      destruct (Z.eqb_spec (content_length s) (total ns)); cbn [negb]; split; intros; (done || lia || naive_solver).
    + split; [done|]. intros H. apply Hiff. lia.
  - intros a n c -> Hne Hlt. assert (forall x y, total (x ++ y) = total x + total y) as Happ.
    { intros x y. induction x as [|z x IH]; [done|]. cbn [app total foldr]. fold (total (x ++ y)) (total x). lia. }
    apply Forall_app in Hns as [Ha Hn]. apply Forall_cons in Hn as [Hn Hc']. pose proof (total_nonneg c Hc').
    rewrite Happ in Hmax. cbn [total foldr] in Hmax. fold (total c) in Hmax.
    destruct (receive_chunks_spec s (a ++ [n])) as (s2 & b2 & -> & Hiff2 & _); [by apply Forall_app; rewrite Forall_singleton| |done|lia|].
    { rewrite Happ. cbn [total foldr]. lia. }
    exists s2. destruct b2; [|done]. exfalso. destruct (proj1 Hiff2 eq_refl) as [?|H2]; [done|]. rewrite Happ in H2. cbn [total foldr] in H2. lia.
Qed.

Lemma http_body_length_witness :
  receive_body (set_content_length (stream_http_init 1 0) 5) [2; 3] = Some true /\
  receive_body (set_content_length (stream_http_init 1 0) 5) [2] = Some false.
Proof.
  destruct (http_body_length (set_content_length (stream_http_init 1 0) 5) [2; 3]) as (b & E & Hb & _);
    [reflexivity|repeat (constructor; [lia|]); constructor|vm_compute; discriminate|reflexivity|cbn; lia|].
  split; [rewrite E; f_equal; apply Hb; by right|reflexivity].
Defined.
