(* ===== verification/Stream.v ===== *)
(** * Streams (nghttp2_stream.c)

    Streams live in a store by address; the dependency tree of RFC 7540 is
    made of the pointers [dep_prev] (parent), [dep_next] (first child),
    [sib_prev] and [sib_next].  A stream with data to send, or with such a
    descendant, is queued in the priority queue [obq] of its parent, ordered
    by a virtual finishing time ([cycle]).

    The operations live in a state monad over the store: [None] is a
    dereference of a dangling or null pointer, signed overflow, a division by
    zero, a failed assertion or a lack of fuel.  This file has the operations;
    [StreamQueue], [StreamLinks] and [StreamTree] have their proofs. *)

From S2P Require Import Prelude Defs Pq Frame Http.

(** ** Data *)

Inductive nghttp2_stream_state :=
  | NGHTTP2_STREAM_INITIAL
  | NGHTTP2_STREAM_OPENING
  | NGHTTP2_STREAM_OPENED
  | NGHTTP2_STREAM_CLOSING
  | NGHTTP2_STREAM_RESERVED
  | NGHTTP2_STREAM_IDLE.

#[global] Instance nghttp2_stream_state_eq_dec : EqDecision nghttp2_stream_state.
Proof. solve_decision. Defined.

Definition NGHTTP2_SHUT_NONE : Z := 0.
Definition NGHTTP2_SHUT_RD : Z := 1.
Definition NGHTTP2_SHUT_WR : Z := 2.
Definition NGHTTP2_SHUT_RDWR : Z := NGHTTP2_SHUT_RD .| NGHTTP2_SHUT_WR.

Definition NGHTTP2_STREAM_FLAG_NONE : Z := 0.
Definition NGHTTP2_STREAM_FLAG_PUSH : Z := 1.
Definition NGHTTP2_STREAM_FLAG_CLOSED : Z := 2.
Definition NGHTTP2_STREAM_FLAG_DEFERRED_FLOW_CONTROL : Z := 4.
Definition NGHTTP2_STREAM_FLAG_DEFERRED_USER : Z := 8.
Definition NGHTTP2_STREAM_FLAG_DEFERRED_ALL : Z := 12.

(** [nghttp2_stream] in four parts: the links of the dependency tree with the
    weights, what schedules the stream, its windows, the members the HTTP
    layer uses ([http_stream]); and the rest. *)
Record stream_dep := mk_dep {
  dep_prev : option Z;
  dep_next : option Z;
  sib_prev : option Z;
  sib_next : option Z;
  weight : Z;
  sum_dep_weight : Z;
}.

(** [pq_index] is [pq_entry.index]; [obq_q] and [obq_capacity] are [obq]. *)
Record stream_sched := mk_sched {
  pq_index : nat;
  obq_q : list Z;
  obq_capacity : nat;
  queued : Z;
  cycle : Z;
  seq : Z;
  pending_penalty : Z;
  last_writelen : Z;
  descendant_last_cycle : Z;
  descendant_next_seq : Z;
}.

Record stream_flow := mk_flow {
  remote_window_size : Z;
  local_window_size : Z;
  recv_window_size : Z;
  consumed_size : Z;
  recv_reduction : Z;
  window_update_queued : Z;
}.

Record nghttp2_stream := mk_stream {
  st_dep :> stream_dep;
  st_sched :> stream_sched;
  st_flow :> stream_flow;
  st_http :> http_stream;
  item : option Z;
  state : nghttp2_stream_state;
  shut_flags : Z;
  extpri : Z;
  stream_user_data : option Z;
  closed_prev : option Z;
  closed_next : option Z;
}.

Definition dep_prev_to (v : option Z) (d : stream_dep) : stream_dep :=
  mk_dep v (dep_next d) (sib_prev d) (sib_next d) (weight d) (sum_dep_weight d).
Definition dep_next_to (v : option Z) (d : stream_dep) : stream_dep :=
  mk_dep (dep_prev d) v (sib_prev d) (sib_next d) (weight d) (sum_dep_weight d).
Definition sib_prev_to (v : option Z) (d : stream_dep) : stream_dep :=
  mk_dep (dep_prev d) (dep_next d) v (sib_next d) (weight d) (sum_dep_weight d).
Definition sib_next_to (v : option Z) (d : stream_dep) : stream_dep :=
  mk_dep (dep_prev d) (dep_next d) (sib_prev d) v (weight d) (sum_dep_weight d).
Definition weight_to (v : Z) (d : stream_dep) : stream_dep :=
  mk_dep (dep_prev d) (dep_next d) (sib_prev d) (sib_next d) v (sum_dep_weight d).
Definition sum_dep_weight_to (v : Z) (d : stream_dep) : stream_dep :=
  mk_dep (dep_prev d) (dep_next d) (sib_prev d) (sib_next d) (weight d) v.

Definition pq_index_to (v : nat) (c : stream_sched) : stream_sched :=
  mk_sched v (obq_q c) (obq_capacity c) (queued c) (cycle c) (seq c) (pending_penalty c) (last_writelen c)
    (descendant_last_cycle c) (descendant_next_seq c).
Definition obq_to (v : list Z) (cap : nat) (c : stream_sched) : stream_sched :=
  mk_sched (pq_index c) v cap (queued c) (cycle c) (seq c) (pending_penalty c) (last_writelen c)
    (descendant_last_cycle c) (descendant_next_seq c).
Definition queued_to (v : Z) (c : stream_sched) : stream_sched :=
  mk_sched (pq_index c) (obq_q c) (obq_capacity c) v (cycle c) (seq c) (pending_penalty c) (last_writelen c)
    (descendant_last_cycle c) (descendant_next_seq c).
Definition cycle_to (v : Z) (c : stream_sched) : stream_sched :=
  mk_sched (pq_index c) (obq_q c) (obq_capacity c) (queued c) v (seq c) (pending_penalty c) (last_writelen c)
    (descendant_last_cycle c) (descendant_next_seq c).
Definition seq_to (v : Z) (c : stream_sched) : stream_sched :=
  mk_sched (pq_index c) (obq_q c) (obq_capacity c) (queued c) (cycle c) v (pending_penalty c) (last_writelen c)
    (descendant_last_cycle c) (descendant_next_seq c).
Definition pending_penalty_to (v : Z) (c : stream_sched) : stream_sched :=
  mk_sched (pq_index c) (obq_q c) (obq_capacity c) (queued c) (cycle c) (seq c) v (last_writelen c)
    (descendant_last_cycle c) (descendant_next_seq c).
Definition last_writelen_to (v : Z) (c : stream_sched) : stream_sched :=
  mk_sched (pq_index c) (obq_q c) (obq_capacity c) (queued c) (cycle c) (seq c) (pending_penalty c) v
    (descendant_last_cycle c) (descendant_next_seq c).
Definition descendant_last_cycle_to (v : Z) (c : stream_sched) : stream_sched :=
  mk_sched (pq_index c) (obq_q c) (obq_capacity c) (queued c) (cycle c) (seq c) (pending_penalty c) (last_writelen c)
    v (descendant_next_seq c).
Definition descendant_next_seq_to (v : Z) (c : stream_sched) : stream_sched :=
  mk_sched (pq_index c) (obq_q c) (obq_capacity c) (queued c) (cycle c) (seq c) (pending_penalty c) (last_writelen c)
    (descendant_last_cycle c) v.

Definition upd_dep (f : stream_dep -> stream_dep) (s : nghttp2_stream) : nghttp2_stream :=
  mk_stream (f (st_dep s)) (st_sched s) (st_flow s) (st_http s) (item s) (state s) (shut_flags s) (extpri s)
    (stream_user_data s) (closed_prev s) (closed_next s).
Definition upd_sched (f : stream_sched -> stream_sched) (s : nghttp2_stream) : nghttp2_stream :=
  mk_stream (st_dep s) (f (st_sched s)) (st_flow s) (st_http s) (item s) (state s) (shut_flags s) (extpri s)
    (stream_user_data s) (closed_prev s) (closed_next s).
Definition upd_flow (f : stream_flow -> stream_flow) (s : nghttp2_stream) : nghttp2_stream :=
  mk_stream (st_dep s) (st_sched s) (f (st_flow s)) (st_http s) (item s) (state s) (shut_flags s) (extpri s)
    (stream_user_data s) (closed_prev s) (closed_next s).
Definition item_to (v : option Z) (s : nghttp2_stream) : nghttp2_stream :=
  mk_stream (st_dep s) (st_sched s) (st_flow s) (st_http s) v (state s) (shut_flags s) (extpri s)
    (stream_user_data s) (closed_prev s) (closed_next s).
Definition state_to (v : nghttp2_stream_state) (s : nghttp2_stream) : nghttp2_stream :=
  mk_stream (st_dep s) (st_sched s) (st_flow s) (st_http s) (item s) v (shut_flags s) (extpri s)
    (stream_user_data s) (closed_prev s) (closed_next s).
Definition shut_flags_to (v : Z) (s : nghttp2_stream) : nghttp2_stream :=
  mk_stream (st_dep s) (st_sched s) (st_flow s) (st_http s) (item s) (state s) v (extpri s)
    (stream_user_data s) (closed_prev s) (closed_next s).
Definition flags_to (v : Z) (s : nghttp2_stream) : nghttp2_stream :=
  mk_stream (st_dep s) (st_sched s) (st_flow s)
    (mk_http_stream (stream_id s) v (http_flags s) (status_code s) (content_length s) (recv_content_length s) (http_extpri s))
    (item s) (state s) (shut_flags s) (extpri s) (stream_user_data s) (closed_prev s) (closed_next s).

(** ** Effects *)

(** [pushes] counts the insertions into queues: the allocator is asked for
    room at some of them. *)
Record world := mk_world { streams : gmap Z nghttp2_stream; pushes : nat }.

Definition st_m (A : Type) : Type := world -> option (world * A).

#[global] Instance st_ret : MRet st_m := fun A a w => Some (w, a).

#[global] Instance st_bind : MBind st_m := fun A B k m w =>
  match m w with
  | None => None
  | Some (w, a) => k a w
  end.

(** The same with the arguments in the order of the code. *)
Definition st_then {A B} (m : st_m A) (k : A -> st_m B) : st_m B := mbind k m.

Notation "'let*' x := m 'in' k" := (st_then m (fun x => k))
  (at level 200, x pattern, m at level 100, k at level 200) : c_scope.

Definition st_undef {A} : st_m A := fun _ => None.
Definition st_assert (b : bool) : st_m unit := if b then mret tt else st_undef.
Definition load (a : Z) : st_m nghttp2_stream := fun w => s ← streams w !! a; Some (w, s).
Definition modify (a : Z) (f : nghttp2_stream -> nghttp2_stream) : st_m unit := fun w =>
  s ← streams w !! a; Some (mk_world (<[a := f s]> (streams w)) (pushes w), tt).

(** The result of signed arithmetic, which must not overflow. *)
Definition int32 (z : Z) : st_m Z := if (INT32_MIN <=? z) && (z <=? INT32_MAX) then mret z else st_undef.

(** No chain of parents or siblings has more streams than the store. *)
Definition chain_fuel : st_m nat := fun w => Some (w, S (S (size (streams w)))).

(** A pointer that the code follows without a test. *)
Definition deref (p : option Z) : st_m Z := match p with Some a => mret a | None => st_undef end.

(** ** Scheduling *)

Definition NGHTTP2_MAX_CYCLE_DISTANCE : Z := NGHTTP2_MAX_FRAME_SIZE_MAX * 256 + 255.

Definition stream_less (lhs rhs : nghttp2_stream) : bool :=
  if cycle lhs =? cycle rhs then seq lhs <? seq rhs
  else u64 (cycle rhs - cycle lhs) <=? NGHTTP2_MAX_CYCLE_DISTANCE.

Definition nghttp2_stream_init (stream_id flags : Z) (initial_state : nghttp2_stream_state)
    (weight remote_initial_window_size local_initial_window_size : Z) (stream_user_data : option Z) : nghttp2_stream :=
  mk_stream (mk_dep None None None None weight 0)
    (mk_sched 0 [] 0 0 0 0 0 0 0 0)
    (mk_flow remote_initial_window_size local_initial_window_size 0 0 0 0)
    (stream_http_init stream_id flags)
    None initial_state NGHTTP2_SHUT_NONE NGHTTP2_EXTPRI_DEFAULT_URGENCY stream_user_data None None.

Definition nghttp2_stream_shutdown (stream : Z) (flag : Z) : st_m unit :=
  modify stream (fun s => shut_flags_to (u8 (shut_flags s .| flag)) s).

Definition stream_active (s : nghttp2_stream) : bool :=
  bool_decide (is_Some (item s)) && (sm_flags s .& NGHTTP2_STREAM_FLAG_DEFERRED_ALL =? 0).

Definition stream_subtree_active (s : nghttp2_stream) : bool :=
  stream_active s || negb (length (obq_q s) =? 0)%nat.

(** [penalty] of [stream_next_cycle]. *)
Definition penalty_of (s : nghttp2_stream) : Z :=
  u64 (u64 (last_writelen s * NGHTTP2_MAX_WEIGHT) + pending_penalty s).

Definition stream_next_cycle (stream : Z) (last_cycle : Z) : st_m unit :=
  let* s := load stream in
  st_assert (negb (u32 (weight s) =? 0));;
  modify stream (upd_sched (fun c =>
    pending_penalty_to (u32 (penalty_of s mod u32 (weight s)))
      (cycle_to (u64 (last_cycle + penalty_of s / u32 (weight s))) c))).

Section Queues.

(** Whether the allocator grants the room that the [n]-th insertion asks for. *)
Variable realloc_ok : nat -> bool.

(** The queue of the stream [s] and the entries embedded in all streams. *)
Definition obq_view (h : gmap Z nghttp2_stream) (s : nghttp2_stream) : nghttp2_pq nghttp2_stream :=
  mk_pq (obq_q s) (obq_capacity s) ((fun s : nghttp2_stream => mk_entry (pq_index s) s) <$> h).

Definition obq_write (d : Z) (pq : nghttp2_pq nghttp2_stream) : gmap Z nghttp2_stream :=
  alter (upd_sched (obq_to (q pq) (capacity pq))) d
    ((fun e => upd_sched (pq_index_to (e_index e)) (e_item e)) <$> entries pq).

(** [nghttp2_pq_push(&d->obq, &stream->pq_entry)] *)
Definition obq_insert (d stream : Z) : st_m Z := fun w =>
  s ← streams w !! d;
  let '(pq, rv) := nghttp2_pq_push stream_less (obq_view (streams w) s) (realloc_ok (pushes w)) stream in
  Some (mk_world (obq_write d pq) (S (pushes w)), rv).

(** [nghttp2_pq_remove(&d->obq, &stream->pq_entry)] *)
Definition obq_delete (d stream : Z) : st_m unit := fun w =>
  s ← streams w !! d;
  pq ← nghttp2_pq_remove stream_less (obq_view (streams w) s) stream;
  Some (mk_world (obq_write d pq) (pushes w), tt).

(** [stream->seq = d->descendant_next_seq++] *)
Definition next_seq (d stream : Z) : st_m unit :=
  let* ds := load d in
  modify stream (upd_sched (seq_to (descendant_next_seq ds)));;
  modify d (upd_sched (descendant_next_seq_to (u64 (descendant_next_seq ds + 1)))).

Fixpoint obq_push_loop (fuel : nat) (dep_stream : option Z) (stream : Z) : st_m Z :=
  match fuel with
  | O => st_undef
  | S fuel =>
      match dep_stream with
      | None => mret 0
      | Some d =>
          let* s := load stream in
          if negb (queued s =? 0) then mret 0
          else
            let* ds := load d in
            stream_next_cycle stream (descendant_last_cycle ds);;
            next_seq d stream;;
            let* rv := obq_insert d stream in
            if negb (rv =? 0) then mret rv
            else
              modify stream (upd_sched (queued_to 1));;
              let* ds := load d in
              obq_push_loop fuel (dep_prev ds) d
      end
  end.

Definition stream_obq_push (dep_stream : option Z) (stream : Z) : st_m Z :=
  let* fuel := chain_fuel in obq_push_loop fuel dep_stream stream.

(** The assignments behind a removal. *)
Definition unqueue (c : stream_sched) : stream_sched :=
  last_writelen_to 0 (descendant_last_cycle_to 0 (pending_penalty_to 0 (cycle_to 0 (queued_to 0 c)))).

Fixpoint obq_remove_loop (fuel : nat) (dep_stream : option Z) (stream : Z) : st_m unit :=
  match fuel with
  | O => st_undef
  | S fuel =>
      match dep_stream with
      | None => mret tt
      | Some d =>
          obq_delete d stream;;
          let* s := load stream in
          st_assert (negb (queued s =? 0));;
          modify stream (upd_sched unqueue);;
          let* ds := load d in
          if stream_subtree_active ds then mret tt
          else obq_remove_loop fuel (dep_prev ds) d
      end
  end.

Definition stream_obq_remove (stream : Z) : st_m unit :=
  let* s := load stream in
  if queued s =? 0 then mret tt
  else let* fuel := chain_fuel in obq_remove_loop fuel (dep_prev s) stream.

Definition stream_obq_move (dest : option Z) (src stream : Z) : st_m Z :=
  let* s := load stream in
  if queued s =? 0 then mret 0
  else
    obq_delete src stream;;
    modify stream (upd_sched (queued_to 0));;
    stream_obq_push dest stream.

Fixpoint reschedule_loop (fuel : nat) (dep_stream : option Z) (stream : Z) : st_m unit :=
  match fuel with
  | O => st_undef
  | S fuel =>
      match dep_stream with
      | None => mret tt
      | Some d =>
          obq_delete d stream;;
          let* ds := load d in
          stream_next_cycle stream (descendant_last_cycle ds);;
          next_seq d stream;;
          let* _ := obq_insert d stream in
          let* s := load stream in
          modify d (upd_sched (last_writelen_to (last_writelen s)));;
          let* ds := load d in
          reschedule_loop fuel (dep_prev ds) d
      end
  end.

Definition nghttp2_stream_reschedule (stream : Z) : st_m unit :=
  let* s := load stream in
  st_assert (negb (queued s =? 0));;
  let* fuel := chain_fuel in reschedule_loop fuel (dep_prev s) stream.

(** The penalty that was pending when [cycle] was computed with [old_weight]. *)
Definition old_penalty (s : nghttp2_stream) (old_weight : Z) : Z :=
  let wlen_penalty := u64 (last_writelen s * NGHTTP2_MAX_WEIGHT) in
  u32 (u64 (u32 (pending_penalty s + u32 old_weight) - wlen_penalty mod u32 old_weight) mod u32 old_weight).

Definition nghttp2_stream_change_weight (stream : Z) (new_weight : Z) : st_m unit :=
  let* s := load stream in
  if weight s =? new_weight then mret tt
  else
    let old_weight := weight s in
    modify stream (upd_dep (weight_to new_weight));;
    match dep_prev s with
    | None => mret tt
    | Some d =>
        let* ds := load d in
        let* delta := int32 (new_weight - old_weight) in
        let* sum := int32 (sum_dep_weight ds + delta) in
        modify d (upd_dep (sum_dep_weight_to sum));;
        if queued s =? 0 then mret tt
        else
          obq_delete d stream;;
          st_assert (negb (u32 old_weight =? 0));;
          let* s := load stream in
          modify stream (upd_sched (pending_penalty_to (old_penalty s old_weight)));;
          let* s := load stream in
          let wlen_penalty := u64 (last_writelen s * NGHTTP2_MAX_WEIGHT) in
          let last_cycle := u64 (cycle s - u64 (wlen_penalty + pending_penalty s) / u32 old_weight) in
          stream_next_cycle stream last_cycle;;
          let* s := load stream in
          let* ds := load d in
          (if u64 (descendant_last_cycle ds - cycle s) <=? NGHTTP2_MAX_CYCLE_DISTANCE then
             modify stream (upd_sched (cycle_to (descendant_last_cycle ds)))
           else mret tt);;
          let* _ := obq_insert d stream in
          mret tt
    end.

(** ** Items *)

Definition stream_update_dep_on_attach_item (stream : Z) : st_m Z :=
  let* s := load stream in stream_obq_push (dep_prev s) stream.

Definition stream_update_dep_on_detach_item (stream : Z) : st_m unit :=
  let* s := load stream in
  if (length (obq_q s) =? 0)%nat then stream_obq_remove stream else mret tt.

Definition no_rfc7540_priorities (s : nghttp2_stream) : bool :=
  negb (sm_flags s .& NGHTTP2_STREAM_FLAG_NO_RFC7540_PRIORITIES =? 0).

Definition nghttp2_stream_attach_item (stream : Z) (it : Z) : st_m Z :=
  let* s := load stream in
  st_assert (sm_flags s .& NGHTTP2_STREAM_FLAG_DEFERRED_ALL =? 0);;
  st_assert (bool_decide (item s = None));;
  modify stream (item_to (Some it));;
  if no_rfc7540_priorities s then mret 0
  else
    let* rv := stream_update_dep_on_attach_item stream in
    if negb (rv =? 0) then modify stream (item_to None);; mret rv
    else mret 0.

Definition nghttp2_stream_detach_item (stream : Z) : st_m unit :=
  modify stream (item_to None);;
  modify stream (fun s => flags_to (u8 (sm_flags s .& Z.lnot NGHTTP2_STREAM_FLAG_DEFERRED_ALL)) s);;
  let* s := load stream in
  if no_rfc7540_priorities s then mret tt
  else stream_update_dep_on_detach_item stream.

Definition nghttp2_stream_defer_item (stream : Z) (flags : Z) : st_m unit :=
  let* s := load stream in
  st_assert (bool_decide (is_Some (item s)));;
  modify stream (fun s => flags_to (u8 (sm_flags s .| flags)) s);;
  let* s := load stream in
  if no_rfc7540_priorities s then mret tt
  else stream_update_dep_on_detach_item stream.

Definition nghttp2_stream_resume_deferred_item (stream : Z) (flags : Z) : st_m Z :=
  let* s := load stream in
  st_assert (bool_decide (is_Some (item s)));;
  modify stream (fun s => flags_to (u8 (sm_flags s .& Z.lnot flags)) s);;
  let* s := load stream in
  if negb (sm_flags s .& NGHTTP2_STREAM_FLAG_DEFERRED_ALL =? 0) then mret 0
  else if no_rfc7540_priorities s then mret 0
  else stream_update_dep_on_attach_item stream.

Definition nghttp2_stream_check_deferred_item (s : nghttp2_stream) : bool :=
  bool_decide (is_Some (item s)) && negb (sm_flags s .& NGHTTP2_STREAM_FLAG_DEFERRED_ALL =? 0).

Definition nghttp2_stream_check_deferred_by_flow_control (s : nghttp2_stream) : bool :=
  bool_decide (is_Some (item s)) && negb (sm_flags s .& NGHTTP2_STREAM_FLAG_DEFERRED_FLOW_CONTROL =? 0).

(** ** The dependency tree *)

(** [for (si = first; si; si = si->sib_next)], left at the first error. *)
Fixpoint for_siblings (fuel : nat) (si : option Z) (body : Z -> st_m Z) : st_m Z :=
  match si with
  | None => mret 0
  | Some a =>
      match fuel with
      | O => st_undef
      | S fuel =>
          let* rv := body a in
          if negb (rv =? 0) then mret rv
          else let* s := load a in for_siblings fuel (sib_next s) body
      end
  end.

Fixpoint last_sib_loop (fuel : nat) (stream : Z) : st_m Z :=
  match fuel with
  | O => st_undef
  | S fuel =>
      let* s := load stream in
      match sib_next s with
      | None => mret stream
      | Some a => last_sib_loop fuel a
      end
  end.

Definition stream_last_sib (stream : Z) : st_m Z :=
  let* fuel := chain_fuel in last_sib_loop fuel stream.

Definition nghttp2_stream_dep_distributed_weight (s : nghttp2_stream) (w : Z) : st_m Z :=
  let* product := int32 (weight s * w) in
  st_assert (negb (sum_dep_weight s =? 0));;
  mret (Z.max 1 (Z.quot product (sum_dep_weight s))).

Fixpoint find_ancestor_loop (fuel : nat) (stream : option Z) (target : Z) : st_m bool :=
  match stream with
  | None => mret false
  | Some a =>
      match fuel with
      | O => st_undef
      | S fuel =>
          if a =? target then mret true
          else let* s := load a in find_ancestor_loop fuel (dep_prev s) target
      end
  end.

Definition nghttp2_stream_dep_find_ancestor (stream target : Z) : st_m bool :=
  let* fuel := chain_fuel in find_ancestor_loop fuel (Some stream) target.

(** The loops of [nghttp2_stream_dep_insert] and [nghttp2_stream_dep_insert_subtree]. *)
Definition adopt (dep_stream stream : Z) (first : option Z) : st_m Z :=
  let* fuel := chain_fuel in
  for_siblings fuel first (fun si =>
    modify si (upd_dep (dep_prev_to (Some stream)));;
    let* s := load si in
    if negb (queued s =? 0) then stream_obq_move (Some stream) dep_stream si else mret 0).

(** [if (stream_subtree_active(stream)) rv = stream_obq_push(dep_stream, stream);] *)
Definition push_if_active (dep_stream stream : Z) : st_m Z :=
  let* s := load stream in
  if stream_subtree_active s then stream_obq_push (Some dep_stream) stream else mret 0.

Definition nghttp2_stream_dep_insert (dep_stream stream : Z) : st_m Z :=
  let* ds := load dep_stream in
  modify stream (upd_dep (sum_dep_weight_to (sum_dep_weight ds)));;
  let* s := load stream in
  modify dep_stream (upd_dep (sum_dep_weight_to (weight s)));;
  let* rv := (match dep_next ds with
        | None => mret 0
        | Some first =>
            let* rv := adopt dep_stream stream (Some first) in
            if negb (rv =? 0) then mret rv
            else
              let* rv := push_if_active dep_stream stream in
              if negb (rv =? 0) then mret rv
              else
                let* ds := load dep_stream in
                modify stream (upd_dep (dep_next_to (dep_next ds)));;
                mret 0
        end) in
  if negb (rv =? 0) then mret rv
  else
    modify dep_stream (upd_dep (dep_next_to (Some stream)));;
    modify stream (upd_dep (dep_prev_to (Some dep_stream)));;
    mret 0.

Definition set_dep_prev (stream : option Z) (dep : option Z) : st_m Z :=
  let* fuel := chain_fuel in
  for_siblings fuel stream (fun a => modify a (upd_dep (dep_prev_to dep));; mret 0).

Definition link_dep (dep_stream : Z) (stream : option Z) : st_m unit :=
  modify dep_stream (upd_dep (dep_next_to stream));;
  match stream with
  | None => mret tt
  | Some a => modify a (upd_dep (dep_prev_to (Some dep_stream)))
  end.

Definition link_sib (a : Z) (b : option Z) : st_m unit :=
  modify a (upd_dep (sib_next_to b));;
  match b with
  | None => mret tt
  | Some b => modify b (upd_dep (sib_prev_to (Some a)))
  end.

Definition insert_link_dep (dep_stream stream : Z) : st_m unit :=
  let* s := load stream in
  st_assert (bool_decide (sib_prev s = None));;
  let* ds := load dep_stream in
  link_sib stream (dep_next ds);;
  link_dep dep_stream (Some stream).

(** The children of [stream] take its place in front of [sib_next]. *)
Definition splice_children (stream : Z) (child : Z) : st_m unit :=
  let* s := load stream in
  let* _ := set_dep_prev (Some child) (dep_prev s) in
  match sib_next s with
  | None => mret tt
  | Some next => let* l := stream_last_sib child in link_sib l (Some next)
  end.

Definition unlink_sib (stream : Z) : st_m unit :=
  let* s := load stream in
  let* prev := deref (sib_prev s) in
  match dep_next s with
  | Some child =>
      link_sib prev (Some child);;
      splice_children stream child
  | None => link_sib prev (sib_next s)
  end.

Definition unlink_dep (stream : Z) : st_m unit :=
  let* s := load stream in
  let* prev := deref (dep_prev s) in
  match dep_next s with
  | Some child =>
      link_dep prev (Some child);;
      splice_children stream child
  | None =>
      match sib_next s with
      | Some next =>
          modify next (upd_dep (sib_prev_to None));;
          link_dep prev (Some next)
      | None => modify prev (upd_dep (dep_next_to None))
      end
  end.

(** [d->sum_dep_weight += n] *)
Definition add_sum_dep_weight (d : Z) (n : Z) : st_m unit :=
  let* ds := load d in
  let* sum := int32 (sum_dep_weight ds + n) in
  modify d (upd_dep (sum_dep_weight_to sum)).

(** The new child becomes the first one. *)
Definition link_child (dep_stream stream : Z) : st_m unit :=
  let* ds := load dep_stream in
  match dep_next ds with
  | None => link_dep dep_stream (Some stream)
  | Some _ => insert_link_dep dep_stream stream
  end.

Definition nghttp2_stream_dep_add (dep_stream stream : Z) : st_m unit :=
  let* s := load stream in
  add_sum_dep_weight dep_stream (weight s);;
  link_child dep_stream stream.

(** The loop of [nghttp2_stream_dep_remove] with [sum_dep_weight_delta]: the
    weight of [stream] is distributed and its children change queues. *)
Fixpoint distribute_loop (fuel : nat) (stream : Z) (si : option Z) (delta : Z) : st_m (Z * Z) :=
  match si with
  | None => mret (delta, 0)
  | Some a =>
      match fuel with
      | O => st_undef
      | S fuel =>
          let* s := load stream in
          let* c := load a in
          let* w := nghttp2_stream_dep_distributed_weight s (weight c) in
          modify a (upd_dep (weight_to w));;
          let* delta := int32 (delta + w) in
          let* rv := (if negb (queued c =? 0) then stream_obq_move (dep_prev s) stream a else mret 0) in
          if negb (rv =? 0) then mret (delta, rv)
          else let* c := load a in distribute_loop fuel stream (sib_next c) delta
      end
  end.

(** The pointers of a stream that left the tree. *)
Definition isolate (d : stream_dep) : stream_dep := mk_dep None None None None (weight d) 0.

Definition nghttp2_stream_dep_remove (stream : Z) : st_m Z :=
  let* s := load stream in
  let* delta := int32 (- weight s) in
  let* fuel := chain_fuel in
  let* (delta, rv) := distribute_loop fuel stream (dep_next s) delta in
  if negb (rv =? 0) then mret rv
  else
    let* s := load stream in
    let* d := deref (dep_prev s) in
    add_sum_dep_weight d delta;;
    (if negb (queued s =? 0) then stream_obq_remove stream else mret tt);;
    let* s := load stream in
    (match sib_prev s with
     | Some _ => unlink_sib stream
     | None => unlink_dep stream
     end);;
    modify stream (upd_dep isolate);;
    mret 0.

Definition nghttp2_stream_dep_insert_subtree (dep_stream stream : Z) : st_m Z :=
  let* s := load stream in
  let* ds := load dep_stream in
  let* sum := int32 (sum_dep_weight s + sum_dep_weight ds) in
  modify stream (upd_dep (sum_dep_weight_to sum));;
  modify dep_stream (upd_dep (sum_dep_weight_to (weight s)));;
  let* rv := (match dep_next ds with
        | Some first =>
            link_dep dep_stream (Some stream);;
            let* s := load stream in
            (match dep_next s with
             | Some child => let* last := stream_last_sib child in link_sib last (Some first)
             | None => link_dep stream (Some first)
             end);;
            adopt dep_stream stream (Some first)
        | None => link_dep dep_stream (Some stream);; mret 0
        end) in
  if negb (rv =? 0) then mret rv
  else push_if_active dep_stream stream.

Definition nghttp2_stream_dep_add_subtree (dep_stream stream : Z) : st_m Z :=
  let* s := load stream in
  add_sum_dep_weight dep_stream (weight s);;
  link_child dep_stream stream;;
  push_if_active dep_stream stream.

Definition nghttp2_stream_dep_remove_subtree (stream : Z) : st_m unit :=
  let* s := load stream in
  let* d := deref (dep_prev s) in
  (match sib_prev s with
   | Some p => link_sib p (sib_next s)
   | None =>
       link_dep d (sib_next s);;
       match sib_next s with
       | Some next => modify next (upd_dep (sib_prev_to None))
       | None => mret tt
       end
   end);;
  let* s := load stream in
  add_sum_dep_weight d (- weight s);;
  (if negb (queued s =? 0) then stream_obq_remove stream else mret tt);;
  modify stream (upd_dep (fun d => dep_prev_to None (sib_next_to None (sib_prev_to None d)))).

Definition nghttp2_stream_in_dep_tree (s : nghttp2_stream) : bool :=
  bool_decide (is_Some (dep_prev s)) || bool_decide (is_Some (dep_next s)) ||
  bool_decide (is_Some (sib_prev s)) || bool_decide (is_Some (sib_next s)).

(** The way up that records the cycle that is being served. *)
Fixpoint serve_loop (fuel : nat) (si : Z) : st_m unit :=
  match fuel with
  | O => st_undef
  | S fuel =>
      let* s := load si in
      match dep_prev s with
      | None => mret tt
      | Some d => modify d (upd_sched (descendant_last_cycle_to (cycle s)));; serve_loop fuel d
      end
  end.

Fixpoint next_item_loop (fuel : nat) (stream : Z) : st_m (option Z) :=
  match fuel with
  | O => st_undef
  | S fuel =>
      let* s := load stream in
      if stream_active s then
        let* n := chain_fuel in
        serve_loop n stream;;
        mret (item s)
      else
        match obq_q s !! 0%nat with
        | None => mret None
        | Some a => next_item_loop fuel a
        end
  end.

Definition nghttp2_stream_next_outbound_item (stream : Z) : st_m (option Z) :=
  let* fuel := chain_fuel in next_item_loop fuel stream.

End Queues.

(** ** Windows and states *)

(** The window at [window_size_ptr] and the returned value. *)
Definition update_initial_window_size (window_size new_initial_window_size old_initial_window_size : Z) : Z * Z :=
  let new_window_size := window_size + new_initial_window_size - old_initial_window_size in
  if (new_window_size <? INT32_MIN) || (NGHTTP2_MAX_WINDOW_SIZE <? new_window_size) then (window_size, -1)
  else (new_window_size, 0).

Definition remote_window_size_to (v : Z) (f : stream_flow) : stream_flow :=
  mk_flow v (local_window_size f) (recv_window_size f) (consumed_size f) (recv_reduction f) (window_update_queued f).
Definition local_window_size_to (v : Z) (f : stream_flow) : stream_flow :=
  mk_flow (remote_window_size f) v (recv_window_size f) (consumed_size f) (recv_reduction f) (window_update_queued f).

Definition nghttp2_stream_update_remote_initial_window_size (s : nghttp2_stream) (new old : Z) : nghttp2_stream * Z :=
  let '(win, rv) := update_initial_window_size (remote_window_size s) new old in
  (upd_flow (remote_window_size_to win) s, rv).

Definition nghttp2_stream_update_local_initial_window_size (s : nghttp2_stream) (new old : Z) : nghttp2_stream * Z :=
  let '(win, rv) := update_initial_window_size (local_window_size s) new old in
  (upd_flow (local_window_size_to win) s, rv).

Definition nghttp2_stream_promise_fulfilled (s : nghttp2_stream) : nghttp2_stream :=
  flags_to (u8 (sm_flags s .& Z.lnot NGHTTP2_STREAM_FLAG_PUSH)) (state_to NGHTTP2_STREAM_OPENED s).

Inductive nghttp2_stream_proto_state :=
  | NGHTTP2_STREAM_STATE_IDLE
  | NGHTTP2_STREAM_STATE_OPEN
  | NGHTTP2_STREAM_STATE_RESERVED_LOCAL
  | NGHTTP2_STREAM_STATE_RESERVED_REMOTE
  | NGHTTP2_STREAM_STATE_HALF_CLOSED_LOCAL
  | NGHTTP2_STREAM_STATE_HALF_CLOSED_REMOTE
  | NGHTTP2_STREAM_STATE_CLOSED.

Definition nghttp2_stream_get_state (s : nghttp2_stream) : nghttp2_stream_proto_state :=
  let has f := negb (sm_flags s .& f =? 0) in
  let shut f := negb (shut_flags s .& f =? 0) in
  if has NGHTTP2_STREAM_FLAG_CLOSED then NGHTTP2_STREAM_STATE_CLOSED
  else if has NGHTTP2_STREAM_FLAG_PUSH && shut NGHTTP2_SHUT_RD then NGHTTP2_STREAM_STATE_RESERVED_LOCAL
  else if has NGHTTP2_STREAM_FLAG_PUSH && shut NGHTTP2_SHUT_WR then NGHTTP2_STREAM_STATE_RESERVED_REMOTE
  else if shut NGHTTP2_SHUT_RD then NGHTTP2_STREAM_STATE_HALF_CLOSED_REMOTE
  else if shut NGHTTP2_SHUT_WR then NGHTTP2_STREAM_STATE_HALF_CLOSED_LOCAL
  else if bool_decide (state s = NGHTTP2_STREAM_IDLE) then NGHTTP2_STREAM_STATE_IDLE
  else NGHTTP2_STREAM_STATE_OPEN.

(** ** The self-checks of debugging builds

    The functions under [STREAM_DEP_DEBUG], with [false] for a failed
    assertion (or a dangling pointer, or a lack of fuel). *)

Section Checks.
Variable h : gmap Z nghttp2_stream.

(** A test on every stream from [si] on along [sib_next]. *)
Fixpoint all_siblings (fuel : nat) (si : option Z) (f : Z -> nghttp2_stream -> bool) : bool :=
  match si with
  | None => true
  | Some a =>
      match fuel, h !! a with
      | S fuel, Some s => f a s && all_siblings fuel (sib_next s) f
      | _, _ => false
      end
  end.

(** The sum of a number over the same streams. *)
Fixpoint sum_siblings (fuel : nat) (si : option Z) (f : nghttp2_stream -> Z) : option Z :=
  match si with
  | None => Some 0
  | Some a =>
      match fuel with
      | O => None
      | S fuel => s ← h !! a; n ← sum_siblings fuel (sib_next s) f; Some (f s + n)
      end
  end.

Abbreviation sib_fuel := (S (size h)).

Fixpoint ensure_inactive (fuel : nat) (stream : Z) (s : nghttp2_stream) : bool :=
  match fuel with
  | O => false
  | S fuel =>
      (queued s =? 0) && negb (stream_active s) && (length (obq_q s) =? 0)%nat &&
      all_siblings sib_fuel (dep_next s) (ensure_inactive fuel)
  end.

Fixpoint check_queued (fuel : nat) (stream : Z) (s : nghttp2_stream) : bool :=
  match fuel with
  | O => false
  | S fuel =>
      if negb (queued s =? 0) then
        stream_subtree_active s &&
        (stream_active s ||
         match sum_siblings sib_fuel (dep_next s) (fun s => if negb (queued s =? 0) then 1 else 0) with
         | Some n => negb (n =? 0)
         | None => false
         end) &&
        all_siblings sib_fuel (dep_next s) (check_queued fuel)
      else
        negb (stream_active s || negb (length (obq_q s) =? 0)%nat) &&
        all_siblings sib_fuel (dep_next s) (ensure_inactive fuel)
  end.

Fixpoint check_sum_dep (fuel : nat) (stream : Z) (s : nghttp2_stream) : bool :=
  match fuel with
  | O => false
  | S fuel =>
      match sum_siblings sib_fuel (dep_next s) (fun s => weight s) with
      | Some n => n =? sum_dep_weight s
      | None => false
      end && all_siblings sib_fuel (dep_next s) (check_sum_dep fuel)
  end.

Fixpoint check_dep_prev (fuel : nat) (stream : Z) (s : nghttp2_stream) : bool :=
  match fuel with
  | O => false
  | S fuel =>
      all_siblings sib_fuel (dep_next s) (fun si c =>
        bool_decide (dep_prev c = Some stream) && check_dep_prev fuel si c)
  end.

(** [for (; stream->dep_prev; stream = stream->dep_prev);] *)
Fixpoint root_of (fuel : nat) (stream : Z) : option Z :=
  match fuel with
  | O => None
  | S fuel =>
      s ← h !! stream;
      match dep_prev (st_dep s) with
      | None => Some stream
      | Some d => root_of fuel d
      end
  end.

Definition validate_tree (stream : Z) : bool :=
  match root_of (S (size h)) stream with
  | None => false
  | Some r =>
      match (h !! r : option nghttp2_stream) with
      | None => false
      | Some s =>
          (stream_id s =? 0) && (queued s =? 0) &&
          (if (length (obq_q s) =? 0)%nat
           then all_siblings sib_fuel (dep_next s) (ensure_inactive sib_fuel)
           else all_siblings sib_fuel (dep_next s) (check_queued sib_fuel)) &&
          check_sum_dep sib_fuel r s && check_dep_prev sib_fuel r s
      end
  end.

End Checks.
