(* ===== verification/StreamLinks.v ===== *)
(** * Streams: the links of the dependency tree

    The tree that the pointers form is given by the list of children of every
    stream, [kids].  [tree_ok D kids] says that the links [D] of the streams
    represent it: children are a doubly linked list behind [dep_next], all of
    them point to their parent, and the parents lead to a root.  The changes
    of the links that the operations make are shown to change [kids] the way
    the dependency tree of RFC 7540 changes. *)

From S2P Require Import Prelude Defs Pq Frame Http Stream.

Implicit Types (D : gmap Z stream_dep) (kids : gmap Z (list Z)) (l : list Z) (d : stream_dep).

(** ** Lists of siblings *)

Definition hd_or (next : option Z) l : option Z := match l with [] => next | c :: _ => Some c end.
Definition last_or (prev : option Z) l : option Z := match last l with Some c => Some c | None => prev end.

(** The siblings [l] with parent [p], [prev] before and [next] behind them. *)
Fixpoint dllseg D (p : Z) (prev : option Z) l (next : option Z) : Prop :=
  match l with
  | [] => True
  | c :: l' => exists d, D !! c = Some d /\ dep_prev d = Some p /\ sib_prev d = prev /\ sib_next d = hd_or next l' /\
                 dllseg D p (Some c) l' next
  end.

Lemma last_or_cons prev c l : last_or prev (c :: l) = last_or (Some c) l.
Proof. unfold last_or. rewrite last_cons. by destruct (last l). Qed.

Lemma hd_or_app next l1 l2 : hd_or next (l1 ++ l2) = hd_or (hd_or next l2) l1.
Proof. by destruct l1. Qed.

Lemma dllseg_app D p prev l1 l2 next :
  dllseg D p prev (l1 ++ l2) next <-> dllseg D p prev l1 (hd_or next l2) /\ dllseg D p (last_or prev l1) l2 next.
Proof.
  revert prev. induction l1 as [|c l1 IH]; intros prev; cbn [app dllseg].
  - unfold last_or. simpl. tauto.
  - rewrite last_or_cons. split.
    + intros (d & H1 & H2 & H3 & H4 & H5%IH). rewrite hd_or_app in H4. split; [|apply H5]. exists d. tauto.
    + intros [(d & H1 & H2 & H3 & H4 & H5) H6]. exists d. rewrite hd_or_app. rewrite IH. tauto.
Qed.

(** The pointers that a list of siblings is made of. *)
Definition sib_links d : option Z * option Z * option Z := (dep_prev d, sib_prev d, sib_next d).

Lemma dllseg_ext D D' p prev l next :
  (forall c, c ∈ l -> sib_links <$> D' !! c = sib_links <$> D !! c) -> dllseg D p prev l next -> dllseg D' p prev l next.
Proof.
  revert prev. induction l as [|c l IH]; intros prev Hext; cbn [dllseg]; [done|].
  intros (d & H1 & H2 & H3 & H4 & H5). pose proof (Hext c ltac:(by left)) as E. rewrite H1 in E.
  destruct (D' !! c) as [d'|]; [|done]. simpl in E. unfold sib_links in E. injection E as E1 E2 E3. exists d'.
  split_and!; [done|congruence|congruence|congruence|]. apply IH; [|done]. intros x Hx. apply Hext. by right.
Qed.

Lemma dllseg_parent D p prev l next c d : dllseg D p prev l next -> c ∈ l -> D !! c = Some d -> dep_prev d = Some p.
Proof.
  revert prev. induction l as [|x l IH]; intros prev; cbn [dllseg]; [by intros _ ?%elem_of_nil|].
  intros (d' & H1 & H2 & _ & _ & H5) [->|Hc]%elem_of_cons Hd; [congruence|by eapply IH].
Qed.

Lemma dllseg_dom D p prev l next c : dllseg D p prev l next -> c ∈ l -> is_Some (D !! c).
Proof.
  revert prev. induction l as [|x l IH]; intros prev; cbn [dllseg]; [by intros _ ?%elem_of_nil|].
  intros (d' & H1 & _ & _ & _ & H5) [->|Hc]%elem_of_cons; [eauto|by eapply IH].
Qed.

(** ** Ancestors *)

Inductive dchain D : Z -> list Z -> Prop :=
  | dchain_root a d : D !! a = Some d -> dep_prev d = None -> dchain D a []
  | dchain_up a d p l : D !! a = Some d -> dep_prev d = Some p -> dchain D p l -> dchain D a (p :: l).

Lemma dchain_det D a l l' : dchain D a l -> dchain D a l' -> l' = l.
Proof.
  intros H. revert l'. induction H as [a d Ha Hp|a d p l Ha Hp H IH]; intros l' H'.
  - inversion H'; simplify_eq; [done|congruence..].
  - inversion H' as [|? d2 p2 l2]; simplify_eq; f_equal; by apply IH.
Qed.

Lemma dchain_suffix D a l x : dchain D a l -> x ∈ l -> exists l1 l2, l = l1 ++ x :: l2 /\ dchain D x l2.
Proof.
  induction 1 as [a d Ha Hp|a d p l Ha Hp H IH]; [by intros ?%elem_of_nil|].
  intros [->|Hx]%elem_of_cons; [by exists [], l|]. destruct (IH Hx) as (l1 & l2 & -> & ?). by exists (p :: l1), l2.
Qed.

Lemma dchain_notin D a l : dchain D a l -> a ∉ l.
Proof.
  intros H Hin. destruct (dchain_suffix D a l a H Hin) as (l1 & l2 & E & H2).
  pose proof (dchain_det _ _ _ _ H H2) as E2. apply (f_equal length) in E, E2. rewrite length_app in E. simpl in E. lia.
Qed.

Lemma dchain_NoDup D a l : dchain D a l -> NoDup (a :: l).
Proof.
  induction 1 as [a d Ha Hp|a d p l Ha Hp H IH]; [apply NoDup_singleton|].
  constructor; [|done]. apply (dchain_notin D). by eapply dchain_up.
Qed.

Lemma dchain_dom D a l x : dchain D a l -> x ∈ a :: l -> is_Some (D !! x).
Proof.
  induction 1 as [a d Ha Hp|a d p l Ha Hp H IH].
  - intros ->%list_elem_of_singleton. eauto.
  - intros [->|Hx]%elem_of_cons; eauto.
Qed.

(** A child of [a] is not among the ancestors of [a]. *)
Lemma dchain_child D a l c d : dchain D a l -> D !! c = Some d -> dep_prev d = Some a -> c ∉ a :: l.
Proof.
  intros H Hc Hp Hin. pose proof (dchain_up D c d a l Hc Hp H) as H2. by apply (dchain_notin _ _ _ H2).
Qed.

Definition parent D (a : Z) : option Z := match D !! a with Some d => dep_prev d | None => None end.

Lemma dchain_stable D D' a l : dchain D a l ->
  (forall x, x ∈ a :: l -> is_Some (D' !! x) /\ parent D' x = parent D x) -> dchain D' a l.
Proof.
  induction 1 as [a d Ha Hp|a d p l Ha Hp H IH]; intros Hs; destruct (Hs a ltac:(by left)) as [[d' Hd'] E];
    unfold parent in E; rewrite Ha, Hd' in E.
  - apply (dchain_root _ a d'); congruence.
  - apply (dchain_up _ a d'); [done|congruence|]. apply IH. intros x Hx. apply Hs. by right.
Qed.

Definition acyclic D : Prop := forall a, is_Some (D !! a) -> exists l, dchain D a l.

(** Reparenting: enough to find the ancestors of the streams that got a new parent. *)
Lemma acyclic_step D D' : acyclic D -> (forall a, is_Some (D' !! a) <-> is_Some (D !! a)) ->
  (forall a, is_Some (D !! a) -> parent D' a = parent D a \/ exists l, dchain D' a l) -> acyclic D'.
Proof.
  intros Hac Hdom Hch a Ha%Hdom. destruct (Hac a Ha) as [l Hl]. clear Ha.
  induction Hl as [a d Ha Hp|a d p l Ha Hp H IH].
  - destruct (Hch a ltac:(eauto)) as [E|?]; [|done]. exists []. destruct (proj2 (Hdom a) ltac:(eauto)) as [d' Hd'].
    unfold parent in E. rewrite Ha, Hd' in E. apply (dchain_root _ a d'); congruence.
  - destruct (Hch a ltac:(eauto)) as [E|?]; [|done]. destruct IH as [l' Hl']. exists (p :: l').
    destruct (proj2 (Hdom a) ltac:(eauto)) as [d' Hd']. unfold parent in E. rewrite Ha, Hd' in E.
    apply (dchain_up _ a d'); congruence.
Qed.

(** ** The representation of a tree *)

Record tree_ok D kids : Prop := {
  t_dom : forall a, is_Some (D !! a) <-> is_Some (kids !! a);
  t_list : forall p l d, kids !! p = Some l -> D !! p = Some d ->
    dep_next d = head l /\ NoDup l /\ dllseg D p None l None;
  t_parent : forall c d p, D !! c = Some d -> dep_prev d = Some p -> exists l, kids !! p = Some l /\ c ∈ l;
  t_root : forall c d, D !! c = Some d -> dep_prev d = None -> sib_prev d = None /\ sib_next d = None;
  t_acyclic : acyclic D;
}.

Lemma tree_kid D kids p l c : tree_ok D kids -> kids !! p = Some l -> c ∈ l -> exists d, D !! c = Some d /\ dep_prev d = Some p.
Proof.
  intros HT Hl Hc. destruct (proj2 (t_dom _ _ HT p) ltac:(eauto)) as [dp Hp].
  destruct (t_list _ _ HT p l dp Hl Hp) as (_ & _ & Hd). destruct (dllseg_dom _ _ _ _ _ _ Hd Hc) as [d Hdc].
  exists d. split; [done|]. by eapply dllseg_parent.
Qed.

(** A stream has one parent. *)
Lemma tree_unique D kids p p' l l' c : tree_ok D kids -> kids !! p = Some l -> kids !! p' = Some l' -> c ∈ l -> c ∈ l' -> p' = p.
Proof.
  intros HT H1 H2 Hc Hc'. destruct (tree_kid _ _ _ _ _ HT H1 Hc) as (d & Hd & E).
  destruct (tree_kid _ _ _ _ _ HT H2 Hc') as (d' & Hd' & E'). congruence.
Qed.

Lemma tree_root_kid D kids p l c d : tree_ok D kids -> kids !! p = Some l -> D !! c = Some d -> dep_prev d = None -> c ∉ l.
Proof. intros HT Hl Hc Hp Hin. destruct (tree_kid _ _ _ _ _ HT Hl Hin) as (d' & ? & ?). congruence. Qed.

Lemma tree_self D kids p l : tree_ok D kids -> kids !! p = Some l -> p ∉ l.
Proof.
  intros HT Hl Hin. destruct (tree_kid _ _ _ _ _ HT Hl Hin) as (d & Hd & Hp).
  destruct (t_acyclic _ _ HT p) as [lp Hlp]; [eauto|]. eapply (dchain_child D p lp p d); [done|done|done|by left].
Qed.

(** ** Changing links *)

(** The same siblings with another parent and other neighbours at the ends. *)
Lemma dllseg_rebase D D' p prev l next p' prev' next' : dllseg D p prev l next -> NoDup l ->
  (forall c d, c ∈ l -> D !! c = Some d -> exists d', D' !! c = Some d' /\ dep_prev d' = Some p' /\
     sib_prev d' = (if decide (Some c = head l) then prev' else sib_prev d) /\
     sib_next d' = (if decide (Some c = last l) then next' else sib_next d)) ->
  dllseg D' p' prev' l next'.
Proof.
  revert prev prev'. induction l as [|c l IH]; intros prev prev'; cbn [dllseg]; [done|].
  intros (d & H1 & H2 & H3 & H4 & H5) [Hc Hnd]%NoDup_cons Hch.
  destruct (Hch c d ltac:(by left) H1) as (d' & Hd' & E1 & E2 & E3). rewrite decide_True in E2 by done.
  exists d'. split_and!; [done|done|done| |].
  - rewrite E3. destruct l as [|x l]; [by rewrite decide_True|]. rewrite decide_False; [done|].
    intros E. rewrite last_cons_cons in E. apply Hc. symmetry in E. by apply last_Some_elem_of in E.
  - apply (IH (Some c)); [done|done|]. intros x dx Hx Hdx.
    destruct (Hch x dx ltac:(by right) Hdx) as (dx' & Hdx' & F1 & F2 & F3). exists dx'. split_and!; [done|done| |].
    + rewrite F2. destruct (decide (Some x = head (c :: l))) as [[= ->]|_]; [done|].
      destruct (decide (Some x = head l)) as [Hh|_]; [|done].
      destruct l as [|y l]; [done|]. injection Hh as ->. cbn [dllseg] in H5. destruct H5 as (dy & ? & _ & ? & _). congruence.
    + rewrite F3. destruct l as [|y l]; [by apply elem_of_nil in Hx|]. by rewrite last_cons_cons.
Qed.

Definition links d : option Z * option Z * option Z * option Z := (dep_prev d, dep_next d, sib_prev d, sib_next d).

(** What a change makes of the four links of the stream at an address. *)
Record relink := mk_relink {
  rl_prev : Z -> stream_dep -> option Z;
  rl_next : Z -> stream_dep -> option Z;
  rl_sprev : Z -> stream_dep -> option Z;
  rl_snext : Z -> stream_dep -> option Z;
}.

(** [D'] has the links of [D] changed by [f], address by address. *)
Definition relinked D D' (f : relink) : Prop :=
  forall a, links <$> D' !! a = (fun d => (rl_prev f a d, rl_next f a d, rl_sprev f a d, rl_snext f a d)) <$> D !! a.

Lemma relinked_fwd D D' f a d : relinked D D' f -> D !! a = Some d -> exists d', D' !! a = Some d' /\
  dep_prev d' = rl_prev f a d /\ dep_next d' = rl_next f a d /\ sib_prev d' = rl_sprev f a d /\ sib_next d' = rl_snext f a d.
Proof.
  intros H Ha. specialize (H a). rewrite Ha in H. destruct (D' !! a) as [d'|]; [|done]. injection H as ? ? ? ?. by exists d'.
Qed.

Lemma relinked_bwd D D' f a d' : relinked D D' f -> D' !! a = Some d' -> exists d, D !! a = Some d /\
  dep_prev d' = rl_prev f a d /\ dep_next d' = rl_next f a d /\ sib_prev d' = rl_sprev f a d /\ sib_next d' = rl_snext f a d.
Proof.
  intros H Ha. specialize (H a). rewrite Ha in H. destruct (D !! a) as [d|]; [|done]. injection H as ? ? ? ?. by exists d.
Qed.

Lemma relinked_dom D D' f a : relinked D D' f -> is_Some (D' !! a) <-> is_Some (D !! a).
Proof. intros H. rewrite <- (fmap_is_Some links (D' !! a)), (H a). by rewrite fmap_is_Some. Qed.

Lemma relinked_parent D D' f a d : relinked D D' f -> D !! a = Some d -> parent D' a = rl_prev f a d.
Proof. intros H Ha. destruct (relinked_fwd _ _ _ _ _ H Ha) as (d' & Hd' & E & _). unfold parent. by rewrite Hd'. Qed.

(** A list that the change leaves alone. *)
Lemma relinked_other D D' f p prev l next : relinked D D' f ->
  (forall c d, c ∈ l -> D !! c = Some d -> rl_prev f c d = dep_prev d /\ rl_sprev f c d = sib_prev d /\ rl_snext f c d = sib_next d) ->
  dllseg D p prev l next -> dllseg D' p prev l next.
Proof.
  intros H Hl Hd. apply (dllseg_ext D); [|done]. intros c Hc. destruct (dllseg_dom _ _ _ _ _ _ Hd Hc) as [d Hdc].
  destruct (relinked_fwd _ _ _ _ _ H Hdc) as (d' & -> & E1 & _ & E3 & E4).
  rewrite Hdc. simpl. f_equal. destruct (Hl c d Hc Hdc) as (F1 & F3 & F4). unfold sib_links. congruence.
Qed.

Lemma head_elem l c : Some c = head l -> c ∈ l.
Proof. destruct l; [done|]. intros [= ->]. by left. Qed.

Lemma last_elem l c : Some c = last l -> c ∈ l.
Proof. intros H. symmetry in H. by apply last_Some_elem_of in H. Qed.

(** The last of a list of siblings has nothing behind it. *)
Lemma dllseg_last D p prev l next c d : dllseg D p prev l next -> Some c = last l -> D !! c = Some d -> sib_next d = next.
Proof.
  destruct l as [|c0 l0 _] using rev_ind; [done|]. rewrite last_snoc. intros [_ H]%dllseg_app [= ->] Hd.
  destruct H as (d' & ? & _ & _ & ? & _). simpl in *. congruence.
Qed.

Lemma dllseg_head D p prev l next c d : dllseg D p prev l next -> Some c = head l -> D !! c = Some d -> sib_prev d = prev.
Proof. destruct l as [|x l]; [done|]. intros (d' & ? & _ & ? & _) [= ->] Hd. congruence. Qed.

(** The conditions of [tree_ok] that follow from where the parents point. *)
Lemma relinked_acyclic D D' f : acyclic D -> relinked D D' f ->
  (forall a d, D !! a = Some d -> rl_prev f a d = dep_prev d \/ exists l, dchain D' a l) -> acyclic D'.
Proof.
  intros HA HR H. apply (acyclic_step D); [done|intros; by eapply relinked_dom|]. intros a [d Ha].
  rewrite (relinked_parent _ _ _ _ _ HR Ha). unfold parent. rewrite Ha. by apply H.
Qed.

Lemma relinked_chain D D' f a l : dchain D a l -> relinked D D' f ->
  (forall x d, x ∈ a :: l -> D !! x = Some d -> rl_prev f x d = dep_prev d) -> dchain D' a l.
Proof.
  intros Ha HR H. apply (dchain_stable D); [done|]. intros x Hx. destruct (dchain_dom _ _ _ _ Ha Hx) as [dx Hdx].
  split; [apply (relinked_dom D D' _ x HR); eauto|]. rewrite (relinked_parent _ _ _ _ _ HR Hdx). unfold parent.
  rewrite Hdx. by apply H.
Qed.

(** *** A stream becomes the first child of [p] *)

Definition add_links (p s : Z) l : relink := {|
  rl_prev := fun a d => if decide (a = s) then Some p else dep_prev d;
  rl_next := fun a d => if decide (a = p) then Some s else dep_next d;
  rl_sprev := fun a d => if decide (Some a = head l) then Some s else sib_prev d;
  rl_snext := fun a d => if decide (a = s) then head l else sib_next d;
|}.

Lemma tree_add D D' kids p s l ds lp : tree_ok D kids -> kids !! p = Some l -> D !! s = Some ds -> dep_prev ds = None ->
  dchain D p lp -> s ∉ p :: lp -> relinked D D' (add_links p s l) -> tree_ok D' (<[p := s :: l]> kids).
Proof.
  intros HT Hl Hs Hroot Hp Hsp HR. pose proof (tree_root_kid _ _ _ _ _ _ HT Hl Hs Hroot) as Hsl.
  assert (p <> s) as Hps by (intros ->; apply Hsp; by left).
  destruct (proj2 (t_dom _ _ HT p) ltac:(eauto)) as [dp Hdp].
  destruct (t_list _ _ HT p l dp Hl Hdp) as (_ & Hnd & Hdll).
  destruct (relinked_fwd _ _ _ _ _ HR Hs) as (ds' & Hs' & F1 & _ & F3 & F4). cbn in F1, F3, F4.
  rewrite decide_True in F1, F4 by done. rewrite decide_False in F3 by (intros Hh%head_elem; done). split.
  - intros a. rewrite (relinked_dom D D' _ a HR), (t_dom _ _ HT). destruct (decide (a = p)) as [->|].
    + rewrite lookup_insert_eq, Hl. split; eauto.
    + by rewrite lookup_insert_ne.
  - intros p' l' d' Hl' Hd'. destruct (relinked_bwd _ _ _ _ _ HR Hd') as (d & Hd & _ & E2 & _). cbn in E2.
    destruct (decide (p' = p)) as [->|Hne].
    + rewrite lookup_insert_eq in Hl'. injection Hl' as <-. split_and!; [done|by constructor|]. cbn [dllseg].
      destruct (t_root _ _ HT s ds Hs Hroot) as [E1 _]. exists ds'. split_and!; [done|done|congruence|by destruct l|].
      apply (dllseg_rebase D D' p None l None); [done|done|]. intros c dc Hc Hdc.
      destruct (relinked_fwd _ _ _ _ _ HR Hdc) as (dc' & Hdc' & G1 & _ & G3 & G4). cbn in G1, G3, G4.
      rewrite decide_False in G1, G4 by (intros ->; done). exists dc'.
      split_and!; [done|rewrite G1; by eapply dllseg_parent|done|]. rewrite G4.
      destruct (decide (Some c = last l)) as [Hlast|]; [|done]. by eapply dllseg_last.
    + rewrite lookup_insert_ne in Hl' by done.
      destruct (t_list _ _ HT p' l' d Hl' Hd) as (G1 & G2 & G3). split_and!; [congruence|done|].
      apply (relinked_other D D' _ _ _ _ _ HR); [|done]. intros c dc Hc Hdc. cbn.
      rewrite !(decide_False (P := c = s)) by (intros ->; by apply (tree_root_kid _ _ _ _ _ _ HT Hl' Hs Hroot)).
      rewrite decide_False; [done|]. intros Hh%head_elem. apply Hne. by apply (tree_unique _ _ p p' l l' c HT).
  - intros c d' p' Hd' Hp'. destruct (relinked_bwd _ _ _ _ _ HR Hd') as (d & Hd & E1 & _). cbn in E1. rewrite Hp' in E1.
    destruct (decide (c = s)) as [->|Hcs].
    + injection E1 as ->. exists (s :: l). rewrite lookup_insert_eq. split; [done|by left].
    + destruct (t_parent _ _ HT c d p' Hd ltac:(congruence)) as (l' & Hl' & Hin).
      destruct (decide (p' = p)) as [->|]; [|exists l'; by rewrite lookup_insert_ne].
      exists (s :: l). rewrite lookup_insert_eq. split; [done|]. simplify_eq. by right.
  - intros c d' Hd' Hp'. destruct (relinked_bwd _ _ _ _ _ HR Hd') as (d & Hd & E1 & _ & E3 & E4). cbn in E1, E3, E4.
    destruct (decide (c = s)) as [|Hcs]; [congruence|]. destruct (t_root _ _ HT c d Hd ltac:(congruence)) as [G1 G2].
    destruct (decide (Some c = head l)) as [Hh%head_elem|]; [|split; congruence]. exfalso.
    by apply (tree_root_kid _ _ _ _ _ _ HT Hl Hd ltac:(congruence)).
  - assert (dchain D' p lp) as Hp2.
    { apply (relinked_chain D D' _ _ _ Hp HR). intros x dx Hx _. cbn. rewrite decide_False by (intros ->; done). done. }
    apply (relinked_acyclic D D' _ (t_acyclic _ _ HT) HR). intros a da Hda. cbn.
    destruct (decide (a = s)) as [->|]; [|by left]. right. exists (p :: lp). by apply (dchain_up _ s ds').
Qed.

(** *** A stream is put between [p] and its children *)

(** The children [l] of [p] join the children [ks] of [s], the only child left. *)
Definition insert_links (p s : Z) (ks l : list Z) : relink := {|
  rl_prev := fun a d => if decide (a = s) then Some p else if decide (a ∈ l) then Some s else dep_prev d;
  rl_next := fun a d => if decide (a = p) then Some s else if decide (a = s) then head (ks ++ l) else dep_next d;
  rl_sprev := fun a d => if decide (Some a = head l) then last ks else sib_prev d;
  rl_snext := fun a d => if decide (Some a = last ks) then head l else sib_next d;
|}.

Lemma last_or_None l : last_or None l = last l.
Proof. unfold last_or. by destruct (last l). Qed.

Lemma hd_or_None l : hd_or None l = head l.
Proof. by destruct l. Qed.

(** Joining two lists of siblings under the parent of the first. *)
Lemma dllseg_join D D' p s ks l :
  dllseg D s None ks None -> dllseg D p None l None -> NoDup ks -> NoDup l ->
  (forall c d, c ∈ ks -> D !! c = Some d -> exists d', D' !! c = Some d' /\ dep_prev d' = Some s /\
     sib_prev d' = sib_prev d /\ sib_next d' = (if decide (Some c = last ks) then head l else sib_next d)) ->
  (forall c d, c ∈ l -> D !! c = Some d -> exists d', D' !! c = Some d' /\ dep_prev d' = Some s /\
     sib_prev d' = (if decide (Some c = head l) then last ks else sib_prev d) /\ sib_next d' = sib_next d) ->
  dllseg D' s None (ks ++ l) None.
Proof.
  intros Hks Hl Nks Nl H1 H2. apply dllseg_app. rewrite hd_or_None, last_or_None. split.
  - apply (dllseg_rebase D D' s None ks None); [done|done|]. intros c d Hc Hd.
    destruct (H1 c d Hc Hd) as (d' & ? & ? & E & ?). exists d'. split_and!; [done|done| |done]. rewrite E.
    destruct (decide (Some c = head ks)) as [Hh|]; [|done]. by apply (dllseg_head D s None ks None c d).
  - apply (dllseg_rebase D D' p None l None); [done|done|]. intros c d Hc Hd.
    destruct (H2 c d Hc Hd) as (d' & ? & ? & ? & E). exists d'. split_and!; [done|done|done|]. rewrite E.
    destruct (decide (Some c = last l)) as [Hh|]; [|done]. by apply (dllseg_last D p None l None c d).
Qed.

Lemma tree_insert D D' kids p s ks l ds lp : tree_ok D kids -> kids !! p = Some l -> kids !! s = Some ks ->
  D !! s = Some ds -> dep_prev ds = None -> dchain D p lp -> s ∉ p :: lp ->
  relinked D D' (insert_links p s ks l) -> tree_ok D' (<[p := [s]]> (<[s := ks ++ l]> kids)).
Proof.
  intros HT Hl Hks Hs Hroot Hp Hsp HR. assert (p <> s) as Hps by (intros ->; apply Hsp; by left).
  assert (forall p' l' c, kids !! p' = Some l' -> c ∈ l' -> c <> s) as Hsl
    by (intros p' l' c Hl' Hc ->; by apply (tree_root_kid _ _ _ _ _ _ HT Hl' Hs Hroot)).
  destruct (proj2 (t_dom _ _ HT p) ltac:(eauto)) as [dp Hdp].
  destruct (t_list _ _ HT p l dp Hl Hdp) as (_ & Hnd & Hdll). destruct (t_list _ _ HT s ks ds Hks Hs) as (_ & Hnk & Hdlk).
  assert (forall c, c ∈ ks -> c ∈ l -> False) as Hdisj by (intros c ? ?; apply Hps; by apply (tree_unique _ _ s p ks l c HT)).
  assert (forall c p' l', kids !! p' = Some l' -> c ∈ l' -> p' <> s -> Some c <> last ks) as Hlast.
  { intros c p' l' Hl' Hc Hne Hx%last_elem. apply Hne. by apply (tree_unique _ _ s p' ks l' c HT). }
  assert (forall c p' l', kids !! p' = Some l' -> c ∈ l' -> p' <> p -> c ∉ l) as Hinl.
  { intros c p' l' Hl' Hc Hne Hx. apply Hne. by apply (tree_unique _ _ p p' l l' c HT). }
  destruct (relinked_fwd _ _ _ _ _ HR Hs) as (ds' & Hs' & F1 & _ & F3 & F4). cbn in F1, F3, F4.
  rewrite decide_True in F1 by done. rewrite decide_False in F3 by (intros Hh%head_elem; by apply (Hsl p l s)).
  rewrite decide_False in F4 by (intros Hh%last_elem; by apply (Hsl s ks s)).
  destruct (t_root _ _ HT s ds Hs Hroot) as [Hr1 Hr2]. split.
  - intros a. rewrite (relinked_dom D D' _ a HR), (t_dom _ _ HT). destruct (decide (a = p)) as [->|].
    + rewrite lookup_insert_eq, Hl. split; eauto.
    + rewrite lookup_insert_ne by done. destruct (decide (a = s)) as [->|]; [|by rewrite lookup_insert_ne].
      rewrite lookup_insert_eq, Hks. split; eauto.
  - intros p' l' d' Hl' Hd'. destruct (relinked_bwd _ _ _ _ _ HR Hd') as (d & Hd & _ & E2 & _). cbn in E2.
    destruct (decide (p' = p)) as [->|Hne].
    { rewrite lookup_insert_eq in Hl'. injection Hl' as <-. split_and!; [done|apply NoDup_singleton|]. cbn [dllseg].
      exists ds'. split_and!; [done|done|congruence|simpl; congruence|done]. }
    rewrite lookup_insert_ne in Hl' by done. destruct (decide (p' = s)) as [->|Hne2].
    + rewrite lookup_insert_eq in Hl'. injection Hl' as <-. split_and!; [done|apply NoDup_app; naive_solver|].
      apply (dllseg_join D D' p s); try done; intros c dc Hc Hdc;
        destruct (relinked_fwd _ _ _ _ _ HR Hdc) as (dc' & Hdc' & G1 & _ & G3 & G4); cbn in G1, G3, G4; exists dc';
        (rewrite decide_False in G1 by eauto); (split_and!; [done| | |]).
      * rewrite G1, decide_False by (intros ?; by apply (Hdisj c)). by eapply dllseg_parent.
      * rewrite G3, decide_False; [done|]. intros Hh%head_elem. by apply (Hdisj c).
      * done.
      * by rewrite decide_True in G1.
      * done.
      * rewrite G4, decide_False; [done|]. by apply (Hlast c p l).
    + rewrite lookup_insert_ne in Hl' by done. destruct (t_list _ _ HT p' l' d Hl' Hd) as (G1 & G2 & G3).
      split_and!; [congruence|done|]. apply (relinked_other D D' _ _ _ _ _ HR); [|done]. intros c dc Hc Hdc. cbn.
      rewrite decide_False by eauto. rewrite decide_False by (by apply (Hinl c p' l')).
      rewrite decide_False by (intros Hh%head_elem; by apply (Hinl c p' l')). rewrite decide_False by (by apply (Hlast c p' l')). done.
  - intros c d' p' Hd' Hp'. destruct (relinked_bwd _ _ _ _ _ HR Hd') as (d & Hd & E1 & _). cbn in E1. rewrite Hp' in E1.
    destruct (decide (c = s)) as [->|Hcs].
    { injection E1 as ->. exists [s]. rewrite lookup_insert_eq. split; [done|by left]. }
    destruct (decide (c ∈ l)) as [Hcl|Hcl].
    { injection E1 as ->. exists (ks ++ l). rewrite lookup_insert_ne, lookup_insert_eq by done. set_solver. }
    destruct (t_parent _ _ HT c d p' Hd ltac:(congruence)) as (l' & Hl' & Hin).
    assert (p' <> p) as Hne by (intros ->; simplify_eq; done). rewrite lookup_insert_ne by done.
    destruct (decide (p' = s)) as [->|]; [|exists l'; by rewrite lookup_insert_ne].
    exists (ks ++ l). rewrite lookup_insert_eq. split; [done|]. simplify_eq. set_solver.
  - intros c d' Hd' Hp'. destruct (relinked_bwd _ _ _ _ _ HR Hd') as (d & Hd & E1 & _ & E3 & E4). cbn in E1, E3, E4.
    destruct (decide (c = s)) as [|Hcs]; [congruence|]. destruct (decide (c ∈ l)) as [|Hcl]; [congruence|].
    destruct (t_root _ _ HT c d Hd ltac:(congruence)) as [G1 G2].
    rewrite decide_False in E3 by (intros Hh%head_elem; done).
    destruct (decide (Some c = last ks)) as [Hh%last_elem|]; [|split; congruence]. exfalso.
    by apply (tree_root_kid _ _ _ _ _ _ HT Hks Hd ltac:(congruence)).
  - assert (dchain D' p lp) as Hp2.
    { apply (relinked_chain D D' _ _ _ Hp HR). intros x dx Hx Hdx. cbn. rewrite decide_False by (intros ->; done).
      rewrite decide_False; [done|]. intros Hxl. destruct (tree_kid _ _ _ _ _ HT Hl Hxl) as (dx' & ? & Hpx). simplify_eq.
      by apply (dchain_child D p lp x dx Hp). }
    assert (dchain D' s (p :: lp)) as Hs2 by (by apply (dchain_up _ s ds')).
    apply (relinked_acyclic D D' _ (t_acyclic _ _ HT) HR). intros a da Hda. cbn.
    destruct (decide (a = s)) as [->|]; [eauto|]. destruct (decide (a ∈ l)) as [Hal|]; [|by left]. right.
    destruct (relinked_fwd _ _ _ _ _ HR Hda) as (da' & Hda' & G1 & _). cbn in G1. rewrite decide_False, decide_True in G1 by done.
    exists (s :: p :: lp). by apply (dchain_up _ a da').
Qed.

(** *** A stream leaves the list of its siblings *)

Lemma last_app_or l1 l2 : last (l1 ++ l2) = last_or (last l1) l2.
Proof. unfold last_or. rewrite last_app. by destruct (last l2). Qed.

(** The siblings [k] take the place of [s]. *)
Lemma dllseg_splice D D' q s l1 k l2 :
  dllseg D q None (l1 ++ s :: l2) None -> dllseg D s None k None -> NoDup (l1 ++ s :: l2) -> NoDup k ->
  (forall c d, c ∈ l1 -> D !! c = Some d -> exists d', D' !! c = Some d' /\ dep_prev d' = Some q /\
     sib_prev d' = sib_prev d /\ sib_next d' = (if decide (Some c = last l1) then head (k ++ l2) else sib_next d)) ->
  (forall c d, c ∈ k -> D !! c = Some d -> exists d', D' !! c = Some d' /\ dep_prev d' = Some q /\
     sib_prev d' = (if decide (Some c = head k) then last l1 else sib_prev d) /\
     sib_next d' = (if decide (Some c = last k) then head l2 else sib_next d)) ->
  (forall c d, c ∈ l2 -> D !! c = Some d -> exists d', D' !! c = Some d' /\ dep_prev d' = Some q /\
     sib_prev d' = (if decide (Some c = head l2) then last (l1 ++ k) else sib_prev d) /\ sib_next d' = sib_next d) ->
  dllseg D' q None (l1 ++ k ++ l2) None.
Proof.
  intros Hd Hk (N1 & _ & N2)%NoDup_app Nk H1 H2 H3. apply NoDup_cons in N2 as [_ N2].
  apply dllseg_app in Hd as [D1 (ds & _ & _ & _ & _ & D2)]. rewrite !dllseg_app, !hd_or_None, last_or_None, <- last_app_or. split_and!.
  - apply (dllseg_rebase D D' q None l1 (hd_or None (s :: l2))); [done|done|]. intros c d Hc Hdc.
    destruct (H1 c d Hc Hdc) as (d' & ? & ? & E & ?). exists d'. split_and!; [done|done| |done].
    rewrite E. destruct (decide (Some c = head l1)) as [Hh|]; [|done]. by apply (dllseg_head D q None l1 (Some s) c d).
  - apply (dllseg_rebase D D' s None k None); [done|done|]. intros c d Hc Hdc.
    destruct (H2 c d Hc Hdc) as (d' & ? & ? & ? & ?). by exists d'.
  - apply (dllseg_rebase D D' q (Some s) l2 None); [done|done|]. intros c d Hc Hdc.
    destruct (H3 c d Hc Hdc) as (d' & ? & ? & E3 & E). exists d'. split_and!; [done|done|done|].
    rewrite E. destruct (decide (Some c = last l2)) as [Hh|]; [|done]. by apply (dllseg_last D q (Some s) l2 None c d).
Qed.

Definition remove_links (q s : Z) (l1 k l2 : list Z) : relink := {|
  rl_prev := fun a d => if decide (a = s) then None else if decide (a ∈ k) then Some q else dep_prev d;
  rl_next := fun a d => if decide (a = s) then None else if decide (a = q) then head (l1 ++ k ++ l2) else dep_next d;
  rl_sprev := fun a d => if decide (a = s) then None else if decide (Some a = head k) then last l1
                         else if decide (Some a = head l2) then last (l1 ++ k) else sib_prev d;
  rl_snext := fun a d => if decide (a = s) then None else if decide (Some a = last l1) then head (k ++ l2)
                         else if decide (Some a = last k) then head l2 else sib_next d;
|}.

Lemma tree_remove D D' kids q s l1 k l2 : tree_ok D kids -> kids !! q = Some (l1 ++ s :: l2) -> kids !! s = Some k ->
  relinked D D' (remove_links q s l1 k l2) -> tree_ok D' (<[q := l1 ++ k ++ l2]> (<[s := []]> kids)).
Proof.
  intros HT Hq Hk HR. assert (s ∈ l1 ++ s :: l2) as Hsq by set_solver.
  destruct (tree_kid _ _ _ _ _ HT Hq Hsq) as (ds & Hs & Hsp).
  assert (q <> s) as Hqs by (intros ->; by apply (tree_self _ _ _ _ HT Hq)).
  destruct (proj2 (t_dom _ _ HT q) ltac:(eauto)) as [dq Hdq].
  destruct (t_list _ _ HT q _ dq Hq Hdq) as (_ & Hnd & Hdll). destruct (t_list _ _ HT s k ds Hk Hs) as (_ & Hnk & Hdlk).
  pose proof Hnd as (N1 & Ndis & [Ns2 N2]%NoDup_cons)%NoDup_app.
  assert (s ∉ l1) as Ns1 by (intros H; apply (Ndis s H); by left). assert (forall c, c ∈ l1 -> c ∉ l2) as N12 by set_solver.
  assert (forall c, c ∈ k -> c ∉ l1 ++ s :: l2) as Hdisj.
  { intros c Hc Hc'. apply Hqs. by apply (tree_unique _ _ s q k (l1 ++ s :: l2) c HT). }
  assert (s ∉ k) as Hsk by (intros H; by apply (Hdisj s)).
  assert (forall c p' l', kids !! p' = Some l' -> c ∈ l' -> p' <> q -> c ∉ l1 ++ s :: l2) as Hinq.
  { intros c p' l' Hl' Hc Hne Hx. apply Hne. by apply (tree_unique _ _ q p' (l1 ++ s :: l2) l' c HT). }
  assert (forall c p' l', kids !! p' = Some l' -> c ∈ l' -> p' <> s -> c ∉ k) as Hink.
  { intros c p' l' Hl' Hc Hne Hx. apply Hne. by apply (tree_unique _ _ s p' k l' c HT). } split.
  - intros a. rewrite (relinked_dom D D' _ a HR), (t_dom _ _ HT). destruct (decide (a = q)) as [->|].
    + rewrite lookup_insert_eq, Hq. split; eauto.
    + rewrite lookup_insert_ne by done. destruct (decide (a = s)) as [->|]; [|by rewrite lookup_insert_ne].
      rewrite lookup_insert_eq, Hk. split; eauto.
  - intros p' l' d' Hl' Hd'. destruct (relinked_bwd _ _ _ _ _ HR Hd') as (d & Hd & _ & E2 & _). cbn in E2.
    destruct (decide (p' = q)) as [->|Hne].
    + rewrite lookup_insert_eq in Hl'. injection Hl' as <-. rewrite decide_False in E2 by done. split_and!; [done| |].
      { apply NoDup_app. split_and!; [done|set_solver|]. apply NoDup_app. split_and!; [done|set_solver|done]. }
      apply (dllseg_splice D D' q s); try done; intros c dc Hc Hdc;
        destruct (relinked_fwd _ _ _ _ _ HR Hdc) as (dc' & Hdc' & G1 & _ & G3 & G4); cbn in G1, G3, G4; exists dc';
        (assert (c <> s) by set_solver); rewrite decide_False in G1, G3, G4 by done.
      * rewrite decide_False in G1 by set_solver. rewrite !decide_False in G3 by (intros Hh%head_elem; set_solver).
        split_and!; [done|rewrite G1; apply (dllseg_parent _ _ _ _ _ c dc Hdll); set_solver|done|].
        rewrite G4. destruct (decide (Some c = last l1)); [done|]. rewrite decide_False; [done|]. intros Hh%last_elem. set_solver.
      * rewrite decide_True in G1 by done. rewrite (decide_False (P := Some c = last l1)) in G4 by (intros Hh%last_elem; set_solver).
        split_and!; [done|done| |done]. rewrite G3. destruct (decide (Some c = head k)); [done|].
        rewrite decide_False; [done|]. intros Hh%head_elem. set_solver.
      * rewrite decide_False in G1 by set_solver. rewrite (decide_False (P := Some c = head k)) in G3 by (intros Hh%head_elem; set_solver).
        rewrite !decide_False in G4 by (intros Hh%last_elem; set_solver).
        split_and!; [done|rewrite G1; apply (dllseg_parent _ _ _ _ _ c dc Hdll); set_solver|done|done].
    + rewrite lookup_insert_ne in Hl' by done. destruct (decide (p' = s)) as [->|Hne2].
      { rewrite lookup_insert_eq in Hl'. injection Hl' as <-. split_and!; [done|constructor|done]. }
      rewrite lookup_insert_ne in Hl' by done. destruct (t_list _ _ HT p' l' d Hl' Hd) as (G1 & G2 & G3).
      split_and!; [congruence|done|]. apply (relinked_other D D' _ _ _ _ _ HR); [|done]. intros c dc Hc Hdc. cbn.
      pose proof (Hinq c p' l' Hl' Hc Hne) as Hcq. pose proof (Hink c p' l' Hl' Hc Hne2) as Hck.
      rewrite !(decide_False (P := c = s)) by set_solver. rewrite (decide_False (P := c ∈ k)) by done.
      rewrite !decide_False; [done|intros Hh%last_elem; set_solver|intros Hh%last_elem; set_solver|intros Hh%head_elem; set_solver|intros Hh%head_elem; set_solver].
  - intros c d' p' Hd' Hp'. destruct (relinked_bwd _ _ _ _ _ HR Hd') as (d & Hd & E1 & _). cbn in E1. rewrite Hp' in E1.
    destruct (decide (c = s)) as [->|Hcs]; [done|]. destruct (decide (c ∈ k)) as [Hck|Hck].
    { injection E1 as ->. exists (l1 ++ k ++ l2). rewrite lookup_insert_eq. set_solver. }
    destruct (t_parent _ _ HT c d p' Hd ltac:(congruence)) as (l' & Hl' & Hin).
    assert (p' <> s) as Hne by (intros ->; simplify_eq; done).
    destruct (decide (p' = q)) as [->|]; [|exists l'; by rewrite !lookup_insert_ne].
    exists (l1 ++ k ++ l2). rewrite lookup_insert_eq. simplify_eq. set_solver.
  - intros c d' Hd' Hp'. destruct (relinked_bwd _ _ _ _ _ HR Hd') as (d & Hd & E1 & _ & E3 & E4). cbn in E1, E3, E4.
    destruct (decide (c = s)) as [|Hcs]; [done|]. destruct (decide (c ∈ k)) as [|Hck]; [congruence|].
    assert (c ∉ l1 ++ s :: l2) as Hcq by (apply (tree_root_kid _ _ _ _ _ _ HT Hq Hd); congruence).
    destruct (t_root _ _ HT c d Hd ltac:(congruence)) as [G1 G2].
    rewrite !decide_False in E3 by (intros Hh%head_elem; set_solver).
    rewrite !decide_False in E4 by (intros Hh%last_elem; set_solver). split; congruence.
  - destruct (t_acyclic _ _ HT q ltac:(eauto)) as [lq Hlq].
    assert (dchain D' q lq) as Hq2.
    { apply (relinked_chain D D' _ _ _ Hlq HR). intros x dx Hx Hdx. cbn.
      rewrite decide_False by (intros ->; by apply (dchain_child D q lq s ds Hlq)).
      rewrite decide_False; [done|]. intros Hxk. destruct (tree_kid _ _ _ _ _ HT Hk Hxk) as (dx' & ? & Hpx). simplify_eq.
      pose proof (dchain_up D s ds q lq Hs Hsp Hlq) as Hls. apply (dchain_child D s (q :: lq) x dx Hls); [done|done|]. by right. }
    apply (relinked_acyclic D D' _ (t_acyclic _ _ HT) HR). intros a da Hda. cbn.
    destruct (relinked_fwd _ _ _ _ _ HR Hda) as (da' & Hda' & G1 & _). cbn in G1.
    destruct (decide (a = s)) as [->|]; [right; exists []; by apply (dchain_root _ s da')|].
    destruct (decide (a ∈ k)) as [Hak|]; [|by left]. right. exists (q :: lq). by apply (dchain_up _ a da').
Qed.

(** The subtree of [s] leaves the tree as a whole. *)
Definition cut_links (q s : Z) (l1 l2 : list Z) : relink := {|
  rl_prev := fun a d => if decide (a = s) then None else dep_prev d;
  rl_next := fun a d => if decide (a = q) then head (l1 ++ l2) else dep_next d;
  rl_sprev := fun a d => if decide (a = s) then None else if decide (Some a = head l2) then last l1 else sib_prev d;
  rl_snext := fun a d => if decide (a = s) then None else if decide (Some a = last l1) then head l2 else sib_next d;
|}.

Lemma tree_cut D D' kids q s l1 l2 : tree_ok D kids -> kids !! q = Some (l1 ++ s :: l2) ->
  relinked D D' (cut_links q s l1 l2) -> tree_ok D' (<[q := l1 ++ l2]> kids).
Proof.
  intros HT Hq HR. assert (s ∈ l1 ++ s :: l2) as Hsq by set_solver.
  destruct (tree_kid _ _ _ _ _ HT Hq Hsq) as (ds & Hs & Hsp).
  assert (q <> s) as Hqs by (intros ->; by apply (tree_self _ _ _ _ HT Hq)).
  destruct (proj2 (t_dom _ _ HT q) ltac:(eauto)) as [dq Hdq].
  destruct (t_list _ _ HT q _ dq Hq Hdq) as (_ & Hnd & Hdll).
  pose proof Hnd as (N1 & Ndis & [Ns2 N2]%NoDup_cons)%NoDup_app.
  assert (s ∉ l1) as Ns1 by (intros H; apply (Ndis s H); by left). assert (forall c, c ∈ l1 -> c ∉ l2) as N12 by set_solver.
  split.
  - intros a. rewrite (relinked_dom D D' _ a HR), (t_dom _ _ HT). destruct (decide (a = q)) as [->|].
    + rewrite lookup_insert_eq, Hq. split; eauto.
    + by rewrite lookup_insert_ne.
  - intros p' l' d' Hl' Hd'. destruct (relinked_bwd _ _ _ _ _ HR Hd') as (d & Hd & _ & E2 & _). cbn in E2.
    destruct (decide (p' = q)) as [->|Hne].
    + rewrite lookup_insert_eq in Hl'. injection Hl' as <-. split_and!; [done|apply NoDup_app; naive_solver|].
      apply (dllseg_splice D D' q s l1 [] l2); [done|done|done|constructor| |by intros c dc ?%elem_of_nil|]; intros c dc Hc Hdc;
        destruct (relinked_fwd _ _ _ _ _ HR Hdc) as (dc' & Hdc' & G1 & _ & G3 & G4); cbn in G1, G3, G4; exists dc';
        (assert (c <> s) by set_solver); rewrite decide_False in G1, G3, G4 by done; rewrite ?app_nil_r;
        (split_and!; [done|rewrite G1; apply (dllseg_parent _ _ _ _ _ c dc Hdll); set_solver| |]); try done.
      * rewrite decide_False in G3; [done|]. intros Hh%head_elem. set_solver.
      * rewrite decide_False in G4; [done|]. intros Hh%last_elem. set_solver.
    + rewrite lookup_insert_ne in Hl' by done. destruct (t_list _ _ HT p' l' d Hl' Hd) as (G1 & G2 & G3).
      split_and!; [congruence|done|]. apply (relinked_other D D' _ _ _ _ _ HR); [|done]. intros c dc Hc Hdc. cbn.
      assert (c ∉ l1 ++ s :: l2) as Hcq.
      { intros Hx. apply Hne. by apply (tree_unique _ _ q p' (l1 ++ s :: l2) l' c HT). }
      rewrite !(decide_False (P := c = s)) by set_solver.
      rewrite !decide_False; [done|intros Hh%last_elem; set_solver|intros Hh%head_elem; set_solver].
  - intros c d' p' Hd' Hp'. destruct (relinked_bwd _ _ _ _ _ HR Hd') as (d & Hd & E1 & _). cbn in E1. rewrite Hp' in E1.
    destruct (decide (c = s)) as [->|Hcs]; [done|].
    destruct (t_parent _ _ HT c d p' Hd ltac:(congruence)) as (l' & Hl' & Hin).
    destruct (decide (p' = q)) as [->|]; [|exists l'; by rewrite !lookup_insert_ne].
    exists (l1 ++ l2). rewrite lookup_insert_eq. simplify_eq. set_solver.
  - intros c d' Hd' Hp'. destruct (relinked_bwd _ _ _ _ _ HR Hd') as (d & Hd & E1 & _ & E3 & E4). cbn in E1, E3, E4.
    destruct (decide (c = s)) as [|Hcs]; [done|].
    assert (c ∉ l1 ++ s :: l2) as Hcq by (apply (tree_root_kid _ _ _ _ _ _ HT Hq Hd); congruence).
    destruct (t_root _ _ HT c d Hd ltac:(congruence)) as [G1 G2].
    rewrite !decide_False in E3 by (intros Hh%head_elem; set_solver).
    rewrite !decide_False in E4 by (intros Hh%last_elem; set_solver). split; congruence.
  - apply (relinked_acyclic D D' _ (t_acyclic _ _ HT) HR). intros a da Hda. cbn.
    destruct (relinked_fwd _ _ _ _ _ HR Hda) as (da' & Hda' & G1 & _). cbn in G1.
    destruct (decide (a = s)) as [->|]; [right; exists []; by apply (dchain_root _ s da')|by left].
Qed.

(** *** A new stream *)

Lemma tree_new D kids a d : tree_ok D kids -> D !! a = None -> links d = (None, None, None, None) ->
  tree_ok (<[a := d]> D) (<[a := []]> kids).
Proof.
  intros HT Ha Hd. unfold links in Hd. injection Hd as Hd1 Hd2 Hd3 Hd4.
  assert (kids !! a = None) as Hka by (apply eq_None_not_Some; rewrite <- (t_dom _ _ HT), Ha; by intros [? ?]).
  assert (forall p prev l next, dllseg D p prev l next -> dllseg (<[a := d]> D) p prev l next) as Hdll.
  { intros p prev l next H. apply (dllseg_ext D); [|done]. intros c Hc. rewrite lookup_insert_ne; [done|].
    intros <-. destruct (dllseg_dom _ _ _ _ _ _ H Hc). congruence. }
  split.
  - intros x. destruct (decide (x = a)) as [->|]; [rewrite !lookup_insert_eq; split; eauto|].
    rewrite !lookup_insert_ne by done. apply HT.
  - intros p l dp Hl Hp. destruct (decide (p = a)) as [->|].
    + rewrite lookup_insert_eq in Hl. rewrite lookup_insert_eq in Hp. simplify_eq. split_and!; [done|constructor|done].
    + rewrite lookup_insert_ne in Hl by done. rewrite lookup_insert_ne in Hp by done. destruct (t_list _ _ HT p l dp Hl Hp) as (? & ? & ?). auto.
  - intros c dc p Hc Hp. destruct (decide (c = a)) as [->|]; [rewrite lookup_insert_eq in Hc; congruence|].
    rewrite lookup_insert_ne in Hc by done. destruct (t_parent _ _ HT c dc p Hc Hp) as (l & Hl & Hin).
    exists l. rewrite lookup_insert_ne; [done|congruence].
  - intros c dc Hc Hp. destruct (decide (c = a)) as [->|]; [rewrite lookup_insert_eq in Hc; split; congruence|].
    rewrite lookup_insert_ne in Hc by done. by apply (t_root _ _ HT c).
  - intros x Hx. destruct (decide (x = a)) as [->|].
    + exists []. apply (dchain_root _ a d); [by rewrite lookup_insert_eq|done].
    + rewrite lookup_insert_ne in Hx by done. destruct (t_acyclic _ _ HT x Hx) as [l Hl]. exists l.
      apply (dchain_stable D); [done|]. intros y Hy. destruct (dchain_dom _ _ _ _ Hl Hy) as [dy Hdy].
      assert (y <> a) by congruence. unfold parent. rewrite lookup_insert_ne by done. eauto.
Qed.
