(* ===== verification/StreamQueue.v ===== *)
(** * Streams: the queues

    A program logic for the operations of [Stream], and what the insertions
    into and removals from the queues of streams do: [obq_ok] says that the
    queues, the back pointers of their entries and the [queued] flags agree;
    [stream_obq_push] and [stream_obq_remove] restore the rule that a stream
    is queued exactly when its subtree is active. *)

From S2P Require Import Prelude Defs Pq Frame Http Stream StreamLinks.

Implicit Types (s cs ds : nghttp2_stream) (h : gmap Z nghttp2_stream) (w : world).

(** ** Weakest preconditions *)

Definition wp {A} (m : st_m A) (w : world) (Q : A -> world -> Prop) : Prop :=
  match m w with
  | Some (w', a) => Q a w'
  | None => False
  end.

Lemma wp_ret {A} (a : A) w (Q : A -> world -> Prop) : Q a w -> wp (mret a) w Q.
Proof. done. Qed.

Lemma wp_then {A B} (m : st_m A) (k : A -> st_m B) w Q :
  wp m w (fun a w' => wp (k a) w' Q) -> wp (st_then m k) w Q.
Proof. unfold wp, st_then, mbind, st_bind. destruct (m w) as [[w' a]|]; done. Qed.

Lemma wp_bind {A B} (m : st_m A) (k : A -> st_m B) w Q :
  wp m w (fun a w' => wp (k a) w' Q) -> wp (mbind k m) w Q.
Proof. apply wp_then. Qed.

Lemma wp_mono {A} (m : st_m A) w (P Q : A -> world -> Prop) :
  wp m w P -> (forall a w', P a w' -> Q a w') -> wp m w Q.
Proof. unfold wp. destruct (m w) as [[w' a]|]; [|done]. intros H HPQ. by apply HPQ. Qed.

Lemma wp_load a w s (Q : nghttp2_stream -> world -> Prop) :
  streams w !! a = Some s -> Q s w -> wp (load a) w Q.
Proof. unfold wp, load. by intros ->. Qed.

Lemma wp_modify a f w s (Q : unit -> world -> Prop) :
  streams w !! a = Some s -> Q tt (mk_world (<[a := f s]> (streams w)) (pushes w)) -> wp (modify a f) w Q.
Proof. unfold wp, modify. by intros ->. Qed.

Lemma wp_assert b w (Q : unit -> world -> Prop) : b = true -> Q tt w -> wp (st_assert b) w Q.
Proof. by intros ->. Qed.

Lemma wp_int32 z w (Q : Z -> world -> Prop) : is_i32 z -> Q z w -> wp (int32 z) w Q.
Proof.
  unfold is_i32, int32, INT32_MIN, INT32_MAX. intros Hz HQ.
  destruct (Z.leb_spec (- 2 ^ 31) z); [|lia]. destruct (Z.leb_spec z (2 ^ 31 - 1)); [|lia]. done.
Qed.

Lemma wp_fuel w (Q : nat -> world -> Prop) : Q (S (S (size (streams w)))) w -> wp chain_fuel w Q.
Proof. done. Qed.

Lemma wp_deref a w (Q : Z -> world -> Prop) : Q a w -> wp (deref (Some a)) w Q.
Proof. done. Qed.

(** One step of the program at the head of the goal. *)
Ltac wp_step :=
  lazymatch goal with
  | |- wp (st_then _ _) _ _ => apply wp_then
  | |- wp (mbind _ _) _ _ => apply wp_bind
  | |- wp (mret _) _ _ => apply wp_ret
  | |- wp (load _) _ _ => eapply wp_load; [eassumption|]
  | |- wp (modify _ _) _ _ => eapply wp_modify; [eassumption|]
  | |- wp (deref (Some _)) _ _ => apply wp_deref
  | |- wp chain_fuel _ _ => apply wp_fuel
  end; cbn beta.

(** ** Frames *)

(** Everything but what the scheduler keeps. *)
Definition core (s : nghttp2_stream) : nghttp2_stream := upd_sched (fun _ => mk_sched 0 [] 0 0 0 0 0 0 0 0) s.

(** Everything but the queue and the position in the parent's queue. *)
Definition key (s : nghttp2_stream) : nghttp2_stream := upd_sched (fun c => obq_to [] 0 (pq_index_to 0 c)) s.

Definition same_core (h h' : gmap Z nghttp2_stream) : Prop := core <$> h' = core <$> h.
Definition same_key (h h' : gmap Z nghttp2_stream) : Prop := key <$> h' = key <$> h.

#[global] Instance same_core_equiv : Equivalence same_core.
Proof. unfold same_core. split; [done|by intros x y ->|]. intros x y z H1 H2. congruence. Qed.

#[global] Instance same_key_equiv : Equivalence same_key.
Proof. unfold same_key. split; [done|by intros x y ->|]. intros x y z H1 H2. congruence. Qed.

Lemma core_key s : core (key s) = core s.
Proof. by destruct s as [? [] ? ? ? ? ? ? ? ? ?]. Qed.

Lemma same_key_core h h' : same_key h h' -> same_core h h'.
Proof.
  unfold same_key, same_core. intros H. apply (f_equal (fmap core)) in H. rewrite <- !map_fmap_compose in H.
  etrans; [|etrans; [exact H|]]; apply map_fmap_ext; intros; simpl; by rewrite core_key.
Qed.

Lemma same_lookup {B} (f : nghttp2_stream -> B) (h h' : gmap Z nghttp2_stream) a s :
  f <$> h' = f <$> h -> h !! a = Some s -> exists s', h' !! a = Some s' /\ f s' = f s.
Proof.
  intros H Ha. assert ((f <$> h') !! a = Some (f s)) as Hf by (by rewrite H, lookup_fmap, Ha).
  rewrite lookup_fmap in Hf. destruct (h' !! a) as [s'|]; [|done]. simpl in Hf. exists s'. split; [done|congruence].
Qed.

Lemma same_lookup_r {B} (f : nghttp2_stream -> B) (h h' : gmap Z nghttp2_stream) a s :
  f <$> h' = f <$> h -> h' !! a = Some s -> exists s', h !! a = Some s' /\ f s' = f s.
Proof. intros H Ha. by apply (same_lookup f h' h). Qed.

Lemma same_core_upd h a s f : h !! a = Some s -> same_core h (<[a := upd_sched f s]> h).
Proof.
  intros Ha. unfold same_core. rewrite fmap_insert.
  replace (core (upd_sched f s)) with (core s) by done. rewrite <- fmap_insert. by rewrite insert_id.
Qed.

Lemma upd_sched_id f s : f (st_sched s) = st_sched s -> upd_sched f s = s.
Proof. unfold upd_sched. intros ->. by destruct s. Qed.

(** ** Membership *)

Definition qs (h : gmap Z nghttp2_stream) (p c : Z) : Prop := exists s, h !! p = Some s /\ c ∈ obq_q s.
Definition is_queued (h : gmap Z nghttp2_stream) (c : Z) : Prop := exists s, h !! c = Some s /\ queued s <> 0.

(** Every slot of every queue holds a stream that knows its position, and no
    stream is in two queues. *)
Record ob_struct (h : gmap Z nghttp2_stream) : Prop := {
  ob_index : forall p s i c, h !! p = Some s -> obq_q s !! i = Some c ->
    exists cs, h !! c = Some cs /\ pq_index cs = i;
  ob_cap : forall p s, h !! p = Some s -> (length (obq_q s) <= obq_capacity s)%nat;
  ob_uniq : forall p p' c, qs h p c -> qs h p' c -> p = p';
}.

(** And the flags say which streams are in a queue. *)
Definition obq_ok (h : gmap Z nghttp2_stream) : Prop :=
  ob_struct h /\ forall c, is_queued h c <-> exists p, qs h p c.

Lemma same_key_queued h h' c : same_key h h' -> is_queued h' c <-> is_queued h c.
Proof.
  intros H. assert (forall s s' : nghttp2_stream, key s' = key s -> queued s' = queued s) as Hk.
  { intros s s' E. by apply (f_equal (fun x : nghttp2_stream => queued x)) in E. }
  split; intros (s & Hs & Hq).
  - destruct (same_lookup_r _ _ _ _ _ H Hs) as (s' & ? & E%Hk). exists s'. split; [done|]. by rewrite E.
  - destruct (same_lookup _ _ _ _ _ H Hs) as (s' & ? & E%Hk). exists s'. split; [done|]. by rewrite E.
Qed.

(** A change of other scheduling data. *)
Definition keeps_queue (f : stream_sched -> stream_sched) : Prop := forall c,
  pq_index (f c) = pq_index c /\ obq_q (f c) = obq_q c /\ obq_capacity (f c) = obq_capacity c.

Lemma upd_qs h a s f p c : h !! a = Some s -> keeps_queue f -> qs (<[a := upd_sched f s]> h) p c <-> qs h p c.
Proof.
  intros Ha Hf. unfold qs. destruct (decide (a = p)) as [<-|].
  - rewrite lookup_insert_eq. destruct (Hf (st_sched s)) as (_ & E & _). split; intros (s' & Hs & Hin); simplify_eq; simpl in *.
    + exists s. split; [done|]. simpl in Hin. congruence.
    + eexists. split; [done|]. simpl. congruence.
  - by rewrite lookup_insert_ne.
Qed.

Lemma upd_struct h a s f : h !! a = Some s -> keeps_queue f -> ob_struct h -> ob_struct (<[a := upd_sched f s]> h).
Proof.
  intros Ha Hf [Hi Hc Hu].
  assert (forall p s', <[a := upd_sched f s]> h !! p = Some s' ->
    exists s0, h !! p = Some s0 /\ pq_index s' = pq_index s0 /\ obq_q s' = obq_q s0 /\ obq_capacity s' = obq_capacity s0) as Hl.
  { intros p s'. destruct (decide (a = p)) as [<-|].
    - rewrite lookup_insert_eq. intros [= <-]. exists s. split; [done|]. apply Hf.
    - rewrite lookup_insert_ne by done. intros. by exists s'. }
  split.
  - intros p s' i c Hp. destruct (Hl p s' Hp) as (s0 & H0 & _ & -> & _). intros Hc'.
    destruct (Hi p s0 i c H0 Hc') as (cs & Hcs & <-).
    destruct (decide (a = c)) as [<-|]; [|rewrite lookup_insert_ne by done; eauto].
    rewrite lookup_insert_eq. eexists. split; [done|]. simplify_eq. apply Hf.
  - intros p s' Hp. destruct (Hl p s' Hp) as (s0 & H0 & _ & -> & ->). eauto.
  - intros p p' c. rewrite !(upd_qs h a s f) by done. apply Hu.
Qed.

(** ** Insertion and removal *)

Lemma obq_view_items h s : items (obq_view h s) = h.
Proof.
  unfold items, obq_view. simpl. rewrite <- map_fmap_compose. etrans; [|apply map_fmap_id]. by apply map_fmap_ext.
Qed.

Lemma obq_view_wf h p s : ob_struct h -> h !! p = Some s -> pq_wf (obq_view h s).
Proof.
  intros [Hi Hc _] Hp. split; simpl; [|by eapply Hc]. intros i c Hl.
  destruct (Hi p s i c Hp Hl) as (cs & Hcs & <-). rewrite lookup_fmap, Hcs. simpl. eauto.
Qed.

(** The store after an operation on the queue of [d], at every address. *)
Lemma obq_write_lookup h d pq a s : items pq = h -> h !! a = Some s ->
  exists e, entries pq !! a = Some e /\ obq_write d pq !! a =
    Some (upd_sched (fun c => (if decide (d = a) then obq_to (q pq) (capacity pq) else id) (pq_index_to (e_index e) c)) s).
Proof.
  intros <- Ha. unfold items in Ha. rewrite lookup_fmap in Ha. destruct (entries pq !! a) as [e|] eqn:He; [|done].
  simpl in Ha. injection Ha as <-. exists e. split; [done|]. unfold obq_write.
  destruct (decide (d = a)) as [->|Hne].
  - by rewrite lookup_alter_eq, lookup_fmap, He.
  - by rewrite lookup_alter_ne, lookup_fmap, He.
Qed.

Lemma obq_write_None h d pq a : items pq = h -> h !! a = None -> obq_write d pq !! a = None.
Proof.
  intros <- Ha. unfold items in Ha. rewrite lookup_fmap in Ha. destruct (entries pq !! a) as [e|] eqn:He; [done|].
  unfold obq_write. destruct (decide (d = a)) as [->|Hne].
  - by rewrite lookup_alter_eq, lookup_fmap, He.
  - by rewrite lookup_alter_ne, lookup_fmap, He.
Qed.

Lemma obq_write_key h d pq : items pq = h -> same_key h (obq_write d pq).
Proof.
  intros Hpq. unfold same_key. apply map_eq. intros a. rewrite !lookup_fmap. destruct (h !! a) as [s|] eqn:Ha.
  - destruct (obq_write_lookup h d pq a s Hpq Ha) as (e & _ & ->). simpl. by destruct (decide (d = a)).
  - by rewrite (obq_write_None h).
Qed.

(** Who is where after the queue of [d] became [pq]. *)
Lemma obq_write_qs h d pq p c : items pq = h -> is_Some (h !! d) ->
  qs (obq_write d pq) p c <-> if decide (p = d) then c ∈ q pq else qs h p c.
Proof.
  intros Hpq [ds Hd]. unfold qs. destruct (h !! p) as [s|] eqn:Hp.
  - destruct (obq_write_lookup h d pq p s Hpq Hp) as (e & _ & ->).
    destruct (decide (d = p)) as [<-|]; [rewrite decide_True by done|rewrite decide_False by done]; simpl.
    + split; [intros (x & [= <-] & H); exact H|]. intros H. by eexists.
    + split; intros (x & [= <-] & H); eauto.
  - rewrite (obq_write_None h) by done. destruct (decide (p = d)) as [->|]; [congruence|].
    split; intros (x & ? & _); done.
Qed.

(** [pq] is the new queue of [d]: its entries are streams of no other queue,
    and entries of other queues were left alone. *)
Lemma obq_write_struct h d ds pq : ob_struct h -> h !! d = Some ds -> pq_wf pq -> items pq = h ->
  (forall c p, c ∈ q pq -> qs h p c -> p = d) ->
  (forall p c s, p <> d -> qs h p c -> h !! c = Some s -> entries pq !! c = Some (mk_entry (pq_index s) s)) ->
  ob_struct (obq_write d pq).
Proof.
  intros Hob Hd Hwf Hpq Hown Hframe. split.
  - intros p s' i c Hp Hi. destruct (h !! p) as [s|] eqn:Hps; [|by rewrite (obq_write_None h) in Hp].
    destruct (obq_write_lookup h d pq p s Hpq Hps) as (e & He & E). rewrite E in Hp. injection Hp as <-.
    assert (exists x, entries pq !! c = Some (mk_entry i x)) as [x Hx].
    { simpl in Hi. destruct (decide (d = p)) as [<-|Hne]; simpl in Hi; [by apply (wf_index _ Hwf)|].
      destruct (ob_index _ Hob p s i c Hps Hi) as (cs & Hcs & <-). exists cs. apply (Hframe p); [done| |done].
      exists s. split; [done|]. apply list_elem_of_lookup. eauto. }
    assert (h !! c = Some x) as Hcx by (rewrite <- Hpq; unfold items; by rewrite lookup_fmap, Hx).
    destruct (obq_write_lookup h d pq c x Hpq Hcx) as (e' & He' & ->). eexists. split; [done|].
    rewrite Hx in He'. injection He' as <-. simpl. by destruct (decide (d = c)).
  - intros p s' Hp. destruct (h !! p) as [s|] eqn:Hps; [|by rewrite (obq_write_None h) in Hp].
    destruct (obq_write_lookup h d pq p s Hpq Hps) as (e & He & E). rewrite E in Hp. injection Hp as <-.
    simpl. destruct (decide (d = p)) as [<-|]; simpl; [apply (wf_cap _ Hwf)|by apply (ob_cap _ Hob p)].
  - intros p p' c. rewrite !(obq_write_qs h) by done.
    repeat destruct (decide _); subst; [done|intros H1 H2; symmetry; eauto|eauto|apply (ob_uniq _ Hob)].
Qed.

(** The queue of [d] has a free slot. *)
Definition room h d : Prop := exists ds, h !! d = Some ds /\ (length (obq_q ds) < obq_capacity ds)%nat.

(** The allocator has failed. *)
Definition refused (ok : nat -> bool) : Prop := exists n, ok n = false.

(** What an insertion does. *)
Definition inserted h d c h' : Prop :=
  ob_struct h' /\ same_key h h' /\ forall p c', qs h' p c' <-> qs h p c' \/ p = d /\ c' = c.

Definition deleted h d c h' : Prop :=
  ob_struct h' /\ same_key h h' /\ room h' d /\ forall p c', qs h' p c' <-> qs h p c' /\ ~ (p = d /\ c' = c).

Lemma wp_obq_insert ok d c w (Q : Z -> world -> Prop) :
  ob_struct (streams w) -> is_Some (streams w !! d) -> is_Some (streams w !! c) -> (forall p, ~ qs (streams w) p c) ->
  (~ room (streams w) d -> refused ok -> forall n, Q NGHTTP2_ERR_NOMEM (mk_world (streams w) n)) ->
  (forall h n, inserted (streams w) d c h -> Q 0 (mk_world h n)) ->
  wp (obq_insert ok d c) w Q.
Proof.
  destruct w as [h n]. simpl. intros Hob [ds Hd] [cs Hc] Hout Hnomem HQ. unfold wp, obq_insert. simpl. rewrite Hd. simpl.
  pose proof (obq_view_wf h d ds Hob Hd) as Hwf.
  destruct (push_any stream_less (obq_view h ds) (ok n) c Hwf) as [(Href & -> & Hcap)|(pq & -> & Hwf' & Hperm & Hit & Hfr)].
  - simpl. rewrite lookup_fmap, Hc. simpl. eauto.
  - simpl. intros Hin. apply (Hout d). by exists ds.
  - assert (obq_write d (obq_view h ds) = h) as ->.
    { apply map_eq. intros a. destruct (h !! a) as [s|] eqn:Ha.
      - destruct (obq_write_lookup h d (obq_view h ds) a s (obq_view_items h ds) Ha) as (e & He & ->). simpl in He.
        rewrite lookup_fmap, Ha in He. injection He as <-. f_equal. apply upd_sched_id.
        destruct (decide (d = a)) as [<-|]; simplify_eq; simpl; by destruct (st_sched _).
      - apply (obq_write_None h); [apply obq_view_items|done]. }
    apply Hnomem; [|by exists n]. intros (ds' & Hd' & Hlt). simplify_eq. simpl in Hcap. lia.
  - rewrite obq_view_items in Hit. simpl in Hperm, Hfr.
    assert (forall p x, qs (obq_write d pq) p x <-> qs h p x \/ p = d /\ x = c) as Hqs.
    { intros p x. rewrite (obq_write_qs h) by done. destruct (decide (p = d)) as [->|]; [|naive_solver].
      rewrite Hperm, elem_of_cons. unfold qs. split; [intros [->|Hx]; eauto|].
      intros [(? & ? & ?)|[_ ->]]; simplify_eq; eauto. }
    apply HQ. split_and!; [|by apply obq_write_key|done].
    apply (obq_write_struct h d ds); try done.
    + intros x p Hx Hp. rewrite Hperm, elem_of_cons in Hx. destruct Hx as [->|Hx]; [by destruct (Hout p)|].
      apply (ob_uniq _ Hob p d x); [done|]. by exists ds.
    + intros p x s Hne Hp Hs. rewrite Hfr.
      * simpl. by rewrite lookup_fmap, Hs.
      * rewrite elem_of_cons. intros [->|Hx]; [by apply (Hout p)|]. apply Hne, (ob_uniq _ Hob p d x); [done|]. by exists ds.
Qed.

Lemma wp_obq_delete d c w (Q : unit -> world -> Prop) :
  ob_struct (streams w) -> qs (streams w) d c ->
  (forall h, deleted (streams w) d c h -> Q tt (mk_world h (pushes w))) ->
  wp (obq_delete d c) w Q.
Proof.
  destruct w as [h n]. simpl. intros Hob (ds & Hd & Hin) HQ. unfold wp, obq_delete. simpl. rewrite Hd. simpl.
  pose proof (obq_view_wf h d ds Hob Hd) as Hwf.
  destruct (remove_any stream_less (obq_view h ds) c Hwf Hin) as (pq & -> & Hwf' & Hperm & Hit & Hcap & Hfr). simpl.
  rewrite obq_view_items in Hit. simpl in Hperm, Hfr, Hcap.
  assert (NoDup (obq_q ds)) as Hnd by (apply (wf_NoDup _ Hwf)).
  assert (c ∉ q pq) as Hc by (rewrite Hperm in Hnd; by apply NoDup_cons in Hnd as [? _]).
  apply HQ. split_and!; [|by apply obq_write_key| |].
  - apply (obq_write_struct h d ds); try done.
    + intros x p Hx Hp. apply (ob_uniq _ Hob p d x); [done|]. exists ds. split; [done|]. rewrite Hperm. by right.
    + intros p x s Hne Hp Hs. rewrite Hfr; [simpl; by rewrite lookup_fmap, Hs|].
      intros Hx. apply Hne, (ob_uniq _ Hob p d x); [done|]. by exists ds.
  - destruct (obq_write_lookup h d pq d ds Hit Hd) as (e & _ & E). eexists. split; [exact E|].
    rewrite decide_True by done. simpl. rewrite Hcap. pose proof (ob_cap _ Hob d ds Hd).
    assert (length (obq_q ds) = S (length (q pq))) by (rewrite Hperm; done). lia.
  - intros p x. rewrite (obq_write_qs h) by done. destruct (decide (p = d)) as [->|]; [|naive_solver].
    split.
    + intros Hx. split; [exists ds; split; [done|]; rewrite Hperm; by right|]. intros [_ ->]. done.
    + intros [(? & ? & Hx) Hne]. simplify_eq. rewrite Hperm, elem_of_cons in Hx. destruct Hx as [->|]; naive_solver.
Qed.

(** ** Changes that the queues do not notice *)

Definition quiet h h' : Prop :=
  same_core h h' /\ (ob_struct h -> ob_struct h') /\ (forall p c, qs h' p c <-> qs h p c) /\
  (forall c, is_queued h' c <-> is_queued h c) /\ (forall d, room h d -> room h' d).

#[global] Instance quiet_refl : Reflexive quiet.
Proof. intros h. split_and!; done. Qed.

#[global] Instance quiet_trans : Transitive quiet.
Proof.
  intros h1 h2 h3 (H1 & H2 & H3 & H4 & H5) (K1 & K2 & K3 & K4 & K5). split_and!; [by etrans|tauto| | |auto].
  - intros p c. by rewrite K3, H3.
  - intros c. by rewrite K4, H4.
Qed.

Definition keeps_flag (f : stream_sched -> stream_sched) : Prop := forall c, queued (f c) = queued c.

Lemma upd_quiet h a s f : h !! a = Some s -> keeps_queue f -> keeps_flag f -> quiet h (<[a := upd_sched f s]> h).
Proof.
  intros Ha Hf Hq. split_and!; [by apply same_core_upd|by apply upd_struct|intros; by apply upd_qs| |].
  - intros c. unfold is_queued. destruct (decide (a = c)) as [<-|]; [|by rewrite lookup_insert_ne].
    rewrite lookup_insert_eq. pose proof (Hq (st_sched s)) as E. split.
    + intros (s' & [= <-] & H). exists s. split; [done|]. simpl in H. congruence.
    + intros (s' & ? & H). simplify_eq. eexists. split; [done|]. simpl. congruence.
  - intros d (ds & Hd & Hlt). unfold room. destruct (decide (a = d)) as [<-|]; [|rewrite lookup_insert_ne by done; eauto].
    rewrite lookup_insert_eq. eexists. split; [done|]. simplify_eq. simpl. destruct (Hf (st_sched s)) as (_ & -> & ->). done.
Qed.

Lemma quiet_dom h h' a : quiet h h' -> is_Some (h !! a) -> is_Some (h' !! a).
Proof. intros [H _] [s Hs]. destruct (same_lookup _ _ _ _ _ H Hs) as (s' & -> & _). eauto. Qed.

(** The weight of every stream can divide. *)
Definition weights_ok h : Prop := forall a s, h !! a = Some s -> 1 <= weight s <= 256.

Lemma core_dep s s' : core s' = core s -> st_dep s' = st_dep s.
Proof. intros H. by apply (f_equal st_dep) in H. Qed.

Lemma core_active s s' : core s' = core s -> stream_active s' = stream_active s.
Proof.
  intros H. unfold stream_active. pose proof (f_equal item H) as E1.
  pose proof (f_equal (fun x : nghttp2_stream => sm_flags x) H) as E2. cbn in E1, E2. by rewrite E1, E2.
Qed.

Lemma same_core_weights h h' : same_core h h' -> weights_ok h -> weights_ok h'.
Proof.
  intros H Hw a s Ha. destruct (same_lookup_r _ _ _ _ _ H Ha) as (s' & Ha' & E%core_dep). rewrite <- E. by apply (Hw a).
Qed.

Lemma wp_next_cycle a last w (Q : unit -> world -> Prop) :
  is_Some (streams w !! a) -> weights_ok (streams w) ->
  (forall h, quiet (streams w) h -> Q tt (mk_world h (pushes w))) ->
  wp (stream_next_cycle a last) w Q.
Proof.
  intros [s Hs] Hw HQ. unfold stream_next_cycle. do 2 wp_step. wp_step. apply wp_assert.
  { specialize (Hw a s Hs). unfold u32. rewrite Z.mod_small by lia. destruct (Z.eqb_spec (weight s) 0); [lia|done]. }
  wp_step. apply HQ. by apply upd_quiet.
Qed.

Lemma wp_next_seq d a w (Q : unit -> world -> Prop) :
  is_Some (streams w !! a) -> is_Some (streams w !! d) ->
  (forall h, quiet (streams w) h -> Q tt (mk_world h (pushes w))) ->
  wp (next_seq d a) w Q.
Proof.
  intros [s Hs] [ds Hd] HQ. unfold next_seq. do 4 wp_step.
  set (h1 := <[a := upd_sched (seq_to (descendant_next_seq ds)) s]> (streams w)).
  assert (quiet (streams w) h1) as H1 by (by apply upd_quiet).
  destruct (quiet_dom _ _ d H1) as [ds' Hd']; [eauto|].
  eapply wp_modify; [exact Hd'|]. apply HQ. etrans; [exact H1|]. by apply upd_quiet.
Qed.

(** ** Ancestors *)

(** The links of the streams. *)
Definition deps h : gmap Z stream_dep := st_dep <$> h.

Lemma deps_lookup h a s : h !! a = Some s -> deps h !! a = Some (st_dep s).
Proof. intros H. unfold deps. by rewrite lookup_fmap, H. Qed.

Lemma deps_lookup_inv h a d : deps h !! a = Some d -> exists s, h !! a = Some s /\ st_dep s = d.
Proof. unfold deps. rewrite lookup_fmap. destruct (h !! a) as [s|]; [|done]. intros [= <-]. eauto. Qed.

Lemma deps_dom h a : is_Some (deps h !! a) <-> is_Some (h !! a).
Proof. unfold deps. rewrite lookup_fmap. by rewrite fmap_is_Some. Qed.

Lemma same_core_deps h h' : same_core h h' -> deps h' = deps h.
Proof.
  intros H. apply (f_equal (fmap st_dep)) in H. rewrite <- !map_fmap_compose in H.
  etrans; [|etrans; [exact H|]]; by apply map_fmap_ext.
Qed.

Abbreviation chain h := (dchain (deps h)).

Lemma chain_nil h a : chain h a [] -> exists s, h !! a = Some s /\ dep_prev s = None.
Proof. intros H. inversion H as [? d Hd Hp|]; subst. apply deps_lookup_inv in Hd as (s & ? & <-). eauto. Qed.

Lemma chain_cons h a p l : chain h a (p :: l) -> exists s, h !! a = Some s /\ dep_prev s = Some p /\ chain h p l.
Proof. intros H. inversion H as [|? d ? ? Hd Hp H2]; subst. apply deps_lookup_inv in Hd as (s & ? & <-). eauto. Qed.

Tactic Notation "chain_inv" hyp(H) "as" ident(s) ident(Hs) ident(Hp) ident(H2) :=
  first [destruct (chain_nil _ _ H) as (s & Hs & Hp) | destruct (chain_cons _ _ _ _ H) as (s & Hs & Hp & H2)].

Lemma chain_dom h a l x : chain h a l -> x ∈ a :: l -> is_Some (h !! x).
Proof. intros H Hx. by apply deps_dom, (dchain_dom _ a l). Qed.

(** A list of distinct streams is no longer than the store. *)
Lemma NoDup_size h (l : list Z) : NoDup l -> (forall x, x ∈ l -> is_Some (h !! x)) -> (length l <= size h)%nat.
Proof.
  intros Hnd Hl. rewrite <- (size_dom (D := gset Z)), <- (size_list_to_set (C := gset Z) l) by done.
  apply subseteq_size. intros x. rewrite elem_of_list_to_set, elem_of_dom. apply Hl.
Qed.

Lemma st_chain_length h a l : chain h a l -> (S (length l) <= size h)%nat.
Proof.
  intros H. apply (NoDup_size h (a :: l)); [by apply dchain_NoDup in H|]. intros x. by apply (chain_dom h a l).
Qed.

Lemma same_core_chain h h' a l : same_core h h' -> chain h a l -> chain h' a l.
Proof. intros H%same_core_deps. by rewrite H. Qed.

Lemma same_core_size h h' : same_core h h' -> size h' = size h.
Proof. intros H. rewrite <- (map_size_fmap core h'), H. apply map_size_fmap. Qed.

(** ** The rule of the queues *)

Definition active h a : Prop := exists s, h !! a = Some s /\ stream_active s = true.
Definition live h a : Prop := active h a \/ exists c, qs h a c.
Definition has_parent h a : Prop := exists s, h !! a = Some s /\ dep_prev s <> None.
Definition parent_of h c p : Prop := exists s, h !! c = Some s /\ dep_prev s = Some p.

(** A stream is queued when it, or a stream in its own queue, wants to send. *)
Definition sync h a : Prop := is_queued h a <-> live h a.

Lemma subtree_active_live h a s : h !! a = Some s -> stream_subtree_active s = true <-> live h a.
Proof.
  intros Ha. unfold stream_subtree_active, live, active, qs. rewrite orb_true_iff, negb_true_iff, Nat.eqb_neq.
  split; [intros [H|H]|intros [(s' & ? & H)|(c & s' & ? & H)]]; simplify_eq.
  - left. eauto.
  - right. destruct (obq_q s) as [|c l] eqn:E; [done|]. exists c, s. split; [done|]. rewrite E. by left.
  - by left.
  - right. destruct (obq_q s); [by apply elem_of_nil in H|done].
Qed.

Lemma same_core_active h h' a : same_core h h' -> active h' a <-> active h a.
Proof.
  intros H. unfold active. split; intros (s & Ha & Hs).
  - destruct (same_lookup_r _ _ _ _ _ H Ha) as (s' & Ha' & E%core_active). exists s'. split; [done|]. congruence.
  - destruct (same_lookup _ _ _ _ _ H Ha) as (s' & Ha' & E%core_active). exists s'. split; [done|]. congruence.
Qed.

Lemma same_core_parent h h' c p : same_core h h' -> parent_of h' c p <-> parent_of h c p.
Proof.
  intros H. unfold parent_of. split; intros (s & Ha & Hs).
  - destruct (same_lookup_r _ _ _ _ _ H Ha) as (s' & Ha' & E%core_dep). exists s'. split; [done|]. congruence.
  - destruct (same_lookup _ _ _ _ _ H Ha) as (s' & Ha' & E%core_dep). exists s'. split; [done|]. congruence.
Qed.

Lemma parent_has h c p : parent_of h c p -> has_parent h c.
Proof. intros (s & ? & E). exists s. split; [done|]. congruence. Qed.

(** A stream whose flag and queue are as before. *)
Lemma sync_ext h h' a : same_core h h' -> (is_queued h' a <-> is_queued h a) ->
  ((exists c, qs h' a c) <-> exists c, qs h a c) -> sync h a -> sync h' a.
Proof. intros Hc Hq Hm. unfold sync, live. rewrite Hq, Hm. by rewrite (same_core_active h h'). Qed.

(** ** Towards the root *)

(** [c] entered the queue of [d]. *)
Definition entered h d c h' : Prop :=
  obq_ok h' /\ same_core h h' /\ forall p x, qs h' p x <-> qs h p x \/ p = d /\ x = c.

Lemma entered_queued h d c h' x : obq_ok h -> entered h d c h' -> is_queued h' x <-> is_queued h x \/ x = c.
Proof.
  intros [_ Hq] ([_ Hq'] & _ & H). rewrite Hq', Hq. split.
  - intros [p [?|[-> ->]]%H]; eauto.
  - intros [[p ?]| ->]; [exists p|exists d]; apply H; auto.
Qed.

(** Setting the flag of a stream that is in a queue. *)
Lemma flag_set_ok h h' c s f : ob_struct h -> h !! c = Some s -> keeps_queue f ->
  h' = <[c := upd_sched f s]> h ->
  (queued (f (st_sched s)) <> 0 <-> exists p, qs h p c) ->
  (forall x, x <> c -> is_queued h x <-> exists p, qs h p x) ->
  obq_ok h' /\ same_core h h' /\ forall p x, qs h' p x <-> qs h p x.
Proof.
  intros Hob Hc Hf -> Hflag Hrest. split_and!; [split|by apply same_core_upd|intros; by apply upd_qs].
  { by apply upd_struct. }
  intros x. assert ((exists p, qs (<[c := upd_sched f s]> h) p x) <-> exists p, qs h p x) as ->.
  { split; intros [p H]; exists p; revert H; by rewrite (upd_qs h c s f). }
  destruct (decide (x = c)) as [->|Hne].
  - rewrite <- Hflag. unfold is_queued. rewrite lookup_insert_eq. split; [intros (? & [= <-] & ?); done|]. intros. by eexists.
  - rewrite <- Hrest by done. unfold is_queued. by rewrite lookup_insert_ne.
Qed.

Lemma not_queued_qs h c : obq_ok h -> ~ is_queued h c -> forall p, ~ qs h p c.
Proof. intros [_ H] Hn p Hp. apply Hn, H. eauto. Qed.

Lemma queued_test h c s : h !! c = Some s -> negb (queued s =? 0) = true <-> is_queued h c.
Proof.
  intros Hc. rewrite negb_true_iff, Z.eqb_neq. unfold is_queued. split; [eauto|]. intros (s' & ? & ?). by simplify_eq.
Qed.

Lemma queued_test_false h c s : h !! c = Some s -> queued s =? 0 = true <-> ~ is_queued h c.
Proof. intros Hc. rewrite <- (queued_test h c s) by done. by destruct (queued s =? 0). Qed.

(** One turn of [stream_obq_push]. *)
Lemma wp_push_turn ok d c w (K : st_m Z) (Q : Z -> world -> Prop) :
  obq_ok (streams w) -> is_Some (streams w !! d) -> is_Some (streams w !! c) -> weights_ok (streams w) ->
  ~ is_queued (streams w) c ->
  (forall h n, refused ok -> same_core (streams w) h -> Q NGHTTP2_ERR_NOMEM (mk_world h n)) ->
  (forall h n, entered (streams w) d c h -> wp K (mk_world h n) Q) ->
  wp (let* ds := load d in
      stream_next_cycle c (descendant_last_cycle ds);;
      next_seq d c;;
      let* rv := obq_insert ok d c in
      if negb (rv =? 0) then mret rv
      else modify c (upd_sched (queued_to 1));; K) w Q.
Proof.
  destruct w as [h n]. simpl. intros [Hob Hfl] [ds Hd] Hc Hw Hnq Hnomem HK.
  wp_step. eapply wp_load; [exact Hd|]. wp_step. apply wp_next_cycle; [done|done|]. intros h1 H1. simpl. wp_step.
  apply wp_next_seq; [by apply (quiet_dom h)|apply (quiet_dom h); eauto|]. intros h2 H2. simpl in *.
  assert (quiet h h2) as H12 by (by etrans). clear h1 H1 H2. destruct H12 as (Hcore & Hst & Hqs & Hqf & _).
  wp_step. apply wp_obq_insert; simpl.
  - by apply Hst.
  - destruct (same_lookup _ _ _ _ _ Hcore Hd) as (? & -> & _). eauto.
  - destruct Hc as [cs Hcs]. destruct (same_lookup _ _ _ _ _ Hcore Hcs) as (? & -> & _). eauto.
  - intros p. rewrite Hqs. apply (not_queued_qs h c); [done|done].
  - intros _ Hr m. by apply Hnomem.
  - intros h3 m (Hst3 & Hkey & Hqs3). apply same_key_core in Hkey as Hcore3. cbn [Z.eqb negb].
    assert (same_core h h3) as Hc3 by (by etrans). destruct Hc as [cs Hcs].
    destruct (same_lookup _ _ _ _ _ Hc3 Hcs) as (cs3 & Hcs3 & _). wp_step. eapply wp_modify; [exact Hcs3|].
    destruct (flag_set_ok h3 _ c cs3 (queued_to 1) Hst3 Hcs3 ltac:(done) eq_refl) as (H4 & H5 & H6).
    { simpl. split; [|done]. intros _. exists d. apply Hqs3. auto. }
    { intros x Hx. rewrite (same_key_queued h2 h3) by done. rewrite Hqf, Hfl. split; intros [p Hp]; exists p.
      - apply Hqs3. left. by apply Hqs.
      - apply Hqs3 in Hp as [Hp|[_ ->]]; [by apply Hqs|done]. }
    apply HK. split_and!; [done|by etrans|]. intros p x. rewrite H6, Hqs3, Hqs. done.
Qed.

(** What [stream_obq_push] does: nothing leaves a queue, what enters one is
    [c] or an ancestor of it, and the rule of the queues is kept. *)
Definition pushed h d c (l : list Z) h' : Prop :=
  obq_ok h' /\ same_core h h' /\ qs h' d c /\ (forall p x, qs h p x -> qs h' p x) /\
  (forall p x, qs h' p x -> qs h p x \/ p = d /\ x = c \/ x ∈ d :: l /\ parent_of h x p) /\
  (has_parent h d -> is_queued h' d) /\
  (forall x, x <> c -> has_parent h x -> sync h x -> sync h' x).

Lemma entered_sync h d c h' x : obq_ok h -> entered h d c h' -> x <> c -> x <> d \/ is_queued h d -> sync h x -> sync h' x.
Proof.
  intros Hok Hent Hc Hd Hs. pose proof (entered_queued h d c h' x Hok Hent) as Hq. destruct Hent as (Hok' & Hcore & Hqs).
  destruct (decide (x = d)) as [->|Hxd].
  - destruct Hd as [|Hd]; [done|]. split; [|intros _; apply Hq; by left]. intros _. right. exists c. apply Hqs. auto.
  - apply (sync_ext h); [done| | |done].
    + rewrite Hq. naive_solver.
    + split; intros [y Hy]; exists y; [apply Hqs in Hy as [|[? ?]]; done|apply Hqs; by left].
Qed.

Lemma wp_push_loop ok l : forall fuel w d c (Q : Z -> world -> Prop),
  obq_ok (streams w) -> chain (streams w) d l -> c ∉ d :: l -> is_Some (streams w !! c) -> weights_ok (streams w) ->
  ~ is_queued (streams w) c -> (length l + 2 <= fuel)%nat ->
  (forall h n, refused ok -> same_core (streams w) h -> Q NGHTTP2_ERR_NOMEM (mk_world h n)) ->
  (forall h n, pushed (streams w) d c l h -> Q 0 (mk_world h n)) ->
  wp (obq_push_loop ok fuel (Some d) c) w Q.
Proof.
  induction l as [|p l IH]; intros fuel w d c Q Hok Hch Hc [cs Hcs] Hw Hnq Hf Hnomem HQ;
    (destruct fuel as [|fuel]; [simpl in Hf; lia|]); cbn [obq_push_loop]; wp_step; wp_step;
    rewrite (proj2 (queued_test_false _ _ _ Hcs) Hnq); cbn [negb];
    (apply wp_push_turn; [done|apply (chain_dom _ _ _ d Hch); by left|eauto|done|done|done|]);
    intros h n Hent; pose proof Hent as (Hok' & Hcore & Hqs);
    pose proof (same_core_chain _ _ _ _ Hcore Hch) as Hch'; chain_inv Hch' as ds Hd Hp Hch2;
    wp_step; (eapply wp_load; [exact Hd|]); rewrite Hp.
  - assert (~ has_parent (streams w) d) as Hroot.
    { intros (s & Hs & Hne). destruct (same_lookup _ _ _ _ _ Hcore Hs) as (s' & Hs' & E%core_dep).
      apply Hne. rewrite <- E. congruence. }
    destruct fuel as [|fuel]; [simpl in Hf; lia|]. apply wp_ret, HQ.
    split_and!; [done|done|apply Hqs; auto|intros; apply Hqs; auto|intros ? ? [?|?]%Hqs; auto| |].
    + intros Hpd. exfalso. by apply Hroot in Hpd.
    + intros x Hx Hpx. apply (entered_sync (streams w) d c h x Hok Hent Hx). left. intros ->. by apply Hroot in Hpx.
  - assert (NoDup (d :: p :: l)) as Hnd by (by apply dchain_NoDup in Hch). apply NoDup_cons in Hnd as [Hdn _].
    assert (d <> c) as Hdc by (intros ->; apply Hc; by left).
    assert (forall x, is_queued h x <-> is_queued (streams w) x \/ x = c) as Hq by (intros; by apply (entered_queued _ d)).
    destruct (decide (queued ds = 0)) as [H0|H0].
    + assert (~ is_queued h d) as Hnd by (apply (queued_test_false h d ds Hd); by apply Z.eqb_eq).
      apply IH; [done|done|done|eauto|by apply (same_core_weights (streams w))|done|simpl in Hf; lia| |]; simpl.
      * intros h' m Hr Hc'. apply Hnomem; [done|]. by etrans.
      * intros h' m (G1 & G2 & G3 & G4 & G5 & _ & G6). apply HQ. split_and!; [done|by etrans|apply G4, Hqs; auto| | | |].
        -- intros. apply G4, Hqs. auto.
        -- intros p' x [[H|H]%Hqs|[[-> ->]|[H1 H2]]]%G5; [auto|auto| |].
           ++ right; right. split; [by left|]. apply (same_core_parent _ _ _ _ Hcore). exists ds. done.
           ++ right; right. split; [by right|]. by apply (same_core_parent _ _ _ _ Hcore).
        -- intros _. apply G1. eauto.
        -- intros x Hx Hpx Hs. destruct (decide (x = d)) as [->|Hxd].
           ++ split; [|intros _; apply G1; eauto]. intros _. right. exists c. apply G4, Hqs. auto.
           ++ apply G6; [done| |by apply (entered_sync (streams w) d c); auto].
              destruct Hpx as (s & Hs' & Hne). destruct (same_lookup _ _ _ _ _ Hcore Hs') as (s' & Hs2 & E%core_dep).
              exists s'. split; [done|]. congruence.
    + assert (is_queued (streams w) d) as Hqd.
      { assert (is_queued h d) as H by (exists ds; done). apply Hq in H as [|]; [done|by subst]. }
      destruct fuel as [|fuel]; [simpl in Hf; lia|]. cbn [obq_push_loop]. wp_step. eapply wp_load; [exact Hd|].
      destruct (Z.eqb_spec (queued ds) 0) as [?|_]; [done|]. cbn [negb]. apply wp_ret, HQ.
      split_and!; [done|done|apply Hqs; auto|intros; apply Hqs; auto|intros ? ? [?|?]%Hqs; auto|intros _; apply Hq; by left|].
      intros x Hx Hpx. apply (entered_sync (streams w) d c h x Hok Hent Hx). by right.
Qed.

Lemma chain_fuel_ok h a l : chain h a l -> (length l + 2 <= S (S (size h)))%nat.
Proof. intros H%st_chain_length. lia. Qed.

Lemma wp_obq_push ok l w d c (Q : Z -> world -> Prop) :
  obq_ok (streams w) -> chain (streams w) d l -> c ∉ d :: l -> is_Some (streams w !! c) -> weights_ok (streams w) ->
  ~ is_queued (streams w) c ->
  (forall h n, refused ok -> same_core (streams w) h -> Q NGHTTP2_ERR_NOMEM (mk_world h n)) ->
  (forall h n, pushed (streams w) d c l h -> Q 0 (mk_world h n)) ->
  wp (stream_obq_push ok (Some d) c) w Q.
Proof. intros. unfold stream_obq_push. do 2 wp_step. apply (wp_push_loop ok l); try done. by apply (chain_fuel_ok _ d). Qed.

(** [c] left the queue of [d]. *)
Definition exited h d c h' : Prop :=
  obq_ok h' /\ same_core h h' /\ forall p x, qs h' p x <-> qs h p x /\ ~ (p = d /\ x = c).

Lemma exited_queued h d c h' x : obq_ok h -> qs h d c -> exited h d c h' -> is_queued h' x <-> is_queued h x /\ x <> c.
Proof.
  intros [Hob Hq] Hdc ([_ Hq'] & _ & H). rewrite Hq', Hq. split.
  - intros [p [Hp Hn]%H]. split; [eauto|]. intros ->. apply Hn. split; [|done]. by apply (ob_uniq _ Hob p d c).
  - intros [[p Hp] Hn]. exists p. apply H. naive_solver.
Qed.

Lemma wp_remove_turn {A} d c w (K : st_m A) (Q : A -> world -> Prop) :
  obq_ok (streams w) -> qs (streams w) d c ->
  (forall h n, exited (streams w) d c h -> wp K (mk_world h n) Q) ->
  wp (obq_delete d c;;
      let* s := load c in
      st_assert (negb (queued s =? 0));;
      modify c (upd_sched unqueue);; K) w Q.
Proof.
  destruct w as [h n]. simpl. intros [Hob Hfl] Hdc HK. wp_step. apply wp_obq_delete; [done|done|]. simpl.
  intros h1 (Hst & Hkey & _ & Hqs).
  assert (is_queued h1 c) as Hq1 by (apply (same_key_queued h h1 c Hkey), Hfl; eauto).
  pose proof Hq1 as (cs & Hcs & Hne). wp_step. eapply wp_load; [exact Hcs|]. wp_step.
  apply wp_assert; [by apply (queued_test h1 c)|]. wp_step. eapply wp_modify; [exact Hcs|].
  destruct (flag_set_ok h1 _ c cs unqueue Hst Hcs ltac:(done) eq_refl) as (H4 & H5 & H6).
  { simpl. split; [done|]. intros [p [Hp Hn]%Hqs]. exfalso. apply Hn. split; [|done]. by apply (ob_uniq _ Hob p d c). }
  { intros x Hx. rewrite (same_key_queued h h1) by done. rewrite Hfl.
    split; intros [p Hp]; exists p; [apply Hqs; naive_solver|by apply Hqs in Hp as [? _]]. }
  apply HK. split_and!; [done|etrans; [by apply same_key_core|done]|]. intros p x. rewrite H6. apply Hqs.
Qed.

(** What [stream_obq_remove] does: only [c] and ancestors of it leave their
    queues, and the rule of the queues is kept. *)
Definition pulled h c (l : list Z) h' : Prop :=
  obq_ok h' /\ same_core h h' /\ ~ is_queued h' c /\ (forall p x, qs h' p x -> qs h p x) /\
  (forall p x, qs h p x -> qs h' p x \/ x ∈ c :: l) /\
  (forall x, x <> c -> has_parent h x -> sync h x -> sync h' x).

(** Streams wait in the queue of their parent. *)
Definition in_parent h x : Prop := forall p, qs h p x -> parent_of h x p.

Lemma exited_sync h d c h' x : obq_ok h -> qs h d c -> exited h d c h' -> x <> c -> x <> d \/ live h' d -> sync h x -> sync h' x.
Proof.
  intros Hok Hdc Hex Hc Hd Hs. pose proof (exited_queued h d c h' x Hok Hdc Hex) as Hq. destruct Hex as (Hok' & Hcore & Hqs).
  destruct (decide (x = d)) as [->|Hxd].
  - destruct Hd as [|Hd]; [done|]. split; [done|]. intros _. apply Hq. split; [|done]. apply Hs. right. eauto.
  - apply (sync_ext h); [done| | |done].
    + rewrite Hq. naive_solver.
    + split; intros [y Hy]; exists y; [by apply Hqs in Hy as [? _]|apply Hqs; naive_solver].
Qed.

Lemma same_core_has_parent h h' a : same_core h h' -> has_parent h' a <-> has_parent h a.
Proof.
  intros H. unfold has_parent. split; intros (s & Ha & Hs).
  - destruct (same_lookup_r _ _ _ _ _ H Ha) as (s' & Ha' & E%core_dep). exists s'. split; [done|]. congruence.
  - destruct (same_lookup _ _ _ _ _ H Ha) as (s' & Ha' & E%core_dep). exists s'. split; [done|]. congruence.
Qed.

Lemma wp_remove_loop l : forall fuel w d c (Q : unit -> world -> Prop),
  obq_ok (streams w) -> chain (streams w) d l -> c ∉ d :: l -> qs (streams w) d c -> (length l + 2 <= fuel)%nat ->
  (forall x, x ∈ d :: l -> has_parent (streams w) x -> sync (streams w) x) ->
  (forall x, x ∈ d :: l -> in_parent (streams w) x) ->
  (forall h n, pulled (streams w) c (d :: l) h -> Q tt (mk_world h n)) ->
  wp (obq_remove_loop fuel (Some d) c) w Q.
Proof.
  induction l as [|p l IH]; intros fuel w d c Q Hok Hch Hc Hdc Hf Hsy Hin HQ;
    (destruct fuel as [|fuel]; [simpl in Hf; lia|]); cbn [obq_remove_loop]; apply wp_remove_turn; [done|done| |done|done|];
    intros h n Hex; pose proof Hex as (Hok' & Hcore & Hqs);
    pose proof (same_core_chain _ _ _ _ Hcore Hch) as Hch'; chain_inv Hch' as ds Hd Hp Hch2;
    wp_step; (eapply wp_load; [exact Hd|]);
    pose proof (exited_queued _ _ _ h c Hok Hdc Hex) as Hqc; assert (~ is_queued h c) as Hnc by (rewrite Hqc; naive_solver);
    assert (forall a b, qs (streams w) a b -> qs h a b \/ b ∈ [c]) as Hout
      by (intros a b Hab; destruct (decide (b = c)) as [->|]; [right; by left|left; apply Hqs; naive_solver]).
  - assert (pulled (streams w) c [d] h) as Hpull.
    { split_and!; [done|done|done|by intros ? ? [? _]%Hqs|intros a b [?|?]%Hout; set_solver|].
      intros x Hx Hpx. apply (exited_sync _ d c); try done. left. intros ->.
      apply (same_core_has_parent _ _ _ Hcore) in Hpx as (s & Hs & Hne). congruence. }
    destruct (stream_subtree_active ds); [by apply wp_ret, HQ|]. rewrite Hp.
    destruct fuel as [|fuel]; [simpl in Hf; lia|]. by apply wp_ret, HQ.
  - destruct (stream_subtree_active ds) eqn:Hlive.
    { apply wp_ret, HQ. apply (subtree_active_live h d ds Hd) in Hlive.
      split_and!; [done|done|done|by intros ? ? [? _]%Hqs|intros a b [?|?]%Hout; set_solver|].
      intros x Hx Hpx. apply (exited_sync _ d c); auto. }
    assert (~ live h d) as Hdead by (rewrite <- (subtree_active_live h d ds Hd); congruence). rewrite Hp.
    assert (NoDup (d :: p :: l)) as Hnd by (by apply dchain_NoDup in Hch). apply NoDup_cons in Hnd as [Hdn Hnd].
    assert (has_parent (streams w) d) as Hpd by (apply (same_core_has_parent _ _ _ Hcore); exists ds; split; [done|congruence]).
    assert (d <> c) as Hdc' by (intros ->; apply Hc; by left).
    assert (qs (streams w) p d) as Hqd.
    { assert (is_queued (streams w) d) as Hq by (apply Hsy; [by left|done|right; eauto]).
      apply Hok in Hq as [p' Hp']. pose proof (Hin d ltac:(by left) _ Hp') as (s & Hs & Hps).
      destruct (same_lookup _ _ _ _ _ Hcore Hs) as (s' & Hs' & E%core_dep). simplify_eq. congruence. }
    apply IH; [done|done|done|apply Hqs; naive_solver|simpl in Hf; lia| | |]; simpl.
    + intros x Hx Hpx. apply (same_core_has_parent _ _ _ Hcore) in Hpx. apply (exited_sync (streams w) d c); try done.
      * intros ->. apply Hc. by right.
      * left. intros ->. done.
      * apply Hsy; [by right|done].
    + intros x Hx p' [Hp' _]%Hqs. apply (same_core_parent _ _ _ _ Hcore). apply Hin; [by right|done].
    + intros h' m (G1 & G2 & G3 & G4 & G5 & G6). apply HQ. split_and!; [done|by etrans| | | |].
      * intros Hq. apply G1 in Hq as [p' Hp'%G4]. apply Hnc, Hok'. eauto.
      * intros a b Hab%G4. by apply Hqs in Hab as [? _].
      * intros a b [[?|?]%G5|?]%Hout; [by left|right; set_solver|right; set_solver].
      * intros x Hx Hpx Hs. destruct (decide (x = d)) as [->|Hxd].
        -- split; [intros; done|]. intros Hl. exfalso. apply Hdead. destruct Hl as [Ha|[y Hy]].
           ++ left. by apply (same_core_active _ _ _ G2).
           ++ right. exists y. by apply G4.
        -- apply G6; [done|by apply (same_core_has_parent _ _ _ Hcore)|]. apply (exited_sync (streams w) d c); auto.
Qed.

Lemma wp_obq_remove w c d l (Q : unit -> world -> Prop) :
  obq_ok (streams w) -> chain (streams w) c (d :: l) -> is_queued (streams w) c ->
  (forall x, x ∈ d :: l -> has_parent (streams w) x -> sync (streams w) x) ->
  (forall x, x ∈ c :: d :: l -> in_parent (streams w) x) ->
  (forall h n, pulled (streams w) c (d :: l) h -> Q tt (mk_world h n)) ->
  wp (stream_obq_remove c) w Q.
Proof.
  intros Hok Hch Hq Hsy Hin HQ. unfold stream_obq_remove.
  assert (NoDup (c :: d :: l)) as [Hc _]%NoDup_cons by (by apply dchain_NoDup in Hch).
  chain_inv Hch as s Hs Hp Hch2. wp_step. wp_step.
  assert (queued s =? 0 = false) as ->.
  { apply not_true_iff_false. rewrite (queued_test_false _ _ _ Hs). tauto. }
  do 2 wp_step. rewrite Hp. apply (wp_remove_loop l); try done; [|by apply (chain_fuel_ok _ d)|].
  - apply Hok in Hq as [p' Hp']. pose proof (Hin c ltac:(by left) _ Hp') as (s' & ? & ?). simplify_eq. done.
  - intros x Hx. apply Hin. by right.
Qed.

(** [c] moved from the queue of [src] to the one of [dest]. *)
Definition moved h src dest c (l : list Z) h' : Prop :=
  obq_ok h' /\ same_core h h' /\ qs h' dest c /\
  (forall p x, qs h p x -> ~ (p = src /\ x = c) -> qs h' p x) /\
  (forall p x, qs h' p x -> qs h p x /\ ~ (p = src /\ x = c) \/ p = dest /\ x = c \/ x ∈ dest :: l /\ parent_of h x p) /\
  (has_parent h dest -> is_queued h' dest) /\
  (forall x, x <> c -> x <> src -> has_parent h x -> sync h x -> sync h' x).

Lemma wp_obq_move ok w src dest c l (Q : Z -> world -> Prop) :
  obq_ok (streams w) -> qs (streams w) src c -> chain (streams w) dest l -> c ∉ dest :: l -> weights_ok (streams w) ->
  (forall h n, refused ok -> same_core (streams w) h -> Q NGHTTP2_ERR_NOMEM (mk_world h n)) ->
  (forall h n, moved (streams w) src dest c l h -> Q 0 (mk_world h n)) ->
  wp (stream_obq_move ok (Some dest) src c) w Q.
Proof.
  destruct w as [h n]. simpl. intros [Hob Hfl] Hsc Hch Hc Hw Hnomem HQ. unfold stream_obq_move.
  assert (is_queued h c) as Hqc by (apply Hfl; eauto). pose proof Hqc as (cs & Hcs & Hne).
  wp_step. wp_step. apply Z.eqb_neq in Hne as ->. wp_step. apply wp_obq_delete; [done|done|]. simpl.
  intros h1 (Hst & Hkey & _ & Hqs). destruct (same_lookup _ _ _ _ _ Hkey Hcs) as (cs1 & Hcs1 & _).
  wp_step. eapply wp_modify; [exact Hcs1|]. simpl. set (h2 := <[c := _]> h1).
  destruct (flag_set_ok h1 h2 c cs1 (queued_to 0) Hst Hcs1 ltac:(done) eq_refl) as (H4 & H5 & H6).
  { simpl. split; [done|]. intros [p [Hp Hn]%Hqs]. exfalso. apply Hn. split; [|done]. by apply (ob_uniq _ Hob p src c). }
  { intros x Hx. rewrite (same_key_queued h h1) by done. rewrite Hfl.
    split; intros [p Hp]; exists p; [apply Hqs; naive_solver|by apply Hqs in Hp as [? _]]. }
  assert (same_core h h2) as Hcore by (etrans; [by apply same_key_core|done]).
  assert (exited h src c h2) as Hex by (split_and!; [done|done|intros p x; rewrite H6; apply Hqs]).
  clearbody h2. clear H5 H6 Hst Hkey Hqs Hcs1 cs1 h1. destruct Hex as (_ & _ & Hqs).
  apply (wp_obq_push ok l); simpl; try done.
  - by apply (same_core_chain h).
  - destruct (same_lookup _ _ _ _ _ Hcore Hcs) as (? & -> & _). eauto.
  - by apply (same_core_weights h).
  - intros Hq. apply H4 in Hq as [p [Hp Hn]%Hqs]. apply Hn. split; [|done]. by apply (ob_uniq _ Hob p src c).
  - intros h' m Hr Hc'. apply Hnomem; [done|]. by etrans.
  - intros h' m (G1 & G2 & G3 & G4 & G5 & G6 & G7). apply HQ. split_and!; [done|by etrans|done| | | |].
    + intros p x Hp Hn. apply G4, Hqs. done.
    + intros p x [Hp%Hqs|[?|[? Hp]]]%G5; [by left|auto|]. right; right. split; [done|]. by apply (same_core_parent h h2).
    + intros Hpd. apply G6. by apply (same_core_has_parent h h2).
    + intros x Hx Hxs Hpx Hs. apply G7; [done|by apply (same_core_has_parent h h2)|].
      apply (exited_sync h src c h2 x); try done. by left.
Qed.

(** [c] leaves the queue of [d] and comes back, at another place perhaps. *)
Lemma requeued ok h d c h1 h2 n (Q : Z -> world -> Prop) : obq_ok h -> qs h d c -> deleted h d c h1 -> quiet h1 h2 ->
  (forall h' m, obq_ok h' -> same_core h h' -> (forall p x, qs h' p x <-> qs h p x) -> Q 0 (mk_world h' m)) ->
  wp (obq_insert ok d c) (mk_world h2 n) Q.
Proof.
  intros [Hob Hfl] Hdc (Hst & Hkey & Hroom & Hqs) (Hc2 & Hst2 & Hqs2 & Hqf2 & Hr2) HQ.
  assert (same_core h h2) as Hcore by (etrans; [by apply same_key_core|done]).
  pose proof Hdc as (ds & Hd & _). assert (is_queued h c) as (cs & Hcs & _) by (apply Hfl; eauto).
  apply wp_obq_insert; simpl.
  - by apply Hst2.
  - destruct (same_lookup _ _ _ _ _ Hcore Hd) as (? & -> & _). eauto.
  - destruct (same_lookup _ _ _ _ _ Hcore Hcs) as (? & -> & _). eauto.
  - intros p [Hp Hn]%Hqs2%Hqs. apply Hn. split; [|done]. by apply (ob_uniq _ Hob p d c).
  - intros Hno. exfalso. by apply Hno, Hr2.
  - intros h3 m (Hst3 & Hkey3 & Hqs3).
    assert (forall p x, qs h3 p x <-> qs h p x) as Hsame.
    { intros p x. rewrite Hqs3, Hqs2, Hqs. split; [intros [[? _]|[-> ->]]; done|]. intros Hp.
      destruct (decide (p = d /\ x = c)); [by right|by left]. }
    apply HQ; [|etrans; [done|by apply same_key_core]|done]. split; [done|]. intros x.
    rewrite (same_key_queued h2 h3) by done. rewrite Hqf2, (same_key_queued h h1), Hfl by done.
    split; intros [p Hp]; exists p; by apply Hsame.
Qed.

(** The queues have the same members. *)
Definition same_queues h h' : Prop := obq_ok h' /\ same_core h h' /\ forall p x, qs h' p x <-> qs h p x.

Lemma same_queues_trans h1 h2 h3 : same_queues h1 h2 -> same_queues h2 h3 -> same_queues h1 h3.
Proof.
  intros (_ & H2 & H3) (K1 & K2 & K3). split_and!; [done|by etrans|]. intros p x. by rewrite K3.
Qed.

Lemma quiet_same_queues h h' : obq_ok h -> quiet h h' -> same_queues h h'.
Proof.
  intros [Hob Hfl] (H1 & H2 & H3 & H4 & _). split_and!; [split; [auto|]|done|done].
  intros c. rewrite H4, Hfl. split; intros [p Hp]; exists p; by apply H3.
Qed.

Lemma wp_reschedule_loop ok l : forall fuel w d c (Q : unit -> world -> Prop),
  obq_ok (streams w) -> chain (streams w) d l -> qs (streams w) d c -> weights_ok (streams w) -> (length l + 2 <= fuel)%nat ->
  (forall x p, x ∈ d :: l -> parent_of (streams w) x p -> qs (streams w) p x) ->
  (forall h n, same_queues (streams w) h -> Q tt (mk_world h n)) ->
  wp (reschedule_loop ok fuel (Some d) c) w Q.
Proof.
  induction l as [|p l IH]; intros fuel [h n] d c Q; simpl; intros Hok Hch Hdc Hw Hf Hup HQ;
    (destruct fuel as [|fuel]; [lia|]); cbn [reschedule_loop];
    assert (is_Some (h !! c)) as Hc by (assert (is_queued h c) as (cs & ? & _) by (apply Hok; eauto); eauto);
    assert (is_Some (h !! d)) as Hd by (destruct Hdc as (? & ? & _); eauto);
    wp_step; (apply wp_obq_delete; [apply Hok|done|]); simpl; intros h1 Hdel;
    pose proof Hdel as (_ & Hc1%same_key_core & _);
    (destruct Hd as [ds Hd]; destruct (same_lookup _ _ _ _ _ Hc1 Hd) as (ds1 & Hd1 & _));
    (destruct Hc as [cs Hc]; destruct (same_lookup _ _ _ _ _ Hc1 Hc) as (cs1 & Hcs1 & _));
    wp_step; (eapply wp_load; [exact Hd1|]); wp_step;
    (apply wp_next_cycle; [eauto|by apply (same_core_weights h)|]); simpl; intros h2 H12;
    pose proof (quiet_dom h1 h2 d H12 ltac:(eauto)) as Hd2; pose proof (quiet_dom h1 h2 c H12 ltac:(eauto)) as Hc2;
    wp_step; (apply wp_next_seq; [done|done|]); simpl; intros h3 H23;
    assert (quiet h1 h3) as H13 by (by etrans);
    wp_step; (apply (requeued ok h d c h1 h3); [done|done|done|done|]); intros h4 m4 Hok4 Hcore4 Hqs4;
    (destruct (same_lookup _ _ _ _ _ Hcore4 Hc) as (cs4 & Hcs4 & _));
    (destruct (same_lookup _ _ _ _ _ Hcore4 Hd) as (ds4 & Hd4 & _));
    wp_step; (eapply wp_load; [exact Hcs4|]); wp_step; (eapply wp_modify; [exact Hd4|]); simpl;
    match goal with |- wp _ (mk_world ?h5 _) _ => assert (quiet h4 h5) as H45 by (by apply upd_quiet); set (h' := h5) in * end;
    assert (same_queues h h') as Hsame by (eapply same_queues_trans; [|by apply quiet_same_queues]; split_and!; done);
    clearbody h'; pose proof Hsame as (Hok' & Hcore' & Hqs');
    pose proof (same_core_chain _ _ _ _ Hcore' Hch) as Hch'; chain_inv Hch' as ds5 Hd5 Hp Hch2;
    wp_step; (eapply wp_load; [exact Hd5|]); rewrite Hp.
  - destruct fuel as [|fuel]; [lia|]. apply wp_ret. by apply HQ.
  - apply IH; simpl; [done|done| |by apply (same_core_weights h)|lia| |].
    + apply Hqs', Hup; [by left|]. apply (same_core_parent h h' _ _ Hcore'). by exists ds5.
    + intros x p' Hx Hp'%(same_core_parent h h' _ _ Hcore'). apply Hqs', Hup; [by right|done].
    + intros h6 m H6. apply HQ. by eapply same_queues_trans.
Qed.
