(* ===== verification/StreamTree.v ===== *)
(** * Streams: the dependency tree and its queues together

    [stream_inv h kids]: the links of the streams of [h] represent the tree
    [kids], sums of weights are right, and exactly the streams whose subtree
    wants to send are queued, each in the queue of its parent.  The
    operations of [Stream] keep it and change [kids] as documented. *)

From S2P Require Import Prelude Defs Pq Frame Http Stream StreamLinks StreamQueue.

Implicit Types (s cs ds ss : nghttp2_stream) (h : gmap Z nghttp2_stream) (w : world)
  (D : gmap Z stream_dep) (kids : gmap Z (list Z)).

(** ** Frames for changes of links *)

(** Everything but the links and weights. *)
Definition rest s : nghttp2_stream := upd_dep (fun _ => mk_dep None None None None 0 0) s.
Definition same_rest h h' : Prop := rest <$> h' = rest <$> h.

#[global] Instance same_rest_equiv : Equivalence same_rest.
Proof. unfold same_rest. split; [done|by intros x y ->|]. intros x y z H1 H2. congruence. Qed.

Lemma rest_sched s s' : rest s' = rest s -> st_sched s' = st_sched s.
Proof. intros H. by apply (f_equal st_sched) in H. Qed.

Lemma rest_active s s' : rest s' = rest s -> stream_active s' = stream_active s.
Proof.
  intros H. unfold stream_active. pose proof (f_equal item H) as E1.
  pose proof (f_equal (fun x : nghttp2_stream => sm_flags x) H) as E2. cbn in E1, E2. by rewrite E1, E2.
Qed.

Lemma same_rest_qs h h' p c : same_rest h h' -> qs h' p c <-> qs h p c.
Proof.
  intros H. unfold qs. split; intros (s & Hs & Hin).
  - destruct (same_lookup_r _ _ _ _ _ H Hs) as (s' & Hs' & E%rest_sched). exists s'. split; [done|]. by rewrite E.
  - destruct (same_lookup _ _ _ _ _ H Hs) as (s' & Hs' & E%rest_sched). exists s'. split; [done|]. by rewrite E.
Qed.

Lemma same_rest_queued h h' c : same_rest h h' -> is_queued h' c <-> is_queued h c.
Proof.
  intros H. unfold is_queued. split; intros (s & Hs & Hin).
  - destruct (same_lookup_r _ _ _ _ _ H Hs) as (s' & Hs' & E%rest_sched). exists s'. split; [done|]. by rewrite E.
  - destruct (same_lookup _ _ _ _ _ H Hs) as (s' & Hs' & E%rest_sched). exists s'. split; [done|]. by rewrite E.
Qed.

Lemma same_rest_active h h' c : same_rest h h' -> active h' c <-> active h c.
Proof.
  intros H. unfold active. split; intros (s & Hs & Hin).
  - destruct (same_lookup_r _ _ _ _ _ H Hs) as (s' & Hs' & E%rest_active). exists s'. split; [done|]. congruence.
  - destruct (same_lookup _ _ _ _ _ H Hs) as (s' & Hs' & E%rest_active). exists s'. split; [done|]. congruence.
Qed.

Lemma same_rest_live h h' c : same_rest h h' -> live h' c <-> live h c.
Proof.
  intros H. unfold live. rewrite (same_rest_active h h') by done. setoid_rewrite (same_rest_qs h h'); done.
Qed.

Lemma same_rest_sync h h' c : same_rest h h' -> sync h' c <-> sync h c.
Proof. intros H. unfold sync. by rewrite (same_rest_queued h h'), (same_rest_live h h'). Qed.

Lemma same_rest_obq h h' : same_rest h h' -> obq_ok h -> obq_ok h'.
Proof.
  intros H [[Hi Hc Hu] Hf]. split; [split|].
  - intros p s i c Hs Hl. destruct (same_lookup_r _ _ _ _ _ H Hs) as (s' & Hs' & E%rest_sched). rewrite <- E in Hl.
    destruct (Hi p s' i c Hs' Hl) as (cs & Hcs & <-). destruct (same_lookup _ _ _ _ _ H Hcs) as (cs' & Hcs' & E'%rest_sched).
    exists cs'. split; [done|]. by rewrite E'.
  - intros p s Hs. destruct (same_lookup_r _ _ _ _ _ H Hs) as (s' & Hs' & E%rest_sched). rewrite <- E. by apply (Hc p).
  - intros p p' c. rewrite !(same_rest_qs h h') by done. apply Hu.
  - intros c. rewrite (same_rest_queued h h'), Hf by done. split; intros [p Hp]; exists p; by apply (same_rest_qs h h').
Qed.

Lemma same_rest_dom h h' a : same_rest h h' -> is_Some (h' !! a) <-> is_Some (h !! a).
Proof.
  intros H. split; intros [s Hs].
  - destruct (same_lookup_r _ _ _ _ _ H Hs) as (s' & -> & _). eauto.
  - destruct (same_lookup _ _ _ _ _ H Hs) as (s' & -> & _). eauto.
Qed.

Lemma same_rest_size h h' : same_rest h h' -> size h' = size h.
Proof. intros H. rewrite <- (map_size_fmap rest h'), H. apply map_size_fmap. Qed.

Lemma deps_insert h a f s : h !! a = Some s -> deps (<[a := upd_dep f s]> h) = alter f a (deps h).
Proof.
  intros Ha. unfold deps. rewrite fmap_insert. apply map_eq. intros b. rewrite lookup_alter. destruct (decide (a = b)) as [<-|].
  - by rewrite lookup_insert_eq, lookup_fmap, Ha.
  - by rewrite lookup_insert_ne.
Qed.

Lemma wp_modify_dep a f w (Q : unit -> world -> Prop) : is_Some (streams w !! a) ->
  (forall h, same_rest (streams w) h -> deps h = alter f a (deps (streams w)) -> Q tt (mk_world h (pushes w))) ->
  wp (modify a (upd_dep f)) w Q.
Proof.
  intros [s Hs] HQ. eapply wp_modify; [exact Hs|]. apply HQ; [|by apply deps_insert]. unfold same_rest.
  rewrite fmap_insert. replace (rest (upd_dep f s)) with (rest s) by done. rewrite <- fmap_insert. by rewrite insert_id.
Qed.

(** ** Links *)

Definition link_depD (p : Z) (c : option Z) D : gmap Z stream_dep :=
  match c with
  | None => alter (dep_next_to None) p D
  | Some a => alter (dep_prev_to (Some p)) a (alter (dep_next_to (Some a)) p D)
  end.

Definition link_sibD (a : Z) (b : option Z) D : gmap Z stream_dep :=
  match b with
  | None => alter (sib_next_to None) a D
  | Some b => alter (sib_prev_to (Some a)) b (alter (sib_next_to (Some b)) a D)
  end.

(** The pointer is null or points to a stream. *)
Definition ptr_ok h (c : option Z) : Prop := forall a, c = Some a -> is_Some (h !! a).

Lemma wp_link_dep p c w (Q : unit -> world -> Prop) : is_Some (streams w !! p) -> ptr_ok (streams w) c ->
  (forall h, same_rest (streams w) h -> deps h = link_depD p c (deps (streams w)) -> Q tt (mk_world h (pushes w))) ->
  wp (link_dep p c) w Q.
Proof.
  intros Hp Hc HQ. unfold link_dep. wp_step. apply wp_modify_dep; [done|]. intros h1 R1 D1. destruct c as [a|].
  - apply wp_modify_dep; simpl; [by apply (same_rest_dom _ _ _ R1), Hc|]. intros h2 R2 D2. apply HQ; [by etrans|].
    simpl. by rewrite D2, D1.
  - apply wp_ret. by apply HQ.
Qed.

Lemma wp_link_sib a b w (Q : unit -> world -> Prop) : is_Some (streams w !! a) -> ptr_ok (streams w) b ->
  (forall h, same_rest (streams w) h -> deps h = link_sibD a b (deps (streams w)) -> Q tt (mk_world h (pushes w))) ->
  wp (link_sib a b) w Q.
Proof.
  intros Ha Hb HQ. unfold link_sib. wp_step. apply wp_modify_dep; [done|]. intros h1 R1 D1. destruct b as [b|].
  - apply wp_modify_dep; simpl; [by apply (same_rest_dom _ _ _ R1), Hb|]. intros h2 R2 D2. apply HQ; [by etrans|].
    simpl. by rewrite D2, D1.
  - apply wp_ret. by apply HQ.
Qed.

(** Reading a stream whose links are known. *)
Lemma wp_load_dep a d w (Q : nghttp2_stream -> world -> Prop) : deps (streams w) !! a = Some d ->
  (forall s, streams w !! a = Some s -> st_dep s = d -> Q s w) -> wp (load a) w Q.
Proof. intros (s & Hs & <-)%deps_lookup_inv HQ. eapply wp_load; [exact Hs|]. by apply HQ. Qed.

(** Weights and their sums do not change. *)
Definition same_weights D D' : Prop :=
  forall a, (fun d => (weight d, sum_dep_weight d)) <$> D' !! a = (fun d => (weight d, sum_dep_weight d)) <$> D !! a.

(** Computes the links behind a sequence of changes. *)
Ltac links_at a :=
  rewrite ?lookup_alter;
  repeat match goal with
  | |- context [decide (?x = ?y :> Z)] => destruct (decide (x = y)) as [?|?]; try subst; try congruence; rewrite ?lookup_alter
  end.

(** Compares the links and weights at every address [a] of the store [D]. *)
Ltac links_eq D :=
  let a := fresh "a" in
  intros a; simpl; links_at a;
  repeat match goal with H : D !! _ = Some _ |- _ => rewrite !H end; simpl;
  try destruct (D !! a); simpl; unfold links; simpl; simplify_eq; repeat case_decide; simplify_eq; try done; try congruence.

(** A step changed links only, as [f] says. *)
Definition relinks h (f : relink) h' : Prop :=
  same_rest h h' /\ relinked (deps h) (deps h') f /\ same_weights (deps h) (deps h').

Lemma wp_link_child (p s : Z) l (dp ds : stream_dep) w (Q : unit -> world -> Prop) :
  deps (streams w) !! p = Some dp -> dep_next dp = head l -> deps (streams w) !! s = Some ds ->
  sib_prev ds = None -> sib_next ds = None -> p <> s -> p ∉ l -> s ∉ l -> ptr_ok (streams w) (head l) ->
  (forall h, relinks (streams w) (add_links p s l) h -> Q tt (mk_world h (pushes w))) ->
  wp (link_child p s) w Q.
Proof.
  destruct w as [h n]. simpl. intros Hp Hnext Hs Hsp Hsn Hps Hpl Hsl Hhd HQ. unfold link_child. wp_step.
  apply (wp_load_dep p dp); [done|]. simpl. intros sp Hsp' Edp. rewrite Edp, Hnext.
  assert (is_Some (h !! p)) as Hdp by eauto. assert (is_Some (h !! s)) as Hds by (apply deps_dom; eauto).
  destruct l as [|f l]; simpl.
  - apply wp_link_dep; [done|by intros ? [= <-]|]. simpl. intros h1 R1 D1. apply HQ. unfold relinks. rewrite D1.
    split_and!; [done| |]; links_eq (deps h).
  - assert (f <> s /\ f <> p) as [Hfs Hfp] by set_solver. unfold insert_link_dep. wp_step.
    apply (wp_load_dep s ds); [done|]. simpl. intros ss Hss Eds. rewrite Eds. wp_step.
    apply wp_assert; [by apply bool_decide_eq_true|]. wp_step. apply (wp_load_dep p dp); [done|]. simpl. intros sp2 _ Edp2.
    rewrite Edp2, Hnext. simpl. wp_step. apply wp_link_sib; [done|simpl; by intros ? [= <-]; apply Hhd|]. simpl. intros h1 R1 D1.
    apply wp_link_dep; simpl; [by apply (same_rest_dom h h1)|intros ? [= <-]; by apply (same_rest_dom h h1)|].
    intros h2 R2 D2. apply HQ. unfold relinks. rewrite D2, D1.
    split_and!; [by etrans| |]; links_eq (deps h).
Qed.

(** ** Weights *)

Definition weight_of D (c : Z) : Z := match D !! c with Some d => weight d | None => 0 end.
Definition wsum D (l : list Z) : Z := foldr (fun c n => weight_of D c + n) 0 l.

Lemma wsum_app D l1 l2 : wsum D (l1 ++ l2) = wsum D l1 + wsum D l2.
Proof. induction l1 as [|c l1 IH]; simpl; [done|]. rewrite IH. lia. Qed.

Lemma wsum_ext D D' l : (forall c, c ∈ l -> weight_of D' c = weight_of D c) -> wsum D' l = wsum D l.
Proof.
  induction l as [|c l IH]; simpl; intros H; [done|]. rewrite (H c) by (by left). rewrite IH; [done|]. intros x Hx. apply H. by right.
Qed.

Definition wts_ok D : Prop := forall a d, D !! a = Some d -> 1 <= weight d <= 256.

Lemma weights_ok_deps h : weights_ok h <-> wts_ok (deps h).
Proof.
  split; intros H a.
  - intros d (s & Hs & <-)%deps_lookup_inv. by apply (H a).
  - intros s Hs. apply (H a). by apply deps_lookup.
Qed.

Lemma wsum_bound D l : wts_ok D -> (forall c, c ∈ l -> is_Some (D !! c)) -> Z.of_nat (length l) <= wsum D l <= 256 * Z.of_nat (length l).
Proof.
  intros Hw. induction l as [|c l IH]; intros Hl; cbn [wsum foldr length]; [lia|]. fold (wsum D l).
  destruct (Hl c ltac:(by left)) as [d Hd]. unfold weight_of. rewrite Hd. pose proof (Hw c d Hd).
  assert (Z.of_nat (length l) <= wsum D l <= 256 * Z.of_nat (length l)) by (apply IH; intros x Hx; apply Hl; by right). lia.
Qed.

Lemma same_weights_of D D' c : same_weights D D' -> weight_of D' c = weight_of D c.
Proof.
  intros H. specialize (H c). unfold weight_of. destruct (D' !! c), (D !! c); simpl in H; simplify_eq; done.
Qed.

Lemma same_weights_sum D D' a d' : same_weights D D' -> D' !! a = Some d' ->
  exists d, D !! a = Some d /\ weight d' = weight d /\ sum_dep_weight d' = sum_dep_weight d.
Proof. intros H Ha. specialize (H a). rewrite Ha in H. destruct (D !! a) as [d|]; simpl in H; simplify_eq. eauto. Qed.

Lemma same_weights_wts D D' : same_weights D D' -> wts_ok D -> wts_ok D'.
Proof. intros H Hw a d' Ha. destruct (same_weights_sum _ _ _ _ H Ha) as (d & Hd & -> & _). by apply (Hw a). Qed.

(** ** The invariant *)

(** With the rule of the queues waived for the streams of [X]. *)
Record stream_inv_but (X : Z -> Prop) h kids : Prop := {
  si_tree : tree_ok (deps h) kids;
  si_sum : forall p l d, kids !! p = Some l -> deps h !! p = Some d -> sum_dep_weight d = wsum (deps h) l;
  si_weight : wts_ok (deps h);
  si_obq : obq_ok h;
  si_parent : forall x, in_parent h x;
  si_sync : forall x, has_parent h x -> ~ X x -> sync h x;
  si_flags : forall a s, h !! a = Some s -> dep_prev s <> None -> no_rfc7540_priorities s = false;
  si_size : Z.of_nat (size h) * 256 <= INT32_MAX;
}.

Definition stream_inv : gmap Z nghttp2_stream -> gmap Z (list Z) -> Prop := stream_inv_but (fun _ => False).

Lemma inv_kids X h kids p l : stream_inv_but X h kids -> kids !! p = Some l ->
  NoDup l /\ p ∉ l /\ forall c, c ∈ l -> is_Some (deps h !! c) /\ parent_of h c p.
Proof.
  intros HI Hl. pose proof (si_tree _ _ _ HI) as HT. destruct (proj2 (t_dom _ _ HT p) ltac:(eauto)) as [dp Hp].
  destruct (t_list _ _ HT p l dp Hl Hp) as (_ & Hnd & _). split_and!; [done|by eapply tree_self|].
  intros c Hc. destruct (tree_kid _ _ _ _ _ HT Hl Hc) as (d & Hd & E). split; [eauto|].
  apply deps_lookup_inv in Hd as (s & Hs & <-). by exists s.
Qed.

(** Sums of weights of distinct streams fit. *)
Lemma inv_sum_bound X h kids l : stream_inv_but X h kids -> NoDup l -> (forall c, c ∈ l -> is_Some (deps h !! c)) ->
  0 <= wsum (deps h) l <= 2 ^ 31 - 1.
Proof.
  intros HI Hnd Hl. pose proof (wsum_bound (deps h) l (si_weight _ _ _ HI) Hl) as Hb.
  assert (length l <= size h)%nat as Hlen by (apply NoDup_size; [done|]; intros x Hx; by apply deps_dom, Hl).
  pose proof (si_size _ _ _ HI) as Hsz. unfold INT32_MAX in Hsz. lia.
Qed.

Lemma no_parent_iff h x s : h !! x = Some s -> ~ has_parent h x <-> dep_prev s = None.
Proof.
  intros Hs. split.
  - intros H. destruct (dep_prev s) as [p|] eqn:E; [|done]. exfalso. apply H. exists s. split; [done|congruence].
  - intros E (s' & ? & ?). simplify_eq.
Qed.

(** A root is in no queue. *)
Lemma inv_root_queued X h kids x s : stream_inv_but X h kids -> h !! x = Some s -> dep_prev s = None -> ~ is_queued h x.
Proof.
  intros HI Hs Hp Hq. apply (si_obq _ _ _ HI) in Hq as [p Hp']. apply (si_parent _ _ _ HI) in Hp' as (s' & ? & ?). congruence.
Qed.

(** Only links and weights changed. *)
Lemma inv_rebuild X X' h h' kids kids' : stream_inv_but X h kids -> same_rest h h' -> tree_ok (deps h') kids' ->
  (forall p l d, kids' !! p = Some l -> deps h' !! p = Some d -> sum_dep_weight d = wsum (deps h') l) ->
  wts_ok (deps h') ->
  (forall x p, qs h p x -> parent_of h' x p) ->
  (forall x, has_parent h' x -> ~ X' x -> sync h x) ->
  (forall a s, h' !! a = Some s -> dep_prev s <> None -> no_rfc7540_priorities s = false) ->
  stream_inv_but X' h' kids'.
Proof.
  intros HI HR HT Hsum Hw Hpar Hsy Hfl. split; [done|done|done|by apply (same_rest_obq h), HI| | |done|].
  - intros x p Hp. apply Hpar. by apply (same_rest_qs h h').
  - intros x Hx HX. apply (same_rest_sync h h'); [done|]. by apply Hsy.
  - rewrite (same_rest_size h h') by done. apply HI.
Qed.

(** Only what the scheduler keeps changed. *)
Lemma inv_requeue X X' h h' kids : stream_inv_but X h kids -> same_core h h' -> obq_ok h' ->
  (forall x p, qs h' p x -> parent_of h x p) ->
  (forall x, has_parent h x -> ~ X' x -> sync h' x) ->
  stream_inv_but X' h' kids.
Proof.
  intros HI HC Hok Hpar Hsy. pose proof (same_core_deps h h' HC) as ED.
  split; rewrite ?ED; [apply HI|apply HI|apply HI|done| | | |].
  - intros x p Hp. apply (same_core_parent h h'); [done|]. by apply Hpar.
  - intros x Hx HX. apply Hsy; [|done]. by apply (same_core_has_parent h h').
  - intros a s Ha Hp. destruct (same_lookup_r _ _ _ _ _ HC Ha) as (s' & Hs' & E). pose proof (core_dep _ _ E) as E'.
    rewrite <- E' in Hp. pose proof (si_flags _ _ _ HI a s' Hs' Hp) as F. unfold no_rfc7540_priorities in *.
    apply (f_equal (fun x : nghttp2_stream => sm_flags x)) in E. cbn in E. by rewrite <- E.
  - rewrite (same_core_size h h') by done. apply HI.
Qed.

Lemma inv_weaken (X X' : Z -> Prop) h kids : stream_inv_but X h kids -> (forall x, has_parent h x -> ~ X' x -> X x -> sync h x) ->
  (forall x, Decision (X x)) -> stream_inv_but X' h kids.
Proof.
  intros HI H HD. apply (inv_requeue X _ h h kids HI); [done|apply HI|intros; by apply HI|].
  intros x Hx HX. destruct (decide (X x)); [by apply H|by apply HI].
Qed.

(** ** Adding a stream *)

Definition above h (s p : Z) : Prop := exists lp, chain h p lp /\ s ∈ p :: lp.

(** [s] can be linked below [p]: it is the root of a tree without [p]. *)
Definition can_link h (p s : Z) : Prop :=
  is_Some (h !! p) /\ ~ above h s p /\
  exists ss, h !! s = Some ss /\ dep_prev ss = None /\ no_rfc7540_priorities ss = false.

(** The functions on links do not depend on weights. *)
Definition rl_links (f : relink) : Prop := forall a d d', links d = links d' ->
  rl_prev f a d = rl_prev f a d' /\ rl_next f a d = rl_next f a d' /\ rl_sprev f a d = rl_sprev f a d' /\ rl_snext f a d = rl_snext f a d'.

Definition same_links D D' : Prop := forall a, links <$> D' !! a = links <$> D !! a.

Lemma relinked_pre D D1 D' f : same_links D D1 -> rl_links f -> relinked D1 D' f -> relinked D D' f.
Proof.
  intros HL Hf HR a. rewrite (HR a). specialize (HL a). destruct (D1 !! a) as [d1|], (D !! a) as [d|]; try done.
  simpl in *. injection HL as H1 H2 H3 H4. destruct (Hf a d1 d) as (-> & -> & -> & ->); [|done]. unfold links. congruence.
Qed.

Lemma same_links_alter D a f : (forall d, links (f d) = links d) -> same_links D (alter f a D).
Proof.
  intros Hf b. rewrite lookup_alter. destruct (decide (a = b)) as [<-|]; [|done]. destruct (D !! a); simpl; [by rewrite Hf|done].
Qed.

Lemma wp_add_sum p n dp w (Q : unit -> world -> Prop) : deps (streams w) !! p = Some dp -> is_i32 (sum_dep_weight dp + n) ->
  (forall h, same_rest (streams w) h -> deps h = alter (sum_dep_weight_to (sum_dep_weight dp + n)) p (deps (streams w)) ->
     Q tt (mk_world h (pushes w))) ->
  wp (add_sum_dep_weight p n) w Q.
Proof.
  intros Hp Hn HQ. unfold add_sum_dep_weight. wp_step. apply (wp_load_dep p dp); [done|]. intros ds Hds ->.
  wp_step. apply wp_int32; [done|]. apply wp_modify_dep; [eauto|done].
Qed.

(** What linking [s] below [p] makes of the invariant. *)
Lemma inv_link h kids (p s : Z) l h' : stream_inv h kids -> can_link h p s -> kids !! p = Some l -> same_rest h h' ->
  relinked (deps h) (deps h') (add_links p s l) ->
  (forall a d', deps h' !! a = Some d' -> exists d, deps h !! a = Some d /\ weight d' = weight d /\
     sum_dep_weight d' = sum_dep_weight d + (if decide (a = p) then weight_of (deps h) s else 0)) ->
  stream_inv_but (eq s) h' (<[p := s :: l]> kids).
Proof.
  intros HI (_ & Habove & ss & Hss & Hroot & Hnf) Hl HR HL HW. pose proof (si_tree _ _ _ HI) as HT.
  destruct (t_acyclic _ _ HT p) as [lp Hlp]; [apply (t_dom _ _ HT); eauto|].
  assert (s ∉ p :: lp) as Hs by (intros ?; apply Habove; by exists lp).
  assert (tree_ok (deps h') (<[p := s :: l]> kids)) as HT'.
  { apply (tree_add (deps h) _ kids p s l ss lp); try done. by apply deps_lookup. }
  assert (forall c, weight_of (deps h') c = weight_of (deps h) c) as Hwo.
  { intros c. unfold weight_of. destruct (deps h' !! c) as [d'|] eqn:Hc.
    - destruct (HW c d' Hc) as (d & -> & -> & _). done.
    - destruct (deps h !! c) eqn:Hc2; [|done]. exfalso. destruct (relinked_fwd _ _ _ _ _ HL Hc2) as (? & ? & _). congruence. }
  assert (forall x p', parent_of h' x p' <-> x = s /\ p' = p \/ x <> s /\ parent_of h x p') as Hpar.
  { intros x p'. split.
    - intros (s' & Hs' & Hp'). destruct (relinked_bwd _ _ _ _ _ HL (deps_lookup _ _ _ Hs')) as (d & Hd & E & _). cbn in E.
      destruct (decide (x = s)); [left; split; [done|congruence]|right; split; [done|]].
      apply deps_lookup_inv in Hd as (s0 & Hs0 & <-). exists s0. split; [done|congruence].
    - intros [[-> ->]|[Hne (s0 & Hs0 & E)]].
      + destruct (relinked_fwd _ _ _ _ _ HL (deps_lookup _ _ _ Hss)) as (d' & Hd' & E & _). cbn in E.
        rewrite decide_True in E by done. apply deps_lookup_inv in Hd' as (s' & Hs' & <-). by exists s'.
      + destruct (relinked_fwd _ _ _ _ _ HL (deps_lookup _ _ _ Hs0)) as (d' & Hd' & E' & _). cbn in E'.
        rewrite decide_False in E' by done. apply deps_lookup_inv in Hd' as (s' & Hs' & <-). exists s'. split; [done|congruence]. }
  apply (inv_rebuild (fun _ => False) _ h h' kids); try done.
  - intros p' l' d' Hl' Hd'. destruct (HW p' d' Hd') as (d & Hd & _ & ->). rewrite (wsum_ext (deps h)) by (intros; apply Hwo).
    destruct (decide (p' = p)) as [->|].
    + rewrite lookup_insert_eq in Hl'. injection Hl' as <-. cbn [wsum foldr]. fold (wsum (deps h) l).
      rewrite (si_sum _ _ _ HI p l d Hl Hd). lia.
    + rewrite lookup_insert_ne in Hl' by done. rewrite (si_sum _ _ _ HI p' l' d Hl' Hd). lia.
  - intros a d' Ha. destruct (HW a d' Ha) as (d & Hd & -> & _). by apply (si_weight _ _ _ HI a).
  - intros x p' Hp'. apply Hpar. right. split; [|by apply (si_parent _ _ _ HI)].
    intros ->. apply (si_parent _ _ _ HI) in Hp' as (? & ? & ?). congruence.
  - intros x (s' & Hs' & Hp') Hx. apply (si_sync _ _ _ HI); [|tauto]. destruct (dep_prev s') as [p'|] eqn:E; [|done].
    assert (parent_of h' x p') as [[? _]|[_ H]]%Hpar by (by exists s'); [done|]. by eapply parent_has.
  - intros a s' Hs' Hp'. destruct (dep_prev s') as [p'|] eqn:E; [|done].
    assert (parent_of h' a p') as H%Hpar by (by exists s'). destruct (same_lookup_r _ _ _ _ _ HR Hs') as (s0 & Hs0 & E0).
    assert (no_rfc7540_priorities s' = no_rfc7540_priorities s0) as ->.
    { unfold no_rfc7540_priorities. apply (f_equal (fun x : nghttp2_stream => sm_flags x)) in E0. cbn in E0. by rewrite E0. }
    destruct H as [[-> _]|[_ (s1 & Hs1 & E1)]]; simplify_eq; [done|]. apply (si_flags _ _ _ HI a); [done|]. congruence.
Qed.

(** An operation succeeds with [P], or reports that memory ran out. *)
Definition outcome (ok : nat -> bool) (P : gmap Z nghttp2_stream -> Prop) (rv : Z) (w : world) : Prop :=
  rv = NGHTTP2_ERR_NOMEM /\ refused ok \/ rv = 0 /\ P (streams w).

Lemma wp_push_queued ok d c w (Q : Z -> world -> Prop) : is_queued (streams w) c -> Q 0 w -> wp (stream_obq_push ok (Some d) c) w Q.
Proof.
  intros (s & Hs & Hq) HQ. unfold stream_obq_push. do 2 wp_step. cbn [obq_push_loop]. wp_step. eapply wp_load; [exact Hs|].
  apply Z.eqb_neq in Hq as ->. by apply wp_ret.
Qed.

Lemma wp_push_live ok p (s : Z) w kids (Q : Z -> world -> Prop) : stream_inv_but (eq s) (streams w) kids -> parent_of (streams w) s p ->
  live (streams w) s -> (forall h n, refused ok -> same_core (streams w) h -> Q NGHTTP2_ERR_NOMEM (mk_world h n)) ->
  (forall h n, stream_inv h kids -> Q 0 (mk_world h n)) -> wp (stream_obq_push ok (Some p) s) w Q.
Proof.
  destruct w as [h n]. simpl. intros HI (ss & Hss & Hp) Hlive Hnomem HQ. destruct (decide (queued ss = 0)) as [Hq|Hq].
  - assert (~ is_queued h s) as Hnq by (apply (queued_test_false h s ss Hss); by apply Z.eqb_eq).
    pose proof (si_tree _ _ _ HI) as HT. destruct (t_acyclic _ _ HT s ltac:(apply deps_dom; eauto)) as [ls Hls].
    destruct ls as [|p' lp]; [apply chain_nil in Hls as (? & ? & ?); congruence|].
    pose proof (chain_cons _ _ _ _ Hls) as (s' & Hs' & Hp' & Hlp). rewrite Hss in Hs'. injection Hs' as <-.
    rewrite Hp in Hp'. injection Hp' as <-.
    apply (wp_obq_push ok lp); simpl; [apply HI|done|by eapply dchain_notin|eauto|apply weights_ok_deps, HI|done|done|].
    intros h' m (G1 & G2 & G3 & G4 & G5 & _ & G7). apply HQ.
    apply (inv_requeue (eq s) _ h); [done|done|done| |].
    + intros x p' [H|[[-> ->]|[_ H]]]%G5; [by apply HI|by exists ss|done].
    + intros x Hx _. destruct (decide (x = s)) as [->|Hne].
      * split; [|intros _; apply G1; eauto]. intros _. destruct Hlive as [Ha|[y Hy]]; [left; by apply (same_core_active h h')|right; eauto].
      * apply G7; [done|done|]. by apply HI; [|intros ?].
  - assert (is_queued h s) by (by exists ss). apply wp_push_queued; [done|]. apply HQ.
    apply (inv_weaken (eq s)); [done| |solve_decision]. intros x _ _ <-. split; [auto|done].
Qed.

Lemma wp_push_if_active ok p (s : Z) w kids : stream_inv_but (eq s) (streams w) kids -> parent_of (streams w) s p ->
  (is_queued (streams w) s -> live (streams w) s) ->
  wp (push_if_active ok p s) w (outcome ok (fun h => stream_inv h kids)).
Proof.
  destruct w as [h n]. simpl. intros HI Hsp Hql. pose proof Hsp as (ss & Hss & Hp). unfold push_if_active. wp_step. wp_step.
  pose proof (subtree_active_live h s ss Hss) as Hlive. destruct (stream_subtree_active ss) eqn:Hact.
  - apply (wp_push_live ok p s _ kids); simpl; [done|done|by apply Hlive|by left|by right].
  - apply wp_ret. right. split; [done|]. apply (inv_weaken (eq s)); [done| |solve_decision].
    intros x _ _ <-. split; [auto|]. intros Hl%Hlive. congruence.
Qed.

(** The new child is linked and the sum of weights updated. *)
Lemma wp_link_below p (s : Z) ss w kids l (Q : unit -> world -> Prop) : stream_inv (streams w) kids -> can_link (streams w) p s ->
  kids !! p = Some l -> streams w !! s = Some ss ->
  (forall h, same_rest (streams w) h -> stream_inv_but (eq s) h (<[p := s :: l]> kids) -> parent_of h s p -> Q tt (mk_world h (pushes w))) ->
  wp (add_sum_dep_weight p (weight ss);; link_child p s) w Q.
Proof.
  destruct w as [h n]. simpl. intros HI HC Hl Hss HQ. pose proof HC as ([sp Hsp] & Habove & ss' & ? & Hroot & _). simplify_eq.
  pose proof (si_tree _ _ _ HI) as HT. pose proof (deps_lookup _ _ _ Hsp) as Hdp. pose proof (deps_lookup _ _ _ Hss) as Hds.
  destruct (inv_kids _ _ _ _ _ HI Hl) as (Hnd & Hpl & Hkid).
  pose proof (tree_root_kid _ _ _ _ _ _ HT Hl Hds Hroot) as Hsl. destruct (t_root _ _ HT s _ Hds Hroot) as [Hr1 Hr2].
  destruct (t_list _ _ HT p l _ Hl Hdp) as (Hnext & _ & _).
  assert (p <> s) as Hps.
  { intros ->. apply Habove. destruct (t_acyclic _ _ HT s ltac:(eauto)) as [lp ?]. exists lp. split; [done|by left]. }
  wp_step. apply (wp_add_sum p _ (st_dep sp)); [done| |].
  { rewrite (si_sum _ _ _ HI p l _ Hl Hdp). assert (weight ss = weight_of (deps h) s) as -> by (unfold weight_of; by rewrite Hds).
    assert (0 <= wsum (deps h) (s :: l) <= 2 ^ 31 - 1) as Hb.
    { apply (inv_sum_bound (fun _ => False) h kids); [done|by constructor|]. intros c [->|Hc]%elem_of_cons; [eauto|by apply Hkid]. }
    cbn [wsum foldr] in Hb. fold (wsum (deps h) l) in Hb. unfold is_i32. lia. }
  simpl. intros h1 R1 D1.
  apply (wp_link_child p s l (sum_dep_weight_to (sum_dep_weight sp + weight ss) (st_dep sp)) (st_dep ss)); simpl; try done.
  - by rewrite D1, lookup_alter_eq, Hdp.
  - by rewrite D1, lookup_alter_ne.
  - intros a Ha. symmetry in Ha. apply head_elem in Ha. apply (same_rest_dom h h1); [done|]. by apply deps_dom, Hkid.
  - intros h2 (R2 & L2 & W2). assert (same_rest h h2) as R by (by etrans). rewrite D1 in L2, W2.
    assert (relinked (deps h) (deps h2) (add_links p s l)) as HL.
    { eapply relinked_pre; [|intros a d d' E; unfold links in E; simplify_eq; unfold add_links; simpl; repeat case_decide; naive_solver|exact L2].
      by apply same_links_alter. }
    apply HQ; [done| |].
    + apply (inv_link h kids p s l); try done. intros a d' Hd'.
      destruct (same_weights_sum _ _ _ _ W2 Hd') as (d1 & Hd1 & E1 & E2). rewrite lookup_alter in Hd1.
      destruct (decide (p = a)) as [<-|Hne].
      * rewrite Hdp in Hd1. simpl in Hd1. injection Hd1 as <-. exists (st_dep sp). rewrite decide_True by done.
        unfold weight_of. rewrite Hds. done.
      * exists d1. rewrite decide_False by congruence. split_and!; [done|done|lia].
    + destruct (relinked_fwd _ _ _ _ _ HL Hds) as (d' & Hd' & E & _). cbn in E. rewrite decide_True in E by done.
      apply deps_lookup_inv in Hd' as (s' & Hs' & <-). by exists s'.
Qed.

(** ** [nghttp2_stream_dep_add] and [nghttp2_stream_dep_add_subtree] *)

Lemma wp_dep_add p (s : Z) w kids l : stream_inv (streams w) kids -> can_link (streams w) p s -> kids !! p = Some l ->
  ~ live (streams w) s ->
  wp (nghttp2_stream_dep_add p s) w (fun _ w' => stream_inv (streams w') (<[p := s :: l]> kids)).
Proof.
  intros HI HC Hl Hdead. pose proof HC as (_ & _ & ss & Hss & Hroot & _). unfold nghttp2_stream_dep_add. wp_step. wp_step.
  eapply wp_link_below; [done|done|done|done|]. simpl. intros h R HI' _.
  apply (inv_weaken (eq s)); [done| |solve_decision]. intros x _ _ <-. apply (same_rest_sync (streams w) h); [done|].
  split; [|done]. intros Hq. exfalso. by apply (inv_root_queued _ _ _ _ _ HI Hss Hroot).
Qed.

Lemma wp_dep_add_subtree ok p (s : Z) w kids l : stream_inv (streams w) kids -> can_link (streams w) p s -> kids !! p = Some l ->
  wp (nghttp2_stream_dep_add_subtree ok p s) w (outcome ok (fun h => stream_inv h (<[p := s :: l]> kids))).
Proof.
  intros HI HC Hl. pose proof HC as (_ & _ & ss & Hss & Hroot & _). unfold nghttp2_stream_dep_add_subtree. wp_step. wp_step.
  assert (wp (add_sum_dep_weight p (weight ss);; link_child p s) w
    (fun _ w' => wp (push_if_active ok p s) w' (outcome ok (fun h => stream_inv h (<[p := s :: l]> kids))))) as H.
  { eapply wp_link_below; [done|done|done|done|]. intros h R HI' Hp. apply wp_push_if_active; [done|done|]. simpl.
    intros Hq%(same_rest_queued (streams w) h); [|done]. exfalso. by apply (inv_root_queued _ _ _ _ _ HI Hss Hroot). }
  unfold wp, mbind, st_bind in H |- *. destruct (add_sum_dep_weight p (weight ss) w) as [[w1 []]|]; [|done].
  destruct (link_child p s w1) as [[w2 []]|]; done.
Qed.

(** ** Changes of links and queues together *)

(** Neither links nor what the scheduler keeps. *)
Definition base s : nghttp2_stream := rest (core s).
Definition same_base h h' : Prop := base <$> h' = base <$> h.

#[global] Instance same_base_equiv : Equivalence same_base.
Proof. unfold same_base. split; [done|by intros x y ->|]. intros x y z H1 H2. congruence. Qed.

Lemma same_core_base h h' : same_core h h' -> same_base h h'.
Proof.
  unfold same_core, same_base. intros H. apply (f_equal (fmap rest)) in H. by rewrite <- !map_fmap_compose in H.
Qed.

Lemma same_rest_base h h' : same_rest h h' -> same_base h h'.
Proof.
  unfold same_rest, same_base. intros H. apply (f_equal (fmap core)) in H. by rewrite <- !map_fmap_compose in H.
Qed.

Lemma base_flags s s' : base s' = base s -> stream_active s' = stream_active s /\ no_rfc7540_priorities s' = no_rfc7540_priorities s.
Proof.
  intros H. pose proof (f_equal item H) as E1. pose proof (f_equal (fun x : nghttp2_stream => sm_flags x) H) as E2. cbn in E1, E2.
  unfold stream_active, no_rfc7540_priorities. by rewrite E1, E2.
Qed.

Lemma same_base_active h h' c : same_base h h' -> active h' c <-> active h c.
Proof.
  intros H. unfold active. split; intros (s & Hs & Hin).
  - destruct (same_lookup_r _ _ _ _ _ H Hs) as (s' & Hs' & [E _]%base_flags). exists s'. split; [done|]. congruence.
  - destruct (same_lookup _ _ _ _ _ H Hs) as (s' & Hs' & [E _]%base_flags). exists s'. split; [done|]. congruence.
Qed.

Lemma same_base_size h h' : same_base h h' -> size h' = size h.
Proof. intros H. rewrite <- (map_size_fmap base h'), H. apply map_size_fmap. Qed.

(** ** Siblings *)

Lemma wp_for_siblings (I : list Z -> world -> Prop) (body : Z -> st_m Z) (Q : Z -> world -> Prop) l : forall fuel w,
  (length l <= fuel)%nat -> I l w ->
  (forall c r w, I (c :: r) w -> wp (body c) w (fun rv w' =>
     if rv =? 0 then I r w' /\ exists s, streams w' !! c = Some s /\ sib_next s = head r else Q rv w')) ->
  (forall w, I [] w -> Q 0 w) ->
  wp (for_siblings fuel (head l) body) w Q.
Proof.
  induction l as [|c l IH]; intros fuel w Hf HI Hbody HQ.
  - destruct fuel; simpl; apply wp_ret; by apply HQ.
  - destruct fuel as [|fuel]; simpl in Hf; [lia|]. cbn [head for_siblings]. wp_step.
    eapply wp_mono; [by apply Hbody|]. intros rv w'. simpl. destruct (Z.eqb_spec rv 0) as [->|]; cbn [negb].
    + intros [HI' (s & Hs & E)]. wp_step. eapply wp_load; [exact Hs|]. rewrite E. by apply IH; [lia|..].
    + intros. by apply wp_ret.
Qed.

(** The links that a walk along [sib_next] follows. *)
Definition sib_walk D (l : list Z) : Prop := forall t c r, l = t ++ c :: r -> exists d, D !! c = Some d /\ sib_next d = head r.

Lemma dllseg_walk D p prev l : dllseg D p prev l None -> sib_walk D l.
Proof.
  intros H t c r ->. apply dllseg_app in H as [_ (d & Hd & _ & _ & E & _)]. exists d. split; [done|]. by rewrite E, hd_or_None.
Qed.

Definition reparented (t : list Z) (p : option Z) D D' : Prop :=
  forall a, D' !! a = (if decide (a ∈ t) then dep_prev_to p else id) <$> D !! a.

Lemma reparented_nil p D : reparented [] p D D.
Proof. intros a. rewrite decide_False by (by intros ?%elem_of_nil). by rewrite option_fmap_id. Qed.

Lemma reparented_step t c p D D' : reparented t p D D' -> reparented (t ++ [c]) p D (alter (dep_prev_to p) c D').
Proof.
  intros H a. rewrite lookup_alter. destruct (decide (c = a)) as [<-|Hne].
  - rewrite (H c), (decide_True (P := c ∈ t ++ [c])) by set_solver. destruct (decide (c ∈ t)), (D !! c) as [[]|]; done.
  - rewrite (H a). destruct (decide (a ∈ t)); [rewrite decide_True by set_solver|rewrite decide_False by set_solver]; done.
Qed.

Lemma reparented_walk t p D D' l : reparented t p D D' -> sib_walk D l -> sib_walk D' l.
Proof.
  intros H Hw t' c r E. destruct (Hw t' c r E) as (d & Hd & E'). rewrite (H c), Hd. eexists. split; [done|].
  by destruct (decide (c ∈ t)), d.
Qed.

Lemma reparented_parent t (q : Z) h h' x p : reparented t (Some q) (deps h) (deps h') ->
  parent_of h' x p <-> if decide (x ∈ t) then p = q /\ is_Some (h !! x) else parent_of h x p.
Proof.
  intros H. specialize (H x). unfold parent_of. unfold deps in H. rewrite !lookup_fmap in H.
  destruct (h' !! x) as [s'|], (h !! x) as [s0|]; simpl in H; try (destruct (decide (x ∈ t)); discriminate).
  - destruct (decide (x ∈ t)); injection H as H.
    + split; [intros (? & [= <-] & E)|intros [-> _]; exists s'; split; [done|]]; rewrite H in *; simpl in *; [split; [congruence|eauto]|done].
    + split; intros (? & [= <-] & E); eexists; (split; [done|]); [by rewrite <- H|by rewrite H].
  - destruct (decide (x ∈ t)); [split; [intros (? & ? & _); done|intros [_ [? ?]]; done]|split; intros (? & ? & _); done].
Qed.

(** ** Adoption *)

(** The children [t] of [p], in [h0], have become children of [s] with the
    queue entries they have; [r] are still to come.  [ls] are the ancestors
    that [s] has during the walk. *)
Record adopting (p s : Z) (ls t r : list Z) h0 h : Prop := {
  ad_obq : obq_ok h;
  ad_base : same_base h0 h;
  ad_deps : reparented t (Some s) (deps h0) (deps h);
  ad_in : forall p' x, qs h p' x -> x ∈ t /\ p' = s \/ x ∈ r /\ p' = p /\ qs h0 p x \/
    x ∉ t ++ r /\ (qs h0 p' x \/ x ∈ s :: ls /\ parent_of h0 x p');
  ad_queued : forall x, is_queued h0 x -> is_queued h x;
  ad_out : forall p' x, x ∉ t ++ r -> qs h0 p' x -> qs h p' x;
  ad_sync : forall x, x <> s -> x <> p -> has_parent h0 x -> sync h0 x -> sync h x;
  ad_moved : is_queued h s -> exists c, c ∈ t /\ is_queued h0 c;
  ad_up : has_parent h0 s -> (exists c, c ∈ t /\ is_queued h0 c) -> is_queued h s;
  ad_idle : (forall c, c ∈ t -> ~ is_queued h0 c) -> forall p' x, qs h p' x <-> qs h0 p' x;
}.

(** What holds before the walk over the children [l] of [p]. *)
Record adoptable (p s : Z) (ls l : list Z) h0 : Prop := {
  ao_obq : obq_ok h0;
  ao_weights : weights_ok h0;
  ao_chain : chain h0 s ls;
  ao_nodup : NoDup l;
  ao_self : p ∉ l;
  ao_new : forall c, c ∈ l -> c ∉ s :: ls;
  ao_walk : sib_walk (deps h0) l;
  ao_in : forall p' c, c ∈ l -> qs h0 p' c -> p' = p;
  ao_root : ~ is_queued h0 s;
}.

Lemma adopting_start p (s : Z) ls l h0 : adoptable p s ls l h0 -> adopting p s ls [] l h0 h0.
Proof.
  intros HA. split; [apply HA|done|apply reparented_nil| |done|done|done| |by intros _ (? & ?%elem_of_nil & _)|done].
  - intros p' x Hx. destruct (decide (x ∈ l)) as [Hxl|]; [|naive_solver]. right; left.
    pose proof (ao_in _ _ _ _ _ HA p' x Hxl Hx) as ->. done.
  - intros Hq. by destruct (ao_root _ _ _ _ _ HA).
Qed.

(** The parent pointer of the next child is set. *)
Lemma adopting_relink p (s : Z) ls t c r h0 h h1 : adopting p s ls t (c :: r) h0 h -> same_rest h h1 ->
  deps h1 = alter (dep_prev_to (Some s)) c (deps h) -> ~ is_queued h c -> adopting p s ls (t ++ [c]) r h0 h1.
Proof.
  intros HA HR HD Hnq. pose proof (not_queued_qs h c (ad_obq _ _ _ _ _ _ _ HA) Hnq) as Hnin. split.
  - apply (same_rest_obq h); [done|]. apply HA.
  - etrans; [apply HA|]. by apply same_rest_base.
  - rewrite HD. apply reparented_step, HA.
  - intros p' x Hx%(same_rest_qs h h1); [|done]. assert (x <> c) by (intros ->; by apply (Hnin p')).
    destruct (ad_in _ _ _ _ _ _ _ HA p' x Hx) as [[? ?]|[(? & ? & ?)|[? ?]]]; [left; set_solver|right; left; set_solver|].
    right; right. split; [set_solver|done].
  - intros x Hx. apply (same_rest_queued h h1); [done|]. by apply (ad_queued _ _ _ _ _ _ _ HA).
  - intros p' x Hx Hq. apply (same_rest_qs h h1); [done|]. apply (ad_out _ _ _ _ _ _ _ HA); [set_solver|done].
  - intros x H1 H2 H3 H4. apply (same_rest_sync h h1); [done|]. by apply (ad_sync _ _ _ _ _ _ _ HA).
  - intros Hq%(same_rest_queued h h1); [|done]. destruct (ad_moved _ _ _ _ _ _ _ HA Hq) as (y & ? & ?). exists y. set_solver.
  - intros Hp (y & [Hy|Hy]%elem_of_app & Hq).
    + apply (same_rest_queued h h1); [done|]. apply (ad_up _ _ _ _ _ _ _ HA); eauto.
    + apply list_elem_of_singleton in Hy as ->. by destruct Hnq; apply (ad_queued _ _ _ _ _ _ _ HA).
  - intros Hid p' x. rewrite (same_rest_qs h h1) by done. apply (ad_idle _ _ _ _ _ _ _ HA). intros y Hy. apply Hid. set_solver.
Qed.

(** And its queue entry moved. *)
Lemma adopting_move p (s : Z) ls t c r h0 h h1 h2 : adoptable p s ls (t ++ c :: r) h0 -> p <> s ->
  adopting p s ls t (c :: r) h0 h -> same_rest h h1 -> deps h1 = alter (dep_prev_to (Some s)) c (deps h) ->
  is_queued h c -> moved h1 p s c ls h2 -> adopting p s ls (t ++ [c]) r h0 h2.
Proof.
  intros HP Hps HA HR HD Hqc (M1 & M2 & M3 & M4 & M5 & M6 & M7).
  pose proof (ao_nodup _ _ _ _ _ HP) as Hnd. pose proof (ao_new _ _ _ _ _ HP) as Hnew.
  assert (c ∉ t /\ c ∉ r) as [Hct Hcr] by (apply NoDup_app in Hnd as (_ & ? & ?%NoDup_cons); set_solver).
  assert (reparented (t ++ [c]) (Some s) (deps h0) (deps h2)) as Hrep.
  { rewrite (same_core_deps h1 h2) by done. rewrite HD. apply reparented_step, HA. }
  assert (reparented (t ++ [c]) (Some s) (deps h0) (deps h1)) as Hrep1 by (rewrite HD; apply reparented_step, HA).
  assert (c <> p) as Hcp by (intros ->; apply (ao_self _ _ _ _ _ HP); set_solver).
  assert (forall p' x, qs h p' x -> x <> c -> qs h2 p' x) as Hkeep.
  { intros p' x Hx Hne. apply M4; [by apply (same_rest_qs h h1)|naive_solver]. }
  assert (is_queued h0 c) as Hq0.
  { apply (ad_obq _ _ _ _ _ _ _ HA) in Hqc as [p' Hp']. apply (ao_obq _ _ _ _ _ HP). exists p.
    destruct (ad_in _ _ _ _ _ _ _ HA p' c Hp') as [[? _]|[(_ & _ & ?)|[Hn _]]]; [done|done|set_solver]. }
  split; [done| |done| | | | | | |].
  - etrans; [apply HA|]. etrans; [by apply same_rest_base|by apply same_core_base].
  - intros p' x [[Hx Hn]|[[-> ->]|[Hx Hp]]]%M5; [|left; set_solver|].
    + apply (same_rest_qs h h1) in Hx; [|done].
      destruct (ad_in _ _ _ _ _ _ _ HA p' x Hx) as [[? ?]|[(Hxr & -> & ?)|[? ?]]]; [left; set_solver| |right; right; set_solver].
      apply elem_of_cons in Hxr as [->|]; [naive_solver|]. by right; left.
    + assert (x ∉ t ++ c :: r) as Hxn by (intros Hin; by apply (Hnew x Hin)).
      right; right. split; [set_solver|]. right. split; [done|]. apply (reparented_parent _ _ _ _ _ _ Hrep1) in Hp.
      rewrite decide_False in Hp by set_solver. done.
  - intros x Hx. pose proof (ad_queued _ _ _ _ _ _ _ HA x Hx) as Hx'. apply M1. destruct (decide (x = c)) as [->|Hne]; [eauto|].
    apply (ad_obq _ _ _ _ _ _ _ HA) in Hx' as [p' Hp']. exists p'. by apply Hkeep.
  - intros p' x Hx Hq. assert (x <> c) by set_solver. apply Hkeep; [|done]. apply (ad_out _ _ _ _ _ _ _ HA); [set_solver|done].
  - intros x H1 H2 H3 H4. pose proof (ad_sync _ _ _ _ _ _ _ HA x H1 H2 H3 H4) as Hs.
    destruct (decide (x = c)) as [->|Hne].
    + split; [|intros _; apply M1; eauto]. intros _. destruct (proj1 Hs Hqc) as [Ha|[y Hy]].
      * left. apply (same_core_active h1 h2); [done|]. by apply (same_rest_active h h1).
      * right. exists y. apply M4; [by apply (same_rest_qs h h1)|naive_solver].
    + apply M7; [done|done| |by apply (same_rest_sync h h1)]. destruct H3 as (s' & Hs' & Hp').
      destruct (dep_prev s') as [q|] eqn:E; [|done]. apply (parent_has _ _ (if decide (x ∈ t ++ [c]) then s else q)).
      apply (reparented_parent _ _ _ _ _ _ Hrep1). destruct (decide (x ∈ t ++ [c])); [split; [done|eauto]|by exists s'].
  - intros _. exists c. set_solver.
  - intros (s' & Hs' & Hp') _. apply M6. destruct (dep_prev s') as [q|] eqn:E; [|done]. apply (parent_has _ _ q).
    apply (reparented_parent _ _ _ _ _ _ Hrep1). rewrite decide_False; [by exists s'|]. intros Hin.
    apply (Hnew s); [set_solver|by left].
  - intros Hid. exfalso. apply (Hid c); [set_solver|done].
Qed.

Lemma wp_adopt ok p (s : Z) ls l w (Q : Z -> world -> Prop) : adoptable p s ls l (streams w) -> p <> s -> is_Some (streams w !! s) ->
  (forall w', refused ok -> Q NGHTTP2_ERR_NOMEM w') ->
  (forall w', adopting p s ls l [] (streams w) (streams w') -> Q 0 w') ->
  wp (adopt ok p s (head l)) w Q.
Proof.
  intros HP Hps Hs Hnomem HQ. unfold adopt. do 2 wp_step.
  apply (wp_for_siblings (fun r w' => exists t, l = t ++ r /\ adopting p s ls t r (streams w) (streams w'))).
  - assert (length l <= size (streams w))%nat; [|lia]. apply NoDup_size; [apply HP|]. intros x Hx.
    apply list_elem_of_split in Hx as (t & r & ->). destruct (ao_walk _ _ _ _ _ HP t x r eq_refl) as (d & Hd & _). apply deps_dom. eauto.
  - exists []. split; [done|]. by apply adopting_start.
  - intros c r w1 (t & -> & HA). pose proof (reparented_walk _ _ _ _ _ (ad_deps _ _ _ _ _ _ _ HA) (ao_walk _ _ _ _ _ HP)) as Hwalk.
    destruct (Hwalk t c r eq_refl) as (dc & Hdc & Esib). apply deps_lookup_inv in Hdc as (cs & Hcs & <-).
    wp_step. apply wp_modify_dep; [eauto|]. intros h1 R1 D1.
    destruct (same_lookup _ _ _ _ _ R1 Hcs) as (cs1 & Hcs1 & Ec%rest_sched). wp_step. eapply wp_load; [exact Hcs1|]. rewrite Ec.
    assert (sib_next cs1 = head r) as Esib1.
    { pose proof (deps_lookup _ _ _ Hcs1) as E. rewrite D1, lookup_alter_eq, (deps_lookup _ _ _ Hcs) in E. simpl in E.
      injection E as E. by rewrite <- E. }
    destruct (Z.eqb_spec (queued cs) 0) as [Hq|Hq]; cbn [negb].
    + apply wp_ret. simpl. split; [|eauto]. exists (t ++ [c]). rewrite <- app_assoc. split; [done|].
      apply (adopting_relink p s ls t c r (streams w) (streams w1) h1); try done.
      intros (? & ? & ?). simplify_eq.
    + assert (is_queued (streams w1) c) as Hqc by (by exists cs).
      assert (c ∈ t ++ c :: r) as Hcl by set_solver. pose proof (ao_nodup _ _ _ _ _ HP) as Hnd.
      assert (c ∉ t) as Hct by (apply NoDup_app in Hnd as (_ & ? & _); set_solver).
      assert (chain h1 s ls) as Hch.
      { apply (dchain_stable (deps (streams w))); [apply HP|]. intros x Hx.
        destruct (dchain_dom _ _ _ _ (ao_chain _ _ _ _ _ HP) Hx) as [dx Hdx]. unfold parent.
        assert (x ∉ t ++ c :: r) as Hxn by (intros Hin; by apply (ao_new _ _ _ _ _ HP x Hin)).
        rewrite D1, lookup_alter_ne by set_solver. rewrite (ad_deps _ _ _ _ _ _ _ HA x), Hdx, decide_False by set_solver. simpl. eauto. }
      apply (wp_obq_move ok _ p s c ls); simpl; [by apply (same_rest_obq (streams w1)), HA| |done|by apply (ao_new _ _ _ _ _ HP)| |intros; simpl; by apply Hnomem|].
      * apply (same_rest_qs (streams w1) h1); [done|]. apply (ad_obq _ _ _ _ _ _ _ HA) in Hqc as [p' Hp'].
        destruct (ad_in _ _ _ _ _ _ _ HA p' c Hp') as [[? _]|[(_ & -> & _)|[Hn _]]]; [done|done|set_solver].
      * apply weights_ok_deps. intros a d Ha. rewrite D1 in Ha. pose proof (proj1 (weights_ok_deps _) (ao_weights _ _ _ _ _ HP)) as Hw.
        rewrite lookup_alter in Ha. destruct (decide (c = a)) as [<-|]; rewrite (ad_deps _ _ _ _ _ _ _ HA) in Ha.
        -- destruct (deps (streams w) !! c) as [d0|] eqn:E; [|done]. simpl in Ha. injection Ha as <-.
           specialize (Hw c d0 E). by destruct (decide (c ∈ t)).
        -- destruct (deps (streams w) !! a) as [d0|] eqn:E; [|done]. simpl in Ha. injection Ha as <-.
           specialize (Hw a d0 E). by destruct (decide (a ∈ t)).
      * intros h2 m HM. pose proof HM as (_ & Hc2 & _). split.
        -- exists (t ++ [c]). rewrite <- app_assoc. split; [done|]. by apply (adopting_move p s ls t c r (streams w) (streams w1) h1).
        -- destruct (same_lookup _ _ _ _ _ Hc2 Hcs1) as (cs2 & Hcs2 & E%core_dep). exists cs2. split; [done|]. by rewrite E.
  - intros w1 (t & E & HA). rewrite app_nil_r in E. subst. by apply HQ.
Qed.

(** ** Putting the invariant together again *)

Lemma inv_build X h h' kids kids' : stream_inv h kids -> same_base h h' -> tree_ok (deps h') kids' ->
  (forall p l d, kids' !! p = Some l -> deps h' !! p = Some d -> sum_dep_weight d = wsum (deps h') l) ->
  wts_ok (deps h') -> obq_ok h' ->
  (forall x p, qs h' p x -> parent_of h' x p) ->
  (forall x, has_parent h' x -> ~ X x -> sync h' x) ->
  (forall a s, h !! a = Some s -> has_parent h' a -> no_rfc7540_priorities s = false) ->
  stream_inv_but X h' kids'.
Proof.
  intros HI HB HT Hsum Hw Hok Hpar Hsy Hfl. split; [done|done|done|done|done|done| |].
  - intros a s Ha Hp. destruct (same_lookup_r _ _ _ _ _ HB Ha) as (s0 & Hs0 & [_ E]%base_flags). rewrite <- E.
    apply (Hfl a); [done|]. by exists s.
  - rewrite (same_base_size h h') by done. apply HI.
Qed.

(** The parents after a change of links. *)
Lemma relinked_parent_of h h' f x p : relinked (deps h) (deps h') f ->
  parent_of h' x p <-> exists s, h !! x = Some s /\ rl_prev f x s = Some p.
Proof.
  intros HL. split.
  - intros (s' & Hs' & Hp). destruct (relinked_bwd _ _ _ _ _ HL (deps_lookup _ _ _ Hs')) as (d & Hd & E & _).
    apply deps_lookup_inv in Hd as (s0 & Hs0 & <-). exists s0. split; [done|congruence].
  - intros (s0 & Hs0 & Hp). destruct (relinked_fwd _ _ _ _ _ HL (deps_lookup _ _ _ Hs0)) as (d' & Hd' & E & _).
    apply deps_lookup_inv in Hd' as (s' & Hs' & <-). exists s'. split; [done|congruence].
Qed.

Lemma has_parent_of h x : has_parent h x <-> exists p, parent_of h x p.
Proof.
  split.
  - intros (s & Hs & Hp). destruct (dep_prev s) as [p|] eqn:E; [|done]. exists p. by exists s.
  - intros [p Hp]. by eapply parent_has.
Qed.

(** ** Inserting above the children of a stream *)

(** The weights after an insertion. *)
Definition insert_weights (p s : Z) D D' : Prop := forall a d', D' !! a = Some d' -> exists d, D !! a = Some d /\
  weight d' = weight d /\
  sum_dep_weight d' = (if decide (a = p) then weight_of D s
                       else if decide (a = s) then sum_dep_weight d + match D !! p with Some dp => sum_dep_weight dp | None => 0 end
                       else sum_dep_weight d).

Lemma inserted_tree h kids (p s : Z) ks l D' : stream_inv h kids -> can_link h p s -> kids !! p = Some l -> kids !! s = Some ks ->
  relinked (deps h) D' (insert_links p s ks l) -> insert_weights p s (deps h) D' ->
  let kids' := <[p := [s]]> (<[s := ks ++ l]> kids) in
  tree_ok D' kids' /\ wts_ok D' /\
  forall q lq d, kids' !! q = Some lq -> D' !! q = Some d -> sum_dep_weight d = wsum D' lq.
Proof.
  intros HI ([sp Hsp] & Habove & ss & Hss & Hroot & Hnf) Hl Hks HL HW kids'. pose proof (si_tree _ _ _ HI) as HT.
  destruct (t_acyclic _ _ HT p) as [lp Hlp]; [apply (t_dom _ _ HT); eauto|].
  assert (s ∉ p :: lp) as Hs by (intros ?; apply Habove; by exists lp).
  assert (p <> s) as Hps by (intros ->; apply Hs; by left).
  assert (forall c, weight_of D' c = weight_of (deps h) c) as Hwo.
  { intros c. unfold weight_of. destruct (D' !! c) as [d'|] eqn:Hc.
    - destruct (HW c d' Hc) as (d & -> & -> & _). done.
    - destruct (deps h !! c) eqn:Hc2; [|done]. exfalso. destruct (relinked_fwd _ _ _ _ _ HL Hc2) as (? & ? & _). congruence. }
  split_and!.
  - apply (tree_insert (deps h) _ kids p s ks l ss lp); try done. by apply deps_lookup.
  - intros a d' Ha. destruct (HW a d' Ha) as (d & Hd & -> & _). by apply (si_weight _ _ _ HI a).
  - intros q lq d' Hq Hd'. destruct (HW q d' Hd') as (d & Hd & _ & ->). rewrite (wsum_ext (deps h)) by (intros; apply Hwo).
    unfold kids' in Hq. destruct (decide (q = p)) as [->|].
    + rewrite lookup_insert_eq in Hq. injection Hq as <-. simpl. lia.
    + rewrite lookup_insert_ne in Hq by done. destruct (decide (q = s)) as [->|].
      * rewrite lookup_insert_eq in Hq. injection Hq as <-. rewrite (deps_lookup _ _ _ Hsp), wsum_app.
        rewrite (si_sum _ _ _ HI s ks d Hks Hd), (si_sum _ _ _ HI p l _ Hl (deps_lookup _ _ _ Hsp)). lia.
      * rewrite lookup_insert_ne in Hq by done. by rewrite (si_sum _ _ _ HI q lq d Hq Hd).
Qed.

#[global] Instance is_queued_dec h c : Decision (is_queued h c).
Proof.
  unfold is_queued. destruct (h !! c) as [s|] eqn:E; [destruct (decide (queued s = 0))|].
  - right. intros (s' & ? & ?). by simplify_eq.
  - left. by exists s.
  - right. by intros (? & ? & _).
Defined.

Lemma sync_same h h' a : obq_ok h -> obq_ok h' -> (active h' a <-> active h a) -> (forall p x, qs h' p x <-> qs h p x) -> sync h a -> sync h' a.
Proof.
  intros [_ H] [_ H'] Ha Hq. unfold sync, live. rewrite H, H', Ha. by setoid_rewrite Hq.
Qed.

(** The children [l] of [p] have been adopted by [s], which is linked below [p]. *)
Lemma graft_inv h kids (p s : Z) ks l lp hD h2 : stream_inv h kids -> can_link h p s -> kids !! p = Some l -> kids !! s = Some ks ->
  same_rest h hD -> parent_of hD s p ->
  (forall x p', parent_of hD x p' -> x = s /\ p' = p \/ x ∈ l \/ parent_of h x p') ->
  (forall x, has_parent h x -> has_parent hD x) ->
  adopting p s (p :: lp) l [] hD h2 ->
  relinked (deps h) (deps h2) (insert_links p s ks l) -> insert_weights p s (deps h) (deps h2) ->
  stream_inv_but (eq s) h2 (<[p := [s]]> (<[s := ks ++ l]> kids)) /\ parent_of h2 s p /\ (is_queued h2 s -> live h2 s).
Proof.
  intros HI HC Hl Hks HR HsD HpD HpD' HA HL HW. destruct (inserted_tree h kids p s ks l (deps h2) HI HC Hl Hks HL HW) as (HT & Hw & Hsum).
  pose proof HC as (_ & _ & ss & Hss & Hroot & Hnf). pose proof (inv_kids _ _ _ _ _ HI Hl) as (_ & _ & Hkid).
  assert (forall x p', parent_of h2 x p' <-> exists s0, h !! x = Some s0 /\
    (if decide (x = s) then Some p else if decide (x ∈ l) then Some s else dep_prev s0) = Some p') as Hpar.
  { intros x p'. by rewrite (relinked_parent_of h h2 _ x p' HL). }
  assert (parent_of h2 s p) as Hsp by (apply Hpar; exists ss; by rewrite decide_True).
  assert (forall x p', qs h p' x -> x <> s) as Hns.
  { intros x p' Hx ->. apply (si_parent _ _ _ HI) in Hx as (? & ? & ?). congruence. }
  assert (forall x, x ∈ l -> x <> s) as Hsl.
  { intros x Hx ->. destruct (Hkid s Hx) as [_ (? & ? & ?)]. congruence. }
  pose proof (ad_obq _ _ _ _ _ _ _ HA) as Hok2. pose proof (ad_base _ _ _ _ _ _ _ HA) as HB.
  assert (forall c, c ∈ l -> is_queued h2 c -> qs h2 s c) as Hin2.
  { intros c Hc [p' Hp']%Hok2. destruct (ad_in _ _ _ _ _ _ _ HA p' c Hp') as [[_ ->]|[(? & _)|[Hn _]]]; [done|set_solver|set_solver]. }
  assert (forall x p', qs h2 p' x -> parent_of h2 x p') as Hinp.
  { intros x p' Hx. apply Hpar. destruct (ad_in _ _ _ _ _ _ _ HA p' x Hx) as [[Hxl ->]|[(? & _)|[Hn Hor]]]; [|set_solver|].
    - destruct (Hkid x Hxl) as [[d Hd] _]. apply deps_lookup_inv in Hd as (s0 & Hs0 & _). exists s0. split; [done|].
      rewrite decide_False by eauto. by rewrite decide_True.
    - rewrite app_nil_r in Hn. assert (x = s /\ p' = p \/ x <> s /\ parent_of h x p') as [[-> ->]|[Hne (s0 & Hs0 & E)]].
      { destruct Hor as [Hq|[_ [|[|]]%HpD]]; [|auto|done|].
        - apply (same_rest_qs h hD) in Hq; [|done]. right. split; [by eapply Hns|by apply HI].
        - destruct (decide (x = s)) as [->|]; [|auto]. destruct H as (? & ? & ?). congruence. }
      + exists ss. by rewrite decide_True.
      + exists s0. split; [done|]. by rewrite !decide_False. }
  split_and!; [|done|].
  - apply (inv_build (eq s) h h2 kids); [done|etrans; [by apply same_rest_base|done]|done|done|done|done|done| |].
    + intros x Hx Hxs. assert (has_parent h x) as Hpx.
      { apply has_parent_of in Hx as [p' (s0 & Hs0 & E)%Hpar]. rewrite decide_False in E by congruence.
        destruct (decide (x ∈ l)) as [Hxl|]; [|exists s0; split; [done|congruence]]. destruct (Hkid x Hxl) as [_ ?]. by eapply parent_has. }
      pose proof (si_sync _ _ _ HI x Hpx ltac:(tauto)) as Hs.
      destruct (decide (x = p)) as [->|Hxp].
      2:{ apply (ad_sync _ _ _ _ _ _ _ HA); [congruence|done|by apply HpD'|]. by apply (same_rest_sync h hD). }
      destruct (decide (Exists (is_queued hD) l)) as [(c & Hc & Hq)%Exists_exists|Hno].
      * pose proof Hq as Hqh. apply (same_rest_queued h hD) in Hqh; [|done]. pose proof Hqh as [p' Hp']%(si_obq _ _ _ HI).
        pose proof (si_parent _ _ _ HI _ _ Hp') as (s0 & Hs0 & E). destruct (Hkid c Hc) as [_ (s1 & ? & E')].
        assert (p' = p) as -> by congruence. split.
        -- intros _. right. exists s. assert (is_queued h2 s) as [p' Hps]%Hok2.
           { apply (ad_up _ _ _ _ _ _ _ HA); [by eapply parent_has|eauto]. }
           pose proof (Hinp _ _ Hps) as (s2 & ? & ?). destruct Hsp as (s3 & ? & ?). simplify_eq. congruence.
        -- intros _. apply (ad_queued _ _ _ _ _ _ _ HA). apply (same_rest_queued h hD); [done|]. apply Hs. right. eauto.
      * apply (sync_same hD h2); [by apply (same_rest_obq h), HI|done|by apply same_base_active| |by apply (same_rest_sync h hD)].
        apply (ad_idle _ _ _ _ _ _ _ HA). intros c Hc Hq. apply Hno, Exists_exists. eauto.
    + intros a s0 Hs0 [p' (s1 & Hs1 & E)%Hpar]%has_parent_of. simplify_eq.
      destruct (decide (a = s)) as [->|]; [congruence|]. apply (si_flags _ _ _ HI a); [done|].
      destruct (decide (a ∈ l)) as [Hal|]; [|congruence]. destruct (Hkid a Hal) as [_ (? & ? & ?)]. congruence.
  - intros Hq. destruct (ad_moved _ _ _ _ _ _ _ HA Hq) as (c & Hc & Hqc). right. exists c. apply Hin2; [done|].
    by apply (ad_queued _ _ _ _ _ _ _ HA).
Qed.
