(* ===== verification/StreamInsert.v ===== *)
(** * Streams: exclusive insertion

    [nghttp2_stream_dep_insert] and [nghttp2_stream_dep_insert_subtree] put a
    stream between [p] and the children of [p], which become its children. *)

From S2P Require Import Prelude Defs Pq Frame Http Stream StreamLinks StreamQueue StreamTree.

Implicit Types (ss sp ds : nghttp2_stream) (h : gmap Z nghttp2_stream) (w : world)
  (D : gmap Z stream_dep) (kids : gmap Z (list Z)).

(** ** Links *)

Lemma last_sib_loop_ok l : forall fuel c w (Q : Z -> world -> Prop), (length l < fuel)%nat ->
  sib_walk (deps (streams w)) (c :: l) -> (forall k, last (c :: l) = Some k -> Q k w) -> wp (last_sib_loop fuel c) w Q.
Proof.
  induction l as [|c' l IH]; intros fuel c w Q Hf Hw HQ; (destruct fuel as [|fuel]; [simpl in Hf; lia|]); cbn [last_sib_loop];
    destruct (Hw [] c _ eq_refl) as (d & Hd & E); wp_step; (apply (wp_load_dep c d); [done|]); intros s Hs Es; rewrite Es, E; simpl.
  - apply wp_ret. by apply HQ.
  - apply IH; [simpl in Hf; lia| |].
    + intros t x r Et. apply (Hw (c :: t)). by rewrite Et.
    + intros k Hk. apply HQ. by rewrite last_cons_cons.
Qed.

Lemma wp_last_sib c l w (Q : Z -> world -> Prop) : NoDup (c :: l) -> sib_walk (deps (streams w)) (c :: l) ->
  (forall k, last (c :: l) = Some k -> Q k w) -> wp (stream_last_sib c) w Q.
Proof.
  intros Hnd Hw HQ. unfold stream_last_sib. do 2 wp_step. apply (last_sib_loop_ok l); [|done|done].
  assert (length (c :: l) <= size (streams w))%nat; [|simpl in *; lia]. apply NoDup_size; [done|]. intros x Hx.
  apply list_elem_of_split in Hx as (t & r & E). destruct (Hw t x r E) as (d & Hd & _). apply deps_dom. eauto.
Qed.

(** The links behind the step that joins [l] to the children [ks] of [s],
    before the parent pointers of [l] are set. *)
Definition grafted (p s : Z) (ks l : list Z) D D' : Prop := forall a,
  match D !! a, D' !! a with
  | Some d, Some d' =>
      dep_next d' = rl_next (insert_links p s ks l) a d /\ sib_prev d' = rl_sprev (insert_links p s ks l) a d /\
      sib_next d' = rl_snext (insert_links p s ks l) a d /\
      if decide (a ∈ l) then dep_prev d' <> None else dep_prev d' = rl_prev (insert_links p s ks l) a d
  | None, None => True
  | _, _ => False
  end.

Lemma grafted_fwd (p s : Z) ks l D D' a d : grafted p s ks l D D' -> D !! a = Some d -> exists d', D' !! a = Some d' /\
  dep_next d' = rl_next (insert_links p s ks l) a d /\ sib_prev d' = rl_sprev (insert_links p s ks l) a d /\
  sib_next d' = rl_snext (insert_links p s ks l) a d /\
  (if decide (a ∈ l) then dep_prev d' <> None else dep_prev d' = rl_prev (insert_links p s ks l) a d).
Proof. intros H Ha. specialize (H a). rewrite Ha in H. destruct (D' !! a) as [d'|]; [|done]. eauto. Qed.

Lemma grafted_bwd (p s : Z) ks l D D' a d' : grafted p s ks l D D' -> D' !! a = Some d' -> exists d, D !! a = Some d /\
  (if decide (a ∈ l) then dep_prev d' <> None else dep_prev d' = rl_prev (insert_links p s ks l) a d).
Proof. intros H Ha. specialize (H a). rewrite Ha in H. destruct (D !! a) as [d|]; [|done]. exists d. tauto. Qed.

Lemma grafted_relinked (p s : Z) ks l D D1 D' : s ∉ l -> grafted p s ks l D D1 -> reparented l (Some s) D1 D' ->
  relinked D D' (insert_links p s ks l).
Proof.
  intros Hs HG HR a. rewrite (HR a). specialize (HG a). destruct (D !! a) as [d|], (D1 !! a) as [d1|]; try done.
  destruct HG as (E1 & E2 & E3 & E4). simpl in *. f_equal. unfold links.
  destruct (decide (a ∈ l)) as [Ha|Ha]; simpl; rewrite E1, E2, E3.
  - assert (a <> s) by (by intros ->). by rewrite !(decide_False (P := a = s)).
  - by rewrite E4.
Qed.

(** The state between the change of the links and the adoption. *)
Lemma grafted_adoptable h hD kids (p s : Z) ks l lp : stream_inv h kids -> can_link h p s -> kids !! p = Some l -> kids !! s = Some ks ->
  same_rest h hD -> wts_ok (deps hD) -> chain h p lp -> grafted p s ks l (deps h) (deps hD) -> adoptable p s (p :: lp) l hD.
Proof.
  intros HI (_ & Habove & ss & Hss & Hroot & _) Hl Hks HR Hw Hlp HG. pose proof (si_tree _ _ _ HI) as HT.
  destruct (inv_kids _ _ _ _ _ HI Hl) as (Hnd & Hpl & Hkid). destruct (inv_kids _ _ _ _ _ HI Hks) as (_ & _ & Hkid').
  assert (s ∉ p :: lp) as Hslp by (intros ?; apply Habove; by exists lp).
  assert (s ∉ l) as Hsl by (by apply (tree_root_kid _ _ _ _ _ _ HT Hl (deps_lookup _ _ _ Hss))).
  assert (forall c, c ∈ l -> c ∉ p :: lp) as Hup.
  { intros c Hc. destruct (Hkid c Hc) as [_ (cs & Hcs & E)]. by apply (dchain_child _ _ _ c cs Hlp); [apply deps_lookup|]. }
  assert (forall x, x ∈ p :: lp -> parent (deps hD) x = parent (deps h) x /\ is_Some (deps hD !! x)) as Hst.
  { intros x Hx. destruct (dchain_dom _ _ _ _ Hlp Hx) as [dx Hdx]. destruct (grafted_fwd _ _ _ _ _ _ _ _ HG Hdx) as (d' & Hd' & _ & _ & _ & E).
    unfold parent. rewrite Hdx, Hd'. split; [|eauto]. rewrite decide_False in E by (by intros ?%Hup). rewrite E. simpl.
    rewrite decide_False by (intros ->; done). by rewrite decide_False by (by intros ?%Hup). }
  split; [by apply (same_rest_obq h), HI|by apply weights_ok_deps| |done|done| | | |].
  - destruct (grafted_fwd _ _ _ _ _ _ _ _ HG (deps_lookup _ _ _ Hss)) as (d' & Hd' & _ & _ & _ & E).
    rewrite decide_False in E by done. simpl in E. rewrite decide_True in E by done. apply (dchain_up _ s d'); [done|done|].
    apply (dchain_stable (deps h)); [done|]. intros x Hx. destruct (Hst x Hx). done.
  - intros c Hc [->|Hc']%elem_of_cons; [done|]. by apply (Hup c).
  - intros t c r E. destruct (proj2 (t_dom _ _ HT p) ltac:(eauto)) as [dp Hdp]. destruct (t_list _ _ HT p l dp Hl Hdp) as (_ & _ & Hdll).
    destruct (dllseg_walk _ _ _ _ Hdll t c r E) as (d & Hd & Ed). destruct (grafted_fwd _ _ _ _ _ _ _ _ HG Hd) as (d' & Hd' & _ & _ & En & _).
    exists d'. split; [done|]. rewrite En. simpl. rewrite decide_False; [done|]. intros Hlast%last_elem.
    destruct (Hkid' c Hlast) as [_ (s1 & ? & E1)]. destruct (Hkid c ltac:(set_solver)) as [_ (s2 & ? & E2)].
    assert (p = s) as -> by congruence. apply Hslp. by left.
  - intros p' c Hc Hq%(same_rest_qs h hD); [|done]. pose proof (si_parent _ _ _ HI _ _ Hq) as (s1 & ? & E1).
    destruct (Hkid c Hc) as [_ (s2 & ? & E2)]. congruence.
  - intros Hq%(same_rest_queued h hD); [|done]. by apply (inv_root_queued _ _ _ _ _ HI Hss Hroot).
Qed.

(** The adoption and the entry of [s] in the queue of [p]. *)
Lemma grafted_inv h hD h2 kids (p s : Z) ks l lp : stream_inv h kids -> can_link h p s -> kids !! p = Some l -> kids !! s = Some ks ->
  same_rest h hD -> chain h p lp -> grafted p s ks l (deps h) (deps hD) -> insert_weights p s (deps h) (deps hD) ->
  adopting p s (p :: lp) l [] hD h2 ->
  stream_inv_but (eq s) h2 (<[p := [s]]> (<[s := ks ++ l]> kids)) /\ parent_of h2 s p /\ (is_queued h2 s -> live h2 s).
Proof.
  intros HI HC Hl Hks HR Hlp HG HW HA. pose proof HC as (_ & Habove & ss & Hss & Hroot & _). pose proof (si_tree _ _ _ HI) as HT.
  assert (s ∉ l) as Hsl by (by apply (tree_root_kid _ _ _ _ _ _ HT Hl (deps_lookup _ _ _ Hss))).
  destruct (inv_kids _ _ _ _ _ HI Hl) as (Hnd & Hpl & Hkid).
  apply (graft_inv h kids p s ks l lp hD); try done.
  - destruct (grafted_fwd _ _ _ _ _ _ _ _ HG (deps_lookup _ _ _ Hss)) as (d' & Hd' & _ & _ & _ & E).
    rewrite decide_False in E by done. simpl in E. rewrite decide_True in E by done.
    apply deps_lookup_inv in Hd' as (s' & ? & <-). by exists s'.
  - intros x p' (s' & Hs' & E'). destruct (grafted_bwd _ _ _ _ _ _ _ _ HG (deps_lookup _ _ _ Hs')) as (d & Hd & E).
    destruct (decide (x ∈ l)) as [|Hxl]; [auto|]. simpl in E. destruct (decide (x = s)); [left; split; [done|congruence]|].
    rewrite decide_False in E by done. right; right. apply deps_lookup_inv in Hd as (s0 & ? & <-). exists s0. split; [done|congruence].
  - intros x (s0 & Hs0 & Hp0). destruct (grafted_fwd _ _ _ _ _ _ _ _ HG (deps_lookup _ _ _ Hs0)) as (d' & Hd' & _ & _ & _ & E).
    apply deps_lookup_inv in Hd' as (s' & Hs' & <-). exists s'. split; [done|]. destruct (decide (x ∈ l)); [done|].
    simpl in E. rewrite E. destruct (decide (x = s)); [done|]. by rewrite decide_False.
  - by apply (grafted_relinked p s ks l (deps h) (deps hD)), HA.
  - intros a d' Ha. rewrite (ad_deps _ _ _ _ _ _ _ HA) in Ha. destruct (deps hD !! a) as [d1|] eqn:Hd1; [|done].
    injection Ha as <-. destruct (HW a d1 Hd1) as (d & Hd & E1 & E2). exists d. by destruct (decide (a ∈ l)).
Qed.

(** ** [nghttp2_stream_dep_insert_subtree] *)

Lemma disjoint_kids h kids (p s : Z) ks l c : stream_inv h kids -> p <> s -> kids !! p = Some l -> kids !! s = Some ks -> c ∈ ks -> c ∉ l.
Proof. intros HI Hps Hl Hks Hc Hc'. apply Hps. symmetry. by apply (tree_unique _ _ p s l ks c (si_tree _ _ _ HI)). Qed.

(** Setting the sums of weights. *)
Lemma wp_insert_sums (p s : Z) n m w (Q : unit -> world -> Prop) : is_Some (streams w !! p) -> is_Some (streams w !! s) ->
  (forall h, same_rest (streams w) h ->
     deps h = alter (sum_dep_weight_to m) p (alter (sum_dep_weight_to n) s (deps (streams w))) -> Q tt (mk_world h (pushes w))) ->
  wp (modify s (upd_dep (sum_dep_weight_to n));; modify p (upd_dep (sum_dep_weight_to m))) w Q.
Proof.
  intros Hp Hs HQ. wp_step. apply wp_modify_dep; [done|]. intros h1 R1 D1. apply wp_modify_dep; simpl; [by apply (same_rest_dom _ _ _ R1)|].
  intros h2 R2 D2. apply HQ; [by etrans|]. by rewrite D2, D1.
Qed.

Lemma walk_last D ks k d : sib_walk D ks -> last ks = Some k -> D !! k = Some d -> sib_next d = None.
Proof.
  intros Hw [t ->]%last_Some Hd. destruct (Hw t k [] eq_refl) as (d' & ? & ?). simpl in *. congruence.
Qed.

(** What joining two lists of children relies on. *)
Record joinable (p s : Z) (ks l : list Z) D : Prop := {
  jn_p : is_Some (D !! p);
  jn_s : exists d, D !! s = Some d /\ dep_next d = head ks;
  jn_walk : sib_walk D ks;
  jn_nodup : NoDup ks;
  jn_ps : p <> s;
  jn_pl : p ∉ l;
  jn_sl : s ∉ l;
  jn_pk : p ∉ ks;
  jn_sk : s ∉ ks;
  jn_dis : forall c, c ∈ ks -> c ∉ l;
  jn_head : forall c d, Some c = head l -> D !! c = Some d -> sib_prev d = None;
  jn_par : forall c, c ∈ l -> exists d, D !! c = Some d /\ dep_prev d <> None;
}.

(** Compares links at an address. *)
Ltac graft_at D a :=
  simpl; links_at a; repeat match goal with H : D !! _ = Some _ |- _ => rewrite !H end; simpl;
  try destruct (D !! a) eqn:?; simpl; try done; split_and!; simpl; simplify_eq; repeat case_decide; simplify_eq; try done; try congruence.

Lemma grafted_nil (p s : Z) ks D : joinable p s ks [] D -> grafted p s ks [] D (link_depD p (Some s) D).
Proof.
  intros HJ a. destruct (jn_p _ _ _ _ _ HJ) as [dp Hp]. destruct (jn_s _ _ _ _ _ HJ) as (ds & Hs & Hn).
  pose proof (jn_ps _ _ _ _ _ HJ). pose proof (walk_last D ks) as Hlast. pose proof (jn_walk _ _ _ _ _ HJ).
  assert (forall d, Some a = last ks -> D !! a = Some d -> sib_next d = None) as Hl by (intros d E Hd; by apply (Hlast a)).
  graft_at D a; [by rewrite app_nil_r|by apply Hl..].
Qed.

Lemma grafted_childless (p s f : Z) l D : joinable p s [] (f :: l) D ->
  grafted p s [] (f :: l) D (link_depD s (Some f) (link_depD p (Some s) D)).
Proof.
  intros HJ a. destruct (jn_p _ _ _ _ _ HJ) as [dp Hp]. destruct (jn_s _ _ _ _ _ HJ) as (ds & Hs & Hn).
  destruct (jn_par _ _ _ _ _ HJ f ltac:(by left)) as (df & Hf & _). pose proof (jn_ps _ _ _ _ _ HJ).
  pose proof (jn_pl _ _ _ _ _ HJ) as [??]%not_elem_of_cons. pose proof (jn_sl _ _ _ _ _ HJ) as [??]%not_elem_of_cons.
  pose proof (jn_par _ _ _ _ _ HJ a) as Hpar.
  graft_at D a; [by apply (jn_head _ _ _ _ _ HJ a)|set_solver|set_solver|naive_solver].
Qed.

Lemma grafted_append (p s f k : Z) ks l D : joinable p s (ks ++ [k]) (f :: l) D ->
  grafted p s (ks ++ [k]) (f :: l) D (link_sibD k (Some f) (link_depD p (Some s) D)).
Proof.
  intros HJ a. destruct (jn_p _ _ _ _ _ HJ) as [dp Hp]. destruct (jn_s _ _ _ _ _ HJ) as (ds & Hs & Hn).
  destruct (jn_par _ _ _ _ _ HJ f ltac:(by left)) as (df & Hf & _). pose proof (jn_ps _ _ _ _ _ HJ).
  destruct (jn_walk _ _ _ _ _ HJ ks k [] eq_refl) as (dk & Hk & _).
  pose proof (jn_pl _ _ _ _ _ HJ) as [??]%not_elem_of_cons. pose proof (jn_sl _ _ _ _ _ HJ) as [??]%not_elem_of_cons.
  assert (p <> k /\ s <> k /\ f <> k) as (? & ? & ?).
  { pose proof (jn_pk _ _ _ _ _ HJ). pose proof (jn_sk _ _ _ _ _ HJ). pose proof (jn_dis _ _ _ _ _ HJ k). set_solver. }
  pose proof (jn_par _ _ _ _ _ HJ a) as Hpar. pose proof (last_snoc k ks) as Elast.
  assert (head ((ks ++ [k]) ++ f :: l) = head (ks ++ [k])) as Ehead by (by destruct ks).
  graft_at D a; naive_solver.
Qed.

Lemma joinable_inv h kids (p s : Z) ks l D : stream_inv h kids -> can_link h p s -> kids !! p = Some l -> kids !! s = Some ks ->
  same_links (deps h) D -> joinable p s ks l D.
Proof.
  intros HI ([sp Hsp] & Habove & ss & Hss & Hroot & _) Hl Hks HL. pose proof (si_tree _ _ _ HI) as HT.
  destruct (inv_kids _ _ _ _ _ HI Hl) as (Hnd & Hpl & Hkid). destruct (inv_kids _ _ _ _ _ HI Hks) as (Hnk & Hsk & Hkid').
  destruct (t_acyclic _ _ HT p ltac:(apply deps_dom; eauto)) as [lp Hlp].
  assert (s ∉ p :: lp) as Hslp by (intros ?; apply Habove; by exists lp).
  assert (p <> s) as Hps by (intros ->; apply Hslp; by left).
  assert (forall a d, deps h !! a = Some d -> exists d', D !! a = Some d' /\ links d' = links d) as Hfwd.
  { intros a d Ha. specialize (HL a). rewrite Ha in HL. destruct (D !! a) as [d'|]; [|done]. exists d'. split; [done|]. simpl in HL. congruence. }
  assert (forall a d', D !! a = Some d' -> exists d, deps h !! a = Some d /\ links d' = links d) as Hbwd.
  { intros a d Ha. specialize (HL a). rewrite Ha in HL. destruct (deps h !! a) as [d'|]; [|done]. exists d'. split; [done|]. simpl in HL. congruence. }
  destruct (t_list _ _ HT s ks _ Hks (deps_lookup _ _ _ Hss)) as (Hnext & _ & Hdlk).
  destruct (t_list _ _ HT p l _ Hl (deps_lookup _ _ _ Hsp)) as (_ & _ & Hdll). split; try done.
  - destruct (Hfwd p _ (deps_lookup _ _ _ Hsp)) as (d & -> & _). eauto.
  - destruct (Hfwd s _ (deps_lookup _ _ _ Hss)) as (d & -> & E). unfold links in E. exists d. split; [done|congruence].
  - intros t c r E. destruct (dllseg_walk _ _ _ _ Hdlk t c r E) as (d & Hd & Ed). destruct (Hfwd c d Hd) as (d' & Hd' & E').
    unfold links in E'. exists d'. split; [done|congruence].
  - by apply (tree_root_kid _ _ _ _ _ _ HT Hl (deps_lookup _ _ _ Hss)).
  - intros Hp. destruct (Hkid' p Hp) as [_ (s' & Hs' & E)]. destruct lp as [|q lp].
    + apply chain_nil in Hlp as (? & ? & ?). congruence.
    + pose proof (chain_cons _ _ _ _ Hlp) as (? & ? & E' & _). apply Hslp. assert (q = s) as -> by congruence. right. by left.
  - intros c Hc. by apply (disjoint_kids h kids p s ks).
  - intros c d Hc Hd. destruct (Hbwd c d Hd) as (d0 & Hd0 & E). unfold links in E.
    rewrite <- (dllseg_head _ _ _ _ _ _ _ Hdll Hc Hd0). congruence.
  - intros c Hc. destruct (tree_kid _ _ _ _ _ HT Hl Hc) as (d0 & Hd0 & Ep). destruct (Hfwd c d0 Hd0) as (d & Hd & E).
    unfold links in E. exists d. split; [done|congruence].
Qed.

Lemma grafted_pre (p s : Z) ks l D D1 D' : same_links D D1 -> grafted p s ks l D1 D' -> grafted p s ks l D D'.
Proof.
  intros HL HG a. specialize (HG a). specialize (HL a). destruct (D1 !! a) as [d1|], (D !! a) as [d|]; try done.
  destruct (D' !! a) as [d'|]; [|done]. simpl in *. injection HL as E1 E2 E3 E4. by rewrite <- E1, <- E2, <- E3, <- E4.
Qed.

(** The part of [nghttp2_stream_dep_insert_subtree] that joins the lists. *)
Lemma wp_graft_links {A} (p s f : Z) ks l w (K : st_m A) (Q : A -> world -> Prop) : joinable p s ks (f :: l) (deps (streams w)) ->
  (forall h, same_rest (streams w) h -> grafted p s ks (f :: l) (deps (streams w)) (deps h) ->
     same_weights (deps (streams w)) (deps h) -> wp K (mk_world h (pushes w)) Q) ->
  wp (link_dep p (Some s);;
      let* s' := load s in
      (match dep_next s' with
       | Some child => let* last := stream_last_sib child in link_sib last (Some f)
       | None => link_dep s (Some f)
       end);; K) w Q.
Proof.
  destruct w as [h n]. simpl. intros HJ HK. destruct (jn_s _ _ _ _ _ HJ) as (ds & Hds & Hn). pose proof (jn_p _ _ _ _ _ HJ) as Hp%deps_dom.
  destruct (jn_par _ _ _ _ _ HJ f ltac:(by left)) as (df & Hdf & _). pose proof (jn_ps _ _ _ _ _ HJ).
  assert (is_Some (h !! s)) as Hs by (apply deps_dom; eauto). assert (is_Some (h !! f)) as Hf by (apply deps_dom; eauto).
  wp_step. apply wp_link_dep; [done|by intros ? [= <-]|]. simpl. intros h1 R1 D1.
  assert (deps h1 !! s = Some (dep_prev_to (Some p) ds)) as Hds1.
  { rewrite D1, lookup_alter_eq, lookup_alter_ne, Hds by done. done. }
  wp_step. apply (wp_load_dep s (dep_prev_to (Some p) ds)); [done|]. intros s1 _ E1. rewrite E1. simpl. rewrite Hn.
  destruct ks as [|c ks]; simpl.
  - wp_step. apply wp_link_dep; simpl; [by apply (same_rest_dom h h1)|intros ? [= <-]; by apply (same_rest_dom h h1)|].
    intros h2 R2 D2. apply HK; [by etrans| |]; rewrite D2, D1; [by apply grafted_childless|]. links_eq (deps h).
  - do 2 wp_step. apply (wp_last_sib c ks); [apply HJ| |].
    { simpl. intros t x r E. destruct (jn_walk _ _ _ _ _ HJ t x r E) as (d & Hd & Ed). rewrite D1.
      rewrite !lookup_alter. repeat destruct (decide _); subst; rewrite Hd; simpl; eexists; (split; [done|]); by destruct d. }
    intros k Hk. pose proof Hk as [ks' Eks]%last_Some. rewrite Eks in *.
    apply wp_link_sib; simpl; [|intros ? [= <-]; by apply (same_rest_dom h h1)|].
    { apply (same_rest_dom h h1); [done|]. destruct (jn_walk _ _ _ _ _ HJ ks' k [] eq_refl) as (d & ? & _). apply deps_dom. eauto. }
    intros h2 R2 D2. apply HK; [by etrans| |]; rewrite D2, D1; [by apply grafted_append|].
    intros a. simpl. rewrite !lookup_alter. repeat destruct (decide _); subst; destruct (deps h !! a); done.
Qed.

(** The sums that the two insertions write. *)
Lemma insert_sums_weights h kids (p s : Z) sp ss ks l D' : stream_inv h kids -> p <> s -> h !! p = Some sp -> h !! s = Some ss ->
  kids !! p = Some l -> kids !! s = Some ks ->
  same_weights (alter (sum_dep_weight_to (weight ss)) p (alter (sum_dep_weight_to (sum_dep_weight ss + sum_dep_weight sp)) s (deps h))) D' ->
  insert_weights p s (deps h) D'.
Proof.
  intros HI Hps Hp Hs Hl Hks HW a d' Ha. destruct (same_weights_sum _ _ _ _ HW Ha) as (d1 & Hd1 & -> & ->).
  rewrite !lookup_alter in Hd1. pose proof (deps_lookup _ _ _ Hp) as Hdp. pose proof (deps_lookup _ _ _ Hs) as Hds.
  unfold weight_of. rewrite Hdp, Hds.
  destruct (decide (p = a)) as [<-|]; [|destruct (decide (s = a)) as [<-|]].
  - rewrite decide_False, Hdp in Hd1 by done. simpl in Hd1. injection Hd1 as <-. exists (st_dep sp). by rewrite decide_True.
  - rewrite Hds in Hd1. simpl in Hd1. injection Hd1 as <-. exists (st_dep ss). rewrite decide_False, decide_True by done. done.
  - exists d1. by rewrite !decide_False by done.
Qed.

Lemma wts_ok_alter D a f : (forall d, weight (f d) = weight d) -> wts_ok D -> wts_ok (alter f a D).
Proof.
  intros Hf Hw b d. rewrite lookup_alter. destruct (decide (a = b)) as [<-|]; [|by apply Hw].
  destruct (D !! a) as [d0|] eqn:E; [|done]. intros [= <-]. rewrite Hf. by apply (Hw a).
Qed.

Lemma insert_sums_links (p s : Z) n m D : same_links D (alter (sum_dep_weight_to m) p (alter (sum_dep_weight_to n) s D)).
Proof.
  intros a. apply (transitivity (y := links <$> alter (sum_dep_weight_to n) s D !! a)); by apply same_links_alter.
Qed.

(** The sum of both lists of children fits. *)
Lemma insert_sum_fits h kids (p s : Z) sp ss ks l : stream_inv h kids -> can_link h p s -> h !! p = Some sp -> h !! s = Some ss ->
  kids !! p = Some l -> kids !! s = Some ks -> is_i32 (sum_dep_weight ss + sum_dep_weight sp).
Proof.
  intros HI HC Hp Hs Hl Hks. pose proof (joinable_inv h kids p s ks l (deps h) HI HC Hl Hks ltac:(done)) as HJ.
  rewrite (si_sum _ _ _ HI s ks _ Hks (deps_lookup _ _ _ Hs)), (si_sum _ _ _ HI p l _ Hl (deps_lookup _ _ _ Hp)), <- wsum_app.
  destruct (inv_kids _ _ _ _ _ HI Hl) as (Hnd & _ & Hkid). destruct (inv_kids _ _ _ _ _ HI Hks) as (Hnk & _ & Hkid').
  assert (0 <= wsum (deps h) (ks ++ l) <= 2 ^ 31 - 1); [|unfold is_i32; lia].
  apply (inv_sum_bound (fun _ => False) h kids); [done| |].
  - apply NoDup_app. split_and!; [done|by apply (jn_dis _ _ _ _ _ HJ)|done].
  - intros c [Hc|Hc]%elem_of_app; [by apply Hkid'|by apply Hkid].
Qed.

Lemma wp_dep_insert_subtree ok p (s : Z) w kids l ks : stream_inv (streams w) kids -> can_link (streams w) p s ->
  kids !! p = Some l -> kids !! s = Some ks ->
  wp (nghttp2_stream_dep_insert_subtree ok p s) w (outcome ok (fun h => stream_inv h (<[p := [s]]> (<[s := ks ++ l]> kids)))).
Proof.
  destruct w as [h n]. simpl. intros HI HC Hl Hks. pose proof HC as ([sp Hsp] & Habove & ss & Hss & Hroot & _).
  pose proof (si_tree _ _ _ HI) as HT. destruct (t_acyclic _ _ HT p ltac:(apply deps_dom; eauto)) as [lp Hlp].
  assert (p <> s) as Hps by (intros ->; apply Habove; exists lp; split; [done|by left]).
  destruct (t_list _ _ HT p l _ Hl (deps_lookup _ _ _ Hsp)) as (Hnext & _ & _).
  unfold nghttp2_stream_dep_insert_subtree. do 4 wp_step. wp_step. apply wp_int32; [by apply (insert_sum_fits h kids p s sp ss ks l)|].
  wp_step. apply wp_modify_dep; [eauto|]. intros h0 R0 D0. wp_step. apply wp_modify_dep; simpl; [apply (same_rest_dom h h0); eauto|].
  intros h1 R1 D1. simpl in R0, D0. rewrite D0 in D1. assert (same_rest h h1) as R01 by (by etrans). clear R0 R1 D0 h0.
  pose proof (insert_sums_links p s (sum_dep_weight ss + sum_dep_weight sp) (weight ss) (deps h)) as HL1. rewrite <- D1 in HL1.
  pose proof (joinable_inv h kids p s ks l _ HI HC Hl Hks HL1) as HJ.
  assert (forall hD h2 m, same_rest h hD -> grafted p s ks l (deps h1) (deps hD) -> same_weights (deps h1) (deps hD) ->
    adopting p s (p :: lp) l [] hD h2 ->
    wp (push_if_active ok p s) (mk_world h2 m) (outcome ok (fun h => stream_inv h (<[p := [s]]> (<[s := ks ++ l]> kids))))) as Hfin.
  { intros hD h2 m HR HG HW HA. rewrite D1 in HW.
    destruct (grafted_inv h hD h2 kids p s ks l lp HI HC Hl Hks HR Hlp) as (G1 & G2 & G3); try done.
    - by apply (grafted_pre p s ks l _ (deps h1)).
    - by apply (insert_sums_weights h kids p s sp ss ks l).
    - by apply wp_push_if_active. }
  assert (forall hD, same_rest h hD -> grafted p s ks l (deps h1) (deps hD) -> same_weights (deps h1) (deps hD) ->
    adoptable p s (p :: lp) l hD) as Hao.
  { intros hD HR HG HW. apply (grafted_adoptable h hD kids p s ks l lp); try done; [|by apply (grafted_pre p s ks l _ (deps h1))].
    apply (same_weights_wts (deps h1)); [done|]. rewrite D1.
    do 2 (apply wts_ok_alter; [done|]). apply HI. }
  wp_step. rewrite Hnext. destruct l as [|f l]; cbn [head].
  - wp_step. apply wp_link_dep; simpl; [apply (same_rest_dom h h1); eauto|intros ? [= <-]; apply (same_rest_dom h h1); eauto|].
    intros hD R2 D2. wp_step. cbn [Z.eqb negb].
    assert (grafted p s ks [] (deps h1) (deps hD)) as HG by (rewrite D2; by apply grafted_nil).
    assert (same_weights (deps h1) (deps hD)) as HW by (rewrite D2; links_eq (deps h1)).
    assert (same_rest h hD) as RD by (by etrans). apply (Hfin hD hD); [done|done|done|]. apply adopting_start. by apply Hao.
  - apply (wp_graft_links p s f ks l); [done|]. simpl. intros hD R2 HG HW. assert (same_rest h hD) as RD by (by etrans).
    change (Some f) with (head (f :: l)). apply (wp_adopt ok p s (p :: lp) (f :: l)); simpl; [by apply Hao|done| | |].
    + apply (same_rest_dom h hD); eauto.
    + intros w' Hr. apply wp_ret. by left.
    + intros [h2 m2] HA. simpl. by apply (Hfin hD).
Qed.

(** ** [nghttp2_stream_dep_insert] *)

(** A stream that has never been in a tree and has nothing to send. *)
Definition fresh h kids (s : Z) : Prop := kids !! s = Some [] /\ ~ live h s.

(** The store [h'] before the links of [s] are set: the children [l] of [p]
    are adopted and [s] is queued when one of them is. *)
Record inserting h (p s : Z) (l : list Z) h1 h' : Prop := {
  in_obq : obq_ok h';
  in_base : same_base h h';
  in_deps : reparented l (Some s) (deps h1) (deps h');
  in_qs : forall p' x, qs h' p' x -> x ∈ l /\ p' = s \/ x = s /\ p' = p \/ x ∉ l /\ x <> s /\ parent_of h x p';
  in_sync : forall x, has_parent h x -> x <> s -> sync h' x;
  in_sync_new : sync h' s;
}.

Lemma insert_adoptable h h1 kids (p s : Z) l : stream_inv h kids -> can_link h p s -> kids !! p = Some l -> same_rest h h1 ->
  same_links (deps h) (deps h1) -> wts_ok (deps h1) -> adoptable p s [] l h1.
Proof.
  intros HI HC Hl HR HL Hw. pose proof HC as ([sp Hsp] & _ & ss & Hss & Hroot & _). pose proof (si_tree _ _ _ HI) as HT.
  assert (s ∉ l) as Hsl by (by apply (tree_root_kid _ _ _ _ _ _ HT Hl (deps_lookup _ _ _ Hss))).
  destruct (inv_kids _ _ _ _ _ HI Hl) as (Hnd & Hpl & Hkid).
  assert (forall a d, deps h !! a = Some d -> exists d', deps h1 !! a = Some d' /\ links d' = links d) as Hfwd.
  { intros a d Ha. specialize (HL a). rewrite Ha in HL. destruct (deps h1 !! a) as [d'|]; [|done]. exists d'. split; [done|]. simpl in HL. congruence. }
  split; [by apply (same_rest_obq h), HI|by apply weights_ok_deps| |done|done| | | |].
  - destruct (Hfwd s _ (deps_lookup _ _ _ Hss)) as (d & Hd & E). unfold links in E. apply (dchain_root _ s d); [done|congruence].
  - intros c Hc ->%list_elem_of_singleton. done.
  - destruct (t_list _ _ HT p l _ Hl (deps_lookup _ _ _ Hsp)) as (_ & _ & Hdll). intros t c r E.
    destruct (dllseg_walk _ _ _ _ Hdll t c r E) as (d & Hd & Ed). destruct (Hfwd c d Hd) as (d' & Hd' & E'). unfold links in E'.
    exists d'. split; [done|congruence].
  - intros p' c Hc Hq%(same_rest_qs h h1); [|done]. pose proof (si_parent _ _ _ HI _ _ Hq) as (s1 & ? & E1).
    destruct (Hkid c Hc) as [_ (s2 & ? & E2)]. congruence.
  - intros Hq%(same_rest_queued h h1); [|done]. by apply (inv_root_queued _ _ _ _ _ HI Hss Hroot).
Qed.

(** Where the entries are after the adoption. *)
Lemma adopted_qs h h1 h2 kids (p s : Z) l p' x : stream_inv h kids -> can_link h p s -> same_rest h h1 -> same_links (deps h) (deps h1) ->
  adopting p s [] l [] h1 h2 -> qs h2 p' x -> x ∈ l /\ p' = s \/ x ∉ l /\ x <> s /\ parent_of h x p'.
Proof.
  intros HI (_ & _ & ss & Hss & Hroot & _) HR HL HA Hx.
  destruct (ad_in _ _ _ _ _ _ _ HA p' x Hx) as [?|[(? & _)|[Hn Hor]]]; [by left|set_solver|]. right. rewrite app_nil_r in Hn.
  destruct Hor as [Hq%(same_rest_qs h h1)%(si_parent _ _ _ HI)|[->%list_elem_of_singleton (s1 & Hs1 & E)]]; [|done|].
  - split_and!; [done| |done]. intros ->. destruct Hq as (? & ? & ?). congruence.
  - specialize (HL s). rewrite (deps_lookup _ _ _ Hs1), (deps_lookup _ _ _ Hss) in HL. simpl in HL. unfold links in HL. congruence.
Qed.

Lemma links_parent h h1 x p : same_links (deps h) (deps h1) -> parent_of h1 x p <-> parent_of h x p.
Proof.
  intros HL. specialize (HL x). unfold parent_of. unfold deps in HL. rewrite !lookup_fmap in HL.
  destruct (h1 !! x) as [s1|], (h !! x) as [s0|]; simpl in HL; unfold links in HL; try done.
  split; intros (? & [= <-] & E); eexists; (split; [done|congruence]).
Qed.

Lemma links_has_parent h h1 x : same_links (deps h) (deps h1) -> has_parent h1 x <-> has_parent h x.
Proof. intros HL. rewrite !has_parent_of. by setoid_rewrite (links_parent h h1). Qed.

Lemma same_links_trans D1 D2 D3 : same_links D1 D2 -> same_links D2 D3 -> same_links D1 D3.
Proof. intros H1 H2 a. by rewrite H2, H1. Qed.

Lemma links_chain D D' a l : same_links D D' -> dchain D a l -> dchain D' a l.
Proof.
  intros HL H. apply (dchain_stable D); [done|]. intros x Hx. destruct (dchain_dom _ _ _ _ H Hx) as [dx Hdx].
  pose proof (HL x) as E. rewrite Hdx in E. unfold parent. rewrite Hdx. destruct (D' !! x) as [d'|]; [|done].
  simpl in E. unfold links in E. split; [eauto|congruence].
Qed.

(** Nothing to queue. *)
Lemma inserting_idle h h1 h2 kids (p s : Z) l : stream_inv h kids -> can_link h p s -> kids !! p = Some l -> same_rest h h1 ->
  same_links (deps h) (deps h1) -> adopting p s [] l [] h1 h2 -> ~ live h2 s -> inserting h p s l h1 h2.
Proof.
  intros HI HC Hl HR HL HA Hdead. pose proof (ad_obq _ _ _ _ _ _ _ HA) as Hok.
  pose proof (fun p' x => adopted_qs h h1 h2 kids p s l p' x HI HC HR HL HA) as Hqs. split; [done| |apply HA| | |].
  - etrans; [by apply same_rest_base|apply HA].
  - intros p' x [?|?]%Hqs; auto.
  - intros x Hx Hxs. assert (sync h1 x) as Hs by (apply (same_rest_sync h h1); [done|]; by apply (si_sync _ _ _ HI); [|intros ?]).
    destruct (decide (x = p)) as [->|Hxp].
    2:{ apply (ad_sync _ _ _ _ _ _ _ HA); try done. by apply (links_has_parent h h1). }
    apply (sync_same h1 h2); [by apply (same_rest_obq h), HI|done|apply same_base_active, HA| |done].
    apply (ad_idle _ _ _ _ _ _ _ HA). intros c Hc Hq. apply Hdead. right. exists c.
    apply (ad_queued _ _ _ _ _ _ _ HA), Hok in Hq as [p' Hp']. by destruct (Hqs _ _ Hp') as [[_ ->]|(? & _)].
  - split; [|done]. intros [p' [[Hsl _]|(_ & ? & _)]%Hqs]%Hok; [|done]. destruct (inv_kids _ _ _ _ _ HI Hl) as (_ & _ & Hkid).
    destruct (Hkid s Hsl) as [_ (? & ? & ?)]. destruct HC as (_ & _ & ? & ? & ? & _). congruence.
Qed.

(** The stream that got children to serve enters the queue of [p]. *)
Lemma inserting_pushed h h1 h2 h3 kids (p s : Z) l lp : stream_inv h kids -> can_link h p s -> kids !! p = Some l -> same_rest h h1 ->
  same_links (deps h) (deps h1) -> adopting p s [] l [] h1 h2 -> live h2 s -> chain h p lp -> pushed h2 p s lp h3 -> inserting h p s l h1 h3.
Proof.
  intros HI HC Hl HR HL HA Hlive Hlp (G1 & G2 & G3 & G4 & G5 & G6 & G7).
  pose proof (fun p' x => adopted_qs h h1 h2 kids p s l p' x HI HC HR HL HA) as Hqs.
  pose proof HC as (_ & Habove & ss & Hss & Hroot & _). destruct (inv_kids _ _ _ _ _ HI Hl) as (_ & _ & Hkid).
  assert (forall x p', parent_of h2 x p' -> x ∉ l -> parent_of h x p') as Hpar.
  { intros x p' Hx Hxl. apply (reparented_parent _ _ _ _ _ _ (ad_deps _ _ _ _ _ _ _ HA)) in Hx.
    rewrite decide_False in Hx by done. by apply (links_parent h h1). }
  assert (forall x, has_parent h x -> has_parent h2 x) as Hhas.
  { intros x [p' Hx]%has_parent_of. apply has_parent_of. destruct (decide (x ∈ l)) as [Hxl|Hxl].
    - exists s. apply (reparented_parent _ _ _ _ _ _ (ad_deps _ _ _ _ _ _ _ HA)). rewrite decide_True by done. split; [done|].
      apply (same_rest_dom h h1); [done|]. destruct Hx as (? & ? & _). eauto.
    - exists p'. apply (reparented_parent _ _ _ _ _ _ (ad_deps _ _ _ _ _ _ _ HA)). rewrite decide_False by done. by apply (links_parent h h1). }
  split; [done| | | | |].
  - etrans; [by apply same_rest_base|]. etrans; [apply HA|by apply same_core_base].
  - rewrite (same_core_deps h2 h3) by done. apply HA.
  - intros p' x [[?|?]%Hqs|[[-> ->]|[Hx Hp]]]%G5; [auto|auto|auto|]. right; right.
    assert (x ∉ l) as Hxl.
    { intros Hxl. destruct (Hkid x Hxl) as [_ (cs & Hcs & E)]. by apply (dchain_child _ _ _ x cs Hlp (deps_lookup _ _ _ Hcs) E). }
    split_and!; [done| |by apply Hpar]. intros ->. apply Habove. by exists lp.
  - intros x Hx Hxs. destruct (decide (x = p)) as [->|Hxp].
    + split; [|intros _; by apply G6, Hhas]. intros _. right. by exists s.
    + apply G7; [done|by apply Hhas|]. apply (ad_sync _ _ _ _ _ _ _ HA); [done|done|by apply (links_has_parent h h1)|].
      apply (same_rest_sync h h1); [done|]. by apply (si_sync _ _ _ HI); [|intros ?].
  - split; [|intros _; apply G1; eauto]. intros _. destruct Hlive as [Ha|[y Hy]]; [left; by apply (same_core_active h2 h3)|right; eauto].
Qed.

Lemma inserting_inv h h1 h3 h4 kids (p s : Z) l : stream_inv h kids -> can_link h p s -> kids !! p = Some l -> kids !! s = Some [] ->
  inserting h p s l h1 h3 -> same_rest h3 h4 ->
  relinked (deps h) (deps h4) (insert_links p s [] l) -> insert_weights p s (deps h) (deps h4) ->
  stream_inv h4 (<[p := [s]]> (<[s := l]> kids)).
Proof.
  intros HI HC Hl Hks HN HR HL HW. destruct (inserted_tree h kids p s [] l (deps h4) HI HC Hl Hks HL HW) as (HT & Hw & Hsum).
  pose proof HC as (_ & _ & ss & Hss & Hroot & Hnf). pose proof (inv_kids _ _ _ _ _ HI Hl) as (_ & _ & Hkid).
  assert (forall x, x ∈ l -> x <> s) as Hsl by (intros x Hx ->; destruct (Hkid s Hx) as [_ (? & ? & ?)]; congruence).
  assert (forall x p', parent_of h4 x p' <-> exists s0 : nghttp2_stream, h !! x = Some s0 /\
    (if decide (x = s) then Some p else if decide (x ∈ l) then Some s else dep_prev s0) = Some p') as Hpar.
  { intros x p'. by rewrite (relinked_parent_of h h4 _ x p' HL). }
  apply (inv_build (fun _ => False) h h4 kids); [done|etrans; [by apply HN|by apply same_rest_base]|done|done|done|
    apply (same_rest_obq h3); [done|apply HN]| | |].
  - intros x p' Hq%(same_rest_qs h3 h4); [|done]. apply Hpar. destruct (in_qs _ _ _ _ _ _ HN _ _ Hq) as [[Hx ->]|[[-> ->]|(Hx & Hxs & s0 & Hs0 & E)]].
    + destruct (Hkid x Hx) as [_ (s0 & Hs0 & _)]. exists s0. rewrite decide_False by auto. by rewrite decide_True.
    + exists ss. by rewrite decide_True.
    + exists s0. by rewrite !decide_False.
  - intros x Hx _. apply (same_rest_sync h3 h4); [done|]. destruct (decide (x = s)) as [->|Hxs]; [by eapply in_sync_new|].
    apply (in_sync _ _ _ _ _ _ HN); [|done]. apply has_parent_of in Hx as [p' (s0 & Hs0 & E)%Hpar]. rewrite decide_False in E by done.
    destruct (decide (x ∈ l)) as [Hxl|]; [|exists s0; split; [done|congruence]]. destruct (Hkid x Hxl) as [_ ?]. by eapply parent_has.
  - intros a s0 Hs0 [p' (s1 & Hs1 & E)%Hpar]%has_parent_of. rewrite Hs0 in Hs1. injection Hs1 as <-.
    destruct (decide (a = s)) as [->|]; [congruence|]. apply (si_flags _ _ _ HI a); [done|].
    destruct (decide (a ∈ l)) as [Hal|]; [|congruence]. destruct (Hkid a Hal) as [_ (? & ? & ?)]. congruence.
Qed.

(** The links at the end of [nghttp2_stream_dep_insert]. *)
Lemma insert_relinked (p s : Z) l D D1 D3 : joinable p s [] l D1 -> same_links D D1 -> reparented l (Some s) D1 D3 ->
  relinked D (alter (dep_prev_to (Some p)) s (alter (dep_next_to (Some s)) p (alter (dep_next_to (head l)) s D3))) (insert_links p s [] l).
Proof.
  intros HJ HL HR. eapply relinked_pre; [exact HL|intros a d d' E; unfold links in E; injection E as E1 E2 E3 E4; simpl; by rewrite E1, E2, E3, E4|].
  pose proof (jn_ps _ _ _ _ _ HJ) as Hps. pose proof (jn_sl _ _ _ _ _ HJ) as Hsl. intros a.
  pose proof (HR a) as Ea. pose proof (jn_head _ _ _ _ _ HJ a) as Hh. destruct (decide (s = a)) as [<-|Hsa].
  - rewrite lookup_alter_eq, lookup_alter_ne, lookup_alter_eq, Ea by done. rewrite decide_False by done.
    destruct (D1 !! s) as [d|]; [|done]. simpl. rewrite decide_True, decide_False, decide_True by done. unfold links. simpl.
    rewrite decide_False; [done|]. intros Hc%head_elem. done.
  - rewrite lookup_alter_ne by done. rewrite lookup_alter. assert (a <> s) by done. destruct (decide (p = a)) as [<-|Hpa].
    + rewrite lookup_alter_ne, Ea by done. rewrite decide_False by apply HJ. destruct (D1 !! p) as [d|]; [|done]. unfold links. simpl.
      rewrite decide_False by done. rewrite (decide_False (P := p ∈ l)) by apply HJ. rewrite decide_True by done.
      rewrite decide_False; [done|]. intros Hc%head_elem. by apply (jn_pl _ _ _ _ _ HJ).
    + rewrite lookup_alter_ne, Ea by done. destruct (D1 !! a) as [d|] eqn:Ed; [|by destruct (decide (a ∈ l))].
      simpl. rewrite !(decide_False (P := a = s)), (decide_False (P := a = p)) by done. unfold links.
      destruct (decide (Some a = head l)) as [Hc|Hc].
      * rewrite !decide_True by (by apply head_elem). simpl. by rewrite (Hh d Hc eq_refl).
      * destruct (decide (a ∈ l)); done.
Qed.

(** The weights behind the adoption and the changes of links. *)
Lemma insert_final_weights (p s : Z) l c D D1 D3 : insert_weights p s D D1 -> reparented l (Some s) D1 D3 ->
  insert_weights p s D (alter (dep_prev_to (Some p)) s (alter (dep_next_to (Some s)) p (alter (dep_next_to c) s D3))).
Proof.
  intros HW HR. assert (forall f a D2, (forall d, weight (f d) = weight d /\ sum_dep_weight (f d) = sum_dep_weight d) ->
    insert_weights p s D D2 -> insert_weights p s D (alter f a D2)) as Halt.
  { intros f a D2 Hf H b d'. rewrite lookup_alter. destruct (decide (a = b)) as [<-|]; [|by apply H].
    destruct (D2 !! a) as [d2|] eqn:E; [|done]. intros [= <-]. destruct (Hf d2) as [-> ->]. by apply H. }
  do 3 (apply Halt; [done|]). intros a d'. rewrite (HR a). destruct (D1 !! a) as [d1|] eqn:E; [|done]. intros [= <-].
  destruct (HW a d1 E) as (d & Hd & E1 & E2). exists d. by destruct (decide (a ∈ l)).
Qed.

(** The last assignments. *)
Lemma insert_tail_inv h h1 h3 h4 kids (p s : Z) l : stream_inv h kids -> can_link h p s -> kids !! p = Some l -> kids !! s = Some [] ->
  same_links (deps h) (deps h1) -> insert_weights p s (deps h) (deps h1) -> inserting h p s l h1 h3 -> same_rest h3 h4 ->
  deps h4 = alter (dep_prev_to (Some p)) s (alter (dep_next_to (Some s)) p (alter (dep_next_to (head l)) s (deps h3))) ->
  stream_inv h4 (<[p := [s]]> (<[s := l]> kids)).
Proof.
  intros HI HC Hl Hks HL HW HN HR HD. apply (inserting_inv h h1 h3 h4 kids p s l); try done; rewrite HD.
  - apply (insert_relinked p s l (deps h) (deps h1)); [|done|apply HN]. by apply (joinable_inv h kids).
  - apply (insert_final_weights p s l _ _ (deps h1)); [done|apply HN].
Qed.

Lemma wp_insert_tail h3 n (p s : Z) (Q : Z -> world -> Prop) : is_Some (h3 !! p) -> is_Some (h3 !! s) ->
  (forall h4, same_rest h3 h4 -> deps h4 = alter (dep_prev_to (Some p)) s (alter (dep_next_to (Some s)) p (deps h3)) -> Q 0 (mk_world h4 n)) ->
  wp (modify p (upd_dep (dep_next_to (Some s)));; modify s (upd_dep (dep_prev_to (Some p)));; mret 0) (mk_world h3 n) Q.
Proof.
  intros Hp Hs HQ. wp_step. apply wp_modify_dep; [done|]. intros h4 R4 D4. wp_step.
  apply wp_modify_dep; simpl; [by apply (same_rest_dom h3 h4)|]. intros h5 R5 D5. apply wp_ret. apply HQ; [by etrans|].
  by rewrite D5, D4.
Qed.

(** The step between the adoption and the last assignments. *)
Lemma wp_insert_push ok h h1 h2 m kids (p s : Z) l lp (Q : Z -> world -> Prop) : stream_inv h kids -> can_link h p s -> kids !! p = Some l ->
  same_rest h h1 -> same_links (deps h) (deps h1) -> wts_ok (deps h1) -> adopting p s [] l [] h1 h2 -> chain h p lp ->
  (forall w, refused ok -> Q NGHTTP2_ERR_NOMEM w) -> (forall h3 m, inserting h p s l h1 h3 -> Q 0 (mk_world h3 m)) ->
  wp (push_if_active ok p s) (mk_world h2 m) Q.
Proof.
  intros HI HC Hl HR HL Hw HA Hlp Hnomem HQ. pose proof HC as ([sp Hsp] & Habove & ss & Hss & Hroot & _).
  assert (same_base h h2) as HB by (etrans; [by apply same_rest_base|apply HA]).
  destruct (same_lookup _ _ _ _ _ HB Hss) as (s2 & Hs2 & _). unfold push_if_active. wp_step. eapply wp_load; [exact Hs2|].
  pose proof (subtree_active_live h2 s s2 Hs2) as Hlive. destruct (stream_subtree_active s2).
  - assert (forall x, x ∈ p :: lp -> x ∉ l) as Hup.
    { destruct (inv_kids _ _ _ _ _ HI Hl) as (_ & _ & Hkid). intros x Hx Hxl. destruct (Hkid x Hxl) as [_ (cs & Hcs & E)].
      by apply (dchain_child _ _ _ x cs Hlp (deps_lookup _ _ _ Hcs) E). }
    assert (same_rest h h1) as HR' by done.
    apply (wp_obq_push ok lp); simpl; [apply HA| | |eauto| | |intros; by apply Hnomem|].
    + apply (dchain_stable (deps h)); [done|]. intros x Hx. destruct (dchain_dom _ _ _ _ Hlp Hx) as [dx Hdx].
      unfold parent. rewrite (ad_deps _ _ _ _ _ _ _ HA x), decide_False by (by apply Hup). rewrite option_fmap_id.
      pose proof (HL x) as E. rewrite Hdx in E |- *. destruct (deps h1 !! x) as [d1|]; [|done]. simpl in E. unfold links in E.
      split; [eauto|congruence].
    + intros Hs. apply Habove. by exists lp.
    + apply weights_ok_deps. intros a d. rewrite (ad_deps _ _ _ _ _ _ _ HA a). destruct (deps h1 !! a) as [d1|] eqn:E; [|done].
      intros [= <-]. specialize (Hw a d1 E). by destruct (decide (a ∈ l)).
    + intros [p' Hq]%(ad_obq _ _ _ _ _ _ _ HA). destruct (adopted_qs h h1 h2 kids p s l p' s HI HC HR HL HA Hq) as [[Hsl _]|(_ & ? & _)]; [|done].
      destruct (inv_kids _ _ _ _ _ HI Hl) as (_ & _ & Hkid). destruct (Hkid s Hsl) as [_ (? & ? & ?)]. congruence.
    + intros h3 m3 HP. apply HQ. apply (inserting_pushed h h1 h2 h3 kids p s l lp); try done. by apply Hlive.
  - apply wp_ret, HQ. apply (inserting_idle h h1 h2 kids); try done. by intros ?%Hlive.
Qed.

Lemma wp_dep_insert ok p (s : Z) w kids l : stream_inv (streams w) kids -> can_link (streams w) p s ->
  kids !! p = Some l -> fresh (streams w) kids s ->
  wp (nghttp2_stream_dep_insert ok p s) w (outcome ok (fun h => stream_inv h (<[p := [s]]> (<[s := l]> kids)))).
Proof.
  destruct w as [h n]. simpl. intros HI HC Hl [Hks Hdead]. pose proof HC as ([sp Hsp] & Habove & ss & Hss & Hroot & _).
  pose proof (si_tree _ _ _ HI) as HT. destruct (t_acyclic _ _ HT p ltac:(apply deps_dom; eauto)) as [lp Hlp].
  assert (p <> s) as Hps by (intros ->; apply Habove; exists lp; split; [done|by left]).
  destruct (t_list _ _ HT p l _ Hl (deps_lookup _ _ _ Hsp)) as (Hnext & _ & _).
  unfold nghttp2_stream_dep_insert. do 2 wp_step. wp_step. apply wp_modify_dep; [eauto|]. intros h0 R0 D0. simpl in *.
  wp_step. apply (wp_load_dep s (sum_dep_weight_to (sum_dep_weight sp) (st_dep ss))).
  { simpl. by rewrite D0, lookup_alter_eq, (deps_lookup _ _ _ Hss). }
  simpl. intros s0 _ Es0. rewrite Es0. simpl. wp_step. apply wp_modify_dep; simpl; [apply (same_rest_dom h h0); eauto|].
  intros h1 R1 D1. rewrite D0 in D1. assert (same_rest h h1) as R by (by etrans). clear R0 R1 D0 h0 s0 Es0.
  pose proof (insert_sums_links p s (sum_dep_weight sp) (weight ss) (deps h)) as HL. rewrite <- D1 in HL.
  assert (insert_weights p s (deps h) (deps h1)) as HW.
  { apply (insert_sums_weights h kids p s sp ss [] l); try done. rewrite D1, (si_sum _ _ _ HI s [] _ Hks (deps_lookup _ _ _ Hss)). done. }
  assert (wts_ok (deps h1)) as Hw by (rewrite D1; do 2 (apply wts_ok_alter; [done|]); apply HI).
  pose proof (insert_adoptable h h1 kids p s l HI HC Hl R HL Hw) as Hao.
  wp_step. rewrite Hnext. destruct l as [|f l]; cbn [head].
  - wp_step. cbn [Z.eqb negb].
    assert (inserting h p s [] h1 h1) as HN.
    { apply (inserting_idle h h1 h1 kids); try done; [by apply adopting_start|]. by intros Hl1%(same_rest_live h h1). }
    apply wp_insert_tail; [apply (same_rest_dom h h1); eauto..|]. intros h4 R4 D4. right. split; [done|].
    apply (insert_tail_inv h h1 h1 h4 kids p s []); try done. rewrite D4. do 2 f_equal. symmetry. apply map_eq. intros a.
    rewrite lookup_alter. destruct (decide (s = a)) as [<-|]; [|done]. pose proof (HL s) as E. rewrite (deps_lookup _ _ _ Hss) in E.
    destruct (deps h1 !! s) as [[]|]; [|done]. destruct (t_list _ _ HT s [] _ Hks (deps_lookup _ _ _ Hss)) as (En & _ & _).
    simpl in E, En |- *. unfold links, dep_next_to in *. simpl in *. congruence.
  - wp_step. change (Some f) with (head (f :: l)).
    apply (wp_adopt ok p s [] (f :: l)); simpl; [done|done|apply (same_rest_dom h h1); eauto|intros; do 2 apply wp_ret; by left|].
    intros [h2 m] HA. simpl in HA. wp_step.
    apply (wp_insert_push ok h h1 h2 m kids p s (f :: l) lp); try done; [intros; do 2 apply wp_ret; by left|].
    intros h3 m3 HN. cbn [Z.eqb negb].
    assert (forall a, is_Some (h !! a) -> is_Some (h3 !! a)) as Hdom.
    { intros a [a0 Ha]. destruct (same_lookup _ _ _ _ _ (in_base _ _ _ _ _ _ HN) Ha) as (? & -> & _). eauto. }
    destruct (Hdom p ltac:(eauto)) as [p3 Hp3]. wp_step. eapply wp_load; [exact Hp3|]. wp_step.
    apply wp_modify_dep; simpl; [by eauto|]. intros h4 R4 D4. apply wp_ret. cbn [Z.eqb negb].
    apply wp_insert_tail; [apply (same_rest_dom h3 h4); eauto..|]. intros h5 R5 D5. right. split; [done|].
    apply (insert_tail_inv h h1 h3 h5 kids p s (f :: l)); try done; [by etrans|]. rewrite D5, D4. do 4 f_equal.
    pose proof (in_deps _ _ _ _ _ _ HN p) as E. rewrite (deps_lookup _ _ _ Hp3) in E.
    rewrite decide_False in E by (by apply (inv_kids _ _ _ _ _ HI Hl)). rewrite option_fmap_id in E. pose proof (HL p) as E'.
    rewrite <- E, (deps_lookup _ _ _ Hsp) in E'. simpl in E'. unfold links in E'. congruence.
Qed.
