(* ===== verification/StreamRemove.v ===== *)
(** * Streams: removal

    [nghttp2_stream_dep_remove] takes one stream out of the tree and gives its
    weight to its children, which take its place;
    [nghttp2_stream_dep_remove_subtree] takes it out together with them. *)

From S2P Require Import Prelude Defs Pq Frame Http Stream StreamLinks StreamQueue StreamTree StreamInsert.

Implicit Types (ss sq ds : nghttp2_stream) (h : gmap Z nghttp2_stream) (w : world)
  (D : gmap Z stream_dep) (kids : gmap Z (list Z)).

(** ** Links *)

(** [s] is a child of [q] between [l1] and [l2], and has the children [k]. *)
Record removable (q s : Z) (l1 k l2 : list Z) D : Prop := {
  rm_s : exists d, D !! s = Some d /\ dep_prev d = Some q /\ dep_next d = head k /\ sib_prev d = last l1 /\ sib_next d = head l2;
  rm_q : exists d, D !! q = Some d /\ dep_next d = head (l1 ++ s :: l2);
  rm_nodup : NoDup (q :: s :: l1 ++ k ++ l2);
  rm_kids : forall c, c ∈ l1 ++ l2 -> exists d, D !! c = Some d /\ dep_prev d = Some q;
  rm_walk : sib_walk D k;
  rm_head : forall c d, Some c = head k -> D !! c = Some d -> sib_prev d = None;
  rm_next : forall c d, Some c = last l1 -> D !! c = Some d -> sib_next d = Some s;
  rm_prev : forall c d, Some c = head l2 -> D !! c = Some d -> sib_prev d = Some s;
}.

Lemma removable_inv X h kids (q s : Z) l1 k l2 : stream_inv_but X h kids -> kids !! q = Some (l1 ++ s :: l2) -> kids !! s = Some k ->
  removable q s l1 k l2 (deps h).
Proof.
  intros HI Hq Hk. pose proof (si_tree _ _ _ HI) as HT. assert (s ∈ l1 ++ s :: l2) as Hsq by set_solver.
  destruct (inv_kids _ _ _ _ _ HI Hq) as (Hnd & Hself & _). destruct (inv_kids _ _ _ _ _ HI Hk) as (Hnk & Hsk & Hkid).
  destruct (tree_kid _ _ _ _ _ HT Hq Hsq) as (ds & Hs & Hsp). destruct (proj2 (t_dom _ _ HT q) ltac:(eauto)) as [dq Hdq].
  destruct (t_list _ _ HT q _ dq Hq Hdq) as (Hnext & _ & Hdll). destruct (t_list _ _ HT s k ds Hk Hs) as (Hknext & _ & Hdlk).
  pose proof Hdll as [Hd1 Hd2]%dllseg_app. cbn [dllseg hd_or] in Hd1, Hd2. destruct Hd2 as (ds' & Hs' & _ & Hpv & Hnx & Hd2).
  rewrite Hs in Hs'. injection Hs' as <-. rewrite last_or_None in Hpv. rewrite hd_or_None in Hnx.
  assert (q <> s) as Hqs by (intros ->; by apply Hself).
  assert (forall c, c ∈ k -> c ∉ l1 ++ s :: l2) as Hdis.
  { intros c Hc Hc'. apply Hqs. by apply (tree_unique _ _ s q k (l1 ++ s :: l2) c HT). }
  assert (q ∉ k) as Hqk.
  { intros Hc. destruct (t_acyclic _ _ HT s ltac:(eauto)) as [ls Hls]. destruct (tree_kid _ _ _ _ _ HT Hk Hc) as (dc & Hdc & Ec).
    apply (dchain_child _ _ _ q dc Hls Hdc Ec). inversion Hls as [? d' Hd' Hp'|? d' p' l' Hd' Hp' _]; subst; [congruence|].
    assert (p' = q) as -> by congruence. right. by left. }
  split; [eauto 10|eauto| | | | | |].
  - apply NoDup_app in Hnd as (N1 & N2 & [N3 N4]%NoDup_cons). apply NoDup_cons. split; [set_solver|]. apply NoDup_cons. split; [set_solver|].
    apply NoDup_app. split_and!; [done|set_solver|]. apply NoDup_app. split_and!; [done|set_solver|done].
  - intros c Hc. apply (tree_kid _ _ _ _ c HT Hq). set_solver.
  - by eapply dllseg_walk.
  - intros c d Hc Hd. by apply (dllseg_head _ _ _ _ _ _ _ Hdlk Hc).
  - intros c d Hc Hd. by apply (dllseg_last _ _ _ _ _ _ _ Hd1 Hc).
  - intros c d Hc Hd. by apply (dllseg_head _ _ _ _ _ _ _ Hd2 Hc).
Qed.

(** The walk that sets the parent of all siblings. *)
Lemma wp_set_dep_prev l p w (Q : Z -> world -> Prop) : NoDup l -> sib_walk (deps (streams w)) l ->
  (forall h, same_rest (streams w) h -> reparented l p (deps (streams w)) (deps h) -> Q 0 (mk_world h (pushes w))) ->
  wp (set_dep_prev (head l) p) w Q.
Proof.
  intros Hnd Hw HQ. unfold set_dep_prev. do 2 wp_step.
  apply (wp_for_siblings (fun r w' => exists t, l = t ++ r /\ same_rest (streams w) (streams w') /\
    reparented t p (deps (streams w)) (deps (streams w')) /\ pushes w' = pushes w)).
  - assert (length l <= size (streams w))%nat; [|lia]. apply NoDup_size; [done|]. intros x Hx.
    apply list_elem_of_split in Hx as (t & r & ->). destruct (Hw t x r eq_refl) as (d & Hd & _). apply deps_dom. eauto.
  - exists []. split_and!; [done|done|apply reparented_nil|done].
  - intros c r w1 (t & -> & HR & HP & Hn). pose proof (reparented_walk _ _ _ _ _ HP Hw) as Hw1.
    destruct (Hw1 t c r eq_refl) as (dc & Hdc & Esib). wp_step. apply wp_modify_dep; [apply deps_dom; eauto|]. intros h1 R1 D1.
    apply wp_ret. simpl. split.
    + exists (t ++ [c]). split_and!; [by rewrite <- app_assoc|by etrans| |done]. rewrite D1. by apply reparented_step.
    + assert (deps h1 !! c = Some (dep_prev_to p dc)) as (s1 & Hs1 & E)%deps_lookup_inv by (by rewrite D1, lookup_alter_eq, Hdc).
      exists s1. split; [done|]. rewrite E. by destruct dc.
  - intros [h1 n1] (t & E & HR & HP & Hn). rewrite app_nil_r in E. subst t. simpl in Hn. subst n1. by apply HQ.
Qed.

(** The links after [splice_children]. *)
Definition splicedD (q : Z) (k : list Z) (next : option Z) D D' : Prop := exists D2, reparented k (Some q) D D2 /\
  D' = match next, last k with Some n, Some z => link_sibD z (Some n) D2 | _, _ => D2 end.

Lemma wp_splice q (s c : Z) k next d w (Q : unit -> world -> Prop) : NoDup (c :: k) -> sib_walk (deps (streams w)) (c :: k) ->
  deps (streams w) !! s = Some d -> dep_prev d = Some q -> sib_next d = next -> ptr_ok (streams w) next ->
  (forall h, same_rest (streams w) h -> splicedD q (c :: k) next (deps (streams w)) (deps h) -> Q tt (mk_world h (pushes w))) ->
  wp (splice_children s c) w Q.
Proof.
  destruct w as [h n]. simpl. intros Hnd Hw Hd Hp Hn Hok HQ. unfold splice_children. wp_step. apply (wp_load_dep s d); [done|]. intros ss _ Es.
  rewrite Es, Hp, Hn. wp_step. change (Some c) with (head (c :: k)). apply wp_set_dep_prev; [done|done|]. simpl. intros h1 R1 H1.
  destruct next as [nx|].
  - pose proof (reparented_walk _ _ _ _ _ H1 Hw) as Hw1. wp_step. apply (wp_last_sib c k); [done|done|]. intros z Hz.
    apply wp_link_sib; simpl; [|intros a [= <-]; by apply (same_rest_dom h h1), Hok|].
    + pose proof Hz as [t E]%last_Some. destruct (Hw1 t z [] E) as (dz & Hdz & _). apply deps_dom. eauto.
    + intros h2 R2 D2. apply HQ; [by etrans|]. exists (deps h1). split; [done|]. by rewrite Hz.
  - apply wp_ret, HQ; [done|]. exists (deps h1). done.
Qed.

(** The links before the removal of a stream are unchanged elsewhere. *)
Ltac remove_at D a :=
  simpl; links_at a; repeat match goal with H : D !! _ = Some _ |- _ => rewrite !H end; simpl;
  try destruct (D !! a) eqn:?; simpl; try done; unfold links; simpl; simplify_eq; repeat case_decide; simplify_eq; try done; try congruence.

Lemma removable_neq (q s : Z) l1 k l2 D c : removable q s l1 k l2 D -> c ∈ l1 ++ k ++ l2 -> c <> q /\ c <> s.
Proof. intros HR Hc. pose proof (rm_nodup _ _ _ _ _ _ HR) as [N1 [N2 _]%NoDup_cons]%NoDup_cons. set_solver. Qed.

Lemma removable_qs (q s : Z) l1 k l2 D : removable q s l1 k l2 D -> q <> s.
Proof. intros HR. pose proof (rm_nodup _ _ _ _ _ _ HR) as [N1 _]%NoDup_cons. set_solver. Qed.

(** No children, and the first of its siblings. *)
Lemma remove_first (q s : Z) l2 D : removable q s [] [] l2 D ->
  relinked D (alter isolate s (match head l2 with
    | Some n => link_depD q (Some n) (alter (sib_prev_to None) n D) | None => alter (dep_next_to None) q D end)) (remove_links q s [] [] l2).
Proof.
  intros HR a. destruct (rm_s _ _ _ _ _ _ HR) as (ds & Hs & E1 & E2 & E3 & E4). destruct (rm_q _ _ _ _ _ _ HR) as (dq & Hq & En).
  pose proof (removable_qs _ _ _ _ _ _ HR) as Hqs. destruct l2 as [|n l2]; simpl.
  - remove_at D a.
  - destruct (removable_neq _ _ _ _ _ _ n HR ltac:(by left)) as [Hnq Hns]. destruct (rm_kids _ _ _ _ _ _ HR n ltac:(by left)) as (dn & Hn & Ep).
    remove_at D a.
Qed.

(** No children, behind [p]. *)
Lemma remove_later (q s p : Z) l1 l2 D : removable q s (l1 ++ [p]) [] l2 D ->
  relinked D (alter isolate s (link_sibD p (head l2) D)) (remove_links q s (l1 ++ [p]) [] l2).
Proof.
  intros HR a. destruct (rm_s _ _ _ _ _ _ HR) as (ds & Hs & E1 & E2 & E3 & E4). destruct (rm_q _ _ _ _ _ _ HR) as (dq & Hq & En).
  pose proof (removable_qs _ _ _ _ _ _ HR) as Hqs. destruct (removable_neq _ _ _ _ _ _ p HR ltac:(set_solver)) as [Hpq Hps].
  destruct (rm_kids _ _ _ _ _ _ HR p ltac:(set_solver)) as (dp & Hp & Ep). pose proof (last_snoc p l1) as El.
  assert (head ((l1 ++ [p]) ++ l2) = dep_next dq) as Eh by (rewrite En; by destruct l1).
  assert (last ((l1 ++ [p]) ++ []) = Some p) as El' by (by rewrite app_nil_r).
  destruct l2 as [|n l2]; simpl.
  - remove_at D a.
  - destruct (removable_neq _ _ _ _ _ _ n HR ltac:(set_solver)) as [Hnq Hns]. destruct (rm_kids _ _ _ _ _ _ HR n ltac:(set_solver)) as (dn & Hn & Epn).
    assert (n <> p). { intros ->. pose proof (rm_nodup _ _ _ _ _ _ HR) as [_ [_ (_ & N & _)%NoDup_app]%NoDup_cons]%NoDup_cons. apply (N p); set_solver. }
    remove_at D a.
Qed.

(** The same as a change of links, address by address. *)
Definition splice_links (q : Z) (k : list Z) (next : option Z) : relink := {|
  rl_prev := fun a d => if decide (a ∈ k) then Some q else dep_prev d;
  rl_next := fun a d => dep_next d;
  rl_sprev := fun a d => if decide (Some a = next) then last k else sib_prev d;
  rl_snext := fun a d => if decide (Some a = last k) then next else sib_next d;
|}.

Lemma spliced_relinked q k next D D' : splicedD q k next D D' -> k <> [] -> sib_walk D k -> (forall n, next = Some n -> n ∉ k) ->
  relinked D D' (splice_links q k next).
Proof.
  intros (D2 & HP & ->) Hk Hw Hn a. pose proof (HP a) as Ea. destruct (last k) as [z|] eqn:Hz; [|by apply last_None in Hz].
  assert (z ∈ k) as Hzk by (by apply last_elem). pose proof (walk_last D k z) as Hlast. destruct next as [n|].
  - specialize (Hn n eq_refl). assert (n <> z) by (by intros ->). simpl. rewrite Hz. destruct (decide (n = a)) as [<-|Hna].
    + rewrite lookup_alter_eq, lookup_alter_ne, Ea by done. rewrite decide_False by done. destruct (D !! n) as [d|]; [|done].
      simpl. unfold links. simpl. rewrite (decide_True (P := Some n = Some n)), (decide_False (P := n ∈ k)), (decide_False (P := Some n = Some z)) by congruence.
      done.
    + rewrite lookup_alter_ne by done. destruct (decide (z = a)) as [<-|Hza].
      * rewrite lookup_alter_eq, Ea, decide_True by done. destruct (D !! z) as [d|]; [|done]. simpl. unfold links. simpl.
        rewrite (decide_False (P := Some z = Some n)), (decide_True (P := z ∈ k)), (decide_True (P := Some z = Some z)) by congruence. done.
      * rewrite lookup_alter_ne, Ea by done. destruct (D !! a) as [d|]; [|by destruct (decide _)]. simpl. unfold links.
        rewrite (decide_False (P := Some a = Some n)), (decide_False (P := Some a = Some z)) by congruence. by destruct (decide (a ∈ k)).
  - rewrite Ea. destruct (D !! a) as [d|] eqn:Hd; [|by destruct (decide _)]. simpl. rewrite Hz. unfold links.
    destruct (decide (Some a = Some z)) as [[= ->]|]; [|by destruct (decide (a ∈ k))].
    rewrite !decide_True by done. simpl. by rewrite (Hlast d Hw Hz Hd).
Qed.

(** The removal in two steps of [relinked]. *)
Lemma remove_compose (q s : Z) l1 k l2 D D1 D3 f : removable q s l1 k l2 D -> k <> [] ->
  relinked D D1 f -> relinked D1 D3 (splice_links q k (head l2)) ->
  (forall a d, D !! a = Some d -> a <> s ->
     (a ∉ k -> rl_prev f a d = dep_prev d) /\ rl_next f a d = (if decide (a = q) then head (l1 ++ k ++ l2) else dep_next d) /\
     (Some a <> head l2 -> rl_sprev f a d = if decide (Some a = head k) then last l1 else sib_prev d) /\
     (Some a <> last k -> rl_snext f a d = if decide (Some a = last l1) then head (k ++ l2) else sib_next d)) ->
  relinked D (alter isolate s D3) (remove_links q s l1 k l2).
Proof.
  intros HR Hk H1 H2 Hf a. destruct (D !! a) as [d|] eqn:Hd.
  2:{ assert (D1 !! a = None) as E1 by (specialize (H1 a); rewrite Hd in H1; by destruct (D1 !! a)).
      assert (D3 !! a = None) as E3 by (specialize (H2 a); rewrite E1 in H2; by destruct (D3 !! a)).
      rewrite lookup_alter. destruct (decide (s = a)) as [<-|]; by rewrite E3. }
  destruct (relinked_fwd _ _ _ _ _ H1 Hd) as (d1 & Hd1 & A1 & A2 & A3 & A4).
  destruct (relinked_fwd _ _ _ _ _ H2 Hd1) as (d3 & Hd3 & B1 & B2 & B3 & B4). simpl in B1, B2, B3, B4.
  destruct (decide (s = a)) as [<-|Hsa].
  { rewrite lookup_alter_eq, Hd3. simpl. unfold links. simpl. by rewrite !(decide_True (P := s = s)). }
  rewrite lookup_alter_ne, Hd3 by done. simpl. destruct (Hf a d Hd ltac:(done)) as (F1 & F2 & F3 & F4). unfold links.
  assert (a <> s) by done. rewrite !(decide_False (P := a = s)) by done. rewrite B1, B2, B3, B4, A1, A2, A3, A4, F2.
  pose proof (rm_nodup _ _ _ _ _ _ HR) as [_ [_ (_ & N1 & (_ & N2 & _)%NoDup_app)%NoDup_app]%NoDup_cons]%NoDup_cons.
  do 2 f_equal; [f_equal; [f_equal|]|].
  - destruct (decide (a ∈ k)); [done|by apply F1].
  - destruct (decide (Some a = head l2)) as [Hh|Hh].
    + rewrite decide_False by (intros Hx%head_elem; apply head_elem in Hh; by apply (N2 a)).
      rewrite last_app. destruct (last k) eqn:E; [done|]. by apply last_None in E.
    + by apply F3.
  - destruct (decide (Some a = last k)) as [Hh|Hh]; [|by apply F4].
    rewrite decide_False; [done|]. intros Hx%last_elem. apply last_elem in Hh. apply (N1 a Hx). set_solver.
Qed.

#[global] Instance same_weights_trans : Transitive same_weights.
Proof. intros D1 D2 D3 H1 H2 a. by rewrite H2. Qed.

Lemma same_weights_alter D a f : (forall d, weight (f d) = weight d /\ sum_dep_weight (f d) = sum_dep_weight d) -> same_weights D (alter f a D).
Proof.
  intros Hf b. rewrite lookup_alter. destruct (decide (a = b)) as [<-|]; [|done]. destruct (D !! a) as [d|]; [|done].
  simpl. by destruct (Hf d) as [-> ->].
Qed.

Lemma link_sib_weights D a b : same_weights D (link_sibD a b D).
Proof. destruct b; simpl; [etrans|]; by apply same_weights_alter. Qed.

Lemma link_dep_weights D a b : same_weights D (link_depD a b D).
Proof. destruct b; simpl; [etrans|]; by apply same_weights_alter. Qed.

Lemma spliced_weights q k next D D' : splicedD q k next D D' -> same_weights D D'.
Proof.
  intros (D2 & HP & ->). assert (same_weights D D2) as H2.
  { intros a. rewrite (HP a). destruct (D !! a) as [d|]; [|by destruct (decide _)]. by destruct (decide _). }
  destruct next as [n|]; [|done]. destruct (last k) as [z|]; [|done]. etrans; [exact H2|apply link_sib_weights].
Qed.

(** What unlinking [s] does, before its own pointers are cleared. *)
Definition unlinked (q s : Z) l1 k l2 h h' : Prop :=
  same_rest h h' /\ same_weights (deps h) (deps h') /\ relinked (deps h) (alter isolate s (deps h')) (remove_links q s l1 k l2).

(** The rest of the removal when there are children, whatever is in front. *)
Lemma wp_splice_unlinked (q s c : Z) l1 k l2 f h h1 n (Q : unit -> world -> Prop) : removable q s l1 (c :: k) l2 (deps h) ->
  same_rest h h1 -> same_weights (deps h) (deps h1) -> relinked (deps h) (deps h1) f ->
  (forall a d, a <> s -> deps h !! a = Some d ->
     (a ∉ c :: k -> rl_prev f a d = dep_prev d) /\ rl_next f a d = (if decide (a = q) then head (l1 ++ (c :: k) ++ l2) else dep_next d) /\
     (Some a <> head l2 -> rl_sprev f a d = if decide (Some a = head (c :: k)) then last l1 else sib_prev d) /\
     rl_snext f a d = if decide (Some a = last l1) then Some c else sib_next d) ->
  (forall d, rl_prev f s d = dep_prev d /\ rl_snext f s d = sib_next d) ->
  (forall h', unlinked q s l1 (c :: k) l2 h h' -> Q tt (mk_world h' n)) ->
  wp (splice_children s c) (mk_world h1 n) Q.
Proof.
  intros HR R1 W1 L1 Hf Hfs HQ. destruct (rm_s _ _ _ _ _ _ HR) as (ds & Hs & E1 & E2 & E3 & E4).
  pose proof (rm_nodup _ _ _ _ _ _ HR) as [_ [Hns (N0 & N1 & (Nk & N2 & _)%NoDup_app)%NoDup_app]%NoDup_cons]%NoDup_cons.
  destruct (relinked_fwd _ _ _ _ _ L1 Hs) as (ds1 & Hs1 & P1 & _ & _ & P4). destruct (Hfs ds) as [F1 F4].
  assert (forall x, x ∈ c :: k -> x <> s) as Hks by (intros x Hx ->; apply Hns; set_solver).
  assert (sib_walk (deps h1) (c :: k)) as Hw1.
  { intros t x r E. destruct (rm_walk _ _ _ _ _ _ HR t x r E) as (d & Hd & Ed).
    destruct (relinked_fwd _ _ _ _ _ L1 Hd) as (d' & Hd' & _ & _ & _ & G). exists d'. split; [done|].
    assert (x ∈ c :: k) as Hx by (rewrite E; set_solver). destruct (Hf x d (Hks x Hx) Hd) as (_ & _ & _ & F). rewrite G, F.
    rewrite decide_False; [done|]. intros Hl%last_elem. apply (N1 x Hl). set_solver. }
  apply (wp_splice q s c k (head l2) ds1); simpl; [done|done|done|congruence|congruence| |].
  - intros n0 Hn. apply (same_rest_dom h h1); [done|]. symmetry in Hn. apply head_elem in Hn.
    destruct (rm_kids _ _ _ _ _ _ HR n0 ltac:(set_solver)) as (d & Hd & _). apply deps_dom. eauto.
  - intros h' R2 HS. apply HQ. split_and!; [by etrans|etrans; [exact W1|by apply (spliced_weights q (c :: k) (head l2))]|].
    apply (remove_compose q s l1 (c :: k) l2 _ (deps h1) _ f HR ltac:(done) L1).
    + apply spliced_relinked; [done|done|done|]. intros n0 Hn Hin. symmetry in Hn. apply head_elem in Hn. by apply (N2 n0).
    + intros a d Ha Has. destruct (Hf a d Has Ha) as (F & G & H & I). split_and!; try done.
Qed.

Definition dep_links (q c : Z) : relink := {|
  rl_prev := fun a d => if decide (a = c) then Some q else dep_prev d;
  rl_next := fun a d => if decide (a = q) then Some c else dep_next d;
  rl_sprev := fun a d => sib_prev d;
  rl_snext := fun a d => sib_next d;
|}.

Definition sib_links_to (p c : Z) : relink := {|
  rl_prev := fun a d => dep_prev d;
  rl_next := fun a d => dep_next d;
  rl_sprev := fun a d => if decide (a = c) then Some p else sib_prev d;
  rl_snext := fun a d => if decide (a = p) then Some c else sib_next d;
|}.

Lemma link_dep_relinked (q c : Z) D : q <> c -> relinked D (link_depD q (Some c) D) (dep_links q c).
Proof.
  intros Hqc a. simpl. destruct (decide (c = a)) as [<-|Hca].
  - rewrite lookup_alter_eq, lookup_alter_ne by done. destruct (D !! c) as [d|]; [|done]. simpl. unfold links. simpl.
    by rewrite (decide_True (P := c = c)), (decide_False (P := c = q)).
  - rewrite lookup_alter_ne by done. destruct (decide (q = a)) as [<-|Hqa].
    + rewrite lookup_alter_eq. destruct (D !! q) as [d|]; [|done]. simpl. unfold links. simpl.
      by rewrite (decide_True (P := q = q)), (decide_False (P := q = c)).
    + rewrite lookup_alter_ne by done. destruct (D !! a) as [d|]; [|done]. simpl. unfold links. by rewrite !decide_False.
Qed.

Lemma link_sib_relinked (p c : Z) D : p <> c -> relinked D (link_sibD p (Some c) D) (sib_links_to p c).
Proof.
  intros Hpc a. simpl. destruct (decide (c = a)) as [<-|Hca].
  - rewrite lookup_alter_eq, lookup_alter_ne by done. destruct (D !! c) as [d|]; [|done]. simpl. unfold links. simpl.
    by rewrite (decide_True (P := c = c)), (decide_False (P := c = p)).
  - rewrite lookup_alter_ne by done. destruct (decide (p = a)) as [<-|Hpa].
    + rewrite lookup_alter_eq. destruct (D !! p) as [d|]; [|done]. simpl. unfold links. simpl.
      by rewrite (decide_True (P := p = p)), (decide_False (P := p = c)).
    + rewrite lookup_alter_ne by done. destruct (D !! a) as [d|]; [|done]. simpl. unfold links. by rewrite !decide_False.
Qed.

Lemma wp_unlink_dep (q s : Z) k l2 w (Q : unit -> world -> Prop) : removable q s [] k l2 (deps (streams w)) ->
  (forall h, unlinked q s [] k l2 (streams w) h -> Q tt (mk_world h (pushes w))) -> wp (unlink_dep s) w Q.
Proof.
  destruct w as [h n]. simpl. intros HR HQ. destruct (rm_s _ _ _ _ _ _ HR) as (ds & Hs & E1 & E2 & E3 & E4).
  destruct (rm_q _ _ _ _ _ _ HR) as (dq & Hq & En). pose proof (removable_qs _ _ _ _ _ _ HR) as Hqs.
  assert (is_Some (h !! q)) as Hhq by (apply deps_dom; eauto).
  unfold unlink_dep. wp_step. apply (wp_load_dep s ds); [done|]. intros ss _ Es. rewrite Es, E1, E2, E4. wp_step. wp_step.
  destruct k as [|c k]; cbn [head].
  - pose proof (remove_first q s l2 (deps h) HR) as HF. destruct l2 as [|n0 l2]; cbn [head] in *.
    + apply wp_modify_dep; [done|]. simpl. intros h1 R1 D1. apply HQ. split_and!; [done| |by rewrite D1].
      rewrite D1. by apply same_weights_alter.
    + destruct (rm_kids _ _ _ _ _ _ HR n0 ltac:(by left)) as (dn & Hn & _).
      assert (is_Some (h !! n0)) as Hhn by (apply deps_dom; eauto). wp_step.
      apply wp_modify_dep; [done|]. simpl. intros h1 R1 D1. apply wp_link_dep; simpl;
        [by apply (same_rest_dom h h1)|intros ? [= <-]; by apply (same_rest_dom h h1)|]. intros h2 R2 D2. apply HQ. rewrite D1 in D2.
      split_and!; [by etrans| |by rewrite D2]. rewrite D2. etrans; [|apply (link_dep_weights _ q (Some n0))]. by apply same_weights_alter.
  - destruct (removable_neq _ _ _ _ _ _ c HR ltac:(by left)) as [Hcq Hcs].
    destruct (rm_walk _ _ _ _ _ _ HR [] c k eq_refl) as (dc & Hc & _). wp_step.
    apply wp_link_dep; simpl; [done|intros ? [= <-]; apply deps_dom; eauto|]. intros h1 R1 D1.
    apply (wp_splice_unlinked q s c [] k l2 (dep_links q c) h); try done.
    + rewrite D1. apply (link_dep_weights _ q (Some c)).
    + rewrite D1. by apply (link_dep_relinked q c).
    + intros a d Has Hd. pose proof (rm_head _ _ _ _ _ _ HR a d) as Hh. simpl. split_and!; try done.
      * intros Ha. rewrite decide_False; [done|]. intros ->. apply Ha. by left.
      * intros _. destruct (decide (Some a = Some c)); [by apply Hh|done].
    + intros d. simpl. by rewrite decide_False.
Qed.

Lemma wp_unlink_sib (q s p : Z) l1 k l2 w (Q : unit -> world -> Prop) : removable q s (l1 ++ [p]) k l2 (deps (streams w)) ->
  (forall h, unlinked q s (l1 ++ [p]) k l2 (streams w) h -> Q tt (mk_world h (pushes w))) -> wp (unlink_sib s) w Q.
Proof.
  destruct w as [h n]. simpl. intros HR HQ. destruct (rm_s _ _ _ _ _ _ HR) as (ds & Hs & E1 & E2 & E3 & E4). rewrite last_snoc in E3.
  destruct (rm_q _ _ _ _ _ _ HR) as (dq & Hq & En). pose proof (removable_qs _ _ _ _ _ _ HR) as Hqs.
  destruct (removable_neq _ _ _ _ _ _ p HR ltac:(set_solver)) as [Hpq Hps]. destruct (rm_kids _ _ _ _ _ _ HR p ltac:(set_solver)) as (dp & Hp & _).
  assert (is_Some (h !! p)) as Hhp by (apply deps_dom; eauto).
  unfold unlink_sib. wp_step. apply (wp_load_dep s ds); [done|]. intros ss _ Es. rewrite Es, E3, E2, E4. wp_step. wp_step.
  destruct k as [|c k]; cbn [head].
  - apply wp_link_sib; simpl; [done| |].
    + intros n0 Hn. symmetry in Hn. apply head_elem in Hn. destruct (rm_kids _ _ _ _ _ _ HR n0 ltac:(set_solver)) as (d & Hd & _). apply deps_dom. eauto.
    + intros h1 R1 D1. apply HQ. split_and!; [done|rewrite D1; apply link_sib_weights|]. rewrite D1. by apply remove_later.
  - destruct (removable_neq _ _ _ _ _ _ c HR ltac:(set_solver)) as [Hcq Hcs].
    destruct (rm_walk _ _ _ _ _ _ HR [] c k eq_refl) as (dc & Hc & _). wp_step.
    apply wp_link_sib; simpl; [done|intros ? [= <-]; apply deps_dom; eauto|]. intros h1 R1 D1.
    pose proof (rm_nodup _ _ _ _ _ _ HR) as [_ [_ (_ & N1 & _)%NoDup_app]%NoDup_cons]%NoDup_cons.
    assert (p <> c) by (intros ->; apply (N1 c); set_solver).
    apply (wp_splice_unlinked q s c (l1 ++ [p]) k l2 (sib_links_to p c) h); try done.
    + rewrite D1. apply (link_sib_weights _ p (Some c)).
    + rewrite D1. by apply (link_sib_relinked p c).
    + intros a d Has Hd. simpl. rewrite last_snoc. split_and!; [done| |intros _|].
      * destruct (decide (a = q)) as [->|]; [|done]. assert (d = dq) as -> by congruence. rewrite En. by destruct l1.
      * destruct (decide (a = c)) as [->|]; [by rewrite decide_True|by rewrite decide_False by congruence].
      * destruct (decide (a = p)) as [->|]; [by rewrite decide_True|by rewrite decide_False by congruence].
    + intros d. simpl. by rewrite decide_False.
Qed.

(** Both cases of [nghttp2_stream_dep_remove], and the assignments behind them. *)
Lemma wp_unlink (q s : Z) l1 k l2 w (Q : Z -> world -> Prop) : removable q s l1 k l2 (deps (streams w)) ->
  (forall h, same_rest (streams w) h -> relinked (deps (streams w)) (deps h) (remove_links q s l1 k l2) ->
     (forall a d', deps h !! a = Some d' -> exists d, deps (streams w) !! a = Some d /\ weight d' = weight d /\
        sum_dep_weight d' = if decide (a = s) then 0 else sum_dep_weight d) -> Q 0 (mk_world h (pushes w))) ->
  wp (let* s' := load s in
      (match sib_prev s' with Some _ => unlink_sib s | None => unlink_dep s end);;
      modify s (upd_dep isolate);; mret 0) w Q.
Proof.
  destruct w as [h n]. simpl. intros HR HQ. destruct (rm_s _ _ _ _ _ _ HR) as (ds & Hs & _ & _ & E3 & _).
  wp_step. apply (wp_load_dep s ds); [done|]. intros ss _ Es. rewrite Es, E3. wp_step.
  assert (forall h', unlinked q s l1 k l2 h h' -> wp (modify s (upd_dep isolate);; mret 0) (mk_world h' n) Q) as Hfin.
  { intros h1 (R1 & W1 & L1). wp_step. apply wp_modify_dep; simpl; [apply (same_rest_dom h h1); [done|]; apply deps_dom; eauto|].
    intros h2 R2 D2. apply wp_ret. apply HQ; [by etrans|by rewrite D2|]. intros a d' Hd'. rewrite D2, lookup_alter in Hd'.
    destruct (decide (s = a)) as [<-|Hsa].
    - destruct (deps h1 !! s) as [d1|] eqn:Hd1; [|done]. injection Hd' as <-. destruct (same_weights_sum _ _ _ _ W1 Hd1) as (d & Hd & E & _).
      exists d. rewrite decide_True by done. simpl. auto.
    - destruct (same_weights_sum _ _ _ _ W1 Hd') as (d & Hd & E & E'). exists d. rewrite decide_False by done. auto. }
  destruct l1 as [|p l1 _] using rev_ind; simpl.
  - by apply (wp_unlink_dep q s k l2).
  - rewrite last_snoc. by apply (wp_unlink_sib q s p l1 k l2).
Qed.
