(* ===== verification/StreamDistribute.v ===== *)
(** * Streams: removal with the distribution of weights

    [nghttp2_stream_dep_remove] as a whole: the children of the stream get
    its weight in proportion to theirs and wait in the queue of its parent
    from then on. *)

From S2P Require Import Prelude Defs Pq Frame Http Stream StreamLinks StreamQueue StreamTree StreamInsert StreamRemove.

Implicit Types (ss sq cs ds : nghttp2_stream) (h : gmap Z nghttp2_stream) (w : world)
  (D : gmap Z stream_dep) (kids : gmap Z (list Z)).

(** ** Weights *)

Definition share (ws sum wc : Z) : Z := Z.max 1 (Z.quot (ws * wc) sum).

Lemma share_bound ws sum wc : 1 <= ws <= 256 -> 1 <= wc <= sum -> 1 <= share ws sum wc <= ws.
Proof.
  intros Hws Hwc. unfold share. rewrite Z.quot_div_nonneg by nia.
  assert (ws * wc / sum <= ws); [|lia]. apply Z.div_le_upper_bound; nia.
Qed.

Lemma wp_distributed_weight ss wc w (Q : Z -> world -> Prop) : 1 <= weight ss <= 256 -> 1 <= wc <= sum_dep_weight ss -> wc <= 256 ->
  Q (share (weight ss) (sum_dep_weight ss) wc) w -> wp (nghttp2_stream_dep_distributed_weight ss wc) w Q.
Proof.
  intros Hw Hc Hc2 HQ. unfold nghttp2_stream_dep_distributed_weight. wp_step. apply wp_int32; [unfold is_i32; nia|]. wp_step.
  apply wp_assert; [|by apply wp_ret]. destruct (Z.eqb_spec (sum_dep_weight ss) 0); [lia|done].
Qed.

(** The children [t] have their new weights. *)
Definition reweighted (t : list Z) (ws sum : Z) D D' : Prop :=
  forall a, D' !! a = (fun d => if decide (a ∈ t) then weight_to (share ws sum (weight d)) d else d) <$> D !! a.

Lemma reweighted_nil ws sum D : reweighted [] ws sum D D.
Proof. intros a. by destruct (D !! a). Qed.

Lemma reweighted_step t c ws sum D D' d : reweighted t ws sum D D' -> c ∉ t -> D !! c = Some d ->
  reweighted (t ++ [c]) ws sum D (alter (weight_to (share ws sum (weight d))) c D').
Proof.
  intros H Hc Hd a. rewrite lookup_alter. destruct (decide (c = a)) as [<-|Hne].
  - rewrite (H c), Hd. simpl. rewrite decide_False by done. by rewrite decide_True by set_solver.
  - rewrite (H a). destruct (D !! a); [|done]. simpl. destruct (decide (a ∈ t)); [rewrite decide_True by set_solver|rewrite decide_False by set_solver]; done.
Qed.

Lemma reweighted_links t ws sum D D' : reweighted t ws sum D D' -> same_links D D'.
Proof. intros H a. rewrite (H a). destruct (D !! a); [|done]. simpl. by destruct (decide (a ∈ t)). Qed.

Lemma reweighted_sum t ws sum D D' a d' : reweighted t ws sum D D' -> D' !! a = Some d' ->
  exists d, D !! a = Some d /\ sum_dep_weight d' = sum_dep_weight d /\
    weight d' = if decide (a ∈ t) then share ws sum (weight d) else weight d.
Proof.
  intros H Ha. rewrite (H a) in Ha. destruct (D !! a) as [d|]; [|done]. injection Ha as <-. exists d.
  by destruct (decide (a ∈ t)).
Qed.

(** ** The walk *)

Section Distribute.

Context (ok : nat -> bool) (h0 : gmap Z nghttp2_stream) (kids : gmap Z (list Z)) (q s : Z) (l1 k l2 lq : list Z) (s0 : nghttp2_stream).
Context (HI : stream_inv h0 kids) (Hq : kids !! q = Some (l1 ++ s :: l2)) (Hk : kids !! s = Some k)
  (Hs0 : h0 !! s = Some s0) (Hlq : chain h0 q lq).

Abbreviation ws := (weight s0).
Abbreviation sum := (sum_dep_weight s0).

Lemma dist_sum : sum = wsum (deps h0) k.
Proof. by apply (si_sum _ _ _ HI s k s0 Hk (deps_lookup _ _ _ Hs0)). Qed.

Lemma dist_parent : dep_prev s0 = Some q.
Proof.
  destruct (inv_kids _ _ _ _ _ HI Hq) as (_ & _ & Hkid). destruct (Hkid s ltac:(set_solver)) as [_ (s1 & Hs1 & E)]. congruence.
Qed.

Lemma dist_chain : chain h0 s (q :: lq).
Proof. apply (dchain_up _ s s0); [by apply deps_lookup|exact dist_parent|done]. Qed.

Lemma dist_up x : x ∈ s :: q :: lq -> x ∉ k.
Proof.
  intros Hx Hxk. destruct (inv_kids _ _ _ _ _ HI Hk) as (_ & _ & Hkid). destruct (Hkid x Hxk) as [_ (cs & Hcs & E)].
  by apply (dchain_child _ _ _ x cs dist_chain (deps_lookup _ _ _ Hcs) E).
Qed.

Lemma dist_weight c d : c ∈ k -> deps h0 !! c = Some d -> 1 <= weight d <= sum.
Proof.
  intros Hc Hd. pose proof (si_weight _ _ _ HI c d Hd) as Hw. split; [lia|]. rewrite dist_sum.
  apply list_elem_of_split in Hc as (t & r & E). rewrite E, wsum_app. cbn [wsum foldr]. fold (wsum (deps h0) r).
  destruct (inv_kids _ _ _ _ _ HI Hk) as (_ & _ & Hkid).
  assert (forall l, (forall c, c ∈ l -> c ∈ k) -> 0 <= wsum (deps h0) l) as Hpos.
  { intros l Hl. assert (Z.of_nat (length l) <= wsum (deps h0) l <= 256 * Z.of_nat (length l)); [|lia].
    apply wsum_bound; [apply HI|]. intros x Hx. by apply Hkid, Hl. }
  assert (0 <= wsum (deps h0) t) by (apply Hpos; set_solver). assert (0 <= wsum (deps h0) r) by (apply Hpos; set_solver).
  unfold weight_of. rewrite Hd. lia.
Qed.

Lemma reweighted_wts t D : reweighted t ws sum (deps h0) D -> (forall c, c ∈ t -> c ∈ k) -> wts_ok D.
Proof.
  intros H Ht a d' Ha. destruct (reweighted_sum _ _ _ _ _ _ _ H Ha) as (d & Hd & _ & ->).
  pose proof (si_weight _ _ _ HI a d Hd). destruct (decide (a ∈ t)) as [Hat|]; [|done].
  pose proof (si_weight _ _ _ HI s s0 (deps_lookup _ _ _ Hs0)).
  pose proof (share_bound ws sum (weight d)). pose proof (dist_weight a d (Ht a Hat) Hd). lia.
Qed.

(** The children [t] have been served, in the store [h0] before the removal. *)
Record dispersing (t : list Z) h : Prop := {
  dp_obq : obq_ok h;
  dp_base : same_base h0 h;
  dp_deps : reweighted t ws sum (deps h0) (deps h);
  dp_qs : forall p x, qs h p x -> x ∈ t /\ p = q \/ x ∉ t /\ parent_of h0 x p;
  dp_sync : forall x, x <> s -> has_parent h0 x -> sync h x;
}.

Lemma dispersing_start : dispersing [] h0.
Proof.
  split; [apply HI|done|apply reweighted_nil| |intros x _ Hx; by apply (si_sync _ _ _ HI); [|intros ?]].
  intros p x Hx. right. split; [by intros ?%elem_of_nil|by apply (si_parent _ _ _ HI)].
Qed.

Lemma dispersing_relink t c h h1 d : dispersing t h -> c ∉ t -> deps h0 !! c = Some d -> same_rest h h1 ->
  deps h1 = alter (weight_to (share ws sum (weight d))) c (deps h) -> ~ is_queued h c -> dispersing (t ++ [c]) h1.
Proof.
  intros HP Hct Hd HR HD Hnq. pose proof (not_queued_qs h c (dp_obq _ _ HP) Hnq) as Hnin. split.
  - by apply (same_rest_obq h), HP.
  - etrans; [apply HP|by apply same_rest_base].
  - rewrite HD. apply reweighted_step; [apply HP|done|done].
  - intros p x Hx%(same_rest_qs h h1); [|done]. assert (x <> c) by (intros ->; by apply (Hnin p)).
    destruct (dp_qs _ _ HP p x Hx) as [[? ?]|[? ?]]; [left; set_solver|right; set_solver].
  - intros x Hx Hp. apply (same_rest_sync h h1); [done|]. by apply HP.
Qed.

Lemma dispersing_move t c r h h1 h2 d : k = t ++ c :: r -> dispersing t h -> deps h0 !! c = Some d -> same_rest h h1 ->
  deps h1 = alter (weight_to (share ws sum (weight d))) c (deps h) -> is_queued h c -> moved h1 s q c lq h2 -> dispersing (t ++ [c]) h2.
Proof.
  intros Ek HP Hd HR HD Hqc (M1 & M2 & M3 & M4 & M5 & M6 & M7). destruct (inv_kids _ _ _ _ _ HI Hk) as (Hnd & Hsk & Hkid).
  assert (c ∉ t) as Hct by (rewrite Ek in Hnd; apply NoDup_app in Hnd as (_ & ? & _); set_solver).
  assert (c ∈ k) as Hck by (rewrite Ek; set_solver). assert (c <> s) as Hcs by (by intros ->).
  assert (same_links (deps h0) (deps h1)) as HL1.
  { rewrite HD. eapply same_links_trans; [apply (reweighted_links _ _ _ _ _ (dp_deps _ _ HP))|by apply same_links_alter]. }
  split; [done| | | |].
  - etrans; [apply HP|]. etrans; [by apply same_rest_base|by apply same_core_base].
  - rewrite (same_core_deps h1 h2), HD by done. apply reweighted_step; [apply HP|done|done].
  - intros p x [[Hx Hn]|[[-> ->]|[Hx Hp]]]%M5; [|left; set_solver|].
    + apply (same_rest_qs h h1) in Hx; [|done]. destruct (dp_qs _ _ HP p x Hx) as [[? ?]|[Hxt Hp]]; [left; set_solver|].
      right. split; [|done]. intros [?| ->%list_elem_of_singleton]%elem_of_app; [done|]. apply Hn. split; [|done].
      destruct (Hkid c Hck) as [_ (? & ? & ?)]. destruct Hp as (? & ? & ?). congruence.
    + right. split; [|by apply (links_parent h0 h1)]. assert (x ∉ k) by (apply dist_up; by right). set_solver.
  - intros x Hxs Hpx. destruct (decide (x = c)) as [->|Hxc].
    + split; [|intros _; apply M1; eauto]. intros _.
      destruct (proj1 (dp_sync _ _ HP c Hcs Hpx) Hqc) as [Ha|[y Hy]].
      * left. apply (same_core_active h1 h2); [done|]. by apply (same_rest_active h h1).
      * right. exists y. apply M4; [by apply (same_rest_qs h h1)|naive_solver].
    + apply M7; [done|done|by apply (links_has_parent h0 h1)|]. apply (same_rest_sync h h1); [done|]. by apply HP.
Qed.

Lemma wp_distribute r : forall t fuel delta w, k = t ++ r -> dispersing t (streams w) -> (length r <= fuel)%nat ->
  delta = wsum (deps (streams w)) t - ws ->
  wp (distribute_loop ok fuel s (head r) delta) w (fun res w' => snd res = NGHTTP2_ERR_NOMEM /\ refused ok \/
    snd res = 0 /\ dispersing k (streams w') /\ fst res = wsum (deps (streams w')) k - ws).
Proof.
  induction r as [|c r IH]; intros t fuel delta [h n] Ek HP Hf ->; simpl in HP, Hf.
  { rewrite app_nil_r in Ek. subst t. destruct fuel; simpl; apply wp_ret; right; done. }
  destruct fuel as [|fuel]; [lia|]. cbn [distribute_loop head].
  destruct (inv_kids _ _ _ _ _ HI Hk) as (Hnd & Hsk & Hkid). pose proof (si_tree _ _ _ HI) as HT.
  destruct (t_list _ _ HT s k _ Hk (deps_lookup _ _ _ Hs0)) as (_ & _ & Hdll).
  destruct (dllseg_walk _ _ _ _ Hdll t c r Ek) as (d & Hd & Esib).
  assert (c ∉ t /\ c ∈ k /\ c <> s) as (Hct & Hck & Hcs).
  { rewrite Ek in Hnd, Hsk |- *. apply NoDup_app in Hnd as (_ & ? & _). split_and!; set_solver. }
  assert (s ∉ t) as Hst by (rewrite Ek in Hsk; set_solver).
  pose proof (dp_deps _ _ HP s) as Es. rewrite (deps_lookup _ _ _ Hs0) in Es. simpl in Es. rewrite decide_False in Es by done.
  pose proof (dp_deps _ _ HP c) as Ec. rewrite Hd in Ec. simpl in Ec. rewrite decide_False in Ec by done.
  wp_step. apply (wp_load_dep s (st_dep s0)); [done|]. simpl. intros ss _ Ess. wp_step. apply (wp_load_dep c d); [done|]. simpl. intros cs Hcs' Ecs.
  wp_step. rewrite Ecs. pose proof (dist_weight c d Hck Hd) as Hwc. pose proof (si_weight _ _ _ HI c d Hd) as Hwd.
  pose proof (si_weight _ _ _ HI s s0 (deps_lookup _ _ _ Hs0)) as Hws.
  apply wp_distributed_weight; rewrite ?Ess; [done|done|lia|]. set (nw := share ws sum (weight d)).
  wp_step. apply wp_modify_dep; [apply deps_dom; eauto|]. simpl. intros h1 R1 D1.
  assert (forall h2, deps h2 = deps h1 -> wsum (deps h2) (t ++ [c]) = wsum (deps h) t + nw) as Hsum.
  { intros h2 E2. rewrite E2, wsum_app.
    assert (wsum (deps h1) [c] = nw) as -> by (cbn [wsum foldr]; unfold weight_of; rewrite D1, lookup_alter_eq, Ec; simpl; fold nw; lia).
    rewrite (wsum_ext (deps h)); [done|]. intros x Hx. unfold weight_of. rewrite D1, lookup_alter_ne; [done|]. by intros ->. }
  assert (0 <= wsum (deps h1) (t ++ [c]) <= 256 * Z.of_nat (length (t ++ [c]))) as Hb.
  { assert (reweighted (t ++ [c]) ws sum (deps h0) (deps h1)) as Hr1 by (rewrite D1; apply reweighted_step; [apply HP|done|done]).
    assert (Z.of_nat (length (t ++ [c])) <= wsum (deps h1) (t ++ [c]) <= 256 * Z.of_nat (length (t ++ [c]))); [|lia].
    apply wsum_bound; [apply (reweighted_wts (t ++ [c])); [done|rewrite Ek; set_solver]|]. intros x Hx.
    assert (is_Some (deps h0 !! x)) as [dx Hdx] by (apply Hkid; rewrite Ek; set_solver). rewrite (Hr1 x), Hdx. eauto. }
  assert (length (t ++ [c]) <= size h0)%nat as Hlen.
  { apply NoDup_size; [rewrite Ek in Hnd; rewrite cons_middle, app_assoc in Hnd; by apply NoDup_app in Hnd as [? _]|].
    intros x Hx. apply deps_dom, Hkid. rewrite Ek. set_solver. }
  pose proof (si_size _ _ _ HI) as Hsz. unfold INT32_MAX in Hsz. rewrite (Hsum h1 eq_refl) in Hb. pose proof (Hsum h1 eq_refl) as Hsum1.
  wp_step. apply wp_int32; [unfold is_i32; lia|].
  assert (k = (t ++ [c]) ++ r) as Ek' by (by rewrite <- app_assoc).
  assert (exists cs1, h1 !! c = Some cs1 /\ st_sched cs1 = st_sched cs) as (cs1 & Hcs1 & Esc).
  { destruct (same_lookup _ _ _ _ _ R1 Hcs') as (cs1 & ? & E%rest_sched). eauto. }
  assert (forall h2 m, dispersing (t ++ [c]) h2 -> deps h2 = deps h1 ->
    wp (let* c0 := load c in distribute_loop ok fuel s (sib_next c0) (wsum (deps h) t - ws + nw)) (mk_world h2 m)
      (fun res w' => snd res = NGHTTP2_ERR_NOMEM /\ refused ok \/ snd res = 0 /\ dispersing k (streams w') /\ fst res = wsum (deps (streams w')) k - ws)) as Hnext.
  { intros h2 m HP2 E2. wp_step. apply (wp_load_dep c (weight_to nw d)); simpl; [by rewrite E2, D1, lookup_alter_eq, Ec|].
    intros c2 _ Ec2. rewrite Ec2. simpl. rewrite Esib. apply (IH (t ++ [c])); [done|done|lia|]. simpl. rewrite (Hsum h2 E2). lia. }
  wp_step. destruct (Z.eqb_spec (queued cs) 0) as [Hqz|Hqz]; cbn [negb].
  - apply wp_ret. cbn [Z.eqb negb]. apply Hnext; [|done]. apply (dispersing_relink t c h h1 d); try done. intros (? & ? & ?). congruence.
  - assert (is_queued h c) as Hqc by (by exists cs). rewrite dist_parent.
    apply (wp_obq_move ok _ s q c lq); simpl; [by apply (same_rest_obq h), HP| | | | | |].
    + apply (same_rest_qs h h1); [done|]. apply (dp_obq _ _ HP) in Hqc as [p Hp]. destruct (dp_qs _ _ HP p c Hp) as [[? _]|[_ (c1 & Hc1 & E1)]]; [done|].
      destruct (Hkid c Hck) as [_ (? & ? & ?)]. assert (p = s) as -> by congruence. done.
    + apply (links_chain (deps h0)); [|done]. rewrite D1. eapply same_links_trans; [apply (reweighted_links _ _ _ _ _ (dp_deps _ _ HP))|by apply same_links_alter].
    + intros Hx. apply (dist_up c); [by right|done].
    + apply weights_ok_deps. apply (reweighted_wts (t ++ [c])); [|rewrite Ek'; set_solver]. rewrite D1. apply reweighted_step; [apply HP|done|done].
    + intros h2 m Hr _. apply wp_ret. by left.
    + intros h2 m HM. cbn [Z.eqb negb]. pose proof HM as (_ & HC & _). apply Hnext; [|by apply same_core_deps].
      by apply (dispersing_move t c r h h1 h2 d).
Qed.

(** ** The parent's sum and the queue of the parent *)

(** The store [h] after the walk and the departure of [s] from the queue of [q]. *)
Record departed h : Prop := {
  de_obq : obq_ok h;
  de_base : same_base h0 h;
  de_links : same_links (deps h0) (deps h);
  de_weight : forall a d', deps h !! a = Some d' -> exists d, deps h0 !! a = Some d /\
    weight d' = (if decide (a ∈ k) then share ws sum (weight d) else weight d) /\
    (a <> q -> sum_dep_weight d' = sum_dep_weight d) /\ (a = q -> sum_dep_weight d' = wsum (deps h) (l1 ++ k ++ l2));
  de_qs : forall p x, qs h p x -> x ∈ k /\ p = q \/ x ∉ k /\ x <> s /\ parent_of h0 x p;
  de_sync : forall x, x <> s -> has_parent h0 x -> sync h x;
}.

Lemma dist_neq : q <> s /\ q ∉ k /\ s ∉ k.
Proof.
  pose proof (dist_up s ltac:(by left)). pose proof (dist_up q ltac:(right; by left)).
  pose proof (removable_qs _ _ _ _ _ _ (removable_inv _ h0 kids q s l1 k l2 HI Hq Hk)). done.
Qed.

(** The new sum of the parent. *)
Lemma dist_parent_sum h dq : dispersing k h -> deps h !! q = Some dq ->
  sum_dep_weight dq + (wsum (deps h) k - ws) = wsum (deps h) (l1 ++ k ++ l2) /\ is_i32 (sum_dep_weight dq + (wsum (deps h) k - ws)).
Proof.
  intros HP Hdq. pose proof dist_neq as (Hqs & Hqk & Hsk). destruct (reweighted_sum _ _ _ _ _ _ _ (dp_deps _ _ HP) Hdq) as (d0 & Hd0 & E & _).
  destruct (inv_kids _ _ _ _ _ HI Hq) as (Hnd & _ & Hkid). destruct (inv_kids _ _ _ _ _ HI Hk) as (_ & _ & Hkid').
  pose proof (rm_nodup _ _ _ _ _ _ (removable_inv _ h0 kids q s l1 k l2 HI Hq Hk)) as [_ [_ Hnd2]%NoDup_cons]%NoDup_cons.
  pose proof Hnd2 as (_ & N1 & (_ & N2 & _)%NoDup_app)%NoDup_app.
  assert (forall l, (forall c, c ∈ l -> c ∉ k) -> wsum (deps h) l = wsum (deps h0) l) as Hout.
  { intros l Hl. apply wsum_ext. intros c Hc. unfold weight_of. rewrite (dp_deps _ _ HP c). destruct (deps h0 !! c); [|done].
    simpl. by rewrite decide_False by (by apply Hl). }
  assert (sum_dep_weight dq + (wsum (deps h) k - ws) = wsum (deps h) (l1 ++ k ++ l2)) as Es.
  { rewrite E, (si_sum _ _ _ HI q _ d0 Hq Hd0), !wsum_app. cbn [wsum foldr]. fold (wsum (deps h0) l2).
    assert (weight_of (deps h0) s = ws) as -> by (unfold weight_of; by rewrite (deps_lookup _ _ _ Hs0)).
    rewrite (Hout l1), (Hout l2); [lia|intros c Hc Hc'; by apply (N2 c)|intros c Hc Hc'; apply (N1 c Hc); set_solver]. }
  split; [done|]. rewrite Es.
  assert (forall c, c ∈ l1 ++ k ++ l2 -> is_Some (deps h0 !! c)) as Hdom.
  { intros c [Hc|[Hc|Hc]%elem_of_app]%elem_of_app; [apply Hkid; set_solver|by apply Hkid'|apply Hkid; set_solver]. }
  pose proof (wsum_bound (deps h) (l1 ++ k ++ l2) (reweighted_wts _ _ (dp_deps _ _ HP) ltac:(done))) as Hb.
  assert (length (l1 ++ k ++ l2) <= size h0)%nat by (apply NoDup_size; [done|]; intros x Hx; by apply deps_dom, Hdom).
  pose proof (si_size _ _ _ HI) as Hsz. unfold INT32_MAX in Hsz. unfold is_i32.
  assert (Z.of_nat (length (l1 ++ k ++ l2)) <= wsum (deps h) (l1 ++ k ++ l2) <= 256 * Z.of_nat (length (l1 ++ k ++ l2))); [|lia].
  apply Hb. intros c Hc. destruct (Hdom c Hc) as [d Hd]. rewrite (dp_deps _ _ HP c), Hd. eauto.
Qed.

(** Setting it. *)
Lemma dispersed_sum h h' dq : dispersing k h -> deps h !! q = Some dq -> same_rest h h' ->
  deps h' = alter (sum_dep_weight_to (sum_dep_weight dq + (wsum (deps h) k - ws))) q (deps h) ->
  same_links (deps h0) (deps h') /\ forall a d', deps h' !! a = Some d' -> exists d, deps h0 !! a = Some d /\
    weight d' = (if decide (a ∈ k) then share ws sum (weight d) else weight d) /\
    (a <> q -> sum_dep_weight d' = sum_dep_weight d) /\ (a = q -> sum_dep_weight d' = wsum (deps h') (l1 ++ k ++ l2)).
Proof.
  intros HP Hdq HR HD. destruct (dist_parent_sum h dq HP Hdq) as [Es _]. rewrite Es in HD. split.
  - rewrite HD. eapply same_links_trans; [apply (reweighted_links _ _ _ _ _ (dp_deps _ _ HP))|by apply same_links_alter].
  - assert (wsum (deps h') (l1 ++ k ++ l2) = wsum (deps h) (l1 ++ k ++ l2)) as Ew.
    { apply wsum_ext. intros c _. unfold weight_of. rewrite HD, lookup_alter. destruct (decide (q = c)) as [<-|]; [|done].
      by destruct (deps h !! q). }
    intros a d' Ha. rewrite Ew. rewrite HD, lookup_alter in Ha. destruct (decide (q = a)) as [<-|Hqa].
    + rewrite Hdq in Ha. injection Ha as <-. destruct (reweighted_sum _ _ _ _ _ _ _ (dp_deps _ _ HP) Hdq) as (d & Hd & E1 & E2).
      exists d. simpl. split_and!; done.
    + destruct (reweighted_sum _ _ _ _ _ _ _ (dp_deps _ _ HP) Ha) as (d & Hd & E1 & E2). exists d. split_and!; [done|done|done|].
      intros ->. done.
Qed.

(** Then [s] leaves the queue of [q], if it is there. *)
Lemma wp_depart h h1 n (s1 : nghttp2_stream) dq (K : st_m Z) (Q : Z -> world -> Prop) : dispersing k h -> deps h !! q = Some dq -> same_rest h h1 ->
  deps h1 = alter (sum_dep_weight_to (sum_dep_weight dq + (wsum (deps h) k - ws))) q (deps h) -> h !! s = Some s1 ->
  (forall h2 m, departed h2 -> wp K (mk_world h2 m) Q) ->
  wp ((if negb (queued s1 =? 0) then stream_obq_remove s else mret tt);; K) (mk_world h1 n) Q.
Proof.
  intros HP Hdq HR HD Hs1 HK. destruct (dispersed_sum h h1 dq HP Hdq HR HD) as [HL HW]. pose proof dist_neq as (Hqs & Hqk & Hsk).
  assert (same_base h0 h1) as HB by (etrans; [apply HP|by apply same_rest_base]).
  assert (obq_ok h1) as Hok by (by apply (same_rest_obq h), HP).
  assert (forall x, x <> s -> has_parent h0 x -> sync h1 x) as Hsy by (intros; apply (same_rest_sync h h1); [done|]; by apply HP).
  assert (forall p x, qs h1 p x -> x ∈ k /\ p = q \/ x ∉ k /\ parent_of h0 x p) as Hqs1.
  { intros p x Hx%(same_rest_qs h h1); [|done]. by apply HP. }
  destruct (same_lookup _ _ _ _ _ HR Hs1) as (s2 & Hs2 & Es2%rest_sched).
  wp_step. destruct (Z.eqb_spec (queued s1) 0) as [Hz|Hz]; cbn [negb].
  - apply wp_ret, HK. split; try done. intros p x Hx. destruct (Hqs1 p x Hx) as [?|[Hxk Hp]]; [by left|right]. split_and!; try done.
    intros ->. assert (is_queued h s) as (s3 & ? & ?); [|congruence]. apply (dp_obq _ _ HP). exists p. by apply (same_rest_qs h h1).
  - apply (wp_obq_remove _ s q lq); simpl; [done|by apply (links_chain (deps h0)), dist_chain|exists s2; split; [done|]; by rewrite Es2| | |].
    + intros x Hx Hpx. apply Hsy; [|by apply (links_has_parent h0 h1)]. intros ->. pose proof dist_chain as Hc. by apply dchain_notin in Hc.
    + intros x Hx p Hp. apply (links_parent h0 h1); [done|]. destruct (Hqs1 p x Hp) as [[? _]|[_ ?]]; [|done]. by apply dist_up in Hx.
    + intros h2 m (G1 & G2 & G3 & G4 & G5 & G6). apply HK. pose proof (same_core_deps h1 h2 G2) as ED. split; rewrite ?ED; try done.
      * etrans; [exact HB|by apply same_core_base].
      * intros p x Hx. destruct (Hqs1 p x (G4 _ _ Hx)) as [?|[Hxk Hp]]; [by left|right]. split_and!; try done.
        intros ->. apply G3, G1. eauto.
      * intros x Hx Hpx. apply G6; [done|by apply (links_has_parent h0 h1)|]. by apply Hsy.
Qed.

(** The invariant at the end. *)
Lemma departed_inv h h' : departed h -> same_rest h h' -> relinked (deps h) (deps h') (remove_links q s l1 k l2) ->
  (forall a d', deps h' !! a = Some d' -> exists d, deps h !! a = Some d /\ weight d' = weight d /\
     sum_dep_weight d' = if decide (a = s) then 0 else sum_dep_weight d) ->
  stream_inv h' (<[q := l1 ++ k ++ l2]> (<[s := []]> kids)).
Proof.
  intros HE HR HL HW. pose proof (si_tree _ _ _ HI) as HT. pose proof dist_neq as (Hqs & Hqk & Hsk).
  assert (relinked (deps h0) (deps h') (remove_links q s l1 k l2)) as HL0.
  { eapply relinked_pre; [by apply HE| |exact HL]. intros a d d' E. unfold links in E. injection E as E1 E2 E3 E4. simpl.
    by rewrite E1, E2, E3, E4. }
  destruct (inv_kids _ _ _ _ _ HI Hk) as (_ & _ & Hkid).
  assert (forall c, weight_of (deps h') c = weight_of (deps h) c) as Hwo.
  { intros c. unfold weight_of. destruct (deps h' !! c) as [d'|] eqn:Hc.
    - destruct (HW c d' Hc) as (d & -> & -> & _). done.
    - destruct (deps h !! c) eqn:Hc2; [|done]. exfalso. destruct (relinked_fwd _ _ _ _ _ HL Hc2) as (? & ? & _). congruence. }
  assert (forall x p, parent_of h' x p <-> exists d : nghttp2_stream, h0 !! x = Some d /\
    (if decide (x = s) then None else if decide (x ∈ k) then Some q else dep_prev d) = Some p) as Hpar.
  { intros x p. by rewrite (relinked_parent_of h0 h' _ x p HL0). }
  assert (forall x, has_parent h' x -> x <> s /\ has_parent h0 x) as Hhas.
  { intros x [p (d & Hd & E)%Hpar]%has_parent_of. destruct (decide (x = s)) as [|Hxs]; [done|]. split; [done|].
    destruct (decide (x ∈ k)) as [Hxk|]; [destruct (Hkid x Hxk) as [_ ?]; by eapply parent_has|]. exists d. split; [done|congruence]. }
  apply (inv_build (fun _ => False) h0 h' kids); [done| | | | | | | |].
  - etrans; [apply HE|by apply same_rest_base].
  - by apply (tree_remove (deps h0)).
  - intros p l d' Hl Hd'. destruct (HW p d' Hd') as (d & Hd & _ & ->). rewrite (wsum_ext (deps h)) by (intros; apply Hwo).
    destruct (de_weight _ HE p d Hd) as (d0 & Hd0 & _ & E1 & E2). destruct (decide (p = q)) as [->|Hpq].
    + rewrite lookup_insert_eq in Hl. injection Hl as <-. rewrite decide_False by done. by apply E2.
    + rewrite lookup_insert_ne in Hl by done. destruct (decide (p = s)) as [->|Hps].
      * rewrite lookup_insert_eq in Hl. injection Hl as <-. done.
      * rewrite lookup_insert_ne in Hl by done. rewrite E1, (si_sum _ _ _ HI p l d0 Hl Hd0) by done. symmetry. apply wsum_ext.
        intros c Hc. unfold weight_of. destruct (deps h !! c) as [d1|] eqn:Hd1.
        -- destruct (de_weight _ HE c d1 Hd1) as (d2 & -> & -> & _). rewrite decide_False; [done|].
           intros Hck. apply Hps. symmetry. by apply (tree_unique _ _ p s l k c HT).
        -- pose proof (de_links _ HE c) as E. rewrite Hd1 in E. by destruct (deps h0 !! c).
  - intros a d' Ha. destruct (HW a d' Ha) as (d & Hd & -> & _). destruct (de_weight _ HE a d Hd) as (d0 & Hd0 & -> & _).
    pose proof (si_weight _ _ _ HI a d0 Hd0). destruct (decide (a ∈ k)) as [Hak|]; [|done].
    pose proof (si_weight _ _ _ HI s s0 (deps_lookup _ _ _ Hs0)).
    pose proof (share_bound ws sum (weight d0)). pose proof (dist_weight a d0 Hak Hd0). lia.
  - by apply (same_rest_obq h), HE.
  - intros x p Hx%(same_rest_qs h h'); [|done]. apply Hpar. destruct (de_qs _ HE p x Hx) as [[Hxk ->]|(Hxk & Hxs & d & Hd & E)].
    + destruct (Hkid x Hxk) as [_ (d & Hd & _)]. exists d. rewrite decide_False by (by intros ->). by rewrite decide_True.
    + exists d. by rewrite !decide_False.
  - intros x [Hxs Hpx]%Hhas _. apply (same_rest_sync h h'); [done|]. by apply HE.
  - intros a d Hd [_ (d' & Hd' & Hp)]%Hhas. rewrite Hd in Hd'. injection Hd' as <-. by apply (si_flags _ _ _ HI a).
Qed.

Lemma removable_links D : same_links (deps h0) D -> removable q s l1 k l2 D.
Proof.
  intros HL. pose proof (removable_inv _ h0 kids q s l1 k l2 HI Hq Hk) as [(d & Hd & E1 & E2 & E3 & E4) (dq & Hdq & E5) R3 R4 R5 R6 R7 R8].
  assert (forall a d, deps h0 !! a = Some d -> exists d', D !! a = Some d' /\ links d' = links d) as Hfwd.
  { intros a a0 Ha. specialize (HL a). rewrite Ha in HL. destruct (D !! a) as [d'|]; [|done]. exists d'. split; [done|]. simpl in HL. congruence. }
  assert (forall a d', D !! a = Some d' -> exists d, deps h0 !! a = Some d /\ links d' = links d) as Hbwd.
  { intros a a0 Ha. specialize (HL a). rewrite Ha in HL. destruct (deps h0 !! a) as [d'|]; [|done]. exists d'. split; [done|]. simpl in HL. congruence. }
  unfold links in Hfwd, Hbwd. split; [| |done| | | | |].
  - destruct (Hfwd s d Hd) as (d' & Hd' & E). exists d'. split_and!; [done|congruence..].
  - destruct (Hfwd q dq Hdq) as (d' & Hd' & E). exists d'. split; [done|congruence].
  - intros c Hc. destruct (R4 c Hc) as (dc & Hdc & Ec). destruct (Hfwd c dc Hdc) as (d' & Hd' & E). exists d'. split; [done|congruence].
  - intros t c r Ek. destruct (R5 t c r Ek) as (dc & Hdc & Ec). destruct (Hfwd c dc Hdc) as (d' & Hd' & E). exists d'. split; [done|congruence].
  - intros c dc Hc Hdc. destruct (Hbwd c dc Hdc) as (d' & Hd' & E). rewrite <- (R6 c d' Hc Hd'). congruence.
  - intros c dc Hc Hdc. destruct (Hbwd c dc Hdc) as (d' & Hd' & E). rewrite <- (R7 c d' Hc Hd'). congruence.
  - intros c dc Hc Hdc. destruct (Hbwd c dc Hdc) as (d' & Hd' & E). rewrite <- (R8 c d' Hc Hd'). congruence.
Qed.

End Distribute.

(** ** [nghttp2_stream_dep_remove] *)

Lemma wp_dep_remove ok (q s : Z) w kids l1 k l2 : stream_inv (streams w) kids -> kids !! q = Some (l1 ++ s :: l2) -> kids !! s = Some k ->
  wp (nghttp2_stream_dep_remove ok s) w (outcome ok (fun h => stream_inv h (<[q := l1 ++ k ++ l2]> (<[s := []]> kids)))).
Proof.
  destruct w as [h n]. simpl. intros HI Hq Hk. pose proof (si_tree _ _ _ HI) as HT.
  assert (is_Some (h !! s)) as [s0 Hs0] by (apply deps_dom, (t_dom _ _ HT); eauto).
  assert (is_Some (h !! q)) as [q0 Hq0] by (apply deps_dom, (t_dom _ _ HT); eauto).
  destruct (t_acyclic _ _ HT q ltac:(apply deps_dom; eauto)) as [lq Hlq].
  pose proof (si_weight _ _ _ HI s s0 (deps_lookup _ _ _ Hs0)) as Hws.
  pose proof (dist_neq h kids q s l1 k l2 lq s0 HI Hq Hk Hs0 Hlq) as (Hqs & Hqk & Hsk).
  destruct (t_list _ _ HT s k _ Hk (deps_lookup _ _ _ Hs0)) as (Hnext & Hnd & _).
  unfold nghttp2_stream_dep_remove. do 2 wp_step. wp_step. apply wp_int32; [unfold is_i32; lia|]. do 2 wp_step. rewrite Hnext. wp_step.
  eapply wp_mono; [apply (wp_distribute ok h kids q s l1 k l2 lq s0 HI Hq Hk Hs0 Hlq k []); simpl|].
  - done.
  - by eapply dispersing_start.
  - assert (length k <= size h)%nat; [|lia]. apply NoDup_size; [done|]. intros x Hx. by apply deps_dom, (inv_kids _ _ _ _ _ HI Hk).
  - lia.
  - intros [delta rv] [h1 n1]. simpl. intros [[Hrv Hr]|(Hrv & HP & ->)]; simpl in *; subst rv; [by apply wp_ret; left|]. cbn [Z.eqb negb].
    pose proof (dp_deps _ _ _ _ _ _ HP s) as Es. rewrite (deps_lookup _ _ _ Hs0) in Es. simpl in Es. rewrite decide_False in Es by done.
    apply deps_lookup_inv in Es as (s1 & Hs1 & Es1). wp_step. wp_step. assert (dep_prev s0 = Some q) as Hdp by (by eapply dist_parent).
    rewrite Es1, Hdp. wp_step. wp_step.
    pose proof (dp_deps _ _ _ _ _ _ HP q) as Eq. rewrite (deps_lookup _ _ _ Hq0) in Eq. simpl in Eq. rewrite decide_False in Eq by done.
    wp_step. apply (wp_add_sum q _ (st_dep q0)); simpl; [done|by apply (dist_parent_sum h kids q s l1 k l2 lq s0 HI Hq Hk Hs0 Hlq h1)|].
    intros h2 R2 D2. apply (wp_depart h kids q s l1 k l2 lq s0 HI Hq Hk Hs0 Hlq h1 h2 n1 s1 (st_dep q0)); try done.
    intros h3 m HE. apply (wp_unlink q s l1 k l2); simpl.
    + apply (removable_links h kids q s l1 k l2 HI Hq Hk), HE.
    + intros h4 R4 L4 W4. right. split; [done|]. by apply (departed_inv h kids q s l1 k l2 lq s0 HI Hq Hk Hs0 Hlq h3).
Qed.
