(* ===== verification/StreamCut.v ===== *)
(** * Streams: removal of a subtree

    [nghttp2_stream_dep_remove_subtree] takes a stream and all that depends on
    it out of the tree; the streams below it stay queued as they were. *)

From S2P Require Import Prelude Defs Pq Frame Http Stream StreamLinks StreamQueue StreamTree StreamInsert StreamRemove.

Implicit Types (ss sq ds : nghttp2_stream) (h : gmap Z nghttp2_stream) (w : world)
  (D : gmap Z stream_dep) (kids : gmap Z (list Z)).

(** ** Links *)

(** The neighbours of [s] are linked to each other; [s] still points to them. *)
Definition bypass_links (q : Z) (l1 l2 : list Z) : relink := {|
  rl_prev := fun a d => dep_prev d;
  rl_next := fun a d => if decide (a = q) then head (l1 ++ l2) else dep_next d;
  rl_sprev := fun a d => if decide (Some a = head l2) then last l1 else sib_prev d;
  rl_snext := fun a d => if decide (Some a = last l1) then head l2 else sib_next d;
|}.

Lemma bypass_first (q s : Z) k l2 D : removable q s [] k l2 D ->
  relinked D (match head l2 with Some n => alter (sib_prev_to None) n (link_depD q (Some n) D) | None => alter (dep_next_to None) q D end)
    (bypass_links q [] l2).
Proof.
  intros HR a. destruct (rm_q _ _ _ _ _ _ HR) as (dq & Hq & En). pose proof (removable_qs _ _ _ _ _ _ HR) as Hqs. destruct l2 as [|n l2]; simpl.
  - remove_at D a.
  - destruct (removable_neq _ _ _ _ _ _ n HR ltac:(set_solver)) as [Hnq Hns]. destruct (rm_kids _ _ _ _ _ _ HR n ltac:(by left)) as (dn & Hn & Ep).
    remove_at D a.
Qed.

Lemma bypass_later (q s p : Z) k l1 l2 D : removable q s (l1 ++ [p]) k l2 D ->
  relinked D (link_sibD p (head l2) D) (bypass_links q (l1 ++ [p]) l2).
Proof.
  intros HR a. destruct (rm_q _ _ _ _ _ _ HR) as (dq & Hq & En). pose proof (removable_qs _ _ _ _ _ _ HR) as Hqs.
  destruct (removable_neq _ _ _ _ _ _ p HR ltac:(set_solver)) as [Hpq Hps].
  destruct (rm_kids _ _ _ _ _ _ HR p ltac:(set_solver)) as (dp & Hp & Ep). pose proof (last_snoc p l1) as El.
  assert (head ((l1 ++ [p]) ++ l2) = dep_next dq) as Eh by (rewrite En; by destruct l1). destruct l2 as [|n l2]; simpl.
  - remove_at D a.
  - destruct (removable_neq _ _ _ _ _ _ n HR ltac:(set_solver)) as [Hnq Hns]. destruct (rm_kids _ _ _ _ _ _ HR n ltac:(set_solver)) as (dn & Hn & Epn).
    assert (n <> p). { intros ->. pose proof (rm_nodup _ _ _ _ _ _ HR) as [_ [_ (_ & N & _)%NoDup_app]%NoDup_cons]%NoDup_cons. apply (N p); set_solver. }
    remove_at D a.
Qed.

(** The first statement of the operation. *)
Lemma wp_bypass (q s : Z) l1 k l2 d w (Q : unit -> world -> Prop) : removable q s l1 k l2 (deps (streams w)) -> deps (streams w) !! s = Some d ->
  (forall h, relinks (streams w) (bypass_links q l1 l2) h -> Q tt (mk_world h (pushes w))) ->
  wp (match sib_prev d with
      | Some p => link_sib p (sib_next d)
      | None =>
          link_dep q (sib_next d);;
          match sib_next d with
          | Some next => modify next (upd_dep (sib_prev_to None))
          | None => mret tt
          end
      end) w Q.
Proof.
  destruct w as [h n]. simpl. intros HR Hs HQ. destruct (rm_s _ _ _ _ _ _ HR) as (d' & Hd' & _ & _ & E3 & E4). simplify_eq. rewrite E3, E4.
  destruct (rm_q _ _ _ _ _ _ HR) as (dq & Hq & _). assert (is_Some (h !! q)) as Hhq by (apply deps_dom; eauto).
  assert (ptr_ok h (head l2)) as Hok.
  { intros x Hx. symmetry in Hx. apply head_elem in Hx. destruct (rm_kids _ _ _ _ _ _ HR x ltac:(set_solver)) as (dx & ? & _). apply deps_dom. eauto. }
  destruct l1 as [|p l1 _] using rev_ind; simpl.
  - pose proof (bypass_first q s k l2 _ HR) as HF. wp_step. apply wp_link_dep; [done|done|]. simpl. intros h1 R1 D1.
    destruct (head l2) as [n0|]; simpl in *.
    + apply wp_modify_dep; simpl; [apply (same_rest_dom h h1); [done|]; by apply Hok|]. intros h2 R2 D2. apply HQ. rewrite D1 in D2.
      split_and!; [by etrans|by rewrite D2|]. rewrite D2. etrans; [apply (link_dep_weights _ q (Some n0))|by apply same_weights_alter].
    + apply wp_ret, HQ. split_and!; [done|by rewrite D1|]. rewrite D1. by apply same_weights_alter.
  - rewrite last_snoc. destruct (rm_kids _ _ _ _ _ _ HR p ltac:(set_solver)) as (dp & Hp & _).
    apply wp_link_sib; simpl; [apply deps_dom; eauto|done|]. intros h1 R1 D1. apply HQ.
    split_and!; [done|rewrite D1; by apply (bypass_later q s p k)|]. rewrite D1. apply link_sib_weights.
Qed.

Definition detach (d : stream_dep) : stream_dep := dep_prev_to None (sib_next_to None (sib_prev_to None d)).

Lemma bypass_cut (q s : Z) l1 k l2 D D1 D2 : removable q s l1 k l2 D -> relinked D D1 (bypass_links q l1 l2) -> same_links D1 D2 ->
  relinked D (alter detach s D2) (cut_links q s l1 l2).
Proof.
  intros HR HL HS a. pose proof (removable_qs _ _ _ _ _ _ HR) as Hqs. pose proof (HS a) as E. rewrite (HL a) in E.
  destruct (decide (s = a)) as [<-|Hsa].
  - rewrite lookup_alter_eq. destruct (D2 !! s) as [d2|], (D !! s) as [d|]; simpl in E; try done. unfold links in E. simpl in E.
    injection E as E1 E2 E3 E4. simpl. unfold links. simpl. rewrite !(decide_True (P := s = s)) by done.
    rewrite E2. by rewrite !(decide_False (P := s = q)).
  - rewrite lookup_alter_ne by done. destruct (D2 !! a) as [d2|], (D !! a) as [d|]; simpl in E; try done. simpl.
    assert (a <> s) by done. by rewrite !(decide_False (P := a = s)).
Qed.

(** ** The operation *)

(** What the final store must satisfy. *)
Lemma cut_inv h h' kids (q s : Z) l1 l2 : stream_inv h kids -> kids !! q = Some (l1 ++ s :: l2) ->
  same_base h h' -> obq_ok h' -> relinked (deps h) (deps h') (cut_links q s l1 l2) ->
  (forall p x, qs h' p x -> qs h p x /\ x <> s) -> (forall x, x <> s -> has_parent h x -> sync h' x) ->
  (forall a d', deps h' !! a = Some d' -> exists d, deps h !! a = Some d /\ weight d' = weight d /\
     sum_dep_weight d' = sum_dep_weight d - (if decide (a = q) then weight_of (deps h) s else 0)) ->
  stream_inv h' (<[q := l1 ++ l2]> kids).
Proof.
  intros HI Hq HB Hok HL Hqs Hsy HW. pose proof (si_tree _ _ _ HI) as HT.
  assert (forall c, weight_of (deps h') c = weight_of (deps h) c) as Hwo.
  { intros c. unfold weight_of. destruct (deps h' !! c) as [d'|] eqn:Hc.
    - destruct (HW c d' Hc) as (d & -> & -> & _). done.
    - destruct (deps h !! c) eqn:Hc2; [|done]. exfalso. destruct (relinked_fwd _ _ _ _ _ HL Hc2) as (? & ? & _). congruence. }
  assert (forall x p, parent_of h' x p <-> x <> s /\ parent_of h x p) as Hpar.
  { intros x p. rewrite (relinked_parent_of h h' _ x p HL). cbn. split.
    - intros (d & Hd & E). destruct (decide (x = s)); [done|]. split; [done|]. by exists d.
    - intros [Hxs (d & Hd & E)]. exists d. by rewrite decide_False. }
  assert (forall x, has_parent h' x -> x <> s /\ has_parent h x) as Hhas.
  { intros x [p [Hxs Hp]%Hpar]%has_parent_of. split; [done|]. by eapply parent_has. }
  apply (inv_build (fun _ => False) h h' kids); [done|done|by apply (tree_cut (deps h) _ kids q s l1 l2)| | |done| | |].
  - intros p l d' Hl Hd'. destruct (HW p d' Hd') as (d & Hd & _ & ->). rewrite (wsum_ext (deps h)) by (intros; apply Hwo).
    destruct (decide (p = q)) as [->|Hpq].
    + rewrite lookup_insert_eq in Hl. injection Hl as <-. rewrite (si_sum _ _ _ HI q _ d Hq Hd), !wsum_app. cbn [wsum foldr].
      fold (wsum (deps h) l2). lia.
    + rewrite lookup_insert_ne in Hl by done. rewrite (si_sum _ _ _ HI p l d Hl Hd). lia.
  - intros a d' Ha. destruct (HW a d' Ha) as (d & Hd & -> & _). by apply (si_weight _ _ _ HI a).
  - intros x p [Hx Hxs]%Hqs. apply Hpar. split; [done|]. by apply (si_parent _ _ _ HI).
  - intros x [Hxs Hpx]%Hhas _. by apply Hsy.
  - intros a d Hd [_ (d' & Hd' & Hp)]%Hhas. rewrite Hd in Hd'. injection Hd' as <-. by apply (si_flags _ _ _ HI a).
Qed.

Lemma wp_dep_remove_subtree (q s : Z) w kids l1 l2 : stream_inv (streams w) kids -> kids !! q = Some (l1 ++ s :: l2) ->
  wp (nghttp2_stream_dep_remove_subtree s) w (fun _ w' => stream_inv (streams w') (<[q := l1 ++ l2]> kids)).
Proof.
  destruct w as [h n]. simpl. intros HI Hq. pose proof (si_tree _ _ _ HI) as HT.
  destruct (inv_kids _ _ _ _ _ HI Hq) as (Hnd & _ & Hkid). destruct (Hkid s ltac:(set_solver)) as [Hds (s0 & Hs0 & Hdp)].
  assert (is_Some (kids !! s)) as [k Hk] by (by apply (t_dom _ _ HT)).
  assert (is_Some (h !! q)) as [q0 Hq0] by (apply deps_dom, (t_dom _ _ HT); eauto).
  pose proof (removable_inv _ h kids q s l1 k l2 HI Hq Hk) as HR. pose proof (removable_qs _ _ _ _ _ _ HR) as Hqs.
  destruct (t_acyclic _ _ HT s Hds) as [ls Hls].
  destruct ls as [|q' lq]; [apply chain_nil in Hls as (? & ? & ?); congruence|].
  assert (q' = q) as -> by (destruct (chain_cons _ _ _ _ Hls) as (? & ? & ? & _); congruence).
  assert (sum_dep_weight q0 + - weight s0 = wsum (deps h) (l1 ++ l2)) as Esum.
  { rewrite (si_sum _ _ _ HI q _ _ Hq (deps_lookup _ _ _ Hq0)), !wsum_app. cbn [wsum foldr]. fold (wsum (deps h) l2).
    unfold weight_of at 1. rewrite (deps_lookup _ _ _ Hs0). lia. }
  unfold nghttp2_stream_dep_remove_subtree. do 2 wp_step. rewrite Hdp. do 2 wp_step. wp_step.
  apply (wp_bypass q s l1 k l2 (st_dep s0)); simpl; [done|by apply deps_lookup|]. intros h1 (R1 & L1 & W1).
  destruct (same_lookup _ _ _ _ _ R1 Hs0) as (s1 & Hs1 & Es1). wp_step. eapply wp_load; [exact Hs1|].
  destruct (relinked_fwd _ _ _ _ _ L1 (deps_lookup _ _ _ Hq0)) as (dq1 & Hdq1 & _).
  assert (weight s1 = weight s0) as Ews.
  { pose proof (W1 s) as E. rewrite (deps_lookup _ _ _ Hs0), (deps_lookup _ _ _ Hs1) in E. simpl in E. congruence. }
  assert (sum_dep_weight dq1 = sum_dep_weight q0) as Ewq.
  { pose proof (W1 q) as E. rewrite (deps_lookup _ _ _ Hq0), Hdq1 in E. simpl in E. congruence. }
  wp_step. apply (wp_add_sum q _ dq1); simpl; [done| |].
  { rewrite Ewq, Ews, Esum. assert (0 <= wsum (deps h) (l1 ++ l2) <= 2 ^ 31 - 1); [|unfold is_i32; lia].
    apply (inv_sum_bound (fun _ => False) h kids); [done| |intros c Hc; apply Hkid; set_solver].
    apply NoDup_app in Hnd as (? & ? & [? ?]%NoDup_cons). apply NoDup_app. split_and!; [done|set_solver|done]. }
  intros h2 R2 D2. assert (same_rest h h2) as R by (by etrans).
  assert (same_links (deps h1) (deps h2)) as HS by (rewrite D2; by apply same_links_alter).
  assert (forall x p, parent_of h2 x p <-> parent_of h x p) as Hpar.
  { intros x p. rewrite (links_parent h1 h2 x p HS), (relinked_parent_of h h1 _ x p L1). done. }
  destruct (same_lookup _ _ _ _ _ R2 Hs1) as (s2 & Hs2 & Es2%rest_sched).
  assert (forall h3 m, obq_ok h3 -> same_core h2 h3 -> (forall p x, qs h3 p x -> qs h p x /\ x <> s) ->
    (forall x, x <> s -> has_parent h x -> sync h3 x) ->
    wp (modify s (upd_dep detach)) (mk_world h3 m) (fun _ w' => stream_inv (streams w') (<[q := l1 ++ l2]> kids))) as Hfin.
  { intros h3 m Hok HC Hin Hsy. destruct (same_lookup _ _ _ _ _ HC Hs2) as (s3 & Hs3 & _). pose proof (same_core_deps _ _ HC) as ED.
    apply wp_modify_dep; simpl; [eauto|]. intros h4 R4 D4. apply (cut_inv h h4 kids q s l1 l2); try done.
    - etrans; [by apply same_rest_base|]. etrans; [by apply same_core_base|by apply same_rest_base].
    - by apply (same_rest_obq h3).
    - rewrite D4, ED. by apply (bypass_cut q s l1 k l2 (deps h) (deps h1)).
    - intros p x Hx%(same_rest_qs h3 h4); [|done]. by apply Hin.
    - intros x Hx Hp. apply (same_rest_sync h3 h4); [done|]. by apply Hsy.
    - intros a d' Ha. rewrite D4, ED, D2, lookup_alter in Ha.
      assert (forall d2, alter (sum_dep_weight_to (sum_dep_weight dq1 + - weight s1)) q (deps h1) !! a = Some d2 ->
        exists d, deps h !! a = Some d /\ weight d2 = weight d /\
        sum_dep_weight d2 = sum_dep_weight d - (if decide (a = q) then weight_of (deps h) s else 0)) as H2.
      { intros d2 Hd2. rewrite lookup_alter in Hd2. destruct (decide (q = a)) as [<-|Hqa].
        - rewrite Hdq1 in Hd2. injection Hd2 as <-. exists (st_dep q0). rewrite (deps_lookup _ _ _ Hq0), decide_True by done.
          destruct (same_weights_sum _ _ _ _ W1 Hdq1) as (d & Hd & E & _). rewrite (deps_lookup _ _ _ Hq0) in Hd. injection Hd as <-.
          unfold weight_of. rewrite (deps_lookup _ _ _ Hs0). simpl. split_and!; [done|done|]. rewrite Ewq, Ews. lia.
        - destruct (same_weights_sum _ _ _ _ W1 Hd2) as (d & Hd & E & E'). exists d. rewrite decide_False by done. split_and!; [done|done|lia]. }
      destruct (decide (s = a)) as [<-|]; [|by apply H2].
      apply fmap_Some in Ha as (d2 & Hd2 & ->). exact (H2 d2 Hd2). }
  assert (forall p x, qs h2 p x <-> qs h p x) as Hq2 by (intros; by apply (same_rest_qs h h2)).
  assert (obq_ok h2) as Hok2 by (apply (same_rest_obq h); [done|apply HI]).
  assert (forall x, has_parent h x -> sync h2 x) as Hsy2.
  { intros x Hx. apply (same_rest_sync h h2); [done|]. by apply (si_sync _ _ _ HI); [|intros ?]. }
  wp_step. destruct (Z.eqb_spec (queued s1) 0) as [Hz|Hz]; cbn [negb].
  - apply wp_ret. apply Hfin; [done|done| |auto]. intros p x Hx. apply Hq2 in Hx. split; [done|]. intros ->.
    assert (is_queued h2 s) as (s3 & ? & ?); [|congruence]. apply Hok2. exists p. by apply Hq2.
  - apply (wp_obq_remove _ s q lq); simpl; [done| |exists s2; split; [done|]; by rewrite Es2| | |].
    + apply (links_chain (deps h1)); [done|]. by apply (relinked_chain (deps h) _ _ _ _ Hls L1).
    + intros x Hx Hpx. apply Hsy2. rewrite has_parent_of in Hpx |- *. by setoid_rewrite <- Hpar.
    + intros x Hx p Hp. apply Hpar, (si_parent _ _ _ HI). by apply Hq2.
    + intros h3 m (G1 & G2 & G3 & G4 & G5 & G6). apply Hfin; [done|done| |].
      * intros p x Hx. split; [by apply Hq2, G4|]. intros ->. apply G3, G1. eauto.
      * intros x Hx Hpx. apply G6; [done| |by apply Hsy2]. rewrite has_parent_of in Hpx |- *. by setoid_rewrite Hpar.
Qed.
