(* ===== verification/StreamItems.v ===== *)
(** * Streams: items, weights, new streams

    The operations that leave the shape of the dependency tree alone keep the
    invariant with the same tree: attaching, detaching, deferring and
    resuming the item of a stream, moving a stream behind its siblings after
    it was served, changing its weight. *)

From S2P Require Import Prelude Defs Pq Frame Http Stream StreamLinks StreamQueue StreamTree StreamInsert.

Implicit Types (ss cs ds : nghttp2_stream) (h : gmap Z nghttp2_stream) (w : world)
  (D : gmap Z stream_dep) (kids : gmap Z (list Z)).

(** ** Changes of the item and the flags *)

(** [s'] differs from [s] in its item and flags. *)
Record retouch (s s' : nghttp2_stream) : Prop := {
  rt_dep : st_dep s' = st_dep s;
  rt_sched : st_sched s' = st_sched s;
  rt_flag : no_rfc7540_priorities s' = no_rfc7540_priorities s;
}.

Lemma retouch_lookup h a s s' x (x' : nghttp2_stream) : h !! a = Some s -> retouch s s' -> <[a := s']> h !! x = Some x' ->
  exists x0, h !! x = Some x0 /\ retouch x0 x' /\ (x <> a -> x' = x0).
Proof.
  intros Ha HR. destruct (decide (x = a)) as [->|Hne].
  - rewrite lookup_insert_eq. intros [= <-]. exists s. by split_and!.
  - rewrite lookup_insert_ne by done. intros Hx. exists x'. split_and!; [done|by split|done].
Qed.

Lemma retouch_deps h a s s' : h !! a = Some s -> retouch s s' -> deps (<[a := s']> h) = deps h.
Proof.
  intros Ha HR. unfold deps. rewrite fmap_insert, (rt_dep _ _ HR). apply insert_id. by rewrite lookup_fmap, Ha.
Qed.

Lemma retouch_sched h a s s' : h !! a = Some s -> retouch s s' -> st_sched <$> <[a := s']> h = st_sched <$> h.
Proof. intros Ha HR. rewrite fmap_insert, (rt_sched _ _ HR). apply insert_id. by rewrite lookup_fmap, Ha. Qed.

(** The queues depend on what the scheduler keeps. *)
Definition same_sched h h' : Prop := st_sched <$> h' = st_sched <$> h.

Lemma sched_qs h h' p c : same_sched h h' -> qs h' p c <-> qs h p c.
Proof.
  intros H. unfold qs. split; intros (s & Hs & Hin).
  - destruct (same_lookup_r _ _ _ _ _ H Hs) as (s' & Hs' & E). exists s'. split; [done|]. by rewrite E.
  - destruct (same_lookup _ _ _ _ _ H Hs) as (s' & Hs' & E). exists s'. split; [done|]. by rewrite E.
Qed.

Lemma sched_queued h h' c : same_sched h h' -> is_queued h' c <-> is_queued h c.
Proof.
  intros H. unfold is_queued. split; intros (s & Hs & Hin).
  - destruct (same_lookup_r _ _ _ _ _ H Hs) as (s' & Hs' & E). exists s'. split; [done|]. by rewrite E.
  - destruct (same_lookup _ _ _ _ _ H Hs) as (s' & Hs' & E). exists s'. split; [done|]. by rewrite E.
Qed.

Lemma sched_obq h h' : same_sched h h' -> obq_ok h -> obq_ok h'.
Proof.
  intros H [[Hi Hc Hu] Hf]. split; [split|].
  - intros p s i c Hs Hl. destruct (same_lookup_r _ _ _ _ _ H Hs) as (s' & Hs' & E). rewrite <- E in Hl.
    destruct (Hi p s' i c Hs' Hl) as (cs & Hcs & <-). destruct (same_lookup _ _ _ _ _ H Hcs) as (cs' & Hcs' & E').
    exists cs'. split; [done|]. by rewrite E'.
  - intros p s Hs. destruct (same_lookup_r _ _ _ _ _ H Hs) as (s' & Hs' & E). rewrite <- E. by apply (Hc p).
  - intros p p' c. rewrite !(sched_qs h h') by done. apply Hu.
  - intros c. rewrite (sched_queued h h'), Hf by done. split; intros [p Hp]; exists p; by apply (sched_qs h h').
Qed.

Lemma retouch_active h a s s' x : h !! a = Some s -> retouch s s' -> x <> a -> active (<[a := s']> h) x <-> active h x.
Proof. intros Ha HR Hx. unfold active. by rewrite lookup_insert_ne. Qed.

Lemma deps_parent h h' x p : deps h' = deps h -> parent_of h' x p <-> parent_of h x p.
Proof.
  intros E. apply links_parent. intros a. by rewrite E.
Qed.

(** The rule of the queues is to be restored at [a] only. *)
Lemma retouch_inv h kids a s s' : stream_inv h kids -> h !! a = Some s -> retouch s s' -> stream_inv_but (eq a) (<[a := s']> h) kids.
Proof.
  intros HI Ha HR. pose proof (retouch_deps h a s s' Ha HR) as ED. pose proof (retouch_sched h a s s' Ha HR) as ES.
  split; rewrite ?ED; [apply HI|apply HI|apply HI|by apply (sched_obq h), HI| | | |].
  - intros x p Hx%(sched_qs h); [|done]. apply (deps_parent h); [done|]. by apply (si_parent _ _ _ HI).
  - intros x Hx Hne. assert (sync h x) as Hs.
    { apply (si_sync _ _ _ HI); [|tauto]. rewrite has_parent_of in Hx |- *. by setoid_rewrite <- (deps_parent h (<[a := s']> h) x). }
    unfold sync, live in Hs |- *. rewrite (sched_queued h), (retouch_active h a s s') by (done || congruence).
    by setoid_rewrite (sched_qs h (<[a := s']> h)).
  - intros x x' Hx Hp. destruct (retouch_lookup h a s s' x x' Ha HR Hx) as (x0 & Hx0 & HR0 & _).
    rewrite (rt_flag _ _ HR0). apply (si_flags _ _ _ HI x); [done|]. by rewrite <- (rt_dep _ _ HR0).
  - rewrite map_size_insert_Some by eauto. apply HI.
Qed.

(** Nothing to restore at a root. *)
Lemma inv_at_root h kids a ss : stream_inv_but (eq a) h kids -> h !! a = Some ss -> dep_prev ss = None -> stream_inv h kids.
Proof.
  intros HI Ha Hp. apply (inv_weaken (eq a)); [done| |solve_decision]. intros x (s' & ? & ?) _ <-. congruence.
Qed.

(** ** Queueing and unqueueing the changed stream *)

Lemma wp_queue_changed ok a ss w kids (Q : Z -> world -> Prop) : stream_inv_but (eq a) (streams w) kids -> streams w !! a = Some ss ->
  live (streams w) a -> (forall h n, refused ok -> same_core (streams w) h -> Q NGHTTP2_ERR_NOMEM (mk_world h n)) ->
  (forall h n, stream_inv h kids -> Q 0 (mk_world h n)) -> wp (stream_obq_push ok (dep_prev ss) a) w Q.
Proof.
  intros HI Ha Hl Hnomem HQ. destruct (dep_prev ss) as [p|] eqn:Hp.
  - apply (wp_push_live ok p a w kids); try done. by exists ss.
  - unfold stream_obq_push. do 2 wp_step. cbn [obq_push_loop]. apply wp_ret. destruct w. apply HQ. by apply (inv_at_root _ _ a ss).
Qed.

Lemma wp_unqueue_changed a w kids (ss : nghttp2_stream) : stream_inv_but (eq a) (streams w) kids -> streams w !! a = Some ss -> stream_active ss = false ->
  (live (streams w) a -> has_parent (streams w) a -> is_queued (streams w) a) ->
  wp (stream_update_dep_on_detach_item a) w (fun _ w' => stream_inv (streams w') kids).
Proof.
  destruct w as [h n]. simpl. intros HI Ha Hact Hq. unfold stream_update_dep_on_detach_item. wp_step. wp_step.
  assert (~ active h a) as Hna by (intros (s' & ? & ?); congruence).
  destruct (length (obq_q ss) =? 0)%nat eqn:Hlen.
  - assert (forall c, ~ qs h a c) as Hempty.
    { intros c (s' & Hs' & Hin). rewrite Ha in Hs'. injection Hs' as <-. apply Nat.eqb_eq in Hlen.
      destruct (obq_q ss); [by apply elem_of_nil in Hin|done]. }
    assert (~ live h a) as Hdead by (intros [|[c Hc]]; [done|by apply (Hempty c)]).
    destruct (decide (is_queued h a)) as [Hqa|Hnq].
    + pose proof Hqa as [p Hpa]%(si_obq _ _ _ HI). pose proof (si_parent _ _ _ HI _ _ Hpa) as (s1 & Hs1 & Hp). rewrite Ha in Hs1. injection Hs1 as <-.
      destruct (t_acyclic _ _ (si_tree _ _ _ HI) a ltac:(apply deps_dom; eauto)) as [la Hla].
      destruct la as [|p' lp]; [apply chain_nil in Hla as (? & ? & ?); congruence|].
      assert (p' = p) as -> by (destruct (chain_cons _ _ _ _ Hla) as (? & ? & ? & _); congruence).
      apply (wp_obq_remove _ a p lp); simpl; [apply HI|done|done| |intros; apply HI|].
      * intros x Hx Hpx. apply (si_sync _ _ _ HI); [done|]. intros <-. by apply dchain_notin in Hla.
      * intros h' m (G1 & G2 & G3 & G4 & G5 & G6). apply (inv_requeue (eq a) _ h); [done|done|done| |].
        -- intros x q Hx. by apply (si_parent _ _ _ HI), G4.
        -- intros x Hx _. destruct (decide (x = a)) as [->|Hne].
           ++ split; [done|]. intros [Hax|[c Hc]]; [by apply (same_core_active h h') in Hax|exfalso; by apply (Hempty c), G4].
           ++ apply G6; [done|done|]. apply (si_sync _ _ _ HI); [done|congruence].
    + unfold stream_obq_remove. do 2 wp_step. rewrite (proj2 (queued_test_false h a ss Ha) Hnq). apply wp_ret.
      apply (inv_weaken (eq a)); [done| |solve_decision]. intros x _ _ <-. by split.
  - apply wp_ret. apply (inv_weaken (eq a)); [done| |solve_decision]. intros x Hx _ <-.
    assert (live h a) as Hl.
    { right. apply Nat.eqb_neq in Hlen. destruct (obq_q ss) as [|c l] eqn:E; [done|]. exists c, ss. split; [done|]. rewrite E. by left. }
    split; [done|]. intros _. by apply Hq.
Qed.

(** ** Items *)

Lemma u8_land x m : 0 <= m < 256 -> u8 x .& m = x .& m.
Proof.
  intros Hm. unfold u8. change 256 with (2 ^ 8). apply Z.bits_inj'. intros i Hi. rewrite !Z.land_spec.
  destruct (decide (i < 8)); [by rewrite Z.mod_pow2_bits_low by lia|].
  assert (Z.testbit m i = false) as ->; [|by rewrite !andb_false_r].
  apply (Z.bits_above_log2 m i); [lia|]. destruct (decide (m = 0)) as [->|]; [simpl; lia|].
  assert (Z.log2 m < 8); [|lia]. apply Z.log2_lt_pow2; lia.
Qed.

(** The arguments that the callers pass. *)
Definition deferral (f : Z) : Prop := f = NGHTTP2_STREAM_FLAG_DEFERRED_FLOW_CONTROL \/ f = NGHTTP2_STREAM_FLAG_DEFERRED_USER \/ f = NGHTTP2_STREAM_FLAG_DEFERRED_ALL.

(** Setting and clearing these flags says nothing about the others. *)
Lemma lor_deferral x f : deferral f -> u8 (x .| f) .& 16 = x .& 16 /\ (u8 (x .| f) .& 12 =? 0) = false.
Proof.
  intros Hf. rewrite !u8_land by lia. rewrite !Z.land_lor_distr_l. split.
  - destruct Hf as [->|[->| ->]]; apply Z.lor_0_r.
  - apply Z.eqb_neq. intros E. apply (f_equal (fun z => Z.testbit z 2 || Z.testbit z 3)) in E. rewrite !Z.lor_spec in E.
    destruct Hf as [->|[->| ->]]; cbn in E; rewrite ?orb_true_r in E; simpl in E; rewrite ?orb_true_r in E; done.
Qed.

Lemma ldiff_deferral x f : deferral f -> u8 (x .& Z.lnot f) .& 16 = x .& 16.
Proof.
  intros Hf. rewrite u8_land by lia. rewrite <- Z.land_assoc. f_equal. by destruct Hf as [->|[->| ->]].
Qed.

Lemma ldiff_still_deferred x f : deferral f -> (u8 (x .& Z.lnot f) .& 12 =? 0) = false -> (x .& 12 =? 0) = false.
Proof.
  intros Hf. rewrite u8_land by lia. rewrite !Z.eqb_neq. intros H E. apply H.
  rewrite <- Z.land_assoc, (Z.land_comm (Z.lnot f)), Z.land_assoc, E. apply Z.land_0_l.
Qed.

Lemma retouch_item v s : retouch s (item_to v s).
Proof. by split. Qed.

Lemma retouch_flags v (s : nghttp2_stream) : v .& 16 = sm_flags s .& 16 -> retouch s (flags_to v s).
Proof. intros E. split; [done|done|]. unfold no_rfc7540_priorities, NGHTTP2_STREAM_FLAG_NO_RFC7540_PRIORITIES. cbn. by rewrite E. Qed.

Lemma retouch_trans s1 s2 s3 : retouch s1 s2 -> retouch s2 s3 -> retouch s1 s3.
Proof. intros [A1 B1 C1] [A2 B2 C2]. split; congruence. Qed.

(** A stream outside of the tree has no queue to be in. *)
Lemma off_tree X h kids a ss : stream_inv_but X h kids -> h !! a = Some ss -> no_rfc7540_priorities ss = true -> dep_prev ss = None.
Proof.
  intros HI Ha Hf. destruct (dep_prev ss) as [p|] eqn:E; [|done]. exfalso.
  pose proof (si_flags _ _ _ HI a ss Ha ltac:(congruence)). congruence.
Qed.

Lemma retouch_live h a s s' : h !! a = Some s -> retouch s s' -> stream_active s' = true -> live (<[a := s']> h) a.
Proof. intros Ha HR Hact. left. exists s'. by rewrite lookup_insert_eq. Qed.

(** A stream that stops being active stays queued for its descendants only. *)
Lemma retouch_queued h kids a s s' : stream_inv h kids -> h !! a = Some s -> retouch s s' -> stream_active s' = false ->
  live (<[a := s']> h) a -> has_parent (<[a := s']> h) a -> is_queued (<[a := s']> h) a.
Proof.
  intros HI Ha HR Hact Hl Hp. pose proof (retouch_sched h a s s' Ha HR) as ES. apply (sched_queued h); [done|].
  assert (has_parent h a) as Hp'.
  { destruct Hp as (x & Hx & Hpx). rewrite lookup_insert_eq in Hx. injection Hx as <-. exists s. split; [done|]. by rewrite <- (rt_dep _ _ HR). }
  apply (si_sync _ _ _ HI a Hp' ltac:(tauto)). destruct Hl as [(x & Hx & Hax)|[c Hc]].
  - rewrite lookup_insert_eq in Hx. congruence.
  - right. exists c. by apply (sched_qs h (<[a := s']> h)).
Qed.

Lemma wp_attach_item ok a it w kids ss : stream_inv (streams w) kids -> streams w !! a = Some ss ->
  item ss = None -> sm_flags ss .& NGHTTP2_STREAM_FLAG_DEFERRED_ALL = 0 ->
  wp (nghttp2_stream_attach_item ok a it) w (outcome ok (fun h => stream_inv h kids)).
Proof.
  destruct w as [h n]. simpl. intros HI Ha Hit Hfl. unfold nghttp2_stream_attach_item. do 2 wp_step.
  wp_step. apply wp_assert; [by apply Z.eqb_eq|]. wp_step. apply wp_assert; [by apply bool_decide_eq_true|]. do 2 wp_step. simpl.
  set (s' := item_to (Some it) ss). pose proof (retouch_item (Some it) ss) as HR. fold s' in HR.
  pose proof (retouch_inv h kids a ss s' HI Ha HR) as HI'.
  assert (stream_active s' = true) as Hact.
  { unfold stream_active. cbn. by rewrite Hfl. }
  destruct (no_rfc7540_priorities ss) eqn:Hnp.
  - apply wp_ret. right. split; [done|]. simpl. apply (inv_at_root _ _ a s'); [done|by rewrite lookup_insert_eq|].
    rewrite (rt_dep _ _ HR). by apply (off_tree (fun _ => False) h kids a).
  - wp_step. unfold stream_update_dep_on_attach_item. wp_step. eapply wp_load; [simpl; by rewrite lookup_insert_eq|].
    apply (wp_queue_changed ok a s' _ kids); simpl; [done|by rewrite lookup_insert_eq|by apply (retouch_live h a ss)| |].
    + intros h' m Hr HC. cbn. destruct (same_lookup core _ h' a s' HC ltac:(by rewrite lookup_insert_eq)) as (s2 & Hs2 & _).
      wp_step. eapply wp_modify; [exact Hs2|]. apply wp_ret. by left.
    + intros h' m HI2. cbn [Z.eqb negb]. apply wp_ret. by right.
Qed.

Lemma wp_detach_item a w kids : stream_inv (streams w) kids -> is_Some (streams w !! a) ->
  wp (nghttp2_stream_detach_item a) w (fun _ w' => stream_inv (streams w') kids).
Proof.
  destruct w as [h n]. simpl. intros HI [ss Ha]. unfold nghttp2_stream_detach_item. do 2 wp_step. wp_step.
  eapply wp_modify; [simpl; by rewrite lookup_insert_eq|]. simpl. rewrite insert_insert_eq.
  match goal with |- context [<[a := ?x]> h] => set (s' := x) end.
  assert (retouch ss s') as HR.
  { eapply retouch_trans; [apply (retouch_item None)|]. apply retouch_flags. apply (ldiff_deferral _ NGHTTP2_STREAM_FLAG_DEFERRED_ALL). by right; right. }
  pose proof (retouch_inv h kids a ss s' HI Ha HR) as HI'. assert (stream_active s' = false) as Hact by done.
  wp_step. eapply wp_load; [simpl; by rewrite lookup_insert_eq|]. destruct (no_rfc7540_priorities s') eqn:Hnp.
  - apply wp_ret. simpl. apply (inv_at_root _ _ a s'); [done|by rewrite lookup_insert_eq|]. rewrite (rt_dep _ _ HR).
    apply (off_tree (fun _ => False) h kids a); [done|done|]. by rewrite <- (rt_flag _ _ HR).
  - apply (wp_unqueue_changed a _ kids s'); simpl; [done|by rewrite lookup_insert_eq|done|]. by apply (retouch_queued h kids a ss).
Qed.

Lemma wp_defer_item a f w kids ss : stream_inv (streams w) kids -> streams w !! a = Some ss -> is_Some (item ss) -> deferral f ->
  wp (nghttp2_stream_defer_item a f) w (fun _ w' => stream_inv (streams w') kids).
Proof.
  destruct w as [h n]. simpl. intros HI Ha Hit Hf. unfold nghttp2_stream_defer_item. do 2 wp_step. wp_step.
  apply wp_assert; [by apply bool_decide_eq_true|]. do 2 wp_step. simpl. destruct (lor_deferral (sm_flags ss) f Hf) as [E1 E2].
  set (s' := flags_to (u8 (sm_flags ss .| f)) ss). pose proof (retouch_flags _ ss E1) as HR. fold s' in HR.
  pose proof (retouch_inv h kids a ss s' HI Ha HR) as HI'. assert (stream_active s' = false) as Hact.
  { unfold stream_active. cbn. unfold NGHTTP2_STREAM_FLAG_DEFERRED_ALL. rewrite E2. apply andb_false_r. }
  wp_step. eapply wp_load; [simpl; by rewrite lookup_insert_eq|]. destruct (no_rfc7540_priorities s') eqn:Hnp.
  - apply wp_ret. simpl. apply (inv_at_root _ _ a s'); [done|by rewrite lookup_insert_eq|]. rewrite (rt_dep _ _ HR).
    apply (off_tree (fun _ => False) h kids a); [done|done|]. by rewrite <- (rt_flag _ _ HR).
  - apply (wp_unqueue_changed a _ kids s'); simpl; [done|by rewrite lookup_insert_eq|done|]. by apply (retouch_queued h kids a ss).
Qed.

(** Before and after, the stream is not active. *)
Lemma retouch_idle h kids a s s' : stream_inv h kids -> h !! a = Some s -> retouch s s' -> stream_active s = false -> stream_active s' = false ->
  stream_inv (<[a := s']> h) kids.
Proof.
  intros HI Ha HR H1 H2. pose proof (retouch_inv h kids a s s' HI Ha HR) as HI'.
  apply (inv_weaken (eq a)); [done| |solve_decision]. intros x Hx _ <-. split.
  - intros Hq%(sched_queued h); [|by apply retouch_sched with s]. assert (has_parent h a) as Hp.
    { destruct Hx as (x & Hx & Hpx). rewrite lookup_insert_eq in Hx. injection Hx as <-. exists s. split; [done|]. by rewrite <- (rt_dep _ _ HR). }
    apply (si_sync _ _ _ HI a Hp ltac:(tauto)) in Hq as [(x & ? & ?)|[c Hc]]; [congruence|]. right. exists c.
    apply (sched_qs h); [by apply retouch_sched with s|done].
  - intros Hl. by apply (retouch_queued h kids a s).
Qed.

Lemma wp_resume_item ok a f w kids ss : stream_inv (streams w) kids -> streams w !! a = Some ss -> is_Some (item ss) -> deferral f ->
  wp (nghttp2_stream_resume_deferred_item ok a f) w (outcome ok (fun h => stream_inv h kids)).
Proof.
  destruct w as [h n]. simpl. intros HI Ha Hit Hf. unfold nghttp2_stream_resume_deferred_item. do 2 wp_step. wp_step.
  apply wp_assert; [by apply bool_decide_eq_true|]. do 2 wp_step. simpl.
  set (s' := flags_to (u8 (sm_flags ss .& Z.lnot f)) ss). pose proof (retouch_flags _ ss (ldiff_deferral (sm_flags ss) f Hf)) as HR. fold s' in HR.
  pose proof (retouch_inv h kids a ss s' HI Ha HR) as HI'.
  wp_step. eapply wp_load; [simpl; by rewrite lookup_insert_eq|].
  destruct (sm_flags s' .& NGHTTP2_STREAM_FLAG_DEFERRED_ALL =? 0) eqn:Hd; cbn [negb].
  - destruct (no_rfc7540_priorities s') eqn:Hnp.
    + apply wp_ret. right. split; [done|]. simpl. apply (inv_at_root _ _ a s'); [done|by rewrite lookup_insert_eq|]. rewrite (rt_dep _ _ HR).
      apply (off_tree (fun _ => False) h kids a); [done|done|]. by rewrite <- (rt_flag _ _ HR).
    + unfold stream_update_dep_on_attach_item. wp_step. eapply wp_load; [simpl; by rewrite lookup_insert_eq|].
      apply (wp_queue_changed ok a s' _ kids); simpl; [done|by rewrite lookup_insert_eq| |by left|by right].
      apply (retouch_live h a ss); [done|done|]. unfold stream_active. rewrite Hd, bool_decide_eq_true_2; [done|exact Hit].
  - apply wp_ret. right. split; [done|]. simpl. apply (retouch_idle h kids a ss); [done|done|done| |].
    + unfold stream_active. unfold NGHTTP2_STREAM_FLAG_DEFERRED_ALL. rewrite (ldiff_still_deferred _ f Hf); [apply andb_false_r|exact Hd].
    + unfold stream_active. rewrite Hd. apply andb_false_r.
Qed.

(** ** Serving *)

(** The ancestors of a stream with something to send are queued, all but the root. *)
Lemma live_ancestors X h kids a l : stream_inv_but X h kids -> (forall x, x ∈ a :: l -> ~ X x) -> chain h a l -> live h a ->
  forall x, x ∈ a :: l -> has_parent h x -> live h x /\ is_queued h x.
Proof.
  intros HI. revert a. induction l as [|p l IH]; intros a HX Hch Hl x Hx Hpx.
  - apply list_elem_of_singleton in Hx as ->. apply chain_nil in Hch as (s & ? & ?). destruct Hpx as (? & ? & ?). congruence.
  - destruct (chain_cons _ _ _ _ Hch) as (s & Hs & Hp & Hch2). assert (is_queued h a) as Hqa.
    { apply (si_sync _ _ _ HI); [exists s; split; [done|congruence]|by apply HX; left|done]. }
    apply elem_of_cons in Hx as [->|Hx]; [done|]. apply (IH p); try done; [intros y Hy; apply HX; by right|].
    right. exists a. pose proof Hqa as [p' Hp']%(si_obq _ _ _ HI). pose proof (si_parent _ _ _ HI _ _ Hp') as (s' & ? & ?).
    assert (p' = p) as -> by congruence. done.
Qed.

Lemma parent_queue X h kids x p : stream_inv_but X h kids -> is_queued h x -> parent_of h x p -> qs h p x.
Proof.
  intros HI [p' Hp']%(si_obq _ _ _ HI) (s & Hs & Hp). pose proof (si_parent _ _ _ HI _ _ Hp') as (s' & ? & ?).
  assert (p' = p) as -> by congruence. done.
Qed.

(** The chain above a stream that has a parent. *)
Lemma parent_chain X h kids a p : stream_inv_but X h kids -> parent_of h a p -> exists l, chain h a (p :: l) /\ chain h p l.
Proof.
  intros HI (s & Hs & Hp). destruct (t_acyclic _ _ (si_tree _ _ _ HI) a ltac:(apply deps_dom; eauto)) as [la Hla].
  destruct la as [|p' l]; [apply chain_nil in Hla as (? & ? & ?); congruence|].
  destruct (chain_cons _ _ _ _ Hla) as (s' & ? & ? & Hl). assert (p' = p) as -> by congruence. eauto.
Qed.

Lemma same_queues_inv X h h' kids : stream_inv_but X h kids -> same_queues h h' -> stream_inv_but X h' kids.
Proof.
  intros HI (Hok & HC & Hqs). apply (inv_requeue X X h h'); [done|done|done| |].
  - intros x p Hx. by apply (si_parent _ _ _ HI), Hqs.
  - intros x Hx HX. apply (sync_same h h'); [apply HI|done|by apply same_core_active|done|by apply HI].
Qed.

Lemma wp_reschedule ok a w kids : stream_inv (streams w) kids -> is_queued (streams w) a ->
  wp (nghttp2_stream_reschedule ok a) w (fun _ w' => stream_inv (streams w') kids).
Proof.
  destruct w as [h n]. simpl. intros HI Hqa. pose proof Hqa as (s & Hs & Hq). pose proof Hqa as [p Hpa]%(si_obq _ _ _ HI).
  pose proof (si_parent _ _ _ HI _ _ Hpa) as Hp. destruct (parent_chain _ _ _ _ _ HI Hp) as (l & Hch & Hch2).
  assert (dep_prev s = Some p) as Edp by (destruct Hp as (? & ? & ?); congruence).
  unfold nghttp2_stream_reschedule. do 2 wp_step. wp_step. apply wp_assert; [by apply (queued_test h a s)|]. do 2 wp_step. rewrite Edp.
  apply (wp_reschedule_loop ok l); simpl; [apply HI|done|done|apply weights_ok_deps, HI|by apply (chain_fuel_ok h p)| |].
  - intros x q Hx Hxq. assert (live h p) as Hlp by (right; eauto). eapply parent_queue; [done| |done].
    eapply (live_ancestors _ h kids p l); [done|by intros ? _ ?|done|done|done|by eapply parent_has].
  - intros h' m HS. simpl. by apply (same_queues_inv _ h).
Qed.

(** ** Weights *)

Lemma tree_links D D' kids : same_links D D' -> tree_ok D kids -> tree_ok D' kids.
Proof.
  intros HL HT.
  assert (forall a d', D' !! a = Some d' -> exists d, D !! a = Some d /\ links d' = links d) as Hbwd.
  { intros a d' Ha. specialize (HL a). rewrite Ha in HL. destruct (D !! a) as [d|]; [|done]. exists d. split; [done|]. simpl in HL. congruence. }
  assert (forall a, is_Some (D' !! a) <-> is_Some (D !! a)) as Hdom.
  { intros a. specialize (HL a). destruct (D' !! a), (D !! a); simpl in HL; try done; by split; eauto. }
  unfold links in Hbwd. split.
  - intros a. rewrite Hdom. apply HT.
  - intros p l d' Hl Hd'. destruct (Hbwd p d' Hd') as (d & Hd & E). destruct (t_list _ _ HT p l d Hl Hd) as (E1 & E2 & E3).
    split_and!; [congruence|done|]. apply (dllseg_ext D); [|done]. intros c _. specialize (HL c). unfold sib_links, links in *.
    destruct (D' !! c), (D !! c); simpl in *; congruence.
  - intros c d' p Hd' Hp. destruct (Hbwd c d' Hd') as (d & Hd & E). apply (t_parent _ _ HT c d); [done|congruence].
  - intros c d' Hd' Hp. destruct (Hbwd c d' Hd') as (d & Hd & E). destruct (t_root _ _ HT c d Hd ltac:(congruence)). split; congruence.
  - intros a Ha%Hdom. destruct (t_acyclic _ _ HT a Ha) as [l Hl]. exists l. by apply (links_chain D).
Qed.

(** Only weights changed. *)
Lemma reweigh_inv h h' kids : stream_inv h kids -> same_rest h h' -> same_links (deps h) (deps h') -> wts_ok (deps h') ->
  (forall p l d, kids !! p = Some l -> deps h' !! p = Some d -> sum_dep_weight d = wsum (deps h') l) -> stream_inv h' kids.
Proof.
  intros HI HR HL Hw Hsum. apply (inv_rebuild (fun _ => False) _ h h' kids); [done|done|by apply (tree_links (deps h)), HI|done|done| | |].
  - intros x p Hx. apply (links_parent h h'); [done|]. by apply (si_parent _ _ _ HI).
  - intros x Hx HX. apply (si_sync _ _ _ HI); [|done]. by apply (links_has_parent h h').
  - intros b s' Hs' Hp. destruct (same_lookup_r _ _ _ _ _ HR Hs') as (s0 & Hs0 & E0).
    assert (no_rfc7540_priorities s' = no_rfc7540_priorities s0) as ->.
    { unfold no_rfc7540_priorities. apply (f_equal (fun x : nghttp2_stream => sm_flags x)) in E0. cbn in E0. by rewrite E0. }
    apply (si_flags _ _ _ HI b); [done|]. pose proof (HL b) as E. rewrite (deps_lookup _ _ _ Hs0), (deps_lookup _ _ _ Hs') in E.
    simpl in E. unfold links in E. congruence.
Qed.

(** The stream comes back to the queue of its parent with another cycle. *)
Lemma wp_requeue_reweighed ok d a (ow : Z) w kids (s0 : nghttp2_stream) : stream_inv (streams w) kids -> qs (streams w) d a -> 1 <= ow <= 256 ->
  wp (obq_delete d a;;
      st_assert (negb (u32 ow =? 0));;
      let* s := load a in
      modify a (upd_sched (pending_penalty_to (old_penalty s ow)));;
      let* s := load a in
      let wlen_penalty := u64 (last_writelen s * NGHTTP2_MAX_WEIGHT) in
      let last_cycle := u64 (cycle s - u64 (wlen_penalty + pending_penalty s) / u32 ow) in
      stream_next_cycle a last_cycle;;
      let* s := load a in
      let* ds := load d in
      (if u64 (descendant_last_cycle ds - cycle s) <=? NGHTTP2_MAX_CYCLE_DISTANCE then
         modify a (upd_sched (cycle_to (descendant_last_cycle ds)))
       else mret tt);;
      let* _ := obq_insert ok d a in
      mret tt) w (fun _ w' => stream_inv (streams w') kids).
Proof.
  destruct w as [h n]. simpl. intros HI Hda How. pose proof (si_obq _ _ _ HI) as Hok. pose proof (proj2 (weights_ok_deps h) (si_weight _ _ _ HI)) as Hw.
  assert (is_Some (h !! a)) as [sa Ha] by (assert (is_queued h a) as (cs & ? & _) by (apply Hok; eauto); eauto).
  assert (is_Some (h !! d)) as [sd Hd] by (destruct Hda as (? & ? & _); eauto).
  wp_step. apply wp_obq_delete; [apply Hok|done|]. simpl. intros h1 Hdel. pose proof Hdel as (_ & Hc1%same_key_core & _).
  destruct (same_lookup _ _ _ _ _ Hc1 Ha) as (a1 & Ha1 & _). wp_step.
  apply wp_assert; [unfold u32; rewrite Z.mod_small by lia; destruct (Z.eqb_spec ow 0); [lia|done]|].
  wp_step. eapply wp_load; [exact Ha1|]. wp_step. eapply wp_modify; [exact Ha1|]. simpl.
  match goal with |- wp _ (mk_world ?h _) _ => assert (quiet h1 h) as Hq2 by (by apply upd_quiet); set (h2 := h) in * end. clearbody h2.
  destruct (quiet_dom _ _ a Hq2 ltac:(eauto)) as [a2 Ha2]. wp_step. eapply wp_load; [exact Ha2|]. cbv zeta. wp_step.
  apply wp_next_cycle; [eauto|simpl; apply (same_core_weights h1); [apply Hq2|by apply (same_core_weights h)]|]. simpl. intros h3 Hq3.
  assert (quiet h1 h3) as Hq13 by (by etrans). destruct (quiet_dom _ _ a Hq13 ltac:(eauto)) as [a3 Ha3].
  destruct (same_lookup _ _ _ _ _ Hc1 Hd) as (d1 & Hd1 & _). destruct (quiet_dom _ _ d Hq13 ltac:(eauto)) as [d3 Hd3].
  wp_step. eapply wp_load; [exact Ha3|]. wp_step. eapply wp_load; [exact Hd3|]. wp_step.
  assert (forall h4 m, quiet h1 h4 -> wp (let* _ := obq_insert ok d a in mret tt) (mk_world h4 m) (fun _ w' => stream_inv (streams w') kids)) as Hfin.
  { intros h4 m Hq4. wp_step. apply (requeued ok h d a h1 h4); [done|done|done|done|]. intros h5 m5 Hok5 Hc5 Hqs5. apply wp_ret. simpl.
    apply (same_queues_inv _ h); [done|]. by split_and!. }
  destruct (_ <=? _).
  - eapply wp_modify; [exact Ha3|]. apply Hfin. etrans; [exact Hq13|]. by apply upd_quiet.
  - apply wp_ret. by apply Hfin.
Qed.

Lemma wp_change_weight ok a (nw : Z) w kids : stream_inv (streams w) kids -> is_Some (streams w !! a) -> 1 <= nw <= 256 ->
  wp (nghttp2_stream_change_weight ok a nw) w (fun _ w' => stream_inv (streams w') kids).
Proof.
  destruct w as [h n]. simpl. intros HI [s Ha] Hnw. unfold nghttp2_stream_change_weight. do 2 wp_step.
  destruct (Z.eqb_spec (weight s) nw); [by apply wp_ret|]. wp_step. apply wp_modify_dep; [eauto|]. intros h1 R1 D1. simpl in R1, D1.
  pose proof (si_tree _ _ _ HI) as HT. pose proof (si_weight _ _ _ HI a s (deps_lookup _ _ _ Ha)) as Hwa.
  assert (same_links (deps h) (deps h1)) as L1 by (rewrite D1; by apply same_links_alter).
  assert (wts_ok (deps h1)) as W1.
  { intros b d Hd. rewrite D1, lookup_alter in Hd. destruct (decide (a = b)) as [<-|]; [|by apply (si_weight _ _ _ HI b)].
    rewrite (deps_lookup _ _ _ Ha) in Hd. injection Hd as <-. done. }
  assert (forall c, weight_of (deps h1) c = if decide (c = a) then nw else weight_of (deps h) c) as Hwo.
  { intros c. unfold weight_of. rewrite D1, lookup_alter. destruct (decide (a = c)) as [<-|]; [|by rewrite decide_False].
    rewrite decide_True, (deps_lookup _ _ _ Ha) by done. done. }
  assert (forall l, NoDup l -> wsum (deps h1) l = wsum (deps h) l + if decide (a ∈ l) then nw - weight s else 0) as Hws.
  { induction l as [|c l IH]; [done|]. intros [Hc Hnd]%NoDup_cons. cbn [wsum foldr]. fold (wsum (deps h1) l) (wsum (deps h) l).
    rewrite Hwo, (IH Hnd). destruct (decide (c = a)) as [->|Hca].
    - rewrite decide_False by done. rewrite decide_True by (by left). unfold weight_of. rewrite (deps_lookup _ _ _ Ha). lia.
    - destruct (decide (a ∈ l)); [rewrite decide_True by (by right)|rewrite decide_False by (by intros [?|?]%elem_of_cons)]; lia. }
  assert (forall b d', deps h1 !! b = Some d' -> exists d, deps h !! b = Some d /\ sum_dep_weight d' = sum_dep_weight d) as Hsw.
  { intros b d'. rewrite D1, lookup_alter. destruct (decide (a = b)) as [<-|]; [|eauto]. intros (d & Hd & ->)%fmap_Some. eauto. }
  destruct (dep_prev s) as [p|] eqn:Hp.
  2:{ apply wp_ret. simpl. apply (reweigh_inv h); [done|done|done|done|]. intros q l d' Hl Hd'. destruct (Hsw q d' Hd') as (d & Hd & ->).
      destruct (inv_kids _ _ _ _ _ HI Hl) as (Hnd & _ & Hkid). rewrite (Hws l Hnd), decide_False.
      - rewrite (si_sum _ _ _ HI q l d Hl Hd). lia.
      - intros Hin. destruct (Hkid a Hin) as [_ (? & ? & ?)]. congruence. }
  destruct (t_parent _ _ HT a s p (deps_lookup _ _ _ Ha) Hp) as (l & Hl & Hal). destruct (inv_kids _ _ _ _ _ HI Hl) as (Hnd & Hpl & Hkid).
  assert (is_Some (h !! p)) as [sp Hsp] by (apply deps_dom, (t_dom _ _ HT); eauto).
  assert (p <> a) as Hpa by (by intros ->).
  wp_step. apply (wp_load_dep p (st_dep sp)); simpl; [rewrite D1, lookup_alter_ne by done; by apply deps_lookup|]. intros s1 _ Es1. rewrite Es1.
  wp_step. apply wp_int32; [unfold is_i32; lia|].
  assert (sum_dep_weight sp + (nw - weight s) = wsum (deps h1) l) as Esum.
  { rewrite (Hws l Hnd), decide_True, (si_sum _ _ _ HI p l _ Hl (deps_lookup _ _ _ Hsp)) by done. done. }
  wp_step. apply wp_int32.
  { rewrite Esum. assert (Z.of_nat (length l) <= wsum (deps h1) l <= 256 * Z.of_nat (length l)) as Hb.
    { apply wsum_bound; [done|]. intros c Hc. apply deps_dom, (same_rest_dom h h1); [done|]. by apply deps_dom, Hkid. }
    assert (length l <= size h)%nat by (apply NoDup_size; [done|]; intros x Hx; by apply deps_dom, Hkid).
    pose proof (si_size _ _ _ HI) as Hsz. unfold INT32_MAX in Hsz. unfold is_i32. lia. }
  wp_step. apply wp_modify_dep; simpl; [apply (same_rest_dom h h1); eauto|]. intros h2 R2 D2. rewrite Esum in D2.
  assert (same_rest h h2) as R by (by etrans).
  assert (forall l, wsum (deps h2) l = wsum (deps h1) l) as Hw2.
  { intros l'. apply wsum_ext. intros c _. unfold weight_of. rewrite D2, lookup_alter. destruct (decide (p = c)) as [<-|]; [|done]. by destruct (deps h1 !! p). }
  assert (stream_inv h2 kids) as HI2.
  { apply (reweigh_inv h); [done|done| | |].
    - eapply same_links_trans; [exact L1|]. rewrite D2. by apply same_links_alter.
    - rewrite D2. by apply wts_ok_alter.
    - intros q lq d' Hlq Hd'. rewrite Hw2. rewrite D2, lookup_alter in Hd'. destruct (decide (p = q)) as [<-|Hpq].
      + apply fmap_Some in Hd' as (d & _ & ->). simpl. by simplify_eq.
      + destruct (Hsw q d' Hd') as (d & Hd & ->). destruct (inv_kids _ _ _ _ _ HI Hlq) as (Hndq & _ & _).
        rewrite (Hws lq Hndq), decide_False, (si_sum _ _ _ HI q lq d Hlq Hd); [lia|].
        intros Hin. apply Hpq. by apply (tree_unique _ _ q p lq l a HT). }
  destruct (Z.eqb_spec (queued s) 0) as [|Hq]; [by apply wp_ret|].
  apply (wp_requeue_reweighed ok p a (weight s) _ kids s); simpl; [done| |done].
  apply (same_rest_qs h h2); [done|]. eapply parent_queue; [done|by exists s|by exists s].
Qed.

(** ** New streams *)

Lemma wp_init_stream h kids a id fl st (wt rw lw : Z) ud : stream_inv h kids -> h !! a = None -> 1 <= wt <= 256 ->
  Z.of_nat (S (size h)) * 256 <= INT32_MAX ->
  stream_inv (<[a := nghttp2_stream_init id fl st wt rw lw ud]> h) (<[a := []]> kids).
Proof.
  intros HI Ha Hwt Hsz. set (s := nghttp2_stream_init id fl st wt rw lw ud). pose proof (si_tree _ _ _ HI) as HT.
  assert (deps (<[a := s]> h) = <[a := st_dep s]> (deps h)) as ED by (apply fmap_insert).
  assert (deps h !! a = None) as Hda by (unfold deps; by rewrite lookup_fmap, Ha).
  assert (kids !! a = None) as Hka by (apply eq_None_not_Some; rewrite <- (t_dom _ _ HT), Hda; by intros [? ?]).
  assert (forall x s', <[a := s]> h !! x = Some s' -> x = a /\ s' = s \/ x <> a /\ h !! x = Some s') as Hl.
  { intros x s'. destruct (decide (x = a)) as [->|]; [rewrite lookup_insert_eq|rewrite lookup_insert_ne by done]; [|auto]. intros [= <-]. auto. }
  assert (forall x s', h !! x = Some s' -> <[a := s]> h !! x = Some s') as Hl2.
  { intros x s' Hx. rewrite lookup_insert_ne; [done|]. intros <-. congruence. }
  assert (forall p x, qs (<[a := s]> h) p x <-> qs h p x) as Hqs.
  { intros p x. split; intros (s' & Hs' & Hin); [|exists s'; eauto]. apply Hl in Hs' as [[_ ->]|[_ Hs']]; [by apply elem_of_nil in Hin|by exists s']. }
  assert (forall x, is_queued (<[a := s]> h) x <-> is_queued h x) as Hqd.
  { intros x. split; intros (s' & Hs' & Hin); [|exists s'; eauto]. apply Hl in Hs' as [[_ ->]|[_ Hs']]; [done|by exists s']. }
  assert (forall x, has_parent (<[a := s]> h) x -> x <> a /\ has_parent h x) as Hhas.
  { intros x (s' & Hs' & Hp). apply Hl in Hs' as [[_ ->]|[? Hs']]; [done|]. split; [done|by exists s']. }
  split; rewrite ?ED.
  - by apply tree_new.
  - intros p l d Hlp Hd. assert (forall l', (forall c, c ∈ l' -> c <> a) -> wsum (<[a := st_dep s]> (deps h)) l' = wsum (deps h) l') as Hw.
    { intros l' Hc. apply wsum_ext. intros c Hin. unfold weight_of. rewrite lookup_insert_ne; [done|]. intros <-. by apply (Hc a). }
    destruct (decide (p = a)) as [->|Hpa].
    + rewrite lookup_insert_eq in Hlp. rewrite lookup_insert_eq in Hd. by simplify_eq.
    + rewrite lookup_insert_ne in Hlp by done. rewrite lookup_insert_ne in Hd by done. rewrite Hw; [by apply (si_sum _ _ _ HI p)|].
      intros c Hc ->. destruct (inv_kids _ _ _ _ _ HI Hlp) as (_ & _ & Hkid). destruct (Hkid a Hc) as [[? ?] _]. congruence.
  - intros x d. destruct (decide (x = a)) as [->|]; [rewrite lookup_insert_eq; by intros [= <-]|]. rewrite lookup_insert_ne by done. by apply (si_weight _ _ _ HI x).
  - destruct (si_obq _ _ _ HI) as [[Hi Hc Hu] Hf]. split; [split|].
    + intros p s' i c Hs' Hin. apply Hl in Hs' as [[_ ->]|[_ Hs']]; [done|]. destruct (Hi p s' i c Hs' Hin) as (cs & Hcs & E). exists cs. auto.
    + intros p s' Hs'. apply Hl in Hs' as [[_ ->]|[_ Hs']]; [done|by apply (Hc p)].
    + intros p p' c. rewrite !Hqs. apply Hu.
    + intros c. rewrite Hqd, Hf. by setoid_rewrite Hqs.
  - intros x p Hx%Hqs. apply (si_parent _ _ _ HI) in Hx as (s' & Hs' & E). exists s'. auto.
  - intros x [Hxa Hx]%Hhas _. pose proof (si_sync _ _ _ HI x Hx ltac:(tauto)) as Hs. unfold sync, live, active in Hs |- *.
    rewrite Hqd, lookup_insert_ne by done. by setoid_rewrite Hqs.
  - intros x s' Hs' Hp. apply Hl in Hs' as [[_ ->]|[_ Hs']]; [done|by apply (si_flags _ _ _ HI x)].
  - by rewrite map_size_insert_None.
Qed.

(** ** Ancestors *)

Lemma find_ancestor_ok l : forall fuel a target w (Q : bool -> world -> Prop), chain (streams w) a l -> (length l + 1 <= fuel)%nat ->
  Q (bool_decide (target ∈ a :: l)) w -> wp (find_ancestor_loop fuel (Some a) target) w Q.
Proof.
  induction l as [|p l IH]; intros fuel a target w Q Hch Hf HQ; (destruct fuel as [|fuel]; [simpl in Hf; lia|]); cbn [find_ancestor_loop];
    (destruct (Z.eqb_spec a target) as [<-|Hne]; [apply wp_ret; rewrite bool_decide_eq_true_2 in HQ by (by left); exact HQ|]);
    chain_inv Hch as s Hs Hp Hch2; wp_step; (eapply wp_load; [exact Hs|]); rewrite Hp.
  - destruct fuel; apply wp_ret; rewrite bool_decide_eq_false_2 in HQ; [done|set_solver|done|set_solver].
  - apply IH; [done|simpl in Hf; lia|]. erewrite bool_decide_ext; [exact HQ|]. rewrite (elem_of_cons (p :: l)). naive_solver.
Qed.

Lemma wp_find_ancestor a target l w (Q : bool -> world -> Prop) : chain (streams w) a l ->
  Q (bool_decide (target ∈ a :: l)) w -> wp (nghttp2_stream_dep_find_ancestor a target) w Q.
Proof.
  intros Hch HQ. unfold nghttp2_stream_dep_find_ancestor. do 2 wp_step. apply (find_ancestor_ok l); [done| |done].
  pose proof (st_chain_length _ _ _ Hch). lia.
Qed.
