(* ===== verification/StreamValidate.v ===== *)
(** * Streams: the self-checks, the next stream to serve

    The checks of debugging builds pass in every state that the operations
    produce, and [nghttp2_stream_next_outbound_item] finds an item exactly
    when a stream of the tree has one that is not deferred. *)

From S2P Require Import Prelude Defs Pq Frame Http Stream StreamLinks StreamQueue StreamTree StreamInsert StreamItems.

Implicit Types (s cs ds : nghttp2_stream) (h : gmap Z nghttp2_stream) (w : world)
  (D : gmap Z stream_dep) (kids : gmap Z (list Z)).

(** ** Walks along siblings *)

Lemma walk_lookup h (c : Z) l : sib_walk (deps h) (c :: l) -> exists s, h !! c = Some s /\ sib_next s = head l.
Proof. intros Hw. destruct (Hw [] c l eq_refl) as (d & Hd & E). apply deps_lookup_inv in Hd as (s & Hs & <-). eauto. Qed.

Lemma walk_tail D c l : sib_walk D (c :: l) -> sib_walk D l.
Proof. intros Hw t x r ->. by apply (Hw (c :: t)). Qed.

Lemma all_siblings_true h f l : forall fuel, sib_walk (deps h) l -> (length l <= fuel)%nat ->
  (forall c s, c ∈ l -> h !! c = Some s -> f c s = true) -> all_siblings h fuel (head l) f = true.
Proof.
  induction l as [|c l IH]; intros fuel Hw Hf H; [by destruct fuel|]. destruct fuel as [|fuel]; [simpl in Hf; lia|].
  destruct (walk_lookup h c l Hw) as (s & Hs & E). simpl. rewrite Hs, E, (H c s) by (by left || done). simpl.
  apply IH; [by eapply walk_tail|simpl in Hf; lia|]. intros x sx Hx. apply H. by right.
Qed.

Definition of_stream h (f : nghttp2_stream -> Z) (c : Z) : Z := match h !! c with Some s => f s | None => 0 end.

Lemma sum_siblings_eq h f l : forall fuel, sib_walk (deps h) l -> (length l <= fuel)%nat ->
  sum_siblings h fuel (head l) f = Some (foldr (fun c n => of_stream h f c + n) 0 l).
Proof.
  induction l as [|c l IH]; intros fuel Hw Hf; [by destruct fuel|]. destruct fuel as [|fuel]; [simpl in Hf; lia|].
  destruct (walk_lookup h c l Hw) as (s & Hs & E). simpl. rewrite Hs. simpl. rewrite E.
  rewrite IH; [|by eapply walk_tail|simpl in Hf; lia]. simpl. unfold of_stream at 2. by rewrite Hs.
Qed.

Section Validate.

Context (h : gmap Z nghttp2_stream) (kids : gmap Z (list Z)) (HI : stream_inv h kids).

Abbreviation fuel_of l := (S (size h) - length l)%nat.

(** The children of a stream, as the walks find them. *)
Lemma children a s : h !! a = Some s -> exists l, kids !! a = Some l /\ dep_next s = head l /\ sib_walk (deps h) l /\
  (length l <= S (size h))%nat /\ forall c cs, c ∈ l -> h !! c = Some cs -> dep_prev cs = Some a.
Proof.
  intros Ha. assert (is_Some (kids !! a)) as [l Hl] by (apply (t_dom _ _ (si_tree _ _ _ HI)), deps_dom; eauto).
  destruct (t_list _ _ (si_tree _ _ _ HI) a l _ Hl (deps_lookup _ _ _ Ha)) as (Hn & Hnd & Hdll).
  destruct (inv_kids _ _ _ _ _ HI Hl) as (_ & _ & Hkid). exists l. split_and!; [done|done|by eapply dllseg_walk| |].
  - assert (length l <= size h)%nat; [|lia]. apply NoDup_size; [done|]. intros x Hx. by apply deps_dom, Hkid.
  - intros c cs Hc Hcs. destruct (Hkid c Hc) as [_ (cs' & ? & E)]. congruence.
Qed.

(** One level down there is still fuel. *)
Lemma child_chain a l c cs fuel : chain h a l -> h !! c = Some cs -> dep_prev cs = Some a -> (fuel_of l <= S fuel)%nat ->
  chain h c (a :: l) /\ (fuel_of (a :: l) <= fuel)%nat.
Proof. intros Hch Hcs Hp Hf. split; [apply (dchain_up _ c cs); [by apply deps_lookup|done|done]|simpl; lia]. Qed.

Lemma fuel_pos a l fuel : chain h a l -> (fuel_of l <= fuel)%nat -> exists fuel', fuel = S fuel'.
Proof. intros Hch%st_chain_length Hf. destruct fuel as [|fuel]; [lia|eauto]. Qed.

Lemma dead_stream a s : h !! a = Some s -> ~ live h a -> stream_active s = false /\ (length (obq_q s) =? 0)%nat = true.
Proof.
  intros Ha Hd. rewrite <- (subtree_active_live h a s Ha) in Hd. unfold stream_subtree_active in Hd.
  destruct (stream_active s), (length (obq_q s) =? 0)%nat; done.
Qed.

Lemma unqueued_child a c cs : ~ live h a -> h !! c = Some cs -> dep_prev cs = Some a -> ~ is_queued h c.
Proof. intros Hd Hc Hp Hq. apply Hd. right. exists c. eapply parent_queue; [exact HI|done|by exists cs]. Qed.

Lemma ensure_inactive_ok fuel : forall a s l, chain h a l -> (fuel_of l <= fuel)%nat -> h !! a = Some s -> has_parent h a ->
  ~ is_queued h a -> ensure_inactive h fuel a s = true.
Proof.
  induction fuel as [|fuel IH]; intros a s l Hch Hf Ha Hp Hq; [by destruct (fuel_pos _ _ _ Hch Hf)|]. cbn [ensure_inactive].
  assert (~ live h a) as Hd by (intros Hl; apply Hq; by apply (si_sync _ _ _ HI a Hp ltac:(tauto))).
  destruct (dead_stream a s Ha Hd) as [-> ->]. rewrite (proj2 (queued_test_false h a s Ha) Hq). cbn [andb negb].
  destruct (children a s Ha) as (lk & _ & -> & Hw & Hlen & Hpar). apply all_siblings_true; [done|done|].
  intros c cs Hc Hcs. pose proof (Hpar c cs Hc Hcs) as Hpc. destruct (child_chain a l c cs fuel Hch Hcs Hpc Hf) as [Hch2 Hf2].
  apply (IH c cs (a :: l)); [done|done|done|exists cs; split; [done|congruence]|]. by eapply unqueued_child.
Qed.

Lemma queued_count l : (forall c, c ∈ l -> is_Some (h !! c)) -> (exists c, c ∈ l /\ is_queued h c) ->
  foldr (fun c n => of_stream h (fun s => if negb (queued s =? 0) then 1 else 0) c + n) 0 l <> 0.
Proof.
  intros _ (c & Hc & s & Hs & Hq). assert (forall l, 0 <= foldr (fun c n => of_stream h (fun s => if negb (queued s =? 0) then 1 else 0) c + n) 0 l) as Hpos.
  { induction l0 as [|x l0 IH]; simpl; [lia|]. unfold of_stream at 1. destruct (h !! x) as [sx|]; [destruct (queued sx =? 0); simpl; lia|lia]. }
  induction l as [|x l IH]; [by apply elem_of_nil in Hc|]. simpl. pose proof (Hpos l). apply elem_of_cons in Hc as [<-|Hc].
  - unfold of_stream at 1. rewrite Hs. apply Z.eqb_neq in Hq as ->. simpl. lia.
  - specialize (IH Hc). unfold of_stream at 1. destruct (h !! x) as [sx|]; [destruct (queued sx =? 0); simpl; lia|lia].
Qed.

Lemma check_queued_ok fuel : forall a s l, chain h a l -> (fuel_of l <= fuel)%nat -> h !! a = Some s -> has_parent h a ->
  check_queued h fuel a s = true.
Proof.
  induction fuel as [|fuel IH]; intros a s l Hch Hf Ha Hp; [by destruct (fuel_pos _ _ _ Hch Hf)|]. cbn [check_queued].
  pose proof (si_sync _ _ _ HI a Hp ltac:(tauto)) as Hsync.
  destruct (children a s Ha) as (lk & Hlk & Hnext & Hw & Hlen & Hpar). rewrite Hnext.
  assert (forall c cs, c ∈ lk -> h !! c = Some cs -> chain h c (a :: l) /\ (fuel_of (a :: l) <= fuel)%nat /\ has_parent h c) as Hsub.
  { intros c cs Hc Hcs. pose proof (Hpar c cs Hc Hcs) as Hpc. destruct (child_chain a l c cs fuel Hch Hcs Hpc Hf) as [? ?].
    split_and!; [done|done|]. exists cs. split; [done|congruence]. }
  destruct (negb (queued s =? 0)) eqn:Hq.
  - assert (is_queued h a) as Hqa by (by apply (queued_test h a s)). apply Hsync in Hqa as Hl.
    rewrite (proj2 (subtree_active_live h a s Ha) Hl). rewrite (all_siblings_true h _ lk); [| done | done |].
    + rewrite andb_true_r. destruct (stream_active s) eqn:Hact; [done|]. cbn [orb]. rewrite (sum_siblings_eq h _ lk) by done.
      apply negb_true_iff, Z.eqb_neq, queued_count.
      * intros c Hc. apply deps_dom. by apply (inv_kids _ _ _ _ _ HI Hlk).
      * destruct Hl as [(s' & ? & ?)|[c Hc]]; [congruence|]. exists c. split; [|apply (si_obq _ _ _ HI); eauto].
        pose proof (si_parent _ _ _ HI _ _ Hc) as (cs & Hcs & E).
        destruct (t_parent _ _ (si_tree _ _ _ HI) c cs a (deps_lookup _ _ _ Hcs) E) as (l' & ? & ?). congruence.
    + intros c cs Hc Hcs. destruct (Hsub c cs Hc Hcs) as (? & ? & ?). by apply (IH c cs (a :: l)).
  - apply negb_false_iff in Hq. assert (~ is_queued h a) as Hnq by (by apply (queued_test_false h a s)).
    assert (~ live h a) as Hd by (by intros Hl%Hsync). destruct (dead_stream a s Ha Hd) as [-> ->]. cbn [orb andb negb].
    apply all_siblings_true; [done|done|]. intros c cs Hc Hcs. destruct (Hsub c cs Hc Hcs) as (? & ? & ?).
    apply (ensure_inactive_ok fuel c cs (a :: l)); [done|done|done|done|]. eapply unqueued_child; [done|done|by eapply Hpar].
Qed.

Lemma check_sum_dep_ok fuel : forall a s l, chain h a l -> (fuel_of l <= fuel)%nat -> h !! a = Some s -> check_sum_dep h fuel a s = true.
Proof.
  induction fuel as [|fuel IH]; intros a s l Hch Hf Ha; [by destruct (fuel_pos _ _ _ Hch Hf)|]. cbn [check_sum_dep].
  destruct (children a s Ha) as (lk & Hlk & -> & Hw & Hlen & Hpar). rewrite (sum_siblings_eq h _ lk) by done.
  apply andb_true_iff. split.
  - apply Z.eqb_eq. rewrite (si_sum _ _ _ HI a lk s Hlk (deps_lookup _ _ _ Ha)). clear. induction lk as [|c lk IH]; [done|].
    cbn [wsum foldr]. fold (wsum (deps h) lk). rewrite IH. f_equal. unfold of_stream, weight_of, deps. rewrite lookup_fmap. by destruct (h !! c).
  - apply all_siblings_true; [done|done|]. intros c cs Hc Hcs. pose proof (Hpar c cs Hc Hcs) as Hpc.
    destruct (child_chain a l c cs fuel Hch Hcs Hpc Hf) as [? ?]. by apply (IH c cs (a :: l)).
Qed.

Lemma check_dep_prev_ok fuel : forall a s l, chain h a l -> (fuel_of l <= fuel)%nat -> h !! a = Some s -> check_dep_prev h fuel a s = true.
Proof.
  induction fuel as [|fuel IH]; intros a s l Hch Hf Ha; [by destruct (fuel_pos _ _ _ Hch Hf)|]. cbn [check_dep_prev].
  destruct (children a s Ha) as (lk & _ & -> & Hw & Hlen & Hpar). apply all_siblings_true; [done|done|]. intros c cs Hc Hcs.
  pose proof (Hpar c cs Hc Hcs) as Hpc. destruct (child_chain a l c cs fuel Hch Hcs Hpc Hf) as [? ?].
  rewrite bool_decide_eq_true_2 by done. simpl. by apply (IH c cs (a :: l)).
Qed.

Lemma root_of_ok l : forall fuel a, chain h a l -> (length l < fuel)%nat -> exists r s, root_of h fuel a = Some r /\
  h !! r = Some s /\ dep_prev s = None /\ last (a :: l) = Some r.
Proof.
  induction l as [|p l IH]; intros fuel a Hch Hf; (destruct fuel as [|fuel]; [lia|]); chain_inv Hch as s Hs Hp Hch2; cbn [root_of]; rewrite Hs; simpl;
    rewrite Hp.
  - exists a, s. done.
  - destruct (IH fuel p Hch2 ltac:(simpl in Hf; lia)) as (r & sr & E & ? & ? & ?). exists r, sr. by split_and!.
Qed.

(** The stream that ends the chain. *)
Lemma validate_ok a l : chain h a l -> (forall r s, last (a :: l) = Some r -> h !! r = Some s -> stream_id s = 0) -> validate_tree h a = true.
Proof.
  intros Hch Hid. unfold validate_tree. pose proof (st_chain_length _ _ _ Hch) as Hlen.
  destruct (root_of_ok l (S (size h)) a Hch ltac:(lia)) as (r & s & -> & Hr & Hp & Hlast). rewrite Hr, (Hid r s Hlast Hr).
  assert (chain h r []) as Hchr by (apply (dchain_root _ r s); [by apply deps_lookup|done]).
  assert (~ is_queued h r) as Hnq by (by apply (inv_root_queued _ _ _ _ _ HI Hr)).
  rewrite (proj2 (queued_test_false h r s Hr) Hnq), (check_sum_dep_ok _ r s []), (check_dep_prev_ok _ r s []) by (done || simpl; lia).
  rewrite !andb_true_r. cbn [andb Z.eqb]. destruct (children r s Hr) as (lk & Hlk & -> & Hw & Hll & Hpar).
  assert (forall c cs, c ∈ lk -> h !! c = Some cs -> chain h c [r] /\ (fuel_of [r] <= S (size h))%nat /\ has_parent h c) as Hsub.
  { intros c cs Hc Hcs. pose proof (Hpar c cs Hc Hcs) as Hpc. destruct (child_chain r [] c cs (S (size h)) Hchr Hcs Hpc ltac:(simpl; lia)) as [? ?].
    split_and!; [done|done|]. exists cs. split; [done|congruence]. }
  destruct (length (obq_q s) =? 0)%nat eqn:Hob; apply all_siblings_true; try done; intros c cs Hc Hcs; destruct (Hsub c cs Hc Hcs) as (? & ? & ?).
  - apply (ensure_inactive_ok _ c cs [r]); try done. intros Hq. assert (qs h r c) as (s' & ? & Hin).
    { eapply parent_queue; [exact HI|done|]. exists cs. split; [done|by eapply Hpar]. }
    simplify_eq. apply Nat.eqb_eq in Hob. destruct (obq_q s); [by apply elem_of_nil in Hin|done].
  - by apply (check_queued_ok _ c cs [r]).
Qed.

End Validate.

(** ** The next stream to serve *)

(** [a] is [r] or depends on it, directly or not. *)
Definition below h (r a : Z) : Prop := exists l, chain h a l /\ r ∈ a :: l.

(** The ancestors [l] of [a] have recorded the cycle of the child that is served. *)
Definition served h (a : Z) (l : list Z) h' : Prop :=
  quiet h h' /\ (forall x, x ∉ l -> h' !! x = h !! x) /\
  (forall x s', h' !! x = Some s' -> exists s, h !! x = Some s /\ cycle s' = cycle s) /\
  forall t c p u (sc sp : nghttp2_stream), a :: l = t ++ c :: p :: u -> h !! c = Some sc -> h' !! p = Some sp -> descendant_last_cycle sp = cycle sc.

Lemma wp_serve l : forall fuel a w (Q : unit -> world -> Prop), chain (streams w) a l -> (length l < fuel)%nat ->
  (forall h, served (streams w) a l h -> Q tt (mk_world h (pushes w))) -> wp (serve_loop fuel a) w Q.
Proof.
  induction l as [|p l IH]; intros fuel a [h n] Q Hch Hf HQ; (destruct fuel as [|fuel]; [lia|]); cbn [serve_loop]; simpl in Hch, HQ;
    chain_inv Hch as s Hs Hp Hch2; do 2 wp_step; rewrite Hp.
  - apply wp_ret, HQ. split_and!; [done|done|eauto|]. intros t c p u sc sp E. destruct t as [|? [|]]; done.
  - destruct (chain_dom _ _ _ p Hch2 ltac:(by left)) as [sp Hsp]. do 2 wp_step. simpl.
    set (h1 := <[p := _]> h). assert (quiet h h1) as Hq1 by (by apply upd_quiet).
    assert (NoDup (a :: p :: l)) as [Ha Hnd]%NoDup_cons by (by apply dchain_NoDup in Hch). apply NoDup_cons in Hnd as [Hpl Hnd].
    apply IH; [by apply (same_core_chain h), Hch2; apply Hq1|simpl in Hf; lia|]. simpl. intros h' (G1 & G2 & G3 & G4). apply HQ.
    assert (forall x (s1 : nghttp2_stream), h1 !! x = Some s1 -> exists s0 : nghttp2_stream, h !! x = Some s0 /\ cycle s1 = cycle s0) as Hcyc.
    { intros x s1. unfold h1. destruct (decide (x = p)) as [->|]; [rewrite lookup_insert_eq; intros [= <-]; eauto|rewrite lookup_insert_ne by done; eauto]. }
    split_and!.
    + by etrans.
    + intros x [Hxp Hxl]%not_elem_of_cons. rewrite G2 by done. unfold h1. by rewrite lookup_insert_ne.
    + intros x s' Hx. destruct (G3 x s' Hx) as (s1 & Hs1 & E). destruct (Hcyc x s1 Hs1) as (s0 & Hs0 & E0). exists s0. split; [done|congruence].
    + intros t c q u sc sq E Hc Hq. destruct t as [|x t]; simpl in E.
      * injection E as <- <- <-. rewrite G2 in Hq by done. unfold h1 in Hq. rewrite lookup_insert_eq in Hq. simplify_eq. done.
      * injection E as <- E. assert (exists sc1, h1 !! c = Some sc1) as [sc1 Hsc1].
        { unfold h1. destruct (decide (c = p)) as [->|]; [rewrite lookup_insert_eq; eauto|rewrite lookup_insert_ne by done; eauto]. }
        destruct (Hcyc c sc1 Hsc1) as (sc0 & ? & E0). simplify_eq. rewrite <- E0. by apply (G4 t c q u).
Qed.

Section Serve.

Context (h : gmap Z nghttp2_stream) (kids : gmap Z (list Z)) (n : nat) (HI : stream_inv h kids).

(** A live stream leads to an active one. *)
Lemma next_item_live fuel : forall a l (Q : option Z -> world -> Prop), chain h a l -> (S (S (size h)) - length l <= fuel)%nat -> live h a ->
  (forall x lx s i h', chain h x lx -> a ∈ x :: lx -> h !! x = Some s -> stream_active s = true -> item s = Some i ->
     served h x lx h' -> Q (Some i) (mk_world h' n)) ->
  wp (next_item_loop fuel a) (mk_world h n) Q.
Proof.
  induction fuel as [|fuel IH]; intros a l Q Hch Hf Hl HQ; [pose proof (st_chain_length _ _ _ Hch); lia|]. cbn [next_item_loop].
  destruct (chain_dom _ _ _ a Hch ltac:(by left)) as [s Hs]. do 2 wp_step. destruct (stream_active s) eqn:Hact.
  - do 3 wp_step. apply (wp_serve l); simpl; [done|pose proof (st_chain_length _ _ _ Hch); lia|]. intros h' HS. apply wp_ret.
    assert (is_Some (item s)) as [i Hi] by (unfold stream_active in Hact; by apply andb_true_iff in Hact as [?%bool_decide_eq_true _]).
    rewrite Hi. apply (HQ a l s); try done. by left.
  - destruct Hl as [(s' & ? & ?)|[c (s' & Hs' & Hc)]]; [congruence|]. simplify_eq. destruct (obq_q s') as [|b q] eqn:Eq; [by apply elem_of_nil in Hc|]. simpl.
    assert (qs h a b) as Hb by (exists s'; split; [done|]; rewrite Eq; by left). pose proof (si_parent _ _ _ HI _ _ Hb) as (sb & Hsb & Epb).
    assert (chain h b (a :: l)) as Hchb by (apply (dchain_up _ b sb); [by apply deps_lookup|done|done]).
    apply (IH b (a :: l)); [done|simpl; lia| |].
    + apply (si_sync _ _ _ HI b); [exists sb; split; [done|congruence]|tauto|]. apply (si_obq _ _ _ HI). eauto.
    + intros x lx sx i h' Hx Hin Hsx Hax Hi HS. apply (HQ x lx sx i h'); try done.
      apply elem_of_cons in Hin as [->|Hin]; [pose proof (dchain_det _ _ _ _ Hx Hchb) as E; rewrite <- E; right; by left|].
      destruct (dchain_suffix _ _ _ _ Hx Hin) as (u & v & -> & Hv). pose proof (dchain_det _ _ _ _ Hv Hchb) as <-. right. set_solver.
Qed.

Lemma wp_next_outbound_item r (Q : option Z -> world -> Prop) : is_Some (h !! r) ->
  (forall x lx s i h', chain h x lx -> r ∈ x :: lx -> h !! x = Some s -> stream_active s = true -> item s = Some i ->
     served h x lx h' -> Q (Some i) (mk_world h' n)) ->
  ((forall x, below h r x -> ~ active h x) -> Q None (mk_world h n)) ->
  wp (nghttp2_stream_next_outbound_item r) (mk_world h n) Q.
Proof.
  intros [s Hr] HQ HN. unfold nghttp2_stream_next_outbound_item. do 2 wp_step. cbn [streams].
  destruct (t_acyclic _ _ (si_tree _ _ _ HI) r ltac:(apply deps_dom; eauto)) as [l Hl].
  destruct (stream_subtree_active s) eqn:Hsub.
  - apply (next_item_live _ r l); [done|lia|by apply (subtree_active_live h r s)|done].
  - assert (~ live h r) as Hd by (rewrite <- (subtree_active_live h r s Hr); congruence). destruct (dead_stream h r s Hr Hd) as [Ha Ho].
    cbn [next_item_loop]. do 2 wp_step. rewrite Ha. apply Nat.eqb_eq in Ho. destruct (obq_q s) eqn:Eq; [|done]. simpl. apply wp_ret, HN.
    intros x (lx & Hx & Hin) Hax. apply Hd. apply elem_of_cons in Hin as [->|Hin]; [by left|].
    (* the child of [r] on the way to [x] is queued *)
    assert (forall x lx, chain h x lx -> r ∈ lx -> live h x -> exists c, parent_of h c r /\ is_queued h c) as Hchild.
    { clear -HI. intros x lx Hx. induction Hx as [b d Hb Hp|b d p lp Hb Hp Hx IH]; [by intros ?%elem_of_nil|]. intros Hin Hlx.
      apply deps_lookup_inv in Hb as (sb & Hsb & <-). assert (is_queued h b) as Hqb.
      { apply (si_sync _ _ _ HI b); [exists sb; split; [done|congruence]|tauto|done]. }
      apply elem_of_cons in Hin as [->|Hin]; [exists b; split; [by exists sb|done]|]. apply IH; [done|]. right. exists b.
      eapply parent_queue; [exact HI|done|by exists sb]. }
    destruct (Hchild x lx Hx Hin ltac:(by left)) as (c & Hcr & Hqc). right. exists c. by eapply parent_queue.
Qed.

End Serve.
