(* ===== verification/StreamSpec.v ===== *)
(** * Streams: what the operations promise

    The dependency tree of RFC 7540, 5.3, as an abstract state ([kids]: the
    children of every stream) with its changes as a step relation; the
    operations of [Stream] implement it and keep the invariant of the queues,
    in every sequence of operations that starts with the root alone. *)

From S2P Require Import Prelude Defs Pq Frame Http Stream StreamLinks StreamQueue StreamTree StreamInsert StreamRemove.
From S2P Require Import StreamDistribute StreamCut StreamItems StreamValidate.

Implicit Types (h : gmap Z nghttp2_stream) (w : world) (kids : gmap Z (list Z)).

(** ** The abstract tree *)

Inductive tree_op :=
  | DepAdd (p s : Z)
  | DepAddSubtree (p s : Z)
  | DepInsert (p s : Z)
  | DepInsertSubtree (p s : Z)
  | DepRemove (s : Z)
  | DepRemoveSubtree (s : Z).

Inductive rfc_step : gmap Z (list Z) -> tree_op -> gmap Z (list Z) -> Prop :=
  | rfc_add kids p s l : kids !! p = Some l -> rfc_step kids (DepAdd p s) (<[p := s :: l]> kids)
  | rfc_add_subtree kids p s l : kids !! p = Some l -> rfc_step kids (DepAddSubtree p s) (<[p := s :: l]> kids)
  | rfc_insert kids p s l : kids !! p = Some l -> rfc_step kids (DepInsert p s) (<[p := [s]]> (<[s := l]> kids))
  | rfc_insert_subtree kids p s l ks : kids !! p = Some l -> kids !! s = Some ks ->
      rfc_step kids (DepInsertSubtree p s) (<[p := [s]]> (<[s := ks ++ l]> kids))
  | rfc_remove kids q s l1 l2 ks : kids !! q = Some (l1 ++ s :: l2) -> kids !! s = Some ks ->
      rfc_step kids (DepRemove s) (<[q := l1 ++ ks ++ l2]> (<[s := []]> kids))
  | rfc_remove_subtree kids q s l1 l2 : kids !! q = Some (l1 ++ s :: l2) ->
      rfc_step kids (DepRemoveSubtree s) (<[q := l1 ++ l2]> kids).

(** What the callers guarantee: a stream that is linked comes from outside of
    the tree, without a loop; those that are linked alone have no item and no
    descendants that wait. *)
Definition tree_ready h kids (op : tree_op) : Prop :=
  match op with
  | DepAdd p s => can_link h p s /\ ~ live h s
  | DepInsert p s => can_link h p s /\ fresh h kids s
  | DepAddSubtree p s | DepInsertSubtree p s => can_link h p s
  | DepRemove _ | DepRemoveSubtree _ => True
  end.

Definition run_tree (ok : nat -> bool) (op : tree_op) : st_m Z :=
  match op with
  | DepAdd p s => nghttp2_stream_dep_add p s;; mret 0
  | DepAddSubtree p s => nghttp2_stream_dep_add_subtree ok p s
  | DepInsert p s => nghttp2_stream_dep_insert ok p s
  | DepInsertSubtree p s => nghttp2_stream_dep_insert_subtree ok p s
  | DepRemove s => nghttp2_stream_dep_remove ok s
  | DepRemoveSubtree s => nghttp2_stream_dep_remove_subtree s;; mret 0
  end.

(** ** Items and scheduling *)

Inductive item_op :=
  | AttachItem (a it : Z)
  | DetachItem (a : Z)
  | DeferItem (a f : Z)
  | ResumeItem (a f : Z)
  | Reschedule (a : Z)
  | ChangeWeight (a n : Z).

Definition item_ready h (op : item_op) : Prop :=
  match op with
  | AttachItem a _ => exists s : nghttp2_stream, h !! a = Some s /\ item s = None /\ sm_flags s .& NGHTTP2_STREAM_FLAG_DEFERRED_ALL = 0
  | DetachItem a => is_Some (h !! a)
  | DeferItem a f | ResumeItem a f => (exists s : nghttp2_stream, h !! a = Some s /\ is_Some (item s)) /\ deferral f
  | Reschedule a => is_queued h a
  | ChangeWeight a n => is_Some (h !! a) /\ 1 <= n <= 256
  end.

Definition run_item (ok : nat -> bool) (op : item_op) : st_m Z :=
  match op with
  | AttachItem a it => nghttp2_stream_attach_item ok a it
  | DetachItem a => nghttp2_stream_detach_item a;; mret 0
  | DeferItem a f => nghttp2_stream_defer_item a f;; mret 0
  | ResumeItem a f => nghttp2_stream_resume_deferred_item ok a f
  | Reschedule a => nghttp2_stream_reschedule ok a;; mret 0
  | ChangeWeight a n => nghttp2_stream_change_weight ok a n;; mret 0
  end.

(** ** From weakest preconditions to runs *)

Lemma wp_run {A} (m : st_m A) w (Q : A -> world -> Prop) : wp m w Q -> exists w' a, m w = Some (w', a) /\ Q a w'.
Proof. unfold wp. destruct (m w) as [[w' a]|]; [eauto|done]. Qed.

Lemma wp_void ok m w (P : gmap Z nghttp2_stream -> Prop) :
  wp m w (fun (_ : unit) w' => P (streams w')) -> wp (m;; mret 0) w (outcome ok P).
Proof. intros H. wp_step. eapply wp_mono; [exact H|]. intros [] w' HP. apply wp_ret. by right. Qed.

Lemma wp_tree_op ok op w kids kids' : stream_inv (streams w) kids -> tree_ready (streams w) kids op -> rfc_step kids op kids' ->
  wp (run_tree ok op) w (outcome ok (fun h => stream_inv h kids')).
Proof.
  intros HI Hr Hs. destruct Hs; simpl in Hr; unfold run_tree.
  - destruct Hr. apply wp_void. by eapply wp_dep_add.
  - by eapply wp_dep_add_subtree.
  - destruct Hr. by eapply wp_dep_insert.
  - by eapply wp_dep_insert_subtree.
  - by eapply wp_dep_remove.
  - apply wp_void. by eapply wp_dep_remove_subtree.
Qed.

Lemma wp_item_op ok op w kids : stream_inv (streams w) kids -> item_ready (streams w) op ->
  wp (run_item ok op) w (outcome ok (fun h => stream_inv h kids)).
Proof.
  intros HI Hr. destruct op; simpl in Hr; unfold run_item.
  - destruct Hr as (s & Hs & Hi & Hf). by eapply wp_attach_item.
  - apply wp_void. by eapply wp_detach_item.
  - destruct Hr as [(s & Hs & Hi) Hf]. apply wp_void. by eapply wp_defer_item.
  - destruct Hr as [(s & Hs & Hi) Hf]. by eapply wp_resume_item.
  - apply wp_void. by eapply wp_reschedule.
  - destruct Hr. apply wp_void. by eapply wp_change_weight.
Qed.

(** ** Sequences of operations *)

(** The root stream as the session makes it, and any stream it makes later. *)
Definition root_stream : nghttp2_stream :=
  nghttp2_stream_init 0 NGHTTP2_STREAM_FLAG_NONE NGHTTP2_STREAM_IDLE NGHTTP2_DEFAULT_WEIGHT 0 0 None.

Inductive reachable (ok : nat -> bool) : world -> gmap Z (list Z) -> Prop :=
  | reach_root : reachable ok (mk_world {[0 := root_stream]} 0) {[0 := []]}
  | reach_init w kids a id fl st wt rw lw ud : reachable ok w kids -> streams w !! a = None -> 1 <= wt <= 256 ->
      Z.of_nat (S (size (streams w))) * 256 <= INT32_MAX ->
      reachable ok (mk_world (<[a := nghttp2_stream_init id fl st wt rw lw ud]> (streams w)) (pushes w)) (<[a := []]> kids)
  | reach_tree w kids op w' kids' : reachable ok w kids -> tree_ready (streams w) kids op -> rfc_step kids op kids' ->
      run_tree ok op w = Some (w', 0) -> reachable ok w' kids'
  | reach_item w kids op w' : reachable ok w kids -> item_ready (streams w) op -> run_item ok op w = Some (w', 0) -> reachable ok w' kids
  | reach_next w kids r w' it : reachable ok w kids -> is_Some (streams w !! r) ->
      nghttp2_stream_next_outbound_item r w = Some (w', it) -> reachable ok w' kids.

Lemma inv_empty : stream_inv ∅ ∅.
Proof.
  assert (deps ∅ = ∅) as ED by (apply fmap_empty). split; rewrite ?ED.
  - split.
    + intros a. rewrite !lookup_empty. by split; intros [? ?].
    + intros p l d Hp. by rewrite lookup_empty in Hp.
    + intros c d p Hc. by rewrite lookup_empty in Hc.
    + intros c d Hc. by rewrite lookup_empty in Hc.
    + intros a [? Ha]. by rewrite lookup_empty in Ha.
  - intros p l d Hp. by rewrite lookup_empty in Hp.
  - intros a d Ha. by rewrite lookup_empty in Ha.
  - split; [split|].
    + intros p s i c Hp. by rewrite lookup_empty in Hp.
    + intros p s Hp. by rewrite lookup_empty in Hp.
    + intros p p' c (s & Hs & _). by rewrite lookup_empty in Hs.
    + intros c. split; [intros (s & Hs & _)|intros (p & s & Hs & _)]; by rewrite lookup_empty in Hs.
  - intros x p (s & Hs & _). by rewrite lookup_empty in Hs.
  - intros x (s & Hs & _). by rewrite lookup_empty in Hs.
  - intros a s Hs. by rewrite lookup_empty in Hs.
  - vm_compute. done.
Qed.

Lemma inv_root : stream_inv {[0 := root_stream]} {[0 := []]}.
Proof. apply (wp_init_stream ∅ ∅ 0); [apply inv_empty|done|vm_compute; split; done|vm_compute; done]. Qed.

(** Recording a cycle changes no queue. *)
Lemma served_inv h kids a l h' : stream_inv h kids -> served h a l h' -> stream_inv h' kids.
Proof. intros HI [Hq _]. apply (same_queues_inv _ h); [done|]. by apply quiet_same_queues, Hq; apply HI. Qed.

Lemma wp_next_item_inv w kids r : stream_inv (streams w) kids -> is_Some (streams w !! r) ->
  wp (nghttp2_stream_next_outbound_item r) w (fun _ w' => stream_inv (streams w') kids).
Proof.
  destruct w as [h n]. simpl. intros HI Hr. apply (wp_next_outbound_item h kids n HI r); [done| |].
  - intros x lx s i h' _ _ _ _ _ HS. by apply (served_inv h kids x lx).
  - done.
Qed.

Lemma reachable_inv ok w kids : reachable ok w kids -> stream_inv (streams w) kids.
Proof.
  induction 1 as [|w kids a id fl st wt rw lw ud H IH Ha Hw Hsz|w kids op w' kids' H IH Hr Hs E|w kids op w' H IH Hr E|w kids r w' it H IH Hr E].
  - exact inv_root.
  - by apply wp_init_stream.
  - pose proof (wp_tree_op ok op w kids kids' IH Hr Hs) as HW. unfold wp in HW. rewrite E in HW. by destruct HW as [[? _]|[_ ?]].
  - pose proof (wp_item_op ok op w kids IH Hr) as HW. unfold wp in HW. rewrite E in HW. by destruct HW as [[? _]|[_ ?]].
  - pose proof (wp_next_item_inv w kids r IH Hr) as HW. unfold wp in HW. by rewrite E in HW.
Qed.

(** ** The virtual clock *)

(** Finishing times in a window that starts at [base] are compared the way
    the 64-bit difference says. *)
Lemma stream_less_window base (a b : nghttp2_stream) da db :
  cycle a = u64 (base + da) -> cycle b = u64 (base + db) ->
  0 <= da <= NGHTTP2_MAX_CYCLE_DISTANCE -> 0 <= db <= NGHTTP2_MAX_CYCLE_DISTANCE ->
  stream_less a b = true <-> da < db \/ da = db /\ seq a < seq b.
Proof.
  intros Ea Eb Ha Hb. unfold stream_less. rewrite Ea, Eb. unfold NGHTTP2_MAX_CYCLE_DISTANCE, NGHTTP2_MAX_FRAME_SIZE_MAX in *.
  unfold u64 in *. rewrite <- Zminus_mod. replace (base + db - (base + da)) with (db - da) by lia.
  destruct (Z.eqb_spec ((base + da) mod 2 ^ 64) ((base + db) mod 2 ^ 64)) as [E|E].
  - assert ((db - da) mod 2 ^ 64 = 0) as E0.
    { replace (db - da) with (base + db - (base + da)) by lia. rewrite Zminus_mod, E, Z.sub_diag. done. }
    assert (da = db) as ->; [|rewrite Z.ltb_lt; lia].
    apply Z.mod_divide in E0 as [k Hk]; [|lia]. assert (k = 0) by lia. lia.
  - assert (da <> db) as Hne by (by intros ->). rewrite Z.leb_le. destruct (Z.lt_ge_cases da db) as [Hlt|Hge].
    + rewrite Z.mod_small by lia. lia.
    + assert ((db - da) mod 2 ^ 64 = db - da + 2 ^ 64) as ->; [|lia].
      symmetry. apply (Z.mod_unique_pos _ _ (-1)); lia.
Qed.

(** What a turn costs: the octets of the last frame and the unpaid rest, by weight. *)
Definition turn_cost (s : nghttp2_stream) : Z := last_writelen s * NGHTTP2_MAX_WEIGHT + pending_penalty s.

Definition turn_ok (s : nghttp2_stream) : Prop :=
  1 <= weight s <= NGHTTP2_MAX_WEIGHT /\ 0 <= last_writelen s <= NGHTTP2_MAX_FRAME_SIZE_MAX /\ 0 <= pending_penalty s < NGHTTP2_MAX_WEIGHT.

Lemma next_cycle_run w a s last : streams w !! a = Some s -> turn_ok s ->
  exists s' : nghttp2_stream, stream_next_cycle a last w = Some (mk_world (<[a := s']> (streams w)) (pushes w), tt) /\
    cycle s' = u64 (last + turn_cost s / weight s) /\ 0 <= turn_cost s / weight s <= NGHTTP2_MAX_CYCLE_DISTANCE /\
    weight s * (turn_cost s / weight s) + pending_penalty s' = turn_cost s /\ 0 <= pending_penalty s' < weight s /\
    weight s' = weight s /\ seq s' = seq s /\ last_writelen s' = last_writelen s.
Proof.
  intros Ha (Hw & Hl & Hp). unfold NGHTTP2_MAX_WEIGHT, NGHTTP2_MAX_FRAME_SIZE_MAX in *.
  assert (penalty_of s = turn_cost s) as Epen.
  { unfold penalty_of, turn_cost, NGHTTP2_MAX_WEIGHT, u64. rewrite (Z.mod_small (last_writelen s * 256)), Z.mod_small by lia. done. }
  assert (u32 (weight s) = weight s) as Ew by (unfold u32; rewrite Z.mod_small by lia; done).
  assert (0 <= turn_cost s <= 16777215 * 256 + 255) as Hc by (unfold turn_cost, NGHTTP2_MAX_WEIGHT; lia).
  assert (0 <= turn_cost s mod weight s < weight s) as Hm by (apply Z.mod_pos_bound; lia).
  assert (0 <= turn_cost s / weight s <= NGHTTP2_MAX_CYCLE_DISTANCE) as Hd.
  { unfold NGHTTP2_MAX_CYCLE_DISTANCE, NGHTTP2_MAX_FRAME_SIZE_MAX. split; [apply Z.div_pos; lia|]. apply Z.div_le_upper_bound; nia. }
  unfold stream_next_cycle, st_then, mbind, st_bind, load, modify, st_assert. rewrite Ha. simpl. rewrite Ew, Epen.
  destruct (Z.eqb_spec (weight s) 0); [lia|]. simpl. rewrite Ha. simpl.
  assert (u32 (turn_cost s mod weight s) = turn_cost s mod weight s) as -> by (unfold u32; apply Z.mod_small; lia).
  eexists. split; [done|]. simpl. split_and!; try done; lia.
Qed.

(** ** The contract *)

(** C3: every operation on the dependency tree runs to its end in every
    state the invariant describes (no dangling pointer, overflow, failed
    assertion or endless loop), makes of the tree what RFC 7540, 5.3, asks
    for, and keeps the invariant; it fails only when the allocator does. *)
Theorem dependency_tree_refines ok op w kids kids' : stream_inv (streams w) kids -> tree_ready (streams w) kids op -> rfc_step kids op kids' ->
  exists w' rv, run_tree ok op w = Some (w', rv) /\
    (rv = NGHTTP2_ERR_NOMEM /\ refused ok \/ rv = 0 /\ stream_inv (streams w') kids').
Proof. intros HI Hr Hs. by apply wp_run, wp_tree_op with kids. Qed.

(** C5: attaching, detaching, deferring and resuming items, rescheduling and
    changing a weight run to their end, leave the shape of the tree alone and
    restore the rule of the queues: a stream waits in the queue of its parent
    exactly when it, or a stream in its own queue, has something to send. *)
Theorem item_operations_keep_invariant ok op w kids : stream_inv (streams w) kids -> item_ready (streams w) op ->
  exists w' rv, run_item ok op w = Some (w', rv) /\
    (rv = NGHTTP2_ERR_NOMEM /\ refused ok \/ rv = 0 /\ stream_inv (streams w') kids).
Proof. intros HI Hr. by apply wp_run, wp_item_op. Qed.

(** In every state that sequences of operations reach from the root
    alone, the ancestors of a queued stream, except for the root, are queued
    (the invariant stated in nghttp2_stream.h). *)
Theorem reachable_ancestors_queued ok w kids a l x : reachable ok w kids -> is_queued (streams w) a -> chain (streams w) a l ->
  x ∈ l -> has_parent (streams w) x -> is_queued (streams w) x.
Proof.
  intros HR Hq Hch Hx Hp. pose proof (reachable_inv ok w kids HR) as HI.
  assert (has_parent (streams w) a) as Hpa.
  { apply (si_obq _ _ _ HI) in Hq as [p Hp']. by apply (si_parent _ _ _ HI), parent_has in Hp'. }
  apply (live_ancestors (fun _ => False) _ kids a l HI ltac:(tauto) Hch); [|by right|done].
  by apply (si_sync _ _ _ HI a Hpa ltac:(tauto)).
Qed.

(** The self-checks of debugging builds ([validate_tree]) pass for every
    stream of the tree of stream 0 in every reachable state. *)
Theorem self_checks_pass ok w kids a l : reachable ok w kids -> chain (streams w) a l ->
  (forall r (s : nghttp2_stream), last (a :: l) = Some r -> streams w !! r = Some s -> stream_id s = 0) -> validate_tree (streams w) a = true.
Proof. intros HR Hch Hid. eapply validate_ok; [by eapply reachable_inv|exact Hch|exact Hid]. Qed.

(** C4: [nghttp2_stream_next_outbound_item] always returns; it finds an item
    exactly when some stream below [r] has one that is not deferred, the item
    is of such a stream, all ancestors of that stream have recorded the cycle
    that is served, and the queues are as before. *)
Theorem next_outbound_item_found w kids r : stream_inv (streams w) kids -> is_Some (streams w !! r) ->
  exists w' it, nghttp2_stream_next_outbound_item r w = Some (w', it) /\ stream_inv (streams w') kids /\
    match it with
    | Some i => exists x lx (s : nghttp2_stream), chain (streams w) x lx /\ r ∈ x :: lx /\ streams w !! x = Some s /\ stream_active s = true /\
        item s = Some i /\ served (streams w) x lx (streams w')
    | None => w' = w /\ forall x, below (streams w) r x -> ~ active (streams w) x
    end.
Proof.
  destruct w as [h n]. simpl. intros HI Hr. apply wp_run, (wp_next_outbound_item h kids n HI r); [done| |done].
  intros x lx s i h' H1 H2 H3 H4 H5 HS. split; [by apply (served_inv h kids x lx)|]. by exists x, lx, s.
Qed.

(** The virtual clock is exact: a turn advances the cycle of a stream by
    its cost over its weight, the rest of the division is kept and paid in the
    next turn, and of two streams scheduled from the same base the queue
    serves the one first whose cost by weight is less, or that came earlier,
    also when the 64-bit clock wraps around. *)
Theorem scheduling_order w a b sa sb base : a <> b -> streams w !! a = Some sa -> streams w !! b = Some sb -> turn_ok sa -> turn_ok sb ->
  exists w' (sa' sb' : nghttp2_stream), (stream_next_cycle a base;; stream_next_cycle b base) w = Some (w', tt) /\
    streams w' !! a = Some sa' /\ streams w' !! b = Some sb' /\ turn_ok sa' /\ turn_ok sb' /\
    weight sa * (turn_cost sa / weight sa) + pending_penalty sa' = turn_cost sa /\
    (stream_less sa' sb' = true <-> turn_cost sa / weight sa < turn_cost sb / weight sb \/
       turn_cost sa / weight sa = turn_cost sb / weight sb /\ seq sa < seq sb).
Proof.
  intros Hab Ha Hb Hta Htb. destruct (next_cycle_run w a sa base Ha Hta) as (sa' & Ea & A1 & A2 & A3 & A4 & A5 & A6 & A7).
  set (w1 := mk_world (<[a := sa']> (streams w)) (pushes w)) in *.
  assert (streams w1 !! b = Some sb) as Hb1 by (simpl; by rewrite lookup_insert_ne).
  destruct (next_cycle_run w1 b sb base Hb1 Htb) as (sb' & Eb & B1 & B2 & B3 & B4 & B5 & B6 & B7).
  eexists _, sa', sb'. split; [unfold mbind, st_bind; rewrite Ea; exact Eb|].
  destruct Hta as (? & ? & ?), Htb as (? & ? & ?).
  split_and!; simpl; [by rewrite lookup_insert_ne, lookup_insert_eq|by rewrite lookup_insert_eq|unfold turn_ok; lia|unfold turn_ok; lia|done|].
  rewrite (stream_less_window base sa' sb' _ _ A1 B1) by done. by rewrite A6, B6.
Qed.

(** ** Witnesses *)

Definition always (n : nat) : bool := true.
Definition new_stream (id : Z) : nghttp2_stream := nghttp2_stream_init id 0 NGHTTP2_STREAM_OPENING 16 65535 65535 None.

(** The root and the streams 1 and 3, outside of the tree; then 1 below the root, 3 below 1. *)
Definition start : world := mk_world (<[3 := new_stream 3]> (<[1 := new_stream 1]> {[0 := root_stream]})) 0.
Definition tree0 : gmap Z (list Z) := <[3 := []]> (<[1 := []]> {[0 := []]}).
Definition after (op : st_m Z) (w : world) : world := match op w with Some (w', _) => w' | None => w end.
Definition linked : world := after (run_tree always (DepAdd 1 3)) (after (run_tree always (DepAdd 0 1)) start).
Definition tree1 : gmap Z (list Z) := <[1 := [3]]> (<[0 := [1]]> tree0).
Definition waiting : world := after (run_item always (AttachItem 3 7)) linked.

Lemma reach_new ok h n kids a : reachable ok (mk_world h n) kids -> h !! a = None -> Z.of_nat (S (size h)) * 256 <= INT32_MAX ->
  reachable ok (mk_world (<[a := new_stream a]> h) n) (<[a := []]> kids).
Proof. intros HR Ha Hsz. by apply (reach_init ok (mk_world h n)). Qed.

Lemma start_reachable : reachable always start tree0.
Proof. apply reach_new; [apply reach_new; [constructor|..]|..]; vm_compute; done. Qed.

Lemma root_chain h a (s : nghttp2_stream) : h !! a = Some s -> dep_prev (st_dep s) = None -> chain h a [].
Proof. intros Ha Hp. apply (dchain_root _ a (st_dep s)); [by apply deps_lookup|done]. Qed.

Lemma not_above h (s p : Z) l : chain h p l -> s ∉ p :: l -> ~ above h s p.
Proof. intros Hp Hs (l' & Hl & Hin). by rewrite <- (dchain_det _ _ _ _ Hl Hp) in Hin. Qed.

Lemma fresh_dead h a (s : nghttp2_stream) : h !! a = Some s -> stream_active s = false -> obq_q s = [] -> ~ live h a.
Proof. intros Ha Hact Hq [(s' & ? & ?)|(c & s' & ? & Hc)]; simplify_eq; [congruence|]. rewrite Hq in Hc. by apply elem_of_nil in Hc. Qed.

Lemma linked_reachable : reachable always linked tree1.
Proof.
  apply (reach_tree always (after (run_tree always (DepAdd 0 1)) start) (<[0 := [1]]> tree0) (DepAdd 1 3)).
  - apply (reach_tree always start tree0 (DepAdd 0 1)); [exact start_reachable| |by apply rfc_add|vm_compute; reflexivity].
    split; [|by eapply fresh_dead]. split; [by eexists|]. split; [|by eexists].
    eapply not_above; [by eapply root_chain|set_solver].
  - split; [|eapply (fresh_dead _ 3); vm_compute; reflexivity]. split; [vm_compute; by eexists|]. split; [|eexists; split; vm_compute; done].
    eapply (not_above _ 3 1 [0]); [|set_solver]. eapply dchain_up; [vm_compute; reflexivity|reflexivity|].
    eapply dchain_root; [vm_compute; reflexivity|reflexivity].
  - by apply rfc_add.
  - vm_compute. reflexivity.
Qed.

Lemma dependency_tree_refines_witness :
  exists w' rv, run_tree always (DepRemove 1) linked = Some (w', rv) /\
    (rv = NGHTTP2_ERR_NOMEM /\ refused always \/ rv = 0 /\ stream_inv (streams w') (<[0 := [3]]> (<[1 := []]> tree1))).
Proof.
  apply (dependency_tree_refines always (DepRemove 1) linked tree1).
  - apply (reachable_inv always), linked_reachable.
  - done.
  - apply (rfc_remove tree1 0 1 [] [] [3]); reflexivity.
Defined.

Lemma item_operations_keep_invariant_witness :
  exists w' rv, run_item always (AttachItem 3 7) linked = Some (w', rv) /\
    (rv = NGHTTP2_ERR_NOMEM /\ refused always \/ rv = 0 /\ stream_inv (streams w') tree1).
Proof.
  apply (item_operations_keep_invariant always (AttachItem 3 7) linked tree1).
  - apply (reachable_inv always), linked_reachable.
  - eexists. split; [vm_compute; reflexivity|split; reflexivity].
Defined.

Lemma waiting_reachable : reachable always waiting tree1.
Proof.
  apply (reach_item always linked tree1 (AttachItem 3 7)); [exact linked_reachable| |vm_compute; reflexivity].
  eexists. split; [vm_compute; reflexivity|split; reflexivity].
Qed.

Lemma waiting_chain : chain (streams waiting) 3 [1; 0].
Proof.
  eapply dchain_up; [vm_compute; reflexivity|reflexivity|]. eapply dchain_up; [vm_compute; reflexivity|reflexivity|].
  eapply dchain_root; [vm_compute; reflexivity|reflexivity].
Qed.

Lemma reachable_ancestors_queued_witness : is_queued (streams waiting) 3 /\ is_queued (streams waiting) 1.
Proof.
  assert (is_queued (streams waiting) 3) as H3 by (eexists; split; [vm_compute; reflexivity|by vm_compute]).
  split; [exact H3|]. apply (reachable_ancestors_queued always waiting tree1 3 [1; 0] 1 waiting_reachable H3 waiting_chain).
  - by left.
  - eexists. split; [vm_compute; reflexivity|by vm_compute].
Defined.

Lemma self_checks_pass_witness : validate_tree (streams waiting) 3 = true.
Proof.
  apply (self_checks_pass always waiting tree1 3 [1; 0] waiting_reachable waiting_chain).
  intros r s [= <-] Hr. vm_compute in Hr. by injection Hr as <-.
Defined.

Lemma next_outbound_item_found_witness :
  exists w' it, nghttp2_stream_next_outbound_item 0 waiting = Some (w', it) /\ stream_inv (streams w') tree1 /\
    match it with
    | Some i => exists x lx (s : nghttp2_stream), chain (streams waiting) x lx /\ 0 ∈ x :: lx /\ streams waiting !! x = Some s /\ stream_active s = true /\
        item s = Some i /\ served (streams waiting) x lx (streams w')
    | None => w' = waiting /\ forall x, below (streams waiting) 0 x -> ~ active (streams waiting) x
    end.
Proof.
  apply (next_outbound_item_found waiting tree1 0); [apply (reachable_inv always), waiting_reachable|].
  eexists. vm_compute. reflexivity.
Defined.

Lemma scheduling_order_witness :
  exists w' (sa' sb' : nghttp2_stream), (stream_next_cycle 1 5;; stream_next_cycle 3 5) start = Some (w', tt) /\
    streams w' !! 1 = Some sa' /\ streams w' !! 3 = Some sb' /\ turn_ok sa' /\ turn_ok sb' /\
    16 * (turn_cost (new_stream 1) / 16) + pending_penalty sa' = turn_cost (new_stream 1) /\
    (stream_less sa' sb' = true <-> turn_cost (new_stream 1) / 16 < turn_cost (new_stream 3) / 16 \/
       turn_cost (new_stream 1) / 16 = turn_cost (new_stream 3) / 16 /\ seq (new_stream 1) < seq (new_stream 3)).
Proof.
  apply (scheduling_order start 1 3 (new_stream 1) (new_stream 3) 5); try reflexivity; [done| |]; split_and!; vm_compute; done.
Defined.

(** ** Moving a stream that has waiting children *)

(** The streams 1 (below the root) and 3 and 5 (below 1); 3 waits and the
    clock of 1 stands at 2^33, which half a gigabyte at weight 16 reaches. *)
Definition late : world :=
  let w := after (run_tree always (DepAdd 1 5)) (mk_world (<[5 := new_stream 5]> (streams waiting)) (pushes waiting)) in
  mk_world (alter (upd_sched (cycle_to (2 ^ 33))) 3 (alter (upd_sched (descendant_last_cycle_to (2 ^ 33))) 1 (streams w))) (pushes w).

Definition moved : world :=
  after (run_item always (AttachItem 5 8)) (after (run_tree always (DepAddSubtree 0 1)) (after (run_tree always (DepRemoveSubtree 1)) late)).

(** Taking the stream 1 out resets its clock, but the entries of its queue
    keep their times: the next stream that enters is not comparable with them. *)
Lemma moved_queue_not_ordered :
  (s3 ← streams moved !! 3; s5 ← streams moved !! 5;
   Some (stream_less s3 s5, stream_less s5 s3, queued s3, queued s5, cycle s5)) = Some (false, false, 1, 1, 0).
Proof. vm_compute. reflexivity. Qed.
