(* ===== verification/Outbound.v ===== *)
(** * Outbound items (nghttp2_outbound_item.c)

    What the session is about to send: a frame with the data that belongs to
    it, and the three queues of the session.  The queues are linked through
    the items ([qnext]), so an item is in one queue at most. *)

From S2P Require Import Prelude Defs HdToken HdTable Frame FrameHeaders.

(** ** Data *)

(** [nghttp2_frame] of an item.  The payload of an extension frame that the
    application serialises itself is its pointer. *)
Inductive nghttp2_frame :=
  | FrData (f : nghttp2_data)
  | FrHeaders (f : nghttp2_headers)
  | FrPushPromise (f : nghttp2_push_promise)
  | FrControl (f : control_frame)
  | FrExtension (f : nghttp2_extension (option Z)).

Definition frame_hd (f : nghttp2_frame) : nghttp2_frame_hd :=
  match f with
  | FrData f => da_hd f
  | FrHeaders f => he_hd f
  | FrPushPromise f => pp_hd f
  | FrControl f => frame_hd_of f
  | FrExtension f => ext_hd f
  end.

(** A data provider is its version and the application's object. *)
Record nghttp2_data_provider_wrap := mk_dpw { dpw_version : Z; dpw_data_prd : Z }.

Definition NGHTTP2_DATA_PROVIDER_V1 : Z := 1.
Definition NGHTTP2_DATA_PROVIDER_V2 : Z := 2.

Definition nghttp2_data_provider_wrap_v1 (data_prd : option Z) : option nghttp2_data_provider_wrap :=
  mk_dpw NGHTTP2_DATA_PROVIDER_V1 <$> data_prd.

Definition nghttp2_data_provider_wrap_v2 (data_prd : option Z) : option nghttp2_data_provider_wrap :=
  mk_dpw NGHTTP2_DATA_PROVIDER_V2 <$> data_prd.

Record nghttp2_headers_aux_data := mk_headers_aux {
  ha_dpw : option nghttp2_data_provider_wrap;
  ha_stream_user_data : option Z;
  ha_error_code : Z;
  ha_canceled : Z;
}.

Record nghttp2_data_aux_data := mk_data_aux {
  dx_dpw : option nghttp2_data_provider_wrap;
  dx_flags : Z;
  dx_eof : Z;
  dx_no_copy : Z;
}.

Definition NGHTTP2_GOAWAY_AUX_NONE : Z := 0.
Definition NGHTTP2_GOAWAY_AUX_TERM_ON_SEND : Z := 1.
Definition NGHTTP2_GOAWAY_AUX_SHUTDOWN_NOTICE : Z := 2.

(** The union, of which the code reads the member of the frame's type. *)
Record nghttp2_aux_data := mk_aux {
  aux_data : nghttp2_data_aux_data;
  aux_headers : nghttp2_headers_aux_data;
  aux_goaway_flags : Z;
  aux_ext_builtin : Z;
}.

Definition aux_zero : nghttp2_aux_data := mk_aux (mk_data_aux None 0 0 0) (mk_headers_aux None None 0 0) 0 0.

Record nghttp2_outbound_item := mk_item {
  it_frame : nghttp2_frame;
  it_aux_data : nghttp2_aux_data;
  it_cycle : Z;
  it_qnext : option Z;
  it_queued : Z;
}.

Definition qnext_to (v : option Z) (i : nghttp2_outbound_item) : nghttp2_outbound_item :=
  mk_item (it_frame i) (it_aux_data i) (it_cycle i) v (it_queued i).
Definition it_queued_to (v : Z) (i : nghttp2_outbound_item) : nghttp2_outbound_item :=
  mk_item (it_frame i) (it_aux_data i) (it_cycle i) (it_qnext i) v.
Definition aux_to (v : nghttp2_aux_data) (i : nghttp2_outbound_item) : nghttp2_outbound_item :=
  mk_item (it_frame i) v (it_cycle i) (it_qnext i) (it_queued i).

(** The caller sets the frame right behind this call. *)
Definition nghttp2_outbound_item_init (f : nghttp2_frame) : nghttp2_outbound_item := mk_item f aux_zero 0 None 0.

(** ** Queues *)

Record nghttp2_outbound_queue := mk_obqueue {
  oq_head : option Z;
  oq_tail : option Z;
  oq_n : Z;
}.

Definition nghttp2_outbound_queue_init : nghttp2_outbound_queue := mk_obqueue None None 0.

(** The items by address, and the queue. *)
Definition nghttp2_outbound_queue_push (m : gmap Z nghttp2_outbound_item) (q : nghttp2_outbound_queue) (item : Z) :
    gmap Z nghttp2_outbound_item * nghttp2_outbound_queue :=
  match oq_tail q with
  | Some t => (alter (qnext_to (Some item)) t m, mk_obqueue (oq_head q) (Some item) (u64 (oq_n q + 1)))
  | None => (m, mk_obqueue (Some item) (Some item) (u64 (oq_n q + 1)))
  end.

(** [None] is a dangling pointer. *)
Definition nghttp2_outbound_queue_pop (m : gmap Z nghttp2_outbound_item) (q : nghttp2_outbound_queue) :
    option (gmap Z nghttp2_outbound_item * nghttp2_outbound_queue) :=
  match oq_head q with
  | None => Some (m, q)
  | Some i =>
      it ← m !! i;
      let head := it_qnext it in
      Some (alter (qnext_to None) i m,
        mk_obqueue head (match head with None => None | Some _ => oq_tail q end) (u64 (oq_n q - 1)))
  end.

Definition nghttp2_outbound_queue_top (q : nghttp2_outbound_queue) : option Z := oq_head q.
Definition nghttp2_outbound_queue_size (q : nghttp2_outbound_queue) : Z := oq_n q.

(** ** What a queue holds *)

Implicit Types (m : gmap Z nghttp2_outbound_item) (q : nghttp2_outbound_queue) (l : list Z).

(** The items of [l] are linked in this order, the last one to [NULL]. *)
Fixpoint qlinked m l : Prop :=
  match l with
  | [] => True
  | a :: l => (exists i, m !! a = Some i /\ it_qnext i = head l) /\ qlinked m l
  end.

Record queue_holds m q l : Prop := {
  qh_linked : qlinked m l;
  qh_nodup : NoDup l;
  qh_head : oq_head q = head l;
  qh_tail : oq_tail q = last l;
  qh_n : oq_n q = Z.of_nat (length l);
  qh_small : Z.of_nat (length l) < 2 ^ 64;
}.

Lemma queue_holds_init m : queue_holds m nghttp2_outbound_queue_init [].
Proof. split; try done. constructor. Qed.

Lemma qlinked_ext m m' l : (forall a, a ∈ l -> it_qnext <$> m' !! a = it_qnext <$> m !! a) -> qlinked m l -> qlinked m' l.
Proof.
  induction l as [|a l IH]; intros He; [done|]. intros [(i & Ha & Hn) Hl]. split; [|apply IH; [|done]; intros; apply He; by right].
  pose proof (He a ltac:(by left)) as E. rewrite Ha in E. destruct (m' !! a) as [i'|]; [|done]. exists i'. split; [done|].
  simpl in E. congruence.
Qed.

Lemma qlinked_lookup m l a : qlinked m l -> a ∈ l -> is_Some (m !! a).
Proof.
  induction l as [|b l IH]; [by intros _ ?%elem_of_nil|]. intros [(i & Hb & _) Hl] [-> |Ha]%elem_of_cons; [by eexists|by apply IH].
Qed.

Lemma qlinked_snoc m l t a i : qlinked m (l ++ [t]) -> NoDup (l ++ [t; a]) -> m !! a = Some i -> it_qnext i = None ->
  qlinked (alter (qnext_to (Some a)) t m) (l ++ [t; a]).
Proof.
  induction l as [|b l IH]; intros HL Hnd Ha Hi.
  - destruct HL as [(it & Ht & _) _]. apply NoDup_cons in Hnd as [Hta _].
    assert (t <> a) by (intros ->; apply Hta; by left). split; [|split; [|done]].
    + exists (qnext_to (Some a) it). by rewrite lookup_alter_eq, Ht.
    + exists i. by rewrite lookup_alter_ne.
  - destruct HL as [(ib & Hb & En) HL]. apply NoDup_cons in Hnd as [Hbl Hnd]. split; [|by apply IH].
    exists ib. rewrite lookup_alter_ne; [|intros ->; apply Hbl, elem_of_app; right; by left].
    split; [done|]. rewrite En. by destruct l.
Qed.

(** Pushing puts an item that is linked nowhere at the end. *)
Lemma outbound_push_holds m q l a i : queue_holds m q l -> m !! a = Some i -> it_qnext i = None -> a ∉ l ->
  Z.of_nat (S (length l)) < 2 ^ 64 ->
  let '(m', q') := nghttp2_outbound_queue_push m q a in
  queue_holds m' q' (l ++ [a]) /\ (forall b, b ∉ l -> m' !! b = m !! b) /\
  (forall b, it_frame <$> m' !! b = it_frame <$> m !! b).
Proof.
  intros HQ Ha Hi Hal Hn. unfold nghttp2_outbound_queue_push. rewrite (qh_tail _ _ _ HQ), (qh_n _ _ _ HQ).
  assert (u64 (Z.of_nat (length l) + 1) = Z.of_nat (length (l ++ [a]))) as En.
  { rewrite length_app, u64_id; simpl; unfold is_u64; lia. }
  assert (NoDup (l ++ [a])) as Hnd.
  { apply NoDup_app. split_and!; [apply HQ| |apply NoDup_singleton]. intros x Hx ->%list_elem_of_singleton. done. }
  destruct l as [|b l' _] using rev_ind.
  - simpl. split; [|done]. split; try done. by split; [exists i|].
  - rewrite last_snoc. split; [split; try done|].
    + rewrite <- app_assoc. simpl. eapply qlinked_snoc; try done; [apply HQ|by rewrite <- app_assoc in Hnd].
    + simpl. rewrite (qh_head _ _ _ HQ). by destruct l'.
    + simpl. by rewrite last_snoc.
    + rewrite !length_app in *. simpl in *. lia.
    + split; intros c.
      * intros Hc. rewrite lookup_alter_ne; [done|]. intros ->. apply Hc, elem_of_app. right. by left.
      * destruct (decide (b = c)) as [-> |]; [|by rewrite lookup_alter_ne]. rewrite lookup_alter_eq. by destruct (m !! c).
Qed.

(** Popping takes the first item and unlinks it. *)
Lemma outbound_pop_holds m q a l : queue_holds m q (a :: l) ->
  exists m' q', nghttp2_outbound_queue_pop m q = Some (m', q') /\ queue_holds m' q' l /\
    (forall b, b <> a -> m' !! b = m !! b) /\ (exists i, m !! a = Some i /\ m' !! a = Some (qnext_to None i)).
Proof.
  intros [[(i & Ha & En) HL] [Hal Hnd]%NoDup_cons Eh Et Ez Hn]. unfold nghttp2_outbound_queue_pop. rewrite Eh. simpl. rewrite Ha. simpl.
  eexists _, _. split; [done|]. split_and!; [split; simpl; try done| |].
  - apply (qlinked_ext m); [|done]. intros b Hb. rewrite lookup_alter_ne; [done|]. by intros ->.
  - rewrite En, Et. by destruct l as [|b l] using rev_ind; [|rewrite app_comm_cons, !last_snoc; destruct l].
  - rewrite Ez, u64_id; simpl in *; unfold is_u64; lia.
  - simpl in Hn. lia.
  - intros b Hb. by rewrite lookup_alter_ne.
  - exists i. by rewrite lookup_alter_eq, Ha.
Qed.

Lemma outbound_pop_empty m q : queue_holds m q [] -> nghttp2_outbound_queue_pop m q = Some (m, q).
Proof. intros HQ. unfold nghttp2_outbound_queue_pop. by rewrite (qh_head _ _ _ HQ). Qed.
