(* ===== verification/Session.v ===== *)
(** * Sessions: the state and its streams (nghttp2_session.c)

    The state of a connection, in groups: the streams in memory with the
    table that finds them by id, what the settings say, the identifiers and
    counters, the lists of closed and idle streams that are kept for the
    dependency tree, the connection's windows, and what is queued for
    sending.  An operation is a function in a state monad over the session;
    [None] is undefined behaviour or a failed assertion, as in [Stream].

    The table of streams is a finite map here ([Map] proves that the hash map
    of nghttp2_map.c is one).  The root of the dependency tree is embedded in
    the session: it is the stream at the address [root]. *)

From S2P Require Import Prelude Defs Ratelim Pq Helper Frame Http Stream Outbound.

(** ** Constants *)

Definition NGHTTP2_OPTMASK_NO_AUTO_WINDOW_UPDATE : Z := 1.
Definition NGHTTP2_OPTMASK_NO_RECV_CLIENT_MAGIC : Z := 2.
Definition NGHTTP2_OPTMASK_NO_HTTP_MESSAGING : Z := 4.
Definition NGHTTP2_OPTMASK_NO_AUTO_PING_ACK : Z := 8.
Definition NGHTTP2_OPTMASK_NO_CLOSED_STREAMS : Z := 16.
Definition NGHTTP2_OPTMASK_SERVER_FALLBACK_RFC7540_PRIORITIES : Z := 32.
Definition NGHTTP2_OPTMASK_NO_RFC9113_LEADING_AND_TRAILING_WS_VALIDATION : Z := 64.

Definition NGHTTP2_GOAWAY_NONE : Z := 0.
Definition NGHTTP2_GOAWAY_TERM_ON_SEND : Z := 1.
Definition NGHTTP2_GOAWAY_TERM_SENT : Z := 2.
Definition NGHTTP2_GOAWAY_SENT : Z := 4.
Definition NGHTTP2_GOAWAY_RECV : Z := 8.
Definition NGHTTP2_GOAWAY_SUBMITTED : Z := 16.

Definition NGHTTP2_DEFAULT_MAX_CONCURRENT_STREAMS : Z := 4294967295.
Definition NGHTTP2_MAX_INCOMING_RESERVED_STREAMS : Z := 200.
Definition NGHTTP2_STREAM_MAX_CYCLE_GAP : Z := NGHTTP2_MAX_FRAME_SIZE_MAX.

(** ** State *)

Record nghttp2_settings_storage := mk_storage {
  header_table_size : Z;
  enable_push : Z;
  max_concurrent_streams : Z;
  initial_window_size : Z;
  max_frame_size : Z;
  max_header_list_size : Z;
  enable_connect_protocol : Z;
  no_rfc7540_priorities_setting : Z;
}.

Record session_conf := mk_conf {
  server : bool;
  opt_flags : Z;
  remote_settings : nghttp2_settings_storage;
  local_settings : nghttp2_settings_storage;
  pending_local_max_concurrent_stream : Z;
  pending_enable_push : Z;
  pending_no_rfc7540_priorities : Z;
  fallback_rfc7540_priorities : Z;
  max_incoming_reserved_streams : Z;
  pending_enable_connect_protocol : Z;
  remote_settings_received : Z;
  inflight_settings : list (list nghttp2_settings_entry);
}.

Record session_ids := mk_ids {
  next_stream_id : Z;
  last_sent_stream_id : Z;
  last_recv_stream_id : Z;
  last_proc_stream_id : Z;
  local_last_stream_id : Z;
  remote_last_stream_id : Z;
  goaway_flags : Z;
}.

Record session_counts := mk_counts {
  stream_seq : Z;
  num_outgoing_streams : Z;
  num_incoming_streams : Z;
  num_incoming_reserved_streams : Z;
  num_closed_streams : Z;
  num_idle_streams : Z;
}.

Record session_lists := mk_lists {
  closed_stream_head : option Z;
  closed_stream_tail : option Z;
  idle_stream_head : option Z;
  idle_stream_tail : option Z;
}.

Record session_outbound := mk_outbound {
  ob_items : gmap Z nghttp2_outbound_item;
  ob_urgent : nghttp2_outbound_queue;
  ob_reg : nghttp2_outbound_queue;
  ob_syn : nghttp2_outbound_queue;
  aob_item : option Z;
}.

Record session_limits := mk_limits {
  max_send_header_block_length : Z;
  max_outbound_ack : Z;
  max_settings : Z;
  max_continuations : Z;
  builtin_recv_ext_types : Z;
  user_recv_ext_types : list Z;
  stream_reset_ratelim : nghttp2_ratelim;
  obq_flood_counter_ : Z;
}.

(** [sched]: the queues [sched[i].ob_data] with the room in their arrays;
    [stream_map] is [streams]; [grants] counts the requests to the allocator;
    [ign_all] tells that [iframe.state] is [NGHTTP2_IB_IGN_ALL]. *)
Record nghttp2_session := mk_session {
  se_world : world;
  stream_map : gmap Z Z;
  sched : list (list Z * nat);
  se_conf :> session_conf;
  se_ids :> session_ids;
  se_counts :> session_counts;
  se_lists :> session_lists;
  se_flow :> stream_flow;
  se_ob :> session_outbound;
  se_limits :> session_limits;
  ign_all : bool;
  grants : nat;
}.

Definition root : Z := 0.

Definition se_streams (ss : nghttp2_session) : gmap Z nghttp2_stream := streams (se_world ss).

Definition world_to (v : world) (ss : nghttp2_session) : nghttp2_session :=
  mk_session v (stream_map ss) (sched ss) ss ss ss ss ss ss ss (ign_all ss) (grants ss).
Definition stream_map_to (v : gmap Z Z) (ss : nghttp2_session) : nghttp2_session :=
  mk_session (se_world ss) v (sched ss) ss ss ss ss ss ss ss (ign_all ss) (grants ss).
Definition sched_to (v : list (list Z * nat)) (ss : nghttp2_session) : nghttp2_session :=
  mk_session (se_world ss) (stream_map ss) v ss ss ss ss ss ss ss (ign_all ss) (grants ss).
Definition upd_conf (f : session_conf -> session_conf) (ss : nghttp2_session) : nghttp2_session :=
  mk_session (se_world ss) (stream_map ss) (sched ss) (f ss) ss ss ss ss ss ss (ign_all ss) (grants ss).
Definition upd_ids (f : session_ids -> session_ids) (ss : nghttp2_session) : nghttp2_session :=
  mk_session (se_world ss) (stream_map ss) (sched ss) ss (f ss) ss ss ss ss ss (ign_all ss) (grants ss).
Definition upd_counts (f : session_counts -> session_counts) (ss : nghttp2_session) : nghttp2_session :=
  mk_session (se_world ss) (stream_map ss) (sched ss) ss ss (f ss) ss ss ss ss (ign_all ss) (grants ss).
Definition upd_lists (f : session_lists -> session_lists) (ss : nghttp2_session) : nghttp2_session :=
  mk_session (se_world ss) (stream_map ss) (sched ss) ss ss ss (f ss) ss ss ss (ign_all ss) (grants ss).
Definition upd_window (f : stream_flow -> stream_flow) (ss : nghttp2_session) : nghttp2_session :=
  mk_session (se_world ss) (stream_map ss) (sched ss) ss ss ss ss (f ss) ss ss (ign_all ss) (grants ss).
Definition upd_ob (f : session_outbound -> session_outbound) (ss : nghttp2_session) : nghttp2_session :=
  mk_session (se_world ss) (stream_map ss) (sched ss) ss ss ss ss ss (f ss) ss (ign_all ss) (grants ss).
Definition upd_limits (f : session_limits -> session_limits) (ss : nghttp2_session) : nghttp2_session :=
  mk_session (se_world ss) (stream_map ss) (sched ss) ss ss ss ss ss ss (f ss) (ign_all ss) (grants ss).
Definition ign_all_to (v : bool) (ss : nghttp2_session) : nghttp2_session :=
  mk_session (se_world ss) (stream_map ss) (sched ss) ss ss ss ss ss ss ss v (grants ss).
Definition granted (ss : nghttp2_session) : nghttp2_session :=
  mk_session (se_world ss) (stream_map ss) (sched ss) ss ss ss ss ss ss ss (ign_all ss) (S (grants ss)).

Definition stream_seq_to (v : Z) (c : session_counts) : session_counts :=
  mk_counts v (num_outgoing_streams c) (num_incoming_streams c) (num_incoming_reserved_streams c) (num_closed_streams c) (num_idle_streams c).
Definition num_outgoing_streams_to (v : Z) (c : session_counts) : session_counts :=
  mk_counts (stream_seq c) v (num_incoming_streams c) (num_incoming_reserved_streams c) (num_closed_streams c) (num_idle_streams c).
Definition num_incoming_streams_to (v : Z) (c : session_counts) : session_counts :=
  mk_counts (stream_seq c) (num_outgoing_streams c) v (num_incoming_reserved_streams c) (num_closed_streams c) (num_idle_streams c).
Definition num_incoming_reserved_streams_to (v : Z) (c : session_counts) : session_counts :=
  mk_counts (stream_seq c) (num_outgoing_streams c) (num_incoming_streams c) v (num_closed_streams c) (num_idle_streams c).
Definition num_closed_streams_to (v : Z) (c : session_counts) : session_counts :=
  mk_counts (stream_seq c) (num_outgoing_streams c) (num_incoming_streams c) (num_incoming_reserved_streams c) v (num_idle_streams c).
Definition num_idle_streams_to (v : Z) (c : session_counts) : session_counts :=
  mk_counts (stream_seq c) (num_outgoing_streams c) (num_incoming_streams c) (num_incoming_reserved_streams c) (num_closed_streams c) v.

Definition closed_list_to (h t : option Z) (l : session_lists) : session_lists := mk_lists h t (idle_stream_head l) (idle_stream_tail l).
Definition idle_list_to (h t : option Z) (l : session_lists) : session_lists := mk_lists (closed_stream_head l) (closed_stream_tail l) h t.

Definition closed_prev_to (v : option Z) (s : nghttp2_stream) : nghttp2_stream :=
  mk_stream s s s s (item s) (state s) (shut_flags s) (extpri s) (stream_user_data s) v (closed_next s).
Definition closed_next_to (v : option Z) (s : nghttp2_stream) : nghttp2_stream :=
  mk_stream s s s s (item s) (state s) (shut_flags s) (extpri s) (stream_user_data s) (closed_prev s) v.
Definition stream_user_data_to (v : option Z) (s : nghttp2_stream) : nghttp2_stream :=
  mk_stream s s s s (item s) (state s) (shut_flags s) (extpri s) v (closed_prev s) (closed_next s).
Definition extpri_to (v : Z) (s : nghttp2_stream) : nghttp2_stream :=
  mk_stream s s s s (item s) (state s) (shut_flags s) v (stream_user_data s) (closed_prev s) (closed_next s).

(** ** Effects *)

Definition se_m (A : Type) : Type := nghttp2_session -> option (nghttp2_session * A).

#[global] Instance se_ret : MRet se_m := fun A a ss => Some (ss, a).

#[global] Instance se_bind : MBind se_m := fun A B k m ss =>
  match m ss with
  | None => None
  | Some (ss, a) => k a ss
  end.

Definition se_then {A B} (m : se_m A) (k : A -> se_m B) : se_m B := mbind k m.

Notation "'let!' x := m 'in' k" := (se_then m (fun x => k))
  (at level 200, x pattern, m at level 100, k at level 200) : c_scope.

Definition se_undef {A} : se_m A := fun _ => None.
Definition se_assert (b : bool) : se_m unit := if b then mret tt else se_undef.
Definition the_session : se_m nghttp2_session := fun ss => Some (ss, ss).
Definition update (f : nghttp2_session -> nghttp2_session) : se_m unit := fun ss => Some (f ss, tt).

(** An operation of [Stream] on the streams of the session. *)
Definition on_streams {A} (m : st_m A) : se_m A := fun ss =>
  match m (se_world ss) with
  | None => None
  | Some (w, a) => Some (world_to w ss, a)
  end.

Definition load_stream (a : Z) : se_m nghttp2_stream := on_streams (load a).
Definition modify_stream (a : Z) (f : nghttp2_stream -> nghttp2_stream) : se_m unit := on_streams (modify a f).

(** ** Tests *)

Definition session_is_outgoing_concurrent_streams_max (ss : nghttp2_session) : bool :=
  max_concurrent_streams (remote_settings ss) <=? num_outgoing_streams ss.
Definition session_is_incoming_concurrent_streams_max (ss : nghttp2_session) : bool :=
  max_concurrent_streams (local_settings ss) <=? num_incoming_streams ss.
Definition session_is_incoming_concurrent_streams_pending_max (ss : nghttp2_session) : bool :=
  pending_local_max_concurrent_stream ss <=? num_incoming_streams ss.

Definition is_non_fatal (lib_error_code : Z) : bool := (lib_error_code <? 0) && (NGHTTP2_ERR_FATAL <? lib_error_code).
Definition nghttp2_is_fatal (lib_error_code : Z) : bool := lib_error_code <? NGHTTP2_ERR_FATAL.

Definition session_enforce_http_messaging (ss : nghttp2_session) : bool := opt_flags ss .& NGHTTP2_OPTMASK_NO_HTTP_MESSAGING =? 0.

Definition nghttp2_session_is_my_stream_id (ss : nghttp2_session) (stream_id : Z) : bool :=
  if stream_id =? 0 then false
  else
    let rem := stream_id .& 1 in
    if server ss then rem =? 0 else rem =? 1.

Definition state_reserved_remote (ss : nghttp2_session) (s : nghttp2_stream) : bool :=
  bool_decide (state s = NGHTTP2_STREAM_RESERVED) && negb (nghttp2_session_is_my_stream_id ss (stream_id s)).
Definition state_reserved_local (ss : nghttp2_session) (s : nghttp2_stream) : bool :=
  bool_decide (state s = NGHTTP2_STREAM_RESERVED) && nghttp2_session_is_my_stream_id ss (stream_id s).

Definition session_is_new_peer_stream_id (ss : nghttp2_session) (stream_id : Z) : bool :=
  negb (stream_id =? 0) && negb (nghttp2_session_is_my_stream_id ss stream_id) && (last_recv_stream_id ss <? stream_id).

Definition session_detect_idle_stream (ss : nghttp2_session) (stream_id : Z) : bool :=
  if nghttp2_session_is_my_stream_id ss stream_id then last_sent_stream_id ss <? stream_id
  else session_is_new_peer_stream_id ss stream_id.

Definition session_no_rfc7540_pri_no_fallback (ss : nghttp2_session) : bool :=
  (pending_no_rfc7540_priorities ss =? 1) && (fallback_rfc7540_priorities ss =? 0).

Definition session_allow_incoming_new_stream (ss : nghttp2_session) : bool :=
  goaway_flags ss .& (NGHTTP2_GOAWAY_TERM_ON_SEND .| NGHTTP2_GOAWAY_SENT) =? 0.

(** ** The table of streams *)

Definition nghttp2_session_get_stream_raw (stream_id : Z) : se_m (option Z) :=
  let! ss := the_session in mret (stream_map ss !! stream_id).

Definition nghttp2_session_get_stream (stream_id : Z) : se_m (option Z) :=
  let! ss := the_session in
  match stream_map ss !! stream_id with
  | None => mret None
  | Some a =>
      let! s := load_stream a in
      if negb (sm_flags s .& NGHTTP2_STREAM_FLAG_CLOSED =? 0) || bool_decide (state s = NGHTTP2_STREAM_IDLE) then mret None
      else mret (Some a)
  end.

(** ** The lists of closed and of idle streams *)

(** [tail->closed_next = stream; stream->closed_prev = tail], if there is one. *)
Definition link_behind (tail : option Z) (stream : Z) : se_m unit :=
  match tail with
  | Some t => modify_stream t (closed_next_to (Some stream));; modify_stream stream (closed_prev_to (Some t))
  | None => mret tt
  end.

Definition nghttp2_session_keep_closed_stream (stream : Z) : se_m unit :=
  let! ss := the_session in
  link_behind (closed_stream_tail ss) stream;;
  update (fun ss => upd_lists (closed_list_to (match closed_stream_tail ss with Some _ => closed_stream_head ss | None => Some stream end) (Some stream)) ss);;
  update (fun ss => upd_counts (num_closed_streams_to (u64 (num_closed_streams ss + 1))) ss).

Definition nghttp2_session_keep_idle_stream (stream : Z) : se_m unit :=
  let! ss := the_session in
  link_behind (idle_stream_tail ss) stream;;
  update (fun ss => upd_lists (idle_list_to (match idle_stream_tail ss with Some _ => idle_stream_head ss | None => Some stream end) (Some stream)) ss);;
  update (fun ss => upd_counts (num_idle_streams_to (u64 (num_idle_streams ss + 1))) ss).

Definition nghttp2_session_detach_idle_stream (stream : Z) : se_m unit :=
  let! s := load_stream stream in
  let prev_stream := closed_prev s in
  let next_stream := closed_next s in
  (match prev_stream with
   | Some p => modify_stream p (closed_next_to next_stream)
   | None => update (fun ss => upd_lists (idle_list_to next_stream (idle_stream_tail ss)) ss)
   end);;
  (match next_stream with
   | Some n => modify_stream n (closed_prev_to prev_stream)
   | None => update (fun ss => upd_lists (idle_list_to (idle_stream_head ss) prev_stream) ss)
   end);;
  modify_stream stream (closed_prev_to None);;
  modify_stream stream (closed_next_to None);;
  update (fun ss => upd_counts (num_idle_streams_to (u64 (num_idle_streams ss - 1))) ss).

(** ** The scheduler of RFC 9218 *)

Definition ob_stream_less (lhs rhs : nghttp2_stream) : bool :=
  if cycle lhs =? cycle rhs then seq lhs <? seq rhs
  else u64 (cycle rhs - cycle lhs) <=? NGHTTP2_STREAM_MAX_CYCLE_GAP.

(** The entries embedded in the streams, as a queue sees them. *)
Definition sched_entries (h : gmap Z nghttp2_stream) : gmap Z (nghttp2_pq_entry nghttp2_stream) :=
  (fun s : nghttp2_stream => mk_entry (pq_index s) s) <$> h.

Definition sched_write (i : nat) (pq : nghttp2_pq nghttp2_stream) (pushed : nat) (ss : nghttp2_session) : nghttp2_session :=
  sched_to (<[i := (q pq, capacity pq)]> (sched ss))
    (world_to (mk_world ((fun e => upd_sched (pq_index_to (e_index e)) (e_item e)) <$> entries pq) pushed) ss).

Section Operations.

(** Whether the allocator grants the request it is asked for as the [n]-th:
    for the arrays of queues, and for everything else. *)
Variable realloc_ok : nat -> bool.
Variable malloc_ok : nat -> bool.

(** Where the allocator puts a new stream. *)
Variable new_stream : gmap Z nghttp2_stream -> Z.

Definition mem_malloc : se_m bool := fun ss => Some (granted ss, malloc_ok (grants ss)).

(** [nghttp2_map_insert(&session->streams, stream_id, stream)]; the table may have to grow. *)
Definition map_insert (stream_id stream : Z) : se_m Z :=
  let! ok := mem_malloc in
  if negb ok then mret NGHTTP2_ERR_NOMEM
  else
    let! ss := the_session in
    match stream_map ss !! stream_id with
    | Some _ => mret NGHTTP2_ERR_INVALID_ARGUMENT
    | None => update (fun ss => stream_map_to (<[stream_id := stream]> (stream_map ss)) ss);; mret 0
    end.

Definition pq_get_first_cycle (h : gmap Z nghttp2_stream) (qu : list Z) : option Z :=
  match qu !! 0%nat with
  | None => Some 0
  | Some a => (fun s : nghttp2_stream => cycle s) <$> h !! a
  end.

(** [nghttp2_pq_push(&session->sched[i].ob_data, &stream->pq_entry)] *)
Definition sched_push (i : nat) (stream : Z) : se_m Z := fun ss =>
  '(qu, cap) ← sched ss !! i;
  let '(pq, rv) := nghttp2_pq_push ob_stream_less (mk_pq qu cap (sched_entries (se_streams ss))) (realloc_ok (pushes (se_world ss))) stream in
  Some (sched_write i pq (S (pushes (se_world ss))) ss, rv).

(** [nghttp2_pq_remove(&session->sched[i].ob_data, &stream->pq_entry)] *)
Definition sched_remove (i : nat) (stream : Z) : se_m unit := fun ss =>
  '(qu, cap) ← sched ss !! i;
  pq ← nghttp2_pq_remove ob_stream_less (mk_pq qu cap (sched_entries (se_streams ss))) stream;
  Some (sched_write i pq (pushes (se_world ss)) ss, tt).

Definition urgency_index (s : nghttp2_stream) : nat := Z.to_nat (nghttp2_extpri_uint8_urgency (extpri s)).

Definition session_ob_data_push (stream : Z) : se_m Z :=
  let! s := load_stream stream in
  se_assert (no_rfc7540_priorities s);;
  se_assert (queued s =? 0);;
  let urg := nghttp2_extpri_uint8_urgency (extpri s) in
  let incr := nghttp2_extpri_uint8_inc (extpri s) in
  se_assert (urg <? NGHTTP2_EXTPRI_URGENCY_LEVELS);;
  let! ss := the_session in
  let! first := (match '(qu, _) ← sched ss !! Z.to_nat urg; pq_get_first_cycle (se_streams ss) qu with
                 | Some c => mret c | None => se_undef end) in
  modify_stream stream (upd_sched (cycle_to (if incr =? 0 then first else u64 (first + last_writelen s))));;
  let! rv := sched_push (Z.to_nat urg) stream in
  if negb (rv =? 0) then mret rv
  else modify_stream stream (upd_sched (queued_to 1));; mret 0.

Definition session_ob_data_remove (stream : Z) : se_m unit :=
  let! s := load_stream stream in
  se_assert (no_rfc7540_priorities s);;
  se_assert (queued s =? 1);;
  se_assert (nghttp2_extpri_uint8_urgency (extpri s) <? NGHTTP2_EXTPRI_URGENCY_LEVELS);;
  sched_remove (urgency_index s) stream;;
  modify_stream stream (upd_sched (queued_to 0)).

Definition session_attach_stream_item (stream item : Z) : se_m Z :=
  let! rv := on_streams (nghttp2_stream_attach_item realloc_ok stream item) in
  if negb (rv =? 0) then mret rv
  else
    let! s := load_stream stream in
    if negb (no_rfc7540_priorities s) then mret 0
    else
      let! rv := session_ob_data_push stream in
      if negb (rv =? 0) then on_streams (nghttp2_stream_detach_item stream);; mret rv
      else mret 0.

Definition session_detach_stream_item (stream : Z) : se_m unit :=
  on_streams (nghttp2_stream_detach_item stream);;
  let! s := load_stream stream in
  if negb (no_rfc7540_priorities s) || (queued s =? 0) then mret tt
  else session_ob_data_remove stream.

Definition session_defer_stream_item (stream flags : Z) : se_m unit :=
  on_streams (nghttp2_stream_defer_item stream flags);;
  let! s := load_stream stream in
  if negb (no_rfc7540_priorities s) || (queued s =? 0) then mret tt
  else session_ob_data_remove stream.

Definition session_resume_deferred_stream_item (stream flags : Z) : se_m Z :=
  let! rv := on_streams (nghttp2_stream_resume_deferred_item realloc_ok stream flags) in
  if negb (rv =? 0) then mret rv
  else
    let! s := load_stream stream in
    if negb (no_rfc7540_priorities s) || negb (sm_flags s .& NGHTTP2_STREAM_FLAG_DEFERRED_ALL =? 0) then mret 0
    else session_ob_data_push stream.

(** The queues from [i] on, the most urgent one first. *)
Fixpoint sched_first (qs : list (list Z * nat)) : option Z :=
  match qs with
  | [] => None
  | (qu, _) :: qs =>
      match qu !! 0%nat with
      | Some a => Some a
      | None => sched_first qs
      end
  end.

Definition session_sched_get_next_outbound_item : se_m (option Z) :=
  let! ss := the_session in
  match sched_first (sched ss) with
  | None => mret None
  | Some a => let! s := load_stream a in mret (item s)
  end.

Definition session_sched_empty (ss : nghttp2_session) : bool :=
  forallb (fun '(qu, _) => (length qu =? 0)%nat) (sched ss).

Definition session_sched_reschedule_stream (stream : Z) : se_m unit :=
  let! s := load_stream stream in
  let urg := nghttp2_extpri_uint8_urgency (extpri s) in
  let incr := nghttp2_extpri_uint8_inc (extpri s) in
  let penalty := last_writelen s in
  se_assert (urg <? NGHTTP2_EXTPRI_URGENCY_LEVELS);;
  let! ss := the_session in
  let! n := (match sched ss !! Z.to_nat urg with Some (qu, _) => mret (length qu) | None => se_undef end) in
  if (incr =? 0) || (n =? 1)%nat then mret tt
  else
    sched_remove (Z.to_nat urg) stream;;
    modify_stream stream (upd_sched (cycle_to (u64 (cycle s + penalty))));;
    let! rv := sched_push (Z.to_nat urg) stream in
    se_assert (rv =? 0).

Definition session_update_stream_priority (stream u8extpri : Z) : se_m Z :=
  let! s := load_stream stream in
  if extpri s =? u8extpri then mret 0
  else if negb (queued s =? 0) then
    session_ob_data_remove stream;;
    modify_stream stream (extpri_to u8extpri);;
    session_ob_data_push stream
  else modify_stream stream (extpri_to u8extpri);; mret 0.

(** ** Opening streams *)

(** Where [pri_spec] points: the stream depended upon, which [open_idle]
    creates when it is idle and not in memory, and the specification that is
    followed; [None] when there is no memory. *)
Definition find_dep_stream (open_idle : Z -> se_m (option Z)) (pri_spec : nghttp2_priority_spec) :
    se_m (option (option Z * nghttp2_priority_spec)) :=
  let! dep_stream := nghttp2_session_get_stream_raw (ps_stream_id pri_spec) in
  let! ss := the_session in
  match dep_stream with
  | None =>
      if session_detect_idle_stream ss (ps_stream_id pri_spec) then
        let! opened := open_idle (ps_stream_id pri_spec) in
        match opened with
        | None => mret None
        | Some d => mret (Some (Some d, pri_spec))
        end
      else mret (Some (None, nghttp2_priority_spec_default_init))
  | Some d =>
      let! ds := load_stream d in
      if nghttp2_stream_in_dep_tree ds then mret (Some (Some d, pri_spec))
      else mret (Some (Some d, nghttp2_priority_spec_default_init))
  end.

(** A stream in memory is opened again only when it was idle. *)
Definition reopen_idle_stream (stream : Z) : se_m Z :=
  let! s := load_stream stream in
  se_assert (bool_decide (state s = NGHTTP2_STREAM_IDLE));;
  se_assert (no_rfc7540_priorities s || nghttp2_stream_in_dep_tree s);;
  nghttp2_session_detach_idle_stream stream;;
  let! s := load_stream stream in
  if nghttp2_stream_in_dep_tree s then
    se_assert (negb (no_rfc7540_priorities s));;
    let! rv := on_streams (nghttp2_stream_dep_remove realloc_ok stream) in
    if negb (rv =? 0) then mret rv
    else
      let! ss := the_session in
      if session_no_rfc7540_pri_no_fallback ss then
        modify_stream stream (fun s => flags_to (u8 (sm_flags s .| NGHTTP2_STREAM_FLAG_NO_RFC7540_PRIORITIES)) s);; mret 0
      else mret 0
  else mret 0.

(** What [open_stream] does with the counters and lists once the stream is in memory. *)
Definition count_opened (stream_id stream : Z) (initial_state : nghttp2_stream_state) : se_m unit :=
  let! ss := the_session in
  let mine := nghttp2_session_is_my_stream_id ss stream_id in
  match initial_state with
  | NGHTTP2_STREAM_RESERVED =>
      if mine then on_streams (nghttp2_stream_shutdown stream NGHTTP2_SHUT_RD)
      else
        on_streams (nghttp2_stream_shutdown stream NGHTTP2_SHUT_WR);;
        update (fun ss => upd_counts (num_incoming_reserved_streams_to (u64 (num_incoming_reserved_streams ss + 1))) ss)
  | NGHTTP2_STREAM_IDLE => nghttp2_session_keep_idle_stream stream
  | _ =>
      if mine then update (fun ss => upd_counts (num_outgoing_streams_to (u64 (num_outgoing_streams ss + 1))) ss)
      else update (fun ss => upd_counts (num_incoming_streams_to (u64 (num_incoming_streams ss + 1))) ss)
  end.

(** [(int32_t)n] *)
Definition to_int32 (n : Z) : Z := if u32 n <=? INT32_MAX then u32 n else u32 n - 2 ^ 32.

(** The stream in memory, with a new structure when [found] is [None]. *)
Definition place_stream (found : option Z) (stream_id flags : Z) (pri_spec : nghttp2_priority_spec)
    (initial_state : nghttp2_stream_state) (user_data : option Z) : se_m (option Z) :=
  match found with
  | None =>
      let! ss := the_session in
      let a := new_stream (se_streams ss) in
      update (fun ss => world_to (mk_world (<[a :=
        nghttp2_stream_init stream_id flags initial_state (ps_weight pri_spec)
          (to_int32 (initial_window_size (remote_settings ss))) (to_int32 (initial_window_size (local_settings ss))) user_data]>
        (se_streams ss)) (pushes (se_world ss))) ss);;
      (if session_no_rfc7540_pri_no_fallback ss then
         modify_stream a (upd_sched (seq_to (stream_seq ss)));;
         update (upd_counts (stream_seq_to (u64 (stream_seq ss + 1))))
       else mret tt);;
      let! rv := map_insert stream_id a in
      if negb (rv =? 0) then
        update (fun ss => world_to (mk_world (delete a (se_streams ss)) (pushes (se_world ss))) ss);; mret None
      else mret (Some a)
  | Some a =>
      modify_stream a (fun s => stream_user_data_to user_data (upd_dep (weight_to (ps_weight pri_spec)) (state_to initial_state (flags_to flags s))));;
      mret (Some a)
  end.

(** The flags and the priority that [open_stream] gives to a stream. *)
Definition validation_flags (ss : nghttp2_session) (flags : Z) : Z :=
  if opt_flags ss .& NGHTTP2_OPTMASK_NO_RFC9113_LEADING_AND_TRAILING_WS_VALIDATION =? 0 then flags
  else u8 (flags .| NGHTTP2_STREAM_FLAG_NO_RFC9113_LEADING_AND_TRAILING_WS_VALIDATION).

Definition remote_no_priorities (ss : nghttp2_session) : bool := no_rfc7540_priorities_setting (remote_settings ss) =? 1.
Definition no_priorities (ss : nghttp2_session) : bool := session_no_rfc7540_pri_no_fallback ss || remote_no_priorities ss.

Definition spec_in_force (ss : nghttp2_session) (pri_spec : nghttp2_priority_spec) : nghttp2_priority_spec :=
  if no_priorities ss && (server ss || remote_no_priorities ss) then nghttp2_priority_spec_default_init else pri_spec.

Definition priority_flags (ss : nghttp2_session) (flags : Z) : Z :=
  if no_priorities ss && (pending_no_rfc7540_priorities ss =? 1) then u8 (flags .| NGHTTP2_STREAM_FLAG_NO_RFC7540_PRIORITIES) else flags.

Definition push_flags (initial_state : nghttp2_stream_state) (flags : Z) : Z :=
  if bool_decide (initial_state = NGHTTP2_STREAM_RESERVED) then u8 (flags .| NGHTTP2_STREAM_FLAG_PUSH) else flags.

(** The stream of a dependency is opened with the default priority, so the
    function calls itself once at most. *)
Fixpoint open_stream_loop (depth : nat) (stream_id flags : Z) (pri_spec : nghttp2_priority_spec)
    (initial_state : nghttp2_stream_state) (user_data : option Z) : se_m (option Z) :=
  match depth with
  | O => se_undef
  | S depth =>
      let! found := nghttp2_session_get_stream_raw stream_id in
      let! ss := the_session in
      let! ready := (match found with
                     | Some a => let! rv := reopen_idle_stream a in mret (rv =? 0)
                     | None => mem_malloc
                     end) in
      if negb ready then mret None
      else
        let! ss1 := the_session in
        let! target := (if no_priorities ss1 || (ps_stream_id (spec_in_force ss1 pri_spec) =? 0)
                        then mret (Some (None, spec_in_force ss1 pri_spec))
                        else find_dep_stream (fun id => open_stream_loop depth id NGHTTP2_FLAG_NONE nghttp2_priority_spec_default_init
                               NGHTTP2_STREAM_IDLE None) (spec_in_force ss1 pri_spec)) in
        match target with
        | None => mret None
        | Some (dep_stream, pri_spec) =>
            let! placed := place_stream found stream_id (push_flags initial_state (priority_flags ss1 (validation_flags ss flags)))
                             pri_spec initial_state user_data in
            match placed with
            | None => mret None
            | Some a =>
                count_opened stream_id a initial_state;;
                let! s := load_stream a in
                if no_rfc7540_priorities s then mret (Some a)
                else
                  match (if ps_stream_id pri_spec =? 0 then Some root else dep_stream) with
                  | None => se_undef
                  | Some d =>
                      if negb (ps_exclusive pri_spec =? 0) then
                        let! rv := on_streams (nghttp2_stream_dep_insert realloc_ok d a) in
                        mret (if rv =? 0 then Some a else None)
                      else on_streams (nghttp2_stream_dep_add d a);; mret (Some a)
                  end
            end
        end
  end.

Definition nghttp2_session_open_stream := open_stream_loop 2.

(** ** Closing streams *)

(** The release of the structure itself is its removal from the store. *)
Definition nghttp2_session_destroy_stream (stream : Z) : se_m Z :=
  let! s := load_stream stream in
  let! rv := (if nghttp2_stream_in_dep_tree s then on_streams (nghttp2_stream_dep_remove realloc_ok stream) else mret 0) in
  if negb (rv =? 0) then mret rv
  else
    let! s := load_stream stream in
    (if negb (queued s =? 0) && no_rfc7540_priorities s then session_ob_data_remove stream else mret tt);;
    update (fun ss => stream_map_to (delete (stream_id s) (stream_map ss)) ss);;
    update (fun ss => world_to (mk_world (delete stream (se_streams ss)) (pushes (se_world ss))) ss);;
    mret 0.

(** [callbacks.on_stream_close_callback], with the stream's id and the error code. *)
Variable on_stream_close_callback : option (Z -> Z -> se_m Z).

(** The item that was attached is released unless a queue or [aob] has it. *)
Definition release_item (it : Z) : se_m unit :=
  let! ss := the_session in
  match ob_items ss !! it with
  | None => se_undef
  | Some i =>
      if (it_queued i =? 0) && bool_decide (Some it <> aob_item ss) then
        update (upd_ob (fun ob => mk_outbound (delete it (ob_items ob)) (ob_urgent ob) (ob_reg ob) (ob_syn ob) (aob_item ob)))
      else mret tt
  end.

Definition nghttp2_session_close_stream (stream_id error_code : Z) : se_m Z :=
  let! found := nghttp2_session_get_stream stream_id in
  match found with
  | None => mret NGHTTP2_ERR_INVALID_ARGUMENT
  | Some stream =>
      let! rv := (match on_stream_close_callback with Some f => f stream_id error_code | None => mret 0 end) in
      if negb (rv =? 0) then mret NGHTTP2_ERR_CALLBACK_FAILURE
      else
        let! s := load_stream stream in
        (match item s with
         | Some it => session_detach_stream_item stream;; release_item it
         | None => mret tt
         end);;
        let! ss := the_session in
        let mine := nghttp2_session_is_my_stream_id ss stream_id in
        let! s := load_stream stream in
        (if negb (sm_flags s .& NGHTTP2_STREAM_FLAG_PUSH =? 0) then
           if negb mine then update (fun ss => upd_counts (num_incoming_reserved_streams_to (u64 (num_incoming_reserved_streams ss - 1))) ss)
           else mret tt
         else if mine then update (fun ss => upd_counts (num_outgoing_streams_to (u64 (num_outgoing_streams ss - 1))) ss)
         else update (fun ss => upd_counts (num_incoming_streams_to (u64 (num_incoming_streams ss - 1))) ss));;
        modify_stream stream (fun s => flags_to (u8 (sm_flags s .| NGHTTP2_STREAM_FLAG_CLOSED)) s);;
        let! s := load_stream stream in
        if pending_no_rfc7540_priorities ss =? 1 then nghttp2_session_destroy_stream stream
        else if (opt_flags ss .& NGHTTP2_OPTMASK_NO_CLOSED_STREAMS =? 0) && server ss && negb mine && nghttp2_stream_in_dep_tree s then
          nghttp2_session_keep_closed_stream stream;; mret 0
        else nghttp2_session_destroy_stream stream
  end.

Definition nghttp2_session_close_stream_if_shut_rdwr (stream : Z) : se_m Z :=
  let! s := load_stream stream in
  if shut_flags s .& NGHTTP2_SHUT_RDWR =? NGHTTP2_SHUT_RDWR then nghttp2_session_close_stream (stream_id s) NGHTTP2_NO_ERROR
  else mret 0.

(** ** Limits on the streams that are kept *)

(** Each turn destroys a stream, so the number of streams bounds the loop. *)
Fixpoint adjust_closed_loop (fuel : nat) (num_stream_max : Z) : se_m Z :=
  let! ss := the_session in
  if (0 <? num_closed_streams ss) && (num_stream_max <? u64 (num_closed_streams ss + num_incoming_streams ss)) then
    match fuel, closed_stream_head ss with
    | S fuel, Some head_stream =>
        let! hs := load_stream head_stream in
        let next := closed_next hs in
        let! rv := nghttp2_session_destroy_stream head_stream in
        if negb (rv =? 0) then mret rv
        else
          (match next with
           | Some n =>
               update (fun ss => upd_lists (closed_list_to next (closed_stream_tail ss)) ss);;
               modify_stream n (closed_prev_to None)
           | None => update (upd_lists (closed_list_to None None))
           end);;
          update (fun ss => upd_counts (num_closed_streams_to (u64 (num_closed_streams ss - 1))) ss);;
          adjust_closed_loop fuel num_stream_max
    | _, _ => se_undef
    end
  else mret 0.

Definition nghttp2_session_adjust_closed_stream : se_m Z :=
  let! ss := the_session in
  let num_stream_max :=
    if max_concurrent_streams (local_settings ss) =? NGHTTP2_DEFAULT_MAX_CONCURRENT_STREAMS
    then pending_local_max_concurrent_stream ss else max_concurrent_streams (local_settings ss) in
  adjust_closed_loop (size (se_streams ss)) num_stream_max.

Fixpoint adjust_idle_loop (fuel : nat) (max : Z) : se_m Z :=
  let! ss := the_session in
  if max <? num_idle_streams ss then
    match fuel, idle_stream_head ss with
    | S fuel, Some head =>
        let! hs := load_stream head in
        let next := closed_next hs in
        let! rv := nghttp2_session_destroy_stream head in
        if negb (rv =? 0) then mret rv
        else
          (match next with
           | Some n =>
               update (fun ss => upd_lists (idle_list_to next (idle_stream_tail ss)) ss);;
               modify_stream n (closed_prev_to None)
           | None => update (upd_lists (idle_list_to None None))
           end);;
          update (fun ss => upd_counts (num_idle_streams_to (u64 (num_idle_streams ss - 1))) ss);;
          adjust_idle_loop fuel max
    | _, _ => se_undef
    end
  else mret 0.

Definition max_idle_streams (ss : nghttp2_session) : Z :=
  Z.min 100 (Z.max 16 (Z.min (max_concurrent_streams (local_settings ss)) (pending_local_max_concurrent_stream ss))).

Definition nghttp2_session_adjust_idle_stream : se_m Z :=
  let! ss := the_session in adjust_idle_loop (size (se_streams ss)) (max_idle_streams ss).

(** ** Changing priorities *)

Definition nghttp2_session_reprioritize_stream (stream : Z) (pri_spec_in : nghttp2_priority_spec) : se_m Z :=
  let! ss := the_session in
  se_assert ((negb (server ss) && negb (pending_no_rfc7540_priorities ss =? 1)) ||
             (server ss && negb (session_no_rfc7540_pri_no_fallback ss)));;
  let! s := load_stream stream in
  se_assert (negb (ps_stream_id pri_spec_in =? stream_id s));;
  if negb (nghttp2_stream_in_dep_tree s) then mret 0
  else
    let! target := (if ps_stream_id pri_spec_in =? 0 then mret (Some (None, pri_spec_in))
                    else find_dep_stream (fun id => nghttp2_session_open_stream id NGHTTP2_FLAG_NONE nghttp2_priority_spec_default_init
                           NGHTTP2_STREAM_IDLE None) pri_spec_in) in
    match target with
    | None => mret NGHTTP2_ERR_NOMEM
    | Some (found, pri_spec) =>
        match (if ps_stream_id pri_spec =? 0 then Some root else found) with
        | None => se_undef
        | Some dep_stream =>
            let! rv := (if ps_stream_id pri_spec =? 0 then mret 0
                        else
                          let! cyclic := on_streams (nghttp2_stream_dep_find_ancestor dep_stream stream) in
                          if cyclic then
                            on_streams (nghttp2_stream_dep_remove_subtree dep_stream);;
                            let! s := load_stream stream in
                            let! p := on_streams (deref (dep_prev s)) in
                            on_streams (nghttp2_stream_dep_add_subtree realloc_ok p dep_stream)
                          else mret 0) in
            if negb (rv =? 0) then mret rv
            else
              let! s := load_stream stream in
              if bool_decide (dep_prev s = Some dep_stream) && (ps_exclusive pri_spec =? 0) then
                on_streams (nghttp2_stream_change_weight realloc_ok stream (ps_weight pri_spec));; mret 0
              else
                on_streams (nghttp2_stream_dep_remove_subtree stream);;
                modify_stream stream (upd_dep (weight_to (ps_weight pri_spec)));;
                if negb (ps_exclusive pri_spec =? 0) then on_streams (nghttp2_stream_dep_insert_subtree realloc_ok dep_stream stream)
                else on_streams (nghttp2_stream_dep_add_subtree realloc_ok dep_stream stream)
        end
    end.

End Operations.
