(* ===== verification/StreamFrame.v ===== *)
(** * Streams: what the operations on the tree leave alone

    The operations on the dependency tree and its queues touch nothing of a
    stream but its links, weights and scheduling data: [same_base] holds
    between the streams before and after every run. *)

From S2P Require Import Prelude Defs Pq Frame Http Stream StreamLinks StreamQueue StreamTree.

Implicit Types (h : gmap Z nghttp2_stream) (w : world).

(** ** Queues of any shape *)

Section Items.
Context (less : nghttp2_stream -> nghttp2_stream -> bool).
Implicit Types pq : nghttp2_pq nghttp2_stream.

Lemma bubble_up_items pq i : items (bubble_up less pq i) = items pq.
Proof.
  unfold bubble_up. generalize i at 1. intros fuel. revert pq i. induction fuel as [|fuel IH]; intros pq i; simpl; [done|].
  destruct (i =? 0)%nat; [done|]. destruct (pq_less less pq i _); simpl; [|done]. rewrite IH. apply swap_items.
Qed.

Lemma bubble_down_items pq i : items (bubble_down less pq i) = items pq.
Proof.
  unfold bubble_down. generalize (length (q pq)). intros fuel. revert pq i.
  induction fuel as [|fuel IH]; intros pq i; cbn [bubble_down_loop]; [done|]. cbv zeta.
  destruct (_ =? i)%nat; [done|]. rewrite IH. apply swap_items.
Qed.

Lemma move_last_items pq i : items (move_last pq i) = items pq.
Proof. unfold move_last. destruct (last (q pq)); [|done]. apply items_set_index. Qed.

Lemma pop_items pq : items (nghttp2_pq_pop less pq) = items pq.
Proof. unfold nghttp2_pq_pop. destruct (0 <? length (q pq))%nat; [|done]. by rewrite bubble_down_items, move_last_items. Qed.

Lemma push_items pq ok a pq' rv : nghttp2_pq_push less pq ok a = (pq', rv) -> items pq' = items pq.
Proof.
  unfold nghttp2_pq_push. destruct (_ && _); [by intros [= <- _]|]. intros [= <- _]. rewrite bubble_up_items. apply items_set_index.
Qed.

Lemma remove_items pq a pq' : nghttp2_pq_remove less pq a = Some pq' -> items pq' = items pq.
Proof.
  unfold nghttp2_pq_remove. destruct (entries pq !! a) as [e|]; [|done]. repeat case_match; intros; simplify_eq;
    rewrite ?bubble_down_items, ?bubble_up_items, ?move_last_items, ?pop_items; done.
Qed.

End Items.

(** ** Operations *)

(** A view of a stream that sees neither links nor scheduling data, but may see the weight. *)
Class OffLinks {B} (f : nghttp2_stream -> B) : Prop := {
  off_links : forall g s, (forall d, weight (g d) = weight d) -> f (upd_dep g s) = f s;
  off_links_sched : forall g s, f (upd_sched g s) = f s;
}.

(** A view that does not see the weight either. *)
Class OffTree {B} (f : nghttp2_stream -> B) : Prop := {
  off_dep : forall g s, f (upd_dep g s) = f s;
  off_sched : forall g s, f (upd_sched g s) = f s;
}.

(** Besides, neither the item nor the flags. *)
Class OffItems {B} (f : nghttp2_stream -> B) : Prop := {
  off_items_tree :: OffTree f;
  off_item : forall v s, f (item_to v s) = f s;
  off_flags : forall v s, f (flags_to v s) = f s;
}.

#[global] Instance off_tree_links {B} (f : nghttp2_stream -> B) : OffTree f -> OffLinks f.
Proof. intros [H1 H2]. split; auto. Qed.

#[global] Instance base_off_tree : OffTree base.
Proof. done. Qed.

Definition keeps {B A} (f : nghttp2_stream -> B) (m : st_m A) : Prop :=
  forall w w' a, m w = Some (w', a) -> f <$> streams w' = f <$> streams w.

Lemma insert_keeps {B} (f : nghttp2_stream -> B) h a s s' : h !! a = Some s -> f s' = f s -> f <$> <[a := s']> h = f <$> h.
Proof. intros Ha E. rewrite fmap_insert, E, <- fmap_insert. by rewrite insert_id. Qed.

Section Keeps.
Context {B} (f : nghttp2_stream -> B).

Lemma keeps_ret {A} (a : A) : keeps f (mret a).
Proof. by intros w w' x [= <- <-]. Qed.

Lemma keeps_then {A C} (m : st_m A) (k : A -> st_m C) : keeps f m -> (forall a, keeps f (k a)) -> keeps f (st_then m k).
Proof.
  intros Hm Hk w w' x. unfold st_then, mbind, st_bind. destruct (m w) as [[w1 a]|] eqn:E; [|done].
  intros H%Hk. by rewrite H, (Hm _ _ _ E).
Qed.

Lemma keeps_bind {A C} (m : st_m A) (k : A -> st_m C) : keeps f m -> (forall a, keeps f (k a)) -> keeps f (mbind k m).
Proof. apply keeps_then. Qed.

Lemma keeps_undef {A} : keeps f (A := A) st_undef.
Proof. done. Qed.

Lemma keeps_assert b : keeps f (st_assert b).
Proof. destruct b; [apply keeps_ret|apply keeps_undef]. Qed.

Lemma keeps_load a : keeps f (load a).
Proof. intros w w' s. unfold load. destruct (streams w !! a); [|done]. by intros [= <- _]. Qed.

Lemma keeps_int32 z : keeps f (int32 z).
Proof. unfold int32. destruct (_ && _); [apply keeps_ret|apply keeps_undef]. Qed.

Lemma keeps_fuel : keeps f chain_fuel.
Proof. by intros w w' n [= <- _]. Qed.

Lemma keeps_deref p : keeps f (deref p).
Proof. destruct p; [apply keeps_ret|apply keeps_undef]. Qed.

Lemma keeps_modify a g : (forall s, f (g s) = f s) -> keeps f (modify a g).
Proof.
  intros Hg w w' u. unfold modify. destruct (streams w !! a) as [s|] eqn:Ha; [|done]. intros [= <- _]. simpl. by eapply insert_keeps.
Qed.

Lemma keeps_modify_dep `{OffTree B f} a g : keeps f (modify a (upd_dep g)).
Proof. apply keeps_modify. intros s. apply (off_dep (f := f)). Qed.

Context `{OffLinks B f}.

Lemma keeps_modify_links a g : (forall d, weight (g d) = weight d) -> keeps f (modify a (upd_dep g)).
Proof. intros Hg. apply keeps_modify. intros s. by apply (off_links (f := f)). Qed.

Lemma keeps_modify_sched a g : keeps f (modify a (upd_sched g)).
Proof. apply keeps_modify. intros s. apply (off_links_sched (f := f)). Qed.

Lemma obq_write_keeps d pq h : items pq = h -> f <$> obq_write d pq = f <$> h.
Proof.
  intros <-. unfold obq_write, items. apply map_eq. intros a. rewrite !lookup_fmap, lookup_alter.
  case_decide as E; [rewrite <- E|]; rewrite ?lookup_fmap; destruct (entries pq !! _); cbn [fmap option_fmap option_map];
    rewrite ?(off_links_sched (f := f)); done.
Qed.

Lemma keeps_obq_insert ok d a : keeps f (obq_insert ok d a).
Proof.
  intros w w' rv. unfold obq_insert. destruct (streams w !! d) as [s|]; [|done]. simpl.
  destruct (nghttp2_pq_push _ _ _ _) as [pq rv'] eqn:E. intros [= <- _]. simpl. apply obq_write_keeps.
  by rewrite (push_items _ _ _ _ _ _ E), obq_view_items.
Qed.

Lemma keeps_obq_delete d a : keeps f (obq_delete d a).
Proof.
  intros w w' rv. unfold obq_delete. destruct (streams w !! d) as [s|]; [|done]. simpl.
  destruct (nghttp2_pq_remove _ _ _) as [pq|] eqn:E; [|done]. intros [= <- _]. simpl. apply obq_write_keeps.
  by rewrite (remove_items _ _ _ _ E), obq_view_items.
Qed.

End Keeps.

Create HintDb keeps discriminated.
#[export] Hint Resolve keeps_ret keeps_undef keeps_assert keeps_load keeps_int32 keeps_fuel keeps_deref keeps_modify_dep
  keeps_modify_links keeps_modify_sched keeps_obq_insert keeps_obq_delete : keeps.
#[export] Hint Extern 1 (weight _ = weight _) => reflexivity : keeps.

(** Splits a program at its binds and tests. *)
Ltac keeps_steps :=
  repeat (cbv zeta; first
    [ solve [auto with keeps]
    | match goal with
      | |- keeps _ (st_then _ _) => apply keeps_then; [|intros ?]
      | |- keeps _ (mbind _ _) => apply keeps_bind; [|intros ?]
      | |- keeps _ (if ?b then _ else _) => destruct b
      | |- keeps _ (match ?x with _ => _ end) => destruct x
      | |- keeps _ (let '(_, _) := ?x in _) => destruct x
      end ]).

Section Operations.
Context {B} (f : nghttp2_stream -> B) `{OffLinks B f} (ok : nat -> bool).

Lemma keeps_next_cycle a n : keeps f (stream_next_cycle a n).
Proof. unfold stream_next_cycle. keeps_steps. Qed.
Hint Resolve keeps_next_cycle : keeps.

Lemma keeps_next_seq d a : keeps f (next_seq d a).
Proof. unfold next_seq. keeps_steps. Qed.
Hint Resolve keeps_next_seq : keeps.

Lemma keeps_obq_push d a : keeps f (stream_obq_push ok d a).
Proof.
  unfold stream_obq_push. apply keeps_then; [apply keeps_fuel|]. intros fuel. revert d a.
  induction fuel as [|fuel IH]; intros d a; cbn [obq_push_loop]; keeps_steps.
Qed.
Hint Resolve keeps_obq_push : keeps.

Lemma keeps_obq_remove a : keeps f (stream_obq_remove a).
Proof.
  unfold stream_obq_remove. apply keeps_then; [apply keeps_load|]. intros s. destruct (queued s =? 0); [apply keeps_ret|].
  apply keeps_then; [apply keeps_fuel|]. intros fuel. generalize (dep_prev s). revert a.
  induction fuel as [|fuel IH]; intros a d; cbn [obq_remove_loop]; keeps_steps.
Qed.
Hint Resolve keeps_obq_remove : keeps.

Lemma keeps_obq_move d src a : keeps f (stream_obq_move ok d src a).
Proof. unfold stream_obq_move. keeps_steps. Qed.
Hint Resolve keeps_obq_move : keeps.

Lemma keeps_for_siblings body : (forall a, keeps f (body a)) -> forall fuel si, keeps f (for_siblings fuel si body).
Proof.
  intros Hb fuel. induction fuel as [|fuel IH]; intros si; destruct si as [a|]; cbn [for_siblings]; auto with keeps.
  apply keeps_then; [apply Hb|]. intros rv. keeps_steps.
Qed.

Lemma keeps_last_sib a : keeps f (stream_last_sib a).
Proof.
  unfold stream_last_sib. apply keeps_then; [apply keeps_fuel|]. intros fuel. revert a.
  induction fuel as [|fuel IH]; intros a; cbn [last_sib_loop]; keeps_steps.
Qed.
Hint Resolve keeps_last_sib : keeps.

Lemma keeps_link_dep d a : keeps f (link_dep d a).
Proof. unfold link_dep. keeps_steps. Qed.
Lemma keeps_link_sib d a : keeps f (link_sib d a).
Proof. unfold link_sib. keeps_steps. Qed.
Hint Resolve keeps_link_dep keeps_link_sib : keeps.

Lemma keeps_link_child d a : keeps f (link_child d a).
Proof. unfold link_child, insert_link_dep. keeps_steps. Qed.
Lemma keeps_add_sum d n : keeps f (add_sum_dep_weight d n).
Proof. unfold add_sum_dep_weight. keeps_steps. Qed.
Lemma keeps_push_if_active d a : keeps f (push_if_active ok d a).
Proof. unfold push_if_active. keeps_steps. Qed.
Lemma keeps_adopt d a first : keeps f (adopt ok d a first).
Proof. unfold adopt. apply keeps_then; [apply keeps_fuel|]. intros fuel. apply keeps_for_siblings. intros c. keeps_steps. Qed.
Lemma keeps_splice a c : keeps f (splice_children a c).
Proof.
  unfold splice_children, set_dep_prev. keeps_steps. apply keeps_for_siblings. intros x. keeps_steps.
Qed.
Hint Resolve keeps_link_child keeps_add_sum keeps_push_if_active keeps_adopt keeps_splice : keeps.

Lemma keeps_dep_add d a : keeps f (nghttp2_stream_dep_add d a).
Proof. unfold nghttp2_stream_dep_add. keeps_steps. Qed.

Lemma keeps_dep_add_subtree d a : keeps f (nghttp2_stream_dep_add_subtree ok d a).
Proof. unfold nghttp2_stream_dep_add_subtree. keeps_steps. Qed.

Lemma keeps_dep_insert d a : keeps f (nghttp2_stream_dep_insert ok d a).
Proof. unfold nghttp2_stream_dep_insert. keeps_steps. Qed.

Lemma keeps_dep_insert_subtree d a : keeps f (nghttp2_stream_dep_insert_subtree ok d a).
Proof. unfold nghttp2_stream_dep_insert_subtree. keeps_steps. Qed.

Lemma keeps_dep_remove_subtree a : keeps f (nghttp2_stream_dep_remove_subtree a).
Proof. unfold nghttp2_stream_dep_remove_subtree. keeps_steps. Qed.

Lemma keeps_find_ancestor a t : keeps f (nghttp2_stream_dep_find_ancestor a t).
Proof.
  unfold nghttp2_stream_dep_find_ancestor. apply keeps_then; [apply keeps_fuel|]. intros fuel. generalize (Some a).
  induction fuel as [|fuel IH]; intros p; destruct p as [x|]; cbn [find_ancestor_loop]; auto with keeps. keeps_steps.
Qed.

Lemma keeps_reschedule a : keeps f (nghttp2_stream_reschedule ok a).
Proof.
  unfold nghttp2_stream_reschedule. apply keeps_then; [apply keeps_load|]. intros s. apply keeps_bind; [apply keeps_assert|]. intros _.
  apply keeps_then; [apply keeps_fuel|]. intros fuel. generalize (dep_prev s). revert a.
  induction fuel as [|fuel IH]; intros a d; cbn [reschedule_loop]; keeps_steps.
Qed.

Context `{OffTree B f}.

Lemma keeps_distribute fuel a si delta : keeps f (distribute_loop ok fuel a si delta).
Proof.
  revert si delta. induction fuel as [|fuel IH]; intros si delta; destruct si as [c|]; cbn [distribute_loop]; auto with keeps.
  unfold nghttp2_stream_dep_distributed_weight. keeps_steps.
Qed.
Hint Resolve keeps_distribute : keeps.

Lemma keeps_dep_remove a : keeps f (nghttp2_stream_dep_remove ok a).
Proof. unfold nghttp2_stream_dep_remove, unlink_sib, unlink_dep. keeps_steps. Qed.

Lemma keeps_change_weight a n : keeps f (nghttp2_stream_change_weight ok a n).
Proof. unfold nghttp2_stream_change_weight. keeps_steps. Qed.

End Operations.

(** ** Runs step by step *)

Lemma run_load {A} a (s : nghttp2_stream) (k : nghttp2_stream -> st_m A) w : streams w !! a = Some s -> st_then (load a) k w = k s w.
Proof. intros Hs. unfold st_then, mbind, st_bind, load. by rewrite Hs. Qed.

Lemma run_modify {A} a f (s : nghttp2_stream) (k : unit -> st_m A) w : streams w !! a = Some s ->
  mbind k (modify a f) w = k tt (mk_world (<[a := f s]> (streams w)) (pushes w)).
Proof. intros Hs. unfold mbind, st_bind, modify. by rewrite Hs. Qed.

Lemma run_assert {A} (k : unit -> st_m A) w : mbind k (st_assert true) w = k tt w.
Proof. done. Qed.
