(* ===== verification/SessionInv.v ===== *)
(** * Sessions: the books

    What a session notes about its streams apart from the dependency tree:
    the table by id, the lists of closed and idle streams, the counters.  All
    of it depends on a few members of each stream ([card]); the invariant
    [book_ok] is stated on them, so that operations on the tree keep it for
    free.  A stream that is being opened or closed is in limbo for a while:
    it is in the table but in no list and not counted. *)

From S2P Require Import Prelude Defs Pq Frame Http Stream StreamLinks StreamQueue StreamTree StreamFrame Outbound Session.

Implicit Types (h : gmap Z nghttp2_stream) (ss : nghttp2_session) (lc li : list Z).

(** ** Runs in a session *)

Definition sp {A} (m : se_m A) ss (Q : A -> nghttp2_session -> Prop) : Prop :=
  match m ss with
  | Some (ss', a) => Q a ss'
  | None => False
  end.

Lemma sp_ret {A} (a : A) ss (Q : A -> nghttp2_session -> Prop) : Q a ss -> sp (mret a) ss Q.
Proof. done. Qed.

Lemma sp_then {A B} (m : se_m A) (k : A -> se_m B) ss Q : sp m ss (fun a ss' => sp (k a) ss' Q) -> sp (se_then m k) ss Q.
Proof. unfold sp, se_then, mbind, se_bind. destruct (m ss) as [[ss' a]|]; done. Qed.

Lemma sp_bind {A B} (m : se_m A) (k : A -> se_m B) ss Q : sp m ss (fun a ss' => sp (k a) ss' Q) -> sp (mbind k m) ss Q.
Proof. apply sp_then. Qed.

Lemma sp_mono {A} (m : se_m A) ss (P Q : A -> nghttp2_session -> Prop) : sp m ss P -> (forall a ss', P a ss' -> Q a ss') -> sp m ss Q.
Proof. unfold sp. destruct (m ss) as [[ss' a]|]; [|done]. intros H HPQ. by apply HPQ. Qed.

Lemma sp_session ss (Q : nghttp2_session -> nghttp2_session -> Prop) : Q ss ss -> sp the_session ss Q.
Proof. done. Qed.

Lemma sp_update f ss (Q : unit -> nghttp2_session -> Prop) : Q tt (f ss) -> sp (update f) ss Q.
Proof. done. Qed.

Lemma sp_assert b ss (Q : unit -> nghttp2_session -> Prop) : b = true -> Q tt ss -> sp (se_assert b) ss Q.
Proof. by intros ->. Qed.

Lemma world_to_id ss : world_to (se_world ss) ss = ss.
Proof. by destruct ss. Qed.

Lemma sp_on_streams {A} (m : st_m A) ss (Q : A -> nghttp2_session -> Prop) :
  wp m (se_world ss) (fun a w => Q a (world_to w ss)) -> sp (on_streams m) ss Q.
Proof. unfold wp, sp, on_streams. destruct (m (se_world ss)) as [[w a]|]; done. Qed.

Lemma sp_load ss a s (Q : nghttp2_stream -> nghttp2_session -> Prop) : se_streams ss !! a = Some s -> Q s ss -> sp (load_stream a) ss Q.
Proof. intros Ha HQ. apply sp_on_streams. eapply wp_load; [exact Ha|]. by rewrite world_to_id. Qed.

(** The streams of a session replaced. *)
Definition streams_to (h : gmap Z nghttp2_stream) ss : nghttp2_session := world_to (mk_world h (pushes (se_world ss))) ss.

Lemma sp_modify ss a f s (Q : unit -> nghttp2_session -> Prop) : se_streams ss !! a = Some s ->
  Q tt (streams_to (<[a := f s]> (se_streams ss)) ss) -> sp (modify_stream a f) ss Q.
Proof. intros Ha HQ. apply sp_on_streams. eapply wp_modify; [exact Ha|]. exact HQ. Qed.

(** An operation on the tree: what it does to the tree, and that it does nothing else. *)
Lemma sp_tree {A} (m : st_m A) ss (P : A -> world -> Prop) (Q : A -> nghttp2_session -> Prop) : keeps base m -> wp m (se_world ss) P ->
  (forall a w, P a w -> same_base (se_streams ss) (streams w) -> Q a (world_to w ss)) -> sp (on_streams m) ss Q.
Proof.
  intros HK HW HQ. unfold sp, on_streams, wp in *. destruct (m (se_world ss)) as [[w a]|] eqn:E; [|done].
  apply HQ; [done|]. by apply (HK _ _ _ E).
Qed.

Ltac sp_step :=
  lazymatch goal with
  | |- sp (se_then _ _) _ _ => apply sp_then
  | |- sp (mbind _ _) _ _ => apply sp_bind
  | |- sp (mret _) _ _ => apply sp_ret
  | |- sp the_session _ _ => apply sp_session
  | |- sp (update _) _ _ => apply sp_update
  | |- sp (load_stream _) _ _ => eapply sp_load; [eassumption|]
  | |- sp (modify_stream _ _) _ _ => eapply sp_modify; [eassumption|]
  end; cbn beta.

(** ** Cards *)

Record card := mk_card {
  c_id : Z;
  c_state : nghttp2_stream_state;
  c_flags : Z;
  c_prev : option Z;
  c_next : option Z;
  c_item : option Z;
}.

Definition card_of (s : nghttp2_stream) : card :=
  mk_card (stream_id s) (state s) (sm_flags s) (closed_prev s) (closed_next s) (item s).
Definition cards h : gmap Z card := card_of <$> h.

#[global] Instance card_off_tree : OffTree card_of.
Proof. done. Qed.

Lemma card_base s : card_of (base s) = card_of s.
Proof. done. Qed.

Lemma same_base_cards h h' : same_base h h' -> cards h' = cards h.
Proof.
  unfold same_base, cards. intros H. apply (f_equal (fmap card_of)) in H. rewrite <- !map_fmap_compose in H. exact H.
Qed.

Lemma cards_lookup h a s : h !! a = Some s -> cards h !! a = Some (card_of s).
Proof. intros Ha. unfold cards. by rewrite lookup_fmap, Ha. Qed.

Lemma cards_lookup_inv h a c : cards h !! a = Some c -> exists s, h !! a = Some s /\ card_of s = c.
Proof. unfold cards. rewrite lookup_fmap. destruct (h !! a) as [s|]; [|done]. intros [= <-]. eauto. Qed.

Lemma cards_insert h a s : cards (<[a := s]> h) = <[a := card_of s]> (cards h).
Proof. apply fmap_insert. Qed.

Inductive role := RIdle | RClosed | RPromisedLocal | RPromisedRemote | ROutgoing | RIncoming.

#[global] Instance role_eq_dec : EqDecision role.
Proof. solve_decision. Defined.

(** [nghttp2_session_is_my_stream_id] of a server or a client. *)
Definition mine (sv : bool) (id : Z) : bool :=
  if id =? 0 then false else if sv then (id .& 1) =? 0 else (id .& 1) =? 1.

Lemma is_mine ss id : nghttp2_session_is_my_stream_id ss id = mine (server ss) id.
Proof. done. Qed.

Definition flag_set (n f : Z) : bool := negb (n .& f =? 0).

Definition role_of (sv : bool) (c : card) : role :=
  if flag_set (c_flags c) NGHTTP2_STREAM_FLAG_CLOSED then RClosed
  else if bool_decide (c_state c = NGHTTP2_STREAM_IDLE) then RIdle
  else if flag_set (c_flags c) NGHTTP2_STREAM_FLAG_PUSH then if mine sv (c_id c) then RPromisedLocal else RPromisedRemote
  else if mine sv (c_id c) then ROutgoing else RIncoming.

(** ** Counting *)

Section Counting.
Implicit Types (C : gmap Z card) (X : gset Z).

Definition counted (sv : bool) X (r : role) (p : Z * card) : Prop := p.1 <> root /\ p.1 ∉ X /\ role_of sv p.2 = r.

#[global] Instance counted_dec sv X r p : Decision (counted sv X r p).
Proof. unfold counted. apply _. Defined.

Definition count sv X r C : Z := Z.of_nat (size (filter (counted sv X r) C)).

Lemma count_bound sv X r C : 0 <= count sv X r C <= Z.of_nat (size C).
Proof.
  unfold count. split; [lia|]. apply Nat2Z.inj_le. rewrite <- (size_dom (D := gset Z) C), <- (size_dom (D := gset Z) (filter _ C)).
  apply subseteq_size, dom_filter_subseteq.
Qed.

(** The streams in limbo do not matter. *)
Lemma count_limbo sv X r C C' : (forall b, b ∉ X -> C' !! b = C !! b) -> count sv X r C' = count sv X r C.
Proof.
  intros H. unfold count. do 2 f_equal. apply map_eq. intros b. apply option_eq. intros c.
  rewrite !map_lookup_filter_Some. unfold counted. simpl. destruct (decide (b ∈ X)); [naive_solver|]. by rewrite H.
Qed.

(** Leaving limbo. *)
Lemma count_enter sv X a c r C : C !! a = Some c -> a <> root -> a ∉ X ->
  count sv X r C = count sv ({[a]} ∪ X) r C + (if decide (role_of sv c = r) then 1 else 0).
Proof.
  intros Ha Hr HaX. unfold count. destruct (decide (role_of sv c = r)) as [E|E].
  - assert (filter (counted sv X r) C = <[a := c]> (filter (counted sv ({[a]} ∪ X) r) C)) as ->.
    { apply map_eq. intros b. apply option_eq. intros d. rewrite lookup_insert. destruct (decide (a = b)) as [<-|Hne].
      - rewrite map_lookup_filter_Some, Ha. unfold counted. simpl. naive_solver.
      - rewrite !map_lookup_filter_Some. unfold counted. simpl. set_solver. }
    rewrite map_size_insert_None; [lia|]. apply map_lookup_filter_None. right. intros d _. unfold counted. simpl. set_solver.
  - assert (filter (counted sv X r) C = filter (counted sv ({[a]} ∪ X) r) C) as ->; [|lia].
    apply map_eq. intros b. apply option_eq. intros d. rewrite !map_lookup_filter_Some. unfold counted. simpl.
    destruct (decide (a = b)) as [<-|Hne]; [|set_solver]. rewrite Ha. set_solver.
Qed.

End Counting.

(** ** Linked lists through [closed_prev] and [closed_next] *)

Section Kept.
Implicit Types (C : gmap Z card) (l : list Z).

(** The two pointers as the sibling pointers of [StreamLinks]. *)
Definition ring C : gmap Z stream_dep := (fun c => mk_dep (Some root) None (c_prev c) (c_next c) 0 0) <$> C.

Definition links_at C (a : Z) : option (option Z * option Z) := (fun c => (c_prev c, c_next c)) <$> C !! a.

Lemma ring_lookup C a : ring C !! a = (fun '(p, n) => mk_dep (Some root) None p n 0 0) <$> links_at C a.
Proof. unfold ring, links_at. rewrite lookup_fmap. by destruct (C !! a). Qed.

Lemma ring_links C a p n : links_at C a = Some (p, n) <-> ring C !! a = Some (mk_dep (Some root) None p n 0 0).
Proof. rewrite ring_lookup. destruct (links_at C a) as [[? ?]|]; naive_solver. Qed.

Record kept C l (hd tl : option Z) : Prop := {
  kp_seg : dllseg (ring C) root None l None;
  kp_head : hd = head l;
  kp_tail : tl = last l;
}.

Lemma seg_rebase C C' prev l next prev' next' : dllseg (ring C) root prev l next -> NoDup l ->
  (forall c p n, c ∈ l -> links_at C c = Some (p, n) ->
     links_at C' c = Some (if decide (Some c = head l) then prev' else p, if decide (Some c = last l) then next' else n)) ->
  dllseg (ring C') root prev' l next'.
Proof.
  intros Hs Hnd Hch. apply (dllseg_rebase (ring C) _ root prev l next); [done|done|]. intros c d Hc Hd.
  rewrite ring_lookup in Hd. destruct (links_at C c) as [[p n]|] eqn:E; [|done]. simpl in Hd. injection Hd as <-.
  apply (Hch c p n Hc) in E. apply ring_links in E. eexists. split; [exact E|done].
Qed.

Lemma seg_links C prev l next c : dllseg (ring C) root prev l next -> c ∈ l ->
  exists p n, links_at C c = Some (p, n) /\ (Some c = head l -> p = prev).
Proof.
  revert prev. induction l as [|x l IH]; intros prev; cbn [dllseg]; [by intros _ ?%elem_of_nil|].
  intros (d & H1 & H2 & H3 & H4 & H5) Hc. rewrite ring_lookup in H1. destruct (links_at C x) as [[p n]|] eqn:E; [|done].
  simpl in H1. injection H1 as <-. simpl in H3, H4.
  destruct (decide (c = x)) as [->|Hne]; [exists p, n; auto|]. apply elem_of_cons in Hc as [->|Hc]; [done|].
  destruct (IH _ H5 Hc) as (p' & n' & ? & _). exists p', n'. split; [done|]. intros [= ->]. done.
Qed.

Lemma kept_links C l hd tl c : kept C l hd tl -> c ∈ l -> exists p n, links_at C c = Some (p, n) /\ (Some c = head l -> p = None).
Proof. intros [Hs _ _] Hc. by eapply seg_links. Qed.

Lemma kept_ext C C' l hd tl : kept C l hd tl -> (forall a, a ∈ l -> links_at C' a = links_at C a) -> kept C' l hd tl.
Proof.
  intros [Hs H1 H2] H. split; [|done|done]. apply (dllseg_ext (ring C)); [|done]. intros c Hc. by rewrite !ring_lookup, H.
Qed.

Lemma kept_nil C : kept C [] None None.
Proof. by split. Qed.

Lemma kept_nil_inv C hd tl : kept C [] hd tl -> hd = None /\ tl = None.
Proof. by intros [_ -> ->]. Qed.

(** A stream is put behind the last one. *)
Lemma ring_snoc C C' l hd tl a : kept C l hd tl -> NoDup (l ++ [a]) ->
  links_at C' a = Some (tl, None) ->
  (forall b p n, b ∈ l -> links_at C b = Some (p, n) -> links_at C' b = Some (p, if decide (Some b = tl) then Some a else n)) ->
  kept C' (l ++ [a]) (match tl with Some _ => hd | None => Some a end) (Some a).
Proof.
  intros [Hs -> ->] Hnd Ha Hb. apply NoDup_app in Hnd as (Hnd & Hal & _). split.
  - apply dllseg_app. split.
    + apply (seg_rebase C _ None _ None); [done|done|]. intros c p n Hc Hl. rewrite (Hb c p n Hc Hl).
      destruct (decide (Some c = head l)) as [Eh|]; [|done]. destruct (seg_links _ _ _ _ _ Hs Hc) as (p' & n' & E & Hh).
      rewrite Hl in E. injection E as <- <-. by rewrite Hh.
    + cbn [dllseg hd_or]. eexists. apply ring_links in Ha. split; [exact Ha|]. simpl. split_and!; try done.
      unfold last_or. by destruct (last l).
  - destruct l as [|b l]; [done|]. destruct (last (b :: l)) eqn:E; [done|]. by apply last_None in E.
  - by rewrite last_snoc.
Qed.

(** A stream in the list points to its neighbours. *)
Lemma kept_middle C l1 a l2 hd tl : kept C (l1 ++ a :: l2) hd tl -> links_at C a = Some (last l1, head l2).
Proof.
  intros [Hs _ _]. apply dllseg_app in Hs as [_ (d & Hd & _ & E1 & E2 & _)].
  rewrite ring_lookup in Hd. destruct (links_at C a) as [[p n]|]; [|done]. simpl in Hd. injection Hd as <-. simpl in E1, E2.
  rewrite E1, E2. unfold last_or, hd_or. by destruct (last l1), l2.
Qed.

(** A stream is taken out. *)
Lemma kept_remove C C' l1 a l2 hd tl : kept C (l1 ++ a :: l2) hd tl -> NoDup (l1 ++ a :: l2) ->
  (forall b p n, b ∈ l1 ++ l2 -> links_at C b = Some (p, n) ->
     links_at C' b = Some (if decide (Some b = head l2) then last l1 else p, if decide (Some b = last l1) then head l2 else n)) ->
  links_at C a = Some (last l1, head l2) /\
  kept C' (l1 ++ l2) (match last l1 with Some _ => hd | None => head l2 end) (match head l2 with Some _ => tl | None => last l1 end).
Proof.
  intros HK Hnd Hb. split; [by eapply kept_middle|]. destruct HK as [Hs -> ->]. apply dllseg_app in Hs as [Hs1 Hs2]. cbn [dllseg hd_or] in Hs1, Hs2.
  destruct Hs2 as (d & Hd & _ & E1 & E2 & Hs2). apply NoDup_app in Hnd as (Hnd1 & Hdis & [Hal Hnd2]%NoDup_cons).
    split.
    + apply dllseg_app. split.
      * apply (seg_rebase C _ None _ (Some a)); [done|done|]. intros c p n Hc Hl. rewrite (Hb c p n) by (done || set_solver).
        rewrite (decide_False (P := Some c = head l2)) by (intros E; destruct l2; simplify_eq/=; set_solver).
        f_equal. f_equal. destruct (decide (Some c = head l1)) as [Eh|]; [|done].
        destruct (seg_links _ _ _ _ _ Hs1 Hc) as (p' & n' & E & Hh). rewrite Hl in E. injection E as <- <-. by rewrite Hh.
      * apply (seg_rebase C _ (Some a) _ None); [done|done|]. intros c p n Hc Hl. rewrite (Hb c p n) by (done || set_solver).
        rewrite (decide_False (P := Some c = last l1)) by (intros E; symmetry in E; apply last_Some_elem_of in E; set_solver).
        f_equal. f_equal; [unfold last_or; by destruct (last l1)|].
        destruct (decide (Some c = last l2)) as [El|]; [|done]. symmetry in El. apply last_Some in El as [l0 ->].
        apply dllseg_app in Hs2 as [_ (dc & Hdc & _ & _ & E & _)]. apply ring_links in Hl. rewrite Hl in Hdc. by injection Hdc as <-.
    + destruct l1 as [|b l1]; [done|]. destruct (last (b :: l1)) eqn:E; [done|]. by apply last_None in E.
    + rewrite !last_app, last_cons. destruct l2 as [|b l2]; [simpl; by destruct (last l1)|]. simpl head.
      destruct (last (b :: l2)) eqn:E; [done|]. by apply last_None in E.
Qed.

End Kept.

(** ** The invariant of the books *)

Section Books.
Implicit Types (C : gmap Z card) (X : gset Z) (M : gmap Z Z) (r : role) (sv : bool) (l : list Z).

(** The stream [a], not in limbo, has the role [r]. *)
Definition has_role sv X C (a : Z) r : Prop := a <> root /\ a ∉ X /\ exists c, C !! a = Some c /\ role_of sv c = r.

Record table_ok C M : Prop := {
  tb_map : forall id a, M !! id = Some a <-> a <> root /\ exists c, C !! a = Some c /\ c_id c = id;
  tb_root : is_Some (C !! root);
}.

(** Items of different streams are different; no stream is scheduled by RFC 9218. *)
Record items_ok C (its : gmap Z nghttp2_outbound_item) : Prop := {
  io_some : forall a c i, C !! a = Some c -> c_item c = Some i -> is_Some (its !! i);
  io_inj : forall a b c d i, C !! a = Some c -> C !! b = Some d -> c_item c = Some i -> c_item d = Some i -> b = a;
  io_plain : forall a c, C !! a = Some c -> flag_set (c_flags c) NGHTTP2_STREAM_FLAG_NO_RFC7540_PRIORITIES = false;
}.

(** The list of the streams with the role [r]. *)
Record list_ok sv X C r l (hd tl : option Z) (n : Z) : Prop := {
  lo_kept : kept C l hd tl;
  lo_nodup : NoDup l;
  lo_in : forall a, a ∈ l <-> has_role sv X C a r;
  lo_n : n = zlen l;
}.

Definition listed sv X C (a : Z) : Prop := has_role sv X C a RClosed \/ has_role sv X C a RIdle.

(** The pointers of other streams are null, and only other streams have items. *)
Record idle_ok sv X C : Prop := {
  id_unlisted : forall a c, C !! a = Some c -> ~ listed sv X C a -> c_prev c = None /\ c_next c = None;
  id_quiet : forall a c, C !! a = Some c -> listed sv X C a \/ a ∈ X \/ a = root -> c_item c = None;
}.

Record counts_ok sv X C (n : session_counts) : Prop := {
  co_incoming : num_incoming_streams n = count sv X RIncoming C;
  co_outgoing : num_outgoing_streams n = count sv X ROutgoing C;
  co_reserved : num_incoming_reserved_streams n = count sv X RPromisedRemote C;
}.

(** *** Changes that the parts do not see *)

Definition face (c : card) : Z * nghttp2_stream_state * Z * option Z := (c_id c, c_state c, c_flags c, c_item c).

(** Only pointers changed. *)
Definition same_face C C' : Prop := forall a, face <$> C' !! a = face <$> C !! a.

Lemma face_fwd C C' a c : same_face C C' -> C !! a = Some c -> exists c', C' !! a = Some c' /\ face c' = face c.
Proof. intros H Ha. specialize (H a). rewrite Ha in H. destruct (C' !! a) as [c'|]; [|done]. exists c'. split; [done|]. cbn in H. congruence. Qed.

Lemma same_face_sym C C' : same_face C C' -> same_face C' C.
Proof. intros H a. by rewrite H. Qed.

Lemma face_role sv c c' : face c' = face c -> role_of sv c' = role_of sv c.
Proof. unfold face, role_of. by intros [= -> -> -> _]. Qed.

Lemma face_has_role sv X C C' a r : same_face C C' -> has_role sv X C' a r <-> has_role sv X C a r.
Proof.
  intros H. unfold has_role. split; intros (H1 & H2 & c & Hc & Er); (split_and!; [done|done|]).
  - destruct (face_fwd _ _ _ _ (same_face_sym _ _ H) Hc) as (c' & Hc' & E). exists c'. split; [done|]. by rewrite (face_role sv c c' E).
  - destruct (face_fwd _ _ _ _ H Hc) as (c' & Hc' & E). exists c'. split; [done|]. by rewrite (face_role sv c c' E).
Qed.

Lemma face_listed sv X C C' a : same_face C C' -> listed sv X C' a <-> listed sv X C a.
Proof. intros H. unfold listed. by rewrite !(face_has_role sv X C C'). Qed.

Lemma face_table C C' M : same_face C C' -> table_ok C M -> table_ok C' M.
Proof.
  intros H [H1 [c Hc]]. split; [|destruct (face_fwd _ _ _ _ H Hc) as (c' & -> & _); eauto].
  intros id a. rewrite H1. split; intros [Ha (d & Hd & E)]; (split; [done|]);
    [destruct (face_fwd _ _ _ _ H Hd) as (d' & Hd' & F)|destruct (face_fwd _ _ _ _ (same_face_sym _ _ H) Hd) as (d' & Hd' & F)];
    exists d'; (split; [done|]); unfold face in F; congruence.
Qed.

Lemma face_items C C' its : same_face C C' -> items_ok C its -> items_ok C' its.
Proof.
  intros H%same_face_sym [H1 H2 H3]. split.
  - intros a c i Hc Hi. destruct (face_fwd _ _ _ _ H Hc) as (c' & Hc' & F). apply (H1 a c'); [done|]. unfold face in F. congruence.
  - intros a b c d i Hc Hd Hi Hj. destruct (face_fwd _ _ _ _ H Hc) as (c' & Hc' & F), (face_fwd _ _ _ _ H Hd) as (d' & Hd' & G).
    apply (H2 a b c' d' i); unfold face in *; congruence.
  - intros a c Hc. destruct (face_fwd _ _ _ _ H Hc) as (c' & Hc' & F). rewrite <- (H3 a c') by done. unfold face in F. congruence.
Qed.

Lemma role_count sv X C C' r : (forall a, has_role sv X C' a r <-> has_role sv X C a r) -> count sv X r C' = count sv X r C.
Proof.
  intros H. unfold count. f_equal. rewrite <- (size_dom (D := gset Z) (filter _ C)), <- (size_dom (D := gset Z) (filter _ C')).
  f_equal. apply set_eq. intros a. rewrite !elem_of_dom. unfold is_Some. setoid_rewrite map_lookup_filter_Some.
  assert (forall D, (exists c, D !! a = Some c /\ counted sv X r (a, c)) <-> has_role sv X D a r) as E.
  { intros D. unfold counted, has_role. simpl. naive_solver. }
  by rewrite !E, H.
Qed.

Lemma face_count sv X C C' r : same_face C C' -> count sv X r C' = count sv X r C.
Proof. intros H. apply role_count. intros a. by rewrite (face_has_role sv X C C'). Qed.

Lemma face_counts sv X C C' n : same_face C C' -> counts_ok sv X C n -> counts_ok sv X C' n.
Proof. intros H [H1 H2 H3]. split; by rewrite (face_count sv X C C'). Qed.

Lemma face_list sv X C C' r l hd tl n : same_face C C' -> (forall a, a ∈ l -> links_at C' a = links_at C a) ->
  list_ok sv X C r l hd tl n -> list_ok sv X C' r l hd tl n.
Proof. intros H HL [H1 H2 H3 H4]. split; [by eapply kept_ext|done| |done]. intros a. by rewrite (face_has_role sv X C C'). Qed.

(** *** Changes of streams in limbo *)

Section Limbo.
Context sv X C C' (H : forall b, b ∉ X -> C' !! b = C !! b).

Lemma limbo_has_role a r : has_role sv X C' a r <-> has_role sv X C a r.
Proof using H. unfold has_role. split; intros (? & ? & ?); (split_and!; [done|done|]); rewrite H in * by done; done. Qed.

Lemma limbo_list r l hd tl n : list_ok sv X C r l hd tl n -> list_ok sv X C' r l hd tl n.
Proof using H.
  intros [H1 H2 H3 H4]. split; [|done| |done].
  - apply (kept_ext C); [done|]. intros a Ha%H3. destruct Ha as (_ & ? & _). unfold links_at. by rewrite H.
  - intros a. by rewrite limbo_has_role.
Qed.

Lemma limbo_counts n : counts_ok sv X C n -> counts_ok sv X C' n.
Proof using H. intros [H1 H2 H3]. split; by rewrite (count_limbo sv X _ C C'). Qed.

Lemma limbo_idle : (forall b c, b ∈ X -> C' !! b = Some c -> c_prev c = None /\ c_next c = None /\ c_item c = None) ->
  idle_ok sv X C -> idle_ok sv X C'.
Proof using H.
  intros Hx [H1 H2]. unfold listed in *. split; intros a c Hc; unfold listed; rewrite !limbo_has_role;
    (destruct (decide (a ∈ X)) as [Ha|Ha]; [intros _; split_and?; by eapply Hx|]); rewrite H in Hc by done; [by apply H1|by apply H2].
Qed.

End Limbo.

Lemma limbo_items x C c its : items_ok C its -> c_item c = None ->
  flag_set (c_flags c) NGHTTP2_STREAM_FLAG_NO_RFC7540_PRIORITIES = false -> items_ok (<[x := c]> C) its.
Proof.
  intros [H1 H2 H3] Hc Hf. split.
  - intros a d i. destruct (decide (a = x)) as [->|]; [rewrite lookup_insert_eq|rewrite lookup_insert_ne by done]; [congruence|apply H1].
  - intros a b d e i. rewrite !lookup_insert. repeat case_decide; [congruence..|]. apply H2.
  - intros a d. destruct (decide (a = x)) as [->|]; [rewrite lookup_insert_eq; congruence|rewrite lookup_insert_ne by done; apply H3].
Qed.

Lemma limbo_table x C c c' M : table_ok C M -> C !! x = Some c -> c_id c' = c_id c -> table_ok (<[x := c']> C) M.
Proof.
  intros [H1 H2] Hx E. split.
  - intros id a. rewrite H1. destruct (decide (a = x)) as [->|]; [|by rewrite lookup_insert_ne by done].
    rewrite lookup_insert_eq, Hx. split; intros [? (d & [= <-] & F)]; (split; [done|]); eexists; (split; [done|]); congruence.
  - destruct (decide (root = x)) as [->|]; [rewrite lookup_insert_eq; eauto|by rewrite lookup_insert_ne].
Qed.

(** *** Into limbo and out of it *)

Lemma has_role_move sv X x C a r : x ∉ X -> has_role sv X C a r <-> has_role sv ({[x]} ∪ X) C a r \/ a = x /\ has_role sv X C x r.
Proof. intros Hx. unfold has_role. destruct (decide (a = x)) as [->|]; set_solver. Qed.

Lemma no_role_limbo sv X x C r : x ∈ X -> ~ has_role sv X C x r.
Proof. by intros ? (_ & ? & _). Qed.

Lemma has_role_det sv X C a r r' : has_role sv X C a r -> has_role sv X C a r' -> r' = r.
Proof. intros (_ & _ & c & Hc & <-) (_ & _ & c' & Hc' & <-). congruence. Qed.

(** The list of another role does not see the stream. *)
Lemma list_other sv X x C r l hd tl n : x ∉ X -> ~ has_role sv X C x r ->
  list_ok sv X C r l hd tl n <-> list_ok sv ({[x]} ∪ X) C r l hd tl n.
Proof.
  intros HxX Hx. split; intros [H1 H2 H3 H4]; (split; [done|done| |done]); intros a; rewrite H3, (has_role_move _ X x) by done; naive_solver.
Qed.

Lemma list_enter sv X x C C' r l hd tl n : x ∉ X -> list_ok sv ({[x]} ∪ X) C r l hd tl n -> has_role sv X C x r -> same_face C C' ->
  links_at C' x = Some (tl, None) -> zlen l + 1 < 2 ^ 64 ->
  (forall b p m, b ∈ l -> links_at C b = Some (p, m) -> links_at C' b = Some (p, if decide (Some b = tl) then Some x else m)) ->
  list_ok sv X C' r (l ++ [x]) (match tl with Some _ => hd | None => Some x end) (Some x) (u64 (n + 1)).
Proof.
  intros HxX [H1 H2 H3 H4] Hr HF Hx Hn Hb. assert (x ∉ l) as Hxl by (rewrite H3; apply no_role_limbo; set_solver).
  assert (NoDup (l ++ [x])) as Hnd.
  { apply NoDup_app. split_and!; [done| |apply NoDup_singleton]. intros b Hbl ->%list_elem_of_singleton. done. }
  split; [by eapply ring_snoc|done| |].
  - intros a. rewrite (face_has_role sv X C C') by done. rewrite (has_role_move _ X x), elem_of_app, H3, list_elem_of_singleton by done. naive_solver.
  - rewrite H4, u64_id; unfold is_u64 in *; rewrite ?length_app; simpl; lia.
Qed.

Lemma list_leave sv X x C C' r l1 l2 hd tl n : x ∉ X -> list_ok sv X C r (l1 ++ x :: l2) hd tl n -> same_face C C' ->
  (forall b p m, b ∈ l1 ++ l2 -> links_at C b = Some (p, m) ->
     links_at C' b = Some (if decide (Some b = head l2) then last l1 else p, if decide (Some b = last l1) then head l2 else m)) ->
  zlen (l1 ++ x :: l2) < 2 ^ 64 ->
  links_at C x = Some (last l1, head l2) /\
  list_ok sv ({[x]} ∪ X) C' r (l1 ++ l2) (match last l1 with Some _ => hd | None => head l2 end)
    (match head l2 with Some _ => tl | None => last l1 end) (u64 (n - 1)).
Proof.
  intros HxX [H1 H2 H3 H4] HF Hb Hn. destruct (kept_remove C C' l1 x l2 hd tl H1 H2 Hb) as [Hx HK]. split; [done|].
  pose proof H2 as (Hnd1 & Hdis & [Hxl Hnd2]%NoDup_cons)%NoDup_app. split; [done| | |].
  - apply NoDup_app. split_and!; [done| |done]. intros b Hb1 Hb2. apply (Hdis b Hb1). by right.
  - intros a. rewrite (face_has_role sv ({[x]} ∪ X) C C') by done. pose proof (H3 a) as Ha. rewrite (has_role_move _ X x) in Ha by done.
    assert (~ has_role sv ({[x]} ∪ X) C x r) as Hno by (apply no_role_limbo; set_solver). split.
    + intros Hin. assert (a ∈ l1 ++ x :: l2) as [?|[-> _]]%Ha by set_solver; [done|]. exfalso. set_solver.
    + intros Hr. assert (a <> x) by (by intros ->). assert (a ∈ l1 ++ x :: l2) by naive_solver. set_solver.
  - rewrite H4, u64_id; unfold is_u64 in *; rewrite ?length_app in *; simpl in *; lia.
Qed.

Definition bump (r : role) (n : session_counts) (k : Z) : session_counts :=
  match r with
  | RIncoming => num_incoming_streams_to (u64 (num_incoming_streams n + k)) n
  | ROutgoing => num_outgoing_streams_to (u64 (num_outgoing_streams n + k)) n
  | RPromisedRemote => num_incoming_reserved_streams_to (u64 (num_incoming_reserved_streams n + k)) n
  | _ => n
  end.

Lemma counts_enter sv X x C c n : x ∉ X -> counts_ok sv ({[x]} ∪ X) C n -> C !! x = Some c -> x <> root -> Z.of_nat (size C) + 1 < 2 ^ 64 ->
  counts_ok sv X C (bump (role_of sv c) n 1).
Proof.
  intros HxX [H1 H2 H3] Hx Hr Hn. pose proof (fun r => count_enter sv X x c r C Hx Hr HxX) as E.
  pose proof (fun r => count_bound sv ({[x]} ∪ X) r C) as Hb.
  pose proof (Hb RIncoming). pose proof (Hb ROutgoing). pose proof (Hb RPromisedRemote).
  split; rewrite E; destruct (role_of sv c) eqn:R; simpl; repeat case_decide; try congruence; try lia; rewrite u64_id; unfold is_u64; lia.
Qed.

Lemma counts_leave sv X x C c n : x ∉ X -> counts_ok sv X C n -> C !! x = Some c -> x <> root -> Z.of_nat (size C) + 1 < 2 ^ 64 ->
  counts_ok sv ({[x]} ∪ X) C (bump (role_of sv c) n (-1)).
Proof.
  intros HxX [H1 H2 H3] Hx Hr Hn. pose proof (fun r => count_enter sv X x c r C Hx Hr HxX) as E.
  pose proof (fun r => count_bound sv ({[x]} ∪ X) r C) as Hb.
  rewrite E in H1, H2, H3. pose proof (Hb RIncoming). pose proof (Hb ROutgoing). pose proof (Hb RPromisedRemote).
  split; destruct (role_of sv c) eqn:R; simpl; repeat case_decide; try congruence; try lia; rewrite u64_id; unfold is_u64; lia.
Qed.

(** From [X] to [X'], which agree but for [x]. *)
Lemma idle_move sv X X' C C' x : idle_ok sv X C -> (forall a, a <> x -> a ∈ X' <-> a ∈ X) -> same_face C C' ->
  (forall a, a <> x -> ~ listed sv X C a -> links_at C' a = links_at C a) ->
  links_at C' x = Some (None, None) \/ listed sv X' C' x ->
  (forall c, C !! x = Some c -> listed sv X' C' x \/ x ∈ X' \/ x = root -> c_item c = None) -> idle_ok sv X' C'.
Proof.
  intros [H1 H2] HX HF HL Hx Hi.
  assert (forall a, a <> x -> listed sv X' C' a <-> listed sv X C a) as EL.
  { intros a Ha. rewrite (face_listed sv X' C C') by done. unfold listed, has_role. by rewrite (HX a Ha). }
  split; intros a c' Hc'; destruct (face_fwd _ _ _ _ (same_face_sym _ _ HF) Hc') as (c & Hc & F); unfold face in F.
  - destruct (decide (a = x)) as [->|Ha]; intros Hn.
    + destruct Hx as [Hx|Hx]; [|by destruct Hn]. unfold links_at in Hx. rewrite Hc' in Hx. simpl in Hx. split; congruence.
    + rewrite EL in Hn by done. pose proof (HL a Ha Hn) as E. unfold links_at in E. rewrite Hc, Hc' in E. simpl in E.
      injection E as -> ->. by apply (H1 a).
  - intros Hl. assert (c_item c = None); [|congruence]. destruct (decide (a = x)) as [->|Ha].
    + by apply Hi.
    + rewrite EL, (HX a Ha) in Hl by done. by apply (H2 a).
Qed.

End Books.
