(* ===== verification/SessionTree.v ===== *)
(** * Sessions: streams that enter and leave the dependency tree

    More about the invariant of the streams: changes of one stream that the
    tree does not see, changes of a stream outside of the tree, and the
    release of its memory. *)

From S2P Require Import Prelude Defs Pq Frame Http Stream StreamLinks StreamQueue StreamTree StreamInsert StreamItems.

Implicit Types (s : nghttp2_stream) (h : gmap Z nghttp2_stream) (D : gmap Z stream_dep) (kids : gmap Z (list Z)).

(** ** Changes at one stream *)

(** The change does not decide whether the stream is active. *)
Lemma touch_inv h kids a s s' : stream_inv h kids -> h !! a = Some s -> retouch s s' -> stream_active s' = stream_active s ->
  stream_inv (<[a := s']> h) kids.
Proof.
  intros HI Ha HR Hact. apply (inv_weaken (eq a)); [by eapply retouch_inv| |solve_decision]. intros x Hp _ <-.
  pose proof (retouch_sched h a s s' Ha HR) as ES.
  assert (has_parent h a) as Hp0.
  { destruct Hp as (s0 & Hs0 & Hp). rewrite lookup_insert_eq in Hs0. injection Hs0 as <-. exists s. by rewrite <- (rt_dep _ _ HR). }
  pose proof (si_sync _ _ _ HI a Hp0 ltac:(tauto)) as Hs. unfold sync, live in Hs |- *.
  rewrite (sched_queued h (<[a := s']> h)) by done. setoid_rewrite (sched_qs h (<[a := s']> h)); [|done]. rewrite Hs.
  assert (active (<[a := s']> h) a <-> active h a) as ->; [|done]. unfold active. rewrite lookup_insert_eq, Ha. naive_solver congruence.
Qed.

(** Outside of the tree the item and the deferral matter neither. *)
Lemma touch_root_inv h kids a s s' : stream_inv h kids -> h !! a = Some s -> retouch s s' -> dep_prev s = None ->
  stream_inv (<[a := s']> h) kids.
Proof.
  intros HI Ha HR Hp. apply (inv_at_root _ _ a s'); [by eapply retouch_inv|by rewrite lookup_insert_eq|]. by rewrite (rt_dep _ _ HR).
Qed.

(** The weight of the root of a tree counts nowhere. *)
Lemma root_weight_inv h kids a s w : stream_inv h kids -> h !! a = Some s -> dep_prev s = None -> 1 <= w <= 256 ->
  stream_inv (<[a := upd_dep (weight_to w) s]> h) kids.
Proof.
  intros HI Ha Hp Hw. pose proof (deps_lookup _ _ _ Ha) as Hd.
  assert (deps (<[a := upd_dep (weight_to w) s]> h) = <[a := weight_to w (st_dep s)]> (deps h)) as ED by (unfold deps; by rewrite fmap_insert).
  apply (reweigh_inv h); [done| | | |]; rewrite ?ED.
  - unfold same_rest. rewrite fmap_insert. apply insert_id. by rewrite lookup_fmap, Ha.
  - intros b. destruct (decide (b = a)) as [->|]; [by rewrite lookup_insert_eq, Hd|by rewrite lookup_insert_ne].
  - intros b d. destruct (decide (b = a)) as [->|]; [rewrite lookup_insert_eq; by intros [= <-]|]. rewrite lookup_insert_ne by done. apply HI.
  - intros p l d Hl Hpd. assert (a ∉ l) as Hal by (by eapply (tree_root_kid (deps h)); [apply HI|..]).
    assert (wsum (<[a := weight_to w (st_dep s)]> (deps h)) l = wsum (deps h) l) as ->.
    { apply wsum_ext. intros c Hc. unfold weight_of. rewrite lookup_insert_ne; [done|congruence]. }
    destruct (decide (p = a)) as [->|]; [|rewrite lookup_insert_ne in Hpd by done; by apply (si_sum _ _ _ HI p)].
    rewrite lookup_insert_eq in Hpd. injection Hpd as <-. simpl. by apply (si_sum _ _ _ HI a l (st_dep s)).
Qed.

(** ** A stream outside of the tree *)

(** [a] is in memory, alone. *)
Definition alone h kids (a : Z) : Prop := (exists s, h !! a = Some s /\ dep_prev s = None) /\ kids !! a = Some [].

Lemma alone_childless h kids a c : stream_inv h kids -> kids !! a = Some [] -> ~ parent_of h c a.
Proof.
  intros HI Ha (s & Hs & Hp). destruct (t_parent _ _ (si_tree _ _ _ HI) c (st_dep s) a (deps_lookup _ _ _ Hs) Hp) as (l & Hl & Hin).
  rewrite Ha in Hl. injection Hl as <-. by apply elem_of_nil in Hin.
Qed.

Lemma alone_no_queue h kids a c : stream_inv h kids -> kids !! a = Some [] -> ~ qs h a c.
Proof. intros HI Ha Hq%(si_parent _ _ _ HI). by apply (alone_childless h kids a c). Qed.

Lemma alone_not_queued h kids a : stream_inv h kids -> alone h kids a -> ~ is_queued h a.
Proof. intros HI [(s & Ha & Hp) _]. by apply (inv_root_queued (fun _ => False) _ kids a s). Qed.

Lemma alone_dead h kids a : stream_inv h kids -> alone h kids a -> (forall s, h !! a = Some s -> stream_active s = false) -> ~ live h a.
Proof.
  intros HI [(s & Ha & Hp) Hk] Hact [(s' & Hs' & E)|[c Hc]]; [rewrite (Hact s') in E; done|by apply (alone_no_queue h kids a c)].
Qed.

Lemma alone_not_above h kids a p : stream_inv h kids -> kids !! a = Some [] -> p <> a -> ~ above h a p.
Proof.
  intros HI Ha Hne (lp & Hch & Hin). apply elem_of_cons in Hin as [->|Hin]; [done|]. clear Hne.
  induction Hch as [p d Hp Hr|p d q l Hp Hr Hch IH]; [by apply elem_of_nil in Hin|].
  apply elem_of_cons in Hin as [->|Hin]; [|by apply IH]. apply deps_lookup_inv in Hp as (s & Hs & <-).
  apply (alone_childless h kids q p); [done|done|]. by exists s.
Qed.

Lemma alone_can_link h kids a p : stream_inv h kids -> alone h kids a -> p <> a -> is_Some (h !! p) ->
  (forall s, h !! a = Some s -> no_rfc7540_priorities s = false) -> can_link h p a.
Proof.
  intros HI HA Hne Hp Hf. pose proof HA as [(s & Ha & Hr) Hk]. split; [done|]. split; [by apply (alone_not_above h kids)|].
  exists s. auto.
Qed.

Lemma alone_not_in_tree h kids a s : stream_inv h kids -> alone h kids a -> h !! a = Some s -> nghttp2_stream_in_dep_tree s = false.
Proof.
  intros HI [(s' & Ha & Hr) Hk] Hs. simplify_eq. pose proof (si_tree _ _ _ HI) as HT. pose proof (deps_lookup _ _ _ Ha) as Hd.
  destruct (t_root _ _ HT a _ Hd Hr) as [H1 H2]. destruct (t_list _ _ HT a [] _ Hk Hd) as (H3 & _).
  unfold nghttp2_stream_in_dep_tree. rewrite Hr, H1, H2, H3. done.
Qed.

Lemma child_in_tree h kids p l a s : stream_inv h kids -> kids !! p = Some l -> a ∈ l -> h !! a = Some s ->
  dep_prev s = Some p /\ nghttp2_stream_in_dep_tree s = true.
Proof.
  intros HI Hl Ha Hs. destruct (tree_kid _ _ _ _ _ (si_tree _ _ _ HI) Hl Ha) as (d & Hd & Hp). rewrite (deps_lookup _ _ _ Hs) in Hd.
  injection Hd as <-. split; [done|]. unfold nghttp2_stream_in_dep_tree. by rewrite Hp.
Qed.

(** ** Release *)

Lemma tree_free D kids a d : tree_ok D kids -> D !! a = Some d -> dep_prev d = None -> kids !! a = Some [] ->
  tree_ok (delete a D) (delete a kids).
Proof.
  intros HT Ha Hr Hk.
  assert (forall c dc, D !! c = Some dc -> dep_prev dc <> Some a) as Hno.
  { intros c dc Hc Hp. destruct (t_parent _ _ HT c dc a Hc Hp) as (l & Hl & Hin). rewrite Hk in Hl. injection Hl as <-. by apply elem_of_nil in Hin. }
  split.
  - intros x. destruct (decide (x = a)) as [->|]; [by rewrite !lookup_delete_eq|]. rewrite !lookup_delete_ne by done. apply HT.
  - intros p l dp Hl Hp. destruct (decide (p = a)) as [->|]; [by rewrite lookup_delete_eq in Hl|]. rewrite lookup_delete_ne in Hl by done. rewrite lookup_delete_ne in Hp by done.
    destruct (t_list _ _ HT p l dp Hl Hp) as (? & ? & ?). split_and!; [done|done|]. apply (dllseg_ext D); [|done]. intros c Hc.
    rewrite lookup_delete_ne; [done|]. intros <-. by apply (tree_root_kid _ _ _ _ _ _ HT Hl Ha Hr).
  - intros c dc p Hc Hp. destruct (decide (c = a)) as [->|]; [by rewrite lookup_delete_eq in Hc|]. rewrite lookup_delete_ne in Hc by done.
    destruct (t_parent _ _ HT c dc p Hc Hp) as (l & Hl & Hin). exists l. rewrite lookup_delete_ne; [done|]. intros <-. by apply (Hno c dc).
  - intros c dc Hc Hp. destruct (decide (c = a)) as [->|]; [by rewrite lookup_delete_eq in Hc|]. rewrite lookup_delete_ne in Hc by done.
    by apply (t_root _ _ HT c).
  - intros x Hx. destruct (decide (x = a)) as [->|Hne]; [rewrite lookup_delete_eq in Hx; by destruct Hx|]. rewrite lookup_delete_ne in Hx by done.
    destruct (t_acyclic _ _ HT x Hx) as [l Hl]. exists l. clear Hx.
    induction Hl as [x dx Hx Hp|x dx p l Hx Hp Hl IH].
    + apply (dchain_root _ x dx); [by rewrite lookup_delete_ne|done].
    + apply (dchain_up _ x dx); [by rewrite lookup_delete_ne|done|]. apply IH. intros ->. by apply (Hno x dx).
Qed.

Lemma free_inv h kids a : stream_inv h kids -> alone h kids a -> stream_inv (delete a h) (delete a kids).
Proof.
  intros HI HA. pose proof HA as [(s & Ha & Hr) Hk]. pose proof (si_tree _ _ _ HI) as HT. pose proof (deps_lookup _ _ _ Ha) as Hd.
  assert (deps (delete a h) = delete a (deps h)) as ED by apply fmap_delete.
  assert (forall p x, qs (delete a h) p x <-> qs h p x) as Hqs.
  { intros p x. split; intros (s' & Hs' & Hin); [apply lookup_delete_Some in Hs' as [_ Hs']; by exists s'|].
    exists s'. rewrite lookup_delete_ne; [done|]. intros <-. apply (alone_no_queue h kids a x); [done|done|]. by exists s'. }
  assert (forall x, is_queued (delete a h) x <-> is_queued h x) as Hqd.
  { intros x. split; intros (s' & Hs' & Hq); [apply lookup_delete_Some in Hs' as [_ Hs']; by exists s'|].
    exists s'. rewrite lookup_delete_ne; [done|]. intros <-. apply (alone_not_queued h kids a); [done|done|]. by exists s'. }
  assert (forall x s', delete a h !! x = Some s' -> x <> a /\ h !! x = Some s') as Hl.
  { intros x s' [? ?]%lookup_delete_Some. auto. }
  split; rewrite ?ED.
  - by apply (tree_free _ _ _ (st_dep s)).
  - intros p l d Hlp Hp. apply lookup_delete_Some in Hlp as [Hne Hlp], Hp as [_ Hp]. rewrite (si_sum _ _ _ HI p l d Hlp Hp).
    apply wsum_ext. intros c Hc. unfold weight_of. rewrite lookup_delete_ne; [done|]. intros <-. by apply (tree_root_kid _ _ _ _ _ _ HT Hlp Hd Hr).
  - intros x d [_ Hx]%lookup_delete_Some. by apply (si_weight _ _ _ HI x).
  - destruct (si_obq _ _ _ HI) as [[Hi Hc Hu] Hf]. split; [split|].
    + intros p s' i c [_ Hs']%Hl Hin. destruct (Hi p s' i c Hs' Hin) as (cs & Hcs & E). exists cs. rewrite lookup_delete_ne; [done|].
      intros <-. apply (alone_not_queued h kids a HI HA), Hf. exists p, s'. split; [done|]. apply list_elem_of_lookup. eauto.
    + intros p s' [_ Hs']%Hl. by apply (Hc p).
    + intros p p' c. rewrite !Hqs. apply Hu.
    + intros c. rewrite Hqd, Hf. by setoid_rewrite Hqs.
  - intros x p Hx%Hqs. pose proof (si_parent _ _ _ HI _ _ Hx) as (s' & Hs' & E). exists s'. split; [|done]. rewrite lookup_delete_ne; [done|].
    intros <-. congruence.
  - intros x (s' & [Hne Hs']%Hl & Hp) _. pose proof (si_sync _ _ _ HI x ltac:(by exists s') ltac:(tauto)) as Hs.
    unfold sync, live, active in Hs |- *. rewrite Hqd, lookup_delete_ne by done. by setoid_rewrite Hqs.
  - intros x s' [_ Hs']%Hl. by apply (si_flags _ _ _ HI x).
  - pose proof (si_size _ _ _ HI). rewrite map_size_delete, Ha. lia.
Qed.

(** ** Members of a stream that the tree does not depend on *)

Definition tree_view s : stream_dep * stream_sched * http_stream * option Z := (st_dep s, st_sched s, st_http s, item s).

Lemma view_deps h h' : tree_view <$> h' = tree_view <$> h -> deps h' = deps h.
Proof. intros H. apply (f_equal (fmap (fun x => x.1.1.1))) in H. by rewrite <- !map_fmap_compose in H. Qed.

Lemma view_sched h h' : tree_view <$> h' = tree_view <$> h -> same_sched h h'.
Proof. intros H. apply (f_equal (fmap (fun x => x.1.1.2))) in H. by rewrite <- !map_fmap_compose in H. Qed.

Lemma view_active h h' a : tree_view <$> h' = tree_view <$> h -> active h' a <-> active h a.
Proof.
  intros H. unfold active. split; intros (s & Hs & E).
  - destruct (same_lookup_r _ _ _ _ _ H Hs) as (s' & Hs' & F). exists s'. split; [done|]. unfold tree_view in F. injection F as _ _ F1 F2.
    unfold stream_active in *. by rewrite F1, F2.
  - destruct (same_lookup _ _ _ _ _ H Hs) as (s' & Hs' & F). exists s'. split; [done|]. unfold tree_view in F. injection F as _ _ F1 F2.
    unfold stream_active in *. by rewrite F1, F2.
Qed.

Lemma view_inv h h' kids : tree_view <$> h' = tree_view <$> h -> stream_inv h kids -> stream_inv h' kids.
Proof.
  intros H HI. pose proof (view_deps h h' H) as ED. pose proof (view_sched h h' H) as ES.
  split; rewrite ?ED; [apply HI|apply HI|apply HI|by apply (sched_obq h), HI| | | |].
  - intros x p Hx%(sched_qs h); [|done]. apply (deps_parent h); [done|]. by apply (si_parent _ _ _ HI).
  - intros x Hx _. assert (sync h x) as Hs.
    { apply (si_sync _ _ _ HI); [|tauto]. rewrite has_parent_of in Hx |- *. by setoid_rewrite <- (deps_parent h h' x). }
    unfold sync, live in Hs |- *. rewrite (sched_queued h), (view_active h) by done. by setoid_rewrite (sched_qs h h').
  - intros x x' Hx Hp. destruct (same_lookup_r _ _ _ _ _ H Hx) as (s & Hs & F). unfold tree_view in F. injection F as F1 _ F2 _.
    assert (no_rfc7540_priorities x' = no_rfc7540_priorities s) as -> by (unfold no_rfc7540_priorities; by rewrite F2).
    apply (si_flags _ _ _ HI x); [done|by rewrite F1].
  - assert (size h' = size h) as ->; [|apply HI]. rewrite <- (map_size_fmap tree_view h), <- (map_size_fmap tree_view h'). by rewrite H.
Qed.
