(* ===== verification/SessionBooks.v ===== *)
(** * Sessions: keeping the books

    The operations on the lists and counters of a session keep the books, and
    change nothing that the dependency tree depends on. *)

From S2P Require Import Prelude Defs Pq Frame Http Stream StreamLinks StreamQueue StreamTree StreamItems StreamFrame.
From S2P Require Import Outbound Session SessionInv SessionTree.

Implicit Types (s : nghttp2_stream) (h : gmap Z nghttp2_stream) (ss : nghttp2_session) (lc li l : list Z) (X : gset Z).

Definition scards ss : gmap Z card := cards (se_streams ss).

Record book_ok X ss lc li : Prop := {
  bk_table : table_ok (scards ss) (stream_map ss);
  bk_items : items_ok (scards ss) (ob_items ss);
  bk_closed : list_ok (server ss) X (scards ss) RClosed lc (closed_stream_head ss) (closed_stream_tail ss) (num_closed_streams ss);
  bk_idle : list_ok (server ss) X (scards ss) RIdle li (idle_stream_head ss) (idle_stream_tail ss) (num_idle_streams ss);
  bk_rest : idle_ok (server ss) X (scards ss);
  bk_counts : counts_ok (server ss) X (scards ss) ss;
  bk_limbo : forall x, x ∈ X -> x <> root /\ is_Some (scards ss !! x);
  bk_size : Z.of_nat (size (scards ss)) + 1 < 2 ^ 64;
}.

(** What the books do not depend on. *)
Record same_setup ss ss' : Prop := {
  su_conf : se_conf ss' = se_conf ss;
  su_ids : se_ids ss' = se_ids ss;
  su_flow : se_flow ss' = se_flow ss;
  su_ob : se_ob ss' = se_ob ss;
  su_limits : se_limits ss' = se_limits ss;
  su_sched : sched ss' = sched ss;
  su_ign : ign_all ss' = ign_all ss;
}.

#[global] Instance same_setup_equiv : Equivalence same_setup.
Proof.
  split; [by split|by intros x y []; split|]. intros x y z [] []. split; congruence.
Qed.

Lemma book_cards X ss ss' lc li : scards ss' = scards ss -> stream_map ss' = stream_map ss -> se_lists ss' = se_lists ss ->
  se_counts ss' = se_counts ss -> same_setup ss ss' -> book_ok X ss lc li -> book_ok X ss' lc li.
Proof.
  intros EC EM EL EN [ES _ _ EO _ _ _] []. split; rewrite ?EC, ?EM, ?EL, ?EN, ?ES, ?EO; done.
Qed.

(** Operations on the tree. *)
Lemma book_tree X ss lc li w : book_ok X ss lc li -> same_base (se_streams ss) (streams w) -> book_ok X (world_to w ss) lc li.
Proof. intros HB HS. apply (book_cards _ ss); try done. unfold scards. simpl. by apply same_base_cards. Qed.

Lemma book_granted X ss lc li : book_ok X ss lc li -> book_ok X (granted ss) lc li.
Proof. by apply book_cards. Qed.

Lemma streams_to_same ss : streams_to (se_streams ss) ss = ss.
Proof. unfold streams_to, se_streams. destruct (se_world ss) eqn:E. simpl. rewrite <- E. apply world_to_id. Qed.

Lemma se_streams_to h ss : se_streams (streams_to h ss) = h.
Proof. done. Qed.

Lemma streams_to_to h h' ss : streams_to h' (streams_to h ss) = streams_to h' ss.
Proof. done. Qed.

Lemma list_small sv X C r l hd tl n : list_ok sv X C r l hd tl n -> zlen l <= Z.of_nat (size C).
Proof.
  intros [_ Hnd Hin _]. rewrite <- (size_list_to_set (C := gset Z) l), <- (size_dom (D := gset Z) C) by done. apply Nat2Z.inj_le, subseteq_size.
  intros a Ha%elem_of_list_to_set. apply Hin in Ha as (_ & _ & c & Hc & _). apply elem_of_dom. eauto.
Qed.

(** ** Links *)

Definition pointers s : option Z * option Z := (closed_prev s, closed_next s).

Lemma links_cards h a : links_at (cards h) a = pointers <$> h !! a.
Proof. unfold links_at, cards. rewrite lookup_fmap. by destruct (h !! a). Qed.

(** Streams of which only the two pointers differ. *)
Record repointed h h' : Prop := {
  rp_view : tree_view <$> h' = tree_view <$> h;
  rp_face : same_face (cards h) (cards h');
}.

#[global] Instance repointed_preorder : PreOrder repointed.
Proof. split; [done|]. intros x y z [V1 F1] [V2 F2]. split; [congruence|]. intros a. by rewrite F2. Qed.

Lemma repoint_next h a s v : h !! a = Some s -> repointed h (<[a := closed_next_to v s]> h).
Proof.
  intros Ha. split; [by eapply insert_keeps|]. intros b. rewrite cards_insert. destruct (decide (b = a)) as [->|].
  - rewrite lookup_insert_eq, (cards_lookup _ _ _ Ha). done.
  - by rewrite lookup_insert_ne.
Qed.

Lemma repoint_prev h a s v : h !! a = Some s -> repointed h (<[a := closed_prev_to v s]> h).
Proof.
  intros Ha. split; [by eapply insert_keeps|]. intros b. rewrite cards_insert. destruct (decide (b = a)) as [->|].
  - rewrite lookup_insert_eq, (cards_lookup _ _ _ Ha). done.
  - by rewrite lookup_insert_ne.
Qed.

(** The links after [link_behind]. *)
Definition appended h (tl : option Z) (x : Z) h' : Prop :=
  repointed h h' /\ links_at (cards h') x = Some (tl, None) /\
  forall b, b <> x -> links_at (cards h') b = (fun '(p, m) => (p, if decide (Some b = tl) then Some x else m)) <$> links_at (cards h) b.

Lemma sp_link_behind ss tl x (Q : unit -> nghttp2_session -> Prop) : links_at (scards ss) x = Some (None, None) ->
  (forall t, tl = Some t -> t <> x /\ is_Some (se_streams ss !! t)) ->
  (forall h, appended (se_streams ss) tl x h -> Q tt (streams_to h ss)) -> sp (link_behind tl x) ss Q.
Proof.
  intros Hx Ht HQ. unfold scards in Hx. rewrite links_cards in Hx. destruct (se_streams ss !! x) as [sx|] eqn:Ex; [|done].
  injection Hx as Hp Hn. unfold link_behind. destruct tl as [t|].
  - destruct (Ht t eq_refl) as [Htx [st Est]]. sp_step. sp_step. eapply (sp_modify _ x _ sx); [by rewrite se_streams_to, lookup_insert_ne|].
    rewrite se_streams_to, streams_to_to. apply HQ. split; [|split].
    + etrans; [by apply repoint_next|]. apply repoint_prev. by rewrite lookup_insert_ne.
    + rewrite links_cards, lookup_insert_eq. unfold pointers. simpl. by rewrite Hn.
    + intros b Hb. rewrite !links_cards. rewrite lookup_insert_ne by done. destruct (decide (b = t)) as [->|Hbt].
      * rewrite lookup_insert_eq, Est. simpl. by rewrite decide_True.
      * rewrite lookup_insert_ne by done. destruct (se_streams ss !! b) as [sb|]; [|done]. simpl. by rewrite decide_False by congruence.
  - sp_step. rewrite <- (streams_to_same ss). apply HQ. split; [done|]. split; [by rewrite links_cards, Ex; unfold pointers; simpl; rewrite Hp, Hn|].
    intros b Hb. destruct (links_at _ b) as [[p m]|]; [|done]. simpl. done.
Qed.

(** ** A stream enters or leaves a list *)

Lemma face_size (C C' : gmap Z card) : same_face C C' -> size C' = size C.
Proof.
  intros H. rewrite <- (size_dom (D := gset Z) C), <- (size_dom (D := gset Z) C'). f_equal. apply set_eq. intros a.
  rewrite !elem_of_dom. specialize (H a). destruct (C' !! a), (C !! a); try done; by split; eauto.
Qed.

Lemma limbo_clean sv X C x : idle_ok sv X C -> x ∈ X -> is_Some (C !! x) -> links_at C x = Some (None, None).
Proof.
  intros [H1 _] Hx [c Hc]. unfold links_at. rewrite Hc. simpl. destruct (H1 x c Hc) as [-> ->]; [|done].
  intros [(_ & ? & _)|(_ & ? & _)]; done.
Qed.

Lemma same_links_card (C C' : gmap Z card) a p m : links_at C' a = links_at C a -> links_at C a = Some (p, m) -> links_at C' a = Some (p, m).
Proof. congruence. Qed.

Section Lists.
Context (sv : bool) (X : gset Z) (x : Z) (C C' : gmap Z card) (r r' : role) (HxX : x ∉ X) (HF : same_face C C')
  (Hr : r = RIdle \/ r = RClosed) (Hr' : r' = RIdle \/ r' = RClosed) (Hne : r' <> r).

Lemma listed_role : has_role sv X C x r -> listed sv X C x.
Proof using Hr. intros. unfold listed. destruct Hr as [<- | <-]; auto. Qed.

Lemma enter_lists l hd tl n l' hd' tl' n' k : list_ok sv ({[x]} ∪ X) C r l hd tl n -> list_ok sv ({[x]} ∪ X) C r' l' hd' tl' n' ->
  idle_ok sv ({[x]} ∪ X) C -> counts_ok sv ({[x]} ∪ X) C k -> has_role sv X C x r -> Z.of_nat (size C) + 1 < 2 ^ 64 ->
  links_at C' x = Some (tl, None) ->
  (forall b, b <> x -> links_at C' b = (fun '(p, m) => (p, if decide (Some b = tl) then Some x else m)) <$> links_at C b) ->
  list_ok sv X C' r (l ++ [x]) (match tl with Some _ => hd | None => Some x end) (Some x) (u64 (n + 1)) /\
  list_ok sv X C' r' l' hd' tl' n' /\ idle_ok sv X C' /\ counts_ok sv X C' k.
Proof using HxX HF Hr Hr' Hne.
  intros HL HL' HI HK Hx Hn Ex Eb. pose proof (list_small _ _ _ _ _ _ _ _ HL) as Hsm.
  assert (forall b, b ∈ l -> b <> x) as Hlx by (intros b Hb ->; apply (lo_in _ _ _ _ _ _ _ _ HL) in Hb as (_ & ? & _); set_solver).
  assert (forall b, Some b = tl -> b ∈ l) as Htl by (intros b E; rewrite (kp_tail _ _ _ _ (lo_kept _ _ _ _ _ _ _ _ HL)) in E; by apply last_Some_elem_of).
  assert (forall b, b <> x -> b ∉ l -> links_at C' b = links_at C b) as Hsame.
  { intros b Hbx Hbl. rewrite Eb by done. destruct (links_at C b) as [[p m]|]; [|done]. simpl. rewrite decide_False; [done|]. intros E. by apply Hbl, Htl. }
  assert (~ has_role sv X C x r') as Hno by (intros H; apply Hne; by eapply has_role_det).
  split_and!.
  - apply (list_enter sv X x C); try done; [lia|]. intros b p m Hb E. rewrite Eb, E by auto. done.
  - apply (list_other sv X x C) in HL'; [|done|done]. apply (face_list sv X C); [done| |done]. intros b Hb. apply Hsame.
    + intros ->. by apply Hno, (lo_in _ _ _ _ _ _ _ _ HL').
    + intros Hbl. apply (lo_in _ _ _ _ _ _ _ _ HL) in Hbl as (A1 & A2 & A3). apply (lo_in _ _ _ _ _ _ _ _ HL') in Hb as (B1 & B2 & B3).
      destruct A3 as (c & Hc & E), B3 as (c' & Hc' & E'). congruence.
  - apply (idle_move sv ({[x]} ∪ X) X C C' x); [done|set_solver|done| | |].
    + intros a Ha Hun. apply Hsame; [done|]. intros Hal. apply Hun. apply (lo_in _ _ _ _ _ _ _ _ HL) in Hal. destruct Hr as [E|E]; rewrite E in Hal; [by right|by left].
    + right. rewrite (face_listed sv X C C') by done. by apply listed_role.
    + intros c Hc _. apply (id_quiet _ _ _ HI x c Hc). right. left. set_solver.
  - apply (face_counts sv X C); [done|]. destruct Hx as (Hx1 & _ & c & Hc & E). pose proof (counts_enter sv X x C c k HxX HK Hc Hx1 Hn) as HK'.
    rewrite E in HK'. by destruct Hr as [E'|E']; rewrite E' in HK'.
Qed.

Lemma leave_lists l1 l2 hd tl n l' hd' tl' n' k : list_ok sv X C r (l1 ++ x :: l2) hd tl n -> list_ok sv X C r' l' hd' tl' n' ->
  idle_ok sv X C -> counts_ok sv X C k -> Z.of_nat (size C) + 1 < 2 ^ 64 ->
  links_at C' x = Some (None, None) ->
  (forall b, b <> x -> links_at C' b = (fun '(p, m) => (if decide (Some b = head l2) then last l1 else p,
     if decide (Some b = last l1) then head l2 else m)) <$> links_at C b) ->
  list_ok sv ({[x]} ∪ X) C' r (l1 ++ l2) (match last l1 with Some _ => hd | None => head l2 end)
    (match head l2 with Some _ => tl | None => last l1 end) (u64 (n - 1)) /\
  list_ok sv ({[x]} ∪ X) C' r' l' hd' tl' n' /\ idle_ok sv ({[x]} ∪ X) C' /\ counts_ok sv ({[x]} ∪ X) C' k.
Proof using HxX HF Hr Hr' Hne.
  intros HL HL' HI HK Hn Ex Eb. pose proof (list_small _ _ _ _ _ _ _ _ HL) as Hsm.
  assert (has_role sv X C x r) as Hx by (apply (lo_in _ _ _ _ _ _ _ _ HL); set_solver).
  pose proof (lo_nodup _ _ _ _ _ _ _ _ HL) as (_ & Hdis & [Hxl _]%NoDup_cons)%NoDup_app.
  assert (forall b, b ∈ l1 ++ l2 -> b <> x) as Hlx by (intros b Hb ->; apply elem_of_app in Hb as [Hb|Hb]; [apply (Hdis x Hb); by left|done]).
  assert (forall b, b <> x -> b ∉ l1 ++ x :: l2 -> links_at C' b = links_at C b) as Hsame.
  { intros b Hbx Hbl. rewrite Eb by done. destruct (links_at C b) as [[p m]|]; [|done]. simpl. rewrite !decide_False; [done| |].
    - intros E. symmetry in E. apply last_Some_elem_of in E. set_solver.
    - intros E. destruct l2; [done|]. injection E as ->. set_solver. }
  assert (~ has_role sv X C x r') as Hno by (intros H; apply Hne; by eapply has_role_det).
  split_and!.
  - apply (list_leave sv X x C); try done; [|lia]. intros b p m Hb E. rewrite Eb, E by auto. done.
  - apply (face_list sv _ C); [done| |]; [|by apply (list_other sv X x C)]. intros b Hb. apply Hsame.
    + intros ->. by apply Hno, (lo_in _ _ _ _ _ _ _ _ HL').
    + intros Hbl. apply (lo_in _ _ _ _ _ _ _ _ HL) in Hbl as (A1 & A2 & A3). apply (lo_in _ _ _ _ _ _ _ _ HL') in Hb as (B1 & B2 & B3).
      destruct A3 as (c & Hc & E), B3 as (c' & Hc' & E'). congruence.
  - apply (idle_move sv X _ C C' x); [done|set_solver|done| |by left|].
    + intros a Ha Hun. apply Hsame; [done|]. intros Hal. apply Hun. apply (lo_in _ _ _ _ _ _ _ _ HL) in Hal. destruct Hr as [E|E]; rewrite E in Hal; [by right|by left].
    + intros c Hc _. apply (id_quiet _ _ _ HI x c Hc). left. by apply listed_role.
  - apply (face_counts sv _ C); [done|]. destruct Hx as (Hx1 & _ & c & Hc & E). pose proof (counts_leave sv X x C c k HxX HK Hc Hx1 Hn) as HK'.
    rewrite E in HK'. by destruct Hr as [E'|E']; rewrite E' in HK'.
Qed.

End Lists.

(** ** The operations on the lists *)

(** The books changed, but nothing that the tree, the table or the settings see. *)
Record tidied ss ss' : Prop := {
  td_streams : repointed (se_streams ss) (se_streams ss');
  td_map : stream_map ss' = stream_map ss;
  td_setup : same_setup ss ss';
}.

Lemma book_limbo_links X ss lc li x : book_ok X ss lc li -> x ∈ X -> links_at (scards ss) x = Some (None, None).
Proof. intros HB Hx. eapply limbo_clean; [apply HB|done|by apply (bk_limbo _ _ _ _ HB)]. Qed.

Lemma book_repointed X X' ss ss' lc li lc' li' : book_ok X ss lc li -> tidied ss ss' -> (forall y, y ∈ X' -> y ∈ X \/ y <> root /\ is_Some (scards ss !! y)) ->
  list_ok (server ss) X' (scards ss') RClosed lc' (closed_stream_head ss') (closed_stream_tail ss') (num_closed_streams ss') ->
  list_ok (server ss) X' (scards ss') RIdle li' (idle_stream_head ss') (idle_stream_tail ss') (num_idle_streams ss') ->
  idle_ok (server ss) X' (scards ss') -> counts_ok (server ss) X' (scards ss') ss' -> book_ok X' ss' lc' li'.
Proof.
  intros HB [[_ HF] HM [HS _ _ HO _ _ _]] HX H1 H2 H3 H4. fold (scards ss) in HF. fold (scards ss') in HF.
  split; rewrite ?HS, ?HM, ?HO; try done.
  - eapply face_table; [exact HF|apply HB].
  - eapply face_items; [exact HF|apply HB].
  - intros y Hy. assert (y <> root /\ is_Some (scards ss !! y)) as [Hr [c Hc]].
    { destruct (HX y Hy) as [?|?]; [by apply (bk_limbo _ _ _ _ HB)|done]. }
    split; [done|]. destruct (face_fwd _ _ _ _ HF Hc) as (c' & -> & _). eauto.
  - rewrite (face_size (scards ss)) by done. apply HB.
Qed.

Lemma book_tail X ss lc li r l hd tl n x : list_ok (server ss) X (scards ss) r l hd tl n -> x ∈ X -> book_ok X ss lc li ->
  forall t, tl = Some t -> t <> x /\ is_Some (se_streams ss !! t).
Proof.
  intros HL Hx HB t ->. pose proof (kp_tail _ _ _ _ (lo_kept _ _ _ _ _ _ _ _ HL)) as E. symmetry in E.
  apply last_Some_elem_of, (lo_in _ _ _ _ _ _ _ _ HL) in E as (_ & ? & c & Hc & _). split; [congruence|].
  apply cards_lookup_inv in Hc as (s & Hs & _). eauto.
Qed.

Lemma sp_keep_idle X ss lc li x : x ∉ X -> book_ok ({[x]} ∪ X) ss lc li -> has_role (server ss) X (scards ss) x RIdle ->
  sp (nghttp2_session_keep_idle_stream x) ss (fun _ ss' => book_ok X ss' lc (li ++ [x]) /\ tidied ss ss').
Proof.
  intros HxX HB Hx. unfold nghttp2_session_keep_idle_stream. sp_step. sp_step. sp_step.
  apply sp_link_behind; [eapply book_limbo_links; [done|set_solver]|eapply book_tail; [apply HB|set_solver|done]|].
  intros h (HR & Ex & Eb). sp_step. sp_step. sp_step.
  match goal with |- context [tidied ss ?s] => assert (tidied ss s) as HT by (by split) end. split; [|done].
  destruct (enter_lists (server ss) X x (scards ss) (cards h) RIdle RClosed HxX (rp_face _ _ HR) ltac:(auto) ltac:(auto) ltac:(done)
    _ _ _ _ _ _ _ _ _ (bk_idle _ _ _ _ HB) (bk_closed _ _ _ _ HB) (bk_rest _ _ _ _ HB) (bk_counts _ _ _ _ HB) Hx (bk_size _ _ _ _ HB) Ex Eb)
    as (H1 & H2 & H3 & H4).
  apply (book_repointed ({[x]} ∪ X) X ss _ lc li); [done|exact HT|set_solver|exact H2|exact H1|exact H3|]. by destruct H4.
Qed.

Lemma sp_keep_closed X ss lc li x : x ∉ X -> book_ok ({[x]} ∪ X) ss lc li -> has_role (server ss) X (scards ss) x RClosed ->
  sp (nghttp2_session_keep_closed_stream x) ss (fun _ ss' => book_ok X ss' (lc ++ [x]) li /\ tidied ss ss').
Proof.
  intros HxX HB Hx. unfold nghttp2_session_keep_closed_stream. sp_step. sp_step. sp_step.
  apply sp_link_behind; [eapply book_limbo_links; [done|set_solver]|eapply book_tail; [apply HB|set_solver|done]|].
  intros h (HR & Ex & Eb). sp_step. sp_step. sp_step.
  match goal with |- context [tidied ss ?s] => assert (tidied ss s) as HT by (by split) end. split; [|done].
  destruct (enter_lists (server ss) X x (scards ss) (cards h) RClosed RIdle HxX (rp_face _ _ HR) ltac:(auto) ltac:(auto) ltac:(done)
    _ _ _ _ _ _ _ _ _ (bk_closed _ _ _ _ HB) (bk_idle _ _ _ _ HB) (bk_rest _ _ _ _ HB) (bk_counts _ _ _ _ HB) Hx (bk_size _ _ _ _ HB) Ex Eb)
    as (H1 & H2 & H3 & H4).
  apply (book_repointed ({[x]} ∪ X) X ss _ lc li); [done|exact HT|set_solver|exact H1|exact H2|exact H3|]. by destruct H4.
Qed.

Lemma sp_alter ss a f (Q : unit -> nghttp2_session -> Prop) : is_Some (se_streams ss !! a) ->
  Q tt (streams_to (alter f a (se_streams ss)) ss) -> sp (modify_stream a f) ss Q.
Proof.
  intros [s Ha] HQ. apply (sp_modify ss a f s Q Ha). assert (<[a := f s]> (se_streams ss) = alter f a (se_streams ss)) as ->; [|done].
  apply map_eq. intros b. rewrite lookup_insert, lookup_alter. repeat case_decide; subst; try done. by rewrite Ha.
Qed.

Lemma repoint_alter h a f : f = (fun s => closed_next_to (closed_next (f s)) s) \/ f = (fun s => closed_prev_to (closed_prev (f s)) s) ->
  repointed h (alter f a h).
Proof.
  intros Hf. assert (forall s, tree_view (f s) = tree_view s /\ face (card_of (f s)) = face (card_of s)) as Hs by (destruct Hf as [-> | ->]; done).
  split.
  - apply map_eq. intros b. rewrite !lookup_fmap, lookup_alter. case_decide; [subst|done]. destruct (h !! b); [|done]. simpl. f_equal. apply Hs.
  - intros b. unfold cards. rewrite !lookup_fmap, lookup_alter. case_decide; [subst|done]. destruct (h !! b); [|done]. simpl. f_equal. apply Hs.
Qed.

Definition alter_opt (f : nghttp2_stream -> nghttp2_stream) (p : option Z) h : gmap Z nghttp2_stream :=
  match p with Some a => alter f a h | None => h end.

(** The streams after [x], with the neighbours [p] and [n], left its list. *)
Definition bypassed h (p n : option Z) (x : Z) : gmap Z nghttp2_stream :=
  alter (closed_next_to None) x (alter (closed_prev_to None) x (alter_opt (closed_prev_to p) n (alter_opt (closed_next_to n) p h))).

Lemma bypassed_repointed h p n x : repointed h (bypassed h p n x).
Proof.
  unfold bypassed, alter_opt. etrans; [|apply repoint_alter; by left]. etrans; [|apply repoint_alter; by right].
  destruct n as [n|], p as [p|]; [etrans; apply repoint_alter; [by left|by right]|apply repoint_alter; by right|apply repoint_alter; by left|done].
Qed.

Lemma lookup_alter_opt f p h b : alter_opt f p h !! b = if decide (Some b = p) then f <$> h !! b else h !! b.
Proof.
  destruct p as [a|]; simpl; [|done]. rewrite lookup_alter. repeat case_decide; subst; simplify_eq; done.
Qed.

Lemma bypassed_links h p n x : is_Some (h !! x) -> links_at (cards (bypassed h p n x)) x = Some (None, None) /\
  forall b, b <> x -> links_at (cards (bypassed h p n x)) b =
    (fun '(p0, n0) => (if decide (Some b = n) then p else p0, if decide (Some b = p) then n else n0)) <$> links_at (cards h) b.
Proof.
  intros [s Hx]. unfold bypassed. split.
  - rewrite links_cards, !lookup_alter_eq, !lookup_alter_opt, Hx. unfold pointers. by repeat case_decide.
  - intros b Hb. rewrite !links_cards, !lookup_alter_ne, !lookup_alter_opt by done. unfold pointers.
    destruct (h !! b) as [sb|]; [|by repeat case_decide]. by repeat case_decide.
Qed.

(** The stream [x] leaves its list: what becomes of the session. *)
Definition left_idle (l1 l2 : list Z) (x : Z) ss : nghttp2_session :=
  upd_counts (num_idle_streams_to (u64 (num_idle_streams ss - 1)))
    (upd_lists (idle_list_to (match last l1 with Some _ => idle_stream_head ss | None => head l2 end)
      (match head l2 with Some _ => idle_stream_tail ss | None => last l1 end)) (streams_to (bypassed (se_streams ss) (last l1) (head l2) x) ss)).

Definition left_closed (l1 l2 : list Z) (x : Z) ss : nghttp2_session :=
  upd_counts (num_closed_streams_to (u64 (num_closed_streams ss - 1)))
    (upd_lists (closed_list_to (match last l1 with Some _ => closed_stream_head ss | None => head l2 end)
      (match head l2 with Some _ => closed_stream_tail ss | None => last l1 end)) (streams_to (bypassed (se_streams ss) (last l1) (head l2) x) ss)).

Lemma list_role sv X C r l hd tl n x : list_ok sv X C r l hd tl n -> x ∈ l -> x <> root /\ is_Some (C !! x).
Proof. intros HL Hx. apply (lo_in _ _ _ _ _ _ _ _ HL) in Hx as (? & _ & c & Hc & _). eauto. Qed.

Lemma book_leave_idle X ss lc l1 x l2 : x ∉ X -> book_ok X ss lc (l1 ++ x :: l2) ->
  book_ok ({[x]} ∪ X) (left_idle l1 l2 x ss) lc (l1 ++ l2) /\ tidied ss (left_idle l1 l2 x ss).
Proof.
  intros HxX HB. pose proof (bk_idle _ _ _ _ HB) as HL. destruct (list_role _ _ _ _ _ _ _ _ x HL ltac:(set_solver)) as [Hroot [c Hc]].
  assert (is_Some (se_streams ss !! x)) as Hs by (apply cards_lookup_inv in Hc as (s & Hs & _); eauto).
  destruct (bypassed_links (se_streams ss) (last l1) (head l2) x Hs) as [Ex Eb].
  pose proof (bypassed_repointed (se_streams ss) (last l1) (head l2) x) as HR.
  assert (tidied ss (left_idle l1 l2 x ss)) as HT by by split. split; [|done].
  destruct (leave_lists (server ss) X x (scards ss) (cards (bypassed (se_streams ss) (last l1) (head l2) x)) RIdle RClosed HxX (rp_face _ _ HR)
    ltac:(auto) ltac:(auto) ltac:(done) _ _ _ _ _ _ _ _ _ _ HL (bk_closed _ _ _ _ HB) (bk_rest _ _ _ _ HB) (bk_counts _ _ _ _ HB) (bk_size _ _ _ _ HB) Ex Eb)
    as (H1 & H2 & H3 & H4).
  apply (book_repointed X ({[x]} ∪ X) ss _ lc (l1 ++ x :: l2)); [done|exact HT| |exact H2|exact H1|exact H3|by destruct H4].
  intros y [->%elem_of_singleton|?]%elem_of_union; [right; eauto|by left].
Qed.

Lemma book_leave_closed X ss li l1 x l2 : x ∉ X -> book_ok X ss (l1 ++ x :: l2) li ->
  book_ok ({[x]} ∪ X) (left_closed l1 l2 x ss) (l1 ++ l2) li /\ tidied ss (left_closed l1 l2 x ss).
Proof.
  intros HxX HB. pose proof (bk_closed _ _ _ _ HB) as HL. destruct (list_role _ _ _ _ _ _ _ _ x HL ltac:(set_solver)) as [Hroot [c Hc]].
  assert (is_Some (se_streams ss !! x)) as Hs by (apply cards_lookup_inv in Hc as (s & Hs & _); eauto).
  destruct (bypassed_links (se_streams ss) (last l1) (head l2) x Hs) as [Ex Eb].
  pose proof (bypassed_repointed (se_streams ss) (last l1) (head l2) x) as HR.
  assert (tidied ss (left_closed l1 l2 x ss)) as HT by by split. split; [|done].
  destruct (leave_lists (server ss) X x (scards ss) (cards (bypassed (se_streams ss) (last l1) (head l2) x)) RClosed RIdle HxX (rp_face _ _ HR)
    ltac:(auto) ltac:(auto) ltac:(done) _ _ _ _ _ _ _ _ _ _ HL (bk_idle _ _ _ _ HB) (bk_rest _ _ _ _ HB) (bk_counts _ _ _ _ HB) (bk_size _ _ _ _ HB) Ex Eb)
    as (H1 & H2 & H3 & H4).
  apply (book_repointed X ({[x]} ∪ X) ss _ (l1 ++ x :: l2) li); [done|exact HT| |exact H1|exact H2|exact H3|by destruct H4].
  intros y [->%elem_of_singleton|?]%elem_of_union; [right; eauto|by left].
Qed.

Lemma sp_detach_idle X ss lc li x : x ∉ X -> book_ok X ss lc li -> x ∈ li ->
  sp (nghttp2_session_detach_idle_stream x) ss (fun _ ss' => exists l1 l2, li = l1 ++ x :: l2 /\ book_ok ({[x]} ∪ X) ss' lc (l1 ++ l2) /\ tidied ss ss').
Proof.
  intros HxX HB Hin. apply list_elem_of_split in Hin as (l1 & l2 & ->). pose proof (bk_idle _ _ _ _ HB) as HL.
  assert (forall b, b ∈ l1 ++ x :: l2 -> is_Some (se_streams ss !! b)) as Hdom.
  { intros b Hb. destruct (list_role _ _ _ _ _ _ _ _ b HL Hb) as [_ [c Hc]]. apply cards_lookup_inv in Hc as (s & Hs & _). eauto. }
  destruct (Hdom x ltac:(set_solver)) as [s Hs]. pose proof (kept_middle _ _ _ _ _ _ (lo_kept _ _ _ _ _ _ _ _ HL)) as Hx. unfold scards in Hx.
  rewrite links_cards, Hs in Hx. injection Hx as Ep En.
  assert (sp (nghttp2_session_detach_idle_stream x) ss (fun _ ss' => ss' = left_idle l1 l2 x ss)) as HS.
  { unfold nghttp2_session_detach_idle_stream. sp_step. eapply sp_load; [exact Hs|]. rewrite Ep, En. sp_step.
    destruct (last l1) as [p|] eqn:E1; [pose proof (last_Some_elem_of _ _ E1); apply sp_alter; [apply Hdom; set_solver|]|sp_step];
      sp_step; (destruct (head l2) as [n|] eqn:E2; [pose proof (head_elem _ _ (eq_sym E2)); apply sp_alter; [|]|sp_step]);
      try (sp_step; apply sp_alter; [|sp_step; apply sp_alter; [|sp_step]]); try (unfold se_streams; cbn -[alter]; rewrite ?lookup_alter_is_Some; apply Hdom; set_solver).
    all: unfold left_idle, bypassed; rewrite ?E1, ?E2; by destruct ss as [? ? ? ? ? ? [] ? ? ? ? ?]. }
  eapply sp_mono; [exact HS|]. intros _ ss' ->. exists l1, l2. split; [done|]. by apply book_leave_idle.
Qed.

(** ** Counters *)

Lemma tidied_counts ss f : tidied ss (upd_counts f ss).
Proof. by split. Qed.

Lemma bump_closed r n k : num_closed_streams (bump r n k) = num_closed_streams n.
Proof. by destruct r. Qed.
Lemma bump_idle r n k : num_idle_streams (bump r n k) = num_idle_streams n.
Proof. by destruct r. Qed.

Lemma role_other sv X C x r r' : has_role sv X C x r -> r' <> r -> ~ has_role sv X C x r'.
Proof. intros H Hne H'. apply Hne. by eapply has_role_det. Qed.

Lemma book_count_in X ss lc li x r : x ∉ X -> book_ok ({[x]} ∪ X) ss lc li -> has_role (server ss) X (scards ss) x r -> r <> RIdle -> r <> RClosed ->
  book_ok X (upd_counts (fun n => bump r n 1) ss) lc li.
Proof.
  intros HxX HB Hr H1 H2. pose proof Hr as (Hroot & _ & c & Hc & E).
  assert (links_at (scards ss) x = Some (None, None)) as Hl by (eapply book_limbo_links; [done|set_solver]).
  apply (book_repointed ({[x]} ∪ X) X ss _ lc li); [done|apply tidied_counts|set_solver| | | |]; cbn -[bump count]; rewrite ?bump_closed, ?bump_idle.
  - apply (list_other _ X x); [done|by eapply role_other|apply HB].
  - apply (list_other _ X x); [done|by eapply role_other|apply HB].
  - apply (idle_move _ ({[x]} ∪ X) X (scards ss) (scards ss) x); [apply HB|set_solver|done|done|by left|].
    intros d Hd [Hx|[Hx|Hx]]; [|done|done]. exfalso. destruct Hx as [Hx|Hx]; pose proof (has_role_det _ _ _ _ _ _ Hr Hx); congruence.
  - rewrite <- E. apply (counts_enter _ X x _ c); [done|apply HB|done|done|apply HB].
Qed.

Lemma book_count_out X ss lc li x r c : x ∉ X -> book_ok X ss lc li -> has_role (server ss) X (scards ss) x r -> r <> RIdle -> r <> RClosed ->
  scards ss !! x = Some c -> c_item c = None -> book_ok ({[x]} ∪ X) (upd_counts (fun n => bump r n (-1)) ss) lc li.
Proof.
  intros HxX HB Hr H1 H2 Hc Hi. pose proof Hr as (Hroot & _ & c' & Hc' & E). simplify_eq.
  assert (~ listed (server ss) X (scards ss) x) as Hnl by (intros [Hx|Hx]; pose proof (has_role_det _ _ _ _ _ _ Hr Hx); congruence).
  apply (book_repointed X _ ss _ lc li); [done|apply tidied_counts| | | | |]; cbn -[bump count]; rewrite ?bump_closed, ?bump_idle.
  - intros y [->%elem_of_singleton|?]%elem_of_union; [right; eauto|by left].
  - apply (list_other _ X x); [done|by eapply role_other|apply HB].
  - apply (list_other _ X x); [done|by eapply role_other|apply HB].
  - apply (idle_move _ X _ (scards ss) (scards ss) x); [apply HB|set_solver|done|done| |].
    + left. destruct (id_unlisted _ _ _ (bk_rest _ _ _ _ HB) x c Hc Hnl) as [E1 E2]. unfold links_at. rewrite Hc. simpl. by rewrite E1, E2.
    + intros d Hd _. congruence.
  - apply (counts_leave _ X x _ c); [done|apply HB|done|done|apply HB].
Qed.

(** What [open_stream] makes of a new stream. *)
Definition opened_role (sv : bool) (id : Z) (st : nghttp2_stream_state) : role :=
  match st with
  | NGHTTP2_STREAM_RESERVED => if mine sv id then RPromisedLocal else RPromisedRemote
  | NGHTTP2_STREAM_IDLE => RIdle
  | _ => if mine sv id then ROutgoing else RIncoming
  end.

Lemma shutdown_repointed h a s f : h !! a = Some s -> repointed h (<[a := shut_flags_to f s]> h).
Proof.
  intros Ha. split; [by eapply insert_keeps|]. intros b. rewrite cards_insert. destruct (decide (b = a)) as [->|].
  - rewrite lookup_insert_eq, (cards_lookup _ _ _ Ha). done.
  - by rewrite lookup_insert_ne.
Qed.

Lemma shutdown_cards h a s f : h !! a = Some s -> cards (<[a := shut_flags_to f s]> h) = cards h.
Proof. intros Ha. rewrite cards_insert. apply insert_id. by rewrite (cards_lookup _ _ _ Ha). Qed.

Lemma sp_shutdown ss x s f (Q : unit -> nghttp2_session -> Prop) : se_streams ss !! x = Some s ->
  Q tt (streams_to (<[x := shut_flags_to (u8 (shut_flags s .| f)) s]> (se_streams ss)) ss) -> sp (on_streams (nghttp2_stream_shutdown x f)) ss Q.
Proof. intros Hs HQ. by apply (sp_modify ss x (fun s => shut_flags_to (u8 (shut_flags s .| f)) s) s Q Hs). Qed.

Lemma sp_count_opened X ss lc li x s id st : x ∉ X -> book_ok ({[x]} ∪ X) ss lc li -> se_streams ss !! x = Some s -> x <> root ->
  role_of (server ss) (card_of s) = opened_role (server ss) id st ->
  sp (count_opened id x st) ss (fun _ ss' => exists li', book_ok X ss' lc li' /\ tidied ss ss').
Proof.
  intros HxX HB Hs Hroot Hrole. assert (has_role (server ss) X (scards ss) x (opened_role (server ss) id st)) as Hr.
  { split; [done|]. split; [done|]. exists (card_of s). split; [by apply cards_lookup|done]. }
  unfold count_opened. sp_step. sp_step. rewrite is_mine. unfold opened_role in Hr.
  assert (forall r, has_role (server ss) X (scards ss) x r -> r <> RIdle -> r <> RClosed ->
    exists li', book_ok X (upd_counts (fun n => bump r n 1) ss) lc li' /\ tidied ss (upd_counts (fun n => bump r n 1) ss)) as Hcount.
  { intros r H ? ?. exists li. split; [by apply (book_count_in X ss lc li x)|apply tidied_counts]. }
  destruct st; [destruct (mine _ _); sp_step;
    [exact (Hcount ROutgoing Hr ltac:(done) ltac:(done))|exact (Hcount RIncoming Hr ltac:(done) ltac:(done))]..| |].
  - set (shut := fun f => streams_to (<[x := shut_flags_to (u8 (shut_flags s .| f)) s]> (se_streams ss)) ss).
    assert (forall f, tidied ss (shut f)) as HT by (intros f; split; [by apply shutdown_repointed|done|done]).
    assert (forall f r, has_role (server ss) X (scards ss) x r -> r <> RIdle -> r <> RClosed -> book_ok X (upd_counts (fun n => bump r n 1) (shut f)) lc li) as HS.
    { intros f r H ? ?. assert (scards (shut f) = scards ss) as EC by by apply shutdown_cards.
      apply (book_count_in X (shut f) lc li x); [done| |by rewrite EC|done|done]. by apply (book_cards _ ss). }
    destruct (mine _ _).
    + apply (sp_shutdown _ _ _ _ _ Hs). fold (shut NGHTTP2_SHUT_RD). exists li. split; [|apply HT].
      apply (book_cards _ (upd_counts (fun n => bump RPromisedLocal n 1) (shut NGHTTP2_SHUT_RD))); try done. by apply HS.
    + sp_step. apply (sp_shutdown _ _ _ _ _ Hs). fold (shut NGHTTP2_SHUT_WR). sp_step. exists li. split; [by apply (HS _ RPromisedRemote)|].
      destruct (HT NGHTTP2_SHUT_WR) as [T1 T2 T3]. by split.
  - eapply sp_mono; [by apply sp_keep_idle|]. intros _ ss' [? ?]. eauto.
Qed.

(** ** A new stream *)

Lemma absent_role sv X C x r : C !! x = None -> ~ has_role sv X C x r.
Proof. intros Hx (_ & _ & c & Hc & _). congruence. Qed.

Lemma absent_count sv X x r (C : gmap Z card) : C !! x = None -> count sv ({[x]} ∪ X) r C = count sv X r C.
Proof.
  intros Hx. unfold count. do 2 f_equal. apply map_eq. intros b. apply option_eq. intros c. rewrite !map_lookup_filter_Some. unfold counted. simpl.
  destruct (decide (b = x)) as [->|]; [rewrite Hx|]; set_solver.
Qed.

Lemma table_new C M x c id : table_ok C M -> C !! x = None -> x <> root -> c_id c = id -> M !! id = None -> table_ok (<[x := c]> C) (<[id := x]> M).
Proof.
  intros [H1 H2] Hx Hr Hc HM. split.
  - intros id' a. destruct (decide (a = x)) as [->|Ha].
    + rewrite lookup_insert_eq. destruct (decide (id' = id)) as [->|Hid].
      * rewrite lookup_insert_eq. split; [|done]. intros _. split; [done|]. eauto.
      * rewrite lookup_insert_ne by done. split; [intros [_ (d & Hd & _)]%H1; congruence|intros [_ (d & [= <-] & E)]; congruence].
    + rewrite (lookup_insert_ne C) by done. destruct (decide (id' = id)) as [->|Hid].
      * rewrite lookup_insert_eq. split; [congruence|]. intros Hd%H1. congruence.
      * rewrite lookup_insert_ne by done. apply H1.
  - destruct (decide (root = x)); [done|]. by rewrite lookup_insert_ne.
Qed.

Lemma book_new X ss lc li x s id : book_ok X ss lc li -> se_streams ss !! x = None -> x <> root -> stream_id s = id -> stream_map ss !! id = None ->
  closed_prev s = None -> closed_next s = None -> item s = None ->
  flag_set (sm_flags s) NGHTTP2_STREAM_FLAG_NO_RFC7540_PRIORITIES = false -> Z.of_nat (size (se_streams ss)) + 2 < 2 ^ 64 ->
  book_ok ({[x]} ∪ X) (stream_map_to (<[id := x]> (stream_map ss)) (streams_to (<[x := s]> (se_streams ss)) ss)) lc li.
Proof.
  intros HB Hx Hr Hid HM Hp Hn Hi Hf Hsz.
  assert (scards ss !! x = None) as Hc by (unfold scards, cards; by rewrite lookup_fmap, Hx).
  assert (x ∉ X) as HxX by (intros [_ [c Hd]]%(bk_limbo _ _ _ _ HB); congruence).
  assert (forall b, b ∉ {[x]} ∪ X -> <[x := card_of s]> (scards ss) !! b = scards ss !! b) as HC by (intros b Hb; rewrite lookup_insert_ne; set_solver).
  assert (forall r l hd tl n, list_ok (server ss) X (scards ss) r l hd tl n -> list_ok (server ss) ({[x]} ∪ X) (<[x := card_of s]> (scards ss)) r l hd tl n) as HL.
  { intros r l hd tl n H. apply (limbo_list _ _ _ _ HC). apply (list_other _ X x); [done|by apply absent_role|done]. }
  assert (scards (stream_map_to (<[id := x]> (stream_map ss)) (streams_to (<[x := s]> (se_streams ss)) ss)) = <[x := card_of s]> (scards ss)) as EC
    by apply cards_insert.
  split; rewrite ?EC; simpl.
  - apply table_new; try done. apply HB.
  - apply limbo_items; [apply HB|done|done].
  - apply HL, HB.
  - apply HL, HB.
  - destruct (bk_rest _ _ _ _ HB) as [H1 H2].
    assert (forall a, a <> x -> listed (server ss) ({[x]} ∪ X) (<[x := card_of s]> (scards ss)) a <-> listed (server ss) X (scards ss) a) as EL.
    { intros a Ha. unfold listed. rewrite !(limbo_has_role _ _ _ _ HC). rewrite !(has_role_move _ X x (scards ss) a) by done. naive_solver. }
    split; intros a c; (destruct (decide (a = x)) as [->|Ha]; [rewrite lookup_insert_eq; intros [= <-] _; simpl; auto|]); rewrite lookup_insert_ne, EL by done.
    + apply H1.
    + intros Hac Hd. apply (H2 a c Hac). set_solver.
  - apply (limbo_counts _ _ _ _ HC). destruct (bk_counts _ _ _ _ HB) as [H1 H2 H3]. split; by rewrite absent_count.
  - intros y [->%elem_of_singleton|Hy]%elem_of_union; [split; [done|]; rewrite lookup_insert_eq; eauto|].
    destruct (bk_limbo _ _ _ _ HB y Hy). split; [done|]. rewrite lookup_insert_ne by (intros <-; done). done.
  - rewrite map_size_insert_None by done. unfold scards, cards. rewrite map_size_fmap. lia.
Qed.

(** A stream in limbo is set up anew. *)
Lemma book_set X ss lc li x s s' : x ∈ X -> book_ok X ss lc li -> se_streams ss !! x = Some s -> stream_id s' = stream_id s ->
  closed_prev s' = None -> closed_next s' = None -> item s' = None ->
  flag_set (sm_flags s') NGHTTP2_STREAM_FLAG_NO_RFC7540_PRIORITIES = false -> book_ok X (streams_to (<[x := s']> (se_streams ss)) ss) lc li.
Proof.
  intros HxX HB Hx Hid Hp Hn Hi Hf. pose proof (cards_lookup _ _ _ Hx) as Hc. fold (scards ss) in Hc.
  assert (forall b, b ∉ X -> <[x := card_of s']> (scards ss) !! b = scards ss !! b) as HC by (intros b Hb; rewrite lookup_insert_ne; congruence).
  assert (scards (streams_to (<[x := s']> (se_streams ss)) ss) = <[x := card_of s']> (scards ss)) as EC by apply cards_insert.
  split; rewrite ?EC; simpl.
  - eapply limbo_table; [apply HB|exact Hc|done].
  - apply limbo_items; [apply HB|done|done].
  - apply (limbo_list _ _ _ _ HC), HB.
  - apply (limbo_list _ _ _ _ HC), HB.
  - apply (limbo_idle _ _ _ _ HC); [|apply HB]. intros b c Hb. destruct (decide (b = x)) as [->|Hbx]; [rewrite lookup_insert_eq; by intros [= <-]|].
    rewrite lookup_insert_ne by done. intros Hbc. pose proof (limbo_clean _ _ _ b (bk_rest _ _ _ _ HB) Hb ltac:(eauto)) as HLb.
    unfold links_at in HLb. rewrite Hbc in HLb. simpl in HLb. injection HLb as E1 E2. split_and!; [done|done|].
    apply (id_quiet _ _ _ (bk_rest _ _ _ _ HB) b c Hbc). auto.
  - apply (limbo_counts _ _ _ _ HC), HB.
  - intros y Hy. destruct (bk_limbo _ _ _ _ HB y Hy). split; [done|]. rewrite lookup_insert. case_decide; eauto.
  - rewrite map_size_insert_Some by eauto. apply HB.
Qed.

(** A stream in limbo is released. *)
Lemma book_free X ss lc li x s : x ∉ X -> book_ok ({[x]} ∪ X) ss lc li -> se_streams ss !! x = Some s ->
  book_ok X (streams_to (delete x (se_streams ss)) (stream_map_to (delete (stream_id s) (stream_map ss)) ss)) lc li.
Proof.
  intros HxX HB Hx. pose proof (cards_lookup _ _ _ Hx) as Hc. fold (scards ss) in Hc.
  assert (forall b, b ∉ {[x]} ∪ X -> delete x (scards ss) !! b = scards ss !! b) as HC by (intros b Hb; rewrite lookup_delete_ne; set_solver).
  assert (delete x (scards ss) !! x = None) as Hd by apply lookup_delete_eq.
  assert (scards (streams_to (delete x (se_streams ss)) (stream_map_to (delete (stream_id s) (stream_map ss)) ss)) = delete x (scards ss)) as EC
    by apply fmap_delete.
  destruct (bk_limbo _ _ _ _ HB x ltac:(set_solver)) as [Hroot _].
  assert (forall r l hd tl n, list_ok (server ss) ({[x]} ∪ X) (scards ss) r l hd tl n -> list_ok (server ss) X (delete x (scards ss)) r l hd tl n) as HL.
  { intros r l hd tl n H. apply (list_other _ X x); [done|by apply absent_role|]. by apply (limbo_list _ _ _ _ HC). }
  split; rewrite ?EC; simpl.
  - destruct (bk_table _ _ _ _ HB) as [H1 H2]. split.
    + intros id a. destruct (decide (a = x)) as [->|Ha].
      * rewrite Hd. split; [|intros [_ (d & ? & _)]; done]. intros [Hne Hm]%lookup_delete_Some. apply H1 in Hm as [_ (d & Hxd & E)].
        rewrite Hc in Hxd. injection Hxd as <-. done.
      * rewrite (lookup_delete_ne (scards ss)) by done. rewrite <- H1. split; [by intros [_ ?]%lookup_delete_Some|].
        intros Hm. apply lookup_delete_Some. split; [|done]. intros <-. apply Ha.
        assert (stream_map ss !! stream_id s = Some x) as Hm' by (apply H1; split; [done|]; by exists (card_of s)). congruence.
    + by rewrite lookup_delete_ne.
  - destruct (bk_items _ _ _ _ HB) as [H1 H2 H3]. split.
    + intros a c i [_ Ha]%lookup_delete_Some. by apply (H1 a).
    + intros a b c d i [_ Ha]%lookup_delete_Some [_ Hb]%lookup_delete_Some. by apply (H2 a b c d).
    + intros a c [_ Ha]%lookup_delete_Some. by apply (H3 a).
  - apply HL, HB.
  - apply HL, HB.
  - destruct (bk_rest _ _ _ _ HB) as [H1 H2].
    assert (forall a, a <> x -> listed (server ss) X (delete x (scards ss)) a <-> listed (server ss) ({[x]} ∪ X) (scards ss) a) as EL.
    { intros a Ha. unfold listed. rewrite <- !(limbo_has_role _ _ _ _ HC), !(has_role_move _ X x (delete x (scards ss)) a) by done. naive_solver. }
    split; intros a c [Ha Hac]%lookup_delete_Some; rewrite EL by done; [by apply H1|]. intros Hl. apply (H2 a c Hac). set_solver.
  - destruct (limbo_counts _ _ _ _ HC _ (bk_counts _ _ _ _ HB)) as [H1 H2 H3]. by split; rewrite <- (absent_count _ X x).
  - intros y Hy. destruct (bk_limbo _ _ _ _ HB y ltac:(set_solver)). split; [done|]. rewrite lookup_delete_ne; [done|]. intros ->. by apply HxX.
  - rewrite map_size_delete, Hc. pose proof (bk_size _ _ _ _ HB). lia.
Qed.

(** ** Changes that no list and no counter sees *)

Lemma book_soft X ss ss' lc li : book_ok X ss lc li ->
  (forall a r, has_role (server ss) X (scards ss') a r <-> has_role (server ss) X (scards ss) a r) ->
  (forall a, links_at (scards ss') a = links_at (scards ss) a) -> (forall a, c_id <$> scards ss' !! a = c_id <$> scards ss !! a) ->
  (forall a c, scards ss' !! a = Some c -> listed (server ss) X (scards ss') a \/ a ∈ X \/ a = root -> c_item c = None) ->
  items_ok (scards ss') (ob_items ss') -> se_conf ss' = se_conf ss -> stream_map ss' = stream_map ss -> se_lists ss' = se_lists ss ->
  se_counts ss' = se_counts ss -> book_ok X ss' lc li.
Proof.
  intros HB HR HL HI HQ HIt EC EM EL EN.
  assert (forall a, is_Some (scards ss' !! a) <-> is_Some (scards ss !! a)) as Hdom.
  { intros a. rewrite <- (fmap_is_Some c_id (scards ss' !! a)), HI, fmap_is_Some. done. }
  assert (forall a (P : Z -> Prop), (exists c, scards ss' !! a = Some c /\ P (c_id c)) <-> exists c, scards ss !! a = Some c /\ P (c_id c)) as Hid.
  { intros a P. specialize (HI a). destruct (scards ss' !! a) as [c'|], (scards ss !! a) as [c|]; simplify_eq/=.
    - split; intros (e & [= <-] & ?); eexists; (split; [done|]); congruence.
    - by split; intros (? & ? & _). }
  assert (forall r l hd tl n, list_ok (server ss) X (scards ss) r l hd tl n -> list_ok (server ss) X (scards ss') r l hd tl n) as Hlist.
  { intros r l hd tl n [H1 H2 H3 H4]. split; [by apply (kept_ext (scards ss))|done| |done]. intros a. by rewrite HR. }
  split; rewrite ?EC, ?EM, ?EL, ?EN; try done.
  - destruct (bk_table _ _ _ _ HB) as [H1 H2]. split; [|by apply Hdom]. intros id a. by rewrite H1, (Hid a (fun i => i = id)).
  - apply Hlist, HB.
  - apply Hlist, HB.
  - split; [|exact HQ]. intros a c Hc Hn. assert (~ listed (server ss) X (scards ss) a) as Hn' by (intros [H|H]; apply Hn; [left|right]; by apply HR).
    destruct (proj1 (Hdom a) ltac:(eauto)) as [d Hd]. destruct (id_unlisted _ _ _ (bk_rest _ _ _ _ HB) a d Hd Hn') as [E1 E2].
    specialize (HL a). unfold links_at in HL. rewrite Hc, Hd in HL. simpl in HL. split; congruence.
  - destruct (bk_counts _ _ _ _ HB) as [H1 H2 H3]. split; by rewrite (role_count (server ss) X (scards ss)) by (intros; apply HR).
  - intros x Hx. rewrite Hdom. by apply HB.
  - assert (size (scards ss') = size (scards ss)) as ->; [|apply HB].
    rewrite <- (size_dom (D := gset Z) (scards ss)), <- (size_dom (D := gset Z) (scards ss')). f_equal. apply set_eq. intros a. by rewrite !elem_of_dom.
Qed.
