(* ===== verification/SessionForest.v ===== *)
(** * Sessions: which streams are in the tree

    Every stream in memory is below the root of the dependency tree, but for
    the streams that an operation has in its hands ([forest]).  With the
    invariant of the streams and the books this is the invariant of a
    session ([sess_ok]). *)

From S2P Require Import Prelude Defs Pq Frame Http Stream StreamLinks StreamQueue StreamTree StreamInsert StreamRemove StreamDistribute StreamCut.
From S2P Require Import StreamItems StreamFrame StreamSpec Outbound Session SessionInv SessionTree SessionBooks.

Implicit Types (s a b : Z) (h : gmap Z nghttp2_stream) (ss : nghttp2_session) (lc li l : list Z) (X Y : gset Z) (kids : gmap Z (list Z)).

(** ** Children *)

Definition is_kid kids (a : Z) : Prop := exists p l, kids !! p = Some l /\ a ∈ l.

Record forest Y kids : Prop := {
  fo_below : forall a, is_Some (kids !! a) -> a <> root -> a ∉ Y -> is_kid kids a;
  fo_root : is_Some (kids !! root) /\ ~ is_kid kids root;
  fo_loose : forall y, y ∈ Y -> y <> root /\ kids !! y = Some [] /\ ~ is_kid kids y;
}.

Lemma kid_parent h kids a (s : nghttp2_stream) : stream_inv h kids -> h !! a = Some s -> is_kid kids a <-> is_Some (dep_prev s).
Proof.
  intros HI Ha. split.
  - intros (p & l & Hl & Hin). destruct (child_in_tree _ _ _ _ _ _ HI Hl Hin Ha) as [-> _]. eauto.
  - intros [p Hp]. destruct (t_parent _ _ (si_tree _ _ _ HI) a (st_dep s) p (deps_lookup _ _ _ Ha) Hp) as (l & ? & ?). by exists p, l.
Qed.

Lemma kid_in_tree h kids a (s : nghttp2_stream) : stream_inv h kids -> h !! a = Some s -> is_kid kids a -> nghttp2_stream_in_dep_tree s = true.
Proof. intros HI Ha (p & l & Hl & Hin). by eapply child_in_tree. Qed.

Lemma inv_dom h kids a : stream_inv h kids -> is_Some (kids !! a) <-> is_Some (h !! a).
Proof. intros HI. rewrite <- (t_dom _ _ (si_tree _ _ _ HI)), deps_dom. done. Qed.

Lemma loose_alone Y h kids y : stream_inv h kids -> forest Y kids -> y ∈ Y -> alone h kids y.
Proof.
  intros HI HF Hy. destruct (fo_loose _ _ HF y Hy) as (_ & Hk & Hn). split; [|done].
  destruct (proj1 (inv_dom h kids y HI) ltac:(eauto)) as [s Hs]. exists s. split; [done|]. apply eq_None_not_Some. by rewrite <- (kid_parent h kids).
Qed.

Lemma kid_neq_loose Y kids a y : forest Y kids -> y ∈ Y -> is_kid kids a -> a <> y.
Proof. intros HF Hy Ha ->. by apply (fo_loose _ _ HF) in Hy as (_ & _ & ?). Qed.

Lemma insert_some kids p l a : is_Some (kids !! a) -> is_Some (<[p := l]> kids !! a).
Proof. intros H. rewrite lookup_insert. case_decide; eauto. Qed.

(** ** The steps *)

Lemma kid_same_lists kids kids' a : (forall p, kids' !! p = kids !! p) -> is_kid kids' a <-> is_kid kids a.
Proof. intros E. unfold is_kid. by setoid_rewrite E. Qed.

Lemma kid_new kids a b : kids !! a = None -> is_kid (<[a := []]> kids) b <-> is_kid kids b.
Proof.
  intros Ha. split; intros (p & l & Hl & Hb).
  - apply lookup_insert_Some in Hl as [[<- <-]|[Hne Hl]]; [by apply elem_of_nil in Hb|by exists p, l].
  - exists p, l. split; [|done]. rewrite lookup_insert_ne; [done|]. congruence.
Qed.

(** A new stream is nobody's child. *)
Lemma absent_kid h kids a : stream_inv h kids -> kids !! a = None -> ~ is_kid kids a.
Proof.
  intros HI Ha (p & l & Hl & Hin). destruct (tree_kid _ _ _ _ _ (si_tree _ _ _ HI) Hl Hin) as (d & Hd & _).
  apply (eq_None_not_Some (kids !! a)) in Ha. apply Ha, (t_dom _ _ (si_tree _ _ _ HI)). eauto.
Qed.

Lemma forest_new Y kids a : forest Y kids -> kids !! a = None -> ~ is_kid kids a -> forest ({[a]} ∪ Y) (<[a := []]> kids).
Proof.
  intros [H1 [H2 H3] H4] Ha Hn. assert (a <> root) as Hr by (intros ->; rewrite Ha in H2; by destruct H2). split.
  - intros b Hb Hbr HbY. rewrite kid_new by done. rewrite lookup_insert_ne in Hb by set_solver. apply H1; [done|done|set_solver].
  - rewrite lookup_insert_ne, kid_new by done. done.
  - intros y Hy. rewrite kid_new by done. destruct (decide (y = a)) as [->|Hne]; [by rewrite lookup_insert_eq|].
    rewrite lookup_insert_ne by done. apply H4. set_solver.
Qed.

Lemma kid_add kids p s l b : kids !! p = Some l -> is_kid (<[p := s :: l]> kids) b <-> b = s \/ is_kid kids b.
Proof.
  intros Hp. split.
  - intros (q & l' & Hl & Hb). apply lookup_insert_Some in Hl as [[<- <-]|[Hne Hl]].
    + apply elem_of_cons in Hb as [->|Hb]; [by left|right; by exists p, l].
    + right. by exists q, l'.
  - intros [->|(q & l' & Hl & Hb)]; [exists p, (s :: l); split; [by rewrite lookup_insert_eq|by left]|].
    destruct (decide (q = p)) as [->|]; [|exists q, l'; by rewrite lookup_insert_ne by done].
    exists p, (s :: l). split; [by rewrite lookup_insert_eq|]. rewrite Hp in Hl. injection Hl as <-. by right.
Qed.

Lemma kid_insert kids p s l b : kids !! p = Some l -> kids !! s = Some [] -> p <> s ->
  is_kid (<[p := [s]]> (<[s := l]> kids)) b <-> b = s \/ is_kid kids b.
Proof.
  intros Hp Hs Hne. split.
  - intros (q & l' & Hl & Hb). apply lookup_insert_Some in Hl as [[<- <-]|[_ Hl]].
    + apply list_elem_of_singleton in Hb. by left.
    + right. apply lookup_insert_Some in Hl as [[<- <-]|[_ Hl]]; [by exists p, l|by exists q, l'].
  - intros [->|(q & l' & Hl & Hb)].
    + exists p, [s]. split; [by rewrite lookup_insert_eq|by left].
    + destruct (decide (q = p)) as [->|Hqp].
      * exists s, l. split; [by rewrite lookup_insert_ne, lookup_insert_eq by done|congruence].
      * destruct (decide (q = s)) as [->|]; [rewrite Hs in Hl; injection Hl as <-; by apply elem_of_nil in Hb|].
        exists q, l'. by rewrite !lookup_insert_ne by done.
Qed.

Lemma kid_remove kids q s l1 l2 ks b : kids !! q = Some (l1 ++ s :: l2) -> kids !! s = Some ks -> q <> s -> b <> s ->
  is_kid (<[q := l1 ++ ks ++ l2]> (<[s := []]> kids)) b <-> is_kid kids b.
Proof.
  intros Hq Hs Hne Hb. split.
  - intros (r & l & Hl & Hin). apply lookup_insert_Some in Hl as [[<- <-]|[_ Hl]].
    + rewrite !elem_of_app in Hin. destruct Hin as [Hin|[Hin|Hin]]; [exists q, (l1 ++ s :: l2); set_solver|by exists s, ks|exists q, (l1 ++ s :: l2); set_solver].
    + apply lookup_insert_Some in Hl as [[<- <-]|[_ Hl]]; [by apply elem_of_nil in Hin|by exists r, l].
  - intros (r & l & Hl & Hin). destruct (decide (r = q)) as [->|Hr].
    + rewrite Hq in Hl. injection Hl as <-. exists q, (l1 ++ ks ++ l2). split; [by rewrite lookup_insert_eq|set_solver].
    + destruct (decide (r = s)) as [->|Hrs].
      * rewrite Hs in Hl. injection Hl as <-. exists q, (l1 ++ ks ++ l2). split; [by rewrite lookup_insert_eq|set_solver].
      * exists r, l. by rewrite !lookup_insert_ne by done.
Qed.

Section Steps.
Context h kids (HI : stream_inv h kids).

(** After its removal a stream is alone. *)
Lemma removed_alone q s l1 l2 ks : kids !! q = Some (l1 ++ s :: l2) -> kids !! s = Some ks ->
  q <> s /\ ~ is_kid (<[q := l1 ++ ks ++ l2]> (<[s := []]> kids)) s.
Proof using HI.
  intros Hq Hs. pose proof (si_tree _ _ _ HI) as HT. assert (q <> s) as Hne by (intros ->; apply (tree_self _ _ _ _ HT Hq); set_solver).
  split; [done|]. intros (r & l & Hl & Hin). destruct (proj2 (t_dom _ _ HT q) ltac:(eauto)) as [dq Hdq].
  destruct (t_list _ _ HT q _ dq Hq Hdq) as (_ & Hnd & _). apply NoDup_app in Hnd as (_ & Hdis & [Hs2 _]%NoDup_cons).
  apply lookup_insert_Some in Hl as [[<- <-]|[Hr Hl]].
  - rewrite !elem_of_app in Hin. destruct Hin as [Hin|[Hin|Hin]]; [apply (Hdis s Hin); by left|by apply (tree_self _ _ _ _ HT Hs)|done].
  - apply lookup_insert_Some in Hl as [[<- <-]|[_ Hl]]; [by apply elem_of_nil in Hin|].
    apply Hr, (tree_unique _ _ r q l (l1 ++ s :: l2) s HT Hl Hq Hin). set_solver.
Qed.

Lemma cut_alone q s l1 l2 : kids !! q = Some (l1 ++ s :: l2) -> ~ is_kid (<[q := l1 ++ l2]> kids) s.
Proof using HI.
  intros Hq (r & l & Hl & Hin). pose proof (si_tree _ _ _ HI) as HT. destruct (proj2 (t_dom _ _ HT q) ltac:(eauto)) as [dq Hdq].
  destruct (t_list _ _ HT q _ dq Hq Hdq) as (_ & Hnd & _). apply NoDup_app in Hnd as (_ & Hdis & [Hs2 _]%NoDup_cons).
  apply lookup_insert_Some in Hl as [[<- <-]|[Hr Hl]].
  - apply elem_of_app in Hin as [Hin|Hin]; [apply (Hdis s Hin); by left|done].
  - apply Hr, (tree_unique _ _ r q l (l1 ++ s :: l2) s HT Hl Hq Hin). set_solver.
Qed.

Lemma forest_remove Y q s l1 l2 ks : forest Y kids -> kids !! q = Some (l1 ++ s :: l2) -> kids !! s = Some ks ->
  forest ({[s]} ∪ Y) (<[q := l1 ++ ks ++ l2]> (<[s := []]> kids)).
Proof using HI.
  intros HF Hq Hs. destruct (removed_alone q s l1 l2 ks Hq Hs) as [Hne Hn]. pose proof HF as [H1 [H2 H3] H4].
  assert (is_kid kids s) as Hk by (exists q, (l1 ++ s :: l2); set_solver).
  assert (s <> root) as Hr by (intros ->; done). split.
  - intros b Hb Hbr HbY. rewrite kid_remove by (done || set_solver). apply H1; [|done|set_solver].
    rewrite !lookup_insert_is_Some in Hb. destruct Hb as [<-|[_ [<-|[_ Hb]]]]; eauto.
  - rewrite kid_remove by done. split; [|done]. by do 2 apply insert_some.
  - intros y Hy. destruct (decide (y = s)) as [->|Hys]; [rewrite lookup_insert_ne, lookup_insert_eq by done; done|].
    destruct (H4 y ltac:(set_solver)) as (Hyr & Hyk & Hyn). rewrite kid_remove by done. split; [done|]. split; [|done].
    assert (y <> q) as Hyq by (intros ->; rewrite Hq in Hyk; injection Hyk; by destruct l1). by rewrite !lookup_insert_ne by done.
Qed.

End Steps.

Lemma forest_add Y kids p s l : s ∉ Y -> p ∉ Y -> forest ({[s]} ∪ Y) kids -> kids !! p = Some l -> p <> s -> forest Y (<[p := s :: l]> kids).
Proof.
  intros HsY HpY [H1 [H2 H3] H4] Hp Hne. destruct (H4 s ltac:(set_solver)) as (Hsr & Hs & Hsn). split.
  - intros b Hb Hbr HbY. rewrite kid_add by done. destruct (decide (b = s)) as [->|]; [by left|right]. apply H1; [|done|set_solver].
    rewrite lookup_insert_is_Some in Hb. destruct Hb as [<-|[_ Hb]]; eauto.
  - rewrite kid_add by done. split; [by apply insert_some|by intros [?|?]].
  - intros y Hy. destruct (H4 y ltac:(set_solver)) as (Hyr & Hyk & Hyn). rewrite kid_add by done.
    split; [done|]. rewrite lookup_insert_ne by (intros ->; done). split; [done|]. intros [->|?]; done.
Qed.

Lemma forest_insert Y kids p s l : s ∉ Y -> p ∉ Y -> forest ({[s]} ∪ Y) kids -> kids !! p = Some l -> p <> s ->
  forest Y (<[p := [s]]> (<[s := l]> kids)).
Proof.
  intros HsY HpY [H1 [H2 H3] H4] Hp Hne. destruct (H4 s ltac:(set_solver)) as (Hsr & Hs & Hsn). split.
  - intros b Hb Hbr HbY. rewrite kid_insert by done. destruct (decide (b = s)) as [->|]; [by left|right]. apply H1; [|done|set_solver].
    rewrite !lookup_insert_is_Some in Hb. destruct Hb as [<-|[_ [<-|[_ Hb]]]]; eauto.
  - rewrite kid_insert by done. split; [by do 2 apply insert_some|by intros [?|?]].
  - intros y Hy. destruct (H4 y ltac:(set_solver)) as (Hyr & Hyk & Hyn). rewrite kid_insert by done.
    split; [done|]. rewrite !lookup_insert_ne by (intros ->; done). split; [done|]. intros [->|?]; done.
Qed.

(** A loose stream is released. *)
Lemma forest_free Y kids s : s ∉ Y -> forest ({[s]} ∪ Y) kids -> forest Y (delete s kids).
Proof.
  intros HsY [H1 [H2 H3] H4]. destruct (H4 s ltac:(set_solver)) as (Hsr & Hs & Hsn).
  assert (forall b, is_kid (delete s kids) b <-> is_kid kids b) as HK.
  { intros b. split; intros (p & l & Hl & Hb); exists p, l; (split; [|done]).
    - by apply lookup_delete_Some in Hl as [_ ?].
    - rewrite lookup_delete_ne; [done|]. intros <-. rewrite Hs in Hl. injection Hl as <-. by apply elem_of_nil in Hb. }
  split.
  - intros b Hb Hbr HbY. rewrite HK. apply lookup_delete_is_Some in Hb as [Hbs Hb]. apply H1; [done|done|set_solver].
  - rewrite HK. split; [|done]. by rewrite lookup_delete_ne.
  - intros y Hy. rewrite HK, lookup_delete_ne by (intros <-; done). apply H4. set_solver.
Qed.

(** ** The invariant of a session *)

Record sess_ok X Y ss kids lc li : Prop := {
  so_tree : stream_inv (se_streams ss) kids;
  so_books : book_ok X ss lc li;
  so_forest : forest Y kids;
}.
