(* ===== verification/SessionOpen.v ===== *)
(** * Sessions: opening streams

    [nghttp2_session_open_stream] puts a stream in memory, notes it in the
    books and links it into the dependency tree; a stream it depends on that
    is idle and unknown is opened first. *)

From S2P Require Import Prelude Defs Pq Frame Http Stream StreamLinks StreamQueue StreamTree StreamInsert StreamRemove StreamDistribute StreamCut.
From S2P Require Import StreamItems StreamFrame StreamSpec Outbound Session SessionInv SessionTree SessionBooks SessionForest.

Implicit Types (a b d p : Z) (h : gmap Z nghttp2_stream) (ss : nghttp2_session) (lc li l : list Z) (X Y : gset Z) (kids : gmap Z (list Z)).

(** The priorities of RFC 7540 are in use. *)
Definition rfc7540 ss : Prop := pending_no_rfc7540_priorities ss <> 1.

Lemma rfc7540_fallback ss : rfc7540 ss -> session_no_rfc7540_pri_no_fallback ss = false.
Proof. intros H. unfold session_no_rfc7540_pri_no_fallback. by rewrite (proj2 (Z.eqb_neq _ _) H). Qed.

(** ** What stays *)

(** The settings and the streams apart from those in [P], but for links and scheduling data. *)
Record kept_but (P : Z -> Prop) ss ss' : Prop := {
  kb_setup : same_setup ss ss';
  kb_streams : forall b, ~ P b -> face <$> scards ss' !! b = face <$> scards ss !! b;
}.

#[global] Instance kept_but_preorder P : PreOrder (kept_but P).
Proof. split; [by split|]. intros x y z [H1 H2] [H3 H4]. split; [by etrans|]. intros b Hb. by rewrite H4, H2. Qed.

Lemma kept_but_mono (P P' : Z -> Prop) ss ss' : kept_but P ss ss' -> (forall b, P b -> P' b) -> kept_but P' ss ss'.
Proof. intros [H1 H2] HP. split; [done|]. intros b Hb. apply H2. auto. Qed.

Lemma tidied_kept P ss ss' : tidied ss ss' -> kept_but P ss ss'.
Proof. intros [[_ HF] _ HS]. split; [done|]. intros b _. apply HF. Qed.

(** An operation on the tree. *)
Definition replanted ss ss' : Prop := exists w, ss' = world_to w ss /\ same_base (se_streams ss) (streams w).

Lemma replanted_cards ss ss' : replanted ss ss' -> scards ss' = scards ss.
Proof. intros (w & -> & HS). by apply same_base_cards. Qed.

Lemma replanted_kept P ss ss' : replanted ss ss' -> kept_but P ss ss'.
Proof. intros HR. split; [by destruct HR as (w & -> & _)|]. intros b _. by rewrite (replanted_cards ss). Qed.

Lemma replanted_book X ss ss' lc li : replanted ss ss' -> book_ok X ss lc li -> book_ok X ss' lc li.
Proof. intros (w & -> & HS) HB. by apply book_tree. Qed.

Lemma replanted_map ss ss' : replanted ss ss' -> stream_map ss' = stream_map ss.
Proof. by intros (w & -> & _). Qed.

Lemma replanted_size ss ss' : replanted ss ss' -> size (se_streams ss') = size (se_streams ss).
Proof. intros (w & -> & HS). by apply same_base_size. Qed.

Lemma replanted_server ss ss' : replanted ss ss' -> se_conf ss' = se_conf ss.
Proof. by intros (w & -> & _). Qed.

Lemma tidied_size ss ss' : tidied ss ss' -> size (se_streams ss') = size (se_streams ss).
Proof. intros [[HV _] _ _]. rewrite <- (map_size_fmap tree_view (se_streams ss)), <- (map_size_fmap tree_view (se_streams ss')). by rewrite HV. Qed.

Lemma tidied_inv ss ss' kids : tidied ss ss' -> stream_inv (se_streams ss) kids -> stream_inv (se_streams ss') kids.
Proof. intros [[HV _] _ _]. by apply view_inv. Qed.

Lemma tidied_item ss ss' a (s' : nghttp2_stream) : tidied ss ss' -> se_streams ss' !! a = Some s' -> exists s : nghttp2_stream, se_streams ss !! a = Some s /\ item s = item s'.
Proof. intros [[HV _] _ _] Ha. destruct (same_lookup_r _ _ _ _ _ HV Ha) as (s & Hs & E). exists s. split; [done|]. unfold tree_view in E. congruence. Qed.

(** *** Weights *)

Definition wts h : gmap Z Z := (fun s : nghttp2_stream => weight s) <$> h.

(** What the operations on links alone do not change. *)
Definition skin (s : nghttp2_stream) : nghttp2_stream * Z := (base s, weight s).

#[global] Instance skin_off_links : OffLinks skin.
Proof. split; [|done]. intros g s Hg. unfold skin. simpl. by rewrite Hg. Qed.

Lemma sp_links {A} (m : st_m A) ss (P : A -> world -> Prop) (Q : A -> nghttp2_session -> Prop) : keeps skin m -> wp m (se_world ss) P ->
  (forall x w, P x w -> same_base (se_streams ss) (streams w) -> wts (streams w) = wts (se_streams ss) -> Q x (world_to w ss)) -> sp (on_streams m) ss Q.
Proof.
  intros HK HW HQ. unfold sp, on_streams, wp in *. destruct (m (se_world ss)) as [[w x]|] eqn:E; [|done]. apply HK in E.
  apply HQ; [done| |].
  - unfold same_base. apply (f_equal (fmap fst)) in E. by rewrite <- !map_fmap_compose in E.
  - apply (f_equal (fmap snd)) in E. by rewrite <- !map_fmap_compose in E.
Qed.

Lemma wts_lookup h h' a (s : nghttp2_stream) : wts h' = wts h -> h !! a = Some s -> exists s' : nghttp2_stream, h' !! a = Some s' /\ weight s' = weight s.
Proof. intros E Ha. unfold wts in E. destruct (same_lookup _ _ _ _ _ E Ha) as (s' & Hs' & Ew). eauto. Qed.

Lemma tidied_wts ss ss' : tidied ss ss' -> wts (se_streams ss') = wts (se_streams ss).
Proof.
  intros [[HV _] _ _]. apply (f_equal (fmap (fun x => weight x.1.1.1))) in HV. by rewrite <- !map_fmap_compose in HV.
Qed.

(** ** Operations on the tree in a session *)

Section Tree.
Context (realloc_ok : nat -> bool).

Definition tree_outcome (ss : nghttp2_session) (P : nghttp2_session -> Prop) (rv : Z) (ss' : nghttp2_session) : Prop :=
  rv = NGHTTP2_ERR_NOMEM /\ refused realloc_ok \/ rv = 0 /\ replanted ss ss' /\ P ss'.

Lemma plain X ss lc li a (s : nghttp2_stream) : book_ok X ss lc li -> se_streams ss !! a = Some s -> no_rfc7540_priorities s = false.
Proof. intros HB Ha. pose proof (io_plain _ _ (bk_items _ _ _ _ HB) a (card_of s) (cards_lookup _ _ _ Ha)) as H. exact H. Qed.

Lemma loose_can_link X Y ss kids lc li p a : sess_ok X Y ss kids lc li -> a ∈ Y -> p <> a -> is_Some (kids !! p) -> can_link (se_streams ss) p a.
Proof.
  intros [HI HB HF] Ha Hne Hp. apply (alone_can_link _ kids); [done|by apply (loose_alone Y)|done|by apply (inv_dom _ kids)|].
  intros s Hs. by apply (plain X ss lc li a).
Qed.

Lemma loose_dead Y ss kids a : stream_inv (se_streams ss) kids -> forest Y kids -> a ∈ Y ->
  (forall s : nghttp2_stream, se_streams ss !! a = Some s -> item s = None) -> ~ live (se_streams ss) a.
Proof.
  intros HI HF Ha Hit. apply (alone_dead _ kids); [done|by apply (loose_alone Y)|]. intros s Hs. unfold stream_active. by rewrite (Hit s Hs).
Qed.

Lemma sp_add X Y ss kids lc li p a l : a ∉ Y -> p ∉ Y -> sess_ok X ({[a]} ∪ Y) ss kids lc li -> kids !! p = Some l -> p <> a ->
  (forall s : nghttp2_stream, se_streams ss !! a = Some s -> item s = None) ->
  sp (on_streams (nghttp2_stream_dep_add p a)) ss (fun _ ss' => replanted ss ss' /\ sess_ok X Y ss' (<[p := a :: l]> kids) lc li /\
    wts (se_streams ss') = wts (se_streams ss)).
Proof.
  intros HaY HpY HO Hp Hne Hit. pose proof HO as [HI HB HF]. eapply sp_links; [apply keeps_dep_add; apply _| |].
  - eapply (wp_dep_add p a (se_world ss)); [exact HI|eapply loose_can_link; [done|set_solver|done|eauto]|exact Hp|eapply loose_dead; [done..|set_solver|done]].
  - intros [] w HP HS HW. assert (replanted ss (world_to w ss)) as HR by by exists w. split; [done|]. split; [|done].
    split; [exact HP|by eapply replanted_book|]. by apply forest_add.
Qed.

Lemma sp_insert X Y ss kids lc li p a l : a ∉ Y -> p ∉ Y -> sess_ok X ({[a]} ∪ Y) ss kids lc li -> kids !! p = Some l -> p <> a ->
  (forall s : nghttp2_stream, se_streams ss !! a = Some s -> item s = None) ->
  sp (on_streams (nghttp2_stream_dep_insert realloc_ok p a)) ss
    (tree_outcome ss (fun ss' => sess_ok X Y ss' (<[p := [a]]> (<[a := l]> kids)) lc li /\ wts (se_streams ss') = wts (se_streams ss))).
Proof.
  intros HaY HpY HO Hp Hne Hit. pose proof HO as [HI HB HF]. eapply sp_links; [apply keeps_dep_insert; apply _| |].
  - eapply (wp_dep_insert realloc_ok p a (se_world ss)); [exact HI|eapply loose_can_link; [done|set_solver|done|eauto]|exact Hp|].
    split; [apply (fo_loose _ _ HF); set_solver|eapply loose_dead; [done..|set_solver|done]].
  - intros rv w HP HS HW. destruct HP as [HP|[-> HP]]; [by left|right]. split; [done|]. assert (replanted ss (world_to w ss)) as HR by by exists w.
    split; [done|]. split; [|done]. split; [exact HP|by eapply replanted_book|]. by apply forest_insert.
Qed.

Lemma sp_remove X Y ss kids lc li q a l1 l2 ks : sess_ok X Y ss kids lc li -> kids !! q = Some (l1 ++ a :: l2) -> kids !! a = Some ks ->
  sp (on_streams (nghttp2_stream_dep_remove realloc_ok a)) ss
    (tree_outcome ss (fun ss' => sess_ok X ({[a]} ∪ Y) ss' (<[q := l1 ++ ks ++ l2]> (<[a := []]> kids)) lc li)).
Proof.
  intros [HI HB HF] Hq Ha. eapply sp_tree; [apply keeps_dep_remove; apply _| |].
  - eapply (wp_dep_remove realloc_ok q a (se_world ss)); [exact HI|done|done].
  - intros rv w HP HS. destruct HP as [HP|[-> HP]]; [by left|right]. split; [done|]. assert (replanted ss (world_to w ss)) as HR by by exists w.
    split; [done|]. split; [exact HP|by eapply replanted_book|]. by eapply forest_remove.
Qed.

End Tree.

(** ** An idle stream is opened again *)

Section Reopen.
Context (realloc_ok : nat -> bool).

Lemma kid_position kids q l a : kids !! q = Some l -> a ∈ l -> exists l1 l2, kids !! q = Some (l1 ++ a :: l2).
Proof. intros Hq (l1 & l2 & ->)%list_elem_of_split. eauto. Qed.

Lemma role_stream ss X a r : has_role (server ss) X (scards ss) a r -> exists s, se_streams ss !! a = Some s /\ role_of (server ss) (card_of s) = r.
Proof. intros (_ & _ & c & Hc & E). apply cards_lookup_inv in Hc as (s & Hs & <-). eauto. Qed.

Lemma idle_state sv (s : nghttp2_stream) : role_of sv (card_of s) = RIdle -> state s = NGHTTP2_STREAM_IDLE.
Proof. unfold role_of. simpl. destruct (flag_set _ _); [done|]. case_bool_decide; [done|]. by repeat case_match. Qed.

Lemma so_neq_root X ss lc li a r : book_ok X ss lc li -> has_role (server ss) X (scards ss) a r -> a <> root.
Proof. by intros _ [? _]. Qed.

Lemma in_tree X Y ss kids lc li a (s : nghttp2_stream) : sess_ok X Y ss kids lc li -> se_streams ss !! a = Some s -> a <> root -> a ∉ Y ->
  exists q l1 l2, kids !! q = Some (l1 ++ a :: l2) /\ nghttp2_stream_in_dep_tree s = true.
Proof.
  intros [HI HB HF] Ha Hr HaY. destruct (fo_below _ _ HF a) as (q & l & Hq & Hin); [apply (inv_dom _ kids _ HI); eauto|done|done|].
  destruct (kid_position _ _ _ _ Hq Hin) as (l1 & l2 & Hq'). exists q, l1, l2. split; [done|]. apply (child_in_tree _ _ _ _ _ _ HI Hq Hin Ha).
Qed.

Lemma kids_of X Y ss kids lc li a (s : nghttp2_stream) : sess_ok X Y ss kids lc li -> se_streams ss !! a = Some s -> exists l, kids !! a = Some l.
Proof. intros [HI _ _] Ha. apply (inv_dom _ kids a HI). eauto. Qed.

Lemma tidied_sess X Y X' ss ss' kids lc li lc' li' : tidied ss ss' -> book_ok X' ss' lc' li' -> sess_ok X Y ss kids lc li -> sess_ok X' Y ss' kids lc' li'.
Proof. intros HT HB [HI _ HF]. split; [by apply (tidied_inv ss)|done|done]. Qed.

Lemma sp_reopen X Y ss kids lc li a : a ∉ X -> a ∉ Y -> sess_ok X Y ss kids lc li -> rfc7540 ss ->
  has_role (server ss) X (scards ss) a RIdle ->
  sp (reopen_idle_stream realloc_ok a) ss (fun rv ss' =>
    rv = NGHTTP2_ERR_NOMEM /\ refused realloc_ok \/
    rv = 0 /\ exists kids' li', rfc_step kids (DepRemove a) kids' /\ sess_ok ({[a]} ∪ X) ({[a]} ∪ Y) ss' kids' lc li' /\
      kept_but (eq a) ss ss' /\ stream_map ss' = stream_map ss /\ size (se_streams ss') = size (se_streams ss)).
Proof.
  intros HaX HaY HO Hmode Hr. destruct (role_stream _ _ _ _ Hr) as (s & Hs & Hrole). pose proof HO as [HI HB HF]. pose proof Hr as [Hroot _].
  destruct (in_tree _ _ _ _ _ _ _ _ HO Hs Hroot HaY) as (q & l1 & l2 & Hq & Htree).
  unfold reopen_idle_stream. sp_step. eapply sp_load; [exact Hs|]. sp_step.
  apply sp_assert; [by apply bool_decide_eq_true, (idle_state (server ss))|]. sp_step. apply sp_assert; [by rewrite Htree, orb_true_r|]. sp_step.
  assert (a ∈ li) as Hin by by apply (lo_in _ _ _ _ _ _ _ _ (bk_idle _ _ _ _ HB)).
  eapply sp_mono; [exact (sp_detach_idle _ _ _ _ _ HaX HB Hin)|]. intros [] ss1 (m1 & m2 & -> & HB1 & HT).
  pose proof (tidied_sess _ _ _ _ _ _ _ _ _ _ HT HB1 HO) as HO1.
  destruct (same_lookup _ _ _ _ _ (rp_view _ _ (td_streams _ _ HT)) Hs) as (s1 & Hs1 & _).
  destruct (in_tree _ _ _ _ _ _ _ _ HO1 Hs1 Hroot HaY) as (q1 & k1 & k2 & Hq1 & Htree1).
  destruct (kids_of _ _ _ _ _ _ _ _ HO1 Hs1) as [ks Hks].
  sp_step. eapply sp_load; [exact Hs1|]. rewrite Htree1. sp_step. apply sp_assert; [by rewrite (plain _ _ _ _ _ _ HB1 Hs1)|]. sp_step.
  eapply sp_mono; [exact (sp_remove realloc_ok _ _ _ _ _ _ _ _ _ _ _ HO1 Hq1 Hks)|]. intros rv ss2 [[-> ?]|(-> & HR & HO2)]; [by left|]. simpl. sp_step. sp_step.
  assert (kept_but (eq a) ss ss2) as HK by (etrans; [by apply tidied_kept|by apply replanted_kept]).
  rewrite rfc7540_fallback by (unfold rfc7540; by rewrite (su_conf _ _ (kb_setup _ _ _ HK))). sp_step. right. split; [done|].
  exists (<[q1 := k1 ++ ks ++ k2]> (<[a := []]> kids)), (m1 ++ m2). split_and!; [by apply rfc_remove|done|done| |].
  - by rewrite (replanted_map _ _ HR), (td_map _ _ HT).
  - by rewrite (replanted_size _ _ HR), (tidied_size _ _ HT).
Qed.

End Reopen.

(** ** A stream is put in memory *)

(** What [open_stream] makes of the flags. *)
Definition open_flags (f : Z) : Prop := f = 0 \/ f = NGHTTP2_STREAM_FLAG_NO_RFC9113_LEADING_AND_TRAILING_WS_VALIDATION.

Lemma open_flags_plain st f : open_flags f -> flag_set (push_flags st f) NGHTTP2_STREAM_FLAG_NO_RFC7540_PRIORITIES = false.
Proof. unfold push_flags. intros [-> | ->]; by case_bool_decide. Qed.

Lemma open_role sv st f (s : nghttp2_stream) : open_flags f -> sm_flags s = push_flags st f -> state s = st ->
  role_of sv (card_of s) = opened_role sv (stream_id s) st.
Proof.
  unfold push_flags, role_of. simpl. intros Hf -> ->. destruct Hf as [-> | ->]; destruct st; simpl; try done.
Qed.

Section Place.
Context (malloc_ok : nat -> bool) (new_stream : gmap Z nghttp2_stream -> Z) (Hfresh : forall h, h !! new_stream h = None).

(** [a] is in memory under the id [id], in the hands of the operation. *)
Definition placed_as ss (a id : Z) (st : nghttp2_stream_state) (n : Z) (ss' : nghttp2_session) : Prop :=
  stream_map ss' = <[id := a]> (stream_map ss) /\ kept_but (eq a) ss ss' /\
  exists s : nghttp2_stream, se_streams ss' !! a = Some s /\ stream_id s = id /\ state s = st /\ item s = None /\ weight s = n /\
    role_of (server ss) (card_of s) = opened_role (server ss) id st.

Definition room ss (n : nat) : Prop := Z.of_nat (n + size (se_streams ss)) * 256 <= INT32_MAX.

Lemma absent_map X Y ss kids lc li a : sess_ok X Y ss kids lc li -> se_streams ss !! a = None -> kids !! a = None /\ a <> root /\ a ∉ X /\ a ∉ Y.
Proof.
  intros [HI HB HF] Ha. assert (kids !! a = None) as Hk.
  { apply eq_None_not_Some. rewrite (inv_dom _ _ _ HI), Ha. by intros [? ?]. }
  split_and!; [done|intros ->; destruct (fo_root _ _ HF) as [[? ?] _]; congruence| |].
  - intros [_ [c Hc]]%(bk_limbo _ _ _ _ HB). apply cards_lookup_inv in Hc as (s & Hs & _). congruence.
  - intros (_ & ? & _)%(fo_loose _ _ HF). congruence.
Qed.

Lemma sp_malloc ss (Q : bool -> nghttp2_session -> Prop) : (refused malloc_ok -> Q false (granted ss)) -> Q true (granted ss) -> sp (mem_malloc malloc_ok) ss Q.
Proof using. intros H1 H2. unfold sp, mem_malloc. destruct (malloc_ok (grants ss)) eqn:E; [done|]. apply H1. by exists (grants ss). Qed.

Lemma sp_map_insert ss id a (Q : Z -> nghttp2_session -> Prop) : stream_map ss !! id = None ->
  (refused malloc_ok -> Q NGHTTP2_ERR_NOMEM (granted ss)) -> Q 0 (stream_map_to (<[id := a]> (stream_map ss)) (granted ss)) ->
  sp (map_insert malloc_ok id a) ss Q.
Proof using.
  intros Hid H1 H2. unfold map_insert. sp_step. apply sp_malloc; [by intros ?; apply H1|]. simpl. do 2 sp_step. simpl. rewrite Hid. by do 2 sp_step.
Qed.

Lemma sp_place_new X Y ss kids lc li id f pri st ud : sess_ok X Y ss kids lc li -> rfc7540 ss -> stream_map ss !! id = None ->
  1 <= ps_weight pri <= 256 -> open_flags f -> room ss 1 ->
  sp (place_stream malloc_ok new_stream None id (push_flags st f) pri st ud) ss (fun r ss' =>
    r = None /\ refused malloc_ok \/
    let a := new_stream (se_streams ss) in
    r = Some a /\ sess_ok ({[a]} ∪ X) ({[a]} ∪ Y) ss' (<[a := []]> kids) lc li /\ placed_as ss a id st (ps_weight pri) ss' /\
    size (se_streams ss') = S (size (se_streams ss))).
Proof using Hfresh.
  intros HO Hmode Hid Hw Hf Hroom. pose proof HO as [HI HB HF]. set (a := new_stream (se_streams ss)). pose proof (Hfresh (se_streams ss)) as Ha. fold a in Ha.
  destruct (absent_map _ _ _ _ _ _ _ HO Ha) as (Hk & Hroot & HaX & HaY).
  unfold place_stream. do 2 sp_step. sp_step. sp_step. fold a. rewrite (rfc7540_fallback ss Hmode). do 2 sp_step. sp_step.
  apply sp_map_insert; [done|intros ?; simpl; do 2 sp_step; by left|]. simpl. sp_step. right. split; [done|]. set (s := nghttp2_stream_init _ _ _ _ _ _ _).
  split; [split|].
  - apply wp_init_stream; [done|done|done|]. unfold room in Hroom. simpl in Hroom. lia.
  - apply (book_cards _ (stream_map_to (<[id := a]> (stream_map ss)) (streams_to (<[a := s]> (se_streams ss)) ss))); try done.
    apply book_new; try done; [by apply open_flags_plain|]. unfold room, INT32_MAX in Hroom. lia.
  - apply forest_new; [done|done|]. by eapply absent_kid.
  - split; [|by apply map_size_insert_None]. split; [done|]. split.
    + split; [done|]. intros b Hb. unfold scards, se_streams. simpl. rewrite cards_insert, lookup_insert_ne by done. done.
    + exists s. split; [by apply lookup_insert_eq|]. split_and!; try done. by apply (open_role _ st f).
Qed.

Lemma sp_place_again X Y ss kids lc li a id f pri st ud : sess_ok X Y ss kids lc li -> a ∈ X -> a ∈ Y -> stream_map ss !! id = Some a ->
  1 <= ps_weight pri <= 256 -> open_flags f ->
  sp (place_stream malloc_ok new_stream (Some a) id (push_flags st f) pri st ud) ss (fun r ss' =>
    r = Some a /\ sess_ok X Y ss' kids lc li /\ placed_as ss a id st (ps_weight pri) ss' /\ size (se_streams ss') = size (se_streams ss)).
Proof using.
  intros HO HaX HaY Hid Hw Hf. pose proof HO as [HI HB HF]. destruct (loose_alone _ _ _ _ HI HF HaY) as [(s & Hs & Hp) Hk].
  apply (tb_map _ _ (bk_table _ _ _ _ HB)) in Hid as [Hroot (c & Hc & Eid)].
  unfold scards in Hc. rewrite (cards_lookup _ _ _ Hs) in Hc. injection Hc as <-. simpl in Eid.
  assert (item s = None) as Hit by (apply (id_quiet _ _ _ (bk_rest _ _ _ _ HB) a (card_of s)); [by apply cards_lookup|auto]).
  pose proof (book_limbo_links _ _ _ _ _ HB HaX) as HL. unfold scards in HL. rewrite links_cards, Hs in HL. injection HL as Hcp Hcn.
  unfold place_stream. sp_step. eapply sp_modify; [exact Hs|]. sp_step.
  set (s1 := state_to st (flags_to (push_flags st f) s)).
  set (s2 := stream_user_data_to ud (upd_dep (weight_to (ps_weight pri)) s1)).
  assert (card_of s2 = card_of s1) as Ec by done.
  assert (role_of (server ss) (card_of s1) = opened_role (server ss) (stream_id s1) st) as Erole by (by apply (open_role _ st f)).
  split; [done|]. split; [split|split].
  - rewrite se_streams_to. assert (stream_inv (<[a := s1]> (se_streams ss)) kids) as HI1.
    { apply (touch_root_inv _ _ a s); [done|done| |done]. split; try done. unfold no_rfc7540_priorities. simpl. pose proof (open_flags_plain st f Hf) as E1.
      pose proof (plain _ _ _ _ _ _ HB Hs) as E2. unfold no_rfc7540_priorities in E2. unfold flag_set in E1. by rewrite E1, E2. }
    apply (view_inv (<[a := upd_dep (weight_to (ps_weight pri)) s1]> (<[a := s1]> (se_streams ss)))).
    + rewrite insert_insert_eq, !fmap_insert. done.
    + apply root_weight_inv; [done|by rewrite lookup_insert_eq|done|done].
  - by apply (book_set X ss lc li a s s2); [..|apply open_flags_plain].
  - done.
  - split; [|split].
    + assert (stream_map ss !! id = Some a) as E by (apply (tb_map _ _ (bk_table _ _ _ _ HB)); split; [done|]; exists (card_of s); split; [by apply cards_lookup|done]).
      simpl. by rewrite insert_id.
    + split; [done|]. intros b Hb. unfold scards. rewrite se_streams_to, cards_insert, lookup_insert_ne by done. done.
    + exists s2. rewrite se_streams_to, lookup_insert_eq. split_and!; try done. rewrite Ec, Erole. simpl. by rewrite Eid.
  - rewrite se_streams_to. by apply map_size_insert_Some.
Qed.

End Place.

(** ** The contract *)

(** Where a priority specification points: the parent, the specification that
    is followed and the tree once the parent is in it. *)
Inductive aims Y ss kids (pri : nghttp2_priority_spec) : Z -> nghttp2_priority_spec -> gmap Z (list Z) -> Prop :=
  | aim_root : ps_stream_id pri = 0 -> aims Y ss kids pri root pri kids
  | aim_known d : ps_stream_id pri <> 0 -> stream_map ss !! ps_stream_id pri = Some d -> d ∉ Y -> aims Y ss kids pri d pri kids
  | aim_idle d l : ps_stream_id pri <> 0 -> stream_map ss !! ps_stream_id pri = None -> session_detect_idle_stream ss (ps_stream_id pri) = true ->
      kids !! d = None -> kids !! root = Some l -> aims Y ss kids pri d pri (<[root := d :: l]> (<[d := []]> kids))
  | aim_unknown : ps_stream_id pri <> 0 -> stream_map ss !! ps_stream_id pri = None -> session_detect_idle_stream ss (ps_stream_id pri) = false ->
      aims Y ss kids pri root nghttp2_priority_spec_default_init kids
  | aim_itself d : ps_stream_id pri <> 0 -> stream_map ss !! ps_stream_id pri = Some d -> d ∈ Y ->
      aims Y ss kids pri root nghttp2_priority_spec_default_init kids.

(** An idle stream in memory leaves the tree first. *)
Definition taken_out ss id a kids kids' : Prop :=
  match stream_map ss !! id with
  | Some b => b = a /\ rfc_step kids (DepRemove a) kids'
  | None => kids' = kids
  end.

Definition put_in ss id a kids : gmap Z (list Z) :=
  match stream_map ss !! id with Some _ => kids | None => <[a := []]> kids end.

Definition link_op (pri : nghttp2_priority_spec) p a : tree_op := if ps_exclusive pri =? 0 then DepAdd p a else DepInsert p a.

Definition loose_one ss id a Y : gset Z := match stream_map ss !! id with Some _ => {[a]} ∪ Y | None => Y end.

Record opened X Y ss kids lc (id : Z) (pri : nghttp2_priority_spec) (st : nghttp2_stream_state) a ss' : Prop := {
  op_tree : exists k1 k2 p pri' kids' li', taken_out ss id a kids k1 /\ aims (loose_one ss id a Y) ss k1 (spec_in_force ss pri) p pri' k2 /\
    rfc_step (put_in ss id a k2) (link_op pri' p a) kids' /\ sess_ok X Y ss' kids' lc li' /\
    exists s : nghttp2_stream, se_streams ss' !! a = Some s /\ weight s = ps_weight pri';
  op_map : stream_map ss' !! id = Some a;
  op_others : forall i, i <> id -> (i = ps_stream_id (spec_in_force ss pri) -> i = 0) -> stream_map ss' !! i = stream_map ss !! i;
  op_role : has_role (server ss) X (scards ss') a (opened_role (server ss) id st);
  op_kept : kept_but (fun b => b = a \/ se_streams ss !! b = None) ss ss';
  op_new : stream_map ss !! id = None -> se_streams ss !! a = None;
  op_size : Z.of_nat (size (se_streams ss')) <= Z.of_nat (size (se_streams ss)) + (if ps_stream_id (spec_in_force ss pri) =? 0 then 1 else 2);
}.

Definition opens X Y ss kids lc id pri st (refusal : Prop) (r : option Z) ss' : Prop :=
  r = None /\ refusal \/ exists a, r = Some a /\ opened X Y ss kids lc id pri st a ss'.

(** What callers guarantee: an id that is new or idle, no dependency on
    itself while it is idle and unknown, a weight in range, and a bounded
    number of streams. *)
Record openable X Y ss id (pri : nghttp2_priority_spec) : Prop := {
  oe_mode : rfc7540 ss;
  oe_idle : forall a, stream_map ss !! id = Some a -> has_role (server ss) X (scards ss) a RIdle /\ a ∉ Y;
  oe_self : ps_stream_id pri = id -> session_detect_idle_stream ss id = true -> is_Some (stream_map ss !! id);
  oe_weight : 1 <= ps_weight pri <= 256;
  oe_room : room ss (if ps_stream_id (spec_in_force ss pri) =? 0 then 1 else 2);
}.

Lemma detect_same ss ss' id : se_conf ss' = se_conf ss -> se_ids ss' = se_ids ss -> session_detect_idle_stream ss' id = session_detect_idle_stream ss id.
Proof.
  intros EC EI. unfold session_detect_idle_stream, session_is_new_peer_stream_id, nghttp2_session_is_my_stream_id. by rewrite EC, EI.
Qed.

Lemma aims_ext Y ss ss' kids pri p pri' kids' : stream_map ss' = stream_map ss -> se_conf ss' = se_conf ss -> se_ids ss' = se_ids ss ->
  aims Y ss' kids pri p pri' kids' -> aims Y ss kids pri p pri' kids'.
Proof.
  intros EM EC EI H. pose proof (fun i => detect_same ss ss' i EC EI) as ED.
  destruct H as [|d ? H|d l ? H1 H2|? H1 H2|d ? H]; rewrite ?EM, ?ED in *; [by apply aim_root|by apply aim_known|by apply aim_idle|by apply aim_unknown|by eapply aim_itself].
Qed.

Section Open.
Context (realloc_ok malloc_ok : nat -> bool) (new_stream : gmap Z nghttp2_stream -> Z) (Hfresh : forall h, h !! new_stream h = None).

Definition refusal : Prop := refused realloc_ok \/ refused malloc_ok.

(** The stream is counted and linked. *)
Lemma sp_count_and_link X Y ss kids lc li a id st p l pri dep : a ∉ X -> a ∉ Y -> a <> root -> sess_ok ({[a]} ∪ X) ({[a]} ∪ Y) ss kids lc li ->
  (exists s : nghttp2_stream, se_streams ss !! a = Some s /\ item s = None /\ role_of (server ss) (card_of s) = opened_role (server ss) id st) ->
  p ∉ Y -> p <> a -> kids !! p = Some l -> (if ps_stream_id pri =? 0 then Some root else dep) = Some p ->
  sp (count_opened id a st;;
      let! s := load_stream a in
      if no_rfc7540_priorities s then mret (Some a)
      else
        match (if ps_stream_id pri =? 0 then Some root else dep) with
        | None => se_undef
        | Some d =>
            if negb (ps_exclusive pri =? 0) then
              let! rv := on_streams (nghttp2_stream_dep_insert realloc_ok d a) in
              mret (if rv =? 0 then Some a else None)
            else on_streams (nghttp2_stream_dep_add d a);; mret (Some a)
        end) ss (fun r ss' =>
    r = None /\ refused realloc_ok \/
    r = Some a /\ (exists kids' li', rfc_step kids (link_op pri p a) kids' /\ sess_ok X Y ss' kids' lc li') /\
      has_role (server ss) X (scards ss') a (opened_role (server ss) id st) /\ kept_but (fun _ => False) ss ss' /\ stream_map ss' = stream_map ss /\
      size (se_streams ss') = size (se_streams ss) /\ wts (se_streams ss') = wts (se_streams ss)).
Proof using.
  intros HaX HaY Hroot HO (s & Hs & Hit & Hrole) HpY Hpa Hp ->. pose proof HO as [HI HB HF]. sp_step.
  eapply sp_mono; [exact (sp_count_opened X ss lc li a s id st HaX HB Hs Hroot Hrole)|]. intros [] ss1 (li' & HB1 & HT).
  pose proof (tidied_sess _ _ _ _ _ _ _ _ _ _ HT HB1 HO) as HO1.
  destruct (same_lookup _ _ _ _ _ (rp_view _ _ (td_streams _ _ HT)) Hs) as (s1 & Hs1 & _).
  assert (forall s' : nghttp2_stream, se_streams ss1 !! a = Some s' -> item s' = None) as Hit1.
  { intros s' Hs'. destruct (tidied_item _ _ _ _ HT Hs') as (s0 & Hs0 & <-). congruence. }
  sp_step. eapply sp_load; [exact Hs1|]. rewrite (plain _ _ _ _ _ _ HB1 Hs1).
  assert (forall ss2, replanted ss1 ss2 -> wts (se_streams ss2) = wts (se_streams ss1) ->
    has_role (server ss) X (scards ss2) a (opened_role (server ss) id st) /\ kept_but (fun _ => False) ss ss2 /\
    stream_map ss2 = stream_map ss /\ size (se_streams ss2) = size (se_streams ss) /\ wts (se_streams ss2) = wts (se_streams ss)) as Hrest.
  { intros ss2 HR HW. split_and!.
    - rewrite (replanted_cards _ _ HR). apply (face_has_role _ X (scards ss)); [apply HT|]. split; [done|]. split; [done|].
      exists (card_of s). split; [by apply cards_lookup|done].
    - etrans; [by apply tidied_kept|by apply replanted_kept].
    - by rewrite (replanted_map _ _ HR), (td_map _ _ HT).
    - by rewrite (replanted_size _ _ HR), (tidied_size _ _ HT).
    - by rewrite HW, (tidied_wts _ _ HT). }
  unfold link_op. destruct (ps_exclusive pri =? 0); simpl; sp_step.
  - eapply sp_mono; [eapply sp_add; [exact HaY|exact HpY|exact HO1|exact Hp|done|exact Hit1]|]. intros [] ss2 (HR & HO2 & HW). sp_step. right.
    split; [done|]. split; [|by apply Hrest]. eexists _, li'. split; [by apply rfc_add|exact HO2].
  - eapply sp_mono; [eapply sp_insert; [exact HaY|exact HpY|exact HO1|exact Hp|done|exact Hit1]|]. intros rv ss2 [[-> ?]|(-> & HR & HO2 & HW)]; [by left|].
    sp_step. right. split; [done|]. split; [|by apply Hrest]. eexists _, li'. split; [by apply rfc_insert|exact HO2].
Qed.

(** What the opener of idle streams does for [find_dep_stream]. *)
Definition idle_opener (f : Z -> se_m (option Z)) : Prop := forall X Y ss kids lc li id, sess_ok X Y ss kids lc li -> rfc7540 ss -> room ss 1 ->
  stream_map ss !! id = None ->
  sp (f id) ss (opens X Y ss kids lc id nghttp2_priority_spec_default_init NGHTTP2_STREAM_IDLE refusal).

Lemma in_force_default ss : spec_in_force ss nghttp2_priority_spec_default_init = nghttp2_priority_spec_default_init.
Proof using. unfold spec_in_force. by case_match. Qed.

Lemma default_root Y ss kids p pri' kids' : aims Y ss kids (spec_in_force ss nghttp2_priority_spec_default_init) p pri' kids' ->
  p = root /\ pri' = nghttp2_priority_spec_default_init /\ kids' = kids.
Proof using.
  rewrite in_force_default. destruct 1 as [|d H|d l H|H|d H]; by try (by destruct H).
Qed.

(** The parent of a stream that is opened is in the tree. *)
Definition good_parent Y kids p : Prop := p ∉ Y /\ is_Some (kids !! p).

Lemma root_parent Y kids : forest Y kids -> good_parent Y kids root.
Proof using. intros HF. split; [|apply HF]. by intros [? _]%(fo_loose _ _ HF). Qed.

Lemma mapped_stream X ss lc li id d : book_ok X ss lc li -> stream_map ss !! id = Some d -> d <> root /\ exists s : nghttp2_stream, se_streams ss !! d = Some s /\ stream_id s = id.
Proof using.
  intros HB Hd. apply (tb_map _ _ (bk_table _ _ _ _ HB)) in Hd as [Hr (c & Hc & E)]. apply cards_lookup_inv in Hc as (s & Hs & <-). eauto.
Qed.

Lemma sp_find_dep f X Y ss kids lc li pri : idle_opener f -> sess_ok X Y ss kids lc li -> rfc7540 ss -> room ss 1 -> ps_stream_id pri <> 0 ->
  1 <= ps_weight pri <= 256 ->
  sp (find_dep_stream f pri) ss (fun r ss' => r = None /\ refusal \/ exists dep pri' p kids' li', r = Some (dep, pri') /\
    aims Y ss kids pri p pri' kids' /\ (if ps_stream_id pri' =? 0 then Some root else dep) = Some p /\ good_parent Y kids' p /\
    1 <= ps_weight pri' <= 256 /\
    sess_ok X Y ss' kids' lc li' /\ (forall i, i <> ps_stream_id pri -> stream_map ss' !! i = stream_map ss !! i) /\
    (is_Some (stream_map ss !! ps_stream_id pri) \/ session_detect_idle_stream ss (ps_stream_id pri) = false -> stream_map ss' = stream_map ss) /\
    kept_but (fun b => se_streams ss !! b = None) ss ss' /\ (se_streams ss' !! p = None -> False) /\
    (Z.of_nat (size (se_streams ss')) <= Z.of_nat (size (se_streams ss)) + 1)).
Proof using.
  intros Hf HO Hmode Hroom Hne Hw. pose proof HO as [HI HB HF]. unfold find_dep_stream. sp_step. unfold nghttp2_session_get_stream_raw. do 5 sp_step.
  assert (forall a, good_parent Y kids a -> se_streams ss !! a = None -> False) as Hin.
  { intros a [_ Ha] E. apply (inv_dom _ kids _ HI) in Ha as [? ?]. congruence. }
  pose proof (root_parent _ _ HF) as Hroot. destruct (stream_map ss !! ps_stream_id pri) as [d|] eqn:Ed.
  - destruct (mapped_stream _ _ _ _ _ _ HB Ed) as (Hdr & s & Hs & _). sp_step. eapply sp_load; [exact Hs|].
    destruct (decide (d ∈ Y)) as [HdY|HdY].
    + rewrite (alone_not_in_tree _ _ _ _ HI (loose_alone _ _ _ _ HI HF HdY) Hs). sp_step. right.
      exists (Some d), nghttp2_priority_spec_default_init, root, kids, li.
      assert (aims Y ss kids pri root nghttp2_priority_spec_default_init kids) by by eapply aim_itself.
      split_and!; try done; try lia. by apply Hin.
    + destruct (in_tree _ _ _ _ _ _ _ _ HO Hs Hdr HdY) as (q & l1 & l2 & _ & ->). sp_step. right.
      assert (good_parent Y kids d) by (split; [done|]; apply (inv_dom _ kids _ HI); eauto).
      exists (Some d), pri, d, kids, li. assert (aims Y ss kids pri d pri kids) by by eapply aim_known.
      split_and!; try done; try lia; [by rewrite (proj2 (Z.eqb_neq _ _) Hne)|by apply Hin].
  - destruct (session_detect_idle_stream ss (ps_stream_id pri)) eqn:Eidle.
    + sp_step. eapply sp_mono; [exact (Hf _ _ _ _ _ _ _ HO Hmode Hroom Ed)|]. intros r ss' [[-> ?]|(d & -> & HD)]; [sp_step; by left|]. sp_step. right.
      destruct HD as [(k1 & k2 & p & pri' & kids' & li' & H1 & H2 & H3 & HO' & _) Hm Hother Hrole Hkept Hnew Hsize]. rewrite in_force_default in Hother, Hsize.
      unfold taken_out in H1. unfold put_in in H3. rewrite Ed in H1, H3. subst k1. apply default_root in H2 as (-> & -> & ->).
      specialize (Hnew Ed). destruct (absent_map _ _ _ _ _ _ _ HO Hnew) as (Hkd & Hdr & HdX & HdY).
      inversion H3 as [k' p' s' l Hl| | | | |]; subst k' p' s'. rewrite lookup_insert_ne in Hl by done. subst kids'.
      assert (good_parent Y (<[root := d :: l]> (<[d := []]> kids)) d) as Hgood by (split; [done|]; by apply insert_some; rewrite lookup_insert_eq).
      exists (Some d), pri, d, (<[root := d :: l]> (<[d := []]> kids)), li'.
      split_and!; try done; try lia; [by apply aim_idle|by rewrite (proj2 (Z.eqb_neq _ _) Hne)| |by intros [[? ?]|?]| |].
      * intros i Hi. by apply Hother.
      * apply (kept_but_mono _ _ _ _ Hkept). by intros b [->|?].
      * destruct Hgood as [_ Hgood]. intros E. apply (inv_dom _ _ _ (so_tree _ _ _ _ _ _ HO')) in Hgood as [? ?]. congruence.
    + sp_step. right. exists None, nghttp2_priority_spec_default_init, root, kids, li.
      assert (aims Y ss kids pri root nghttp2_priority_spec_default_init kids) by by apply aim_unknown.
      split_and!; try done; try lia. by apply Hin.
Qed.

Lemma kept_dom P ss ss' b : kept_but P ss ss' -> ~ P b -> se_streams ss' !! b = None -> se_streams ss !! b = None.
Proof using.
  intros [_ H] Hb E. apply H in Hb. unfold scards, cards in Hb. rewrite !lookup_fmap, E in Hb. by destruct (se_streams ss !! b).
Qed.

Lemma kept_none P ss ss' b : kept_but P ss ss' -> ~ P b -> se_streams ss !! b = None -> se_streams ss' !! b = None.
Proof using.
  intros [_ H] Hb E. apply H in Hb. unfold scards, cards in Hb. rewrite !lookup_fmap, E in Hb. by destruct (se_streams ss' !! b).
Qed.

(** The stream is there, in the hands of the operation. *)
Record ready_for X Y ss kids lc id a ss1 k1 : Prop := {
  rd_taken : taken_out ss id a kids k1;
  rd_sess : exists li1, sess_ok (loose_one ss id a X) (loose_one ss id a Y) ss1 k1 lc li1;
  rd_kept : kept_but (fun b => stream_map ss !! id = Some b) ss ss1;
  rd_map : stream_map ss1 = stream_map ss;
  rd_size : size (se_streams ss1) = size (se_streams ss);
}.

Lemma sp_ready X Y ss kids lc li id pri : sess_ok X Y ss kids lc li -> openable X Y ss id pri ->
  sp (match stream_map ss !! id with
      | Some a => let! rv := reopen_idle_stream realloc_ok a in mret (rv =? 0)
      | None => mem_malloc malloc_ok
      end) ss (fun ready ss1 => ready = false /\ refusal \/ ready = true /\ exists k1, forall a,
    (forall b, stream_map ss !! id = Some b -> a = b) -> ready_for X Y ss kids lc id a ss1 k1).
Proof using.
  intros HO HP. destruct (stream_map ss !! id) as [b|] eqn:Eid.
  - destruct (oe_idle _ _ _ _ _ HP b Eid) as [Hr HbY]. pose proof Hr as (_ & HbX & _). sp_step.
    eapply sp_mono; [exact (sp_reopen realloc_ok X Y ss kids lc li b HbX HbY HO (oe_mode _ _ _ _ _ HP) Hr)|].
    intros rv ss1 [[-> ?]|(-> & k1 & li1 & Hst & HO1 & HK & HM & HS)]; [left; split; [done|by left]|].
    sp_step. right. split; [done|]. exists k1. intros a Ha. rewrite (Ha b eq_refl). split; unfold taken_out, loose_one; rewrite ?Eid; eauto.
    apply (kept_but_mono _ _ _ _ HK). by intros ? <-.
  - apply sp_malloc; [intros ?; left; split; [done|by right]|]. right. split; [done|]. exists kids. intros a _.
    split; unfold taken_out, loose_one; rewrite ?Eid; try done. exists li. destruct HO as [HI HB HF]. split; [done|by apply book_granted|done].
Qed.

(** The stream is put in memory. *)
Lemma sp_put X Y ss ss2 k2 lc li2 id f pri st ud : (forall b, stream_map ss !! id = Some b -> b ∉ X /\ b ∉ Y) ->
  (forall a, (forall b, stream_map ss !! id = Some b -> a = b) -> sess_ok (loose_one ss id a X) (loose_one ss id a Y) ss2 k2 lc li2) ->
  stream_map ss2 !! id = stream_map ss !! id -> rfc7540 ss2 -> 1 <= ps_weight pri <= 256 -> open_flags f -> room ss2 1 ->
  sp (place_stream malloc_ok new_stream (stream_map ss !! id) id (push_flags st f) pri st ud) ss2 (fun r ss3 =>
    r = None /\ refused malloc_ok \/ exists a, r = Some a /\ (forall b, stream_map ss !! id = Some b -> a = b) /\ a ∉ X /\ a ∉ Y /\ a <> root /\
      sess_ok ({[a]} ∪ X) ({[a]} ∪ Y) ss3 (put_in ss id a k2) lc li2 /\ placed_as ss2 a id st (ps_weight pri) ss3 /\
      (size (se_streams ss3) <= S (size (se_streams ss2)))%nat /\ (stream_map ss !! id = None -> se_streams ss2 !! a = None)).
Proof using Hfresh.
  intros Hout HO Hm Hmode Hw Hf Hroom. unfold put_in, loose_one in *. destruct (stream_map ss !! id) as [b|] eqn:Eid.
  - specialize (HO b ltac:(congruence)). destruct (Hout b eq_refl) as [HbX HbY]. eapply sp_mono; [by eapply sp_place_again; [exact HO|set_solver..]|].
    intros r ss3 (-> & HO3 & HP & HS). right. exists b. split_and!; try done; [congruence| |lia].
    apply (fo_loose _ _ (so_forest _ _ _ _ _ _ HO) b). set_solver.
  - specialize (HO root ltac:(done)). eapply sp_mono; [by eapply sp_place_new|].
    intros r ss3 [?|(-> & HO3 & HP & HS)]; [by left|right]. set (a := new_stream (se_streams ss2)) in *. exists a.
    destruct (absent_map _ _ _ _ _ _ _ HO (Hfresh (se_streams ss2))) as (_ & ? & ? & ?). split_and!; try done; [lia|intros _; apply Hfresh].
Qed.

Lemma default_weight pri ss : 1 <= ps_weight pri <= 256 -> 1 <= ps_weight (spec_in_force ss pri) <= 256.
Proof using. unfold spec_in_force. by case_match. Qed.

(** The target of the priority specification, from the settings as they are. *)
Lemma sp_target f X Y ss kids lc li pri : idle_opener f \/ ps_stream_id (spec_in_force ss pri) = 0 -> sess_ok X Y ss kids lc li -> rfc7540 ss -> room ss 1 ->
  1 <= ps_weight pri <= 256 ->
  sp (if no_priorities ss || (ps_stream_id (spec_in_force ss pri) =? 0) then mret (Some (None, spec_in_force ss pri))
      else find_dep_stream f (spec_in_force ss pri)) ss (fun r ss' => r = None /\ refusal \/ exists dep pri' p kids' li', r = Some (dep, pri') /\
    aims Y ss kids (spec_in_force ss pri) p pri' kids' /\ (if ps_stream_id pri' =? 0 then Some root else dep) = Some p /\ good_parent Y kids' p /\
    1 <= ps_weight pri' <= 256 /\ sess_ok X Y ss' kids' lc li' /\
    (forall i, (i = ps_stream_id (spec_in_force ss pri) -> i = 0 \/ is_Some (stream_map ss !! i) \/ session_detect_idle_stream ss i = false) ->
       stream_map ss' !! i = stream_map ss !! i) /\
    kept_but (fun b => se_streams ss !! b = None) ss ss' /\
    Z.of_nat (size (se_streams ss')) <= Z.of_nat (size (se_streams ss)) + (if ps_stream_id (spec_in_force ss pri) =? 0 then 0 else 1)).
Proof using.
  intros Hf HO Hmode Hroom Hw. pose proof (default_weight pri ss Hw) as Hw'.
  destruct (Z.eqb_spec (ps_stream_id (spec_in_force ss pri)) 0) as [E|E].
  - rewrite orb_true_r. sp_step. right. exists None, (spec_in_force ss pri), root, kids, li. rewrite E.
    assert (aims Y ss kids (spec_in_force ss pri) root (spec_in_force ss pri) kids) by by apply aim_root.
    pose proof (root_parent _ _ (so_forest _ _ _ _ _ _ HO)). split_and!; try done; lia.
  - destruct Hf as [Hf|?]; [|done]. assert (no_priorities ss = false) as ->.
    { unfold spec_in_force, no_priorities in *. rewrite rfc7540_fallback in * by done. simpl in *. destruct (remote_no_priorities ss); [|done]. by rewrite orb_true_r in E. }
    simpl. eapply sp_mono; [by eapply sp_find_dep|]. intros r ss' [?|(dep & pri' & p & kids' & li' & -> & H1 & H2 & H3 & H4 & H5 & H6 & H7 & H8 & _ & H9)]; [by left|right].
    exists dep, pri', p, kids', li'. split_and!; try done; try lia.
    intros i Hi. destruct (decide (i = ps_stream_id (spec_in_force ss pri))) as [->|]; [|by apply H6]. destruct (Hi eq_refl) as [?|?]; [done|]. by rewrite H7.
Qed.

Lemma flags_open ss ss1 : rfc7540 ss1 -> open_flags (priority_flags ss1 (validation_flags ss NGHTTP2_STREAM_FLAG_NONE)).
Proof using.
  intros Hm. unfold priority_flags, validation_flags, open_flags. rewrite (proj2 (Z.eqb_neq _ _) Hm), andb_false_r.
  case_match; [by left|by right].
Qed.

Lemma conf_in_force ss ss' pri : se_conf ss' = se_conf ss -> spec_in_force ss' pri = spec_in_force ss pri.
Proof using. intros E. unfold spec_in_force, no_priorities, remote_no_priorities, session_no_rfc7540_pri_no_fallback. by rewrite E. Qed.

Lemma conf_rfc7540 ss ss' : se_conf ss' = se_conf ss -> rfc7540 ss -> rfc7540 ss'.
Proof using. intros E. unfold rfc7540. by rewrite E. Qed.

Lemma loose_one_same ss id a b Y : (forall c, stream_map ss !! id = Some c -> a = c) -> (forall c, stream_map ss !! id = Some c -> b = c) ->
  loose_one ss id a Y = loose_one ss id b Y.
Proof using. intros Ha Hb. unfold loose_one. case_match; [|done]. by rewrite (Ha z), (Hb z). Qed.

(** The stream that is put in memory is not the parent it gets. *)
Lemma parent_neq X Y ss id a ss2 k2 lc li p : sess_ok (loose_one ss id a X) (loose_one ss id a Y) ss2 k2 lc li -> good_parent (loose_one ss id a Y) k2 p ->
  (stream_map ss !! id = None -> se_streams ss2 !! a = None) ->
  p <> a /\ p ∉ Y /\ exists l, put_in ss id a k2 !! p = Some l.
Proof using.
  clear Hfresh. intros HO [HpY [l Hp]] Hnew. unfold loose_one, put_in in *. destruct (stream_map ss !! id) as [b|].
  - split; [set_solver|]. split; [set_solver|eauto].
  - destruct (absent_map _ _ _ _ _ _ _ HO (Hnew eq_refl)) as (Hk & _). assert (p <> a) by congruence.
    split; [done|]. split; [done|]. exists l. by rewrite lookup_insert_ne.
Qed.

Lemma sp_open depth X Y ss kids lc li id pri st ud : idle_opener (fun id => open_stream_loop realloc_ok malloc_ok new_stream depth id NGHTTP2_FLAG_NONE
    nghttp2_priority_spec_default_init NGHTTP2_STREAM_IDLE None) \/ ps_stream_id (spec_in_force ss pri) = 0 ->
  sess_ok X Y ss kids lc li -> openable X Y ss id pri ->
  sp (open_stream_loop realloc_ok malloc_ok new_stream (S depth) id NGHTTP2_STREAM_FLAG_NONE pri st ud) ss (opens X Y ss kids lc id pri st refusal).
Proof using Hfresh.
  intros Hf HO HP. cbn [open_stream_loop]. sp_step. unfold nghttp2_session_get_stream_raw. do 5 sp_step. sp_step.
  eapply sp_mono; [by eapply sp_ready|]. intros ready ss1 [[-> ?]|(-> & k1 & Hrd)]; simpl; [sp_step; by left|]. do 2 sp_step. sp_step.
  set (a0 := default root (stream_map ss !! id)).
  assert (forall b, stream_map ss !! id = Some b -> a0 = b) as Ha0 by (intros b E; unfold a0; by rewrite E).
  destruct (Hrd a0 Ha0) as [_ [li1 HO1] HK1 HM1 HS1].
  pose proof (su_conf _ _ (kb_setup _ _ _ HK1)) as EC1. pose proof (su_ids _ _ (kb_setup _ _ _ HK1)) as EI1.
  pose proof (conf_rfc7540 _ _ EC1 (oe_mode _ _ _ _ _ HP)) as Hmode1. pose proof (conf_in_force _ _ pri EC1) as EP. pose proof (oe_room _ _ _ _ _ HP) as Hroom.
  eapply sp_mono; [apply (sp_target _ _ _ _ _ _ _ _ ltac:(rewrite EP; exact Hf) HO1 Hmode1); [unfold room in *; case_match; lia|apply HP]|].
  rewrite EP. intros r ss2 [[-> ?]|(dep & pri' & p & k2 & li2 & -> & Haim & Edep & Hgood & Hw' & HO2 & Hmap & HK2 & Hsize)]; [sp_step; by left|].
  assert (stream_map ss2 !! id = stream_map ss !! id) as Hid.
  { rewrite Hmap, HM1; [done|]. intros Ei. rewrite (detect_same ss ss1), HM1 by done. unfold spec_in_force in Ei. case_match; [by left|].
    destruct (session_detect_idle_stream ss id) eqn:Ed; [|auto]. right. left. apply (oe_self _ _ _ _ _ HP); [done|]. by rewrite Ed. }
  sp_step. eapply sp_mono; [apply (sp_put X Y ss ss2 k2 lc li2); try done|].
  + intros b Hb. by destruct (oe_idle _ _ _ _ _ HP b Hb) as [(_ & ? & _) ?].
  + intros a Ha. by rewrite !(loose_one_same ss id a a0).
  + eapply conf_rfc7540; [apply HK2|done].
  + by apply flags_open.
  + unfold room in *. case_match; lia.
  + intros r ss3 [[-> ?]|(a & -> & Ha & HaX & HaY & Hroot & HO3 & (HM3 & HK3 & s & Hs & Eid & Est & Hit & Hwt & Hrole) & Hsize3 & Hnew)]; [sp_step; left; split; [done|by right]|].
    destruct (parent_neq X Y ss id a ss2 k2 lc li2 p) as (Hpa & HpY & l & Hl); [by rewrite !(loose_one_same ss id a a0)|by rewrite (loose_one_same ss id a a0)|done|].
    eapply sp_mono; [eapply (sp_count_and_link X Y ss3 _ lc li2 a id st p l pri' dep); try done|].
    * exists s. rewrite (su_conf _ _ (kb_setup _ _ _ HK3)). done.
    * intros r ss4 [[-> ?]|(-> & (kids' & li' & Hst & HO4) & Hrole4 & HK4 & HM4 & HS4 & HW4)]; [left; split; [done|by left]|right].
      exists a. split; [done|].
      pose proof (su_conf _ _ (kb_setup _ _ _ HK2)) as EC2. pose proof (su_conf _ _ (kb_setup _ _ _ HK3)) as EC3.
      assert (kept_but (fun b => b = a \/ se_streams ss !! b = None) ss ss1) as K1.
      { apply (kept_but_mono _ _ _ _ HK1). intros b Hb. left. symmetry. by apply Ha. }
      assert (forall b, se_streams ss1 !! b = None -> b = a \/ se_streams ss !! b = None) as Hnone.
      { intros b Hb. destruct (decide (b = a)); [by left|]. right. apply (kept_dom _ _ _ _ HK1); [|done]. intros E. by apply Ha in E. }
      split.
      -- exists k1, k2, p, pri', kids', li'. rewrite (loose_one_same ss id a a0) by done. destruct (wts_lookup _ _ _ _ HW4 Hs) as (s4 & Hs4 & Ew4).
         split_and!; [|by apply (aims_ext _ _ ss1)|done|done|exists s4; by rewrite Ew4].
         apply (rd_taken _ _ _ _ _ _ _ _ _ (Hrd a Ha)).
      -- rewrite HM4, HM3. apply lookup_insert_eq.
      -- intros i Hi Hi0. rewrite HM4, HM3, lookup_insert_ne by done. rewrite Hmap, HM1; [done|]. intros E. left. by apply Hi0.
      -- by rewrite EC3, EC2, EC1 in Hrole4.
      -- etrans; [exact K1|]. etrans; [apply (kept_but_mono _ _ _ _ HK2); exact Hnone|].
         etrans; [apply (kept_but_mono _ _ _ _ HK3); intros b <-; by left|by apply (kept_but_mono _ _ _ _ HK4)].
      -- intros E. specialize (Hnew E). assert (se_streams ss1 !! a = None) as E1.
         { destruct (se_streams ss1 !! a) eqn:E1; [|done]. rewrite <- E1. apply (kept_dom _ _ _ _ HK2); [congruence|done]. }
         apply (kept_dom _ _ _ _ HK1); [congruence|done].
      -- rewrite HS4. case_match; lia.
Qed.

Lemma idle_opener_S n : idle_opener (fun id => open_stream_loop realloc_ok malloc_ok new_stream (S n) id NGHTTP2_FLAG_NONE
  nghttp2_priority_spec_default_init NGHTTP2_STREAM_IDLE None).
Proof using Hfresh.
  intros X Y ss kids lc li id HO Hm Hr Hid. apply sp_open with li; [right; by rewrite in_force_default|done|].
  split; [done|by rewrite Hid| |done|by rewrite in_force_default]. intros <- E. vm_compute in E. done.
Qed.

Lemma sp_open_stream X Y ss kids lc li id pri st ud : sess_ok X Y ss kids lc li -> openable X Y ss id pri ->
  sp (nghttp2_session_open_stream realloc_ok malloc_ok new_stream id NGHTTP2_STREAM_FLAG_NONE pri st ud) ss (opens X Y ss kids lc id pri st refusal).
Proof using Hfresh. intros HO HP. apply sp_open with li; [left; exact (idle_opener_S 0)|done|done]. Qed.

End Open.
