(* ===== verification/SessionClose.v ===== *)
(** * Sessions: closing streams

    [nghttp2_session_close_stream] takes the item and the place in the
    counters from a stream; a server keeps some closed streams in the tree,
    the others are destroyed. *)

From S2P Require Import Prelude Defs Pq Frame Http Stream StreamLinks StreamQueue StreamTree StreamInsert StreamRemove StreamDistribute StreamCut.
From S2P Require Import StreamItems StreamFrame StreamSpec Outbound Session SessionInv SessionTree SessionBooks SessionForest SessionOpen.

Implicit Types (a b d p : Z) (h : gmap Z nghttp2_stream) (ss : nghttp2_session) (lc li l : list Z) (X Y : gset Z) (kids : gmap Z (list Z)).

(** ** Releasing a stream *)

Definition freed a (id : Z) ss : nghttp2_session := streams_to (delete a (se_streams ss)) (stream_map_to (delete id (stream_map ss)) ss).

Lemma sess_free X Y ss kids lc li a (s : nghttp2_stream) : a ∉ X -> a ∉ Y -> sess_ok ({[a]} ∪ X) ({[a]} ∪ Y) ss kids lc li -> se_streams ss !! a = Some s ->
  sess_ok X Y (freed a (stream_id s) ss) (delete a kids) lc li.
Proof.
  intros HaX HaY [HI HB HF] Hs. split.
  - apply free_inv; [done|]. apply (loose_alone ({[a]} ∪ Y)); [done|done|set_solver].
  - by apply book_free.
  - by apply forest_free.
Qed.

Section Destroy.
Context (realloc_ok : nat -> bool).

(** The structure is released last, whatever the lists say at the time. *)
Lemma sp_destroy X Y ss kids lc li a (s : nghttp2_stream) : a ∉ Y -> a <> root -> sess_ok X Y ss kids lc li -> se_streams ss !! a = Some s ->
  sp (nghttp2_session_destroy_stream realloc_ok a) ss (fun rv ss' =>
    rv = NGHTTP2_ERR_NOMEM /\ refused realloc_ok \/
    rv = 0 /\ exists kids1 ss1 (s1 : nghttp2_stream), rfc_step kids (DepRemove a) kids1 /\ replanted ss ss1 /\ sess_ok X ({[a]} ∪ Y) ss1 kids1 lc li /\
      se_streams ss1 !! a = Some s1 /\ stream_id s1 = stream_id s /\ ss' = freed a (stream_id s1) ss1).
Proof.
  intros HaY Hr HO Hs. pose proof HO as [HI HB HF]. destruct (in_tree _ _ _ _ _ _ _ _ HO Hs Hr HaY) as (q & l1 & l2 & Hq & Htree).
  destruct (kids_of _ _ _ _ _ _ _ _ HO Hs) as [ks Hks]. unfold nghttp2_session_destroy_stream. sp_step. eapply sp_load; [exact Hs|].
  rewrite Htree. sp_step. eapply sp_mono; [exact (sp_remove realloc_ok _ _ _ _ _ _ _ _ _ _ _ HO Hq Hks)|].
  intros rv ss1 [[-> ?]|(-> & HR & HO1)]; [simpl; sp_step; by left|]. simpl.
  pose proof (replanted_cards _ _ HR) as EC. pose proof (cards_lookup _ _ _ Hs) as Ec. fold (scards ss) in Ec. rewrite <- EC in Ec.
  apply cards_lookup_inv in Ec as (s1 & Hs1 & E). sp_step. eapply sp_load; [exact Hs1|].
  rewrite (plain _ _ _ _ _ _ (so_books _ _ _ _ _ _ HO1) Hs1), andb_false_r. do 6 sp_step. right. split; [done|].
  exists (<[q := l1 ++ ks ++ l2]> (<[a := []]> kids)), ss1, s1. split_and!; try done; [by apply rfc_remove|]. unfold card_of in E. congruence.
Qed.

End Destroy.

(** ** An item is taken from a stream *)

Definition without_item (s : nghttp2_stream) : nghttp2_stream :=
  flags_to (u8 (sm_flags s .& Z.lnot NGHTTP2_STREAM_FLAG_DEFERRED_ALL)) (item_to None s).

Lemma wp_and {A} (m : st_m A) w (P Q : A -> world -> Prop) : wp m w P -> wp m w Q -> wp m w (fun x w' => P x w' /\ Q x w').
Proof. unfold wp. destruct (m w) as [[w' x]|]; done. Qed.

Lemma detach_item_base a (s : nghttp2_stream) w w' u : streams w !! a = Some s -> nghttp2_stream_detach_item a w = Some (w', u) ->
  same_base (<[a := without_item s]> (streams w)) (streams w').
Proof.
  intros Hs. unfold nghttp2_stream_detach_item. rewrite (run_modify a _ s), (run_modify a _ (item_to None s)) by (done || apply lookup_insert_eq).
  intros E. match type of E with ?m ?w1 = _ => assert (keeps base m) as HK end.
  { unfold stream_update_dep_on_detach_item. pose proof (keeps_obq_remove base a). keeps_steps. }
  apply HK in E. simpl in E. by rewrite insert_insert_eq in E.
Qed.

Lemma deferral_bits f m : m .& NGHTTP2_STREAM_FLAG_DEFERRED_ALL = 0 -> 0 <= m < 256 -> u8 (f .& Z.lnot NGHTTP2_STREAM_FLAG_DEFERRED_ALL) .& m = f .& m.
Proof.
  intros Hm Hr. rewrite u8_land by lia. rewrite <- Z.land_assoc. f_equal. rewrite Z.land_comm.
  rewrite <- (Z.lor_0_r (m .& _)), <- Hm, <- Z.land_lor_distr_r, Z.lor_comm, Z.lor_lnot_diag. apply Z.land_m1_r.
Qed.

Lemma without_item_role sv (s : nghttp2_stream) : role_of sv (card_of (without_item s)) = role_of sv (card_of s).
Proof. unfold role_of, flag_set. simpl. by rewrite !deferral_bits. Qed.

(** Streams that agree but for the item, the flags of deferral and what the tree sees. *)
Definition softly (s s' : nghttp2_stream) : Prop :=
  stream_id s' = stream_id s /\ state s' = state s /\ closed_prev s' = closed_prev s /\ closed_next s' = closed_next s /\
  forall m, m = NGHTTP2_STREAM_FLAG_PUSH \/ m = NGHTTP2_STREAM_FLAG_CLOSED \/ m = NGHTTP2_STREAM_FLAG_NO_RFC7540_PRIORITIES ->
    sm_flags s' .& m = sm_flags s .& m.

Section Items.
Context (realloc_ok : nat -> bool).

(** The session with the items [its]. *)
Definition items_to (its : gmap Z nghttp2_outbound_item) ss : nghttp2_session :=
  upd_ob (fun ob => mk_outbound its (ob_urgent ob) (ob_reg ob) (ob_syn ob) (aob_item ob)) ss.

(** [nghttp2_outbound_item_free] unless the item is needed elsewhere. *)
Definition released (it : Z) ss : gmap Z nghttp2_outbound_item :=
  match ob_items ss !! it with
  | Some i => if (it_queued i =? 0) && bool_decide (Some it <> aob_item ss) then delete it (ob_items ss) else ob_items ss
  | None => ob_items ss
  end.

Lemma sp_release it ss (Q : unit -> nghttp2_session -> Prop) : is_Some (ob_items ss !! it) -> Q tt (items_to (released it ss) ss) -> sp (release_item it) ss Q.
Proof.
  intros [i Hi] HQ. unfold release_item. sp_step. sp_step. unfold released in HQ. rewrite Hi in HQ |- *. destruct (_ && _); [by sp_step|].
  sp_step. assert (items_to (ob_items ss) ss = ss) as E by (destruct ss as [? ? ? ? ? ? ? ? [] ? ? ?]; done). by rewrite E in HQ.
Qed.

Lemma item_unlisted X ss lc li a c : book_ok X ss lc li -> scards ss !! a = Some c -> is_Some (c_item c) ->
  a <> root /\ a ∉ X /\ ~ listed (server ss) X (scards ss) a.
Proof using.
  intros HB Hc [it Hi]. pose proof (id_quiet _ _ _ (bk_rest _ _ _ _ HB) a c Hc) as HQ.
  split_and!; intros H; rewrite HQ in Hi by auto; done.
Qed.

(** A counted stream gets another item or other flags of deferral. *)
Lemma book_retouch X ss ss' lc li a (s s' : nghttp2_stream) : book_ok X ss lc li -> se_streams ss !! a = Some s -> softly s s' ->
  scards ss' = <[a := card_of s']> (scards ss) ->
  (is_Some (item s') -> a <> root /\ a ∉ X /\ ~ listed (server ss) X (scards ss) a) ->
  (forall b c it, b <> a -> scards ss !! b = Some c -> c_item c = Some it -> is_Some (ob_items ss' !! it) /\ item s' <> Some it) ->
  (forall it, item s' = Some it -> is_Some (ob_items ss' !! it)) ->
  se_conf ss' = se_conf ss -> stream_map ss' = stream_map ss -> se_lists ss' = se_lists ss -> se_counts ss' = se_counts ss -> book_ok X ss' lc li.
Proof using.
  intros HB Hs (Eid & Est & Ep & En & Ef) EC Hitem Hkept Hown E1 E2 E3 E4. pose proof (cards_lookup _ _ _ Hs) as Hc. fold (scards ss) in Hc.
  assert (role_of (server ss) (card_of s') = role_of (server ss) (card_of s)) as Erole.
  { unfold role_of, flag_set. simpl. by rewrite Eid, Est, !Ef by auto. }
  assert (forall b r, has_role (server ss) X (scards ss') b r <-> has_role (server ss) X (scards ss) b r) as HR.
  { intros b r. rewrite EC. unfold has_role. split; intros (H1 & H2 & c & Hbc & <-); (split_and!; [done|done|]).
    - apply lookup_insert_Some in Hbc as [[<- <-]|[Hne Hbc]]; eauto.
    - destruct (decide (b = a)) as [->|]; [|exists c; by rewrite lookup_insert_ne]. exists (card_of s'). rewrite lookup_insert_eq. split; [done|]. congruence. }
  apply (book_soft X ss); try done.
  - intros b. rewrite EC. unfold links_at. destruct (decide (b = a)) as [->|]; [|by rewrite lookup_insert_ne].
    rewrite lookup_insert_eq, Hc. simpl. by rewrite Ep, En.
  - intros b. rewrite EC. destruct (decide (b = a)) as [->|]; [|by rewrite lookup_insert_ne]. rewrite lookup_insert_eq, Hc. simpl. by rewrite Eid.
  - intros b c' Hc' Hl. assert (listed (server ss) X (scards ss) b \/ b ∈ X \/ b = root) as Hl' by (unfold listed in *; by rewrite <- !HR).
    rewrite EC in Hc'. apply lookup_insert_Some in Hc' as [[<- <-]|[Hne Hc']]; [|by apply (id_quiet _ _ _ (bk_rest _ _ _ _ HB) b)].
    simpl. destruct (item s') as [it|]; [|done]. destruct (Hitem ltac:(eauto)) as (H1 & H2 & H3). tauto.
  - rewrite EC. destruct (bk_items _ _ _ _ HB) as [H1 H2 H3]. split.
    + intros b c it Hb Hi. apply lookup_insert_Some in Hb as [[<- <-]|[Hne Hb]]; [by apply Hown|]. by apply (Hkept b c).
    + intros b d c e it Hb Hd Hi Hj. apply lookup_insert_Some in Hb as [[<- <-]|[Hne Hb]]; apply lookup_insert_Some in Hd as [[<- <-]|[Hne' Hd]]; [done| | |].
      * by destruct (Hkept d e it (not_eq_sym Hne') Hd Hj).
      * by destruct (Hkept b c it (not_eq_sym Hne) Hb Hi).
      * by apply (H2 b d c e it).
    + intros b c Hb. apply lookup_insert_Some in Hb as [[<- <-]|[Hne Hb]]; [|by apply (H3 b)]. unfold flag_set. simpl. rewrite Ef by auto. by apply (H3 a (card_of s)).
Qed.

(** A counted stream loses its item. *)
Lemma book_unitem X ss lc li a (s : nghttp2_stream) it : book_ok X ss lc li -> se_streams ss !! a = Some s -> item s = Some it ->
  book_ok X (items_to (released it ss) (streams_to (<[a := without_item s]> (se_streams ss)) ss)) lc li.
Proof using.
  intros HB Hs Hit. apply (book_retouch X ss _ _ _ a s (without_item s)); try done.
  - split_and!; try done. intros m Hm. by apply deferral_bits; destruct Hm as [-> |[-> | ->]].
  - apply cards_insert.
  - by intros [? ?].
  - intros b c i Hb Hc Hi. split; [|done]. pose proof (io_some _ _ (bk_items _ _ _ _ HB) b c i Hc Hi) as Hsome. simpl. unfold released.
    case_match; [|done]. destruct (_ && _); [|done]. rewrite lookup_delete_ne; [done|]. intros ->. apply Hb.
    by apply (io_inj _ _ (bk_items _ _ _ _ HB) a b (card_of s) c i (cards_lookup _ _ _ Hs) Hc).
Qed.

(** What closing a stream does first. *)
Record unitemed ss a (s : nghttp2_stream) ss' : Prop := {
  ui_stream : exists s' : nghttp2_stream, se_streams ss' !! a = Some s' /\ card_of s' = card_of (if item s then without_item s else s);
  ui_others : forall b, b <> a -> scards ss' !! b = scards ss !! b;
  ui_items : ob_items ss' = match item s with Some it => released it ss | None => ob_items ss end;
  ui_map : stream_map ss' = stream_map ss;
  ui_conf : se_conf ss' = se_conf ss;
}.

Lemma sp_close_item X Y ss kids lc li a (s : nghttp2_stream) : sess_ok X Y ss kids lc li -> se_streams ss !! a = Some s ->
  sp (match item s with
      | Some it => session_detach_stream_item a;; release_item it
      | None => mret tt
      end) ss (fun _ ss' => sess_ok X Y ss' kids lc li /\ unitemed ss a s ss').
Proof using.
  intros HO Hs. pose proof HO as [HI HB HF]. destruct (item s) as [it|] eqn:Eit.
  - sp_step. unfold session_detach_stream_item. sp_step. apply sp_on_streams. eapply wp_mono.
    { apply (wp_and _ _ (fun _ w' => stream_inv (streams w') kids) (fun _ w' => same_base (<[a := without_item s]> (se_streams ss)) (streams w'))); [exact (wp_detach_item a (se_world ss) kids HI ltac:(eauto))|].
      pose proof (wp_detach_item a (se_world ss) kids HI ltac:(eauto)) as HW. unfold wp in HW |- *.
      destruct (nghttp2_stream_detach_item a (se_world ss)) as [[w u]|] eqn:E; [|done]. by eapply detach_item_base. }
    intros [] w [HIw HS]. pose proof (same_base_cards _ _ HS) as EC. set (ss1 := world_to w ss).
    assert (scards ss1 = <[a := card_of (without_item s)]> (scards ss)) as EC1 by (etrans; [exact EC|apply cards_insert]).
    assert (exists s1 : nghttp2_stream, se_streams ss1 !! a = Some s1 /\ card_of s1 = card_of (without_item s)) as (s1 & Hs1 & E1).
    { apply cards_lookup_inv. fold (scards ss1). by rewrite EC1, lookup_insert_eq. }
    sp_step. eapply sp_load; [exact Hs1|]. assert (no_rfc7540_priorities s1 = false) as ->.
    { assert (sm_flags s1 = sm_flags (without_item s)) as E by (unfold card_of in E1; congruence). unfold no_rfc7540_priorities. rewrite E. simpl.
      rewrite deferral_bits by done. exact (plain _ _ _ _ _ _ HB Hs). }
    simpl. sp_step. assert (is_Some (ob_items ss !! it)) as Hsome by (eapply (io_some _ _ (bk_items _ _ _ _ HB)); [exact (cards_lookup _ _ _ Hs)|done]).
    apply sp_release; [done|]. split.
    + split; [exact HIw| |done]. apply (book_cards X (items_to (released it ss) (streams_to (<[a := without_item s]> (se_streams ss)) ss))); try done. by apply book_unitem.
    + split; try done; [exists s1; by rewrite Eit| |by rewrite Eit]. intros b Hb. change (scards ss1 !! b = scards ss !! b). by rewrite EC1, lookup_insert_ne.
  - sp_step. split; [done|]. split; try done; [exists s; by rewrite Eit|by rewrite Eit].
Qed.

End Items.

(** ** The stream leaves the counters *)

Definition live_role (sv : bool) (s : nghttp2_stream) : role :=
  if flag_set (sm_flags s) NGHTTP2_STREAM_FLAG_PUSH then if mine sv (stream_id s) then RPromisedLocal else RPromisedRemote
  else if mine sv (stream_id s) then ROutgoing else RIncoming.

Definition counted_role (r : role) : Prop := r <> RIdle /\ r <> RClosed.

Lemma upd_counts_id ss : upd_counts (fun n => n) ss = ss.
Proof. by destruct ss. Qed.

Lemma sp_uncount X ss lc li a (s : nghttp2_stream) : a ∉ X -> book_ok X ss lc li -> se_streams ss !! a = Some s -> item s = None -> a <> root ->
  role_of (server ss) (card_of s) = live_role (server ss) s ->
  sp (if negb (sm_flags s .& NGHTTP2_STREAM_FLAG_PUSH =? 0) then
        if negb (nghttp2_session_is_my_stream_id ss (stream_id s)) then
          update (fun ss => upd_counts (num_incoming_reserved_streams_to (u64 (num_incoming_reserved_streams ss - 1))) ss)
        else mret tt
      else if nghttp2_session_is_my_stream_id ss (stream_id s) then
        update (fun ss => upd_counts (num_outgoing_streams_to (u64 (num_outgoing_streams ss - 1))) ss)
      else update (fun ss => upd_counts (num_incoming_streams_to (u64 (num_incoming_streams ss - 1))) ss)) ss
    (fun _ ss' => book_ok ({[a]} ∪ X) ss' lc li /\ exists f, ss' = upd_counts f ss).
Proof.
  intros HaX HB Hs Hit Hroot Hrole. pose proof (cards_lookup _ _ _ Hs) as Hc. fold (scards ss) in Hc.
  assert (has_role (server ss) X (scards ss) a (live_role (server ss) s)) as Hr by (split; [done|]; split; [done|]; by exists (card_of s)).
  assert (book_ok ({[a]} ∪ X) (upd_counts (fun n => bump (live_role (server ss) s) n (-1)) ss) lc li) as HB'.
  { apply (book_count_out _ _ _ _ _ _ (card_of s)); try done; unfold live_role; by repeat case_match. }
  rewrite is_mine. unfold live_role in HB'. unfold flag_set in HB'.
  destruct (negb (sm_flags s .& NGHTTP2_STREAM_FLAG_PUSH =? 0)), (mine (server ss) (stream_id s)); simpl; sp_step; split; eauto.
  - simpl in HB'. by rewrite upd_counts_id in HB'.
  - exists (fun n => n). by rewrite upd_counts_id.
Qed.

(** ** The contract *)

(** The stream that [nghttp2_session_get_stream] finds. *)
Definition live_stream ss (id : Z) : option Z :=
  a ← stream_map ss !! id;
  se_streams ss !! a ≫= fun s : nghttp2_stream =>
    if flag_set (sm_flags s) NGHTTP2_STREAM_FLAG_CLOSED || bool_decide (state s = NGHTTP2_STREAM_IDLE) then None else Some a.

Lemma sp_get_stream X ss lc li id (Q : option Z -> nghttp2_session -> Prop) : book_ok X ss lc li -> Q (live_stream ss id) ss ->
  sp (nghttp2_session_get_stream id) ss Q.
Proof.
  intros HB HQ. unfold nghttp2_session_get_stream. do 2 sp_step. unfold live_stream in HQ. destruct (stream_map ss !! id) as [a|] eqn:Ea; [|by sp_step].
  destruct (mapped_stream _ _ _ _ _ _ HB Ea) as (_ & s & Hs & _). sp_step. eapply sp_load; [exact Hs|]. simpl in HQ. rewrite Hs in HQ. simpl in HQ.
  unfold flag_set in HQ. destruct (_ || _); by sp_step.
Qed.

Lemma live_stream_role X ss lc li id a : book_ok X ss lc li -> live_stream ss id = Some a -> exists s : nghttp2_stream,
  se_streams ss !! a = Some s /\ stream_id s = id /\ a <> root /\ role_of (server ss) (card_of s) = live_role (server ss) s.
Proof.
  intros HB. unfold live_stream. destruct (stream_map ss !! id) as [b|] eqn:Eb; [|done]. simpl.
  destruct (mapped_stream _ _ _ _ _ _ HB Eb) as (Hr & s & Hs & Hid). rewrite Hs. simpl. destruct (flag_set _ _) eqn:Ef; [done|].
  simpl. case_bool_decide as Es; [done|]. intros [= <-]. exists s. split_and!; try done. unfold role_of, live_role. simpl. rewrite Ef.
  by rewrite bool_decide_false.
Qed.

Lemma live_mapped ss id a : live_stream ss id = Some a -> stream_map ss !! id = Some a.
Proof.
  unfold live_stream. destruct (stream_map ss !! id) as [b|]; simpl; [|done]. destruct (se_streams ss !! b); simpl; [|done].
  destruct (_ || _); [done|]. by intros [= ->].
Qed.

(** Whether the session keeps closed streams with the id [id]. *)
Definition keeps_closed ss (id : Z) : bool :=
  (opt_flags ss .& NGHTTP2_OPTMASK_NO_CLOSED_STREAMS =? 0) && server ss && negb (nghttp2_session_is_my_stream_id ss id).

(** The stream [a] is closed: it stays in the tree at the end of the list of
    closed streams, or it leaves the tree, the table and memory. *)
Definition closed_to X Y ss kids lc a (id : Z) ss' : Prop :=
  if keeps_closed ss id then (exists li', sess_ok X Y ss' kids (lc ++ [a]) li') /\ stream_map ss' = stream_map ss
  else (exists kids1 li', rfc_step kids (DepRemove a) kids1 /\ sess_ok X Y ss' (delete a kids1) lc li') /\
    stream_map ss' = delete id (stream_map ss) /\ se_streams ss' !! a = None.

Section Close.
Context (realloc_ok : nat -> bool).

Definition closing X Y ss kids lc a (id : Z) (rv : Z) ss' : Prop :=
  rv = NGHTTP2_ERR_NOMEM /\ refused realloc_ok \/
  rv = 0 /\ closed_to X Y ss kids lc a id ss' /\ se_conf ss' = se_conf ss /\
    ob_items ss' = match item <$> se_streams ss !! a with Some (Some it) => released it ss | _ => ob_items ss end.

Lemma closed_flag_role sv (s : nghttp2_stream) : role_of sv (card_of (flags_to (u8 (sm_flags s .| NGHTTP2_STREAM_FLAG_CLOSED)) s)) = RClosed.
Proof using.
  unfold role_of. simpl. assert (flag_set (u8 (sm_flags s .| NGHTTP2_STREAM_FLAG_CLOSED)) NGHTTP2_STREAM_FLAG_CLOSED = true) as ->; [|done].
  unfold flag_set, u8, NGHTTP2_STREAM_FLAG_CLOSED. apply negb_true_iff, Z.eqb_neq. intros E.
  apply (f_equal (fun z => Z.testbit z 1)) in E. cbv beta in E.
  rewrite <- (Z.land_ones _ 8), !Z.land_spec, Z.lor_spec in E by lia. change (Z.testbit 2 1) with true in E. by rewrite orb_true_r in E.
Qed.

Lemma closed_flag_plain (s : nghttp2_stream) m : m = NGHTTP2_STREAM_FLAG_NO_RFC7540_PRIORITIES \/ m = NGHTTP2_STREAM_FLAG_DEFERRED_ALL ->
  u8 (sm_flags s .| NGHTTP2_STREAM_FLAG_CLOSED) .& m = sm_flags s .& m.
Proof using.
  intros Hm. unfold u8. rewrite <- (Z.land_ones _ 8) by lia. apply Z.bits_inj'. intros n Hn.
  rewrite !Z.land_spec, Z.lor_spec, Z.testbit_ones by lia. destruct (Z.testbit m n) eqn:E; [|by rewrite !andb_false_r].
  assert (n = 2 \/ n = 3 \/ n = 4) as [-> |[-> | ->]].
  { assert (n < 5). { destruct (Z.lt_ge_cases n 5); [done|]. rewrite (Z.bits_above_log2 m n) in E; destruct Hm as [-> | ->]; simpl; done || lia. }
    assert (n <> 0 /\ n <> 1) by (split; intros ->; destruct Hm as [-> | ->]; done). lia. }
  all: simpl; by rewrite orb_false_r, !andb_true_r.
Qed.

(** The stream is out of the counters and marked as closed. *)
Lemma sp_mark_closed X Y ss kids lc li a (s : nghttp2_stream) : sess_ok ({[a]} ∪ X) Y ss kids lc li -> se_streams ss !! a = Some s ->
  sess_ok ({[a]} ∪ X) Y (streams_to (<[a := flags_to (u8 (sm_flags s .| NGHTTP2_STREAM_FLAG_CLOSED)) s]> (se_streams ss)) ss) kids lc li.
Proof using.
  intros [HI HB HF] Hs. pose proof (book_limbo_links _ _ _ _ a HB ltac:(set_solver)) as HL. unfold scards in HL.
  rewrite links_cards, Hs in HL. injection HL as Hp Hn.
  assert (item s = None) as Hit by (apply (id_quiet _ _ _ (bk_rest _ _ _ _ HB) a (card_of s)); [by apply cards_lookup|set_solver]).
  pose proof (plain _ _ _ _ _ _ HB Hs) as Hplain. split; [|apply (book_set _ _ _ _ a s); try done; [set_solver|]|done].
  - rewrite se_streams_to. apply (touch_inv _ _ a s); [done|done| |].
    + split; try done. unfold no_rfc7540_priorities. simpl. by rewrite closed_flag_plain by auto.
    + unfold stream_active. simpl. by rewrite Hit.
  - unfold flag_set. simpl. rewrite closed_flag_plain by auto. exact Hplain.
Qed.

Lemma role_live sv (s : nghttp2_stream) : role_of sv (card_of s) <> RClosed -> role_of sv (card_of s) <> RIdle -> role_of sv (card_of s) = live_role sv s.
Proof using. unfold role_of, live_role. simpl. destruct (flag_set _ NGHTTP2_STREAM_FLAG_CLOSED); [done|]. by case_bool_decide. Qed.

Lemma live_counted sv (s : nghttp2_stream) : counted_role (live_role sv s).
Proof using. unfold live_role, counted_role. by repeat case_match. Qed.

(** The stream is marked, out of the counters: it is kept or destroyed. *)
Lemma sp_keep_or_destroy X Y ss kids lc li a (s : nghttp2_stream) id : a ∉ X -> a ∉ Y -> a <> root -> sess_ok ({[a]} ∪ X) Y ss kids lc li -> rfc7540 ss ->
  se_streams ss !! a = Some s -> stream_id s = id -> role_of (server ss) (card_of s) = RClosed ->
  sp (let! s := load_stream a in
      if pending_no_rfc7540_priorities ss =? 1 then nghttp2_session_destroy_stream realloc_ok a
      else if (opt_flags ss .& NGHTTP2_OPTMASK_NO_CLOSED_STREAMS =? 0) && server ss && negb (nghttp2_session_is_my_stream_id ss id) &&
        nghttp2_stream_in_dep_tree s then
        nghttp2_session_keep_closed_stream a;; mret 0
      else nghttp2_session_destroy_stream realloc_ok a) ss (fun rv ss' =>
    rv = NGHTTP2_ERR_NOMEM /\ refused realloc_ok \/
    rv = 0 /\ closed_to X Y ss kids lc a id ss' /\ se_conf ss' = se_conf ss /\ ob_items ss' = ob_items ss).
Proof using.
  intros HaX HaY Hr HO Hmode Hs Hid Hrole. destruct (in_tree _ _ _ _ _ _ _ _ HO Hs Hr HaY) as (_ & _ & _ & _ & Htree).
  sp_step. eapply sp_load; [exact Hs|]. rewrite (proj2 (Z.eqb_neq _ _) Hmode), Htree, andb_true_r. fold (keeps_closed ss id). unfold closed_to.
  destruct (keeps_closed ss id).
  - sp_step. assert (has_role (server ss) X (scards ss) a RClosed) as Hrc by (split; [done|]; split; [done|]; exists (card_of s); split; [by apply cards_lookup|done]).
    eapply sp_mono; [exact (sp_keep_closed X ss lc li a HaX (so_books _ _ _ _ _ _ HO) Hrc)|]. intros [] ss' [HB HT]. sp_step. right. split; [done|].
    split; [|split; [apply HT|]]; [|by rewrite (su_ob _ _ (td_setup _ _ HT))]. split; [|apply HT]. exists li. by apply (tidied_sess ({[a]} ∪ X) Y X ss ss' kids lc li).
  - eapply sp_mono; [exact (sp_destroy realloc_ok _ _ _ _ _ _ _ _ HaY Hr HO Hs)|]. intros rv ss' [?|(-> & k1 & ss1 & s1 & Hst & HR & HO1 & Hs1 & Eid & ->)]; [by left|right].
    split; [done|]. destruct HR as (w & -> & _). rewrite Eid, Hid. split; [|done]. split; [|split; [done|apply lookup_delete_eq]].
    exists k1, li. split; [done|]. rewrite <- Hid, <- Eid. by apply sess_free.
Qed.

Lemma sp_close_rest X Y ss kids lc li a (s : nghttp2_stream) id : a ∉ X -> a ∉ Y -> a <> root -> sess_ok X Y ss kids lc li -> rfc7540 ss ->
  se_streams ss !! a = Some s -> stream_id s = id -> role_of (server ss) (card_of s) = live_role (server ss) s ->
  sp (let! s := load_stream a in
      (match item s with
       | Some it => session_detach_stream_item a;; release_item it
       | None => mret tt
       end);;
      let! ss := the_session in
      let mine := nghttp2_session_is_my_stream_id ss id in
      let! s := load_stream a in
      (if negb (sm_flags s .& NGHTTP2_STREAM_FLAG_PUSH =? 0) then
         if negb mine then update (fun ss => upd_counts (num_incoming_reserved_streams_to (u64 (num_incoming_reserved_streams ss - 1))) ss)
         else mret tt
       else if mine then update (fun ss => upd_counts (num_outgoing_streams_to (u64 (num_outgoing_streams ss - 1))) ss)
       else update (fun ss => upd_counts (num_incoming_streams_to (u64 (num_incoming_streams ss - 1))) ss));;
      modify_stream a (fun s => flags_to (u8 (sm_flags s .| NGHTTP2_STREAM_FLAG_CLOSED)) s);;
      let! s := load_stream a in
      if pending_no_rfc7540_priorities ss =? 1 then nghttp2_session_destroy_stream realloc_ok a
      else if (opt_flags ss .& NGHTTP2_OPTMASK_NO_CLOSED_STREAMS =? 0) && server ss && negb mine && nghttp2_stream_in_dep_tree s then
        nghttp2_session_keep_closed_stream a;; mret 0
      else nghttp2_session_destroy_stream realloc_ok a) ss (closing X Y ss kids lc a id).
Proof using.
  intros HaX HaY Hr HO Hmode Hs Hid Hrole. sp_step. eapply sp_load; [exact Hs|]. sp_step.
  eapply sp_mono; [exact (sp_close_item _ _ _ _ _ _ _ _ HO Hs)|]. intros [] ss1 [HO1 [(s1 & Hs1 & Ec) _ Hitems HM EC]].
  assert (stream_id s1 = id /\ item s1 = None /\ role_of (server ss1) (card_of s1) = role_of (server ss) (card_of s)) as (Hid1 & Hit1 & Hrole1).
  { rewrite EC, Ec. destruct (item s) eqn:Ei; unfold card_of in Ec; (split; [|split; [|first [apply without_item_role|done]]]);
      simpl in Ec; congruence. }
  assert (role_of (server ss1) (card_of s1) = live_role (server ss1) s1) as Hlive1.
  { apply role_live; rewrite Hrole1, Hrole; apply live_counted. }
  do 2 sp_step. cbv zeta. sp_step. eapply sp_load; [exact Hs1|]. rewrite <- Hid1. sp_step.
  eapply sp_mono; [exact (sp_uncount X ss1 lc li a s1 HaX (so_books _ _ _ _ _ _ HO1) Hs1 Hit1 Hr Hlive1)|]. intros [] ss2 [HB2 [f ->]].
  assert (sess_ok ({[a]} ∪ X) Y (upd_counts f ss1) kids lc li) as HO2 by (split; [apply HO1|done|apply HO1]).
  sp_step. eapply sp_modify; [exact Hs1|]. pose proof (sp_mark_closed X Y _ kids lc li a s1 HO2 Hs1) as HO3.
  set (ss3 := streams_to _ _) in *. set (s3 := flags_to _ s1) in *.
  eapply sp_mono; [apply (sp_keep_or_destroy X Y ss3 kids lc li a s3 (stream_id s1) HaX HaY Hr HO3); try done|].
  - eapply conf_rfc7540; [|exact Hmode]. exact EC.
  - unfold ss3. rewrite se_streams_to. apply lookup_insert_eq.
  - apply closed_flag_role.
  - intros rv ss' [?|(-> & Hcl & EC' & EI')]; [by left|right]. split; [done|]. split_and!.
    + unfold closed_to, keeps_closed, nghttp2_session_is_my_stream_id in *. rewrite Hid1 in *. simpl in Hcl. rewrite EC, HM in Hcl. exact Hcl.
    + rewrite EC'. exact EC.
    + rewrite EI', Hs. simpl. exact Hitems.
Qed.

End Close.

(** What the application's callback may do: anything that keeps the session in
    order, its settings and the stream that is being closed. *)
Definition close_callback_ok (callback : Z -> Z -> se_m Z) : Prop := forall X Y ss kids lc li id err a r, sess_ok X Y ss kids lc li -> rfc7540 ss ->
  stream_map ss !! id = Some a -> has_role (server ss) X (scards ss) a r ->
  sp (callback id err) ss (fun _ ss1 => exists kids1 lc1 li1, sess_ok X Y ss1 kids1 lc1 li1 /\ se_conf ss1 = se_conf ss /\
    stream_map ss1 !! id = Some a /\ has_role (server ss) X (scards ss1) a r).

Definition callback_ok (callback : option (Z -> Z -> se_m Z)) : Prop :=
  match callback with Some f => close_callback_ok f | None => True end.

(** The session after the callback. *)
Definition called_back (callback : option (Z -> Z -> se_m Z)) (id err : Z) ss (rv : Z) ss1 : Prop :=
  match callback with Some f => f id err ss = Some (ss1, rv) | None => ss1 = ss /\ rv = 0 end.

Section CloseStream.
Context (realloc_ok : nat -> bool) (callback : option (Z -> Z -> se_m Z)).

Definition close_result X Y ss (id err rv : Z) ss' : Prop :=
  match live_stream ss id with
  | None => rv = NGHTTP2_ERR_INVALID_ARGUMENT /\ ss' = ss
  | Some a => exists rc ss1, called_back callback id err ss rc ss1 /\
      if rc =? 0 then exists kids1 lc1 li1, sess_ok X Y ss1 kids1 lc1 li1 /\ closing realloc_ok X Y ss1 kids1 lc1 a id rv ss'
      else rv = NGHTTP2_ERR_CALLBACK_FAILURE /\ ss' = ss1
  end.

(** The callback keeps the session in order, for the call that closes [a]. *)
Definition call_ok X Y ss (id err a : Z) r : Prop :=
  match callback with
  | Some f => sp (f id err) ss (fun _ ss1 => exists kids1 lc1 li1, sess_ok X Y ss1 kids1 lc1 li1 /\ se_conf ss1 = se_conf ss /\
      stream_map ss1 !! id = Some a /\ has_role (server ss) X (scards ss1) a r)
  | None => True
  end.

Lemma sp_close_called X Y ss kids lc li id err : sess_ok X Y ss kids lc li -> rfc7540 ss -> (forall a, live_stream ss id = Some a -> a ∉ X /\ a ∉ Y) ->
  (forall a r, stream_map ss !! id = Some a -> has_role (server ss) X (scards ss) a r -> call_ok X Y ss id err a r) ->
  sp (nghttp2_session_close_stream realloc_ok callback id err) ss (close_result X Y ss id err).
Proof using.
  intros HO Hmode Hout Hcb. unfold nghttp2_session_close_stream, close_result. sp_step. eapply sp_get_stream; [apply HO|].
  destruct (live_stream ss id) as [a|] eqn:Ea; [|by sp_step]. destruct (Hout a eq_refl) as [HaX HaY].
  destruct (live_stream_role _ _ _ _ _ _ (so_books _ _ _ _ _ _ HO) Ea) as (s & Hs & Hid & Hr & Hrole).
  assert (stream_map ss !! id = Some a) as Hmap by by apply live_mapped.
  assert (has_role (server ss) X (scards ss) a (live_role (server ss) s)) as Hrl by (split; [done|]; split; [done|]; exists (card_of s); split; [by apply cards_lookup|done]).
  sp_step. apply (sp_mono _ _ (fun rc ss1 => called_back callback id err ss rc ss1 /\ exists kids1 lc1 li1, sess_ok X Y ss1 kids1 lc1 li1 /\ se_conf ss1 = se_conf ss /\
    stream_map ss1 !! id = Some a /\ has_role (server ss) X (scards ss1) a (live_role (server ss) s))).
  - pose proof (Hcb a _ Hmap Hrl) as HC. unfold call_ok in HC. destruct callback as [f|]; [|sp_step; split; [done|]; by exists kids, lc, li].
    unfold sp in *. simpl. destruct (f id err ss) as [[ss1 rc]|]; done.
  - intros rc ss1 [Hcalled (kids1 & lc1 & li1 & HO1 & EC & Hmap1 & Hrl1)]. destruct (Z.eqb_spec rc 0) as [->|Hrc]; simpl.
    + destruct (mapped_stream _ _ _ _ _ _ (so_books _ _ _ _ _ _ HO1) Hmap1) as (_ & s1 & Hs1 & Hid1). rewrite <- EC in Hrl1.
      destruct (role_stream _ _ _ _ Hrl1) as (s1' & Hs1' & Hrole1). simplify_eq.
      eapply sp_mono; [apply (sp_close_rest realloc_ok X Y ss1 kids1 lc1 li1 a s1 (stream_id s)); try done|].
      * by eapply conf_rfc7540.
      * apply role_live; rewrite Hrole1; apply live_counted.
      * intros rv ss' Hcl. exists 0, ss1. split; [done|]. simpl. eauto.
    + sp_step. exists rc, ss1. split; [done|]. by rewrite (proj2 (Z.eqb_neq _ _) Hrc).
Qed.

Lemma sp_close_stream X Y ss kids lc li id err : callback_ok callback -> sess_ok X Y ss kids lc li -> rfc7540 ss ->
  (forall a, live_stream ss id = Some a -> a ∉ X /\ a ∉ Y) ->
  sp (nghttp2_session_close_stream realloc_ok callback id err) ss (close_result X Y ss id err).
Proof using.
  intros Hcb HO Hmode Hout. eapply sp_close_called; try done. intros a r Hmap Hr. unfold call_ok. destruct callback as [f|]; [|done]. by eapply Hcb.
Qed.

End CloseStream.
