(* ===== verification/SessionItems.v ===== *)
(** * Sessions: items of streams

    Attaching an item to a stream, taking it off, deferring it and resuming
    it: the scheduling follows, the books do not change but for the item. *)

From S2P Require Import Prelude Defs Pq Frame Http Stream StreamLinks StreamQueue StreamTree StreamInsert StreamRemove StreamDistribute StreamCut.
From S2P Require Import StreamItems StreamFrame StreamSpec Outbound Session SessionInv SessionTree SessionBooks SessionForest SessionOpen SessionClose.

Implicit Types (a b it f : Z) (h : gmap Z nghttp2_stream) (ss : nghttp2_session) (lc li : list Z) (X Y : gset Z) (kids : gmap Z (list Z)).

(** ** What the operations do to the stream itself *)

Section Items.
Context (realloc_ok : nat -> bool).

Lemma attach_item_base a it (s : nghttp2_stream) w w' : streams w !! a = Some s -> nghttp2_stream_attach_item realloc_ok a it w = Some (w', 0) ->
  same_base (<[a := item_to (Some it) s]> (streams w)) (streams w').
Proof using.
  intros Hs E. unfold nghttp2_stream_attach_item in E. rewrite (run_load a s) in E by done.
  destruct (sm_flags s .& NGHTTP2_STREAM_FLAG_DEFERRED_ALL =? 0); [rewrite run_assert in E|done].
  destruct (bool_decide (item s = None)); [rewrite run_assert in E|done]. rewrite (run_modify a _ s) in E by done.
  destruct (no_rfc7540_priorities s); [by injection E as <-|]. unfold st_then, mbind, st_bind in E.
  destruct (stream_update_dep_on_attach_item realloc_ok a _) as [[w1 rv]|] eqn:E1; [|done].
  assert (keeps base (stream_update_dep_on_attach_item realloc_ok a)) as HK.
  { unfold stream_update_dep_on_attach_item. pose proof (keeps_obq_push base realloc_ok). keeps_steps. }
  apply HK in E1. simpl in E1. destruct (Z.eqb_spec rv 0) as [->|Hne]; simpl in E; [by injection E as <-|].
  unfold modify in E. destruct (streams w1 !! a); [|done]. injection E as _ E. congruence.
Qed.

Lemma defer_item_base a f (s : nghttp2_stream) w w' u : streams w !! a = Some s -> nghttp2_stream_defer_item a f w = Some (w', u) ->
  same_base (<[a := flags_to (u8 (sm_flags s .| f)) s]> (streams w)) (streams w').
Proof using.
  intros Hs E. unfold nghttp2_stream_defer_item in E. rewrite (run_load a s) in E by done.
  destruct (bool_decide (is_Some (item s))); [rewrite run_assert in E|done]. rewrite (run_modify a _ s) in E by done.
  match type of E with ?m ?w1 = _ => assert (keeps base m) as HK end.
  { unfold stream_update_dep_on_detach_item. pose proof (keeps_obq_remove base a). keeps_steps. }
  by apply HK in E.
Qed.

Lemma resume_item_base a f (s : nghttp2_stream) w w' rv : streams w !! a = Some s -> nghttp2_stream_resume_deferred_item realloc_ok a f w = Some (w', rv) ->
  same_base (<[a := flags_to (u8 (sm_flags s .& Z.lnot f)) s]> (streams w)) (streams w').
Proof using.
  intros Hs E. unfold nghttp2_stream_resume_deferred_item in E. rewrite (run_load a s) in E by done.
  destruct (bool_decide (is_Some (item s))); [rewrite run_assert in E|done]. rewrite (run_modify a _ s) in E by done.
  match type of E with ?m ?w1 = _ => assert (keeps base m) as HK end.
  { unfold stream_update_dep_on_attach_item. pose proof (keeps_obq_push base realloc_ok). keeps_steps. }
  by apply HK in E.
Qed.

(** ** In a session *)

(** The stream [a] is [s'] now, but for links and scheduling data. *)
Definition restyled ss a (s' : nghttp2_stream) ss' : Prop := exists w, ss' = world_to w ss /\ same_base (<[a := s']> (se_streams ss)) (streams w).

Lemma restyled_cards ss a s' ss' : restyled ss a s' ss' -> scards ss' = <[a := card_of s']> (scards ss).
Proof using. intros (w & -> & HS). etrans; [exact (same_base_cards _ _ HS)|apply cards_insert]. Qed.

(** The deferral and the item do not tell streams apart otherwise. *)
Lemma restyled_sess X Y ss kids lc li a (s s' : nghttp2_stream) ss' : sess_ok X Y ss kids lc li -> se_streams ss !! a = Some s -> restyled ss a s' ss' ->
  stream_inv (se_streams ss') kids -> softly s s' ->
  (is_Some (item s') -> a <> root /\ a ∉ X /\ ~ listed (server ss) X (scards ss) a) ->
  (forall it, item s' = Some it -> is_Some (ob_items ss !! it) /\ forall b c, b <> a -> scards ss !! b = Some c -> c_item c <> Some it) ->
  sess_ok X Y ss' kids lc li.
Proof using.
  intros [HI HB HF] Hs HR HI' Hsoft Hitem Hown. split; [done| |done].
  apply (book_retouch X ss ss' lc li a s s'); try done; [by apply restyled_cards| | |by destruct HR as (w & -> & _)..].
  - intros b c it Hb Hc Hi. destruct HR as (w & -> & _). split; [by apply (io_some _ _ (bk_items _ _ _ _ HB) b c)|].
    intros Hit. by apply (proj2 (Hown it Hit) b c).
  - intros it Hit. destruct HR as (w & -> & _). by apply Hown.
Qed.

Lemma restyled_plain X ss lc li a (s s' : nghttp2_stream) ss' : book_ok X ss lc li -> se_streams ss !! a = Some s -> restyled ss a s' ss' -> softly s s' ->
  exists s1 : nghttp2_stream, se_streams ss' !! a = Some s1 /\ card_of s1 = card_of s' /\ no_rfc7540_priorities s1 = false.
Proof using.
  intros HB Hs HR (_ & _ & _ & _ & Hf). pose proof (restyled_cards _ _ _ _ HR) as EC.
  assert (scards ss' !! a = Some (card_of s')) as Hc by (rewrite EC; apply lookup_insert_eq). apply cards_lookup_inv in Hc as (s1 & Hs1 & E).
  exists s1. split; [done|]. split; [done|]. assert (sm_flags s1 = sm_flags s') as Ef by (unfold card_of in E; congruence).
  unfold no_rfc7540_priorities. rewrite Ef, Hf by auto. exact (plain _ _ _ _ _ _ HB Hs).
Qed.

(** An item that no stream has. *)
Definition item_free ss it : Prop := is_Some (ob_items ss !! it) /\ forall b (s : nghttp2_stream), se_streams ss !! b = Some s -> item s <> Some it.

Lemma item_free_cards ss it b c : item_free ss it -> scards ss !! b = Some c -> c_item c <> Some it.
Proof using. intros [_ H] Hc. apply cards_lookup_inv in Hc as (s & Hs & <-). by apply (H b s). Qed.

Lemma sp_attach X Y ss kids lc li a it (s : nghttp2_stream) : sess_ok X Y ss kids lc li -> se_streams ss !! a = Some s -> item s = None ->
  sm_flags s .& NGHTTP2_STREAM_FLAG_DEFERRED_ALL = 0 -> a <> root -> a ∉ X -> ~ listed (server ss) X (scards ss) a -> item_free ss it ->
  sp (session_attach_stream_item realloc_ok a it) ss (fun rv ss' => rv = NGHTTP2_ERR_NOMEM /\ refused realloc_ok \/
    rv = 0 /\ restyled ss a (item_to (Some it) s) ss' /\ sess_ok X Y ss' kids lc li).
Proof using.
  intros HO Hs Hit Hfl Hr HaX Hl Hfree. pose proof HO as [HI HB HF]. unfold session_attach_stream_item. sp_step. apply sp_on_streams.
  pose proof (wp_attach_item realloc_ok a it (se_world ss) kids s HI Hs Hit Hfl) as HW. unfold wp in HW |- *.
  destruct (nghttp2_stream_attach_item realloc_ok a it (se_world ss)) as [[w rv]|] eqn:E; [|done]. destruct HW as [[-> ?]|[-> HI']]; [simpl; sp_step; by left|].
  simpl. assert (restyled ss a (item_to (Some it) s) (world_to w ss)) as HR by (exists w; split; [done|by eapply attach_item_base]).
  assert (softly s (item_to (Some it) s)) as Hsoft by done.
  destruct (restyled_plain _ _ _ _ _ _ _ _ HB Hs HR Hsoft) as (s1 & Hs1 & _ & Hp). sp_step. eapply sp_load; [exact Hs1|]. rewrite Hp. simpl. sp_step.
  right. split; [done|]. split; [done|]. eapply restyled_sess; [exact HO|exact Hs|exact HR|exact HI'|done|done|].
  intros i [= <-]. split; [apply Hfree|]. intros b c _ Hc. by eapply item_free_cards.
Qed.

Lemma item_others X ss lc li a (s : nghttp2_stream) it b c : book_ok X ss lc li -> se_streams ss !! a = Some s -> item s = Some it -> b <> a ->
  scards ss !! b = Some c -> c_item c <> Some it.
Proof using.
  intros HB Hs Hit Hb Hc Hi. apply Hb. by apply (io_inj _ _ (bk_items _ _ _ _ HB) a b (card_of s) c it (cards_lookup _ _ _ Hs) Hc).
Qed.

(** The flags of deferral of a stream with an item. *)
Lemma reflag_sess X Y ss kids lc li a (s : nghttp2_stream) v ss' : sess_ok X Y ss kids lc li -> se_streams ss !! a = Some s -> is_Some (item s) ->
  restyled ss a (flags_to v s) ss' -> stream_inv (se_streams ss') kids -> softly s (flags_to v s) -> sess_ok X Y ss' kids lc li.
Proof using.
  intros HO Hs Hit HR HI' Hsoft. pose proof HO as [HI HB HF]. eapply restyled_sess; [exact HO|exact Hs|exact HR|exact HI'|exact Hsoft| |].
  - intros _. by apply (item_unlisted X ss lc li a (card_of s) HB (cards_lookup _ _ _ Hs)).
  - intros it Hi. simpl in Hi. split; [by apply (io_some _ _ (bk_items _ _ _ _ HB) a (card_of s) it (cards_lookup _ _ _ Hs))|].
    intros b c Hb Hc. by apply (item_others X ss lc li a s it b c).
Qed.

Lemma softly_defer (s : nghttp2_stream) f : deferral f -> softly s (flags_to (u8 (sm_flags s .| f)) s).
Proof using.
  intros Hf. split_and!; try done. intros m Hm. simpl. rewrite u8_land by (destruct Hm as [-> |[-> | ->]]; done).
  rewrite Z.land_lor_distr_l. assert (f .& m = 0) as -> by (destruct Hf as [-> |[-> | ->]], Hm as [-> |[-> | ->]]; done). apply Z.lor_0_r.
Qed.

Lemma softly_resume (s : nghttp2_stream) f : deferral f -> softly s (flags_to (u8 (sm_flags s .& Z.lnot f)) s).
Proof using.
  intros Hf. split_and!; try done. intros m Hm. simpl. rewrite u8_land by (destruct Hm as [-> |[-> | ->]]; done).
  rewrite <- Z.land_assoc. f_equal. by destruct Hf as [-> |[-> | ->]], Hm as [-> |[-> | ->]].
Qed.

Lemma sp_defer X Y ss kids lc li a f (s : nghttp2_stream) : sess_ok X Y ss kids lc li -> se_streams ss !! a = Some s -> is_Some (item s) -> deferral f ->
  sp (session_defer_stream_item a f) ss (fun _ ss' => restyled ss a (flags_to (u8 (sm_flags s .| f)) s) ss' /\ sess_ok X Y ss' kids lc li).
Proof using.
  intros HO Hs Hit Hf. pose proof HO as [HI HB HF]. unfold session_defer_stream_item. sp_step. apply sp_on_streams.
  pose proof (wp_defer_item a f (se_world ss) kids s HI Hs Hit Hf) as HW. unfold wp in HW |- *.
  destruct (nghttp2_stream_defer_item a f (se_world ss)) as [[w u]|] eqn:E; [|done].
  assert (restyled ss a (flags_to (u8 (sm_flags s .| f)) s) (world_to w ss)) as HR by (exists w; split; [done|by eapply defer_item_base]).
  pose proof (softly_defer s f Hf) as Hsoft. destruct (restyled_plain _ _ _ _ _ _ _ _ HB Hs HR Hsoft) as (s1 & Hs1 & _ & Hp).
  sp_step. eapply sp_load; [exact Hs1|]. rewrite Hp. simpl. sp_step. split; [done|]. by eapply reflag_sess.
Qed.

Lemma sp_resume X Y ss kids lc li a f (s : nghttp2_stream) : sess_ok X Y ss kids lc li -> se_streams ss !! a = Some s -> is_Some (item s) -> deferral f ->
  sp (session_resume_deferred_stream_item realloc_ok a f) ss (fun rv ss' => rv = NGHTTP2_ERR_NOMEM /\ refused realloc_ok \/
    rv = 0 /\ restyled ss a (flags_to (u8 (sm_flags s .& Z.lnot f)) s) ss' /\ sess_ok X Y ss' kids lc li).
Proof using.
  intros HO Hs Hit Hf. pose proof HO as [HI HB HF]. unfold session_resume_deferred_stream_item. sp_step. apply sp_on_streams.
  pose proof (wp_resume_item realloc_ok a f (se_world ss) kids s HI Hs Hit Hf) as HW. unfold wp in HW |- *.
  destruct (nghttp2_stream_resume_deferred_item realloc_ok a f (se_world ss)) as [[w rv]|] eqn:E; [|done].
  destruct HW as [[-> ?]|[-> HI']]; [simpl; sp_step; by left|]. simpl.
  assert (restyled ss a (flags_to (u8 (sm_flags s .& Z.lnot f)) s) (world_to w ss)) as HR by (exists w; split; [done|by eapply resume_item_base]).
  pose proof (softly_resume s f Hf) as Hsoft. destruct (restyled_plain _ _ _ _ _ _ _ _ HB Hs HR Hsoft) as (s1 & Hs1 & _ & Hp).
  sp_step. eapply sp_load; [exact Hs1|]. rewrite Hp. simpl. sp_step. right. split; [done|]. split; [done|]. by eapply reflag_sess.
Qed.

Lemma sp_detach X Y ss kids lc li a (s : nghttp2_stream) : sess_ok X Y ss kids lc li -> se_streams ss !! a = Some s ->
  sp (session_detach_stream_item a) ss (fun _ ss' => restyled ss a (without_item s) ss' /\ sess_ok X Y ss' kids lc li).
Proof using.
  intros HO Hs. pose proof HO as [HI HB HF]. unfold session_detach_stream_item. sp_step. apply sp_on_streams.
  pose proof (wp_detach_item a (se_world ss) kids HI ltac:(eauto)) as HW. unfold wp in HW |- *.
  destruct (nghttp2_stream_detach_item a (se_world ss)) as [[w u]|] eqn:E; [|done].
  assert (restyled ss a (without_item s) (world_to w ss)) as HR by (exists w; split; [done|by eapply detach_item_base]).
  assert (softly s (without_item s)) as Hsoft by (split_and!; try done; intros m Hm; by apply deferral_bits; destruct Hm as [-> |[-> | ->]]).
  destruct (restyled_plain _ _ _ _ _ _ _ _ HB Hs HR Hsoft) as (s1 & Hs1 & _ & Hp).
  sp_step. eapply sp_load; [exact Hs1|]. rewrite Hp. simpl. sp_step. split; [done|].
  eapply restyled_sess; [exact HO|exact Hs|exact HR|exact HW|exact Hsoft|by intros [? ?]|done].
Qed.

End Items.
