(* ===== verification/SessionAdjust.v ===== *)
(** * Sessions: limits on the streams that are kept

    Closed and idle streams are kept for the dependency tree only; when there
    are too many of them the oldest ones are destroyed. *)

From S2P Require Import Prelude Defs Pq Frame Http Stream StreamLinks StreamQueue StreamTree StreamInsert StreamRemove StreamDistribute StreamCut.
From S2P Require Import StreamItems StreamFrame StreamSpec Outbound Session SessionInv SessionTree SessionBooks SessionForest SessionOpen SessionClose.

Implicit Types (a b d p : Z) (h : gmap Z nghttp2_stream) (ss : nghttp2_session) (lc li l : list Z) (X Y : gset Z) (kids : gmap Z (list Z)).

(** The streams [l] leave the tree and memory, in this order. *)
Inductive drops : gmap Z (list Z) -> list Z -> gmap Z (list Z) -> Prop :=
  | drops_nil kids : drops kids [] kids
  | drops_cons kids a k1 l k2 : rfc_step kids (DepRemove a) k1 -> drops (delete a k1) l k2 -> drops kids (a :: l) k2.

(** ** The head of a list is destroyed *)

Lemma delete_alter_ne (f : nghttp2_stream -> nghttp2_stream) a n h : n <> a -> delete a (alter f n h) = alter f n (delete a h).
Proof.
  intros Hne. apply map_eq. intros b. rewrite lookup_delete, !lookup_alter, !lookup_delete. repeat case_decide; by subst.
Qed.

Lemma delete_alter_eq (f : nghttp2_stream -> nghttp2_stream) a h : delete a (alter f a h) = delete a h.
Proof. apply map_eq. intros b. rewrite !lookup_delete, lookup_alter. by repeat case_decide. Qed.

(** Unlinking the head and releasing it, in either order. *)
Lemma delete_bypassed h n a : n <> Some a -> delete a (bypassed h None n a) = alter_opt (closed_prev_to None) n (delete a h).
Proof.
  intros Hne. unfold bypassed. rewrite !delete_alter_eq. destruct n as [n|]; simpl; [|done]. apply delete_alter_ne. congruence.
Qed.

(** What one turn of the loops does after [destroy_stream]. *)
Definition head_left ss (n : option Z) : nghttp2_session := streams_to (alter_opt (closed_prev_to None) n (se_streams ss)) ss.

Definition closed_head_off ss (n : option Z) : nghttp2_session :=
  upd_counts (num_closed_streams_to (u64 (num_closed_streams ss - 1)))
    (upd_lists (closed_list_to n (match n with Some _ => closed_stream_tail ss | None => None end)) (head_left ss n)).

Definition idle_head_off ss (n : option Z) : nghttp2_session :=
  upd_counts (num_idle_streams_to (u64 (num_idle_streams ss - 1)))
    (upd_lists (idle_list_to n (match n with Some _ => idle_stream_tail ss | None => None end)) (head_left ss n)).

Lemma closed_head_off_freed ss l a id : head l <> Some a -> closed_head_off (freed a id ss) (head l) = freed a id (left_closed [] l a ss).
Proof.
  intros Hn. unfold closed_head_off, head_left, freed, left_closed. simpl last. rewrite !se_streams_to, <- delete_bypassed by done.
  by destruct ss as [[] ? ? ? ? ? [] ? ? ? ? ?].
Qed.

Lemma idle_head_off_freed ss l a id : head l <> Some a -> idle_head_off (freed a id ss) (head l) = freed a id (left_idle [] l a ss).
Proof.
  intros Hn. unfold idle_head_off, head_left, freed, left_idle. simpl last. rewrite !se_streams_to, <- delete_bypassed by done.
  by destruct ss as [[] ? ? ? ? ? [] ? ? ? ? ?].
Qed.

Lemma list_head_fresh sv X C r a l hd tl n : list_ok sv X C r (a :: l) hd tl n -> a <> root /\ a ∉ X /\ head l <> Some a /\ hd = Some a /\ links_at C a = Some (None, head l).
Proof.
  intros HL. pose proof (lo_nodup _ _ _ _ _ _ _ _ HL) as [Hal _]%NoDup_cons. pose proof (lo_kept _ _ _ _ _ _ _ _ HL) as HK.
  destruct (proj1 (lo_in _ _ _ _ _ _ _ _ HL a) ltac:(by left)) as (? & ? & _). split_and!; try done.
  - intros E. destruct l; [done|]. injection E as ->. set_solver.
  - by rewrite (kp_head _ _ _ _ HK).
  - by apply (kept_middle C [] a l hd tl).
Qed.

Section Adjust.
Context (realloc_ok : nat -> bool).

(** One turn of either loop: the head of its list is destroyed, [off] takes it
    off the list. *)
Section Turn.
Context (X Y : gset Z) (a : Z) (l lc li lc' li' : list Z) (r : role).
Context (off : nghttp2_session -> option Z -> nghttp2_session) (left : nghttp2_session -> nghttp2_session) (rest : option Z -> se_m Z) (k : se_m Z).
Context (Hoff : forall ss id, head l <> Some a -> off (freed a id ss) (head l) = freed a id (left ss)).
Context (Hbook : forall ss, book_ok X ss lc li -> book_ok ({[a]} ∪ X) (left ss) lc' li' /\ tidied ss (left ss)).
Context (Hlist : forall ss, book_ok X ss lc li -> exists hd tl n, list_ok (server ss) X (scards ss) r (a :: l) hd tl n).
Context (Hrest : forall ss Q, sp k (off ss (head l)) Q -> (forall b, head l = Some b -> is_Some (se_streams ss !! b)) -> sp (rest (head l)) ss Q).

Lemma sp_turn ss kids (Q : Z -> nghttp2_session -> Prop) : a ∉ Y -> sess_ok X Y ss kids lc li ->
  (refused realloc_ok -> forall ss', Q NGHTTP2_ERR_NOMEM ss') ->
  (forall ss' k1, rfc_step kids (DepRemove a) k1 -> sess_ok X Y ss' (delete a k1) lc' li' -> kept_but (eq a) ss ss' ->
     (exists ss1, replanted ss ss1 /\ exists id, ss' = freed a id (left ss1)) -> se_streams ss' !! a = None -> sp k ss' Q) ->
  sp (let! hs := load_stream a in
      let! rv := nghttp2_session_destroy_stream realloc_ok a in
      if negb (rv =? 0) then mret rv else rest (closed_next hs)) ss Q.
Proof using Hoff Hbook Hlist Hrest.
  intros HaY HO Hno Hk. destruct (Hlist ss (so_books _ _ _ _ _ _ HO)) as (hd0 & tl0 & n0 & HLs).
  destruct (list_head_fresh _ _ _ _ _ _ _ _ _ HLs) as (Hr & HaX & Hla & _ & HL).
  unfold scards in HL. rewrite links_cards in HL. destruct (se_streams ss !! a) as [s|] eqn:Hs; [|done]. injection HL as _ Hn.
  sp_step. eapply sp_load; [exact Hs|]. rewrite Hn. sp_step.
  eapply sp_mono; [exact (sp_destroy realloc_ok _ _ _ _ _ _ _ _ HaY Hr HO Hs)|].
  intros rv ss0 [[-> ?]|(-> & k1 & ss1 & s1 & Hst & HR & HO1 & Hs1 & Eid & ->)]; simpl; [sp_step; by apply Hno|].
  apply Hrest.
  - rewrite Hoff by done. destruct (Hbook ss1 (so_books _ _ _ _ _ _ HO1)) as [HB2 HT].
    pose proof (tidied_sess _ _ _ _ _ _ _ _ _ _ HT HB2 HO1) as HO2. destruct (same_lookup _ _ _ _ _ (rp_view _ _ (td_streams _ _ HT)) Hs1) as (s2 & Hs2 & _).
    assert (stream_id s2 = stream_id s1) as Eid2.
    { pose proof (rp_face _ _ (td_streams _ _ HT) a) as Hf. rewrite (cards_lookup _ _ _ Hs1), (cards_lookup _ _ _ Hs2) in Hf. unfold face in Hf. simpl in Hf. congruence. }
    rewrite <- Eid2. apply (Hk _ k1 Hst (sess_free X Y _ k1 lc' li' a s2 HaX HaY HO2 Hs2)).
    + etrans; [by apply replanted_kept|]. etrans; [by apply tidied_kept|]. split; [done|]. intros b Hb. unfold scards, freed.
      rewrite se_streams_to. unfold cards. by rewrite fmap_delete, lookup_delete_ne.
    + exists ss1. eauto.
    + unfold freed. rewrite se_streams_to. apply lookup_delete_eq.
  - intros b Eb. assert (b ∈ l) as Hin by (destruct l; [done|]; injection Eb as ->; by left).
    destruct (list_role _ _ _ _ _ _ _ _ b HLs ltac:(by right)) as [_ [c Hc]]. rewrite <- (replanted_cards _ _ HR) in Hc.
    apply cards_lookup_inv in Hc as (sn & Hsn & _). exists sn. unfold freed. rewrite se_streams_to, lookup_delete_ne; [done|]. intros ->. congruence.
Qed.

End Turn.

Lemma turn_closed X Y a l li ss kids (Q : Z -> nghttp2_session -> Prop) (k : se_m Z) : a ∉ Y -> sess_ok X Y ss kids (a :: l) li ->
  (refused realloc_ok -> forall ss', Q NGHTTP2_ERR_NOMEM ss') ->
  (forall ss' k1, rfc_step kids (DepRemove a) k1 -> sess_ok X Y ss' (delete a k1) l li -> kept_but (eq a) ss ss' ->
     (exists ss1, replanted ss ss1 /\ exists id, ss' = freed a id (left_closed [] l a ss1)) -> se_streams ss' !! a = None -> sp k ss' Q) ->
  sp (let! hs := load_stream a in
      let! rv := nghttp2_session_destroy_stream realloc_ok a in
      if negb (rv =? 0) then mret rv
      else
        (match closed_next hs with
         | Some n =>
             update (fun ss => upd_lists (closed_list_to (closed_next hs) (closed_stream_tail ss)) ss);;
             modify_stream n (closed_prev_to None)
         | None => update (upd_lists (closed_list_to None None))
         end);;
        update (fun ss => upd_counts (num_closed_streams_to (u64 (num_closed_streams ss - 1))) ss);;
        k) ss Q.
Proof using.
  intros HaY HO Hno Hk.
  apply (sp_turn X Y a l (a :: l) li l li RClosed closed_head_off (left_closed [] l a) (fun next =>
    (match next with
     | Some n => update (fun ss => upd_lists (closed_list_to next (closed_stream_tail ss)) ss);; modify_stream n (closed_prev_to None)
     | None => update (upd_lists (closed_list_to None None))
     end);;
    update (fun ss => upd_counts (num_closed_streams_to (u64 (num_closed_streams ss - 1))) ss);; k) k) with (kids := kids); try done.
  - intros ? id. by apply closed_head_off_freed.
  - intros ss1 HB1. apply (book_leave_closed X ss1 li [] a l); [|done]. by eapply (list_head_fresh _ _ _ _ _ _ _ _ _ (bk_closed _ _ _ _ HB1)).
  - intros ss1 HB1. exists (closed_stream_head ss1), (closed_stream_tail ss1), (num_closed_streams ss1). apply HB1.
  - intros ss1 Q1 Hrest Hsome. destruct (head l) as [n|].
    + do 2 sp_step. sp_step. apply sp_alter; [by apply Hsome|]. do 2 sp_step. exact Hrest.
    + do 4 sp_step. unfold closed_head_off, head_left in Hrest. simpl alter_opt in Hrest. by rewrite streams_to_same in Hrest.
Qed.

Lemma turn_idle X Y a l lc ss kids (Q : Z -> nghttp2_session -> Prop) (k : se_m Z) : a ∉ Y -> sess_ok X Y ss kids lc (a :: l) ->
  (refused realloc_ok -> forall ss', Q NGHTTP2_ERR_NOMEM ss') ->
  (forall ss' k1, rfc_step kids (DepRemove a) k1 -> sess_ok X Y ss' (delete a k1) lc l -> kept_but (eq a) ss ss' ->
     (exists ss1, replanted ss ss1 /\ exists id, ss' = freed a id (left_idle [] l a ss1)) -> se_streams ss' !! a = None -> sp k ss' Q) ->
  sp (let! hs := load_stream a in
      let! rv := nghttp2_session_destroy_stream realloc_ok a in
      if negb (rv =? 0) then mret rv
      else
        (match closed_next hs with
         | Some n =>
             update (fun ss => upd_lists (idle_list_to (closed_next hs) (idle_stream_tail ss)) ss);;
             modify_stream n (closed_prev_to None)
         | None => update (upd_lists (idle_list_to None None))
         end);;
        update (fun ss => upd_counts (num_idle_streams_to (u64 (num_idle_streams ss - 1))) ss);;
        k) ss Q.
Proof using.
  intros HaY HO Hno Hk.
  apply (sp_turn X Y a l lc (a :: l) lc l RIdle idle_head_off (left_idle [] l a) (fun next =>
    (match next with
     | Some n => update (fun ss => upd_lists (idle_list_to next (idle_stream_tail ss)) ss);; modify_stream n (closed_prev_to None)
     | None => update (upd_lists (idle_list_to None None))
     end);;
    update (fun ss => upd_counts (num_idle_streams_to (u64 (num_idle_streams ss - 1))) ss);; k) k) with (kids := kids); try done.
  - intros ? id. by apply idle_head_off_freed.
  - intros ss1 HB1. apply (book_leave_idle X ss1 lc [] a l); [|done]. by eapply (list_head_fresh _ _ _ _ _ _ _ _ _ (bk_idle _ _ _ _ HB1)).
  - intros ss1 HB1. exists (idle_stream_head ss1), (idle_stream_tail ss1), (num_idle_streams ss1). apply HB1.
  - intros ss1 Q1 Hrest Hsome. destruct (head l) as [n|].
    + do 2 sp_step. sp_step. apply sp_alter; [by apply Hsome|]. do 2 sp_step. exact Hrest.
    + do 4 sp_step. unfold idle_head_off, head_left in Hrest. simpl alter_opt in Hrest. by rewrite streams_to_same in Hrest.
Qed.

(** The oldest streams [l] of a list are gone, [r] are left. *)
Record trimmed ss (kids : gmap Z (list Z)) (l r : list Z) ss' kids' : Prop := {
  tr_drops : drops kids l kids';
  tr_kept : kept_but (fun b => b ∈ l) ss ss';
  tr_incoming : num_incoming_streams ss' = num_incoming_streams ss;
  tr_gone : forall a, a ∈ l -> se_streams ss' !! a = None;
}.

Lemma trimmed_nil ss kids r : trimmed ss kids [] r ss kids.
Proof using. split; [constructor|done|done|]. by intros a ?%elem_of_nil. Qed.

Lemma trimmed_cons ss kids a k1 l r ss1 ss' kids' : rfc_step kids (DepRemove a) k1 -> kept_but (eq a) ss ss1 -> num_incoming_streams ss1 = num_incoming_streams ss ->
  se_streams ss1 !! a = None -> a ∉ l -> trimmed ss1 (delete a k1) l r ss' kids' -> trimmed ss kids (a :: l) r ss' kids'.
Proof using.
  intros Hst HK Hn Ha Hal [H1 H2 H3 H4]. split; [by econstructor| |congruence|].
  - etrans; [apply (kept_but_mono _ _ _ _ HK); intros b <-; by left|apply (kept_but_mono _ _ _ _ H2); intros b Hb; by right].
  - intros b [-> |Hb]%elem_of_cons; [|by apply H4]. by apply (kept_none _ _ _ _ H2).
Qed.

Lemma small_counts X Y ss kids lc li : sess_ok X Y ss kids lc li ->
  num_closed_streams ss = zlen lc /\ num_idle_streams ss = zlen li /\ zlen lc <= Z.of_nat (size (se_streams ss)) /\ zlen li <= Z.of_nat (size (se_streams ss)) /\
  0 <= num_incoming_streams ss <= 2 ^ 31 /\ zlen lc <= 2 ^ 31.
Proof using.
  intros [HI HB _]. pose proof (si_size _ _ _ HI) as Hsz. pose proof (list_small _ _ _ _ _ _ _ _ (bk_closed _ _ _ _ HB)).
  pose proof (list_small _ _ _ _ _ _ _ _ (bk_idle _ _ _ _ HB)). pose proof (count_bound (server ss) X RIncoming (scards ss)).
  rewrite (co_incoming _ _ _ _ (bk_counts _ _ _ _ HB)), (lo_n _ _ _ _ _ _ _ _ (bk_closed _ _ _ _ HB)), (lo_n _ _ _ _ _ _ _ _ (bk_idle _ _ _ _ HB)).
  unfold scards, cards in *. rewrite map_size_fmap in *. unfold INT32_MAX in Hsz. lia.
Qed.

Lemma adjust_closed_loop_ok fuel max : forall ss kids lc li, (length lc <= fuel)%nat -> sess_ok ∅ ∅ ss kids lc li ->
  sp (adjust_closed_loop realloc_ok fuel max) ss (fun rv ss' => rv = NGHTTP2_ERR_NOMEM /\ refused realloc_ok \/
    rv = 0 /\ exists l r kids', lc = l ++ r /\ trimmed ss kids l r ss' kids' /\ sess_ok ∅ ∅ ss' kids' r li /\
      (r = [] \/ zlen r + num_incoming_streams ss <= max) /\ (l = [] \/ max < zlen r + 1 + num_incoming_streams ss)).
Proof using.
  induction fuel as [|fuel IH]; intros ss kids lc li Hf HO; destruct (small_counts _ _ _ _ _ _ HO) as (Enc & _ & Hlc & _ & Hin & Hlc31);
    cbn [adjust_closed_loop]; do 2 sp_step; rewrite Enc, u64_id by (unfold is_u64; lia).
  - destruct lc; [|simpl in Hf; lia]. simpl. sp_step. right. split; [done|]. exists [], [], kids. split_and!; try done; [apply trimmed_nil|by left|by left].
  - destruct (Z.ltb_spec max (zlen lc + num_incoming_streams ss)) as [Hm|Hm]; [|rewrite andb_false_r; sp_step; right; split; [done|];
      exists [], lc, kids; split_and!; try done; [apply trimmed_nil|right; lia|by left]].
    destruct lc as [|a lc]; [simpl; sp_step; right; split; [done|]; exists [], [], kids; split_and!; try done; [apply trimmed_nil|by left|by left]|].
    rewrite (proj2 (Z.ltb_lt _ _)) by (simpl; lia). simpl andb. cbv iota.
    destruct (list_head_fresh _ _ _ _ _ _ _ _ _ (bk_closed _ _ _ _ (so_books _ _ _ _ _ _ HO))) as (_ & _ & _ & -> & _).
    eapply (turn_closed ∅ ∅); [set_solver|exact HO|by left|].
    intros ss1 k1 Hst HO1 HK (ss0 & (w & -> & _) & id & ->) Hgone. eapply sp_mono; [apply (IH _ _ lc li ltac:(simpl in Hf; lia) HO1)|].
    intros rv ss' [?|(-> & l & r & kids' & -> & HT & HO' & H1 & H2)]; [by left|right]. split; [done|]. exists (a :: l), r, kids'. split; [done|]. simpl in H1, H2.
    split; [|split; [done|]; split; [done|right]].
    + eapply trimmed_cons; [exact Hst|exact HK|done|exact Hgone| |exact HT].
      pose proof (lo_nodup _ _ _ _ _ _ _ _ (bk_closed _ _ _ _ (so_books _ _ _ _ _ _ HO))) as [Hal _]%NoDup_cons. set_solver.
    + destruct H2 as [-> |?]; [|lia]. simpl in Hm. lia.
Qed.

Lemma adjust_idle_loop_ok fuel max : 0 <= max -> forall ss kids lc li, (length li <= fuel)%nat -> sess_ok ∅ ∅ ss kids lc li ->
  sp (adjust_idle_loop realloc_ok fuel max) ss (fun rv ss' => rv = NGHTTP2_ERR_NOMEM /\ refused realloc_ok \/
    rv = 0 /\ exists l r kids', li = l ++ r /\ trimmed ss kids l r ss' kids' /\ sess_ok ∅ ∅ ss' kids' lc r /\
      zlen r <= max /\ (l = [] \/ zlen r = max)).
Proof using.
  intros Hmax. induction fuel as [|fuel IH]; intros ss kids lc li Hf HO; destruct (small_counts _ _ _ _ _ _ HO) as (_ & Eni & _ & Hli & _);
    cbn [adjust_idle_loop]; do 2 sp_step; rewrite Eni.
  - destruct li; [|simpl in Hf; lia]. rewrite (proj2 (Z.ltb_ge _ _)) by (simpl; lia). sp_step. right. split; [done|]. exists [], [], kids.
    split_and!; try done; [apply trimmed_nil|by left].
  - destruct (Z.ltb_spec max (zlen li)) as [Hm|Hm]; [|sp_step; right; split; [done|]; exists [], li, kids; split_and!; try done; [apply trimmed_nil|by left]].
    destruct li as [|a li]; [simpl in Hm; lia|].
    destruct (list_head_fresh _ _ _ _ _ _ _ _ _ (bk_idle _ _ _ _ (so_books _ _ _ _ _ _ HO))) as (_ & _ & _ & -> & _).
    eapply (turn_idle ∅ ∅); [set_solver|exact HO|by left|].
    intros ss1 k1 Hst HO1 HK (ss0 & (w & -> & _) & id & ->) Hgone. eapply sp_mono; [apply (IH _ _ lc li ltac:(simpl in Hf; lia) HO1)|].
    intros rv ss' [?|(-> & l & r & kids' & -> & HT & HO' & H1 & H2)]; [by left|right]. split; [done|]. exists (a :: l), r, kids'. split; [done|].
    split; [|split; [done|]; split; [done|right]].
    + eapply trimmed_cons; [exact Hst|exact HK|done|exact Hgone| |exact HT].
      pose proof (lo_nodup _ _ _ _ _ _ _ _ (bk_idle _ _ _ _ (so_books _ _ _ _ _ _ HO))) as [Hal _]%NoDup_cons. set_solver.
    + destruct H2 as [-> |?]; [|lia]. simpl in Hm. lia.
Qed.

(** The limits that the settings give. *)
Definition max_closed_streams ss : Z :=
  if max_concurrent_streams (local_settings ss) =? NGHTTP2_DEFAULT_MAX_CONCURRENT_STREAMS
  then pending_local_max_concurrent_stream ss else max_concurrent_streams (local_settings ss).

Lemma sp_adjust_closed ss kids lc li : sess_ok ∅ ∅ ss kids lc li ->
  sp (nghttp2_session_adjust_closed_stream realloc_ok) ss (fun rv ss' => rv = NGHTTP2_ERR_NOMEM /\ refused realloc_ok \/
    rv = 0 /\ exists l r kids', lc = l ++ r /\ trimmed ss kids l r ss' kids' /\ sess_ok ∅ ∅ ss' kids' r li /\
      (r = [] \/ zlen r + num_incoming_streams ss <= max_closed_streams ss) /\ (l = [] \/ max_closed_streams ss < zlen r + 1 + num_incoming_streams ss)).
Proof using.
  intros HO. destruct (small_counts _ _ _ _ _ _ HO) as (_ & _ & ? & _). unfold nghttp2_session_adjust_closed_stream. do 2 sp_step.
  apply adjust_closed_loop_ok; [lia|done].
Qed.

Lemma sp_adjust_idle ss kids lc li : sess_ok ∅ ∅ ss kids lc li ->
  sp (nghttp2_session_adjust_idle_stream realloc_ok) ss (fun rv ss' => rv = NGHTTP2_ERR_NOMEM /\ refused realloc_ok \/
    rv = 0 /\ exists l r kids', li = l ++ r /\ trimmed ss kids l r ss' kids' /\ sess_ok ∅ ∅ ss' kids' lc r /\
      zlen r <= max_idle_streams ss /\ (l = [] \/ zlen r = max_idle_streams ss)).
Proof using.
  intros HO. destruct (small_counts _ _ _ _ _ _ HO) as (_ & _ & _ & ? & _). unfold nghttp2_session_adjust_idle_stream. do 2 sp_step.
  apply adjust_idle_loop_ok; [unfold max_idle_streams; lia|lia|done].
Qed.

End Adjust.
