(* ===== verification/SessionPrio.v ===== *)
(** * Sessions: changing priorities

    [nghttp2_session_reprioritize_stream] moves a stream with everything
    below it to another place of the dependency tree; when the new parent is
    below the stream, it takes the place of the stream first (RFC 7540, 5.3.3). *)

From S2P Require Import Prelude Defs Pq Frame Http Stream StreamLinks StreamQueue StreamTree StreamInsert StreamRemove StreamDistribute StreamCut.
From S2P Require Import StreamItems StreamFrame StreamSpec Outbound Session SessionInv SessionTree SessionBooks SessionForest SessionOpen.

Implicit Types (a b d p q x y : Z) (h : gmap Z nghttp2_stream) (ss : nghttp2_session) (lc li l : list Z) (X Y : gset Z) (kids : gmap Z (list Z)).

(** ** Ancestors in the tree of children *)

Definition child_of kids x p : Prop := exists l, kids !! p = Some l /\ x ∈ l.

(** [y] is [x] or an ancestor of it. *)
Definition below kids : relation Z := rtc (child_of kids).

Lemma child_parent h kids x p : stream_inv h kids -> child_of kids x p -> parent_of h x p.
Proof. intros HI (l & Hl & Hx). destruct (tree_kid _ _ _ _ _ (si_tree _ _ _ HI) Hl Hx) as (d & Hd & Hp). apply deps_lookup_inv in Hd as (s & Hs & <-). by exists s. Qed.

Lemma parent_child h kids x p : stream_inv h kids -> parent_of h x p -> child_of kids x p.
Proof. intros HI (s & Hs & Hp). exact (t_parent _ _ (si_tree _ _ _ HI) x (st_dep s) p (deps_lookup _ _ _ Hs) Hp). Qed.

Lemma below_chain h kids x y l : stream_inv h kids -> chain h x l -> below kids x y <-> y ∈ x :: l.
Proof.
  intros HI Hch. split.
  - intros Hb. revert l Hch. induction Hb as [x|x z y Hxz Hb IH]; intros l Hch; [by left|].
    apply (child_parent h) in Hxz as (s & Hs & Hp); [|done]. right. inversion Hch as [? d Hd Hr|? d p l' Hd Hp' Hch']; subst.
    + rewrite (deps_lookup _ _ _ Hs) in Hd. injection Hd as <-. congruence.
    + rewrite (deps_lookup _ _ _ Hs) in Hd. injection Hd as <-. assert (p = z) as -> by congruence. by apply IH.
  - induction Hch as [x d Hd Hr|x d p l Hd Hp Hch IH]; [intros ->%list_elem_of_singleton; apply rtc_refl|].
    intros [->|Hy]%elem_of_cons; [apply rtc_refl|]. apply rtc_l with p; [|by apply IH]. apply (parent_child h); [done|].
    apply deps_lookup_inv in Hd as (s & Hs & <-). by exists s.
Qed.

Lemma above_below h kids s p : stream_inv h kids -> above h s p -> below kids p s.
Proof. intros HI (l & Hch & Hin). by apply (below_chain h kids p s l). Qed.

Lemma below_acyclic h kids x p : stream_inv h kids -> child_of kids x p -> ~ below kids p x.
Proof.
  intros HI Hc Hb. apply (child_parent h) in Hc as (s & Hs & Hp); [|done].
  destruct (t_acyclic _ _ (si_tree _ _ _ HI) p) as [l Hl].
  { destruct (t_parent _ _ (si_tree _ _ _ HI) x (st_dep s) p (deps_lookup _ _ _ Hs) Hp) as (l & Hl & _). apply (t_dom _ _ (si_tree _ _ _ HI)). eauto. }
  apply (below_chain h kids p x l) in Hb; [|done|done]. by apply (dchain_child _ _ _ _ _ Hl (deps_lookup _ _ _ Hs) Hp).
Qed.

Lemma child_unique h kids x p q : stream_inv h kids -> child_of kids x p -> child_of kids x q -> q = p.
Proof. intros HI (l & Hl & Hx) (l' & Hl' & Hx'). by eapply (tree_unique _ _ _ _ _ _ _ (si_tree _ _ _ HI)). Qed.

Lemma child_kid kids x : is_kid kids x <-> exists p, child_of kids x p.
Proof. done. Qed.

(** ** Taking a stream out with everything below it *)

Section Cut.
Context h kids (HI : stream_inv h kids).

Lemma child_cut q s l1 l2 x p : kids !! q = Some (l1 ++ s :: l2) -> child_of (<[q := l1 ++ l2]> kids) x p <-> child_of kids x p /\ x <> s.
Proof using HI.
  intros Hq. split.
  - intros (l & Hl & Hx). assert (x <> s) as Hne by (intros ->; apply (cut_alone h kids HI q s l1 l2 Hq); by exists p, l). split; [|done].
    apply lookup_insert_Some in Hl as [[<- <-]|[_ Hl]]; [exists (l1 ++ s :: l2); set_solver|by exists l].
  - intros [(l & Hl & Hx) Hne]. destruct (decide (p = q)) as [->|]; [|exists l; by rewrite lookup_insert_ne].
    exists (l1 ++ l2). rewrite lookup_insert_eq. split; [done|]. rewrite Hq in Hl. injection Hl as <-. set_solver.
Qed.

Lemma below_cut q s l1 l2 x y : kids !! q = Some (l1 ++ s :: l2) -> below (<[q := l1 ++ l2]> kids) x y -> below kids x y.
Proof using HI. intros Hq. apply rtc_subrel. intros a b Hab. by apply (child_cut q s l1 l2) in Hab as [? _]. Qed.

End Cut.

Lemma child_added kids p s l x y : kids !! p = Some l -> child_of (<[p := s :: l]> kids) x y <-> child_of kids x y \/ x = s /\ y = p.
Proof.
  intros Hp. split.
  - intros (l' & Hl & Hx). apply lookup_insert_Some in Hl as [[<- <-]|[_ Hl]]; [|left; by exists l'].
    apply elem_of_cons in Hx as [->|Hx]; [by right|left; by exists l].
  - intros [(l' & Hl & Hx)|[-> ->]]; [|exists (s :: l); rewrite lookup_insert_eq; split; [done|by left]].
    destruct (decide (y = p)) as [->|]; [|exists l'; by rewrite lookup_insert_ne]. exists (s :: l). rewrite lookup_insert_eq. split; [done|].
    rewrite Hp in Hl. injection Hl as <-. by right.
Qed.

Lemma kid_inserted kids p s l ks b : kids !! p = Some l -> kids !! s = Some ks -> p <> s ->
  is_kid (<[p := [s]]> (<[s := ks ++ l]> kids)) b <-> b = s \/ is_kid kids b.
Proof.
  intros Hp Hs Hne. split.
  - intros (q & l' & Hl & Hb). apply lookup_insert_Some in Hl as [[<- <-]|[_ Hl]]; [left; by apply list_elem_of_singleton|right].
    apply lookup_insert_Some in Hl as [[<- <-]|[_ Hl]]; [|by exists q, l']. apply elem_of_app in Hb as [Hb|Hb]; [by exists s, ks|by exists p, l].
  - intros [->|(q & l' & Hl & Hb)]; [exists p, [s]; split; [by rewrite lookup_insert_eq|by left]|].
    destruct (decide (q = p)) as [->|Hqp]; [|destruct (decide (q = s)) as [->|]; [|exists q, l'; by rewrite !lookup_insert_ne by done]];
      exists s, (ks ++ l); (split; [by rewrite lookup_insert_ne, lookup_insert_eq by done|]); simplify_eq; apply elem_of_app; auto.
Qed.

(** ** A stream moves with everything below it *)

(** [a] is out of the tree, with everything below it. *)
Record uprooted X a ss kids lc li : Prop := {
  ur_tree : stream_inv (se_streams ss) kids;
  ur_books : book_ok X ss lc li;
  ur_below : forall b, is_Some (kids !! b) -> b <> root -> b <> a -> is_kid kids b;
  ur_root : is_Some (kids !! root) /\ ~ is_kid kids root;
  ur_loose : a <> root /\ is_Some (kids !! a) /\ ~ is_kid kids a;
}.

Section Moves.
Context (realloc_ok : nat -> bool).

Definition links_outcome ss (P : nghttp2_session -> Prop) : Z -> nghttp2_session -> Prop :=
  tree_outcome realloc_ok ss (fun ss' => P ss' /\ wts (se_streams ss') = wts (se_streams ss)).

Lemma sp_cut X ss kids lc li q a l1 l2 : sess_ok X ∅ ss kids lc li -> kids !! q = Some (l1 ++ a :: l2) -> a <> root ->
  sp (on_streams (nghttp2_stream_dep_remove_subtree a)) ss (fun _ ss' => uprooted X a ss' (<[q := l1 ++ l2]> kids) lc li /\ replanted ss ss' /\
    wts (se_streams ss') = wts (se_streams ss)).
Proof using.
  intros [HI HB HF] Hq Hr. eapply sp_links; [apply keeps_dep_remove_subtree; apply _|exact (wp_dep_remove_subtree q a (se_world ss) kids l1 l2 HI Hq)|].
  intros [] w HP HS HW. assert (replanted ss (world_to w ss)) as HR by by exists w. split; [|done].
  assert (forall b, is_Some (<[q := l1 ++ l2]> kids !! b) <-> is_Some (kids !! b)) as Hdom.
  { intros b. rewrite lookup_insert. case_decide as E; [|done]. rewrite <- E, Hq. by split; eauto. }
  split; [exact HP|by eapply replanted_book| | |].
  - intros b Hb Hbr Hba. apply Hdom in Hb. destruct (fo_below _ _ HF b Hb Hbr) as (p & Hp); [set_solver|]. exists p. by apply (child_cut (se_streams ss) kids HI q a l1 l2).
  - rewrite Hdom. split; [apply HF|]. intros (p & [Hp _]%(child_cut (se_streams ss) kids HI q a l1 l2)); [|done]. apply (fo_root _ _ HF). by exists p.
  - rewrite Hdom. split; [done|]. split; [|by apply (cut_alone (se_streams ss))]. destruct (tree_kid _ _ _ _ a (si_tree _ _ _ HI) Hq ltac:(set_solver)) as (d & Hd & _).
    apply (t_dom _ _ (si_tree _ _ _ HI)). eauto.
Qed.

Lemma uprooted_link X a ss kids lc li p : uprooted X a ss kids lc li -> is_Some (kids !! p) -> ~ below kids p a -> can_link (se_streams ss) p a /\ p <> a.
Proof using.
  intros [HI HB _ _ (Hr & Hka & Hno)] Hp Hb. split; [|intros ->; apply Hb, rtc_refl]. split; [by apply (inv_dom _ kids _ HI)|].
  split; [intros H; by apply Hb, (above_below (se_streams ss))|]. apply (inv_dom _ kids _ HI) in Hka as [s Hs]. exists s. split; [done|].
  split; [|by eapply plain]. apply eq_None_not_Some. by rewrite <- (kid_parent _ kids a s HI Hs).
Qed.

Lemma sp_plant X ss kids lc li p a l : uprooted X a ss kids lc li -> kids !! p = Some l -> ~ below kids p a ->
  sp (on_streams (nghttp2_stream_dep_add_subtree realloc_ok p a)) ss (links_outcome ss (fun ss' => sess_ok X ∅ ss' (<[p := a :: l]> kids) lc li)).
Proof using.
  intros HU Hp Hb. destruct (uprooted_link _ _ _ _ _ _ p HU ltac:(eauto) Hb) as [HC Hne]. pose proof HU as [HI HB H1 [H2 H3] (H4 & H5 & H6)].
  eapply sp_links; [apply keeps_dep_add_subtree; apply _|exact (wp_dep_add_subtree realloc_ok p a (se_world ss) kids l HI HC Hp)|].
  intros rv w [HP|[-> HP]] HS HW; [by left|right]. assert (replanted ss (world_to w ss)) as HR by by exists w.
  split; [done|]. split; [done|]. split; [|done]. split; [exact HP|by eapply replanted_book|]. split.
  - intros b Hb' Hbr _. rewrite kid_add by done. destruct (decide (b = a)) as [->|]; [by left|right]. apply H1; [|done|done].
    rewrite lookup_insert_is_Some in Hb'. destruct Hb' as [<-|[_ ?]]; eauto.
  - rewrite kid_add by done. split; [by apply insert_some|by intros [?|?]].
  - set_solver.
Qed.

Lemma sp_plant_exclusive X ss kids lc li p a l : uprooted X a ss kids lc li -> kids !! p = Some l -> ~ below kids p a ->
  sp (on_streams (nghttp2_stream_dep_insert_subtree realloc_ok p a)) ss (links_outcome ss (fun ss' =>
    exists ks, kids !! a = Some ks /\ sess_ok X ∅ ss' (<[p := [a]]> (<[a := ks ++ l]> kids)) lc li)).
Proof using.
  intros HU Hp Hb. destruct (uprooted_link _ _ _ _ _ _ p HU ltac:(eauto) Hb) as [HC Hne]. pose proof HU as [HI HB H1 [H2 H3] (H4 & [ks Hks] & H6)].
  eapply sp_links; [apply keeps_dep_insert_subtree; apply _|exact (wp_dep_insert_subtree realloc_ok p a (se_world ss) kids l ks HI HC Hp Hks)|].
  intros rv w [HP|[-> HP]] HS HW; [by left|right]. assert (replanted ss (world_to w ss)) as HR by by exists w.
  split; [done|]. split; [done|]. split; [|done]. exists ks. split; [done|]. split; [exact HP|by eapply replanted_book|]. split.
  - intros b Hb' Hbr _. rewrite kid_inserted by done. destruct (decide (b = a)) as [->|]; [by left|right]. apply H1; [|done|done].
    rewrite !lookup_insert_is_Some in Hb'. destruct Hb' as [<-|[_ [<-|[_ ?]]]]; eauto.
  - rewrite kid_inserted by done. split; [by do 2 apply insert_some|by intros [?|?]].
  - set_solver.
Qed.

End Moves.

(** ** What RFC 7540, 5.3.3, asks for *)

(** When the new parent [d] is below [a] it moves to the parent of [a] first. *)
Inductive lifted kids a d : gmap Z (list Z) -> Prop :=
  | lift_none : ~ below kids d a -> lifted kids a d kids
  | lift_up p k1 k2 : below kids d a -> child_of kids a p -> rfc_step kids (DepRemoveSubtree d) k1 -> rfc_step k1 (DepAddSubtree p d) k2 -> lifted kids a d k2.

(** Then [a] moves below [d], unless it is there already and not to be the only one. *)
Inductive repositioned kids a d (exclusive : bool) : gmap Z (list Z) -> Prop :=
  | rep_weight : child_of kids a d -> exclusive = false -> repositioned kids a d exclusive kids
  | rep_move k1 k2 : ~ (child_of kids a d /\ exclusive = false) -> rfc_step kids (DepRemoveSubtree a) k1 ->
      rfc_step k1 (if exclusive then DepInsertSubtree d a else DepAddSubtree d a) k2 -> repositioned kids a d exclusive k2.

Section Prio.
Context (realloc_ok : nat -> bool).

Lemma replanted_trans ss1 ss2 ss3 : replanted ss1 ss2 -> replanted ss2 ss3 -> replanted ss1 ss3.
Proof using. intros (w & -> & H1) (w' & -> & H2). exists w'. split; [done|]. unfold same_base in *. by rewrite H2. Qed.

Lemma replanted_refl ss : replanted ss ss.
Proof using. exists (se_world ss). by rewrite world_to_id. Qed.

Lemma sp_find_ancestor X Y ss kids lc li d a (Q : bool -> nghttp2_session -> Prop) : sess_ok X Y ss kids lc li -> is_Some (kids !! d) ->
  (below kids d a -> Q true ss) -> (~ below kids d a -> Q false ss) -> sp (on_streams (nghttp2_stream_dep_find_ancestor d a)) ss Q.
Proof using.
  intros [HI HB HF] Hd H1 H2. apply sp_on_streams. destruct (t_acyclic _ _ (si_tree _ _ _ HI) d) as [l Hl]; [by apply (t_dom _ _ (si_tree _ _ _ HI))|].
  eapply wp_find_ancestor; [exact Hl|]. rewrite world_to_id. pose proof (below_chain _ kids d a l HI Hl) as E.
  case_bool_decide as Hin; [by apply H1, E|apply H2; by rewrite E].
Qed.

Lemma kid_position_of kids x p : child_of kids x p -> exists l1 l2, kids !! p = Some (l1 ++ x :: l2).
Proof using. intros (l & Hl & Hx). by eapply kid_position. Qed.

(** The former dependency of [a] is lifted. *)
Lemma sp_lift X ss kids lc li a d (s : nghttp2_stream) : sess_ok X ∅ ss kids lc li -> se_streams ss !! a = Some s -> a <> root -> d <> a -> is_Some (kids !! d) ->
  sp (let! cyclic := on_streams (nghttp2_stream_dep_find_ancestor d a) in
      if cyclic then
        on_streams (nghttp2_stream_dep_remove_subtree d);;
        let! s := load_stream a in
        let! p := on_streams (deref (dep_prev s)) in
        on_streams (nghttp2_stream_dep_add_subtree realloc_ok p d)
      else mret 0) ss (links_outcome realloc_ok ss (fun ss' => exists kids', lifted kids a d kids' /\ ~ below kids' d a /\ sess_ok X ∅ ss' kids' lc li)).
Proof using.
  intros HO Hs Har Hda Hd. pose proof HO as [HI HB HF]. sp_step. eapply sp_find_ancestor; [exact HO|exact Hd| |].
  2: { intros Hb. sp_step. right. split; [done|]. split; [apply replanted_refl|]. split; [|done]. exists kids. by split; [apply lift_none|]. }
  intros Hb. assert (exists z, child_of kids d z) as (q & Hdq) by (apply rtc_inv in Hb as [?|(z & ? & _)]; [done|eauto]).
  assert (d <> root) as Hdr by (intros ->; apply (fo_root _ _ HF); by exists q).
  destruct (fo_below _ _ HF a) as (p & Hap); [apply (inv_dom _ kids _ HI); eauto|done|set_solver|].
  destruct (kid_position_of _ _ _ Hdq) as (l1 & l2 & Hq). sp_step.
  eapply sp_mono; [exact (sp_cut X ss kids lc li q d l1 l2 HO Hq Hdr)|]. intros [] ss1 (HU & HR & HW). set (k1 := <[q := l1 ++ l2]> kids) in *.
  assert (child_of k1 a p) as Hap1 by (apply (child_cut (se_streams ss) kids HI q d l1 l2); [done|split; [exact Hap|congruence]]).
  destruct (child_parent _ _ _ _ (ur_tree _ _ _ _ _ _ HU) Hap1) as (s1 & Hs1 & Hp1). destruct (Hap1) as (lp & Hlp & _).
  sp_step. eapply sp_load; [exact Hs1|]. sp_step. rewrite Hp1. apply sp_on_streams, wp_ret. rewrite world_to_id.
  assert (~ below k1 p d) as Hpd.
  { intros H. apply (below_cut (se_streams ss) kids HI q d l1 l2 p d Hq) in H. apply (below_acyclic (se_streams ss) kids a p HI Hap). by etrans. }
  eapply sp_mono; [exact (sp_plant realloc_ok X ss1 k1 lc li p d lp HU Hlp Hpd)|].
  intros rv ss2 [?|(-> & HR2 & HO2 & HW2)]; [by left|right]. split; [done|]. split; [by eapply replanted_trans|]. split; [|by rewrite HW2].
  exists (<[p := d :: lp]> k1). split; [|split; [|done]].
  - eapply lift_up; [done|exact Hap|by apply rfc_remove_subtree|by apply rfc_add_subtree].
  - intros H. apply rtc_inv in H as [?|(z & Hz & H)]; [done|]. assert (child_of (<[p := d :: lp]> k1) d p) as Hdp by (apply child_added; auto).
    rewrite (child_unique _ _ d p z (so_tree _ _ _ _ _ _ HO2) Hdp Hz) in H.
    apply (below_acyclic _ _ a p (so_tree _ _ _ _ _ _ HO2)); [|exact H]. apply child_added; auto.
Qed.

(** The weight of a stream outside of the tree. *)
Lemma sp_weigh X ss kids lc li a (s : nghttp2_stream) n : uprooted X a ss kids lc li -> se_streams ss !! a = Some s -> 1 <= n <= 256 ->
  sp (modify_stream a (upd_dep (weight_to n))) ss (fun _ ss' => uprooted X a ss' kids lc li /\ replanted ss ss' /\
    exists s' : nghttp2_stream, se_streams ss' !! a = Some s' /\ weight s' = n).
Proof using.
  intros [HI HB H1 H2 H3] Hs Hn. eapply sp_modify; [exact Hs|]. set (ss' := streams_to _ _).
  assert (replanted ss ss') as HR.
  { eexists. split; [done|]. unfold same_base. simpl. rewrite fmap_insert. apply insert_id. by rewrite lookup_fmap, Hs. }
  split; [|split; [done|]].
  - split; [|by eapply replanted_book|done|done|done]. apply root_weight_inv; [done|done| |done]. apply eq_None_not_Some.
    rewrite <- (kid_parent _ kids a s HI Hs). apply H3.
  - eexists. split; [by apply lookup_insert_eq|done].
Qed.

#[local] Hint Extern 1 (OffLinks _) => typeclasses eauto : keeps.
#[local] Hint Resolve keeps_next_cycle : keeps.

Lemma change_weight_sets a n w w' u (s : nghttp2_stream) : streams w !! a = Some s -> nghttp2_stream_change_weight realloc_ok a n w = Some (w', u) ->
  exists s' : nghttp2_stream, streams w' !! a = Some s' /\ weight s' = n.
Proof using.
  intros Hs E. unfold nghttp2_stream_change_weight in E. rewrite (run_load a s) in E by done.
  destruct (Z.eqb_spec (weight s) n) as [Hw|_]; [injection E as <- _; eauto|]. cbv zeta in E. rewrite (run_modify a _ s) in E by done.
  match type of E with ?m ?w1 = _ => assert (keeps skin m) as HK by keeps_steps; apply HK in E end.
  apply (f_equal (fmap snd)) in E. rewrite <- !map_fmap_compose in E. simpl in E.
  exact (wts_lookup (<[a := upd_dep (weight_to n) s]> (streams w)) (streams w') a (upd_dep (weight_to n) s) E (lookup_insert_eq _ _ _)).
Qed.

Lemma sp_reposition X ss kids lc li a d (s : nghttp2_stream) n excl : sess_ok X ∅ ss kids lc li -> se_streams ss !! a = Some s -> a <> root -> is_Some (kids !! d) ->
  ~ below kids d a -> 1 <= n <= 256 ->
  sp (let! s := load_stream a in
      if bool_decide (dep_prev s = Some d) && (excl =? 0) then
        on_streams (nghttp2_stream_change_weight realloc_ok a n);; mret 0
      else
        on_streams (nghttp2_stream_dep_remove_subtree a);;
        modify_stream a (upd_dep (weight_to n));;
        if negb (excl =? 0) then on_streams (nghttp2_stream_dep_insert_subtree realloc_ok d a)
        else on_streams (nghttp2_stream_dep_add_subtree realloc_ok d a)) ss
    (tree_outcome realloc_ok ss (fun ss' => exists kids', repositioned kids a d (negb (excl =? 0)) kids' /\ sess_ok X ∅ ss' kids' lc li /\
       exists s' : nghttp2_stream, se_streams ss' !! a = Some s' /\ weight s' = n)).
Proof using.
  intros HO Hs Har Hd Hb Hn. pose proof HO as [HI HB HF]. sp_step. eapply sp_load; [exact Hs|].
  destruct (fo_below _ _ HF a) as (q & Haq); [apply (inv_dom _ kids _ HI); eauto|done|set_solver|].
  assert (bool_decide (dep_prev s = Some d) && (excl =? 0) = true <-> child_of kids a d /\ negb (excl =? 0) = false) as Etest.
  { rewrite andb_true_iff, bool_decide_eq_true, negb_false_iff. apply and_iff_compat_r. split; intros H.
    - apply (parent_child (se_streams ss)); [done|]. by exists s.
    - apply (child_parent (se_streams ss)) in H as (s' & Hs' & E); [|done]. congruence. }
  destruct (bool_decide (dep_prev s = Some d) && (excl =? 0)) eqn:Et.
  - destruct (proj1 Etest eq_refl) as [Hc He]. sp_step.
    eapply (sp_tree _ _ (fun _ w => stream_inv (streams w) kids /\ exists s' : nghttp2_stream, streams w !! a = Some s' /\ weight s' = n));
      [apply keeps_change_weight; apply _| |].
    { pose proof (wp_change_weight realloc_ok a n (se_world ss) kids HI ltac:(eauto) Hn) as HW. unfold wp in HW |- *.
      destruct (nghttp2_stream_change_weight _ _ _ _) as [[w u]|] eqn:E; [|done]. split; [done|by eapply change_weight_sets]. }
    intros [] w [HP Hwt] HS. sp_step. assert (replanted ss (world_to w ss)) as HR by by exists w. right. split; [done|]. split; [done|]. exists kids.
    split; [by apply rep_weight|]. split; [split; [exact HP|by eapply replanted_book|done]|exact Hwt].
  - assert (~ (child_of kids a d /\ negb (excl =? 0) = false)) as Hmove by (intros H; apply Etest in H; done). clear Etest Et.
    destruct (kid_position_of _ _ _ Haq) as (l1 & l2 & Hq). sp_step.
    eapply sp_mono; [exact (sp_cut X ss kids lc li q a l1 l2 HO Hq Har)|]. intros [] ss1 (HU & HR & HW). set (k1 := <[q := l1 ++ l2]> kids) in *.
    destruct (wts_lookup _ _ _ _ HW Hs) as (s1 & Hs1 & _). sp_step.
    eapply sp_mono; [exact (sp_weigh X ss1 k1 lc li a s1 n HU Hs1 Hn)|]. intros [] ss2 (HU2 & HR2 & s2 & Hs2 & Ew2).
    assert (~ below k1 d a) as Hb1 by (intros H; by apply Hb, (below_cut (se_streams ss) kids HI q a l1 l2)).
    assert (is_Some (k1 !! d)) as [ld Hld] by by apply insert_some.
    assert (rfc_step kids (DepRemoveSubtree a) k1) as Hst by by apply rfc_remove_subtree.
    destruct (excl =? 0) eqn:Ee; simpl in *.
    + eapply sp_mono; [exact (sp_plant realloc_ok X ss2 k1 lc li d a ld HU2 Hld Hb1)|]. intros rv ss3 [?|(-> & HR3 & HO3 & HW3)]; [by left|right].
      split; [done|]. split; [eapply replanted_trans; [exact HR|by eapply replanted_trans]|]. eexists.
      split; [|split; [exact HO3|rewrite <- Ew2; exact (wts_lookup _ _ _ _ HW3 Hs2)]].
      eapply rep_move; [done|exact Hst|by apply rfc_add_subtree].
    + eapply sp_mono; [exact (sp_plant_exclusive realloc_ok X ss2 k1 lc li d a ld HU2 Hld Hb1)|]. intros rv ss3 [?|(-> & HR3 & (ks & Hks & HO3) & HW3)]; [by left|right].
      split; [done|]. split; [eapply replanted_trans; [exact HR|by eapply replanted_trans]|]. eexists.
      split; [|split; [exact HO3|rewrite <- Ew2; exact (wts_lookup _ _ _ _ HW3 Hs2)]].
      eapply rep_move; [done|exact Hst|by apply rfc_insert_subtree].
Qed.

Context (malloc_ok : nat -> bool) (new_stream : gmap Z nghttp2_stream -> Z) (Hfresh : forall h, h !! new_stream h = None).

(** The stream depended upon is another one. *)
Lemma aims_other X ss kids lc li a (s : nghttp2_stream) pri p pri' kids' : sess_ok X ∅ ss kids lc li -> se_streams ss !! a = Some s -> a <> root ->
  ps_stream_id pri <> stream_id s -> aims ∅ ss kids pri p pri' kids' -> p <> a.
Proof using.
  intros HO Hs Hr Hne HA. destruct HA as [|d _ Hd _|d l _ _ _ Hk _| |]; try done.
  - intros ->. destruct (mapped_stream _ _ _ _ _ _ (so_books _ _ _ _ _ _ HO) Hd) as (_ & s' & Hs' & E). congruence.
  - intros ->. assert (is_Some (kids !! a)) as [? ?]; [|congruence]. apply (inv_dom _ kids _ (so_tree _ _ _ _ _ _ HO)). eauto.
Qed.

Definition reprioritized ss kids lc a (pri : nghttp2_priority_spec) ss' : Prop := exists k0 d pri' k1 k2 li', aims ∅ ss kids pri d pri' k0 /\
  lifted k0 a d k1 /\ repositioned k1 a d (negb (ps_exclusive pri' =? 0)) k2 /\ sess_ok ∅ ∅ ss' k2 lc li' /\
  (exists s' : nghttp2_stream, se_streams ss' !! a = Some s' /\ weight s' = ps_weight pri') /\
  kept_but (fun b => se_streams ss !! b = None) ss ss'.

Lemma sp_reprioritize ss kids lc li a (s : nghttp2_stream) pri : sess_ok ∅ ∅ ss kids lc li -> rfc7540 ss -> room ss 1 -> se_streams ss !! a = Some s ->
  a <> root -> ps_stream_id pri <> stream_id s -> 1 <= ps_weight pri <= 256 ->
  sp (nghttp2_session_reprioritize_stream realloc_ok malloc_ok new_stream a pri) ss (fun rv ss' =>
    rv = NGHTTP2_ERR_NOMEM /\ refusal realloc_ok malloc_ok \/ rv = 0 /\ reprioritized ss kids lc a pri ss').
Proof using Hfresh.
  intros HO Hmode Hroom Hs Hr Hne Hw. pose proof HO as [HI HB HF]. destruct (in_tree _ _ _ _ _ _ _ _ HO Hs Hr ltac:(set_solver)) as (_ & _ & _ & _ & Htree).
  unfold nghttp2_session_reprioritize_stream. do 2 sp_step. sp_step. apply sp_assert.
  { rewrite (rfc7540_fallback _ Hmode), (proj2 (Z.eqb_neq _ _) Hmode). by destruct (server ss). }
  sp_step. eapply sp_load; [exact Hs|]. sp_step. apply sp_assert; [by rewrite (proj2 (Z.eqb_neq _ _) Hne)|]. rewrite Htree. simpl. sp_step.
  apply (sp_mono _ _ (fun r ss' => r = None /\ refusal realloc_ok malloc_ok \/ exists dep pri' p kids' li', r = Some (dep, pri') /\
    aims ∅ ss kids pri p pri' kids' /\ (if ps_stream_id pri' =? 0 then Some root else dep) = Some p /\ is_Some (kids' !! p) /\ (ps_stream_id pri' = 0 -> p = root) /\
    1 <= ps_weight pri' <= 256 /\ sess_ok ∅ ∅ ss' kids' lc li' /\ kept_but (fun b => se_streams ss !! b = None) ss ss')).
  - destruct (Z.eqb_spec (ps_stream_id pri) 0) as [E|E].
    + sp_step. right. exists None, pri, root, kids, li. rewrite E. split_and!; try done; try lia; [by apply aim_root|apply HF].
    + eapply sp_mono; [eapply (sp_find_dep realloc_ok malloc_ok); [exact (idle_opener_S realloc_ok malloc_ok new_stream Hfresh 1)|exact HO|done|done|done|done]|].
      intros r ss' [?|(dep & pri' & p & kids' & li' & -> & H1 & H2 & H3 & H4 & H5 & _ & _ & H8 & _)]; [by left|right].
      exists dep, pri', p, kids', li'. split_and!; try done; try lia; [apply H3|]. intros E0. rewrite E0 in H2. simpl in H2. congruence.
  - intros r ss1 [[-> ?]|(dep & pri' & d & k0 & li1 & -> & HA & Edep & Hd & Hroot & Hw' & HO1 & HK)]; [sp_step; by left|]. rewrite Edep.
    pose proof (aims_other _ _ _ _ _ _ _ _ _ _ _ HO Hs Hr Hne HA) as Hda.
    assert (exists s1 : nghttp2_stream, se_streams ss1 !! a = Some s1) as [s1 Hs1].
    { destruct (se_streams ss1 !! a) eqn:E; [eauto|]. apply (kept_dom _ _ _ _ HK) in E; [congruence|]. congruence. }
    sp_step. apply (sp_mono _ _ (links_outcome realloc_ok ss1 (fun ss' => exists k1, lifted k0 a d k1 /\ ~ below k1 d a /\ sess_ok ∅ ∅ ss' k1 lc li1))).
    + destruct (Z.eqb_spec (ps_stream_id pri') 0) as [E|E]; [|by eapply sp_lift].
      sp_step. right. split; [done|]. split; [apply replanted_refl|]. split; [|done]. exists k0. rewrite (Hroot E).
      assert (~ below k0 root a) as Hb. { intros H. apply rtc_inv in H as [?|(z & Hz & _)]; [done|]. apply (fo_root _ _ (so_forest _ _ _ _ _ _ HO1)). by exists z. }
      split; [by apply lift_none|done].
    + intros rv ss2 [[-> ?]|(-> & HR2 & (k1 & Hlift & Hb & HO2) & HW2)]; [simpl; sp_step; left; split; [done|by left]|]. simpl.
      destruct (wts_lookup _ _ _ _ HW2 Hs1) as (s2 & Hs2 & _).
      assert (is_Some (k1 !! d)) as Hd1.
      { apply (inv_dom _ k0 _ (so_tree _ _ _ _ _ _ HO1)) in Hd as [sd Hsd]. destruct (wts_lookup _ _ _ _ HW2 Hsd) as (sd' & Hsd' & _).
        apply (inv_dom _ k1 _ (so_tree _ _ _ _ _ _ HO2)). eauto. }
      eapply sp_mono; [exact (sp_reposition ∅ ss2 k1 lc li1 a d s2 (ps_weight pri') (ps_exclusive pri') HO2 Hs2 Hr Hd1 Hb Hw')|].
      intros rv ss3 [[-> ?]|(-> & HR3 & k2 & Hrep & HO3 & Hwt)]; [left; split; [done|by left]|right]. split; [done|].
      exists k0, d, pri', k1, k2, li1. split_and!; try done. etrans; [exact HK|]. etrans; by apply replanted_kept.
Qed.

End Prio.
