(* ===== verification/SessionNew.v ===== *)
(** * Sessions: options and new sessions (nghttp2_option.c, nghttp2_session.c)

    The options an application sets before it makes a session, and the state
    of a new session: the root alone in the dependency tree, empty lists and
    queues, the default settings and what the options change. *)

From S2P Require Import Prelude Defs Ratelim Pq HdToken Frame Http Stream StreamLinks StreamQueue StreamTree StreamItems StreamSpec.
From S2P Require Import Outbound Session SessionInv SessionTree SessionBooks SessionForest.

(** ** Options *)

Definition NGHTTP2_OPT_NO_AUTO_WINDOW_UPDATE : Z := 1.
Definition NGHTTP2_OPT_PEER_MAX_CONCURRENT_STREAMS : Z := Z.shiftl 1 1.
Definition NGHTTP2_OPT_NO_RECV_CLIENT_MAGIC : Z := Z.shiftl 1 2.
Definition NGHTTP2_OPT_NO_HTTP_MESSAGING : Z := Z.shiftl 1 3.
Definition NGHTTP2_OPT_MAX_RESERVED_REMOTE_STREAMS : Z := Z.shiftl 1 4.
Definition NGHTTP2_OPT_USER_RECV_EXT_TYPES : Z := Z.shiftl 1 5.
Definition NGHTTP2_OPT_NO_AUTO_PING_ACK : Z := Z.shiftl 1 6.
Definition NGHTTP2_OPT_BUILTIN_RECV_EXT_TYPES : Z := Z.shiftl 1 7.
Definition NGHTTP2_OPT_MAX_SEND_HEADER_BLOCK_LENGTH : Z := Z.shiftl 1 8.
Definition NGHTTP2_OPT_MAX_DEFLATE_DYNAMIC_TABLE_SIZE : Z := Z.shiftl 1 9.
Definition NGHTTP2_OPT_NO_CLOSED_STREAMS : Z := Z.shiftl 1 10.
Definition NGHTTP2_OPT_MAX_OUTBOUND_ACK : Z := Z.shiftl 1 11.
Definition NGHTTP2_OPT_MAX_SETTINGS : Z := Z.shiftl 1 12.
Definition NGHTTP2_OPT_SERVER_FALLBACK_RFC7540_PRIORITIES : Z := Z.shiftl 1 13.
Definition NGHTTP2_OPT_NO_RFC9113_LEADING_AND_TRAILING_WS_VALIDATION : Z := Z.shiftl 1 14.
Definition NGHTTP2_OPT_STREAM_RESET_RATE_LIMIT : Z := Z.shiftl 1 15.
Definition NGHTTP2_OPT_MAX_CONTINUATIONS : Z := Z.shiftl 1 16.

Definition NGHTTP2_TYPEMASK_ALTSVC : Z := 1.
Definition NGHTTP2_TYPEMASK_ORIGIN : Z := 2.
Definition NGHTTP2_TYPEMASK_PRIORITY_UPDATE : Z := 4.

Record nghttp2_option := mk_option {
  o_stream_reset_burst : Z;
  o_stream_reset_rate : Z;
  o_max_send_header_block_length : Z;
  o_max_deflate_dynamic_table_size : Z;
  o_max_outbound_ack : Z;
  o_max_settings : Z;
  o_max_continuations : Z;
  o_opt_set_mask : Z;
  o_peer_max_concurrent_streams : Z;
  o_max_reserved_remote_streams : Z;
  o_builtin_recv_ext_types : Z;
  o_no_auto_window_update : Z;
  o_no_recv_client_magic : Z;
  o_no_http_messaging : Z;
  o_no_auto_ping_ack : Z;
  o_no_closed_streams : Z;
  o_server_fallback_rfc7540_priorities : Z;
  o_no_rfc9113_leading_and_trailing_ws_validation : Z;
  o_user_recv_ext_types : list Z;
}.

(** [calloc] *)
Definition nghttp2_option_new : nghttp2_option :=
  mk_option 0 0 0 0 0 0 0 0 0 0 0 0 0 0 0 0 0 0 (replicate 32 0).

Definition opt_set (o : nghttp2_option) (bit : Z) : Z := o_opt_set_mask o .| bit.

Definition nghttp2_option_set_no_auto_window_update (o : nghttp2_option) (val : Z) : nghttp2_option :=
  mk_option (o_stream_reset_burst o) (o_stream_reset_rate o) (o_max_send_header_block_length o) (o_max_deflate_dynamic_table_size o)
    (o_max_outbound_ack o) (o_max_settings o) (o_max_continuations o) (opt_set o NGHTTP2_OPT_NO_AUTO_WINDOW_UPDATE)
    (o_peer_max_concurrent_streams o) (o_max_reserved_remote_streams o) (o_builtin_recv_ext_types o) val (o_no_recv_client_magic o)
    (o_no_http_messaging o) (o_no_auto_ping_ack o) (o_no_closed_streams o) (o_server_fallback_rfc7540_priorities o)
    (o_no_rfc9113_leading_and_trailing_ws_validation o) (o_user_recv_ext_types o).

Definition nghttp2_option_set_peer_max_concurrent_streams (o : nghttp2_option) (val : Z) : nghttp2_option :=
  mk_option (o_stream_reset_burst o) (o_stream_reset_rate o) (o_max_send_header_block_length o) (o_max_deflate_dynamic_table_size o)
    (o_max_outbound_ack o) (o_max_settings o) (o_max_continuations o) (opt_set o NGHTTP2_OPT_PEER_MAX_CONCURRENT_STREAMS) val
    (o_max_reserved_remote_streams o) (o_builtin_recv_ext_types o) (o_no_auto_window_update o) (o_no_recv_client_magic o)
    (o_no_http_messaging o) (o_no_auto_ping_ack o) (o_no_closed_streams o) (o_server_fallback_rfc7540_priorities o)
    (o_no_rfc9113_leading_and_trailing_ws_validation o) (o_user_recv_ext_types o).

Definition nghttp2_option_set_no_recv_client_magic (o : nghttp2_option) (val : Z) : nghttp2_option :=
  mk_option (o_stream_reset_burst o) (o_stream_reset_rate o) (o_max_send_header_block_length o) (o_max_deflate_dynamic_table_size o)
    (o_max_outbound_ack o) (o_max_settings o) (o_max_continuations o) (opt_set o NGHTTP2_OPT_NO_RECV_CLIENT_MAGIC)
    (o_peer_max_concurrent_streams o) (o_max_reserved_remote_streams o) (o_builtin_recv_ext_types o) (o_no_auto_window_update o) val
    (o_no_http_messaging o) (o_no_auto_ping_ack o) (o_no_closed_streams o) (o_server_fallback_rfc7540_priorities o)
    (o_no_rfc9113_leading_and_trailing_ws_validation o) (o_user_recv_ext_types o).

Definition nghttp2_option_set_no_http_messaging (o : nghttp2_option) (val : Z) : nghttp2_option :=
  mk_option (o_stream_reset_burst o) (o_stream_reset_rate o) (o_max_send_header_block_length o) (o_max_deflate_dynamic_table_size o)
    (o_max_outbound_ack o) (o_max_settings o) (o_max_continuations o) (opt_set o NGHTTP2_OPT_NO_HTTP_MESSAGING)
    (o_peer_max_concurrent_streams o) (o_max_reserved_remote_streams o) (o_builtin_recv_ext_types o) (o_no_auto_window_update o)
    (o_no_recv_client_magic o) val (o_no_auto_ping_ack o) (o_no_closed_streams o) (o_server_fallback_rfc7540_priorities o)
    (o_no_rfc9113_leading_and_trailing_ws_validation o) (o_user_recv_ext_types o).

Definition nghttp2_option_set_max_reserved_remote_streams (o : nghttp2_option) (val : Z) : nghttp2_option :=
  mk_option (o_stream_reset_burst o) (o_stream_reset_rate o) (o_max_send_header_block_length o) (o_max_deflate_dynamic_table_size o)
    (o_max_outbound_ack o) (o_max_settings o) (o_max_continuations o) (opt_set o NGHTTP2_OPT_MAX_RESERVED_REMOTE_STREAMS)
    (o_peer_max_concurrent_streams o) val (o_builtin_recv_ext_types o) (o_no_auto_window_update o) (o_no_recv_client_magic o)
    (o_no_http_messaging o) (o_no_auto_ping_ack o) (o_no_closed_streams o) (o_server_fallback_rfc7540_priorities o)
    (o_no_rfc9113_leading_and_trailing_ws_validation o) (o_user_recv_ext_types o).

(** [type] is an octet and the array has 32 entries. *)
Definition set_ext_type (ext_types : list Z) (type : Z) : list Z :=
  alter (fun n => u8 (n .| Z.shiftl 1 (type .& 7))) (Z.to_nat (type / 8)) ext_types.

Definition check_ext_type_set (ext_types : list Z) (type : Z) : bool :=
  match ext_types !! Z.to_nat (type / 8) with
  | Some n => 0 <? n .& Z.shiftl 1 (type .& 7)
  | None => false
  end.

Definition nghttp2_option_set_user_recv_extension_type (o : nghttp2_option) (type : Z) : nghttp2_option :=
  if type <? 10 then o
  else
    mk_option (o_stream_reset_burst o) (o_stream_reset_rate o) (o_max_send_header_block_length o) (o_max_deflate_dynamic_table_size o)
      (o_max_outbound_ack o) (o_max_settings o) (o_max_continuations o) (opt_set o NGHTTP2_OPT_USER_RECV_EXT_TYPES)
      (o_peer_max_concurrent_streams o) (o_max_reserved_remote_streams o) (o_builtin_recv_ext_types o) (o_no_auto_window_update o)
      (o_no_recv_client_magic o) (o_no_http_messaging o) (o_no_auto_ping_ack o) (o_no_closed_streams o)
      (o_server_fallback_rfc7540_priorities o) (o_no_rfc9113_leading_and_trailing_ws_validation o)
      (set_ext_type (o_user_recv_ext_types o) type).

Definition set_builtin (o : nghttp2_option) (mask : Z) : nghttp2_option :=
  mk_option (o_stream_reset_burst o) (o_stream_reset_rate o) (o_max_send_header_block_length o) (o_max_deflate_dynamic_table_size o)
    (o_max_outbound_ack o) (o_max_settings o) (o_max_continuations o) (opt_set o NGHTTP2_OPT_BUILTIN_RECV_EXT_TYPES)
    (o_peer_max_concurrent_streams o) (o_max_reserved_remote_streams o) (o_builtin_recv_ext_types o .| mask) (o_no_auto_window_update o)
    (o_no_recv_client_magic o) (o_no_http_messaging o) (o_no_auto_ping_ack o) (o_no_closed_streams o)
    (o_server_fallback_rfc7540_priorities o) (o_no_rfc9113_leading_and_trailing_ws_validation o) (o_user_recv_ext_types o).

Definition nghttp2_option_set_builtin_recv_extension_type (o : nghttp2_option) (type : Z) : nghttp2_option :=
  if type =? NGHTTP2_ALTSVC then set_builtin o NGHTTP2_TYPEMASK_ALTSVC
  else if type =? NGHTTP2_ORIGIN then set_builtin o NGHTTP2_TYPEMASK_ORIGIN
  else if type =? NGHTTP2_PRIORITY_UPDATE then set_builtin o NGHTTP2_TYPEMASK_PRIORITY_UPDATE
  else o.

Definition nghttp2_option_set_no_auto_ping_ack (o : nghttp2_option) (val : Z) : nghttp2_option :=
  mk_option (o_stream_reset_burst o) (o_stream_reset_rate o) (o_max_send_header_block_length o) (o_max_deflate_dynamic_table_size o)
    (o_max_outbound_ack o) (o_max_settings o) (o_max_continuations o) (opt_set o NGHTTP2_OPT_NO_AUTO_PING_ACK)
    (o_peer_max_concurrent_streams o) (o_max_reserved_remote_streams o) (o_builtin_recv_ext_types o) (o_no_auto_window_update o)
    (o_no_recv_client_magic o) (o_no_http_messaging o) val (o_no_closed_streams o) (o_server_fallback_rfc7540_priorities o)
    (o_no_rfc9113_leading_and_trailing_ws_validation o) (o_user_recv_ext_types o).

Definition nghttp2_option_set_max_send_header_block_length (o : nghttp2_option) (val : Z) : nghttp2_option :=
  mk_option (o_stream_reset_burst o) (o_stream_reset_rate o) val (o_max_deflate_dynamic_table_size o) (o_max_outbound_ack o)
    (o_max_settings o) (o_max_continuations o) (opt_set o NGHTTP2_OPT_MAX_SEND_HEADER_BLOCK_LENGTH) (o_peer_max_concurrent_streams o)
    (o_max_reserved_remote_streams o) (o_builtin_recv_ext_types o) (o_no_auto_window_update o) (o_no_recv_client_magic o)
    (o_no_http_messaging o) (o_no_auto_ping_ack o) (o_no_closed_streams o) (o_server_fallback_rfc7540_priorities o)
    (o_no_rfc9113_leading_and_trailing_ws_validation o) (o_user_recv_ext_types o).

Definition nghttp2_option_set_max_deflate_dynamic_table_size (o : nghttp2_option) (val : Z) : nghttp2_option :=
  mk_option (o_stream_reset_burst o) (o_stream_reset_rate o) (o_max_send_header_block_length o) val (o_max_outbound_ack o)
    (o_max_settings o) (o_max_continuations o) (opt_set o NGHTTP2_OPT_MAX_DEFLATE_DYNAMIC_TABLE_SIZE) (o_peer_max_concurrent_streams o)
    (o_max_reserved_remote_streams o) (o_builtin_recv_ext_types o) (o_no_auto_window_update o) (o_no_recv_client_magic o)
    (o_no_http_messaging o) (o_no_auto_ping_ack o) (o_no_closed_streams o) (o_server_fallback_rfc7540_priorities o)
    (o_no_rfc9113_leading_and_trailing_ws_validation o) (o_user_recv_ext_types o).

Definition nghttp2_option_set_no_closed_streams (o : nghttp2_option) (val : Z) : nghttp2_option :=
  mk_option (o_stream_reset_burst o) (o_stream_reset_rate o) (o_max_send_header_block_length o) (o_max_deflate_dynamic_table_size o)
    (o_max_outbound_ack o) (o_max_settings o) (o_max_continuations o) (opt_set o NGHTTP2_OPT_NO_CLOSED_STREAMS)
    (o_peer_max_concurrent_streams o) (o_max_reserved_remote_streams o) (o_builtin_recv_ext_types o) (o_no_auto_window_update o)
    (o_no_recv_client_magic o) (o_no_http_messaging o) (o_no_auto_ping_ack o) val (o_server_fallback_rfc7540_priorities o)
    (o_no_rfc9113_leading_and_trailing_ws_validation o) (o_user_recv_ext_types o).

Definition nghttp2_option_set_max_outbound_ack (o : nghttp2_option) (val : Z) : nghttp2_option :=
  mk_option (o_stream_reset_burst o) (o_stream_reset_rate o) (o_max_send_header_block_length o) (o_max_deflate_dynamic_table_size o) val
    (o_max_settings o) (o_max_continuations o) (opt_set o NGHTTP2_OPT_MAX_OUTBOUND_ACK) (o_peer_max_concurrent_streams o)
    (o_max_reserved_remote_streams o) (o_builtin_recv_ext_types o) (o_no_auto_window_update o) (o_no_recv_client_magic o)
    (o_no_http_messaging o) (o_no_auto_ping_ack o) (o_no_closed_streams o) (o_server_fallback_rfc7540_priorities o)
    (o_no_rfc9113_leading_and_trailing_ws_validation o) (o_user_recv_ext_types o).

Definition nghttp2_option_set_max_settings (o : nghttp2_option) (val : Z) : nghttp2_option :=
  mk_option (o_stream_reset_burst o) (o_stream_reset_rate o) (o_max_send_header_block_length o) (o_max_deflate_dynamic_table_size o)
    (o_max_outbound_ack o) val (o_max_continuations o) (opt_set o NGHTTP2_OPT_MAX_SETTINGS) (o_peer_max_concurrent_streams o)
    (o_max_reserved_remote_streams o) (o_builtin_recv_ext_types o) (o_no_auto_window_update o) (o_no_recv_client_magic o)
    (o_no_http_messaging o) (o_no_auto_ping_ack o) (o_no_closed_streams o) (o_server_fallback_rfc7540_priorities o)
    (o_no_rfc9113_leading_and_trailing_ws_validation o) (o_user_recv_ext_types o).

Definition nghttp2_option_set_server_fallback_rfc7540_priorities (o : nghttp2_option) (val : Z) : nghttp2_option :=
  mk_option (o_stream_reset_burst o) (o_stream_reset_rate o) (o_max_send_header_block_length o) (o_max_deflate_dynamic_table_size o)
    (o_max_outbound_ack o) (o_max_settings o) (o_max_continuations o) (opt_set o NGHTTP2_OPT_SERVER_FALLBACK_RFC7540_PRIORITIES)
    (o_peer_max_concurrent_streams o) (o_max_reserved_remote_streams o) (o_builtin_recv_ext_types o) (o_no_auto_window_update o)
    (o_no_recv_client_magic o) (o_no_http_messaging o) (o_no_auto_ping_ack o) (o_no_closed_streams o) val
    (o_no_rfc9113_leading_and_trailing_ws_validation o) (o_user_recv_ext_types o).

Definition nghttp2_option_set_no_rfc9113_leading_and_trailing_ws_validation (o : nghttp2_option) (val : Z) : nghttp2_option :=
  mk_option (o_stream_reset_burst o) (o_stream_reset_rate o) (o_max_send_header_block_length o) (o_max_deflate_dynamic_table_size o)
    (o_max_outbound_ack o) (o_max_settings o) (o_max_continuations o) (opt_set o NGHTTP2_OPT_NO_RFC9113_LEADING_AND_TRAILING_WS_VALIDATION)
    (o_peer_max_concurrent_streams o) (o_max_reserved_remote_streams o) (o_builtin_recv_ext_types o) (o_no_auto_window_update o)
    (o_no_recv_client_magic o) (o_no_http_messaging o) (o_no_auto_ping_ack o) (o_no_closed_streams o)
    (o_server_fallback_rfc7540_priorities o) val (o_user_recv_ext_types o).

Definition nghttp2_option_set_stream_reset_rate_limit (o : nghttp2_option) (burst rate : Z) : nghttp2_option :=
  mk_option burst rate (o_max_send_header_block_length o) (o_max_deflate_dynamic_table_size o) (o_max_outbound_ack o) (o_max_settings o)
    (o_max_continuations o) (opt_set o NGHTTP2_OPT_STREAM_RESET_RATE_LIMIT) (o_peer_max_concurrent_streams o)
    (o_max_reserved_remote_streams o) (o_builtin_recv_ext_types o) (o_no_auto_window_update o) (o_no_recv_client_magic o)
    (o_no_http_messaging o) (o_no_auto_ping_ack o) (o_no_closed_streams o) (o_server_fallback_rfc7540_priorities o)
    (o_no_rfc9113_leading_and_trailing_ws_validation o) (o_user_recv_ext_types o).

Definition nghttp2_option_set_max_continuations (o : nghttp2_option) (val : Z) : nghttp2_option :=
  mk_option (o_stream_reset_burst o) (o_stream_reset_rate o) (o_max_send_header_block_length o) (o_max_deflate_dynamic_table_size o)
    (o_max_outbound_ack o) (o_max_settings o) val (opt_set o NGHTTP2_OPT_MAX_CONTINUATIONS) (o_peer_max_concurrent_streams o)
    (o_max_reserved_remote_streams o) (o_builtin_recv_ext_types o) (o_no_auto_window_update o) (o_no_recv_client_magic o)
    (o_no_http_messaging o) (o_no_auto_ping_ack o) (o_no_closed_streams o) (o_server_fallback_rfc7540_priorities o)
    (o_no_rfc9113_leading_and_trailing_ws_validation o) (o_user_recv_ext_types o).

(** ** A new session *)

Definition NGHTTP2_DEFAULT_MAX_OBQ_FLOOD_ITEM : Z := 1000.
Definition NGHTTP2_DEFAULT_STREAM_RESET_BURST : Z := 1000.
Definition NGHTTP2_DEFAULT_STREAM_RESET_RATE : Z := 33.
Definition NGHTTP2_DEFAULT_MAX_CONTINUATIONS : Z := 8.
Definition NGHTTP2_MAX_HEADERSLEN : Z := 65536.

(** [enable_connect_protocol] stays 0, from [calloc]. *)
Definition init_settings : nghttp2_settings_storage :=
  mk_storage NGHTTP2_HD_DEFAULT_MAX_BUFFER_SIZE 1 NGHTTP2_DEFAULT_MAX_CONCURRENT_STREAMS NGHTTP2_INITIAL_WINDOW_SIZE
    NGHTTP2_MAX_FRAME_SIZE_MIN UINT32_MAX 0 UINT32_MAX.

Definition max_concurrent_streams_to (v : Z) (st : nghttp2_settings_storage) : nghttp2_settings_storage :=
  mk_storage (header_table_size st) (enable_push st) v (initial_window_size st) (max_frame_size st) (max_header_list_size st)
    (enable_connect_protocol st) (no_rfc7540_priorities_setting st).

(** Whether an option is given. *)
Definition given (o : nghttp2_option) (bit : Z) : bool := negb (o_opt_set_mask o .& bit =? 0).

Definition opt_bit (o : nghttp2_option) (bit val mask : Z) : Z := if given o bit && negb (val =? 0) then mask else 0.

Definition option_flags (o : nghttp2_option) : Z :=
  opt_bit o NGHTTP2_OPT_NO_AUTO_WINDOW_UPDATE (o_no_auto_window_update o) NGHTTP2_OPTMASK_NO_AUTO_WINDOW_UPDATE .|
  opt_bit o NGHTTP2_OPT_NO_RECV_CLIENT_MAGIC (o_no_recv_client_magic o) NGHTTP2_OPTMASK_NO_RECV_CLIENT_MAGIC .|
  opt_bit o NGHTTP2_OPT_NO_HTTP_MESSAGING (o_no_http_messaging o) NGHTTP2_OPTMASK_NO_HTTP_MESSAGING .|
  opt_bit o NGHTTP2_OPT_NO_AUTO_PING_ACK (o_no_auto_ping_ack o) NGHTTP2_OPTMASK_NO_AUTO_PING_ACK .|
  opt_bit o NGHTTP2_OPT_NO_CLOSED_STREAMS (o_no_closed_streams o) NGHTTP2_OPTMASK_NO_CLOSED_STREAMS .|
  opt_bit o NGHTTP2_OPT_SERVER_FALLBACK_RFC7540_PRIORITIES (o_server_fallback_rfc7540_priorities o)
    NGHTTP2_OPTMASK_SERVER_FALLBACK_RFC7540_PRIORITIES .|
  opt_bit o NGHTTP2_OPT_NO_RFC9113_LEADING_AND_TRAILING_WS_VALIDATION (o_no_rfc9113_leading_and_trailing_ws_validation o)
    NGHTTP2_OPTMASK_NO_RFC9113_LEADING_AND_TRAILING_WS_VALIDATION.

Definition option_limits (o : nghttp2_option) : session_limits :=
  mk_limits (if given o NGHTTP2_OPT_MAX_SEND_HEADER_BLOCK_LENGTH then o_max_send_header_block_length o else NGHTTP2_MAX_HEADERSLEN)
    (if given o NGHTTP2_OPT_MAX_OUTBOUND_ACK then o_max_outbound_ack o else NGHTTP2_DEFAULT_MAX_OBQ_FLOOD_ITEM)
    (if given o NGHTTP2_OPT_MAX_SETTINGS && negb (o_max_settings o =? 0) then o_max_settings o else NGHTTP2_DEFAULT_MAX_SETTINGS)
    (if given o NGHTTP2_OPT_MAX_CONTINUATIONS then o_max_continuations o else NGHTTP2_DEFAULT_MAX_CONTINUATIONS)
    (if given o NGHTTP2_OPT_BUILTIN_RECV_EXT_TYPES then o_builtin_recv_ext_types o else 0)
    (if given o NGHTTP2_OPT_USER_RECV_EXT_TYPES then o_user_recv_ext_types o else replicate 32 0)
    (if given o NGHTTP2_OPT_STREAM_RESET_RATE_LIMIT then nghttp2_ratelim_init (o_stream_reset_burst o) (o_stream_reset_rate o)
     else nghttp2_ratelim_init NGHTTP2_DEFAULT_STREAM_RESET_BURST NGHTTP2_DEFAULT_STREAM_RESET_RATE)
    0.

Definition option_conf (server : bool) (o : nghttp2_option) : session_conf :=
  mk_conf server (option_flags o)
    (max_concurrent_streams_to (if given o NGHTTP2_OPT_PEER_MAX_CONCURRENT_STREAMS then o_peer_max_concurrent_streams o else 100) init_settings)
    init_settings NGHTTP2_DEFAULT_MAX_CONCURRENT_STREAMS 1 255 0
    (if given o NGHTTP2_OPT_MAX_RESERVED_REMOTE_STREAMS then o_max_reserved_remote_streams o else NGHTTP2_MAX_INCOMING_RESERVED_STREAMS) 0 0 [].

(** Without options: as if none were given. *)
Definition session_new (server : bool) (option : option nghttp2_option) : nghttp2_session :=
  let o := default nghttp2_option_new option in
  mk_session (mk_world {[root := root_stream]} 0) ∅ (replicate (Z.to_nat NGHTTP2_EXTPRI_URGENCY_LEVELS) ([], 0%nat)) (option_conf server o)
    (mk_ids 0 0 0 0 (2 ^ 31 - 1) (2 ^ 31 - 1) NGHTTP2_GOAWAY_NONE) (mk_counts 0 0 0 0 0 0) (mk_lists None None None None)
    (mk_flow NGHTTP2_INITIAL_CONNECTION_WINDOW_SIZE NGHTTP2_INITIAL_CONNECTION_WINDOW_SIZE 0 0 0 0)
    (mk_outbound ∅ nghttp2_outbound_queue_init nghttp2_outbound_queue_init nghttp2_outbound_queue_init None) (option_limits o) false 0.

Definition next_stream_id_to (v : Z) (i : session_ids) : session_ids :=
  mk_ids v (last_sent_stream_id i) (last_recv_stream_id i) (last_proc_stream_id i) (local_last_stream_id i) (remote_last_stream_id i) (goaway_flags i).

Definition nghttp2_session_client_new3 (option : option nghttp2_option) : nghttp2_session :=
  upd_ids (next_stream_id_to 1) (session_new false option).
Definition nghttp2_session_server_new3 (option : option nghttp2_option) : nghttp2_session :=
  upd_ids (next_stream_id_to 2) (session_new true option).

(** ** A new session is in order *)

Lemma new_session_ok (sv : bool) option : sess_ok ∅ ∅ (session_new sv option) {[root := []]} [] [].
Proof.
  assert (scards (session_new sv option) = {[root := card_of root_stream]}) as EC by apply map_fmap_singleton.
  assert (forall a r, ~ has_role (server (session_new sv option)) ∅ {[root := card_of root_stream]} a r) as Hno.
  { intros a r (H1 & _ & c & Hc & _). apply lookup_singleton_Some in Hc as [<- _]. done. }
  assert (forall r, count (server (session_new sv option)) ∅ r {[root := card_of root_stream]} = 0) as Hcount.
  { intros r. unfold count. rewrite map_filter_singleton_False; [done|]. intros [H _]. by apply H. }
  assert (forall r, list_ok (server (session_new sv option)) ∅ {[root := card_of root_stream]} r [] None None 0) as Hlist.
  { intros r. split; [apply kept_nil|constructor| |done]. intros a. split; [by intros ?%elem_of_nil|by intros ?%Hno]. }
  split.
  - exact inv_root.
  - split; rewrite ?EC; try done.
    + split; [|rewrite lookup_singleton_eq; eauto]. intros id a. simpl. rewrite lookup_empty. split; [done|].
      intros [Ha (c & Hc & _)]. apply lookup_singleton_Some in Hc as [<- _]. done.
    + split; intros a c; [|intros d e|]; intros; repeat match goal with H : {[_ := _]} !! _ = Some _ |- _ => apply lookup_singleton_Some in H as [<- <-] end; done.
    + split; intros a c Hc; apply lookup_singleton_Some in Hc as [<- <-]; done.
  - split; [| |set_solver].
    + intros a Ha Hr. apply lookup_singleton_is_Some in Ha. by destruct Hr.
    + split; [by rewrite lookup_singleton_eq; eauto|]. intros (p & l & Hl & Hin). apply lookup_singleton_Some in Hl as [_ <-]. by apply elem_of_nil in Hin.
Qed.

(** ** Types of extension frames *)

Lemma land_pow2_pos n k : 0 <= n -> 0 <= k -> (0 <? n .& Z.shiftl 1 k) = Z.testbit n k.
Proof.
  intros Hn Hk. rewrite Z.shiftl_1_l. destruct (Z.testbit n k) eqn:E.
  - apply Z.ltb_lt. assert (0 <= n .& 2 ^ k) by (apply Z.land_nonneg; auto). assert (n .& 2 ^ k <> 0); [|lia]. intros E0.
    apply (f_equal (fun z => Z.testbit z k)) in E0. cbv beta in E0. rewrite Z.land_spec, Z.pow2_bits_true, Z.bits_0, E in E0 by done. done.
  - apply Z.ltb_ge. assert (n .& 2 ^ k = 0) as ->; [|done]. apply Z.bits_inj'. intros m Hm. rewrite Z.land_spec, Z.bits_0, Z.pow2_bits_eqb by done.
    destruct (Z.eqb_spec k m) as [<-|]; [by rewrite E|by rewrite andb_false_r].
Qed.

Lemma u8_lor_bit n k m : 0 <= n -> 0 <= k < 8 -> 0 <= m < 8 -> Z.testbit (u8 (n .| Z.shiftl 1 k)) m = (m =? k) || Z.testbit n m.
Proof.
  intros Hn Hk Hm. unfold u8. rewrite <- (Z.land_ones _ 8), Z.land_spec, Z.lor_spec, Z.shiftl_1_l, Z.pow2_bits_eqb, Z.testbit_ones by lia.
  rewrite (proj2 (Z.leb_le 0 m)), (proj2 (Z.ltb_lt m 8)) by lia. simpl. rewrite andb_true_r, orb_comm, Z.eqb_sym. done.
Qed.

Lemma low3_bounds t : 0 <= t .& 7 < 8.
Proof. change 7 with (Z.ones 3). rewrite Z.land_ones by lia. apply Z.mod_pos_bound. lia. Qed.

(** Types are told apart. *)
Lemma check_set_ext_type types t t' : length types = 32%nat -> Forall (fun n => 0 <= n < 256) types -> 0 <= t < 256 -> 0 <= t' < 256 ->
  check_ext_type_set (set_ext_type types t) t' = (t' =? t) || check_ext_type_set types t'.
Proof.
  intros Hlen Hall Ht Ht'. assert (0 <= t / 8 < 32 /\ 0 <= t' / 8 < 32) as [Hq Hq'] by (split; split; (apply Z.div_pos || apply Z.div_lt_upper_bound); lia).
  assert (is_Some (types !! Z.to_nat (t' / 8))) as [n Hn] by (apply lookup_lt_is_Some; lia).
  assert (0 <= n < 256) as Hnb by exact (Forall_lookup_1 _ _ _ _ Hall Hn).
  pose proof (low3_bounds t). pose proof (low3_bounds t').
  assert (forall z, z = 8 * (z / 8) + z .& 7) as Hdm by (intros z; change 7 with (Z.ones 3); rewrite Z.land_ones by lia; apply Z.div_mod; done).
  unfold check_ext_type_set, set_ext_type. destruct (Z.eq_dec (t' / 8) (t / 8)) as [E|E].
  - rewrite <- E, list_lookup_alter_eq, Hn. simpl. rewrite !land_pow2_pos, u8_lor_bit by (unfold u8; lia || apply Z.mod_pos_bound; lia).
    f_equal. pose proof (Hdm t) as E1. pose proof (Hdm t') as E2. rewrite E in E2. destruct (Z.eqb_spec (t' .& 7) (t .& 7)), (Z.eqb_spec t' t); try done; congruence || lia.
  - rewrite list_lookup_alter_ne by lia. rewrite Hn. destruct (Z.eqb_spec t' t) as [->|]; [done|]. done.
Qed.
