(* ===== verification/SessionReach.v ===== *)
(** * Sessions: sequences of operations

    The operations on the streams of a session as steps, what callers
    guarantee before each of them, and the sessions that sequences of them
    reach from a new one, whatever the rest of the library does to the rest of
    the state in between.  All of them are in order ([sess_ok]), which is
    restated here in the terms of the code ([in_order]). *)

From S2P Require Import Prelude Defs Pq Frame Http Stream StreamLinks StreamQueue StreamTree StreamInsert StreamRemove StreamDistribute StreamCut.
From S2P Require Import StreamItems StreamFrame StreamSpec Outbound Session SessionInv SessionTree SessionBooks SessionForest SessionOpen SessionClose SessionItems SessionAdjust SessionPrio SessionNew.

Implicit Types (a b d p x : Z) (h : gmap Z nghttp2_stream) (ss : nghttp2_session) (lc li l : list Z) (X Y : gset Z) (kids : gmap Z (list Z)).

Lemma sp_run {A} (m : se_m A) ss (Q : A -> nghttp2_session -> Prop) : sp m ss Q -> exists ss' r, m ss = Some (ss', r) /\ Q r ss'.
Proof. unfold sp. destruct (m ss) as [[ss' r]|]; [eauto|done]. Qed.

Lemma run_sp {A} (m : se_m A) ss ss' r (Q : A -> nghttp2_session -> Prop) : sp m ss Q -> m ss = Some (ss', r) -> Q r ss'.
Proof. unfold sp. intros H E. by rewrite E in H. Qed.

(** ** The operations *)

Inductive session_op :=
  | OpenStream (id : Z) (pri : nghttp2_priority_spec) (st : nghttp2_stream_state) (ud : option Z)
  | CloseStream (id error_code : Z)
  | ReprioritizeStream (a : Z) (pri : nghttp2_priority_spec)
  | AttachStreamItem (a it : Z)
  | DetachStreamItem (a : Z)
  | DeferStreamItem (a f : Z)
  | ResumeStreamItem (a f : Z)
  | AdjustClosed
  | AdjustIdle.

(** A stream that is neither closed nor idle. *)
Definition in_use ss a (s : nghttp2_stream) : Prop :=
  se_streams ss !! a = Some s /\ a <> root /\ flag_set (sm_flags s) NGHTTP2_STREAM_FLAG_CLOSED = false /\ state s <> NGHTTP2_STREAM_IDLE.

(** What callers guarantee. *)
Definition op_ready ss (op : session_op) : Prop :=
  match op with
  | OpenStream id pri _ _ => openable ∅ ∅ ss id pri
  | ReprioritizeStream a pri => room ss 1 /\ a <> root /\ 1 <= ps_weight pri <= 256 /\
      exists s : nghttp2_stream, se_streams ss !! a = Some s /\ ps_stream_id pri <> stream_id s
  | AttachStreamItem a it => item_free ss it /\
      exists s, in_use ss a s /\ item s = None /\ sm_flags s .& NGHTTP2_STREAM_FLAG_DEFERRED_ALL = 0
  | DetachStreamItem a => is_Some (se_streams ss !! a)
  | DeferStreamItem a f | ResumeStreamItem a f => deferral f /\ exists s : nghttp2_stream, se_streams ss !! a = Some s /\ is_Some (item s)
  | CloseStream _ _ | AdjustClosed | AdjustIdle => True
  end.

(** What the rest of the library may do between two operations: queue and
    release items that no stream has, count identifiers, send and receive, and
    take over settings, but not change the scheme of priorities. *)
Record elsewhere ss ss' : Prop := {
  el_world : se_world ss' = se_world ss;
  el_map : stream_map ss' = stream_map ss;
  el_lists : se_lists ss' = se_lists ss;
  el_counts : se_counts ss' = se_counts ss;
  el_server : server ss' = server ss;
  el_mode : rfc7540 ss -> rfc7540 ss';
  el_items : forall a (s : nghttp2_stream) it, se_streams ss !! a = Some s -> item s = Some it -> is_Some (ob_items ss' !! it);
}.

Lemma elsewhere_sess X Y ss ss' kids lc li : elsewhere ss ss' -> sess_ok X Y ss kids lc li -> sess_ok X Y ss' kids lc li.
Proof.
  intros [E1 E2 E3 E4 E5 _ E7] [HI HB HF]. assert (se_streams ss' = se_streams ss) as ES by (unfold se_streams; by rewrite E1).
  assert (scards ss' = scards ss) as EC by (unfold scards; by rewrite ES).
  split; [by rewrite ES| |done]. destruct HB. split; rewrite ?EC, ?E2, ?E3, ?E4, ?E5; try done.
  destruct bk_items. split; [|done|done]. intros a c i Hc Hi. apply cards_lookup_inv in Hc as (s & Hs & <-). by apply (E7 a s).
Qed.

(** ** Their runs *)

Section Runs.
Context (realloc_ok malloc_ok : nat -> bool) (new_stream : gmap Z nghttp2_stream -> Z) (callback : option (Z -> Z -> se_m Z)).

Definition run_op (op : session_op) : se_m Z :=
  match op with
  | OpenStream id pri st ud =>
      let! r := nghttp2_session_open_stream realloc_ok malloc_ok new_stream id NGHTTP2_STREAM_FLAG_NONE pri st ud in
      mret (match r with Some _ => 0 | None => NGHTTP2_ERR_NOMEM end)
  | CloseStream id error_code => nghttp2_session_close_stream realloc_ok callback id error_code
  | ReprioritizeStream a pri => nghttp2_session_reprioritize_stream realloc_ok malloc_ok new_stream a pri
  | AttachStreamItem a it => session_attach_stream_item realloc_ok a it
  | DetachStreamItem a => session_detach_stream_item a;; mret 0
  | DeferStreamItem a f => session_defer_stream_item a f;; mret 0
  | ResumeStreamItem a f => session_resume_deferred_stream_item realloc_ok a f
  | AdjustClosed => nghttp2_session_adjust_closed_stream realloc_ok
  | AdjustIdle => nghttp2_session_adjust_idle_stream realloc_ok
  end.

Inductive reached (sv : bool) : nghttp2_session -> Prop :=
  | reached_new option : rfc7540 (session_new sv option) -> reached sv (session_new sv option)
  | reached_elsewhere ss ss' : reached sv ss -> elsewhere ss ss' -> reached sv ss'
  | reached_op ss op ss' : reached sv ss -> op_ready ss op -> run_op op ss = Some (ss', 0) -> reached sv ss'.

Context (Hcb : callback_ok callback).

Lemma in_use_unlisted ss a (s : nghttp2_stream) : in_use ss a s -> ~ listed (server ss) ∅ (scards ss) a.
Proof using.
  intros (Hs & Hr & Hf & Hst). assert (forall r, has_role (server ss) ∅ (scards ss) a r -> r = role_of (server ss) (card_of s)) as Hrole.
  { intros r (_ & _ & c & Hc & <-). apply cards_lookup_inv in Hc as (s' & Hs' & <-). congruence. }
  unfold role_of in Hrole. simpl in Hrole. rewrite Hf, bool_decide_false in Hrole by done.
  intros [H|H]; apply Hrole in H; by destruct (flag_set (sm_flags s) NGHTTP2_STREAM_FLAG_PUSH), (mine (server ss) (stream_id s)).
Qed.

(** The session after an operation, or why it failed. *)
Definition op_result ss (op : session_op) (rv : Z) ss' : Prop :=
  rv = NGHTTP2_ERR_NOMEM /\ refusal realloc_ok malloc_ok \/
  rv = 0 /\ (exists kids lc li, sess_ok ∅ ∅ ss' kids lc li) /\ rfc7540 ss' /\ server ss' = server ss \/
  match op with
  | CloseStream id error_code => rv = NGHTTP2_ERR_INVALID_ARGUMENT /\ live_stream ss id = None /\ ss' = ss \/
      rv = NGHTTP2_ERR_CALLBACK_FAILURE /\ is_Some callback
  | _ => False
  end.

Lemma op_success ss op ss' kids lc li : se_conf ss' = se_conf ss -> rfc7540 ss -> sess_ok ∅ ∅ ss' kids lc li -> op_result ss op 0 ss'.
Proof using.
  intros EC Hm HO. right; left. split; [done|]. split; [by exists kids, lc, li|]. split; [by eapply conf_rfc7540|by rewrite EC].
Qed.

Lemma op_nomem ss op ss' : refusal realloc_ok malloc_ok -> op_result ss op NGHTTP2_ERR_NOMEM ss'.
Proof using. by left. Qed.

Lemma restyled_conf ss a (s : nghttp2_stream) ss' : restyled ss a s ss' -> se_conf ss' = se_conf ss.
Proof using. by intros (w & -> & _). Qed.

Lemma close_conf ss kids lc li id err rv ss' : sess_ok ∅ ∅ ss kids lc li -> rfc7540 ss -> close_result realloc_ok callback ∅ ∅ ss id err rv ss' ->
  op_result ss (CloseStream id err) rv ss'.
Proof using Hcb.
  intros HO Hm HR. unfold close_result in HR. destruct (live_stream ss id) as [a|] eqn:Ea; [|right; right; left; by destruct HR].
  destruct HR as (rc & ss1 & Hcall & HR). destruct (Z.eqb_spec rc 0) as [->|Hrc].
  - destruct HR as (kids1 & lc1 & li1 & HO1 & [[-> Hre]|(-> & Hcl & EC & _)]); [left; split; [done|by left]|].
    assert (se_conf ss1 = se_conf ss) as EC1.
    { destruct (live_stream_role _ _ _ _ _ _ (so_books _ _ _ _ _ _ HO) Ea) as (s & Hs & Hid & Hr & _). unfold called_back in Hcall.
      destruct callback as [f|]; [|by destruct Hcall as [-> _]].
      pose proof (Hcb ∅ ∅ ss kids lc li id err a (role_of (server ss) (card_of s)) HO Hm (live_mapped _ _ _ Ea)) as HC.
      unfold sp in HC. rewrite Hcall in HC. destruct HC as (? & ? & ? & _ & E & _); [|done].
      split; [done|]. split; [set_solver|]. exists (card_of s). split; [by apply cards_lookup|done]. }
    assert (exists kids' lc' li', sess_ok ∅ ∅ ss' kids' lc' li') as (kids' & lc' & li' & HO').
    { unfold closed_to in Hcl. destruct (keeps_closed ss1 id); [destruct Hcl as [[li' ?] _]; eauto|].
      destruct Hcl as [(k1 & li' & _ & ?) _]. eauto. }
    by apply (op_success ss _ ss' kids' lc' li'); [congruence| |].
  - right; right; right. destruct HR as [-> ->]. split; [done|]. unfold called_back in Hcall. destruct callback; [eauto|]. by destruct Hcall.
Qed.

Lemma op_nomem_realloc ss op ss' : refused realloc_ok -> op_result ss op NGHTTP2_ERR_NOMEM ss'.
Proof using. intros H. apply op_nomem. by left. Qed.

Context (Hfresh : forall h, h !! new_stream h = None).

Lemma sp_op ss kids lc li op : sess_ok ∅ ∅ ss kids lc li -> rfc7540 ss -> op_ready ss op -> sp (run_op op) ss (op_result ss op).
Proof using Hfresh Hcb.
  intros HO Hm Hr. destruct op; simpl in Hr |- *.
  - sp_step. eapply sp_mono; [exact (sp_open_stream realloc_ok malloc_ok new_stream Hfresh ∅ ∅ ss kids lc li id pri st ud HO Hr)|].
    intros r ss' [[-> ?]|(a & -> & Hop)]; sp_step; [by apply op_nomem|].
    destruct (op_tree _ _ _ _ _ _ _ _ _ _ Hop) as (k1 & k2 & p & pri' & kids' & li' & _ & _ & _ & HO' & _).
    apply (op_success ss _ ss' kids' lc li'); [apply (kb_setup _ _ _ (op_kept _ _ _ _ _ _ _ _ _ _ Hop))|done|done].
  - eapply sp_mono; [eapply (sp_close_stream realloc_ok callback); [exact Hcb|exact HO|done|set_solver]|]. intros rv ss' HR. by eapply close_conf.
  - destruct Hr as (Hroom & Ha & Hw & s & Hs & Hne). eapply sp_mono; [by eapply sp_reprioritize|].
    intros rv ss' [[-> ?]|(-> & k0 & d & pri' & k1 & k2 & li' & _ & _ & _ & HO' & _ & HK)]; [by apply op_nomem|].
    apply (op_success ss _ ss' k2 lc li'); [apply (kb_setup _ _ _ HK)|done|done].
  - destruct Hr as (Hfree & s & Hu & Hit & Hfl). pose proof Hu as (Hs & Ha & _). eapply sp_mono; [eapply (sp_attach realloc_ok); try done; by eapply in_use_unlisted|].
    intros rv ss' [[-> ?]|(-> & HR & HO')]; [by apply op_nomem_realloc|]. by apply (op_success ss _ ss' kids lc li); [eapply restyled_conf| |].
  - destruct Hr as [s Hs]. sp_step. eapply sp_mono; [by eapply sp_detach|]. intros u ss' [HR HO']. sp_step.
    by apply (op_success ss _ ss' kids lc li); [eapply restyled_conf| |].
  - destruct Hr as (Hf & s & Hs & Hit). sp_step. eapply sp_mono; [by eapply sp_defer|]. intros u ss' [HR HO']. sp_step.
    by apply (op_success ss _ ss' kids lc li); [eapply restyled_conf| |].
  - destruct Hr as (Hf & s & Hs & Hit). eapply sp_mono; [by eapply sp_resume|].
    intros rv ss' [[-> ?]|(-> & HR & HO')]; [by apply op_nomem_realloc|]. by apply (op_success ss _ ss' kids lc li); [eapply restyled_conf| |].
  - eapply sp_mono; [by eapply sp_adjust_closed|]. intros rv ss' [[-> ?]|(-> & l & r & kids' & _ & HT & HO' & _)]; [by apply op_nomem_realloc|].
    apply (op_success ss _ ss' kids' r li); [apply (kb_setup _ _ _ (tr_kept _ _ _ _ _ _ HT))|done|done].
  - eapply sp_mono; [by eapply sp_adjust_idle|]. intros rv ss' [[-> ?]|(-> & l & r & kids' & _ & HT & HO' & _)]; [by apply op_nomem_realloc|].
    apply (op_success ss _ ss' kids' lc r); [apply (kb_setup _ _ _ (tr_kept _ _ _ _ _ _ HT))|done|done].
Qed.

Lemma op_result_done ss op ss' : op_result ss op 0 ss' -> (exists kids lc li, sess_ok ∅ ∅ ss' kids lc li) /\ rfc7540 ss' /\ server ss' = server ss.
Proof using. intros [[? _]|[(_ & ?)|H]]; [done|done|]. destruct op; try done. by destruct H as [[? _]|[? _]]. Qed.

Lemma reached_ok sv ss : reached sv ss -> (exists kids lc li, sess_ok ∅ ∅ ss kids lc li) /\ rfc7540 ss /\ server ss = sv.
Proof using Hfresh Hcb.
  induction 1 as [option Hm|ss ss' H ((kids & lc & li & HO) & Hm & Hsv) HE|ss op ss' H ((kids & lc & li & HO) & Hm & Hsv) Hr HR].
  - split; [|split; [done|by destruct option]]. exists {[root := []]}, [], []. apply new_session_ok.
  - split; [|split; [by apply (el_mode _ _ HE)|by rewrite (el_server _ _ HE)]]. exists kids, lc, li. by eapply elsewhere_sess.
  - pose proof (run_sp _ _ _ _ _ (sp_op _ _ _ _ _ HO Hm Hr) HR) as HD. apply op_result_done in HD as (? & ? & ->). done.
Qed.

End Runs.

(** ** In the terms of the code *)

(** The list that starts at [a], as the [closed_next] pointers give it. *)
Fixpoint walk (fuel : nat) h (a : option Z) : list Z :=
  match fuel, a with
  | S fuel, Some a => a :: match h !! a with Some s => walk fuel h (closed_next s) | None => [] end
  | _, _ => []
  end.

Definition is_closed (s : nghttp2_stream) : bool := flag_set (sm_flags s) NGHTTP2_STREAM_FLAG_CLOSED.
Definition is_idle (s : nghttp2_stream) : bool := negb (is_closed s) && bool_decide (state s = NGHTTP2_STREAM_IDLE).
Definition is_promised (s : nghttp2_stream) : bool := flag_set (sm_flags s) NGHTTP2_STREAM_FLAG_PUSH.

(** The number of the streams, apart from the root, that satisfy [P]. *)
Definition stream_count (P : nghttp2_stream -> bool) h : Z := Z.of_nat (size (filter (fun '(a, s) => a <> root /\ P s = true) h)).

Record in_order ss : Prop := {
  od_table : forall id a, stream_map ss !! id = Some a <-> a <> root /\ exists s : nghttp2_stream, se_streams ss !! a = Some s /\ stream_id s = id;
  od_tree : forall a, is_Some (se_streams ss !! a) -> rtc (parent_of (se_streams ss)) a root;
  od_closed : forall l, l = walk (size (se_streams ss)) (se_streams ss) (closed_stream_head ss) ->
    NoDup l /\ closed_stream_tail ss = last l /\ num_closed_streams ss = zlen l /\
    forall a, a ∈ l <-> a <> root /\ exists s, se_streams ss !! a = Some s /\ is_closed s = true;
  od_idle : forall l, l = walk (size (se_streams ss)) (se_streams ss) (idle_stream_head ss) ->
    NoDup l /\ idle_stream_tail ss = last l /\ num_idle_streams ss = zlen l /\
    forall a, a ∈ l <-> a <> root /\ exists s, se_streams ss !! a = Some s /\ is_idle s = true;
  od_incoming : num_incoming_streams ss =
    stream_count (fun s => negb (is_closed s) && negb (is_idle s) && negb (is_promised s) && negb (nghttp2_session_is_my_stream_id ss (stream_id s))) (se_streams ss);
  od_outgoing : num_outgoing_streams ss =
    stream_count (fun s => negb (is_closed s) && negb (is_idle s) && negb (is_promised s) && nghttp2_session_is_my_stream_id ss (stream_id s)) (se_streams ss);
  od_reserved : num_incoming_reserved_streams ss =
    stream_count (fun s => negb (is_closed s) && negb (is_idle s) && is_promised s && negb (nghttp2_session_is_my_stream_id ss (stream_id s))) (se_streams ss);
}.

Lemma walk_kept h l hd tl n : kept (cards h) l hd tl -> (length l <= n)%nat -> walk n h hd = l.
Proof.
  intros [Hs -> _]. remember (@None Z) as prev eqn:E in Hs at 1. clear E. revert n prev Hs. induction l as [|c l IH]; intros n prev; [by destruct n|].
  cbn [dllseg]. intros (d & H1 & H2 & H3 & H4 & H5) Hn. destruct n as [|n]; [simpl in Hn; lia|]. simpl. f_equal.
  rewrite ring_lookup, links_cards in H1. destruct (h !! c) as [s|] eqn:Ec; [|done]. simpl in H1. injection H1 as <-. simpl in H4.
  rewrite H4. replace (hd_or None l) with (head l) by (by destruct l). eapply IH; [exact H5|simpl in Hn; lia].
Qed.

Lemma role_in sv h a r : has_role sv ∅ (cards h) a r <-> a <> root /\ exists s, h !! a = Some s /\ role_of sv (card_of s) = r.
Proof.
  split; [intros (H1 & _ & c & Hc & Hr)|intros (H1 & s & Hs & Hr)].
  - apply cards_lookup_inv in Hc as (s & Hs & <-). eauto.
  - split; [done|]. split; [set_solver|]. exists (card_of s). split; [by apply cards_lookup|done].
Qed.

Definition role_test sv r (s : nghttp2_stream) : bool := bool_decide (role_of sv (card_of s) = r).

Lemma count_streams sv h r : count sv ∅ r (cards h) = stream_count (role_test sv r) h.
Proof.
  unfold count, stream_count. f_equal. unfold cards. rewrite map_filter_fmap, map_size_fmap. f_equal.
  apply map_filter_ext. intros a s _. unfold counted, role_test. simpl. rewrite bool_decide_eq_true. set_solver.
Qed.

Lemma stream_count_ext P P' h : (forall s, P s = P' s) -> stream_count P h = stream_count P' h.
Proof. intros E. unfold stream_count. do 2 f_equal. apply map_filter_ext. intros a s _. by rewrite E. Qed.

(** The roles as tests. *)
Lemma role_tests sv (s : nghttp2_stream) :
  role_test sv RClosed s = is_closed s /\ role_test sv RIdle s = is_idle s /\
  role_test sv RIncoming s = negb (is_closed s) && negb (is_idle s) && negb (is_promised s) && negb (mine sv (stream_id s)) /\
  role_test sv ROutgoing s = negb (is_closed s) && negb (is_idle s) && negb (is_promised s) && mine sv (stream_id s) /\
  role_test sv RPromisedRemote s = negb (is_closed s) && negb (is_idle s) && is_promised s && negb (mine sv (stream_id s)).
Proof.
  unfold role_test, is_idle, is_closed, is_promised, role_of. simpl. destruct (flag_set (sm_flags s) NGHTTP2_STREAM_FLAG_CLOSED); [done|].
  simpl. by destruct (bool_decide (state s = NGHTTP2_STREAM_IDLE)), (flag_set (sm_flags s) NGHTTP2_STREAM_FLAG_PUSH), (mine sv (stream_id s)).
Qed.

Lemma below_root ss kids lc li a : sess_ok ∅ ∅ ss kids lc li -> is_Some (se_streams ss !! a) -> rtc (parent_of (se_streams ss)) a root.
Proof.
  intros [HI _ HF] Ha. apply (inv_dom _ kids _ HI) in Ha as Hk. apply (t_dom _ _ (si_tree _ _ _ HI)) in Hk. destruct (t_acyclic _ _ (si_tree _ _ _ HI) a Hk) as [l Hl].
  clear Ha Hk. induction Hl as [a d Hd Hp|a d p l Hd Hp Hl IH].
  - apply deps_lookup_inv in Hd as (s & Hs & <-). destruct (decide (a = root)) as [->|Hr]; [done|].
    destruct (fo_below _ _ HF a) as (p & l & Hl & Hin); [apply (inv_dom _ _ _ HI); eauto|done|set_solver|].
    destruct (kid_parent _ _ a s HI Hs) as [H _]. destruct H as [? ?]; [by exists p, l|]. congruence.
  - apply deps_lookup_inv in Hd as (s & Hs & <-). eapply rtc_l; [|exact IH]. by exists s.
Qed.

Lemma list_walk X ss r l hd tl n : list_ok (server ss) X (scards ss) r l hd tl n -> walk (size (se_streams ss)) (se_streams ss) hd = l.
Proof.
  intros HL. apply (walk_kept _ _ _ tl); [apply HL|]. pose proof (list_small _ _ _ _ _ _ _ _ HL) as Hn. unfold scards, cards in Hn. rewrite map_size_fmap in Hn. lia.
Qed.

Lemma list_in_order ss r l hd tl n : list_ok (server ss) ∅ (scards ss) r l hd tl n ->
  forall l', l' = walk (size (se_streams ss)) (se_streams ss) hd -> NoDup l' /\ tl = last l' /\ n = zlen l' /\
    forall a, a ∈ l' <-> a <> root /\ exists s, se_streams ss !! a = Some s /\ role_test (server ss) r s = true.
Proof.
  intros HL l' ->. rewrite (list_walk _ _ _ _ _ _ _ HL). split_and!; [apply HL|apply HL|apply HL|]. intros a. rewrite (lo_in _ _ _ _ _ _ _ _ HL).
  unfold scards. rewrite role_in. unfold role_test. by setoid_rewrite bool_decide_eq_true.
Qed.

Lemma sess_in_order ss kids lc li : sess_ok ∅ ∅ ss kids lc li -> in_order ss.
Proof.
  intros HO. pose proof HO as [HI HB HF]. pose proof (fun s => role_tests (server ss) s) as HT. split.
  - intros id a. rewrite (tb_map _ _ (bk_table _ _ _ _ HB)). split; intros [Hr (c & Hc & Hid)]; (split; [done|]).
    + apply cards_lookup_inv in Hc as (s & Hs & <-). eauto.
    + exists (card_of c). split; [by apply cards_lookup|done].
  - intros a. by eapply below_root.
  - intros l Hl. pose proof (list_in_order _ _ _ _ _ _ (bk_closed _ _ _ _ HB) l Hl) as (H1 & H2 & H3 & H4). split_and!; try done.
    intros a. rewrite H4. by setoid_rewrite (fun s => proj1 (HT s)).
  - intros l Hl. pose proof (list_in_order _ _ _ _ _ _ (bk_idle _ _ _ _ HB) l Hl) as (H1 & H2 & H3 & H4). split_and!; try done.
    intros a. rewrite H4. by setoid_rewrite (fun s => proj1 (proj2 (HT s))).
  - rewrite (co_incoming _ _ _ _ (bk_counts _ _ _ _ HB)). unfold scards. rewrite count_streams. apply stream_count_ext. intros s. apply HT.
  - rewrite (co_outgoing _ _ _ _ (bk_counts _ _ _ _ HB)). unfold scards. rewrite count_streams. apply stream_count_ext. intros s. apply HT.
  - rewrite (co_reserved _ _ _ _ (bk_counts _ _ _ _ HB)). unfold scards. rewrite count_streams. apply stream_count_ext. intros s. apply HT.
Qed.
