(* ===== verification/SessionSpec.v ===== *)
(** * Sessions: what the operations on streams promise

    The properties of the operations of [Session] that open, close, move and
    drop streams, in sessions that use the priorities of RFC 7540. *)

From S2P Require Import Prelude Defs Pq Frame Http Stream StreamLinks StreamQueue StreamTree StreamInsert StreamRemove StreamDistribute StreamCut.
From S2P Require Import StreamItems StreamFrame StreamSpec Outbound Session SessionInv SessionTree SessionBooks SessionForest SessionOpen SessionClose SessionItems SessionAdjust SessionPrio SessionNew SessionReach.

Implicit Types (a b d p x : Z) (h : gmap Z nghttp2_stream) (ss : nghttp2_session) (lc li l : list Z) (X Y : gset Z) (kids : gmap Z (list Z)).

Section Spec.
Context (realloc_ok malloc_ok : nat -> bool) (new_stream : gmap Z nghttp2_stream -> Z) (callback : option (Z -> Z -> se_m Z)).

(** C8: in every session that sequences of operations reach from a new one,
    the table of streams is exact, every stream in memory is below the root of
    the dependency tree, the lists of closed and of idle streams hold exactly
    those streams, once, and all counters are right. *)
Theorem reached_sessions_in_order (sv : bool) ss : (forall h, h !! new_stream h = None) -> callback_ok callback ->
  reached realloc_ok malloc_ok new_stream callback sv ss -> in_order ss.
Proof.
  intros Hfresh Hcb HR. destruct (reached_ok _ _ _ _ Hcb Hfresh sv ss HR) as ((kids & lc & li & HO) & _). by eapply sess_in_order.
Qed.

(** C6: in every such session every operation whose caller keeps to the rules
    runs to its end: no dangling pointer, no failed assertion, no endless
    loop.  It succeeds and leaves a session in order, or the allocator refused
    something, or a stream to close is not there, or the application's
    callback failed. *)
Theorem session_operations_safe (sv : bool) ss op : (forall h, h !! new_stream h = None) -> callback_ok callback ->
  reached realloc_ok malloc_ok new_stream callback sv ss -> op_ready ss op ->
  exists ss' rv, run_op realloc_ok malloc_ok new_stream callback op ss = Some (ss', rv) /\
    (rv = 0 /\ in_order ss' \/ rv = NGHTTP2_ERR_NOMEM /\ refusal realloc_ok malloc_ok \/
     exists id error_code, op = CloseStream id error_code /\
       (rv = NGHTTP2_ERR_INVALID_ARGUMENT /\ live_stream ss id = None /\ ss' = ss \/ rv = NGHTTP2_ERR_CALLBACK_FAILURE /\ is_Some callback)).
Proof.
  intros Hfresh Hcb HR Hr. destruct (reached_ok _ _ _ _ Hcb Hfresh sv ss HR) as ((kids & lc & li & HO) & Hm & _).
  destruct (sp_run _ _ _ (sp_op realloc_ok malloc_ok new_stream callback Hcb Hfresh ss kids lc li op HO Hm Hr)) as (ss' & rv & E & [?|[(-> & (k & c & i & H) & _)|H]]).
  - exists ss', rv. split; [done|]. by right; left.
  - exists ss', 0. split; [done|]. left. split; [done|]. by eapply sess_in_order.
  - exists ss', rv. split; [done|]. right; right. destruct op; try done. eauto.
Qed.

(** C9: opening a stream that is new or idle succeeds unless the allocator
    refuses.  The stream is then in the table and in memory, counted or listed
    by its state, and linked where its priority points: below the root, below
    a stream that is known, or below an idle stream that is made for it.
    Everything else stays. *)
Theorem open_stream_contract ss kids lc li id pri st ud : (forall h, h !! new_stream h = None) -> sess_ok ∅ ∅ ss kids lc li -> openable ∅ ∅ ss id pri ->
  exists ss' r, nghttp2_session_open_stream realloc_ok malloc_ok new_stream id NGHTTP2_STREAM_FLAG_NONE pri st ud ss = Some (ss', r) /\
    (r = None /\ refusal realloc_ok malloc_ok \/ exists a, r = Some a /\ opened ∅ ∅ ss kids lc id pri st a ss').
Proof. intros Hfresh HO HP. by eapply sp_run, sp_open_stream. Qed.

(** C10: closing a stream calls the application back first.  Then the stream
    gives up its item, which is released unless a queue has it, and leaves the
    counters; a server keeps it at the end of the list of closed streams when
    the client opened it, otherwise it leaves the tree, as RFC 7540, 5.3.4,
    says, the table and memory.  A stream that is idle, closed or unknown is an
    error that changes nothing. *)
Theorem close_stream_contract ss kids lc li id err : callback_ok callback -> sess_ok ∅ ∅ ss kids lc li -> rfc7540 ss ->
  exists ss' rv, nghttp2_session_close_stream realloc_ok callback id err ss = Some (ss', rv) /\ close_result realloc_ok callback ∅ ∅ ss id err rv ss'.
Proof. intros Hcb HO Hm. eapply sp_run, sp_close_stream; [done|done|done|set_solver]. Qed.

(** C11: a new priority moves a stream with all its descendants as RFC 7540,
    5.3.3, asks: when the new parent is a descendant it is first moved to the
    stream's former parent; with the exclusive flag the stream adopts the
    parent's other children; the weight is the one given. *)
Theorem reprioritize_refines_rfc7540 ss kids lc li a (s : nghttp2_stream) pri : (forall h, h !! new_stream h = None) ->
  sess_ok ∅ ∅ ss kids lc li -> rfc7540 ss -> room ss 1 -> se_streams ss !! a = Some s -> a <> root ->
  ps_stream_id pri <> stream_id s -> 1 <= ps_weight pri <= 256 ->
  exists ss' rv, nghttp2_session_reprioritize_stream realloc_ok malloc_ok new_stream a pri ss = Some (ss', rv) /\
    (rv = NGHTTP2_ERR_NOMEM /\ refusal realloc_ok malloc_ok \/ rv = 0 /\ reprioritized ss kids lc a pri ss').
Proof. intros Hfresh HO Hm Hroom Hs Hr Hne Hw. by eapply sp_run, sp_reprioritize. Qed.

(** C37: too many closed streams are destroyed, the oldest first and no more
    than needed, until with the streams that the peer opened they are within
    the limit on concurrent streams. *)
Theorem adjust_closed_stream_bounds ss kids lc li : sess_ok ∅ ∅ ss kids lc li ->
  exists ss' rv, nghttp2_session_adjust_closed_stream realloc_ok ss = Some (ss', rv) /\
    (rv = NGHTTP2_ERR_NOMEM /\ refused realloc_ok \/
     rv = 0 /\ exists l r kids', lc = l ++ r /\ trimmed ss kids l r ss' kids' /\ sess_ok ∅ ∅ ss' kids' r li /\
       (r = [] \/ zlen r + num_incoming_streams ss <= max_closed_streams ss) /\ (l = [] \/ max_closed_streams ss < zlen r + 1 + num_incoming_streams ss)).
Proof. intros HO. by eapply sp_run, sp_adjust_closed. Qed.

(** Of the idle streams the newest are kept, between 16 and 100 of them
    as the limit on concurrent streams allows, and the older ones destroyed. *)
Theorem adjust_idle_stream_bounds ss kids lc li : sess_ok ∅ ∅ ss kids lc li ->
  16 <= max_idle_streams ss <= 100 /\
  exists ss' rv, nghttp2_session_adjust_idle_stream realloc_ok ss = Some (ss', rv) /\
    (rv = NGHTTP2_ERR_NOMEM /\ refused realloc_ok \/
     rv = 0 /\ exists l r kids', li = l ++ r /\ trimmed ss kids l r ss' kids' /\ sess_ok ∅ ∅ ss' kids' lc r /\
       zlen r <= max_idle_streams ss /\ (l = [] \/ zlen r = max_idle_streams ss)).
Proof. intros HO. split; [unfold max_idle_streams; lia|]. by eapply sp_run, sp_adjust_idle. Qed.

End Spec.

(** ** Witnesses *)

(** Every address in use is below. *)
Definition next_address h : Z := map_fold (fun a _ m => Z.max m (a + 1)) 1 h.

Lemma next_address_fresh h : h !! next_address h = None.
Proof.
  assert (forall a, is_Some (h !! a) -> a < next_address h) as H.
  { unfold next_address. revert h. apply (map_fold_weak_ind (fun m h => forall a, is_Some (h !! a) -> a < m)).
    - intros a [? Ha]. by rewrite lookup_empty in Ha.
    - intros i s m r Hi IH a Ha. rewrite lookup_insert in Ha. case_decide; [lia|]. apply IH in Ha. lia. }
  apply eq_None_not_Some. intros Ha. apply H in Ha. lia.
Qed.

Definition granting (n : nat) : bool := true.
Definition pri_on (id weight exclusive : Z) : nghttp2_priority_spec := mk_pri_spec id weight exclusive.
Definition does (op : session_op) ss : nghttp2_session :=
  match run_op granting granting next_address None op ss with Some (ss', _) => ss' | None => ss end.

(** A server; the client opens the streams 1, 3 and 5, 3 and 5 depending on
    1; stream 1 is closed. *)
Definition fresh_server : nghttp2_session := nghttp2_session_server_new3 None.
Definition opened1 : nghttp2_session := does (OpenStream 1 (pri_on 0 16 0) NGHTTP2_STREAM_OPENED None) fresh_server.
Definition opened3 : nghttp2_session := does (OpenStream 3 (pri_on 1 32 0) NGHTTP2_STREAM_OPENED None) opened1.
Definition opened5 : nghttp2_session := does (OpenStream 5 (pri_on 1 64 1) NGHTTP2_STREAM_OPENED None) opened3.
Definition closed1 : nghttp2_session := does (CloseStream 1 0) opened5.

Abbreviation reached_as := (reached granting granting next_address None).
Abbreviation reached_demo := (reached_as true).

Lemma new_reached (sv : bool) f : reached_as sv (upd_ids f (session_new sv None)).
Proof.
  eapply reached_elsewhere; [apply (reached_new _ _ _ _ sv None); by destruct sv; vm_compute|]. split; try done. intros a s it Ha Hi.
  change (se_streams (upd_ids f (session_new sv None))) with ({[root := root_stream]} : gmap Z nghttp2_stream) in Ha.
  change (se_streams (session_new sv None)) with ({[root := root_stream]} : gmap Z nghttp2_stream) in Ha.
  apply lookup_singleton_Some in Ha as [_ <-]. done.
Qed.

Lemma server_reached : reached_demo fresh_server.
Proof. apply new_reached. Qed.

Lemma open_new ss id pri : rfc7540 ss -> stream_map ss !! id = None -> ps_stream_id pri <> id -> 1 <= ps_weight pri <= 256 -> room ss 2 ->
  openable ∅ ∅ ss id pri.
Proof.
  intros Hm Hid Hne Hw Hroom. split; [done| |done|done|].
  - intros a Ha. congruence.
  - unfold room in *. case_match; lia.
Qed.

Definition succeeds (op : session_op) ss : bool :=
  match run_op granting granting next_address None op ss with Some (_, rv) => rv =? 0 | None => false end.

Lemma reached_does sv ss op : reached_as sv ss -> op_ready ss op -> succeeds op ss = true -> reached_as sv (does op ss).
Proof.
  intros HR Hr Hs. apply (reached_op _ _ _ _ sv ss op); [done|done|]. unfold succeeds, does in *.
  destruct (run_op _ _ _ _ _ _) as [[ss' rv]|]; [|done]. by apply Z.eqb_eq in Hs as ->.
Qed.

Lemma reached_open sv ss id pri st ud : reached_as sv ss -> rfc7540 ss -> stream_map ss !! id = None -> ps_stream_id pri <> id -> 1 <= ps_weight pri <= 256 ->
  room ss 2 -> succeeds (OpenStream id pri st ud) ss = true -> reached_as sv (does (OpenStream id pri st ud) ss).
Proof. intros HR Hm Hid Hne Hw Hroom Hs. apply reached_does; [done| |done]. by apply open_new. Qed.

Ltac opens_here := apply reached_open; [|by vm_compute|by vm_compute|by vm_compute|by vm_compute|by vm_compute|by vm_compute].

Lemma opened5_reached : reached_demo opened5.
Proof. unfold opened5. opens_here. unfold opened3. opens_here. unfold opened1. opens_here. apply server_reached. Qed.

Lemma closed1_reached : reached_demo closed1.
Proof. apply reached_does; [exact opened5_reached|done|by vm_compute]. Qed.

Lemma demo_ok ss : reached_demo ss -> exists kids lc li, sess_ok ∅ ∅ ss kids lc li.
Proof. intros HR. apply (reached_ok granting granting next_address None I next_address_fresh true ss HR). Qed.

(** The list of closed streams holds the stream 1; 3 and 5 are open. *)
Lemma reached_sessions_in_order_witness : in_order closed1 /\ num_closed_streams closed1 = 1 /\ num_incoming_streams closed1 = 2.
Proof.
  split; [|by vm_compute]. exact (reached_sessions_in_order granting granting next_address None true closed1 next_address_fresh I closed1_reached).
Defined.

Lemma session_operations_safe_witness :
  exists ss' rv, run_op granting granting next_address None (OpenStream 7 (pri_on 5 8 1) NGHTTP2_STREAM_OPENED None) closed1 = Some (ss', rv) /\
    (rv = 0 /\ in_order ss' \/ rv = NGHTTP2_ERR_NOMEM /\ refusal granting granting \/
     exists id error_code, OpenStream 7 (pri_on 5 8 1) NGHTTP2_STREAM_OPENED None = CloseStream id error_code /\
       (rv = NGHTTP2_ERR_INVALID_ARGUMENT /\ live_stream closed1 id = None /\ ss' = closed1 \/
        rv = NGHTTP2_ERR_CALLBACK_FAILURE /\ is_Some (None : option (Z -> Z -> se_m Z)))).
Proof.
  apply (session_operations_safe granting granting next_address None true closed1 _ next_address_fresh I closed1_reached).
  apply open_new; by vm_compute.
Defined.

Lemma open_stream_contract_witness : exists kids lc li,
  exists ss' r, nghttp2_session_open_stream granting granting next_address 7 NGHTTP2_STREAM_FLAG_NONE (pri_on 9 8 1) NGHTTP2_STREAM_OPENED None closed1 = Some (ss', r) /\
    (r = None /\ refusal granting granting \/ exists a, r = Some a /\ opened ∅ ∅ closed1 kids lc 7 (pri_on 9 8 1) NGHTTP2_STREAM_OPENED a ss').
Proof.
  destruct (demo_ok closed1 closed1_reached) as (kids & lc & li & HO). exists kids, lc, li.
  apply (open_stream_contract granting granting next_address closed1 kids lc li); [exact next_address_fresh|exact HO|]. apply open_new; by vm_compute.
Defined.

Lemma close_stream_contract_witness :
  exists ss' rv, nghttp2_session_close_stream granting None 3 0 closed1 = Some (ss', rv) /\ close_result granting None ∅ ∅ closed1 3 0 rv ss'.
Proof.
  destruct (demo_ok closed1 closed1_reached) as (kids & lc & li & HO).
  apply (close_stream_contract granting None closed1 kids lc li 3 0); [exact I|exact HO|by vm_compute].
Defined.

(** The stream 1, at the address 1, moves below its descendant 3. *)
Lemma reprioritize_refines_rfc7540_witness : exists kids lc,
  exists ss' rv, nghttp2_session_reprioritize_stream granting granting next_address 1 (pri_on 3 7 1) opened5 = Some (ss', rv) /\
    (rv = NGHTTP2_ERR_NOMEM /\ refusal granting granting \/ rv = 0 /\ reprioritized opened5 kids lc 1 (pri_on 3 7 1) ss').
Proof.
  destruct (demo_ok opened5 opened5_reached) as (kids & lc & li & HO). exists kids, lc.
  assert (exists s : nghttp2_stream, se_streams opened5 !! 1 = Some s /\ stream_id s = 1) as (s & Hs & Hid) by (eexists; split; [vm_compute; reflexivity|reflexivity]).
  apply (reprioritize_refines_rfc7540 granting granting next_address opened5 kids lc li 1 s).
  - exact next_address_fresh.
  - exact HO.
  - by vm_compute.
  - by vm_compute.
  - exact Hs.
  - done.
  - rewrite Hid. discriminate.
  - simpl. lia.
Defined.

(** A limit of two concurrent streams from now on. *)
Definition limit2 ss : nghttp2_session :=
  upd_conf (fun c => mk_conf (server c) (opt_flags c) (remote_settings c) (max_concurrent_streams_to 2 (local_settings c)) (pending_local_max_concurrent_stream c)
    (pending_enable_push c) (pending_no_rfc7540_priorities c) (fallback_rfc7540_priorities c) (max_incoming_reserved_streams c)
    (pending_enable_connect_protocol c) (remote_settings_received c) (inflight_settings c)) ss.
Definition limited : nghttp2_session := limit2 closed1.

Lemma limit2_elsewhere ss : map_Forall (fun _ (s : nghttp2_stream) => item s = None) (se_streams ss) -> elsewhere ss (limit2 ss).
Proof. intros H. split; try done. intros a s it Ha Hi. apply H in Ha. congruence. Qed.

Lemma limited_reached : reached_demo limited.
Proof.
  eapply reached_elsewhere; [exact closed1_reached|]. apply limit2_elsewhere, map_Forall_to_list. vm_compute.
  repeat constructor.
Qed.

Lemma adjust_closed_stream_bounds_witness : exists kids lc li,
  exists ss' rv, nghttp2_session_adjust_closed_stream granting limited = Some (ss', rv) /\
    (rv = NGHTTP2_ERR_NOMEM /\ refused granting \/
     rv = 0 /\ exists l r kids', lc = l ++ r /\ trimmed limited kids l r ss' kids' /\ sess_ok ∅ ∅ ss' kids' r li /\
       (r = [] \/ zlen r + 2 <= 2) /\ (l = [] \/ 2 < zlen r + 1 + 2)).
Proof.
  destruct (demo_ok limited limited_reached) as (kids & lc & li & HO). exists kids, lc, li.
  exact (adjust_closed_stream_bounds granting limited kids lc li HO).
Defined.

Lemma adjust_idle_stream_bounds_witness : exists kids lc li, 16 <= max_idle_streams limited <= 100 /\
  exists ss' rv, nghttp2_session_adjust_idle_stream granting limited = Some (ss', rv) /\
    (rv = NGHTTP2_ERR_NOMEM /\ refused granting \/
     rv = 0 /\ exists l r kids', li = l ++ r /\ trimmed limited kids l r ss' kids' /\ sess_ok ∅ ∅ ss' kids' lc r /\
       zlen r <= max_idle_streams limited /\ (l = [] \/ zlen r = max_idle_streams limited)).
Proof.
  destruct (demo_ok limited limited_reached) as (kids & lc & li & HO). exists kids, lc, li.
  exact (adjust_idle_stream_bounds granting limited kids lc li HO).
Defined.

(** The session drops the stream 1, which was the oldest one. *)
Lemma limited_drops_1 : (fun r : nghttp2_session * Z => (r.2, num_closed_streams r.1, stream_map r.1 !! 1, stream_map r.1 !! 3)) <$>
  nghttp2_session_adjust_closed_stream granting limited = Some (0, 0, None, Some 2).
Proof. by vm_compute. Qed.
