(* ===== verification/SessionTouch.v ===== *)
(** * Sessions: changes that keep a session in order

    Changes of a stream that neither the dependency tree nor the books see:
    the state of a stream that is in use, its windows, what its messages are
    checked against.  And changes of the session outside of its streams. *)

From S2P Require Import Prelude Defs Pq Frame Http Stream StreamLinks StreamQueue StreamTree StreamItems StreamFrame.
From S2P Require Import Outbound Session SessionInv SessionTree SessionBooks SessionForest SessionOpen SessionClose SessionReach.

Implicit Types (a id : Z) (s : nghttp2_stream) (h : gmap Z nghttp2_stream) (ss : nghttp2_session) (lc li : list Z) (X Y : gset Z).

(** ** Changes of a stream *)

Record gently s s' : Prop := {
  ge_dep : st_dep s' = st_dep s;
  ge_sched : st_sched s' = st_sched s;
  ge_id : stream_id s' = stream_id s;
  ge_flags : forall m, m = NGHTTP2_STREAM_FLAG_PUSH \/ m = NGHTTP2_STREAM_FLAG_CLOSED \/ m = NGHTTP2_STREAM_FLAG_NO_RFC7540_PRIORITIES \/
    m = NGHTTP2_STREAM_FLAG_DEFERRED_ALL -> sm_flags s' .& m = sm_flags s .& m;
  ge_item : item s' = item s;
  ge_prev : closed_prev s' = closed_prev s;
  ge_next : closed_next s' = closed_next s;
  ge_idle : state s' = NGHTTP2_STREAM_IDLE <-> state s = NGHTTP2_STREAM_IDLE;
}.

#[global] Instance gently_preorder : PreOrder gently.
Proof.
  split; [by split|]. intros x y z [A1 A2 A3 A4 A5 A6 A7 A8] [B1 B2 B3 B4 B5 B6 B7 B8]. split; try congruence.
  - intros m Hm. by rewrite B4, A4.
  - by rewrite B8.
Qed.

Lemma gently_state s (st : nghttp2_stream_state) : state s <> NGHTTP2_STREAM_IDLE -> st <> NGHTTP2_STREAM_IDLE -> gently s (state_to st s).
Proof. intros H1 H2. by split. Qed.

Lemma gently_retouch s s' : gently s s' -> retouch s s'.
Proof.
  intros H. split; [apply H|apply H|]. unfold no_rfc7540_priorities. by rewrite (ge_flags _ _ H) by auto.
Qed.

Lemma gently_active s s' : gently s s' -> stream_active s' = stream_active s.
Proof. intros H. unfold stream_active. by rewrite (ge_item _ _ H), (ge_flags _ _ H) by auto. Qed.

Lemma gently_role sv s s' : gently s s' -> role_of sv (card_of s') = role_of sv (card_of s).
Proof.
  intros H. unfold role_of, flag_set. simpl. rewrite !(ge_flags _ _ H), (ge_id _ _ H) by auto.
  rewrite (bool_decide_ext _ _ (ge_idle _ _ H)). done.
Qed.

Lemma gently_book X ss lc li a s s' : book_ok X ss lc li -> se_streams ss !! a = Some s -> gently s s' ->
  book_ok X (streams_to (<[a := s']> (se_streams ss)) ss) lc li.
Proof.
  intros HB Ha HG. set (ss' := streams_to _ ss). assert (scards ss' = <[a := card_of s']> (scards ss)) as EC by apply cards_insert.
  pose proof (cards_lookup _ _ _ Ha) as Hc. fold (scards ss) in Hc.
  assert (forall b c, scards ss' !! b = Some c -> exists d, scards ss !! b = Some d /\ role_of (server ss) c = role_of (server ss) d /\
    (c_prev c, c_next c) = (c_prev d, c_next d) /\ c_id c = c_id d /\ c_item c = c_item d /\
    flag_set (c_flags c) NGHTTP2_STREAM_FLAG_NO_RFC7540_PRIORITIES = flag_set (c_flags d) NGHTTP2_STREAM_FLAG_NO_RFC7540_PRIORITIES) as Hback.
  { intros b c. rewrite EC. intros [[<- <-]|[Hne Hb]]%lookup_insert_Some; [|exists c; done]. exists (card_of s). split; [done|].
    split; [by apply gently_role|]. destruct HG as [? ? G3 G4 G5 G6 G7 ?]. unfold flag_set. simpl. rewrite G3, G5, G6, G7, G4 by auto. done. }
  assert (forall b d, scards ss !! b = Some d -> exists c, scards ss' !! b = Some c /\ role_of (server ss) c = role_of (server ss) d) as Hfwd.
  { intros b d Hb. rewrite EC. destruct (decide (b = a)) as [->|]; [|exists d; by rewrite lookup_insert_ne]. exists (card_of s').
    rewrite lookup_insert_eq. split; [done|]. simplify_eq. by apply gently_role. }
  assert (forall b r, has_role (server ss) X (scards ss') b r <-> has_role (server ss) X (scards ss) b r) as HR.
  { intros b r. unfold has_role. split; intros (H1 & H2 & c & Hb & <-); (split_and!; [done|done|]).
    - destruct (Hback b c Hb) as (d & ? & ? & _). eauto.
    - destruct (Hfwd b c Hb) as (d & ? & ?). eauto. }
  assert (forall b {T} (f : card -> T), f (card_of s') = f (card_of s) -> f <$> scards ss' !! b = f <$> scards ss !! b) as Hf.
  { intros b T f E. rewrite EC. destruct (decide (b = a)) as [->|]; [|by rewrite lookup_insert_ne]. rewrite lookup_insert_eq, Hc. simpl. by rewrite E. }
  apply (book_soft X ss); try done.
  - intros b. apply Hf. simpl. by rewrite (ge_prev _ _ HG), (ge_next _ _ HG).
  - intros b. apply Hf. simpl. apply HG.
  - intros b c Hb Hq. destruct (Hback b c Hb) as (d & Hd & _ & _ & _ & -> & _). apply (id_quiet _ _ _ (bk_rest _ _ _ _ HB) b d Hd).
    unfold listed in *. by rewrite !HR in Hq.
  - destruct (bk_items _ _ _ _ HB) as [H1 H2 H3]. split.
    + intros b c i Hb Hi. destruct (Hback b c Hb) as (d & Hd & _ & _ & _ & E & _). rewrite E in Hi. by apply (H1 b d).
    + intros b b' c c' i Hb Hb' Hi Hi'. destruct (Hback b c Hb) as (d & Hd & _ & _ & _ & E & _), (Hback b' c' Hb') as (d' & Hd' & _ & _ & _ & E' & _).
      rewrite E in Hi. rewrite E' in Hi'. by apply (H2 b b' d d' i).
    + intros b c Hb. destruct (Hback b c Hb) as (d & Hd & _ & _ & _ & _ & ->). by apply (H3 b).
Qed.

Lemma gently_sess X Y ss kids lc li a s s' : sess_ok X Y ss kids lc li -> se_streams ss !! a = Some s -> gently s s' ->
  sess_ok X Y (streams_to (<[a := s']> (se_streams ss)) ss) kids lc li.
Proof.
  intros [HI HB HF] Ha HG. split; [|by eapply gently_book|done]. simpl.
  eapply touch_inv; [exact HI|exact Ha|by apply gently_retouch|by apply gently_active].
Qed.

(** ** A change of role *)

(** A stream that stays out of the lists is counted as [r'] from now on. *)
Record recast s s' : Prop := {
  rc_id : stream_id s' = stream_id s;
  rc_item : item s' = item s;
  rc_prev : closed_prev s' = closed_prev s;
  rc_next : closed_next s' = closed_next s;
  rc_plain : sm_flags s' .& NGHTTP2_STREAM_FLAG_NO_RFC7540_PRIORITIES = sm_flags s .& NGHTTP2_STREAM_FLAG_NO_RFC7540_PRIORITIES;
}.

Definition unlisted_role (r : role) : Prop := r <> RIdle /\ r <> RClosed.

Lemma recast_roles sv (C : gmap Z card) a (c c' : card) r : C !! a = Some c -> unlisted_role (role_of sv c) -> unlisted_role (role_of sv c') ->
  ~ unlisted_role r -> forall b, has_role sv ∅ (<[a := c']> C) b r <-> has_role sv ∅ C b r.
Proof.
  intros Ha Hr Hr' Hn b. unfold has_role. destruct (decide (b = a)) as [->|Hne]; [|by rewrite lookup_insert_ne].
  rewrite lookup_insert_eq, Ha. split; intros (_ & _ & d & [= <-] & <-); done.
Qed.

Lemma recast_links (C : gmap Z card) a (c c' : card) : C !! a = Some c -> c_prev c' = c_prev c -> c_next c' = c_next c ->
  forall b, links_at (<[a := c']> C) b = links_at C b.
Proof.
  intros Ha E1 E2 b. unfold links_at. destruct (decide (b = a)) as [->|Hne]; [|by rewrite lookup_insert_ne]. rewrite lookup_insert_eq, Ha. simpl. by rewrite E1, E2.
Qed.

Lemma recast_book ss lc li a s s' r r' : book_ok ∅ ss lc li -> se_streams ss !! a = Some s -> a <> root -> recast s s' ->
  role_of (server ss) (card_of s) = r -> role_of (server ss) (card_of s') = r' -> unlisted_role r -> unlisted_role r' ->
  book_ok ∅ (upd_counts (fun n => bump r' (bump r n (-1)) 1) (streams_to (<[a := s']> (se_streams ss)) ss)) lc li.
Proof.
  intros HB Hs Ha [E1 E2 E3 E4 E5] Er Er' Hr Hr'. pose proof (cards_lookup _ _ _ Hs) as Hc. fold (scards ss) in Hc.
  set (ss' := streams_to _ ss). assert (scards (upd_counts (fun n => bump r' (bump r n (-1)) 1) ss') = <[a := card_of s']> (scards ss)) as EC by apply cards_insert.
  assert (forall q, ~ unlisted_role q -> forall b, has_role (server ss) ∅ (<[a := card_of s']> (scards ss)) b q <-> has_role (server ss) ∅ (scards ss) b q) as HR.
  { intros q Hq. apply recast_roles with (c := card_of s); [done|by rewrite Er|by rewrite Er'|done]. }
  pose proof (recast_links _ _ _ (card_of s') Hc E3 E4) as HL.
  assert (forall q l hd tl n, ~ unlisted_role q -> list_ok (server ss) ∅ (scards ss) q l hd tl n -> list_ok (server ss) ∅ (<[a := card_of s']> (scards ss)) q l hd tl n) as Hlist.
  { intros q l hd tl n Hq [H1 H2 H3 H4]. split; [by apply (kept_ext (scards ss))|done| |done]. intros b. by rewrite HR. }
  assert (~ unlisted_role RClosed /\ ~ unlisted_role RIdle) as [HnC HnI] by (split; by intros [? ?]).
  assert (forall b, listed (server ss) ∅ (<[a := card_of s']> (scards ss)) b <-> listed (server ss) ∅ (scards ss) b) as Hl by (intros b; unfold listed; by rewrite !HR).
  assert (forall b c, <[a := card_of s']> (scards ss) !! b = Some c -> exists d, scards ss !! b = Some d /\ c_item c = c_item d /\ c_id c = c_id d /\
    c_prev c = c_prev d /\ c_next c = c_next d /\
    flag_set (c_flags c) NGHTTP2_STREAM_FLAG_NO_RFC7540_PRIORITIES = flag_set (c_flags d) NGHTTP2_STREAM_FLAG_NO_RFC7540_PRIORITIES) as Hback.
  { intros b c [[<- <-]|[Hne Hb]]%lookup_insert_Some; [|by exists c]. exists (card_of s). unfold flag_set. simpl. by rewrite E5. }
  assert (size (<[a := card_of s']> (scards ss)) = size (scards ss)) as Esz by (apply map_size_insert_Some; by rewrite Hc).
  destruct HB as [B1 [I1 I2 I3] B3 B4 [Q1 Q2] B6 B7 B8].
  split; rewrite ?EC; cbn -[bump count]; rewrite ?bump_closed, ?bump_idle; [| |by apply Hlist|by apply Hlist| | | |by rewrite Esz].
  - eapply limbo_table; [exact B1|exact Hc|done].
  - split.
    + intros b c i Hb Hi. destruct (Hback b c Hb) as (d & Hd & E & _). rewrite E in Hi. by apply (I1 b d).
    + intros b b' c c' i Hb Hb' Hi Hi'. destruct (Hback b c Hb) as (d & Hd & E & _), (Hback b' c' Hb') as (d' & Hd' & E' & _).
      rewrite E in Hi. rewrite E' in Hi'. by apply (I2 b b' d d' i).
    + intros b c Hb. destruct (Hback b c Hb) as (d & Hd & _ & _ & _ & _ & ->). by apply (I3 b).
  - split; intros b c Hb; rewrite Hl; destruct (Hback b c Hb) as (d & Hd & E & _ & E6 & E7 & _); [rewrite E6, E7; by apply (Q1 b)|rewrite E; by apply (Q2 b)].
  - rewrite <- Er, <- Er'. apply (counts_enter _ ∅ a); [set_solver| |by rewrite lookup_insert_eq|done|by rewrite Esz].
    apply (limbo_counts _ ({[a]} ∪ ∅) (scards ss)); [intros b Hb; apply lookup_insert_ne; set_solver|]. by apply counts_leave.
  - intros b Hb. set_solver.
Qed.

(** ** Changes elsewhere *)

(** Only members that the order of a session does not depend on differ. *)
Record aside ss ss' : Prop := {
  as_world : se_world ss' = se_world ss;
  as_map : stream_map ss' = stream_map ss;
  as_lists : se_lists ss' = se_lists ss;
  as_counts : se_counts ss' = se_counts ss;
  as_server : server ss' = server ss;
  as_mode : rfc7540 ss -> rfc7540 ss';
  as_items : forall it, is_Some (ob_items ss !! it) -> is_Some (ob_items ss' !! it);
}.

#[global] Instance aside_preorder : PreOrder aside.
Proof.
  split; [by split|]. intros x y z [A1 A2 A3 A4 A5 A6 A7] [B1 B2 B3 B4 B5 B6 B7]. split; try congruence; auto.
Qed.

Lemma aside_elsewhere X ss lc li ss' : book_ok X ss lc li -> aside ss ss' -> elsewhere ss ss'.
Proof.
  intros HB [H1 H2 H3 H4 H5 H6 H7]. split; try done. intros a s it Ha Hi. apply H7.
  by apply (io_some _ _ (bk_items _ _ _ _ HB) a (card_of s)); [by apply cards_lookup|].
Qed.

Lemma aside_sess X Y ss ss' kids lc li : aside ss ss' -> sess_ok X Y ss kids lc li -> sess_ok X Y ss' kids lc li.
Proof. intros HA HO. eapply elsewhere_sess; [|exact HO]. eapply aside_elsewhere; [apply HO|done]. Qed.

Lemma aside_streams ss ss' : aside ss ss' -> se_streams ss' = se_streams ss.
Proof. intros H. unfold se_streams. by rewrite (as_world _ _ H). Qed.

(** ** Streams found by id *)

(** What [nghttp2_session_get_stream] finds is in use. *)
Lemma sp_found_stream X Y ss kids lc li id (Q : option Z -> nghttp2_session -> Prop) : sess_ok X Y ss kids lc li ->
  (live_stream ss id = None -> Q None ss) ->
  (forall a s, live_stream ss id = Some a -> stream_id s = id -> in_use ss a s -> Q (Some a) ss) ->
  sp (nghttp2_session_get_stream id) ss Q.
Proof.
  intros [_ HB _] HN HS. eapply sp_get_stream; [exact HB|]. destruct (live_stream ss id) as [a|] eqn:Ea; [|auto].
  destruct (live_stream_role _ _ _ _ _ _ HB Ea) as (s & Hs & Hid & Hr & Hrole). apply (HS a s); [done|done|].
  unfold live_stream in Ea. destruct (stream_map ss !! id) as [b|]; simpl in Ea; [|done]. destruct (se_streams ss !! b) as [s'|] eqn:Eb; simpl in Ea; [|done].
  destruct (flag_set _ _) eqn:Ef; [done|]. simpl in Ea. case_bool_decide as Es; [done|]. injection Ea as ->. simplify_eq. done.
Qed.
