(* ===== verification/SessionSend.v ===== *)
(** * Sessions: what is queued for sending

    The three queues of nghttp2_session.c, in the order in which they are
    served, the frames the session queues itself (RST_STREAM, PING, GOAWAY,
    WINDOW_UPDATE), the termination of a session, and the tests that decide
    whether a frame may be sent. *)

From S2P Require Import Prelude Defs Helper HdToken Frame FrameHeaders Http Stream Outbound Session.

Implicit Types (ss : nghttp2_session) (ob : session_outbound).

(** ** Setters *)

Definition ob_items_to (v : gmap Z nghttp2_outbound_item) ob : session_outbound := mk_outbound v (ob_urgent ob) (ob_reg ob) (ob_syn ob) (aob_item ob).

Inductive ob_queue := ObUrgent | ObReg | ObSyn.

Definition ob_get (k : ob_queue) ob : nghttp2_outbound_queue :=
  match k with ObUrgent => ob_urgent ob | ObReg => ob_reg ob | ObSyn => ob_syn ob end.

Definition ob_put (k : ob_queue) (m : gmap Z nghttp2_outbound_item) (v : nghttp2_outbound_queue) ob : session_outbound :=
  match k with
  | ObUrgent => mk_outbound m v (ob_reg ob) (ob_syn ob) (aob_item ob)
  | ObReg => mk_outbound m (ob_urgent ob) v (ob_syn ob) (aob_item ob)
  | ObSyn => mk_outbound m (ob_urgent ob) (ob_reg ob) v (aob_item ob)
  end.

Definition goaway_flags_to (v : Z) (i : session_ids) : session_ids :=
  mk_ids (next_stream_id i) (last_sent_stream_id i) (last_recv_stream_id i) (last_proc_stream_id i) (local_last_stream_id i) (remote_last_stream_id i) v.

Definition obq_flood_counter_to (v : Z) (l : session_limits) : session_limits :=
  mk_limits (max_send_header_block_length l) (max_outbound_ack l) (max_settings l) (max_continuations l) (builtin_recv_ext_types l)
    (user_recv_ext_types l) (stream_reset_ratelim l) v.

Definition window_update_queued_to (v : Z) (f : stream_flow) : stream_flow :=
  mk_flow (remote_window_size f) (local_window_size f) (recv_window_size f) (consumed_size f) (recv_reduction f) v.

(** ** Tests *)

Definition session_get_num_active_streams ss : Z :=
  u64 (u64 (Z.of_nat (size (stream_map ss)) - num_closed_streams ss) - num_idle_streams ss).

Definition nghttp2_session_want_read ss : bool :=
  if negb (goaway_flags ss .& NGHTTP2_GOAWAY_TERM_SENT =? 0) then false
  else if 0 <? session_get_num_active_streams ss then true
  else goaway_flags ss .& (NGHTTP2_GOAWAY_SENT .| NGHTTP2_GOAWAY_RECV) =? 0.

(** [!nghttp2_pq_empty(&session->root.obq)]; the root is a member of the session. *)
Definition root_waiting ss : bool :=
  match se_streams ss !! root with Some s => negb (bool_decide (obq_q (s : nghttp2_stream) = [])) | None => false end.

Definition nghttp2_session_want_write ss : bool :=
  if negb (goaway_flags ss .& NGHTTP2_GOAWAY_TERM_SENT =? 0) then false
  else
    bool_decide (is_Some (aob_item ss)) || bool_decide (is_Some (nghttp2_outbound_queue_top (ob_urgent ss))) ||
    bool_decide (is_Some (nghttp2_outbound_queue_top (ob_reg ss))) ||
    ((root_waiting ss || negb (session_sched_empty ss)) && (0 <? remote_window_size ss)) ||
    (bool_decide (is_Some (nghttp2_outbound_queue_top (ob_syn ss))) && negb (session_is_outgoing_concurrent_streams_max ss)).

Definition session_is_closing ss : bool :=
  negb (goaway_flags ss .& NGHTTP2_GOAWAY_TERM_ON_SEND =? 0) || (negb (nghttp2_session_want_read ss) && negb (nghttp2_session_want_write ss)).

Definition nghttp2_session_check_request_allowed ss : bool :=
  negb (server ss) && (next_stream_id ss <=? INT32_MAX) && (goaway_flags ss .& NGHTTP2_GOAWAY_RECV =? 0) && negb (session_is_closing ss).

(** The stream that a test is given may be null. *)
Definition session_predicate_for_stream_send ss (stream : option nghttp2_stream) : Z :=
  match stream with
  | None => NGHTTP2_ERR_STREAM_CLOSED
  | Some s =>
      if session_is_closing ss then NGHTTP2_ERR_SESSION_CLOSING
      else if negb (shut_flags s .& NGHTTP2_SHUT_WR =? 0) then NGHTTP2_ERR_STREAM_SHUT_WR
      else 0
  end.

Definition session_predicate_request_headers_send ss (i : nghttp2_outbound_item) : Z :=
  if negb (ha_canceled (aux_headers (it_aux_data i)) =? 0) then NGHTTP2_ERR_STREAM_CLOSING
  else if negb (goaway_flags ss .& NGHTTP2_GOAWAY_RECV =? 0) || session_is_closing ss then NGHTTP2_ERR_START_STREAM_NOT_ALLOWED
  else 0.

(** The tests that start with [session_predicate_for_stream_send] and go on
    with the stream, which is not null then ([assert(stream)]). *)
Definition and_then ss (stream : option nghttp2_stream) (rest : nghttp2_stream -> Z) : Z :=
  let rv := session_predicate_for_stream_send ss stream in
  if negb (rv =? 0) then rv else match stream with Some s => rest s | None => rv end.

Definition session_predicate_response_headers_send ss (stream : option nghttp2_stream) : Z :=
  and_then ss stream (fun s =>
    if negb (server ss) then NGHTTP2_ERR_PROTO
    else if nghttp2_session_is_my_stream_id ss (stream_id s) then NGHTTP2_ERR_INVALID_STREAM_ID
    else match state s with
         | NGHTTP2_STREAM_OPENING => 0
         | NGHTTP2_STREAM_CLOSING => NGHTTP2_ERR_STREAM_CLOSING
         | _ => NGHTTP2_ERR_INVALID_STREAM_STATE
         end).

Definition session_predicate_push_response_headers_send ss (stream : option nghttp2_stream) : Z :=
  and_then ss stream (fun s =>
    if negb (server ss) then NGHTTP2_ERR_PROTO
    else if negb (bool_decide (state s = NGHTTP2_STREAM_RESERVED)) then NGHTTP2_ERR_PROTO
    else if negb (goaway_flags ss .& NGHTTP2_GOAWAY_RECV =? 0) then NGHTTP2_ERR_START_STREAM_NOT_ALLOWED
    else 0).

Definition session_predicate_headers_send ss (stream : option nghttp2_stream) : Z :=
  and_then ss stream (fun s =>
    match state s with
    | NGHTTP2_STREAM_OPENED => 0
    | NGHTTP2_STREAM_CLOSING => NGHTTP2_ERR_STREAM_CLOSING
    | _ => if nghttp2_session_is_my_stream_id ss (stream_id s) then 0 else NGHTTP2_ERR_INVALID_STREAM_STATE
    end).

Definition session_predicate_push_promise_send ss (stream : option nghttp2_stream) : Z :=
  if negb (server ss) then NGHTTP2_ERR_PROTO
  else and_then ss stream (fun s =>
    if enable_push (remote_settings ss) =? 0 then NGHTTP2_ERR_PUSH_DISABLED
    else if bool_decide (state s = NGHTTP2_STREAM_CLOSING) then NGHTTP2_ERR_STREAM_CLOSING
    else if negb (goaway_flags ss .& NGHTTP2_GOAWAY_RECV =? 0) then NGHTTP2_ERR_START_STREAM_NOT_ALLOWED
    else 0).

(** What [nghttp2_session_get_stream] finds, as a value. *)
Definition found_stream ss (stream_id : Z) : option nghttp2_stream :=
  stream_map ss !! stream_id ≫= fun a => se_streams ss !! a ≫= fun s : nghttp2_stream =>
  if negb (sm_flags s .& NGHTTP2_STREAM_FLAG_CLOSED =? 0) || bool_decide (state s = NGHTTP2_STREAM_IDLE) then None else Some s.

Definition session_predicate_window_update_send ss (stream_id : Z) : Z :=
  if session_is_closing ss then NGHTTP2_ERR_SESSION_CLOSING
  else if stream_id =? 0 then 0
  else match found_stream ss stream_id with
       | None => NGHTTP2_ERR_STREAM_CLOSED
       | Some s =>
           if bool_decide (state s = NGHTTP2_STREAM_CLOSING) then NGHTTP2_ERR_STREAM_CLOSING
           else if state_reserved_local ss s then NGHTTP2_ERR_INVALID_STREAM_STATE
           else 0
       end.

Definition session_predicate_altsvc_send ss (stream_id : Z) : Z :=
  if session_is_closing ss then NGHTTP2_ERR_SESSION_CLOSING
  else if stream_id =? 0 then 0
  else match found_stream ss stream_id with
       | None => NGHTTP2_ERR_STREAM_CLOSED
       | Some s => if bool_decide (state s = NGHTTP2_STREAM_CLOSING) then NGHTTP2_ERR_STREAM_CLOSING else 0
       end.

Definition session_predicate_origin_send ss : Z := if session_is_closing ss then NGHTTP2_ERR_SESSION_CLOSING else 0.

Definition session_predicate_priority_update_send ss (stream_id : Z) : Z :=
  if session_is_closing ss then NGHTTP2_ERR_SESSION_CLOSING
  else match found_stream ss stream_id with
       | None => 0
       | Some s =>
           if bool_decide (state s = NGHTTP2_STREAM_CLOSING) then NGHTTP2_ERR_STREAM_CLOSING
           else if negb (shut_flags s .& NGHTTP2_SHUT_RD =? 0) then NGHTTP2_ERR_INVALID_STREAM_STATE
           else 0
       end.

Definition nghttp2_session_predicate_data_send ss (stream : option nghttp2_stream) : Z :=
  and_then ss stream (fun s =>
    if nghttp2_session_is_my_stream_id ss (stream_id s) then
      if bool_decide (state s = NGHTTP2_STREAM_CLOSING) then NGHTTP2_ERR_STREAM_CLOSING
      else if bool_decide (state s = NGHTTP2_STREAM_RESERVED) then NGHTTP2_ERR_INVALID_STREAM_STATE
      else 0
    else if bool_decide (state s = NGHTTP2_STREAM_OPENED) then 0
    else if bool_decide (state s = NGHTTP2_STREAM_CLOSING) then NGHTTP2_ERR_STREAM_CLOSING
    else NGHTTP2_ERR_INVALID_STREAM_STATE).

(** ** How much data may be sent *)

Definition NGHTTP2_DATA_PAYLOADLEN : Z := NGHTTP2_MAX_FRAME_SIZE_MIN.

Definition nghttp2_session_enforce_flow_control_limits ss (s : nghttp2_stream) (requested_window_size : Z) : Z :=
  nghttp2_min (nghttp2_min (nghttp2_min requested_window_size (remote_window_size s)) (remote_window_size ss))
    (to_int32 (max_frame_size (remote_settings ss))).

Definition nghttp2_session_next_data_read ss (s : nghttp2_stream) : Z :=
  let window_size := nghttp2_session_enforce_flow_control_limits ss s NGHTTP2_DATA_PAYLOADLEN in
  if 0 <? window_size then window_size else 0.

(** ** Queueing *)

Section Queueing.

Variable realloc_ok : nat -> bool.
Variable malloc_ok : nat -> bool.
Variable new_stream : gmap Z nghttp2_stream -> Z.

(** Where the allocator puts a new item. *)
Variable new_item : gmap Z nghttp2_outbound_item -> Z.

(** [nghttp2_outbound_queue_push(&session->..., item); item->queued = 1] *)
Definition ob_push (k : ob_queue) (it : Z) : se_m unit :=
  update (upd_ob (fun ob => let '(m, q) := nghttp2_outbound_queue_push (ob_items ob) (ob_get k ob) it in ob_put k m q ob));;
  update (upd_ob (fun ob => ob_items_to (alter (it_queued_to 1) it (ob_items ob)) ob)).

Definition nghttp2_session_add_item (it : Z) : se_m Z :=
  let! ss := the_session in
  match ob_items ss !! it with
  | None => se_undef
  | Some i =>
      let frame := it_frame i in
      let! stream := nghttp2_session_get_stream (hd_stream_id (frame_hd frame)) in
      match frame with
      | FrData _ =>
          match stream with
          | None => mret NGHTTP2_ERR_STREAM_CLOSED
          | Some a =>
              let! s := load_stream a in
              if bool_decide (is_Some (item s)) then mret NGHTTP2_ERR_DATA_EXIST
              else session_attach_stream_item realloc_ok a it
          end
      | FrHeaders f =>
          let! reserved := (match stream with
                            | Some a => let! s := load_stream a in mret (bool_decide (state s = NGHTTP2_STREAM_RESERVED))
                            | None => mret false
                            end) in
          if (he_cat f =? NGHTTP2_HCAT_REQUEST) || reserved then ob_push ObSyn it;; mret 0
          else ob_push ObReg it;; mret 0
      | FrControl (FrSettings _) | FrControl (FrPing _) => ob_push ObUrgent it;; mret 0
      | FrControl (FrRstStream _) =>
          (match stream with Some a => modify_stream a (state_to NGHTTP2_STREAM_CLOSING) | None => mret tt end);;
          ob_push ObReg it;; mret 0
      | FrPushPromise f =>
          match stream with
          | None => mret NGHTTP2_ERR_STREAM_CLOSED
          | Some a =>
              let! s := load_stream a in
              let! promised := nghttp2_session_open_stream realloc_ok malloc_ok new_stream (pp_promised_stream_id f) NGHTTP2_STREAM_FLAG_NONE
                                 (nghttp2_priority_spec_init (stream_id s) NGHTTP2_DEFAULT_WEIGHT 0) NGHTTP2_STREAM_RESERVED
                                 (ha_stream_user_data (aux_headers (it_aux_data i))) in
              match promised with
              | None => mret NGHTTP2_ERR_NOMEM
              | Some _ => ob_push ObReg it;; mret 0
              end
          end
      | FrControl (FrWindowUpdate _) =>
          (match stream with
           | Some a => modify_stream a (upd_flow (window_update_queued_to 1))
           | None => if hd_stream_id (frame_hd frame) =? 0 then update (upd_window (window_update_queued_to 1)) else mret tt
           end);;
          ob_push ObReg it;; mret 0
      | _ => ob_push ObReg it;; mret 0
      end
  end.

(** An item is filled with its frame and queued; it is released when that
    fails. *)
Definition put_frame (frame : nghttp2_frame) (aux : nghttp2_aux_data) : se_m Z :=
  let! ss := the_session in
  let it := new_item (ob_items ss) in
  update (upd_ob (fun ob => ob_items_to (<[it := aux_to aux (nghttp2_outbound_item_init frame)]> (ob_items ob)) ob));;
  let! rv := nghttp2_session_add_item it in
  if negb (rv =? 0) then update (upd_ob (fun ob => ob_items_to (delete it (ob_items ob)) ob));; mret rv
  else mret 0.

Definition add_frame (frame : nghttp2_frame) (aux : nghttp2_aux_data) : se_m Z :=
  let! ok := mem_malloc malloc_ok in
  if negb ok then mret NGHTTP2_ERR_NOMEM else put_frame frame aux.

Definition cancel_request (error_code : Z) (i : nghttp2_outbound_item) : nghttp2_outbound_item :=
  let aux := it_aux_data i in
  let ha := aux_headers aux in
  aux_to (mk_aux (aux_data aux) (mk_headers_aux (ha_dpw ha) (ha_stream_user_data ha) error_code 1) (aux_goaway_flags aux) (aux_ext_builtin aux)) i.

(** Whether a request that waits in [ob_syn] was cancelled: the ids in it grow. *)
Fixpoint cancel_loop (fuel : nat) (item : option Z) (stream_id error_code : Z) : se_m bool :=
  match item with
  | None => mret false
  | Some it =>
      match fuel with
      | O => se_undef
      | S fuel =>
          let! ss := the_session in
          match ob_items ss !! it with
          | None => se_undef
          | Some i =>
              if hd_stream_id (frame_hd (it_frame i)) <? stream_id then cancel_loop fuel (it_qnext i) stream_id error_code
              else if (stream_id <? hd_stream_id (frame_hd (it_frame i))) || negb (ha_canceled (aux_headers (it_aux_data i)) =? 0) then mret false
              else
                update (upd_ob (fun ob => ob_items_to (alter (cancel_request error_code) it (ob_items ob)) ob));;
                mret true
          end
      end
  end.

Definition is_headers (f : nghttp2_frame) : bool := match f with FrHeaders _ => true | _ => false end.

Definition stream_closing (stream : option Z) : se_m bool :=
  match stream with
  | Some a => let! s := load_stream a in mret (bool_decide (state s = NGHTTP2_STREAM_CLOSING))
  | None => mret false
  end.

(** A client's request that has not been sent is cancelled in its queue. *)
Definition cancel_waiting (stream_id error_code : Z) : se_m bool :=
  let! ss := the_session in
  match nghttp2_outbound_queue_top (ob_syn ss) with
  | Some top =>
      if negb (server ss) && nghttp2_session_is_my_stream_id ss stream_id then
        match ob_items ss !! top with
        | None => se_undef
        | Some i =>
            se_assert (is_headers (it_frame i));;
            if hd_stream_id (frame_hd (it_frame i)) <=? stream_id then
              cancel_loop (size (ob_items ss)) (oq_head (ob_syn ss)) stream_id error_code
            else mret false
        end
      else mret false
  | None => mret false
  end.

Definition nghttp2_session_add_rst_stream (stream_id error_code : Z) : se_m Z :=
  let! stream := nghttp2_session_get_stream stream_id in
  let! closing := stream_closing stream in
  if closing then mret 0
  else
    let! ss := the_session in
    if (if nghttp2_session_is_my_stream_id ss stream_id then next_stream_id ss <=? u32 stream_id else last_recv_stream_id ss <? stream_id) then mret 0
    else
      let! cancelled := cancel_waiting stream_id error_code in
      if cancelled then mret 0
      else add_frame (FrControl (FrRstStream (nghttp2_frame_rst_stream_init stream_id error_code))) aux_zero.

(** [++session->obq_flood_counter_] when the frame has the flag ACK. *)
Definition count_ack (flags : Z) : se_m unit :=
  if negb (flags .& NGHTTP2_FLAG_ACK =? 0) then
    update (fun ss => upd_limits (obq_flood_counter_to (u64 (obq_flood_counter_ ss + 1))) ss)
  else mret tt.

Definition nghttp2_session_add_ping (flags : Z) (opaque_data : option bytes) : se_m Z :=
  let! ss := the_session in
  if negb (flags .& NGHTTP2_FLAG_ACK =? 0) && (max_outbound_ack ss <=? obq_flood_counter_ ss) then mret NGHTTP2_ERR_FLOODED
  else
    let! rv := add_frame (FrControl (FrPing (nghttp2_frame_ping_init flags opaque_data))) aux_zero in
    if negb (rv =? 0) then mret rv else count_ack flags;; mret 0.

Definition nghttp2_session_add_goaway (last_stream_id error_code : Z) (opaque_data : bytes) (aux_flags : Z) : se_m Z :=
  let! ss := the_session in
  if nghttp2_session_is_my_stream_id ss last_stream_id then mret NGHTTP2_ERR_INVALID_ARGUMENT
  else if negb (zlen opaque_data =? 0) && (NGHTTP2_MAX_PAYLOADLEN <? zlen opaque_data + 8) then mret NGHTTP2_ERR_INVALID_ARGUMENT
  else
    let! ok := (if negb (zlen opaque_data =? 0) then mem_malloc malloc_ok else mret true) in
    if negb ok then mret NGHTTP2_ERR_NOMEM
    else
      let! rv := add_frame (FrControl (FrGoaway (nghttp2_frame_goaway_init (nghttp2_min last_stream_id (local_last_stream_id ss)) error_code opaque_data)))
                   (mk_aux (aux_data aux_zero) (aux_headers aux_zero) aux_flags 0) in
      if negb (rv =? 0) then mret rv
      else update (fun ss => upd_ids (goaway_flags_to (u8 (goaway_flags ss .| NGHTTP2_GOAWAY_SUBMITTED))) ss);; mret 0.

Definition nghttp2_session_add_window_update (flags stream_id window_size_increment : Z) : se_m Z :=
  add_frame (FrControl (FrWindowUpdate (nghttp2_frame_window_update_init flags stream_id window_size_increment))) aux_zero.

(** ** Termination *)

Definition session_terminate_session (last_stream_id error_code : Z) (reason : option bytes) : se_m Z :=
  let! ss := the_session in
  if negb (goaway_flags ss .& NGHTTP2_GOAWAY_TERM_ON_SEND =? 0) then mret 0
  else
    update (ign_all_to true);;
    let! rv := nghttp2_session_add_goaway last_stream_id error_code (match reason with Some r => r | None => [] end) NGHTTP2_GOAWAY_AUX_TERM_ON_SEND in
    if negb (rv =? 0) then mret rv
    else update (fun ss => upd_ids (goaway_flags_to (u8 (goaway_flags ss .| NGHTTP2_GOAWAY_TERM_ON_SEND))) ss);; mret 0.

Definition nghttp2_session_terminate_session (error_code : Z) : se_m Z :=
  let! ss := the_session in session_terminate_session (last_proc_stream_id ss) error_code None.

Definition nghttp2_session_terminate_session2 (last_stream_id error_code : Z) : se_m Z :=
  session_terminate_session last_stream_id error_code None.

Definition nghttp2_session_terminate_session_with_reason (error_code : Z) (reason : option bytes) : se_m Z :=
  let! ss := the_session in session_terminate_session (last_proc_stream_id ss) error_code reason.

(** ** The next item to send *)

(** [nghttp2_outbound_queue_pop(&session->...); item->queued = 0] *)
Definition ob_pop (k : ob_queue) (it : Z) : se_m unit := fun ss =>
  '(m, q) ← nghttp2_outbound_queue_pop (ob_items ss) (ob_get k ss);
  Some (upd_ob (fun ob => ob_put k (alter (it_queued_to 0) it m) q ob) ss, tt).

(** Data is sent while the window of the connection is open. *)
Definition next_data_item : se_m (option Z) :=
  let! ss := the_session in
  if 0 <? remote_window_size ss then
    let! it := on_streams (nghttp2_stream_next_outbound_item root) in
    match it with
    | Some it => mret (Some it)
    | None => session_sched_get_next_outbound_item
    end
  else mret None.

Definition syn_top ss : option Z :=
  if session_is_outgoing_concurrent_streams_max ss then None else nghttp2_outbound_queue_top (ob_syn ss).

Definition nghttp2_session_get_next_ob_item : se_m (option Z) :=
  let! ss := the_session in
  match nghttp2_outbound_queue_top (ob_urgent ss), nghttp2_outbound_queue_top (ob_reg ss), syn_top ss with
  | Some it, _, _ | None, Some it, _ | None, None, Some it => mret (Some it)
  | None, None, None => next_data_item
  end.

Definition nghttp2_session_pop_next_ob_item : se_m (option Z) :=
  let! ss := the_session in
  match nghttp2_outbound_queue_top (ob_urgent ss), nghttp2_outbound_queue_top (ob_reg ss), syn_top ss with
  | Some it, _, _ => ob_pop ObUrgent it;; mret (Some it)
  | None, Some it, _ => ob_pop ObReg it;; mret (Some it)
  | None, None, Some it => ob_pop ObSyn it;; mret (Some it)
  | None, None, None => next_data_item
  end.

End Queueing.
