(* ===== verification/SessionQueues.v ===== *)
(** * Sessions: the queues hold what was put into them

    The invariant of the three queues of a session and of the items in
    memory, and what adding a frame and taking the next item to send do. *)

From S2P Require Import Prelude Defs Helper HdToken Pq Frame FrameHeaders Http Stream StreamLinks StreamQueue StreamTree StreamItems StreamFrame StreamValidate StreamSpec.
From S2P Require Import Outbound Session SessionInv SessionTree SessionBooks SessionForest SessionOpen SessionClose SessionItems SessionReach SessionTouch SessionSend.

Implicit Types (a b it : Z) (k : ob_queue) (h : gmap Z nghttp2_stream) (ss : nghttp2_session) (ob : session_outbound) (l lc li : list Z).
Implicit Types (m : gmap Z nghttp2_outbound_item) (q : nghttp2_outbound_queue) (i : nghttp2_outbound_item) (L : ob_queue -> list Z) (X Y : gset Z) (kids : gmap Z (list Z)).

#[global] Instance ob_queue_eq_dec : EqDecision ob_queue.
Proof. solve_decision. Defined.

(** ** The invariant *)

(** [L] gives the items of each queue in order. *)
Definition queued_in L a : Prop := exists k, a ∈ L k.

Definition relist L k l : ob_queue -> list Z := fun k' => if decide (k' = k) then l else L k'.

Record ob_ok ob L : Prop := {
  oo_holds : forall k, queue_holds (ob_items ob) (ob_get k ob) (L k);
  oo_apart : forall k k' a, a ∈ L k -> a ∈ L k' -> k' = k;
  oo_queued : forall a i, ob_items ob !! a = Some i -> queued_in L a -> it_queued i = 1;
  oo_loose : forall a i, ob_items ob !! a = Some i -> ~ queued_in L a -> it_queued i = 0 /\ it_qnext i = None;
}.

Lemma relist_eq L k l : relist L k l k = l.
Proof. unfold relist. by rewrite decide_True. Qed.

Lemma relist_ne L k l k' : k' <> k -> relist L k l k' = L k'.
Proof. intros H. unfold relist. by rewrite decide_False. Qed.

Lemma oo_known ob L k a : ob_ok ob L -> a ∈ L k -> is_Some (ob_items ob !! a).
Proof. intros HO. by apply qlinked_lookup, oo_holds. Qed.

Lemma holds_ext m m' q l : queue_holds m q l -> (forall a, a ∈ l -> it_qnext <$> m' !! a = it_qnext <$> m !! a) -> queue_holds m' q l.
Proof. intros [H1 H2 H3 H4 H5 H6] H. split; try done. by apply (qlinked_ext m). Qed.

Lemma unqueued_loose ob L a i : ob_ok ob L -> ob_items ob !! a = Some i -> it_queued i = 0 -> ~ queued_in L a.
Proof. intros HO Ha Hq Hin. pose proof (oo_queued _ _ HO a i Ha Hin). lia. Qed.

(** No queue is longer than the memory has items. *)
Lemma queue_length ob L k a : ob_ok ob L -> is_Some (ob_items ob !! a) -> ~ queued_in L a -> (S (length (L k)) <= size (ob_items ob))%nat.
Proof.
  intros HO Ha Hq. rewrite <- (size_dom (D := gset Z)). rewrite <- (size_list_to_set (C := gset Z) (L k)) by apply (oo_holds _ _ HO).
  assert (a ∉ (list_to_set (L k) : gset Z)) as Hn by (rewrite elem_of_list_to_set; intros H; apply Hq; by exists k).
  replace (S (size (list_to_set (L k) : gset Z))) with (size ({[a]} ∪ list_to_set (L k) : gset Z)) by (rewrite size_union, size_singleton by set_solver; lia).
  apply subseteq_size. intros b. rewrite elem_of_union, elem_of_singleton, elem_of_list_to_set, elem_of_dom.
  intros [->|Hb]; [done|by eapply oo_known].
Qed.

(** Items, their frames and what belongs to them stay. *)
Definition contents i : nghttp2_frame * nghttp2_aux_data := (it_frame i, it_aux_data i).

Definition same_frames ob ob' : Prop := forall a, contents <$> ob_items ob' !! a = contents <$> ob_items ob !! a.

#[global] Instance same_frames_preorder : PreOrder same_frames.
Proof. split; [done|]. intros x y z H1 H2 a. by rewrite H2. Qed.

Lemma same_frames_known ob ob' a : same_frames ob ob' -> is_Some (ob_items ob' !! a) <-> is_Some (ob_items ob !! a).
Proof. intros H. by rewrite <- (fmap_is_Some contents), H, fmap_is_Some. Qed.

(** *** The queues as the pointers give them *)

Fixpoint walk_items (fuel : nat) m (a : option Z) : list Z :=
  match fuel, a with
  | S fuel, Some a => a :: match m !! a with Some i => walk_items fuel m (it_qnext i) | None => [] end
  | _, _ => []
  end.

Definition queue_items ob k : list Z := walk_items (size (ob_items ob)) (ob_items ob) (oq_head (ob_get k ob)).

(** The frames of a queue, in order. *)
Definition queue_frames ob k : list nghttp2_frame := omap (fun a => it_frame <$> ob_items ob !! a) (queue_items ob k).

Lemma queue_known ob L k : ob_ok ob L -> (length (L k) <= size (ob_items ob))%nat.
Proof.
  intros HO. rewrite <- (size_dom (D := gset Z)), <- (size_list_to_set (C := gset Z) (L k)) by apply (oo_holds _ _ HO).
  apply subseteq_size. intros b. rewrite elem_of_list_to_set, elem_of_dom. by apply oo_known.
Qed.

Lemma walk_linked m l : forall fuel, (length l <= fuel)%nat -> qlinked m l -> walk_items fuel m (head l) = l.
Proof.
  induction l as [|a l IH]; intros fuel Hf HL; [by destruct fuel|]. destruct fuel as [|fuel]; [simpl in Hf; lia|].
  destruct HL as [(i & Ha & En) HL]. simpl. rewrite Ha, En, IH; [done|simpl in Hf; lia|done].
Qed.

Lemma queue_items_held ob L k : ob_ok ob L -> queue_items ob k = L k.
Proof.
  intros HO. unfold queue_items. rewrite (qh_head _ _ _ (oo_holds _ _ HO k)). apply walk_linked; [by apply queue_known|apply (oo_holds _ _ HO)].
Qed.

Lemma frames_ext ob ob' l : (forall a, a ∈ l -> contents <$> ob_items ob' !! a = contents <$> ob_items ob !! a) ->
  omap (fun a => it_frame <$> ob_items ob' !! a) l = omap (fun a => it_frame <$> ob_items ob !! a) l.
Proof.
  induction l as [|a l IH]; intros H; [done|]. simpl. assert (it_frame <$> ob_items ob' !! a = it_frame <$> ob_items ob !! a) as ->.
  { pose proof (H a ltac:(by left)) as E. destruct (ob_items ob' !! a), (ob_items ob !! a); simplify_eq/=; try done. unfold contents in E. congruence. }
  destruct (it_frame <$> _); [f_equal|]; apply IH; intros b Hb; apply H; by right.
Qed.

(** ** Putting an item into a queue, taking it out *)

Definition pushed_ob k a ob : session_outbound :=
  let '(m, q) := nghttp2_outbound_queue_push (ob_items ob) (ob_get k ob) a in ob_items_to (alter (it_queued_to 1) a m) (ob_put k m q ob).

Lemma ob_get_put k k' m q ob : ob_get k' (ob_put k m q ob) = if decide (k' = k) then q else ob_get k' ob.
Proof. by destruct k, k'. Qed.

Lemma ob_items_put k m q ob : ob_items (ob_put k m q ob) = m.
Proof. by destruct k. Qed.

Lemma queued_relist_snoc L k a b : queued_in (relist L k (L k ++ [a])) b <-> b = a \/ queued_in L b.
Proof.
  unfold queued_in. split.
  - intros (k' & Hb). unfold relist in Hb. case_decide as E; [|eauto]. subst. apply elem_of_app in Hb as [?| ->%list_elem_of_singleton]; eauto.
  - intros [->|(k' & Hb)]; [exists k; rewrite relist_eq; set_solver|]. exists k'. unfold relist. case_decide; [|done]. subst. set_solver.
Qed.

Lemma alter_queued_next v a m b : it_qnext <$> alter (it_queued_to v) a m !! b = it_qnext <$> m !! b.
Proof. destruct (decide (b = a)) as [->|]; [rewrite lookup_alter_eq; by destruct (m !! a)|by rewrite lookup_alter_ne]. Qed.

Lemma alter_queued_contents v a m b : contents <$> alter (it_queued_to v) a m !! b = contents <$> m !! b.
Proof. destruct (decide (b = a)) as [->|]; [rewrite lookup_alter_eq; by destruct (m !! a)|by rewrite lookup_alter_ne]. Qed.

Lemma push_next m q l a b : queue_holds m q l -> b ∉ l -> (nghttp2_outbound_queue_push m q a).1 !! b = m !! b.
Proof.
  intros HQ Hb. unfold nghttp2_outbound_queue_push. destruct (oq_tail q) as [t|] eqn:Et; [|done]. simpl. rewrite lookup_alter_ne; [done|].
  intros ->. apply Hb. rewrite (qh_tail _ _ _ HQ) in Et. by apply last_Some_elem_of.
Qed.

(** What pushing does to the marks of the items. *)
Lemma push_queued m q a b : it_queued <$> (nghttp2_outbound_queue_push m q a).1 !! b = it_queued <$> m !! b.
Proof.
  unfold nghttp2_outbound_queue_push. destruct (oq_tail q) as [t|]; [|done]. simpl.
  destruct (decide (b = t)) as [->|]; [rewrite lookup_alter_eq; by destruct (m !! t)|by rewrite lookup_alter_ne].
Qed.

Lemma push_contents m q a b : contents <$> (nghttp2_outbound_queue_push m q a).1 !! b = contents <$> m !! b.
Proof.
  unfold nghttp2_outbound_queue_push. destruct (oq_tail q) as [t|]; [|done]. simpl.
  destruct (decide (b = t)) as [->|]; [rewrite lookup_alter_eq; by destruct (m !! t)|by rewrite lookup_alter_ne].
Qed.

Lemma pushed_ok ob L k a i : ob_ok ob L -> ob_items ob !! a = Some i -> it_queued i = 0 -> Z.of_nat (size (ob_items ob)) < 2 ^ 64 ->
  ob_ok (pushed_ob k a ob) (relist L k (L k ++ [a])) /\ same_frames ob (pushed_ob k a ob) /\ aob_item (pushed_ob k a ob) = aob_item ob.
Proof.
  intros HO Ha Hq Hsz. pose proof (unqueued_loose _ _ _ _ HO Ha Hq) as Hn. destruct (oo_loose _ _ HO a i Ha Hn) as [_ Hnext].
  assert (a ∉ L k) as Hak by (intros H; apply Hn; by exists k). pose proof (queue_length _ _ k a HO ltac:(eauto) Hn) as Hlen.
  pose proof (outbound_push_holds _ _ _ a i (oo_holds _ _ HO k) Ha Hnext Hak ltac:(lia)) as HP.
  pose proof (push_queued (ob_items ob) (ob_get k ob) a) as HPQ. pose proof (push_contents (ob_items ob) (ob_get k ob) a) as HPC. pose proof (fun b => push_next _ _ _ a b (oo_holds _ _ HO k)) as HPN.
  unfold pushed_ob. destruct (nghttp2_outbound_queue_push (ob_items ob) (ob_get k ob) a) as [m q] eqn:EP. simpl in HPQ, HPC, HPN.
  destruct HP as (HQ & Hsame & Hfr). split; [split|split].
  - intros k'. replace (ob_get k' (ob_items_to _ (ob_put k m q ob))) with (ob_get k' (ob_put k m q ob)) by (by destruct k').
    rewrite ob_get_put. simpl. unfold relist. case_decide as E.
    + subst. apply (holds_ext m); [done|]. intros b _. apply alter_queued_next.
    + apply (holds_ext (ob_items ob)); [apply HO|]. intros b Hb. rewrite alter_queued_next, HPN; [done|].
      intros Hbk. by apply E, (oo_apart _ _ HO k k' b).
  - intros k1 k2 b H1 H2. unfold relist in H1, H2. destruct (decide (k1 = k)) as [->|], (decide (k2 = k)) as [->|]; try done.
    + apply elem_of_app in H1 as [H1| ->%list_elem_of_singleton]; [by apply (oo_apart _ _ HO k k2 b)|]. exfalso. apply Hn. by exists k2.
    + apply elem_of_app in H2 as [H2| ->%list_elem_of_singleton]; [by apply (oo_apart _ _ HO k1 k b)|]. exfalso. apply Hn. by exists k1.
    + by apply (oo_apart _ _ HO k1 k2 b).
  - intros b j Hb Hin%queued_relist_snoc. simpl in Hb. destruct (decide (b = a)) as [->|Hne].
    + rewrite lookup_alter_eq in Hb. destruct (m !! a); [|done]. by injection Hb as <-.
    + rewrite lookup_alter_ne in Hb by done. destruct Hin as [->|Hin]; [done|]. pose proof (HPQ b) as E. rewrite Hb in E.
      destruct (ob_items ob !! b) as [i0|] eqn:Eb; [|done]. simpl in E. injection E as E. rewrite E. by apply (oo_queued _ _ HO b).
  - intros b j Hb Hin. simpl in Hb. rewrite queued_relist_snoc in Hin. apply Decidable.not_or in Hin as [Hne Hin]. rewrite lookup_alter_ne in Hb by done.
    rewrite HPN in Hb by (intros H; apply Hin; by exists k). by apply (oo_loose _ _ HO b).
  - intros b. simpl. by rewrite alter_queued_contents, HPC.
  - by destruct k.
Qed.

Lemma sp_ob_push ss L k a i (Q : unit -> nghttp2_session -> Prop) : ob_ok ss L -> ob_items ss !! a = Some i -> it_queued i = 0 ->
  Z.of_nat (size (ob_items ss)) < 2 ^ 64 ->
  (forall ob', ob_ok ob' (relist L k (L k ++ [a])) -> same_frames ss ob' -> aob_item ob' = aob_item ss -> Q tt (upd_ob (fun _ => ob') ss)) ->
  sp (ob_push k a) ss Q.
Proof.
  intros HO Ha Hq Hsz HQ. unfold ob_push. do 3 sp_step. destruct (pushed_ok _ _ k a i HO Ha Hq Hsz) as (H1 & H2 & H3).
  specialize (HQ _ H1 H2 H3). unfold pushed_ob in HQ. destruct (nghttp2_outbound_queue_push (ob_items ss) (ob_get k ss) a) as [m q] eqn:EP.
  unfold upd_ob. simpl. rewrite EP. unfold upd_ob in HQ. simpl in HQ. by rewrite ob_items_put.
Qed.

Lemma queued_relist_tail L k a l b : L k = a :: l -> a ∉ l -> (forall k', a ∈ L k' -> k' = k) -> queued_in (relist L k l) b <-> b <> a /\ queued_in L b.
Proof.
  intros HL Hal Hk. unfold queued_in. split.
  - intros (k' & Hb). unfold relist in Hb. case_decide as E; [subst|].
    + split; [by intros ->|]. exists k. rewrite HL. by right.
    + split; [|eauto]. intros ->. by apply E, Hk.
  - intros (Hne & k' & Hb). exists k'. unfold relist. case_decide; [|done]. subst. rewrite HL in Hb. by apply elem_of_cons in Hb as [?|?].
Qed.

Lemma sp_ob_pop ss L k a l (Q : unit -> nghttp2_session -> Prop) : ob_ok ss L -> L k = a :: l ->
  (forall ob', ob_ok ob' (relist L k l) -> same_frames ss ob' -> aob_item ob' = aob_item ss -> Q tt (upd_ob (fun _ => ob') ss)) ->
  sp (ob_pop k a) ss Q.
Proof.
  intros HO HL HQ. pose proof (oo_holds _ _ HO k) as HK. rewrite HL in HK.
  destruct (outbound_pop_holds _ _ _ _ HK) as (m & q & E & Hm & Hsame & i & Ha & Ha').
  unfold sp, ob_pop. rewrite E. simpl. pose proof (qh_nodup _ _ _ HK) as [Hal _]%NoDup_cons.
  assert (forall k', a ∈ L k' -> k' = k) as Hk by (intros k' Hk'; apply (oo_apart _ _ HO k k' a); [rewrite HL; by left|done]).
  apply (HQ (ob_put k (alter (it_queued_to 0) a m) q ss)).
  - split.
    + intros k'. rewrite ob_get_put, ob_items_put. unfold relist. case_decide as Ek.
      * apply (holds_ext m); [done|]. intros b _. apply alter_queued_next.
      * apply (holds_ext (ob_items ss)); [apply HO|]. intros b Hb. rewrite alter_queued_next, Hsame; [done|]. intros ->. by apply Ek, Hk.
    + intros k1 k2 b H1 H2. unfold relist in H1, H2. destruct (decide (k1 = k)) as [->|], (decide (k2 = k)) as [->|]; try done.
      * apply (oo_apart _ _ HO k k2 b); [rewrite HL; by right|done].
      * apply (oo_apart _ _ HO k1 k b); [done|rewrite HL; by right].
      * by apply (oo_apart _ _ HO k1 k2 b).
    + intros b j Hb Hin. rewrite (queued_relist_tail L k a l b HL Hal Hk) in Hin. destruct Hin as [Hne Hin]. rewrite ob_items_put, lookup_alter_ne, Hsame in Hb by done.
      by apply (oo_queued _ _ HO b).
    + intros b j Hb Hin. rewrite (queued_relist_tail L k a l b HL Hal Hk) in Hin. rewrite ob_items_put in Hb. destruct (decide (b = a)) as [->|Hne].
      * rewrite lookup_alter_eq, Ha' in Hb. by injection Hb as <-.
      * rewrite lookup_alter_ne, Hsame in Hb by done. apply (oo_loose _ _ HO b); [done|]. intros H. by apply Hin.
  - intros b. rewrite ob_items_put, alter_queued_contents. destruct (decide (b = a)) as [->|]; [by rewrite Ha', Ha|by rewrite Hsame].
  - by destruct k.
Qed.

(** ** The next item to send *)

(** The queue that is served next, with its first item. *)
Definition next_queued ss L : option (ob_queue * Z) :=
  match L ObUrgent, L ObReg, L ObSyn with
  | a :: _, _, _ => Some (ObUrgent, a)
  | [], a :: _, _ => Some (ObReg, a)
  | [], [], a :: _ => if session_is_outgoing_concurrent_streams_max ss then None else Some (ObSyn, a)
  | [], [], [] => None
  end.

Lemma oo_top ob L k : ob_ok ob L -> nghttp2_outbound_queue_top (ob_get k ob) = head (L k).
Proof. intros HO. apply (qh_head _ _ _ (oo_holds _ _ HO k)). Qed.

(** The three tops, as the code looks at them. *)
Lemma tops_next {A} ss L (f : ob_queue -> Z -> A) (d : A) : ob_ok ss L ->
  match nghttp2_outbound_queue_top (ob_urgent ss), nghttp2_outbound_queue_top (ob_reg ss), syn_top ss with
  | Some a, _, _ => f ObUrgent a
  | None, Some a, _ => f ObReg a
  | None, None, Some a => f ObSyn a
  | None, None, None => d
  end = match next_queued ss L with Some (k, a) => f k a | None => d end.
Proof.
  intros HO. pose proof (oo_top _ _ ObUrgent HO) as E1. pose proof (oo_top _ _ ObReg HO) as E2. pose proof (oo_top _ _ ObSyn HO) as E3. simpl in *.
  unfold syn_top, next_queued. rewrite E1, E2, E3. destruct (L ObUrgent), (L ObReg), (L ObSyn), (session_is_outgoing_concurrent_streams_max ss); done.
Qed.

Lemma next_queued_head ss L k a : next_queued ss L = Some (k, a) -> exists l, L k = a :: l.
Proof.
  unfold next_queued. destruct (L ObUrgent) as [|b l] eqn:E1; [|intros [= <- <-]; eauto]. destruct (L ObReg) as [|b l] eqn:E2; [|intros [= <- <-]; eauto].
  destruct (L ObSyn) as [|b l] eqn:E3; [done|]. destruct (session_is_outgoing_concurrent_streams_max ss); [done|]. intros [= <- <-]. eauto.
Qed.

(** The item of the stream [x] is the next one: no stream of the tree may send
    data otherwise. *)
Definition next_data ss (r : option Z) : Prop :=
  match r with
  | Some it => exists x (s : nghttp2_stream), se_streams ss !! x = Some s /\ stream_active s = true /\ item s = Some it
  | None => forall x (s : nghttp2_stream), se_streams ss !! x = Some s -> below (se_streams ss) root x -> stream_active s = false
  end.

Lemma sched_empty_first ss : session_sched_empty ss = true -> sched_first (sched ss) = None.
Proof.
  unfold session_sched_empty. induction (sched ss) as [|[qu cap] l IH]; simpl; [done|]. intros [H1 H2]%andb_prop.
  destruct qu; [|done]. by apply IH.
Qed.

Lemma keeps_serve fuel : forall a, keeps base (serve_loop fuel a).
Proof. pose proof (keeps_modify_sched base). induction fuel as [|fuel IH]; intros a; cbn [serve_loop]; keeps_steps. Qed.

Lemma keeps_next_item fuel : forall a, keeps base (next_item_loop fuel a).
Proof. pose proof keeps_serve. induction fuel as [|fuel IH]; intros a; cbn [next_item_loop]; keeps_steps. Qed.

Lemma keeps_next_outbound_item a : keeps base (nghttp2_stream_next_outbound_item a).
Proof. unfold nghttp2_stream_next_outbound_item. pose proof keeps_next_item. keeps_steps. Qed.

Lemma sp_next_data X Y ss kids lc li : sess_ok X Y ss kids lc li -> session_sched_empty ss = true ->
  sp next_data_item ss (fun r ss' => exists w, ss' = world_to w ss /\ sess_ok X Y ss' kids lc li /\
    if 0 <? remote_window_size ss then next_data ss r else r = None /\ ss' = ss).
Proof.
  intros HO Hemp. unfold next_data_item. do 2 sp_step. destruct (0 <? remote_window_size ss).
  2: { sp_step. exists (se_world ss). rewrite world_to_id. auto. }
  pose proof HO as [HI HB HF]. destruct (se_world ss) as [h n] eqn:EW. assert (se_streams ss = h) as Eh by (unfold se_streams; by rewrite EW).
  rewrite Eh in HI. assert (is_Some (h !! root)) as Hroot.
  { pose proof (tb_root _ _ (bk_table _ _ _ _ HB)) as [c Hc]. apply cards_lookup_inv in Hc as (s & Hs & _). rewrite <- Eh. eauto. }
  sp_step. eapply sp_tree; [apply keeps_next_outbound_item| |].
  { rewrite EW. apply (wp_next_outbound_item h kids n HI root (fun r w => stream_inv (streams w) kids /\ next_data ss r)); [done| |].
    - intros x lx s i h' Hch _ Hx Hact Hit HS. split; [|exists x, s; by rewrite Eh].
      apply (same_queues_inv _ h); [done|]. by apply quiet_same_queues, HS; apply HI.
    - intros HN. split; [done|]. intros x s Hx Hb. destruct (stream_active s) eqn:Ea; [|done]. exfalso. rewrite Eh in Hx, Hb.
      apply (HN x Hb). exists s. done. }
  intros r w [HI' HN] HS. assert (sess_ok X Y (world_to w ss) kids lc li) as HO'.
  { split; [exact HI'|by apply book_tree|done]. }
  destruct r as [it|]; [sp_step; by exists w|]. unfold session_sched_get_next_outbound_item. do 2 sp_step. simpl.
  rewrite (sched_empty_first ss Hemp). sp_step. by exists w.
Qed.

Lemma next_item_peeked ss L : ob_ok ss L ->
  nghttp2_session_get_next_ob_item ss = match next_queued ss L with Some (k, a) => Some (ss, Some a) | None => next_data_item ss end.
Proof.
  intros HO. unfold nghttp2_session_get_next_ob_item, se_then at 1, mbind, se_bind, the_session at 1.
  rewrite (tops_next ss L (fun k a => mret (Some a)) next_data_item HO). by destruct (next_queued ss L) as [[k a]|].
Qed.
