(* ===== verification/SessionAdd.v ===== *)
(** * Sessions: frames that the session queues

    What adding a frame does, with the queues as lists of frames, and the
    frames that the session sends on its own: resets, acknowledged pings,
    window updates and the announcement that it goes away. *)

From Stdlib Require Import Sorting.Sorted.
From S2P Require Import Prelude Defs Helper HdToken Pq Frame FrameHeaders Http Stream StreamLinks StreamQueue StreamTree StreamItems StreamFrame StreamSpec.
From S2P Require Import Outbound Session SessionInv SessionTree SessionBooks SessionForest SessionOpen SessionClose SessionItems SessionReach SessionTouch SessionSend SessionQueues.

Implicit Types (a b it id : Z) (k : ob_queue) (s : nghttp2_stream) (h : gmap Z nghttp2_stream) (ss : nghttp2_session) (ob : session_outbound) (l lc li : list Z).
Implicit Types (m : gmap Z nghttp2_outbound_item) (i : nghttp2_outbound_item) (L : ob_queue -> list Z) (X Y : gset Z) (kids : gmap Z (list Z)).
Implicit Types (frame : nghttp2_frame) (aux : nghttp2_aux_data).

(** ** What adding a frame announces *)

Definition stream_at ss id : option nghttp2_stream := live_stream ss id ≫= fun a => se_streams ss !! a.

Definition reserved_at ss id : bool := match stream_at ss id with Some s => bool_decide (state s = NGHTTP2_STREAM_RESERVED) | None => false end.

(** The queue for a frame that needs no stream of its own. *)
Definition queue_for ss frame : ob_queue :=
  match frame with
  | FrControl (FrSettings _) | FrControl (FrPing _) => ObUrgent
  | FrHeaders f => if (he_cat f =? NGHTTP2_HCAT_REQUEST) || reserved_at ss (hd_stream_id (he_hd f)) then ObSyn else ObReg
  | _ => ObReg
  end.

Definition on_stream (f : nghttp2_stream -> nghttp2_stream) id ss : nghttp2_session :=
  match live_stream ss id with Some a => streams_to (alter f a (se_streams ss)) ss | None => ss end.

Definition announced frame ss : nghttp2_session :=
  match frame with
  | FrControl (FrRstStream f) => on_stream (state_to NGHTTP2_STREAM_CLOSING) (hd_stream_id (rs_hd f)) ss
  | FrControl (FrWindowUpdate f) =>
      if bool_decide (live_stream ss (hd_stream_id (wu_hd f)) = None) && (hd_stream_id (wu_hd f) =? 0) then upd_window (window_update_queued_to 1) ss
      else on_stream (upd_flow (window_update_queued_to 1)) (hd_stream_id (wu_hd f)) ss
  | _ => ss
  end.

Definition plain_frame frame : bool := match frame with FrData _ | FrPushPromise _ => false | _ => true end.

(** ** Adding an item *)

Lemma on_stream_ob f id ss : se_ob (on_stream f id ss) = se_ob ss.
Proof. unfold on_stream. by destruct (live_stream ss id). Qed.

Lemma announced_ob frame ss : se_ob (announced frame ss) = se_ob ss.
Proof. destruct frame as [| | |[]|]; simpl; try done; [apply on_stream_ob|]. case_match; [done|apply on_stream_ob]. Qed.

Lemma on_stream_upd_ob f id g ss : on_stream f id (upd_ob g ss) = upd_ob g (on_stream f id ss).
Proof. unfold on_stream. change (live_stream (upd_ob g ss) id) with (live_stream ss id). by destruct (live_stream ss id). Qed.

Lemma announced_upd_ob frame g ss : announced frame (upd_ob g ss) = upd_ob g (announced frame ss).
Proof.
  destruct frame as [| | |[]|]; simpl; try done; [apply on_stream_upd_ob|].
  change (live_stream (upd_ob g ss)) with (live_stream ss). case_match; [done|apply on_stream_upd_ob].
Qed.

Lemma on_stream_at f id ss a (s : nghttp2_stream) : live_stream ss id = Some a -> se_streams ss !! a = Some s ->
  on_stream f id ss = streams_to (<[a := f s]> (se_streams ss)) ss.
Proof.
  intros Ha Hs. unfold on_stream. rewrite Ha. f_equal. apply map_eq. intros b. rewrite lookup_insert, lookup_alter.
  repeat case_decide; subst; try done. by rewrite Hs.
Qed.

Lemma stream_at_found ss id a (s : nghttp2_stream) : live_stream ss id = Some a -> se_streams ss !! a = Some s -> stream_at ss id = Some s.
Proof. intros Ha Hs. unfold stream_at. by rewrite Ha. Qed.

Lemma live_in_use X Y ss kids lc li id a : sess_ok X Y ss kids lc li -> live_stream ss id = Some a ->
  exists s, stream_id s = id /\ in_use ss a s.
Proof.
  intros HO Ha. pose proof (sp_found_stream X Y ss kids lc li id (fun r _ => forall b, r = Some b -> exists s, stream_id s = id /\ in_use ss b s) HO) as H.
  apply sp_run in H as (ss' & r & E & H); [|done|intros b s ? ? ? c [= <-]; eauto]. apply H.
  pose proof (sp_get_stream X ss lc li id (fun r _ => r = live_stream ss id) (so_books _ _ _ _ _ _ HO) eq_refl) as H'. unfold sp in H'. rewrite E in H'. congruence.
Qed.

Lemma on_stream_sess X Y ss kids lc li f id : sess_ok X Y ss kids lc li ->
  (forall a s, in_use ss a s -> stream_id s = id -> gently s (f s)) -> sess_ok X Y (on_stream f id ss) kids lc li.
Proof.
  intros HO Hf. destruct (live_stream ss id) as [a|] eqn:Ea; [|unfold on_stream; by rewrite Ea].
  destruct (live_in_use _ _ _ _ _ _ _ _ HO Ea) as (s & Hid & Hu). pose proof Hu as (Hs & _). rewrite (on_stream_at _ _ _ _ _ Ea Hs).
  eapply gently_sess; [done|done|]. by apply (Hf a).
Qed.

Lemma gently_closing ss a s : in_use ss a s -> gently s (state_to NGHTTP2_STREAM_CLOSING s).
Proof. intros (_ & _ & _ & Hi). by split. Qed.

Lemma gently_flow f s : gently s (upd_flow f s).
Proof. by split. Qed.

Lemma announced_sess X Y ss kids lc li frame : sess_ok X Y ss kids lc li -> sess_ok X Y (announced frame ss) kids lc li.
Proof.
  intros HO. destruct frame as [| | |[]|]; simpl; try done.
  - apply on_stream_sess; [done|]. intros a s Hu _. by eapply gently_closing.
  - case_match; [by eapply aside_sess; [|exact HO]; split|]. apply on_stream_sess; [done|]. intros a s _ _. apply gently_flow.
Qed.

(** ** Requests that wait *)

Definition item_id (i : nghttp2_outbound_item) : Z := hd_stream_id (frame_hd (it_frame i)).
Definition canceled (i : nghttp2_outbound_item) : bool := negb (ha_canceled (aux_headers (it_aux_data i)) =? 0).

(** The first item of [l] for the stream [id] or a later one. *)
Fixpoint first_from ob l id : option (Z * nghttp2_outbound_item) :=
  match l with
  | [] => None
  | a :: l =>
      match ob_items ob !! a with
      | Some i => if item_id i <? id then first_from ob l id else Some (a, i)
      | None => None
      end
  end.

Definition request_cancelled a error_code ss : nghttp2_session := upd_ob (fun ob => ob_items_to (alter (cancel_request error_code) a (ob_items ob)) ob) ss.

Lemma sp_cancel_loop id error_code (Q : bool -> nghttp2_session -> Prop) ss l : forall fuel, (length l <= fuel)%nat -> qlinked (ob_items ss) l ->
  (match first_from ss l id with
   | Some (a, i) => if (item_id i =? id) && negb (canceled i) then Q true (request_cancelled a error_code ss) else Q false ss
   | None => Q false ss
   end) -> sp (cancel_loop fuel (head l) id error_code) ss Q.
Proof.
  induction l as [|a l IH]; intros fuel Hf HL HQ; [by destruct fuel; exact HQ|]. destruct fuel as [|fuel]; [simpl in Hf; lia|].
  destruct HL as [(i & Ha & En) HL]. cbn [cancel_loop head first_from] in *. do 2 sp_step. rewrite Ha in HQ |- *. rewrite En.
  fold (item_id i). destruct (Z.ltb_spec (item_id i) id) as [Hlt|Hge]; [apply IH; [simpl in Hf; lia|done|done]|].
  fold (canceled i). destruct (Z.ltb_spec id (item_id i)); simpl.
  - rewrite (proj2 (Z.eqb_neq (item_id i) id)) in HQ by lia. by sp_step.
  - rewrite (proj2 (Z.eqb_eq (item_id i) id)) in HQ by lia. simpl in HQ. destruct (canceled i); simpl in HQ; sp_step; [done|]. sp_step. by sp_step.
Qed.

(** The uncancelled request of the stream [id] that waits. *)
Definition request_waits ob L id a : Prop := a ∈ L ObSyn /\ exists i, ob_items ob !! a = Some i /\ item_id i = id /\ canceled i = false.

(** Only headers wait for a stream of their own, those of a client's requests in the order of their ids. *)
Record syn_ok ss L : Prop := {
  sy_headers : forall a i, a ∈ L ObSyn -> ob_items ss !! a = Some i -> is_headers (it_frame i) = true;
  sy_sorted : server ss = false -> StronglySorted (fun a b => forall i j, ob_items ss !! a = Some i -> ob_items ss !! b = Some j -> item_id i < item_id j) (L ObSyn);
}.

Lemma first_from_sorted ob l id : (forall a, a ∈ l -> is_Some (ob_items ob !! a)) ->
  StronglySorted (fun a b => forall i j, ob_items ob !! a = Some i -> ob_items ob !! b = Some j -> item_id i < item_id j) l ->
  match first_from ob l id with
  | Some (a, i) => a ∈ l /\ ob_items ob !! a = Some i /\ id <= item_id i /\
      forall b j, b ∈ l -> b <> a -> ob_items ob !! b = Some j -> item_id j <> id
  | None => forall b j, b ∈ l -> ob_items ob !! b = Some j -> item_id j <> id
  end.
Proof.
  intros Hk. induction 1 as [|a l Hs IH Ha]; simpl; [by intros b j ?%elem_of_nil|].
  destruct (Hk a ltac:(by left)) as [i Hi]. rewrite Hi. rewrite Forall_forall in Ha. destruct (Z.ltb_spec (item_id i) id) as [Hlt|Hge].
  - specialize (IH ltac:(intros b Hb; apply Hk; by right)). destruct (first_from ob l id) as [[b j]|].
    + destruct IH as (H1 & H2 & H3 & H4). split_and!; [by right|done|done|]. intros c k [->|Hc]%elem_of_cons Hne Hk'; [simplify_eq; lia|by apply (H4 c)].
    + intros c k [->|Hc]%elem_of_cons Hk'; [simplify_eq; lia|by apply (IH c)].
  - split_and!; [by left|done|done|]. intros c k [->|Hc]%elem_of_cons Hne Hk'; [done|]. pose proof (Ha c Hc i k Hi Hk'). lia.
Qed.

Definition closing_at ss id : bool := match stream_at ss id with Some s => bool_decide (state s = NGHTTP2_STREAM_CLOSING) | None => false end.

(** The id has neither been handed out here nor come in a frame of the peer. A
    stream with a used id need not be open: its request may still wait, or
    have been cancelled. *)
Definition unused_id ss id : bool :=
  if nghttp2_session_is_my_stream_id ss id then next_stream_id ss <=? u32 id else last_recv_stream_id ss <? id.

Section Adding.
Context (realloc_ok malloc_ok : nat -> bool) (new_stream : gmap Z nghttp2_stream -> Z).

Definition appended ss L k it (ss1 : nghttp2_session) : nghttp2_session -> Prop := fun ss' =>
  exists ob', ss' = upd_ob (fun _ => ob') ss1 /\ ob_ok ob' (relist L k (L k ++ [it])) /\ same_frames ss ob' /\ aob_item ob' = aob_item ss.

Lemma sp_add_item X Y ss kids lc li L it i : sess_ok X Y ss kids lc li -> ob_ok ss L -> ob_items ss !! it = Some i -> it_queued i = 0 ->
  Z.of_nat (size (ob_items ss)) < 2 ^ 64 -> plain_frame (it_frame i) = true ->
  sp (nghttp2_session_add_item realloc_ok malloc_ok new_stream it) ss (fun rv ss' => rv = 0 /\ sess_ok X Y ss' kids lc li /\
    appended ss L (queue_for ss (it_frame i)) it (announced (it_frame i) ss) ss').
Proof using.
  intros HO HQ Hit Hq Hsz Hpl. unfold nghttp2_session_add_item. do 2 sp_step. rewrite Hit. sp_step.
  pose proof (announced_sess _ _ _ _ _ _ (it_frame i) HO) as HO1.
  set (post := fun (rv : Z) ss' => rv = 0 /\ sess_ok X Y ss' kids lc li /\ appended ss L (queue_for ss (it_frame i)) it (announced (it_frame i) ss) ss').
  assert (forall k ss1, k = queue_for ss (it_frame i) -> ss1 = announced (it_frame i) ss -> sp (ob_push k it;; mret 0) ss1 post) as Hpush.
  { intros k ss1 -> ->. pose proof (announced_ob (it_frame i) ss) as EO. sp_step.
    eapply (sp_ob_push _ L); [by rewrite EO|by rewrite EO|done|by rewrite EO|]. intros ob' H1 H2 H3. sp_step. split; [done|].
    rewrite EO in H2, H3. split.
    - eapply aside_sess; [|exact HO1]. split; try done. intros b. simpl. by rewrite EO, (same_frames_known _ _ b H2).
    - by exists ob'. }
  clearbody post. destruct (it_frame i) as [f|f|f|f|f] eqn:Ef; try done.
  - apply (sp_found_stream X Y ss kids lc li); [exact HO| |]; simpl.
    + intros Ea. do 2 sp_step. assert (reserved_at ss (hd_stream_id (he_hd f)) = false) as Er by (unfold reserved_at, stream_at; by rewrite Ea).
      case_match eqn:E; apply Hpush; simpl; rewrite ?Er, ?E; done.
    + intros a s Ea _ (Hs & _). do 2 sp_step. eapply sp_load; [exact Hs|]. sp_step.
      assert (reserved_at ss (hd_stream_id (he_hd f)) = bool_decide (state s = NGHTTP2_STREAM_RESERVED)) as Er.
      { unfold reserved_at. by rewrite (stream_at_found _ _ _ _ Ea Hs). }
      case_match eqn:E; apply Hpush; simpl; rewrite ?Er, ?E; done.
  - apply (sp_found_stream X Y ss kids lc li); [exact HO| |].
    + intros Ea. destruct f as [f|f|f|f|f|f|f|f|f]; try by apply Hpush.
      * sp_step. sp_step. apply Hpush; [done|]. simpl in *. unfold on_stream. by rewrite Ea.
      * simpl in Ea |- *. sp_step. destruct (_ =? 0) eqn:E0; sp_step; (apply Hpush; [done|]); simpl; rewrite bool_decide_true, E0 by done; simpl; [done|].
        unfold on_stream. by rewrite Ea.
    + intros a s Ea _ (Hs & _). destruct f as [f|f|f|f|f|f|f|f|f]; try by apply Hpush.
      * do 2 sp_step. apply Hpush; [done|]. simpl in *. symmetry. by apply on_stream_at.
      * do 2 sp_step. apply Hpush; [done|]. simpl in *. rewrite bool_decide_false by congruence. simpl. symmetry. by apply on_stream_at.
  - apply (sp_found_stream X Y ss kids lc li); [exact HO| |]; intros; by apply Hpush.
Qed.

(** ** A frame that the session queues *)

Context (new_item : gmap Z nghttp2_outbound_item -> Z).

(** The frame is the last one of its queue, in an item of its own; [ss0] is [ss]
    or that session after requests for memory. *)
Record placed ss ss0 L frame aux ss' : Prop := {
  eq_result : exists it ob', ss' = upd_ob (fun _ => ob') (announced frame ss0) /\ ob_items ss !! it = None /\
    ob_ok ob' (relist L (queue_for ss frame) (L (queue_for ss frame) ++ [it])) /\
    contents <$> ob_items ob' !! it = Some (frame, aux) /\ (forall a, a <> it -> contents <$> ob_items ob' !! a = contents <$> ob_items ss !! a) /\
    aob_item ob' = aob_item ss;
}.

(** The same, after the request for memory. *)
Definition enqueued ss : (ob_queue -> list Z) -> nghttp2_frame -> nghttp2_aux_data -> nghttp2_session -> Prop := placed ss (granted ss).

Definition with_item it frame aux ss : nghttp2_session :=
  upd_ob (fun ob => ob_items_to (<[it := aux_to aux (nghttp2_outbound_item_init frame)]> (ob_items ob)) ob) ss.

Lemma with_item_ob ss L it frame aux : ob_ok ss L -> ob_items ss !! it = None -> ob_ok (with_item it frame aux ss) L.
Proof using.
  intros HO Hit. assert (forall k a, a ∈ L k -> a <> it) as Hne.
  { intros k a Ha ->. destruct (oo_known _ _ _ _ HO Ha) as [? E]. congruence. }
  split.
  - intros k. replace (ob_get k (with_item it frame aux ss)) with (ob_get k ss) by (by destruct k). apply (holds_ext (ob_items ss)); [apply HO|].
    intros a Ha. simpl. rewrite lookup_insert_ne; [done|]. intros E. by apply (Hne k a Ha).
  - apply HO.
  - intros a i. simpl. intros [[<- <-]|[? Ha]]%lookup_insert_Some Hin; [|by apply (oo_queued _ _ HO a)].
    destruct Hin as [k Hk]. exfalso. by apply (Hne k it).
  - intros a i. simpl. intros [[<- <-]|[? Ha]]%lookup_insert_Some Hin; [done|by apply (oo_loose _ _ HO a)].
Qed.

Lemma sp_grant ss (Q : bool -> nghttp2_session -> Prop) : Q (malloc_ok (grants ss)) (granted ss) -> sp (mem_malloc malloc_ok) ss Q.
Proof using. done. Qed.

Context (Hitem : forall m, m !! new_item m = None).

Lemma sp_put_frame X Y ss kids lc li L frame aux : sess_ok X Y ss kids lc li -> ob_ok ss L -> Z.of_nat (size (ob_items ss)) + 1 < 2 ^ 64 ->
  plain_frame frame = true ->
  sp (put_frame realloc_ok malloc_ok new_stream new_item frame aux) ss (fun rv ss' => rv = 0 /\ sess_ok X Y ss' kids lc li /\ placed ss ss L frame aux ss').
Proof using Hitem.
  intros HO HQ Hsz Hpl. unfold put_frame. do 5 sp_step.
  set (it := new_item (ob_items ss)). pose proof (Hitem (ob_items ss)) as Hnew. change (ob_items ss !! it = None) in Hnew.
  set (ss1 := with_item it frame aux ss). change (upd_ob _ ss) with ss1.
  assert (aside ss ss1) as HA.
  { split; try done. intros a [i Ha]. simpl. rewrite lookup_insert_ne; [eauto|]. congruence. }
  assert (ob_ok ss1 L) as HQ1 by (by apply with_item_ob).
  eapply sp_mono; [apply (sp_add_item X Y ss1 kids lc li L it (aux_to aux (nghttp2_outbound_item_init frame)))|]; try done.
  - by eapply aside_sess.
  - simpl. by rewrite lookup_insert_eq.
  - simpl. rewrite map_size_insert_None by done. lia.
  - intros rv ss' (-> & HO' & ob' & -> & HQ' & HF & Ha). simpl. sp_step. split; [done|]. split; [done|].
    assert (queue_for ss1 frame = queue_for ss frame) as Eq by (by destruct frame as [| | |[]|]). simpl in HQ'. rewrite Eq in HQ'.
    split. exists it, ob'. split_and!; try done.
    + unfold ss1, with_item. by rewrite announced_upd_ob.
    + rewrite HF. simpl. by rewrite lookup_insert_eq.
    + intros a Hne. rewrite HF. simpl. by rewrite lookup_insert_ne.
Qed.

Lemma sp_add_frame X Y ss kids lc li L frame aux : sess_ok X Y ss kids lc li -> ob_ok ss L -> Z.of_nat (size (ob_items ss)) + 1 < 2 ^ 64 ->
  plain_frame frame = true ->
  sp (add_frame realloc_ok malloc_ok new_stream new_item frame aux) ss (fun rv ss' =>
    rv = NGHTTP2_ERR_NOMEM /\ malloc_ok (grants ss) = false /\ ss' = granted ss \/
    rv = 0 /\ malloc_ok (grants ss) = true /\ sess_ok X Y ss' kids lc li /\ enqueued ss L frame aux ss').
Proof using Hitem.
  intros HO HQ Hsz Hpl. unfold add_frame. sp_step. apply sp_grant. destruct (malloc_ok (grants ss)) eqn:Eok; simpl; [|sp_step; by left].
  eapply sp_mono; [apply (sp_put_frame X Y (granted ss) kids lc li L); [by eapply aside_sess; [|exact HO]|done..]|]. intros rv ss' (-> & HO' & [HP]). right. do 3 (split; [done|]). by split.
Qed.

(** ** Resetting a stream *)

Definition rst_frame id (error_code : Z) : nghttp2_frame := FrControl (FrRstStream (nghttp2_frame_rst_stream_init id error_code)).

Definition client_request ss L id a : Prop := server ss = false /\ nghttp2_session_is_my_stream_id ss id = true /\ request_waits ss L id a.

(** What resetting the stream [id] does. *)
Definition reset_result X Y ss kids lc li L id (error_code rv : Z) ss' : Prop :=
  if closing_at ss id || unused_id ss id then rv = 0 /\ ss' = ss
  else
    (exists a, client_request ss L id a /\ rv = 0 /\ ss' = request_cancelled a error_code ss) \/
    (forall a, ~ client_request ss L id a) /\
      (rv = NGHTTP2_ERR_NOMEM /\ malloc_ok (grants ss) = false /\ ss' = granted ss \/
       rv = 0 /\ malloc_ok (grants ss) = true /\ sess_ok X Y ss' kids lc li /\ enqueued ss L (rst_frame id error_code) aux_zero ss').

Lemma sp_then_assoc {A B C} (m : se_m A) (f : A -> se_m B) (g : B -> se_m C) ss (Q : C -> nghttp2_session -> Prop) :
  sp (let! x := m in f x) ss (fun y ss' => sp (g y) ss' Q) -> sp (let! x := m in let! y := f x in g y) ss Q.
Proof using. unfold sp, se_then, mbind, se_bind. destruct (m ss) as [[ss1 a]|]; [|done]. by destruct (f a ss1) as [[ss2 b]|]. Qed.

Lemma sp_stream_closing X Y ss kids lc li id (Q : bool -> nghttp2_session -> Prop) : sess_ok X Y ss kids lc li -> Q (closing_at ss id) ss ->
  sp (let! stream := nghttp2_session_get_stream id in stream_closing stream) ss Q.
Proof using.
  intros HO HQ. sp_step. apply (sp_found_stream X Y ss kids lc li); [exact HO| |].
  - intros Ea. unfold stream_closing. sp_step. unfold closing_at, stream_at in HQ. by rewrite Ea in HQ.
  - intros a s Ea _ (Hs & _). unfold stream_closing. do 3 sp_step. unfold closing_at in HQ. by rewrite (stream_at_found _ _ _ _ Ea Hs) in HQ.
Qed.

Lemma sp_cancel_waiting ss L id error_code (Q : bool -> nghttp2_session -> Prop) : ob_ok ss L -> syn_ok ss L ->
  (forall a, client_request ss L id a -> Q true (request_cancelled a error_code ss)) -> ((forall a, ~ client_request ss L id a) -> Q false ss) ->
  sp (cancel_waiting id error_code) ss Q.
Proof using.
  intros HQ HS Hyes Hno. unfold cancel_waiting. do 2 sp_step. pose proof (oo_holds _ _ HQ ObSyn) as HK. simpl in HK.
  pose proof (first_from_sorted ss (L ObSyn) id (fun a => oo_known ss L ObSyn a HQ)) as HF. pose proof (qh_head _ _ _ HK) as Eh.
  unfold nghttp2_outbound_queue_top. rewrite Eh. destruct (L ObSyn) as [|top l] eqn:EL; simpl; [sp_step; apply Hno; intros a (_ & _ & Ha & _); rewrite EL in Ha; by apply elem_of_nil in Ha|].
  destruct (server ss) eqn:Esv; simpl; [sp_step; apply Hno; intros a (E & _); congruence|].
  destruct (nghttp2_session_is_my_stream_id ss id) eqn:Em; [|sp_step; apply Hno; intros a (_ & E & _); congruence].
  pose proof (sy_sorted _ _ HS Esv) as Hsort. rewrite EL in Hsort. specialize (HF Hsort).
  destruct (oo_known _ _ ObSyn top HQ ltac:(rewrite EL; by left)) as [i Hi]. rewrite Hi. sp_step.
  apply sp_assert; [by apply (sy_headers _ _ HS top); [rewrite EL; by left|]|]. fold (item_id i).
  assert (forall a, client_request ss L id a <-> a ∈ top :: l /\ exists j, ob_items ss !! a = Some j /\ item_id j = id /\ canceled j = false) as Hreq.
  { intros a. unfold client_request, request_waits. rewrite EL, Esv, Em. tauto. }
  destruct (Z.leb_spec (item_id i) id) as [Hle|Hgt].
  - apply (sp_cancel_loop _ _ _ _ (top :: l)).
    { rewrite <- EL. by apply (queue_known ss L ObSyn). }
    { apply HK. }
    destruct (first_from ss (top :: l) id) as [[a j]|].
    + destruct HF as (Ha & Hj & Hge & Hoth). destruct (Z.eqb_spec (item_id j) id) as [Ej|Ej]; simpl.
      * destruct (canceled j) eqn:Ec; simpl; [|apply Hyes, Hreq; eauto]. apply Hno. intros b (Hb & k & Hk & Eid & Eck)%Hreq.
        destruct (decide (b = a)) as [->|Hne]; [congruence|]. by apply (Hoth b k).
      * apply Hno. intros b (Hb & k & Hk & Eid & _)%Hreq. destruct (decide (b = a)) as [->|Hne]; [congruence|]. by apply (Hoth b k).
    + apply Hno. intros b (Hb & k & Hk & Eid & _)%Hreq. by apply (HF b k).
  - sp_step. apply Hno. intros b (Hb & k & Hk & Eid & _)%Hreq. simpl in HF. rewrite Hi, (proj2 (Z.ltb_ge _ _)) in HF by lia.
    destruct (decide (b = top)) as [->|Hne]; [simplify_eq; lia|]. destruct HF as (_ & _ & _ & Hoth). by apply (Hoth b k).
Qed.

Lemma sp_add_rst_stream X Y ss kids lc li L id error_code : sess_ok X Y ss kids lc li -> ob_ok ss L -> syn_ok ss L ->
  Z.of_nat (size (ob_items ss)) + 1 < 2 ^ 64 ->
  sp (nghttp2_session_add_rst_stream realloc_ok malloc_ok new_stream new_item id error_code) ss (reset_result X Y ss kids lc li L id error_code).
Proof using Hitem.
  intros HO HQ HS Hsz. unfold nghttp2_session_add_rst_stream. apply sp_then_assoc. eapply sp_stream_closing; [exact HO|]. unfold reset_result.
  destruct (closing_at ss id); simpl; [by sp_step|]. do 2 sp_step. fold (unused_id ss id). destruct (unused_id ss id); [by sp_step|]. sp_step.
  apply (sp_cancel_waiting ss L); [done|done| |]; [intros a Ha; sp_step; left; eauto|]. intros Hno. fold (rst_frame id error_code).
  eapply sp_mono; [refine (sp_add_frame X Y ss kids lc li L _ _ HO HQ Hsz _); reflexivity|]. auto.
Qed.

(** ** Acknowledged pings *)

Definition ping_frame (flags : Z) (opaque_data : option bytes) : nghttp2_frame := FrControl (FrPing (nghttp2_frame_ping_init flags opaque_data)).

Definition counted_ack (flags : Z) ss : nghttp2_session :=
  if flag_set flags NGHTTP2_FLAG_ACK then upd_limits (obq_flood_counter_to (u64 (obq_flood_counter_ ss + 1))) ss else ss.

Definition ping_result X Y ss kids lc li L (flags : Z) (opaque_data : option bytes) (rv : Z) ss' : Prop :=
  if flag_set flags NGHTTP2_FLAG_ACK && (max_outbound_ack ss <=? obq_flood_counter_ ss) then rv = NGHTTP2_ERR_FLOODED /\ ss' = ss
  else
    rv = NGHTTP2_ERR_NOMEM /\ malloc_ok (grants ss) = false /\ ss' = granted ss \/
    rv = 0 /\ malloc_ok (grants ss) = true /\ sess_ok X Y ss' kids lc li /\
      exists ss1, enqueued ss L (ping_frame flags opaque_data) aux_zero ss1 /\ ss' = counted_ack flags ss1.

Lemma sp_add_ping X Y ss kids lc li L flags opaque_data : sess_ok X Y ss kids lc li -> ob_ok ss L -> Z.of_nat (size (ob_items ss)) + 1 < 2 ^ 64 ->
  sp (nghttp2_session_add_ping realloc_ok malloc_ok new_stream new_item flags opaque_data) ss (ping_result X Y ss kids lc li L flags opaque_data).
Proof using Hitem.
  intros HO HQ Hsz. unfold nghttp2_session_add_ping. do 2 sp_step. unfold ping_result. fold (flag_set flags NGHTTP2_FLAG_ACK).
  destruct (flag_set flags NGHTTP2_FLAG_ACK && (max_outbound_ack ss <=? obq_flood_counter_ ss)) eqn:Efl; [by sp_step|]. fold (ping_frame flags opaque_data).
  sp_step. eapply sp_mono; [refine (sp_add_frame X Y ss kids lc li L _ _ HO HQ Hsz _); reflexivity|]. intros rv ss1 [(-> & Hm & ->)|(-> & Hm & HO1 & HE)]; simpl; [sp_step; by left|].
  sp_step. unfold count_ack. fold (flag_set flags NGHTTP2_FLAG_ACK). assert (sess_ok X Y (counted_ack flags ss1) kids lc li) as HO2.
  { unfold counted_ack. case_match; [|done]. eapply aside_sess; [|exact HO1]. done. }
  apply (sp_mono _ _ (fun _ ss2 => ss2 = counted_ack flags ss1)); [unfold counted_ack; by destruct (flag_set flags NGHTTP2_FLAG_ACK)|].
  intros u ss2 ->. sp_step. right. split; [done|]. split; [done|]. split; [exact HO2|]. by exists ss1.
Qed.

(** ** Going away *)

Definition goaway_frame (last_stream_id error_code : Z) (opaque_data : bytes) : nghttp2_frame :=
  FrControl (FrGoaway (nghttp2_frame_goaway_init last_stream_id error_code opaque_data)).

Definition goaway_aux (aux_flags : Z) : nghttp2_aux_data := mk_aux (aux_data aux_zero) (aux_headers aux_zero) aux_flags 0.

Definition goaway_flagged (f : Z) ss : nghttp2_session := upd_ids (goaway_flags_to (u8 (goaway_flags ss .| f))) ss.

(** The session when the data for the frame has been copied. *)
Definition data_copied (opaque_data : bytes) ss : nghttp2_session := if zlen opaque_data =? 0 then ss else granted ss.

Definition goaway_result X Y ss kids lc li L (last_stream_id error_code : Z) (opaque_data : bytes) (aux_flags rv : Z) ss' : Prop :=
  if nghttp2_session_is_my_stream_id ss last_stream_id || (negb (zlen opaque_data =? 0) && (NGHTTP2_MAX_PAYLOADLEN <? zlen opaque_data + 8))
  then rv = NGHTTP2_ERR_INVALID_ARGUMENT /\ ss' = ss
  else
    rv = NGHTTP2_ERR_NOMEM /\ refused malloc_ok /\ (ss' = granted ss \/ ss' = granted (granted ss)) \/
    rv = 0 /\ sess_ok X Y ss' kids lc li /\ exists ss1, ss' = goaway_flagged NGHTTP2_GOAWAY_SUBMITTED ss1 /\
      enqueued (data_copied opaque_data ss) L (goaway_frame (nghttp2_min last_stream_id (local_last_stream_id ss)) error_code opaque_data)
        (goaway_aux aux_flags) ss1.

Lemma sp_add_goaway X Y ss kids lc li L last_stream_id error_code opaque_data aux_flags : sess_ok X Y ss kids lc li -> ob_ok ss L ->
  Z.of_nat (size (ob_items ss)) + 1 < 2 ^ 64 ->
  sp (nghttp2_session_add_goaway realloc_ok malloc_ok new_stream new_item last_stream_id error_code opaque_data aux_flags) ss
    (goaway_result X Y ss kids lc li L last_stream_id error_code opaque_data aux_flags).
Proof using Hitem.
  intros HO HQ Hsz. unfold nghttp2_session_add_goaway. do 2 sp_step. unfold goaway_result.
  destruct (nghttp2_session_is_my_stream_id ss last_stream_id); simpl; [by sp_step|].
  destruct (negb (zlen opaque_data =? 0) && (NGHTTP2_MAX_PAYLOADLEN <? zlen opaque_data + 8)); [by sp_step|]. sp_step.
  apply (sp_mono _ _ (fun ok ss1 => ok = true /\ ss1 = data_copied opaque_data ss \/ ok = false /\ ss1 = granted ss /\ malloc_ok (grants ss) = false)).
  { unfold data_copied. destruct (zlen opaque_data =? 0); simpl; [sp_step; by left|]. apply sp_grant. destruct (malloc_ok (grants ss)) eqn:E; auto. }
  intros ok ss1 [[-> ->]|(-> & -> & Hm)]; simpl; [|sp_step; left; split; [done|]; split; [by exists (grants ss)|by left]]. sp_step.
  fold (goaway_aux aux_flags). fold (goaway_frame (nghttp2_min last_stream_id (local_last_stream_id ss)) error_code opaque_data).
  assert (aside ss (data_copied opaque_data ss)) as HA by (unfold data_copied; by case_match).
  assert (sess_ok X Y (data_copied opaque_data ss) kids lc li) as HO1 by (by eapply aside_sess).
  assert (ob_items (data_copied opaque_data ss) = ob_items ss /\ ob_ok (data_copied opaque_data ss) L) as [E1 HQ1] by (unfold data_copied; by case_match).
  eapply sp_mono; [refine (sp_add_frame X Y (data_copied opaque_data ss) kids lc li L _ _ HO1 HQ1 _ _); [by rewrite E1|reflexivity]|].
  - intros rv ss' [(-> & Hm & ->)|(-> & Hm & HO2 & HE)]; simpl.
    + sp_step. left. split; [done|]. split; [by eexists|]. unfold data_copied. case_match; auto.
    + do 3 sp_step. right. split; [done|]. split; [by eapply aside_sess; [|exact HO2]|]. by exists ss'.
Qed.

Definition terminate_result X Y ss kids lc li L (last_stream_id error_code : Z) (opaque_data : bytes) (rv : Z) ss' : Prop :=
  if flag_set (goaway_flags ss) NGHTTP2_GOAWAY_TERM_ON_SEND then rv = 0 /\ ss' = ss
  else exists ss1, goaway_result X Y (ign_all_to true ss) kids lc li L last_stream_id error_code opaque_data NGHTTP2_GOAWAY_AUX_TERM_ON_SEND rv ss1 /\
    ss' = (if rv =? 0 then goaway_flagged NGHTTP2_GOAWAY_TERM_ON_SEND ss1 else ss1).

Lemma sp_terminate X Y ss kids lc li L last_stream_id error_code reason : sess_ok X Y ss kids lc li -> ob_ok ss L ->
  Z.of_nat (size (ob_items ss)) + 1 < 2 ^ 64 ->
  sp (session_terminate_session realloc_ok malloc_ok new_stream new_item last_stream_id error_code reason) ss
    (terminate_result X Y ss kids lc li L last_stream_id error_code (match reason with Some r => r | None => [] end)).
Proof using Hitem.
  intros HO HQ Hsz. unfold session_terminate_session, terminate_result. do 2 sp_step. fold (flag_set (goaway_flags ss) NGHTTP2_GOAWAY_TERM_ON_SEND).
  destruct (flag_set (goaway_flags ss) NGHTTP2_GOAWAY_TERM_ON_SEND); [by sp_step|]. do 3 sp_step.
  eapply sp_mono; [apply (sp_add_goaway X Y (ign_all_to true ss) kids lc li L); try done; by eapply aside_sess; [|exact HO]|].
  intros rv ss1 H. destruct (Z.eqb_spec rv 0) as [->|Hne]; simpl.
  - do 3 sp_step. by exists ss1.
  - sp_step. exists ss1. split; [done|]. by rewrite (proj2 (Z.eqb_neq rv 0) Hne).
Qed.

End Adding.

(** ** The queues as lists of frames *)

(** The queues are linked lists, each item in one of them at most. *)
Definition queues_ok ob : Prop := exists L, ob_ok ob L.

(** And requests wait in the order of their ids. *)
Definition queues_in_order ss : Prop := exists L, ob_ok ss L /\ syn_ok ss L.

(** The frame is the last one of its queue. *)
Record frame_queued ss frame ss' : Prop := {
  fq_ok : queues_ok ss';
  fq_last : queue_frames ss' (queue_for ss frame) = queue_frames ss (queue_for ss frame) ++ [frame];
  fq_others : forall k, k <> queue_for ss frame -> queue_frames ss' k = queue_frames ss k;
  fq_rest : exists ob', ss' = upd_ob (fun _ => ob') (announced frame (granted ss));
}.

Lemma enqueued_frames ss L frame aux ss' : ob_ok ss L -> enqueued ss L frame aux ss' -> frame_queued ss frame ss'.
Proof.
  intros HO [(it & ob' & -> & Hnew & HO' & Hit & Hoth & _)]. set (k := queue_for ss frame) in *.
  assert (forall k', omap (fun a => it_frame <$> ob_items ob' !! a) (L k') = queue_frames ss k') as Hsame.
  { intros k'. unfold queue_frames. rewrite (queue_items_held _ _ _ HO). apply frames_ext. intros a Ha. apply Hoth. intros ->.
    destruct (oo_known _ _ _ _ HO Ha) as [? E]. congruence. }
  split.
  - eexists. exact HO'.
  - fold k. unfold queue_frames at 1. rewrite (queue_items_held _ _ _ HO'). simpl. rewrite relist_eq, omap_app, Hsame. simpl.
    destruct (ob_items ob' !! it) as [i|]; [|done]. simpl in Hit. unfold contents in Hit. by simplify_eq.
  - intros k' Hk. unfold queue_frames at 1. rewrite (queue_items_held _ _ _ HO'). simpl. by rewrite relist_ne, Hsame.
  - by exists ob'.
Qed.
