(* ===== verification/SessionSendSpec.v ===== *)
(** * Sessions: what the queueing of frames promises

    The properties of the queues and of the frames that a session queues,
    with the waiting frames of a queue as a list. *)

From Stdlib Require Import Sorting.Sorted.
From S2P Require Import Prelude Defs Helper HdToken Pq Frame FrameHeaders Http Stream StreamLinks StreamQueue StreamTree StreamItems StreamFrame StreamSpec.
From S2P Require Import Outbound Session SessionInv SessionTree SessionBooks SessionForest SessionOpen SessionClose SessionItems SessionNew SessionReach SessionSpec SessionTouch SessionSend SessionQueues SessionAdd.

Implicit Types (a it id : Z) (k : ob_queue) (s : nghttp2_stream) (ss : nghttp2_session) (ob : session_outbound) (l lc li : list Z).
Implicit Types (L : ob_queue -> list Z) (kids : gmap Z (list Z)) (frame : nghttp2_frame) (aux : nghttp2_aux_data).

(** ** The next queue *)

(** The queue that is served next. *)
Definition next_queue ss : option ob_queue :=
  match queue_frames ss ObUrgent, queue_frames ss ObReg, queue_frames ss ObSyn with
  | _ :: _, _, _ => Some ObUrgent
  | [], _ :: _, _ => Some ObReg
  | [], [], _ :: _ => if session_is_outgoing_concurrent_streams_max ss then None else Some ObSyn
  | [], [], [] => None
  end.

Lemma queue_frames_cons ob L k a l : ob_ok ob L -> L k = a :: l -> exists i, ob_items ob !! a = Some i /\
  queue_frames ob k = it_frame i :: omap (fun a => it_frame <$> ob_items ob !! a) l.
Proof.
  intros HO HL. destruct (oo_known ob L k a HO) as [i Hi]; [rewrite HL; by left|]. exists i. split; [done|].
  unfold queue_frames. rewrite (queue_items_held _ _ _ HO), HL. simpl. by rewrite Hi.
Qed.

Lemma next_queue_held ss L : ob_ok ss L -> next_queue ss = fst <$> next_queued ss L.
Proof.
  intros HO. assert (forall k, match L k with [] => queue_frames ss k = [] | _ => exists frame fs, queue_frames ss k = frame :: fs end) as H.
  { intros k. destruct (L k) as [|a l] eqn:E; [unfold queue_frames; by rewrite (queue_items_held _ _ _ HO), E|].
    destruct (queue_frames_cons _ _ _ _ _ HO E) as (i & _ & ->). eauto. }
  pose proof (H ObUrgent) as H1. pose proof (H ObReg) as H2. pose proof (H ObSyn) as H3. unfold next_queue, next_queued.
  destruct (L ObUrgent); [rewrite H1|destruct H1 as (? & ? & ->); done]. destruct (L ObReg); [rewrite H2|destruct H2 as (? & ? & ->); done].
  destruct (L ObSyn); [by rewrite H3|destruct H3 as (? & ? & ->)]. by destruct (session_is_outgoing_concurrent_streams_max ss).
Qed.

Lemma relist_frames ob ob' L k a l : ob_ok ob L -> ob_ok ob' (relist L k l) -> L k = a :: l -> same_frames ob ob' ->
  queue_frames ob' k = tail (queue_frames ob k) /\ forall k', k' <> k -> queue_frames ob' k' = queue_frames ob k'.
Proof.
  intros HO HO' HL HF. split.
  - destruct (queue_frames_cons _ _ _ _ _ HO HL) as (i & _ & ->). unfold queue_frames. rewrite (queue_items_held _ _ _ HO'), relist_eq.
    simpl. apply frames_ext. intros b _. apply HF.
  - intros k' Hk. unfold queue_frames. rewrite (queue_items_held _ _ _ HO'), (queue_items_held _ _ _ HO), relist_ne by done.
    apply frames_ext. intros b _. apply HF.
Qed.

(** ** Claims *)

(** C19: the frames leave in order of their importance: [nghttp2_session_pop_next_ob_item]
    takes the oldest urgent frame (SETTINGS, PING), else the oldest regular
    one, else - while the peer's limit on concurrent streams allows it - the
    oldest request that waits to open a stream; only when none of them is
    there, and the window of the connection is open, it is a stream's turn
    to send data, and there is none only if no stream may send.  The queue
    loses the frame that is returned and nothing else, and
    [nghttp2_session_get_next_ob_item] names the same item. *)
Theorem frames_leave_in_order ss kids lc li : sess_ok ∅ ∅ ss kids lc li -> queues_ok ss -> session_sched_empty ss = true ->
  exists ss' r, nghttp2_session_pop_next_ob_item ss = Some (ss', r) /\ sess_ok ∅ ∅ ss' kids lc li /\
    match next_queue ss with
    | Some k => exists a i, r = Some a /\ ob_items ss !! a = Some i /\ queues_ok ss' /\
        queue_frames ss k = it_frame i :: queue_frames ss' k /\ (forall k', k' <> k -> queue_frames ss' k' = queue_frames ss k') /\
        nghttp2_session_get_next_ob_item ss = Some (ss, r)
    | None => se_ob ss' = se_ob ss /\ (if 0 <? remote_window_size ss then next_data ss r else r = None /\ ss' = ss) /\
        nghttp2_session_get_next_ob_item ss = Some (ss', r)
    end.
Proof.
  intros HS [L HO] Hemp. rewrite (next_queue_held _ _ HO). pose proof (next_item_peeked ss L HO) as EG.
  apply (sp_run nghttp2_session_pop_next_ob_item ss (fun r ss' => sess_ok ∅ ∅ ss' kids lc li /\ match fst <$> next_queued ss L with _ => _ end)).
  unfold nghttp2_session_pop_next_ob_item. do 2 sp_step. rewrite (tops_next ss L (fun k a => ob_pop k a;; mret (Some a)) next_data_item HO).
  destruct (next_queued ss L) as [[k a]|] eqn:EN; simpl.
  - destruct (next_queued_head _ _ _ _ EN) as [l HL]. sp_step. eapply sp_ob_pop; [exact HO|exact HL|]. intros ob' HO' HF _. sp_step.
    split; [eapply aside_sess; [|exact HS]; split; try done; intros it; by rewrite (same_frames_known _ _ it HF)|].
    destruct (relist_frames _ _ _ _ _ _ HO HO' HL HF) as [E1 E2]. destruct (queue_frames_cons _ _ _ _ _ HO HL) as (i & Hi & E3).
    exists a, i. split; [done|]. split; [done|]. split; [by eexists|]. split; [|done]. simpl. rewrite E1, E3. done.
  - pose proof (sp_next_data ∅ ∅ ss kids lc li HS Hemp) as HN. rewrite EG. unfold sp in HN |- *. destruct (next_data_item ss) as [[ss' r]|]; [|done].
    destruct HN as (w & -> & HS' & HN). done.
Qed.

Lemma flag_raised x f : 0 < f < 256 -> flag_set (u8 (x .| f)) f = true.
Proof.
  intros Hf. unfold flag_set. rewrite u8_land, Z.land_lor_distr_l, Z.land_diag by lia. apply negb_true_iff, Z.eqb_neq.
  intros [_ ?]%Z.lor_eq_0_iff. lia.
Qed.

Section Claims.
Context (realloc_ok malloc_ok : nat -> bool) (new_stream : gmap Z nghttp2_stream -> Z) (new_item : gmap Z nghttp2_outbound_item -> Z).

(** C22: queueing a frame (other than DATA and PUSH_PROMISE, which need a
    stream of their own) implements appending to one of three lists of
    frames: SETTINGS and PING go to the urgent one, HEADERS of a request or
    of a promised stream to the one that waits for a stream, everything else
    to the regular one.  RST_STREAM moves its stream to the closing state and
    WINDOW_UPDATE marks its stream or the connection; nothing else changes,
    and without memory nothing does. *)
Theorem add_frame_appends ss kids lc li frame aux : (forall m, m !! new_item m = None) -> sess_ok ∅ ∅ ss kids lc li -> queues_ok ss ->
  Z.of_nat (size (ob_items ss)) + 1 < 2 ^ 64 -> plain_frame frame = true ->
  exists ss' rv, add_frame realloc_ok malloc_ok new_stream new_item frame aux ss = Some (ss', rv) /\
    (rv = NGHTTP2_ERR_NOMEM /\ malloc_ok (grants ss) = false /\ ss' = granted ss \/
     rv = 0 /\ sess_ok ∅ ∅ ss' kids lc li /\ frame_queued ss frame ss').
Proof using.
  intros Hitem HO [L HQ] Hsz Hpl. pose proof (sp_add_frame realloc_ok malloc_ok new_stream new_item Hitem ∅ ∅ ss kids lc li L frame aux HO HQ Hsz Hpl) as H.
  apply sp_run in H as (ss' & rv & E & H). exists ss', rv. split; [exact E|]. destruct H as [?|(? & _ & HO' & HE)]; [by left|]. right.
  split; [done|]. split; [done|]. by eapply enqueued_frames.
Qed.

(** A client's request for the stream [id] that is still in its queue. *)
Definition request_pending ss id a : Prop := server ss = false /\ nghttp2_session_is_my_stream_id ss id = true /\
  a ∈ queue_items ss ObSyn /\ exists i, ob_items ss !! a = Some i /\ item_id i = id /\ canceled i = false.


(** *** Acknowledgements *)

Definition is_ack frame : bool :=
  match frame with FrControl (FrPing _) | FrControl (FrSettings _) => flag_set (hd_flags (frame_hd frame)) NGHTTP2_FLAG_ACK | _ => false end.

Definition acks_waiting ob : Z := zlen (filter (fun f => is_ack f = true) (queue_frames ob ObUrgent)).

(** No more acknowledgements wait than the session counts, and allows. *)
Definition flood_ok ss : Prop := acks_waiting ss <= obq_flood_counter_ ss <= max_outbound_ack ss /\ max_outbound_ack ss < 2 ^ 64.

Lemma ping_acks ss L flags opaque_data ss1 : ob_ok ss L -> enqueued ss L (ping_frame flags opaque_data) aux_zero ss1 ->
  queues_ok ss1 /\ acks_waiting ss1 = acks_waiting ss + (if flag_set flags NGHTTP2_FLAG_ACK then 1 else 0) /\ se_limits ss1 = se_limits ss.
Proof using.
  intros HQ HE. destruct (enqueued_frames _ _ _ _ _ HQ HE) as [HQ' Hw _ (ob' & E)]. split; [done|]. split; [|by rewrite E].
  unfold acks_waiting. change (queue_for ss (ping_frame flags opaque_data)) with ObUrgent in Hw. rewrite Hw, filter_app, length_app, filter_cons, filter_nil.
  change (is_ack (ping_frame flags opaque_data)) with (flag_set flags NGHTTP2_FLAG_ACK). destruct (flag_set flags NGHTTP2_FLAG_ACK); simpl; lia.
Qed.

(** C24: a peer cannot make a session queue more acknowledgements than
    [max_outbound_ack]: queueing a PING runs to its end and keeps the number
    of waiting ACK frames within the counter and the counter within the
    limit, and it is refused, with NGHTTP2_ERR_FLOODED and no effect, exactly
    when it is an acknowledgement and the limit is reached. *)
Theorem ping_flood_bounded ss kids lc li flags opaque_data : (forall m, m !! new_item m = None) -> sess_ok ∅ ∅ ss kids lc li -> queues_ok ss ->
  Z.of_nat (size (ob_items ss)) + 1 < 2 ^ 64 -> flood_ok ss -> 0 <= flags < 256 ->
  exists ss' rv, nghttp2_session_add_ping realloc_ok malloc_ok new_stream new_item flags opaque_data ss = Some (ss', rv) /\
    queues_ok ss' /\ flood_ok ss' /\ max_outbound_ack ss' = max_outbound_ack ss /\
    (rv = NGHTTP2_ERR_FLOODED <-> flag_set flags NGHTTP2_FLAG_ACK = true /\ max_outbound_ack ss <= obq_flood_counter_ ss) /\
    (rv = NGHTTP2_ERR_FLOODED -> ss' = ss) /\ (rv = 0 -> acks_waiting ss' = acks_waiting ss + (if flag_set flags NGHTTP2_FLAG_ACK then 1 else 0)).
Proof using.
  intros Hitem HO [L HQ] Hsz [[Hlo Hhi] Hmax] Hfl.
  pose proof (sp_add_ping realloc_ok malloc_ok new_stream new_item Hitem ∅ ∅ ss kids lc li L flags opaque_data HO HQ Hsz) as H.
  apply sp_run in H as (ss' & rv & E & H). exists ss', rv. unfold ping_result in H. assert (queues_ok ss) as HQ0 by (by exists L).
  destruct (flag_set flags NGHTTP2_FLAG_ACK) eqn:Eack; simpl in H.
  - destruct (Z.leb_spec (max_outbound_ack ss) (obq_flood_counter_ ss)) as [Hle|Hgt].
    + destruct H as [-> ->]. split_and!; try done.
    + destruct H as [(-> & _ & ->)|(-> & _ & _ & ss1 & HE & ->)]; [split_and!; try done; split; [intros [=]|lia]|].
      destruct (ping_acks _ _ _ _ _ HQ HE) as (HQ' & Ha & El). split; [exact E|]. unfold counted_ack. rewrite Eack in Ha |- *.
      assert (acks_waiting (upd_limits (obq_flood_counter_to (u64 (obq_flood_counter_ ss1 + 1))) ss1) = acks_waiting ss1) as E' by done.
      unfold flood_ok. rewrite E', Ha. simpl. rewrite El, u64_id by (unfold is_u64; unfold acks_waiting in Hlo; lia).
      split_and!; try done; try lia. split; [intros [=]|lia].
  - destruct H as [(-> & _ & ->)|(-> & _ & _ & ss1 & HE & ->)]; [split_and!; try done; split; [intros [=]|by intros [? _]]|].
    destruct (ping_acks _ _ _ _ _ HQ HE) as (HQ' & Ha & El). split; [exact E|]. unfold counted_ack. rewrite Eack in Ha |- *.
    unfold flood_ok. rewrite Ha, El. split_and!; try done; try lia. split; [intros [=]|by intros [? _]].
Qed.

(** The ids of the streams that this side opens: odd ones are the client's, even
    ones but 0 the server's. *)
Definition own_id ss (id : Z) : bool := negb (id =? 0) && Bool.eqb (Z.even id) (server ss).

Lemma own_id_mine ss id : nghttp2_session_is_my_stream_id ss id = own_id ss id.
Proof using.
  unfold nghttp2_session_is_my_stream_id, own_id. destruct (id =? 0); [done|]. simpl. change 1 with (Z.ones 1). rewrite Z.land_ones by done. change (2 ^ 1) with 2. rewrite Zmod_even.
  by destruct (Z.even id), (server ss).
Qed.

(** What fits into a GOAWAY frame besides the id and the code. *)
Definition reason_fits (opaque_data : bytes) : bool := zlen opaque_data + 8 <=? NGHTTP2_MAX_PAYLOADLEN.

(** C25: what terminating a session does, on every branch. The second time,
    nothing. The first time the session stops reading, whatever follows. An
    id of its own, or a reason that fits no frame, is refused: no GOAWAY is
    queued and no flag set, although the session does not read any more.
    Otherwise it fails only without memory, with all queues as they were, or
    it queues one GOAWAY frame behind the regular ones and nothing else,
    with the given code and reason and as last stream id the given one or the
    one announced before, whichever is less; and its sending is noted to end
    the session. *)
Theorem terminate_session_contract ss kids lc li last_stream_id error_code reason : (forall m, m !! new_item m = None) ->
  sess_ok ∅ ∅ ss kids lc li -> queues_ok ss -> Z.of_nat (size (ob_items ss)) + 1 < 2 ^ 64 ->
  exists ss' rv, session_terminate_session realloc_ok malloc_ok new_stream new_item last_stream_id error_code reason ss = Some (ss', rv) /\
    let opaque_data := match reason with Some r => r | None => [] end in
    if flag_set (goaway_flags ss) NGHTTP2_GOAWAY_TERM_ON_SEND then rv = 0 /\ ss' = ss
    else if own_id ss last_stream_id || negb (reason_fits opaque_data) then rv = NGHTTP2_ERR_INVALID_ARGUMENT /\ ss' = ign_all_to true ss
    else
      ign_all ss' = true /\
      (rv = NGHTTP2_ERR_NOMEM /\ refused malloc_ok /\ se_ob ss' = se_ob ss /\ goaway_flags ss' = goaway_flags ss \/
       rv = 0 /\ sess_ok ∅ ∅ ss' kids lc li /\ queues_ok ss' /\ flag_set (goaway_flags ss') NGHTTP2_GOAWAY_TERM_ON_SEND = true /\
         queue_frames ss' ObReg = queue_frames ss ObReg ++ [goaway_frame (Z.min last_stream_id (local_last_stream_id ss)) error_code opaque_data] /\
         queue_frames ss' ObUrgent = queue_frames ss ObUrgent /\ queue_frames ss' ObSyn = queue_frames ss ObSyn).
Proof using.
  intros Hitem HO [L HQ] Hsz.
  pose proof (sp_terminate realloc_ok malloc_ok new_stream new_item Hitem ∅ ∅ ss kids lc li L last_stream_id error_code reason HO HQ Hsz) as H.
  apply sp_run in H as (ss' & rv & E & H). exists ss', rv. split; [exact E|]. cbv zeta. unfold terminate_result in H.
  destruct (flag_set (goaway_flags ss) NGHTTP2_GOAWAY_TERM_ON_SEND); [done|]. destruct H as (ss1 & H & ->).
  set (d := match reason with Some r => r | None => [] end) in *. clearbody d. unfold goaway_result in H.
  change (nghttp2_session_is_my_stream_id (ign_all_to true ss)) with (nghttp2_session_is_my_stream_id ss) in H.
  assert (negb (zlen d =? 0) && (NGHTTP2_MAX_PAYLOADLEN <? zlen d + 8) = negb (reason_fits d)) as Efit.
  { unfold reason_fits. destruct (Z.eqb_spec (zlen d) 0) as [-> |_]; [done|]. simpl. lia. }
  rewrite own_id_mine, Efit in H. destruct (own_id ss last_stream_id || _); [by destruct H as [-> ->]|].
  destruct H as [(-> & Hm & Hss)|(-> & HO1 & ss2 & -> & HE)].
  - split; [by destruct Hss as [-> | ->]|]. left. by destruct Hss as [-> | ->].
  - change (0 =? 0) with true. cbn iota.
    assert (se_ob (data_copied d (ign_all_to true ss)) = se_ob ss) as Eob by (unfold data_copied; by destruct (zlen d =? 0)).
    assert (ob_ok (data_copied d (ign_all_to true ss)) L) as HQ1 by (by rewrite Eob).
    destruct (enqueued_frames _ _ _ _ _ HQ1 HE) as [HQ' Hw Hoth (ob' & E2)]. rewrite Eob in Hw. rewrite Eob in Hoth.
    assert (ign_all ss2 = true) as Hign by (rewrite E2; unfold data_copied; by destruct (zlen d =? 0)).
    split; [done|]. right. split; [done|]. split; [by eapply aside_sess; [|exact HO1]|]. split; [exact HQ'|]. split.
    { apply flag_raised. vm_compute. done. }
    rewrite nghttp2_min_spec in Hw. split_and!; [exact Hw| |]; apply Hoth; discriminate.
Qed.

End Claims.

(** ** Witnesses *)

(** Every item in memory is below. *)
Definition next_item (m : gmap Z nghttp2_outbound_item) : Z := map_fold (fun a _ n => Z.max n (a + 1)) 1 m.

Lemma next_item_fresh m : m !! next_item m = None.
Proof.
  assert (forall a, is_Some (m !! a) -> a < next_item m) as H.
  { unfold next_item. revert m. apply (map_fold_weak_ind (fun n m => forall a, is_Some (m !! a) -> a < n)).
    - intros a [? Ha]. by rewrite lookup_empty in Ha.
    - intros i s m r Hi IH a Ha. rewrite lookup_insert in Ha. case_decide; [lia|]. apply IH in Ha. lia. }
  apply eq_None_not_Some. intros Ha. apply H in Ha. lia.
Qed.

Definition nothing_queued (k : ob_queue) : list Z := [].

Lemma empty_queues ob : ob_items ob = ∅ -> (forall k, ob_get k ob = nghttp2_outbound_queue_init) -> ob_ok ob nothing_queued.
Proof.
  intros E Hq. split.
  - intros k. rewrite Hq. apply queue_holds_init.
  - by intros k k' a ?%elem_of_nil.
  - intros a i Ha. by rewrite E, lookup_empty in Ha.
  - intros a i Ha. by rewrite E, lookup_empty in Ha.
Qed.

Lemma closed1_queues : ob_ok closed1 nothing_queued.
Proof. apply empty_queues; [by vm_compute|]. intros []; by vm_compute. Qed.

Abbreviation queue_frame := (add_frame granting granting next_address next_item).

Definition after (m : se_m Z) ss : nghttp2_session := match m ss with Some (ss', _) => ss' | None => ss end.

(** A window update and then a ping wait to be sent. *)
Definition update_queued : nghttp2_session := after (queue_frame (FrControl (FrWindowUpdate (nghttp2_frame_window_update_init 0 0 1000))) aux_zero) closed1.
Definition ping_queued : nghttp2_session := after (queue_frame (ping_frame NGHTTP2_FLAG_ACK None) aux_zero) update_queued.

Lemma added ss kids lc li frame aux : sess_ok ∅ ∅ ss kids lc li -> queues_ok ss -> Z.of_nat (size (ob_items ss)) + 1 < 2 ^ 64 -> plain_frame frame = true ->
  sess_ok ∅ ∅ (after (queue_frame frame aux) ss) kids lc li /\ queues_ok (after (queue_frame frame aux) ss).
Proof.
  intros HO [L HQ] Hsz Hpl. pose proof (sp_add_frame granting granting next_address next_item next_item_fresh ∅ ∅ ss kids lc li L frame aux HO HQ Hsz Hpl) as H.
  apply sp_run in H as (ss' & rv & E & H). unfold after. rewrite E. destruct H as [(_ & ? & _)|(_ & _ & HO' & HE)]; [done|].
  by destruct (enqueued_frames _ _ _ _ _ HQ HE).
Qed.

Lemma closed1_held : queues_ok closed1.
Proof. by eexists; apply closed1_queues. Qed.

Lemma ping_queued_ok : exists kids lc li, sess_ok ∅ ∅ ping_queued kids lc li /\ queues_ok ping_queued.
Proof.
  destruct (demo_ok closed1 closed1_reached) as (kids & lc & li & HO). exists kids, lc, li.
  destruct (added closed1 kids lc li (FrControl (FrWindowUpdate (nghttp2_frame_window_update_init 0 0 1000))) aux_zero HO closed1_held) as [HO1 HQ1];
    [by vm_compute|done|].
  by destruct (added update_queued kids lc li (ping_frame NGHTTP2_FLAG_ACK None) aux_zero HO1 HQ1); [by vm_compute|done|].
Qed.

(** The ping overtakes the window update. *)
Lemma frames_leave_in_order_witness : exists kids lc li ss' r, nghttp2_session_pop_next_ob_item ping_queued = Some (ss', r) /\ sess_ok ∅ ∅ ss' kids lc li /\
    match next_queue ping_queued with
    | Some k => exists a i, r = Some a /\ ob_items ping_queued !! a = Some i /\ queues_ok ss' /\
        queue_frames ping_queued k = it_frame i :: queue_frames ss' k /\ (forall k', k' <> k -> queue_frames ss' k' = queue_frames ping_queued k') /\
        nghttp2_session_get_next_ob_item ping_queued = Some (ping_queued, r)
    | None => se_ob ss' = se_ob ping_queued /\ (if 0 <? remote_window_size ping_queued then next_data ping_queued r else r = None /\ ss' = ping_queued) /\
        nghttp2_session_get_next_ob_item ping_queued = Some (ss', r)
    end.
Proof.
  destruct ping_queued_ok as (kids & lc & li & HO & HQ). exists kids, lc, li.
  apply (frames_leave_in_order ping_queued kids lc li); [exact HO|exact HQ|by vm_compute].
Defined.

Example ping_first : (queue_frames ping_queued ObUrgent, queue_frames ping_queued ObReg, next_queue ping_queued) =
  ([ping_frame NGHTTP2_FLAG_ACK None], [FrControl (FrWindowUpdate (nghttp2_frame_window_update_init 0 0 1000))], Some ObUrgent).
Proof. by vm_compute. Qed.

Lemma add_frame_appends_witness : exists kids lc li ss' rv, queue_frame (rst_frame 3 8) aux_zero closed1 = Some (ss', rv) /\
    (rv = NGHTTP2_ERR_NOMEM /\ granting (grants closed1) = false /\ ss' = granted closed1 \/
     rv = 0 /\ sess_ok ∅ ∅ ss' kids lc li /\ frame_queued closed1 (rst_frame 3 8) ss').
Proof.
  destruct (demo_ok closed1 closed1_reached) as (kids & lc & li & HO). exists kids, lc, li.
  apply (add_frame_appends granting granting next_address next_item closed1 kids lc li (rst_frame 3 8) aux_zero);
    [exact next_item_fresh|exact HO|exact closed1_held|by vm_compute|reflexivity].
Defined.

Lemma ping_flood_bounded_witness : exists ss' rv, nghttp2_session_add_ping granting granting next_address next_item NGHTTP2_FLAG_ACK None closed1 = Some (ss', rv) /\
    queues_ok ss' /\ flood_ok ss' /\ max_outbound_ack ss' = max_outbound_ack closed1 /\
    (rv = NGHTTP2_ERR_FLOODED <-> flag_set NGHTTP2_FLAG_ACK NGHTTP2_FLAG_ACK = true /\ max_outbound_ack closed1 <= obq_flood_counter_ closed1) /\
    (rv = NGHTTP2_ERR_FLOODED -> ss' = closed1) /\
    (rv = 0 -> acks_waiting ss' = acks_waiting closed1 + (if flag_set NGHTTP2_FLAG_ACK NGHTTP2_FLAG_ACK then 1 else 0)).
Proof.
  destruct (demo_ok closed1 closed1_reached) as (kids & lc & li & HO).
  apply (ping_flood_bounded granting granting next_address next_item closed1 kids lc li NGHTTP2_FLAG_ACK None);
    [exact next_item_fresh|exact HO|exact closed1_held|by vm_compute|by vm_compute|by vm_compute].
Defined.

Lemma no_requests ss : syn_ok ss nothing_queued.
Proof. split; [by intros a i ?%elem_of_nil|]. intros _. constructor. Qed.

Lemma closed1_in_order : queues_in_order closed1.
Proof. exists nothing_queued. split; [exact closed1_queues|apply no_requests]. Qed.


Lemma terminate_session_contract_witness : exists kids lc li ss' rv,
  session_terminate_session granting granting next_address next_item 5 0 None closed1 = Some (ss', rv) /\
    let opaque_data := [] in
    if flag_set (goaway_flags closed1) NGHTTP2_GOAWAY_TERM_ON_SEND then rv = 0 /\ ss' = closed1
    else if own_id closed1 5 || negb (reason_fits opaque_data) then rv = NGHTTP2_ERR_INVALID_ARGUMENT /\ ss' = ign_all_to true closed1
    else
      ign_all ss' = true /\
      (rv = NGHTTP2_ERR_NOMEM /\ refused granting /\ se_ob ss' = se_ob closed1 /\ goaway_flags ss' = goaway_flags closed1 \/
       rv = 0 /\ sess_ok ∅ ∅ ss' kids lc li /\ queues_ok ss' /\ flag_set (goaway_flags ss') NGHTTP2_GOAWAY_TERM_ON_SEND = true /\
         queue_frames ss' ObReg = queue_frames closed1 ObReg ++ [goaway_frame (Z.min 5 (local_last_stream_id closed1)) 0 opaque_data] /\
         queue_frames ss' ObUrgent = queue_frames closed1 ObUrgent /\ queue_frames ss' ObSyn = queue_frames closed1 ObSyn).
Proof.
  destruct (demo_ok closed1 closed1_reached) as (kids & lc & li & HO). exists kids, lc, li.
  apply (terminate_session_contract granting granting next_address next_item closed1 kids lc li 5 0 None);
    [exact next_item_fresh|exact HO|exact closed1_held|by vm_compute].
Defined.

(** ** What the definitions showed *)

(** An id of its own is refused, but the session does not read any more. *)
Lemma refused_termination_stops_reading : (fun r : nghttp2_session * Z => (r.2, ign_all r.1, goaway_flags r.1)) <$>
  nghttp2_session_terminate_session2 granting granting next_address next_item 2 0 closed1 = Some (NGHTTP2_ERR_INVALID_ARGUMENT, true, 0).
Proof. by vm_compute. Qed.

(** A client whose request for the stream 1 waits. *)
Definition request_frame : nghttp2_frame :=
  FrHeaders (nghttp2_frame_headers_init (NGHTTP2_FLAG_END_STREAM .| NGHTTP2_FLAG_END_HEADERS) 1 NGHTTP2_HCAT_REQUEST None []).
Definition request_queued : nghttp2_session := after (queue_frame request_frame aux_zero) (upd_ids (next_stream_id_to 3) (nghttp2_session_client_new3 None)).
Abbreviation reset_1 := (nghttp2_session_add_rst_stream granting granting next_address next_item 1 NGHTTP2_CANCEL).

(** Resetting it once cancels the request; resetting it again sends
    RST_STREAM for a stream that is idle. *)
Lemma second_reset_names_idle_stream :
  (fun r : nghttp2_session * Z => (r.2, nghttp2_session_get_next_ob_item r.1 ≫= fun n => n.2 ≫= fun a => (fun i => (it_frame i, canceled i)) <$> ob_items r.1 !! a)) <$>
    reset_1 request_queued = Some (0, Some (request_frame, true)) /\
  (fun r : nghttp2_session * Z => (r.2, nghttp2_session_get_next_ob_item r.1 ≫= fun n => n.2 ≫= fun a => it_frame <$> ob_items r.1 !! a)) <$>
    reset_1 (after reset_1 request_queued) = Some (0, Some (rst_frame 1 NGHTTP2_CANCEL)) /\
  session_detect_idle_stream (after reset_1 (after reset_1 request_queued)) 1 = true.
Proof. split_and!; by vm_compute. Qed.
