(* ===== verification/SessionCalm.v ===== *)
(** * Sessions: what queueing a frame leaves alone

    Frames that a session queues leave its settings, and its streams but for
    their state and the marks of WINDOW_UPDATE; the queues stay in order.
    This is what the functions that queue frames along the way need to know. *)

From Stdlib Require Import Sorting.Sorted.
From S2P Require Import Prelude Defs Helper HdToken Pq Frame FrameHeaders Http Stream StreamLinks StreamQueue StreamTree StreamItems StreamFrame.
From S2P Require Import Outbound Session SessionInv SessionTree SessionBooks SessionForest SessionOpen SessionClose SessionItems SessionReach SessionTouch SessionSend SessionQueues SessionAdd.

Implicit Types (a it id : Z) (k : ob_queue) (s : nghttp2_stream) (h : gmap Z nghttp2_stream) (ss : nghttp2_session) (ob : session_outbound).
Implicit Types (l lc li : list Z) (L : ob_queue -> list Z) (kids : gmap Z (list Z)) (frame : nghttp2_frame) (f : stream_flow).

(** ** Sessions in order, with their queues *)

Record sound (n : Z) ss : Prop := {
  sd_sess : exists kids lc li, sess_ok ∅ ∅ ss kids lc li;
  sd_queues : exists L, ob_ok ss L /\ syn_ok ss L;
  sd_room : Z.of_nat (size (ob_items ss)) + n < 2 ^ 64;
  sd_zero : stream_map ss !! 0 = None;
}.

Lemma sound_less n m ss : sound n ss -> m <= n -> sound m ss.
Proof. intros [H1 H2 H3 H4] Hm. split; [done|done|lia|done]. Qed.

(** ** What stays *)

Definition marked f f' : Prop := f' = f \/ f' = window_update_queued_to 1 f.

#[global] Instance marked_preorder : PreOrder marked.
Proof. split; [by left|]. intros x y z [-> | ->] [-> | ->]; try (by left); by right. Qed.

Definition calm_stream s s' : Prop := gently s s' /\ st_http s' = st_http s /\ shut_flags s' = shut_flags s /\ marked s s' /\
  (state s' = state s \/ state s' = NGHTTP2_STREAM_CLOSING).

#[global] Instance calm_stream_preorder : PreOrder calm_stream.
Proof.
  split; [intros s; unfold calm_stream; split_and!; try done; by left|].
  intros x y z (A1 & A2 & A3 & A4 & A5) (B1 & B2 & B3 & B4 & B5). split; [by etrans|]. split; [congruence|]. split; [congruence|]. split; [by etrans|].
  destruct A5 as [A5|A5], B5 as [B5|B5]; [left; congruence|right; congruence..].
Qed.

(** The last streams of the peer that were received and processed. *)
Definition seen ss ss' : Prop := last_recv_stream_id ss' = last_recv_stream_id ss /\ last_proc_stream_id ss' = last_proc_stream_id ss.

#[global] Instance seen_preorder : PreOrder seen.
Proof. split; [by split|]. intros x y z [A1 A2] [B1 B2]. split; congruence. Qed.

Record calm ss ss' : Prop := {
  cm_conf : se_conf ss' = se_conf ss;
  cm_seen : seen ss ss';
  cm_map : stream_map ss' = stream_map ss;
  cm_lists : se_lists ss' = se_lists ss;
  cm_counts : se_counts ss' = se_counts ss;
  cm_flow : marked (se_flow ss) (se_flow ss');
  cm_dom : forall a, is_Some (se_streams ss' !! a) <-> is_Some (se_streams ss !! a);
  cm_streams : forall a s, se_streams ss !! a = Some s -> exists s', se_streams ss' !! a = Some s' /\ calm_stream s s';
}.

#[global] Instance calm_preorder : PreOrder calm.
Proof.
  split; [intros ss; split; try done; intros a s Ha; by exists s|].
  intros x y z [A1 A0 A2 A3 A4 A5 A6 A7] [B1 B0 B2 B3 B4 B5 B6 B7]. split; try congruence.
  - by etrans.
  - by etrans.
  - intros a. by rewrite B6.
  - intros a s Ha. destruct (A7 a s Ha) as (s1 & H1 & R1), (B7 a s1 H1) as (s2 & H2 & R2). exists s2. split; [done|by etrans].
Qed.

Lemma calm_streams_to ss a s s' : se_streams ss !! a = Some s -> calm_stream s s' -> calm ss (streams_to (<[a := s']> (se_streams ss)) ss).
Proof.
  intros Ha HC. split; try done.
  - intros b. rewrite se_streams_to, lookup_insert. case_decide; [subst|done]. split; [eauto|by eexists].
  - intros b t Hb. rewrite se_streams_to, lookup_insert. case_decide; [subst; simplify_eq; by exists s'|by exists t].
Qed.

Lemma calm_ob g ss : calm ss (upd_ob g ss).
Proof. split; try done. intros a s Ha. by exists s. Qed.

Lemma calm_granted ss : calm ss (granted ss).
Proof. split; try done. intros a s Ha. by exists s. Qed.

(** A live stream is found again. *)
Lemma calm_live ss ss' id : calm ss ss' -> live_stream ss' id = live_stream ss id.
Proof.
  intros HC. unfold live_stream. rewrite (cm_map _ _ HC). destruct (stream_map ss !! id) as [a|]; simpl; [|done].
  destruct (se_streams ss !! a) as [s|] eqn:Ea.
  - destruct (cm_streams _ _ HC a s Ea) as (s' & Ha' & HG & _). rewrite Ha'. simpl. unfold flag_set. rewrite (ge_flags _ _ HG) by auto.
    by rewrite (bool_decide_ext _ _ (ge_idle _ _ HG)).
  - destruct (se_streams ss' !! a) eqn:Ea'; [|done]. destruct (proj1 (cm_dom _ _ HC a) ltac:(eauto)). congruence.
Qed.

Lemma calm_in_use ss ss' a s : calm ss ss' -> in_use ss a s -> exists s', in_use ss' a s' /\ calm_stream s s'.
Proof.
  intros HC (Ha & Hr & Hf & Hi). destruct (cm_streams _ _ HC a s Ha) as (s' & Ha' & HS). exists s'. split; [|done]. pose proof HS as [HG _].
  split; [done|]. split; [done|]. unfold flag_set in *. rewrite (ge_flags _ _ HG) by auto. split; [done|]. by rewrite (ge_idle _ _ HG).
Qed.

(** ** Frames *)

Lemma announced_calm n ss frame : sound n ss -> calm ss (announced frame ss).
Proof.
  intros [(kids & lc & li & HO) _ _ _]. assert (forall (g : nghttp2_stream -> nghttp2_stream) id, (forall a s, in_use ss a s -> calm_stream s (g s)) -> calm ss (on_stream g id ss)) as Hon.
  { intros g id Hf. destruct (live_stream ss id) as [a|] eqn:Ea; [|unfold on_stream; by rewrite Ea].
    destruct (live_in_use _ _ _ _ _ _ _ _ HO Ea) as (s & _ & Hu). rewrite (on_stream_at _ _ _ _ _ Ea (proj1 Hu)).
    apply (calm_streams_to _ _ s); [apply Hu|by apply (Hf a)]. }
  destruct frame as [| | |[]|]; simpl; try done.
  - apply Hon. intros a s Hu. unfold calm_stream. split_and!; try done; [by eapply gently_closing|by right].
  - case_match; [split; try done; [by right|]; intros a s Ha; by exists s|]. apply Hon. intros a s Hu. unfold calm_stream.
    split_and!; try done; [by right|by left].
Qed.

Lemma ob_ok_ext ob ob' L : ob_ok ob L -> ob_items ob' = ob_items ob -> (forall k, ob_get k ob' = ob_get k ob) -> ob_ok ob' L.
Proof. intros [H1 H2 H3 H4] E Eg. split; rewrite ?E; try done. intros k. rewrite Eg. apply H1. Qed.

Lemma contents_frame ob ob' a i : contents <$> ob_items ob' !! a = contents <$> ob_items ob !! a -> ob_items ob' !! a = Some i ->
  exists j, ob_items ob !! a = Some j /\ it_frame i = it_frame j.
Proof. intros E H. rewrite H in E. destruct (ob_items ob !! a) as [j|]; [|done]. exists j. simpl in E. unfold contents in E. split; [done|congruence]. Qed.

Lemma syn_ok_ext ss ss' L : syn_ok ss L -> server ss' = server ss ->
  (forall a i, a ∈ L ObSyn -> ob_items ss' !! a = Some i -> exists j, ob_items ss !! a = Some j /\ it_frame i = it_frame j) -> syn_ok ss' L.
Proof.
  intros [H1 H2] Esv Hc. split.
  - intros a i Ha Hi. destruct (Hc a i Ha Hi) as (j & Hj & ->). by apply (H1 a).
  - rewrite Esv. intros E. specialize (H2 E). clear H1.
    assert (forall l, (forall a, a ∈ l -> a ∈ L ObSyn) -> StronglySorted (fun a b => forall i j, ob_items ss !! a = Some i -> ob_items ss !! b = Some j -> item_id i < item_id j) l ->
      StronglySorted (fun a b => forall i j, ob_items ss' !! a = Some i -> ob_items ss' !! b = Some j -> item_id i < item_id j) l) as Hl; [|by apply Hl].
    intros l Hin. induction 1 as [|a l Hs IH Ha]; constructor; [apply IH; intros c Hx; apply Hin; by right|].
    rewrite Forall_forall in Ha |- *. intros c Hx i j Hi Hj. destruct (Hc a i ltac:(apply Hin; by left) Hi) as (i' & Hi' & Ei).
    destruct (Hc c j ltac:(apply Hin; by right) Hj) as (j' & Hj' & Ej). unfold item_id in *. rewrite Ei, Ej. by apply (Ha c Hx).
Qed.

Lemma granted_sound n ss : sound n ss -> sound n (granted ss).
Proof.
  intros [(kids & lc & li & HO) (L & HQ & HY) HR HZ]. split; [exists kids, lc, li; by eapply aside_sess; [|exact HO]| |done|done].
  exists L. split; [done|]. apply (syn_ok_ext ss); [done|done|eauto].
Qed.

(** Only identifiers, limits and what is ignored changed. *)
Definition only_notes ss ss' : Prop :=
  se_world ss' = se_world ss /\ stream_map ss' = stream_map ss /\ se_lists ss' = se_lists ss /\ se_counts ss' = se_counts ss /\
  se_conf ss' = se_conf ss /\ se_flow ss' = se_flow ss /\ se_ob ss' = se_ob ss /\ seen ss ss'.

Lemma notes_aside ss ss' : only_notes ss ss' -> aside ss ss'.
Proof. intros (H1 & H2 & H3 & H4 & H5 & H6 & H7 & _). split; try done; [by rewrite H5|unfold rfc7540; by rewrite H5|by rewrite H7]. Qed.

Lemma notes_sound n ss ss' : only_notes ss ss' -> sound n ss -> sound n ss' /\ calm ss ss'.
Proof.
  intros HN [(kids & lc & li & HO) (L & HQ & HY) HR HZ]. pose proof (notes_aside _ _ HN) as HA. destruct HN as (H1 & H2 & H3 & H4 & H5 & H6 & H7 & H8).
  assert (se_streams ss' = se_streams ss) as ES by (by apply aside_streams). split.
  - split; [exists kids, lc, li; by eapply aside_sess; [|exact HO]| |by rewrite H7|by rewrite H2]. exists L. rewrite H7. split; [done|].
    apply (syn_ok_ext ss); [done|by rewrite H5|rewrite H7; eauto].
  - split; try done; rewrite ?H6, ?ES; try done. intros a s Ha. by exists s.
Qed.

Lemma placed_sound n ss ss0 L frame aux ss' kids lc li : sound n ss -> sound n ss0 -> calm ss ss0 -> ob_ok ss L -> syn_ok ss L ->
  sess_ok ∅ ∅ ss' kids lc li -> placed ss ss0 L frame aux ss' -> queue_for ss frame <> ObSyn -> sound (n - 1) ss' /\ calm ss ss'.
Proof.
  intros HS HS0 HC0 HQ HY HO [(it & ob' & -> & Hnew & HQ' & Hit & Hoth & _)] Hq.
  assert (calm ss (announced frame ss0)) as HC by (etrans; [exact HC0|by apply (announced_calm n)]).
  split; [|etrans; [exact HC|apply calm_ob]]. split; [by exists kids, lc, li| | |].
  - exists (relist L (queue_for ss frame) (L (queue_for ss frame) ++ [it])). split; [done|].
    assert (relist L (queue_for ss frame) (L (queue_for ss frame) ++ [it]) ObSyn = L ObSyn) as E by (by apply relist_ne).
    destruct (syn_ok_ext ss (upd_ob (fun _ => ob') (announced frame ss0)) L HY) as [H1 H2].
    { change (server (announced frame ss0) = server ss). by rewrite (cm_conf _ _ HC). }
    { intros a i Ha Hi. simpl in Hi. apply (contents_frame (se_ob ss) ob'); [|done]. apply Hoth. intros ->. destruct (oo_known _ _ _ _ HQ Ha) as [? ?]. congruence. }
    split; rewrite E; done.
  - simpl. assert (size (ob_items ob') = S (size (ob_items ss))) as ->; [|pose proof (sd_room _ _ HS); lia].
    assert (dom (ob_items ob') = {[it]} ∪ dom (ob_items ss)) as Ed.
    { apply set_eq. intros a. rewrite elem_of_union, elem_of_singleton, !elem_of_dom. destruct (decide (a = it)) as [->|Hne].
      - split; [by left|]. intros _. apply (fmap_is_Some contents). by rewrite Hit.
      - rewrite <- (fmap_is_Some contents (ob_items ob' !! a)), (Hoth a Hne), fmap_is_Some. naive_solver. }
    rewrite <- (size_dom (D := gset Z)), Ed, size_union, size_singleton, size_dom; [done|]. apply disjoint_singleton_l. rewrite elem_of_dom. by intros [? ?]; simplify_eq.
  - change (stream_map (announced frame ss0) !! 0 = None). rewrite (cm_map _ _ HC). apply HS.
Qed.

Lemma enqueued_sound n ss L frame aux ss' kids lc li : sound n ss -> ob_ok ss L -> syn_ok ss L -> sess_ok ∅ ∅ ss' kids lc li ->
  enqueued ss L frame aux ss' -> queue_for ss frame <> ObSyn -> sound (n - 1) ss' /\ calm ss ss'.
Proof. intros HS HQ HY HO HE. eapply placed_sound; [exact HS|by apply granted_sound|apply calm_granted|exact HQ|exact HY|exact HO|exact HE]. Qed.

(** ** Credit that is on its way *)

(** The increments of the WINDOW_UPDATE frames for [id] that wait. *)
Definition promise frame id : Z := match frame with FrControl (FrWindowUpdate f) => if hd_stream_id (wu_hd f) =? id then wu_increment f else 0 | _ => 0 end.

Definition promises (fs : list nghttp2_frame) id : Z := foldr (fun frame n => promise frame id + n) 0 fs.

Definition promised ob id : Z := promises (queue_frames ob ObReg) id.

Lemma promises_snoc fs frame id : promises (fs ++ [frame]) id = promises fs id + promise frame id.
Proof. unfold promises. induction fs as [|f fs IH]; simpl; [lia|]. rewrite IH. lia. Qed.

Lemma enqueued_promised ss L frame aux ss' id : ob_ok ss L -> enqueued ss L frame aux ss' -> queue_for ss frame = ObReg ->
  promised ss' id = promised ss id + promise frame id.
Proof. intros HQ HE Hq. destruct (enqueued_frames _ _ _ _ _ HQ HE) as [_ Hw _ _]. rewrite Hq in Hw. unfold promised. by rewrite Hw, promises_snoc. Qed.

(** ** The functions that queue frames *)

Section Calm.
Context (realloc_ok malloc_ok : nat -> bool) (new_stream : gmap Z nghttp2_stream -> Z) (new_item : gmap Z nghttp2_outbound_item -> Z).
Context (Hitem : forall m, m !! new_item m = None).

(** It ran, and queued a frame at most; unless memory lacked the increment
    [inc] for [id] is on its way. *)
Definition calm_run n id inc ss (rv : Z) ss' : Prop := (rv = 0 \/ rv = NGHTTP2_ERR_NOMEM) /\ sound (n - 1) ss' /\ calm ss ss' /\
  (rv = 0 -> forall id', promised ss' id' = promised ss id' + (if id =? id' then inc else 0)).

Lemma nothing_promised (ss ss' : nghttp2_session) : se_ob ss' = se_ob ss -> forall id id', promised ss' id' = promised ss id' + (if id =? id' then 0 else 0).
Proof using. intros E id id'. rewrite E. case_match; lia. Qed.

Lemma sp_window_update_calm n ss flags id inc : sound n ss -> 1 <= n ->
  sp (nghttp2_session_add_window_update realloc_ok malloc_ok new_stream new_item flags id inc) ss (calm_run n id inc ss).
Proof using Hitem.
  intros HS Hn. pose proof HS as [(kids & lc & li & HO) (L & HQ & HY) Hsz HZ]. unfold nghttp2_session_add_window_update.
  eapply sp_mono; [refine (sp_add_frame realloc_ok malloc_ok new_stream new_item Hitem ∅ ∅ ss kids lc li L _ _ HO HQ _ _); [lia|reflexivity]|].
  intros rv ss' [(-> & _ & ->)|(-> & _ & HO' & HE)].
  - split; [by right|]. split; [apply (sound_less n); [by apply granted_sound|lia]|]. split; [apply calm_granted|done].
  - split; [by left|]. destruct (enqueued_sound n _ _ _ _ _ _ _ _ HS HQ HY HO' HE) as [H1 H2]; [done|]. split; [done|]. split; [done|].
    intros _ id'. by rewrite (enqueued_promised _ _ _ _ _ id' HQ HE).
Qed.

Lemma cancelled_item a error_code ss b j : ob_items (request_cancelled a error_code ss) !! b = Some j -> exists i, ob_items ss !! b = Some i /\
  it_queued j = it_queued i /\ it_qnext j = it_qnext i /\ it_frame j = it_frame i.
Proof using.
  simpl. destruct (decide (b = a)) as [->|Hne]; [rewrite lookup_alter_eq|rewrite lookup_alter_ne by done; eauto].
  destruct (ob_items ss !! a) as [i|]; [|done]. intros [= <-]. by exists i.
Qed.

Lemma cancelled_view {A} (g : nghttp2_outbound_item -> A) a error_code ss b : (forall i, g (cancel_request error_code i) = g i) ->
  g <$> ob_items (request_cancelled a error_code ss) !! b = g <$> ob_items ss !! b.
Proof using.
  intros Hg. simpl. destruct (decide (b = a)) as [->|Hne]; [|by rewrite lookup_alter_ne]. rewrite lookup_alter_eq.
  destruct (ob_items ss !! a); [|done]. simpl. by rewrite Hg.
Qed.

Lemma cancelled_ob a error_code ss L : ob_ok ss L -> ob_ok (request_cancelled a error_code ss) L.
Proof using.
  intros [H1 H2 H3 H4]. split.
  - intros k. replace (ob_get k (request_cancelled a error_code ss)) with (ob_get k ss) by (by destruct k).
    apply (holds_ext (ob_items ss)); [apply H1|]. intros b _. by apply cancelled_view.
  - done.
  - intros b j Hb Hin. destruct (cancelled_item _ _ _ b j Hb) as (i & Hi & -> & _). by apply (H3 b).
  - intros b j Hb Hin. destruct (cancelled_item _ _ _ b j Hb) as (i & Hi & -> & -> & _). by apply (H4 b).
Qed.

Lemma cancelled_promised ss L a error_code id : ob_ok ss L -> promised (request_cancelled a error_code ss) id = promised ss id.
Proof using.
  intros HQ. pose proof (cancelled_ob a error_code ss L HQ) as HQ'. unfold promised, queue_frames.
  rewrite (queue_items_held _ _ _ HQ), (queue_items_held _ _ _ HQ'). f_equal. generalize (L ObReg). intros l.
  induction l as [|b l IH]; [done|]. cbn [omap list_omap]. rewrite (cancelled_view it_frame) by done. destruct (it_frame <$> _); [f_equal|]; exact IH.
Qed.

Lemma cancelled_sound n ss a error_code : sound n ss -> sound n (request_cancelled a error_code ss).
Proof using.
  intros [(kids & lc & li & HO) (L & HQ & HY) Hsz HZ]. split.
  - exists kids, lc, li. eapply aside_sess; [|exact HO]. split; try done. intros b Hb. by rewrite <- (fmap_is_Some it_qnext), cancelled_view, fmap_is_Some.
  - exists L. split; [by apply cancelled_ob|]. apply (syn_ok_ext ss); [done|done|]. intros b j _ Hj.
    destruct (cancelled_item _ _ _ b j Hj) as (i & Hi & _ & _ & ->). eauto.
  - simpl. assert (size (alter (cancel_request error_code) a (ob_items ss)) = size (ob_items ss)) as ->; [|done].
    rewrite <- !(size_dom (D := gset Z)). by rewrite dom_alter_L.
  - done.
Qed.

Lemma sp_rst_stream_calm n ss id error_code : sound n ss -> 1 <= n ->
  sp (nghttp2_session_add_rst_stream realloc_ok malloc_ok new_stream new_item id error_code) ss (calm_run n id 0 ss).
Proof using Hitem.
  intros HS Hn. pose proof HS as [(kids & lc & li & HO) (L & HQ & HY) Hsz HZ].
  eapply sp_mono; [refine (sp_add_rst_stream realloc_ok malloc_ok new_stream new_item Hitem ∅ ∅ ss kids lc li L id error_code HO HQ HY _); lia|].
  intros rv ss' HR. unfold reset_result in HR. assert (forall m ss0, sound m ss0 -> 1 <= m -> sound (m - 1) ss0) as Hless by (intros; eapply sound_less; [done|lia]).
  destruct (closing_at ss id || unused_id ss id); [destruct HR as [-> ->]; split; [by left|]; split; [by apply Hless|]; split; [done|]; intros _; by apply nothing_promised|].
  destruct HR as [(a & _ & -> & ->)|(_ & [(-> & _ & ->)|(-> & _ & HO' & HE)])].
  - split; [by left|]. split; [by apply Hless; [apply cancelled_sound|]|]. split; [apply calm_ob|]. intros _ id'. rewrite (cancelled_promised ss L a); [case_match; lia|done].
  - split; [by right|]. split; [by apply Hless; [apply granted_sound|]|]. split; [apply calm_granted|done].
  - split; [by left|]. destruct (enqueued_sound n _ _ _ _ _ _ _ _ HS HQ HY HO' HE) as [H1 H2]; [done|]. split; [done|]. split; [done|].
    intros _ id'. rewrite (enqueued_promised _ _ _ _ _ id' HQ HE); [|done]. simpl. case_match; lia.
Qed.

Lemma sp_terminate_calm n ss error_code : sound n ss -> 1 <= n ->
  sp (nghttp2_session_terminate_session realloc_ok malloc_ok new_stream new_item error_code) ss (fun rv ss' =>
    (rv = 0 \/ rv = NGHTTP2_ERR_NOMEM \/ rv = NGHTTP2_ERR_INVALID_ARGUMENT /\ nghttp2_session_is_my_stream_id ss (last_proc_stream_id ss) = true) /\
    sound (n - 1) ss' /\ calm ss ss' /\ (rv <> NGHTTP2_ERR_NOMEM -> forall id, promised ss' id = promised ss id)).
Proof using Hitem.
  intros HS Hn. unfold nghttp2_session_terminate_session. do 2 sp_step. pose proof HS as [(kids & lc & li & HO) (L & HQ & HY) Hsz HZ].
  eapply sp_mono; [refine (sp_terminate realloc_ok malloc_ok new_stream new_item Hitem ∅ ∅ ss kids lc li L _ error_code None HO HQ _); lia|].
  intros rv ss' HT. unfold terminate_result in HT. assert (forall ss0, sound n ss0 -> sound (n - 1) ss0) as Hless by (intros; eapply sound_less; [done|lia]).
  destruct (flag_set (goaway_flags ss) NGHTTP2_GOAWAY_TERM_ON_SEND); [destruct HT as [-> ->]; split; [by left|]; split; [by apply Hless|done]|].
  destruct HT as (ss1 & HG & ->). set (ign := ign_all_to true ss) in *.
  assert (only_notes ss ign) as HN by done. destruct (notes_sound n _ _ HN HS) as [HS0 HC0]. unfold goaway_result in HG.
  change (nghttp2_session_is_my_stream_id ign) with (nghttp2_session_is_my_stream_id ss) in HG.
  destruct (nghttp2_session_is_my_stream_id ss (last_proc_stream_id ss)) eqn:Em; simpl in HG.
  { destruct HG as [-> ->]. split; [by right; right|]. split; [by apply Hless|done]. }
  destruct HG as [(-> & _ & Hss)|(-> & HO1 & ss2 & -> & HE)].
  - split; [by right; left|]. assert (only_notes ss ss1) as HN1 by (by destruct Hss as [-> | ->]). destruct (notes_sound n _ _ HN1 HS). split; [by apply Hless|]. split; [done|]. by intros [].
  - split; [by left|]. change (data_copied [] ign) with ign in HE. 
    assert (sound (n - 1) ss2 /\ calm ign ss2) as [HS2 HC2].
    { eapply (enqueued_sound n ign L _ _ ss2 kids lc li HS0 HQ); [|by eapply aside_sess; [|exact HO1]|exact HE|done].
      apply (syn_ok_ext ss); [done|done|eauto]. }
    assert (only_notes ss2 (goaway_flagged NGHTTP2_GOAWAY_TERM_ON_SEND (goaway_flagged NGHTTP2_GOAWAY_SUBMITTED ss2))) as HN2 by done.
    destruct (notes_sound (n - 1) _ _ HN2 HS2) as [HS3 HC3]. split; [exact HS3|]. split; [etrans; [exact HC0|]; etrans; [exact HC2|exact HC3]|].
    intros _ id. change (promised ss2 id = promised ign id). rewrite (enqueued_promised ign L _ _ ss2 id HQ HE); [simpl; lia|done].
Qed.

(** It ran, and queued [c] frames at most, for one of the reasons [codes] if it failed. *)
Definition quiet_run (c : Z) n (codes : list Z) ss (rv : Z) ss' : Prop := (rv = 0 \/ rv ∈ codes) /\ sound (n - c) ss' /\ calm ss ss'.

Lemma quiet_sound (c : Z) n (n' : Z) codes ss rv ss' : sound n' ss' -> n - c <= n' -> calm ss ss' -> (rv = 0 \/ rv ∈ codes) -> quiet_run c n codes ss rv ss'.
Proof using. intros HS Hn HC Hrv. split; [done|]. split; [by eapply sound_less|done]. Qed.

Lemma sp_ping_calm n ss flags opaque_data : sound n ss -> 1 <= n ->
  sp (nghttp2_session_add_ping realloc_ok malloc_ok new_stream new_item flags opaque_data) ss (quiet_run 1 n [NGHTTP2_ERR_NOMEM; NGHTTP2_ERR_FLOODED] ss).
Proof using Hitem.
  intros HS Hn. pose proof HS as [(kids & lc & li & HO) (L & HQ & HY) Hsz HZ].
  eapply sp_mono; [refine (sp_add_ping realloc_ok malloc_ok new_stream new_item Hitem ∅ ∅ ss kids lc li L flags opaque_data HO HQ _); lia|].
  intros rv ss' HR. unfold ping_result in HR. case_match.
  { destruct HR as [-> ->]. apply (quiet_sound _ _ n); [done|lia|done|right; set_solver]. }
  destruct HR as [(-> & _ & ->)|(-> & _ & HO' & ss1 & HE & ->)].
  - apply (quiet_sound _ _ n); [by apply granted_sound|lia|apply calm_granted|right; set_solver].
  - assert (sess_ok ∅ ∅ ss1 kids lc li) as HO1.
    { eapply aside_sess; [|exact HO']. unfold counted_ack. by case_match. }
    destruct (enqueued_sound n _ _ _ _ _ _ _ _ HS HQ HY HO1 HE) as [H1 H2]; [done|].
    assert (only_notes ss1 (counted_ack flags ss1)) as HN by (unfold counted_ack; by case_match).
    destruct (notes_sound _ _ _ HN H1). apply (quiet_sound _ _ (n - 1)); [done|lia|by etrans|by left].
Qed.

Lemma sp_goaway_calm n ss last_stream_id error_code opaque_data aux_flags : sound n ss -> 1 <= n ->
  nghttp2_session_is_my_stream_id ss last_stream_id = false -> zlen opaque_data + 8 <= NGHTTP2_MAX_PAYLOADLEN ->
  sp (nghttp2_session_add_goaway realloc_ok malloc_ok new_stream new_item last_stream_id error_code opaque_data aux_flags) ss (quiet_run 1 n [NGHTTP2_ERR_NOMEM] ss).
Proof using Hitem.
  intros HS Hn Hmine Hlen. pose proof HS as [(kids & lc & li & HO) (L & HQ & HY) Hsz HZ].
  eapply sp_mono; [refine (sp_add_goaway realloc_ok malloc_ok new_stream new_item Hitem ∅ ∅ ss kids lc li L last_stream_id error_code opaque_data aux_flags HO HQ _); lia|].
  intros rv ss' HR. unfold goaway_result in HR. rewrite Hmine, (proj2 (Z.ltb_ge _ _) Hlen), andb_false_r in HR. simpl in HR.
  destruct HR as [(-> & _ & HR)|(-> & HO' & ss1 & -> & HE)].
  - assert (only_notes ss ss') as HN by (by destruct HR as [-> | ->]). destruct (notes_sound n _ _ HN HS).
    apply (quiet_sound _ _ n); [done|lia|done|right; set_solver].
  - set (ss0 := data_copied opaque_data ss) in *. assert (only_notes ss ss0) as HN0 by (unfold ss0, data_copied; by case_match).
    destruct (notes_sound n _ _ HN0 HS) as [HS0 HC0].
    assert (exists L0, ob_ok ss0 L0 /\ syn_ok ss0 L0 /\ L0 = L) as (L0 & HQ0 & HY0 & ->).
    { exists L. unfold ss0, data_copied. case_match; split_and!; try done; apply (syn_ok_ext ss); try done; eauto. }
    assert (sess_ok ∅ ∅ ss1 kids lc li) as HO1 by (by eapply aside_sess; [|exact HO']).
    destruct (enqueued_sound n ss0 L _ _ ss1 kids lc li HS0 HQ0 HY0 HO1 HE) as [H1 H2]; [done|].
    assert (only_notes ss1 (goaway_flagged NGHTTP2_GOAWAY_SUBMITTED ss1)) as HN1 by done. destruct (notes_sound _ _ _ HN1 H1) as [H3 H4].
    apply (quiet_sound _ _ (n - 1)); [exact H3|lia|etrans; [exact HC0|]; by etrans|by left].
Qed.

Lemma sp_terminate_reason n ss error_code reason : sound n ss -> 1 <= n -> nghttp2_session_is_my_stream_id ss (last_proc_stream_id ss) = false ->
  zlen (default [] reason) + 8 <= NGHTTP2_MAX_PAYLOADLEN ->
  sp (nghttp2_session_terminate_session_with_reason realloc_ok malloc_ok new_stream new_item error_code reason) ss (quiet_run 1 n [NGHTTP2_ERR_NOMEM] ss).
Proof using Hitem.
  intros HS Hn Hmine Hlen. unfold nghttp2_session_terminate_session_with_reason, session_terminate_session. do 4 sp_step. case_match.
  { sp_step. apply (quiet_sound _ _ n); [done|lia|done|by left]. }
  assert (only_notes ss (ign_all_to true ss)) as HN by done. destruct (notes_sound n _ _ HN HS) as [HS0 HC0]. do 3 sp_step.
  eapply sp_mono; [by apply (sp_goaway_calm n)|]. intros rv ss1 ([-> |Hrv] & H1 & H2); simpl.
  - do 2 sp_step. sp_step. assert (only_notes ss1 (goaway_flagged NGHTTP2_GOAWAY_TERM_ON_SEND ss1)) as HN1 by done. destruct (notes_sound _ _ _ HN1 H1) as [H3 H4].
    apply (quiet_sound _ _ (n - 1)); [exact H3|lia|etrans; [exact HC0|]; by etrans|by left].
  - apply list_elem_of_singleton in Hrv as ->. simpl. sp_step. apply (quiet_sound _ _ (n - 1)); [done|lia|by etrans|right; set_solver].
Qed.

Lemma sp_rst_quiet n ss id error_code : sound n ss -> 1 <= n ->
  sp (nghttp2_session_add_rst_stream realloc_ok malloc_ok new_stream new_item id error_code) ss (quiet_run 1 n [NGHTTP2_ERR_NOMEM] ss).
Proof using Hitem.
  intros HS Hn. eapply sp_mono; [by apply (sp_rst_stream_calm n)|]. intros rv ss' (Hrv & H1 & H2 & _). split; [|done]. destruct Hrv; [by left|right; set_solver].
Qed.

End Calm.
