(* ===== verification/SessionFlow.v ===== *)
(** * Sessions: flow control

    What the session notes about the windows of the connection and of its
    streams: data that arrives and that the application consumes, and the
    WINDOW_UPDATE frames that give the peer new credit.  Signed arithmetic
    that overflows is undefined ([se_undef]). *)

From S2P Require Import Prelude Defs Helper HdToken Frame Http Stream Outbound Session SessionSend.

Implicit Types (ss : nghttp2_session).

(** ** Cells of a window *)

Definition recv_window_size_to (v : Z) (f : stream_flow) : stream_flow :=
  mk_flow (remote_window_size f) (local_window_size f) v (consumed_size f) (recv_reduction f) (window_update_queued f).
Definition consumed_size_to (v : Z) (f : stream_flow) : stream_flow :=
  mk_flow (remote_window_size f) (local_window_size f) (recv_window_size f) v (recv_reduction f) (window_update_queued f).

(** Whose cells a function is given pointers to: the connection's, or those
    of the stream at an address. *)
Inductive window_of := OfConnection | OfStream (stream : Z).

Definition read_window (w : window_of) : se_m stream_flow :=
  match w with
  | OfConnection => let! ss := the_session in mret (se_flow ss)
  | OfStream a => let! s := load_stream a in mret (st_flow s)
  end.

Definition change_window (w : window_of) (f : stream_flow -> stream_flow) : se_m unit :=
  match w with
  | OfConnection => update (upd_window f)
  | OfStream a => modify_stream a (upd_flow f)
  end.

Definition defined {A} (o : option A) : se_m A := match o with Some a => mret a | None => se_undef end.

(** The cell at [recv_window_size_ptr] and the returned value. *)
Definition adjust_recv_window_size (recv_window_size delta local_window_size : Z) : option (Z * Z) :=
  limit ← i32 (local_window_size - to_int32 delta);
  if limit <? recv_window_size then Some (recv_window_size, -1)
  else
    room ← i32 (NGHTTP2_MAX_WINDOW_SIZE - to_int32 delta);
    if room <? recv_window_size then Some (recv_window_size, -1)
    else
      sum ← i32 (recv_window_size + to_int32 delta);
      Some (sum, 0).

Definition auto_window_update ss : bool := opt_flags ss .& NGHTTP2_OPTMASK_NO_AUTO_WINDOW_UPDATE =? 0.

Section Windows.

Variable realloc_ok : nat -> bool.
Variable malloc_ok : nat -> bool.
Variable new_stream : gmap Z nghttp2_stream -> Z.
Variable new_item : gmap Z nghttp2_outbound_item -> Z.

Abbreviation add_rst_stream := (nghttp2_session_add_rst_stream realloc_ok malloc_ok new_stream new_item).
Abbreviation add_window_update := (nghttp2_session_add_window_update realloc_ok malloc_ok new_stream new_item).
Abbreviation terminate_session := (nghttp2_session_terminate_session realloc_ok malloc_ok new_stream new_item).

(** ** Data that arrives *)

(** Credit for all that was received, with a WINDOW_UPDATE frame. *)
Definition credit_received (w : window_of) (stream_id : Z) : se_m Z :=
  let! f := read_window w in
  let! rv := add_window_update NGHTTP2_FLAG_NONE stream_id (recv_window_size f) in
  if negb (rv =? 0) then mret rv
  else change_window w (recv_window_size_to 0);; mret 0.

Definition nghttp2_session_update_recv_stream_window_size (stream delta_size : Z) (send_window_update : bool) : se_m Z :=
  let! s := load_stream stream in
  let! (recv, rv) := defined (adjust_recv_window_size (recv_window_size s) delta_size (local_window_size s)) in
  change_window (OfStream stream) (recv_window_size_to recv);;
  if negb (rv =? 0) then add_rst_stream (stream_id s) NGHTTP2_FLOW_CONTROL_ERROR
  else
    let! ss := the_session in
    if send_window_update && auto_window_update ss && (window_update_queued s =? 0) && nghttp2_should_send_window_update (local_window_size s) recv
    then credit_received (OfStream stream) (stream_id s)
    else mret 0.

Definition nghttp2_session_update_recv_connection_window_size (delta_size : Z) : se_m Z :=
  let! ss := the_session in
  let! (recv, rv) := defined (adjust_recv_window_size (recv_window_size ss) delta_size (local_window_size ss)) in
  change_window OfConnection (recv_window_size_to recv);;
  if negb (rv =? 0) then terminate_session NGHTTP2_FLOW_CONTROL_ERROR
  else if auto_window_update ss && (window_update_queued ss =? 0) && nghttp2_should_send_window_update (local_window_size ss) recv
  then credit_received OfConnection 0
  else mret 0.

(** ** Data that the application has consumed *)

Definition session_update_consumed_size (w : window_of) (window_update_queued stream_id delta_size local_window_size : Z) : se_m Z :=
  let! f := read_window w in
  if u64 (NGHTTP2_MAX_WINDOW_SIZE - delta_size) <? u64 (consumed_size f) then terminate_session NGHTTP2_FLOW_CONTROL_ERROR
  else
    let! consumed := defined (i32 (consumed_size f + to_int32 delta_size)) in
    change_window w (consumed_size_to consumed);;
    if window_update_queued =? 0 then
      let recv_size := nghttp2_min consumed (recv_window_size f) in
      if nghttp2_should_send_window_update local_window_size recv_size then
        let! rv := add_window_update NGHTTP2_FLAG_NONE stream_id recv_size in
        if negb (rv =? 0) then mret rv
        else
          let! recv := defined (i32 (recv_window_size f - recv_size)) in
          let! consumed := defined (i32 (consumed - recv_size)) in
          change_window w (recv_window_size_to recv);;
          change_window w (consumed_size_to consumed);;
          mret 0
      else mret 0
    else mret 0.

Definition session_update_stream_consumed_size (stream delta_size : Z) : se_m Z :=
  let! s := load_stream stream in
  session_update_consumed_size (OfStream stream) (window_update_queued s) (stream_id s) delta_size (local_window_size s).

Definition session_update_connection_consumed_size (delta_size : Z) : se_m Z :=
  let! ss := the_session in
  session_update_consumed_size OfConnection (window_update_queued ss) 0 delta_size (local_window_size ss).

(** [if (nghttp2_is_fatal(rv)) return rv; return 0;] *)
Definition fatal_only (rv : Z) : Z := if nghttp2_is_fatal rv then rv else 0.

Definition consume_on_stream (stream_id size : Z) : se_m Z :=
  let! stream := nghttp2_session_get_stream stream_id in
  match stream with
  | None => mret 0
  | Some a => let! rv := session_update_stream_consumed_size a size in mret (fatal_only rv)
  end.

Definition nghttp2_session_consume (stream_id size : Z) : se_m Z :=
  let! ss := the_session in
  if stream_id =? 0 then mret NGHTTP2_ERR_INVALID_ARGUMENT
  else if auto_window_update ss then mret NGHTTP2_ERR_INVALID_STATE
  else
    let! rv := session_update_connection_consumed_size size in
    if nghttp2_is_fatal rv then mret rv
    else consume_on_stream stream_id size.

Definition nghttp2_session_consume_connection (size : Z) : se_m Z :=
  let! ss := the_session in
  if auto_window_update ss then mret NGHTTP2_ERR_INVALID_STATE
  else let! rv := session_update_connection_consumed_size size in mret (fatal_only rv).

Definition nghttp2_session_consume_stream (stream_id size : Z) : se_m Z :=
  let! ss := the_session in
  if stream_id =? 0 then mret NGHTTP2_ERR_INVALID_ARGUMENT
  else if auto_window_update ss then mret NGHTTP2_ERR_INVALID_STATE
  else consume_on_stream stream_id size.

(** ** What the application changes *)

Definition window_cells_of (f : stream_flow) (delta : Z) : window_cells :=
  mk_window (local_window_size f) (recv_window_size f) (recv_reduction f) delta.

(** The cells are written back through the pointers; the value is the rest of
    the change and the code that was returned. *)
Definition through_pointers (w : window_of) (m : stream_flow -> option (window_cells * Z)) : se_m (Z * Z) :=
  let! f := read_window w in
  let! (c, rv) := defined (m f) in
  change_window w (fun f => mk_flow (remote_window_size f) (Helper.local_window_size c) (Helper.recv_window_size c) (consumed_size f)
    (Helper.recv_reduction c) (window_update_queued f));;
  mret (delta_size c, rv).

Definition adjust_local (w : window_of) (delta : Z) : se_m (Z * Z) :=
  through_pointers w (fun f => nghttp2_adjust_local_window_size (window_cells_of f delta)).

Definition increase_local (w : window_of) (delta : Z) : se_m (Z * Z) :=
  through_pointers w (fun f => nghttp2_increase_local_window_size (window_cells_of f delta)).

(** The connection or the stream that an id names; [None] is a stream that is not there. *)
Definition window_named (stream_id : Z) : se_m (option window_of) :=
  if stream_id =? 0 then mret (Some OfConnection)
  else
    let! stream := nghttp2_session_get_stream stream_id in
    mret (OfStream <$> stream).

Definition nghttp2_submit_window_update (flags stream_id window_size_increment : Z) : se_m Z :=
  if window_size_increment =? 0 then mret 0
  else
    let! found := window_named stream_id in
    match found with
    | None => mret 0
    | Some w =>
        let! (window_size_increment, rv) := adjust_local w window_size_increment in
        if negb (rv =? 0) then mret rv
        else if 0 <? window_size_increment then
          let! f := read_window w in
          let! remaining := defined (i32 (consumed_size f - window_size_increment)) in
          change_window w (consumed_size_to (nghttp2_max 0 remaining));;
          add_window_update 0 stream_id window_size_increment
        else mret 0
    end.

(** The last step, for data that was received before the window was opened. *)
Definition update_received (w : window_of) : se_m Z :=
  match w with
  | OfConnection => nghttp2_session_update_recv_connection_window_size 0
  | OfStream a => nghttp2_session_update_recv_stream_window_size a 0 true
  end.

Definition nghttp2_session_set_local_window_size (flags stream_id window_size : Z) : se_m Z :=
  if window_size <? 0 then mret NGHTTP2_ERR_INVALID_ARGUMENT
  else
    let! found := window_named stream_id in
    match found with
    | None => mret 0
    | Some w =>
        let! f := read_window w in
        let! increment := defined (i32 (window_size - local_window_size f)) in
        if increment =? 0 then mret 0
        else if increment <? 0 then let! (_, rv) := adjust_local w increment in mret rv
        else
          let! (increment, rv) := increase_local w increment in
          if negb (rv =? 0) then mret rv
          else if 0 <? increment then add_window_update 0 stream_id increment
          else update_received w
    end.

(** ** Questions *)

Definition of_stream (stream_id : Z) (f : nghttp2_stream -> option Z) : se_m Z :=
  let! stream := nghttp2_session_get_stream stream_id in
  match stream with
  | None => mret (-1)
  | Some a => let! s := load_stream a in defined (f s)
  end.

Definition nghttp2_session_get_stream_effective_recv_data_length (stream_id : Z) : se_m Z :=
  of_stream stream_id (fun s => Some (if recv_window_size s <? 0 then 0 else recv_window_size s)).

Definition nghttp2_session_get_stream_effective_local_window_size (stream_id : Z) : se_m Z :=
  of_stream stream_id (fun s => Some (local_window_size s)).

Definition nghttp2_session_get_stream_local_window_size (stream_id : Z) : se_m Z :=
  of_stream stream_id (fun s => size ← i32 (local_window_size s - recv_window_size s); Some (if size <? 0 then 0 else size)).

Definition nghttp2_session_get_stream_remote_window_size (stream_id : Z) : se_m Z :=
  of_stream stream_id (fun s => Some (nghttp2_max 0 (remote_window_size s))).

Definition nghttp2_session_get_effective_recv_data_length ss : Z := if recv_window_size ss <? 0 then 0 else recv_window_size ss.
Definition nghttp2_session_get_effective_local_window_size ss : Z := local_window_size ss.
Definition nghttp2_session_get_local_window_size ss : option Z := i32 (local_window_size ss - recv_window_size ss).
Definition nghttp2_session_get_remote_window_size ss : Z := remote_window_size ss.

End Windows.
