(* ===== verification/SessionFlowSpec.v ===== *)
(** * Sessions: flow control keeps its accounts

    Windows stay in the range of their types, whatever data arrives, is
    consumed, or is given credit by the application; and the credit that the
    peer has is what was announced to it less what it sent. *)

From S2P Require Import Prelude Defs Helper HdToken Pq Frame FrameHeaders Http Stream StreamLinks StreamQueue StreamTree StreamItems StreamFrame.
From S2P Require Import Outbound Session SessionInv SessionTree SessionBooks SessionForest SessionOpen SessionClose SessionItems SessionNew SessionReach SessionSpec SessionTouch SessionSend SessionQueues SessionAdd SessionSendSpec SessionCalm SessionFlow.

Implicit Types (a id n : Z) (s : nghttp2_stream) (ss : nghttp2_session) (f : stream_flow) (w : window_of) (L : ob_queue -> list Z).

(** ** The windows *)

Record flow_ok f : Prop := {
  fk_remote : is_i32 (remote_window_size f);
  fk_local : 0 <= local_window_size f;
  fk_recv : INT32_MIN <= recv_window_size f <= local_window_size f;
  fk_reduction : 0 <= recv_reduction f;
  fk_most : local_window_size f <= NGHTTP2_MAX_WINDOW_SIZE /\ recv_reduction f <= NGHTTP2_MAX_WINDOW_SIZE;
  fk_consumed : 0 <= consumed_size f <= NGHTTP2_MAX_WINDOW_SIZE;
}.

(** The octets that the peer may still send. *)
Definition credit f : Z := local_window_size f - recv_window_size f.

Definition flows_ok ss : Prop := flow_ok ss /\ forall a s, se_streams ss !! a = Some s -> flow_ok s.

Lemma marked_ok f f' : marked f f' -> flow_ok f -> flow_ok f'.
Proof. intros [-> | ->]; [done|]. by intros []. Qed.

Lemma calm_flows ss ss' : calm ss ss' -> flows_ok ss -> flows_ok ss'.
Proof.
  intros HC [H1 H2]. split; [by eapply marked_ok; [apply HC|]|]. intros a s' Ha. destruct (proj1 (cm_dom _ _ HC a) ltac:(eauto)) as [s Hs].
  destruct (cm_streams _ _ HC a s Hs) as (s1 & Hs1 & _ & _ & _ & HM & _). simplify_eq. eapply marked_ok; [exact HM|by eapply H2].
Qed.

Ltac flow_lia := unfold NGHTTP2_MAX_WINDOW_SIZE, is_i32, INT32_MIN, INT32_MAX in *; lia.

Lemma to_int32_id n : 0 <= n <= INT32_MAX -> to_int32 n = n.
Proof. intros H. unfold to_int32. rewrite u32_id by (unfold is_u32; flow_lia). by rewrite (proj2 (Z.leb_le _ _)) by lia. Qed.

Lemma adjust_recv_spec f n : flow_ok f -> 0 <= n < 2 ^ 24 ->
  adjust_recv_window_size (recv_window_size f) n (local_window_size f) =
    Some (if credit f <? n then (recv_window_size f, -1) else (recv_window_size f + n, 0)).
Proof.
  intros [H1 H2 H3 H4 H5 H6] Hn. unfold adjust_recv_window_size, credit. rewrite to_int32_id by flow_lia.
  rewrite (i32_Some (local_window_size f - n)) by flow_lia. simpl.
  destruct (Z.ltb_spec (local_window_size f - n) (recv_window_size f)), (Z.ltb_spec (local_window_size f - recv_window_size f) n); try lia; [done|].
  rewrite (i32_Some (NGHTTP2_MAX_WINDOW_SIZE - n)) by flow_lia. simpl.
  rewrite (proj2 (Z.ltb_ge _ _)) by flow_lia. by rewrite (i32_Some (recv_window_size f + n)) by flow_lia.
Qed.

(** What a function leaves in the cells it has pointers to. *)
Definition written (c : window_cells) f : stream_flow :=
  mk_flow (remote_window_size f) (Helper.local_window_size c) (Helper.recv_window_size c) (consumed_size f) (Helper.recv_reduction c) (window_update_queued f).

Definition cells_result f n (r : option (window_cells * Z)) : Prop := exists c rv, r = Some (c, rv) /\ (rv = 0 \/ rv = NGHTTP2_ERR_FLOW_CONTROL) /\
  flow_ok (written c f) /\ (rv <> 0 -> written c f = f) /\ (rv = 0 -> 0 <= delta_size c <= INT32_MAX /\ credit (written c f) = credit f + delta_size c /\ (n < 0 -> delta_size c = 0)).

Lemma cells_of_flow f : flow_ok f -> exists r l v d c q, f = mk_flow r l v c d q.
Proof. destruct f. eauto 10. Qed.

Ltac cells_solve :=
  unfold nghttp2_max, nghttp2_min, NGHTTP2_MAX_WINDOW_SIZE in *;
  repeat first [i32_step | bcase; cbn [mbind option_bind]];
  eexists _, _; (split; [reflexivity|]); unfold written, credit; simpl;
  (split; [first [by left|by right]|]); (split; [split; simpl; flow_lia|]); (split; [done|]); intros; try done; flow_lia.

Lemma adjust_cells f n : flow_ok f -> is_i32 n -> cells_result f n (nghttp2_adjust_local_window_size (window_cells_of f n)).
Proof.
  intros HF Hn. destruct f as [r l v c d q], HF as [H1 H2 H3 H4 H5 H6]. simpl in *. unfold cells_result, window_cells_of, nghttp2_adjust_local_window_size. simpl.
  cells_solve.
Qed.

Lemma increase_cells f n : flow_ok f -> 0 <= n <= INT32_MAX -> cells_result f n (nghttp2_increase_local_window_size (window_cells_of f n)).
Proof.
  intros HF Hn. destruct f as [r l v c d q], HF as [H1 H2 H3 H4 H5 H6]. simpl in *. unfold cells_result, window_cells_of, nghttp2_increase_local_window_size. simpl.
  rewrite (proj2 (Z.ltb_ge n 0)) by lia. cells_solve.
Qed.

(** ** The windows of a session *)

Definition flow_at w ss : option stream_flow := match w with OfConnection => Some (se_flow ss) | OfStream a => st_flow <$> se_streams ss !! a end.

Definition changed w (g : stream_flow -> stream_flow) ss : nghttp2_session :=
  match w with OfConnection => upd_window g ss | OfStream a => streams_to (alter (upd_flow g) a (se_streams ss)) ss end.

Lemma sp_read_window w ss f (Q : stream_flow -> nghttp2_session -> Prop) : flow_at w ss = Some f -> Q f ss -> sp (read_window w) ss Q.
Proof.
  intros Hf HQ. destruct w as [|a]; simpl in *; [do 2 sp_step; sp_step; congruence|]. destruct (se_streams ss !! a) as [s|] eqn:Ea; [|done].
  do 2 sp_step. sp_step. simpl in Hf. congruence.
Qed.

Lemma sp_change_window w g ss f (Q : unit -> nghttp2_session -> Prop) : flow_at w ss = Some f -> Q tt (changed w g ss) -> sp (change_window w g) ss Q.
Proof.
  intros Hf HQ. destruct w as [|a]; simpl in *; [by sp_step|]. destruct (se_streams ss !! a) as [s|] eqn:Ea; [|done]. apply sp_alter; [by rewrite Ea|done].
Qed.

Lemma changed_at w g ss f : flow_at w ss = Some f -> flow_at w (changed w g ss) = Some (g f).
Proof.
  intros Hf. destruct w as [|a]; simpl in *; [congruence|]. rewrite se_streams_to, lookup_alter_eq. destruct (se_streams ss !! a); [|done]. simpl in *. congruence.
Qed.

Lemma changed_sound n w g ss f : flow_at w ss = Some f -> sound n ss -> sound n (changed w g ss).
Proof.
  intros Hf [(kids & lc & li & HO) (L & HQ & HY) HR HZ]. destruct w as [|a]; simpl in *.
  - split; [exists kids, lc, li; by eapply aside_sess; [|exact HO]| |done|done]. exists L. split; [done|]. apply (syn_ok_ext ss); [done|done|eauto].
  - destruct (se_streams ss !! a) as [s|] eqn:Ea; [|done].
    assert (alter (upd_flow g) a (se_streams ss) = <[a := upd_flow g s]> (se_streams ss)) as ->.
    { apply map_eq. intros c. rewrite lookup_insert, lookup_alter. repeat case_decide; subst; try done. by rewrite Ea. }
    split; [exists kids, lc, li; eapply gently_sess; [exact HO|exact Ea|apply gently_flow]| |done|done].
    exists L. split; [done|]. apply (syn_ok_ext ss); [done|done|eauto].
Qed.

Lemma changed_flows w g ss f : flow_at w ss = Some f -> flows_ok ss -> flow_ok (g f) -> flows_ok (changed w g ss).
Proof.
  intros Hf [H1 H2] Hg. destruct w as [|a]; simpl in *; [split; [by simplify_eq|done]|]. split; [done|]. intros c t. rewrite se_streams_to.
  destruct (decide (c = a)) as [->|Hne]; [|rewrite lookup_alter_ne by done; by apply H2]. rewrite lookup_alter_eq. intros E.
  destruct (se_streams ss !! a) as [s|]; [|done]. simpl in *. by simplify_eq.
Qed.

Lemma flows_at w ss f : flows_ok ss -> flow_at w ss = Some f -> flow_ok f.
Proof.
  intros [H1 H2] Hf. destruct w as [|a]; simpl in Hf; [by simplify_eq|]. destruct (se_streams ss !! a) as [s|] eqn:Ea; [|done]. simplify_eq/=. by apply (H2 a).
Qed.

Lemma calm_at w ss ss' f : calm ss ss' -> flow_at w ss = Some f -> exists f', flow_at w ss' = Some f' /\ marked f f'.
Proof.
  intros HC Hf. destruct w as [|a]; simpl in *; [simplify_eq; eexists; split; [done|apply HC]|].
  destruct (se_streams ss !! a) as [s|] eqn:Ea; [|done]. simplify_eq/=. destruct (cm_streams _ _ HC a s Ea) as (s' & -> & _ & _ & _ & HM & _). by exists s'.
Qed.

Lemma sp_defined {A} (o : option A) (x : A) ss (Q : A -> nghttp2_session -> Prop) : o = Some x -> Q x ss -> sp (defined o) ss Q.
Proof. by intros -> ?. Qed.

(** ** Accounts *)

#[global] Instance window_of_eq_dec : EqDecision window_of.
Proof. solve_decision. Defined.

(** The window of the connection or of a stream (not of the root of the tree), with its id. *)
Definition account w ss : option (stream_flow * Z) :=
  match w with
  | OfConnection => Some (se_flow ss, 0)
  | OfStream a => if a =? root then None else (fun s => (st_flow s, stream_id s)) <$> se_streams ss !! a
  end.

(** The credit of the peer, as far as it has been told. *)
Definition balance w ss : option Z := '(f, id) ← account w ss; Some (credit f - promised ss id).

(** The balances fell by [t]. *)
Definition ledger ss ss' (t : window_of -> Z) : Prop := forall w b, balance w ss = Some b -> balance w ss' = Some (b - t w).

Definition only_at w0 k w : Z := if decide (w = w0) then k else 0.

Lemma account_flow w ss f id : account w ss = Some (f, id) -> flow_at w ss = Some f.
Proof. destruct w as [|a]; simpl; [by intros [= <- <-]|]. destruct (a =? root); [done|]. destruct (se_streams ss !! a); [|done]. by intros [= <- <-]. Qed.

Lemma account_unique n ss w1 w2 f1 f2 id : sound n ss -> account w1 ss = Some (f1, id) -> account w2 ss = Some (f2, id) -> w2 = w1.
Proof.
  intros [(kids & lc & li & HO) _ _ HZ] H1 H2. pose proof (bk_table _ _ _ _ (so_books _ _ _ _ _ _ HO)) as [HM _].
  assert (forall a f, account (OfStream a) ss = Some (f, id) -> stream_map ss !! id = Some a) as Ha.
  { intros a f. simpl. destruct (Z.eqb_spec a root); [done|]. destruct (se_streams ss !! a) as [s|] eqn:Es; [|done]. intros [= _ <-].
    apply HM. split; [done|]. exists (card_of s). split; [by apply cards_lookup|done]. }
  destruct w1 as [|a1], w2 as [|a2]; [done| | |].
  - injection H1 as _ <-. apply Ha in H2. congruence.
  - injection H2 as _ <-. apply Ha in H1. congruence.
  - apply Ha in H1, H2. congruence.
Qed.

Lemma ledger_refl ss : ledger ss ss (fun _ => 0).
Proof. intros w b Hb. by rewrite Z.sub_0_r. Qed.

Lemma ledger_trans ss1 ss2 ss3 t1 t2 t : ledger ss1 ss2 t1 -> ledger ss2 ss3 t2 -> (forall w, t w = t1 w + t2 w) -> ledger ss1 ss3 t.
Proof. intros H1 H2 Ht w b Hb. rewrite (H2 w (b - t1 w)) by (by apply H1). f_equal. rewrite Ht. lia. Qed.

Lemma changed_account w g ss f id w' : account w ss = Some (f, id) ->
  account w' (changed w g ss) = if decide (w' = w) then Some (g f, id) else account w' ss.
Proof.
  intros Hf. destruct w as [|a], w' as [|a']; cbn [account changed] in *.
  - rewrite decide_True by done. by simplify_eq.
  - by rewrite decide_False.
  - by rewrite decide_False.
  - rewrite se_streams_to. destruct (decide (a' = a)) as [->|Hne].
    + rewrite decide_True by done. destruct (a =? root); [done|]. rewrite lookup_alter_eq. destruct (se_streams ss !! a); [|done]. simpl in *. by simplify_eq.
    + rewrite decide_False by congruence. by rewrite lookup_alter_ne.
Qed.

Lemma changed_ledger w g ss f id d : account w ss = Some (f, id) -> credit (g f) = credit f + d -> ledger ss (changed w g ss) (only_at w (- d)).
Proof.
  intros Hf Hd w' b. unfold balance, only_at. rewrite (changed_account _ _ _ _ _ _ Hf). assert (se_ob (changed w g ss) = se_ob ss) as -> by (by destruct w).
  destruct (decide (w' = w)) as [->|Hne]; [rewrite Hf; simpl; intros [= <-]; f_equal; lia|]. destruct (account w' ss) as [[f' id']|]; [|done]. simpl.
  intros [= <-]. f_equal. lia.
Qed.

Lemma marked_credit f f' : marked f f' -> credit f' = credit f.
Proof. by intros [-> | ->]. Qed.

Lemma calm_account w ss ss' f id : calm ss ss' -> account w ss = Some (f, id) -> exists f', account w ss' = Some (f', id) /\ marked f f'.
Proof.
  intros HC Hf. destruct w as [|a]; simpl in *; [simplify_eq; eexists; split; [done|apply HC]|]. destruct (a =? root); [done|].
  destruct (se_streams ss !! a) as [s|] eqn:Ea; [|done]. simplify_eq/=. destruct (cm_streams _ _ HC a s Ea) as (s' & -> & HG & _ & _ & HM & _).
  exists s'. simpl. by rewrite (ge_id _ _ HG).
Qed.

Lemma calm_ledger n ss ss' w f id inc : sound n ss -> calm ss ss' -> account w ss = Some (f, id) ->
  (forall id', promised ss' id' = promised ss id' + (if id =? id' then inc else 0)) -> ledger ss ss' (only_at w inc).
Proof.
  intros HS HC Hw Hp w' b. unfold balance, only_at. destruct (account w' ss) as [[f' id']|] eqn:E'; [|done]. simpl. intros [= <-].
  destruct (calm_account _ _ _ _ _ HC E') as (f1 & -> & HM). simpl. rewrite (marked_credit _ _ HM), Hp. f_equal.
  destruct (Z.eqb_spec id id') as [<-|Hne].
  - rewrite decide_True; [lia|]. by eapply account_unique.
  - rewrite decide_False; [lia|]. intros ->. congruence.
Qed.

Lemma calm_ledger_zero ss ss' : calm ss ss' -> (forall id, promised ss' id = promised ss id) -> ledger ss ss' (fun _ => 0).
Proof.
  intros HC Hp w b. unfold balance. destruct (account w ss) as [[f id]|] eqn:E; [|done]. simpl. intros [= <-].
  destruct (calm_account _ _ _ _ _ HC E) as (f1 & -> & HM). simpl. rewrite (marked_credit _ _ HM), Hp. f_equal. lia.
Qed.

Section FlowRuns.
Context (realloc_ok malloc_ok : nat -> bool) (new_stream : gmap Z nghttp2_stream -> Z) (new_item : gmap Z nghttp2_outbound_item -> Z).
Context (Hitem : forall m, m !! new_item m = None).

(** It ran: [n] more frames can be queued, the windows are in range, and
    unless it failed for good the balances fell by [t]. *)
Record flow_run n (t : window_of -> Z) ss (rv : Z) ss' : Prop := {
  fr_sound : sound n ss';
  fr_flows : flows_ok ss';
  fr_conf : se_conf ss' = se_conf ss;
  fr_ledger : nghttp2_is_fatal rv = false -> ledger ss ss' t;
}.

Definition still (w : window_of) : Z := 0.

Lemma flow_run_less n m t t' ss rv ss' : flow_run n t ss rv ss' -> m <= n -> (forall w, t' w = t w) -> flow_run m t' ss rv ss'.
Proof using.
  intros [H1 H2 H3 H4] Hm Ht. split; [by eapply sound_less|done|done|]. intros Hrv w b Hb. rewrite Ht. by apply H4.
Qed.

Lemma flow_run_trans n t1 t2 t ss ss1 rv ss' : flow_run n t2 ss1 rv ss' -> se_conf ss1 = se_conf ss -> ledger ss ss1 t1 -> (forall w, t w = t1 w + t2 w) ->
  flow_run n t ss rv ss'.
Proof using. intros [H1 H2 H3 H4] HE HL Ht. split; [done|done|congruence|]. intros Hrv. eapply ledger_trans; [exact HL|by apply H4|done]. Qed.

Lemma flow_via m n t1 t2 t ss ss1 : sp m ss1 (flow_run n t2 ss1) -> se_conf ss1 = se_conf ss -> ledger ss ss1 t1 ->
  (forall w, t w = t1 w + t2 w) -> sp m ss1 (flow_run n t ss).
Proof using. intros H HE HL Ht. eapply sp_mono; [exact H|]. intros rv ss' HR. exact (flow_run_trans n t1 t2 t ss ss1 rv ss' HR HE HL Ht). Qed.

Lemma flow_run_here n t ss ss1 rv : sound n ss1 -> flows_ok ss1 -> se_conf ss1 = se_conf ss -> ledger ss ss1 t -> flow_run (n - 1) t ss rv ss1.
Proof using. intros HS HF HE HL. split; [eapply sound_less; [exact HS|lia]|done|done|done]. Qed.

Lemma flow_run_stay n ss rv : sound n ss -> flows_ok ss -> flow_run (n - 1) still ss rv ss.
Proof using. intros HS HF. apply (flow_run_here n); [done|done|done|apply ledger_refl]. Qed.

Lemma changed_conf w g ss : se_conf (changed w g ss) = se_conf ss.
Proof using. by destruct w. Qed.

(** A WINDOW_UPDATE frame for the window [w]. *)
Lemma sp_update_run n flags w f id inc ss : sound n ss -> 1 <= n -> flows_ok ss -> account w ss = Some (f, id) ->
  sp (nghttp2_session_add_window_update realloc_ok malloc_ok new_stream new_item flags id inc) ss (fun rv ss' =>
    (rv = 0 \/ rv = NGHTTP2_ERR_NOMEM) /\ flow_run (n - 1) (only_at w inc) ss rv ss' /\ exists f', account w ss' = Some (f', id) /\ marked f f').
Proof using Hitem.
  intros HS Hn HF Hw. eapply sp_mono; [by apply (sp_window_update_calm _ _ _ _ Hitem n)|]. intros rv ss' (Hrv & HS' & HC & Hp).
  split; [done|]. split; [|by eapply calm_account]. split; [done|by eapply calm_flows|apply HC|]. intros Hf. eapply calm_ledger; [exact HS|done|done|].
  apply Hp. by destruct Hrv as [-> | ->].
Qed.

Lemma sp_rst_run n ss id error_code : sound n ss -> 1 <= n -> flows_ok ss ->
  sp (nghttp2_session_add_rst_stream realloc_ok malloc_ok new_stream new_item id error_code) ss (flow_run (n - 1) still ss).
Proof using Hitem.
  intros HS Hn HF. eapply sp_mono; [by apply (sp_rst_stream_calm _ _ _ _ Hitem n)|]. intros rv ss' (Hrv & HS' & HC & Hp).
  split; [done|by eapply calm_flows|apply HC|]. intros Hf. apply calm_ledger_zero; [done|]. intros id'. rewrite Hp by (by destruct Hrv as [-> | ->]). case_match; lia.
Qed.

Lemma sp_terminate_run n ss error_code : sound n ss -> 1 <= n -> flows_ok ss ->
  sp (nghttp2_session_terminate_session realloc_ok malloc_ok new_stream new_item error_code) ss (flow_run (n - 1) still ss).
Proof using Hitem.
  intros HS Hn HF. eapply sp_mono; [by apply (sp_terminate_calm _ _ _ _ Hitem n)|]. intros rv ss' (_ & HS' & HC & Hp).
  split; [done|by eapply calm_flows|apply HC|]. intros Hf. apply calm_ledger_zero; [done|]. apply Hp. by intros ->.
Qed.

Lemma sp_credit_received n w id ss f : sound n ss -> 1 <= n -> flows_ok ss -> account w ss = Some (f, id) ->
  sp (credit_received realloc_ok malloc_ok new_stream new_item w id) ss (flow_run (n - 1) still ss).
Proof using Hitem.
  intros HS Hn HF Hw. pose proof (account_flow _ _ _ _ Hw) as Hf. unfold credit_received. sp_step. eapply sp_read_window; [exact Hf|]. sp_step.
  eapply sp_mono; [by eapply sp_update_run|]. intros rv ss1 (Hrv & HR & f1 & Hw1 & HM). destruct Hrv as [-> | ->]; simpl; [|sp_step; by destruct HR].
  pose proof (account_flow _ _ _ _ Hw1) as Hf1. sp_step. eapply sp_change_window; [exact Hf1|]. sp_step. pose proof HR as [HS1 HF1 HE1 HL1].
  split; [by eapply changed_sound| |by rewrite changed_conf|].
  - eapply changed_flows; [exact Hf1|done|]. destruct (flows_at _ _ _ HF1 Hf1) as [H1 H2 H3 H4 H5 H6]. split; simpl; try done; flow_lia.
  - intros _. eapply ledger_trans; [by apply HL1|apply (changed_ledger _ _ _ _ _ (recv_window_size f) Hw1)|].
    + destruct HM as [-> | ->]; unfold credit; simpl; lia.
    + intros w'. unfold still, only_at. case_decide; lia.
Qed.

(** The step that takes the data in, in the connection's window or a stream's. *)
Lemma received_flows n w ss f id k : flows_ok ss -> account w ss = Some (f, id) -> 0 <= k < 2 ^ 24 -> sound n ss ->
  let recv := if credit f <? k then recv_window_size f else recv_window_size f + k in
  let ss1 := changed w (recv_window_size_to recv) ss in
  sound n ss1 /\ flows_ok ss1 /\ account w ss1 = Some (recv_window_size_to recv f, id) /\ se_conf ss1 = se_conf ss /\
  ledger ss ss1 (only_at w (if credit f <? k then 0 else k)).
Proof using.
  intros HF Hw Hk HS. pose proof (account_flow _ _ _ _ Hw) as Hf. cbv zeta. split_and!.
  - by eapply changed_sound.
  - eapply changed_flows; [exact Hf|done|].
    destruct (flows_at _ _ _ HF Hf) as [H1 H2 H3 H4 H5 H6]. unfold credit. split; simpl; try done; bcase; flow_lia.
  - rewrite (changed_account _ _ _ _ _ _ Hw). by rewrite decide_True.
  - apply changed_conf.
  - set (r := if credit f <? k then recv_window_size f else recv_window_size f + k). assert ((if credit f <? k then 0 else k) = - - (r - recv_window_size f)) as -> by (unfold r; case_match; lia).
    apply (changed_ledger _ _ _ f id); [done|]. unfold credit. simpl. lia.
Qed.

Definition taken w0 k ss w : Z := match flow_at w0 ss with Some f => if credit f <? k then 0 else only_at w0 k w | None => 0 end.

Lemma sp_data_on_stream n a k last ss : sound n ss -> 1 <= n -> flows_ok ss -> a <> root -> is_Some (se_streams ss !! a) -> 0 <= k < 2 ^ 24 ->
  sp (nghttp2_session_update_recv_stream_window_size realloc_ok malloc_ok new_stream new_item a k last) ss (flow_run (n - 1) (taken (OfStream a) k ss) ss).
Proof using Hitem.
  intros HS Hn HF Har [s Ha] Hk. unfold nghttp2_session_update_recv_stream_window_size. do 2 sp_step.
  assert (account (OfStream a) ss = Some (st_flow s, stream_id s)) as Hw by (simpl; by rewrite (proj2 (Z.eqb_neq a root) Har), Ha).
  pose proof (account_flow _ _ _ _ Hw) as Hf. unfold taken. rewrite Hf.
  destruct (received_flows n _ _ _ _ k HF Hw Hk HS) as (HS1 & HF1 & Hw1 & HE1 & HL1). sp_step.
  eapply sp_defined; [exact (adjust_recv_spec _ k (flows_at _ _ _ HF Hf) Hk)|].
  destruct (credit s <? k); sp_step; (eapply sp_change_window; [exact Hf|]); simpl negb; cbn iota.
  - eapply flow_via; [by apply sp_rst_run|exact HE1|exact HL1|]. intros w. unfold still, only_at. case_decide; lia.
  - do 2 sp_step. case_match; [|sp_step; by apply (flow_run_here n)].
    eapply flow_via; [by eapply sp_credit_received|exact HE1|exact HL1|]. intros w. unfold still. lia.
Qed.

Lemma sp_data_on_connection n k ss : sound n ss -> 1 <= n -> flows_ok ss -> 0 <= k < 2 ^ 24 ->
  sp (nghttp2_session_update_recv_connection_window_size realloc_ok malloc_ok new_stream new_item k) ss (flow_run (n - 1) (taken OfConnection k ss) ss).
Proof using Hitem.
  intros HS Hn HF Hk. unfold nghttp2_session_update_recv_connection_window_size. do 2 sp_step.
  assert (account OfConnection ss = Some (se_flow ss, 0)) as Hw by done. pose proof (account_flow _ _ _ _ Hw) as Hf. unfold taken. rewrite Hf.
  destruct (received_flows n _ _ _ _ k HF Hw Hk HS) as (HS1 & HF1 & Hw1 & HE1 & HL1). sp_step.
  eapply sp_defined; [exact (adjust_recv_spec _ k (flows_at _ _ _ HF Hf) Hk)|].
  destruct (credit (se_flow ss) <? k); sp_step; (eapply sp_change_window; [exact Hf|]); simpl negb; cbn iota.
  - eapply flow_via; [by apply sp_terminate_run|exact HE1|exact HL1|]. intros w. unfold still, only_at. case_decide; lia.
  - case_match; [|sp_step; by apply (flow_run_here n)].
    eapply flow_via; [by eapply sp_credit_received|exact HE1|exact HL1|]. intros w. unfold still. lia.
Qed.

Lemma sp_consumed n w q id k ss f : sound n ss -> 1 <= n -> flows_ok ss -> account w ss = Some (f, id) -> 0 <= k <= NGHTTP2_MAX_WINDOW_SIZE ->
  sp (session_update_consumed_size realloc_ok malloc_ok new_stream new_item w q id k (local_window_size f)) ss (flow_run (n - 1) still ss).
Proof using Hitem.
  intros HS Hn HF Hw Hk. pose proof (account_flow _ _ _ _ Hw) as Hf. unfold session_update_consumed_size. sp_step. eapply sp_read_window; [exact Hf|].
  pose proof (flows_at _ _ _ HF Hf) as HFf. pose proof HFf as [H1 H2 H3 H4 H5 H6].
  rewrite !u64_id by (unfold is_u64; flow_lia). destruct (Z.ltb_spec (NGHTTP2_MAX_WINDOW_SIZE - k) (consumed_size f)) as [Hbig|Hfit].
  { by apply sp_terminate_run. }
  sp_step. eapply sp_defined; [rewrite to_int32_id by flow_lia; apply i32_Some; flow_lia|]. sp_step. eapply sp_change_window; [exact Hf|].
  set (c := consumed_size f + k). set (ss1 := changed w (consumed_size_to c) ss).
  assert (sound n ss1) as HS1 by (by eapply changed_sound).
  assert (account w ss1 = Some (consumed_size_to c f, id)) as Hw1 by (unfold ss1; rewrite (changed_account _ _ _ _ _ _ Hw); by rewrite decide_True).
  assert (flows_ok ss1) as HF1 by (eapply changed_flows; [exact Hf|done|]; split; simpl; try done; unfold c; flow_lia).
  assert (se_conf ss1 = se_conf ss) as EC1 by apply changed_conf.
  assert (ledger ss ss1 (only_at w (- 0))) as HL1 by (apply (changed_ledger _ _ _ f id 0); [done|unfold credit; simpl; lia]).
  assert (sp (if q =? 0 then
       let recv_size := nghttp2_min c (recv_window_size f) in
       if nghttp2_should_send_window_update (local_window_size f) recv_size then
         let! rv := nghttp2_session_add_window_update realloc_ok malloc_ok new_stream new_item NGHTTP2_FLAG_NONE id recv_size in
         if negb (rv =? 0) then mret rv
         else
           let! recv := defined (i32 (recv_window_size f - recv_size)) in
           let! consumed := defined (i32 (c - recv_size)) in
           change_window w (recv_window_size_to recv);;
           change_window w (consumed_size_to consumed);;
           mret 0
       else mret 0
     else mret 0) ss1 (flow_run (n - 1) still ss1)) as Hend.
  2: { eapply flow_via; [exact Hend|done|exact HL1|]. intros w'. unfold still, only_at. case_decide; lia. }
  clearbody ss1. destruct (q =? 0); [|sp_step; by apply flow_run_stay]. cbv zeta. rewrite nghttp2_min_spec.
  set (r := Z.min c (recv_window_size f)). destruct (nghttp2_should_send_window_update (local_window_size f) r) eqn:Esend; [|sp_step; by apply flow_run_stay].
  apply andb_prop in Esend as [Hpos _]. apply Z.ltb_lt in Hpos. assert (0 < r <= c /\ r <= recv_window_size f) as Hr by lia. clearbody r. sp_step.
  eapply sp_mono; [by eapply sp_update_run|]. intros rv ss2 (Hrv & HR & f2 & Hw2 & HM). destruct Hrv as [-> | ->]; simpl; [|sp_step; by destruct HR].
  pose proof (account_flow _ _ _ _ Hw2) as Hf2. pose proof HR as [HS2 HF2 HE2 HL2].
  sp_step. eapply sp_defined; [apply i32_Some; unfold c in *; flow_lia|]. sp_step. eapply sp_defined; [apply i32_Some; unfold c in *; flow_lia|].
  sp_step. eapply sp_change_window; [exact Hf2|]. sp_step. eapply sp_change_window; [by eapply changed_at|]. sp_step.
  set (ss3 := changed w (recv_window_size_to (recv_window_size f - r)) ss2).
  assert (recv_window_size f2 = recv_window_size f /\ local_window_size f2 = local_window_size f) as [E1 E2] by (by destruct HM as [-> | ->]).
  assert (account w ss3 = Some (recv_window_size_to (recv_window_size f - r) f2, id)) as Hw3 by (unfold ss3; rewrite (changed_account _ _ _ _ _ _ Hw2); by rewrite decide_True).
  assert (flow_ok f2) as Hok2 by (by eapply flows_at). pose proof (account_flow _ _ _ _ Hw3) as Hf3.
  assert (flows_ok ss3) as HF3.
  { eapply changed_flows; [exact Hf2|done|]. destruct Hok2 as [A1 A2 A3 A4 A5 A6]. split; simpl; try done; unfold c in *; flow_lia. }
  split; [eapply changed_sound; [exact Hf3|by eapply changed_sound]| |unfold ss3; by rewrite !changed_conf|].
  - eapply changed_flows; [exact Hf3|done|]. destruct Hok2 as [A1 A2 A3 A4 A5 A6]. split; simpl; try done; unfold c in *; flow_lia.
  - intros _. apply (ledger_trans ss1 ss2 _ (only_at w r) (only_at w (- r))); [by apply HL2| |].
    + apply (ledger_trans ss2 ss3 _ (only_at w (- r)) (only_at w (- 0))).
      * apply (changed_ledger _ _ _ _ _ r Hw2). unfold credit. simpl. lia.
      * apply (changed_ledger _ _ _ _ _ 0 Hw3). unfold credit. simpl. lia.
      * intros w'. unfold only_at. case_decide; lia.
    + intros w'. unfold still, only_at. case_decide; lia.
Qed.

Lemma sp_connection_consumed n k ss : sound n ss -> 1 <= n -> flows_ok ss -> 0 <= k <= NGHTTP2_MAX_WINDOW_SIZE ->
  sp (session_update_connection_consumed_size realloc_ok malloc_ok new_stream new_item k) ss (flow_run (n - 1) still ss).
Proof using Hitem. intros HS Hn HF Hk. unfold session_update_connection_consumed_size. do 2 sp_step. by apply (sp_consumed n OfConnection). Qed.

Lemma sp_stream_consumed n a k ss : sound n ss -> 1 <= n -> flows_ok ss -> a <> root -> is_Some (se_streams ss !! a) -> 0 <= k <= NGHTTP2_MAX_WINDOW_SIZE ->
  sp (session_update_stream_consumed_size realloc_ok malloc_ok new_stream new_item a k) ss (flow_run (n - 1) still ss).
Proof using Hitem.
  intros HS Hn HF Har [s Ha] Hk. unfold session_update_stream_consumed_size. do 2 sp_step.
  apply (sp_consumed n (OfStream a) _ _ _ _ (st_flow s)); try done. simpl. by rewrite (proj2 (Z.eqb_neq a root) Har), Ha.
Qed.

(** The stream that an id names, if there is one. *)
Lemma sp_named n id ss (Q : option Z -> nghttp2_session -> Prop) : sound n ss -> Q None ss ->
  (forall a s, se_streams ss !! a = Some s -> a <> root -> stream_id s = id -> Q (Some a) ss) -> sp (nghttp2_session_get_stream id) ss Q.
Proof using.
  intros [(kids & lc & li & HO) _ _ _] HN HS. apply (sp_found_stream ∅ ∅ ss kids lc li); [exact HO|done|]. intros a s _ Hid (Ha & Hr & _). by apply (HS a s).
Qed.

Lemma fatal_only_run n t ss rv ss' : flow_run n t ss rv ss' -> flow_run n t ss (fatal_only rv) ss'.
Proof using.
  intros [H1 H2 H3 H4]. split; [done|done|done|]. unfold fatal_only. destruct (nghttp2_is_fatal rv) eqn:E; [congruence|]. intros _. by apply H4.
Qed.

Lemma sp_consume_on_stream n id k ss : sound n ss -> 1 <= n -> flows_ok ss -> 0 <= k <= NGHTTP2_MAX_WINDOW_SIZE ->
  sp (consume_on_stream realloc_ok malloc_ok new_stream new_item id k) ss (flow_run (n - 1) still ss).
Proof using Hitem.
  intros HS Hn HF Hk. unfold consume_on_stream. sp_step. apply (sp_named n); [done|sp_step; by apply flow_run_stay|]. intros a s Ha Hr _.
  sp_step. eapply sp_mono; [apply (sp_stream_consumed n); try done; by eexists|]. intros rv ss' HR. sp_step. by apply fatal_only_run.
Qed.

Lemma sp_window_named n id ss (Q : option window_of -> nghttp2_session -> Prop) : sound n ss -> Q None ss ->
  (forall w f, account w ss = Some (f, id) -> Q (Some w) ss) -> sp (window_named id) ss Q.
Proof using.
  intros HS HN HQ. unfold window_named. destruct (Z.eqb_spec id 0) as [->|Hne]; [sp_step; by apply (HQ _ (se_flow ss))|].
  sp_step. apply (sp_named n); [done|by sp_step|]. intros a s Ha Hr Hid. sp_step. apply (HQ _ (st_flow s)). simpl.
  rewrite (proj2 (Z.eqb_neq a root) Hr), Ha. simpl. by rewrite Hid.
Qed.

(** The cells of [w] are written, the balance falls by what is still to be told. *)
Lemma sp_through_pointers n w m k ss f id (Q : Z * Z -> nghttp2_session -> Prop) : sound n ss -> account w ss = Some (f, id) -> flows_ok ss -> cells_result f k (m f) ->
  (forall c rv ss1, (rv = 0 \/ rv = NGHTTP2_ERR_FLOW_CONTROL) -> sound n ss1 -> flows_ok ss1 -> se_conf ss1 = se_conf ss ->
     account w ss1 = Some (written c f, id) -> (rv = 0 -> 0 <= delta_size c <= INT32_MAX /\ (k < 0 -> delta_size c = 0)) ->
     ledger ss ss1 (only_at w (if rv =? 0 then - delta_size c else 0)) -> Q (delta_size c, rv) ss1) -> sp (through_pointers w m) ss Q.
Proof using.
  intros HS Hw HF (c & rv & E & Hrv & Hok & Hsame & Hd) HQ. pose proof (account_flow _ _ _ _ Hw) as Hf. unfold through_pointers.
  sp_step. eapply sp_read_window; [exact Hf|]. sp_step. eapply sp_defined; [exact E|]. cbn iota. sp_step. eapply sp_change_window; [exact Hf|]. sp_step.
  change (fun f0 : stream_flow => _) with (written c). apply HQ; [done|by eapply changed_sound|by eapply changed_flows|apply changed_conf| | |].
  - rewrite (changed_account _ _ _ _ _ _ Hw). by rewrite decide_True.
  - intros Hz. by destruct (Hd Hz) as (? & ? & ?).
  - destruct (Z.eqb_spec rv 0) as [Hz|Hz]; [apply (changed_ledger _ _ _ _ _ (delta_size c) Hw); by apply Hd|].
    apply (changed_ledger _ _ _ _ _ 0 Hw). rewrite Hsame by done. lia.
Qed.

Lemma sp_submit_window_update n flags id k ss : sound n ss -> 1 <= n -> flows_ok ss -> is_i32 k ->
  sp (nghttp2_submit_window_update realloc_ok malloc_ok new_stream new_item flags id k) ss (flow_run (n - 1) still ss).
Proof using Hitem.
  intros HS Hn HF Hk. unfold nghttp2_submit_window_update. destruct (k =? 0); [sp_step; by apply flow_run_stay|]. sp_step.
  apply (sp_window_named n); [done|sp_step; by apply flow_run_stay|]. intros w f Hw. sp_step.
  eapply sp_through_pointers; [exact HS|exact Hw|done|apply adjust_cells; [by eapply flows_at, account_flow|done]|].
  intros c rv ss1 Hrv HS1 HF1 HE1 Hw1 Hd HL1. cbn iota. destruct Hrv as [-> | ->]; simpl.
  2: { sp_step. apply (flow_run_here n); [done..|]. eapply ledger_trans; [exact HL1|apply ledger_refl|]. intros w'. unfold still, only_at. simpl. case_decide; lia. }
  destruct (Hd eq_refl) as [Hd0 _]. change (0 =? 0) with true in HL1. cbn iota in HL1. destruct (Z.ltb_spec 0 (delta_size c)).
  2: { sp_step. apply (flow_run_here n); [done..|]. eapply ledger_trans; [exact HL1|apply ledger_refl|]. intros w'. unfold still, only_at. case_decide; lia. }
  pose proof (account_flow _ _ _ _ Hw1) as Hf1. pose proof (flows_at _ _ _ HF1 Hf1) as [A1 A2 A3 A4 A5 A6].
  sp_step. eapply sp_read_window; [exact Hf1|]. sp_step. eapply sp_defined; [apply i32_Some; flow_lia|]. sp_step. eapply sp_change_window; [exact Hf1|].
  set (v := nghttp2_max _ _). assert (0 <= v <= NGHTTP2_MAX_WINDOW_SIZE) as Hv by (unfold v, nghttp2_max; bcase; flow_lia). clearbody v.
  set (ss2 := changed w (consumed_size_to v) ss1). assert (sound n ss2) as HS2 by (by eapply changed_sound).
  assert (flows_ok ss2) as HF2 by (eapply changed_flows; [exact Hf1|done|split; simpl; done]).
  assert (ledger ss1 ss2 (only_at w (- 0))) as HL2 by (apply (changed_ledger _ _ _ _ _ 0 Hw1); unfold credit; simpl; lia).
  assert (account w ss2 = Some (consumed_size_to v (written c f), id)) as Hw2 by (unfold ss2; rewrite (changed_account _ _ _ _ _ _ Hw1); by rewrite decide_True).
  assert (se_conf ss2 = se_conf ss1) as HE2 by apply changed_conf. clearbody ss2.
  eapply sp_mono; [by eapply sp_update_run|]. intros rv ss' (_ & HR & _).
  apply (flow_run_trans _ (only_at w (- delta_size c)) (only_at w (delta_size c)) _ _ _ _ _ (flow_run_trans _ _ _ (only_at w (delta_size c)) _ _ _ _ HR HE2 HL2 ltac:(intros w'; unfold only_at; case_decide; lia)) HE1 HL1).
  intros w'. unfold still, only_at. case_decide; lia.
Qed.

Lemma sp_update_received n w f id ss : sound n ss -> 1 <= n -> flows_ok ss -> account w ss = Some (f, id) ->
  sp (update_received realloc_ok malloc_ok new_stream new_item w) ss (flow_run (n - 1) still ss).
Proof using Hitem.
  intros HS Hn HF Hw. assert (forall w0 w', taken w0 0 ss w' = still w') as Ht.
  { intros w0 w'. unfold taken, still, only_at. repeat case_match; done. }
  destruct w as [|a]; cbn [update_received].
  - eapply sp_mono; [apply (sp_data_on_connection n 0); done|]. intros rv ss' HR. by eapply flow_run_less; [exact HR|lia|].
  - simpl in Hw. destruct (Z.eqb_spec a root); [done|]. destruct (se_streams ss !! a) as [s|] eqn:Ea; [|done].
    eapply sp_mono; [apply (sp_data_on_stream n a 0 true); [done|done|done|done|by rewrite Ea|done]|]. intros rv ss' HR. by eapply flow_run_less; [exact HR|lia|].
Qed.

Lemma sp_set_local_window_size n flags id k ss : sound n ss -> 1 <= n -> flows_ok ss -> k <= INT32_MAX ->
  sp (nghttp2_session_set_local_window_size realloc_ok malloc_ok new_stream new_item flags id k) ss (flow_run (n - 1) still ss).
Proof using Hitem.
  intros HS Hn HF Hk. unfold nghttp2_session_set_local_window_size. destruct (Z.ltb_spec k 0); [sp_step; by apply flow_run_stay|]. sp_step.
  apply (sp_window_named n); [done|sp_step; by apply flow_run_stay|]. intros w f Hw. pose proof (account_flow _ _ _ _ Hw) as Hf.
  pose proof (flows_at _ _ _ HF Hf) as HFf. pose proof HFf as [A1 A2 A3 A4 A5 A6].
  sp_step. eapply sp_read_window; [exact Hf|]. sp_step. eapply sp_defined; [apply i32_Some; flow_lia|].
  destruct (Z.eqb_spec (k - local_window_size f) 0); [sp_step; by apply flow_run_stay|]. destruct (Z.ltb_spec (k - local_window_size f) 0).
  - sp_step. eapply (sp_through_pointers n); [exact HS|exact Hw|done|apply adjust_cells; [done|flow_lia]|].
    intros c rv ss1 Hrv HS1 HF1 HE1 Hw1 Hd HL1. cbn iota. sp_step. apply (flow_run_here n); [done..|].
    eapply ledger_trans; [exact HL1|apply ledger_refl|]. intros w'. unfold still, only_at. destruct (Z.eqb_spec rv 0) as [Hz|_]; [|case_decide; lia].
    rewrite (proj2 (Hd Hz)) by lia. case_decide; lia.
  - sp_step. eapply (sp_through_pointers n); [exact HS|exact Hw|done|apply increase_cells; [done|flow_lia]|].
    intros c rv ss1 Hrv HS1 HF1 HE1 Hw1 Hd HL1. cbn iota. destruct Hrv as [-> | ->]; simpl.
    2: { sp_step. apply (flow_run_here n); [done..|]. eapply ledger_trans; [exact HL1|apply ledger_refl|]. intros w'. unfold still, only_at. simpl. case_decide; lia. }
    change (0 =? 0) with true in HL1. cbn iota in HL1. destruct (Z.ltb_spec 0 (delta_size c)) as [Hpos|Hzero].
    + eapply sp_mono; [by eapply sp_update_run|]. intros rv ss' (_ & HR & _).
      apply (flow_run_trans _ (only_at w (- delta_size c)) (only_at w (delta_size c)) _ _ _ _ _ HR HE1 HL1).
      intros w'. unfold still, only_at. case_decide; lia.
    + eapply flow_via; [by eapply sp_update_received|exact HE1|exact HL1|].
      intros w'. pose proof (proj1 (Hd eq_refl)). unfold still, only_at. case_decide; lia.
Qed.

End FlowRuns.
