(* ===== verification/SessionCredit.v ===== *)
(** * Sessions: the credit of a peer, over runs of operations

    The operations that change windows, in any order: data that arrives, data
    that the application consumes, windows that it opens or resizes.  Whatever
    the order, no operation overflows, the windows stay in range, and a peer's
    credit falls by exactly the data that was accepted. *)

From S2P Require Import Prelude Defs Helper HdToken Pq Frame FrameHeaders Http Stream StreamLinks StreamQueue StreamTree StreamItems StreamFrame.
From S2P Require Import Outbound Session SessionInv SessionTree SessionBooks SessionForest SessionOpen SessionClose SessionItems SessionNew SessionReach SessionSpec SessionTouch SessionSend SessionQueues SessionAdd SessionSendSpec SessionCalm SessionFlow SessionFlowSpec.

Implicit Types (a id n k : Z) (s : nghttp2_stream) (ss : nghttp2_session) (f : stream_flow) (w : window_of).

(** ** The operations *)

(** What changes windows: a chunk of a DATA frame, counted for the connection
    and for its stream ([nghttp2_session_mem_recv2]), and the functions that an
    application calls. *)
Inductive flow_op :=
  | DataOnConnection (n : Z)
  | DataOnStream (id n : Z) (send_window_update : bool)
  | Consume (id n : Z)
  | ConsumeConnection (n : Z)
  | ConsumeStream (id n : Z)
  | SubmitWindowUpdate (id n : Z)
  | SetLocalWindowSize (id n : Z).

(** Sizes as the callers have them: a chunk is part of a frame, an application
    consumes no more than a window, and increments are of type [int32_t]. *)
Definition flow_op_ready (op : flow_op) : bool :=
  match op with
  | DataOnConnection n | DataOnStream _ n _ => (0 <=? n) && (n <? 2 ^ 24)
  | Consume _ n | ConsumeConnection n | ConsumeStream _ n => (0 <=? n) && (n <=? NGHTTP2_MAX_WINDOW_SIZE)
  | SubmitWindowUpdate _ n | SetLocalWindowSize _ n => (INT32_MIN <=? n) && (n <=? INT32_MAX)
  end.

(** The frames that an operation may queue. *)
Definition frames_of (op : flow_op) : Z := match op with Consume _ _ => 2 | _ => 1 end.

Section Runs.
Context (realloc_ok malloc_ok : nat -> bool) (new_stream : gmap Z nghttp2_stream -> Z) (new_item : gmap Z nghttp2_outbound_item -> Z).

Definition data_on_stream id n (send_window_update : bool) : se_m Z :=
  let! stream := nghttp2_session_get_stream id in
  match stream with
  | None => mret 0
  | Some a => nghttp2_session_update_recv_stream_window_size realloc_ok malloc_ok new_stream new_item a n send_window_update
  end.

Definition run_flow_op (op : flow_op) : se_m Z :=
  match op with
  | DataOnConnection n => nghttp2_session_update_recv_connection_window_size realloc_ok malloc_ok new_stream new_item n
  | DataOnStream id n b => data_on_stream id n b
  | Consume id n => nghttp2_session_consume realloc_ok malloc_ok new_stream new_item id n
  | ConsumeConnection n => nghttp2_session_consume_connection realloc_ok malloc_ok new_stream new_item n
  | ConsumeStream id n => nghttp2_session_consume_stream realloc_ok malloc_ok new_stream new_item id n
  | SubmitWindowUpdate id n => nghttp2_submit_window_update realloc_ok malloc_ok new_stream new_item NGHTTP2_FLAG_NONE id n
  | SetLocalWindowSize id n => nghttp2_session_set_local_window_size realloc_ok malloc_ok new_stream new_item NGHTTP2_FLAG_NONE id n
  end.

(** One after the other, until one fails for good. *)
Fixpoint run_flow_ops (ops : list flow_op) : se_m Z :=
  match ops with
  | [] => mret 0
  | op :: ops =>
      let! rv := run_flow_op op in
      if nghttp2_is_fatal rv then mret rv else run_flow_ops ops
  end.

Definition frames_of_all (ops : list flow_op) : Z := foldr (fun op n => frames_of op + n) 0 ops.

(** The data that a window accepts. *)
Definition accepted (op : flow_op) ss w : Z :=
  match op with
  | DataOnConnection n => taken OfConnection n ss w
  | DataOnStream id n _ => match nghttp2_session_get_stream id ss with Some (_, Some a) => taken (OfStream a) n ss w | _ => 0 end
  | _ => 0
  end.

Fixpoint accepted_all (ops : list flow_op) ss w : Z :=
  match ops with
  | [] => 0
  | op :: ops => accepted op ss w + match run_flow_op op ss with Some (ss', _) => accepted_all ops ss' w | None => 0 end
  end.

Lemma sp_ran {A} (m : se_m A) ss ss' r (Q : A -> nghttp2_session -> Prop) : m ss = Some (ss', r) -> Q r ss' -> sp m ss Q.
Proof using. unfold sp. by intros ->. Qed.

Section Run.
Context (Hitem : forall m, m !! new_item m = None).

Lemma frames_of_pos op : 1 <= frames_of op.
Proof using. by destruct op. Qed.

Lemma sp_data_on_named n id k last ss : sound n ss -> 1 <= n -> flows_ok ss -> 0 <= k < 2 ^ 24 ->
  sp (data_on_stream id k last) ss (flow_run (n - 1) (accepted (DataOnStream id k last) ss) ss).
Proof using Hitem.
  intros HS Hn HF Hk. assert (sp (nghttp2_session_get_stream id) ss (fun r ss' => ss' = ss /\ forall a, r = Some a -> a <> root /\ is_Some (se_streams ss !! a))) as Hget.
  { apply (sp_named n); [done|done|]. intros a s Ha Hr _. split; [done|]. intros c [= <-]. by split; [|eexists]. }
  unfold accepted, data_on_stream. apply sp_run in Hget as (ss' & r & E & -> & Hr). sp_step. eapply sp_ran; [exact E|]. rewrite E. destruct r as [a|]; [|sp_step; by apply flow_run_stay]. destruct (Hr a eq_refl) as [H1 H2]. by apply sp_data_on_stream.
Qed.

Lemma sp_consume n id k ss : sound n ss -> 2 <= n -> flows_ok ss -> 0 <= k <= NGHTTP2_MAX_WINDOW_SIZE ->
  sp (nghttp2_session_consume realloc_ok malloc_ok new_stream new_item id k) ss (flow_run (n - 2) still ss).
Proof using Hitem.
  intros HS Hn HF Hk. assert (forall rv, flow_run (n - 2) still ss rv ss) as Hstay by (intros rv; eapply flow_run_less; [by apply (flow_run_stay n)|lia|done]).
  unfold nghttp2_session_consume. do 2 sp_step. destruct (id =? 0); [by sp_step|]. destruct (auto_window_update ss); [by sp_step|]. sp_step.
  eapply sp_mono; [apply (sp_connection_consumed _ _ _ _ Hitem n); [done|lia|done|done]|]. intros rv ss1 HR. destruct (nghttp2_is_fatal rv) eqn:Erv.
  { sp_step. eapply flow_run_less; [exact HR|lia|done]. }
  destruct HR as [HS1 HF1 HE1 HL1]. eapply (flow_via _ (n - 2) still still); [|exact HE1|by apply HL1|done].
  replace (n - 2) with (n - 1 - 1) by lia. apply sp_consume_on_stream; [done|done|lia|done|done].
Qed.

Lemma sp_flow_op n op ss : sound n ss -> frames_of op <= n -> flows_ok ss -> flow_op_ready op = true ->
  sp (run_flow_op op) ss (flow_run (n - frames_of op) (accepted op ss) ss).
Proof using Hitem.
  intros HS Hn HF Hop. destruct op; simpl in Hn, Hop; apply andb_prop in Hop as [?%Z.leb_le Hhi]; simpl run_flow_op; simpl frames_of.
  - apply Z.ltb_lt in Hhi. by apply sp_data_on_connection.
  - apply Z.ltb_lt in Hhi. by apply sp_data_on_named.
  - apply Z.leb_le in Hhi. by apply sp_consume.
  - apply Z.leb_le in Hhi. unfold nghttp2_session_consume_connection. do 2 sp_step. case_match; [sp_step; by apply flow_run_stay|]. sp_step.
    eapply sp_mono; [by apply (sp_connection_consumed _ _ _ _ Hitem n)|]. intros rv ss' HR. sp_step. by apply fatal_only_run.
  - apply Z.leb_le in Hhi. unfold nghttp2_session_consume_stream. do 2 sp_step. do 2 (case_match; [sp_step; by apply flow_run_stay|]).
    by apply sp_consume_on_stream.
  - apply Z.leb_le in Hhi. apply sp_submit_window_update; [done..|]. split; [done|]. flow_lia.
  - apply Z.leb_le in Hhi. by apply sp_set_local_window_size.
Qed.

Lemma frames_of_all_pos ops : 0 <= frames_of_all ops.
Proof using. induction ops as [|op ops IH]; [done|]. change (0 <= frames_of op + frames_of_all ops). pose proof (frames_of_pos op). lia. Qed.

Lemma sp_flow_ops ops : forall n ss, sound n ss -> frames_of_all ops <= n -> flows_ok ss -> Forall (fun op => flow_op_ready op = true) ops ->
  sp (run_flow_ops ops) ss (flow_run 0 (accepted_all ops ss) ss).
Proof using Hitem.
  induction ops as [|op ops IH]; intros n ss HS Hn HF Hops; cbn [run_flow_ops].
  { sp_step. simpl in Hn. apply (flow_run_less (n - 1 + 1) 0 still); [|lia|done]. split; [by eapply sound_less; [exact HS|lia]|done|done|intros _; apply ledger_refl]. }
  inversion_clear Hops as [|? ? Hop Hrest]. pose proof (frames_of_all_pos ops) as Hpos. change (frames_of op + frames_of_all ops <= n) in Hn.
  assert (sp (run_flow_op op) ss (flow_run (n - frames_of op) (accepted op ss) ss)) as HR by (apply sp_flow_op; [done|lia|done|done]).
  apply sp_run in HR as (ss1 & rv & E & HR). sp_step. eapply sp_ran; [exact E|].
  destruct (nghttp2_is_fatal rv) eqn:Erv.
  { sp_step. destruct HR as [HS1 HF1 HE1 HL1]. split; [eapply sound_less; [exact HS1|lia]|done|done|congruence]. }
  destruct HR as [HS1 HF1 HE1 HL1]. eapply (flow_via _ 0 (accepted op ss) (accepted_all ops ss1)); [by apply (IH (n - frames_of op)); [|lia| |]|done|by apply HL1|].
  intros w. simpl. by rewrite E.
Qed.

End Run.

(** ** Claims *)

(** C21: the seven operations of [flow_op] - data on the connection or on a
    stream, the three ways of consuming it, nghttp2_submit_window_update and
    nghttp2_session_set_local_window_size - in any order and for any number
    of windows, with sizes as [flow_op_ready] bounds them (chunks below 2^24,
    consumed sizes up to a whole window), from a session whose windows are in
    order ([flows_ok]): all of them return - no signed arithmetic overflows
    and no pointer dangles - and afterwards every window is in order again,
    in the range of its type and not below zero, with what was received
    within it, and the settings are what they were.
    Acknowledged settings are not among the operations: a smaller initial
    window may take a window below zero, and what happens then is
    [negative_window_overflows]. *)
Theorem windows_stay_in_range n ops ss : (forall m, m !! new_item m = None) -> sound n ss -> frames_of_all ops <= n -> flows_ok ss ->
  Forall (fun op => flow_op_ready op = true) ops ->
  exists ss' rv, run_flow_ops ops ss = Some (ss', rv) /\ flows_ok ss' /\ se_conf ss' = se_conf ss /\ queues_in_order ss'.
Proof using.
  intros Hitem HS Hn HF Hops. apply (sp_run (run_flow_ops ops) ss (fun rv ss' => flows_ok ss' /\ se_conf ss' = se_conf ss /\ queues_in_order ss')).
  eapply sp_mono; [by eapply sp_flow_ops|]. intros rv ss' [HS1 HF1 HE1 _]. split; [done|]. split; [done|]. destruct (sd_queues _ _ HS1) as (L & HQ & HY). by exists L.
Qed.

(** C20: credit is neither lost nor invented: over any sequence of operations
    that does not fail for good, what the peer has been told it may send on
    a window - its credit less the increments of the WINDOW_UPDATE frames
    that still wait in the queue - falls by the data that the window accepted
    and by nothing else, whoever opens or closes the window meanwhile. *)
Theorem credit_conserved n ops ss w b : (forall m, m !! new_item m = None) -> sound n ss -> frames_of_all ops <= n -> flows_ok ss ->
  Forall (fun op => flow_op_ready op = true) ops -> balance w ss = Some b ->
  exists ss' rv, run_flow_ops ops ss = Some (ss', rv) /\ (nghttp2_is_fatal rv = false -> balance w ss' = Some (b - accepted_all ops ss w)).
Proof using.
  intros Hitem HS Hn HF Hops Hb.
  apply (sp_run (run_flow_ops ops) ss (fun rv ss' => nghttp2_is_fatal rv = false -> balance w ss' = Some (b - accepted_all ops ss w))).
  eapply sp_mono; [by eapply sp_flow_ops|]. intros rv ss' [_ _ _ HL] Hrv. by apply (HL Hrv).
Qed.

Lemma same_window f : recv_window_size_to (recv_window_size f) f = f.
Proof using. by destruct f. Qed.

Lemma same_stream a s ss : se_streams ss !! a = Some s ->
  modify_stream a (upd_flow (recv_window_size_to (recv_window_size s))) ss = Some (ss, tt).
Proof using.
  intros Ha. unfold modify_stream, on_streams, modify. change (streams (se_world ss) !! a) with (se_streams ss !! a). rewrite Ha. simpl.
  assert (upd_flow (recv_window_size_to (recv_window_size s)) s = s) as -> by (unfold upd_flow; rewrite same_window; by destruct s).
  change (streams (se_world ss)) with (se_streams ss). rewrite insert_id by done. by destruct ss as [[]].
Qed.

Lemma loaded a s ss : se_streams ss !! a = Some s -> load_stream a ss = Some (ss, s).
Proof using. intros Ha. unfold load_stream, on_streams, load. change (streams (se_world ss) !! a) with (se_streams ss !! a). rewrite Ha. by destruct ss. Qed.

Lemma ran_bind {A B} (m : se_m A) (k : A -> se_m B) ss ss' r : m ss = Some (ss', r) -> mbind k m ss = k r ss'.
Proof using. intros E. unfold mbind, se_bind. by rewrite E. Qed.

Lemma ran_then {A B} (m : se_m A) (k : A -> se_m B) ss ss' r : m ss = Some (ss', r) -> se_then m k ss = k r ss'.
Proof using. apply ran_bind. Qed.

Lemma excess f k : flow_ok f -> 0 <= k < 2 ^ 24 -> credit f < k ->
  adjust_recv_window_size (recv_window_size f) k (local_window_size f) = Some (recv_window_size f, -1).
Proof using. intros HF Hk Hlt. by rewrite (adjust_recv_spec _ k HF Hk), (proj2 (Z.ltb_lt _ _) Hlt). Qed.

(** C27: data beyond the credit: on the connection it is treated exactly as
    the application's termination of the session with FLOW_CONTROL_ERROR, on
    a stream as its reset with that error, and the window is not touched. *)
Theorem excess_data_refused ss a s k : flows_ok ss -> se_streams ss !! a = Some s -> 0 <= k < 2 ^ 24 ->
  (credit (se_flow ss) < k -> nghttp2_session_update_recv_connection_window_size realloc_ok malloc_ok new_stream new_item k ss =
     nghttp2_session_terminate_session realloc_ok malloc_ok new_stream new_item NGHTTP2_FLOW_CONTROL_ERROR ss) /\
  (credit s < k -> forall last, nghttp2_session_update_recv_stream_window_size realloc_ok malloc_ok new_stream new_item a k last ss =
     nghttp2_session_add_rst_stream realloc_ok malloc_ok new_stream new_item (stream_id s) NGHTTP2_FLOW_CONTROL_ERROR ss).
Proof using.
  intros [H1 H2] Ha Hk. split; intros Hlt.
  - unfold nghttp2_session_update_recv_connection_window_size. rewrite (ran_then _ _ ss ss ss eq_refl), (excess _ _ H1 Hk Hlt).
    rewrite (ran_then _ _ ss ss (recv_window_size ss, -1) eq_refl). simpl. unfold change_window.
    rewrite (ran_bind _ _ ss (upd_window (recv_window_size_to (recv_window_size ss)) ss) tt eq_refl).
    f_equal. unfold upd_window. rewrite same_window. by destruct ss.
  - intros last. unfold nghttp2_session_update_recv_stream_window_size. rewrite (ran_then _ _ _ _ _ (loaded _ _ _ Ha)), (excess _ _ (H2 a s Ha) Hk Hlt).
    rewrite (ran_then _ _ ss ss (recv_window_size s, -1) eq_refl). simpl. unfold change_window. by rewrite (ran_bind _ _ _ _ _ (same_stream _ _ _ Ha)).
Qed.

Definition data_on w k : se_m Z :=
  match w with
  | OfConnection => nghttp2_session_update_recv_connection_window_size realloc_ok malloc_ok new_stream new_item k
  | OfStream a => nghttp2_session_update_recv_stream_window_size realloc_ok malloc_ok new_stream new_item a k true
  end.

(** Increments wait in the queue whenever the window is marked, and none takes
    credit away. *)
Definition told w ss : Prop := forall f id, account w ss = Some (f, id) -> 0 <= promised ss id /\ (window_update_queued f <> 0 -> 0 < promised ss id).

(** The credit that the peer knows of is [b], and more waits in the queue, or
    [b] is half of the window at least. *)
Definition fed w b ss : Prop := exists f id, account w ss = Some (f, id) /\ balance w ss = Some b /\ (0 < promised ss id \/ local_window_size f <= 2 * b).

Definition served w b (rv : Z) ss : Prop := (rv = 0 \/ rv = NGHTTP2_ERR_NOMEM) /\ (rv = 0 -> told w ss /\ fed w b ss).

Lemma not_due f r : flow_ok f -> nghttp2_should_send_window_update (local_window_size f) r = false -> local_window_size f <= 2 * (local_window_size f - r).
Proof using.
  intros [H1 H2 H3 H4 H5 H6]. unfold nghttp2_should_send_window_update. intros [Hr%Z.ltb_ge|Hr%Z.leb_gt]%andb_false_iff; [lia|].
  pose proof (Z.div_mod (local_window_size f) 2) as Hdiv. pose proof (Z.mod_pos_bound (local_window_size f) 2).
  assert (r < local_window_size f / 2); [|lia]. rewrite <- Z.quot_div_nonneg by lia. done.
Qed.

Lemma sp_credit_fed n w id ss f b (Hitem : forall m, m !! new_item m = None) : sound n ss -> 1 <= n -> flows_ok ss -> account w ss = Some (f, id) ->
  told w ss -> balance w ss = Some b -> 0 < recv_window_size f ->
  sp (credit_received realloc_ok malloc_ok new_stream new_item w id) ss (served w b).
Proof using.
  intros HS Hn HF Hw HT Hb Hpos. pose proof (account_flow _ _ _ _ Hw) as Hf. destruct (HT f id Hw) as [Hp _]. unfold credit_received. sp_step. eapply sp_read_window; [exact Hf|]. sp_step.
  eapply sp_mono; [by eapply sp_update_run|]. intros rv ss1 (Hrv & HR & f1 & Hw1 & HM). destruct (Z.eqb_spec rv 0) as [->|Hne]; simpl; [|sp_step; by split].
  pose proof (account_flow _ _ _ _ Hw1) as Hf1. sp_step. eapply sp_change_window; [exact Hf1|]. sp_step. split; [by left|]. intros _.
  pose proof (fr_ledger _ _ _ _ _ HR eq_refl w b Hb) as Hb1. unfold only_at in Hb1. rewrite decide_True in Hb1 by done.
  assert (credit f1 = credit f /\ recv_window_size f1 = recv_window_size f) as [Ec Er] by (by destruct HM as [-> | ->]).
  unfold balance in Hb, Hb1. rewrite Hw in Hb. rewrite Hw1 in Hb1. simpl in Hb, Hb1. injection Hb as Hb. injection Hb1 as Hb1.
  set (ss2 := changed w (recv_window_size_to 0) ss1). assert (account w ss2 = Some (recv_window_size_to 0 f1, id)) as Hw2 by (unfold ss2; rewrite (changed_account _ _ _ _ _ _ Hw1); by rewrite decide_True).
  assert (promised ss2 id = promised ss1 id) as Ep by (unfold ss2; by destruct w).
  split.
  - intros f' id' Hw'. rewrite Hw2 in Hw'. injection Hw' as <- <-. rewrite Ep. lia.
  - exists (recv_window_size_to 0 f1), id. split; [done|]. split; [|left; rewrite Ep; lia]. unfold balance. rewrite Hw2. simpl. f_equal. rewrite Ep. unfold credit in *. simpl. lia.
Qed.

(** The end of both functions that count data. *)
Lemma sp_then_fed n w id ss f b (Hitem : forall m, m !! new_item m = None) : sound n ss -> 1 <= n -> flows_ok ss -> account w ss = Some (f, id) ->
  told w ss -> balance w ss = Some b -> forall q, q = window_update_queued f -> forall l, l = local_window_size f ->
  sp (if (q =? 0) && nghttp2_should_send_window_update l (recv_window_size f)
      then credit_received realloc_ok malloc_ok new_stream new_item w id else mret 0) ss (served w b).
Proof using.
  intros HS Hn HF Hw HT Hb q -> l ->. destruct (HT f id Hw) as [Hp Hq]. assert (0 < promised ss id \/ local_window_size f <= 2 * b -> served w b 0 ss) as Hstay.
  { intros H. split; [by left|]. intros _. split; [done|]. by exists f, id. }
  destruct (Z.eqb_spec (window_update_queued f) 0) as [Hz|Hz]; simpl; [|sp_step; apply Hstay; left; by apply Hq].
  destruct (nghttp2_should_send_window_update _ _) eqn:E.
  - eapply sp_credit_fed; try done. unfold nghttp2_should_send_window_update in E. apply andb_prop in E as [E _]. lia.
  - sp_step. apply Hstay. pose proof (not_due f _ (flows_at _ _ _ HF (account_flow _ _ _ _ Hw)) E) as Hhalf.
    unfold balance in Hb. rewrite Hw in Hb. simpl in Hb. injection Hb as <-. unfold credit. lia.
Qed.

(** C26: a peer that keeps to its credit is never starved. Let it know of a
    credit of [b] octets - what it has been told, without the increments that
    wait in the queue - and send [k] of them; then, where the session updates
    windows by itself and memory does not fail, it knows of exactly [b - k],
    and either a WINDOW_UPDATE frame with more for that window waits in the
    queue, or what is left is half of the window at least. While no increment
    waits the window is not marked as having one, which the step keeps. *)
Theorem peer_not_starved n w k b id ss f : (forall m, m !! new_item m = None) -> sound n ss -> 1 <= n -> flows_ok ss -> auto_window_update ss = true ->
  account w ss = Some (f, id) -> 0 <= k < 2 ^ 24 -> k <= credit f -> told w ss -> balance w ss = Some b ->
  exists ss' rv, data_on w k ss = Some (ss', rv) /\ (rv = 0 \/ rv = NGHTTP2_ERR_NOMEM) /\ (rv = 0 -> told w ss' /\ fed w (b - k) ss').
Proof using.
  intros Hitem HS Hn HF Hauto Hw Hk Hc HT Hb. apply (sp_run (data_on w k) ss (served w (b - k))).
  pose proof (account_flow _ _ _ _ Hw) as Hf. pose proof (adjust_recv_spec f k (flows_at _ _ _ HF Hf) Hk) as Hadj.
  destruct (received_flows n _ _ _ _ k HF Hw Hk HS) as (HS1 & HF1 & Hw1 & _ & HL1). rewrite (proj2 (Z.ltb_ge _ _) Hc) in *.
  specialize (HL1 w b Hb). unfold only_at in HL1. rewrite decide_True in HL1 by done.
  assert (told w (changed w (recv_window_size_to (recv_window_size f + k)) ss)) as HT1.
  { intros f' id' Hw'. rewrite Hw1 in Hw'. injection Hw' as <- <-. destruct (HT f id Hw) as [H1 H2].
    assert (promised (changed w (recv_window_size_to (recv_window_size f + k)) ss) id = promised ss id) as -> by (by destruct w). by split. }
  destruct w as [|a]; cbn [data_on].
  - injection Hw as <- <-. unfold nghttp2_session_update_recv_connection_window_size. do 2 sp_step. rewrite Hauto. sp_step. eapply sp_defined; [exact Hadj|]. cbn iota beta.
    sp_step. eapply sp_change_window; [exact Hf|]. simpl negb. cbn iota. by eapply (sp_then_fed n _ _ _ _ _ Hitem HS1 Hn HF1 Hw1 HT1 HL1).
  - simpl in Hw. destruct (Z.eqb_spec a root); [done|]. destruct (se_streams ss !! a) as [s|] eqn:Ea; [|done]. injection Hw as <- <-.
    unfold nghttp2_session_update_recv_stream_window_size. do 2 sp_step. sp_step. eapply sp_defined; [exact Hadj|]. cbn iota beta.
    sp_step. eapply sp_change_window; [exact Hf|]. simpl negb. cbn iota. do 2 sp_step. change (auto_window_update (changed _ _ ss)) with (auto_window_update ss). rewrite Hauto.
    by eapply (sp_then_fed n _ _ _ _ _ Hitem HS1 Hn HF1 Hw1 HT1 HL1).
Qed.

End Runs.

(** ** Witnesses *)

Definition flow_okb f : bool :=
  (INT32_MIN <=? remote_window_size f) && (remote_window_size f <=? INT32_MAX) && (0 <=? local_window_size f) &&
  (INT32_MIN <=? recv_window_size f) && (recv_window_size f <=? local_window_size f) && (0 <=? recv_reduction f) &&
  (local_window_size f <=? NGHTTP2_MAX_WINDOW_SIZE) && (recv_reduction f <=? NGHTTP2_MAX_WINDOW_SIZE) && (0 <=? consumed_size f) && (consumed_size f <=? NGHTTP2_MAX_WINDOW_SIZE).

Lemma flow_okb_ok f : flow_okb f = true -> flow_ok f.
Proof. unfold flow_okb. rewrite !andb_true_iff, !Z.leb_le. intros H. destruct_and!; split; flow_lia. Qed.

Lemma flows_okb_ok ss : flow_okb (se_flow ss) && forallb (fun '(_, s) => flow_okb (st_flow s)) (map_to_list (se_streams ss)) = true -> flows_ok ss.
Proof.
  intros [H1 H2]%andb_prop. split; [by apply flow_okb_ok|]. intros a s Ha. rewrite forallb_forall in H2. apply flow_okb_ok.
  apply (H2 (a, s)), list_elem_of_In. by apply elem_of_map_to_list.
Qed.

Lemma closed1_flows : flows_ok closed1.
Proof. apply flows_okb_ok. by vm_compute. Qed.

Lemma closed1_sound : sound 8 closed1.
Proof.
  split; [exact (demo_ok closed1 closed1_reached)| | |]; [|by vm_compute..]. exists nothing_queued. split; [exact closed1_queues|apply no_requests].
Qed.

Abbreviation run_ops := (run_flow_ops granting granting next_address next_item).

(** Data for the connection and for the stream 3, a bigger window for the
    stream, data again, and an application that consumes too much. *)
Definition demo_ops : list flow_op :=
  [DataOnConnection 40000; DataOnStream 3 40000 true; SetLocalWindowSize 3 100000; DataOnStream 3 9000 false; SubmitWindowUpdate 0 (-5); Consume 3 7].

Lemma windows_stay_in_range_witness :
  exists ss' rv, run_ops demo_ops closed1 = Some (ss', rv) /\ flows_ok ss' /\ se_conf ss' = se_conf closed1 /\ queues_in_order ss'.
Proof.
  apply (windows_stay_in_range granting granting next_address next_item 8 demo_ops closed1);
    [exact next_item_fresh|exact closed1_sound|by vm_compute|exact closed1_flows|repeat constructor].
Defined.

Lemma credit_conserved_witness : balance OfConnection closed1 = Some 65535 /\
  exists ss' rv, run_ops demo_ops closed1 = Some (ss', rv) /\
    (nghttp2_is_fatal rv = false ->
     balance OfConnection ss' = Some (65535 - accepted_all granting granting next_address next_item demo_ops closed1 OfConnection)).
Proof.
  split; [by vm_compute|].
  apply (credit_conserved granting granting next_address next_item 8 demo_ops closed1 OfConnection 65535);
    [exact next_item_fresh|exact closed1_sound|by vm_compute|exact closed1_flows|repeat constructor|by vm_compute].
Defined.

(** The stream 3 and its address. *)
Definition address_3 : Z := default 0 (stream_map closed1 !! 3).
Definition stream_3 : option nghttp2_stream := se_streams closed1 !! address_3.
Definition window_3 : stream_flow := match stream_3 with Some s => st_flow s | None => se_flow closed1 end.

Example demo_accepted :
  (fun w => accepted_all granting granting next_address next_item demo_ops closed1 w) <$> [OfConnection; OfStream address_3] = [40000; 49000].
Proof. by vm_compute. Qed.

Lemma excess_data_refused_witness : exists s, stream_3 = Some s /\
  (credit (se_flow closed1) < 70000 -> nghttp2_session_update_recv_connection_window_size granting granting next_address next_item 70000 closed1 =
     nghttp2_session_terminate_session granting granting next_address next_item NGHTTP2_FLOW_CONTROL_ERROR closed1) /\
  (credit s < 70000 -> forall last, nghttp2_session_update_recv_stream_window_size granting granting next_address next_item address_3 70000 last closed1 =
     nghttp2_session_add_rst_stream granting granting next_address next_item (stream_id s) NGHTTP2_FLOW_CONTROL_ERROR closed1).
Proof.
  destruct stream_3 as [s|] eqn:E; [|exfalso; revert E; by vm_compute]. exists s. split; [done|].
  apply (excess_data_refused granting granting next_address next_item closed1 address_3 s 70000); [exact closed1_flows|exact E|split; [discriminate|reflexivity]].
Defined.

Lemma window_3_account : account (OfStream address_3) closed1 = Some (window_3, 3).
Proof. by vm_compute. Qed.

(** Nothing is marked in the demonstration, and nothing waits. *)
Lemma closed1_told : told (OfStream address_3) closed1.
Proof.
  assert (0 <=? promised closed1 3 = true) as H1 by (by vm_compute). assert (window_update_queued window_3 =? 0 = true) as H2 by (by vm_compute).
  intros f id Hf. pose proof (eq_trans (eq_sym window_3_account) Hf) as E. apply Some_inj in E. pose proof (f_equal fst E) as E1. pose proof (f_equal snd E) as E2. cbn [fst snd] in E1, E2.
  rewrite <- E1, <- E2. split; [exact (proj1 (Z.leb_le _ _) H1)|]. intros Hq. destruct (Hq (proj1 (Z.eqb_eq _ _) H2)).
Qed.

Lemma peer_not_starved_witness : exists ss' rv,
  data_on granting granting next_address next_item (OfStream address_3) 40000 closed1 = Some (ss', rv) /\ (rv = 0 \/ rv = NGHTTP2_ERR_NOMEM) /\
    (rv = 0 -> told (OfStream address_3) ss' /\ fed (OfStream address_3) (65535 - 40000) ss').
Proof.
  apply (peer_not_starved granting granting next_address next_item 8 (OfStream address_3) 40000 65535 3 closed1 window_3);
    [exact next_item_fresh|exact closed1_sound|lia|exact closed1_flows|by vm_compute|exact window_3_account|split; [discriminate|reflexivity]|by vm_compute|exact closed1_told|by vm_compute].
Defined.

(** The frame with what was received waits. *)
Example data_3_answered : (fun r : nghttp2_session * Z => (r.2, promised r.1 3, balance (OfStream address_3) r.1)) <$>
  data_on granting granting next_address next_item (OfStream address_3) 40000 closed1 = Some (0, 40000, Some 25535).
Proof. by vm_compute. Qed.

(** ** What the definitions showed *)

(** Sizes above 2 ^ 32 pass the check on what an application consumes. *)
Lemma huge_size_consumed : (fun r : nghttp2_session * Z => (r.2, consumed_size r.1)) <$>
  session_update_connection_consumed_size granting granting next_address next_item (2 ^ 32) closed1 = Some (0, 0).
Proof. by vm_compute. Qed.

(** A stream's window of 2 ^ 31 - 1 octets that the application closes, and
    that the acknowledged SETTINGS then shrink: the subtraction that checks
    the next two octets overflows. *)
Lemma negative_window_overflows :
  nghttp2_adjust_local_window_size (mk_window INT32_MAX 0 0 (- INT32_MAX)) = Some (mk_window 0 (- INT32_MAX) INT32_MAX 0, 0) /\
  update_initial_window_size 0 0 INT32_MAX = (- INT32_MAX, 0) /\
  adjust_recv_window_size (- INT32_MAX) 2 (- INT32_MAX) = None.
Proof. split_and!; by vm_compute. Qed.
