(* ===== verification/SessionDrift.v ===== *)
(** * Sessions: what the operations on streams leave alone

    Opening, closing, trimming and reprioritizing streams touch neither the
    settings nor the identifiers, windows, limits and queues of the session;
    the windows of a stream stay what they are, or are those of a new stream;
    and a stream or two more are in memory at most. *)

From S2P Require Import Prelude Defs Pq Frame Http Stream StreamLinks StreamQueue StreamTree StreamItems StreamFrame.
From S2P Require Import Outbound Session SessionInv SessionTree SessionBooks SessionForest SessionOpen SessionClose SessionSend.

Implicit Types (a id it : Z) (s : nghttp2_stream) (ss : nghttp2_session) (h : gmap Z nghttp2_stream).

(** ** Relations between the sessions before and after *)

Definition gives {A} (R : nghttp2_session -> nghttp2_session -> Prop) (m : se_m A) : Prop := forall ss ss' (x : A), m ss = Some (ss', x) -> R ss ss'.

Lemma sp_gives {A} (m : se_m A) ss R (Q : A -> nghttp2_session -> Prop) : gives R m -> sp m ss Q -> sp m ss (fun x ss' => R ss ss' /\ Q x ss').
Proof. intros HR. unfold sp. destruct (m ss) as [[ss' x]|] eqn:E; [|done]. intros HQ. split; [by eapply HR|done]. Qed.

Lemma gives_mono {A} (m : se_m A) (R R' : nghttp2_session -> nghttp2_session -> Prop) : gives R m -> (forall ss ss', R ss ss' -> R' ss ss') -> gives R' m.
Proof. intros H HR ss ss' x E. by eapply HR, H. Qed.

Section Gives.
Context (R : nghttp2_session -> nghttp2_session -> Prop) `{!PreOrder R}.

Lemma gives_ret {A} (x : A) : gives R (mret x).
Proof. intros ss ss' y [= <- _]. reflexivity. Qed.

Lemma then_split {A B} (m : se_m A) (k : A -> se_m B) ss ss' y : se_then m k ss = Some (ss', y) -> exists ss1 x, m ss = Some (ss1, x) /\ k x ss1 = Some (ss', y).
Proof using. unfold se_then, mbind, se_bind. destruct (m ss) as [[ss1 x]|]; [eauto|done]. Qed.

Lemma gives_then {A B} (m : se_m A) (k : A -> se_m B) : gives R m -> (forall x, gives R (k x)) -> gives R (se_then m k).
Proof. intros Hm Hk ss ss' y. unfold se_then, mbind, se_bind. destruct (m ss) as [[ss1 x]|] eqn:E; [|done]. intros E'. etrans; [by eapply Hm|by eapply Hk]. Qed.

Lemma gives_bind {A B} (m : se_m A) (k : A -> se_m B) : gives R m -> (forall x, gives R (k x)) -> gives R (mbind k m).
Proof. apply gives_then. Qed.

Lemma gives_undef {A} : gives R (se_undef (A := A)).
Proof. done. Qed.

Lemma gives_assert b : gives R (se_assert b).
Proof. destruct b; [apply gives_ret|apply gives_undef]. Qed.

Lemma gives_session : gives R the_session.
Proof. intros ss ss' y [= <- _]. reflexivity. Qed.

Lemma gives_update f : (forall ss, R ss (f ss)) -> gives R (update f).
Proof. intros Hf ss ss' y [= <- _]. apply Hf. Qed.

End Gives.

(** ** Windows of streams *)

Definition flow_of s : stream_flow := st_flow s.

#[global] Instance flow_off_items : OffItems flow_of.
Proof. by split; [split|..]. Qed.

Section Keeps.
Context {B} (f : nghttp2_stream -> B) `{OffItems B f}.

Lemma keeps_attach_item (ok : nat -> bool) a it : keeps f (nghttp2_stream_attach_item ok a it).
Proof using All.
  unfold nghttp2_stream_attach_item, stream_update_dep_on_attach_item. keeps_steps.
  all: try (apply keeps_modify; intros; apply (off_item (f := f))). apply keeps_obq_push. apply _.
Qed.

Lemma keeps_detach_item a : keeps f (nghttp2_stream_detach_item a).
Proof using All.
  unfold nghttp2_stream_detach_item, stream_update_dep_on_detach_item. keeps_steps.
  all: try (apply keeps_modify; intros; first [apply (off_item (f := f))|apply (off_flags (f := f))]). apply keeps_obq_remove. apply _.
Qed.

Lemma keeps_defer_item a fl : keeps f (nghttp2_stream_defer_item a fl).
Proof using All.
  unfold nghttp2_stream_defer_item, stream_update_dep_on_detach_item. keeps_steps.
  all: try (apply keeps_modify; intros; apply (off_flags (f := f))). apply keeps_obq_remove. apply _.
Qed.

Lemma keeps_resume_item (ok : nat -> bool) a fl : keeps f (nghttp2_stream_resume_deferred_item ok a fl).
Proof using All.
  unfold nghttp2_stream_resume_deferred_item, stream_update_dep_on_attach_item. keeps_steps.
  all: try (apply keeps_modify; intros; apply (off_flags (f := f))). apply keeps_obq_push. apply _.
Qed.

End Keeps.

(** ** What stays *)

Definition opened_flow ss : stream_flow :=
  mk_flow (to_int32 (initial_window_size (remote_settings ss))) (to_int32 (initial_window_size (local_settings ss))) 0 0 0 0.

Record drift ss ss' : Prop := {
  dr_conf : se_conf ss' = se_conf ss;
  dr_ids : se_ids ss' = se_ids ss;
  dr_flow : se_flow ss' = se_flow ss;
  dr_limits : se_limits ss' = se_limits ss;
  dr_ign : ign_all ss' = ign_all ss;
  dr_queues : forall k, ob_get k ss' = ob_get k ss;
  dr_items : forall it i, ob_items ss' !! it = Some i -> ob_items ss !! it = Some i;
  dr_held : forall it i, ob_items ss !! it = Some i -> it_queued i <> 0 -> ob_items ss' !! it = Some i;
  dr_zero : stream_map ss !! 0 = None -> stream_map ss' !! 0 = None;
  dr_flows : forall a s', se_streams ss' !! a = Some s' -> st_flow s' = opened_flow ss \/ exists s, se_streams ss !! a = Some s /\ st_flow s' = st_flow s;
}.

#[global] Instance drift_preorder : PreOrder drift.
Proof.
  split; [intros ss; split; try done; eauto|]. intros x y z [A1 A2 A3 A4 A5 A6 A7 A8 A9 AA] [B1 B2 B3 B4 B5 B6 B7 B8 B9 BA].
  split; try congruence; try (intros k; by rewrite B6); eauto. intros a s Hs. destruct (BA a s Hs) as [E|(s1 & H1 & E)]; [left; rewrite E; unfold opened_flow; by rewrite A1|].
  destruct (AA a s1 H1) as [E1|(s0 & H0 & E1)]; [left; congruence|right; exists s0; split; [done|congruence]].
Qed.

Lemma drift_same_streams ss ss' : se_streams ss' = se_streams ss -> se_conf ss' = se_conf ss -> se_ids ss' = se_ids ss -> se_flow ss' = se_flow ss ->
  se_limits ss' = se_limits ss -> ign_all ss' = ign_all ss -> se_ob ss' = se_ob ss -> (stream_map ss !! 0 = None -> stream_map ss' !! 0 = None) -> drift ss ss'.
Proof. intros E1 E2 E3 E4 E5 E6 E7 E8. split; try done; rewrite ?E7, ?E1; try done; eauto. Qed.

Lemma drift_world ss w : flow_of <$> streams w = flow_of <$> se_streams ss -> drift ss (world_to w ss).
Proof.
  intros E. split; try done; eauto. intros a s Hs. right. apply (f_equal (fun m => m !! a)) in E.
  rewrite !lookup_fmap in E. change (streams w !! a = Some s) in Hs. rewrite Hs in E. destruct (se_streams ss !! a) as [s0|]; [|done].
  simpl in E. exists s0. split; [done|]. unfold flow_of in E. congruence.
Qed.

(** At most [n] more streams are in memory. *)
Definition grown (n : nat) ss ss' : Prop := (size (se_streams ss') <= n + size (se_streams ss))%nat.

#[global] Instance grown_preorder : PreOrder (grown 0).
Proof. split; [intros ss; unfold grown; lia|]. intros x y z. unfold grown. lia. Qed.

Lemma gives_grown_then {A B} n1 n2 n (m : se_m A) (k : A -> se_m B) : gives (grown n1) m -> (forall x, gives (grown n2) (k x)) -> (n1 + n2 <= n)%nat -> gives (grown n) (se_then m k).
Proof.
  intros Hm Hk Hn ss ss' y. unfold se_then, mbind, se_bind. destruct (m ss) as [[ss1 x]|] eqn:E; [|done]. intros E'.
  pose proof (Hm _ _ _ E). pose proof (Hk _ _ _ _ E'). unfold grown in *. lia.
Qed.

Definition still_size ss ss' : Prop := drift ss ss' /\ grown 0 ss ss'.

#[global] Instance still_size_preorder : PreOrder still_size.
Proof. split; [intros ss; split; reflexivity|]. intros x y z [A1 A2] [B1 B2]. split; by etrans. Qed.

(** ** The steps of the operations *)

Lemma gives_on_streams {A} (m : st_m A) : keeps flow_of m -> gives still_size (on_streams m).
Proof.
  intros Hm ss ss' x. unfold on_streams. destruct (m (se_world ss)) as [[w y]|] eqn:E; [|done]. intros [= <- _]. apply Hm in E.
  split; [by apply drift_world|]. unfold grown. apply (f_equal size) in E. rewrite !map_size_fmap in E. unfold se_streams. simpl. lia.
Qed.

Lemma gives_load a : gives still_size (load_stream a).
Proof. apply gives_on_streams, keeps_load. Qed.

Lemma gives_modify a f : (forall s, st_flow (f s) = st_flow s) -> gives still_size (modify_stream a f).
Proof. intros Hf. apply gives_on_streams, keeps_modify. exact Hf. Qed.

Lemma gives_counts f : gives still_size (update (upd_counts f)).
Proof. apply gives_update. intros ss. split; [by apply drift_same_streams|by unfold grown]. Qed.

Lemma gives_counts_of (f : nghttp2_session -> session_counts -> session_counts) : gives still_size (update (fun ss => upd_counts (f ss) ss)).
Proof. apply gives_update. intros ss. split; [by apply drift_same_streams|by unfold grown]. Qed.

Lemma gives_lists f : gives still_size (update (upd_lists f)).
Proof. apply gives_update. intros ss. split; [by apply drift_same_streams|by unfold grown]. Qed.

Lemma gives_lists_of (f : nghttp2_session -> session_lists -> session_lists) : gives still_size (update (fun ss => upd_lists (f ss) ss)).
Proof. apply gives_update. intros ss. split; [by apply drift_same_streams|by unfold grown]. Qed.

Lemma gives_forget id : gives still_size (update (fun ss => stream_map_to (delete id (stream_map ss)) ss)).
Proof.
  apply gives_update. intros ss. split; [|by unfold grown]. apply drift_same_streams; try done. intros H0. simpl.
  rewrite lookup_delete. by case_decide.
Qed.

Lemma gives_free a : gives still_size (update (fun ss => world_to (mk_world (delete a (se_streams ss)) (pushes (se_world ss))) ss)).
Proof.
  apply gives_update. intros ss. split.
  - split; try done; eauto. intros b s Hs. right. unfold se_streams in Hs. simpl in Hs. apply lookup_delete_Some in Hs as [_ Hs]. eauto.
  - unfold grown. apply (map_subseteq_size (delete a (se_streams ss))), delete_subseteq.
Qed.

Lemma gives_malloc malloc_ok : gives still_size (mem_malloc malloc_ok).
Proof. intros ss ss' x [= <- _]. split; [by apply drift_same_streams|by unfold grown]. Qed.

Create HintDb tidy discriminated.
#[export] Hint Resolve gives_ret gives_undef gives_assert gives_session gives_load gives_counts gives_counts_of gives_lists gives_lists_of gives_forget
  gives_free gives_malloc : tidy.
#[export] Hint Extern 1 (PreOrder _) => typeclasses eauto : tidy.
#[export] Hint Extern 1 (gives _ (modify_stream _ _)) => apply gives_modify; reflexivity : tidy.

(** Splits a program at its binds and tests. *)
Ltac tidy_steps :=
  repeat (cbv zeta; first
    [ solve [auto with tidy]
    | match goal with
      | |- gives _ (se_then _ _) => apply gives_then; [typeclasses eauto| |intros ?]
      | |- gives _ (mbind _ _) => apply gives_bind; [typeclasses eauto| |intros ?]
      | |- gives _ (if ?b then _ else _) => destruct b
      | |- gives _ (match ?x with _ => _ end) => destruct x
      | |- gives _ (let '(_, _) := ?x in _) => destruct x
      end ]).

(** ** The operations *)

Lemma sched_write_flows i pq n ss h : items pq = h -> flow_of <$> se_streams (sched_write i pq n ss) = flow_of <$> h.
Proof.
  intros <-. unfold sched_write, se_streams, items. simpl. apply map_eq. intros a. rewrite !lookup_fmap. by destruct (entries pq !! a).
Qed.

Lemma sched_items h qu cap : items (mk_pq qu cap (sched_entries h)) = h.
Proof. unfold items, sched_entries. simpl. apply map_eq. intros a. rewrite !lookup_fmap. by destruct (h !! a). Qed.

Lemma sched_write_still i pq n ss : items pq = se_streams ss -> still_size ss (sched_write i pq n ss).
Proof.
  intros E. pose proof (sched_write_flows i pq n ss _ E) as EF. split.
  - etrans; [apply (drift_world ss (se_world (sched_write i pq n ss))); exact EF|]. by apply drift_same_streams.
  - unfold grown. apply (f_equal size) in EF. rewrite !map_size_fmap in EF. lia.
Qed.

(** *** With more streams *)

Definition grows (n : nat) ss ss' : Prop := drift ss ss' /\ grown n ss ss'.

Lemma still_grows {A} n (m : se_m A) : gives still_size m -> gives (grows n) m.
Proof. intros H. eapply gives_mono; [exact H|]. intros ss ss' [H1 H2]. split; [done|]. unfold grown in *. lia. Qed.

Lemma grows_then {A B} n1 n2 n (m : se_m A) (k : A -> se_m B) : gives (grows n1) m -> (forall x, gives (grows n2) (k x)) -> (n1 + n2 <= n)%nat ->
  gives (grows n) (se_then m k).
Proof.
  intros Hm Hk Hn ss ss' y. unfold se_then, mbind, se_bind. destruct (m ss) as [[ss1 x]|] eqn:E; [|done]. intros E'.
  destruct (Hm _ _ _ E), (Hk _ _ _ _ E'). split; [by etrans|]. unfold grown in *. lia.
Qed.

Lemma drifts_bind {A B} n1 n2 n (m : se_m A) (k : A -> se_m B) : gives (grows n1) m -> (forall x, gives (grows n2) (k x)) -> (n1 + n2 <= n)%nat ->
  gives (grows n) (mbind k m).
Proof. apply grows_then. Qed.

Lemma grows_step {A B} n (m : se_m A) (k : A -> se_m B) : gives still_size m -> (forall x, gives (grows n) (k x)) -> gives (grows n) (mbind k m).
Proof. intros Hm Hk. apply (drifts_bind 0 n); [by apply still_grows|exact Hk|lia]. Qed.

Lemma grows_after {A B} n (m : se_m A) (k : A -> se_m B) : gives still_size m -> (forall x, gives (grows n) (k x)) -> gives (grows n) (se_then m k).
Proof. intros Hm Hk. apply (grows_then 0 n); [by apply still_grows|exact Hk|lia]. Qed.

Section Operations.
Context (realloc_ok malloc_ok : nat -> bool) (new_stream : gmap Z nghttp2_stream -> Z).

Lemma gives_sched_push i a : gives still_size (sched_push realloc_ok i a).
Proof using.
  intros ss ss' rv. unfold sched_push. destruct (sched ss !! i) as [[qu cap]|]; [|done]. simpl. destruct (nghttp2_pq_push _ _ _ _) as [pq r] eqn:E.
  intros [= <- _]. apply sched_write_still. by rewrite (push_items _ _ _ _ _ _ E), sched_items.
Qed.

Lemma gives_sched_remove i a : gives still_size (sched_remove i a).
Proof using.
  intros ss ss' rv. unfold sched_remove. destruct (sched ss !! i) as [[qu cap]|]; [|done]. simpl. destruct (nghttp2_pq_remove _ _ _) as [pq|] eqn:E; [|done].
  intros [= <- _]. apply sched_write_still. by rewrite (remove_items _ _ _ _ E), sched_items.
Qed.
Hint Resolve gives_sched_push gives_sched_remove : tidy.

Lemma gives_data_remove a : gives still_size (session_ob_data_remove a).
Proof using. unfold session_ob_data_remove. tidy_steps. Qed.
Lemma gives_data_push a : gives still_size (session_ob_data_push realloc_ok a).
Proof using. unfold session_ob_data_push. tidy_steps. Qed.
Hint Resolve gives_data_remove gives_data_push : tidy.

Lemma gives_detach a : gives still_size (session_detach_stream_item a).
Proof using. unfold session_detach_stream_item. tidy_steps. apply gives_on_streams, keeps_detach_item. apply _. Qed.
Lemma gives_attach a it : gives still_size (session_attach_stream_item realloc_ok a it).
Proof using.
  unfold session_attach_stream_item. tidy_steps; apply gives_on_streams; [apply keeps_attach_item|apply keeps_detach_item]; apply _.
Qed.
Lemma gives_resume a fl : gives still_size (session_resume_deferred_stream_item realloc_ok a fl).
Proof using. unfold session_resume_deferred_stream_item. tidy_steps. apply gives_on_streams, keeps_resume_item. apply _. Qed.
Lemma gives_stream_priority a p : gives still_size (session_update_stream_priority realloc_ok a p).
Proof using. unfold session_update_stream_priority. tidy_steps. Qed.
Hint Resolve gives_detach gives_attach gives_resume : tidy.

Lemma gives_destroy a : gives still_size (nghttp2_session_destroy_stream realloc_ok a).
Proof using. unfold nghttp2_session_destroy_stream. tidy_steps. apply gives_on_streams, keeps_dep_remove; apply _. Qed.

Lemma gives_link_behind t a : gives still_size (link_behind t a).
Proof using. unfold link_behind. tidy_steps. Qed.
Hint Resolve gives_destroy gives_link_behind : tidy.

Lemma gives_keep_closed a : gives still_size (nghttp2_session_keep_closed_stream a).
Proof using. unfold nghttp2_session_keep_closed_stream. tidy_steps. Qed.
Lemma gives_keep_idle a : gives still_size (nghttp2_session_keep_idle_stream a).
Proof using. unfold nghttp2_session_keep_idle_stream. tidy_steps. Qed.
Lemma gives_detach_idle a : gives still_size (nghttp2_session_detach_idle_stream a).
Proof using. unfold nghttp2_session_detach_idle_stream. tidy_steps. Qed.
Hint Resolve gives_keep_closed gives_keep_idle gives_detach_idle : tidy.

Lemma gives_release it : gives still_size (release_item it).
Proof using.
  intros ss ss' x. unfold release_item. unfold se_then, the_session, mbind, se_bind. destruct (ob_items ss !! it) as [i|] eqn:Ei; [|done].
  destruct (Z.eqb_spec (it_queued i) 0) as [Hq|Hq]; simpl; [|intros [= <- _]; reflexivity]. case_bool_decide; [|intros [= <- _]; reflexivity].
  intros [= <- _]. split; [|by unfold grown]. split; try done.
  - intros it' j. simpl. by intros [_ Hj]%lookup_delete_Some.
  - intros it' j Hj Hq'. simpl. apply lookup_delete_Some. split; [|done]. intros <-. congruence.
  - eauto.
Qed.
Hint Resolve gives_release : tidy.

Lemma gives_adjust_closed : gives still_size (nghttp2_session_adjust_closed_stream realloc_ok).
Proof using.
  unfold nghttp2_session_adjust_closed_stream. apply gives_then; [typeclasses eauto|apply gives_session; typeclasses eauto|]. intros ss.
  generalize (size (se_streams ss)) as fuel. intros fuel. cbv zeta. generalize (if max_concurrent_streams (local_settings ss) =? NGHTTP2_DEFAULT_MAX_CONCURRENT_STREAMS
    then pending_local_max_concurrent_stream ss else max_concurrent_streams (local_settings ss)) as n. intros n. clear ss.
  induction fuel as [|fuel IH]; cbn [adjust_closed_loop]; tidy_steps; exact IH.
Qed.

Lemma gives_adjust_idle : gives still_size (nghttp2_session_adjust_idle_stream realloc_ok).
Proof using.
  unfold nghttp2_session_adjust_idle_stream. apply gives_then; [typeclasses eauto|apply gives_session; typeclasses eauto|]. intros ss.
  generalize (size (se_streams ss)) as fuel. intros fuel. generalize (max_idle_streams ss) as n. intros n. clear ss.
  induction fuel as [|fuel IH]; cbn [adjust_idle_loop]; tidy_steps; exact IH.
Qed.

(** *** Opening *)

Lemma gives_reopen a : gives still_size (reopen_idle_stream realloc_ok a).
Proof using. unfold reopen_idle_stream. tidy_steps. apply gives_on_streams, keeps_dep_remove; apply _. Qed.

Lemma gives_count_opened id a st : gives still_size (count_opened id a st).
Proof using. unfold count_opened, nghttp2_stream_shutdown. tidy_steps; apply gives_on_streams, keeps_modify; done. Qed.
Hint Resolve gives_reopen gives_count_opened : tidy.

Lemma gives_map_insert id a : id <> 0 -> gives still_size (map_insert malloc_ok id a).
Proof using.
  intros Hid. unfold map_insert. tidy_steps. apply gives_update. intros ss. split; [|by unfold grown]. apply drift_same_streams; try done.
  intros H0. simpl. by rewrite lookup_insert_ne.
Qed.

Lemma gives_new_stream id fl st n ud a : gives (grows 1) (update (fun ss => world_to (mk_world (<[a :=
        nghttp2_stream_init id fl st n (to_int32 (initial_window_size (remote_settings ss))) (to_int32 (initial_window_size (local_settings ss))) ud]>
        (se_streams ss)) (pushes (se_world ss))) ss)).
Proof using.
  apply gives_update. intros ss. split.
  - split; try done; eauto. intros b s Hs. change (<[a := nghttp2_stream_init id fl st n (to_int32 (initial_window_size (remote_settings ss)))
      (to_int32 (initial_window_size (local_settings ss))) ud]> (se_streams ss) !! b = Some s) in Hs.
    apply lookup_insert_Some in Hs as [[_ <-]|[_ Hs]]; [by left|right; eauto].
  - unfold grown. set (s := nghttp2_stream_init _ _ _ _ _ _ _). change (size (<[a := s]> (se_streams ss)) <= 1 + size (se_streams ss))%nat.
    destruct (se_streams ss !! a) eqn:E; [rewrite map_size_insert_Some by eauto; lia|rewrite map_size_insert_None by done; lia].
Qed.

Lemma gives_place found id fl pri st ud : id <> 0 -> gives (grows 1) (place_stream malloc_ok new_stream found id fl pri st ud).
Proof using.
  intros Hid. unfold place_stream. destruct found as [a|]; [apply still_grows; tidy_steps|].
  apply grows_after; [auto with tidy|]. intros ss. cbv zeta. apply (drifts_bind 1 0); [apply gives_new_stream|intros _|lia].
  apply still_grows. pose proof (gives_map_insert id (new_stream (se_streams ss)) Hid). tidy_steps; assumption.
Qed.

Lemma gives_find_dep n f pri : (forall id, id <> 0 -> gives (grows n) (f id)) -> gives (grows n) (find_dep_stream f pri).
Proof using realloc_ok malloc_ok.
  intros Hf. unfold find_dep_stream. apply grows_after; [unfold nghttp2_session_get_stream_raw; tidy_steps|]. intros dep. apply grows_after; [auto with tidy|].
  intros ss. destruct dep as [d|]; [apply still_grows; tidy_steps|]. destruct (session_detect_idle_stream ss (ps_stream_id pri)) eqn:E; [|apply still_grows; tidy_steps].
  apply (grows_then n 0); [apply Hf|intros r; apply still_grows; tidy_steps|lia]. intros E0. rewrite E0 in E. done.
Qed.

Lemma gives_open_loop depth : forall id fl pri st ud, id <> 0 -> gives (grows depth) (open_stream_loop realloc_ok malloc_ok new_stream depth id fl pri st ud).
Proof using.
  induction depth as [|depth IH]; intros id fl pri st ud Hid; cbn [open_stream_loop]; [done|].
  apply grows_after; [unfold nghttp2_session_get_stream_raw; tidy_steps|]. intros found. apply grows_after; [auto with tidy|]. intros ss.
  apply grows_after; [tidy_steps|]. intros ready. destruct ready; simpl negb; cbn iota; [|apply still_grows; tidy_steps].
  apply grows_after; [auto with tidy|]. intros ss1. apply (grows_then depth 1); [|intros target|lia].
  - case_match; [apply still_grows; tidy_steps|]. apply gives_find_dep. intros d Hd. by apply IH.
  - destruct target as [[dep pri']|]; [|apply still_grows; tidy_steps]. apply (grows_then 1 0); [by apply gives_place|intros placed|lia].
    apply still_grows. tidy_steps; apply gives_on_streams; first [apply keeps_dep_insert|apply keeps_dep_add]; apply _.
Qed.

Lemma gives_open_stream id fl pri st ud : id <> 0 -> gives (grows 2) (nghttp2_session_open_stream realloc_ok malloc_ok new_stream id fl pri st ud).
Proof using. apply gives_open_loop. Qed.

Lemma gives_reprioritize a pri : gives (grows 2) (nghttp2_session_reprioritize_stream realloc_ok malloc_ok new_stream a pri).
Proof using.
  unfold nghttp2_session_reprioritize_stream. apply grows_after; [auto with tidy|]. intros ss. apply grows_step; [auto with tidy|]. intros _.
  apply grows_after; [auto with tidy|]. intros s. apply grows_step; [auto with tidy|]. intros _. destruct (negb (nghttp2_stream_in_dep_tree s)); [apply still_grows; tidy_steps|].
  apply (grows_then 2 0); [|intros target; apply still_grows|lia].
  - case_match; [apply still_grows; tidy_steps|]. apply gives_find_dep. intros id Hid. by apply gives_open_stream.
  - tidy_steps; apply gives_on_streams; first [apply keeps_find_ancestor|apply keeps_dep_remove_subtree|apply keeps_deref|apply keeps_dep_add_subtree|
      apply keeps_change_weight|apply keeps_dep_insert_subtree]; apply _.
Qed.

(** *** Closing *)

Lemma gives_eq_load a : gives eq (load_stream a).
Proof using. intros ss ss' x. unfold load_stream, on_streams, load. destruct (streams (se_world ss) !! a); [|done]. intros [= <- _]. by destruct ss. Qed.

Lemma gives_eq_get id : gives eq (nghttp2_session_get_stream id).
Proof using.
  unfold nghttp2_session_get_stream. apply gives_then; [typeclasses eauto|apply gives_session; typeclasses eauto|]. intros ss.
  destruct (stream_map ss !! id); [|apply gives_ret; typeclasses eauto]. apply gives_then; [typeclasses eauto|apply gives_eq_load|]. intros s.
  case_match; apply gives_ret; typeclasses eauto.
Qed.

(** After the callback. *)
Lemma close_stream_drift callback id err ss ss' rv : nghttp2_session_close_stream realloc_ok callback id err ss = Some (ss', rv) ->
  ss' = ss \/ exists rc ss1, called_back callback id err ss rc ss1 /\ still_size ss1 ss'.
Proof using.
  unfold nghttp2_session_close_stream. intros (ss0 & found & Eg & E)%then_split. apply gives_eq_get in Eg as <-.
  destruct found as [a|]; [|injection E as <- _; by left]. apply then_split in E as (ss1 & rc & Ec & E). right. exists rc, ss1. split.
  - unfold called_back. destruct callback; [done|]. by injection Ec as <- <-.
  - clear Ec. match type of E with ?m ss1 = _ => assert (gives still_size m) as H end; [|by eapply H].
    destruct (negb (rc =? 0)); [auto with tidy|]. tidy_steps.
Qed.

Lemma gives_close_none id err : gives still_size (nghttp2_session_close_stream realloc_ok None id err).
Proof using. intros ss ss' rv E. destruct (close_stream_drift _ _ _ _ _ _ E) as [->|(rc & ss1 & [-> _] & H)]; [reflexivity|done]. Qed.

End Operations.
