(* ===== verification/SessionAge.v ===== *)
(** * Sessions: streams keep their ids and states

    What the operations on streams do to the ids and the states of the other
    streams, and to the flag of those that were promised: nothing.  New streams are idle, or the one that was asked for,
    and a stream leaves memory only by an operation that may release it. *)

From S2P Require Import Prelude Defs Pq Frame Http Stream StreamLinks StreamQueue StreamTree StreamItems StreamFrame.
From S2P Require Import Outbound Session SessionInv SessionTree SessionBooks SessionForest SessionOpen SessionClose SessionReach SessionSend SessionDrift.

Implicit Types (a b id it : Z) (s : nghttp2_stream) (ss : nghttp2_session) (st : nghttp2_stream_state).

Definition key s : Z * nghttp2_stream_state * bool := (stream_id s, state s, is_promised s).

#[global] Instance key_off_tree : OffTree key.
Proof. by split. Qed.

Lemma no_item_key v s : key (flags_to (u8 (sm_flags s .& Z.lnot NGHTTP2_STREAM_FLAG_DEFERRED_ALL)) (item_to v s)) = key s.
Proof. unfold key, is_promised, flag_set. do 3 f_equal. simpl. by rewrite u8_land, <- Z.land_assoc by done. Qed.

Lemma raised_key s f : f = NGHTTP2_STREAM_FLAG_CLOSED \/ f = NGHTTP2_STREAM_FLAG_NO_RFC7540_PRIORITIES -> key (flags_to (u8 (sm_flags s .| f)) s) = key s.
Proof. intros [-> | ->]; unfold key, is_promised, flag_set; do 3 f_equal; simpl; by rewrite u8_land, Z.land_lor_distr_l, Z.lor_0_r by done. Qed.

Lemma keeps_key_detach a : keeps key (nghttp2_stream_detach_item a).
Proof.
  intros w w' u. unfold nghttp2_stream_detach_item. destruct (streams w !! a) as [s|] eqn:Ha.
  2: { unfold mbind at 1, st_bind, modify. by rewrite Ha. }
  rewrite (run_modify _ _ _ _ _ Ha). rewrite (run_modify _ _ (item_to None s)) by (simpl; by rewrite lookup_insert_eq). simpl. rewrite insert_insert_eq.
  set (s' := flags_to _ _). intros E. transitivity (key <$> <[a := s']> (streams w)).
  - match type of E with ?m ?w0 = _ => assert (keeps key m) as HK; [|exact (HK _ _ _ E)] end.
    unfold stream_update_dep_on_detach_item. keeps_steps. apply keeps_obq_remove. apply _.
  - eapply insert_keeps; [exact Ha|apply no_item_key].
Qed.

Section Track.

(** [P] holds of the addresses, ids and states of new streams, [D] of the
    addresses of the streams that may be released. *)
Context (P : Z -> Z -> nghttp2_stream_state -> Prop) (D : Z -> Prop).

Record tracks ss ss' : Prop := {
  tk_old : forall b s', se_streams ss' !! b = Some s' ->
    P b (stream_id s') (state s') \/ exists s, se_streams ss !! b = Some s /\ key s' = key s;
  tk_stay : forall b, is_Some (se_streams ss !! b) -> D b \/ is_Some (se_streams ss' !! b);
}.

#[global] Instance tracks_preorder : PreOrder tracks.
Proof using.
  split; [intros ss; split; eauto|]. intros x y z [A1 A2] [B1 B2]. split.
  - intros b s2 H2. destruct (B1 b s2 H2) as [?|(s1 & H1 & E1)]; [by left|]. destruct (A1 b s1 H1) as [HP|(s & H0 & E0)]; [|right; exists s; split; [done|congruence]].
    left. unfold key in E1. simplify_eq. congruence.
  - intros b Hb. destruct (A2 b Hb) as [?|H1]; [by left|]. by apply B2.
Qed.

Lemma tracks_same ss ss' : key <$> se_streams ss' = key <$> se_streams ss -> tracks ss ss'.
Proof using.
  intros E. assert (forall b, key <$> se_streams ss' !! b = key <$> se_streams ss !! b) as Eb by (intros b; by rewrite <- !lookup_fmap, E). split.
  - intros b s Hs. right. specialize (Eb b). rewrite Hs in Eb. destruct (se_streams ss !! b) as [s0|]; [|done]. exists s0. split; [done|]. simpl in Eb. congruence.
  - intros b Hb. right. apply (fmap_is_Some key). rewrite Eb. by apply fmap_is_Some.
Qed.

Lemma track_on_streams {A} (m : st_m A) : keeps key m -> gives tracks (on_streams m).
Proof using.
  intros Hm ss ss' x. unfold on_streams. destruct (m (se_world ss)) as [[w y]|] eqn:E; [|done]. intros [= <- _]. apply Hm in E. by apply tracks_same.
Qed.

Lemma track_load a : gives tracks (load_stream a).
Proof using. apply track_on_streams, keeps_load. Qed.

Lemma track_modify a (f : nghttp2_stream -> nghttp2_stream) : (forall s, key (f s) = key s) -> gives tracks (modify_stream a f).
Proof using. intros Hf. apply track_on_streams, keeps_modify. exact Hf. Qed.

Lemma track_update (f : nghttp2_session -> nghttp2_session) : (forall ss, se_streams (f ss) = se_streams ss) -> gives tracks (update f).
Proof using. intros Hf. apply gives_update. intros ss. apply tracks_same. by rewrite Hf. Qed.

Lemma track_free a : D a -> gives tracks (update (fun ss => world_to (mk_world (delete a (se_streams ss)) (pushes (se_world ss))) ss)).
Proof using.
  intros HD. apply gives_update. intros ss. split.
  - intros b s Hs. change (delete a (se_streams ss) !! b = Some s) in Hs. apply lookup_delete_Some in Hs as [_ Hs]. right. by exists s.
  - intros b Hb. destruct (decide (b = a)) as [->|Hne]; [by left|]. right. change (is_Some (delete a (se_streams ss) !! b)). by rewrite lookup_delete_ne.
Qed.

Lemma track_malloc malloc_ok : gives tracks (mem_malloc malloc_ok).
Proof using. intros ss ss' x [= <- _]. by apply tracks_same. Qed.

Lemma track_sched_write i pq n ss : items pq = se_streams ss -> tracks ss (sched_write i pq n ss).
Proof using.
  intros E. apply tracks_same. rewrite <- E. unfold sched_write, se_streams, items. simpl. apply map_eq. intros b. rewrite !lookup_fmap. by destruct (entries pq !! b).
Qed.

Hint Resolve gives_ret gives_undef gives_assert gives_session track_load track_malloc : tidy.
Hint Extern 1 (gives _ (modify_stream _ _)) => apply track_modify; reflexivity : tidy.
Hint Extern 1 (gives _ (update _)) => apply track_update; reflexivity : tidy.

Context (realloc_ok malloc_ok : nat -> bool) (new_stream : gmap Z nghttp2_stream -> Z).

Lemma track_sched_push i a : gives tracks (sched_push realloc_ok i a).
Proof using.
  intros ss ss' rv. unfold sched_push. destruct (sched ss !! i) as [[qu cap]|]; [|done]. simpl. destruct (nghttp2_pq_push _ _ _ _) as [pq r] eqn:E.
  intros [= <- _]. apply track_sched_write. by rewrite (push_items _ _ _ _ _ _ E), sched_items.
Qed.

Lemma track_sched_remove i a : gives tracks (sched_remove i a).
Proof using.
  intros ss ss' rv. unfold sched_remove. destruct (sched ss !! i) as [[qu cap]|]; [|done]. simpl. destruct (nghttp2_pq_remove _ _ _) as [pq|] eqn:E; [|done].
  intros [= <- _]. apply track_sched_write. by rewrite (remove_items _ _ _ _ E), sched_items.
Qed.
Hint Resolve track_sched_push track_sched_remove : tidy.

Lemma track_data_remove a : gives tracks (session_ob_data_remove a).
Proof using. unfold session_ob_data_remove. tidy_steps. Qed.
Lemma track_data_push a : gives tracks (session_ob_data_push realloc_ok a).
Proof using. unfold session_ob_data_push. tidy_steps. Qed.
Hint Resolve track_data_remove track_data_push : tidy.

Lemma track_detach a : gives tracks (session_detach_stream_item a).
Proof using. unfold session_detach_stream_item. tidy_steps. apply track_on_streams, keeps_key_detach. Qed.

Lemma track_destroy a : D a -> gives tracks (nghttp2_session_destroy_stream realloc_ok a).
Proof using. 
  intros HD. pose proof (track_free a HD). unfold nghttp2_session_destroy_stream. tidy_steps; first [apply track_on_streams, keeps_dep_remove; apply _|assumption].
 Qed.

Lemma track_keep_closed a : gives tracks (nghttp2_session_keep_closed_stream a).
Proof using. unfold nghttp2_session_keep_closed_stream, link_behind. tidy_steps. Qed.
Lemma track_keep_idle a : gives tracks (nghttp2_session_keep_idle_stream a).
Proof using. unfold nghttp2_session_keep_idle_stream, link_behind. tidy_steps. Qed.
Lemma track_detach_idle a : gives tracks (nghttp2_session_detach_idle_stream a).
Proof using. unfold nghttp2_session_detach_idle_stream. tidy_steps. Qed.
Hint Resolve track_detach track_keep_closed track_keep_idle track_detach_idle : tidy.

Lemma track_release it : gives tracks (release_item it).
Proof using. unfold release_item. tidy_steps. Qed.
Hint Resolve track_release : tidy.

(** *** Trimming *)

Lemma track_adjust_closed : (forall b, D b) -> gives tracks (nghttp2_session_adjust_closed_stream realloc_ok).
Proof using.
  intros HD. unfold nghttp2_session_adjust_closed_stream. apply gives_then; [typeclasses eauto|apply gives_session; typeclasses eauto|]. intros ss. cbv zeta.
  generalize (size (se_streams ss)) as fuel. intros fuel. generalize (if max_concurrent_streams (local_settings ss) =? NGHTTP2_DEFAULT_MAX_CONCURRENT_STREAMS
    then pending_local_max_concurrent_stream ss else max_concurrent_streams (local_settings ss)) as n. intros n. clear ss.
  induction fuel as [|fuel IH]; cbn [adjust_closed_loop]; tidy_steps; first [by apply track_destroy|exact IH].
Qed.

Lemma track_adjust_idle : (forall b, D b) -> gives tracks (nghttp2_session_adjust_idle_stream realloc_ok).
Proof using.
  intros HD. unfold nghttp2_session_adjust_idle_stream. apply gives_then; [typeclasses eauto|apply gives_session; typeclasses eauto|]. intros ss.
  generalize (size (se_streams ss)) as fuel. intros fuel. generalize (max_idle_streams ss) as n. intros n. clear ss.
  induction fuel as [|fuel IH]; cbn [adjust_idle_loop]; tidy_steps; first [by apply track_destroy|exact IH].
Qed.

(** *** Opening *)

Lemma track_reopen a : gives tracks (reopen_idle_stream realloc_ok a).
Proof using. unfold reopen_idle_stream. tidy_steps; first [apply track_on_streams, keeps_dep_remove; apply _|apply track_modify; intros; apply raised_key; auto]. Qed.

Lemma track_count_opened id a st : gives tracks (count_opened id a st).
Proof using. unfold count_opened, nghttp2_stream_shutdown. tidy_steps; apply track_on_streams, keeps_modify; done. Qed.

Lemma track_map_insert id a : gives tracks (map_insert malloc_ok id a).
Proof using. unfold map_insert. tidy_steps. Qed.
Hint Resolve track_reopen track_count_opened track_map_insert : tidy.

Lemma track_modify_new a (f : nghttp2_stream -> nghttp2_stream) : (forall s, P a (stream_id (f s)) (state (f s))) -> gives tracks (modify_stream a f).
Proof using.
  intros HP ss ss' x. unfold modify_stream, on_streams, modify. change (streams (se_world ss)) with (se_streams ss). destruct (se_streams ss !! a) as [s|] eqn:Ha; [|done].
  intros [= <- _]. split.
  - intros b s'. change (<[a := f s]> (se_streams ss) !! b = Some s' -> P b (stream_id s') (state s') \/ exists s, se_streams ss !! b = Some s /\ key s' = key s).
    rewrite lookup_insert. case_decide as E; [subst b; intros [= <-]; left; apply HP|intros Hb; right; by exists s'].
  - intros b Hb. right. change (is_Some (<[a := f s]> (se_streams ss) !! b)). rewrite lookup_insert. case_decide; [by eexists|done].
Qed.

Lemma track_insert a (f : nghttp2_session -> nghttp2_stream) : (forall ss, P a (stream_id (f ss)) (state (f ss))) ->
  gives tracks (update (fun ss => world_to (mk_world (<[a := f ss]> (se_streams ss)) (pushes (se_world ss))) ss)).
Proof using.
  intros HP. apply gives_update. intros ss. split.
  - intros b s'. change (<[a := f ss]> (se_streams ss) !! b = Some s' -> P b (stream_id s') (state s') \/ exists s, se_streams ss !! b = Some s /\ key s' = key s).
    rewrite lookup_insert. case_decide as E; [subst b; intros [= <-]; left; apply HP|intros Hb; right; by exists s'].
  - intros b Hb. right. change (is_Some (<[a := f ss]> (se_streams ss) !! b)). rewrite lookup_insert. case_decide; [by eexists|done].
Qed.

Lemma track_find_dep f pri : (forall id, gives tracks (f id)) -> gives tracks (find_dep_stream f pri).
Proof using. intros Hf. unfold find_dep_stream, nghttp2_session_get_stream_raw. tidy_steps; apply Hf. Qed.

(** The stream with the id [id], in memory already at [found], or new. *)
Lemma track_open_found depth id fl pri st ud found : (forall b, D b) ->
  (forall i, gives tracks (open_stream_loop realloc_ok malloc_ok new_stream depth i NGHTTP2_FLAG_NONE nghttp2_priority_spec_default_init NGHTTP2_STREAM_IDLE None)) ->
  (forall b, P b id st) -> (forall b i, found = Some b -> P b i st) ->
  gives tracks (let! ss := the_session in
      let! ready := (match found with
                     | Some a => let! rv := reopen_idle_stream realloc_ok a in mret (rv =? 0)
                     | None => mem_malloc malloc_ok
                     end) in
      if negb ready then mret None
      else
        let! ss1 := the_session in
        let! target := (if no_priorities ss1 || (ps_stream_id (spec_in_force ss1 pri) =? 0)
                        then mret (Some (None, spec_in_force ss1 pri))
                        else find_dep_stream (fun id => open_stream_loop realloc_ok malloc_ok new_stream depth id NGHTTP2_FLAG_NONE nghttp2_priority_spec_default_init
                               NGHTTP2_STREAM_IDLE None) (spec_in_force ss1 pri)) in
        match target with
        | None => mret None
        | Some (dep_stream, pri_spec) =>
            let! placed := place_stream malloc_ok new_stream found id (push_flags st (priority_flags ss1 (validation_flags ss fl))) pri_spec st ud in
            match placed with
            | None => mret None
            | Some a =>
                count_opened id a st;;
                let! s := load_stream a in
                if no_rfc7540_priorities s then mret (Some a)
                else
                  match (if ps_stream_id pri_spec =? 0 then Some root else dep_stream) with
                  | None => se_undef
                  | Some d =>
                      if negb (ps_exclusive pri_spec =? 0) then
                        let! rv := on_streams (nghttp2_stream_dep_insert realloc_ok d a) in
                        mret (if rv =? 0 then Some a else None)
                      else on_streams (nghttp2_stream_dep_add d a);; mret (Some a)
                  end
            end
        end).
Proof using.
  intros HD Hloop Hid Hfound. assert (forall b, gives tracks (update (fun ss => world_to (mk_world (delete b (se_streams ss)) (pushes (se_world ss))) ss))) as Hfree by (intros b; by apply track_free).
  assert (forall flags pri, gives tracks (place_stream malloc_ok new_stream found id flags pri st ud)) as Hplace.
  { intros flags pri'. destruct found as [a|]; cbn [place_stream].
    - apply gives_bind; [typeclasses eauto|apply track_modify_new; intros s; by apply Hfound|]. intros _. tidy_steps.
    - apply gives_then; [typeclasses eauto|apply gives_session; typeclasses eauto|]. intros ss. cbv zeta. apply gives_bind; [typeclasses eauto|apply track_insert; intros ss0; apply Hid|].
      intros _. tidy_steps; apply Hfree. }
  pose proof (fun pri => track_find_dep _ pri Hloop) as Hfind. tidy_steps;
    first [apply Hfind|apply Hplace|apply track_on_streams; first [apply keeps_dep_insert|apply keeps_dep_add]; apply _].
Qed.

End Track.

Section Opening.
Context (realloc_ok malloc_ok : nat -> bool) (new_stream : gmap Z nghttp2_stream -> Z).

Definition anything (b : Z) : Prop := True.

Lemma track_open_loop P : (forall b i, P b i NGHTTP2_STREAM_IDLE) -> forall depth id,
  gives (tracks P anything) (open_stream_loop realloc_ok malloc_ok new_stream depth id NGHTTP2_FLAG_NONE nghttp2_priority_spec_default_init NGHTTP2_STREAM_IDLE None).
Proof using.
  intros HP. induction depth as [|depth IH]; intros id; cbn [open_stream_loop]; [done|]. unfold nghttp2_session_get_stream_raw.
  apply gives_then; [typeclasses eauto|tidy_steps|]. intros found. by apply track_open_found.
Qed.

(** The stream with the id [id] is new, or the one in memory changed its state. *)
Definition opens_as ss id st (b i : Z) st' : Prop := st' = NGHTTP2_STREAM_IDLE \/ st' = st /\ (i = id \/ stream_map ss !! id = Some b).

Lemma open_stream_tracks id fl pri st ud ss ss' r : nghttp2_session_open_stream realloc_ok malloc_ok new_stream id fl pri st ud ss = Some (ss', r) ->
  tracks (opens_as ss id st) anything ss ss'.
Proof using.
  unfold nghttp2_session_open_stream. change (open_stream_loop realloc_ok malloc_ok new_stream 2) with (open_stream_loop realloc_ok malloc_ok new_stream (S 1)). cbn [open_stream_loop].
  intros (ss0 & found & E & E')%then_split. injection E as <- <-. revert E'. apply (track_open_found _ _ realloc_ok malloc_ok new_stream 1); [done| | |].
  - intros i. apply track_open_loop. intros. by left.
  - intros b. right. split; [done|by left].
  - intros b i Hb. right. split; [done|by right].
Qed.

Lemma track_reprioritize a pri : gives (tracks (fun _ _ st => st = NGHTTP2_STREAM_IDLE) anything) (nghttp2_session_reprioritize_stream realloc_ok malloc_ok new_stream a pri).
Proof using.
  unfold nghttp2_session_reprioritize_stream.
  pose proof (fun pri => track_find_dep (fun _ _ st => st = NGHTTP2_STREAM_IDLE) anything _ pri (track_open_loop (fun _ _ st => st = NGHTTP2_STREAM_IDLE) ltac:(done) 2)) as Hfind.
  change (open_stream_loop realloc_ok malloc_ok new_stream 2) with (nghttp2_session_open_stream realloc_ok malloc_ok new_stream) in Hfind.
  tidy_steps; first [apply Hfind|apply track_load|apply track_modify; reflexivity|apply track_on_streams; first [apply keeps_find_ancestor|apply keeps_dep_remove_subtree|
    apply keeps_deref|apply keeps_dep_add_subtree|apply keeps_change_weight|apply keeps_dep_insert_subtree]; apply _].
Qed.

(** *** Closing *)

Lemma close_stream_tracks callback id err ss ss' rv : nghttp2_session_close_stream realloc_ok callback id err ss = Some (ss', rv) ->
  ss' = ss \/ exists rc ss1, called_back callback id err ss rc ss1 /\ tracks (fun _ _ _ => False) (fun b => stream_map ss !! id = Some b) ss1 ss'.
Proof using.
  unfold nghttp2_session_close_stream. intros (ss0 & found & Eg & E)%then_split. pose proof (gives_eq_get _ _ _ _ Eg) as <-.
  destruct found as [a|]; [|injection E as <- _; by left]. apply then_split in E as (ss1 & rc & Ec & E). right. exists rc, ss1. split.
  - unfold called_back. destruct callback; [done|]. by injection Ec as <- <-.
  - assert (stream_map ss !! id = Some a) as Ha.
    { unfold nghttp2_session_get_stream in Eg. apply then_split in Eg as (ss2 & x & E2 & Eg). injection E2 as <- <-. destruct (stream_map ss !! id) as [b|]; [|done].
      apply then_split in Eg as (ss2 & s & _ & Eg). case_match; [done|]. injection Eg as _ ->. done. }
    clear Ec. match type of E with ?m ss1 = _ => assert (gives (tracks (fun _ _ _ => False) (fun b => stream_map ss !! id = Some b)) m) as H end; [|by eapply H].
    destruct (negb (rc =? 0)); [auto with tidy|].
    tidy_steps; first [apply track_load|apply track_detach|apply track_release|apply track_keep_closed|apply track_modify; intros; apply raised_key; auto|apply track_modify; reflexivity|
      apply track_update; reflexivity|by apply track_destroy].
Qed.

End Opening.
