(* ===== verification/SessionRecv.v ===== *)
(** * Sessions: frames that arrive

    What a session does with a frame whose header and payload have been read:
    it checks the frame against the state of its streams, changes that state,
    queues what has to be answered, and calls the application back.  The
    application is a parameter: callbacks are operations on the session. *)

From stdpp Require Import strings.
From S2P Require Import Prelude Defs Helper HdToken Ratelim Frame FrameHeaders Http Stream Outbound Session SessionSend SessionFlow.

Implicit Types (ss : nghttp2_session).

Definition NGHTTP2_ERR_IGN_HEADER_BLOCK : Z := (-103).
Definition NGHTTP2_ERR_IGN_PAYLOAD : Z := (-104).

Definition last_recv_stream_id_to (v : Z) (i : session_ids) : session_ids :=
  mk_ids (next_stream_id i) (last_sent_stream_id i) v (last_proc_stream_id i) (local_last_stream_id i) (remote_last_stream_id i) (goaway_flags i).
Definition last_proc_stream_id_to (v : Z) (i : session_ids) : session_ids :=
  mk_ids (next_stream_id i) (last_sent_stream_id i) (last_recv_stream_id i) v (local_last_stream_id i) (remote_last_stream_id i) (goaway_flags i).
Definition remote_last_stream_id_to (v : Z) (i : session_ids) : session_ids :=
  mk_ids (next_stream_id i) (last_sent_stream_id i) (last_recv_stream_id i) (last_proc_stream_id i) (local_last_stream_id i) v (goaway_flags i).
Definition stream_reset_ratelim_to (v : nghttp2_ratelim) (l : session_limits) : session_limits :=
  mk_limits (max_send_header_block_length l) (max_outbound_ack l) (max_settings l) (max_continuations l) (builtin_recv_ext_types l)
    (user_recv_ext_types l) v (obq_flood_counter_ l).

Definition get_error_code_from_lib_error_code (lib_error_code : Z) : Z :=
  if lib_error_code =? NGHTTP2_ERR_STREAM_CLOSED then NGHTTP2_STREAM_CLOSED
  else if lib_error_code =? NGHTTP2_ERR_HEADER_COMP then NGHTTP2_COMPRESSION_ERROR
  else if lib_error_code =? NGHTTP2_ERR_FRAME_SIZE_ERROR then NGHTTP2_FRAME_SIZE_ERROR
  else if lib_error_code =? NGHTTP2_ERR_FLOW_CONTROL then NGHTTP2_FLOW_CONTROL_ERROR
  else if lib_error_code =? NGHTTP2_ERR_REFUSED_STREAM then NGHTTP2_REFUSED_STREAM
  else if (lib_error_code =? NGHTTP2_ERR_PROTO) || (lib_error_code =? NGHTTP2_ERR_HTTP_HEADER) || (lib_error_code =? NGHTTP2_ERR_HTTP_MESSAGING)
  then NGHTTP2_PROTOCOL_ERROR
  else NGHTTP2_INTERNAL_ERROR.

Section Receiving.

Variable realloc_ok : nat -> bool.
Variable malloc_ok : nat -> bool.
Variable new_stream : gmap Z nghttp2_stream -> Z.
Variable new_item : gmap Z nghttp2_outbound_item -> Z.

(** [nghttp2_session_callbacks], as far as it is called here. *)
Variable on_frame_recv_callback : option (nghttp2_frame -> se_m Z).
Variable on_invalid_frame_recv_callback : option (nghttp2_frame -> Z -> se_m Z).
Variable on_begin_headers_callback : option (nghttp2_frame -> se_m Z).
Variable on_stream_close_callback : option (Z -> Z -> se_m Z).

(** The order in which [nghttp2_map_each] visits the streams of the table. *)
Variable map_each : gmap Z Z -> list Z.

Abbreviation add_rst_stream := (nghttp2_session_add_rst_stream realloc_ok malloc_ok new_stream new_item).
Abbreviation add_ping := (nghttp2_session_add_ping realloc_ok malloc_ok new_stream new_item).
Abbreviation add_goaway := (nghttp2_session_add_goaway realloc_ok malloc_ok new_stream new_item).
Abbreviation terminate_with_reason := (nghttp2_session_terminate_session_with_reason realloc_ok malloc_ok new_stream new_item).
Abbreviation open_stream := (nghttp2_session_open_stream realloc_ok malloc_ok new_stream).
Abbreviation close_stream := (nghttp2_session_close_stream realloc_ok on_stream_close_callback).

(** ** Callbacks *)

Definition session_call_on_frame_received (frame : nghttp2_frame) : se_m Z :=
  match on_frame_recv_callback with
  | Some f => let! rv := f frame in if negb (rv =? 0) then mret NGHTTP2_ERR_CALLBACK_FAILURE else mret 0
  | None => mret 0
  end.

Definition session_call_on_begin_headers (frame : nghttp2_frame) : se_m Z :=
  match on_begin_headers_callback with
  | Some f =>
      let! rv := f frame in
      if rv =? NGHTTP2_ERR_TEMPORAL_CALLBACK_FAILURE then mret rv
      else if negb (rv =? 0) then mret NGHTTP2_ERR_CALLBACK_FAILURE
      else mret 0
  | None => mret 0
  end.

Definition session_call_on_invalid_frame_recv_callback (frame : nghttp2_frame) (lib_error_code : Z) : se_m Z :=
  match on_invalid_frame_recv_callback with
  | Some f => let! rv := f frame lib_error_code in if negb (rv =? 0) then mret NGHTTP2_ERR_CALLBACK_FAILURE else mret 0
  | None => mret 0
  end.

(** ** Errors *)

Definition session_handle_invalid_stream2 (stream_id : Z) (frame : nghttp2_frame) (lib_error_code : Z) : se_m Z :=
  let! rv := add_rst_stream stream_id (get_error_code_from_lib_error_code lib_error_code) in
  if negb (rv =? 0) then mret rv
  else session_call_on_invalid_frame_recv_callback frame lib_error_code.

Definition session_handle_invalid_stream (frame : nghttp2_frame) (lib_error_code : Z) : se_m Z :=
  session_handle_invalid_stream2 (hd_stream_id (frame_hd frame)) frame lib_error_code.

(** [if (nghttp2_is_fatal(rv)) return rv; return NGHTTP2_ERR_IGN_HEADER_BLOCK;] *)
Definition ignore_header_block (m : se_m Z) : se_m Z :=
  let! rv := m in if nghttp2_is_fatal rv then mret rv else mret NGHTTP2_ERR_IGN_HEADER_BLOCK.

Definition session_inflate_handle_invalid_stream (frame : nghttp2_frame) (lib_error_code : Z) : se_m Z :=
  ignore_header_block (session_handle_invalid_stream frame lib_error_code).

Definition session_handle_invalid_connection (frame : nghttp2_frame) (lib_error_code : Z) (reason : option bytes) : se_m Z :=
  let! rv := session_call_on_invalid_frame_recv_callback frame lib_error_code in
  if negb (rv =? 0) then mret rv
  else terminate_with_reason (get_error_code_from_lib_error_code lib_error_code) reason.

Definition session_inflate_handle_invalid_connection (frame : nghttp2_frame) (lib_error_code : Z) (reason : option bytes) : se_m Z :=
  ignore_header_block (session_handle_invalid_connection frame lib_error_code reason).

(** ** HEADERS *)

Definition nghttp2_session_on_request_headers_received (f : nghttp2_headers) : se_m Z :=
  let frame := FrHeaders f in
  let id := hd_stream_id (he_hd f) in
  let! ss := the_session in
  if id =? 0 then session_inflate_handle_invalid_connection frame NGHTTP2_ERR_PROTO (Some (str "request HEADERS: stream_id == 0"%string))
  else if negb (server ss) then
    if session_detect_idle_stream ss id
    then session_inflate_handle_invalid_connection frame NGHTTP2_ERR_PROTO (Some (str "request HEADERS: client received request"%string))
    else mret NGHTTP2_ERR_IGN_HEADER_BLOCK
  else if negb (session_is_new_peer_stream_id ss id) then
    if (id =? 0) || nghttp2_session_is_my_stream_id ss id
    then session_inflate_handle_invalid_connection frame NGHTTP2_ERR_PROTO (Some (str "request HEADERS: invalid stream_id"%string))
    else
      let! stream := nghttp2_session_get_stream_raw id in
      let! shut := (match stream with
                    | Some a => let! s := load_stream a in mret (negb (shut_flags s .& NGHTTP2_SHUT_RD =? 0))
                    | None => mret false
                    end) in
      if shut then session_inflate_handle_invalid_connection frame NGHTTP2_ERR_STREAM_CLOSED (Some (str "HEADERS: stream closed"%string))
      else mret NGHTTP2_ERR_IGN_HEADER_BLOCK
  else
    update (upd_ids (last_recv_stream_id_to id));;
    let! ss := the_session in
    if session_is_incoming_concurrent_streams_max ss
    then session_inflate_handle_invalid_connection frame NGHTTP2_ERR_PROTO (Some (str "request HEADERS: max concurrent streams exceeded"%string))
    else if negb (session_allow_incoming_new_stream ss) then mret NGHTTP2_ERR_IGN_HEADER_BLOCK
    else if ps_stream_id (he_pri_spec f) =? id
    then session_inflate_handle_invalid_connection frame NGHTTP2_ERR_PROTO (Some (str "request HEADERS: depend on itself"%string))
    else if session_is_incoming_concurrent_streams_pending_max ss
    then session_inflate_handle_invalid_stream frame NGHTTP2_ERR_REFUSED_STREAM
    else
      let! stream := open_stream id NGHTTP2_STREAM_FLAG_NONE (he_pri_spec f) NGHTTP2_STREAM_OPENING None in
      match stream with
      | None => mret NGHTTP2_ERR_NOMEM
      | Some _ =>
          let! rv := nghttp2_session_adjust_closed_stream realloc_ok in
          if nghttp2_is_fatal rv then mret rv
          else
            update (fun ss => upd_ids (last_proc_stream_id_to (last_recv_stream_id ss)) ss);;
            session_call_on_begin_headers frame
      end.

Definition nghttp2_session_on_response_headers_received (f : nghttp2_headers) (stream : Z) : se_m Z :=
  let frame := FrHeaders f in
  let id := hd_stream_id (he_hd f) in
  let! ss := the_session in
  let! s := load_stream stream in
  se_assert (bool_decide (state s = NGHTTP2_STREAM_OPENING) && nghttp2_session_is_my_stream_id ss id);;
  if id =? 0 then session_inflate_handle_invalid_connection frame NGHTTP2_ERR_PROTO (Some (str "response HEADERS: stream_id == 0"%string))
  else if negb (shut_flags s .& NGHTTP2_SHUT_RD =? 0)
  then session_inflate_handle_invalid_connection frame NGHTTP2_ERR_STREAM_CLOSED (Some (str "HEADERS: stream closed"%string))
  else
    modify_stream stream (state_to NGHTTP2_STREAM_OPENED);;
    session_call_on_begin_headers frame.

Definition nghttp2_session_on_push_response_headers_received (f : nghttp2_headers) (stream : Z) : se_m Z :=
  let frame := FrHeaders f in
  let id := hd_stream_id (he_hd f) in
  let! ss := the_session in
  let! s := load_stream stream in
  se_assert (bool_decide (state s = NGHTTP2_STREAM_RESERVED));;
  if id =? 0 then session_inflate_handle_invalid_connection frame NGHTTP2_ERR_PROTO (Some (str "push response HEADERS: stream_id == 0"%string))
  else if server ss
  then session_inflate_handle_invalid_connection frame NGHTTP2_ERR_PROTO (Some (str "HEADERS: no HEADERS allowed from client in reserved state"%string))
  else if session_is_incoming_concurrent_streams_max ss
  then session_inflate_handle_invalid_connection frame NGHTTP2_ERR_PROTO (Some (str "push response HEADERS: max concurrent streams exceeded"%string))
  else if negb (session_allow_incoming_new_stream ss) then mret NGHTTP2_ERR_IGN_HEADER_BLOCK
  else if session_is_incoming_concurrent_streams_pending_max ss
  then session_inflate_handle_invalid_stream frame NGHTTP2_ERR_REFUSED_STREAM
  else
    modify_stream stream nghttp2_stream_promise_fulfilled;;
    (if negb (nghttp2_session_is_my_stream_id ss (stream_id s))
     then update (fun ss => upd_counts (num_incoming_reserved_streams_to (u64 (num_incoming_reserved_streams ss - 1))) ss)
     else mret tt);;
    update (fun ss => upd_counts (num_incoming_streams_to (u64 (num_incoming_streams ss + 1))) ss);;
    session_call_on_begin_headers frame.

Definition nghttp2_session_on_headers_received (f : nghttp2_headers) (stream : Z) : se_m Z :=
  let frame := FrHeaders f in
  let id := hd_stream_id (he_hd f) in
  let! ss := the_session in
  let! s := load_stream stream in
  if id =? 0 then session_inflate_handle_invalid_connection frame NGHTTP2_ERR_PROTO (Some (str "HEADERS: stream_id == 0"%string))
  else if negb (shut_flags s .& NGHTTP2_SHUT_RD =? 0)
  then session_inflate_handle_invalid_connection frame NGHTTP2_ERR_STREAM_CLOSED (Some (str "HEADERS: stream closed"%string))
  else if nghttp2_session_is_my_stream_id ss id then
    if bool_decide (state s = NGHTTP2_STREAM_OPENED) then session_call_on_begin_headers frame
    else mret NGHTTP2_ERR_IGN_HEADER_BLOCK
  else if negb (bool_decide (state s = NGHTTP2_STREAM_CLOSING)) then session_call_on_begin_headers frame
  else mret NGHTTP2_ERR_IGN_HEADER_BLOCK.

Definition headers_cat_to (cat : Z) (f : nghttp2_headers) : nghttp2_headers := mk_headers (he_hd f) (he_padlen f) (he_pri_spec f) (he_nva f) cat.

(** After [nghttp2_frame_unpack_headers_payload]. *)
Definition session_process_headers_frame (f : nghttp2_headers) : se_m Z :=
  let! stream := nghttp2_session_get_stream (hd_stream_id (he_hd f)) in
  match stream with
  | None => nghttp2_session_on_request_headers_received (headers_cat_to NGHTTP2_HCAT_REQUEST f)
  | Some a =>
      let! ss := the_session in
      let! s := load_stream a in
      if bool_decide (state s = NGHTTP2_STREAM_RESERVED)
      then nghttp2_session_on_push_response_headers_received (headers_cat_to NGHTTP2_HCAT_PUSH_RESPONSE f) a
      else if bool_decide (state s = NGHTTP2_STREAM_OPENING) && nghttp2_session_is_my_stream_id ss (hd_stream_id (he_hd f))
      then nghttp2_session_on_response_headers_received (headers_cat_to NGHTTP2_HCAT_RESPONSE f) a
      else nghttp2_session_on_headers_received (headers_cat_to NGHTTP2_HCAT_HEADERS f) a
  end.

(** ** PRIORITY and RST_STREAM *)

Definition nghttp2_session_on_priority_received (f : nghttp2_priority) : se_m Z :=
  let frame := FrControl (FrPriority f) in
  let id := hd_stream_id (pr_hd f) in
  let! ss := the_session in
  se_assert (negb (session_no_rfc7540_pri_no_fallback ss));;
  if id =? 0 then session_handle_invalid_connection frame NGHTTP2_ERR_PROTO (Some (str "PRIORITY: stream_id == 0"%string))
  else if ps_stream_id (pr_spec f) =? id then terminate_with_reason NGHTTP2_PROTOCOL_ERROR (Some (str "depend on itself"%string))
  else if negb (server ss) then session_call_on_frame_received frame
  else
    let! stream := nghttp2_session_get_stream_raw id in
    match stream with
    | None =>
        if negb (session_detect_idle_stream ss id) then mret 0
        else
          let! opened := open_stream id NGHTTP2_STREAM_FLAG_NONE (pr_spec f) NGHTTP2_STREAM_IDLE None in
          match opened with
          | None => mret NGHTTP2_ERR_NOMEM
          | Some _ =>
              let! rv := nghttp2_session_adjust_idle_stream realloc_ok in
              if nghttp2_is_fatal rv then mret rv else session_call_on_frame_received frame
          end
    | Some a =>
        let! rv := nghttp2_session_reprioritize_stream realloc_ok malloc_ok new_stream a (pr_spec f) in
        if nghttp2_is_fatal rv then mret rv
        else
          let! rv := nghttp2_session_adjust_idle_stream realloc_ok in
          if nghttp2_is_fatal rv then mret rv else session_call_on_frame_received frame
    end.

(** [now] is the value of [nghttp2_time_now_sec]. *)
Definition session_update_stream_reset_ratelim (now : Z) : se_m Z :=
  let! ss := the_session in
  if negb (server ss) || negb (goaway_flags ss .& NGHTTP2_GOAWAY_SUBMITTED =? 0) then mret 0
  else
    let '(rl, rv) := nghttp2_ratelim_drain (nghttp2_ratelim_update (stream_reset_ratelim ss) now) 1 in
    update (upd_limits (stream_reset_ratelim_to rl));;
    if rv =? 0 then mret 0
    else add_goaway (last_recv_stream_id ss) NGHTTP2_INTERNAL_ERROR [] NGHTTP2_GOAWAY_AUX_NONE.

Definition nghttp2_session_on_rst_stream_received (f : nghttp2_rst_stream) (now : Z) : se_m Z :=
  let frame := FrControl (FrRstStream f) in
  let id := hd_stream_id (rs_hd f) in
  let! ss := the_session in
  if id =? 0 then session_handle_invalid_connection frame NGHTTP2_ERR_PROTO (Some (str "RST_STREAM: stream_id == 0"%string))
  else if session_detect_idle_stream ss id
  then session_handle_invalid_connection frame NGHTTP2_ERR_PROTO (Some (str "RST_STREAM: stream in idle"%string))
  else
    let! stream := nghttp2_session_get_stream id in
    (match stream with Some a => on_streams (nghttp2_stream_shutdown a NGHTTP2_SHUT_RD) | None => mret tt end);;
    let! rv := session_call_on_frame_received frame in
    if negb (rv =? 0) then mret rv
    else
      let! rv := close_stream id (rs_error_code f) in
      if nghttp2_is_fatal rv then mret rv else session_update_stream_reset_ratelim now.

(** ** PUSH_PROMISE *)

Definition nghttp2_session_on_push_promise_received (f : nghttp2_push_promise) : se_m Z :=
  let frame := FrPushPromise f in
  let id := hd_stream_id (pp_hd f) in
  let promised := pp_promised_stream_id f in
  let! ss := the_session in
  if id =? 0 then session_inflate_handle_invalid_connection frame NGHTTP2_ERR_PROTO (Some (str "PUSH_PROMISE: stream_id == 0"%string))
  else if server ss || (enable_push (local_settings ss) =? 0)
  then session_inflate_handle_invalid_connection frame NGHTTP2_ERR_PROTO (Some (str "PUSH_PROMISE: push disabled"%string))
  else if negb (nghttp2_session_is_my_stream_id ss id)
  then session_inflate_handle_invalid_connection frame NGHTTP2_ERR_PROTO (Some (str "PUSH_PROMISE: invalid stream_id"%string))
  else if negb (session_allow_incoming_new_stream ss) then mret NGHTTP2_ERR_IGN_HEADER_BLOCK
  else if negb (session_is_new_peer_stream_id ss promised)
  then session_inflate_handle_invalid_connection frame NGHTTP2_ERR_PROTO (Some (str "PUSH_PROMISE: invalid promised_stream_id"%string))
  else if session_detect_idle_stream ss id
  then session_inflate_handle_invalid_connection frame NGHTTP2_ERR_PROTO (Some (str "PUSH_PROMISE: stream in idle"%string))
  else
    update (upd_ids (last_recv_stream_id_to promised));;
    let! stream := nghttp2_session_get_stream id in
    let! refuse := (match stream with
                    | None => mret true
                    | Some a => let! s := load_stream a in mret (bool_decide (state s = NGHTTP2_STREAM_CLOSING))
                    end) in
    if refuse || (pending_enable_push ss =? 0) || (max_incoming_reserved_streams ss <=? num_incoming_reserved_streams ss) then
      let! rv := add_rst_stream promised NGHTTP2_CANCEL in
      if negb (rv =? 0) then mret rv else mret NGHTTP2_ERR_IGN_HEADER_BLOCK
    else match stream with
         | None => se_undef
         | Some a =>
             let! s := load_stream a in
             if negb (shut_flags s .& NGHTTP2_SHUT_RD =? 0)
             then session_inflate_handle_invalid_connection frame NGHTTP2_ERR_STREAM_CLOSED (Some (str "PUSH_PROMISE: stream closed"%string))
             else
               let! opened := open_stream promised NGHTTP2_STREAM_FLAG_NONE (nghttp2_priority_spec_init (stream_id s) NGHTTP2_DEFAULT_WEIGHT 0)
                                NGHTTP2_STREAM_RESERVED None in
               match opened with
               | None => mret NGHTTP2_ERR_NOMEM
               | Some _ =>
                   update (fun ss => upd_ids (last_proc_stream_id_to (last_recv_stream_id ss)) ss);;
                   session_call_on_begin_headers frame
               end
         end.

(** ** PING and GOAWAY *)

Definition nghttp2_session_on_ping_received (f : nghttp2_ping) : se_m Z :=
  let frame := FrControl (FrPing f) in
  let! ss := the_session in
  if negb (hd_stream_id (pg_hd f) =? 0)
  then session_handle_invalid_connection frame NGHTTP2_ERR_PROTO (Some (str "PING: stream_id != 0"%string))
  else
    let! rv := (if (opt_flags ss .& NGHTTP2_OPTMASK_NO_AUTO_PING_ACK =? 0) && (hd_flags (pg_hd f) .& NGHTTP2_FLAG_ACK =? 0) && negb (session_is_closing ss)
                then add_ping NGHTTP2_FLAG_ACK (Some (pg_opaque_data f)) else mret 0) in
    if negb (rv =? 0) then mret rv
    else session_call_on_frame_received frame.

Definition find_stream_on_goaway (ss : nghttp2_session) (last_stream_id : Z) (incoming : bool) (s : nghttp2_stream) : bool :=
  Bool.eqb (nghttp2_session_is_my_stream_id ss (stream_id s)) (negb incoming) && negb (bool_decide (state s = NGHTTP2_STREAM_IDLE)) &&
  (sm_flags s .& NGHTTP2_STREAM_FLAG_CLOSED =? 0) && (last_stream_id <? stream_id s).

(** The streams to close, the last one that was found first.  The code chains
    them through [closed_next] until it has closed them. *)
Fixpoint find_streams (ss : nghttp2_session) (last_stream_id : Z) (incoming : bool) (visited found : list Z) : se_m (list Z) :=
  match visited with
  | [] => mret found
  | a :: visited =>
      let! s := load_stream a in
      if find_stream_on_goaway ss last_stream_id incoming s then
        se_assert (bool_decide (closed_next s = None));;
        se_assert (bool_decide (closed_prev s = None));;
        find_streams ss last_stream_id incoming visited (a :: found)
      else find_streams ss last_stream_id incoming visited found
  end.

Fixpoint close_streams (found : list Z) : se_m Z :=
  match found with
  | [] => mret 0
  | a :: found =>
      let! s := load_stream a in
      let! rv := close_stream (stream_id s) NGHTTP2_REFUSED_STREAM in
      if nghttp2_is_fatal rv then mret rv else close_streams found
  end.

Definition session_close_stream_on_goaway (last_stream_id : Z) (incoming : bool) : se_m Z :=
  let! ss := the_session in
  let! found := find_streams ss last_stream_id incoming (map_each (stream_map ss)) [] in
  close_streams found.

Definition nghttp2_session_on_goaway_received (f : nghttp2_goaway) : se_m Z :=
  let frame := FrControl (FrGoaway f) in
  let last := ga_last_stream_id f in
  let! ss := the_session in
  if negb (hd_stream_id (ga_hd f) =? 0)
  then session_handle_invalid_connection frame NGHTTP2_ERR_PROTO (Some (str "GOAWAY: stream_id != 0"%string))
  else if ((0 <? last) && negb (nghttp2_session_is_my_stream_id ss last)) || (remote_last_stream_id ss <? last)
  then session_handle_invalid_connection frame NGHTTP2_ERR_PROTO (Some (str "GOAWAY: invalid last_stream_id"%string))
  else
    update (fun ss => upd_ids (goaway_flags_to (u8 (goaway_flags ss .| NGHTTP2_GOAWAY_RECV))) ss);;
    update (upd_ids (remote_last_stream_id_to last));;
    let! rv := session_call_on_frame_received frame in
    if nghttp2_is_fatal rv then mret rv
    else session_close_stream_on_goaway last false.

(** ** WINDOW_UPDATE *)

Definition session_on_connection_window_update_received (f : nghttp2_window_update) : se_m Z :=
  let frame := FrControl (FrWindowUpdate f) in
  let inc := wu_increment f in
  let! ss := the_session in
  if inc =? 0 then session_handle_invalid_connection frame NGHTTP2_ERR_PROTO (Some (str "WINDOW_UPDATE: window_size_increment == 0"%string))
  else
    let! limit := defined (i32 (NGHTTP2_MAX_WINDOW_SIZE - inc)) in
    if limit <? remote_window_size ss then session_handle_invalid_connection frame NGHTTP2_ERR_FLOW_CONTROL None
    else
      let! size := defined (i32 (remote_window_size ss + inc)) in
      update (upd_window (remote_window_size_to size));;
      session_call_on_frame_received frame.

Definition session_on_stream_window_update_received (f : nghttp2_window_update) : se_m Z :=
  let frame := FrControl (FrWindowUpdate f) in
  let id := hd_stream_id (wu_hd f) in
  let inc := wu_increment f in
  let! ss := the_session in
  if session_detect_idle_stream ss id
  then session_handle_invalid_connection frame NGHTTP2_ERR_PROTO (Some (str "WINDOW_UPDATE to idle stream"%string))
  else
    let! stream := nghttp2_session_get_stream id in
    match stream with
    | None => mret 0
    | Some a =>
        let! s := load_stream a in
        if state_reserved_remote ss s
        then session_handle_invalid_connection frame NGHTTP2_ERR_PROTO (Some (str "WINDOW_UPADATE to reserved stream"%string))
        else if inc =? 0
        then session_handle_invalid_connection frame NGHTTP2_ERR_PROTO (Some (str "WINDOW_UPDATE: window_size_increment == 0"%string))
        else
          let! limit := defined (i32 (NGHTTP2_MAX_WINDOW_SIZE - inc)) in
          if limit <? remote_window_size s then session_handle_invalid_stream frame NGHTTP2_ERR_FLOW_CONTROL
          else
            let! size := defined (i32 (remote_window_size s + inc)) in
            modify_stream a (upd_flow (remote_window_size_to size));;
            let! s := load_stream a in
            let! rv := (if (0 <? remote_window_size s) && nghttp2_stream_check_deferred_by_flow_control s
                        then session_resume_deferred_stream_item realloc_ok a NGHTTP2_STREAM_FLAG_DEFERRED_FLOW_CONTROL else mret 0) in
            if nghttp2_is_fatal rv then mret rv
            else session_call_on_frame_received frame
    end.

Definition nghttp2_session_on_window_update_received (f : nghttp2_window_update) : se_m Z :=
  if hd_stream_id (wu_hd f) =? 0 then session_on_connection_window_update_received f
  else session_on_stream_window_update_received f.

(** ** DATA *)

Definition session_on_data_received_fail_fast (id : Z) : se_m Z :=
  let fail (reason : bytes) (error_code : Z) : se_m Z :=
    let! rv := terminate_with_reason error_code (Some reason) in
    if nghttp2_is_fatal rv then mret rv else mret NGHTTP2_ERR_IGN_PAYLOAD in
  let! ss := the_session in
  if id =? 0 then fail (str "DATA: stream_id == 0"%string) NGHTTP2_PROTOCOL_ERROR
  else if session_detect_idle_stream ss id then fail (str "DATA: stream in idle"%string) NGHTTP2_PROTOCOL_ERROR
  else
    let! stream := nghttp2_session_get_stream id in
    match stream with
    | None =>
        let! stream := nghttp2_session_get_stream_raw id in
        let! shut := (match stream with
                      | Some a => let! s := load_stream a in mret (negb (shut_flags s .& NGHTTP2_SHUT_RD =? 0))
                      | None => mret false
                      end) in
        if shut then fail (str "DATA: stream closed"%string) NGHTTP2_STREAM_CLOSED else mret NGHTTP2_ERR_IGN_PAYLOAD
    | Some a =>
        let! s := load_stream a in
        if negb (shut_flags s .& NGHTTP2_SHUT_RD =? 0) then fail (str "DATA: stream in half-closed(remote)"%string) NGHTTP2_STREAM_CLOSED
        else if nghttp2_session_is_my_stream_id ss id then
          if bool_decide (state s = NGHTTP2_STREAM_CLOSING) then mret NGHTTP2_ERR_IGN_PAYLOAD
          else if negb (bool_decide (state s = NGHTTP2_STREAM_OPENED)) then fail (str "DATA: stream not opened"%string) NGHTTP2_PROTOCOL_ERROR
          else mret 0
        else if bool_decide (state s = NGHTTP2_STREAM_RESERVED) then fail (str "DATA: stream in reserved"%string) NGHTTP2_PROTOCOL_ERROR
        else if bool_decide (state s = NGHTTP2_STREAM_CLOSING) then mret NGHTTP2_ERR_IGN_PAYLOAD
        else mret 0
    end.

Definition nghttp2_session_on_data_received (f : nghttp2_data) : se_m Z :=
  let frame := FrData f in
  let! stream := nghttp2_session_get_stream (hd_stream_id (da_hd f)) in
  match stream with
  | None => mret 0
  | Some a =>
      let! ss := the_session in
      let! s := load_stream a in
      let ends := negb (hd_flags (da_hd f) .& NGHTTP2_FLAG_END_STREAM =? 0) in
      if bool_decide (state s = NGHTTP2_STREAM_CLOSING) then mret 0
      else if session_enforce_http_messaging ss && ends && negb (nghttp2_http_on_remote_end_stream s =? 0) then
        let! rv := add_rst_stream (stream_id s) NGHTTP2_PROTOCOL_ERROR in
        if nghttp2_is_fatal rv then mret rv
        else on_streams (nghttp2_stream_shutdown a NGHTTP2_SHUT_RD);; mret 0
      else
        let! rv := session_call_on_frame_received frame in
        if nghttp2_is_fatal rv then mret rv
        else if ends then
          on_streams (nghttp2_stream_shutdown a NGHTTP2_SHUT_RD);;
          let! rv := nghttp2_session_close_stream_if_shut_rdwr realloc_ok on_stream_close_callback a in
          if nghttp2_is_fatal rv then mret rv else mret 0
        else mret 0
  end.

Definition session_process_data_frame (f : nghttp2_data) : se_m Z :=
  let! rv := nghttp2_session_on_data_received f in
  mret (fatal_only rv).

End Receiving.
