(* ===== verification/SessionSettings.v ===== *)
(** * Sessions: SETTINGS

    What the two ends tell each other about themselves: the settings that
    the application submits, which wait to be acknowledged; those that the
    peer announces, and what they change for the streams in memory, whose
    windows move with the initial window size; and the acknowledgements.

    The HPACK contexts of the session, whose tables the settings bound, are
    handed through: nothing else here depends on them. *)

From stdpp Require Import strings.
From S2P Require Import Prelude Defs Helper HdToken HdDeflate HdInflate Frame FrameHeaders Http Stream Outbound Session SessionInv SessionSend SessionFlow SessionRecv.

Implicit Types (ss : nghttp2_session).

Definition UINT8_MAX : Z := 255.

(** ** Cells *)

(** The switch over [settings_id] that stores a value. *)
Definition setting_to (id v : Z) (st : nghttp2_settings_storage) : nghttp2_settings_storage :=
  let pick n (old : nghttp2_settings_storage -> Z) := if id =? n then v else old st in
  mk_storage (pick NGHTTP2_SETTINGS_HEADER_TABLE_SIZE header_table_size) (pick NGHTTP2_SETTINGS_ENABLE_PUSH enable_push)
    (pick NGHTTP2_SETTINGS_MAX_CONCURRENT_STREAMS max_concurrent_streams) (pick NGHTTP2_SETTINGS_INITIAL_WINDOW_SIZE initial_window_size)
    (pick NGHTTP2_SETTINGS_MAX_FRAME_SIZE max_frame_size) (pick NGHTTP2_SETTINGS_MAX_HEADER_LIST_SIZE max_header_list_size)
    (pick NGHTTP2_SETTINGS_ENABLE_CONNECT_PROTOCOL enable_connect_protocol) (pick NGHTTP2_SETTINGS_NO_RFC7540_PRIORITIES no_rfc7540_priorities_setting).

Definition remote_settings_to (v : nghttp2_settings_storage) (c : session_conf) : session_conf :=
  mk_conf (server c) (opt_flags c) v (local_settings c) (pending_local_max_concurrent_stream c) (pending_enable_push c) (pending_no_rfc7540_priorities c)
    (fallback_rfc7540_priorities c) (max_incoming_reserved_streams c) (pending_enable_connect_protocol c) (remote_settings_received c) (inflight_settings c).
Definition local_settings_to (v : nghttp2_settings_storage) (c : session_conf) : session_conf :=
  mk_conf (server c) (opt_flags c) (remote_settings c) v (pending_local_max_concurrent_stream c) (pending_enable_push c) (pending_no_rfc7540_priorities c)
    (fallback_rfc7540_priorities c) (max_incoming_reserved_streams c) (pending_enable_connect_protocol c) (remote_settings_received c) (inflight_settings c).
Definition inflight_settings_to (v : list (list nghttp2_settings_entry)) (c : session_conf) : session_conf :=
  mk_conf (server c) (opt_flags c) (remote_settings c) (local_settings c) (pending_local_max_concurrent_stream c) (pending_enable_push c) (pending_no_rfc7540_priorities c)
    (fallback_rfc7540_priorities c) (max_incoming_reserved_streams c) (pending_enable_connect_protocol c) (remote_settings_received c) v.
Definition remote_settings_received_to (v : Z) (c : session_conf) : session_conf :=
  mk_conf (server c) (opt_flags c) (remote_settings c) (local_settings c) (pending_local_max_concurrent_stream c) (pending_enable_push c) (pending_no_rfc7540_priorities c)
    (fallback_rfc7540_priorities c) (max_incoming_reserved_streams c) (pending_enable_connect_protocol c) v (inflight_settings c).
Definition fallback_rfc7540_priorities_to (v : Z) (c : session_conf) : session_conf :=
  mk_conf (server c) (opt_flags c) (remote_settings c) (local_settings c) (pending_local_max_concurrent_stream c) (pending_enable_push c) (pending_no_rfc7540_priorities c)
    v (max_incoming_reserved_streams c) (pending_enable_connect_protocol c) (remote_settings_received c) (inflight_settings c).
(** What is submitted counts at once for the streams that the peer opens. *)
Definition pending_to (streams push connect pri : Z) (c : session_conf) : session_conf :=
  mk_conf (server c) (opt_flags c) (remote_settings c) (local_settings c) streams push pri (fallback_rfc7540_priorities c) (max_incoming_reserved_streams c)
    connect (remote_settings_received c) (inflight_settings c).

(** The HPACK contexts [hd_deflater] and [hd_inflater]. *)
Record session_hd := mk_hd { hd_deflater : nghttp2_hd_deflater; hd_inflater : nghttp2_hd_inflater }.

(** ** Entries *)

(** The last entry for [id]: the loops from the end that stop at the first. *)
Fixpoint last_entry (id : Z) (iv : list nghttp2_settings_entry) : option Z :=
  match iv with
  | [] => None
  | e :: iv =>
      match last_entry id iv with
      | Some v => Some v
      | None => if settings_id e =? id then Some (iv_value e) else None
      end
  end.

(** The value that SETTINGS_NO_RFC7540_PRIORITIES gets for good, when the
    entries agree. *)
Fixpoint agreed_pri (no_rfc7540_pri : Z) (iv : list nghttp2_settings_entry) : option Z :=
  match iv with
  | [] => Some no_rfc7540_pri
  | e :: iv =>
      if negb (settings_id e =? NGHTTP2_SETTINGS_NO_RFC7540_PRIORITIES) then agreed_pri no_rfc7540_pri iv
      else if no_rfc7540_pri =? UINT8_MAX then agreed_pri (u8 (iv_value e)) iv
      else if negb (iv_value e =? no_rfc7540_pri) then None
      else agreed_pri no_rfc7540_pri iv
  end.

(** [iframe->iv]: the entries of a frame that arrives, one for each known
    identifier, and the smallest SETTINGS_HEADER_TABLE_SIZE, which is kept in
    the last cell of the block; that the entries before it never reach that
    cell is part of what [SessionEntries] proves. *)
Record iframe_iv := mk_iframe_iv { if_iv : list nghttp2_settings_entry; if_min : nghttp2_settings_entry }.

Definition known_setting (id : Z) : bool :=
  (id =? NGHTTP2_SETTINGS_HEADER_TABLE_SIZE) || (id =? NGHTTP2_SETTINGS_ENABLE_PUSH) || (id =? NGHTTP2_SETTINGS_MAX_CONCURRENT_STREAMS) ||
  (id =? NGHTTP2_SETTINGS_INITIAL_WINDOW_SIZE) || (id =? NGHTTP2_SETTINGS_MAX_FRAME_SIZE) || (id =? NGHTTP2_SETTINGS_MAX_HEADER_LIST_SIZE) ||
  (id =? NGHTTP2_SETTINGS_ENABLE_CONNECT_PROTOCOL) || (id =? NGHTTP2_SETTINGS_NO_RFC7540_PRIORITIES).

(** The entry replaces the one for its identifier, or is the last. *)
Fixpoint replace_entry (e : nghttp2_settings_entry) (iv : list nghttp2_settings_entry) : list nghttp2_settings_entry :=
  match iv with
  | [] => [e]
  | f :: iv => if settings_id f =? settings_id e then e :: iv else f :: replace_entry e iv
  end.

Definition inbound_frame_set_settings_entry (f : iframe_iv) (iv : nghttp2_settings_entry) : iframe_iv :=
  if negb (known_setting (settings_id iv)) then mk_iframe_iv (if_iv f ++ [iv]) (if_min f)
  else
    mk_iframe_iv (replace_entry iv (if_iv f))
      (if (settings_id iv =? NGHTTP2_SETTINGS_HEADER_TABLE_SIZE) && (iv_value iv <? iv_value (if_min f))
       then mk_iv (settings_id (if_min f)) (iv_value iv) else if_min f).

(** The smallest table size goes where the last one was, and that one to the
    end; [None] is the failed assertion. *)
Definition header_sizes (f : iframe_iv) : option (list nghttp2_settings_entry) :=
  if iv_value (if_min f) <? UINT32_MAX then
    match list_find (fun e => settings_id e = NGHTTP2_SETTINGS_HEADER_TABLE_SIZE) (if_iv f) with
    | None => None
    | Some (i, e) => if negb (iv_value (if_min f) =? iv_value e) then Some (<[i := if_min f]> (if_iv f) ++ [e]) else Some (if_iv f)
    end
  else Some (if_iv f).

Section Settings.

Variable realloc_ok : nat -> bool.
Variable malloc_ok : nat -> bool.
Variable new_stream : gmap Z nghttp2_stream -> Z.
Variable new_item : gmap Z nghttp2_outbound_item -> Z.

Variable on_frame_recv_callback : option (nghttp2_frame -> se_m Z).
Variable on_invalid_frame_recv_callback : option (nghttp2_frame -> Z -> se_m Z).
Variable map_each : gmap Z Z -> list Z.

Abbreviation add_rst_stream := (nghttp2_session_add_rst_stream realloc_ok malloc_ok new_stream new_item).
Abbreviation add_window_update := (nghttp2_session_add_window_update realloc_ok malloc_ok new_stream new_item).
Abbreviation invalid_connection := (session_handle_invalid_connection realloc_ok malloc_ok new_stream new_item on_invalid_frame_recv_callback).
Abbreviation frame_received := (session_call_on_frame_received on_frame_recv_callback).

(** ** Submitted settings *)

Definition inflight_settings_new (iv : list nghttp2_settings_entry) : se_m Z :=
  let! ok := mem_malloc malloc_ok in
  if negb ok then mret NGHTTP2_ERR_NOMEM
  else
    let! ok := (if 0 <? zlen iv then mem_malloc malloc_ok else mret true) in
    mret (if negb ok then NGHTTP2_ERR_NOMEM else 0).

Definition session_append_inflight_settings (iv : list nghttp2_settings_entry) : se_m unit :=
  update (fun ss => upd_conf (inflight_settings_to (inflight_settings ss ++ [iv])) ss).

(** What is used before the peer acknowledges. *)
Definition take_pending (iv : list nghttp2_settings_entry) (no_rfc7540_pri : Z) : se_m unit :=
  update (fun ss => upd_conf (pending_to
    (default (pending_local_max_concurrent_stream ss) (last_entry NGHTTP2_SETTINGS_MAX_CONCURRENT_STREAMS iv))
    (default (pending_enable_push ss) (u8 <$> last_entry NGHTTP2_SETTINGS_ENABLE_PUSH iv))
    (default (pending_enable_connect_protocol ss) (u8 <$> last_entry NGHTTP2_SETTINGS_ENABLE_CONNECT_PROTOCOL iv))
    (if no_rfc7540_pri =? UINT8_MAX then 0 else no_rfc7540_pri)) ss).

Definition nghttp2_session_add_settings (flags : Z) (iv : list nghttp2_settings_entry) : se_m Z :=
  let! ss := the_session in
  let ack := flag_set flags NGHTTP2_FLAG_ACK in
  if ack && negb (zlen iv =? 0) then mret NGHTTP2_ERR_INVALID_ARGUMENT
  else if ack && (max_outbound_ack ss <=? obq_flood_counter_ ss) then mret NGHTTP2_ERR_FLOODED
  else if negb (nghttp2_iv_check iv) then mret NGHTTP2_ERR_INVALID_ARGUMENT
  else
    match agreed_pri (pending_no_rfc7540_priorities ss) iv with
    | None => mret NGHTTP2_ERR_INVALID_ARGUMENT
    | Some no_rfc7540_pri =>
        let! ok := mem_malloc malloc_ok in
        if negb ok then mret NGHTTP2_ERR_NOMEM
        else
          let! ok := (if 0 <? zlen iv then mem_malloc malloc_ok else mret true) in
          if negb ok then mret NGHTTP2_ERR_NOMEM
          else
            let! rv := (if ack then mret 0 else inflight_settings_new iv) in
            if negb (rv =? 0) then se_assert (nghttp2_is_fatal rv);; mret rv
            else
              let! rv := put_frame realloc_ok malloc_ok new_stream new_item (FrControl (FrSettings (nghttp2_frame_settings_init flags iv))) aux_zero in
              if negb (rv =? 0) then se_assert (nghttp2_is_fatal rv);; mret rv
              else
                (if ack then count_ack flags else session_append_inflight_settings iv);;
                take_pending iv no_rfc7540_pri;;
                mret 0
    end.

(** ** Windows of all streams *)

(** [nghttp2_map_each]: the first error ends the walk. *)
Fixpoint each_stream (func : Z -> se_m Z) (visited : list Z) : se_m Z :=
  match visited with
  | [] => mret 0
  | a :: visited =>
      let! rv := func a in
      if negb (rv =? 0) then mret rv else each_stream func visited
  end.

Definition update_remote_initial_window_size_func (new_window_size old_window_size : Z) (stream : Z) : se_m Z :=
  let! s := load_stream stream in
  let '(moved, rv) := nghttp2_stream_update_remote_initial_window_size s new_window_size old_window_size in
  modify_stream stream (fun _ => moved);;
  if negb (rv =? 0) then add_rst_stream (stream_id s) NGHTTP2_FLOW_CONTROL_ERROR
  else
    let! s := load_stream stream in
    if (0 <? remote_window_size s) && nghttp2_stream_check_deferred_by_flow_control s then
      let! rv := session_resume_deferred_stream_item realloc_ok stream NGHTTP2_STREAM_FLAG_DEFERRED_FLOW_CONTROL in
      if nghttp2_is_fatal rv then mret rv else mret 0
    else mret 0.

Definition session_update_remote_initial_window_size (new_initial_window_size : Z) : se_m Z :=
  let! ss := the_session in
  each_stream (update_remote_initial_window_size_func new_initial_window_size (to_int32 (initial_window_size (remote_settings ss)))) (map_each (stream_map ss)).

Definition update_local_initial_window_size_func (new_window_size old_window_size : Z) (stream : Z) : se_m Z :=
  let! s := load_stream stream in
  let '(moved, rv) := nghttp2_stream_update_local_initial_window_size s new_window_size old_window_size in
  modify_stream stream (fun _ => moved);;
  if negb (rv =? 0) then add_rst_stream (stream_id s) NGHTTP2_FLOW_CONTROL_ERROR
  else
    let! s := load_stream stream in
    let! ss := the_session in
    if negb (window_update_queued s =? 0) then mret 0
    else if negb (opt_flags ss .& NGHTTP2_OPTMASK_NO_AUTO_WINDOW_UPDATE =? 0)
    then session_update_stream_consumed_size realloc_ok malloc_ok new_stream new_item stream 0
    else if nghttp2_should_send_window_update (local_window_size s) (recv_window_size s) then
      let! rv := add_window_update NGHTTP2_FLAG_NONE (stream_id s) (recv_window_size s) in
      if negb (rv =? 0) then mret rv
      else modify_stream stream (upd_flow (recv_window_size_to 0));; mret 0
    else mret 0.

Definition session_update_local_initial_window_size (new_initial_window_size old_initial_window_size : Z) : se_m Z :=
  let! ss := the_session in
  each_stream (update_local_initial_window_size_func new_initial_window_size old_initial_window_size) (map_each (stream_map ss)).

(** ** Acknowledged settings *)

(** What the first loop collects: the last table size and the smallest, and the
    last initial window size. *)
Definition smallest_entry (id : Z) (iv : list nghttp2_settings_entry) : Z :=
  foldl (fun least e => if settings_id e =? id then nghttp2_min least (iv_value e) else least) UINT32_MAX iv.

Definition change_inflater (i : nghttp2_hd_inflater) (iv : list nghttp2_settings_entry) : option (nghttp2_hd_inflater * Z) :=
  match last_entry NGHTTP2_SETTINGS_HEADER_TABLE_SIZE iv with
  | None => Some (i, 0)
  | Some header_table_size =>
      let min_header_table_size := smallest_entry NGHTTP2_SETTINGS_HEADER_TABLE_SIZE iv in
      '(i, rv) ← (if min_header_table_size <? header_table_size then nghttp2_hd_inflate_change_table_size i min_header_table_size else Some (i, 0));
      if negb (rv =? 0) then Some (i, rv) else nghttp2_hd_inflate_change_table_size i header_table_size
  end.

Definition store_settings (st : nghttp2_settings_storage) (iv : list nghttp2_settings_entry) : nghttp2_settings_storage :=
  foldl (fun st e => setting_to (settings_id e) (iv_value e) st) st iv.

Definition nghttp2_session_update_local_settings (i : nghttp2_hd_inflater) (iv : list nghttp2_settings_entry) : se_m (nghttp2_hd_inflater * Z) :=
  let! (i, rv) := defined (change_inflater i iv) in
  if negb (rv =? 0) then mret (i, rv)
  else
    let! ss := the_session in
    let new_initial_window_size := default (-1) (to_int32 <$> last_entry NGHTTP2_SETTINGS_INITIAL_WINDOW_SIZE iv) in
    let! rv := (if negb (new_initial_window_size =? -1)
                then session_update_local_initial_window_size new_initial_window_size (to_int32 (initial_window_size (local_settings ss)))
                else mret 0) in
    if negb (rv =? 0) then mret (i, rv)
    else
      update (fun ss => upd_conf (local_settings_to (store_settings (local_settings ss) iv)) ss);;
      mret (i, 0).

(** ** The peer's settings *)

Abbreviation invalid frame err reason := (invalid_connection frame err (Some (str reason%string))).

(** One turn of the loop; [Some] is the value that the handler returns. *)
Definition remote_setting (frame : nghttp2_frame) (d : nghttp2_hd_deflater) (entry : nghttp2_settings_entry) : se_m (nghttp2_hd_deflater * option Z) :=
  let! ss := the_session in
  let id := settings_id entry in
  let v := iv_value entry in
  let refuse d (m : se_m Z) := let! rv := m in mret (d, Some rv) in
  let accept (d : nghttp2_hd_deflater) := update (fun ss => upd_conf (remote_settings_to (setting_to id v (remote_settings ss))) ss);; mret (d, None) in
  if id =? NGHTTP2_SETTINGS_HEADER_TABLE_SIZE then
    let! (d, rv) := defined (nghttp2_hd_deflate_change_table_size d v) in
    if negb (rv =? 0) then
      if nghttp2_is_fatal rv then mret (d, Some rv) else refuse d (invalid_connection frame NGHTTP2_ERR_HEADER_COMP None)
    else accept d
  else if id =? NGHTTP2_SETTINGS_ENABLE_PUSH then
    if negb (v =? 0) && negb (v =? 1) then refuse d (invalid frame NGHTTP2_ERR_PROTO "SETTINGS: invalid SETTINGS_ENBLE_PUSH")
    else if negb (server ss) && negb (v =? 0) then refuse d (invalid frame NGHTTP2_ERR_PROTO "SETTINGS: server attempted to enable push")
    else accept d
  else if id =? NGHTTP2_SETTINGS_MAX_CONCURRENT_STREAMS then accept d
  else if id =? NGHTTP2_SETTINGS_INITIAL_WINDOW_SIZE then
    if NGHTTP2_MAX_WINDOW_SIZE <? v then refuse d (invalid frame NGHTTP2_ERR_FLOW_CONTROL "SETTINGS: too large SETTINGS_INITIAL_WINDOW_SIZE")
    else
      let! rv := session_update_remote_initial_window_size (to_int32 v) in
      if nghttp2_is_fatal rv then mret (d, Some rv)
      else if negb (rv =? 0) then refuse d (invalid_connection frame NGHTTP2_ERR_FLOW_CONTROL None)
      else accept d
  else if id =? NGHTTP2_SETTINGS_MAX_FRAME_SIZE then
    if (v <? NGHTTP2_MAX_FRAME_SIZE_MIN) || (NGHTTP2_MAX_FRAME_SIZE_MAX <? v)
    then refuse d (invalid frame NGHTTP2_ERR_PROTO "SETTINGS: invalid SETTINGS_MAX_FRAME_SIZE")
    else accept d
  else if id =? NGHTTP2_SETTINGS_MAX_HEADER_LIST_SIZE then accept d
  else if id =? NGHTTP2_SETTINGS_ENABLE_CONNECT_PROTOCOL then
    if negb (v =? 0) && negb (v =? 1) then refuse d (invalid frame NGHTTP2_ERR_PROTO "SETTINGS: invalid SETTINGS_ENABLE_CONNECT_PROTOCOL")
    else if negb (server ss) && negb (enable_connect_protocol (remote_settings ss) =? 0) && (v =? 0)
    then refuse d (invalid frame NGHTTP2_ERR_PROTO "SETTINGS: server attempted to disable SETTINGS_ENABLE_CONNECT_PROTOCOL")
    else accept d
  else if id =? NGHTTP2_SETTINGS_NO_RFC7540_PRIORITIES then
    if negb (v =? 0) && negb (v =? 1) then refuse d (invalid frame NGHTTP2_ERR_PROTO "SETTINGS: invalid SETTINGS_NO_RFC7540_PRIORITIES")
    else if negb (no_rfc7540_priorities_setting (remote_settings ss) =? UINT32_MAX) && negb (no_rfc7540_priorities_setting (remote_settings ss) =? v)
    then refuse d (invalid frame NGHTTP2_ERR_PROTO "SETTINGS: SETTINGS_NO_RFC7540_PRIORITIES cannot be changed")
    else accept d
  else mret (d, None).

Fixpoint remote_entries (frame : nghttp2_frame) (d : nghttp2_hd_deflater) (iv : list nghttp2_settings_entry) : se_m (nghttp2_hd_deflater * option Z) :=
  match iv with
  | [] => mret (d, None)
  | e :: iv =>
      let! (d, r) := remote_setting frame d e in
      match r with
      | Some rv => mret (d, Some rv)
      | None => remote_entries frame d iv
      end
  end.

(** Before the first SETTINGS of the peer, a guess stands for its limit. *)
Definition first_settings : se_m unit :=
  let! ss := the_session in
  if remote_settings_received ss =? 0 then
    update (upd_conf (remote_settings_to (setting_to NGHTTP2_SETTINGS_MAX_CONCURRENT_STREAMS NGHTTP2_DEFAULT_MAX_CONCURRENT_STREAMS (remote_settings ss))));;
    update (upd_conf (remote_settings_received_to 1))
  else mret tt.

(** A peer that did not mention SETTINGS_NO_RFC7540_PRIORITIES wants the old ones. *)
Definition settle_priorities : se_m unit :=
  let! ss := the_session in
  if no_rfc7540_priorities_setting (remote_settings ss) =? UINT32_MAX then
    update (upd_conf (remote_settings_to (setting_to NGHTTP2_SETTINGS_NO_RFC7540_PRIORITIES 0 (remote_settings ss))));;
    if server ss && negb (pending_no_rfc7540_priorities ss =? 0) && negb (opt_flags ss .& NGHTTP2_OPTMASK_SERVER_FALLBACK_RFC7540_PRIORITIES =? 0)
    then update (upd_conf (fallback_rfc7540_priorities_to 1))
    else mret tt
  else mret tt.

(** The oldest submitted settings are in force. *)
Definition settings_acknowledged (f : nghttp2_settings) (i : nghttp2_hd_inflater) : se_m (nghttp2_hd_inflater * Z) :=
  let frame := FrControl (FrSettings f) in
  let! ss := the_session in
  match inflight_settings ss with
  | [] => let! rv := invalid frame NGHTTP2_ERR_PROTO "SETTINGS: unexpected ACK" in mret (i, rv)
  | iv :: rest =>
      let! (i, rv) := nghttp2_session_update_local_settings i iv in
      update (upd_conf (inflight_settings_to rest));;
      if negb (rv =? 0) then
        if nghttp2_is_fatal rv then mret (i, rv)
        else let! rv := invalid_connection frame rv None in mret (i, rv)
      else let! rv := frame_received frame in mret (i, rv)
  end.

(** [if (!noack && !session_is_closing(session))] and what follows. *)
Definition acknowledge (frame : nghttp2_frame) (noack : bool) : se_m Z :=
  let! ss := the_session in
  if negb noack && negb (session_is_closing ss) then
    let! rv := nghttp2_session_add_settings NGHTTP2_FLAG_ACK [] in
    if negb (rv =? 0) then if nghttp2_is_fatal rv then mret rv else invalid_connection frame NGHTTP2_ERR_INTERNAL None
    else frame_received frame
  else frame_received frame.

Definition nghttp2_session_on_settings_received (f : nghttp2_settings) (noack : bool) (hd : session_hd) : se_m (session_hd * Z) :=
  let frame := FrControl (FrSettings f) in
  if negb (hd_stream_id (st_hd f) =? 0) then
    let! rv := invalid frame NGHTTP2_ERR_PROTO "SETTINGS: stream_id != 0" in mret (hd, rv)
  else if flag_set (hd_flags (st_hd f)) NGHTTP2_FLAG_ACK then
    if negb (zlen (st_iv f) =? 0) then
      let! rv := invalid frame NGHTTP2_ERR_FRAME_SIZE_ERROR "SETTINGS: ACK and payload != 0" in mret (hd, rv)
    else
      let! (i, rv) := settings_acknowledged f (hd_inflater hd) in
      mret (mk_hd (hd_deflater hd) i, rv)
  else
    first_settings;;
    let! (d, r) := remote_entries frame (hd_deflater hd) (st_iv f) in
    let hd := mk_hd d (hd_inflater hd) in
    match r with
    | Some rv => mret (hd, rv)
    | None =>
        settle_priorities;;
        let! rv := acknowledge frame noack in
        mret (hd, rv)
    end.

(** [max_niv] is 0 for an acknowledgement, and then no entry was read. *)
Definition session_process_settings_frame (f : nghttp2_frame_hd) (block : option iframe_iv) (hd : session_hd) : se_m (session_hd * Z) :=
  let! iv := (match block with Some b => defined (header_sizes b) | None => mret [] end) in
  nghttp2_session_on_settings_received (mk_settings f iv) false hd.

End Settings.
