(* ===== verification/SessionEntries.v ===== *)
(** * Sessions: the entries of a SETTINGS frame

    An entry that arrives takes the place of the one for the same identifier,
    and of the sizes of the header table the smallest and the last are kept.
    What the handler sees is what the peer meant, and fits into the block
    that was allocated for it. *)

From stdpp Require Import strings.
From S2P Require Import Prelude Defs Helper Frame FrameHeaders Session SessionSettings.

Implicit Types (id v : Z) (e : nghttp2_settings_entry) (iv es : list nghttp2_settings_entry) (f : iframe_iv).

(** ** Entries for one identifier *)

Definition entries_for id iv : list Z := iv_value <$> filter (fun e => settings_id e = id) iv.

Definition header_size : Z := NGHTTP2_SETTINGS_HEADER_TABLE_SIZE.

(** The values are those that 32 bits hold. *)
Definition values_u32 iv : Prop := Forall (fun e => is_u32 (iv_value e)) iv.

Lemma entries_app id iv es : entries_for id (iv ++ es) = entries_for id iv ++ entries_for id es.
Proof. unfold entries_for. by rewrite filter_app, fmap_app. Qed.

Lemma entries_one id e : entries_for id [e] = if decide (settings_id e = id) then [iv_value e] else [].
Proof. unfold entries_for. rewrite filter_cons. by case_decide. Qed.

Lemma entries_cons id e iv : entries_for id (e :: iv) = entries_for id [e] ++ entries_for id iv.
Proof. apply (entries_app id [e]). Qed.

Lemma last_entry_snoc id iv e : last_entry id (iv ++ [e]) = if settings_id e =? id then Some (iv_value e) else last_entry id iv.
Proof.
  induction iv as [|x iv IH]; simpl; [by destruct (_ =? _)|]. rewrite IH. destruct (settings_id e =? id); [done|]. done.
Qed.

Lemma smallest_entry_snoc id iv e : smallest_entry id (iv ++ [e]) = if settings_id e =? id then nghttp2_min (smallest_entry id iv) (iv_value e) else smallest_entry id iv.
Proof. unfold smallest_entry. by rewrite foldl_snoc. Qed.

Lemma last_entry_u32 id iv v : values_u32 iv -> last_entry id iv = Some v -> is_u32 v.
Proof. induction 1 as [|e iv He _ IH]; simpl; [done|]. destruct (last_entry id iv); [done|]. case_match; [|done]. by intros [= <-]. Qed.

Lemma smallest_entry_u32 id iv : values_u32 iv -> is_u32 (smallest_entry id iv).
Proof.
  intros H. unfold smallest_entry. assert (is_u32 UINT32_MAX) as H0 by (unfold is_u32, UINT32_MAX; lia). revert H0. generalize UINT32_MAX. induction H as [|e iv He _ IH]; simpl; [done|].
  intros least Hl. apply IH. case_match; [|done]. rewrite nghttp2_min_spec. unfold is_u32 in *. lia.
Qed.

(** Where no entry was, the limit stands. *)
Lemma smallest_entry_none id iv : last_entry id iv = None -> smallest_entry id iv = UINT32_MAX.
Proof.
  induction iv as [|e iv IH] using rev_ind; [done|]. rewrite last_entry_snoc, smallest_entry_snoc. by destruct (_ =? _).
Qed.

Lemma smallest_below_last id iv v : last_entry id iv = Some v -> smallest_entry id iv <= v.
Proof.
  induction iv as [|e iv IH] using rev_ind; [done|]. rewrite last_entry_snoc, smallest_entry_snoc. destruct (_ =? _); [|done].
  intros [= <-]. rewrite nghttp2_min_spec. lia.
Qed.

(** ** Replacing entries *)

Lemma replace_for e iv id : (length (entries_for (settings_id e) iv) <= 1)%nat ->
  entries_for id (replace_entry e iv) = if decide (settings_id e = id) then [iv_value e] else entries_for id iv.
Proof.
  induction iv as [|x iv IH]; simpl; intros Hone; [by rewrite entries_one|]. rewrite (entries_cons _ x), entries_one in Hone.
  destruct (Z.eqb_spec (settings_id x) (settings_id e)) as [E|E].
  - rewrite decide_True in Hone by done. simpl in Hone. rewrite (entries_cons _ e), (entries_cons _ x), !entries_one, E. case_decide as D; [|done]. subst id.
    destruct (entries_for (settings_id e) iv); [done|]. simpl in Hone. lia.
  - rewrite decide_False in Hone by done. rewrite (entries_cons _ x), IH, entries_one by done. destruct (decide (settings_id e = id)) as [<-|D]; [by rewrite decide_False by done|].
    by rewrite (entries_cons _ x iv), entries_one.
Qed.

Lemma replace_length e iv : length (replace_entry e iv) = (length iv + if decide (entries_for (settings_id e) iv = []) then 1 else 0)%nat.
Proof.
  induction iv as [|x iv IH]; simpl; [done|]. rewrite entries_cons, entries_one. destruct (Z.eqb_spec (settings_id x) (settings_id e)) as [E|E].
  - rewrite (decide_True (P := settings_id x = _)) by done. simpl. lia.
  - rewrite (decide_False (P := settings_id x = _)) by done. simpl. by rewrite IH.
Qed.

Lemma replace_u32 e iv : is_u32 (iv_value e) -> values_u32 iv -> values_u32 (replace_entry e iv).
Proof. intros He. induction 1 as [|x iv Hx Hiv IH]; simpl; [by apply Forall_cons|].
  case_match; apply Forall_cons; split; done. Qed.

(** ** The entries that arrived *)

(** The block before the first entry. *)
Definition iframe_iv_new : iframe_iv := mk_iframe_iv [] (mk_iv NGHTTP2_SETTINGS_HEADER_TABLE_SIZE UINT32_MAX).

(** The entries are read one after the other. *)
Definition read_entries es : iframe_iv := foldl inbound_frame_set_settings_entry iframe_iv_new es.

(** No block is allocated for a frame without entries. *)
Definition block_of es : option iframe_iv := match es with [] => None | _ => Some (read_entries es) end.

(** What was read of [es]: known identifiers have their last value. *)
Record entries_read es f : Prop := {
  er_for : forall id, entries_for id (if_iv f) = if known_setting id then option_list (last_entry id es) else entries_for id es;
  er_min : if_min f = mk_iv NGHTTP2_SETTINGS_HEADER_TABLE_SIZE (smallest_entry header_size es);
  er_length : (length (if_iv f) <= length es)%nat;
  er_room : values_u32 es -> forall v, last_entry header_size es = Some v -> smallest_entry header_size es <> v -> (length (if_iv f) < length es)%nat;
  er_u32 : values_u32 es -> values_u32 (if_iv f);
}.

Lemma values_snoc es e : values_u32 (es ++ [e]) -> values_u32 es /\ is_u32 (iv_value e).
Proof. intros [H1 [H2 _]%Forall_cons]%Forall_app. split; [exact H1|exact H2]. Qed.

Lemma entry_added es e f : entries_read es f -> entries_read (es ++ [e]) (inbound_frame_set_settings_entry f e).
Proof.
  intros [H1 H2 H3 H4 H5]. unfold inbound_frame_set_settings_entry. destruct (known_setting (settings_id e)) eqn:Ek; simpl.
  - assert (length (entries_for (settings_id e) (if_iv f)) <= 1)%nat as Hone by (rewrite H1, Ek; destruct (last_entry (settings_id e) es); cbn; lia).
    pose proof (replace_length e (if_iv f)) as Hlen. rewrite H1, Ek in Hlen. split; simpl.
    + intros id. rewrite (replace_for e _ id Hone), last_entry_snoc, entries_app, entries_one, H1. destruct (Z.eqb_spec (settings_id e) id) as [<-|Hne].
      * rewrite decide_True by done. by rewrite Ek.
      * by rewrite !decide_False, app_nil_r by done.
    + rewrite H2, smallest_entry_snoc. unfold header_size. destruct (settings_id e =? NGHTTP2_SETTINGS_HEADER_TABLE_SIZE); simpl; [|done]. rewrite nghttp2_min_spec.
      destruct (Z.ltb_spec (iv_value e) (smallest_entry NGHTTP2_SETTINGS_HEADER_TABLE_SIZE es)); simpl; f_equal; lia.
    + rewrite Hlen, length_app. case_decide; simpl; lia.
    + intros [Hv He]%values_snoc v. rewrite last_entry_snoc, smallest_entry_snoc, Hlen, length_app. destruct (Z.eqb_spec (settings_id e) header_size) as [E|E]; simpl.
      * intros [= <-]. rewrite E in *. destruct (last_entry header_size es) as [w|] eqn:El; simpl; [lia|]. rewrite (smallest_entry_none _ _ El), nghttp2_min_spec. intros Hne.
        unfold is_u32, UINT32_MAX in *. lia.
      * intros Hl Hne. specialize (H4 Hv v Hl Hne). case_decide; lia.
    + intros [Hv He]%values_snoc. apply replace_u32; auto.
  - assert (settings_id e =? header_size = false) as Eh.
    { apply Z.eqb_neq. intros E. by rewrite E in Ek. }
    split; simpl.
    + intros id. rewrite entries_app, entries_one, H1, last_entry_snoc, (entries_app id es), entries_one. destruct (Z.eqb_spec (settings_id e) id) as [<-|Hne]; [by rewrite Ek|].
      by rewrite decide_False, !app_nil_r by done.
    + by rewrite H2, smallest_entry_snoc, Eh.
    + rewrite !length_app. simpl. lia.
    + intros [Hv He]%values_snoc v. rewrite last_entry_snoc, smallest_entry_snoc, Eh, !length_app. simpl. intros Hl Hne. specialize (H4 Hv v Hl Hne). lia.
    + intros [Hv He]%values_snoc. apply Forall_app. split; [by apply H5|by apply Forall_cons].
Qed.

Lemma all_read es : entries_read es (read_entries es).
Proof.
  unfold read_entries. induction es as [|e es IH] using rev_ind; [|by rewrite foldl_snoc; apply entry_added].
  split; simpl; try done. intros id. unfold entries_for. simpl. by destruct (known_setting id).
Qed.

(** ** The block that the handler gets *)

(** What is meant by the sizes of the header table: the smallest, and then the
    last if that is another one. *)
Definition sizes_meant es : list Z :=
  match last_entry header_size es with
  | None => []
  | Some v => if smallest_entry header_size es =? v then [v] else [smallest_entry header_size es; v]
  end.

(** What is meant by the entries [es], for one identifier. *)
Definition meant id es : list Z :=
  if id =? header_size then sizes_meant es
  else if known_setting id then option_list (last_entry id es) else entries_for id es.

(** The only entry of its kind splits the list. *)
Lemma size_found iv v : entries_for header_size iv = [v] -> exists before e after, iv = before ++ e :: after /\
  list_find (fun e => settings_id e = NGHTTP2_SETTINGS_HEADER_TABLE_SIZE) iv = Some (length before, e) /\ settings_id e = header_size /\ iv_value e = v /\
  entries_for header_size before = [] /\ entries_for header_size after = [].
Proof.
  induction iv as [|x iv IH]; [done|]. rewrite entries_cons, entries_one. destruct (decide (settings_id x = header_size)) as [E|E]; simpl.
  - intros [= Hv Hnil]. exists [], x, iv. split; [done|]. split; [by rewrite decide_True|done].
  - intros Hv. destruct (IH Hv) as (before & e & after & -> & Hf & Hid & Hev & Hb & Ha). exists (x :: before), e, after. split; [done|].
    rewrite decide_False by done. rewrite Hf. split; [done|]. split; [done|]. split; [done|]. split; [|done]. by rewrite entries_cons, entries_one, decide_False.
Qed.

Lemma sizes_kept es : values_u32 es -> exists iv, header_sizes (read_entries es) = Some iv /\ (length iv <= length es)%nat /\ values_u32 iv /\
  forall id, entries_for id iv = meant id es.
Proof.
  intros Hv. destruct (all_read es) as [H1 H2 H3 H4 H5]. set (f := read_entries es) in *. specialize (H4 Hv). specialize (H5 Hv).
  assert (forall iv id, entries_for id iv = entries_for id (if_iv f) -> id <> header_size -> entries_for id iv = meant id es) as Hother.
  { intros iv id -> Hne. rewrite H1. unfold meant. by rewrite (proj2 (Z.eqb_neq _ _) Hne). }
  assert (entries_for header_size (if_iv f) = option_list (last_entry header_size es)) as Hh by (by rewrite H1).
  assert ((length (if_iv f) <= length es)%nat /\ values_u32 (if_iv f) /\ (entries_for header_size (if_iv f) = sizes_meant es -> forall id, entries_for id (if_iv f) = meant id es)) as Hsame.
  { split; [done|]. split; [done|]. intros Hs id. destruct (decide (id = header_size)) as [->|Hne]; [exact Hs|by apply Hother]. }
  unfold header_sizes. rewrite H2. simpl iv_value. pose proof (smallest_entry_u32 header_size es Hv) as Hsm. unfold sizes_meant in Hsame.
  destruct (last_entry header_size es) as [v|] eqn:El.
  2: { rewrite (smallest_entry_none _ _ El), Z.ltb_irrefl. exists (if_iv f). split; [done|]. destruct Hsame as (? & ? & Hs). split; [done|]. split; [done|]. by apply Hs. }
  pose proof (last_entry_u32 _ _ _ Hv El) as Hlu. pose proof (smallest_below_last _ _ _ El) as Hle.
  destruct (Z.ltb_spec (smallest_entry header_size es) UINT32_MAX) as [Hlt|Hge].
  2: { assert (smallest_entry header_size es =? v = true) as E by (unfold is_u32, UINT32_MAX in *; lia). rewrite E in Hsame.
    exists (if_iv f). split; [done|]. destruct Hsame as (? & ? & Hs). split; [done|]. split; [done|]. by apply Hs. }
  destruct (size_found (if_iv f) v) as (before & e & after & Eiv & Hfind & Hid & Hev & Hb & Ha); [by rewrite H1, El|]. rewrite Hfind, Hev.
  destruct (Z.eqb_spec (smallest_entry header_size es) v) as [Esm|Hne]; simpl negb; cbn iota.
  { exists (if_iv f). split; [done|]. destruct Hsame as (? & ? & Hs). split; [done|]. split; [done|]. apply Hs. by rewrite H1, El. }
  specialize (H4 v eq_refl Hne). rewrite Eiv in *. rewrite insert_app_r_alt, Nat.sub_diag by done. simpl (<[0%nat:=_]> _). set (least := mk_iv _ _). eexists. split; [done|].
  rewrite !length_app in *. simpl length in *. split; [lia|]. apply Forall_app in H5 as [Hub [Hue Hua]%Forall_cons]. split.
  { rewrite <- app_assoc. apply Forall_app. split; [done|]. apply Forall_cons. split; [done|]. apply Forall_app. split; [done|]. by apply Forall_cons. }
  assert (forall id, entries_for id ((before ++ least :: after) ++ [e]) = entries_for id before ++ entries_for id [least] ++ entries_for id after ++ entries_for id [e]) as Happ.
  { intros id. by rewrite !entries_app, (entries_cons _ least), <- !app_assoc. }
  intros id. destruct (decide (id = header_size)) as [->|Hid'].
  - rewrite Happ, Hb, Ha, !entries_one. rewrite !decide_True by done. simpl. rewrite Hev. unfold meant, sizes_meant. rewrite Z.eqb_refl, El. by rewrite (proj2 (Z.eqb_neq _ _) Hne).
  - apply Hother; [|done]. rewrite Happ, entries_app, (entries_cons _ e after), !entries_one. assert (settings_id least <> id) by (intros <-; by apply Hid').
    rewrite !decide_False by congruence. simpl. by rewrite app_nil_r.
Qed.

(** The entries that the handler gets. *)
Lemma block_kept es : values_u32 es -> exists iv, match block_of es with Some b => header_sizes b | None => Some [] end = Some iv /\ (length iv <= length es)%nat /\ values_u32 iv.
Proof.
  intros Hv. destruct es as [|e es]; [by exists []|]. destruct (sizes_kept _ Hv) as (iv & E & Hlen & Hu & _). by exists iv.
Qed.

(** ** Claims *)

(** C18: what a SETTINGS frame says is read whole. Whatever entries arrive, in
    whatever order, the assertion of [session_process_settings_frame] holds,
    no more entries are stored than arrived - so the block that was allocated
    for them is not overrun, and the cell after it, which holds the smallest
    size of the header table, not overwritten before it is read - and the
    handler sees for every known identifier its last value, for the header
    table the smallest size and then the last, and every entry of an
    identifier that is not known. *)
Theorem settings_read_whole es : Forall (fun e => is_u32 (iv_value e)) es ->
  (length (if_iv (read_entries es)) <= length es)%nat /\
  exists iv, header_sizes (read_entries es) = Some iv /\ (length iv <= length es)%nat /\ forall id, entries_for id iv = meant id es.
Proof.
  intros Hv. split; [apply all_read|]. destruct (sizes_kept es Hv) as (iv & E & Hlen & _ & Hm). by exists iv.
Qed.

(** ** Witnesses *)

(** The header table shrinks and grows again, and an initial window is
    announced twice; 77 is not known. *)
Definition demo_entries : list nghttp2_settings_entry := [mk_iv 1 4096; mk_iv 4 100; mk_iv 77 5; mk_iv 1 0; mk_iv 4 200; mk_iv 77 6; mk_iv 1 8192].

Lemma settings_read_whole_witness : (length (if_iv (read_entries demo_entries)) <= length demo_entries)%nat /\
  exists iv, header_sizes (read_entries demo_entries) = Some iv /\ (length iv <= length demo_entries)%nat /\ forall id, entries_for id iv = meant id demo_entries.
Proof. apply settings_read_whole. repeat (apply Forall_cons; split; [by split|]). by apply Forall_nil. Defined.

Example demo_entries_read : header_sizes (read_entries demo_entries) = Some [mk_iv 1 0; mk_iv 4 200; mk_iv 77 5; mk_iv 77 6; mk_iv 1 8192].
Proof. by vm_compute. Qed.
