(* ===== verification/SessionHpack.v ===== *)
(** * Sessions: what settings do to the HPACK contexts

    A list of sizes for the header table - those of the peer for the
    compressor, those it acknowledged for the decompressor - has the effect
    of the smallest one and then of the last: what is evicted from the table
    depends on the one, and what fits into it later on the other. *)

From stdpp Require Import strings.
From S2P Require Import Prelude Defs Helper HdToken HdTable HdDeflate HdInflate HdRoundtrip Frame FrameHeaders Session SessionSettings SessionEntries.

Implicit Types (v : Z) (vs : list Z) (d : nghttp2_hd_deflater) (i : nghttp2_hd_inflater) (iv es : list nghttp2_settings_entry).

(** ** Contexts in order *)

(** The compressor takes any new bound for its table. *)
Definition deflater_ok d : Prop := exists nvs st, synced d nvs st.

(** The decompressor is between two header blocks. *)
Definition inflater_ok i : Prop := exists st, idle i st /\ inf_state i <> NGHTTP2_HD_STATE_OPCODE.

Definition hd_ok (hd : session_hd) : Prop := deflater_ok (hd_deflater hd) /\ inflater_ok (hd_inflater hd).

(** ** The sizes of a list *)

Definition least vs : Z := foldr Z.min UINT32_MAX vs.

Lemma least_u32 vs : Forall is_u32 vs -> is_u32 (least vs).
Proof. induction 1 as [|v vs Hv _ IH]; [done|]. unfold is_u32 in *. simpl. lia. Qed.

Lemma least_snoc vs v : least (vs ++ [v]) = Z.min (least vs) (Z.min v UINT32_MAX).
Proof. unfold least. induction vs as [|x vs IH]; simpl; [lia|]. rewrite IH. lia. Qed.

Lemma least_smallest id iv : values_u32 iv -> least (entries_for id iv) = smallest_entry id iv.
Proof.
  induction iv as [|e iv IH] using rev_ind; [done|]. intros [Hv He]%Forall_app. rewrite entries_app, entries_one, smallest_entry_snoc. specialize (IH Hv).
  apply Forall_cons in He as [He _]. unfold is_u32, UINT32_MAX in He. destruct (Z.eqb_spec (settings_id e) id) as [E|E].
  - rewrite decide_True by done. rewrite least_snoc, IH, nghttp2_min_spec. unfold UINT32_MAX. lia.
  - rewrite decide_False by done. by rewrite app_nil_r.
Qed.

Lemma last_entry_last id iv : last_entry id iv = last (entries_for id iv).
Proof.
  induction iv as [|e iv IH] using rev_ind; [done|]. rewrite last_entry_snoc, entries_app, entries_one. destruct (Z.eqb_spec (settings_id e) id) as [E|E].
  - rewrite decide_True by done. by rewrite last_snoc.
  - rewrite decide_False by done. by rewrite app_nil_r.
Qed.

(** ** The compressor *)

(** The compressor [d] has become [d'] by the sizes [vs]: its table is bounded
    by the last of them, what does not fit the smallest has been evicted, and
    the next header block will announce it; no size exceeds the bound that
    was chosen for the context. *)
Definition deflater_took vs d d' : Prop :=
  match last vs with
  | None => d' = d
  | Some v =>
      let bounded n := Z.min n (deflate_hd_table_bufsize_max d) in
      hd_table_bufsize_max (df_ctx d') = bounded v /\ df_min_hd_table_bufsize_max d' = Z.min (df_min_hd_table_bufsize_max d) (bounded (least vs)) /\
      deflate_hd_table_bufsize_max d' = deflate_hd_table_bufsize_max d /\ notify_table_size_change d' = true /\
      forall nvs st, synced d nvs st -> synced d' (fit (bounded (least vs)) nvs) st
  end.

Lemma deflater_changes d v : deflater_ok d -> is_u32 v -> exists d', nghttp2_hd_deflate_change_table_size d v = Some (d', 0) /\ deflater_ok d' /\ deflater_took [v] d d'.
Proof.
  intros (nvs & st & HS) Hv. destruct (deflate_change_synced d nvs st v HS Hv) as (d' & E & Hmax & HS' & _). exists d'. split; [done|]. split; [by eexists _, _|].
  assert (Z.min v UINT32_MAX = v) as Ev by (unfold is_u32, UINT32_MAX in *; lia). unfold deflater_took, least. cbn [last foldr]. rewrite Ev. cbv zeta. split; [done|].
  assert (df_min_hd_table_bufsize_max d' = Z.min (df_min_hd_table_bufsize_max d) (Z.min v (deflate_hd_table_bufsize_max d)) /\
    deflate_hd_table_bufsize_max d' = deflate_hd_table_bufsize_max d /\ notify_table_size_change d' = true) as (H1 & H2 & H3).
  { unfold nghttp2_hd_deflate_change_table_size in E. cbv zeta in E. rewrite !nghttp2_min_spec in E.
    destruct (hd_context_shrink_table_size _ _) as [[ctx [map|]]|]; simplify_eq/=. done. }
  split; [done|]. split; [done|]. split; [done|]. intros nvs' st' HS1. destruct (deflate_change_synced d nvs' st' v HS1 Hv) as (d1 & E1 & _ & HS1' & _).
  by assert (d1 = d') as -> by congruence.
Qed.

Lemma deflater_took_cons v vs d d1 d2 : is_u32 v -> Forall is_u32 vs -> deflater_took [v] d d1 -> deflater_took vs d1 d2 -> deflater_took (v :: vs) d d2.
Proof.
  intros Hv Hvs H1 H2. unfold deflater_took in *. assert (Z.min v UINT32_MAX = v) as Ev by (unfold is_u32, UINT32_MAX in *; lia).
  assert (least [v] = v) as E1 by (unfold least; simpl; lia). cbn [last] in H1. rewrite E1 in H1. cbv zeta in *. destruct vs as [|w vs].
  - cbn [last] in *. rewrite E1. by subst d2.
  - change (last (v :: w :: vs)) with (last (w :: vs)). destruct (last (w :: vs)) as [u|] eqn:El; [|by apply last_None in El].
    change (least (v :: w :: vs)) with (Z.min v (least (w :: vs))). generalize dependent (least (w :: vs)). intros l (B1 & B2 & B3 & B4 & B5).
    destruct H1 as (A1 & A2 & A3 & A4 & A5). rewrite A3 in *. split; [done|]. split; [rewrite B2, A2; lia|]. split; [done|]. split; [done|].
    intros nvs st HS. specialize (B5 _ _ (A5 _ _ HS)). rewrite fit_fit in B5.
    by replace (Z.min (Z.min v l) (deflate_hd_table_bufsize_max d)) with (Z.min (Z.min l (deflate_hd_table_bufsize_max d)) (Z.min v (deflate_hd_table_bufsize_max d))) by lia.
Qed.

Lemma entries_u32 id iv : values_u32 iv -> Forall is_u32 (entries_for id iv).
Proof.
  induction 1 as [|e iv He _ IH]; [by apply Forall_nil|]. rewrite entries_cons, entries_one. case_decide; [|done]. by apply Forall_cons.
Qed.

(** An entry after the other. *)
Lemma deflater_took_entries e iv d d1 d2 : values_u32 (e :: iv) -> deflater_took (entries_for header_size [e]) d d1 -> deflater_took (entries_for header_size iv) d1 d2 ->
  deflater_took (entries_for header_size (e :: iv)) d d2.
Proof.
  intros [He Hv]%Forall_cons. rewrite (entries_cons _ e iv), entries_one. case_decide; [|by intros ->]. apply deflater_took_cons; [done|]. by apply entries_u32.
Qed.

Lemma took_nothing e d : settings_id e <> header_size -> deflater_took (entries_for header_size [e]) d d.
Proof. intros He. by rewrite entries_one, decide_False. Qed.

Lemma took_size e d d' : settings_id e = header_size -> deflater_took [iv_value e] d d' -> deflater_took (entries_for header_size [e]) d d'.
Proof. intros He. by rewrite entries_one, decide_True. Qed.

(** The effect is that of the smallest and of the last. *)
Lemma deflater_took_same vs vs' d d' : last vs = last vs' -> least vs = least vs' -> deflater_took vs d d' -> deflater_took vs' d d'.
Proof. unfold deflater_took. by intros -> ->. Qed.

(** ** The decompressor *)

(** The decompressor [i] has become [i'] by the sizes [vs]: the last one is the
    most that the peer may choose, and if the smallest one is below the
    present bound the table has shrunk and the peer has to say so. *)
Definition inflater_took vs i i' : Prop :=
  match last vs with
  | None => i' = i
  | Some v =>
      settings_hd_table_bufsize_max i' = v /\
      forall st, idle i st ->
        if least vs <? st.1
        then idle i' (least vs, fit (least vs) st.2) /\ inf_state i' = NGHTTP2_HD_STATE_EXPECT_TABLE_SIZE /\ min_hd_table_bufsize_max i' = least vs
        else idle i' st /\ inf_state i' = inf_state i /\ min_hd_table_bufsize_max i' = min_hd_table_bufsize_max i
  end.

Lemma took_inflater_ok vs i i' : inflater_ok i -> inflater_took vs i i' -> inflater_ok i'.
Proof.
  intros (st & HI & Hst). unfold inflater_took. destruct (last vs) as [v|]; [|intros ->; by exists st]. intros [_ H]. specialize (H st HI).
  destruct (least vs <? st.1); destruct H as (HI' & Est & _); eexists; (split; [exact HI'|congruence]).
Qed.

Lemma inflater_changes i v st : idle i st -> inf_state i <> NGHTTP2_HD_STATE_OPCODE -> is_u32 v ->
  exists i', nghttp2_hd_inflate_change_table_size i v = Some (i', 0) /\ inflater_took [v] i i'.
Proof.
  intros HI Hst Hv. destruct (inflate_change_exact i st v HI Hst Hv) as (i' & E & Hmax & H). exists i'. split; [done|].
  assert (least [v] = v) as El by (unfold least, is_u32, UINT32_MAX in *; simpl; lia). unfold inflater_took. cbn [last]. rewrite El. split; [done|].
  intros st' HI'. destruct (inflate_change_exact i st' v HI' Hst Hv) as (i1 & E1 & _ & H1). by assert (i1 = i') as -> by congruence.
Qed.

(** The smallest size first, and then the last. *)
Lemma inflater_takes i iv : inflater_ok i -> values_u32 iv -> exists i', change_inflater i iv = Some (i', 0) /\ inflater_took (entries_for header_size iv) i i'.
Proof.
  intros HO Hv. pose proof HO as (st & HI & Hst). unfold change_inflater, inflater_took. rewrite <- last_entry_last. change NGHTTP2_SETTINGS_HEADER_TABLE_SIZE with header_size. destruct (last_entry _ iv) as [v|] eqn:E; [|eauto].
  cbv zeta. pose proof (last_entry_u32 _ _ _ Hv E) as Hs. pose proof (smallest_below_last _ _ _ E) as Hle. pose proof (smallest_entry_u32 header_size iv Hv) as Hm.
  rewrite (least_smallest _ _ Hv). set (l := smallest_entry header_size iv) in *.
  destruct (inflater_changes i l st HI Hst Hm) as (i1 & E1 & H1). pose proof (took_inflater_ok _ _ _ HO H1) as (st1 & HI1 & Hst1).
  assert (least [l] = l) as El by (unfold least, is_u32, UINT32_MAX in *; simpl; lia). unfold inflater_took in H1. cbn [last] in H1. rewrite El in H1. destruct H1 as [Hmax1 H1].
  destruct (Z.ltb_spec l v) as [Hlt|Hge].
  2: { assert (l = v) as Elv by lia. cbn [mbind option_bind]. change (negb (0 =? 0)) with false. cbn iota. rewrite <- Elv. by exists i1. }
  rewrite E1. cbn [mbind option_bind]. change (negb (0 =? 0)) with false. cbn iota. destruct (inflater_changes i1 v st1 HI1 Hst1 Hs) as (i2 & E2 & [Hmax2 H2]).
  assert (least [v] = v) as Ev by (unfold least, is_u32, UINT32_MAX in *; simpl; lia). rewrite Ev in H2. exists i2. split; [done|]. split; [done|]. intros st' HI'. specialize (H1 st' HI').
  destruct (Z.ltb_spec l st'.1) as [Hl|Hl]; destruct H1 as (A1 & A2 & A3); specialize (H2 _ A1).
  - cbn [fst] in H2. rewrite (proj2 (Z.ltb_ge _ _)) in H2 by lia. destruct H2 as (B1 & B2 & B3). split; [done|]. split; congruence.
  - rewrite (proj2 (Z.ltb_ge _ _)) in H2 by lia. destruct H2 as (B1 & B2 & B3). split; [done|]. split; congruence.
Qed.
