(* ===== verification/SessionSteady.v ===== *)
(** * Sessions: ready for the next frame

    The invariant of a session that receives frames: its streams, its queues
    and its windows are in order, no peer's stream that is in use is newer
    than the last one received, and there is room for what the frames to come
    may open and queue.  Queueing frames, callbacks and the operations on
    streams keep it. *)

From S2P Require Import Prelude Defs Helper HdToken Pq Frame FrameHeaders Http Stream StreamLinks StreamQueue StreamTree StreamItems StreamFrame.
From S2P Require Import Outbound Session SessionInv SessionTree SessionBooks SessionForest SessionOpen SessionClose SessionItems SessionAdjust SessionPrio SessionReach SessionTouch SessionSend SessionQueues SessionAdd SessionCalm SessionFlow SessionFlowSpec SessionDrift SessionAge SessionRecv.

Implicit Types (a b id it n : Z) (m : nat) (s : nghttp2_stream) (ss : nghttp2_session) (lc li : list Z) (L : ob_queue -> list Z) (kids : gmap Z (list Z)).

(** ** The invariant *)

(** The peer's streams that have been used. *)
Definition old ss b s : Prop := b <> root /\ se_streams ss !! b = Some s /\ is_idle s = false /\ mine (server ss) (stream_id s) = false.

(** A stream that was promised: servers promise their own streams. *)
Definition promised_by (sv : bool) s : Prop := is_promised s = true /\ mine sv (stream_id s) = sv.

(** [n] frames may be queued and [m] streams opened. *)
Record steady n m ss : Prop := {
  st_sound : sound n ss;
  st_room : room ss m;
  st_mode : rfc7540 ss;
  st_flows : flows_ok ss;
  st_opened : flow_ok (opened_flow ss);
  st_recv : mine (server ss) (last_recv_stream_id ss) = false;
  st_proc : mine (server ss) (last_proc_stream_id ss) = false;
  st_old : forall b s, old ss b s -> stream_id s <= last_recv_stream_id ss;
  st_reserved : forall b s, se_streams ss !! b = Some s -> state s = NGHTTP2_STREAM_RESERVED -> promised_by (server ss) s;
}.

Lemma steady_less n n' m m' ss : steady n m ss -> n' <= n -> (m' <= m)%nat -> steady n' m' ss.
Proof.
  intros [H1 H2 H3 H4 H5 H6 H7 H8 H9] Hn Hm. split; try done; [by eapply sound_less|]. unfold room in *. lia.
Qed.

Lemma steady_sess n m ss : steady n m ss -> exists kids lc li, sess_ok ∅ ∅ ss kids lc li.
Proof. intros [[H _ _ _] _ _ _ _ _ _ _ _]. exact H. Qed.

(** A role is what the flags and the state say. *)
Lemma role_old sv s : role_of sv (card_of s) <> RIdle <-> is_idle s = false.
Proof.
  unfold role_of, is_idle, is_closed. cbn [c_flags c_state card_of]. destruct (flag_set _ NGHTTP2_STREAM_FLAG_CLOSED); simpl; [done|].
  case_bool_decide; [done|]. split; [done|]. by repeat case_match.
Qed.

(** What the invariant needs to know of a change. *)
Lemma steady_after n n' m m' ss ss' : steady n m ss -> sound n' ss' -> se_conf ss' = se_conf ss -> room ss' m' -> flows_ok ss' ->
  mine (server ss) (last_recv_stream_id ss') = false -> mine (server ss) (last_proc_stream_id ss') = false ->
  (forall b s', old ss' b s' -> stream_id s' <= last_recv_stream_id ss' \/ exists s, old ss b s /\ stream_id s = stream_id s') ->
  (forall b s', se_streams ss' !! b = Some s' -> state s' = NGHTTP2_STREAM_RESERVED -> promised_by (server ss) s' \/ exists s, se_streams ss !! b = Some s /\ key s' = key s) ->
  last_recv_stream_id ss <= last_recv_stream_id ss' -> steady n' m' ss'.
Proof.
  intros [H1 H2 H3 H4 H5 H6 H7 H8 H9] HS EC HR HF Hr Hp Ho Hq Hle. split; try done.
  - by eapply conf_rfc7540.
  - unfold opened_flow. by rewrite EC.
  - by rewrite EC.
  - by rewrite EC.
  - intros b s' Hb. destruct (Ho b s' Hb) as [?|(s & Hs & <-)]; [done|]. specialize (H8 b s Hs). lia.
  - intros b s' Hb Hst. rewrite EC. destruct (Hq b s' Hb Hst) as [?|(s & Hs & E)]; [done|]. unfold promised_by.
    assert (stream_id s' = stream_id s /\ state s' = state s /\ is_promised s' = is_promised s) as (-> & Es & ->) by (unfold key in E; split_and!; congruence).
    apply (H9 b); [done|congruence].
Qed.

(** ** Frames that are queued *)

Lemma calm_old ss ss' b s' : calm ss ss' -> old ss' b s' -> exists s, old ss b s /\ stream_id s = stream_id s'.
Proof.
  intros HC (Hb & Hs' & Hi & Hm). destruct (proj1 (cm_dom _ _ HC b) ltac:(eauto)) as [s Hs]. destruct (cm_streams _ _ HC b s Hs) as (s1 & H1 & HG & _).
  assert (s1 = s') as -> by congruence. exists s. split; [|by rewrite (ge_id _ _ HG)]. split; [done|]. split; [done|]. rewrite (cm_conf _ _ HC), (ge_id _ _ HG) in Hm. split; [|done].
  apply (role_old (server ss)). rewrite <- (gently_role _ _ _ HG). by apply role_old.
Qed.

Lemma calm_reserved ss ss' b s' : calm ss ss' -> se_streams ss' !! b = Some s' -> state s' = NGHTTP2_STREAM_RESERVED ->
  exists s, se_streams ss !! b = Some s /\ key s' = key s.
Proof.
  intros HC Hs' Hst. destruct (proj1 (cm_dom _ _ HC b) ltac:(eauto)) as [s Hs]. destruct (cm_streams _ _ HC b s Hs) as (s1 & H1 & HG & _ & _ & _ & [E|E]); [|congruence].
  assert (s1 = s') as -> by congruence. exists s. split; [done|]. unfold key, is_promised, flag_set. by rewrite (ge_id _ _ HG), E, (ge_flags _ _ HG) by auto.
Qed.

Lemma calm_size ss ss' : calm ss ss' -> size (se_streams ss') = size (se_streams ss).
Proof.
  intros HC. rewrite <- !(size_dom (D := gset Z)). f_equal. apply set_eq. intros b. rewrite !elem_of_dom. apply HC.
Qed.

Lemma calm_steady n n' m ss ss' : steady n m ss -> sound n' ss' -> calm ss ss' -> steady n' m ss'.
Proof.
  intros HT HS HC. pose proof (cm_seen _ _ HC) as [E1 E2]. eapply steady_after; [exact HT|done|apply HC| | |rewrite E1; apply HT|rewrite E2; apply HT| | |lia].
  - unfold room. rewrite (calm_size _ _ HC). apply HT.
  - eapply calm_flows; [done|apply HT].
  - intros b s' Hb. right. by eapply calm_old.
  - intros b s' Hb Hst. right. by eapply calm_reserved.
Qed.

(** ** Identifiers *)

Lemma received_sound n g ss : sound n ss -> sound n (upd_ids g ss).
Proof.
  intros [(kids & lc & li & HO) (L & HQ & HY) HR HZ]. split; [exists kids, lc, li; by eapply aside_sess; [|exact HO]| |done|done].
  exists L. split; [done|]. apply (syn_ok_ext ss); [done|done|eauto].
Qed.

(** The newest stream of the peer. *)
Lemma received_steady n m id ss : steady n m ss -> session_is_new_peer_stream_id ss id = true -> steady n m (upd_ids (last_recv_stream_id_to id) ss).
Proof.
  intros HT Hid. unfold session_is_new_peer_stream_id in Hid. apply andb_prop in Hid as [[Hz Hm]%andb_prop Hlt%Z.ltb_lt]. apply negb_true_iff in Hm.
  eapply steady_after; [exact HT|by apply received_sound, HT|done|apply HT|apply HT|done|apply HT| |intros b s Hb _; right; by exists s|simpl; lia]. intros b s Hb. right. by exists s.
Qed.

Lemma processed_steady n m ss : steady n m ss -> steady n m (upd_ids (last_proc_stream_id_to (last_recv_stream_id ss)) ss).
Proof.
  intros HT. eapply steady_after; [exact HT|by apply received_sound, HT|done|apply HT|apply HT|apply HT|apply HT| |intros b s Hb _; right; by exists s|simpl; lia]. intros b s Hb. right. by exists s.
Qed.

Lemma going_steady n m g ss : (forall i, last_recv_stream_id (g i) = last_recv_stream_id i /\ last_proc_stream_id (g i) = last_proc_stream_id i) ->
  steady n m ss -> steady n m (upd_ids g ss).
Proof.
  intros Hg HT. destruct (Hg (se_ids ss)) as [E1 E2]. assert (last_recv_stream_id (upd_ids g ss) = last_recv_stream_id ss) as E3 by exact E1.
  assert (last_proc_stream_id (upd_ids g ss) = last_proc_stream_id ss) as E4 by exact E2.
  eapply steady_after; [exact HT|by apply received_sound, HT|done|apply HT|apply HT|rewrite E3; apply HT|rewrite E4; apply HT| |intros b s Hb _; right; by exists s|lia].
  intros b s Hb. right. by exists s.
Qed.

(** ** Operations on streams *)

Lemma drift_flows ss ss' : flows_ok ss -> flow_ok (opened_flow ss) -> drift ss ss' -> flows_ok ss'.
Proof.
  intros [H1 H2] Ho HD. split; [by rewrite (dr_flow _ _ HD)|]. intros b s' Hb. destruct (dr_flows _ _ HD b s' Hb) as [-> |(s & Hs & ->)]; [done|by apply (H2 b)].
Qed.

Lemma drift_sound n ss ss' : sound n ss -> drift ss ss' -> (exists kids lc li, sess_ok ∅ ∅ ss' kids lc li) -> sound n ss'.
Proof.
  intros [_ (L & HQ & HY) HR HZ] HD HO. split; [done| | |by apply HD].
  - exists L. assert (forall b, (exists k, b ∈ L k) -> ob_items ss' !! b = ob_items ss !! b) as Hin.
    { intros b [k Hb]. destruct (oo_known _ _ _ _ HQ Hb) as [i Hi]. rewrite Hi. apply (dr_held _ _ HD); [done|].
      rewrite (oo_queued _ _ HQ b i Hi); [done|by exists k]. }
    split.
    + split.
      * intros k. rewrite (dr_queues _ _ HD). eapply holds_ext; [apply HQ|]. intros b Hb. by rewrite Hin by (by exists k).
      * apply HQ.
      * intros b i Hi%(dr_items _ _ HD). by apply HQ.
      * intros b i Hi%(dr_items _ _ HD). by apply HQ.
    + apply (syn_ok_ext ss); [done|by rewrite (dr_conf _ _ HD)|]. intros b i _ Hi%(dr_items _ _ HD). eauto.
  - assert (size (ob_items ss') <= size (ob_items ss))%nat as Hle; [|lia]. apply map_subseteq_size, map_subseteq_spec, HD.
Qed.

Lemma drift_steady n m m' ss ss' : steady n m ss -> drift ss ss' -> (exists kids lc li, sess_ok ∅ ∅ ss' kids lc li) -> room ss' m' ->
  (forall b s', old ss' b s' -> stream_id s' <= last_recv_stream_id ss \/ exists s, old ss b s /\ stream_id s = stream_id s') ->
  (forall b s', se_streams ss' !! b = Some s' -> state s' = NGHTTP2_STREAM_RESERVED -> promised_by (server ss) s' \/ exists s, se_streams ss !! b = Some s /\ key s' = key s) ->
  steady n m' ss'.
Proof.
  intros HT HD HO HR Ho Hq. assert (last_recv_stream_id ss' = last_recv_stream_id ss) as E1 by (by rewrite (dr_ids _ _ HD)).
  assert (last_proc_stream_id ss' = last_proc_stream_id ss) as E2 by (by rewrite (dr_ids _ _ HD)).
  eapply steady_after; [exact HT|by eapply drift_sound; [apply HT| |]|apply HD|done|eapply drift_flows; [apply HT|apply HT|done]|rewrite E1; apply HT|rewrite E2; apply HT| |exact Hq|lia].
  intros b s' Hb. rewrite E1. by apply Ho.
Qed.

(** Streams that nothing happened to. *)
Lemma face_old ss ss' b s' : se_conf ss' = se_conf ss -> face <$> scards ss' !! b = face <$> scards ss !! b -> old ss' b s' ->
  exists s, old ss b s /\ stream_id s = stream_id s'.
Proof.
  intros EC EF (Hb & Hs & Hi & Hm). unfold scards in EF. rewrite (cards_lookup _ _ _ Hs) in EF. destruct (cards (se_streams ss) !! b) as [c|] eqn:Ec; [|done].
  apply cards_lookup_inv in Ec as (s & Hs0 & <-). cbn in EF. assert (face (card_of s) = face (card_of s')) as E by congruence. exists s.
  assert (stream_id s = stream_id s') as Eid by (unfold face in E; simpl in E; congruence). split; [|done]. split; [done|]. split; [done|].
  rewrite Eid, <- EC. split; [|done]. apply (role_old (server ss)). rewrite (face_role _ _ _ E). by apply role_old.
Qed.

Lemma face_key ss ss' b s' : face <$> scards ss' !! b = face <$> scards ss !! b -> se_streams ss' !! b = Some s' ->
  exists s, se_streams ss !! b = Some s /\ key s' = key s.
Proof.
  intros EF Hs. unfold scards in EF. rewrite (cards_lookup _ _ _ Hs) in EF. destruct (cards (se_streams ss) !! b) as [c|] eqn:Ec; [|done].
  apply cards_lookup_inv in Ec as (s & Hs0 & <-). cbn in EF. unfold face in EF. simpl in EF. simplify_eq. exists s. split; [done|]. unfold key, is_promised. congruence.
Qed.

Lemma room_less ss ss' (k m m' : nat) : room ss m -> (size (se_streams ss') <= k + size (se_streams ss))%nat -> (m' + k <= m)%nat -> room ss' m'.
Proof. unfold room. lia. Qed.

(** A stream that was not there is not a closed one when the closed ones are the same. *)
Lemma new_not_closed ss ss' kids lc li kids' lc' li' b s' : sess_ok ∅ ∅ ss kids lc li -> sess_ok ∅ ∅ ss' kids' lc' li' -> (forall c, c ∈ lc' -> c ∈ lc) ->
  b <> root -> se_streams ss' !! b = Some s' -> se_streams ss !! b = None -> is_closed s' = false.
Proof.
  intros HO HO' Hlc Hb Hs Hnone. apply not_true_is_false. intros Hc. assert (b ∈ lc') as Hin.
  { apply (lo_in _ _ _ _ _ _ _ _ (bk_closed _ _ _ _ (so_books _ _ _ _ _ _ HO'))). split; [done|]. split; [set_solver|]. exists (card_of s').
    split; [by apply cards_lookup|]. unfold role_of. change (flag_set (c_flags (card_of s')) NGHTTP2_STREAM_FLAG_CLOSED) with (is_closed s'). by rewrite Hc. }
  apply Hlc, (lo_in _ _ _ _ _ _ _ _ (bk_closed _ _ _ _ (so_books _ _ _ _ _ _ HO))) in Hin as (_ & _ & c & Hlook & _).
  apply cards_lookup_inv in Hlook as (s & ? & _). congruence.
Qed.

Lemma mapped_id ss kids lc li id a s : sess_ok ∅ ∅ ss kids lc li -> stream_map ss !! id = Some a -> se_streams ss !! a = Some s -> stream_id s = id.
Proof. intros HO Hid Ha. destruct (mapped_stream _ _ _ _ _ _ (so_books _ _ _ _ _ _ HO) Hid) as (_ & s0 & Hs & <-). congruence. Qed.

Lemma id_mapped ss kids lc li a s : sess_ok ∅ ∅ ss kids lc li -> a <> root -> se_streams ss !! a = Some s -> stream_map ss !! stream_id s = Some a.
Proof.
  intros HO Ha Hs. apply (tb_map _ _ (bk_table _ _ _ _ (so_books _ _ _ _ _ _ HO))). split; [done|]. exists (card_of s). split; [by apply cards_lookup|done].
Qed.

Lemma not_idle_state s : is_idle s = false -> is_closed s = false -> state s <> NGHTTP2_STREAM_IDLE.
Proof. unfold is_idle. intros Hi Hc Hs. by rewrite Hc, Hs in Hi. Qed.

(** The stream [id] is unknown or idle. *)
Definition openable_id ss id : Prop := id <> 0 /\ forall a, stream_map ss !! id = Some a -> has_role (server ss) ∅ (scards ss) a RIdle.

Lemma new_openable n m ss id : steady n m ss -> session_is_new_peer_stream_id ss id = true -> openable_id ss id.
Proof.
  intros HT Hid. unfold session_is_new_peer_stream_id in Hid. apply andb_prop in Hid as [[Hz%negb_true_iff%Z.eqb_neq Hm%negb_true_iff]%andb_prop Hlt%Z.ltb_lt].
  split; [done|]. intros a Ha. destruct (steady_sess _ _ _ HT) as (kids & lc & li & HO). destruct (mapped_stream _ _ _ _ _ _ (so_books _ _ _ _ _ _ HO) Ha) as (Hr & s & Hs & Hi).
  split; [done|]. split; [set_solver|]. exists (card_of s). split; [by apply cards_lookup|]. destruct (decide (role_of (server ss) (card_of s) = RIdle)) as [|Hne]; [done|].
  assert (stream_id s <= last_recv_stream_id ss); [|lia]. apply (st_old _ _ _ HT a). apply role_old in Hne. split_and!; try done. by rewrite Hi.
Qed.

Lemma trimmed_steady n m ss kids l r ss' kids' lc' li' : steady n m ss -> trimmed ss kids l r ss' kids' -> still_size ss ss' ->
  sess_ok ∅ ∅ ss' kids' lc' li' -> steady n m ss'.
Proof.
  intros HT HR [HD HG] HO'. apply (drift_steady n m _ ss); [done|done|by exists kids', lc', li'|by eapply room_less; [apply HT|exact HG|lia]| |].
  - intros b s' Hb. right. eapply face_old; [apply HD| |exact Hb]. apply (tr_kept _ _ _ _ _ _ HR). intros Hl%(tr_gone _ _ _ _ _ _ HR). destruct Hb as (_ & ? & _). congruence.
  - intros b s' Hb _. right. eapply face_key; [|exact Hb]. apply (tr_kept _ _ _ _ _ _ HR). intros Hl%(tr_gone _ _ _ _ _ _ HR). congruence.
Qed.

(** What a role says of the state RESERVED. *)
Lemma reserved_role sv id st s : role_of sv (card_of s) = opened_role sv id st -> st = NGHTTP2_STREAM_RESERVED -> is_promised s = true.
Proof.
  unfold role_of, opened_role. cbn [c_flags c_state c_id card_of]. intros E ->. change (flag_set (sm_flags s) NGHTTP2_STREAM_FLAG_PUSH) with (is_promised s) in E.
  destruct (flag_set (sm_flags s) NGHTTP2_STREAM_FLAG_CLOSED); [by destruct (mine sv id)|]. case_bool_decide; [by destruct (mine sv id)|].
  by destruct (is_promised s), (mine sv id), (mine sv (stream_id s)).
Qed.

Section Operations.
Context (realloc_ok malloc_ok : nat -> bool) (new_stream : gmap Z nghttp2_stream -> Z) (Hfresh : forall h, h !! new_stream h = None).

(** *** Opening *)

Lemma sp_open_steady n m ss id pri st ud : steady n m ss -> (2 <= m)%nat -> openable_id ss id -> ps_stream_id pri <> id -> 1 <= ps_weight pri <= 256 ->
  st = NGHTTP2_STREAM_IDLE \/ mine (server ss) id = true \/ id <= last_recv_stream_id ss -> (st = NGHTTP2_STREAM_RESERVED -> mine (server ss) id = server ss) ->
  sp (nghttp2_session_open_stream realloc_ok malloc_ok new_stream id NGHTTP2_STREAM_FLAG_NONE pri st ud) ss (fun r ss' => r = None \/ exists a, r = Some a /\
    steady n (m - 2) ss' /\ se_conf ss' = se_conf ss /\ se_ids ss' = se_ids ss).
Proof using Hfresh.
  intros HT Hm [Hid Hidle] Hpri Hw Hold Hpm. destruct (steady_sess _ _ _ HT) as (kids & lc & li & HO).
  assert (openable ∅ ∅ ss id pri) as HP.
  { split; [apply HT|intros a Ha; split; [by apply Hidle|set_solver]|done|done|]. pose proof (st_room _ _ _ HT) as HR. unfold room in *. case_match; lia. }
  assert (sp (nghttp2_session_open_stream realloc_ok malloc_ok new_stream id NGHTTP2_STREAM_FLAG_NONE pri st ud) ss (fun r ss' =>
    tracks (opens_as ss id st) anything ss ss' /\ grows 2 ss ss' /\ opens ∅ ∅ ss kids lc id pri st (refusal realloc_ok malloc_ok) r ss')) as HS.
  { pose proof (sp_open_stream realloc_ok malloc_ok new_stream Hfresh ∅ ∅ ss kids lc li id pri st ud HO HP) as H. unfold sp in *.
    destruct (nghttp2_session_open_stream _ _ _ _ _ _ _ _ ss) as [[ss' r]|] eqn:E; [|done]. split; [by eapply open_stream_tracks|]. split; [by eapply gives_open_stream|done]. }
  eapply sp_mono; [exact HS|]. intros r ss' (HK & [HD HG] & [[-> _]|(a & -> & HOp)]); [by left|]. right. exists a. split; [done|].
  destruct (op_tree _ _ _ _ _ _ _ _ _ _ HOp) as (k1 & k2 & p & pri' & kids' & li' & _ & _ & _ & HO' & _). split; [|by split; apply HD].
  assert (forall b s', b <> a -> se_streams ss' !! b = Some s' -> (exists s, se_streams ss !! b = Some s) \/ b <> root /\ se_streams ss !! b = None /\ state s' = NGHTTP2_STREAM_IDLE) as Hnew.
  { intros b s' Hba Hs'. destruct (se_streams ss !! b) as [s|] eqn:Hs; [left; by eexists|right]. assert (b <> root) as Hbr.
    { intros ->. destruct (tb_root _ _ (bk_table _ _ _ _ (so_books _ _ _ _ _ _ HO))) as [? (? & ? & _)%cards_lookup_inv]. congruence. }
    split; [done|]. split; [done|]. destruct (tk_old _ _ _ _ HK b s' Hs') as [[?|[_ [Hsid|Hmap]]]|(s & ? & _)]; [done| | |congruence]; exfalso.
    - apply Hba. pose proof (id_mapped _ _ _ _ _ _ HO' Hbr Hs') as E. rewrite Hsid, (op_map _ _ _ _ _ _ _ _ _ _ HOp) in E. congruence.
    - destruct (mapped_stream _ _ _ _ _ _ (so_books _ _ _ _ _ _ HO) Hmap) as (_ & s & ? & _). congruence. }
  destruct (op_role _ _ _ _ _ _ _ _ _ _ HOp) as (_ & _ & d & Hd & Hrole). apply cards_lookup_inv in Hd as (sa & Hsa & <-).
  pose proof (mapped_id _ _ _ _ _ _ _ HO' (op_map _ _ _ _ _ _ _ _ _ _ HOp) Hsa) as Hida.
  assert (forall b, b <> a -> (exists s, se_streams ss !! b = Some s) -> face <$> scards ss' !! b = face <$> scards ss !! b) as Hkept.
  { intros b Hba [s Hs]. apply (op_kept _ _ _ _ _ _ _ _ _ _ HOp). intros [?|?]; congruence. }
  apply (drift_steady n m _ ss); [done|done|by exists kids', lc, li'|by eapply room_less; [apply HT|exact HG|lia]| |].
  - intros b s' Hb. pose proof Hb as (Hbr & Hs' & Hi & Hmine). destruct (decide (b = a)) as [->|Hba].
    { assert (s' = sa) as -> by congruence. rewrite Hida in *. destruct Hold as [-> |[Hmy|?]]; [|rewrite (dr_conf _ _ HD) in Hmine; congruence|by left].
      by apply (role_old (server ss)) in Hi. }
    destruct (Hnew b s' Hba Hs') as [Hin|(_ & Hnone & Hst)]; [right; eapply face_old; [apply HD|by apply Hkept|exact Hb]|].
    by destruct (not_idle_state s' Hi (new_not_closed _ _ _ _ _ _ _ _ _ _ HO HO' (fun _ H => H) Hbr Hs' Hnone)).
  - intros b s' Hs' Hres. destruct (decide (b = a)) as [->|Hba].
    { destruct (tk_old _ _ _ _ HK a s' Hs') as [[?|[Hst _]]|?]; [congruence| |by right]. left. rewrite Hres in Hst. assert (s' = sa) as -> by congruence.
      split; [by eapply reserved_role|]. rewrite Hida. by apply Hpm. }
    destruct (Hnew b s' Hba Hs') as [Hin|(_ & _ & Hst)]; [|congruence]. right. eapply face_key; [by apply Hkept|exact Hs'].
Qed.

(** *** Trimming *)

Definition trims n m ss (rv : Z) ss' : Prop := rv = NGHTTP2_ERR_NOMEM \/ rv = 0 /\ steady n m ss' /\ se_conf ss' = se_conf ss /\ se_ids ss' = se_ids ss.

Lemma sp_adjust_closed_steady n m ss : steady n m ss -> sp (nghttp2_session_adjust_closed_stream realloc_ok) ss (trims n m ss).
Proof using.
  intros HT. destruct (steady_sess _ _ _ HT) as (kids & lc & li & HO).
  eapply sp_mono; [apply (sp_gives _ _ still_size); [apply gives_adjust_closed|exact (sp_adjust_closed realloc_ok ss kids lc li HO)]|].
  intros rv ss' [HS [[-> _]|(-> & l & r & kids' & _ & HR & HO' & _)]]; [by left|right]. split; [done|]. split; [by eapply trimmed_steady|by split; apply HS].
Qed.

Lemma sp_adjust_idle_steady n m ss : steady n m ss -> sp (nghttp2_session_adjust_idle_stream realloc_ok) ss (trims n m ss).
Proof using.
  intros HT. destruct (steady_sess _ _ _ HT) as (kids & lc & li & HO).
  eapply sp_mono; [apply (sp_gives _ _ still_size); [apply gives_adjust_idle|exact (sp_adjust_idle realloc_ok ss kids lc li HO)]|].
  intros rv ss' [HS [[-> _]|(-> & l & r & kids' & _ & HR & HO' & _)]]; [by left|right]. split; [done|]. split; [by eapply trimmed_steady|by split; apply HS].
Qed.

(** *** Priorities *)

Lemma sp_reprioritize_steady n m ss a s pri : steady n m ss -> (2 <= m)%nat -> se_streams ss !! a = Some s -> a <> root -> ps_stream_id pri <> stream_id s ->
  1 <= ps_weight pri <= 256 ->
  sp (nghttp2_session_reprioritize_stream realloc_ok malloc_ok new_stream a pri) ss (trims n (m - 2) ss).
Proof using Hfresh.
  intros HT Hm Hs Ha Hne Hw. destruct (steady_sess _ _ _ HT) as (kids & lc & li & HO).
  assert (room ss 1) as Hroom by (pose proof (st_room _ _ _ HT) as HR; unfold room in *; lia).
  pose proof (sp_reprioritize realloc_ok malloc_ok new_stream Hfresh ss kids lc li a s pri HO (st_mode _ _ _ HT) Hroom Hs Ha Hne Hw) as H.
  eapply sp_mono; [apply (sp_gives _ _ (grows 2)); [apply gives_reprioritize|]; apply (sp_gives _ _ (tracks (fun _ _ st => st = NGHTTP2_STREAM_IDLE) anything)); [apply track_reprioritize|exact H]|].
  intros rv ss' ([HD HG] & HK & [[-> _]|(-> & k0 & d & pri' & k1 & k2 & li' & _ & _ & _ & HO' & _ & HB)]); [by left|right]. split; [done|]. split; [|by split; apply HD].
  apply (drift_steady n m _ ss); [done|done|by exists k2, lc, li'|by eapply room_less; [apply HT|exact HG|lia]| |].
  - intros b s' Hb. pose proof Hb as (Hbr & Hs' & Hi & _). destruct (se_streams ss !! b) as [s0|] eqn:Hs0.
    { right. eapply face_old; [apply HD| |exact Hb]. apply (kb_streams _ _ _ HB). by rewrite Hs0. }
    exfalso. pose proof (not_idle_state s' Hi (new_not_closed _ _ _ _ _ _ _ _ _ _ HO HO' (fun _ H => H) Hbr Hs' Hs0)) as Hst.
    by destruct (tk_old _ _ _ _ HK b s' Hs') as [?|(s1 & ? & _)]; [|congruence].
  - intros b s' Hs' Hres. destruct (tk_old _ _ _ _ HK b s' Hs') as [?|?]; [congruence|by right].
Qed.

End Operations.

Lemma calm_role ss ss1 a r : calm ss ss1 -> has_role (server ss) ∅ (scards ss) a r -> has_role (server ss) ∅ (scards ss1) a r.
Proof.
  intros HC (H1 & H2 & d & Hd & <-). apply cards_lookup_inv in Hd as (s & Hs & <-). destruct (cm_streams _ _ HC a s Hs) as (s1 & Hs1 & HG & _).
  split; [done|]. split; [done|]. exists (card_of s1). split; [by apply cards_lookup|by apply gently_role].
Qed.

Lemma closed_old ss1 ss' kids lc li kids' lc' li' a D b s' : sess_ok ∅ ∅ ss1 kids lc li -> sess_ok ∅ ∅ ss' kids' lc' li' -> se_conf ss' = se_conf ss1 ->
  tracks (fun _ _ _ => False) D ss1 ss' -> (forall x, x ∈ lc' -> x ∈ lc \/ x = a) -> (forall s, se_streams ss1 !! a = Some s -> is_idle s = false) ->
  old ss' b s' -> exists s, old ss1 b s /\ stream_id s = stream_id s'.
Proof.
  intros HO HO' EC HK Hlc Ha (Hb & Hs' & Hi & Hm). destruct (tk_old _ _ _ _ HK b s' Hs') as [[]|(s & Hs & E)]. unfold key in E. simplify_eq.
  exists s. split; [|congruence]. split; [done|]. split; [done|]. assert (is_idle s = false) as Hidle.
  { destruct (is_closed s') eqn:Hcl.
    - assert (b ∈ lc') as [Hin|Hin]%Hlc; [|apply (role_old (server ss1))|subst b; by apply Ha].
      + apply (lo_in _ _ _ _ _ _ _ _ (bk_closed _ _ _ _ (so_books _ _ _ _ _ _ HO'))). split; [done|]. split; [set_solver|]. exists (card_of s').
        split; [by apply cards_lookup|]. unfold role_of. change (flag_set (c_flags (card_of s')) NGHTTP2_STREAM_FLAG_CLOSED) with (is_closed s'). by rewrite Hcl.
      + apply (lo_in _ _ _ _ _ _ _ _ (bk_closed _ _ _ _ (so_books _ _ _ _ _ _ HO))) in Hin as (_ & _ & d & Hd & Hrole).
        unfold scards in Hd. rewrite (cards_lookup _ _ _ Hs) in Hd. injection Hd as <-. by rewrite Hrole.
    - pose proof (not_idle_state s' Hi Hcl) as Hst. unfold is_idle. rewrite bool_decide_false by congruence. by rewrite andb_false_r. }
  split; [done|]. rewrite EC in Hm. congruence.
Qed.

Lemma live_not_idle ss id a s : live_stream ss id = Some a -> se_streams ss !! a = Some s -> is_idle s = false.
Proof.
  unfold live_stream. destruct (stream_map ss !! id) as [b|]; [|done]. simpl. destruct (se_streams ss !! b) as [t|] eqn:Eb; [|done]. simpl.
  destruct (_ || _) eqn:E; [done|]. intros [= ->] Hs. apply orb_false_iff in E as [E1 E2]. assert (t = s) as -> by congruence. unfold is_idle. by rewrite E2, andb_false_r.
Qed.

(** *** Closed streams *)

Lemma closed_listed ss kids lc li a s : sess_ok ∅ ∅ ss kids lc li -> a <> root -> se_streams ss !! a = Some s -> a ∈ lc <-> is_closed s = true.
Proof.
  intros HO Ha Hs. rewrite (lo_in _ _ _ _ _ _ _ _ (bk_closed _ _ _ _ (so_books _ _ _ _ _ _ HO)) a). unfold has_role, scards. rewrite (cards_lookup _ _ _ Hs).
  unfold role_of. setoid_rewrite (inj_iff Some). split.
  - intros (_ & _ & d & <- & Hr). revert Hr. cbn [c_flags c_state c_id card_of]. change (flag_set (sm_flags s) NGHTTP2_STREAM_FLAG_CLOSED) with (is_closed s).
    destruct (is_closed s); [done|]. by repeat case_match.
  - intros Hc. split; [done|]. split; [set_solver|]. exists (card_of s). split; [done|]. cbn [c_flags c_state c_id card_of].
    change (flag_set (sm_flags s) NGHTTP2_STREAM_FLAG_CLOSED) with (is_closed s). by rewrite Hc.
Qed.

Lemma live_iff ss kids lc li id a : sess_ok ∅ ∅ ss kids lc li ->
  live_stream ss id = Some a <-> stream_map ss !! id = Some a /\ exists s, se_streams ss !! a = Some s /\ is_closed s = false /\ state s <> NGHTTP2_STREAM_IDLE.
Proof.
  intros HO. unfold live_stream. destruct (stream_map ss !! id) as [b|] eqn:Eb; simpl; [|by split; [|intros [? _]]].
  destruct (mapped_stream _ _ _ _ _ _ (so_books _ _ _ _ _ _ HO) Eb) as (_ & s & Hs & _). rewrite Hs. simpl.
  change (flag_set (sm_flags s) NGHTTP2_STREAM_FLAG_CLOSED) with (is_closed s). split.
  - destruct (is_closed s) eqn:Ec; [done|]. simpl. case_bool_decide as Est; [done|]. intros [= ->]. split; [done|]. by exists s.
  - intros ([= ->] & t & Ht & Hc & Hst). assert (t = s) as -> by congruence. rewrite Hc. by rewrite bool_decide_false.
Qed.

Lemma closed_gone ss kids lc a id ss' : closed_to ∅ ∅ ss kids lc a id ss' -> live_stream ss id = Some a -> live_stream ss' id = None.
Proof.
  intros HC Hl. pose proof (live_mapped _ _ _ Hl) as Hmap. unfold closed_to in HC. destruct (keeps_closed ss id).
  - destruct HC as [(li' & HO') EM]. destruct (live_stream ss' id) as [b|] eqn:E; [|done]. exfalso. apply (live_iff _ _ _ _ _ _ HO') in E as (Hb & s & Hs & Hc & _).
    rewrite EM, Hmap in Hb. injection Hb as <-. rewrite <- EM in Hmap. destruct (mapped_stream _ _ _ _ _ _ (so_books _ _ _ _ _ _ HO') Hmap) as (Hr & _).
    assert (a ∈ lc ++ [a]) as Hin by (apply elem_of_app; right; by left). apply (closed_listed _ _ _ _ _ _ HO' Hr Hs) in Hin. congruence.
  - destruct HC as (_ & EM & _). unfold live_stream. by rewrite EM, lookup_delete_eq.
Qed.

Lemma closed_others ss kids lc li a id D ss' i : sess_ok ∅ ∅ ss kids lc li -> closed_to ∅ ∅ ss kids lc a id ss' -> live_stream ss id = Some a ->
  tracks (fun _ _ _ => False) D ss ss' -> (forall b, D b -> b = a) -> i <> id -> live_stream ss' i = live_stream ss i.
Proof.
  intros HO HC Hl HK HD Hi. apply option_eq. intros b. assert (exists kids' lc' li', sess_ok ∅ ∅ ss' kids' lc' li' /\ (forall x, x <> a -> x ∈ lc' <-> x ∈ lc) /\
    stream_map ss' !! i = stream_map ss !! i) as (kids' & lc' & li' & HO' & Hlc & Hmap).
  { unfold closed_to in HC. destruct (keeps_closed ss id).
    - destruct HC as [(li' & HO') EM]. exists kids, (lc ++ [a]), li'. split; [done|]. split; [intros x Hx; rewrite elem_of_app, list_elem_of_singleton; tauto|]. by rewrite EM.
    - destruct HC as ((k1 & li' & _ & HO') & EM & _). exists (delete a k1), lc, li'. split; [done|]. split; [done|]. by rewrite EM, lookup_delete_ne. }
  rewrite (live_iff _ _ _ _ _ _ HO), (live_iff _ _ _ _ _ _ HO'), Hmap. split; intros (Hb & t & Ht & Hc & Hst); (split; [done|]).
  - destruct (mapped_stream _ _ _ _ _ _ (so_books _ _ _ _ _ _ HO) Hb) as (Hr & s0 & Hs0 & Hid). destruct (tk_old _ _ _ _ HK b t Ht) as [[]|(s & Hs & E)].
    assert (b <> a) as Hba. { intros ->. pose proof (mapped_id _ _ _ _ _ _ _ HO (live_mapped _ _ _ Hl) Hs0). congruence. }
    exists s. split; [done|]. unfold key in E. split; [|congruence]. apply not_true_is_false. intros Hcl.
    apply (closed_listed _ _ _ _ _ _ HO Hr Hs), Hlc, (closed_listed _ _ _ _ _ _ HO' Hr Ht) in Hcl; congruence.
  - destruct (mapped_stream _ _ _ _ _ _ (so_books _ _ _ _ _ _ HO) Hb) as (Hr & s0 & Hs0 & Hid).
    assert (b <> a) as Hba. { intros ->. pose proof (mapped_id _ _ _ _ _ _ _ HO (live_mapped _ _ _ Hl) Hs0). congruence. }
    destruct (tk_stay _ _ _ _ HK b ltac:(by eexists)) as [?%HD|[s' Hs']]; [done|]. destruct (tk_old _ _ _ _ HK b s' Hs') as [[]|(s & Hs & E)].
    assert (s = t) as -> by congruence. exists s'. split; [done|]. unfold key in E. split; [|congruence]. apply not_true_is_false. intros Hcl.
    apply (closed_listed _ _ _ _ _ _ HO' Hr Hs'), Hlc, (closed_listed _ _ _ _ _ _ HO Hr Ht) in Hcl; congruence.
Qed.

(** ** Callbacks *)

(** What the application may do in a callback: queue frames, [c] of them at
    most, and whatever else leaves the streams alone but for their states and
    the marks of WINDOW_UPDATE. *)
Definition polite (c : Z) (f : se_m Z) : Prop := forall n ss, sound n ss -> rfc7540 ss -> c <= n -> sp f ss (fun _ ss' => sound (n - c) ss' /\ calm ss ss').

Section Closing.
Context (realloc_ok : nat -> bool) (callback : option (Z -> Z -> se_m Z)) (c : Z) (Hc : 0 <= c).
Context (Hcb : forall f id err, callback = Some f -> polite c (f id err)).

Lemma called_back_calm n id err ss rc ss1 : sound n ss -> rfc7540 ss -> c <= n -> called_back callback id err ss rc ss1 -> sound (n - c) ss1 /\ calm ss ss1.
Proof using Hc Hcb.
  intros HS Hm Hn HC. unfold called_back in HC. destruct callback as [f|]; [|destruct HC as [-> _]; split; [eapply sound_less; [exact HS|lia]|done]].
  exact (run_sp _ _ _ _ _ (Hcb f id err eq_refl n ss HS Hm Hn) HC).
Qed.

(** The other streams stay in memory. *)
Definition spares ss id ss' : Prop := forall b, is_Some (se_streams ss !! b) -> stream_map ss !! id <> Some b -> is_Some (se_streams ss' !! b).

(** The stream [id] is not in use any more, the others are or are not, as before. *)
Definition retires ss id ss' : Prop := forall i, live_stream ss' i = if decide (i = id) then None else live_stream ss i.

Definition closes n m ss id (rv : Z) ss' : Prop :=
  rv ∈ [0; NGHTTP2_ERR_INVALID_ARGUMENT; NGHTTP2_ERR_CALLBACK_FAILURE; NGHTTP2_ERR_NOMEM] /\
  (nghttp2_is_fatal rv = false -> steady (n - c) m ss' /\ se_conf ss' = se_conf ss /\ seen ss ss' /\ spares ss id ss' /\ retires ss id ss').

Lemma sp_close_steady n m ss id err : steady n m ss -> c <= n -> sp (nghttp2_session_close_stream realloc_ok callback id err) ss (closes n m ss id).
Proof using Hc Hcb.
  intros HT Hn. destruct (steady_sess _ _ _ HT) as (kids & lc & li & HO).
  assert (live_stream ss id = None -> closes n m ss id NGHTTP2_ERR_INVALID_ARGUMENT ss) as Hstay.
  { intros Hnone. split; [set_solver|]. intros _. split; [by eapply steady_less; [exact HT|lia|]|]. split; [done|]. split; [done|]. split; [by intros b|]. intros i. case_decide; by subst. }
  assert (sp (nghttp2_session_close_stream realloc_ok callback id err) ss (close_result realloc_ok callback ∅ ∅ ss id err)) as H.
  { eapply sp_close_called; [exact HO|apply HT|set_solver|]. intros a r Hmap Hr. unfold call_ok. destruct callback as [f|] eqn:Ef; [|done].
    eapply sp_mono; [apply (Hcb f id err eq_refl n ss (st_sound _ _ _ HT) (st_mode _ _ _ HT) Hn)|]. intros rc ss1 [HS1 HC1]. destruct (sd_sess _ _ HS1) as (k1 & c1 & i1 & HO1).
    exists k1, c1, i1. split; [done|]. split; [apply HC1|]. split; [by rewrite (cm_map _ _ HC1)|by eapply calm_role]. }
  unfold sp in *. destruct (nghttp2_session_close_stream _ _ _ _ ss) as [[ss' rv]|] eqn:E; [|done].
  unfold close_result in H. destruct (live_stream ss id) as [a|] eqn:Ea; [|destruct H as [-> ->]; by apply Hstay].
  destruct H as (rc & ss1 & Hcalled & H). destruct (called_back_calm n _ _ _ _ _ (st_sound _ _ _ HT) (st_mode _ _ _ HT) Hn Hcalled) as [HS1 HC1].
  destruct (rc =? 0); [|destruct H as [-> ->]; split; [set_solver|by intros [=]]]. destruct H as (k1 & lc1 & i1 & HO1 & [[-> _]|(-> & Hcl & EC & _)]); [split; [set_solver|by intros [=]]|].
  pose proof (calm_live _ _ id HC1) as Elive. rewrite Ea in Elive.
  pose proof (live_mapped _ _ _ Elive) as Hmap1. pose proof (calm_steady _ _ _ _ _ HT HS1 HC1) as HT1.
  pose proof (closed_gone _ _ _ _ _ _ Hcl Elive) as Hgone. assert (ss' <> ss) as Hnew by (intros ->; congruence).
  split; [set_solver|]. intros _.
  assert (forall rc2 ss2, called_back callback id err ss rc2 ss2 -> ss2 = ss1) as Hdet.
  { intros rc2 ss2 H2. unfold called_back in *. destruct callback; [congruence|by destruct H2 as [-> _], Hcalled as [-> _]]. }
  destruct (close_stream_drift _ _ _ _ _ _ _ E) as [->|(rc2 & ss2 & H2 & [HD HG])]; [done|]. apply Hdet in H2 as ->.
  destruct (close_stream_tracks _ _ _ _ _ _ _ E) as [->|(rc3 & ss3 & H3 & HK)]; [done|]. apply Hdet in H3 as ->.
  assert (exists kids' lc' li', sess_ok ∅ ∅ ss' kids' lc' li' /\ forall x, x ∈ lc' -> x ∈ lc1 \/ x = a) as (kids' & lc' & li' & HO' & Hlc).
  { unfold closed_to in Hcl. case_match.
    - destruct Hcl as [(li' & HO') _]. exists k1, (lc1 ++ [a]), li'. split; [done|]. intros x. rewrite elem_of_app, list_elem_of_singleton. tauto.
    - destruct Hcl as [(k2 & li' & _ & HO') _]. exists (delete a k2), lc1, li'. split; [done|]. tauto. }
  split; [|split; [rewrite (dr_conf _ _ HD); apply HC1|split; [|split]]].
  - apply (drift_steady (n - c) m _ ss1); [done|done|by exists kids', lc', li'|by eapply room_less; [apply HT1|exact HG|lia]| |].
    2: { intros b s' Hs' _. destruct (tk_old _ _ _ _ HK b s' Hs') as [[]|?]. by right. }
    intros b s' Hb. right. eapply (closed_old ss1 ss'); [exact HO1|exact HO'|apply HD|exact HK|exact Hlc| |exact Hb].
    intros s Hs. eapply live_not_idle; [|exact Hs]. by rewrite (calm_live _ _ id HC1).
  - etrans; [apply HC1|]. unfold seen. by rewrite (dr_ids _ _ HD).
  - intros b Hb Hne. destruct (tk_stay _ _ _ _ HK b ltac:(by apply (cm_dom _ _ HC1))) as [?|?]; [done|done].
  - intros i. case_decide as Ei; [by subst|]. rewrite <- (calm_live _ _ i HC1). eapply closed_others; [exact HO1|exact Hcl|exact Elive|exact HK| |exact Ei].
    intros b Hb. rewrite <- (cm_map _ _ HC1), Hmap1 in Hb. congruence.
Qed.

End Closing.

(** ** Changes of one stream *)

Lemma replaced_steady n m ss a s s' (g : session_counts -> session_counts) : steady n m ss -> se_streams ss !! a = Some s ->
  let ss' := upd_counts g (streams_to (<[a := s']> (se_streams ss)) ss) in (exists kids lc li, sess_ok ∅ ∅ ss' kids lc li) ->
  stream_id s' = stream_id s -> (is_idle s' = false -> is_idle s = false) -> (state s' = NGHTTP2_STREAM_RESERVED -> key s' = key s) -> flow_ok s' ->
  steady n m ss'.
Proof.
  intros HT Hs ss' HO Hid Hidle Hres Hfl. assert (forall b t, se_streams ss' !! b = Some t -> b = a /\ t = s' \/ se_streams ss !! b = Some t) as Hback.
  { intros b t Ht. change (<[a := s']> (se_streams ss) !! b = Some t) in Ht. apply lookup_insert_Some in Ht as [[<- <-]|[_ ?]]; [by left|by right]. }
  assert (size (se_streams ss') = size (se_streams ss)) as Esz by (by apply map_size_insert_Some).
  eapply steady_after; [exact HT| |done|unfold room; rewrite Esz; apply HT| |apply HT|apply HT| | |done].
  - pose proof (st_sound _ _ _ HT) as [_ (L & HQ & HY) HR HZ]. split; [done| |done|done]. exists L. split; [done|]. apply (syn_ok_ext ss); [done|done|eauto].
  - destruct (st_flows _ _ _ HT) as [H1 H2]. split; [done|]. intros b t Ht. destruct (Hback b t Ht) as [[-> ->]|?]; [done|by apply (H2 b)].
  - intros b t (Hb & Ht & Hi & Hm). right. destruct (Hback b t Ht) as [[-> ->]|Hb']; [exists s|by exists t].
    split; [|done]. split_and!; [done|done|auto|by rewrite <- Hid].
  - intros b t Ht Hst. right. destruct (Hback b t Ht) as [[-> ->]|Hb']; [exists s; auto|by exists t].
Qed.

Lemma upd_counts_same ss : upd_counts (fun q => q) ss = ss.
Proof. by destruct ss. Qed.

Lemma touched_steady n m ss a s s' : steady n m ss -> se_streams ss !! a = Some s -> gently s s' -> (state s' = NGHTTP2_STREAM_RESERVED -> state s = NGHTTP2_STREAM_RESERVED) ->
  flow_ok s' -> steady n m (streams_to (<[a := s']> (se_streams ss)) ss).
Proof.
  intros HT Hs HG Hst Hfl. rewrite <- (upd_counts_same (streams_to _ ss)). destruct (steady_sess _ _ _ HT) as (kids & lc & li & HO).
  eapply replaced_steady; [done|exact Hs| |apply HG| | |done].
  - exists kids, lc, li. rewrite upd_counts_same. by eapply gently_sess.
  - intros Hi. apply (role_old (server ss)). rewrite <- (gently_role _ _ _ HG). by apply role_old.
  - intros Hr. unfold key, is_promised, flag_set. by rewrite (ge_id _ _ HG), Hr, (ge_flags _ _ HG), Hst by auto.
Qed.

(** The stream of a promise is opened by the response. *)
Definition fulfilled a ss : nghttp2_session :=
  upd_counts (fun q => bump RIncoming (bump RPromisedRemote q (-1)) 1) (streams_to (alter nghttp2_stream_promise_fulfilled a (se_streams ss)) ss).

Lemma fulfilled_flags s f : f = NGHTTP2_STREAM_FLAG_CLOSED \/ f = NGHTTP2_STREAM_FLAG_NO_RFC7540_PRIORITIES \/ f = NGHTTP2_STREAM_FLAG_DEFERRED_ALL ->
  sm_flags (nghttp2_stream_promise_fulfilled s) .& f = sm_flags s .& f.
Proof. intros [-> |[-> | ->]]; simpl; by rewrite u8_land, <- Z.land_assoc by done. Qed.

Lemma fulfilled_push s : is_promised (nghttp2_stream_promise_fulfilled s) = false.
Proof. unfold is_promised, flag_set. simpl. rewrite u8_land, <- Z.land_assoc by done. by rewrite Z.land_0_r. Qed.

Lemma fulfilled_steady n m ss a s : steady n m ss -> se_streams ss !! a = Some s -> a <> root -> is_closed s = false -> state s = NGHTTP2_STREAM_RESERVED ->
  server ss = false -> steady n m (fulfilled a ss) /\ mine (server ss) (stream_id s) = false.
Proof.
  intros HT Hs Ha Hcl Hst Hsv. destruct (st_reserved _ _ _ HT a s Hs Hst) as [Hpr Hm]. rewrite Hsv in Hm. split; [|by rewrite Hsv].
  set (s' := nghttp2_stream_promise_fulfilled s). assert (alter nghttp2_stream_promise_fulfilled a (se_streams ss) = <[a := s']> (se_streams ss)) as E.
  { apply map_eq. intros b. rewrite lookup_insert, lookup_alter. case_decide; [subst|done]. by rewrite Hs. }
  unfold fulfilled. rewrite E. destruct (steady_sess _ _ _ HT) as (kids & lc & li & HO).
  assert (is_closed s' = false) as Hcl' by (unfold is_closed, flag_set, s'; rewrite fulfilled_flags by auto; exact Hcl).
  eapply (replaced_steady n m ss a s); [done|done| |done| |done|exact (proj2 (st_flows _ _ _ HT) a s Hs)].
  - exists kids, lc, li. destruct HO as [HI HB HF]. split; [| |done].
    + simpl. eapply touch_inv; [exact HI|exact Hs| |].
      * split; [done|done|]. unfold no_rfc7540_priorities. unfold s'. rewrite fulfilled_flags by auto. done.
      * unfold stream_active. unfold s'. rewrite fulfilled_flags by auto. done.
    + apply (recast_book ss lc li a s s' RPromisedRemote RIncoming); try done.
      * split; try done. unfold s'. by rewrite fulfilled_flags by auto.
      * unfold role_of. cbn [c_flags c_state c_id card_of]. change (flag_set (sm_flags s) NGHTTP2_STREAM_FLAG_CLOSED) with (is_closed s).
        change (flag_set (sm_flags s) NGHTTP2_STREAM_FLAG_PUSH) with (is_promised s). rewrite Hcl, Hst, Hpr, Hsv, Hm. done.
      * unfold role_of. cbn [c_flags c_state c_id card_of]. change (flag_set (sm_flags s') NGHTTP2_STREAM_FLAG_CLOSED) with (is_closed s').
        change (flag_set (sm_flags s') NGHTTP2_STREAM_FLAG_PUSH) with (is_promised s'). rewrite Hcl', (fulfilled_push s : is_promised s' = false), Hsv. simpl. by rewrite Hm.
  - intros _. unfold is_idle. rewrite Hst. by rewrite andb_false_r.
Qed.

Lemma restyled_at ss a s f ss' : restyled ss a (flags_to f s) ss' -> exists s', se_streams ss' !! a = Some s' /\ st_flow s' = st_flow s /\ sm_flags s' = f.
Proof.
  intros (w & -> & HB). apply (f_equal (fun h => h !! a)) in HB. rewrite !lookup_fmap, lookup_insert_eq in HB. change (streams w) with (se_streams (world_to w ss)) in HB.
  destruct (se_streams (world_to w ss) !! a) as [t|]; [|done]. exists t. split; [done|]. cbn in HB. assert (base t = base (flags_to f s)) as E by congruence.
  split; [exact (f_equal (fun x : nghttp2_stream => st_flow x) E)|exact (f_equal (fun x : nghttp2_stream => sm_flags x) E)].
Qed.

(** An item that was deferred. *)
(** No window moves. *)
Definition same_flows ss ss' : Prop := (fun t : nghttp2_stream => st_flow t) <$> se_streams ss' = (fun t : nghttp2_stream => st_flow t) <$> se_streams ss.

Lemma restyled_flows ss a s f ss' : se_streams ss !! a = Some s -> restyled ss a (flags_to f s) ss' -> same_flows ss ss'.
Proof.
  intros Hs (w & -> & HB). unfold same_flows. change (se_streams (world_to w ss)) with (streams w). apply map_eq. intros b.
  apply (f_equal (fun h => (fun t : nghttp2_stream => st_flow t) <$> h !! b)) in HB. rewrite !lookup_fmap, <- !option_fmap_compose in HB. rewrite !lookup_fmap.
  etrans; [exact HB|]. rewrite lookup_insert. case_decide; [subst b; by rewrite Hs|]. by destruct (se_streams ss !! b).
Qed.

Lemma sp_resume_steady (realloc_ok : nat -> bool) n m ss a s f : steady n m ss -> se_streams ss !! a = Some s -> is_Some (item s) -> deferral f ->
  sp (session_resume_deferred_stream_item realloc_ok a f) ss (fun rv ss' => rv = NGHTTP2_ERR_NOMEM \/ rv = 0 /\ steady n m ss' /\ se_conf ss' = se_conf ss /\
    (exists s', se_streams ss' !! a = Some s' /\ st_flow s' = st_flow s /\ sm_flags s' = u8 (sm_flags s .& Z.lnot f)) /\ same_flows ss ss').
Proof.
  intros HT Hs Hit Hf. destruct (steady_sess _ _ _ HT) as (kids & lc & li & HO).
  eapply sp_mono; [apply (sp_gives _ _ still_size); [apply gives_resume|exact (sp_resume realloc_ok ∅ ∅ ss kids lc li a f s HO Hs Hit Hf)]|].
  intros rv ss' [[HD HG] [[-> _]|(-> & HR & HO')]]; [by left|right]. split; [done|]. split; [|split; [apply HD|split; [by apply (restyled_at ss)|by eapply restyled_flows]]].
  pose proof (restyled_cards _ _ _ _ HR) as EC. pose proof (softly_resume s f Hf) as (_ & _ & _ & _ & Hbits).
  set (s' := flags_to _ s) in *. assert (forall t : nghttp2_stream, se_streams ss' !! a = Some t -> stream_id t = stream_id s /\ state t = state s /\ sm_flags t = sm_flags s') as Hat.
  { intros t Ht. apply cards_lookup in Ht. fold (scards ss') in Ht. rewrite EC, lookup_insert_eq in Ht. injection Ht as E1 E2 E3 _ _ _. done. }
  assert (forall b, b <> a -> face <$> scards ss' !! b = face <$> scards ss !! b) as Hface by (intros b Hb; by rewrite EC, lookup_insert_ne).
  apply (drift_steady n m _ ss); [done|done|by exists kids, lc, li|by eapply room_less; [apply HT|exact HG|lia]| |].
  - intros b t Hb. right. destruct (decide (b = a)) as [->|Hne]; [|eapply face_old; [apply HD|by apply Hface|exact Hb]].
    destruct Hb as (Hr & Ht & Hi & Hm). destruct (Hat t Ht) as (E1 & E2 & E3). exists s. split; [|done]. split; [done|]. split; [done|]. rewrite <- E1, <- (dr_conf _ _ HD).
    split; [|done]. revert Hi. unfold is_idle, is_closed, flag_set. rewrite E2, E3. by rewrite Hbits by auto.
  - intros b t Ht _. right. destruct (decide (b = a)) as [->|Hne]; [|eapply face_key; [by apply Hface|exact Ht]].
    destruct (Hat t Ht) as (E1 & E2 & E3). exists s. split; [done|]. unfold key, is_promised, flag_set. by rewrite E1, E2, E3, Hbits by auto.
Qed.

(** Changes of the session's windows and limits. *)
Lemma window_steady n m ss g : steady n m ss -> flow_ok (g (se_flow ss)) -> steady n m (upd_window g ss).
Proof.
  intros HT Hg. eapply steady_after; [exact HT| |done|apply HT| |apply HT|apply HT| |intros b s Hb _; right; by exists s|done].
  - exact (changed_sound n OfConnection g ss (se_flow ss) eq_refl (st_sound _ _ _ HT)).
  - exact (changed_flows OfConnection g ss (se_flow ss) eq_refl (st_flows _ _ _ HT) Hg).
  - intros b s Hb. right. by exists s.
Qed.

Lemma limits_steady n m ss g : steady n m ss -> steady n m (upd_limits g ss).
Proof. intros HT. assert (only_notes ss (upd_limits g ss)) as HN by done. destruct (notes_sound n _ _ HN (st_sound _ _ _ HT)). by eapply calm_steady. Qed.
