(* ===== verification/SessionHandle.v ===== *)
(** * Sessions: frames that arrive are handled

    Every handler of a frame runs to its end, whatever the frame says and
    whatever the streams it names have been through, returns one of the
    documented codes, and leaves the session ready for the next frame unless
    it failed for good. *)

From stdpp Require Import strings.
From S2P Require Import Prelude Defs Helper HdToken Ratelim Pq Frame FrameHeaders Http Stream StreamLinks StreamQueue StreamTree StreamItems StreamFrame.
From S2P Require Import Outbound Session SessionInv SessionTree SessionBooks SessionForest SessionOpen SessionClose SessionItems SessionAdjust SessionPrio SessionReach SessionTouch SessionSend SessionQueues SessionAdd SessionCalm SessionFlow SessionFlowSpec SessionDrift SessionAge SessionRecv SessionSteady.

Implicit Types (a b id n : Z) (m : nat) (s : nghttp2_stream) (ss : nghttp2_session) (lc li : list Z) (kids : gmap Z (list Z)) (frame : nghttp2_frame).

(** ** Results *)

(** The codes that [nghttp2_session_mem_recv2] knows what to do with. *)
Definition documented (rv : Z) : Prop := rv ∈ [0; NGHTTP2_ERR_IGN_HEADER_BLOCK; NGHTTP2_ERR_IGN_PAYLOAD; NGHTTP2_ERR_TEMPORAL_CALLBACK_FAILURE;
  NGHTTP2_ERR_NOMEM; NGHTTP2_ERR_CALLBACK_FAILURE; NGHTTP2_ERR_FLOODED].

Record handled n m ss (rv : Z) ss' : Prop := {
  ha_code : documented rv;
  ha_steady : nghttp2_is_fatal rv = false -> steady n m ss';
  ha_conf : nghttp2_is_fatal rv = false -> se_conf ss' = se_conf ss;
}.

Lemma handled_less n n' m m' ss rv ss' : handled n m ss rv ss' -> n' <= n -> (m' <= m)%nat -> handled n' m' ss rv ss'.
Proof. intros [H1 H2 H3] Hn Hm. split; [done| |done]. intros Hrv. eapply steady_less; [by apply H2|done|done]. Qed.

Lemma handled_from n m ss ss1 rv ss' : se_conf ss1 = se_conf ss -> handled n m ss1 rv ss' -> handled n m ss rv ss'.
Proof. intros E [H1 H2 H3]. split; [done|done|]. intros Hrv. by rewrite H3. Qed.

Lemma sp_handled_from {n m ss} ss1 (p : se_m Z) : se_conf ss1 = se_conf ss -> sp p ss1 (handled n m ss1) -> sp p ss1 (handled n m ss).
Proof. intros E H. eapply sp_mono; [exact H|]. intros rv ss'. by apply handled_from. Qed.

Lemma sp_handled_less n n' m m' ss (p : se_m Z) : sp p ss (handled n m ss) -> n' <= n -> (m' <= m)%nat -> sp p ss (handled n' m' ss).
Proof. intros H Hn Hm. eapply sp_mono; [exact H|]. intros rv ss' HH. by eapply handled_less. Qed.

Lemma handled_here n m ss ss' rv : documented rv -> steady n m ss' -> se_conf ss' = se_conf ss -> handled n m ss rv ss'.
Proof. by split. Qed.

Lemma handled_fatal n m ss ss' rv : documented rv -> nghttp2_is_fatal rv = true -> handled n m ss rv ss'.
Proof. intros Hd Hf. split; [done|congruence..]. Qed.

(** [documented] by computation. *)
Ltac known := unfold documented; repeat constructor.

(** Failures end a handler, as the code says it. *)
Lemma sp_then_fatal n m n1 m1 ss (p : se_m Z) (k : Z -> se_m Z) : sp p ss (handled n1 m1 ss) ->
  (forall rv ss1, steady n1 m1 ss1 -> se_conf ss1 = se_conf ss -> documented rv -> sp (k rv) ss1 (handled n m ss)) ->
  sp (let! rv := p in if nghttp2_is_fatal rv then mret rv else k rv) ss (handled n m ss).
Proof.
  intros H Hk. sp_step. eapply sp_mono; [exact H|]. intros rv ss1 [H1 H2 H3]. destruct (nghttp2_is_fatal rv) eqn:E.
  - sp_step. by apply handled_fatal.
  - by apply Hk; [apply H2|apply H3|].
Qed.

Lemma sp_then_failed n m n1 m1 ss (p : se_m Z) (k : se_m Z) : sp p ss (handled n1 m1 ss) -> n <= n1 -> (m <= m1)%nat ->
  (forall ss1, steady n1 m1 ss1 -> se_conf ss1 = se_conf ss -> sp k ss1 (handled n m ss)) ->
  sp (let! rv := p in if negb (rv =? 0) then mret rv else k) ss (handled n m ss).
Proof.
  intros H Hn Hm Hk. sp_step. eapply sp_mono; [exact H|]. intros rv ss1 H1. destruct (Z.eqb_spec rv 0) as [->|Hne]; simpl.
  - by apply Hk; [apply (ha_steady _ _ _ _ _ H1)|apply (ha_conf _ _ _ _ _ H1)].
  - sp_step. by eapply handled_less.
Qed.

(** A run that only queued frames. *)
Lemma quiet_handled c n m codes ss rv ss' : steady n m ss -> quiet_run c n codes ss rv ss' -> (forall r, r ∈ codes -> documented r) -> handled (n - c) m ss rv ss'.
Proof.
  intros HT ([-> |Hrv] & HS & HC) Hcodes.
  - apply handled_here; [known|by eapply calm_steady|apply HC].
  - split; [by apply Hcodes| |]; intros _; [by eapply calm_steady|apply HC].
Qed.

(** A stream that the session knows by its id. *)
Lemma sp_live n m ss id (Q : option Z -> nghttp2_session -> Prop) : steady n m ss -> Q None ss ->
  (forall a s, live_stream ss id = Some a -> a <> root -> se_streams ss !! a = Some s -> stream_id s = id -> is_idle s = false -> is_closed s = false -> Q (Some a) ss) ->
  sp (nghttp2_session_get_stream id) ss Q.
Proof.
  intros HT HN HQ. destruct (steady_sess _ _ _ HT) as (kids & lc & li & HO). eapply sp_get_stream; [apply HO|]. destruct (live_stream ss id) as [a|] eqn:Ea; [|done].
  destruct (live_stream_role _ _ _ _ _ _ (so_books _ _ _ _ _ _ HO) Ea) as (s & Hs & Hid & Hr & _). apply (HQ a s); try done; [by eapply live_not_idle|].
  revert Ea. unfold live_stream. destruct (stream_map ss !! id) as [b|]; [|done]. simpl. destruct (se_streams ss !! b) as [t|] eqn:Eb; [|done]. simpl.
  destruct (_ || _) eqn:E; [done|]. intros [= ->]. apply orb_false_iff in E as [E _]. assert (t = s) as -> by congruence. exact E.
Qed.

Lemma sp_raw n m ss id (Q : option Z -> nghttp2_session -> Prop) : steady n m ss -> (stream_map ss !! id = None -> Q None ss) ->
  (forall a s, stream_map ss !! id = Some a -> a <> root -> se_streams ss !! a = Some s -> stream_id s = id -> Q (Some a) ss) ->
  sp (nghttp2_session_get_stream_raw id) ss Q.
Proof.
  intros HT HN HQ. destruct (steady_sess _ _ _ HT) as (kids & lc & li & HO). unfold nghttp2_session_get_stream_raw. do 3 sp_step.
  destruct (stream_map ss !! id) as [a|] eqn:Ea; [|by apply HN]. destruct (mapped_stream _ _ _ _ _ _ (so_books _ _ _ _ _ _ HO) Ea) as (Hr & s & Hs & Hid).
  by apply (HQ a s).
Qed.

(** ** Windows and streams *)

Lemma increment_limit inc : 0 <= inc <= INT32_MAX -> i32 (NGHTTP2_MAX_WINDOW_SIZE - inc) = Some (NGHTTP2_MAX_WINDOW_SIZE - inc).
Proof. intros H. apply i32_Some. unfold is_i32, INT32_MIN, INT32_MAX, NGHTTP2_MAX_WINDOW_SIZE in *. lia. Qed.

Lemma opened_more (f : stream_flow) inc : flow_ok f -> 0 <= inc <= INT32_MAX -> remote_window_size f <= NGHTTP2_MAX_WINDOW_SIZE - inc ->
  i32 (remote_window_size f + inc) = Some (remote_window_size f + inc) /\ flow_ok (remote_window_size_to (remote_window_size f + inc) f).
Proof.
  intros HF Hinc Hle. assert (is_i32 (remote_window_size f + inc)) as Hr.
  { destruct HF as [H1 _ _ _ _ _]. unfold is_i32, INT32_MIN, INT32_MAX, NGHTTP2_MAX_WINDOW_SIZE in *. lia. }
  split; [by apply i32_Some|]. destruct HF. by split.
Qed.

(** Gentle changes keep streams in use. *)
Lemma touched_live ss a s s' i : se_streams ss !! a = Some s -> gently s s' -> live_stream (streams_to (<[a := s']> (se_streams ss)) ss) i = live_stream ss i.
Proof.
  intros Hs HG. unfold live_stream. change (stream_map (streams_to (<[a := s']> (se_streams ss)) ss)) with (stream_map ss). destruct (stream_map ss !! i) as [b|]; [|done]. simpl.
  rewrite se_streams_to, lookup_insert. case_decide; [subst b|done]. rewrite Hs. simpl. unfold flag_set. by rewrite (ge_flags _ _ HG), (bool_decide_ext _ _ (ge_idle _ _ HG)) by auto.
Qed.

(** ** The application *)

(** Its callbacks keep to the rules, and queue [c] frames at most per call. *)
Record considerate (c : Z) (on_frame_recv : option (nghttp2_frame -> se_m Z)) (on_invalid_frame : option (nghttp2_frame -> Z -> se_m Z))
    (on_begin_headers : option (nghttp2_frame -> se_m Z)) (on_stream_close : option (Z -> Z -> se_m Z)) : Prop := {
  cs_pos : 0 <= c;
  cs_recv : forall f frame, on_frame_recv = Some f -> polite c (f frame);
  cs_invalid : forall f frame err, on_invalid_frame = Some f -> polite c (f frame err);
  cs_begin : forall f frame, on_begin_headers = Some f -> polite c (f frame);
  cs_close : forall f id err, on_stream_close = Some f -> polite c (f id err);
}.

Lemma steady_polite c n m ss (f : se_m Z) (Q : Z -> nghttp2_session -> Prop) : steady n m ss -> polite c f -> c <= n ->
  (forall rv ss1, steady (n - c) m ss1 -> calm ss ss1 -> Q rv ss1) -> sp f ss Q.
Proof.
  intros HT Hf Hn HQ. eapply sp_mono; [apply (Hf n ss); [apply HT|apply HT|done]|]. intros rv ss1 [HS HC]. apply HQ; [by eapply calm_steady|done].
Qed.

Section Handlers.
Context (realloc_ok malloc_ok : nat -> bool) (new_stream : gmap Z nghttp2_stream -> Z) (new_item : gmap Z nghttp2_outbound_item -> Z).
Context (on_frame_recv_callback : option (nghttp2_frame -> se_m Z)) (on_invalid_frame_recv_callback : option (nghttp2_frame -> Z -> se_m Z)).
Context (on_begin_headers_callback : option (nghttp2_frame -> se_m Z)) (on_stream_close_callback : option (Z -> Z -> se_m Z)).
Context (Hfresh : forall h, h !! new_stream h = None) (Hitem : forall its, its !! new_item its = None).
Context (c : Z) (Happ : considerate c on_frame_recv_callback on_invalid_frame_recv_callback on_begin_headers_callback on_stream_close_callback).

Abbreviation frame_received := (session_call_on_frame_received on_frame_recv_callback).
Abbreviation begin_headers := (session_call_on_begin_headers on_begin_headers_callback).
Abbreviation invalid_stream := (session_handle_invalid_stream realloc_ok malloc_ok new_stream new_item on_invalid_frame_recv_callback).
Abbreviation invalid_connection := (session_handle_invalid_connection realloc_ok malloc_ok new_stream new_item on_invalid_frame_recv_callback).
Abbreviation inflate_invalid_stream := (session_inflate_handle_invalid_stream realloc_ok malloc_ok new_stream new_item on_invalid_frame_recv_callback).
Abbreviation inflate_invalid_connection := (session_inflate_handle_invalid_connection realloc_ok malloc_ok new_stream new_item on_invalid_frame_recv_callback).
Abbreviation close_stream := (nghttp2_session_close_stream realloc_ok on_stream_close_callback).

Lemma uncalled n m ss : steady n m ss -> steady (n - c) m ss.
Proof using All. intros HT. eapply steady_less; [exact HT| |done]. pose proof (cs_pos _ _ _ _ _ Happ). lia. Qed.

Lemma sp_frame_calm n m ss frame : steady n m ss -> c <= n -> sp (frame_received frame) ss (fun rv ss1 => handled (n - c) m ss rv ss1 /\ calm ss ss1 /\
    (rv = 0 \/ rv = NGHTTP2_ERR_CALLBACK_FAILURE)).
Proof using All.
  intros HT Hn. unfold session_call_on_frame_received. pose proof (uncalled n m ss HT) as HU. pose proof (fun f => cs_recv _ _ _ _ _ Happ f frame) as HP. destruct on_frame_recv_callback as [f|] eqn:E; [|sp_step; split; [apply handled_here; [known|exact HU|done]|by split; [|left]]].
  sp_step. eapply steady_polite; [exact HT|by apply HP|done|]. intros rv ss1 HT1 EC.
  destruct (negb (rv =? 0)); sp_step; (split; [apply handled_here; [known|done|apply EC]|split; [done|auto]]).
Qed.

Lemma sp_frame_received n m ss frame : steady n m ss -> c <= n -> sp (frame_received frame) ss (handled (n - c) m ss).
Proof using All. intros HT Hn. eapply sp_mono; [by apply sp_frame_calm|]. by intros rv ss1 (? & _). Qed.

Lemma sp_begin_headers n m ss frame : steady n m ss -> c <= n -> sp (begin_headers frame) ss (handled (n - c) m ss).
Proof using All.
  intros HT Hn. unfold session_call_on_begin_headers. pose proof (uncalled n m ss HT) as HU. pose proof (fun f => cs_begin _ _ _ _ _ Happ f frame) as HP. destruct on_begin_headers_callback as [f|] eqn:E; [|sp_step; apply handled_here; [known|exact HU|done]].
  sp_step. eapply steady_polite; [exact HT|by apply HP|done|]. intros rv ss1 HT1 EC.
  destruct (Z.eqb_spec rv NGHTTP2_ERR_TEMPORAL_CALLBACK_FAILURE) as [->|_]; [sp_step; apply handled_here; [known|done|apply EC]|].
  destruct (negb (rv =? 0)); sp_step; (apply handled_here; [known|done|apply EC]).
Qed.

Lemma sp_invalid_callback n m ss frame err : steady n m ss -> c <= n ->
  sp (session_call_on_invalid_frame_recv_callback on_invalid_frame_recv_callback frame err) ss (handled (n - c) m ss).
Proof using All.
  intros HT Hn. unfold session_call_on_invalid_frame_recv_callback. pose proof (uncalled n m ss HT) as HU. pose proof (fun f => cs_invalid _ _ _ _ _ Happ f frame err) as HP.
  destruct on_invalid_frame_recv_callback as [f|] eqn:E; [|sp_step; apply handled_here; [known|exact HU|done]].
  sp_step. eapply steady_polite; [exact HT|by apply HP|done|]. intros rv ss1 HT1 EC. destruct (negb (rv =? 0)); sp_step; (apply handled_here; [known|done|apply EC]).
Qed.

(** ** Errors *)

Lemma nomem_documented r : r ∈ [NGHTTP2_ERR_NOMEM] -> documented r.
Proof using All. intros ->%list_elem_of_singleton. known. Qed.

Lemma sp_reset n m ss id err : steady n m ss -> 1 <= n ->
  sp (nghttp2_session_add_rst_stream realloc_ok malloc_ok new_stream new_item id err) ss (handled (n - 1) m ss).
Proof using All.
  intros HT Hn. eapply sp_mono; [by apply (sp_rst_quiet _ _ _ _ Hitem n), Hn; apply HT|]. intros rv ss' H. eapply quiet_handled; [exact HT|exact H|apply nomem_documented].
Qed.

Lemma sp_terminated n m ss err reason : steady n m ss -> 1 <= n -> zlen (default [] reason) + 8 <= NGHTTP2_MAX_PAYLOADLEN ->
  sp (nghttp2_session_terminate_session_with_reason realloc_ok malloc_ok new_stream new_item err reason) ss (handled (n - 1) m ss).
Proof using All.
  intros HT Hn Hr. eapply sp_mono; [apply (sp_terminate_reason _ _ _ _ Hitem n); [apply HT|done|exact (st_proc _ _ _ HT)|done]|].
  intros rv ss' H. eapply quiet_handled; [exact HT|exact H|apply nomem_documented].
Qed.

Lemma sp_invalid_stream n m ss frame err : steady n m ss -> c + 1 <= n -> sp (invalid_stream frame err) ss (handled (n - (c + 1)) m ss).
Proof using All.
  intros HT Hn. pose proof (cs_pos _ _ _ _ _ Happ). unfold session_handle_invalid_stream, session_handle_invalid_stream2.
  eapply sp_then_failed; [by apply (sp_reset n m); [|lia]|lia|done|]. intros ss1 HT1 EC. apply sp_handled_from; [done|].
  eapply sp_handled_less; [by apply (sp_invalid_callback (n - 1) m); [|lia]|lia|done].
Qed.

Lemma sp_invalid_connection n m ss frame err reason : steady n m ss -> c + 1 <= n -> zlen (default [] reason) + 8 <= NGHTTP2_MAX_PAYLOADLEN ->
  sp (invalid_connection frame err reason) ss (handled (n - (c + 1)) m ss).
Proof using All.
  intros HT Hn Hr. pose proof (cs_pos _ _ _ _ _ Happ). unfold session_handle_invalid_connection.
  eapply sp_then_failed; [by apply (sp_invalid_callback n m); [|lia]|lia|done|]. intros ss1 HT1 EC. apply sp_handled_from; [done|].
  eapply sp_handled_less; [by apply (sp_terminated (n - c) m); [|lia|]|lia|done].
Qed.

Lemma sp_ignored n m ss (p : se_m Z) : sp p ss (handled n m ss) -> sp (ignore_header_block p) ss (handled n m ss).
Proof using All. intros H. unfold ignore_header_block. eapply sp_then_fatal; [exact H|]. intros rv ss1 HT EC _. sp_step. apply handled_here; [known|done|done]. Qed.

Lemma sp_inflate_invalid_stream n m ss frame err : steady n m ss -> c + 1 <= n -> sp (inflate_invalid_stream frame err) ss (handled (n - (c + 1)) m ss).
Proof using All. intros HT Hn. by apply sp_ignored, sp_invalid_stream. Qed.

Lemma sp_inflate_invalid_connection n m ss frame err reason : steady n m ss -> c + 1 <= n -> zlen (default [] reason) + 8 <= NGHTTP2_MAX_PAYLOADLEN ->
  sp (inflate_invalid_connection frame err reason) ss (handled (n - (c + 1)) m ss).
Proof using All. intros HT Hn Hr. by apply sp_ignored, sp_invalid_connection. Qed.

(** The frames that a handler may queue, and the streams that it may open. *)
Definition cost : Z := 2 * c + 1.

(** Ends a handler with an error, a callback or a code. *)
Lemma stays n m ss rv : documented rv -> steady n m ss -> handled (n - cost) (m - 2) ss rv ss.
Proof using All.
  intros Hd HT. pose proof (cs_pos _ _ _ _ _ Happ). apply handled_here; [done| |done]. eapply steady_less; [exact HT|unfold cost; lia|lia].
Qed.

Lemma ends_less n m ss (p : se_m Z) : sp p ss (handled (n - (c + 1)) m ss) -> sp p ss (handled (n - cost) (m - 2) ss).
Proof using All. intros H. pose proof (cs_pos _ _ _ _ _ Happ). eapply sp_handled_less; [exact H|unfold cost; lia|lia]. Qed.

Lemma cost_enough n : cost <= n -> 0 <= c /\ c + 1 <= n /\ c <= n /\ 1 <= n.
Proof using All. pose proof (cs_pos _ _ _ _ _ Happ). unfold cost. lia. Qed.

Lemma ends_connection n m ss frame err reason : steady n m ss -> cost <= n -> zlen (default [] reason) + 8 <= NGHTTP2_MAX_PAYLOADLEN ->
  sp (invalid_connection frame err reason) ss (handled (n - cost) (m - 2) ss).
Proof using All. intros HT Hn Hr. destruct (cost_enough _ Hn) as (_ & ? & _). by apply ends_less, sp_invalid_connection. Qed.

Lemma ends_inflate n m ss frame err reason : steady n m ss -> cost <= n -> zlen (default [] reason) + 8 <= NGHTTP2_MAX_PAYLOADLEN ->
  sp (inflate_invalid_connection frame err reason) ss (handled (n - cost) (m - 2) ss).
Proof using All. intros HT Hn Hr. by apply sp_ignored, ends_connection. Qed.

Lemma ends_stream n m ss frame err : steady n m ss -> cost <= n -> sp (inflate_invalid_stream frame err) ss (handled (n - cost) (m - 2) ss).
Proof using All. intros HT Hn. destruct (cost_enough _ Hn) as (_ & ? & _). by apply ends_less, sp_inflate_invalid_stream. Qed.

Lemma ends_begin n m m' ss ss1 frame : steady n m' ss1 -> se_conf ss1 = se_conf ss -> (m - 2 <= m')%nat -> cost <= n -> sp (begin_headers frame) ss1 (handled (n - cost) (m - 2) ss).
Proof using All.
  intros HT EC Hm Hn. destruct (cost_enough _ Hn) as (? & _ & ? & _). apply sp_handled_from; [done|]. eapply sp_handled_less; [by apply sp_begin_headers|unfold cost; lia|done].
Qed.

Lemma ends_received n m m' ss ss1 frame : steady n m' ss1 -> se_conf ss1 = se_conf ss -> (m - 2 <= m')%nat -> cost <= n -> sp (frame_received frame) ss1 (handled (n - cost) (m - 2) ss).
Proof using All.
  intros HT EC Hm Hn. destruct (cost_enough _ Hn) as (? & _ & ? & _). apply sp_handled_from; [done|]. eapply sp_handled_less; [by apply sp_frame_received|unfold cost; lia|done].
Qed.

(** ** HEADERS *)

Abbreviation on_request := (nghttp2_session_on_request_headers_received realloc_ok malloc_ok new_stream new_item on_invalid_frame_recv_callback on_begin_headers_callback).
Abbreviation on_response := (nghttp2_session_on_response_headers_received realloc_ok malloc_ok new_stream new_item on_invalid_frame_recv_callback on_begin_headers_callback).
Abbreviation on_push_response := (nghttp2_session_on_push_response_headers_received realloc_ok malloc_ok new_stream new_item on_invalid_frame_recv_callback on_begin_headers_callback).
Abbreviation on_headers := (nghttp2_session_on_headers_received realloc_ok malloc_ok new_stream new_item on_invalid_frame_recv_callback on_begin_headers_callback).

(** A stream is opened for the peer; what follows may fail for good. *)
Lemma sp_request n m ss (f : nghttp2_headers) : steady n m ss -> cost <= n -> (2 <= m)%nat -> 1 <= ps_weight (he_pri_spec f) <= 256 ->
  sp (on_request f) ss (handled (n - cost) (m - 2) ss).
Proof using All.
  intros HT Hn Hm Hw. unfold nghttp2_session_on_request_headers_received. cbv zeta. do 2 sp_step. set (id := hd_stream_id (he_hd f)).
  destruct (id =? 0); [by apply ends_inflate|]. destruct (negb (server ss)).
  { destruct (session_detect_idle_stream ss id); [by apply ends_inflate|]. sp_step. apply stays; [known|done]. }
  destruct (session_is_new_peer_stream_id ss id) eqn:Enew; simpl negb; cbn iota.
  2: { destruct (_ || _); [by apply ends_inflate|]. sp_step. eapply sp_raw; [exact HT| |].
    - intros _. do 2 sp_step. sp_step. apply stays; [known|done].
    - intros a s _ _ Hs _. do 2 sp_step. eapply sp_load; [exact Hs|]. sp_step. case_match; [by apply ends_inflate|]. sp_step. apply stays; [known|done]. }
  sp_step. sp_step. pose proof (received_steady _ _ _ _ HT Enew) as HT1. pose proof (new_openable _ _ _ _ HT Enew) as HO. set (ss1 := upd_ids _ ss) in *. do 2 sp_step.
  destruct (session_is_incoming_concurrent_streams_max ss1); [by apply (sp_handled_from ss1), ends_inflate|].
  destruct (negb (session_allow_incoming_new_stream ss1)); [sp_step; by apply (handled_from _ _ _ ss1), stays; [|known|]|].
  destruct (Z.eqb_spec (ps_stream_id (he_pri_spec f)) id) as [_|Hself]; [by apply (sp_handled_from ss1), ends_inflate|].
  destruct (session_is_incoming_concurrent_streams_pending_max ss1); [by apply (sp_handled_from ss1), ends_stream|].
  sp_step. eapply sp_mono; [apply (sp_open_steady realloc_ok malloc_ok new_stream Hfresh n m ss1); try done; right; right; simpl; lia|].
  intros r ss2 [-> |(a & -> & HT2 & EC2 & _)]; [sp_step; by apply handled_fatal; [known|]|].
  sp_step. eapply sp_mono; [by apply (sp_adjust_closed_steady realloc_ok n (m - 2))|]. intros rv ss3 [-> |(-> & HT3 & EC3 & _)]; simpl.
  { sp_step. by apply handled_fatal; [known|]. }
  do 2 sp_step. apply (ends_begin n m (m - 2)); [by apply processed_steady|exact (eq_trans EC3 EC2)|done|done].
Qed.

Lemma sp_response n m ss (f : nghttp2_headers) a s : steady n m ss -> cost <= n -> se_streams ss !! a = Some s -> state s = NGHTTP2_STREAM_OPENING ->
  nghttp2_session_is_my_stream_id ss (hd_stream_id (he_hd f)) = true -> sp (on_response f a) ss (handled (n - cost) (m - 2) ss).
Proof using All.
  intros HT Hn Hs Hst Hmy. unfold nghttp2_session_on_response_headers_received. cbv zeta. do 2 sp_step. sp_step. eapply sp_load; [exact Hs|].
  rewrite Hst, Hmy, bool_decide_true by done. sp_step. apply sp_assert; [done|]. case_match; [by apply ends_inflate|]. case_match; [by apply ends_inflate|].
  sp_step. eapply sp_modify; [exact Hs|]. apply (ends_begin n m m); [|done|lia|done]. eapply touched_steady; [exact HT|exact Hs| |done|].
  - apply gently_state; by rewrite ?Hst.
  - exact (proj2 (st_flows _ _ _ HT) a s Hs).
Qed.

Lemma sp_push_response n m ss (f : nghttp2_headers) a s : steady n m ss -> cost <= n -> se_streams ss !! a = Some s -> a <> root -> is_closed s = false ->
  state s = NGHTTP2_STREAM_RESERVED -> sp (on_push_response f a) ss (handled (n - cost) (m - 2) ss).
Proof using All.
  intros HT Hn Hs Ha Hcl Hst. unfold nghttp2_session_on_push_response_headers_received. cbv zeta. do 2 sp_step. sp_step. eapply sp_load; [exact Hs|].
  rewrite Hst, bool_decide_true by done. sp_step. apply sp_assert; [done|]. case_match; [by apply ends_inflate|]. destruct (server ss) eqn:Hsv; [by apply ends_inflate|].
  destruct (session_is_incoming_concurrent_streams_max ss); [by apply ends_inflate|].
  destruct (negb (session_allow_incoming_new_stream ss)); [sp_step; apply stays; [known|done]|].
  destruct (session_is_incoming_concurrent_streams_pending_max ss); [by apply ends_stream|].
  destruct (fulfilled_steady _ _ _ _ _ HT Hs Ha Hcl Hst Hsv) as [HT1 Hmine]. sp_step. eapply sp_modify; [exact Hs|].
  change (nghttp2_session_is_my_stream_id ss (stream_id s)) with (mine (server ss) (stream_id s)). rewrite Hmine. simpl negb. cbn iota. do 4 sp_step.
  apply (ends_begin n m m); [|done|lia|done].
  assert (fulfilled a ss = upd_counts (fun q => bump RIncoming (bump RPromisedRemote q (-1)) 1) (streams_to (<[a := nghttp2_stream_promise_fulfilled s]> (se_streams ss)) ss)) as E.
  { unfold fulfilled. do 2 f_equal. apply map_eq. intros b. rewrite lookup_insert, lookup_alter. case_decide; [subst|done]. by rewrite Hs. }
  rewrite E in HT1. exact HT1.
Qed.

Lemma sp_headers n m ss (f : nghttp2_headers) a s : steady n m ss -> cost <= n -> se_streams ss !! a = Some s -> sp (on_headers f a) ss (handled (n - cost) (m - 2) ss).
Proof using All.
  intros HT Hn Hs. unfold nghttp2_session_on_headers_received. cbv zeta. do 2 sp_step. sp_step. eapply sp_load; [exact Hs|].
  assert (forall b : bool, sp (if b then begin_headers (FrHeaders f) else mret NGHTTP2_ERR_IGN_HEADER_BLOCK) ss (handled (n - cost) (m - 2) ss)) as Hend.
  { intros b. destruct b; [apply (ends_begin n m m); done || lia|sp_step; apply stays; [known|done]]. }
  case_match; [by apply ends_inflate|]. case_match; [by apply ends_inflate|]. case_match; apply Hend.
Qed.

Abbreviation process_headers := (session_process_headers_frame realloc_ok malloc_ok new_stream new_item on_invalid_frame_recv_callback on_begin_headers_callback).

Lemma sp_process_headers n m ss (f : nghttp2_headers) : steady n m ss -> cost <= n -> (2 <= m)%nat -> 1 <= ps_weight (he_pri_spec f) <= 256 ->
  sp (process_headers f) ss (handled (n - cost) (m - 2) ss).
Proof using All.
  intros HT Hn Hm Hw. unfold session_process_headers_frame. sp_step. eapply sp_live; [exact HT|by apply sp_request|].
  intros a s _ Ha Hs Hid Hidle Hcl. do 2 sp_step. sp_step. eapply sp_load; [exact Hs|]. case_bool_decide as Hst; [by eapply sp_push_response|].
  destruct (bool_decide (state s = NGHTTP2_STREAM_OPENING) && _) eqn:E; [|by eapply sp_headers].
  apply andb_prop in E as [E1%bool_decide_eq_true E2]. by eapply sp_response.
Qed.

(** ** PRIORITY, RST_STREAM and PUSH_PROMISE *)

Abbreviation on_priority := (nghttp2_session_on_priority_received realloc_ok malloc_ok new_stream new_item on_frame_recv_callback on_invalid_frame_recv_callback).
Abbreviation on_rst_stream := (nghttp2_session_on_rst_stream_received realloc_ok malloc_ok new_stream new_item on_frame_recv_callback on_invalid_frame_recv_callback on_stream_close_callback).
Abbreviation on_push_promise := (nghttp2_session_on_push_promise_received realloc_ok malloc_ok new_stream new_item on_invalid_frame_recv_callback on_begin_headers_callback).

Lemma sp_priority n m ss (f : nghttp2_priority) : steady n m ss -> cost <= n -> (2 <= m)%nat -> 1 <= ps_weight (pr_spec f) <= 256 ->
  sp (on_priority f) ss (handled (n - cost) (m - 2) ss).
Proof using All.
  intros HT Hn Hm Hw. unfold nghttp2_session_on_priority_received. cbv zeta. do 2 sp_step. set (id := hd_stream_id (pr_hd f)). sp_step.
  apply sp_assert; [by rewrite (rfc7540_fallback _ (st_mode _ _ _ HT))|].
  assert (forall ss1, steady n (m - 2) ss1 -> se_conf ss1 = se_conf ss -> sp (let! rv := nghttp2_session_adjust_idle_stream realloc_ok in
    if nghttp2_is_fatal rv then mret rv else frame_received (FrControl (FrPriority f))) ss1 (handled (n - cost) (m - 2) ss)) as Hend.
  { intros ss1 HT1 EC1. sp_step. eapply sp_mono; [by apply (sp_adjust_idle_steady realloc_ok n (m - 2))|]. intros rv ss2 [-> |(-> & HT2 & EC2 & _)]; simpl.
    - sp_step. by apply handled_fatal; [known|].
    - apply (ends_received n m (m - 2)); [done|congruence|done|done]. }
  destruct (Z.eqb_spec id 0) as [E0|Hid]; [by apply ends_connection|]. destruct (Z.eqb_spec (ps_stream_id (pr_spec f)) id) as [_|Hself].
  { apply ends_less. destruct (cost_enough _ Hn) as (? & ? & ? & ?). eapply sp_handled_less; [by apply sp_terminated|lia|done]. }
  destruct (negb (server ss)); [apply (ends_received n m m); done || lia|]. sp_step. eapply sp_raw; [exact HT| |].
  - intros Hnone. destruct (negb (session_detect_idle_stream ss id)); [sp_step; apply stays; [known|done]|]. sp_step.
    eapply sp_mono; [apply (sp_open_steady realloc_ok malloc_ok new_stream Hfresh n m ss); try done; [split; [done|congruence]|by left]|].
    intros r ss1 [-> |(a & -> & HT1 & EC1 & _)]; [sp_step; by apply handled_fatal; [known|]|]. by apply Hend.
  - intros a s Hmap Ha Hs Hsid. sp_step. eapply sp_mono; [apply (sp_reprioritize_steady realloc_ok malloc_ok new_stream Hfresh n m ss a s); try done; congruence|].
    intros rv ss1 [-> |(-> & HT1 & EC1 & _)]; simpl; [sp_step; by apply handled_fatal; [known|]|]. by apply Hend.
Qed.

Lemma sp_ratelim n m ss now : steady n m ss -> 1 <= n ->
  sp (session_update_stream_reset_ratelim realloc_ok malloc_ok new_stream new_item now) ss (fun rv ss' =>
    handled (n - 1) m ss rv ss' /\ forall i, live_stream ss' i = live_stream ss i).
Proof using All.
  intros HT Hn. unfold session_update_stream_reset_ratelim. do 2 sp_step.
  assert (forall ss1, steady n m ss1 -> se_conf ss1 = se_conf ss -> handled (n - 1) m ss 0 ss1) as Hstay.
  { intros ss1 HT1 EC. apply handled_here; [known| |done]. eapply steady_less; [exact HT1|lia|done]. }
  destruct (_ || _); [sp_step; split; [by apply Hstay|done]|]. destruct (nghttp2_ratelim_drain _ 1) as [rl r]. cbn iota beta. sp_step. sp_step.
  pose proof (limits_steady n m ss (stream_reset_ratelim_to rl) HT) as HT1. destruct (r =? 0); [sp_step; split; [by apply Hstay|done]|].
  eapply sp_mono; [apply (sp_goaway_calm _ _ _ _ Hitem n); [apply HT1|done|exact (st_recv _ _ _ HT)|done]|]. intros rv ss' H. split.
  - apply (handled_from _ _ _ (upd_limits (stream_reset_ratelim_to rl) ss)); [done|]. eapply quiet_handled; [exact HT1|exact H|apply nomem_documented].
  - destruct H as (_ & _ & HC). intros i. by rewrite (calm_live _ _ i HC).
Qed.

(** A stream that stops reading. *)
Lemma sp_shutdown_steady n m ss a s f (Q : unit -> nghttp2_session -> Prop) : steady n m ss -> se_streams ss !! a = Some s ->
  (forall ss1, steady n m ss1 -> se_conf ss1 = se_conf ss -> (forall i, live_stream ss1 i = live_stream ss i) -> is_Some (se_streams ss1 !! a) -> Q tt ss1) ->
  sp (on_streams (nghttp2_stream_shutdown a f)) ss Q.
Proof using All.
  intros HT Hs HQ. apply (sp_shutdown _ _ _ _ _ Hs). apply HQ; [|done| |rewrite se_streams_to, lookup_insert_eq; by eexists].
  2: { intros i. apply (touched_live ss a s); [exact Hs|by split]. }
  eapply touched_steady; [exact HT|exact Hs|by split|done|]. exact (proj2 (st_flows _ _ _ HT) a s Hs).
Qed.

Lemma sp_closes n m ss id err : steady n m ss -> c <= n ->
  sp (close_stream id err) ss (fun rv ss1 => (nghttp2_is_fatal rv = true -> documented rv) /\ (nghttp2_is_fatal rv = false ->
    steady (n - c) m ss1 /\ se_conf ss1 = se_conf ss /\ spares ss id ss1 /\ retires ss id ss1)).
Proof using All.
  intros HT Hn. eapply sp_mono; [apply (sp_close_steady realloc_ok on_stream_close_callback c (cs_pos _ _ _ _ _ Happ) (cs_close _ _ _ _ _ Happ) n m); done|].
  intros rv ss2 [Hrv HC]. split; [intros Hf|intros Hf; by destruct (HC Hf) as (? & ? & _ & ? & ?)].
  repeat (apply elem_of_cons in Hrv as [-> |Hrv]; [first [done|known]|]). by apply elem_of_nil in Hrv.
Qed.

Lemma retires_from ss ss1 ss' id : (forall i, live_stream ss1 i = live_stream ss i) -> retires ss1 id ss' -> retires ss id ss'.
Proof using. intros E H i. by rewrite H, E. Qed.

Lemma retires_to ss ss1 ss' id : (forall i, live_stream ss' i = live_stream ss1 i) -> retires ss id ss1 -> retires ss id ss'.
Proof using. intros E H i. by rewrite E, H. Qed.

Lemma sp_rst_tail n m ss id err now : steady n m ss -> c + 1 <= n ->
  sp (let! rv := close_stream id err in
      if nghttp2_is_fatal rv then mret rv else session_update_stream_reset_ratelim realloc_ok malloc_ok new_stream new_item now) ss (fun rv ss' =>
    handled (n - (c + 1)) m ss rv ss' /\ (nghttp2_is_fatal rv = false -> retires ss id ss')).
Proof using All.
  intros HT Hn. pose proof (cs_pos _ _ _ _ _ Happ) as Hc. sp_step. eapply sp_mono; [apply (sp_closes n m); [done|lia]|]. intros rv ss1 [Hd HC].
  destruct (nghttp2_is_fatal rv) eqn:Ef; [sp_step; split; [by apply handled_fatal; [apply Hd|]|congruence]|]. destruct (HC eq_refl) as (HT1 & EC1 & _ & Hret).
  eapply sp_mono; [apply (sp_ratelim (n - c) m); [done|lia]|]. intros rv2 ss2 [HH Hlive]. split.
  - eapply handled_less; [by eapply handled_from|lia|done].
  - intros Hf. by eapply retires_to.
Qed.

(** A stream that is neither idle nor the connection is closed. *)
Lemma sp_rst_gone n m ss (f : nghttp2_rst_stream) now : steady n m ss -> cost <= n -> hd_stream_id (rs_hd f) <> 0 ->
  session_detect_idle_stream ss (hd_stream_id (rs_hd f)) = false -> sp (on_rst_stream f now) ss (fun rv ss' =>
    handled (n - cost) m ss rv ss' /\ (nghttp2_is_fatal rv = false -> retires ss (hd_stream_id (rs_hd f)) ss')).
Proof using All.
  intros HT Hn Hid Hidle. pose proof (cost_enough _ Hn) as (Hc & ? & ? & H1). unfold nghttp2_session_on_rst_stream_received. cbv zeta. do 2 sp_step.
  rewrite (proj2 (Z.eqb_neq _ _) Hid), Hidle. set (id := hd_stream_id (rs_hd f)) in *.
  assert (forall ss1, steady n m ss1 -> se_conf ss1 = se_conf ss -> (forall i, live_stream ss1 i = live_stream ss i) -> sp (let! rv := frame_received (FrControl (FrRstStream f)) in
    if negb (rv =? 0) then mret rv else
      let! rv := close_stream id (rs_error_code f) in
      if nghttp2_is_fatal rv then mret rv else session_update_stream_reset_ratelim realloc_ok malloc_ok new_stream new_item now) ss1 (fun rv ss' =>
    handled (n - cost) m ss rv ss' /\ (nghttp2_is_fatal rv = false -> retires ss id ss'))) as Hend.
  { intros ss1 HT1 EC1 EL1. sp_step. eapply sp_mono; [by apply (sp_frame_calm n m)|]. intros rv ss2 (HH & HC & [-> | ->]); simpl.
    - pose proof (ha_steady _ _ _ _ _ HH eq_refl) as HT2. pose proof (ha_conf _ _ _ _ _ HH eq_refl) as EC2. unfold cost in *.
      eapply sp_mono; [apply (sp_rst_tail (n - c) m ss2 id (rs_error_code f) now); [done|lia]|]. intros rv ss3 [HH3 Hret]. split.
      + eapply handled_less; [eapply handled_from; [|exact HH3]; congruence|lia|done].
      + intros Hf. eapply retires_from; [|by apply Hret]. intros i. by rewrite (calm_live _ _ i HC).
    - sp_step. split; [by apply handled_fatal; [known|]|done]. }
  sp_step. eapply sp_live; [exact HT| |].
  - do 2 sp_step. by apply Hend.
  - intros a s _ Ha Hs _ _ _. sp_step. eapply sp_shutdown_steady; [exact HT|exact Hs|]. intros ss1 HT1 EC1 EL1 _. by apply Hend.
Qed.

Lemma sp_rst_stream n m ss (f : nghttp2_rst_stream) now : steady n m ss -> cost <= n -> sp (on_rst_stream f now) ss (handled (n - cost) (m - 2) ss).
Proof using All.
  intros HT Hn. destruct (Z.eqb_spec (hd_stream_id (rs_hd f)) 0) as [E|Hid]; [|destruct (session_detect_idle_stream ss (hd_stream_id (rs_hd f))) eqn:Ei].
  - unfold nghttp2_session_on_rst_stream_received. cbv zeta. do 2 sp_step. rewrite E. by apply ends_connection.
  - unfold nghttp2_session_on_rst_stream_received. cbv zeta. do 2 sp_step. rewrite (proj2 (Z.eqb_neq _ _) Hid), Ei. by apply ends_connection.
  - eapply sp_mono; [by apply (sp_rst_gone n m)|]. intros rv ss' [HH _]. eapply handled_less; [exact HH|lia|by apply Nat.le_sub_l].
Qed.

Lemma sp_push_promise n m ss (f : nghttp2_push_promise) : steady n m ss -> cost <= n -> (2 <= m)%nat -> sp (on_push_promise f) ss (handled (n - cost) (m - 2) ss).
Proof using All.
  intros HT Hn Hm. pose proof (cost_enough _ Hn) as (Hc & _ & _ & H1). unfold nghttp2_session_on_push_promise_received. cbv zeta. do 2 sp_step.
  set (id := hd_stream_id (pp_hd f)). set (promised := pp_promised_stream_id f).
  destruct (id =? 0); [by apply ends_inflate|]. destruct (server ss) eqn:Hsv; [by apply ends_inflate|]. destruct (false || _); [by apply ends_inflate|].
  destruct (nghttp2_session_is_my_stream_id ss id) eqn:Hmy; [|by apply ends_inflate]. simpl negb. cbn iota.
  destruct (negb (session_allow_incoming_new_stream ss)); [sp_step; apply stays; [known|done]|].
  destruct (session_is_new_peer_stream_id ss promised) eqn:Enew; [|by apply ends_inflate]. simpl negb. cbn iota.
  destruct (session_detect_idle_stream ss id); [by apply ends_inflate|]. do 2 sp_step.
  pose proof (received_steady _ _ _ _ HT Enew) as HT1. pose proof (new_openable _ _ _ _ HT Enew) as HO. set (ss1 := upd_ids _ ss) in *.
  assert (nghttp2_session_is_my_stream_id ss promised = false) as Hpm.
  { unfold session_is_new_peer_stream_id in Enew. by apply andb_prop in Enew as [[_ ?%negb_true_iff]%andb_prop _]. }
  assert (sp (let! rv := nghttp2_session_add_rst_stream realloc_ok malloc_ok new_stream new_item promised NGHTTP2_CANCEL in
    if negb (rv =? 0) then mret rv else mret NGHTTP2_ERR_IGN_HEADER_BLOCK) ss1 (handled (n - cost) (m - 2) ss)) as Hrefuse.
  { apply (sp_handled_from ss1); [done|]. eapply sp_then_failed; [by apply (sp_reset n m)|unfold cost; lia|by apply Nat.le_sub_l|].
    intros ss2 HT2 EC2. sp_step. apply handled_here; [known| |done]. eapply steady_less; [exact HT2|unfold cost; lia|by apply Nat.le_sub_l]. }
  sp_step. eapply sp_live; [exact HT1|by sp_step; sp_step; simpl orb|]. intros a s _ Ha Hs Hid _ _. do 2 sp_step. eapply sp_load; [exact Hs|]. sp_step.
  destruct (_ || _); [exact Hrefuse|]. sp_step. eapply sp_load; [exact Hs|]. case_match; [by apply (sp_handled_from ss1), ends_inflate|]. sp_step.
  eapply sp_mono; [apply (sp_open_steady realloc_ok malloc_ok new_stream Hfresh n m ss1); try done|].
  - simpl. rewrite Hid. intros E. rewrite E in Hmy. congruence.
  - right; right. exact (Z.le_refl promised).
  - intros _. change (server ss1) with (server ss). rewrite Hsv. unfold nghttp2_session_is_my_stream_id in Hpm. rewrite Hsv in Hpm. exact Hpm.
  - intros r ss2 [-> |(b & -> & HT2 & EC2 & _)]; [sp_step; by apply handled_fatal; [known|]|]. do 2 sp_step.
    apply (ends_begin n m (m - 2)); [by apply processed_steady|exact EC2|done|done].
Qed.

(** ** PING *)

Abbreviation on_ping := (nghttp2_session_on_ping_received realloc_ok malloc_ok new_stream new_item on_frame_recv_callback on_invalid_frame_recv_callback).

Lemma sp_ping n m ss (f : nghttp2_ping) : steady n m ss -> cost <= n -> sp (on_ping f) ss (handled (n - cost) (m - 2) ss).
Proof using All.
  intros HT Hn. pose proof (cost_enough _ Hn) as (Hc & ? & ? & H1). unfold nghttp2_session_on_ping_received. cbv zeta. do 2 sp_step.
  destruct (negb (hd_stream_id (pg_hd f) =? 0)); [by apply ends_connection|]. apply ends_less. apply (sp_then_failed _ _ (n - 1) m); [|lia|done|].
  - destruct (_ && _ && _).
    + eapply sp_mono; [by apply (sp_ping_calm _ _ _ _ Hitem n), H1; apply HT|]. intros rv ss' HH. eapply quiet_handled; [exact HT|exact HH|].
      intros r [->|[->|[]%elem_of_nil]%elem_of_cons]%elem_of_cons; known.
    + sp_step. apply handled_here; [known| |done]. eapply steady_less; [exact HT|lia|done].
  - intros ss1 HT1 EC1. apply sp_handled_from; [done|]. eapply sp_handled_less; [apply (sp_frame_received (n - 1) m); done || lia|lia|done].
Qed.

(** ** WINDOW_UPDATE *)

Abbreviation on_window_update := (nghttp2_session_on_window_update_received realloc_ok malloc_ok new_stream new_item on_frame_recv_callback on_invalid_frame_recv_callback).

Lemma sp_window_update n m ss (f : nghttp2_window_update) : steady n m ss -> cost <= n -> 0 <= wu_increment f <= INT32_MAX ->
  sp (on_window_update f) ss (handled (n - cost) (m - 2) ss).
Proof using All.
  intros HT Hn Hinc. pose proof (cost_enough _ Hn) as (Hc & ? & ? & H1). unfold nghttp2_session_on_window_update_received. case_match.
  - unfold session_on_connection_window_update_received. cbv zeta. do 2 sp_step. destruct (wu_increment f =? 0); [by apply ends_connection|].
    sp_step. eapply sp_defined; [by apply increment_limit|]. destruct (Z.ltb_spec (NGHTTP2_MAX_WINDOW_SIZE - wu_increment f) (remote_window_size ss)) as [_|Hle]; [by apply ends_connection|].
    destruct (opened_more (se_flow ss) (wu_increment f)) as [E HF]; [apply HT|done|done|]. sp_step. eapply sp_defined; [exact E|]. do 2 sp_step.
    apply (ends_received n m m); [by apply window_steady|done|lia|done].
  - unfold session_on_stream_window_update_received. cbv zeta. do 2 sp_step. destruct (session_detect_idle_stream ss _); [by apply ends_connection|].
    sp_step. eapply sp_live; [exact HT|sp_step; apply stays; [known|done]|]. intros a s _ Ha Hs _ _ _. sp_step. eapply sp_load; [exact Hs|].
    destruct (state_reserved_remote ss s); [by apply ends_connection|]. destruct (wu_increment f =? 0); [by apply ends_connection|].
    sp_step. eapply sp_defined; [by apply increment_limit|]. pose proof (proj2 (st_flows _ _ _ HT) a s Hs) as HF0.
    destruct (Z.ltb_spec (NGHTTP2_MAX_WINDOW_SIZE - wu_increment f) (remote_window_size s)) as [_|Hle].
    { apply ends_less. by apply sp_invalid_stream. }
    destruct (opened_more (st_flow s) (wu_increment f)) as [E HF]; [done|done|done|]. sp_step. eapply sp_defined; [exact E|]. sp_step. eapply sp_modify; [exact Hs|].
    set (s1 := upd_flow _ s). set (ss1 := streams_to _ ss). assert (steady n m ss1) as HT1 by (eapply touched_steady; [exact HT|exact Hs|apply gently_flow|done|exact HF]).
    assert (se_streams ss1 !! a = Some s1) as Hs1 by (unfold ss1; by rewrite se_streams_to, lookup_insert_eq). sp_step. eapply sp_load; [exact Hs1|].
    apply (sp_handled_from ss1); [done|]. eapply (sp_then_fatal _ _ n m).
    + destruct (_ && _) eqn:E1; [|sp_step; by apply handled_here; [known|..]]. apply andb_prop in E1 as [_ Hdef].
      unfold nghttp2_stream_check_deferred_by_flow_control in Hdef. apply andb_prop in Hdef as [Hit%bool_decide_eq_true _].
      eapply sp_mono; [apply (sp_resume_steady realloc_ok n m ss1 a s1); [done|done|done|by left]|].
      intros rv ss2 [-> |(-> & HT2 & EC2 & _)]; [by apply handled_fatal; [known|]|by apply handled_here; [known|..]].
    + intros rv ss2 HT2 EC2 _. apply (ends_received n m m); [done|done|lia|done].
Qed.

(** ** DATA *)

Abbreviation fail_fast := (session_on_data_received_fail_fast realloc_ok malloc_ok new_stream new_item).
Abbreviation process_data := (session_process_data_frame realloc_ok malloc_ok new_stream new_item on_frame_recv_callback on_stream_close_callback).

Lemma sp_fail_fast n m ss id : steady n m ss -> cost <= n -> sp (fail_fast id) ss (handled (n - cost) (m - 2) ss).
Proof using All.
  intros HT Hn. pose proof (cost_enough _ Hn) as (Hc & ? & ? & H1). unfold session_on_data_received_fail_fast. cbv zeta.
  assert (forall reason err, zlen reason + 8 <= NGHTTP2_MAX_PAYLOADLEN ->
    sp (let! rv := nghttp2_session_terminate_session_with_reason realloc_ok malloc_ok new_stream new_item err (Some reason) in
      if nghttp2_is_fatal rv then mret rv else mret NGHTTP2_ERR_IGN_PAYLOAD) ss (handled (n - cost) (m - 2) ss)) as Hfail.
  { intros reason err Hr. apply ends_less. eapply (sp_then_fatal _ _ (n - 1) m); [by apply sp_terminated|]. intros rv ss1 HT1 EC1 _. sp_step.
    apply handled_here; [known| |done]. eapply steady_less; [exact HT1|lia|done]. }
  assert (forall rv, documented rv -> sp (mret rv) ss (handled (n - cost) (m - 2) ss)) as Hret by (intros rv Hrv; sp_step; by apply stays).
  do 2 sp_step. destruct (id =? 0); [by apply Hfail|]. destruct (session_detect_idle_stream ss id); [by apply Hfail|]. sp_step. eapply sp_live; [exact HT| |].
  - sp_step. eapply sp_raw; [exact HT|intros _; do 2 sp_step; apply Hret; known|]. intros a s _ _ Hs _. do 2 sp_step. eapply sp_load; [exact Hs|]. sp_step.
    destruct (negb _); [by apply Hfail|apply Hret; known].
  - intros a s _ _ Hs _ _ _. sp_step. eapply sp_load; [exact Hs|]. repeat case_match; first [by apply Hfail|apply Hret; known].
Qed.

Lemma sp_close_if n m ss a : steady n m ss -> c <= n -> is_Some (se_streams ss !! a) ->
  sp (nghttp2_session_close_stream_if_shut_rdwr realloc_ok on_stream_close_callback a) ss (fun rv ss1 => (nghttp2_is_fatal rv = true -> documented rv) /\
    (nghttp2_is_fatal rv = false -> steady (n - c) m ss1 /\ se_conf ss1 = se_conf ss)).
Proof using All.
  intros HT Hn [s Hs]. unfold nghttp2_session_close_stream_if_shut_rdwr. sp_step. eapply sp_load; [exact Hs|]. case_match.
  - eapply sp_mono; [apply (sp_close_steady realloc_ok on_stream_close_callback c (cs_pos _ _ _ _ _ Happ) (cs_close _ _ _ _ _ Happ) n m); done|].
    intros rv ss2 [Hrv HC]. split; [intros Hf|intros Hf; by destruct (HC Hf) as (? & ? & _)].
    repeat (apply elem_of_cons in Hrv as [-> |Hrv]; [first [done|known]|]). by apply elem_of_nil in Hrv.
  - sp_step. split; [done|]. intros _. split; [by apply uncalled|done].
Qed.

Lemma sp_data n m ss (f : nghttp2_data) : steady n m ss -> cost <= n -> sp (process_data f) ss (handled (n - cost) (m - 2) ss).
Proof using All.
  intros HT Hn. pose proof (cost_enough _ Hn) as (Hc & ? & ? & H1).
  assert (cost = 2 * c + 1) as Ecost by done.
  unfold session_process_data_frame. sp_step. apply (sp_mono _ _ (handled (n - cost) m ss)).
  2: { intros rv ss' [R1 R2 R3]. sp_step. unfold fatal_only. destruct (nghttp2_is_fatal rv) eqn:Ef; [by apply handled_fatal|].
    apply handled_here; [known| |by apply R3]. eapply steady_less; [by apply R2|done|lia]. }
  assert (forall ss1, steady n m ss1 -> se_conf ss1 = se_conf ss -> sp (mret 0) ss1 (handled (n - cost) m ss)) as Hzero.
  { intros ss1 HT1 EC1. sp_step. apply handled_here; [known| |done]. eapply steady_less; [exact HT1|lia|done]. }
  unfold nghttp2_session_on_data_received. cbv zeta. sp_step. eapply sp_live; [exact HT|by apply Hzero|].
  intros a s _ Ha Hs _ _ _. do 2 sp_step. sp_step. eapply sp_load; [exact Hs|]. case_bool_decide; [by apply Hzero|].
  assert (forall n1 ss1, steady n1 m ss1 -> n - (c + 1) <= n1 -> se_conf ss1 = se_conf ss -> calm ss ss1 ->
    sp (on_streams (nghttp2_stream_shutdown a NGHTTP2_SHUT_RD)) ss1 (fun _ ss2 => steady n1 m ss2 /\ se_conf ss2 = se_conf ss /\ is_Some (se_streams ss2 !! a))) as Hshut.
  { intros n1 ss1 HT1 Hn1 EC1 HC1. destruct (cm_streams _ _ HC1 a s Hs) as (s1 & Hs1 & _). eapply sp_shutdown_steady; [exact HT1|exact Hs1|].
    intros ss2 HT2 EC2 _ Hin. split; [done|]. split; [congruence|done]. }
  destruct (_ && _ && _).
  - sp_step. eapply sp_mono; [by apply (sp_rst_quiet _ _ _ _ Hitem n); [apply HT|]|]. intros rv ss1 HQ. pose proof (quiet_handled _ _ _ _ _ _ _ HT HQ nomem_documented) as [R1 R2 R3].
    destruct (nghttp2_is_fatal rv) eqn:Ef; [sp_step; by apply handled_fatal|]. sp_step. destruct HQ as (_ & _ & HC).
    eapply sp_mono; [apply (Hshut (n - 1) ss1); [by apply R2|lia|apply HC|done]|]. intros [] ss2 (HT2 & EC2 & _). sp_step. apply handled_here; [known| |done].
    eapply steady_less; [exact HT2|lia|done].
  - sp_step. eapply sp_mono; [by apply (sp_frame_calm n m)|]. intros rv ss1 ([R1 R2 R3] & HC & _). destruct (nghttp2_is_fatal rv) eqn:Ef; [sp_step; by apply handled_fatal|].
    specialize (R2 eq_refl). specialize (R3 eq_refl). destruct (negb _).
    + sp_step. eapply sp_mono; [apply (Hshut (n - c) ss1); [done|lia|done|done]|]. intros [] ss2 (HT2 & EC2 & Hin). sp_step.
      eapply sp_mono; [apply (sp_close_if (n - c) m); [done|lia|done]|]. intros rv2 ss3 [Hd HC3]. destruct (nghttp2_is_fatal rv2) eqn:Ef2; [sp_step; by apply handled_fatal; [apply Hd|]|].
      sp_step. destruct (HC3 eq_refl) as [HT3 EC3]. apply handled_here; [known| |congruence]. eapply steady_less; [exact HT3|lia|done].
    + sp_step. apply handled_here; [known| |done]. eapply steady_less; [exact R2|lia|done].
Qed.

(** ** GOAWAY *)

Context (map_each : gmap Z Z -> list Z).

Abbreviation on_goaway := (nghttp2_session_on_goaway_received realloc_ok malloc_ok new_stream new_item on_frame_recv_callback on_invalid_frame_recv_callback on_stream_close_callback map_each).

(** Streams in memory, apart from the root. *)
Definition known_streams ss (l : list Z) : Prop := NoDup l /\ forall b, b ∈ l -> b <> root /\ is_Some (se_streams ss !! b).

Lemma known_length ss l : known_streams ss l -> (length l <= size (se_streams ss))%nat.
Proof using.
  intros [Hnd Hin]. rewrite <- (size_dom (D := gset Z)), <- (size_list_to_set (C := gset Z)) by done. apply subseteq_size.
  intros b Hb%elem_of_list_to_set. apply elem_of_dom, Hin, Hb.
Qed.

Lemma table_known n m ss l : steady n m ss -> l ≡ₚ (map_to_list (stream_map ss)).*2 -> known_streams ss l.
Proof using.
  intros HT HL. destruct (steady_sess _ _ _ HT) as (kids & lc & li & HO).
  assert (forall b, b ∈ l -> exists id, stream_map ss !! id = Some b) as Hin.
  { intros b. rewrite HL. intros ([id b'] & -> & Hb%elem_of_map_to_list)%list_elem_of_fmap. by exists id. }
  split.
  - rewrite HL. apply NoDup_fmap_2_strong; [|apply NoDup_map_to_list]. intros [i x] [j y] Hi%elem_of_map_to_list Hj%elem_of_map_to_list E. simpl in E. subst y.
    destruct (mapped_stream _ _ _ _ _ _ (so_books _ _ _ _ _ _ HO) Hi) as (_ & s & Hs & <-). destruct (mapped_stream _ _ _ _ _ _ (so_books _ _ _ _ _ _ HO) Hj) as (_ & s' & Hs' & <-). congruence.
  - intros b Hb. destruct (Hin b Hb) as [id Hid]. destruct (mapped_stream _ _ _ _ _ _ (so_books _ _ _ _ _ _ HO) Hid) as (Hr & s & Hs & _). eauto.
Qed.

(** A stream that is in use is in neither list. *)
Lemma in_use_alone n m ss a s : steady n m ss -> a <> root -> se_streams ss !! a = Some s -> is_idle s = false -> is_closed s = false -> closed_next s = None /\ closed_prev s = None.
Proof using.
  intros HT Ha Hs Hi Hcl. destruct (steady_sess _ _ _ HT) as (kids & lc & li & HO).
  destruct (id_unlisted _ _ _ (bk_rest _ _ _ _ (so_books _ _ _ _ _ _ HO)) a (card_of s)) as [E1 E2]; [by apply cards_lookup| |done].
  assert (forall r, has_role (server ss) ∅ (scards ss) a r -> r = role_of (server ss) (card_of s)) as Hrole.
  { intros r (_ & _ & d & Hd & <-). apply cards_lookup_inv in Hd as (s' & Hs' & <-). congruence. }
  intros [H|H]; apply Hrole in H; [|by apply (role_old (server ss)) in Hi]. revert H. unfold role_of. cbn [c_flags c_state c_id card_of].
  change (flag_set (sm_flags s) NGHTTP2_STREAM_FLAG_CLOSED) with (is_closed s). rewrite Hcl. by repeat case_match.
Qed.

Lemma found_in_use ss last incoming s : find_stream_on_goaway ss last incoming s = true -> is_idle s = false /\ is_closed s = false /\
  nghttp2_session_is_my_stream_id ss (stream_id s) = negb incoming /\ last < stream_id s.
Proof using.
  unfold find_stream_on_goaway. intros [[[Hm Hst]%andb_prop Hcl]%andb_prop Hlt]%andb_prop. unfold is_idle, is_closed, flag_set.
  split; [apply negb_true_iff in Hst; by rewrite Hst, andb_false_r|]. split; [by rewrite Hcl|]. split; [by apply eqb_prop|lia].
Qed.

Lemma sp_find_streams n m ss last incoming visited : forall found, steady n m ss -> known_streams ss (visited ++ found) ->
  sp (find_streams ss last incoming visited found) ss (fun r ss' => ss' = ss /\ known_streams ss r /\
    forall b, b ∈ r <-> b ∈ found \/ b ∈ visited /\ exists s, se_streams ss !! b = Some s /\ find_stream_on_goaway ss last incoming s = true).
Proof using All.
  induction visited as [|a visited IH]; intros found HT HK; cbn [find_streams].
  { sp_step. split; [done|]. split; [done|]. intros b. rewrite elem_of_nil. tauto. }
  destruct (proj2 HK a ltac:(by left)) as [Ha [s Hs]]. sp_step. eapply sp_load; [exact Hs|]. destruct (find_stream_on_goaway ss last incoming s) eqn:Ef.
  - destruct (found_in_use _ _ _ _ Ef) as (Hidle & Hclosed & _). destruct (in_use_alone _ _ _ _ _ HT Ha Hs Hidle Hclosed) as [E1 E2].
    sp_step. apply sp_assert; [by apply bool_decide_eq_true|]. sp_step. apply sp_assert; [by apply bool_decide_eq_true|].
    eapply sp_mono; [apply (IH (a :: found) HT)|].
    + destruct HK as [Hnd Hin]. simpl in Hnd. split; [by rewrite <- Permutation_middle|]. intros b Hb. apply Hin. simpl. rewrite Permutation_middle. exact Hb.
    + intros r ss' (-> & HKr & Hr). split; [done|]. split; [done|]. intros b. rewrite Hr, !elem_of_cons. split.
      * intros [[->|?]|[? ?]]; [right; split; [by left|by exists s]|by left|right; split; [by right|done]].
      * intros [?|[[->|?] ?]]; [by left; right|by left; left|by right].
  - destruct HK as [Hnd Hin]. simpl in Hnd. apply NoDup_cons in Hnd as [_ Hnd]. eapply sp_mono; [apply (IH found HT)|].
    + split; [done|]. intros b Hb. apply Hin. by right.
    + intros r ss' (-> & HKr & Hr). split; [done|]. split; [done|]. intros b. rewrite Hr, elem_of_cons. split; [intros [?|[? ?]]; [by left|right; split; [by right|done]]|].
      intros [?|[[->|?] (t & Ht & Et)]]; [by left|congruence|right; split; [done|by exists t]].
Qed.

(** The streams [ids] are closed, one after the other. *)
Lemma sp_close_streams found : forall ids n m ss, steady n m ss -> c * zlen found <= n -> Forall2 (fun a id => live_stream ss id = Some a) found ids -> NoDup ids ->
  sp (close_streams realloc_ok on_stream_close_callback found) ss (fun rv ss' => handled (n - c * zlen found) m ss rv ss' /\
    (nghttp2_is_fatal rv = false -> forall i, live_stream ss' i = if decide (i ∈ ids) then None else live_stream ss i)).
Proof using All.
  induction found as [|a found IH]; intros ids n m ss HT Hn Hl Hnd; cbn [close_streams].
  { apply Forall2_nil_inv_l in Hl as ->. sp_step. split; [|intros _ i; by rewrite decide_False by apply not_elem_of_nil]. apply handled_here; [known| |done].
    eapply steady_less; [exact HT|change (zlen ([] : list Z)) with 0; lia|done]. }
  apply Forall2_cons_inv_l in Hl as (id & ids' & Hid & Hl & ->). apply NoDup_cons in Hnd as [Hni Hnd].
  pose proof (cs_pos _ _ _ _ _ Happ) as Hc. assert (zlen (a :: found) = zlen found + 1) as El by (rewrite length_cons; lia). rewrite El in *.
  assert (0 <= zlen found) as Hpos by lia. destruct (steady_sess _ _ _ HT) as (kids & lc & li & HO).
  destruct (proj1 (live_iff _ _ _ _ _ _ HO) Hid) as (Hmap & s & Hs & _). sp_step. eapply sp_load; [exact Hs|]. rewrite (mapped_id _ _ _ _ _ _ _ HO Hmap Hs). sp_step.
  eapply sp_mono; [apply (sp_closes n m); [done|nia]|]. intros rv ss1 [Hd HC]. destruct (nghttp2_is_fatal rv) eqn:Ef.
  - sp_step. split; [by apply handled_fatal; [apply Hd|]|congruence].
  - destruct (HC eq_refl) as (HT1 & EC1 & _ & Hret). eapply sp_mono; [apply (IH ids' (n - c) m ss1 HT1); [lia| |done]|].
    + apply Forall2_same_length_lookup_2; [by eapply Forall2_length|]. intros k b j Hb Hj. rewrite Hret. rewrite decide_False.
      * by apply (Forall2_lookup_lr _ _ _ k b j Hl).
      * intros ->. apply Hni. by apply list_elem_of_lookup_2 in Hj.
    + intros rv2 ss2 [HH Hi]. split; [eapply handled_less; [by eapply handled_from|lia|done]|]. intros Hf i. rewrite (Hi Hf), Hret.
      destruct (decide (i = id)) as [->|Hne]; [by rewrite (decide_True (P := id ∈ id :: ids')) by left; case_decide|].
      destruct (decide (i ∈ ids')); [by rewrite decide_True by (by right)|]. rewrite decide_False; [done|]. by intros [?|?]%elem_of_cons.
Qed.

(** The frames that may be queued when all streams are closed. *)
Definition goaway_cost ss : Z := c * (1 + Z.of_nat (size (se_streams ss))) + 1.

Definition valid_goaway ss (f : nghttp2_goaway) : bool :=
  (hd_stream_id (ga_hd f) =? 0) && ((ga_last_stream_id f <=? 0) || nghttp2_session_is_my_stream_id ss (ga_last_stream_id f)) &&
  (ga_last_stream_id f <=? remote_last_stream_id ss).

(** What a GOAWAY frame leaves in use. *)
Definition survivors ss last ss' : Prop := forall i, live_stream ss' i = if nghttp2_session_is_my_stream_id ss i && (last <? i) then None else live_stream ss i.

Lemma sp_close_on_goaway n m ss last : (forall M, map_each M ≡ₚ (map_to_list M).*2) -> steady n m ss -> c * Z.of_nat (size (se_streams ss)) <= n ->
  sp (session_close_stream_on_goaway realloc_ok on_stream_close_callback map_each last false) ss (fun rv ss' =>
    handled (n - c * Z.of_nat (size (se_streams ss))) m ss rv ss' /\ (nghttp2_is_fatal rv = false -> survivors ss last ss')).
Proof using All.
  intros Heach HT Hn. pose proof (cs_pos _ _ _ _ _ Happ) as Hc. unfold session_close_stream_on_goaway. do 2 sp_step. sp_step.
  pose proof (table_known _ _ _ _ HT (Heach (stream_map ss))) as HK. eapply sp_mono; [eapply (sp_find_streams n m); [exact HT|by rewrite app_nil_r]|].
  intros r ss1 (-> & HKr & Hr). pose proof (known_length _ _ HKr) as Hlen. destruct (steady_sess _ _ _ HT) as (kids & lc & li & HO).
  set (id_at := fun b => match (se_streams ss !! b : option nghttp2_stream) with Some s => stream_id s | None => 0 end).
  assert (forall b, b ∈ r -> exists s : nghttp2_stream, se_streams ss !! b = Some s /\ live_stream ss (stream_id s) = Some b /\ find_stream_on_goaway ss last false s = true) as Hfound.
  { intros b Hb. destruct (proj2 HKr b Hb) as [Hbr _]. apply Hr in Hb as [[]%elem_of_nil|(_ & s & Hs & Ef)]. exists s. split; [done|]. split; [|done].
    destruct (found_in_use _ _ _ _ Ef) as (Hi & Hcl & _). apply (live_iff _ _ _ _ _ _ HO). split; [by eapply id_mapped|]. exists s. split; [done|]. split; [done|by apply not_idle_state]. }
  assert (forall b (s : nghttp2_stream), se_streams ss !! b = Some s -> id_at b = stream_id s) as Hat by (intros b s Hs; unfold id_at; by rewrite Hs).
  eapply sp_mono; [apply (sp_close_streams r (id_at <$> r) n m); [exact HT|nia| |]|].
  - apply Forall2_fmap_r, Forall_Forall2_diag, Forall_forall. intros b Hb. destruct (Hfound b Hb) as (s & Hs & Hl & _). rewrite <- (Hat b s Hs) in Hl. exact Hl.
  - apply NoDup_fmap_2_strong; [|apply HKr]. intros x y Hx Hy E. destruct (Hfound x Hx) as (s & Hs & Hl & _), (Hfound y Hy) as (t & Ht & Hl' & _).
    rewrite (Hat _ _ Hs), (Hat _ _ Ht) in E. congruence.
  - intros rv ss' [HH Hi]. split; [eapply handled_less; [exact HH|nia|done]|]. intros Hf i. rewrite (Hi Hf). case_decide as Hin.
    + apply list_elem_of_fmap in Hin as (b & -> & Hb). destruct (Hfound b Hb) as (s & Hs & _ & Ef). rewrite (Hat b s Hs). destruct (found_in_use _ _ _ _ Ef) as (_ & _ & -> & Hlt).
      by rewrite (proj2 (Z.ltb_lt _ _) Hlt).
    + destruct (nghttp2_session_is_my_stream_id ss i && (last <? i)) eqn:Em; [|done]. destruct (live_stream ss i) as [a|] eqn:Ea; [|done]. exfalso. apply Hin.
      apply andb_prop in Em as [Hm Hlt]. destruct (proj1 (live_iff _ _ _ _ _ _ HO) Ea) as (Hmap & s & Hs & Hcl & Hst). pose proof (mapped_id _ _ _ _ _ _ _ HO Hmap Hs) as Hid.
      apply list_elem_of_fmap. exists a. split; [by rewrite (Hat a s Hs)|]. apply Hr. right. split.
      * rewrite (Heach (stream_map ss)). apply list_elem_of_fmap. exists (i, a). split; [done|]. by apply elem_of_map_to_list.
      * exists s. split; [done|]. unfold find_stream_on_goaway. rewrite Hid, Hm, Hlt, bool_decide_false by done. unfold is_closed, flag_set in Hcl. apply negb_false_iff in Hcl. by rewrite Hcl.
Qed.

Lemma sp_goaway_exact n m ss (f : nghttp2_goaway) : (forall M, map_each M ≡ₚ (map_to_list M).*2) -> steady n m ss -> goaway_cost ss <= n -> valid_goaway ss f = true ->
  sp (on_goaway f) ss (fun rv ss' => handled (n - goaway_cost ss) m ss rv ss' /\ (nghttp2_is_fatal rv = false -> survivors ss (ga_last_stream_id f) ss')).
Proof using All.
  intros Heach HT Hn Hv. pose proof (cs_pos _ _ _ _ _ Happ) as Hc. unfold goaway_cost in *. set (k := Z.of_nat (size (se_streams ss))) in *.
  unfold valid_goaway in Hv. apply andb_prop in Hv as [[Hz Hm]%andb_prop Hr]. unfold nghttp2_session_on_goaway_received. cbv zeta. do 2 sp_step. rewrite Hz. simpl negb. cbn iota.
  assert (((0 <? ga_last_stream_id f) && negb (nghttp2_session_is_my_stream_id ss (ga_last_stream_id f)) || (remote_last_stream_id ss <? ga_last_stream_id f)) = false) as ->.
  { apply orb_false_iff. split; [|lia]. apply orb_prop in Hm as [Hm | ->]; [|by rewrite andb_false_r]. by rewrite (proj2 (Z.ltb_ge _ _)) by lia. }
  do 2 sp_step. sp_step. sp_step. assert (0 <= c * k) as Hck by nia.
  set (ss1 := upd_ids _ _). assert (steady n m ss1) as HT1 by (apply going_steady; [done|]; by apply going_steady). sp_step.
  eapply sp_mono; [apply (sp_frame_calm n m ss1); [done|lia]|]. intros rv ss2 ([R1 R2 R3] & HC & _).
  destruct (nghttp2_is_fatal rv) eqn:Ef; [sp_step; split; [by apply handled_fatal|congruence]|]. specialize (R2 eq_refl). specialize (R3 eq_refl).
  assert (Z.of_nat (size (se_streams ss2)) = k) as Ek by (rewrite (calm_size _ _ HC); done).
  eapply sp_mono; [apply (sp_close_on_goaway (n - c) m ss2 (ga_last_stream_id f) Heach R2); lia|]. intros rv2 ss3 [HH Hsv]. rewrite Ek in HH. split.
  - eapply handled_less; [eapply handled_from; [|exact HH]; exact R3|lia|done].
  - intros Hf i. rewrite (Hsv Hf i), (calm_live _ _ i HC). unfold nghttp2_session_is_my_stream_id. by rewrite R3.
Qed.

Lemma sp_goaway n m ss (f : nghttp2_goaway) : (forall M, map_each M ≡ₚ (map_to_list M).*2) -> steady n m ss -> goaway_cost ss <= n ->
  sp (on_goaway f) ss (handled (n - goaway_cost ss) m ss).
Proof using All.
  intros Heach HT Hn. destruct (valid_goaway ss f) eqn:Hv; [eapply sp_mono; [by apply (sp_goaway_exact n m)|]; by intros rv ss' [? _]|].
  pose proof (cs_pos _ _ _ _ _ Happ) as Hc. unfold goaway_cost in *. assert (0 <= c * Z.of_nat (size (se_streams ss))) as Hck by nia.
  assert (forall frame err reason, zlen (default [] reason) + 8 <= NGHTTP2_MAX_PAYLOADLEN ->
    sp (invalid_connection frame err reason) ss (handled (n - (c * (1 + Z.of_nat (size (se_streams ss))) + 1)) m ss)) as Hbad.
  { intros frame err reason Hr. eapply sp_handled_less; [apply sp_invalid_connection; [exact HT|lia|exact Hr]|lia|done]. }
  unfold nghttp2_session_on_goaway_received. cbv zeta. do 2 sp_step. unfold valid_goaway in Hv. destruct (hd_stream_id (ga_hd f) =? 0); [|by apply Hbad]. simpl in Hv |- *.
  assert (((0 <? ga_last_stream_id f) && negb (nghttp2_session_is_my_stream_id ss (ga_last_stream_id f)) || (remote_last_stream_id ss <? ga_last_stream_id f)) = true) as ->; [|by apply Hbad].
  apply andb_false_iff in Hv as [[Hv1 Hv2]%orb_false_iff|Hv]; apply orb_true_iff; [left; rewrite Hv2|right; lia]. rewrite andb_true_r. lia.
Qed.

End Handlers.
