(* ===== verification/SessionSettingsSpec.v ===== *)
(** * Sessions: SETTINGS do what they say

    Submitted settings wait in a queue of their own and come into force in
    the order in which the peer acknowledges them; the settings of the peer
    are stored and move the windows of all streams; nothing of this puts the
    session out of order. *)

From stdpp Require Import strings.
From S2P Require Import Prelude Defs Helper HdToken HdTable HdDeflate HdInflate HdRoundtrip Ratelim Pq Frame FrameHeaders Http Stream StreamLinks StreamQueue StreamTree StreamItems StreamFrame.
From S2P Require Import Outbound Session SessionInv SessionTree SessionBooks SessionForest SessionOpen SessionClose SessionItems SessionReach SessionTouch SessionSend SessionQueues SessionAdd SessionSendSpec SessionCalm SessionFlow SessionFlowSpec SessionCredit SessionDrift SessionAge SessionRecv SessionSettings SessionEntries SessionHpack SessionSteady SessionHandle.

Implicit Types (a b id n : Z) (m : nat) (s : nghttp2_stream) (ss : nghttp2_session) (lc li : list Z) (kids : gmap Z (list Z)) (frame : nghttp2_frame).
Implicit Types (iv : list nghttp2_settings_entry).

(** ** Settings of a session in order *)

Lemma conf_sound n g ss : sound n ss -> server (g (se_conf ss)) = server ss -> (rfc7540 ss -> rfc7540 (upd_conf g ss)) -> sound n (upd_conf g ss).
Proof.
  intros [(kids & lc & li & HO) (L & HQ & HY) HR HZ] Hsv Hm. split; [exists kids, lc, li; by eapply aside_sess; [|exact HO]| |done|done].
  exists L. split; [done|]. apply (syn_ok_ext ss); [done|done|eauto].
Qed.

Lemma conf_steady n m g ss : steady n m ss -> server (g (se_conf ss)) = server ss -> rfc7540 (upd_conf g ss) -> flow_ok (opened_flow (upd_conf g ss)) -> steady n m (upd_conf g ss).
Proof.
  intros HT Hsv Hm Ho. pose proof (conf_sound n g ss (st_sound _ _ _ HT) Hsv (fun _ => Hm)) as HS. destruct HT as [_ H2 H3 H4 H5 H6 H7 H8 H9].
  assert (server (upd_conf g ss) = server ss) as E by exact Hsv.
  split; try done; rewrite ?E; try done. intros b s (Hr & Hs & Hi & Hmine). rewrite E in Hmine. by apply (H8 b).
Qed.

Lemma to_int32_range n : is_i32 (to_int32 n).
Proof. unfold to_int32. pose proof (u32_range n). case_match; unfold is_u32, is_i32, INT32_MIN, INT32_MAX in *; lia. Qed.

(** Of the settings only the local initial window can make new streams wrong. *)
Lemma opened_flow_ok ss : 0 <= to_int32 (initial_window_size (local_settings ss)) -> flow_ok (opened_flow ss).
Proof.
  intros H. pose proof (to_int32_range (initial_window_size (local_settings ss))) as H1. pose proof (to_int32_range (initial_window_size (remote_settings ss))) as H2.
  unfold opened_flow. split; simpl; flow_lia.
Qed.

Lemma remote_steady n m g ss : steady n m ss -> server (g (se_conf ss)) = server ss -> pending_no_rfc7540_priorities (g (se_conf ss)) = pending_no_rfc7540_priorities ss ->
  local_settings (g (se_conf ss)) = local_settings ss -> steady n m (upd_conf g ss).
Proof.
  intros HT Hsv Hp Hl. apply conf_steady; [exact HT|exact Hsv| |].
  - unfold rfc7540. change (pending_no_rfc7540_priorities (g (se_conf ss)) <> 1). rewrite Hp. exact (st_mode _ _ _ HT).
  - apply opened_flow_ok. change (0 <= to_int32 (initial_window_size (local_settings (g (se_conf ss))))). rewrite Hl. exact (fk_local _ (st_opened _ _ _ HT)).
Qed.

(** ** Submitting settings *)

Section Submitting.
Context (realloc_ok malloc_ok : nat -> bool) (new_stream : gmap Z nghttp2_stream -> Z) (new_item : gmap Z nghttp2_outbound_item -> Z).
Context (Hitem : forall its, its !! new_item its = None).

Definition settings_frame (flags : Z) iv : nghttp2_frame := FrControl (FrSettings (nghttp2_frame_settings_init flags iv)).

(** A session after [k] requests for memory. *)
Definition granted_by k ss : nghttp2_session := Nat.iter k granted ss.

Lemma granted_by_S k ss : granted (granted_by k ss) = granted_by (S k) ss.
Proof using. done. Qed.

(** What is noted about settings that are on their way. *)
Definition submitted (flags : Z) iv pri ss : nghttp2_session :=
  let ss1 := if flag_set flags NGHTTP2_FLAG_ACK then counted_ack flags ss else upd_conf (inflight_settings_to (inflight_settings ss ++ [iv])) ss in
  upd_conf (pending_to
    (default (pending_local_max_concurrent_stream ss) (last_entry NGHTTP2_SETTINGS_MAX_CONCURRENT_STREAMS iv))
    (default (pending_enable_push ss) (u8 <$> last_entry NGHTTP2_SETTINGS_ENABLE_PUSH iv))
    (default (pending_enable_connect_protocol ss) (u8 <$> last_entry NGHTTP2_SETTINGS_ENABLE_CONNECT_PROTOCOL iv))
    (if pri =? UINT8_MAX then 0 else pri)) ss1.

(** Why submitting settings is refused. *)
Definition settings_refused (flags : Z) iv ss : option Z :=
  let ack := flag_set flags NGHTTP2_FLAG_ACK in
  if ack && negb (zlen iv =? 0) then Some NGHTTP2_ERR_INVALID_ARGUMENT
  else if ack && (max_outbound_ack ss <=? obq_flood_counter_ ss) then Some NGHTTP2_ERR_FLOODED
  else if negb (nghttp2_iv_check iv) then Some NGHTTP2_ERR_INVALID_ARGUMENT
  else match agreed_pri (pending_no_rfc7540_priorities ss) iv with None => Some NGHTTP2_ERR_INVALID_ARGUMENT | Some _ => None end.

Definition settings_result kids lc li L (flags : Z) iv ss (rv : Z) ss' : Prop :=
  match settings_refused flags iv ss with
  | Some err => rv = err /\ ss' = ss
  | None =>
      rv = NGHTTP2_ERR_NOMEM /\ (exists k, ss' = granted_by (S k) ss /\ malloc_ok (grants ss + k)%nat = false) \/
      rv = 0 /\ exists pri k ss1, agreed_pri (pending_no_rfc7540_priorities ss) iv = Some pri /\ sess_ok ∅ ∅ ss1 kids lc li /\
        placed (granted_by k ss) (granted_by k ss) L (settings_frame flags iv) aux_zero ss1 /\ ss' = submitted flags iv pri ss1
  end.

Lemma granted_by_notes k ss : only_notes ss (granted_by k ss).
Proof using. clear realloc_ok malloc_ok new_stream new_item Hitem. induction k as [|k IH]; [done|]. by destruct IH as (H1 & H2 & H3 & H4 & H5 & H6 & H7 & H8). Qed.

Lemma granted_by_grants k ss : grants (granted_by k ss) = (grants ss + k)%nat.
Proof using. clear realloc_ok malloc_ok new_stream new_item Hitem. induction k as [|k IH]; simpl; lia. Qed.

(** A request for memory, or none. *)
Lemma sp_maybe_grant (b : bool) k ss (Q : bool -> nghttp2_session -> Prop) : (forall k', Q true (granted_by k' ss)) ->
  (malloc_ok (grants ss + k)%nat = false -> Q false (granted_by (S k) ss)) -> sp (if b then mem_malloc malloc_ok else mret true) (granted_by k ss) Q.
Proof using.
  intros H1 H2. destruct b; [|sp_step; apply H1]. apply sp_grant. rewrite granted_by_grants, granted_by_S.
  destruct (malloc_ok _) eqn:E; [apply H1|by apply H2].
Qed.

Lemma sp_inflight_new iv k ss (Q : Z -> nghttp2_session -> Prop) : (forall k', Q 0 (granted_by k' ss)) ->
  (forall k', malloc_ok (grants ss + k')%nat = false -> Q NGHTTP2_ERR_NOMEM (granted_by (S k') ss)) -> sp (inflight_settings_new malloc_ok iv) (granted_by k ss) Q.
Proof using.
  intros H1 H2. unfold inflight_settings_new. sp_step. apply (sp_maybe_grant true); [|intros E; simpl; sp_step; by apply H2].
  intros k1. simpl. sp_step. apply sp_maybe_grant; [intros k2; simpl; sp_step; apply H1|intros E; simpl; sp_step; by apply H2].
Qed.

Lemma sp_add_settings ss kids lc li L flags iv : sess_ok ∅ ∅ ss kids lc li -> ob_ok ss L -> Z.of_nat (size (ob_items ss)) + 1 < 2 ^ 64 ->
  sp (nghttp2_session_add_settings realloc_ok malloc_ok new_stream new_item flags iv) ss (settings_result kids lc li L flags iv ss).
Proof using Hitem.
  intros HO HQ Hsz. unfold nghttp2_session_add_settings, settings_result, settings_refused. do 2 sp_step. cbv zeta.
  destruct (_ && negb (zlen iv =? 0)); [by sp_step|]. destruct (_ && (max_outbound_ack ss <=? _)); [by sp_step|]. destruct (negb (nghttp2_iv_check iv)); [by sp_step|].
  destruct (agreed_pri _ iv) as [pri|] eqn:Epri; [|by sp_step].
  set (post := fun rv ss' => _). assert (forall k, malloc_ok (grants ss + k)%nat = false -> post NGHTTP2_ERR_NOMEM (granted_by (S k) ss)) as Hnomem.
  { intros k E. left. split; [done|]. by exists k. }
  sp_step. apply (sp_maybe_grant true 0 ss); [|intros E; cbn [negb]; sp_step; exact (Hnomem _ E)]. intros k0. cbn [negb]. sp_step.
  apply sp_maybe_grant; [|intros E; cbn [negb]; sp_step; exact (Hnomem _ E)]. intros k1. cbn [negb]. sp_step.
  apply (sp_mono _ _ (fun rv ss' => rv = 0 /\ (exists k, ss' = granted_by k ss) \/ rv = NGHTTP2_ERR_NOMEM /\ exists k, malloc_ok (grants ss + k)%nat = false /\ ss' = granted_by (S k) ss)).
  { destruct (flag_set flags NGHTTP2_FLAG_ACK); [sp_step; left; eauto|]. apply sp_inflight_new; [left; eauto|right; eauto]. }
  intros rv ss' [(-> & k & ->)|(-> & k & E & ->)].
  2: { change (NGHTTP2_ERR_NOMEM =? 0) with false. cbn [negb]. sp_step. apply sp_assert; [done|]. sp_step. exact (Hnomem _ E). }
  change (0 =? 0) with true. cbn [negb]. pose proof (granted_by_notes k ss) as HN. pose proof (notes_aside _ _ HN) as HA. destruct HN as (_ & _ & _ & _ & _ & _ & EO & _). sp_step.
  eapply sp_mono; [apply (sp_put_frame realloc_ok malloc_ok new_stream new_item Hitem ∅ ∅ (granted_by k ss) kids lc li L); [by eapply aside_sess|by rewrite EO|by rewrite EO|done]|].
  intros rv ss1 (-> & HO1 & HP). simpl. sp_step. apply (sp_mono _ _ (fun _ ss2 => ss2 = if flag_set flags NGHTTP2_FLAG_ACK then counted_ack flags ss1
    else upd_conf (inflight_settings_to (inflight_settings ss1 ++ [iv])) ss1)).
  { destruct (flag_set flags NGHTTP2_FLAG_ACK) eqn:Ef; [|unfold session_append_inflight_settings; by sp_step].
    unfold count_ack, counted_ack. rewrite Ef. unfold flag_set in Ef. rewrite Ef. by sp_step. }
  intros [] ss2 ->. sp_step. unfold take_pending. sp_step. sp_step. right. split; [done|]. exists pri, k, ss1. split; [done|]. split; [done|]. split; [done|].
  unfold submitted, counted_ack. by destruct (flag_set flags NGHTTP2_FLAG_ACK).
Qed.

(** What was decided earlier about the priorities of RFC 7540, if it was, and
    what the entries say about them. *)
Definition wishes (earlier : Z) iv : list Z := (if earlier =? UINT8_MAX then [] else [earlier]) ++ entries_for NGHTTP2_SETTINGS_NO_RFC7540_PRIORITIES iv.

Definition unanimous (vs : list Z) : bool := match vs with [] => true | v :: vs => forallb (Z.eqb v) vs end.

#[global] Instance iv_acceptable_dec e : Decision (iv_acceptable e).
Proof. unfold iv_acceptable. apply _. Defined.

(** The same in other words: an acknowledgement has no entries, and does not
    come when too many wait to be sent; values are in range; and there is one
    opinion about priorities. *)
Definition refusal (flags : Z) iv ss : option Z :=
  let ack := flag_set flags NGHTTP2_FLAG_ACK in
  if ack && bool_decide (iv <> []) then Some NGHTTP2_ERR_INVALID_ARGUMENT
  else if ack && (max_outbound_ack ss <=? obq_flood_counter_ ss) then Some NGHTTP2_ERR_FLOODED
  else if bool_decide (Forall iv_acceptable iv) && unanimous (wishes (pending_no_rfc7540_priorities ss) iv) then None
  else Some NGHTTP2_ERR_INVALID_ARGUMENT.

Lemma acceptable_flag e : iv_acceptable e -> settings_id e = NGHTTP2_SETTINGS_NO_RFC7540_PRIORITIES -> iv_value e = 0 \/ iv_value e = 1.
Proof using. intros [H _] E. apply H. by right; right. Qed.

Lemma agreed_wishes iv : Forall iv_acceptable iv -> forall p, agreed_pri p iv = if unanimous (wishes p iv) then Some (default UINT8_MAX (head (wishes p iv))) else None.
Proof using.
  induction 1 as [|e iv He _ IH]; intros p; unfold wishes in *; cbn [agreed_pri].
  - rewrite app_nil_r. by destruct (Z.eqb_spec p UINT8_MAX) as [->|].
  - rewrite (entries_cons _ e iv), entries_one. destruct (Z.eqb_spec (settings_id e) NGHTTP2_SETTINGS_NO_RFC7540_PRIORITIES) as [E|E]; cbn [negb].
    2: { rewrite decide_False by done. by rewrite IH. }
    rewrite decide_True by done. pose proof (acceptable_flag e He E) as Hv. destruct (p =? UINT8_MAX) eqn:Ep.
    + rewrite IH. assert (u8 (iv_value e) = iv_value e /\ iv_value e =? UINT8_MAX = false) as [-> ->] by (by destruct Hv as [-> | ->]). done.
    + destruct (Z.eqb_spec (iv_value e) p) as [Ev|Ev]; cbn [negb].
      * rewrite IH, Ep, Ev. simpl. by rewrite Z.eqb_refl.
      * simpl. by rewrite (proj2 (Z.eqb_neq _ _)) by congruence.
Qed.

Lemma wishes_decide iv p pri : Forall iv_acceptable iv -> agreed_pri p iv = Some pri -> (if pri =? UINT8_MAX then 0 else pri) = default 0 (head (wishes p iv)).
Proof using.
  intros Hiv. rewrite agreed_wishes by done. destruct (unanimous _); [|done]. intros [= <-]. destruct (head (wishes p iv)) as [h|] eqn:Eh; [|done]. cbn [default from_option]. unfold id.
  enough (h <> UINT8_MAX) as Hh by (by rewrite (proj2 (Z.eqb_neq _ _) Hh)). unfold wishes in Eh. destruct (Z.eqb_spec p UINT8_MAX) as [->|Hp]; [|by injection Eh as <-].
  apply head_Some_elem_of in Eh. unfold entries_for in Eh. apply list_elem_of_fmap in Eh as (e & -> & [E He]%list_elem_of_filter).
  destruct (acceptable_flag e (proj1 (Forall_forall _ _) Hiv e He) E) as [-> | ->]; done.
Qed.

Lemma refused_refusal flags iv ss : settings_refused flags iv ss = refusal flags iv ss.
Proof using.
  unfold settings_refused, refusal. assert (negb (zlen iv =? 0) = bool_decide (iv <> [])) as -> by (by destruct iv). destruct (_ && bool_decide _); [done|]. destruct (_ && _); [done|].
  destruct (nghttp2_iv_check iv) eqn:E; cbn [negb].
  - apply iv_check_spec in E. rewrite bool_decide_true by done. rewrite agreed_wishes by done. cbn [andb]. by destruct (unanimous _).
  - rewrite bool_decide_false; [done|]. intros H%iv_check_spec. congruence.
Qed.

(** Settings that were submitted: their frame is the last of the urgent ones,
    and they wait to be acknowledged, unless they acknowledge themselves. *)
Record settings_submitted (flags : Z) iv ss ss' : Prop := {
  su_queues : queues_ok ss';
  su_frame : queue_frames ss' ObUrgent = queue_frames ss ObUrgent ++ [settings_frame flags iv];
  su_others : forall k, k <> ObUrgent -> queue_frames ss' k = queue_frames ss k;
  su_inflight : inflight_settings ss' = inflight_settings ss ++ (if flag_set flags NGHTTP2_FLAG_ACK then [] else [iv]);
  su_acks : obq_flood_counter_ ss' = if flag_set flags NGHTTP2_FLAG_ACK then u64 (obq_flood_counter_ ss + 1) else obq_flood_counter_ ss;
  su_streams : pending_local_max_concurrent_stream ss' = default (pending_local_max_concurrent_stream ss) (last (entries_for NGHTTP2_SETTINGS_MAX_CONCURRENT_STREAMS iv));
  su_push : pending_enable_push ss' = default (pending_enable_push ss) (u8 <$> last (entries_for NGHTTP2_SETTINGS_ENABLE_PUSH iv));
  su_connect : pending_enable_connect_protocol ss' = default (pending_enable_connect_protocol ss) (u8 <$> last (entries_for NGHTTP2_SETTINGS_ENABLE_CONNECT_PROTOCOL iv));
  su_pri : pending_no_rfc7540_priorities ss' = default 0 (head (wishes (pending_no_rfc7540_priorities ss) iv));
  su_rest : se_world ss' = se_world ss /\ local_settings ss' = local_settings ss /\ remote_settings ss' = remote_settings ss;
}.

Lemma placed_frames ss L frame aux ss' : ob_ok ss L -> placed ss ss L frame aux ss' -> queues_ok ss' /\
  queue_frames ss' (queue_for ss frame) = queue_frames ss (queue_for ss frame) ++ [frame] /\ (forall k, k <> queue_for ss frame -> queue_frames ss' k = queue_frames ss k).
Proof using.
  intros HO [(it & ob' & -> & Hnew & HO' & Hit & Hoth & Ha)]. destruct (enqueued_frames ss L frame aux (upd_ob (fun _ => ob') (announced frame (granted ss))) HO) as [H1 H2 H3 _].
  - split. by exists it, ob'.
  - done.
Qed.

Lemma submitted_frames k L flags iv pri ss ss1 : ob_ok ss L -> placed (granted_by k ss) (granted_by k ss) L (settings_frame flags iv) aux_zero ss1 ->
  Forall iv_acceptable iv -> agreed_pri (pending_no_rfc7540_priorities ss) iv = Some pri -> settings_submitted flags iv ss (submitted flags iv pri ss1).
Proof using.
  intros HO HP Hiv Hpri. pose proof (wishes_decide _ _ _ Hiv Hpri) as Hw. pose proof (granted_by_notes k ss) as (E1 & _ & _ & _ & EC & _ & EO & _).
  assert (se_limits (granted_by k ss) = se_limits ss) as EL by (clear HP E1 EC EO; induction k; [done|by simpl]).
  destruct (placed_frames (granted_by k ss) L _ _ ss1 ltac:(by rewrite EO) HP) as (H1 & H2 & H3). cbn [queue_for settings_frame] in H2, H3. rewrite EO in H2. setoid_rewrite EO in H3.
  destruct HP as [(it & ob' & -> & _)]. cbn [announced settings_frame] in *. set (ss0 := granted_by k ss) in *.
  unfold submitted, counted_ack. destruct (flag_set flags NGHTTP2_FLAG_ACK) eqn:Ef; split; rewrite ?Ef; try done; simpl; rewrite ?EC, ?EL, ?app_nil_r, <- ?last_entry_last; done.
Qed.

End Submitting.

(** ** What frames that are queued, and callbacks, leave alone *)

(** Our own settings: those in force, and those on their way. *)
Definition own_settings ss : nghttp2_settings_storage * list (list nghttp2_settings_entry) := (local_settings ss, inflight_settings ss).

(** The settings and the windows of both sides. *)
Record untold ss ss' : Prop := {
  ut_server : server ss' = server ss;
  ut_own : own_settings ss' = own_settings ss;
  ut_remote : remote_settings ss' = remote_settings ss;
  ut_windows : forall a s, se_streams ss !! a = Some s -> exists s', se_streams ss' !! a = Some s' /\ remote_window_size s' = remote_window_size s;
}.

#[global] Instance untold_preorder : PreOrder untold.
Proof.
  split; [intros ss; split; try done; intros a s Ha; by exists s|]. intros x y z [A1 A2 A3 A4] [B1 B2 B3 B4]. split; try congruence.
  intros a s Ha. destruct (A4 a s Ha) as (t & Ht & Et). destruct (B4 a t Ht) as (u & Hu & Eu). exists u. split; [done|congruence].
Qed.

Lemma calm_untold ss ss' : calm ss ss' -> untold ss ss'.
Proof.
  intros HC. split; [unfold own_settings; by rewrite (cm_conf _ _ HC)..|]. intros a s Ha. destruct (cm_streams _ _ HC a s Ha) as (s' & Hs' & _ & _ & _ & HM & _).
  exists s'. split; [done|]. by destruct HM as [-> | ->].
Qed.

Lemma conf_untold g ss : server (g (se_conf ss)) = server ss -> own_settings (upd_conf g ss) = own_settings ss ->
  remote_settings (g (se_conf ss)) = remote_settings ss -> untold ss (upd_conf g ss).
Proof. intros H1 H2 H3. split; try done. intros a s Ha. by exists s. Qed.

Lemma few_streams n m ss : steady n m ss -> Z.of_nat (size (se_streams ss)) <= 2 ^ 23.
Proof. intros HT. pose proof (st_room _ _ _ HT) as HR. unfold room, INT32_MAX in HR. lia. Qed.

Section Arriving.
Context (realloc_ok malloc_ok : nat -> bool) (new_stream : gmap Z nghttp2_stream -> Z) (new_item : gmap Z nghttp2_outbound_item -> Z).
Context (on_frame_recv : option (nghttp2_frame -> se_m Z)) (on_invalid_frame : option (nghttp2_frame -> Z -> se_m Z)).
Context (on_begin_headers : option (nghttp2_frame -> se_m Z)) (on_stream_close : option (Z -> Z -> se_m Z)).
Context (Hfresh : forall h, h !! new_stream h = None) (Hitem : forall its, its !! new_item its = None).
Context (c : Z) (Happ : considerate c on_frame_recv on_invalid_frame on_begin_headers on_stream_close).

Abbreviation invalid_connection := (session_handle_invalid_connection realloc_ok malloc_ok new_stream new_item on_invalid_frame).
Abbreviation frame_received := (session_call_on_frame_received on_frame_recv).

(** The handler returned [rv]; a code that is not fatal means [P]. *)
Definition answered (P : nghttp2_session -> Prop) (rv : Z) ss' : Prop := documented rv /\ (nghttp2_is_fatal rv = false -> P ss').

Lemma sp_invalid n m ss frame err reason : steady n m ss -> c + 1 <= n -> zlen (default [] reason) + 8 <= NGHTTP2_MAX_PAYLOADLEN ->
  sp (invalid_connection frame err reason) ss (handled (n - (c + 1)) m ss).
Proof using All. intros HT Hn Hr. by apply (sp_invalid_connection realloc_ok malloc_ok new_stream new_item on_frame_recv on_invalid_frame on_begin_headers on_stream_close Hfresh Hitem c Happ). Qed.

Lemma sp_received n m ss frame : steady n m ss -> c <= n -> sp (frame_received frame) ss (answered (fun ss' => steady (n - c) m ss' /\ untold ss ss')).
Proof using All.
  intros HT Hn. eapply sp_mono; [by apply (sp_frame_calm realloc_ok malloc_ok new_stream new_item on_frame_recv on_invalid_frame on_begin_headers on_stream_close Hfresh Hitem c Happ n m ss frame)|].
  intros rv ss' ([H1 H2 H3] & HC & _). split; [done|]. intros Hf. split; [by apply H2|by apply calm_untold].
Qed.

(** The acknowledgement is queued, and SETTINGS_NO_RFC7540_PRIORITIES settled. *)
Lemma sp_ack n m ss : steady n m ss -> 1 <= n ->
  sp (nghttp2_session_add_settings realloc_ok malloc_ok new_stream new_item NGHTTP2_FLAG_ACK []) ss (fun rv ss' =>
    documented rv /\ (rv = 0 /\ steady (n - 1) m ss' /\ untold ss ss' \/ nghttp2_is_fatal rv = true)).
Proof using All.
  intros HT Hn. pose proof (st_sound _ _ _ HT) as HS. pose proof HS as [(kids & lc & li & HO) (L & HQ & HY) Hsz HZ].
  eapply sp_mono; [refine (sp_add_settings realloc_ok malloc_ok new_stream new_item Hitem ss kids lc li L NGHTTP2_FLAG_ACK [] HO HQ _); lia|].
  intros rv ss' HR. unfold settings_result, settings_refused in HR. change (flag_set NGHTTP2_FLAG_ACK NGHTTP2_FLAG_ACK) with true in HR. cbn [length Z.of_nat Z.eqb negb andb] in HR.
  destruct (max_outbound_ack ss <=? obq_flood_counter_ ss); [destruct HR as [-> ->]; split; [known|by right]|]. cbn [nghttp2_iv_check negb agreed_pri] in HR.
  destruct HR as [(-> & _)|(-> & pri & k & ss1 & Ep & HO1 & HP & ->)]; [split; [known|by right]|]. injection Ep as <-. split; [known|]. left. split; [done|].
  pose proof (granted_by_notes k ss) as HN. destruct (notes_sound n _ _ HN HS) as [HSk HCk].
  assert (ob_ok (granted_by k ss) L /\ syn_ok (granted_by k ss) L) as [HQk HYk].
  { destruct HN as (_ & _ & _ & _ & EC & _ & EO & _). rewrite EO. split; [done|]. apply (syn_ok_ext ss); [done|by rewrite EC|rewrite EO; eauto]. }
  destruct (placed_sound n (granted_by k ss) (granted_by k ss) L _ _ ss1 kids lc li HSk HSk ltac:(done) HQk HYk HO1 HP) as [HS1 HC1]; [done|].
  assert (calm ss ss1) as HC by (by etrans). assert (only_notes ss1 (counted_ack NGHTTP2_FLAG_ACK ss1)) as HN1 by done.
  destruct (notes_sound _ _ _ HN1 HS1) as [HS2 HC2]. set (ss2 := counted_ack _ ss1) in *. assert (calm ss ss2) as HC' by (by etrans).
  assert (steady (n - 1) m ss2) as HT2 by (by eapply calm_steady). unfold submitted. change (flag_set NGHTTP2_FLAG_ACK NGHTTP2_FLAG_ACK) with true. cbv zeta iota. fold ss2. split.
  - apply conf_steady; [exact HT2|done| |exact (st_opened _ _ _ HT2)]. unfold rfc7540.
    change ((if pending_no_rfc7540_priorities ss =? UINT8_MAX then 0 else pending_no_rfc7540_priorities ss) <> 1). case_match; [done|]. exact (st_mode _ _ _ HT).
  - etrans; [by apply calm_untold|]. by apply conf_untold.
Qed.

Lemma sp_acknowledge n m ss frame noack : steady n m ss -> 2 * c + 2 <= n ->
  sp (acknowledge realloc_ok malloc_ok new_stream new_item on_frame_recv on_invalid_frame frame noack) ss (answered (fun ss' => steady (n - (2 * c + 2)) m ss' /\ untold ss ss')).
Proof using All.
  intros HT Hn. pose proof (cs_pos _ _ _ _ _ Happ) as Hc. unfold acknowledge.
  assert (forall n1 ss1, steady n1 m ss1 -> n - (c + 2) <= n1 -> untold ss ss1 -> sp (frame_received frame) ss1 (answered (fun ss' => steady (n - (2 * c + 2)) m ss' /\ untold ss ss'))) as Hend.
  { intros n1 ss1 HT1 Hn1 HU. eapply sp_mono; [apply (sp_received n1 m ss1); [done|lia]|]. intros rv ss' [Hd HP]. split; [done|]. intros Hf.
    destruct (HP Hf) as [H1 H2]. split; [eapply steady_less; [exact H1|lia|done]|by etrans]. }
  do 2 sp_step. destruct (_ && _); [|eapply Hend; [exact HT|lia|done]]. sp_step. eapply sp_mono; [by apply (sp_ack n m); [|lia]|].
  intros rv ss1 (Hd & [(-> & HT1 & HU)|Hf]); [apply (Hend (n - 1)); [done|lia|done]|].
  destruct (Z.eqb_spec rv 0) as [->|_]; [done|]. simpl. rewrite Hf. sp_step. split; [done|congruence].
Qed.

(** ** The windows of all streams move *)

Definition moved_window (new old r : Z) : Z := (update_initial_window_size r new old).1.

Lemma moved_window_range new old r : is_i32 r -> is_i32 (moved_window new old r).
Proof using. intros H. unfold moved_window, update_initial_window_size. case_match; [done|]. apply orb_false_iff in H0. unfold is_i32, NGHTTP2_MAX_WINDOW_SIZE, INT32_MIN, INT32_MAX in *. simpl. lia. Qed.

(** A window [p] of the streams changes by [f]. *)
Definition moved_by (p : stream_flow -> Z) (f : Z -> Z -> Z) ss ss' : Prop := forall b (t : nghttp2_stream), se_streams ss !! b = Some t ->
  exists t' : nghttp2_stream, se_streams ss' !! b = Some t' /\ p t' = f b (p t).

Abbreviation windows_by := (moved_by remote_window_size).
Abbreviation locals_by := (moved_by local_window_size).

(** Marking a flow as one that waits for its WINDOW_UPDATE to leave moves no window. *)
Definition unmarked (p : stream_flow -> Z) : Prop := forall f f' : stream_flow, marked f f' -> p f' = p f.

Lemma remote_unmarked : unmarked remote_window_size.
Proof using. by intros f f' [-> | ->]. Qed.

Lemma local_unmarked : unmarked local_window_size.
Proof using. by intros f f' [-> | ->]. Qed.

Lemma calm_moved p f ss ss1 ss2 : unmarked p -> moved_by p f ss ss1 -> calm ss1 ss2 -> moved_by p f ss ss2.
Proof using.
  intros Hp HW HC b t Hb. destruct (HW b t Hb) as (u & Hu & <-). destruct (cm_streams _ _ HC b u Hu) as (v & Hv & _ & _ & _ & HM & _).
  exists v. split; [done|]. by apply Hp.
Qed.

Lemma moved_after p f g ss ss1 ss2 : moved_by p f ss ss1 -> moved_by p g ss1 ss2 -> moved_by p (fun b r => g b (f b r)) ss ss2.
Proof using. intros H1 H2 b t Hb. destruct (H1 b t Hb) as (u & Hu & <-). by apply H2. Qed.

Lemma flows_windows f ss ss1 ss2 : windows_by f ss ss1 -> same_flows ss1 ss2 -> windows_by f ss ss2.
Proof using.
  intros HW HF b t Hb. destruct (HW b t Hb) as (u & Hu & <-). apply (f_equal (fun h => h !! b)) in HF. rewrite !lookup_fmap, Hu in HF.
  destruct (se_streams ss2 !! b) as [v|]; [|done]. exists v. split; [done|]. apply (f_equal (option_map remote_window_size)) in HF. cbn in HF. congruence.
Qed.

Lemma moved_known p f ss ss' l : moved_by p f ss ss' -> known_streams ss l -> known_streams ss' l.
Proof using.
  intros HW [H1 H2]. split; [done|]. intros b Hb. destruct (H2 b Hb) as [Hr [t Ht]]. split; [done|]. destruct (HW b t Ht) as (t' & Ht' & _). eauto.
Qed.

Lemma changed_moved (p : stream_flow -> Z) f a s (g : stream_flow -> stream_flow) ss : se_streams ss !! a = Some s -> (forall b r, b <> a -> f b r = r) -> p (g s) = f a (p s) -> moved_by p f ss (changed (OfStream a) g ss).
Proof using.
  intros Hs Hf Hg b t Hb. simpl. rewrite se_streams_to. destruct (decide (b = a)) as [->|Hne].
  - rewrite lookup_alter_eq, Hs. exists (upd_flow g s). split; [done|]. simplify_eq. exact Hg.
  - rewrite lookup_alter_ne by done. exists t. split; [done|]. by rewrite Hf.
Qed.

Lemma stream_changed (a : Z) (s : nghttp2_stream) (g : stream_flow -> stream_flow) ss : se_streams ss !! a = Some s -> changed (OfStream a) g ss = streams_to (<[a := upd_flow g s]> (se_streams ss)) ss.
Proof using.
  intros Hs. simpl. f_equal. apply map_eq. intros b. rewrite lookup_insert, lookup_alter. case_decide; [subst|done]. by rewrite Hs.
Qed.

Lemma changed_steady n m ss a s (g : stream_flow -> stream_flow) : steady n m ss -> se_streams ss !! a = Some s -> flow_ok (g s) -> steady n m (changed (OfStream a) g ss).
Proof using. intros HT Hs Hg. rewrite (stream_changed a s) by done. eapply touched_steady; [exact HT|exact Hs|apply gently_flow|done|exact Hg]. Qed.

(** What a walk over the streams does with the window [p] of one of them. *)
Definition moves_one (p : stream_flow -> Z) (g : Z -> Z) (func : Z -> se_m Z) : Prop := forall n m ss a s, steady n m ss -> 1 <= n -> a <> root -> se_streams ss !! a = Some s ->
  sp (func a) ss (fun rv ss' => rv = NGHTTP2_ERR_NOMEM \/ rv = 0 /\ steady (n - 1) m ss' /\ se_conf ss' = se_conf ss /\
    moved_by p (fun b r => if decide (b = a) then g r else r) ss ss').

Abbreviation move_one := (update_remote_initial_window_size_func realloc_ok malloc_ok new_stream new_item).

Lemma sp_move_one new old : moves_one remote_window_size (moved_window new old) (move_one new old).
Proof using Hitem.
  intros n m ss a s HT Hn _ Hs. pose proof (proj2 (st_flows _ _ _ HT) a s Hs) as HF. unfold update_remote_initial_window_size_func, nghttp2_stream_update_remote_initial_window_size.
  sp_step. eapply sp_load; [exact Hs|]. pose proof (moved_window_range new old _ (fk_remote _ HF)) as Hrange. unfold moved_window in Hrange.
  destruct (update_initial_window_size (remote_window_size s) new old) as [win r] eqn:Ew. cbn [fst] in Hrange. cbn iota beta. sp_step. eapply sp_modify; [exact Hs|].
  set (s1 := upd_flow (remote_window_size_to win) s). set (ss1 := streams_to _ ss).
  assert (ss1 = changed (OfStream a) (remote_window_size_to win) ss) as Echg by (symmetry; by apply (stream_changed a s)).
  assert (steady n m ss1) as HT1 by (rewrite Echg; eapply changed_steady; [exact HT|exact Hs|]; destruct HF; by split).
  assert (windows_by (fun b r => if decide (b = a) then moved_window new old r else r) ss ss1) as HW1.
  { rewrite Echg. apply (changed_moved _ _ a s); [done|intros b t Hb; by rewrite decide_False|]. rewrite decide_True by done. unfold moved_window. by rewrite Ew. }
  assert (se_streams ss1 !! a = Some s1) as Hs1 by (unfold ss1; by rewrite se_streams_to, lookup_insert_eq).
  assert (forall ss0, steady n m ss0 -> steady (n - 1) m ss0) as Hless by (intros; eapply steady_less; [done|lia|done]).
  destruct (negb (r =? 0)).
  - eapply sp_mono; [apply (sp_rst_quiet _ _ _ _ Hitem n ss1); [apply HT1|done]|]. intros rv ss2 ([-> |Hrv%list_elem_of_singleton] & HS2 & HC2); [right|by left].
    split; [done|]. split; [by eapply calm_steady|]. split; [exact (cm_conf _ _ HC2)|by eapply calm_moved; [apply remote_unmarked|..]].
  - sp_step. eapply sp_load; [exact Hs1|]. destruct (_ && _) eqn:E1; [|sp_step; right; split; [done|]; split; [by apply Hless|done]].
    apply andb_prop in E1 as [_ Hdef]. unfold nghttp2_stream_check_deferred_by_flow_control in Hdef. apply andb_prop in Hdef as [Hit%bool_decide_eq_true _].
    sp_step. eapply sp_mono; [apply (sp_resume_steady realloc_ok n m ss1 a s1); [done|done|done|by left]|].
    intros rv ss2 [-> |(-> & HT2 & EC2 & _ & HF2)]; simpl; sp_step; [by left|right]. split; [done|]. split; [by apply Hless|]. split; [exact EC2|by eapply flows_windows].
Qed.

Lemma sp_move_all p g func visited : moves_one p g func -> forall n m ss, steady n m ss -> zlen visited <= n -> known_streams ss visited ->
  sp (each_stream func visited) ss (fun rv ss' => rv = NGHTTP2_ERR_NOMEM \/ rv = 0 /\ steady (n - zlen visited) m ss' /\ se_conf ss' = se_conf ss /\
    moved_by p (fun b r => if decide (b ∈ visited) then g r else r) ss ss').
Proof using realloc_ok malloc_ok.
  intros Hone. induction visited as [|a visited IH]; intros n m ss HT Hn HK; cbn [each_stream].
  { sp_step. right. split; [done|]. split; [eapply steady_less; [exact HT|simpl; lia|done]|]. split; [done|]. intros b t Hb. exists t. split; [done|].
    rewrite decide_False; [done|]. by apply not_elem_of_nil. }
  assert (zlen (a :: visited) = zlen visited + 1) as El by (rewrite length_cons; lia). rewrite El in *. assert (0 <= zlen visited) as Hpos by lia.
  destruct (proj2 HK a ltac:(by left)) as [Hr [s Hs]]. sp_step. eapply sp_mono; [apply (Hone n m ss a s HT); [lia|done|done]|].
  intros rv ss1 [-> |(-> & HT1 & EC1 & HW1)]; simpl; [sp_step; by left|].
  destruct HK as [Hnd Hin]. apply NoDup_cons in Hnd as [Hni Hnd].
  eapply sp_mono; [apply (IH (n - 1) m ss1); [done|lia|]|].
  { eapply moved_known; [exact HW1|]. split; [done|]. intros b Hb. apply Hin. by right. }
  intros rv ss2 [-> |(-> & HT2 & EC2 & HW2)]; [by left|right]. split; [done|]. split; [eapply steady_less; [exact HT2|lia|done]|]. split; [congruence|].
  intros b t Hb. destruct (HW1 b t Hb) as (u & Hu & Eu). destruct (HW2 b u Hu) as (v & Hv & Ev). exists v. split; [done|]. rewrite Ev, Eu.
  destruct (decide (b = a)) as [->|Hne].
  - rewrite decide_False by done. by rewrite decide_True by (by left).
  - destruct (decide (b ∈ visited)) as [Hbv|Hbv]; [by rewrite decide_True by (by right)|]. rewrite decide_False; [done|]. by intros [?|?]%elem_of_cons.
Qed.

Context (map_each : gmap Z Z -> list Z) (Heach : forall M, map_each M ≡ₚ (map_to_list M).*2).

(** Every stream but the root is in the table. *)
Lemma each_known n m ss b t : steady n m ss -> se_streams ss !! b = Some t -> b ∈ map_each (stream_map ss) <-> b <> root.
Proof using Heach.
  intros HT Hb. destruct (steady_sess _ _ _ HT) as (kids & lc & li & HO). split.
  - intros Hin. by apply (table_known n m ss _ HT (Heach (stream_map ss))).
  - intros Hr. rewrite (Heach (stream_map ss)). apply list_elem_of_fmap. exists (stream_id t, b). split; [done|]. apply elem_of_map_to_list. by eapply id_mapped.
Qed.

Definition all_moved (new old : Z) b (r : Z) : Z := if decide (b = root) then r else moved_window new old r.

Lemma sp_move_table p new old func n m ss : moves_one p (moved_window new old) func -> steady n m ss -> 2 ^ 23 <= n ->
  sp (each_stream func (map_each (stream_map ss))) ss (fun rv ss' => rv = NGHTTP2_ERR_NOMEM \/
    rv = 0 /\ steady (n - 2 ^ 23) m ss' /\ se_conf ss' = se_conf ss /\ moved_by p (all_moved new old) ss ss').
Proof using realloc_ok malloc_ok Heach.
  intros Hone HT Hn. pose proof (table_known n m ss _ HT (Heach (stream_map ss))) as HK.
  pose proof (known_length _ _ HK) as Hlen. pose proof (few_streams _ _ _ HT) as Hfew.
  eapply sp_mono; [apply (sp_move_all p _ _ (map_each (stream_map ss)) Hone n m ss HT); [lia|done]|].
  intros rv ss' [-> |(-> & HT' & EC & HW)]; [by left|right]. split; [done|]. split; [eapply steady_less; [exact HT'|lia|done]|]. split; [done|].
  intros b t Hb. destruct (HW b t Hb) as (u & Hu & Eu). exists u. split; [done|]. rewrite Eu. unfold all_moved.
  pose proof (each_known n m ss b t HT Hb) as He. destruct (decide (b = root)) as [->|Hne]; [rewrite decide_False; [done|]; tauto|]. rewrite decide_True; [done|]. tauto.
Qed.

Lemma sp_move_streams n m ss new : steady n m ss -> 2 ^ 23 <= n ->
  sp (session_update_remote_initial_window_size realloc_ok malloc_ok new_stream new_item map_each new) ss (fun rv ss' => rv = NGHTTP2_ERR_NOMEM \/
    rv = 0 /\ steady (n - 2 ^ 23) m ss' /\ se_conf ss' = se_conf ss /\ windows_by (all_moved new (to_int32 (initial_window_size (remote_settings ss)))) ss ss').
Proof using Hitem Heach.
  intros HT Hn. unfold session_update_remote_initial_window_size. do 2 sp_step. apply sp_move_table; [apply sp_move_one|done|done].
Qed.

(** ** The windows of all streams grow *)

Lemma moved_window_grows new old r : 0 <= r <= NGHTTP2_MAX_WINDOW_SIZE -> old <= new -> r <= moved_window new old r <= NGHTTP2_MAX_WINDOW_SIZE.
Proof using. intros H1 H2. unfold moved_window, update_initial_window_size. case_match eqn:E; [simpl; lia|]. apply orb_false_iff in E as [_ E%Z.ltb_ge]. simpl. lia. Qed.

Definition unmoved : Z -> Z -> Z := fun b r => r.

(** A walk leaves the window of no stream elsewhere. *)
Definition refilled n m ss (rv : Z) ss' : Prop := rv = NGHTTP2_ERR_NOMEM \/ rv = 0 /\ steady n m ss' /\ se_conf ss' = se_conf ss /\ locals_by unmoved ss ss'.

Lemma refilled_here n n' m ss : steady n m ss -> n' <= n -> refilled n' m ss 0 ss.
Proof using. intros HT Hn. right. split; [done|]. split; [by eapply steady_less|]. split; [done|]. intros b t Hb. by exists t. Qed.

Lemma changed_refilled n m ss a s (g : stream_flow -> stream_flow) : steady n m ss -> se_streams ss !! a = Some s -> flow_ok (g s) -> local_window_size (g s) = local_window_size s ->
  refilled n m ss 0 (changed (OfStream a) g ss).
Proof using.
  intros HT Hs Hg Hl. right. split; [done|]. split; [by eapply changed_steady|]. split; [apply changed_conf|]. by apply (changed_moved _ _ a s).
Qed.

Lemma refilled_after n m ss ss1 ss2 rv : refilled n m ss 0 ss1 -> refilled n m ss1 rv ss2 -> refilled n m ss rv ss2.
Proof using.
  intros [?|(_ & _ & E1 & H1)] [->|(-> & HT & E2 & H2)]; [done|done|by left|right]. split; [done|]. split; [done|]. split; [congruence|]. exact (moved_after _ _ _ _ _ _ H1 H2).
Qed.

(** A WINDOW_UPDATE frame, and what is noted when it is queued. *)
Lemma sp_refill n m ss a s id inc (rest : se_m Z) : steady n m ss -> 1 <= n -> se_streams ss !! a = Some s ->
  (forall ss1 s1, steady (n - 1) m ss1 -> se_streams ss1 !! a = Some s1 -> marked s s1 -> sp rest ss1 (refilled (n - 1) m ss1)) ->
  sp (let! rv := nghttp2_session_add_window_update realloc_ok malloc_ok new_stream new_item NGHTTP2_FLAG_NONE id inc in
    if negb (rv =? 0) then mret rv else rest) ss (refilled (n - 1) m ss).
Proof using Hitem.
  intros HT Hn Hs Hrest. sp_step. eapply sp_mono; [apply (sp_window_update_calm _ _ _ _ Hitem n); [apply HT|done]|]. intros rv ss1 ([-> | ->] & HS & HC & _); simpl; [|sp_step; by left].
  destruct (cm_streams _ _ HC a s Hs) as (s1 & Hs1 & _ & _ & _ & HM & _). assert (steady (n - 1) m ss1) as HT1 by (by eapply calm_steady).
  eapply sp_mono; [by apply (Hrest ss1 s1)|]. intros rv ss2 H2. eapply refilled_after; [|exact H2]. right. split; [done|]. split; [done|]. split; [apply HC|].
  eapply calm_moved; [exact local_unmarked| |exact HC]. intros b t Hb. by exists t.
Qed.

Lemma sp_reconsumed n m ss a s : steady n m ss -> 1 <= n -> se_streams ss !! a = Some s ->
  sp (session_update_stream_consumed_size realloc_ok malloc_ok new_stream new_item a 0) ss (refilled (n - 1) m ss).
Proof using Hitem.
  intros HT Hn Hs. pose proof (proj2 (st_flows _ _ _ HT) a s Hs) as [H1 H2 H3 H4 H5 H6]. unfold session_update_stream_consumed_size, session_update_consumed_size.
  sp_step. eapply sp_load; [exact Hs|]. sp_step. eapply (sp_read_window (OfStream a) ss (st_flow s)); [by simpl; rewrite Hs|]. rewrite Z.sub_0_r, !u64_id by (unfold is_u64; flow_lia).
  rewrite (proj2 (Z.ltb_ge _ _)) by lia. change (to_int32 0) with 0. sp_step. eapply sp_defined; [apply i32_Some; flow_lia|]. rewrite Z.add_0_r.
  sp_step. eapply (sp_change_window (OfStream a) _ ss (st_flow s)); [by simpl; rewrite Hs|]. set (ss1 := changed _ _ ss). set (s1 := upd_flow (consumed_size_to (consumed_size s)) s).
  assert (refilled n m ss 0 ss1) as HR1 by (eapply changed_refilled; [exact HT|exact Hs|by split|done]).
  assert (steady n m ss1) as HT1 by (by destruct HR1 as [?|(_ & ? & _)]). assert (se_streams ss1 !! a = Some s1) as Hs1.
  { unfold ss1. rewrite (stream_changed a s) by done. by rewrite se_streams_to, lookup_insert_eq. }
  assert (forall rv ss2, refilled (n - 1) m ss1 rv ss2 -> refilled (n - 1) m ss rv ss2) as Hfrom.
  { intros rv ss2. apply refilled_after. eapply changed_refilled; [eapply steady_less; [exact HT|lia|done]|exact Hs|by split|done]. }
  destruct (window_update_queued s =? 0); [|sp_step; apply Hfrom; eapply refilled_here; [exact HT1|lia]]. cbv zeta. rewrite nghttp2_min_spec.
  destruct (nghttp2_should_send_window_update _ _) eqn:Esend; [|sp_step; apply Hfrom; eapply refilled_here; [exact HT1|lia]].
  apply andb_prop in Esend as [Hpos%Z.ltb_lt _]. eapply sp_mono; [eapply (sp_refill n m ss1 a s1); [done|done|done|]|intros rv ss2; apply Hfrom].
  intros ss2 s2 HT2 Hs2 HM. sp_step. eapply sp_defined; [apply i32_Some; flow_lia|]. sp_step. eapply sp_defined; [apply i32_Some; flow_lia|].
  assert (flow_ok s2) as [A1 A2 A3 A4 A5 A6] by exact (proj2 (st_flows _ _ _ HT2) a s2 Hs2).
  assert (recv_window_size s2 = recv_window_size s) as E2 by (by destruct HM as [-> | ->]).
  set (r := recv_window_size s - _). set (k := consumed_size s - _). assert (INT32_MIN <= r <= recv_window_size s /\ 0 <= k <= NGHTTP2_MAX_WINDOW_SIZE) as [Hr Hk] by (unfold r, k; flow_lia).
  sp_step. eapply (sp_change_window (OfStream a) _ ss2 (st_flow s2)); [by simpl; rewrite Hs2|]. set (ss3 := changed _ _ ss2). set (s3 := upd_flow (recv_window_size_to r) s2).
  assert (flow_ok s3) as HF3 by (split; simpl; try done; lia). assert (refilled (n - 1) m ss2 0 ss3) as HR3 by (by eapply changed_refilled).
  assert (se_streams ss3 !! a = Some s3) as Hs3 by (unfold ss3; rewrite (stream_changed a s2) by done; by rewrite se_streams_to, lookup_insert_eq).
  assert (steady (n - 1) m ss3) as HT3 by (by destruct HR3 as [?|(_ & ? & _)]). sp_step.
  eapply (sp_change_window (OfStream a) _ ss3 (st_flow s3)); [by simpl; rewrite Hs3|]. sp_step. eapply refilled_after; [exact HR3|].
  eapply changed_refilled; [exact HT3|exact Hs3|destruct HF3; by split|done].
Qed.

Abbreviation grow_one := (update_local_initial_window_size_func realloc_ok malloc_ok new_stream new_item).

Lemma sp_grow_one new old : old <= new -> moves_one local_window_size (moved_window new old) (grow_one new old).
Proof using Hitem.
  intros Hgrow n m ss a s HT Hn _ Hs. pose proof (proj2 (st_flows _ _ _ HT) a s Hs) as HF. unfold update_local_initial_window_size_func, nghttp2_stream_update_local_initial_window_size.
  sp_step. eapply sp_load; [exact Hs|]. pose proof (moved_window_grows new old (local_window_size s)) as Hrange. unfold moved_window in Hrange.
  destruct (update_initial_window_size (local_window_size s) new old) as [win r] eqn:Ew. cbn [fst] in Hrange. specialize (Hrange ltac:(destruct HF; lia) Hgrow).
  cbn iota beta. sp_step. eapply sp_modify; [exact Hs|].
  set (s1 := upd_flow (local_window_size_to win) s). set (ss1 := streams_to _ ss).
  assert (ss1 = changed (OfStream a) (local_window_size_to win) ss) as Echg by (symmetry; by apply (stream_changed a s)).
  assert (flow_ok s1) as HF1 by (destruct HF as [H1 H2 H3 H4 H5 H6]; split; simpl; try done; lia).
  assert (steady n m ss1) as HT1 by (rewrite Echg; eapply changed_steady; [exact HT|exact Hs|exact HF1]).
  assert (locals_by (fun b r => if decide (b = a) then moved_window new old r else r) ss ss1) as HW1.
  { rewrite Echg. apply (changed_moved _ _ a s); [done|intros b t Hb; by rewrite decide_False|]. rewrite decide_True by done. unfold moved_window. by rewrite Ew. }
  assert (se_streams ss1 !! a = Some s1) as Hs1 by (unfold ss1; by rewrite se_streams_to, lookup_insert_eq).
  assert (forall rv ss2, refilled (n - 1) m ss1 rv ss2 -> rv = NGHTTP2_ERR_NOMEM \/ rv = 0 /\ steady (n - 1) m ss2 /\ se_conf ss2 = se_conf ss /\
    locals_by (fun b r => if decide (b = a) then moved_window new old r else r) ss ss2) as Hend.
  { intros rv ss2 [->|(-> & HT2 & EC2 & HL)]; [by left|right]. split; [done|]. split; [done|]. split; [exact EC2|]. exact (moved_after _ _ _ _ _ _ HW1 HL). }
  destruct (negb (r =? 0)).
  - eapply sp_mono; [apply (sp_rst_quiet _ _ _ _ Hitem n ss1); [apply HT1|done]|]. intros rv ss2 ([-> |Hrv%list_elem_of_singleton] & HS2 & HC2); [right|by left].
    split; [done|]. split; [by eapply calm_steady|]. split; [exact (cm_conf _ _ HC2)|by eapply calm_moved; [apply local_unmarked|..]].
  - sp_step. eapply sp_load; [exact Hs1|]. do 2 sp_step. apply (sp_mono _ _ (refilled (n - 1) m ss1)); [|exact Hend].
    destruct (negb (window_update_queued s1 =? 0)); [sp_step; eapply refilled_here; [exact HT1|lia]|]. destruct (negb _); [by eapply sp_reconsumed|].
    destruct (nghttp2_should_send_window_update _ _) eqn:Esend; [|sp_step; eapply refilled_here; [exact HT1|lia]]. eapply sp_refill; [exact HT1|done|exact Hs1|].
    intros ss2 s2 HT2 Hs2 HM. pose proof (proj2 (st_flows _ _ _ HT2) a s2 Hs2) as HF2. sp_step. eapply sp_modify; [exact Hs2|]. sp_step. rewrite <- (stream_changed a s2) by done.
    eapply changed_refilled; [exact HT2|exact Hs2| |done]. destruct HF2 as [A1 A2 A3 A4 A5 A6]. split; simpl; try done; flow_lia.
Qed.

Lemma sp_grow_streams n m ss new old : steady n m ss -> 2 ^ 23 <= n -> old <= new ->
  sp (session_update_local_initial_window_size realloc_ok malloc_ok new_stream new_item map_each new old) ss (fun rv ss' => rv = NGHTTP2_ERR_NOMEM \/
    rv = 0 /\ steady (n - 2 ^ 23) m ss' /\ se_conf ss' = se_conf ss /\ locals_by (all_moved new old) ss ss').
Proof using Hitem Heach.
  intros HT Hn Hgrow. unfold session_update_local_initial_window_size. do 2 sp_step. apply sp_move_table; [by apply sp_grow_one|done|done].
Qed.

(** ** The entries of a frame *)

Definition is_setting (e : nghttp2_settings_entry) (id : Z) : bool := settings_id e =? id.

(** What the peer must not announce: [sv] tells a server from a client, [st] is
    what it announced before. *)
Definition entry_refused (sv : bool) (st : nghttp2_settings_storage) (e : nghttp2_settings_entry) : bool :=
  let v := iv_value e in
  let flag := (v =? 0) || (v =? 1) in
  is_setting e NGHTTP2_SETTINGS_ENABLE_PUSH && (negb flag || negb sv && negb (v =? 0)) ||
  is_setting e NGHTTP2_SETTINGS_INITIAL_WINDOW_SIZE && (NGHTTP2_MAX_WINDOW_SIZE <? v) ||
  is_setting e NGHTTP2_SETTINGS_MAX_FRAME_SIZE && ((v <? NGHTTP2_MAX_FRAME_SIZE_MIN) || (NGHTTP2_MAX_FRAME_SIZE_MAX <? v)) ||
  is_setting e NGHTTP2_SETTINGS_ENABLE_CONNECT_PROTOCOL && (negb flag || negb sv && negb (enable_connect_protocol st =? 0) && (v =? 0)) ||
  is_setting e NGHTTP2_SETTINGS_NO_RFC7540_PRIORITIES && (negb flag || negb (no_rfc7540_priorities_setting st =? UINT32_MAX) && negb (no_rfc7540_priorities_setting st =? v)).

(** The entry of a storage that a SETTINGS entry sets. *)
Definition stored (e : nghttp2_settings_entry) (st : nghttp2_settings_storage) : nghttp2_settings_storage := setting_to (settings_id e) (iv_value e) st.

Definition entry_windows (st : nghttp2_settings_storage) (e : nghttp2_settings_entry) b (r : Z) : Z :=
  if is_setting e NGHTTP2_SETTINGS_INITIAL_WINDOW_SIZE then all_moved (iv_value e) (to_int32 (initial_window_size st)) b r else r.

(** The frames that an entry may make the session queue. *)
Definition entry_cost : Z := 2 ^ 23 + c + 1.

(** Neither side's role nor our own settings change. *)
Definition kin ss ss' : Prop := server ss' = server ss /\ own_settings ss' = own_settings ss.

Definition entry_taken n m ss d (e : nghttp2_settings_entry) (r : nghttp2_hd_deflater * option Z) ss' : Prop :=
  deflater_ok r.1 /\
  match r.2 with
  | Some rv => (entry_refused (server ss) (remote_settings ss) e = true \/ nghttp2_is_fatal rv = true) /\ answered (fun ss' => steady n m ss' /\ kin ss ss') rv ss'
  | None => entry_refused (server ss) (remote_settings ss) e = false /\ deflater_took (entries_for header_size [e]) d r.1 /\ steady n m ss' /\
      se_conf ss' = remote_settings_to (stored e (remote_settings ss)) ss /\ windows_by (entry_windows (remote_settings ss) e) ss ss'
  end.

Lemma untouched_windows (f : Z -> Z -> Z) ss ss' : (forall b r, f b r = r) -> se_streams ss' = se_streams ss -> windows_by f ss ss'.
Proof using. intros Hf ES b t Hb. exists t. rewrite ES, Hf. done. Qed.

Lemma sp_refused n m ss e d (p : se_m Z) : steady n m ss -> deflater_ok d -> entry_refused (server ss) (remote_settings ss) e = true ->
  sp p ss (handled (n - (c + 1)) m ss) -> sp (let! rv := p in mret (d, Some rv)) ss (entry_taken (n - entry_cost) m ss d e).
Proof using All.
  intros HT Hd He Hp. sp_step. eapply sp_mono; [exact Hp|]. intros rv ss' [H1 H2 H3]. sp_step. split; [done|]. simpl. split; [by left|]. split; [done|].
  intros Hf. split; [eapply steady_less; [by apply H2|unfold entry_cost; lia|done]|]. unfold kin, own_settings. by rewrite H3.
Qed.

Lemma sp_accepted n m ss e d d' : steady n m ss -> 0 <= c -> deflater_ok d' -> deflater_took (entries_for header_size [e]) d d' ->
  entry_refused (server ss) (remote_settings ss) e = false -> is_setting e NGHTTP2_SETTINGS_INITIAL_WINDOW_SIZE = false ->
  sp (update (fun ss => upd_conf (remote_settings_to (setting_to (settings_id e) (iv_value e) (remote_settings ss))) ss);; mret (d', None)) ss (entry_taken (n - entry_cost) m ss d e).
Proof using All.
  intros HT Hc Hd Htook He Hw. do 2 sp_step. split; [done|]. simpl. split; [done|]. split; [done|]. split; [|split; [done|]].
  - eapply steady_less; [by apply remote_steady|unfold entry_cost; lia|done].
  - apply untouched_windows; [|done]. intros b r. unfold entry_windows. by rewrite Hw.
Qed.

Abbreviation entry_handler := (remote_setting realloc_ok malloc_ok new_stream new_item on_invalid_frame map_each).

(** An entry with a flag, and one more rule. *)
Lemma flag_or (v : Z) : negb (v =? 0) && negb (v =? 1) = negb ((v =? 0) || (v =? 1)).
Proof using. by rewrite negb_orb. Qed.

(** The entry that is not known is stored nowhere. *)
Lemma unknown_stored e st : known_setting (settings_id e) = false -> stored e st = st.
Proof using.
  unfold known_setting. rewrite !orb_false_iff. intros ((((((( H1 & H2) & H3) & H4) & H5) & H6) & H7) & H8). unfold stored, setting_to.
  rewrite H1, H2, H3, H4, H5, H6, H7, H8. by destruct st.
Qed.

Lemma sp_remote_setting n m ss frame d e : steady n m ss -> deflater_ok d -> is_u32 (iv_value e) -> entry_cost <= n ->
  sp (entry_handler frame d e) ss (entry_taken (n - entry_cost) m ss d e).
Proof using All.
  intros HT Hd Hv Hn. pose proof (cs_pos _ _ _ _ _ Happ) as Hc. assert (c + 1 <= n) as Hn1 by (unfold entry_cost in Hn; lia).
  assert (forall err reason, zlen (default [] reason) + 8 <= NGHTTP2_MAX_PAYLOADLEN -> entry_refused (server ss) (remote_settings ss) e = true ->
    sp (let! rv := invalid_connection frame err reason in mret (d, Some rv)) ss (entry_taken (n - entry_cost) m ss d e)) as Hrefuse.
  { intros err reason Hr He. apply sp_refused; [done|done|done|by apply sp_invalid]. }
  assert (forall d', deflater_ok d' -> deflater_took (entries_for header_size [e]) d d' -> entry_refused (server ss) (remote_settings ss) e = false -> is_setting e NGHTTP2_SETTINGS_INITIAL_WINDOW_SIZE = false ->
    sp (update (fun ss => upd_conf (remote_settings_to (setting_to (settings_id e) (iv_value e) (remote_settings ss))) ss);; mret (d', None)) ss (entry_taken (n - entry_cost) m ss d e)) as Haccept.
  { intros d' Hd' Htook He Hw. by apply sp_accepted. }
  unfold remote_setting. do 2 sp_step. cbv zeta. destruct (known_setting (settings_id e)) eqn:Eknown.
  2: { pose proof (unknown_stored e (remote_settings ss) Eknown) as Est. unfold known_setting in Eknown. rewrite !orb_false_iff in Eknown.
    destruct Eknown as ((((((( H1 & H2) & H3) & H4) & H5) & H6) & H7) & H8). rewrite H1, H2, H3, H4, H5, H6, H7, H8. sp_step. split; [done|]. simpl.
    assert (forall id, settings_id e =? id = false -> is_setting e id = false) as Hno by done. unfold entry_refused, entry_windows. rewrite !Hno by done. split; [done|].
    split; [by apply took_nothing, Z.eqb_neq|]. split; [eapply steady_less; [exact HT|unfold entry_cost; lia|done]|]. split; [|by apply untouched_windows]. rewrite Est. by destruct (se_conf ss). }

  destruct (Z.eqb_spec (settings_id e) NGHTTP2_SETTINGS_HEADER_TABLE_SIZE) as [Eid|N1].
  { destruct (deflater_changes d (iv_value e) Hd Hv) as (d' & E & Hd' & Htook). sp_step. eapply sp_defined; [exact E|]. cbn [Z.eqb negb].
    apply Haccept; [done|by apply took_size|unfold entry_refused, is_setting; by rewrite Eid|unfold is_setting; by rewrite Eid]. }
  destruct (Z.eqb_spec (settings_id e) NGHTTP2_SETTINGS_ENABLE_PUSH) as [Eid|N2].
  { rewrite flag_or. assert (entry_refused (server ss) (remote_settings ss) e = negb ((iv_value e =? 0) || (iv_value e =? 1)) || negb (server ss) && negb (iv_value e =? 0)) as ER.
    { unfold entry_refused, is_setting. rewrite Eid. by rewrite !orb_false_r. }
    destruct (negb (_ || _)); [by apply Hrefuse|]. destruct (negb (server ss) && _); [by apply Hrefuse|]. apply Haccept; [done|by apply took_nothing|done|unfold is_setting; by rewrite Eid]. }
  destruct (Z.eqb_spec (settings_id e) NGHTTP2_SETTINGS_MAX_CONCURRENT_STREAMS) as [Eid|N3].
  { apply Haccept; [done|by apply took_nothing|unfold entry_refused, is_setting; by rewrite Eid|unfold is_setting; by rewrite Eid]. }
  destruct (Z.eqb_spec (settings_id e) NGHTTP2_SETTINGS_INITIAL_WINDOW_SIZE) as [Eid|N4].
  { assert (entry_refused (server ss) (remote_settings ss) e = (NGHTTP2_MAX_WINDOW_SIZE <? iv_value e)) as ER.
    { unfold entry_refused, is_setting. rewrite Eid. by rewrite !orb_false_r. }
    destruct (Z.ltb_spec NGHTTP2_MAX_WINDOW_SIZE (iv_value e)) as [_|Hle]; [by apply Hrefuse|].
    rewrite to_int32_id by (unfold is_u32 in Hv; flow_lia). sp_step. eapply sp_mono; [apply (sp_move_streams n m ss); [done|unfold entry_cost in Hn; lia]|].
    intros rv ss1 [-> |(-> & HT1 & EC1 & HW)].
    - change (nghttp2_is_fatal NGHTTP2_ERR_NOMEM) with true. cbn iota. sp_step. split; [done|]. simpl. split; [by right|]. split; [known|done].
    - change (nghttp2_is_fatal 0) with false. cbn [Z.eqb negb]. do 2 sp_step. split; [done|]. simpl. split; [done|]. split; [by apply took_nothing|].
      split; [eapply steady_less; [by apply remote_steady|unfold entry_cost; lia|done]|]. split; [unfold stored; by rewrite EC1|].
      intros b t Hb. destruct (HW b t Hb) as (u & Hu & Eu). exists u. split; [done|]. rewrite Eu. unfold entry_windows, is_setting. by rewrite Eid. }
  destruct (Z.eqb_spec (settings_id e) NGHTTP2_SETTINGS_MAX_FRAME_SIZE) as [Eid|N5].
  { assert (entry_refused (server ss) (remote_settings ss) e = (iv_value e <? NGHTTP2_MAX_FRAME_SIZE_MIN) || (NGHTTP2_MAX_FRAME_SIZE_MAX <? iv_value e)) as ER.
    { unfold entry_refused, is_setting. rewrite Eid. by rewrite !orb_false_r. }
    destruct (_ || _); [by apply Hrefuse|]. apply Haccept; [done|by apply took_nothing|done|unfold is_setting; by rewrite Eid]. }
  destruct (Z.eqb_spec (settings_id e) NGHTTP2_SETTINGS_MAX_HEADER_LIST_SIZE) as [Eid|N6].
  { apply Haccept; [done|by apply took_nothing|unfold entry_refused, is_setting; by rewrite Eid|unfold is_setting; by rewrite Eid]. }
  destruct (Z.eqb_spec (settings_id e) NGHTTP2_SETTINGS_ENABLE_CONNECT_PROTOCOL) as [Eid|N7].
  { rewrite flag_or. assert (entry_refused (server ss) (remote_settings ss) e = negb ((iv_value e =? 0) || (iv_value e =? 1)) ||
      negb (server ss) && negb (enable_connect_protocol (remote_settings ss) =? 0) && (iv_value e =? 0)) as ER.
    { unfold entry_refused, is_setting. rewrite Eid. by rewrite !orb_false_r. }
    destruct (negb (_ || _)); [by apply Hrefuse|]. destruct (_ && (iv_value e =? 0)); [by apply Hrefuse|]. apply Haccept; [done|by apply took_nothing|done|unfold is_setting; by rewrite Eid]. }
  destruct (Z.eqb_spec (settings_id e) NGHTTP2_SETTINGS_NO_RFC7540_PRIORITIES) as [Eid|N8].
  { rewrite flag_or. assert (entry_refused (server ss) (remote_settings ss) e = negb ((iv_value e =? 0) || (iv_value e =? 1)) ||
      negb (no_rfc7540_priorities_setting (remote_settings ss) =? UINT32_MAX) && negb (no_rfc7540_priorities_setting (remote_settings ss) =? iv_value e)) as ER.
    { unfold entry_refused, is_setting. by rewrite Eid. }
    destruct (negb (_ || _)); [by apply Hrefuse|]. destruct (_ && _); [by apply Hrefuse|]. apply Haccept; [done|by apply took_nothing|done|unfold is_setting; by rewrite Eid]. }
  exfalso. revert Eknown. unfold known_setting. by rewrite !(proj2 (Z.eqb_neq _ _)) by done.
Qed.

Fixpoint entries_refused (sv : bool) (st : nghttp2_settings_storage) iv : bool :=
  match iv with [] => false | e :: iv => entry_refused sv st e || entries_refused sv (stored e st) iv end.

(** Where the entries [iv] move the window [r] of the stream at [b]. *)
Fixpoint entries_windows (st : nghttp2_settings_storage) iv b (r : Z) : Z :=
  match iv with [] => r | e :: iv => entries_windows (stored e st) iv b (entry_windows st e b r) end.

Definition entries_taken n m ss d iv (r : nghttp2_hd_deflater * option Z) ss' : Prop :=
  deflater_ok r.1 /\
  match r.2 with
  | Some rv => (entries_refused (server ss) (remote_settings ss) iv = true \/ nghttp2_is_fatal rv = true) /\ answered (fun ss' => steady n m ss' /\ kin ss ss') rv ss'
  | None => entries_refused (server ss) (remote_settings ss) iv = false /\ deflater_took (entries_for header_size iv) d r.1 /\ steady n m ss' /\
      se_conf ss' = remote_settings_to (store_settings (remote_settings ss) iv) ss /\ windows_by (entries_windows (remote_settings ss) iv) ss ss'
  end.

Lemma sp_remote_entries frame iv : forall n m ss d, steady n m ss -> deflater_ok d -> values_u32 iv -> entry_cost * zlen iv <= n ->
  sp (remote_entries realloc_ok malloc_ok new_stream new_item on_invalid_frame map_each frame d iv) ss (entries_taken (n - entry_cost * zlen iv) m ss d iv).
Proof using All.
  pose proof (cs_pos _ _ _ _ _ Happ) as Hc. assert (0 < entry_cost) as HE by (unfold entry_cost; lia).
  induction iv as [|e iv IH]; intros n m ss d HT Hd Hv Hn; cbn [remote_entries].
  { sp_step. split; [done|]. simpl. split; [done|]. split; [done|]. split; [eapply steady_less; [exact HT|simpl; lia|done]|]. split; [by destruct (se_conf ss)|by apply untouched_windows]. }
  assert (zlen (e :: iv) = zlen iv + 1) as El by (rewrite length_cons; lia). rewrite El in *. assert (0 <= zlen iv) as Hpos by lia.
  pose proof Hv as [Hve Hv']%Forall_cons. sp_step. eapply sp_mono; [apply (sp_remote_setting n m); [done|done|done|nia]|].
  intros [d1 [rv|]] ss1 [Hd1 H1]; cbn [fst snd] in Hd1, H1.
  - sp_step. split; [done|]. cbn [fst snd entries_refused]. destruct H1 as [Hr [Hdoc Hs]]. split; [destruct Hr as [-> |?]; [by left|by right]|]. split; [done|].
    intros Hf. destruct (Hs Hf) as [HT1 HK]. split; [eapply steady_less; [exact HT1|nia|done]|done].
  - destruct H1 as (Hr & Htook1 & HT1 & EC1 & HW1). assert (server ss1 = server ss) as Esv by (by rewrite EC1). assert (remote_settings ss1 = stored e (remote_settings ss)) as Erem by (by rewrite EC1).
    eapply sp_mono; [apply (IH (n - entry_cost) m ss1); [done|done|done|lia]|]. intros [d2 r] ss2 [Hd2 H2]. split; [done|]. cbn [fst snd entries_refused] in *.
    rewrite Esv, Erem in H2. rewrite Hr. destruct r as [rv|].
    + destruct H2 as [Hr2 [Hdoc Hs]]. split; [done|]. split; [done|]. intros Hf. destruct (Hs Hf) as [HT2 [K1 K2]]. split; [eapply steady_less; [exact HT2|lia|done]|].
      split; [congruence|]. rewrite K2. unfold own_settings. by rewrite EC1.
    + destruct H2 as (Hr2 & Htook2 & HT2 & EC2 & HW2). split; [done|]. split; [by eapply deflater_took_entries|]. split; [eapply steady_less; [exact HT2|lia|done]|]. split; [by rewrite EC2, EC1|]. exact (moved_after _ _ _ _ _ _ HW1 HW2).
Qed.

(** ** Before and after the entries *)

Definition first_remote ss : nghttp2_settings_storage :=
  if remote_settings_received ss =? 0 then setting_to NGHTTP2_SETTINGS_MAX_CONCURRENT_STREAMS NGHTTP2_DEFAULT_MAX_CONCURRENT_STREAMS (remote_settings ss) else remote_settings ss.

Definition settled (st : nghttp2_settings_storage) : nghttp2_settings_storage :=
  if no_rfc7540_priorities_setting st =? UINT32_MAX then setting_to NGHTTP2_SETTINGS_NO_RFC7540_PRIORITIES 0 st else st.

Lemma sp_first_settings n m ss (Q : unit -> nghttp2_session -> Prop) : steady n m ss ->
  (forall ss1, steady n m ss1 -> kin ss ss1 -> remote_settings ss1 = first_remote ss -> se_streams ss1 = se_streams ss -> Q tt ss1) -> sp first_settings ss Q.
Proof using.
  intros HT HQ. unfold first_settings, first_remote in *. do 2 sp_step. destruct (remote_settings_received ss =? 0); [|sp_step; by apply HQ].
  do 2 sp_step. apply HQ; [|done..]. apply (remote_steady n m (remote_settings_received_to 1)); [|done..]. by apply remote_steady.
Qed.

Lemma sp_settle n m ss (Q : unit -> nghttp2_session -> Prop) : steady n m ss ->
  (forall ss1, steady n m ss1 -> kin ss ss1 -> remote_settings ss1 = settled (remote_settings ss) -> se_streams ss1 = se_streams ss -> Q tt ss1) -> sp settle_priorities ss Q.
Proof using.
  intros HT HQ. unfold settle_priorities, settled in *. do 2 sp_step. destruct (no_rfc7540_priorities_setting (remote_settings ss) =? UINT32_MAX); [|sp_step; by apply HQ].
  do 2 sp_step. set (ss1 := upd_conf _ ss). assert (steady n m ss1) as HT1 by (by apply remote_steady). destruct (_ && _); sp_step; apply HQ; try done. by apply remote_steady.
Qed.

(** ** Acknowledged settings *)

(** No settings on their way make the windows of streams smaller: [old] is the
    initial window before. *)
Fixpoint growing (old : Z) (waiting : list (list nghttp2_settings_entry)) : Prop :=
  match waiting with
  | [] => True
  | iv :: rest => values_u32 iv /\
      match last_entry NGHTTP2_SETTINGS_INITIAL_WINDOW_SIZE iv with
      | None => growing old rest
      | Some v => old <= v <= NGHTTP2_MAX_WINDOW_SIZE /\ growing v rest
      end
  end.

Definition windows_grow ss : Prop := growing (to_int32 (initial_window_size (local_settings ss))) (inflight_settings ss).

Lemma own_grow ss ss' : own_settings ss' = own_settings ss -> windows_grow ss -> windows_grow ss'.
Proof using. unfold own_settings, windows_grow. by intros [= -> ->]. Qed.

Lemma stored_window iv : forall st, initial_window_size (store_settings st iv) = default (initial_window_size st) (last_entry NGHTTP2_SETTINGS_INITIAL_WINDOW_SIZE iv).
Proof using.
  induction iv as [|e iv IH]; intros st; [done|]. change (store_settings st (e :: iv)) with (store_settings (stored e st) iv). rewrite IH. simpl. by destruct (last_entry _ iv), (_ =? _).
Qed.

(** The window of the stream at [b] after an acknowledgement. *)
Definition acknowledged_window (old : Z) iv b (l : Z) : Z :=
  match last_entry NGHTTP2_SETTINGS_INITIAL_WINDOW_SIZE iv with None => l | Some v => all_moved v old b l end.

(** The oldest settings come into force, unless none were submitted. *)
Definition acknowledged ss ss' : Prop :=
  match inflight_settings ss with
  | [] => kin ss ss'
  | iv :: rest => server ss' = server ss /\ own_settings ss' = (store_settings (local_settings ss) iv, rest) /\
      locals_by (acknowledged_window (to_int32 (initial_window_size (local_settings ss))) iv) ss ss'
  end.

Definition acknowledged_sizes ss i i' : Prop := match inflight_settings ss with [] => i' = i | iv :: _ => inflater_took (entries_for header_size iv) i i' end.

Lemma acknowledged_ok ss i i' : inflater_ok i -> acknowledged_sizes ss i i' -> inflater_ok i'.
Proof using. unfold acknowledged_sizes. destruct (inflight_settings ss); [by intros H ->|apply took_inflater_ok]. Qed.

(** Windows still grow when the oldest settings are in force. *)
Lemma acknowledged_grow ss ss' : windows_grow ss -> acknowledged ss ss' -> windows_grow ss'.
Proof using.
  unfold acknowledged. intros HG. destruct (inflight_settings ss) as [|iv rest] eqn:E; [intros [_ H]; by eapply own_grow|]. intros (_ & [= El Ei] & _). unfold windows_grow in *.
  rewrite E in HG. cbn [growing] in HG. destruct HG as [Hv HG]. rewrite El, Ei, stored_window. destruct (last_entry _ iv) as [v|] eqn:Ev; [|done].
  destruct HG as [Hold HG]. cbn [default]. unfold id. pose proof (last_entry_u32 _ _ _ Hv Ev). by rewrite to_int32_id by (unfold is_u32 in *; flow_lia).
Qed.

(** The first half of [nghttp2_session_update_local_settings]. *)
Lemma sp_grow_local n m ss iv rest : steady n m ss -> windows_grow ss -> inflight_settings ss = iv :: rest -> 2 ^ 23 <= n ->
  let size := default (-1) (to_int32 <$> last_entry NGHTTP2_SETTINGS_INITIAL_WINDOW_SIZE iv) in
  let old := to_int32 (initial_window_size (local_settings ss)) in
  sp (if negb (size =? -1) then session_update_local_initial_window_size realloc_ok malloc_ok new_stream new_item map_each size old else mret 0) ss
    (fun rv ss' => rv = NGHTTP2_ERR_NOMEM \/ rv = 0 /\ steady (n - 2 ^ 23) m ss' /\ se_conf ss' = se_conf ss /\ locals_by (acknowledged_window old iv) ss ss').
Proof using Hitem Heach.
  intros HT HG Ein Hn size old. pose proof (fk_local _ (st_opened _ _ _ HT) : 0 <= old) as Hold. unfold windows_grow in HG. rewrite Ein in HG. cbn [growing] in HG.
  destruct HG as [Hv HG]. unfold acknowledged_window. subst size. destruct (last_entry _ iv) as [v|] eqn:Ev.
  - destruct HG as [Hgrow _]. fold old in Hgrow. cbn [fmap option_fmap option_map default]. unfold id. pose proof (last_entry_u32 _ _ _ Hv Ev). rewrite to_int32_id by (unfold is_u32 in *; flow_lia).
    rewrite (proj2 (Z.eqb_neq v (-1))) by lia. apply sp_grow_streams; [done|done|lia].
  - cbn [fmap option_fmap option_map default]. change (negb (-1 =? -1)) with false. cbn iota. sp_step. right. split; [done|]. split; [eapply steady_less; [exact HT|lia|done]|]. split; [done|]. intros b t Hb. by exists t.
Qed.

Lemma sp_acknowledged n m ss (f : nghttp2_settings) i : steady n m ss -> inflater_ok i -> windows_grow ss -> entry_cost <= n ->
  sp (settings_acknowledged realloc_ok malloc_ok new_stream new_item on_frame_recv on_invalid_frame map_each f i) ss (fun r ss' => acknowledged_sizes ss i r.1 /\
    answered (fun ss' => steady (n - entry_cost) m ss' /\ acknowledged ss ss') r.2 ss').
Proof using All.
  intros HT HI HG Hn. pose proof (cs_pos _ _ _ _ _ Happ) as Hc. unfold settings_acknowledged, acknowledged, acknowledged_sizes, entry_cost in *. cbv zeta. do 2 sp_step.
  destruct (inflight_settings ss) as [|iv rest] eqn:Ein.
  { sp_step. eapply sp_mono; [apply (sp_invalid n m ss); [done|lia|done]|]. intros rv ss' [H1 H2 H3]. sp_step. split; [done|]. split; [done|]. intros Hf.
    split; [eapply steady_less; [by apply H2|lia|done]|]. unfold kin, own_settings. by rewrite (H3 Hf). }
  assert (values_u32 iv) as Hu by (unfold windows_grow in HG; rewrite Ein in HG; apply HG).
  destruct (inflater_takes i iv HI Hu) as (i' & E & Htook). sp_step. unfold nghttp2_session_update_local_settings. sp_step. eapply sp_defined; [exact E|]. cbn iota beta.
  change (negb (0 =? 0)) with false. cbn iota. do 2 sp_step. cbv zeta. sp_step. eapply sp_mono; [apply (sp_grow_local n m ss iv rest); [done|done|done|lia]|].
  intros rv ss0 [-> |(-> & HT0 & EC0 & HL)].
  { change (negb (NGHTTP2_ERR_NOMEM =? 0)) with true. cbn iota. sp_step. cbn iota beta. do 2 sp_step. change (negb (NGHTTP2_ERR_NOMEM =? 0)) with true. change (nghttp2_is_fatal NGHTTP2_ERR_NOMEM) with true.
    cbn iota. sp_step. split; [done|]. by split; [known|]. }
  change (negb (0 =? 0)) with false. cbn iota. do 3 sp_step. cbn iota beta. do 2 sp_step. change (negb (0 =? 0)) with false. cbn iota. sp_step.
  set (ss1 := upd_conf _ ss0). set (ss2 := upd_conf (inflight_settings_to rest) ss1).
  assert (steady (n - 2 ^ 23) m ss1) as HT1.
  { apply conf_steady; [exact HT0|done|exact (st_mode _ _ _ HT0)|]. apply opened_flow_ok. simpl. rewrite stored_window, EC0. unfold windows_grow in HG. rewrite Ein in HG. cbn [growing] in HG.
    pose proof (fk_local _ (st_opened _ _ _ HT) : 0 <= to_int32 (initial_window_size (local_settings ss))) as Hold. destruct HG as [_ HG]. destruct (last_entry _ iv) as [v|]; [|exact Hold].
    destruct HG as [HG _]. cbn [default]. unfold id. rewrite to_int32_id; flow_lia. }
  assert (steady (n - 2 ^ 23) m ss2) as HT2 by (by apply (remote_steady _ m (inflight_settings_to rest) ss1 HT1)).
  eapply sp_mono; [apply (sp_frame_calm realloc_ok malloc_ok new_stream new_item on_frame_recv on_invalid_frame on_begin_headers on_stream_close Hfresh Hitem c Happ (n - 2 ^ 23) m ss2); [done|lia]|].
  intros rv ss3 ([H1 H2 H3] & HC & _). sp_step. split; [done|]. split; [done|]. cbn [fst snd]. intros Hf. split; [eapply steady_less; [by apply H2|lia|done]|].
  unfold own_settings. rewrite (H3 Hf). split; [by rewrite <- EC0|]. split; [by rewrite <- EC0|]. eapply calm_moved; [exact local_unmarked| |exact HC]. exact HL.
Qed.

(** ** A SETTINGS frame *)

Definition settings_cost (f : nghttp2_settings) : Z := entry_cost * (zlen (st_iv f) + 1) + (c + 1).

Abbreviation on_settings := (nghttp2_session_on_settings_received realloc_ok malloc_ok new_stream new_item on_frame_recv on_invalid_frame map_each).

Definition is_ack (f : nghttp2_settings) : bool := flag_set (hd_flags (st_hd f)) NGHTTP2_FLAG_ACK.

(** What a SETTINGS frame of the peer on stream 0 means. *)
Definition announced_settings ss (f : nghttp2_settings) d d' ss' : Prop := entries_refused (server ss) (first_remote ss) (st_iv f) = false ->
  remote_settings ss' = settled (store_settings (first_remote ss) (st_iv f)) /\ windows_by (entries_windows (first_remote ss) (st_iv f)) ss ss' /\
  deflater_took (entries_for header_size (st_iv f)) d d'.

Lemma settings_cost_enough f : entry_cost <= settings_cost f.
Proof using All. pose proof (cs_pos _ _ _ _ _ Happ) as Hc. unfold settings_cost, entry_cost. nia. Qed.

Lemma sp_announced n m ss (f : nghttp2_settings) noack hd : steady n m ss -> hd_ok hd -> values_u32 (st_iv f) -> settings_cost f <= n ->
  hd_stream_id (st_hd f) = 0 -> is_ack f = false ->
  sp (on_settings f noack hd) ss (fun r ss' => hd_ok r.1 /\ hd_inflater r.1 = hd_inflater hd /\
    answered (fun ss' => steady (n - settings_cost f) m ss' /\ kin ss ss' /\ announced_settings ss f (hd_deflater hd) (hd_deflater r.1) ss') r.2 ss').
Proof using All.
  intros HT [Hd Hi] Hv Hn Hid Hack. pose proof (cs_pos _ _ _ _ _ Happ) as Hc. unfold settings_cost in *. rewrite Z.mul_add_distr_l, Z.mul_1_r in *.
  assert (0 <= entry_cost * zlen (st_iv f) /\ c + 1 <= entry_cost) as [Hpos He] by (unfold entry_cost; nia).
  unfold nghttp2_session_on_settings_received. cbv zeta. rewrite Hid. change (negb (0 =? 0)) with false. cbn iota. unfold is_ack in Hack. rewrite Hack.
  sp_step. eapply (sp_first_settings n m); [exact HT|]. intros ss1 HT1 [K1 K2] ER1 ES1. sp_step.
  eapply sp_mono; [apply (sp_remote_entries _ _ n m ss1); [done|done|done|lia]|]. intros [d r] ss2 [Hd2 H2]. cbn [fst snd] in Hd2, H2. rewrite K1, ER1 in H2. cbn iota beta.
  destruct r as [rv|].
  - sp_step. split; [done|]. split; [done|]. cbn [fst snd]. destruct H2 as [Hr [Hdoc Hs]]. split; [done|]. intros Hf. destruct (Hs Hf) as [HT2 [K3 K4]].
    split; [eapply steady_less; [exact HT2|lia|done]|]. split; [split; congruence|]. intros Hno. destruct Hr; congruence.
  - destruct H2 as (Hno & Htook & HT2 & EC2 & HW2). sp_step. eapply sp_settle; [exact HT2|]. intros ss3 HT3 [K3 K4] ER3 ES3. sp_step.
    eapply sp_mono; [apply (sp_acknowledge _ m ss3 _ noack HT3); lia|]. intros rv ss4 [Hdoc Hs]. sp_step. split; [done|]. split; [done|]. cbn [fst snd]. split; [done|].
    intros Hf. destruct (Hs Hf) as [HT4 [U1 U2 U3 U4]]. split; [eapply steady_less; [exact HT4|lia|done]|]. split.
    { split; [rewrite U1, K3, EC2; exact K1|rewrite U2, K4; unfold own_settings; rewrite EC2; exact K2]. }
    intros _. split; [by rewrite U3, ER3, EC2|]. split; [|exact Htook]. intros b t Hb. rewrite <- ES1 in Hb. destruct (HW2 b t Hb) as (u & Hu & Eu). rewrite <- ES3 in Hu.
    destruct (U4 b u Hu) as (w & Hw & Ew). exists w. split; [done|congruence].
Qed.

(** Any SETTINGS frame. *)
Lemma sp_settings n m ss (f : nghttp2_settings) noack hd : steady n m ss -> hd_ok hd -> windows_grow ss -> values_u32 (st_iv f) -> settings_cost f <= n ->
  sp (on_settings f noack hd) ss (fun r ss' => hd_ok r.1 /\
    answered (fun ss' => steady (n - settings_cost f) m ss' /\ server ss' = server ss /\ windows_grow ss') r.2 ss').
Proof using All.
  intros HT Hhd HW Hv Hn. pose proof (settings_cost_enough f) as Hcost. pose proof (cs_pos _ _ _ _ _ Happ) as Hc. assert (c + 1 <= entry_cost) as He by (unfold entry_cost; lia).
  assert (forall frame err reason, zlen (default [] reason) + 8 <= NGHTTP2_MAX_PAYLOADLEN -> sp (let! rv := invalid_connection frame err reason in mret (hd, rv)) ss (fun r ss' => hd_ok r.1 /\
    answered (fun ss' => steady (n - settings_cost f) m ss' /\ server ss' = server ss /\ windows_grow ss') r.2 ss')) as Hbad.
  { intros frame err reason Hr. sp_step. eapply sp_mono; [apply (sp_invalid n m ss); [done|lia|done]|]. intros rv ss' [H1 H2 H3]. sp_step. split; [done|]. split; [done|].
    intros Hf. split; [eapply steady_less; [by apply H2|lia|done]|]. unfold windows_grow. by rewrite (H3 Hf). }
  destruct (hd_stream_id (st_hd f) =? 0) eqn:Eid.
  2: { unfold nghttp2_session_on_settings_received. cbv zeta. rewrite Eid. by apply Hbad. }
  destruct (is_ack f) eqn:Eack.
  - unfold nghttp2_session_on_settings_received. cbv zeta. rewrite Eid. unfold is_ack in Eack. rewrite Eack. simpl negb. cbn iota. destruct (negb _); [by apply Hbad|].
    sp_step. eapply sp_mono; [apply (sp_acknowledged n m ss f _ HT (proj2 Hhd) HW); lia|]. intros [i rv] ss' [Hi [Hd Hs]]. cbn [fst snd] in *. cbn iota beta. sp_step.
    split; [split; [apply Hhd|exact (acknowledged_ok _ _ _ (proj2 Hhd) Hi)]|]. split; [done|]. intros Hf. destruct (Hs Hf) as [HT' Hack]. split; [eapply steady_less; [exact HT'|lia|done]|].
    split; [|by eapply acknowledged_grow]. unfold acknowledged in Hack. destruct (inflight_settings ss); apply Hack.
  - eapply sp_mono; [apply (sp_announced n m ss f noack hd HT Hhd Hv Hn); [by apply Z.eqb_eq|done]|]. intros [hd' rv] ss' [Hh [_ [Hd Hs]]]. cbn [fst snd] in *.
    split; [done|]. split; [done|]. intros Hf. destruct (Hs Hf) as (HT' & [K1 K2] & _). split; [done|]. split; [done|]. by eapply own_grow.
Qed.

End Arriving.
