(* ===== verification/SessionInbound.v ===== *)
(** * Sessions: any sequence of frames

    The frames that a peer may send, one after the other, and what holds of
    the session whatever they are: it runs, it stays in order, and it knows
    the streams that the frames left in use. *)

From stdpp Require Import strings.
From S2P Require Import Prelude Defs Helper HdToken HdTable HdDeflate HdInflate HdRoundtrip Buf Ratelim Pq Frame FrameHeaders Http Stream StreamLinks StreamQueue StreamTree StreamItems StreamFrame.
From S2P Require Import Outbound Session SessionInv SessionTree SessionBooks SessionForest SessionOpen SessionClose SessionItems SessionNew SessionReach SessionSpec SessionTouch SessionSend SessionQueues SessionAdd SessionSendSpec SessionCalm SessionFlow SessionFlowSpec SessionCredit SessionDrift SessionAge SessionRecv SessionSettings SessionEntries SessionHpack SessionSteady SessionHandle SessionSettingsSpec.

Implicit Types (a b id n : Z) (m : nat) (s : nghttp2_stream) (ss : nghttp2_session) (frame : nghttp2_frame).

(** ** Frames *)

(** What [nghttp2_session_mem_recv2] hands to the handlers once it has read
    it: frames, the header of a DATA frame, the entries of SETTINGS, and the time
    for RST_STREAM. *)
Inductive inbound :=
  | InHeaders (f : nghttp2_headers)
  | InPriority (f : nghttp2_priority)
  | InRstStream (f : nghttp2_rst_stream) (now : Z)
  | InSettings (f : nghttp2_frame_hd) (es : list nghttp2_settings_entry)
  | InPushPromise (f : nghttp2_push_promise)
  | InPing (f : nghttp2_ping)
  | InGoaway (f : nghttp2_goaway)
  | InWindowUpdate (f : nghttp2_window_update)
  | InDataHeader (id : Z)
  | InData (f : nghttp2_data).

(** What unpacking a frame guarantees: weights are between 1 and 256, the
    reserved bit of an increment is gone, values of settings fit into 32 bits. *)
Definition inbound_ready (i : inbound) : bool :=
  match i with
  | InHeaders f => (1 <=? ps_weight (he_pri_spec f)) && (ps_weight (he_pri_spec f) <=? 256)
  | InPriority f => (1 <=? ps_weight (pr_spec f)) && (ps_weight (pr_spec f) <=? 256)
  | InWindowUpdate f => (0 <=? wu_increment f) && (wu_increment f <=? INT32_MAX)
  | InSettings f es => forallb (fun e => (0 <=? iv_value e) && (iv_value e <=? UINT32_MAX)) es
  | _ => true
  end.

(** The frames that leave the settings of the session alone. *)
Definition no_settings (i : inbound) : bool := match i with InSettings _ _ => false | _ => true end.

(** More frames than one that arrives can make a session queue, when each
    callback queues [c]: no more streams are in memory than [room] allows. *)
Definition share (c : Z) : Z := c * 2 ^ 23 + 1.

(** Each entry of SETTINGS, and an acknowledgement, may move the windows of all
    streams. *)
Definition need (c : Z) (i : inbound) : Z :=
  match i with
  | InSettings f es => entry_cost c * (zlen es + 1) + (c + 1)
  | _ => share c
  end.

Definition needs (c : Z) (frames : list inbound) : Z := foldr (fun i total => need c i + total) 0 frames.

(** A stream in use that has data to send is in its parent's queue. *)
Lemma active_scheduled n m ss id a s : steady n m ss -> live_stream ss id = Some a -> forall ss' n' m', steady n' m' ss' ->
  se_streams ss' !! a = Some s -> stream_active s = true -> queued s <> 0.
Proof.
  intros HT Hl ss' n' m' HT' Hs Hact. destruct (steady_sess _ _ _ HT) as (kids0 & lc0 & li0 & HO0). destruct (live_stream_role _ _ _ _ _ _ (so_books _ _ _ _ _ _ HO0) Hl) as (s0 & _ & _ & Hroot & _).
  destruct (steady_sess _ _ _ HT') as (kids & lc & li & HO). pose proof (sess_in_order _ _ _ _ HO) as HOd. pose proof (so_tree _ _ _ _ _ _ HO) as HI.
  assert (has_parent (se_streams ss') a) as Hp.
  { destruct (rtc_inv _ _ (od_tree _ HOd a ltac:(by eexists))) as [|(p & Hp & _)]; [done|by eapply parent_has]. }
  assert (live (se_streams ss') a) as Hlive by (left; exists s; done).
  apply (si_sync _ _ _ HI a Hp ltac:(tauto)) in Hlive as (s' & Hs' & Hq). congruence.
Qed.

Section Inbound.
Context (realloc_ok malloc_ok : nat -> bool) (new_stream : gmap Z nghttp2_stream -> Z) (new_item : gmap Z nghttp2_outbound_item -> Z).
Context (on_frame_recv : option (nghttp2_frame -> se_m Z)) (on_invalid_frame : option (nghttp2_frame -> Z -> se_m Z)).
Context (on_begin_headers : option (nghttp2_frame -> se_m Z)) (on_stream_close : option (Z -> Z -> se_m Z)).
Context (map_each : gmap Z Z -> list Z).

Definition receive (i : inbound) (hd : session_hd) : se_m (session_hd * Z) :=
  let keep (p : se_m Z) := let! rv := p in mret (hd, rv) in
  match i with
  | InHeaders f => keep (session_process_headers_frame realloc_ok malloc_ok new_stream new_item on_invalid_frame on_begin_headers f)
  | InPriority f => keep (nghttp2_session_on_priority_received realloc_ok malloc_ok new_stream new_item on_frame_recv on_invalid_frame f)
  | InRstStream f now => keep (nghttp2_session_on_rst_stream_received realloc_ok malloc_ok new_stream new_item on_frame_recv on_invalid_frame on_stream_close f now)
  | InSettings f es => session_process_settings_frame realloc_ok malloc_ok new_stream new_item on_frame_recv on_invalid_frame map_each f (block_of es) hd
  | InPushPromise f => keep (nghttp2_session_on_push_promise_received realloc_ok malloc_ok new_stream new_item on_invalid_frame on_begin_headers f)
  | InPing f => keep (nghttp2_session_on_ping_received realloc_ok malloc_ok new_stream new_item on_frame_recv on_invalid_frame f)
  | InGoaway f => keep (nghttp2_session_on_goaway_received realloc_ok malloc_ok new_stream new_item on_frame_recv on_invalid_frame on_stream_close map_each f)
  | InWindowUpdate f => keep (nghttp2_session_on_window_update_received realloc_ok malloc_ok new_stream new_item on_frame_recv on_invalid_frame f)
  | InDataHeader id => keep (session_on_data_received_fail_fast realloc_ok malloc_ok new_stream new_item id)
  | InData f => keep (session_process_data_frame realloc_ok malloc_ok new_stream new_item on_frame_recv on_stream_close f)
  end.

(** [if (nghttp2_is_fatal(rv)) return rv;] after every frame. *)
Fixpoint receive_all (frames : list inbound) (hd : session_hd) : se_m (session_hd * Z) :=
  match frames with
  | [] => mret (hd, 0)
  | i :: frames =>
      let! (hd, rv) := receive i hd in
      if nghttp2_is_fatal rv then mret (hd, rv) else receive_all frames hd
  end.

Section Runs.
Context (Hfresh : forall h, h !! new_stream h = None) (Hitem : forall its, its !! new_item its = None).
Context (c : Z) (Happ : considerate c on_frame_recv on_invalid_frame on_begin_headers on_stream_close).
Context (Heach : forall M, map_each M ≡ₚ (map_to_list M).*2).

Lemma share_enough n m ss : steady n m ss -> share c <= n -> cost c <= n /\ goaway_cost c ss <= n /\ share c >= goaway_cost c ss /\ share c >= cost c.
Proof using All.
  intros HT Hn. pose proof (cs_pos _ _ _ _ _ Happ) as Hc. pose proof (st_room _ _ _ HT) as HR. unfold room, INT32_MAX in HR. unfold share, cost, goaway_cost in *.
  assert (1 + Z.of_nat (size (se_streams ss)) <= 2 ^ 23) as Hsz by lia. pose proof (Z.mul_le_mono_nonneg_l _ _ c Hc Hsz). lia.
Qed.

(** What frames leave of a session, [quiet] if none of them were SETTINGS. *)
Definition kept n m ss (quiet : bool) ss' : Prop := steady n m ss' /\ server ss' = server ss /\ windows_grow ss' /\
  (quiet = true -> se_conf ss' = se_conf ss).

Definition heard n m ss (quiet : bool) (r : session_hd * Z) ss' : Prop := hd_ok r.1 /\ answered (kept n m ss quiet) r.2 ss'.

Lemma sp_keep n m n' m' ss hd quiet (p : se_m Z) : hd_ok hd -> windows_grow ss -> sp p ss (handled n m ss) -> n' <= n -> (m' <= m)%nat ->
  sp (let! rv := p in mret (hd, rv)) ss (heard n' m' ss quiet).
Proof using.
  intros Hhd HW Hp Hn Hm. sp_step. eapply sp_mono; [exact Hp|]. intros rv ss' [H1 H2 H3]. sp_step. split; [done|]. split; [done|]. cbn [snd]. intros Hf.
  specialize (H3 Hf). split; [eapply steady_less; [by apply H2|done|done]|]. unfold windows_grow. by rewrite H3.
Qed.

Lemma ready_u32 f es : inbound_ready (InSettings f es) = true -> values_u32 es.
Proof using.
  simpl. rewrite forallb_forall. intros H. apply Forall_forall. intros e He. specialize (H e (proj1 (list_elem_of_In _ _) He)). unfold is_u32, UINT32_MAX in *. lia.
Qed.

Lemma sp_receive n m ss i hd : steady n m ss -> hd_ok hd -> windows_grow ss -> need c i <= n -> (2 <= m)%nat -> inbound_ready i = true ->
  sp (receive i hd) ss (heard (n - need c i) (m - 2) ss (no_settings i)).
Proof using All.
  intros HT Hhd HW Hn Hm Hi. pose proof (cs_pos _ _ _ _ _ Happ) as Hc. destruct (no_settings i) eqn:Eno.
  - assert (need c i = share c) as En by (by destruct i). rewrite En in *. destruct (share_enough _ _ _ HT Hn) as (H1 & H2 & H3 & H4).
    assert (forall p, sp p ss (handled (n - cost c) (m - 2) ss) -> sp (let! rv := p in mret (hd, rv)) ss (heard (n - share c) (m - 2) ss true)) as Hkeep.
    { intros p Hp. eapply sp_keep; [done|done|exact Hp|lia|done]. }
    destruct i as [f|f|f now|f es|f|f|f|f|id|f]; simpl in Hi; cbn [receive]; try done.
    + apply andb_prop in Hi as [? ?]. apply Hkeep. eapply sp_process_headers; try done. lia.
    + apply andb_prop in Hi as [? ?]. apply Hkeep. eapply sp_priority; try done. lia.
    + apply Hkeep. by eapply sp_rst_stream.
    + apply Hkeep. by eapply sp_push_promise.
    + apply Hkeep. by eapply sp_ping.
    + eapply sp_keep; [done|done|eapply sp_goaway; done|lia|by apply Nat.le_sub_l].
    + apply andb_prop in Hi as [? ?]. apply Hkeep. eapply sp_window_update; try done. lia.
    + apply Hkeep. by eapply sp_fail_fast.
    + apply Hkeep. by eapply sp_data.
  - destruct i as [| | |f es| | | | | |]; try done. destruct (block_kept es (ready_u32 _ _ Hi)) as (iv & E & Hlen & Hu). cbn [receive need] in *.
    assert (settings_cost c (mk_settings f iv) <= entry_cost c * (zlen es + 1) + (c + 1)) as Hcost.
    { unfold settings_cost. cbn [st_iv]. assert (0 <= entry_cost c) by (unfold entry_cost; lia). nia. }
    unfold session_process_settings_frame. sp_step. apply (sp_mono _ _ (fun got ss1 => got = iv /\ ss1 = ss)).
    { destruct (block_of es); [eapply sp_defined; [exact E|done]|]. injection E as <-. by sp_step. }
    intros got ss1 [-> ->]. eapply sp_mono; [eapply (sp_settings realloc_ok malloc_ok new_stream new_item on_frame_recv on_invalid_frame on_begin_headers on_stream_close Hfresh Hitem c Happ map_each Heach n m ss (mk_settings f iv)); [done|done|done|done|lia]|].
    intros [hd' rv] ss' [Hh [Hd Hs]]. split; [done|]. split; [done|]. cbn [fst snd] in *. intros Hf. destruct (Hs Hf) as (HT' & Esv & HW'). split; [eapply steady_less; [exact HT'|lia|lia]|].
    by split.
Qed.

Lemma sp_receive_all frames : forall n m ss hd, steady n m ss -> hd_ok hd -> windows_grow ss -> needs c frames <= n -> (2 * length frames <= m)%nat ->
  Forall (fun i => inbound_ready i = true) frames -> sp (receive_all frames hd) ss (heard 0 0 ss (forallb no_settings frames)).
Proof using All.
  pose proof (cs_pos _ _ _ _ _ Happ) as Hc. assert (forall i, 0 <= need c i) as Hpos.
  { intros i. assert (0 < share c /\ 0 <= entry_cost c) by (unfold share, entry_cost; lia). destruct i; cbn [need]; nia. }
  assert (forall frames, 0 <= needs c frames) as Hposs.
  { intros fs. induction fs as [|i fs IHf]; [done|]. change (needs c (i :: fs)) with (need c i + needs c fs). specialize (Hpos i). lia. }
  induction frames as [|i frames IH]; intros n m ss hd HT Hhd HW Hn Hm Hf; cbn [receive_all].
  { sp_step. split; [done|]. split; [known|]. intros _. split; [eapply steady_less; [exact HT|simpl in Hn; lia|lia]|done]. }
  inversion_clear Hf as [|? ? Hi Hrest]. rewrite length_cons in Hm. change (needs c (i :: frames)) with (need c i + needs c frames) in Hn. pose proof (Hposs frames) as Hfr.
  sp_step. eapply sp_mono; [apply (sp_receive n m); [done|done|done|lia|lia|done]|]. intros [hd1 rv] ss1 [Hhd1 [Hd1 Hs1]]. cbn [fst snd] in *. cbn iota beta.
  destruct (nghttp2_is_fatal rv) eqn:Ef; [sp_step; split; [done|]; split; [done|]; simpl; congruence|]. destruct (Hs1 eq_refl) as (HT1 & Esv1 & HW1 & Eq1).
  eapply sp_mono; [apply (IH (n - need c i) (m - 2)%nat ss1); [done|done|done|lia|lia|done]|]. intros [hd2 rv2] ss2 [Hhd2 [Hd2 Hs2]]. cbn [fst snd] in *. split; [done|]. split; [done|].
  intros Hf2. destruct (Hs2 Hf2) as (HT2 & Esv2 & HW2 & Eq2). split; [done|]. split; [congruence|]. split; [done|]. cbn [forallb]. intros [Q1 Q2]%andb_prop. rewrite (Eq2 Q2). by apply Eq1.
Qed.

(** *** A stream that waits for its window *)

(** What a WINDOW_UPDATE frame leaves of the stream at [a]. *)
Definition unblocked a (size : Z) ss' : Prop := exists s, se_streams ss' !! a = Some s /\ remote_window_size s = size /\
  (0 < size -> nghttp2_stream_check_deferred_by_flow_control s = false).

Lemma calm_unblocked ss ss' a size : calm ss ss' -> unblocked a size ss -> unblocked a size ss'.
Proof using.
  intros HC (s & Hs & Hr & Hd). destruct (cm_streams _ _ HC a s Hs) as (s' & Hs' & HG & _ & _ & HM & _). exists s'. split; [done|].
  split; [destruct HM as [-> | ->]; exact Hr|]. intros Hpos. specialize (Hd Hpos). unfold nghttp2_stream_check_deferred_by_flow_control in *.
  rewrite (ge_item _ _ HG). change NGHTTP2_STREAM_FLAG_DEFERRED_FLOW_CONTROL with (NGHTTP2_STREAM_FLAG_DEFERRED_ALL .& 4) in *.
  rewrite Z.land_assoc, (ge_flags _ _ HG), <- Z.land_assoc by auto. exact Hd.
Qed.

Lemma sp_unblocks n m ss (f : nghttp2_window_update) a s : steady n m ss -> cost c <= n -> hd_stream_id (wu_hd f) <> 0 ->
  session_detect_idle_stream ss (hd_stream_id (wu_hd f)) = false -> live_stream ss (hd_stream_id (wu_hd f)) = Some a -> se_streams ss !! a = Some s ->
  state_reserved_remote ss s = false -> 0 < wu_increment f <= INT32_MAX -> remote_window_size s + wu_increment f <= NGHTTP2_MAX_WINDOW_SIZE ->
  sp (nghttp2_session_on_window_update_received realloc_ok malloc_ok new_stream new_item on_frame_recv on_invalid_frame f) ss
    (fun rv ss' => documented rv /\ (nghttp2_is_fatal rv = false -> unblocked a (remote_window_size s + wu_increment f) ss')).
Proof using Hfresh Hitem Happ.
  intros HT Hn Hid Hidle Hl Hs Hres Hinc Hmax. pose proof (cs_pos _ _ _ _ _ Happ) as Hc.
  unfold nghttp2_session_on_window_update_received, session_on_stream_window_update_received. rewrite (proj2 (Z.eqb_neq _ _) Hid). cbv zeta. do 2 sp_step.
  rewrite Hidle. destruct (steady_sess _ _ _ HT) as (kids & lc & li & HO). sp_step. eapply sp_get_stream; [apply HO|]. rewrite Hl. sp_step. eapply sp_load; [exact Hs|].
  rewrite Hres, (proj2 (Z.eqb_neq (wu_increment f) 0)) by lia. sp_step. eapply sp_defined; [apply increment_limit; lia|].
  rewrite (proj2 (Z.ltb_ge _ _)) by lia. pose proof (proj2 (st_flows _ _ _ HT) a s Hs) as HF0.
  destruct (opened_more (st_flow s) (wu_increment f)) as [E HF]; [done|lia|lia|]. sp_step. eapply sp_defined; [exact E|]. sp_step. eapply sp_modify; [exact Hs|].
  set (size := remote_window_size s + wu_increment f) in *. set (s1 := upd_flow _ s). set (ss1 := streams_to _ ss).
  assert (steady n m ss1) as HT1 by (eapply touched_steady; [exact HT|exact Hs|apply gently_flow|done|exact HF]).
  assert (se_streams ss1 !! a = Some s1) as Hs1 by (unfold ss1; by rewrite se_streams_to, lookup_insert_eq). sp_step. eapply sp_load; [exact Hs1|].
  assert (forall ss2, steady n m ss2 -> unblocked a size ss2 -> sp (session_call_on_frame_received on_frame_recv (FrControl (FrWindowUpdate f))) ss2
    (fun rv ss' => documented rv /\ (nghttp2_is_fatal rv = false -> unblocked a size ss'))) as Hend.
  { intros ss2 HT2 HU. eapply sp_mono; [apply (sp_frame_calm realloc_ok malloc_ok new_stream new_item on_frame_recv on_invalid_frame on_begin_headers on_stream_close Hfresh Hitem c Happ n m ss2); [exact HT2|unfold cost in Hn; lia]|]. intros rv ss3 (HH & HC & _).
    split; [apply HH|]. intros _. by eapply calm_unblocked. }
  destruct (0 <? remote_window_size s1) eqn:Epos; simpl andb.
  2: { do 2 sp_step. apply Hend; [done|]. exists s1. split; [done|]. split; [done|]. apply Z.ltb_ge in Epos. change (remote_window_size s1) with size in Epos. lia. }
  destruct (nghttp2_stream_check_deferred_by_flow_control s1) eqn:Edef.
  - unfold nghttp2_stream_check_deferred_by_flow_control in Edef. apply andb_prop in Edef as [Hit%bool_decide_eq_true _].
    sp_step. eapply sp_mono; [apply (sp_resume_steady realloc_ok n m ss1 a s1); [done|done|done|by left]|].
    intros rv ss2 [-> |(-> & HT2 & EC2 & (s2 & Hs2 & Efl & Ef) & _)]; simpl; [sp_step; split; [known|done]|]. apply Hend; [done|]. exists s2. split; [done|].
    split; [by rewrite Efl|]. intros _. unfold nghttp2_stream_check_deferred_by_flow_control. rewrite Ef, u8_land, <- Z.land_assoc by done.
    by rewrite Z.land_0_r, andb_false_r.
  - do 2 sp_step. apply Hend; [done|]. by exists s1.
Qed.

End Runs.

(** ** Claims *)

(** C7: whatever frames a peer sends, as unpacking yields them, in whatever
    order and about whatever streams: when the application's callbacks do no
    more than queue frames, up to [c] each, and none of the settings that wait
    to be acknowledged makes the initial window smaller ([windows_grow]; a
    smaller one can take a window below zero, where the data that arrives next
    overflows, [negative_window_overflows]), then from a session in order
    ([steady]: it uses the priorities of RFC 7540, and its counters have room
    for the streams and frames to come) every handler returns - no assertion
    fails, no pointer dangles, no window overflows - with one of the codes that
    [nghttp2_session_mem_recv2] knows; and unless it is a fatal one the
    session is in order afterwards: its table, tree, lists, counters, queues
    and windows, and both HPACK contexts; and its settings are what they were
    unless a SETTINGS frame was among the frames. *)
Theorem received_frames_safe c frames hd ss : (forall h, h !! new_stream h = None) -> (forall its, its !! new_item its = None) ->
  considerate c on_frame_recv on_invalid_frame on_begin_headers on_stream_close -> (forall M, map_each M ≡ₚ (map_to_list M).*2) ->
  steady (needs c frames) (2 * length frames) ss -> hd_ok hd -> windows_grow ss -> Forall (fun i => inbound_ready i = true) frames ->
  exists ss' hd' rv, receive_all frames hd ss = Some (ss', (hd', rv)) /\ documented rv /\ hd_ok hd' /\
    (nghttp2_is_fatal rv = false -> in_order ss' /\ queues_in_order ss' /\ flows_ok ss' /\ server ss' = server ss /\ (forallb no_settings frames = true -> se_conf ss' = se_conf ss)).
Proof using.
  intros Hfresh Hitem Happ Heach HT Hhd HW Hf.
  edestruct (sp_run _ ss _ (sp_receive_all Hfresh Hitem c Happ Heach frames _ _ ss hd HT Hhd HW ltac:(done) ltac:(done) Hf)) as (ss' & [hd' rv] & E & Hh & Hd & Hs).
  exists ss', hd', rv. split; [exact E|]. split; [exact Hd|]. split; [exact Hh|]. intros Hrv. destruct (Hs Hrv) as (HT' & Esv & _ & Eq).
  destruct (steady_sess _ _ _ HT') as (kids & lc & li & HO). destruct (sd_queues _ _ (st_sound _ _ _ HT')) as (L & HQ & HY).
  split; [by eapply sess_in_order|]. split; [by exists L|]. split; [apply HT'|by split].
Qed.

(** C12: RST_STREAM ends a stream: unless a callback or the allocator fails,
    the stream of the frame is not in use afterwards, whatever state it was
    in, and every other stream is in use just when it was before. *)
Theorem rst_stream_retires c n m ss (f : nghttp2_rst_stream) now : (forall h, h !! new_stream h = None) -> (forall its, its !! new_item its = None) ->
  considerate c on_frame_recv on_invalid_frame on_begin_headers on_stream_close -> steady n m ss -> cost c <= n ->
  hd_stream_id (rs_hd f) <> 0 -> session_detect_idle_stream ss (hd_stream_id (rs_hd f)) = false ->
  exists ss' rv, nghttp2_session_on_rst_stream_received realloc_ok malloc_ok new_stream new_item on_frame_recv on_invalid_frame on_stream_close f now ss = Some (ss', rv) /\
    documented rv /\ (nghttp2_is_fatal rv = false -> in_order ss' /\
      forall id, live_stream ss' id = if decide (id = hd_stream_id (rs_hd f)) then None else live_stream ss id).
Proof using.
  intros Hfresh Hitem Happ HT Hn Hid Hidle.
  apply (sp_run _ ss (fun rv ss' => documented rv /\ (nghttp2_is_fatal rv = false -> in_order ss' /\
      forall id, live_stream ss' id = if decide (id = hd_stream_id (rs_hd f)) then None else live_stream ss id))).
  eapply sp_mono; [by eapply sp_rst_gone|]. intros rv ss' [[H1 H2 H3] HR]. split; [done|]. intros Hrv. split; [|exact (HR Hrv)].
  destruct (steady_sess _ _ _ (H2 Hrv)) as (kids & lc & li & HO). by eapply sess_in_order.
Qed.

(** C13: a valid GOAWAY closes exactly the streams that the peer will not
    process: afterwards no stream of our own with an id above the announced
    one is in use, and every other stream is in use just when it was before,
    although streams are closed, and the application called, one at a time
    while the table changes under the loop. *)
Theorem goaway_closes_unprocessed c n m ss (f : nghttp2_goaway) : (forall h, h !! new_stream h = None) -> (forall its, its !! new_item its = None) ->
  considerate c on_frame_recv on_invalid_frame on_begin_headers on_stream_close -> (forall M, map_each M ≡ₚ (map_to_list M).*2) ->
  steady n m ss -> goaway_cost c ss <= n -> valid_goaway ss f = true ->
  exists ss' rv, nghttp2_session_on_goaway_received realloc_ok malloc_ok new_stream new_item on_frame_recv on_invalid_frame on_stream_close map_each f ss = Some (ss', rv) /\
    documented rv /\ (nghttp2_is_fatal rv = false -> in_order ss' /\
      forall id, live_stream ss' id = if nghttp2_session_is_my_stream_id ss id && (ga_last_stream_id f <? id) then None else live_stream ss id).
Proof using.
  intros Hfresh Hitem Happ Heach HT Hn Hv.
  apply (sp_run _ ss (fun rv ss' => documented rv /\ (nghttp2_is_fatal rv = false -> in_order ss' /\
      forall id, live_stream ss' id = if nghttp2_session_is_my_stream_id ss id && (ga_last_stream_id f <? id) then None else live_stream ss id))).
  eapply sp_mono; [by eapply sp_goaway_exact|]. intros rv ss' [[H1 H2 H3] HR]. split; [done|]. intros Hrv. split; [|exact (HR Hrv)].
  destruct (steady_sess _ _ _ (H2 Hrv)) as (kids & lc & li & HO). by eapply sess_in_order.
Qed.

(** C14: a WINDOW_UPDATE frame for a stream in use, not reserved by the peer,
    adds its increment to the stream's window - no signed arithmetic
    overflows when both fit into a window - and when the window is open then,
    the stream no longer waits for it; a stream that has data and that
    nothing else defers is in the queue of its parent, to be sent. *)
Theorem window_update_unblocks c n m ss (f : nghttp2_window_update) a s : (forall h, h !! new_stream h = None) -> (forall its, its !! new_item its = None) ->
  considerate c on_frame_recv on_invalid_frame on_begin_headers on_stream_close -> steady n m ss -> cost c <= n ->
  hd_stream_id (wu_hd f) <> 0 -> session_detect_idle_stream ss (hd_stream_id (wu_hd f)) = false ->
  live_stream ss (hd_stream_id (wu_hd f)) = Some a -> se_streams ss !! a = Some s -> state_reserved_remote ss s = false ->
  0 < wu_increment f <= INT32_MAX -> remote_window_size s + wu_increment f <= NGHTTP2_MAX_WINDOW_SIZE ->
  exists ss' rv, nghttp2_session_on_window_update_received realloc_ok malloc_ok new_stream new_item on_frame_recv on_invalid_frame f ss = Some (ss', rv) /\
    documented rv /\ (nghttp2_is_fatal rv = false -> exists s', se_streams ss' !! a = Some s' /\
      remote_window_size s' = remote_window_size s + wu_increment f /\
      (0 < remote_window_size s' -> nghttp2_stream_check_deferred_by_flow_control s' = false) /\ (stream_active s' = true -> queued s' <> 0)).
Proof using.
  intros Hfresh Hitem Happ HT Hn Hid Hidle Hl Hs Hres Hinc Hmax.
  edestruct (sp_run _ ss _ (sp_unblocks Hfresh Hitem c Happ n m ss f a s HT Hn Hid Hidle Hl Hs Hres Hinc Hmax)) as (ss' & rv & E & Hd & HU).
  exists ss', rv. split; [exact E|]. split; [exact Hd|]. intros Hf. destruct (HU Hf) as (s' & H1 & H2 & H3). exists s'. split; [done|]. split; [done|].
  split; [by rewrite H2|]. pose proof (sp_window_update realloc_ok malloc_ok new_stream new_item on_frame_recv on_invalid_frame on_begin_headers on_stream_close Hfresh Hitem c Happ n m ss f HT Hn ltac:(lia)) as HH. unfold sp in HH. rewrite E in HH.
  eapply (active_scheduled n m ss _ a s' HT Hl); [by apply (ha_steady _ _ _ _ _ HH)|exact H1].
Qed.

End Inbound.

(** ** Witnesses *)

(** A check for the parts of the invariant that speak of single streams. *)
Definition stream_okb ss (p : Z * nghttp2_stream) : bool :=
  let '(a, s) := p in
  ((a =? root) || is_idle s || mine (server ss) (stream_id s) || (stream_id s <=? last_recv_stream_id ss)) &&
  (negb (bool_decide (state s = NGHTTP2_STREAM_RESERVED)) || (is_promised s && Bool.eqb (mine (server ss) (stream_id s)) (server ss))).

Lemma streams_checked ss : forallb (stream_okb ss) (map_to_list (se_streams ss)) = true ->
  (forall b s, old ss b s -> stream_id s <= last_recv_stream_id ss) /\
  (forall b s, se_streams ss !! b = Some s -> state s = NGHTTP2_STREAM_RESERVED -> promised_by (server ss) s).
Proof.
  rewrite forallb_forall. intros H. assert (forall b s, se_streams ss !! b = Some s -> stream_okb ss (b, s) = true) as Hb.
  { intros b s Hs. apply H, list_elem_of_In. by apply elem_of_map_to_list. }
  split.
  - intros b s (Hr & Hs & Hi & Hm). specialize (Hb b s Hs). unfold stream_okb in Hb. rewrite (proj2 (Z.eqb_neq _ _) Hr), Hi, Hm in Hb.
    apply andb_prop in Hb as [Hle _]. simpl in Hle. lia.
  - intros b s Hs Hst. specialize (Hb b s Hs). unfold stream_okb in Hb. apply andb_prop in Hb as [_ Hb]. rewrite Hst, bool_decide_true in Hb by done.
    simpl in Hb. apply andb_prop in Hb as [Hp Hm]. split; [done|by apply eqb_prop].
Qed.

Definition budget : Z := 2 ^ 60.

Lemma steady_checked n m g ss : sound n ss -> flows_ok ss -> let ss' := upd_ids g ss in
  room ss' m -> rfc7540 ss' -> flow_okb (opened_flow ss') = true -> mine (server ss') (last_recv_stream_id ss') || mine (server ss') (last_proc_stream_id ss') = false ->
  forallb (stream_okb ss') (map_to_list (se_streams ss')) = true -> steady n m ss'.
Proof.
  intros HS Hf ss' Hr Hm Ho Hids Hs. apply orb_false_iff in Hids as [H1 H2]. destruct (streams_checked ss' Hs) as [H3 H4].
  split; try done; [by apply received_sound|by apply flow_okb_ok].
Qed.

(** The server [closed1], with the streams 1, which is closed, 3 and 5. *)
Definition received_5 : session_ids -> session_ids := fun i => last_proc_stream_id_to 5 (last_recv_stream_id_to 5 i).
Definition received5 : nghttp2_session := upd_ids received_5 closed1.

Lemma closed1_sound_long : sound budget closed1.
Proof. destruct closed1_sound as [H1 H2 _ H4]. split; [exact H1|exact H2| |exact H4]. by vm_compute. Qed.

Lemma received5_steady : steady budget 100 received5.
Proof.
  apply (steady_checked budget 100 received_5 closed1 closed1_sound_long closed1_flows); [by vm_compute|intros H; vm_compute in H; discriminate|by vm_compute..].
Qed.

(** An application that queues a PING whenever it is called. *)
Definition pings : se_m Z := nghttp2_session_add_ping granting granting next_address next_item NGHTTP2_FLAG_NONE None.

Lemma pings_polite : polite 1 pings.
Proof. intros n ss HS Hm Hn. eapply sp_mono; [by apply (sp_ping_calm _ _ _ _ next_item_fresh n)|]. by intros rv ss' (_ & ? & ?). Qed.

Definition on_frame_demo : option (nghttp2_frame -> se_m Z) := Some (fun _ => pings).
Definition on_invalid_demo : option (nghttp2_frame -> Z -> se_m Z) := Some (fun _ _ => pings).
Definition on_close_demo : option (Z -> Z -> se_m Z) := Some (fun _ _ => pings).
Definition each (M : gmap Z Z) : list Z := (map_to_list M).*2.

Lemma demo_considerate : considerate 1 on_frame_demo on_invalid_demo on_frame_demo on_close_demo.
Proof. split; [done|intros f frame H|intros f frame err H|intros f frame H|intros f id err H]; inversion H; apply pings_polite. Qed.

(** The two HPACK contexts of a new session. *)
Definition demo_hd : option session_hd :=
  match nghttp2_hd_deflate_init2 zero_malloc 4096, nghttp2_hd_inflate_init zero_malloc with
  | inl d, inl i => Some (mk_hd d i)
  | _, _ => None
  end.

Lemma demo_hd_ok : exists hd, demo_hd = Some hd /\ hd_ok hd.
Proof.
  assert (bool_decide (is_Some demo_hd) = true) as [hd E]%bool_decide_eq_true by (by vm_compute). exists hd. split; [done|]. unfold demo_hd in E.
  destruct (nghttp2_hd_deflate_init2 zero_malloc 4096) as [d|] eqn:Ed; [|done]. destruct (nghttp2_hd_inflate_init zero_malloc) as [i|] eqn:Ei; [|done]. injection E as <-.
  destruct (init_linked zero_malloc 4096 d i) as [H1 H2 _ H3 _ _]; [by split|done|done|]. split; [by eexists _, _|]. eexists. split; [exact H2|]. simpl. by destruct H3 as [-> | [-> _]].
Qed.

(** Two SETTINGS frames are on their way; the first makes the windows larger. *)
Definition mine_first : list nghttp2_settings_entry :=
  [mk_iv NGHTTP2_SETTINGS_HEADER_TABLE_SIZE 0; mk_iv NGHTTP2_SETTINGS_MAX_CONCURRENT_STREAMS 7; mk_iv NGHTTP2_SETTINGS_HEADER_TABLE_SIZE 1024;
   mk_iv NGHTTP2_SETTINGS_INITIAL_WINDOW_SIZE 100000].
Definition mine_second : list nghttp2_settings_entry := [mk_iv NGHTTP2_SETTINGS_ENABLE_PUSH 0].
Definition waiting5 : nghttp2_session := upd_conf (inflight_settings_to [mine_first; mine_second]) received5.

Lemma waiting5_steady : steady budget 100 waiting5.
Proof. by apply (remote_steady budget 100 (inflight_settings_to [mine_first; mine_second]) received5 received5_steady). Qed.

Lemma waiting5_grow : windows_grow waiting5.
Proof.
  unfold windows_grow. assert (to_int32 (initial_window_size (local_settings waiting5)) = 65535) as -> by (by vm_compute).
  change (inflight_settings waiting5) with [mine_first; mine_second]. unfold mine_first, mine_second. split; [by repeat constructor|]. split; [done|]. by repeat constructor.
Qed.

(** A request; settings; what acknowledges ours; a priority for a stream that is idle; a request that is
    sent again; data; a stream that is reset, and then mentioned again; GOAWAY; a
    request that reuses an old id; a PUSH_PROMISE, which a client must not send. *)
Definition demo_frames : list inbound :=
  [InHeaders (nghttp2_frame_headers_init 4 7 0 (Some (pri_on 3 20 1)) []);
   InSettings (st_hd (nghttp2_frame_settings_init 0 [])) demo_entries; InSettings (st_hd (nghttp2_frame_settings_init NGHTTP2_FLAG_ACK [])) []; InPriority (nghttp2_frame_priority_init 11 (pri_on 7 9 0));
   InHeaders (nghttp2_frame_headers_init 4 7 0 None []); InDataHeader 5; InData (nghttp2_frame_data_init 1 5);
   InWindowUpdate (nghttp2_frame_window_update_init 0 7 1000); InRstStream (nghttp2_frame_rst_stream_init 7 8) 100;
   InWindowUpdate (nghttp2_frame_window_update_init 0 7 1000); InPing (nghttp2_frame_ping_init 0 None);
   InGoaway (nghttp2_frame_goaway_init 0 0 []); InHeaders (nghttp2_frame_headers_init 4 3 0 None []);
   InPushPromise (nghttp2_frame_push_promise_init 4 3 8 [])].

Abbreviation receive_demo := (receive_all granting granting next_address next_item on_frame_demo on_invalid_demo on_frame_demo on_close_demo each).

Lemma received_frames_safe_witness : exists hd, demo_hd = Some hd /\ exists ss' hd' rv, receive_demo demo_frames hd waiting5 = Some (ss', (hd', rv)) /\ documented rv /\ hd_ok hd' /\
  (nghttp2_is_fatal rv = false -> in_order ss' /\ queues_in_order ss' /\ flows_ok ss' /\ server ss' = server waiting5 /\
    (forallb no_settings demo_frames = true -> se_conf ss' = se_conf waiting5)).
Proof.
  destruct demo_hd_ok as (hd & E & Hhd). exists hd. split; [exact E|].
  apply (received_frames_safe granting granting next_address next_item on_frame_demo on_invalid_demo on_frame_demo on_close_demo each 1 demo_frames hd waiting5);
    [exact next_address_fresh|exact next_item_fresh|exact demo_considerate|done| |exact Hhd|exact waiting5_grow|by repeat constructor].
  eapply steady_less; [exact waiting5_steady|by vm_compute|simpl; lia].
Defined.

(** The session ends with an error that the PUSH_PROMISE made it announce. *)
Example demo_received : (hd ← demo_hd; (fun r : nghttp2_session * (session_hd * Z) => (r.2.2, ign_all r.1, last_recv_stream_id r.1, num_incoming_streams r.1,
    (initial_window_size (remote_settings r.1), initial_window_size (local_settings r.1), inflight_settings r.1))) <$>
  receive_demo demo_frames hd waiting5) = Some (0, true, 7, 2, (200, 100000, [mine_second])).
Proof. by vm_compute. Qed.

(** The stream 3 of the peer is reset. *)
Definition rst_3 : nghttp2_rst_stream := nghttp2_frame_rst_stream_init 3 NGHTTP2_CANCEL.

Lemma rst_stream_retires_witness : exists ss' rv,
  nghttp2_session_on_rst_stream_received granting granting next_address next_item on_frame_demo on_invalid_demo on_close_demo rst_3 100 received5 = Some (ss', rv) /\
    documented rv /\ (nghttp2_is_fatal rv = false -> in_order ss' /\ forall id, live_stream ss' id = if decide (id = 3) then None else live_stream received5 id).
Proof.
  apply (rst_stream_retires granting granting next_address next_item on_frame_demo on_invalid_demo on_frame_demo on_close_demo 1 budget 100 received5 rst_3 100);
    [exact next_address_fresh|exact next_item_fresh|exact demo_considerate|exact received5_steady|by vm_compute|done|by vm_compute].
Defined.

Example rst_3_retired : (fun r : nghttp2_session * Z => (r.2, live_stream r.1 <$> [3; 5])) <$>
  nghttp2_session_on_rst_stream_received granting granting next_address next_item on_frame_demo on_invalid_demo on_close_demo rst_3 100 received5 =
  Some (0, [None; live_stream received5 5]).
Proof. by vm_compute. Qed.

(** A client, with its streams 1, 3 and 5. *)
Definition fresh_client : nghttp2_session := nghttp2_session_client_new3 None.
Definition own1 : nghttp2_session := does (OpenStream 1 (pri_on 0 16 0) NGHTTP2_STREAM_OPENED None) fresh_client.
Definition own3 : nghttp2_session := does (OpenStream 3 (pri_on 1 32 0) NGHTTP2_STREAM_OPENED None) own1.
Definition own5 : nghttp2_session := does (OpenStream 5 (pri_on 1 64 1) NGHTTP2_STREAM_OPENED None) own3.

Lemma own5_reached : reached_as false own5.
Proof. unfold own5. opens_here. unfold own3. opens_here. unfold own1. opens_here. apply new_reached. Qed.

Lemma own5_sound : sound budget own5.
Proof.
  split; [exact (proj1 (reached_ok granting granting next_address None I next_address_fresh false own5 own5_reached))| |by vm_compute..].
  exists nothing_queued. split; [|apply no_requests]. apply empty_queues; [by vm_compute|]. intros []; by vm_compute.
Qed.

(** The ids that the client has used. *)
Definition sent_5 : session_ids -> session_ids := next_stream_id_to 7.
Definition sent5 : nghttp2_session := upd_ids sent_5 own5.

Lemma own5_flows : flows_ok own5.
Proof. apply flows_okb_ok. by vm_compute. Qed.

Lemma sent5_steady : steady budget 100 sent5.
Proof. apply (steady_checked budget 100 sent_5 own5 own5_sound own5_flows); [by vm_compute|intros H; vm_compute in H; discriminate|by vm_compute..]. Qed.

(** The server stops at stream 1. *)
Definition goaway_1 : nghttp2_goaway := nghttp2_frame_goaway_init 1 NGHTTP2_NO_ERROR [].

Lemma goaway_closes_unprocessed_witness : exists ss' rv,
  nghttp2_session_on_goaway_received granting granting next_address next_item on_frame_demo on_invalid_demo on_close_demo each goaway_1 sent5 = Some (ss', rv) /\
    documented rv /\ (nghttp2_is_fatal rv = false -> in_order ss' /\
      forall id, live_stream ss' id = if nghttp2_session_is_my_stream_id sent5 id && (1 <? id) then None else live_stream sent5 id).
Proof.
  apply (goaway_closes_unprocessed granting granting next_address next_item on_frame_demo on_invalid_demo on_frame_demo on_close_demo each 1 budget 100 sent5 goaway_1);
    [exact next_address_fresh|exact next_item_fresh|exact demo_considerate|done|exact sent5_steady|by vm_compute|by vm_compute].
Defined.

Example goaway_1_closes : (fun r : nghttp2_session * Z => (r.2, (fun id => bool_decide (is_Some (live_stream r.1 id))) <$> [1; 3; 5], num_outgoing_streams r.1)) <$>
  nghttp2_session_on_goaway_received granting granting next_address next_item on_frame_demo on_invalid_demo on_close_demo each goaway_1 sent5 =
  Some (0, [true; false; false], 1).
Proof. by vm_compute. Qed.

(** The peer's window of stream 3 grows. *)
Definition update_3 : nghttp2_window_update := nghttp2_frame_window_update_init 0 3 1000.

Definition received_3 : option nghttp2_stream := se_streams received5 !! address_3.

Lemma window_update_unblocks_witness : exists s, received_3 = Some s /\ exists ss' rv,
  nghttp2_session_on_window_update_received granting granting next_address next_item on_frame_demo on_invalid_demo update_3 received5 = Some (ss', rv) /\
    documented rv /\ (nghttp2_is_fatal rv = false -> exists s', se_streams ss' !! address_3 = Some s' /\
      remote_window_size s' = remote_window_size s + 1000 /\ (0 < remote_window_size s' -> nghttp2_stream_check_deferred_by_flow_control s' = false) /\ (stream_active s' = true -> queued s' <> 0)).
Proof.
  assert (bool_decide (is_Some received_3) = true) as [s E]%bool_decide_eq_true by (by vm_compute). exists s. split; [done|].
  assert ((fun s : nghttp2_stream => remote_window_size s) <$> received_3 = Some 65535) as Hw by (by vm_compute).
  assert ((fun s : nghttp2_stream => state_reserved_remote received5 s) <$> received_3 = Some false) as Hr by (by vm_compute).
  rewrite E in Hw, Hr. apply (f_equal (default 0)) in Hw. apply (f_equal (default true)) in Hr. cbn [fmap option_fmap option_map default id] in Hw, Hr.
  assert (remote_window_size s + wu_increment update_3 <= NGHTTP2_MAX_WINDOW_SIZE) as Hmax by (rewrite Hw; by vm_compute). unfold received_3 in E.
  apply (window_update_unblocks granting granting next_address next_item on_frame_demo on_invalid_demo on_frame_demo on_close_demo 1 budget 100 received5 update_3 address_3 s);
    [exact next_address_fresh|exact next_item_fresh|exact demo_considerate|exact received5_steady|by vm_compute|discriminate|by vm_compute|by vm_compute|exact E|exact Hr|split; [reflexivity|discriminate]|exact Hmax].
Defined.
