(* ===== verification/SessionAgreed.v ===== *)
(** * Sessions: the settings that the two ends agree on

    From the entries of a frame to the settings that are stored: what a peer
    announces is taken over entry by entry, and moves the windows of its
    streams; what was submitted waits its turn and comes into force when the
    peer acknowledges it. *)

From stdpp Require Import strings.
From S2P Require Import Prelude Defs Helper HdToken HdTable HdDeflate HdInflate HdRoundtrip Buf Ratelim Pq Frame FrameHeaders Http Stream StreamLinks StreamQueue StreamTree StreamItems StreamFrame.
From S2P Require Import Outbound Session SessionInv SessionTree SessionBooks SessionForest SessionOpen SessionClose SessionItems SessionNew SessionReach SessionSpec SessionTouch SessionSend SessionQueues SessionAdd SessionSendSpec SessionCalm SessionFlow SessionFlowSpec SessionCredit SessionDrift SessionAge SessionRecv SessionSettings SessionEntries SessionHpack SessionSteady SessionHandle SessionSettingsSpec SessionInbound.

Implicit Types (a b id v n : Z) (m : nat) (s : nghttp2_stream) (ss : nghttp2_session) (st : nghttp2_settings_storage) (e : nghttp2_settings_entry) (iv es : list nghttp2_settings_entry).

(** ** One setting *)

(** The value that a storage has for a known identifier. *)
Definition setting_of id st : Z :=
  if id =? NGHTTP2_SETTINGS_HEADER_TABLE_SIZE then header_table_size st
  else if id =? NGHTTP2_SETTINGS_ENABLE_PUSH then enable_push st
  else if id =? NGHTTP2_SETTINGS_MAX_CONCURRENT_STREAMS then max_concurrent_streams st
  else if id =? NGHTTP2_SETTINGS_INITIAL_WINDOW_SIZE then initial_window_size st
  else if id =? NGHTTP2_SETTINGS_MAX_FRAME_SIZE then max_frame_size st
  else if id =? NGHTTP2_SETTINGS_MAX_HEADER_LIST_SIZE then max_header_list_size st
  else if id =? NGHTTP2_SETTINGS_ENABLE_CONNECT_PROTOCOL then enable_connect_protocol st
  else no_rfc7540_priorities_setting st.

Lemma known_cases (P : Z -> Prop) : P NGHTTP2_SETTINGS_HEADER_TABLE_SIZE -> P NGHTTP2_SETTINGS_ENABLE_PUSH -> P NGHTTP2_SETTINGS_MAX_CONCURRENT_STREAMS ->
  P NGHTTP2_SETTINGS_INITIAL_WINDOW_SIZE -> P NGHTTP2_SETTINGS_MAX_FRAME_SIZE -> P NGHTTP2_SETTINGS_MAX_HEADER_LIST_SIZE -> P NGHTTP2_SETTINGS_ENABLE_CONNECT_PROTOCOL ->
  P NGHTTP2_SETTINGS_NO_RFC7540_PRIORITIES -> forall id, known_setting id = true -> P id.
Proof. intros H1 H2 H3 H4 H5 H6 H7 H8 id. unfold known_setting. rewrite !orb_true_iff, !Z.eqb_eq. intros [[[[[[[-> | ->] | ->] | ->] | ->] | ->] | ->] | ->]; done. Qed.

Lemma setting_stored e st id : known_setting id = true -> setting_of id (stored e st) = if settings_id e =? id then iv_value e else setting_of id st.
Proof. revert id. by apply known_cases. Qed.

Lemma setting_last iv st id : known_setting id = true -> setting_of id (store_settings st iv) = default (setting_of id st) (last_entry id iv).
Proof.
  intros Hid. unfold store_settings. induction iv as [|e iv IH] using rev_ind; [done|]. rewrite foldl_snoc, last_entry_snoc. fold (stored e (foldl (fun st e => setting_to (settings_id e) (iv_value e) st) st iv)).
  rewrite (setting_stored e _ id Hid), IH. by destruct (_ =? _).
Qed.

Lemma last_meant id es : last (meant id es) = last_entry id es.
Proof.
  unfold meant. destruct (Z.eqb_spec id header_size) as [->|_].
  - unfold sizes_meant. destruct (last_entry header_size es); [|done]. by destruct (_ =? _).
  - destruct (known_setting id); [by destruct (last_entry id es)|]. by rewrite last_entry_last.
Qed.

(** Nothing is lost of the sizes of the header table that matters. *)
Lemma sizes_last es : last (sizes_meant es) = last (entries_for header_size es).
Proof. rewrite <- last_entry_last. exact (last_meant header_size es). Qed.

Lemma sizes_least es : values_u32 es -> least (sizes_meant es) = least (entries_for header_size es).
Proof.
  intros Hv. rewrite (least_smallest header_size es Hv). unfold sizes_meant. destruct (last_entry header_size es) as [v|] eqn:E; [|by rewrite (smallest_entry_none _ _ E)].
  pose proof (last_entry_u32 _ _ _ Hv E). pose proof (smallest_below_last _ _ _ E). unfold is_u32, least, UINT32_MAX in *. destruct (Z.eqb_spec (smallest_entry header_size es) v); simpl; lia.
Qed.

(** Besides the size of the header table, known identifiers occur once. *)
Definition once iv : Prop := forall id, id <> header_size -> known_setting id = true -> (length (entries_for id iv) <= 1)%nat.

Lemma meant_once es iv : (forall id, entries_for id iv = meant id es) -> once iv.
Proof.
  intros H id Hid Hk. rewrite H. unfold meant. rewrite (proj2 (Z.eqb_neq _ _) Hid), Hk. destruct (last_entry id es); cbn; lia.
Qed.

Lemma once_tail e iv : once (e :: iv) -> once iv.
Proof. intros H id Hid Hk. specialize (H id Hid Hk). rewrite entries_cons, length_app in H. lia. Qed.

Lemma once_head e iv : once (e :: iv) -> settings_id e <> header_size -> known_setting (settings_id e) = true -> entries_for (settings_id e) iv = [].
Proof.
  intros H Hid Hk. specialize (H _ Hid Hk). rewrite entries_cons, entries_one, decide_True in H by done. destruct (entries_for _ iv); [done|]. simpl in H. lia.
Qed.

(** ** Entries that are refused *)

Lemma refused_ext sv st st' e : (settings_id e = NGHTTP2_SETTINGS_ENABLE_CONNECT_PROTOCOL -> enable_connect_protocol st = enable_connect_protocol st') ->
  (settings_id e = NGHTTP2_SETTINGS_NO_RFC7540_PRIORITIES -> no_rfc7540_priorities_setting st = no_rfc7540_priorities_setting st') -> entry_refused sv st e = entry_refused sv st' e.
Proof.
  intros H1 H2. unfold entry_refused, is_setting. cbv zeta. destruct (Z.eqb_spec (settings_id e) NGHTTP2_SETTINGS_ENABLE_CONNECT_PROTOCOL) as [E1|_]; [rewrite (H1 E1)|];
    (destruct (Z.eqb_spec (settings_id e) NGHTTP2_SETTINGS_NO_RFC7540_PRIORITIES) as [E2|_]; [rewrite (H2 E2)|]; done).
Qed.

Lemma entry_in e iv : e ∈ iv -> iv_value e ∈ entries_for (settings_id e) iv.
Proof. intros He. unfold entries_for. apply list_elem_of_fmap. exists e. split; [done|]. by apply list_elem_of_filter. Qed.

(** Another entry for another identifier makes no difference. *)
Lemma refused_after sv st e e' : settings_id e <> settings_id e' \/ known_setting (settings_id e') = false -> entry_refused sv (stored e st) e' = entry_refused sv st e'.
Proof.
  intros [Hne|Hk]; apply refused_ext; intros E; rewrite E in *; try done.
  - exact (eq_trans (setting_stored e st NGHTTP2_SETTINGS_ENABLE_CONNECT_PROTOCOL eq_refl) ltac:(by rewrite (proj2 (Z.eqb_neq _ _) Hne))).
  - exact (eq_trans (setting_stored e st NGHTTP2_SETTINGS_NO_RFC7540_PRIORITIES eq_refl) ltac:(by rewrite (proj2 (Z.eqb_neq _ _) Hne))).
Qed.

Lemma size_never_refused sv st e : settings_id e = header_size -> entry_refused sv st e = false.
Proof. intros E. unfold entry_refused, is_setting. by rewrite E. Qed.

Lemma none_refused sv iv : forall st, once iv -> (forall e, e ∈ iv -> entry_refused sv st e = false) -> entries_refused sv st iv = false.
Proof.
  induction iv as [|e iv IH]; intros st Ho Hr; [done|]. simpl. rewrite (Hr e) by (by left). simpl. apply IH; [by eapply once_tail|]. intros e' He'.
  destruct (decide (settings_id e' = header_size)) as [Eh|Hh]; [by apply size_never_refused|]. rewrite refused_after; [by apply Hr; right|].
  destruct (known_setting (settings_id e')) eqn:Ek; [left|by right]. intros E. pose proof (entry_in e' iv He') as Hin.
  rewrite <- E in *. rewrite (once_head e iv Ho Hh Ek) in Hin. by apply not_elem_of_nil in Hin.
Qed.

(** What was read was among what arrived. *)
Lemma meant_in es iv e : (forall id, entries_for id iv = meant id es) -> e ∈ iv -> settings_id e <> header_size -> e ∈ es.
Proof.
  intros Hm He Hh. pose proof (entry_in e iv He) as Hin. rewrite Hm in Hin. unfold meant in Hin. rewrite (proj2 (Z.eqb_neq _ _) Hh) in Hin.
  assert (iv_value e ∈ entries_for (settings_id e) es) as Hes.
  { destruct (known_setting (settings_id e)); [|done]. rewrite last_entry_last in Hin. destruct (last (entries_for (settings_id e) es)) as [v|] eqn:El; simpl in Hin.
    - apply list_elem_of_singleton in Hin as ->. by apply last_Some_elem_of.
    - by apply not_elem_of_nil in Hin. }
  unfold entries_for in Hes. apply list_elem_of_fmap in Hes as (x & Ev & [Ei Hx]%list_elem_of_filter). destruct e, x. simpl in *. by subst.
Qed.

(** ** Windows *)

Lemma windows_moved iv b r : b <> root -> forall st, once iv -> entries_windows st iv b r =
  match last_entry NGHTTP2_SETTINGS_INITIAL_WINDOW_SIZE iv with None => r | Some v => moved_window v (to_int32 (initial_window_size st)) r end.
Proof.
  intros Hb. revert r. induction iv as [|e iv IH]; intros r st Ho; [done|]. simpl. rewrite IH by (by eapply once_tail). unfold entry_windows, is_setting, all_moved.
  destruct (Z.eqb_spec (settings_id e) NGHTTP2_SETTINGS_INITIAL_WINDOW_SIZE) as [E|E].
  - assert (last_entry NGHTTP2_SETTINGS_INITIAL_WINDOW_SIZE iv = None) as ->; [|by rewrite decide_False].
    rewrite last_entry_last, <- E, (once_head e iv Ho); [done|by rewrite E..].
  - destruct (last_entry _ iv); [|done]. f_equal. f_equal. pose proof (setting_stored e st NGHTTP2_SETTINGS_INITIAL_WINDOW_SIZE eq_refl) as Hs.
    rewrite (proj2 (Z.eqb_neq _ _) E) in Hs. exact Hs.
Qed.

(** ** What a frame announces *)

(** The value of a setting once the entries [es] are accepted; priorities that
    the peer never mentioned are the old ones. *)
Definition agreed id es ss : Z :=
  let v := default (setting_of id (first_remote ss)) (last_entry id es) in
  if (id =? NGHTTP2_SETTINGS_NO_RFC7540_PRIORITIES) && (v =? UINT32_MAX) then 0 else v.

Lemma setting_settled id st : known_setting id = true -> setting_of id (settled st) =
  if (id =? NGHTTP2_SETTINGS_NO_RFC7540_PRIORITIES) && (setting_of id st =? UINT32_MAX) then 0 else setting_of id st.
Proof.
  intros Hk. unfold settled. destruct (Z.eqb_spec (no_rfc7540_priorities_setting st) UINT32_MAX) as [E|E].
  - pose proof (setting_stored (mk_iv NGHTTP2_SETTINGS_NO_RFC7540_PRIORITIES 0) st id Hk) as Hs. unfold stored in Hs. cbn [settings_id iv_value] in Hs. rewrite Hs. rewrite (Z.eqb_sym NGHTTP2_SETTINGS_NO_RFC7540_PRIORITIES).
    destruct (Z.eqb_spec id NGHTTP2_SETTINGS_NO_RFC7540_PRIORITIES) as [->|]; [|done]. change (setting_of _ st) with (no_rfc7540_priorities_setting st). by rewrite E.
  - destruct (Z.eqb_spec id NGHTTP2_SETTINGS_NO_RFC7540_PRIORITIES) as [->|]; [|done]. change (setting_of _ st) with (no_rfc7540_priorities_setting st). by rewrite (proj2 (Z.eqb_neq _ _) E).
Qed.

Lemma agreed_settings es iv ss id : (forall id, entries_for id iv = meant id es) -> known_setting id = true ->
  setting_of id (settled (store_settings (first_remote ss) iv)) = agreed id es ss.
Proof.
  intros Hm Hk. rewrite setting_settled, setting_last by done. unfold agreed. by rewrite last_entry_last, Hm, last_meant.
Qed.

Lemma first_window ss : initial_window_size (first_remote ss) = initial_window_size (remote_settings ss).
Proof. unfold first_remote. by destruct (_ =? 0). Qed.

(** ** Claims *)

Section Agreed.
Context (realloc_ok malloc_ok : nat -> bool) (new_stream : gmap Z nghttp2_stream -> Z) (new_item : gmap Z nghttp2_outbound_item -> Z).
Context (on_frame_recv : option (nghttp2_frame -> se_m Z)) (on_invalid_frame : option (nghttp2_frame -> Z -> se_m Z)).
Context (on_begin_headers : option (nghttp2_frame -> se_m Z)) (on_stream_close : option (Z -> Z -> se_m Z)).
Context (map_each : gmap Z Z -> list Z).

Abbreviation process_settings := (session_process_settings_frame realloc_ok malloc_ok new_stream new_item on_frame_recv on_invalid_frame map_each).

Lemma block_meant es : values_u32 es -> exists iv, match block_of es with Some b => header_sizes b | None => Some [] end = Some iv /\ (length iv <= length es)%nat /\ values_u32 iv /\
  forall id, entries_for id iv = meant id es.
Proof using.
  intros Hv. destruct es as [|e es]; [|by apply sizes_kept]. exists []. split; [done|]. split; [done|]. split; [by apply Forall_nil|]. intros id. unfold meant, sizes_meant. simpl.
  by destruct (id =? header_size), (known_setting id).
Qed.

(** C15: the settings that a peer announces are in force when their frame has
    been handled. Whatever acceptable entries arrive, in whatever order and
    however often: the handler returns a documented code, the HPACK contexts
    stay in order and, unless the code is a fatal one, so does the session,
    which keeps its own settings; every known setting has the last value that
    was announced, or the one it had; the compressor has taken the sizes of
    the header table - the last one bounds its table and will be announced,
    what does not fit the smallest is evicted - and the decompressor is the
    same; and the window of every stream but the root has moved with the
    initial window size by the difference. A window that cannot move, because
    it would leave its range, stays; that the code resets such a stream is not
    part of this statement. *)
Theorem settings_applied c n m ss (f : nghttp2_frame_hd) es hd : (forall h, h !! new_stream h = None) -> (forall its, its !! new_item its = None) ->
  considerate c on_frame_recv on_invalid_frame on_begin_headers on_stream_close -> (forall M, map_each M ≡ₚ (map_to_list M).*2) ->
  steady n m ss -> hd_ok hd -> need c (InSettings f es) <= n -> hd_stream_id f = 0 -> flag_set (hd_flags f) NGHTTP2_FLAG_ACK = false ->
  Forall (fun e => is_u32 (iv_value e) /\ entry_refused (server ss) (first_remote ss) e = false) es ->
  exists ss' hd' rv, process_settings f (block_of es) hd ss = Some (ss', (hd', rv)) /\ documented rv /\ hd_ok hd' /\ hd_inflater hd' = hd_inflater hd /\
    (nghttp2_is_fatal rv = false -> in_order ss' /\ flows_ok ss' /\ server ss' = server ss /\ own_settings ss' = own_settings ss /\
      deflater_took (entries_for header_size es) (hd_deflater hd) (hd_deflater hd') /\
      (forall id, known_setting id = true -> setting_of id (remote_settings ss') = agreed id es ss) /\
      (forall b s, b <> root -> se_streams ss !! b = Some s -> exists s', se_streams ss' !! b = Some s' /\
        remote_window_size s' = match last_entry NGHTTP2_SETTINGS_INITIAL_WINDOW_SIZE es with
          | None => remote_window_size s
          | Some v =>
              let moved := remote_window_size s + v - to_int32 (initial_window_size (remote_settings ss)) in
              if (moved <? INT32_MIN) || (NGHTTP2_MAX_WINDOW_SIZE <? moved) then remote_window_size s else moved
          end)).
Proof using.
  intros Hfresh Hitem Happ Heach HT Hhd Hn Hid Hack Hes. pose proof (cs_pos _ _ _ _ _ Happ) as Hc.
  assert (values_u32 es) as Hv by (eapply Forall_impl; [exact Hes|]; by intros e [? _]).
  destruct (block_meant es Hv) as (iv & Eb & Hlen & Hu & Hm). pose proof (meant_once es iv Hm) as Ho.
  assert (settings_cost c (mk_settings f iv) <= n) as Hcost.
  { unfold settings_cost. cbn [st_iv need] in *. assert (0 <= entry_cost c) by (unfold entry_cost; lia). nia. }
  assert (entries_refused (server ss) (first_remote ss) iv = false) as Hno.
  { apply none_refused; [done|]. intros e He. destruct (decide (settings_id e = header_size)) as [Eh|Hh]; [by apply size_never_refused|].
    pose proof (meant_in es iv e Hm He Hh) as Hin. by destruct (proj1 (Forall_forall _ _) Hes e Hin) as [_ ?]. }
  edestruct (sp_run _ ss _ (sp_announced realloc_ok malloc_ok new_stream new_item on_frame_recv on_invalid_frame on_begin_headers on_stream_close Hfresh Hitem c Happ map_each Heach
    n m ss (mk_settings f iv) false hd HT Hhd Hu Hcost Hid Hack)) as (ss' & [hd' rv] & E & Hh & Hi & Hd & Hs).
  exists ss', hd', rv. split.
  { unfold session_process_settings_frame. unfold block_of in *. destruct es; [injection Eb as <-; exact E|]. unfold se_then. unfold defined. rewrite Eb. exact E. }
  split; [exact Hd|]. split; [exact Hh|]. split; [exact Hi|]. intros Hf. destruct (Hs Hf) as (HT' & [K1 K2] & Hann). destruct (Hann Hno) as (ER & HW & Htook).
  destruct (steady_sess _ _ _ HT') as (kids & lc & li & HO). split; [by eapply sess_in_order|]. split; [apply HT'|]. split; [done|]. split; [done|]. split; [|split].
  - cbn [st_iv fst] in Htook. rewrite Hm in Htook. change (meant header_size es) with (sizes_meant es) in Htook.
    eapply deflater_took_same; [apply sizes_last|by apply sizes_least|exact Htook].
  - intros id Hk. rewrite ER. by apply agreed_settings.
  - intros b s Hb Hbs. destruct (HW b s Hbs) as (s' & Hs' & Ew). exists s'. split; [done|]. rewrite Ew. cbn [st_iv]. rewrite (windows_moved iv b _ Hb _ Ho), first_window, last_entry_last, Hm, last_meant.
    destruct (last_entry _ es) as [v|]; [|done]. unfold moved_window, update_initial_window_size. cbv zeta. by destruct (_ || _).
Qed.

(** C16: settings come into force in the order in which they were submitted. An
    acknowledgement takes the oldest ones that wait, stores the last value
    of each, and leaves the others waiting; the decompressor takes the sizes of
    the header table - the last one is the most that the peer may choose, and
    its table shrinks to the smallest - and the compressor is the same; the
    window of every stream but the root grows by the difference of the initial
    windows, if that is a window at all; and the session is in order. The
    settings that wait must not make the initial window smaller: it could take
    a window below zero, where data that arrives next overflows
    ([negative_window_overflows]). *)
Theorem acknowledgement_applies_oldest c n m ss (f : nghttp2_frame_hd) hd iv rest : (forall h, h !! new_stream h = None) -> (forall its, its !! new_item its = None) ->
  considerate c on_frame_recv on_invalid_frame on_begin_headers on_stream_close -> (forall M, map_each M ≡ₚ (map_to_list M).*2) ->
  steady n m ss -> hd_ok hd -> entry_cost c <= n -> hd_stream_id f = 0 -> flag_set (hd_flags f) NGHTTP2_FLAG_ACK = true ->
  inflight_settings ss = iv :: rest -> windows_grow ss ->
  exists ss' hd' rv, process_settings f None hd ss = Some (ss', (hd', rv)) /\ documented rv /\ hd_ok hd' /\ hd_deflater hd' = hd_deflater hd /\
    inflater_took (entries_for header_size iv) (hd_inflater hd) (hd_inflater hd') /\
    (nghttp2_is_fatal rv = false -> in_order ss' /\ flows_ok ss' /\ server ss' = server ss /\ inflight_settings ss' = rest /\ windows_grow ss' /\
      (forall id, known_setting id = true -> setting_of id (local_settings ss') = default (setting_of id (local_settings ss)) (last_entry id iv)) /\
      (forall b s, b <> root -> se_streams ss !! b = Some s -> exists s', se_streams ss' !! b = Some s' /\
        local_window_size s' = match last_entry NGHTTP2_SETTINGS_INITIAL_WINDOW_SIZE iv with
          | None => local_window_size s
          | Some v =>
              let grown := local_window_size s + v - to_int32 (initial_window_size (local_settings ss)) in
              if NGHTTP2_MAX_WINDOW_SIZE <? grown then local_window_size s else grown
          end)).
Proof using.
  intros Hfresh Hitem Happ Heach HT Hhd Hn Hid Hack Ein HG.
  edestruct (sp_run (process_settings f None hd) ss (fun r ss' => hd_deflater r.1 = hd_deflater hd /\ acknowledged_sizes ss (hd_inflater hd) (hd_inflater r.1) /\
    answered (fun ss' => steady (n - entry_cost c) m ss' /\ acknowledged ss ss') r.2 ss')) as (ss' & [hd' rv] & E & Hdef & Hinf & Hd & Hs).
  { unfold session_process_settings_frame, nghttp2_session_on_settings_received. do 2 sp_step. cbv zeta. cbn [st_hd st_iv]. rewrite Hid, Hack. change (negb (0 =? 0)) with false.
    change (negb (zlen [] =? 0)) with false. cbn iota. sp_step.
    eapply sp_mono; [by apply (sp_acknowledged realloc_ok malloc_ok new_stream new_item on_frame_recv on_invalid_frame on_begin_headers on_stream_close Hfresh Hitem c Happ map_each Heach
      n m ss (mk_settings f []) (hd_inflater hd) HT (proj2 Hhd) HG Hn)|].
    intros [i rv] ss' [Hi Ha]. cbn iota beta. by sp_step. }
  cbn [fst snd] in *. exists ss', hd', rv. split; [exact E|]. split; [exact Hd|].
  split; [split; [rewrite Hdef; apply Hhd|exact (acknowledged_ok _ _ _ (proj2 Hhd) Hinf)]|]. split; [exact Hdef|]. split; [unfold acknowledged_sizes in Hinf; by rewrite Ein in Hinf|].
  intros Hf. destruct (Hs Hf) as [HT' Ha]. pose proof (acknowledged_grow _ _ HG Ha) as HG'. unfold acknowledged in Ha. rewrite Ein in Ha. destruct Ha as (K1 & [= K2 K3] & HL).
  destruct (steady_sess _ _ _ HT') as (kids & lc & li & HO). split; [by eapply sess_in_order|]. split; [apply HT'|]. split; [done|]. split; [done|]. split; [done|]. split.
  - intros id Hk. rewrite K2. by apply setting_last.
  - intros b s Hb Hbs. destruct (HL b s Hbs) as (s' & Hs' & Ew). exists s'. split; [done|]. rewrite Ew. unfold acknowledged_window. unfold windows_grow in HG. rewrite Ein in HG. cbn [growing] in HG.
    destruct HG as [_ HG]. destruct (last_entry _ iv) as [v|]; [|done]. pose proof (fk_local _ (proj2 (st_flows _ _ _ HT) b s Hbs)). unfold all_moved. rewrite decide_False by done.
    unfold moved_window, update_initial_window_size. cbv zeta. rewrite (proj2 (Z.ltb_ge _ INT32_MIN)) by (unfold INT32_MIN; lia). by destruct (_ <? _).
Qed.

(** C17: what submitting settings does. A list that is not acceptable is refused
    - an acknowledgement with entries, a flood of acknowledgements, values
    out of range, a change of mind about priorities - with the code that is
    documented and nothing changes; without memory nothing changes; and
    otherwise the SETTINGS frame is the last of the urgent ones, all other
    queues are the same, the entries wait behind those submitted before until
    the peer acknowledges them, an acknowledgement is counted and waits for
    nothing, and the limits for the streams that the peer opens count at once,
    as does the decision about priorities: the earlier one, or else what the
    entries say, or else the old ones. *)
Theorem submit_settings_contract n ss (flags : Z) iv : (forall its, its !! new_item its = None) -> sound n ss -> 1 <= n ->
  exists ss' rv, nghttp2_session_add_settings realloc_ok malloc_ok new_stream new_item flags iv ss = Some (ss', rv) /\
    match refusal flags iv ss with
    | Some err => rv = err /\ ss' = ss
    | None => (rv = NGHTTP2_ERR_NOMEM /\ exists k, ss' = granted_by (S k) ss /\ malloc_ok (grants ss + k)%nat = false) \/
        rv = 0 /\ settings_submitted flags iv ss ss'
    end.
Proof using.
  intros Hitem [(kids & lc & li & HO) (L & HQ & HY) Hsz HZ] Hn.
  edestruct (sp_run _ ss _ (sp_add_settings realloc_ok malloc_ok new_stream new_item Hitem ss kids lc li L flags iv HO HQ ltac:(lia))) as (ss' & rv & E & HR).
  exists ss', rv. split; [exact E|]. unfold settings_result in HR. rewrite refused_refusal in HR. destruct (refusal flags iv ss) eqn:Er; [exact HR|].
  destruct HR as [HR|(-> & pri & k & ss1 & Epri & HO1 & HP & ->)]; [by left|]. right. split; [done|]. eapply submitted_frames; [done|exact HP| |exact Epri].
  unfold refusal in Er. repeat (case_match; try done). by apply andb_prop in H1 as [?%bool_decide_eq_true _].
Qed.

End Agreed.

(** ** Witnesses *)

(** The header table shrinks and grows again, the initial window is announced
    twice, 77 is not known. *)
Definition settings_hd (flags : Z) : nghttp2_frame_hd := st_hd (nghttp2_frame_settings_init flags []).

Lemma settings_applied_witness : exists hd, demo_hd = Some hd /\ exists ss' hd' rv,
  session_process_settings_frame granting granting next_address next_item on_frame_demo on_invalid_demo each (settings_hd 0) (block_of demo_entries) hd received5 = Some (ss', (hd', rv)) /\ documented rv /\ hd_ok hd' /\
    hd_inflater hd' = hd_inflater hd /\
    (nghttp2_is_fatal rv = false -> in_order ss' /\ flows_ok ss' /\ server ss' = server received5 /\ own_settings ss' = own_settings received5 /\
      deflater_took (entries_for header_size demo_entries) (hd_deflater hd) (hd_deflater hd') /\
      (forall id, known_setting id = true -> setting_of id (remote_settings ss') = agreed id demo_entries received5) /\
      (forall b s, b <> root -> se_streams received5 !! b = Some s -> exists s', se_streams ss' !! b = Some s' /\
        remote_window_size s' = match last_entry NGHTTP2_SETTINGS_INITIAL_WINDOW_SIZE demo_entries with
          | None => remote_window_size s
          | Some v =>
              let moved := remote_window_size s + v - to_int32 (initial_window_size (remote_settings received5)) in
              if (moved <? INT32_MIN) || (NGHTTP2_MAX_WINDOW_SIZE <? moved) then remote_window_size s else moved
          end)).
Proof.
  destruct demo_hd_ok as (hd & E & Hhd). exists hd. split; [exact E|].
  apply (settings_applied granting granting next_address next_item on_frame_demo on_invalid_demo on_frame_demo on_close_demo each 1 budget 100 received5 (settings_hd 0) demo_entries hd);
    [exact next_address_fresh|exact next_item_fresh|exact demo_considerate|done|exact received5_steady|exact Hhd|by vm_compute|reflexivity|reflexivity|].
  repeat (apply Forall_cons; split; [split; [by split|by vm_compute]|]). by apply Forall_nil.
Defined.

(** Both streams that are in use have their windows moved. *)
Example demo_entries_applied : (hd ← demo_hd; (fun r : nghttp2_session * (session_hd * Z) => (r.2.2, header_table_size (remote_settings r.1), initial_window_size (remote_settings r.1),
    (fun id => a ← live_stream r.1 id; (fun s : nghttp2_stream => remote_window_size s) <$> se_streams r.1 !! a) <$> [3; 5])) <$>
  session_process_settings_frame granting granting next_address next_item on_frame_demo on_invalid_demo each (settings_hd 0) (block_of demo_entries) hd received5) =
  Some (0, 8192, 200, [Some 200; Some 200]).
Proof. by vm_compute. Qed.

Lemma acknowledgement_applies_oldest_witness : exists hd, demo_hd = Some hd /\ exists ss' hd' rv,
  session_process_settings_frame granting granting next_address next_item on_frame_demo on_invalid_demo each (settings_hd NGHTTP2_FLAG_ACK) None hd waiting5 = Some (ss', (hd', rv)) /\ documented rv /\ hd_ok hd' /\
    hd_deflater hd' = hd_deflater hd /\ inflater_took (entries_for header_size mine_first) (hd_inflater hd) (hd_inflater hd') /\
    (nghttp2_is_fatal rv = false -> in_order ss' /\ flows_ok ss' /\ server ss' = server waiting5 /\ inflight_settings ss' = [mine_second] /\ windows_grow ss' /\
      (forall id, known_setting id = true -> setting_of id (local_settings ss') = default (setting_of id (local_settings waiting5)) (last_entry id mine_first)) /\
      (forall b s, b <> root -> se_streams waiting5 !! b = Some s -> exists s', se_streams ss' !! b = Some s' /\
        local_window_size s' = match last_entry NGHTTP2_SETTINGS_INITIAL_WINDOW_SIZE mine_first with
          | None => local_window_size s
          | Some v =>
              let grown := local_window_size s + v - to_int32 (initial_window_size (local_settings waiting5)) in
              if NGHTTP2_MAX_WINDOW_SIZE <? grown then local_window_size s else grown
          end)).
Proof.
  destruct demo_hd_ok as (hd & E & Hhd). exists hd. split; [exact E|].
  apply (acknowledgement_applies_oldest granting granting next_address next_item on_frame_demo on_invalid_demo on_frame_demo on_close_demo each 1 budget 100 waiting5 (settings_hd NGHTTP2_FLAG_ACK) hd mine_first [mine_second]);
    [exact next_address_fresh|exact next_item_fresh|exact demo_considerate|done|exact waiting5_steady|exact Hhd|by vm_compute|reflexivity|reflexivity|reflexivity|exact waiting5_grow].
Defined.

(** Both streams that are in use may receive more, and the table of the
    decompressor is empty until the peer says how large it will be. *)
Example mine_acknowledged : (hd ← demo_hd; (fun r : nghttp2_session * (session_hd * Z) => (r.2.2, inflight_settings r.1, header_table_size (local_settings r.1),
    (hd_table_bufsize_max (inf_ctx (hd_inflater r.2.1)), settings_hd_table_bufsize_max (hd_inflater r.2.1)),
    (fun id => a ← live_stream r.1 id; (fun s : nghttp2_stream => local_window_size s) <$> se_streams r.1 !! a) <$> [3; 5])) <$>
  session_process_settings_frame granting granting next_address next_item on_frame_demo on_invalid_demo each (settings_hd NGHTTP2_FLAG_ACK) None hd waiting5) =
  Some (0, [mine_second], 1024, (0, 1024), [Some 100000; Some 100000]).
Proof. by vm_compute. Qed.

(** The entries are submitted behind what waits. *)
Lemma submit_settings_contract_witness : exists ss' rv,
  nghttp2_session_add_settings granting granting next_address next_item NGHTTP2_FLAG_NONE mine_first waiting5 = Some (ss', rv) /\
    match refusal NGHTTP2_FLAG_NONE mine_first waiting5 with
    | Some err => rv = err /\ ss' = waiting5
    | None => (rv = NGHTTP2_ERR_NOMEM /\ exists k, ss' = granted_by (S k) waiting5 /\ granting (grants waiting5 + k)%nat = false) \/
        rv = 0 /\ settings_submitted NGHTTP2_FLAG_NONE mine_first waiting5 ss'
    end.
Proof.
  apply (submit_settings_contract granting granting next_address next_item budget waiting5 NGHTTP2_FLAG_NONE mine_first);
    [exact next_item_fresh|exact (st_sound _ _ _ waiting5_steady)|by vm_compute].
Defined.

Example mine_submitted : (fun r : nghttp2_session * Z => (r.2, inflight_settings r.1, pending_local_max_concurrent_stream r.1)) <$>
  nghttp2_session_add_settings granting granting next_address next_item NGHTTP2_FLAG_NONE mine_first waiting5 = Some (0, [mine_first; mine_second; mine_first], 7).
Proof. by vm_compute. Qed.
